(* ===== verification/_CoqProject ===== *)
-Q . S2P
Prelude.v
PyString.v
Paths.v
Regex.v
PyDict.v
PyTime.v
Schema.v
Validators.v
Config.v
RuntimeResolver.v
PyFloat.v
Json.v
PyVal.v
Helpers.v
Shlex.v
Common.v
Listing.v
Template.v
RateLimiter.v
Informer.v
InformerSync.v
PodSpec.v
K8sHelpers.v
K8sClient.v
WorkloadProvider.v
BatchProvider.v
AgentProvider.v
ManifestPolicy.v
Execd.v
K8sService.v
ServiceFactory.v
SimCluster.v
K8sWait.v
ProviderLaws.v
SimLaws.v
K8sCreate.v
K8sReadBack.v
K8sGuards.v
Auth.v
DockerHost.v
SimHost.v
Ossfs.v
OssfsMounts.v
DockerExpiry.v
DockerTimers.v
DockerRestore.v
DockerVolumes.v
DockerProvision.v
DockerPending.v
Provisioning.v
DockerQuery.v
DockerSystem.v
Lifecycle.v
LifecycleProofs.v
TerminalBridge.v
Services.v
JsonRoundtrip.v
SdkBase.v
SdkModels.v
SdkApi.v
SdkConfig.v
SdkAdapter.v
SdkExecdApi.v
SdkCommands.v
SdkExecution.v
SdkFiles.v
SdkSandbox.v
SdkTrace.v
SdkSandboxProofs.v
SdkFilesProofs.v
SdkSync.v
SdkSyncProofs.v
CodeInterpreter.v
McpServer.v
Cli.v
CliCommands.v
SdkQueries.v
Wire.v
SdkServer.v
SdkDeployment.v
