(* ===== verification/Prelude.v ===== *)
(** * A verification library for the OpenSandbox server and its Python clients

    The server ([server/src]) is a Python HTTP service that creates, lists, renews
    and deletes sandboxes.  A request passes the middleware (request identifier, API
    key) and the validators and reaches a sandbox service, of which there are two
    implementations.  The Docker service keeps tables in memory (tracked expirations,
    timers, pending records, reference counts of OSSFS mounts), calls the Docker
    daemon and the operating system, and rebuilds its tables from container labels
    after a restart.  The Kubernetes service keeps no tables: it writes manifests
    through one of two workload providers, waits for pods, and reads sandboxes back
    from the cluster through a client with rate limiters and informer caches.

    The Python client ([sdks/sandbox/python]) turns calls into requests to the server
    and to execd in the sandbox, once asynchronously and once blocking: generated API
    functions below, adapters that check and convert answers, and on top sandboxes with
    creation, readiness and clean up.  On it stand the code interpreter client
    ([sdks/code-interpreter/python]), the MCP server ([sdks/mcp]) and the command line
    client ([cli]).  This library models all of them, joins the client to the server, and
    proves what makes them correct.

    ** How the code is modelled

    - Python code fails by raising: [result] is a value or an exception; an
      [HTTPException] carries its status, code and message (an empty code stands for
      a detail that is plain text).
    - A method that changes state is a function of type [M St A]: it returns an
      outcome next to the new state, so that what was written before an exception
      stays written.  [try]/[except]/[finally] are [catch], [try_except],
      [try_finally].  For Docker the state is [World E], the tables ([Service]) and
      the world outside; for Kubernetes [KWorld E], the client ([KClient]: informers,
      limiters) and the cluster.
    - Everything outside of the repository is a type class with one field per call,
      each of which may raise any exception and change [E] arbitrarily: [HostEnv] and
      [NetEnv] (Docker, the operating system, clock, randomness, sockets), [K8sEnv]
      (the Kubernetes API, clock, threads; [others] is what the rest of the process and
      the cluster do while a thread sleeps).  PyJWT, pydantic, SHA-256, httpx,
      [ast.literal_eval], [bytes.decode] and YAML are parameters.  What a theorem
      needs of the outside is a named hypothesis ([ReliableHost], [unmount_returns],
      [remove_raises_docker], [randint_in_range], [JwtLaws], [api_laws], [wait_laws],
      [claim_laws], [calm]).  [SimHost] and [SimCluster] are concrete instances that
      show the hypotheses can hold and that evaluate witnesses.
    - The clients are functions of type [Sdk W A] over a world [W]: httpx, the clock and
      the transports are the class [Net W], streams of server-sent events [Streams W]; an
      outcome is a value or any exception that Python code may meet ([sexn]).  How
      pydantic and dateutil read values are the classes [PydanticFields] (with
      [PydanticLaws]) and [Dateutil]; [SdkExecution] has a simulated world.  The command
      line client adds its own outcomes ([cli_exn]) and the class [Host] of the machine.
    - Timer objects live in a list; the tables refer to them by index, as the
      dictionaries of the code refer to the shared objects.
    - Manifests and workloads are Python values ([pyval]) with Python's dynamic
      operations: [.get] on what is not a dictionary raises, and so on.
    - Integers are [Z]; datetimes are microseconds since 0001-01-01 with an
      optional UTC offset and the range of Python's [datetime]; floats are binary64
      ([SpecFloat]), except that the rate limiter computes with exact rationals and
      that floats inside JSON values stay text; strings are byte strings, read as
      Latin-1; dictionaries keep insertion order.

    ** Files

    Language and standard library: [Prelude] (results, the state monad, shared
    lemmas and tactics), [PyString], [Paths] (posixpath), [Regex] (matching with
    Python's [$]), [PyDict], [PyTime] (calendar, isoformat, fromisoformat), [PyFloat],
    [Json], [JsonRoundtrip] (what [dumps] writes [loads] reads), [PyVal] (dynamic values),
    [Shlex] ([shlex] and how a shell splits words).

    Components, with the file under [server/src] that each models:
    - [Schema] (api/schema.py and services/constants.py);
    - [Validators] (services/validators.py): what each validator accepts, that host
      paths stay under the allow list, expiration arithmetic, only 400 errors;
    - [Config] (config.py) and [RuntimeResolver] (services/runtime_resolver.py): an
      accepted configuration always resolves its secure runtime;
    - [Helpers] (services/helpers.py): quantities, timestamps (round trip), filters,
      ingress endpoints; [Common] (services/endpoint_auth.py and texts that both
      services build), [Listing] (sorting and pages, which partition the list);
    - [Auth] (middleware/auth.py, services/terminal_auth.py and the check of
      [sandbox_terminal] in api/lifecycle.py): which requests pass, what a terminal
      token opens; PyJWT is the class [Jwt] with its documented laws [JwtLaws].

    Docker (services/docker.py):
    - [DockerHost], [SimHost]: the state of [DockerSandboxService], its calls, and
      the predicate [keeps] with its rules, by which the preservation proofs go;
    - [Ossfs], [OssfsMounts] (services/ossfs_mixin.py): commands without shell
      metacharacters, confined paths, reference counts, all-or-nothing preparation;
    - [DockerExpiry] (timers, restoration, delete, pause, resume, renew),
      [DockerTimers] (the timer invariant and its preservation; renewal and
      deletion), [DockerRestore] (the tables after a restart);
    - [DockerVolumes] (volume checks and binds; every bind is confined);
    - [DockerProvision], [DockerPending] (creation, side car, roll back, background
      workers), [Provisioning] (failure restores the tables, success tracks,
      hardening, labels round trip, workers settle);
    - [DockerQuery] (container view, list, endpoints);
    - [DockerSystem]: the service as a transition system over requests, workers,
      timer callbacks and outside changes; the invariant of all reachable states and
      the outcome of a due timer.

    Kubernetes (services/k8s):
    - [Template] (template_manager.py): merging equals choosing path by path;
    - [RateLimiter] (rate_limiter.py): a bucket never hands out more than its rate;
    - [Informer] (informer.py: the cache and the thread as a step function) and
      [InformerSync] (the cache refines snapshots of the server);
    - [PodSpec] (egress_helper.py, volume_helper.py), [K8sHelpers] (resource_utils.py,
      DNS-1035 labels, image_pull_secret_helper.py);
    - [K8sClient] and [Execd] (client.py);
    - [WorkloadProvider] (workload_provider.py and the builders that both providers
      have), [BatchProvider] (batchsandbox_provider.py), [AgentProvider]
      (agent_sandbox_provider.py), [ManifestPolicy] (a network policy is enforced
      whatever the template says; the pool command has exactly the requested words);
    - [K8sService] (kubernetes_service.py), [ServiceFactory] (factory.py,
      provider_factory.py and the constructors);
    - [SimCluster], [K8sWait] (waiting ends), [ProviderLaws] (the class that states
      what the service relies on, with an instance for each provider), [SimLaws];
    - [K8sCreate] (creation is all or nothing, against [ProviderLaws]), [K8sReadBack]
      (a created sandbox reads back), [K8sGuards] (which operations are refused; a
      workspace volume only grows).

    HTTP:
    - [Lifecycle] (api/lifecycle.py, main.py, middleware/request_id.py,
      [normalize_frontend_payload] of api/schema.py): the routes over the record
      [SandboxService] of service methods, the proxy, error bodies, the middleware stack;
    - [LifecycleProofs]: what the proxy forwards, the metadata filter against
      [urlencode], the answers of the stack, payload translation;
    - [TerminalBridge] (the three tasks of [sandbox_terminal]): what a session copies and
      how it ends;
    - [Services]: both implementations as values of [SandboxService]; serving requests
      over the Docker service refines the transition system of [DockerSystem].

    Python client ([sdks/sandbox/python/src/opensandbox]):
    - [SdkBase] (exceptions/, adapters/converter/exception_converter.py and
      response_handler.py), [SdkModels] (models/), [SdkConfig] (config/connection.py);
    - [SdkApi], [SdkExecdApi] (api/: generated models, arguments, parsing and calls of the
      lifecycle, execd and egress APIs);
    - [SdkAdapter] (sandboxes adapter and converter), [SdkCommands] (health, metrics,
      egress and command adapters, events and their dispatcher), [SdkFiles] (filesystem
      adapter), [SdkSandbox] (sandbox.py, manager.py, adapters/factory.py);
    - [SdkExecution]: a simulated world, and that a run returns exactly the events of its
      stream; [SdkTrace], [SdkSandboxProofs]: what a creation sends, opens, closes and
      kills on every path, that connecting only reads, that the wait for readiness ends;
      [SdkFilesProofs]: uploads are all or nothing, bodies keyed by path; [SdkQueries]:
      filters and download paths against the parser of the server;
    - [SdkSync] (sync/, config/connection_sync.py), [SdkSyncProofs]: the blocking client
      does what the asynchronous one does;
    - [Wire] (the aliases of api/schema.py: reading requests, rendering answers),
      [SdkServer] (the table of routes of api/lifecycle.py and the server as the network
      of the client; the client refines the sandbox service), [SdkDeployment] (a concrete
      client and server).

    On top of the client:
    - [CodeInterpreter] (sdks/code-interpreter/python and the generated code_interpreting
      API): contexts and runs, both clients, and how they differ;
    - [McpServer] (sdks/mcp): the registry and the tools; the registry stays well formed;
    - [Cli] (cli/src/opensandbox_cli: utils.py, config.py, client.py, output.py, main.py,
      commands/config_cmd.py), [CliCommands] (the other commands): resolving identifiers
      by prefix, durations, words of a command, how a command ends.

    Where the code has a defect, a theorem exhibits it on a concrete run
    ([ossfs_bucket_escape], [release_unmount_race], [failed_delete_leaks],
    [failed_provision_releases_twice], [execd_container_leaks], [fetch_loses_event],
    [workspace_claim_mismatch], [proxy_forwards_api_key], [v1_unrouted],
    [page_zero_invalid], [sync_filter_reads_quoted], [timeout_truncated],
    [sync_interpreter_drops_headers], [shared_transport_closed], [entrypoint_json],
    [config_set_unescaped]).

    ** Bounds

    [port_fuel] = 1000 bounds the loop that redraws a port until it differs from the
    first one, which has no bound in the code; each round draws from 20001 ports.
    [acquire_fuel] = 1000 bounds the rounds of a thread that waits for a token; a
    thread that waits alone needs two ([acquire_twice]).  [wait_fuel] is the timeout
    divided by the poll interval, rounded up, which is enough ([wait_outcome]).
    [ready_fuel] bounds the rounds of [check_ready] by the timeout and the polling
    interval, which is enough if the clock runs ([check_ready_ends]).  The command line
    client reads a listing to at most [max_pages] pages, a parameter; the number of pages
    that there are is enough ([resolve_sandbox_id_spec]).  The
    JSON reader takes fuel from the length of its input, which is enough since
    every call consumes a character.  [math.ceil] of a float quotient in the
    pagination is the exact ceiling, as it is for list lengths below 2^44.

    ** What is not modelled

    Of the server: the streaming of logs line by line; the start of the process
    (configuration file, logging, CORS, OpenAPI, command line); a Kubernetes configuration
    without a namespace; the branches for workloads that are not dictionaries; redirects
    and the texts of 422 answers, which belong to the framework (class [Framework]).  Of
    the clients: log output, the chain of causes of an exception, cancellation, the
    internals of httpx and errors that a stream raises lazily (its end is one), the
    generated wrappers that only take the parsed part of an answer, and generated
    operations that no adapter calls; the interleaving of tools of the MCP server that
    wait; the parsing of arguments (click) and the rendering of output (rich, PyYAML).
    The Go components, the clients in other languages, the examples and the scripts that
    generate code are other programs.
    Operations are steps: two operations interleave in [DockerSystem] at operation
    granularity (the sections under a lock are single [put_svc] updates;
    [release_unmount_race] treats one finer interleaving).  [fromisoformat] is that of
    Python 3.10, the oldest version the server supports; timer delays are exact.
    Characters outside of Latin-1 do not occur. *)

From stdpp Require Export base option list strings gmap sets.
From Stdlib Require Export ZArith Lia.
From Stdlib Require Import Ascii.

(** Literal strings compute under [cbn]. *)
#[global] Arguments String.append !s1 s2 : simpl nomatch.

(** ** Exceptions and results

    Python code in this server fails by raising.  An [HTTPException] carries the
    status code and the [code]/[message] pair of its [detail] dictionary; every
    other exception is an [exn_class] with its message. *)

Inductive exn_class :=
| ValueError | OverflowError | RuntimeError | KeyError | TypeError | AttributeError
| OSError | FileNotFoundError | FileExistsError | NotImplementedError | UnboundLocalError | IndexError | ConnectError
| DockerException | DockerNotFound | ImageNotFound
| TimeoutExpired | ApiException (status : Z).

Inductive exn :=
| HTTPException (status_code : Z) (code message : string)
| PyException (cls : exn_class) (msg : string).

#[global] Instance exn_class_eq_dec : EqDecision exn_class.
Proof. solve_decision. Defined.

#[global] Instance exn_eq_dec : EqDecision exn.
Proof. solve_decision. Defined.

(** The outcome of a call: a value or a raised exception. *)
Inductive result (A : Type) : Type :=
| Ok (a : A)
| Raise (e : exn).
Arguments Ok {A} a.
Arguments Raise {A} e.

#[global] Instance result_eq_dec `{EqDecision A} : EqDecision (result A).
Proof. solve_decision. Defined.

#[global] Instance result_ret : MRet result := fun A => @Ok A.
#[global] Instance result_bind : MBind result := fun A B f m =>
  match m with Ok a => f a | Raise e => Raise e end.
#[global] Instance result_fmap : FMap result := fun A B f m =>
  match m with Ok a => Ok (f a) | Raise e => Raise e end.

(** [raise_if b e] is the Python statement [if b: raise e]. *)
Definition raise_if (b : bool) (e : exn) : result unit :=
  if b then Raise e else Ok tt.

(** [for x in l: f x], stopping at the first exception. *)
Fixpoint for_each {A} (f : A → result unit) (l : list A) : result unit :=
  match l with
  | [] => Ok tt
  | x :: l' => f x;; for_each f l'
  end.

Definition is_ok {A} (r : result A) : bool :=
  match r with Ok _ => true | Raise _ => false end.

(** ** Stateful calls

    A method that mutates shared objects keeps what it has written when it
    raises, so the state is returned next to the outcome, not inside it. *)

Definition M (St A : Type) : Type := St → result A * St.

#[global] Instance M_ret {St} : MRet (M St) := fun A a s => (Ok a, s).
#[global] Instance M_bind {St} : MBind (M St) := fun A B f m s =>
  match m s with
  | (Ok a, s') => f a s'
  | (Raise e, s') => (Raise e, s')
  end.

Section stateful.
Context {St : Type}.

(** Lift a pure outcome. *)
Definition lift {A} (r : result A) : M St A := fun s => (r, s).
Definition raise {A} (e : exn) : M St A := fun s => (Raise e, s).
Definition gets {A} (f : St → A) : M St A := fun s => (Ok (f s), s).
Definition modify (f : St → St) : M St unit := fun s => (Ok tt, f s).

(** [try: m except e: h e] and [try: m finally: fin]. *)
Definition try_except {A} (m : M St A) (h : exn → M St A) : M St A := fun s =>
  match m s with
  | (Ok a, s') => (Ok a, s')
  | (Raise e, s') => h e s'
  end.

Definition try_finally {A} (m : M St A) (fin : M St unit) : M St A := fun s =>
  let '(r, s') := m s in
  match fin s' with
  | (Ok _, s'') => (r, s'')
  | (Raise e, s'') => (Raise e, s'')
  end.

(** [for x in l: f x] for a stateful body. *)
Fixpoint for_eachM {A} (f : A → M St unit) (l : list A) : M St unit :=
  match l with
  | [] => mret tt
  | x :: l' => f x;; for_eachM f l'
  end.
End stateful.

(** ** Exception classes and handlers *)

Definition is_http (e : exn) : bool :=
  match e with HTTPException _ _ _ => true | _ => false end.
Definition http_status (e : exn) : Z :=
  match e with HTTPException s _ _ => s | _ => 0%Z end.

(** [str(exc)] *)
Definition exn_text (e : exn) : string :=
  match e with HTTPException _ _ m => m | PyException _ m => m end.

(** [try: m except <class>: h], where [p] recognises the class. *)
Definition catch {St A} (p : exn → bool) (m : M St A) (h : exn → M St A) : M St A :=
  try_except m (λ e, if p e then h e else raise e).

Definition is_value_error (e : exn) : bool :=
  match e with PyException ValueError _ => true | _ => false end.

(** ** Generic lemmas *)

Lemma Ok_inj {A} (a b : A) : Ok a = Ok b → a = b.
Proof. congruence. Qed.

Lemma result_bind_Ok {A B} (m : result A) (f : A → result B) b :
  (m ≫= f) = Ok b ↔ ∃ a, m = Ok a ∧ f a = Ok b.
Proof. destruct m; cbn; naive_solver. Qed.

Lemma M_bind_Ok {St A B} (m : M St A) (k : A → M St B) s b s' :
  (m ≫= k) s = (Ok b, s') → ∃ a s1, m s = (Ok a, s1) ∧ k a s1 = (Ok b, s').
Proof. unfold mbind, M_bind. destruct (m s) as [[a|] s1]; [eauto|done]. Qed.

Lemma result_bind_unit_Ok {B} (m : result unit) (k : result B) b :
  (m;; k) = Ok b ↔ m = Ok tt ∧ k = Ok b.
Proof. rewrite result_bind_Ok. split; [intros ([] & ? & ?)|]; naive_solver. Qed.

Lemma raise_if_Ok b e : raise_if b e = Ok tt ↔ b = false.
Proof. unfold raise_if. destruct b; naive_solver. Qed.

Lemma for_each_Ok {A} (f : A → result unit) l :
  for_each f l = Ok tt ↔ Forall (λ x, f x = Ok tt) l.
Proof.
  induction l as [|x l IH]; cbn.
  - by split; [constructor|].
  - rewrite Forall_cons, result_bind_unit_Ok, IH. done.
Qed.

Lemma for_each_Raise {A} (f : A → result unit) l e :
  for_each f l = Raise e ↔
  ∃ l1 x l2, l = l1 ++ x :: l2 ∧ Forall (λ y, f y = Ok tt) l1 ∧ f x = Raise e.
Proof.
  induction l as [|x l IH]; cbn.
  - split; [done|]. intros ([|??]&?&?&?&?); done.
  - destruct (f x) as [[]|e'] eqn:Hx; cbn.
    + rewrite IH. split.
      * intros (l1&y&l2&->&?&?). exists (x :: l1), y, l2. auto.
      * intros ([|z l1]&y&l2&[= -> ->]&Hl1&Hy); [congruence|].
        apply Forall_cons in Hl1 as [??]. naive_solver.
    + split.
      * intros [= ->]. exists [], x, l. auto.
      * intros ([|z l1]&y&l2&[= -> ->]&Hl1&Hy); [congruence|].
        apply Forall_cons in Hl1 as [??]. congruence.
Qed.

(** ** Automation *)

Create Rewrite HintDb sandbox.
#[export] Hint Rewrite @result_bind_unit_Ok @raise_if_Ok @for_each_Ok
  andb_true_iff andb_false_iff orb_true_iff orb_false_iff
  negb_true_iff negb_false_iff bool_decide_eq_true bool_decide_eq_false
  Z.ltb_lt Z.ltb_ge Z.leb_le Z.leb_gt Z.eqb_eq Z.eqb_neq
  Nat.ltb_lt Nat.ltb_ge Nat.leb_le Nat.leb_gt : sandbox.

(** Turn "this validator returns [Ok]" and boolean tests into propositions. *)
Ltac results := autorewrite with sandbox in *.

(** Case analysis on every [if] and [match] scrutinee of the goal. *)
Ltac case_all :=
  repeat (cbn in *; match goal with
  | |- context [if ?b then _ else _] => destruct b eqn:?
  | |- context [match ?x with _ => _ end] => destruct x eqn:?
  end; try done; simplify_eq).
