(* ===== verification/PyString.v ===== *)
(** * Python [str] and [posixpath]

    The part of Python's string type that the server uses.  A [str] is a
    [string] of characters with code points below 256 (Latin-1); the
    classification of a character (white space, digit, lower case) is
    Python's for those code points.  Paths follow [posixpath], which is
    [os.path] on the Linux and macOS hosts the server supports. *)

From Stdlib Require Import Ascii.
From S2P Require Import Prelude.

Definition code (c : ascii) : N := N_of_ascii c.
Definition chr (n : N) : ascii := ascii_of_N n.
Definition backslash : ascii := chr 92.
Definition newline : string := String (chr 10) EmptyString.
Definition dquote : string := String (chr 34) EmptyString.

Definition in_range (lo hi : N) (c : ascii) : bool :=
  ((lo <=? code c) && (code c <=? hi))%N.

Definition is_digit : ascii → bool := in_range 48 57.

(** [str.isspace] and the white space that [str.strip] removes. *)
Definition is_space (c : ascii) : bool :=
  in_range 9 13 c || in_range 28 32 c || (code c =? 133)%N || (code c =? 160)%N.

(** [str.lower] on one character. *)
Definition lower_char (c : ascii) : ascii :=
  if in_range 65 90 c || (in_range 192 222 c && negb (code c =? 215)%N)
  then chr (code c + 32) else c.

Fixpoint lower (s : string) : string :=
  match s with
  | EmptyString => EmptyString
  | String c s' => String (lower_char c) (lower s')
  end.

(** [len(s)] *)
Fixpoint len (s : string) : nat :=
  match s with EmptyString => 0 | String _ s' => S (len s') end.

(** Python truth value of a string: [bool(s)]. *)
Definition truthy (s : string) : bool :=
  match s with EmptyString => false | _ => true end.

(** Truth value of an optional string ([None] and the empty string are false). *)
Definition truthy_opt (o : option string) : bool :=
  match o with Some s => truthy s | None => false end.

(** [x or d] for an optional string. *)
Definition or_else (o : option string) (d : string) : string :=
  match o with Some s => if truthy s then s else d | None => d end.

Fixpoint rev_string (acc s : string) : string :=
  match s with
  | EmptyString => acc
  | String c s' => rev_string (String c acc) s'
  end.

Definition reverse (s : string) : string := rev_string EmptyString s.

(** [s.lstrip] for the characters that satisfy [p]. *)
Fixpoint lstrip_by (p : ascii → bool) (s : string) : string :=
  match s with
  | EmptyString => EmptyString
  | String c s' => if p c then lstrip_by p s' else s
  end.

(** [s.rstrip] for the characters that satisfy [p]. *)
Fixpoint rstrip_by (p : ascii → bool) (s : string) : string :=
  match s with
  | EmptyString => EmptyString
  | String c s' =>
      match rstrip_by p s' with
      | EmptyString => if p c then EmptyString else String c EmptyString
      | t => String c t
      end
  end.

(** [s.strip()] *)
Definition strip (s : string) : string := rstrip_by is_space (lstrip_by is_space s).

Definition is_slash (c : ascii) : bool := (code c =? 47)%N.

(** [s.startswith(p)] *)
Fixpoint startswith (s p : string) {struct p} : bool :=
  match p, s with
  | EmptyString, _ => true
  | String a p', String b s' => bool_decide (a = b) && startswith s' p'
  | String _ _, EmptyString => false
  end.

(** [s.endswith(p)] *)
Fixpoint endswith (s p : string) : bool :=
  bool_decide (s = p) ||
  match s with EmptyString => false | String _ s' => endswith s' p end.

(** [p in s] for strings. *)
Fixpoint contains (s p : string) : bool :=
  startswith s p ||
  match s with EmptyString => false | String _ s' => contains s' p end.

Fixpoint string_forallb (p : ascii → bool) (s : string) : bool :=
  match s with EmptyString => true | String c s' => p c && string_forallb p s' end.

(** [c in s] for one character. *)
Fixpoint has_char (c : ascii) (s : string) : bool :=
  match s with
  | EmptyString => false
  | String d s' => bool_decide (c = d) || has_char c s'
  end.

(** [s.split(c)] on a one-character separator: never empty. *)
Fixpoint split_on (c : ascii) (s : string) : list string :=
  match s with
  | EmptyString => [EmptyString]
  | String d s' =>
      if bool_decide (c = d) then EmptyString :: split_on c s'
      else match split_on c s' with
           | w :: ws => String d w :: ws
           | [] => [String d EmptyString]
           end
  end.

(** [s.split(c, 1)]: the text before and after the first [c], if there is one. *)
Fixpoint split_once (c : ascii) (s : string) : option (string * string) :=
  match s with
  | EmptyString => None
  | String d s' =>
      if bool_decide (c = d) then Some (EmptyString, s')
      else '(a, b) ← split_once c s'; Some (String d a, b)
  end.

(** [s[:n]] and [s[n:]] *)
Fixpoint str_take (n : nat) (s : string) : string :=
  match n, s with
  | S n', String c s' => String c (str_take n' s')
  | _, _ => EmptyString
  end.
Fixpoint str_drop (n : nat) (s : string) : string :=
  match n, s with
  | S n', String _ s' => str_drop n' s'
  | _, _ => s
  end.

(** [s[:-1]] *)
Definition drop_last (s : string) : string := str_take (pred (len s)) s.

(** [s.replace(a, b)] for one-character strings. *)
Fixpoint replace_char (a b : ascii) (s : string) : string :=
  match s with
  | EmptyString => EmptyString
  | String c s' => String (if bool_decide (c = a) then b else c) (replace_char a b s')
  end.

(** [sep.join(l)] *)
Fixpoint join (sep : string) (l : list string) : string :=
  match l with
  | [] => EmptyString
  | [w] => w
  | w :: ws => w +:+ sep +:+ join sep ws
  end.

(** ** Integers and their decimal text *)

Definition digit_val (c : ascii) : Z := Z.of_N (code c) - 48.

Fixpoint digits_val (acc : Z) (s : string) : Z :=
  match s with
  | EmptyString => acc
  | String c s' => digits_val (10 * acc + digit_val c) s'
  end.

Definition digit_char (d : Z) : ascii := chr (Z.to_N (d + 48)).

Fixpoint nat_digits (fuel : nat) (n : Z) (acc : string) : string :=
  match fuel with
  | O => acc
  | S f =>
      let acc' := String (digit_char (n mod 10)) acc in
      if n <? 10 then acc' else nat_digits f (n / 10) acc'
  end%Z.

(** [str(n)] for an [int]. *)
Definition str_of_Z (n : Z) : string :=
  let fuel := S (Z.to_nat (Z.log2 (Z.abs n))) in
  if (n <? 0)%Z then String "-" (nat_digits fuel (- n) EmptyString)
  else nat_digits fuel n EmptyString.

(** CPython refuses to convert more than 4300 decimal digits. *)
Definition int_max_str_digits : Z := 4300.

(** Decimal digits with single underscores between them, as [int] accepts them. *)
Fixpoint int_digits (prev_digit : bool) (acc : string) (s : string) : option string :=
  match s with
  | EmptyString => if prev_digit then Some (reverse acc) else None
  | String c s' =>
      if is_digit c then int_digits true (String c acc) s'
      else if (code c =? 95)%N && prev_digit then int_digits false acc s'
      else None
  end.

(** [int(s)]; [None] is [ValueError]. *)
Definition py_int (s : string) : option Z :=
  let t := strip s in
  let '(sign, body) :=
    match t with
    | String c t' => if (code c =? 45)%N then ((-1)%Z, t')
                     else if (code c =? 43)%N then (1%Z, t') else (1%Z, t)
    | EmptyString => (1%Z, t)
    end in
  ds ← int_digits false EmptyString body;
  if (int_max_str_digits <? Z.of_nat (len ds))%Z then None else Some (sign * digits_val 0 ds)%Z.

(** ** [repr] *)

Definition hex_digit (n : N) : ascii := chr (if (n <? 10)%N then 48 + n else 87 + n)%N.

Definition printable (c : ascii) : bool :=
  in_range 32 126 c || (in_range 161 255 c && negb (code c =? 173)%N).

(** One character inside a string literal that is quoted with [q]. *)
Definition repr_char (q c : ascii) : string :=
  let esc (s : string) := String (chr 92) s in
  if bool_decide (c = q) || (code c =? 92)%N then esc (String c EmptyString)
  else if (code c =? 9)%N then esc "t"
  else if (code c =? 10)%N then esc "n"
  else if (code c =? 13)%N then esc "r"
  else if printable c then String c EmptyString
  else esc (String "x" (String (hex_digit (code c / 16)) (String (hex_digit (code c mod 16)) EmptyString))).

Fixpoint repr_chars (q : ascii) (s : string) : string :=
  match s with EmptyString => EmptyString | String c s' => repr_char q c +:+ repr_chars q s' end.

(** [repr(s)]: single quotes, unless only single quotes occur in the text. *)
Definition repr (s : string) : string :=
  let q := if has_char "'" s && negb (has_char (chr 34) s) then chr 34 else "'"%char in
  String q (repr_chars q s +:+ String q EmptyString).

(** [repr] of a list of strings. *)
Definition repr_list (l : list string) : string :=
  "[" +:+ join ", " (repr <$> l) +:+ "]".

(** ** Lemmas *)

Lemma str_app_nil_r s : s +:+ EmptyString = s.
Proof. induction s as [|c s IH]; [done|]. by change (String c (s +:+ EmptyString) = String c s); rewrite IH. Qed.

Lemma str_app_cons c s t : String c s +:+ t = String c (s +:+ t).
Proof. done. Qed.

Lemma str_app_assoc s t u : (s +:+ t) +:+ u = s +:+ (t +:+ u).
Proof. induction s as [|c s IH]; [done|]. by rewrite !str_app_cons, IH. Qed.

Lemma len_app s t : len (s +:+ t) = len s + len t.
Proof. induction s as [|c s IH]; [done|]. rewrite str_app_cons; cbn. by rewrite IH. Qed.

Lemma startswith_app s t : startswith (s +:+ t) s = true.
Proof.
  induction s as [|c s IH]; [by destruct t|].
  rewrite str_app_cons; cbn. rewrite bool_decide_eq_true_2 by done. done.
Qed.

Lemma startswith_true s p : startswith s p = true ↔ ∃ t, s = p +:+ t.
Proof.
  split.
  - revert s. induction p as [|c p IH]; intros s; [by exists s|].
    destruct s as [|d s]; cbn; [done|].
    intros [Hc Hs]%andb_true_iff. apply bool_decide_eq_true in Hc as ->.
    apply IH in Hs as [t ->]. by exists t.
  - intros [t ->]. apply startswith_app.
Qed.

Lemma endswith_cons c s p :
  endswith (String c s) p = bool_decide (String c s = p) || endswith s p.
Proof. done. Qed.

Lemma endswith_refl s : endswith s s = true.
Proof. destruct s; [done|]. by rewrite endswith_cons, bool_decide_eq_true_2. Qed.

Lemma endswith_app s t : endswith (s +:+ t) t = true.
Proof.
  induction s as [|c s IH]; [apply endswith_refl|].
  by rewrite str_app_cons, endswith_cons, IH, orb_true_r.
Qed.

Lemma endswith_true s p : endswith s p = true ↔ ∃ t, s = t +:+ p.
Proof.
  split; [|intros [t ->]; apply endswith_app].
  induction s as [|c s IH].
  - intros H. exists EmptyString. by destruct p.
  - rewrite endswith_cons, orb_true_iff, bool_decide_eq_true.
    intros [Hd|[t ->]%IH]; [by exists EmptyString|by exists (String c t)].
Qed.

Lemma contains_cons c s p :
  contains (String c s) p = startswith (String c s) p || contains s p.
Proof. done. Qed.

Lemma contains_prefix p b : contains (p +:+ b) p = true.
Proof.
  pose proof (startswith_app p b) as H. revert H. generalize (p +:+ b) as s; intros s H.
  destruct s; [by destruct p|]. by rewrite contains_cons, H.
Qed.

Lemma contains_true s p : contains s p = true ↔ ∃ a b, s = a +:+ p +:+ b.
Proof.
  split.
  - induction s as [|c s IH].
    + intros H. exists EmptyString, EmptyString. by destruct p.
    + rewrite contains_cons, orb_true_iff, startswith_true.
      intros [[t Ht]|(a&b&->)%IH]; [by exists EmptyString, t|by exists (String c a), b].
  - intros (a&b&->). induction a as [|c a IH]; [exact (contains_prefix p b)|].
    by rewrite str_app_cons, contains_cons, IH, orb_true_r.
Qed.

Lemma has_char_app c s t : has_char c (s +:+ t) = has_char c s || has_char c t.
Proof. induction s as [|d s IH]; [done|]. rewrite str_app_cons; cbn. by rewrite IH, orb_assoc. Qed.

Lemma string_forallb_app p s t :
  string_forallb p (s +:+ t) = string_forallb p s && string_forallb p t.
Proof. induction s as [|d s IH]; [done|]. rewrite str_app_cons; cbn. by rewrite IH, andb_assoc. Qed.

Lemma str_app_inj_l s t u : s +:+ t = s +:+ u → t = u.
Proof. induction s as [|c s IH]; [done|]. rewrite !str_app_cons. intros [= ?]. auto. Qed.

(** *** [split] and [join] *)

Lemma split_on_ne c s : split_on c s ≠ [].
Proof. destruct s; cbn; [done|]. case_bool_decide; [done|]. by destruct (split_on c s). Qed.

Lemma split_on_sep c s t :
  split_on c (s +:+ String c t) = split_on c s ++ split_on c t.
Proof.
  induction s as [|d s IH].
  - change (EmptyString +:+ ?x) with x. cbn. by rewrite bool_decide_eq_true_2.
  - rewrite str_app_cons; cbn. case_bool_decide; [by rewrite IH|].
    rewrite IH. destruct (split_on c s) eqn:E; [by apply split_on_ne in E|done].
Qed.

Lemma join_cons sep w ws :
  ws ≠ [] → join sep (w :: ws) = w +:+ sep +:+ join sep ws.
Proof. by destruct ws. Qed.

Lemma join_split c s : join (String c EmptyString) (split_on c s) = s.
Proof.
  induction s as [|d s IH]; [done|]. cbn. case_bool_decide as Hcd.
  - subst. rewrite join_cons by apply split_on_ne. by rewrite IH.
  - destruct (split_on c s) as [|w [|w' ws]] eqn:E; [by apply split_on_ne in E| |].
    + cbn in *. by subst.
    + rewrite join_cons in IH |- * by done. by rewrite str_app_cons, IH.
Qed.

Lemma split_no_sep c s : has_char c s = false → split_on c s = [s].
Proof.
  induction s as [|d s IH]; [done|]. cbn. intros [Hd Hs]%orb_false_iff.
  rewrite Hd, IH by done. done.
Qed.

Lemma split_pieces c s : Forall (λ w, has_char c w = false) (split_on c s).
Proof.
  induction s as [|d s IH]; cbn; [by repeat constructor|].
  case_bool_decide as Hcd; [by constructor|].
  destruct (split_on c s) as [|w ws] eqn:E; [by apply split_on_ne in E|].
  apply Forall_cons in IH as [Hw ?]. constructor; [|done].
  cbn. rewrite Hw, bool_decide_eq_false_2; done.
Qed.

Lemma split_join c ws :
  ws ≠ [] → Forall (λ w, has_char c w = false) ws →
  split_on c (join (String c EmptyString) ws) = ws.
Proof.
  intros Hne Hws. induction Hws as [|w ws Hw Hws IH]; [done|].
  destruct ws as [|w' ws]; [by apply split_no_sep|].
  rewrite join_cons by done. change (String c EmptyString +:+ ?x) with (String c x).
  rewrite split_on_sep, IH by done. by rewrite split_no_sep.
Qed.

Lemma join_app sep l1 l2 :
  l1 ≠ [] → l2 ≠ [] → join sep (l1 ++ l2) = join sep l1 +:+ sep +:+ join sep l2.
Proof.
  intros H1 H2. induction l1 as [|w l1 IH]; [done|].
  destruct l1 as [|w' l1]; [by cbn [app]; rewrite join_cons|].
  change ((w :: w' :: l1) ++ l2) with (w :: ((w' :: l1) ++ l2)).
  rewrite (join_cons sep w (_ ++ _)) by done. rewrite IH by done.
  rewrite (join_cons sep w (w' :: l1)) by done. by rewrite !str_app_assoc.
Qed.
