(* ===== verification/Paths.v ===== *)
(** * [posixpath]: joining and normalising paths

    [posixpath.join], [normpath] and [isabs], and the fact the volume code
    relies on: a relative path without a [..] component, joined to a normalised
    absolute directory and normalised again, stays below that directory. *)

From Stdlib Require Import Ascii.
From S2P Require Import Prelude PyString.

Definition slash : ascii := "/"%char.
Definition sep : string := "/".
Definition dot : string := ".".
Definition dotdot : string := "..".

(** [posixpath.isabs] *)
Definition isabs (p : string) : bool := startswith p "/".

(** [posixpath.join(a, b)] *)
Definition path_join (a b : string) : string :=
  if startswith b "/" then b
  else if negb (truthy a) || endswith a "/" then a +:+ b
  else a +:+ "/" +:+ b.

(** The number of leading slashes [normpath] keeps. *)
Definition initial_slashes (p : string) : nat :=
  if startswith p "/"
  then if startswith p "//" && negb (startswith p "///") then 2 else 1
  else 0.

Definition skipped (comp : string) : bool :=
  bool_decide (comp = EmptyString) || bool_decide (comp = dot).

(** One iteration of the loop of [normpath]; [new_comps] is kept reversed. *)
Definition norm_step (absolute : bool) (new_comps : list string) (comp : string) : list string :=
  if skipped comp then new_comps
  else if negb (bool_decide (comp = dotdot))
          || (negb absolute && bool_decide (new_comps = []))
          || bool_decide (head new_comps = Some dotdot)
  then comp :: new_comps
  else tail new_comps.

Definition norm_comps (absolute : bool) (comps : list string) : list string :=
  rev (fold_left (norm_step absolute) comps []).

Fixpoint slashes (n : nat) : string :=
  match n with O => EmptyString | S n' => String slash (slashes n') end.

(** [posixpath.normpath] *)
Definition normpath (p : string) : string :=
  if negb (truthy p) then dot
  else
    let n := initial_slashes p in
    let new_comps := norm_comps (negb (Nat.eqb n 0)) (split_on slash p) in
    let r := slashes n +:+ join sep new_comps in
    if truthy r then r else dot.

(** [p] is [base] or lies below it. *)
Definition path_under (base p : string) : Prop :=
  p = base ∨ startswith p (if endswith base "/" then base else base +:+ "/") = true.

(** ** Normal forms *)

(** A component list that an absolute normalised path may have. *)
Definition plain (w : string) : Prop :=
  w ≠ EmptyString ∧ w ≠ dot ∧ w ≠ dotdot ∧ has_char slash w = false.

Lemma skipped_false w : skipped w = false ↔ w ≠ EmptyString ∧ w ≠ dot.
Proof. unfold skipped. results. done. Qed.

Lemma norm_step_plain b acc w : plain w → norm_step b acc w = w :: acc.
Proof.
  intros (H1&H2&H3&_). unfold norm_step.
  rewrite (proj2 (skipped_false w)) by done.
  by rewrite (bool_decide_eq_false_2 (w = dotdot)).
Qed.

Lemma fold_norm_plain b acc ws :
  Forall plain ws → fold_left (norm_step b) ws acc = rev ws ++ acc.
Proof.
  intros H. revert acc. induction H as [|w ws Hw Hws IH]; intros acc; [done|].
  cbn. rewrite norm_step_plain, IH by done. by rewrite <-(assoc_L app).
Qed.

(** Components other than [..]: what is kept is exactly what is not skipped. *)
Definition kept (ws : list string) : list string :=
  base.filter (λ w, skipped w = false) ws.

Lemma fold_norm_no_dotdot b acc ws :
  dotdot ∉ ws → fold_left (norm_step b) ws acc = rev (kept ws) ++ acc.
Proof.
  revert acc. induction ws as [|w ws IH]; intros acc Hin; [done|].
  apply not_elem_of_cons in Hin as [Hw Hin]. cbn [fold_left]. rewrite IH by done.
  unfold kept, norm_step. destruct (skipped w) eqn:E.
  - by rewrite filter_cons_False by (by rewrite E).
  - rewrite filter_cons_True by done. cbn.
    rewrite (bool_decide_eq_false_2 (w = dotdot)) by done. cbn.
    by rewrite <-(assoc_L app).
Qed.

Lemma kept_plain s :
  dotdot ∉ split_on slash s → Forall plain (kept (split_on slash s)).
Proof.
  intros Hdd. unfold kept. apply Forall_forall. intros w [Hsk Hw]%list_elem_of_filter.
  apply skipped_false in Hsk as [??]. repeat split; [done|done|set_solver|].
  pose proof (split_pieces slash s) as Hp. rewrite Forall_forall in Hp. by apply Hp.
Qed.

(** In an absolute path the accumulator never holds a [..]. *)
Lemma fold_norm_abs_plain acc s :
  Forall plain acc → Forall (λ w, has_char slash w = false) s →
  Forall plain (fold_left (norm_step true) s acc).
Proof.
  revert acc. induction s as [|w s IH]; intros acc Hacc Hs; [done|].
  apply Forall_cons in Hs as [Hw Hs]. cbn. apply IH; [|done].
  unfold norm_step. destruct (skipped w) eqn:E; [done|].
  apply skipped_false in E as [??].
  destruct (bool_decide (w = dotdot)) eqn:Hd; cbn.
  - destruct Hacc as [|a acc Ha Hacc]; cbn; [by constructor|].
    rewrite bool_decide_eq_false_2; [done|]. intros [= ->]. by destruct Ha as (_&_&?&_).
  - constructor; [|done]. apply bool_decide_eq_false in Hd. by repeat split.
Qed.

(** ** The shape of a normalised absolute path *)

Lemma slashes_truthy n t : n ≠ 0 → truthy (slashes n +:+ t) = true.
Proof. by destruct n. Qed.

Lemma plain_cons w : plain w → ∃ c w', w = String c w' ∧ c ≠ slash.
Proof.
  intros (Hw&_&_&Hs). destruct w as [|c w]; [done|]. exists c, w. split; [done|].
  intros ->. cbn in Hs. done.
Qed.

(** A string that does not start with a slash. *)
Definition relative (t : string) : Prop := startswith t "/" = false.

Lemma relative_cons c t : relative (String c t) ↔ c ≠ slash.
Proof.
  unfold relative. cbn. rewrite andb_true_r, bool_decide_eq_false.
  split; intros H E; apply H; by subst.
Qed.

(** Every absolute path is some slashes and a relative rest. *)
Lemma abs_split p : startswith p "/" = true → ∃ k t, p = slashes (S k) +:+ t ∧ relative t.
Proof.
  induction p as [|c p IH]; cbn [startswith]; [done|].
  intros [<-%bool_decide_eq_true _]%andb_true_iff.
  destruct (startswith p "/") eqn:E.
  - destruct (IH eq_refl) as (k&t&->&Ht). by exists (S k), t.
  - by exists 0, p.
Qed.

(** The slashes [normpath] keeps of [k] leading ones. *)
Definition kept_slashes (k : nat) : nat := if k =? 2 then 2 else 1.

Lemma kept_slashes_pos k : kept_slashes k = 1 ∨ kept_slashes k = 2.
Proof. unfold kept_slashes. destruct (k =? 2); auto. Qed.

Lemma initial_slashes_rel k t :
  relative t → initial_slashes (slashes (S k) +:+ t) = kept_slashes (S k).
Proof.
  intros Ht. unfold initial_slashes, kept_slashes.
  destruct k as [|[|k]]; [| |done]; destruct t as [|c t]; try done;
    apply relative_cons in Ht;
    (assert (bool_decide ("/"%char = c) = false) as Hc by (by apply bool_decide_eq_false; intros <-));
    cbn; by rewrite Hc.
Qed.

Lemma split_slashes n t :
  split_on slash (slashes n +:+ t) = replicate n EmptyString ++ split_on slash t.
Proof. induction n as [|n IH]; [done|]. cbn [slashes replicate]. rewrite str_app_cons; cbn. by rewrite IH. Qed.

Lemma fold_norm_empties b n ws acc :
  fold_left (norm_step b) (replicate n EmptyString ++ ws) acc = fold_left (norm_step b) ws acc.
Proof. by induction n. Qed.

(** The components of an absolute path, after normalisation. *)
Definition abs_comps (t : string) : list string :=
  rev (fold_left (norm_step true) (split_on slash t) []).

Lemma abs_comps_plain t : Forall plain (abs_comps t).
Proof. apply Forall_rev, fold_norm_abs_plain; [constructor|apply split_pieces]. Qed.

Lemma normpath_slashes k t :
  relative t →
  normpath (slashes (S k) +:+ t) = slashes (kept_slashes (S k)) +:+ join sep (abs_comps t).
Proof.
  intros Ht. pose proof (kept_slashes_pos (S k)). unfold normpath, norm_comps.
  rewrite slashes_truthy, initial_slashes_rel by (done || lia). cbn [negb].
  assert (negb (kept_slashes (S k) =? 0) = true) as -> by (destruct H as [-> | ->]; done).
  rewrite split_slashes, fold_norm_empties, slashes_truthy by lia. done.
Qed.

Lemma join_plain_relative cs : Forall plain cs → relative (join sep cs).
Proof.
  intros [|w ws Hw _]; [done|]. destruct (plain_cons w Hw) as (c&w'&->&Hc).
  destruct ws; by apply relative_cons.
Qed.

Lemma split_join_plain cs :
  cs ≠ [] → Forall plain cs → split_on slash (join sep cs) = cs.
Proof.
  intros Hne Hcs. apply split_join; [done|].
  eapply Forall_impl; [done|]. by intros w (_&_&_&?).
Qed.

Lemma abs_comps_join cs : Forall plain cs → abs_comps (join sep cs) = cs.
Proof.
  intros Hcs. unfold abs_comps. destruct cs as [|c cs]; [done|].
  rewrite split_join_plain, fold_norm_plain by done.
  by rewrite app_nil_r, rev_involutive.
Qed.

(** ** Joining a safe relative path *)

Lemma abs_comps_app t sub :
  dotdot ∉ split_on slash sub →
  abs_comps (t +:+ String slash sub) = abs_comps t ++ kept (split_on slash sub).
Proof.
  intros Hdd. unfold abs_comps.
  rewrite split_on_sep, fold_left_app, fold_norm_no_dotdot by done.
  by rewrite rev_app_distr, rev_involutive.
Qed.

Lemma abs_comps_slash t : abs_comps (t +:+ "/") = abs_comps t.
Proof.
  change (t +:+ "/") with (t +:+ String slash EmptyString).
  rewrite abs_comps_app; [|cbn; set_solver]. apply app_nil_r.
Qed.

Lemma str_app_last s t u c :
  t ≠ EmptyString → s +:+ t = u +:+ String c EmptyString → ∃ v, t = v +:+ String c EmptyString.
Proof.
  intros Ht. revert u. induction s as [|d s IH]; intros u; [by exists u|].
  destruct u as [|e u]; cbn; intros [= <- H]; [|by apply (IH u)].
  by destruct s, t.
Qed.

Lemma path_join_abs k t sub :
  relative t → relative sub →
  ∃ m, path_join (slashes (S k) +:+ t) sub = slashes (S k) +:+ m ∧ relative m ∧
       (dotdot ∉ split_on slash sub → abs_comps m = abs_comps t ++ kept (split_on slash sub)).
Proof.
  intros Ht Hsub. unfold path_join. rewrite Hsub, slashes_truthy by lia. cbn [negb orb].
  destruct t as [|c t].
  { assert (endswith (slashes (S k) +:+ EmptyString) "/" = true) as ->.
    { rewrite str_app_nil_r. apply endswith_true. exists (slashes k).
      induction k as [|k IH]; [done|]. cbn [slashes] in *. cbn. by rewrite <-IH. }
    exists sub. rewrite str_app_nil_r. split_and!; [done|done|]. intros Hdd. unfold abs_comps.
    rewrite fold_norm_no_dotdot by done. by rewrite app_nil_r, rev_involutive. }
  destruct (endswith _ _) eqn:E.
  - apply endswith_true in E as [u Hu].
    destruct (str_app_last (slashes (S k)) (String c t) u slash ltac:(done) Hu) as [v Hv].
    exists (String c t +:+ sub). rewrite str_app_assoc. split_and!; [done|by apply relative_cons; apply relative_cons in Ht|].
    intros Hdd. rewrite Hv, str_app_assoc.
    change (String slash EmptyString +:+ sub) with (String slash sub).
    change (v +:+ String slash EmptyString) with (v +:+ "/").
    by rewrite abs_comps_slash, abs_comps_app.
  - exists (String c t +:+ "/" +:+ sub). rewrite str_app_assoc.
    split_and!; [done|by apply relative_cons; apply relative_cons in Ht|]. intros Hdd.
    change ("/" +:+ sub) with (String slash sub). by rewrite abs_comps_app.
Qed.

(** The two normal forms of an absolute directory and of a safe path in it. *)
Lemma normpath_join_comps p sub :
  startswith p "/" = true → relative sub → dotdot ∉ split_on slash sub →
  ∃ n cs, (n = 1 ∨ n = 2) ∧ Forall plain cs ∧
    normpath p = slashes n +:+ join sep cs ∧
    normpath (path_join p sub) = slashes n +:+ join sep (cs ++ kept (split_on slash sub)).
Proof.
  intros (k&t&->&Ht)%abs_split Hsub Hdd.
  destruct (path_join_abs k t sub Ht Hsub) as (m&->&Hm&Hc).
  exists (kept_slashes (S k)), (abs_comps t). rewrite !normpath_slashes, Hc by done.
  split_and!; [apply kept_slashes_pos|apply abs_comps_plain|done|done].
Qed.

Lemma normpath_idemp p : startswith p "/" = true → normpath (normpath p) = normpath p.
Proof.
  intros (k&t&->&Ht)%abs_split. rewrite normpath_slashes by done.
  pose proof (abs_comps_plain t) as Hp. pose proof (join_plain_relative _ Hp).
  unfold kept_slashes. destruct (S k =? 2); by rewrite normpath_slashes, abs_comps_join.
Qed.

Lemma normpath_abs p :
  startswith p "/" = true → startswith (normpath p) "/" = true.
Proof.
  intros (k&t&->&Ht)%abs_split. rewrite normpath_slashes by done.
  by destruct (kept_slashes_pos (S k)) as [-> | ->].
Qed.

Lemma last_component_no_slash n cs :
  cs ≠ [] → Forall plain cs → endswith (slashes n +:+ join sep cs) "/" = false.
Proof.
  intros Hne Hcs. apply not_true_is_false. intros [t Ht]%endswith_true.
  assert (last (split_on slash (slashes n +:+ join sep cs)) = Some EmptyString) as Hl.
  { rewrite Ht. change (t +:+ "/") with (t +:+ String slash EmptyString).
    rewrite split_on_sep. apply last_snoc. }
  rewrite split_slashes, split_join_plain in Hl by done.
  destruct cs as [|w cs _] using rev_ind; [done|].
  rewrite (assoc_L app), last_snoc in Hl. simplify_eq.
  apply Forall_app in Hcs as [_ [[] _]%Forall_cons_1]. done.
Qed.

Lemma startswith_trans a b c : startswith a b = true → startswith b c = true → startswith a c = true.
Proof.
  rewrite !startswith_true. intros [x ->] [y ->]. exists (y +:+ x). by rewrite str_app_assoc.
Qed.

(** A relative path without [..] joined to an absolute directory stays below it. *)
Lemma normpath_join_under base sub :
  startswith base "/" = true → startswith sub "/" = false → dotdot ∉ split_on slash sub →
  path_under (normpath base) (normpath (path_join base sub)).
Proof.
  intros Hb Hrel Hdd.
  destruct (normpath_join_comps base sub Hb Hrel Hdd) as (n&cs&Hn&Hcs&->&->).
  unfold path_under. destruct (decide (cs = [])) as [->|Hne].
  { right. assert (endswith (slashes n +:+ join sep []) "/" = true) as ->
      by (by destruct Hn as [-> | ->]).
    cbn [join app]. rewrite str_app_nil_r. apply startswith_app. }
  rewrite last_component_no_slash by done.
  destruct (kept (split_on slash sub)) as [|k ks]; [left; by rewrite app_nil_r|right].
  rewrite join_app, <-!str_app_assoc by done. apply startswith_app.
Qed.

Lemma path_under_trans_slash q p r :
  q ≠ slashes 1 → q ≠ slashes 2 → startswith q "/" = true → normpath q = q →
  (p = q ∨ startswith p (q +:+ "/") = true) → path_under p r →
  r = q ∨ startswith r (q +:+ "/") = true.
Proof.
  intros Hq1 Hq2 Hq Hnorm Hp [->|Hr]; [done|].
  assert (endswith q "/" = false) as Hend.
  { apply abs_split in Hq as (k&t&->&Ht). rewrite normpath_slashes in Hnorm by done.
    rewrite <-Hnorm. apply last_component_no_slash; [|apply abs_comps_plain].
    intros E. rewrite E in Hnorm. cbn [join] in Hnorm. rewrite str_app_nil_r in Hnorm.
    destruct (kept_slashes_pos (S k)) as [K|K]; rewrite K in Hnorm; congruence. }
  destruct Hp as [->|Hp]; [rewrite Hend in Hr; auto|]. right.
  eapply startswith_trans; [done|]. destruct (endswith p "/"); [done|].
  eapply startswith_trans; [|done]. apply startswith_app.
Qed.
