(* ===== verification/Regex.v ===== *)
(** * Python [re] patterns

    The validators are written with anchored patterns [^r$].  A pattern is a
    [regex] term; [re_full] decides whether a whole string is in its language,
    by derivatives.  In Python [$] also matches just before a newline that ends
    the string, so [re.match] of an anchored pattern is [re_match]. *)

From Stdlib Require Import Ascii.
From S2P Require Import Prelude PyString.

Inductive regex :=
| REmpty
| REps
| RClass (p : ascii → bool)
| RCat (r s : regex)
| RAlt (r s : regex)
| RStar (r : regex).

Definition RPlus (r : regex) : regex := RCat r (RStar r).
Definition ROpt (r : regex) : regex := RAlt REps r.
Definition RChar (c : ascii) : regex := RClass (λ d, bool_decide (d = c)).

(** [r{n}] and [r{m,n}] *)
Fixpoint RTimes (n : nat) (r : regex) : regex :=
  match n with O => REps | S n' => RCat r (RTimes n' r) end.
Fixpoint RUpTo (n : nat) (r : regex) : regex :=
  match n with O => REps | S n' => ROpt (RCat r (RUpTo n' r)) end.
Definition RRange (m n : nat) (r : regex) : regex :=
  RCat (RTimes m r) (RUpTo (n - m) r).

(** A literal string. *)
Fixpoint RLit (s : string) : regex :=
  match s with EmptyString => REps | String c s' => RCat (RChar c) (RLit s') end.

(** ** Language *)

Inductive matches : regex → string → Prop :=
| m_eps : matches REps EmptyString
| m_class p c : p c = true → matches (RClass p) (String c EmptyString)
| m_cat r s x y : matches r x → matches s y → matches (RCat r s) (x +:+ y)
| m_alt_l r s x : matches r x → matches (RAlt r s) x
| m_alt_r r s x : matches s x → matches (RAlt r s) x
| m_star_nil r : matches (RStar r) EmptyString
| m_star_cons r x y : matches r x → matches (RStar r) y → matches (RStar r) (x +:+ y).

(** ** Matcher *)

Fixpoint nullable (r : regex) : bool :=
  match r with
  | REmpty | RClass _ => false
  | REps | RStar _ => true
  | RCat r s => nullable r && nullable s
  | RAlt r s => nullable r || nullable s
  end.

(** Constructors that drop empty languages, so that derivatives stay small. *)
Definition cat (r s : regex) : regex :=
  match r, s with
  | REmpty, _ => REmpty
  | _, REmpty => REmpty
  | REps, _ => s
  | _, _ => RCat r s
  end.
Definition alt (r s : regex) : regex :=
  match r, s with
  | REmpty, _ => s
  | _, REmpty => r
  | _, _ => RAlt r s
  end.

Fixpoint deriv (c : ascii) (r : regex) : regex :=
  match r with
  | REmpty | REps => REmpty
  | RClass p => if p c then REps else REmpty
  | RCat r s =>
      if nullable r then alt (cat (deriv c r) s) (deriv c s) else cat (deriv c r) s
  | RAlt r s => alt (deriv c r) (deriv c s)
  | RStar r => cat (deriv c r) (RStar r)
  end.

(** [re.fullmatch] *)
Fixpoint re_full (r : regex) (s : string) : bool :=
  match s with
  | EmptyString => nullable r
  | String c s' => re_full (deriv c r) s'
  end.

(** The text before one newline at the end of the string. *)
Fixpoint before_newline (s : string) : option string :=
  match s with
  | EmptyString => None
  | String c s' =>
      if bool_decide (s' = EmptyString)
      then if (code c =? 10)%N then Some EmptyString else None
      else t ← before_newline s'; Some (String c t)
  end.

(** [re.match] of the pattern [^r$]. *)
Definition re_match (r : regex) (s : string) : bool :=
  re_full r s ||
  match before_newline s with Some t => re_full r t | None => false end.

(** ** The matcher decides the language *)

Lemma matches_cat r s x : matches (RCat r s) x ↔ ∃ a b, x = a +:+ b ∧ matches r a ∧ matches s b.
Proof. split; [inversion 1; eauto|]. intros (a&b&->&?&?). by constructor. Qed.

Lemma matches_alt r s x : matches (RAlt r s) x ↔ matches r x ∨ matches s x.
Proof. split; [inversion 1; auto|]. intros []; [by apply m_alt_l|by apply m_alt_r]. Qed.

Lemma matches_eps x : matches REps x ↔ x = EmptyString.
Proof. split; [by inversion 1|]. intros ->. constructor. Qed.

Lemma matches_empty x : ¬ matches REmpty x.
Proof. inversion 1. Qed.

Lemma matches_class p x : matches (RClass p) x ↔ ∃ c, x = String c EmptyString ∧ p c = true.
Proof. split; [inversion 1; eauto|]. intros (c&->&?). by constructor. Qed.

Lemma matches_cat_eps s x : matches (RCat REps s) x ↔ matches s x.
Proof.
  rewrite matches_cat. split.
  - by intros (?&?&->&->%matches_eps&?).
  - intros ?. exists EmptyString, x. split_and!; [done|constructor|done].
Qed.

Lemma matches_cat_empty_l s x : ¬ matches (RCat REmpty s) x.
Proof. rewrite matches_cat. by intros (?&?&_&?%matches_empty&_). Qed.

Lemma matches_cat_empty_r r x : ¬ matches (RCat r REmpty) x.
Proof. rewrite matches_cat. by intros (?&?&_&_&?%matches_empty). Qed.

Lemma cat_matches r s x : matches (cat r s) x ↔ matches (RCat r s) x.
Proof.
  destruct r, s; cbn; rewrite ?matches_cat_eps; try done;
    split; intros H;
    by first [apply matches_empty in H|apply matches_cat_empty_l in H|apply matches_cat_empty_r in H].
Qed.

Lemma alt_matches r s x : matches (alt r s) x ↔ matches (RAlt r s) x.
Proof.
  rewrite matches_alt. pose proof (matches_empty x).
  destruct r; try (destruct s; cbn); cbn; rewrite ?matches_alt; naive_solver.
Qed.

Lemma nullable_spec r : nullable r = true ↔ matches r EmptyString.
Proof.
  induction r as [| | |r IHr s IHs|r IHr s IHs|r IH]; cbn.
  - split; [done|]. by intros ?%matches_empty.
  - split; [|done]. constructor.
  - rewrite matches_class. split; [done|]. by intros (?&?&?).
  - rewrite andb_true_iff, matches_cat, IHr, IHs. split.
    + intros []. by exists EmptyString, EmptyString.
    + intros ([|??]&[|??]&?&?&?); try done.
  - by rewrite orb_true_iff, matches_alt, IHr, IHs.
  - split; [|done]. constructor.
Qed.

Lemma star_cons_inv r c x :
  matches (RStar r) (String c x) →
  ∃ a b, x = a +:+ b ∧ matches r (String c a) ∧ matches (RStar r) b.
Proof.
  intros H. remember (RStar r) as q eqn:Hq. remember (String c x) as t eqn:Ht.
  revert Hq c x Ht. induction H as [| | | | | |r' u v Hu _ Hv IHv]; intros Hq c' x' Ht; simplify_eq.
  destruct u as [|d u].
  - cbn in Ht. eauto.
  - cbn in Ht. simplify_eq. eauto.
Qed.

Lemma deriv_spec c r x : matches (deriv c r) x ↔ matches r (String c x).
Proof.
  revert x. induction r as [| |p|r IHr s IHs|r IHr s IHs|r IH]; intros x; cbn.
  - split; by intros ?%matches_empty.
  - rewrite matches_eps. split; [by intros ?%matches_empty|done].
  - rewrite matches_class. destruct (p c) eqn:Hp.
    + rewrite matches_eps. split; [intros ->; eauto|]. by intros (?&[= -> ->]&?).
    + split; [by intros ?%matches_empty|]. intros (?&[= <- ->]&?). congruence.
  - assert (matches (cat (deriv c r) s) x ↔
            ∃ a b, x = a +:+ b ∧ matches r (String c a) ∧ matches s b) as Hcat.
    { rewrite cat_matches, matches_cat. by setoid_rewrite IHr. }
    rewrite matches_cat. destruct (nullable r) eqn:Hn.
    + rewrite alt_matches, matches_alt, Hcat, IHs. split.
      * intros [(a&b&->&?&?)|?]; [by exists (String c a), b|].
        exists EmptyString, (String c x). repeat split; [|done]. by apply nullable_spec.
      * intros ([|d a]&b&Hx&?&?); cbn in Hx; simplify_eq; eauto 10.
    + rewrite Hcat. split.
      * intros (a&b&->&?&?). by exists (String c a), b.
      * intros ([|d a]&b&Hx&Ha&?); cbn in Hx; simplify_eq; eauto 10.
        apply nullable_spec in Ha. congruence.
  - by rewrite alt_matches, !matches_alt, IHr, IHs.
  - rewrite cat_matches, matches_cat. setoid_rewrite IH. split.
    + intros (a&b&->&?&?). change (String c (a +:+ b)) with (String c a +:+ b).
      by constructor.
    + apply star_cons_inv.
Qed.

Lemma re_full_spec r s : re_full r s = true ↔ matches r s.
Proof.
  revert r. induction s as [|c s IH]; intros r; cbn; [apply nullable_spec|].
  by rewrite IH, deriv_spec.
Qed.

Lemma before_newline_app t : before_newline (t +:+ newline) = Some t.
Proof.
  induction t as [|c t IH]; [done|]. cbn [String.append before_newline].
  rewrite bool_decide_eq_false_2 by (by destruct t). by rewrite IH.
Qed.

Lemma before_newline_Some s t : before_newline s = Some t → s = t +:+ newline.
Proof.
  revert t. induction s as [|c s IH]; intros t; cbn; [done|]. case_bool_decide as Hs.
  - subst. destruct (N.eqb_spec (code c) 10) as [Hc|]; [|done]. intros [= <-].
    unfold code in Hc. by rewrite <-(ascii_N_embedding c), Hc.
  - destruct (before_newline s) as [u|] eqn:E; cbn; [|done].
    intros [= <-]. by rewrite (IH u).
Qed.

Lemma before_newline_spec s t : before_newline s = Some t ↔ s = t +:+ newline.
Proof. split; [apply before_newline_Some|]. intros ->. apply before_newline_app. Qed.

Lemma re_match_spec r s :
  re_match r s = true ↔ matches r s ∨ ∃ t, s = t +:+ newline ∧ matches r t.
Proof.
  unfold re_match. rewrite orb_true_iff, re_full_spec. f_equiv.
  destruct (before_newline s) as [t|] eqn:E.
  - rewrite re_full_spec. apply before_newline_spec in E. split; [eauto|].
    intros (u&Hu&?). assert (Some u = Some t) as [= ->]; [|done].
    rewrite <-(proj2 (before_newline_spec _ u) Hu). by apply before_newline_spec.
  - split; [done|]. intros (u&?%before_newline_spec&?). congruence.
Qed.

(** ** Shapes the validators use *)

Lemma matches_star_class p s : matches (RStar (RClass p)) s ↔ string_forallb p s = true.
Proof.
  induction s as [|c s IH]; cbn.
  - split; [done|constructor].
  - rewrite andb_true_iff, <-IH. split.
    + intros (a&b&->&(d&[= -> ->]&?)%matches_class&?)%star_cons_inv. done.
    + intros [Hc Hs]. change (String c s) with (String c EmptyString +:+ s).
      constructor; [by constructor|done].
Qed.

Fixpoint last_char (s : string) : option ascii :=
  match s with
  | EmptyString => None
  | String c EmptyString => Some c
  | String _ s' => last_char s'
  end.

Definition first_char (s : string) : option ascii :=
  match s with EmptyString => None | String c _ => Some c end.

Definition char_ok (p : ascii → bool) (o : option ascii) : bool :=
  match o with Some c => p c | None => false end.

(** [A(B*A)?]: the names of Kubernetes and DNS, with [A] at both ends. *)
Definition edged (A B : ascii → bool) : regex :=
  RCat (RClass A) (ROpt (RCat (RStar (RClass B)) (RClass A))).

Definition edged_ok (A B : ascii → bool) (s : string) : bool :=
  char_ok A (first_char s) && char_ok A (last_char s) && string_forallb B s.

Lemma last_char_snoc s c : last_char (s +:+ String c EmptyString) = Some c.
Proof. induction s as [|d s IH]; [done|]. cbn. rewrite IH. by destruct s. Qed.

Lemma last_char_inv s c : last_char s = Some c → ∃ t, s = t +:+ String c EmptyString.
Proof.
  induction s as [|d [|e s] IH]; [done| |]; cbn.
  - intros [= ->]. by exists EmptyString.
  - intros [t Ht]%IH. exists (String d t). by rewrite Ht.
Qed.

Lemma edged_spec A B s :
  (∀ c, A c = true → B c = true) →
  matches (edged A B) s ↔ edged_ok A B s = true.
Proof.
  intros HAB. unfold edged, edged_ok, ROpt.
  rewrite matches_cat. setoid_rewrite matches_class. setoid_rewrite matches_alt.
  setoid_rewrite matches_eps. setoid_rewrite matches_cat. setoid_rewrite matches_class.
  setoid_rewrite matches_star_class. rewrite !andb_true_iff. split.
  - intros (a&b&->&(c&->&Hc)&[->|(m&z&->&Hm&d&->&Hd)]).
    + cbn. rewrite Hc, HAB by done. auto.
    + cbn [first_char String.append char_ok].
      change (String c (m +:+ String d EmptyString)) with (String c m +:+ String d EmptyString).
      rewrite last_char_snoc, string_forallb_app. cbn. rewrite Hm, Hd, !HAB; auto.
  - intros [[Hf Hl] Hall]. destruct s as [|c s]; [done|]. cbn in Hf.
    exists (String c EmptyString), s. split_and!; [done|by exists c|].
    destruct s as [|c2 s2]; [by left|right].
    destruct (last_char (String c (String c2 s2))) as [d|] eqn:E; [|done].
    apply last_char_inv in E as [[|c' t] Ht]; cbn in Ht; [done|].
    injection Ht as <- Ht. rewrite Ht in Hall |- *. exists t, (String d EmptyString).
    cbn in Hall. rewrite string_forallb_app in Hall.
    apply andb_true_iff in Hall as [_ [??]%andb_true_iff]. split_and!; [done|done|eauto].
Qed.
