(* ===== verification/PyDict.v ===== *)
(** * Python dictionaries with string keys

    Dictionaries keep insertion order, which the code observes when it iterates
    ([items()], [values()]); so a dictionary is an association list, written
    with the operations below, which never duplicate a key. *)

From S2P Require Import Prelude PyString.

Definition dict (V : Type) : Type := list (string * V).

Section dict.
Context {V : Type}.
Implicit Types d : dict V.

(** [d.get(k)] *)
Fixpoint dget (k : string) d : option V :=
  match d with
  | [] => None
  | (k', v) :: d' => if decide (k = k') then Some v else dget k d'
  end.

(** [d.get(k, default)] *)
Definition dget_default (k : string) (default : V) d : V :=
  match dget k d with Some v => v | None => default end.

(** [k in d] *)
Definition dmem (k : string) d : bool := bool_decide (is_Some (dget k d)).

(** [d[k] = v]: in place when the key is there, at the end otherwise. *)
Fixpoint dset (k : string) (v : V) d : dict V :=
  match d with
  | [] => [(k, v)]
  | (k', v') :: d' => if decide (k = k') then (k', v) :: d' else (k', v') :: dset k v d'
  end.

(** [d.pop(k, None)] *)
Fixpoint dpop (k : string) d : dict V :=
  match d with
  | [] => []
  | (k', v) :: d' => if decide (k = k') then d' else (k', v) :: dpop k d'
  end.

(** [d.update(e)] *)
Definition dupdate d (e : dict V) : dict V :=
  fold_left (λ acc kv, dset kv.1 kv.2 acc) e d.

(** [list(d.keys())], [list(d.values())] *)
Definition dkeys d : list string := d.*1.
Definition dvalues d : list V := d.*2.

(** The invariant of every dictionary. *)
Definition dict_wf d : Prop := NoDup (dkeys d).

Lemma dget_set_eq k v d : dget k (dset k v d) = Some v.
Proof.
  induction d as [|[k' v'] d IH]; cbn; [by rewrite decide_True|].
  case_decide; cbn; by repeat case_decide.
Qed.

Lemma dget_set_ne k k' v d : k ≠ k' → dget k (dset k' v d) = dget k d.
Proof.
  intros. induction d as [|[k2 v2] d IH]; cbn; [by rewrite decide_False|].
  case_decide; cbn; by repeat case_decide; simplify_eq.
Qed.

Lemma dget_set k k' v d : dget k (dset k' v d) = if decide (k = k') then Some v else dget k d.
Proof. case_decide; [subst; apply dget_set_eq|by apply dget_set_ne]. Qed.

Lemma dget_None k d : dget k d = None ↔ k ∉ dkeys d.
Proof.
  induction d as [|[k' v] d IH]; cbn.
  - split; [set_solver|done].
  - unfold dkeys; cbn. rewrite not_elem_of_cons. case_decide; [naive_solver|].
    rewrite IH. naive_solver.
Qed.

Lemma dget_elem k v d : dget k d = Some v → (k, v) ∈ d.
Proof.
  induction d as [|[k' v'] d IH]; cbn; [done|]. case_decide; set_solver.
Qed.

Lemma elem_dget k v d : dict_wf d → (k, v) ∈ d → dget k d = Some v.
Proof.
  unfold dict_wf, dkeys. induction d as [|[k' v'] d IH]; cbn; [set_solver|].
  rewrite NoDup_cons. intros [Hk' Hd] [?|Hin]%elem_of_cons; simplify_eq.
  - by rewrite decide_True.
  - case_decide; [|by apply IH]. subst. destruct Hk'.
    by apply (list_elem_of_fmap_2' _ _ (k', v)).
Qed.

Lemma dset_keys k v d x : x ∈ dkeys (dset k v d) ↔ x = k ∨ x ∈ dkeys d.
Proof.
  unfold dkeys. induction d as [|[k' v'] d IH]; cbn; [set_solver|].
  case_decide; cbn; set_solver.
Qed.

Lemma dset_wf k v d : dict_wf d → dict_wf (dset k v d).
Proof.
  unfold dict_wf. induction d as [|[k' v'] d IH]; cbn.
  - intros _. by apply NoDup_singleton.
  - unfold dkeys in *; cbn. rewrite NoDup_cons. intros [Hk Hd].
    case_decide; cbn; rewrite NoDup_cons; [done|]. split; [|by apply IH].
    pose proof (dset_keys k v d k') as Hk'. unfold dkeys in Hk'. set_solver.
Qed.

Lemma dget_pop k k' d : dict_wf d → dget k (dpop k' d) = if decide (k = k') then None else dget k d.
Proof.
  unfold dict_wf. induction d as [|[x v] d IH]; cbn; intros Hd; [by case_decide|].
  apply NoDup_cons in Hd as [Hx Hd].
  destruct (decide (k' = x)) as [->|Hne].
  - destruct (decide (k = x)) as [->|]; [by apply dget_None|done].
  - cbn. rewrite IH by done. repeat case_decide; congruence.
Qed.

Lemma dpop_wf k d : dict_wf d → dict_wf (dpop k d).
Proof.
  unfold dict_wf, dkeys. induction d as [|[x v] d IH]; cbn; [done|]. rewrite NoDup_cons. intros [Hx Hd].
  case_decide; [done|]. cbn. rewrite NoDup_cons. split; [|by apply IH]. intros Hin. apply Hx.
  clear -Hin. induction d as [|[y w] d IH]; cbn in *; [done|]. case_decide; [set_solver|].
  cbn in Hin. apply elem_of_cons in Hin as [->|Hin]; [set_solver|]. apply elem_of_cons. right. by apply IH.
Qed.

Lemma dupdate_wf d e : dict_wf d → dict_wf (dupdate d e).
Proof. revert d. induction e as [|[k v] e IH]; intros d Hd; cbn; [done|]. by apply IH, dset_wf. Qed.

Lemma dget_dupdate k d e :
  dict_wf e →
  dget k (dupdate d e) = match dget k e with Some v => Some v | None => dget k d end.
Proof.
  unfold dict_wf, dkeys, dupdate. revert d.
  induction e as [|[k' v] e IH]; intros d; cbn; [done|].
  rewrite NoDup_cons. intros [Hk He]. rewrite IH by done.
  case_decide; subst.
  - assert (dget k' e = None) as -> by (by apply dget_None). by rewrite dget_set_eq.
  - destruct (dget k e); [done|]. by rewrite dget_set_ne.
Qed.
End dict.

Lemma dset_new {V} k (v : V) d : dget k d = None → dset k v d = d ++ [(k, v)].
Proof.
  induction d as [|[k' v'] d IH]; cbn; [done|]. case_decide; [done|]. intros ?. by rewrite IH.
Qed.

Lemma dupdate_fresh {V} (d e : dict V) : dict_wf e → (∀ k, k ∈ dkeys e → dget k d = None) → dupdate d e = d ++ e.
Proof.
  unfold dupdate. revert d. induction e as [|[k v] e IH]; intros d Hwf Hk; [by rewrite app_nil_r|]. cbn [fold_left fst snd].
  apply NoDup_cons in Hwf as [Hn Hwf]. rewrite dset_new by (apply Hk; by left). rewrite IH, <-app_assoc; [done..|].
  intros k' Hk'. rewrite <-(dset_new k v d) by (apply Hk; by left).
  rewrite dget_set_ne; [apply Hk; by right|]. intros ->. done.
Qed.
