(* ===== verification/PyTime.v ===== *)
(** * Python [datetime]

    A [datetime] is a count of microseconds since 0001-01-01T00:00:00 on its own
    clock, with the UTC offset (microseconds) when it is time zone aware.  The
    calendar is [datetime]'s proleptic Gregorian one ([_ymd2ord], [_ord2ymd] of
    the standard library); [isoformat] and [fromisoformat] follow Python 3.10, the
    oldest version the server supports, whose grammar is
    [YYYY-MM-DD[*HH[:MM[:SS[.fff[fff]]]][+HH:MM[:SS[.ffffff]]]]].  The main
    fact is that [fromisoformat] reads back what [isoformat] wrote. *)

From Stdlib Require Import Ascii.
From S2P Require Import Prelude PyString.

Local Open Scope Z_scope.

Inductive datetime :=
| Naive (us : Z)
| Aware (us offset : Z).

#[global] Instance datetime_eq_dec : EqDecision datetime.
Proof. solve_decision. Defined.

Definition us_per_second : Z := 1000000.
Definition us_per_day : Z := 86400 * us_per_second.

(** [date.max.toordinal()]: the days of the years 1 to 9999. *)
Definition max_days : Z := 3652059.
Definition dt_end : Z := max_days * us_per_day.

Definition dt_in_range (us : Z) : bool := (0 <=? us) && (us <? dt_end).

(** The UTC instant of an aware datetime. *)
Definition utc (us : Z) : datetime := Aware us 0.

(** [timedelta(seconds=n)]; [None] is [OverflowError]: more than 999999999 days. *)
Definition timedelta_seconds (n : Z) : option Z :=
  let days := n / 86400 in
  if (days <? -999999999) || (999999999 <? days) then None else Some (n * us_per_second).

(** [dt + delta]; [None] is [OverflowError]. *)
Definition dt_add (dt : datetime) (delta : Z) : option datetime :=
  match dt with
  | Naive us => if dt_in_range (us + delta) then Some (Naive (us + delta)) else None
  | Aware us off => if dt_in_range (us + delta) then Some (Aware (us + delta) off) else None
  end.

(** [dt.astimezone(timezone.utc)] of an aware datetime; [None] is [OverflowError]. *)
Definition to_utc (us off : Z) : option datetime :=
  if dt_in_range (us - off) then Some (utc (us - off)) else None.

(** [a < b], [a <= b]: comparing a naive and an aware datetime is a [TypeError]. *)
Definition dt_compare (cmp : Z → Z → bool) (a b : datetime) : result bool :=
  match a, b with
  | Naive x, Naive y => Ok (cmp x y)
  | Aware x ox, Aware y oy => Ok (cmp (x - ox) (y - oy))
  | _, _ => Raise (PyException TypeError "can't compare offset-naive and offset-aware datetimes")
  end.
Definition dt_le : datetime → datetime → result bool := dt_compare Z.leb.
Definition dt_lt : datetime → datetime → result bool := dt_compare Z.ltb.

(** ** Calendar *)

Definition is_leap (y : Z) : bool :=
  (y mod 4 =? 0) && (negb (y mod 100 =? 0) || (y mod 400 =? 0)).

Definition days_before_year (y : Z) : Z :=
  let y' := y - 1 in y' * 365 + y' / 4 - y' / 100 + y' / 400.

Definition days_in_month_table : list Z := [31; 28; 31; 30; 31; 30; 31; 31; 30; 31; 30; 31].

Definition days_before_month_table : list Z :=
  [0; 31; 59; 90; 120; 151; 181; 212; 243; 273; 304; 334].

Definition nth_month (t : list Z) (m : Z) : Z := nth (Z.to_nat (m - 1)) t 0.

Definition days_in_month (y m : Z) : Z :=
  if (m =? 2) && is_leap y then 29 else nth_month days_in_month_table m.

Definition days_before_month (y m : Z) : Z :=
  nth_month days_before_month_table m + (if (2 <? m) && is_leap y then 1 else 0).

(** Days since 0001-01-01 ([_ymd2ord] minus one). *)
Definition ymd2day (y m d : Z) : Z := days_before_year y + days_before_month y m + d - 1.

(** The month and day of the [n]-th day of a year. *)
Definition month_day (leap : bool) (n : Z) : Z * Z :=
  let month := Z.shiftr (n + 50) 5 in
  let preceding := nth_month days_before_month_table month + (if (2 <? month) && leap then 1 else 0) in
  let '(month, preceding) :=
    if n <? preceding
    then (month - 1,
          preceding - (nth_month days_in_month_table (month - 1)
                       + (if (month - 1 =? 2) && leap then 1 else 0)))
    else (month, preceding) in
  (month, n - preceding + 1).

(** [_ord2ymd] of the day after [n] days. *)
Definition day2ymd (n : Z) : Z * Z * Z :=
  let n400 := n / 146097 in let n := n mod 146097 in
  let n100 := n / 36524 in let n := n mod 36524 in
  let n4 := n / 1461 in let n := n mod 1461 in
  let n1 := n / 365 in let n := n mod 365 in
  let year := n400 * 400 + 1 + n100 * 100 + n4 * 4 + n1 in
  if (n1 =? 4) || (n100 =? 4) then (year - 1, 12, 31)
  else
    let leap := (n1 =? 3) && (negb (n4 =? 24) || (n100 =? 3)) in
    let '(month, day) := month_day leap n in
    (year, month, day).

(** ** Text *)

(** ["%02d"], ["%04d"], ["%06d"] *)
Fixpoint fixed_digits (k : nat) (n : Z) (acc : string) : string :=
  match k with
  | O => acc
  | S k' => fixed_digits k' (n / 10) (String (digit_char (n mod 10)) acc)
  end.
Definition fmt (k : nat) (n : Z) : string := fixed_digits k n EmptyString.

(** [HH:MM[:SS[.ffffff]]] of an offset. *)
Definition format_offset (off : Z) : string :=
  let sign : string := if off <? 0 then "-" else "+" in
  let a := Z.abs off in
  let us := a mod us_per_second in
  let s := a / us_per_second in
  sign +:+ fmt 2 (s / 3600) +:+ ":" +:+ fmt 2 (s / 60 mod 60)
       +:+ (if (s mod 60 =? 0) && (us =? 0) then EmptyString else ":" +:+ fmt 2 (s mod 60))
       +:+ (if us =? 0 then EmptyString else "." +:+ fmt 6 us).

(** [isoformat()] of the local part. *)
Definition format_local (us : Z) : string :=
  let day := us / us_per_day in
  let rest := us mod us_per_day in
  let '(y, m, d) := day2ymd day in
  let frac := rest mod us_per_second in
  let s := rest / us_per_second in
  fmt 4 y +:+ "-" +:+ fmt 2 m +:+ "-" +:+ fmt 2 d +:+ "T"
  +:+ fmt 2 (s / 3600) +:+ ":" +:+ fmt 2 (s / 60 mod 60) +:+ ":" +:+ fmt 2 (s mod 60)
  +:+ (if frac =? 0 then EmptyString else "." +:+ fmt 6 frac).

Definition isoformat (dt : datetime) : string :=
  match dt with
  | Naive us => format_local us
  | Aware us off => format_local us +:+ format_offset off
  end.

(** Read exactly [k] decimal digits. *)
Fixpoint parse_digits (k : nat) (acc : Z) (s : string) : option (Z * string) :=
  match k with
  | O => Some (acc, s)
  | S k' =>
      match s with
      | String c s' => if is_digit c then parse_digits k' (10 * acc + digit_val c) s' else None
      | EmptyString => None
      end
  end.

Definition parse_char (c : ascii) (s : string) : option string :=
  match s with
  | String d s' => if bool_decide (d = c) then Some s' else None
  | EmptyString => None
  end.

(** [YYYY-MM-DD] *)
Definition parse_date (s : string) : option (Z * Z * Z * string) :=
  '(y, s) ← parse_digits 4 0 s; s ← parse_char "-" s;
  '(m, s) ← parse_digits 2 0 s; s ← parse_char "-" s;
  '(d, s) ← parse_digits 2 0 s; Some (y, m, d, s).

(** [.fff] or [.ffffff], to the end. *)
Definition parse_frac (s : string) : option Z :=
  if Nat.eqb (len s) 6 then '(f, _) ← parse_digits 6 0 s; Some f
  else if Nat.eqb (len s) 3 then '(f, _) ← parse_digits 3 0 s; Some (f * 1000)
  else None.

(** [HH[:MM[:SS[.fff[fff]]]]], to the end: hour, minute, second, microsecond. *)
Definition parse_hms (s : string) : option (Z * Z * Z * Z) :=
  '(h, s) ← parse_digits 2 0 s;
  if negb (truthy s) then Some (h, 0, 0, 0) else
  s ← parse_char ":" s; '(mi, s) ← parse_digits 2 0 s;
  if negb (truthy s) then Some (h, mi, 0, 0) else
  s ← parse_char ":" s; '(sec, s) ← parse_digits 2 0 s;
  if negb (truthy s) then Some (h, mi, sec, 0) else
  s ← parse_char "." s; f ← parse_frac s; Some (h, mi, sec, f).

(** The time text up to the first sign, and the signed offset text. *)
Fixpoint split_sign (s : string) : string * option (Z * string) :=
  match s with
  | EmptyString => (EmptyString, None)
  | String c s' =>
      if bool_decide (c = "+"%char) then (EmptyString, Some (1, s'))
      else if bool_decide (c = "-"%char) then (EmptyString, Some (-1, s'))
      else let '(t, o) := split_sign s' in (String c t, o)
  end.

(** [HH:MM[:SS[.ffffff]]] as microseconds, less than a day. *)
Definition parse_offset (sign : Z) (s : string) : option Z :=
  if Nat.eqb (len s) 5 || Nat.eqb (len s) 8 || Nat.eqb (len s) 15 then
    '(h, mi, sec, f) ← parse_hms s;
    let off := (h * 3600 + mi * 60 + sec) * us_per_second + f in
    if off <? us_per_day then Some (sign * off) else None
  else None.

Definition valid_date (y m d : Z) : bool :=
  (1 <=? y) && (y <=? 9999) && (1 <=? m) && (m <=? 12) && (1 <=? d) && (d <=? days_in_month y m).

Definition valid_time (h mi sec : Z) : bool := (h <? 24) && (mi <? 60) && (sec <? 60).

Definition make_us (y m d h mi sec f : Z) : option Z :=
  if valid_date y m d && valid_time h mi sec
  then Some (ymd2day y m d * us_per_day + ((h * 3600 + mi * 60 + sec) * us_per_second + f))
  else None.

(** [datetime.fromisoformat]; [None] is [ValueError]. *)
Definition fromisoformat (s : string) : option datetime :=
  '(y, m, d, s) ← parse_date s;
  match s with
  | EmptyString => us ← make_us y m d 0 0 0 0; Some (Naive us)
  | String _ s =>
      let '(t, o) := split_sign s in
      '(h, mi, sec, f) ← parse_hms t;
      us ← make_us y m d h mi sec f;
      match o with
      | None => Some (Naive us)
      | Some (sign, z) => off ← parse_offset sign z; Some (Aware us off)
      end
  end.

Example isoformat_ex :
  isoformat (utc (63871372799123456)) = "2025-01-01T23:59:59.123456+00:00".
Proof. vm_compute. reflexivity. Qed.

(** ** The calendar round trip *)

(** The days of a year, by computation over the 365 days that are not the last
    day of a leap year. *)
Definition doy_ok (leap : bool) (n : Z) : bool :=
  let '(m, d) := month_day leap n in
  (nth_month days_before_month_table m + (if (2 <? m) && leap then 1 else 0) + d - 1 =? n)
  && (1 <=? m) && (m <=? 12) && (1 <=? d)
  && (d <=? (if (m =? 2) && leap then 29 else nth_month days_in_month_table m)).

Lemma forallb_seqZ (p : Z → bool) lo n k :
  forallb p (seqZ lo n) = true → lo <= k < lo + n → p k = true.
Proof.
  rewrite forallb_forall. intros H Hk. apply H.
  apply list_elem_of_In, elem_of_seqZ. lia.
Qed.

Lemma doy_ok_all leap n : 0 <= n < 365 → doy_ok leap n = true.
Proof.
  intros. destruct leap; apply (forallb_seqZ _ 0 365); try lia; vm_compute; reflexivity.
Qed.

Section year.
Variables n400 n100 n4 n1 : Z.
Hypothesis H100 : 0 <= n100 <= 3.
Hypothesis H4 : 0 <= n4 <= 24.
Hypothesis H1 : 0 <= n1 <= 3.

Let year : Z := n400 * 400 + 1 + n100 * 100 + n4 * 4 + n1.

Lemma days_before_year_split :
  days_before_year year = 146097 * n400 + 36524 * n100 + 1461 * n4 + 365 * n1.
Proof using H100 H4 H1.
  unfold days_before_year, year.
  replace (n400 * 400 + 1 + n100 * 100 + n4 * 4 + n1 - 1)
    with (n400 * 400 + n100 * 100 + n4 * 4 + n1) by lia.
  assert ((n400 * 400 + n100 * 100 + n4 * 4 + n1) / 4 = n400 * 100 + n100 * 25 + n4) as ->
    by (Z.to_euclidean_division_equations; lia).
  assert ((n400 * 400 + n100 * 100 + n4 * 4 + n1) / 100 = n400 * 4 + n100) as ->
    by (Z.to_euclidean_division_equations; lia).
  assert ((n400 * 400 + n100 * 100 + n4 * 4 + n1) / 400 = n400) as ->
    by (Z.to_euclidean_division_equations; lia).
  lia.
Qed.

Lemma is_leap_split : is_leap year = (n1 =? 3) && (negb (n4 =? 24) || (n100 =? 3)).
Proof using H100 H4 H1.
  unfold is_leap, year.
  assert (((n400 * 400 + 1 + n100 * 100 + n4 * 4 + n1) mod 4 =? 0) = (n1 =? 3)) as ->.
  { apply eq_true_iff_eq. rewrite !Z.eqb_eq. Z.to_euclidean_division_equations; lia. }
  assert (((n400 * 400 + 1 + n100 * 100 + n4 * 4 + n1) mod 100 =? 0)
          = ((n1 =? 3) && (n4 =? 24))) as ->.
  { apply eq_true_iff_eq. rewrite andb_true_iff, !Z.eqb_eq. Z.to_euclidean_division_equations; lia. }
  assert (((n400 * 400 + 1 + n100 * 100 + n4 * 4 + n1) mod 400 =? 0)
          = ((n1 =? 3) && (n4 =? 24) && (n100 =? 3))) as ->.
  { apply eq_true_iff_eq. rewrite !andb_true_iff, !Z.eqb_eq. Z.to_euclidean_division_equations; lia. }
  by destruct (n1 =? 3), (n4 =? 24), (n100 =? 3).
Qed.

Lemma ymd2day_doy leap doy m d :
  is_leap year = leap → 0 <= doy < 365 → month_day leap doy = (m, d) →
  ymd2day year m d = 146097 * n400 + 36524 * n100 + 1461 * n4 + 365 * n1 + doy
  ∧ 1 <= m <= 12 ∧ 1 <= d <= days_in_month year m.
Proof using H100 H4 H1.
  intros Hl Hdoy Hmd. pose proof (doy_ok_all leap doy Hdoy) as Hok.
  unfold doy_ok in Hok. rewrite Hmd in Hok. results.
  unfold ymd2day, days_before_month, days_in_month.
  rewrite days_before_year_split, Hl. lia.
Qed.

Lemma ymd2day_dec31 :
  is_leap year = true →
  ymd2day year 12 31 = 146097 * n400 + 36524 * n100 + 1461 * n4 + 365 * n1 + 365.
Proof using H100 H4 H1.
  intros Hl. unfold ymd2day, days_before_month. rewrite Hl, days_before_year_split.
  change (nth_month days_before_month_table 12) with 334. cbn. lia.
Qed.
End year.

Lemma day2ymd_sound n y m d :
  0 <= n → day2ymd n = (y, m, d) →
  ymd2day y m d = n ∧ 1 <= m <= 12 ∧ 1 <= d <= days_in_month y m ∧
  1 <= y ∧ days_before_year y <= n.
Proof.
  intros Hn. unfold day2ymd.
  set (n400 := n / 146097). set (r400 := n mod 146097).
  set (n100 := r400 / 36524). set (r100 := r400 mod 36524).
  set (n4 := r100 / 1461). set (r4 := r100 mod 1461).
  set (n1 := r4 / 365). set (doy := r4 mod 365).
  assert (n = 146097 * n400 + r400 ∧ 0 <= r400 < 146097) as [? ?]
    by (split; [by apply Z.div_mod|by apply Z.mod_pos_bound]).
  assert (r400 = 36524 * n100 + r100 ∧ 0 <= r100 < 36524) as [? ?]
    by (split; [by apply Z.div_mod|by apply Z.mod_pos_bound]).
  assert (r100 = 1461 * n4 + r4 ∧ 0 <= r4 < 1461) as [? ?]
    by (split; [by apply Z.div_mod|by apply Z.mod_pos_bound]).
  assert (r4 = 365 * n1 + doy ∧ 0 <= doy < 365) as [? ?]
    by (split; [by apply Z.div_mod|by apply Z.mod_pos_bound]).
  clearbody n400 n100 n4 n1 doy r400 r100 r4.
  destruct ((n1 =? 4) || (n100 =? 4)) eqn:Hspecial.
  - intros [= <- <- <-]. apply orb_true_iff in Hspecial as [E|E]; apply Z.eqb_eq in E.
    + replace (n400 * 400 + 1 + n100 * 100 + n4 * 4 + n1 - 1)
        with (n400 * 400 + 1 + n100 * 100 + n4 * 4 + 3) by lia.
      assert (is_leap (n400 * 400 + 1 + n100 * 100 + n4 * 4 + 3) = true) as Hl.
      { rewrite is_leap_split by lia.
        rewrite (proj2 (Z.eqb_neq n4 24)) by lia. done. }
      rewrite ymd2day_dec31, days_before_year_split by (done || lia).
      change (days_in_month _ 12) with 31. lia.
    + replace (n400 * 400 + 1 + n100 * 100 + n4 * 4 + n1 - 1)
        with (n400 * 400 + 1 + 3 * 100 + 24 * 4 + 3) by lia.
      assert (is_leap (n400 * 400 + 1 + 3 * 100 + 24 * 4 + 3) = true) as Hl
        by (by rewrite is_leap_split by lia).
      rewrite ymd2day_dec31, days_before_year_split by (done || lia).
      change (days_in_month _ 12) with 31. lia.
  - apply orb_false_iff in Hspecial as [E1 E2]. apply Z.eqb_neq in E1, E2.
    destruct (month_day _ _) as [m' d'] eqn:Hmd. intros [= <- <- <-].
    assert (0 <= n100 <= 3 ∧ 0 <= n4 <= 24 ∧ 0 <= n1 <= 3) as (?&?&?) by lia.
    pose proof (ymd2day_doy n400 n100 n4 n1 ltac:(done) ltac:(done) ltac:(done) _ doy m' d'
                  (is_leap_split n400 n100 n4 n1 ltac:(done) ltac:(done) ltac:(done))
                  ltac:(lia) Hmd).
    rewrite days_before_year_split by done. lia.
Qed.

Lemma day2ymd_spec n y m d :
  0 <= n < max_days → day2ymd n = (y, m, d) →
  ymd2day y m d = n ∧ valid_date y m d = true ∧ 1 <= y <= 9999 ∧ 1 <= m <= 12 ∧ 1 <= d <= 31.
Proof.
  intros Hn Hd. pose proof (day2ymd_sound n y m d ltac:(lia) Hd) as (H1&H2&H3&H4&H5).
  assert (y <= 9999).
  { apply Z.nlt_ge. intros Hy. assert (max_days <= days_before_year y); [|lia].
    unfold days_before_year, max_days. Z.to_euclidean_division_equations; lia. }
  assert (days_in_month y m <= 31).
  { unfold days_in_month, nth_month. destruct (_ && _); [lia|].
    destruct (Z.to_nat (m - 1)) as [|[|[|[|[|[|[|[|[|[|[|[|k]]]]]]]]]]]]; cbn; try lia.
    destruct k; lia. }
  split_and!; try lia. unfold valid_date. by rewrite !andb_true_iff, !Z.leb_le; lia.
Qed.

(** ** The text round trip *)

Lemma digit_char_code d : 0 <= d < 10 → code (digit_char d) = Z.to_N (d + 48).
Proof. intros. unfold code, digit_char, chr. rewrite N_ascii_embedding; lia. Qed.

Lemma digit_char_digit d : 0 <= d < 10 → is_digit (digit_char d) = true.
Proof. intros. unfold is_digit, in_range. rewrite digit_char_code, andb_true_iff, !N.leb_le by done. lia. Qed.

Lemma digit_char_val d : 0 <= d < 10 → digit_val (digit_char d) = d.
Proof. intros. unfold digit_val. rewrite digit_char_code by done. lia. Qed.

Lemma fixed_digits_app k n acc rest :
  fixed_digits k n acc +:+ rest = fixed_digits k n (acc +:+ rest).
Proof. revert n acc. induction k as [|k IH]; intros n acc; cbn; [done|]. by rewrite IH. Qed.

Lemma fmt_app k n rest : fmt k n +:+ rest = fixed_digits k n rest.
Proof. apply fixed_digits_app. Qed.

Lemma fixed_digits_len k n acc : len (fixed_digits k n acc) = (k + len acc)%nat.
Proof.
  revert n acc. induction k as [|k IH]; intros n acc; cbn [fixed_digits]; [done|].
  rewrite IH. cbn. lia.
Qed.

(** Reading [k] digits after having read [acc]. *)
Lemma parse_fixed k n rest acc :
  0 <= n < 10 ^ Z.of_nat k →
  parse_digits k acc (fixed_digits k n rest) = Some (acc * 10 ^ Z.of_nat k + n, rest).
Proof.
  intros Hn.
  enough (∀ j rest', parse_digits (k + j) acc (fixed_digits k n rest')
                     = parse_digits j (acc * 10 ^ Z.of_nat k + n) rest') as H.
  { specialize (H O rest). rewrite Nat.add_0_r in H. exact H. }
  clear rest. revert n acc Hn. induction k as [|k IH]; intros n acc Hn j rest'.
  - cbn in *. f_equal. lia.
  - cbn [fixed_digits]. replace (S k + j)%nat with (k + S j)%nat by lia.
    assert (10 ^ Z.of_nat (S k) = 10 * 10 ^ Z.of_nat k) as Hpow
      by (rewrite Nat2Z.inj_succ, Z.pow_succ_r; lia).
    pose proof (Z.mod_pos_bound n 10 ltac:(lia)). pose proof (Z.div_mod n 10 ltac:(lia)).
    rewrite IH by (split; [apply Z.div_pos; lia|apply Z.div_lt_upper_bound; lia]).
    cbn [parse_digits]. rewrite digit_char_digit, digit_char_val by done.
    f_equal. lia.
Qed.

Lemma parse_fmt k n rest :
  0 <= n < 10 ^ Z.of_nat k → parse_digits k 0 (fmt k n +:+ rest) = Some (n, rest).
Proof. intros. rewrite fmt_app, parse_fixed by done. by rewrite Z.mul_0_l. Qed.

Lemma parse_fmt_end k n :
  0 <= n < 10 ^ Z.of_nat k → parse_digits k 0 (fmt k n) = Some (n, EmptyString).
Proof. intros. rewrite <-(str_app_nil_r (fmt k n)). by apply parse_fmt. Qed.

(** Digits and separators other than a sign. *)
Definition no_sign (s : string) : Prop := has_char "+" s = false ∧ has_char "-" s = false.

Lemma split_sign_app s c rest :
  no_sign s → split_sign (s +:+ String c rest)
              = let '(t, o) := split_sign (String c rest) in (s +:+ t, o).
Proof.
  unfold no_sign. induction s as [|d s IH]; intros [H1 H2].
  - cbn [String.append]. by destruct (split_sign (String c rest)).
  - cbn in H1, H2. apply orb_false_iff in H1 as [H1 ?], H2 as [H2 ?].
    apply bool_decide_eq_false in H1, H2. cbn [String.append].
    change (split_sign (String d ?x)) with
      (if bool_decide (d = "+"%char) then (EmptyString, Some (1, x))
       else if bool_decide (d = "-"%char) then (EmptyString, Some (-1, x))
       else let '(t, o) := split_sign x in (String d t, o)).
    rewrite !bool_decide_eq_false_2 by congruence. rewrite IH by done.
    by destruct (split_sign (String c rest)).
Qed.

Lemma is_digit_no_sign c : is_digit c = true → c ≠ "+"%char ∧ c ≠ "-"%char.
Proof. intros H. split; intros ->; done. Qed.

Lemma no_sign_digits s : string_forallb is_digit s = true → no_sign s.
Proof.
  unfold no_sign. induction s as [|c s IH]; [done|]. cbn. intros [Hc Hs]%andb_true_iff.
  apply is_digit_no_sign in Hc as [??]. destruct (IH Hs) as [-> ->].
  rewrite !bool_decide_eq_false_2 by congruence. done.
Qed.

Lemma no_sign_app s t : no_sign s → no_sign t → no_sign (s +:+ t).
Proof. unfold no_sign. rewrite !has_char_app. by intros [-> ->] [-> ->]. Qed.

Lemma fixed_digits_digits k n acc :
  string_forallb is_digit acc = true → string_forallb is_digit (fixed_digits k n acc) = true.
Proof.
  revert n acc. induction k as [|k IH]; intros n acc H; cbn [fixed_digits]; [done|].
  apply IH. cbn. rewrite digit_char_digit by (apply Z.mod_pos_bound; lia). done.
Qed.

Lemma no_sign_fmt k n : no_sign (fmt k n).
Proof. apply no_sign_digits. by apply fixed_digits_digits. Qed.

Lemma truthy_fmt_app k n s : truthy (fmt (S k) n +:+ s) = true.
Proof.
  rewrite fmt_app. destruct (fixed_digits (S k) n s) eqn:E; [|done].
  apply (f_equal len) in E. rewrite fixed_digits_len in E. cbn in E. lia.
Qed.

Definition format_time (s frac : Z) : string :=
  fmt 2 (s / 3600) +:+ ":" +:+ fmt 2 (s / 60 mod 60) +:+ ":" +:+ fmt 2 (s mod 60)
  +:+ (if frac =? 0 then EmptyString else "." +:+ fmt 6 frac).

Lemma parse_char_app c s : parse_char c (String c s) = Some s.
Proof. cbn. by rewrite bool_decide_eq_true_2. Qed.

Lemma parse_format_time s frac :
  0 <= s < 86400 → 0 <= frac < us_per_second →
  parse_hms (format_time s frac) = Some (s / 3600, s / 60 mod 60, s mod 60, frac).
Proof.
  intros Hs Hf. unfold parse_hms, format_time.
  assert (0 <= s / 3600 < 10 ^ Z.of_nat 2) by (Z.to_euclidean_division_equations; lia).
  assert (0 <= s / 60 mod 60 < 10 ^ Z.of_nat 2) by (Z.to_euclidean_division_equations; lia).
  assert (0 <= s mod 60 < 10 ^ Z.of_nat 2) by (Z.to_euclidean_division_equations; lia).
  rewrite parse_fmt by done. cbn [mbind option_bind negb truthy String.append].
  rewrite parse_char_app. cbn [mbind option_bind].
  rewrite parse_fmt by done. cbn [mbind option_bind negb truthy String.append].
  rewrite parse_char_app. cbn [mbind option_bind].
  rewrite parse_fmt by done. cbn [mbind option_bind].
  destruct (Z.eqb_spec frac 0) as [->|Hf0]; [done|].
  cbn [negb truthy String.append]. rewrite parse_char_app. cbn [mbind option_bind].
  unfold parse_frac. assert (len (fmt 6 frac) = 6%nat) as -> by apply fixed_digits_len.
  cbn [Nat.eqb].
  rewrite parse_fmt_end by (unfold us_per_second in Hf; lia). done.
Qed.

Lemma no_sign_format_time s frac : no_sign (format_time s frac).
Proof.
  unfold format_time. repeat apply no_sign_app; try apply no_sign_fmt; try done.
  destruct (frac =? 0); [done|]. by apply no_sign_app, no_sign_fmt.
Qed.

Lemma us_day_range us : dt_in_range us = true → 0 <= us / us_per_day < max_days.
Proof.
  unfold dt_in_range, dt_end, us_per_day, us_per_second. intros [Hlo Hhi]%andb_true_iff.
  apply Z.leb_le in Hlo. apply Z.ltb_lt in Hhi.
  split; [apply Z.div_pos; lia|apply Z.div_lt_upper_bound; lia].
Qed.

Lemma make_us_day us y m d :
  dt_in_range us = true → day2ymd (us / us_per_day) = (y, m, d) →
  let s := us mod us_per_day / us_per_second in
  make_us y m d (s / 3600) (s / 60 mod 60) (s mod 60) (us mod us_per_day mod us_per_second) = Some us.
Proof.
  intros Hr Hymd. destruct (day2ymd_spec _ _ _ _ (us_day_range us Hr) Hymd) as (Hday&Hv&_).
  unfold make_us. rewrite Hv, Hday. unfold valid_time. unfold us_per_day, us_per_second.
  set (r := us mod _).
  assert (0 <= r < 86400 * 1000000) by (by apply Z.mod_pos_bound).
  pose proof (Z.div_mod us (86400 * 1000000) ltac:(lia)).
  assert (((r / 1000000 / 3600 <? 24) && (r / 1000000 / 60 mod 60 <? 60)
          && (r / 1000000 mod 60 <? 60)) = true) as ->.
  { rewrite !andb_true_iff, !Z.ltb_lt. Z.to_euclidean_division_equations; lia. }
  cbn [andb]. f_equal. subst r. Z.to_euclidean_division_equations; lia.
Qed.

(** [fromisoformat] reads back what [isoformat] wrote, for UTC datetimes. *)
Lemma fromisoformat_isoformat us :
  dt_in_range us = true → fromisoformat (isoformat (utc us)) = Some (utc us).
Proof.
  intros Hr. unfold isoformat, utc, format_local.
  destruct (day2ymd (us / us_per_day)) as [[y m] d] eqn:Hymd.
  destruct (day2ymd_spec _ y m d (us_day_range us Hr) Hymd) as (_&_&?&?&?).
  set (s := us mod us_per_day / us_per_second). set (f := us mod us_per_day mod us_per_second).
  fold (format_time s f). rewrite !str_app_assoc.
  change (format_offset 0) with "+00:00". unfold fromisoformat, parse_date.
  rewrite parse_fmt by lia. cbn [mbind option_bind String.append]. rewrite parse_char_app.
  cbn [mbind option_bind]. rewrite parse_fmt by lia. cbn [mbind option_bind String.append].
  rewrite parse_char_app. cbn [mbind option_bind]. rewrite parse_fmt by lia.
  cbn [mbind option_bind String.append].
  rewrite split_sign_app by apply no_sign_format_time.
  change (split_sign "+00:00") with (EmptyString, Some (1, "00:00")).
  cbv beta iota. rewrite str_app_nil_r.
  assert (0 <= s < 86400) by (subst s; unfold us_per_day, us_per_second;
    Z.to_euclidean_division_equations; lia).
  rewrite parse_format_time by (done || (by apply Z.mod_pos_bound)).
  cbn [mbind option_bind]. subst s f. rewrite (make_us_day us y m d Hr Hymd). done.
Qed.
