(* ===== verification/Schema.v ===== *)
(** * Request and response models ([server/src/api/schema.py])

    The pydantic models as records, with their field constraints and model
    validators as functions.  A pydantic [pattern] is matched by Rust's regex
    engine, whose [$] is the end of the string only: [re_full], where the
    service's own validators use Python's [re.match] ([re_match]). *)

From Stdlib Require Import Ascii.
From S2P Require Import Prelude PyString PyDict PyTime Regex.

(** ** Images, resources, network policy *)

Record ImageAuth := { username : string; password : string }.
Record ImageSpec := { uri : string; auth : option ImageAuth }.

Record NetworkRule := { action : string; target : string }.
Record NetworkPolicy := { default_action : option string; egress : list NetworkRule }.

(** ** Volumes *)

Record Host := { host_path : string }.
Record PVC := { claim_name : string }.
Record OSSFS := {
  bucket : string;
  endpoint : string;
  version : string;
  options : option (list string);
  access_key_id : option string;
  access_key_secret : option string }.

Record Volume := {
  vol_name : string;
  vol_host : option Host;
  vol_pvc : option PVC;
  vol_ossfs : option OSSFS;
  mount_path : string;
  read_only : bool;
  sub_path : option string }.

(** Character classes shared by the name patterns. *)
Definition lower_alnum (c : ascii) : bool := in_range 97 122 c || is_digit c.
Definition lower_alnum_dash (c : ascii) : bool := lower_alnum c || bool_decide (c = "-"%char).
Definition alpha (c : ascii) : bool := in_range 65 90 c || in_range 97 122 c.

(** [^[a-z0-9]([-a-z0-9]*[a-z0-9])?$] *)
Definition dns_label : regex := edged lower_alnum lower_alnum_dash.

(** [Host.path]: pattern [^(/|[A-Za-z]:[\\/])], a prefix of the path. *)
Definition host_path_pattern (p : string) : bool :=
  match p with
  | String a p' =>
      bool_decide (a = "/"%char) ||
      (alpha a && match p' with
                  | String b (String c _) =>
                      bool_decide (b = ":"%char) && (bool_decide (c = "/"%char) || (code c =? 92)%N)
                  | _ => false
                  end)
  | EmptyString => false
  end.

(** [PVC.claim_name]: pattern and [max_length]. *)
Definition pvc_fields_ok (p : PVC) : bool :=
  re_full dns_label (claim_name p) && (len (claim_name p) <=? 253).

(** [OSSFS]: field lengths, the literal versions and [validate_inline_credentials]. *)
Definition min_length_opt (n : nat) (o : option string) : bool :=
  match o with Some s => n <=? len s | None => true end.

Definition validate_inline_credentials (o : OSSFS) : result unit :=
  raise_if (negb (truthy_opt (access_key_id o)) || negb (truthy_opt (access_key_secret o)))
    (PyException ValueError
       "OSSFS inline credentials are required: accessKeyId and accessKeySecret.").

Definition ossfs_fields_ok (o : OSSFS) : bool :=
  (3 <=? len (bucket o)) && (len (bucket o) <=? 63)
  && (1 <=? len (endpoint o))
  && (bool_decide (version o = "1.0") || bool_decide (version o = "2.0"))
  && min_length_opt 1 (access_key_id o) && min_length_opt 1 (access_key_secret o)
  && is_ok (validate_inline_credentials o).

Definition count_backends (v : Volume) : nat :=
  (if vol_host v is Some _ then 1 else 0) + (if vol_pvc v is Some _ then 1 else 0)
  + (if vol_ossfs v is Some _ then 1 else 0).

(** [Volume.validate_exactly_one_backend] *)
Definition validate_exactly_one_backend (v : Volume) : result unit :=
  raise_if (count_backends v =? 0)
    (PyException ValueError
       "Exactly one backend (host, pvc, ossfs) must be specified, but none was provided.");;
  raise_if (1 <? count_backends v)
    (PyException ValueError
       "Exactly one backend (host, pvc, ossfs) must be specified, but multiple were provided.").

Definition opt_ok {A} (p : A → bool) (o : option A) : bool :=
  match o with Some a => p a | None => true end.

(** What pydantic has checked of a [Volume] before a service sees it. *)
Definition volume_fields_ok (v : Volume) : bool :=
  re_full dns_label (vol_name v) && (len (vol_name v) <=? 63)
  && opt_ok (λ h, host_path_pattern (host_path h)) (vol_host v)
  && opt_ok pvc_fields_ok (vol_pvc v)
  && opt_ok ossfs_fields_ok (vol_ossfs v)
  && startswith (mount_path v) "/"
  && is_ok (validate_exactly_one_backend v).

(** ** Sandboxes *)

Record SandboxStatus := {
  state : string;
  reason : option string;
  status_message : option string;
  last_transition_at : option datetime }.

Record CreateSandboxRequest := {
  image : ImageSpec;
  timeout : option Z;
  resource_limits : dict string;
  env : option (dict (option string));
  req_metadata : option (dict string);
  entrypoint : list string;
  network_policy : option NetworkPolicy;
  volumes : option (list Volume);
  extensions : option (dict string) }.

Record CreateSandboxResponse := {
  resp_id : string;
  resp_status : SandboxStatus;
  resp_metadata : option (dict string);
  resp_expires_at : option datetime;
  resp_created_at : datetime;
  resp_entrypoint : list string }.

Record Sandbox := {
  sb_id : string;
  sb_image : ImageSpec;
  sb_status : SandboxStatus;
  sb_metadata : option (dict string);
  sb_entrypoint : list string;
  sb_expires_at : option datetime;
  sb_created_at : datetime;
  sb_last_activity_at : option datetime }.

(** ** Listing *)

Record SandboxFilter := {
  filter_state : option (list string);
  filter_metadata : option (dict string) }.

Record PaginationRequest := { page : Z; page_size : Z }.

(** [ge=1], [le=200] *)
Definition pagination_ok (p : PaginationRequest) : bool :=
  ((1 <=? page p) && (1 <=? page_size p) && (page_size p <=? 200))%Z.

Record ListSandboxesRequest := {
  list_filter : SandboxFilter;
  list_pagination : option PaginationRequest }.

Record PaginationInfo := {
  info_page : Z;
  info_page_size : Z;
  total_items : Z;
  total_pages : Z;
  has_next_page : bool }.

Record ListSandboxesResponse := {
  items : list Sandbox;
  pagination : PaginationInfo }.

(** ** Expiration, endpoints *)

Record RenewSandboxExpirationRequest := { renew_expires_at : datetime }.
Record RenewSandboxExpirationResponse := { renewed_expires_at : datetime }.

Record Endpoint := { ep_endpoint : string; ep_headers : option (dict string) }.

(** ** Resource updates ([UpdateResourceLimitsRequest]) *)

Record UpdateResourceLimitsRequest := {
  upd_cpu : option string;
  upd_memory : option string;
  upd_storage : option string }.

(** [^\d+m?$] *)
Definition CPU_PATTERN : regex := RCat (RPlus (RClass is_digit)) (ROpt (RChar "m")).

(** [^\d+(\.\d+)?(E|P|T|G|M|K|Ei|Pi|Ti|Gi|Mi|Ki)?$] *)
Definition quantity_suffix : regex :=
  foldr RAlt REmpty
    (RLit <$> ["E"; "P"; "T"; "G"; "M"; "K"; "Ei"; "Pi"; "Ti"; "Gi"; "Mi"; "Ki"]).
Definition K8S_RESOURCE_PATTERN : regex :=
  RCat (RPlus (RClass is_digit))
    (RCat (ROpt (RCat (RChar ".") (RPlus (RClass is_digit)))) (ROpt quantity_suffix)).

Definition validate_cpu (v : option string) : result (option string) :=
  match v with
  | Some s =>
      if negb (re_match CPU_PATTERN s)
      then Raise (PyException ValueError ("Invalid CPU format '" +:+ s
             +:+ "'. Must match pattern ^\d+m?$ (e.g. '500m', '1', '2000m')"))
      else Ok v
  | None => Ok v
  end.

Definition validate_memory (v : option string) : result (option string) :=
  match v with
  | Some s =>
      if negb (re_match K8S_RESOURCE_PATTERN s)
      then Raise (PyException ValueError ("Invalid memory format '" +:+ s
             +:+ "'. Must be a valid K8s resource quantity (e.g. '512Mi', '1Gi', '2Gi')"))
      else Ok v
  | None => Ok v
  end.

Definition validate_storage (v : option string) : result (option string) :=
  match v with
  | Some s =>
      if negb (re_match K8S_RESOURCE_PATTERN s)
      then Raise (PyException ValueError ("Invalid storage format '" +:+ s
             +:+ "'. Must be a valid K8s resource quantity (e.g. '5Gi', '10Gi')"))
      else Ok v
  | None => Ok v
  end.

Definition validate_at_least_one_field (r : UpdateResourceLimitsRequest) : result unit :=
  raise_if (match upd_cpu r, upd_memory r, upd_storage r with
            | None, None, None => true | _, _, _ => false end)
    (PyException ValueError
       "At least one resource limit field (cpu, memory, storage) must be provided").

(** What pydantic has checked of the request. *)
Definition update_limits_ok (r : UpdateResourceLimitsRequest) : bool :=
  is_ok (validate_cpu (upd_cpu r)) && is_ok (validate_memory (upd_memory r))
  && is_ok (validate_storage (upd_storage r)) && is_ok (validate_at_least_one_field r).

Record UpdateSandboxResourceLimitsResponse := {
  limits_id : string;
  limits_status : SandboxStatus;
  limits_now : dict string }.

Record UpdateSandboxEnvResponse := { env_id : string; env_now : dict string }.

(** * Shared constants ([server/src/services/constants.py]) *)

Definition RESERVED_LABEL_PREFIX : string := "opensandbox.io/".

Definition SANDBOX_ID_LABEL : string := "opensandbox.io/id".
Definition SANDBOX_EXPIRES_AT_LABEL : string := "opensandbox.io/expires-at".
Definition SANDBOX_MANUAL_CLEANUP_LABEL : string := "opensandbox.io/manual-cleanup".
Definition SANDBOX_LAST_ACTIVITY_AT_LABEL : string := "opensandbox.io/last-activity-at".
Definition SANDBOX_EMBEDDING_PROXY_PORT_LABEL : string := "opensandbox.io/embedding-proxy-port".
Definition SANDBOX_HTTP_PORT_LABEL : string := "opensandbox.io/http-port".
Definition SANDBOX_OSSFS_MOUNTS_LABEL : string := "opensandbox.io/ossfs-mounts".
Definition OPEN_SANDBOX_INGRESS_HEADER : string := "OpenSandbox-Ingress-To".
Definition OPEN_SANDBOX_EGRESS_AUTH_HEADER : string := "OPENSANDBOX-EGRESS-AUTH".
Definition SANDBOX_EGRESS_AUTH_TOKEN_METADATA_KEY : string := "opensandbox.io/egress-auth-token".

(** [class SandboxErrorCodes] *)
Module SandboxErrorCodes.
Definition CONTAINER_QUERY_FAILED : string := "DOCKER::SANDBOX_QUERY_FAILED".
Definition SANDBOX_NOT_FOUND : string := "DOCKER::SANDBOX_NOT_FOUND".
Definition IMAGE_PULL_FAILED : string := "DOCKER::SANDBOX_IMAGE_PULL_FAILED".
Definition CONTAINER_START_FAILED : string := "DOCKER::SANDBOX_START_FAILED".
Definition SANDBOX_DELETE_FAILED : string := "DOCKER::SANDBOX_DELETE_FAILED".
Definition SANDBOX_NOT_RUNNING : string := "DOCKER::SANDBOX_NOT_RUNNING".
Definition SANDBOX_PAUSE_FAILED : string := "DOCKER::SANDBOX_PAUSE_FAILED".
Definition SANDBOX_NOT_PAUSED : string := "DOCKER::SANDBOX_NOT_PAUSED".
Definition SANDBOX_RESUME_FAILED : string := "DOCKER::SANDBOX_RESUME_FAILED".
Definition INVALID_EXPIRATION : string := "DOCKER::INVALID_EXPIRATION".
Definition EXECD_START_FAILED : string := "DOCKER::SANDBOX_EXECD_START_FAILED".
Definition EXECD_DISTRIBUTION_FAILED : string := "DOCKER::SANDBOX_EXECD_DISTRIBUTION_FAILED".
Definition BOOTSTRAP_INSTALL_FAILED : string := "DOCKER::SANDBOX_BOOTSTRAP_INSTALL_FAILED".
Definition INVALID_ENTRYPOINT : string := "DOCKER::INVALID_ENTRYPOINT".
Definition INVALID_PORT : string := "DOCKER::INVALID_PORT".
Definition NETWORK_MODE_ENDPOINT_UNAVAILABLE : string := "DOCKER::NETWORK_MODE_ENDPOINT_UNAVAILABLE".

Definition K8S_INITIALIZATION_ERROR : string := "KUBERNETES::INITIALIZATION_ERROR".
Definition K8S_SANDBOX_NOT_FOUND : string := "KUBERNETES::SANDBOX_NOT_FOUND".
Definition K8S_POD_READY_TIMEOUT : string := "KUBERNETES::POD_READY_TIMEOUT".
Definition K8S_API_ERROR : string := "KUBERNETES::API_ERROR".
Definition K8S_POD_IP_NOT_AVAILABLE : string := "KUBERNETES::POD_IP_NOT_AVAILABLE".
Definition K8S_INVALID_STATE : string := "KUBERNETES::INVALID_STATE".
Definition K8S_PVC_EXPAND_FAILED : string := "KUBERNETES::PVC_EXPAND_FAILED".
Definition K8S_PVC_SHRINK_NOT_SUPPORTED : string := "KUBERNETES::PVC_SHRINK_NOT_SUPPORTED".
Definition K8S_VOLUME_EXPANSION_NOT_SUPPORTED : string := "KUBERNETES::VOLUME_EXPANSION_NOT_SUPPORTED".
Definition K8S_RESOURCE_UPDATE_FAILED : string := "KUBERNETES::RESOURCE_UPDATE_FAILED".

Definition API_NOT_SUPPORTED : string := "SANDBOX::API_NOT_SUPPORTED".
Definition INVALID_METADATA_LABEL : string := "SANDBOX::INVALID_METADATA_LABEL".
Definition INVALID_PARAMETER : string := "SANDBOX::INVALID_PARAMETER".

Definition INVALID_VOLUME_NAME : string := "VOLUME::INVALID_NAME".
Definition DUPLICATE_VOLUME_NAME : string := "VOLUME::DUPLICATE_NAME".
Definition INVALID_VOLUME_BACKEND : string := "VOLUME::INVALID_BACKEND".
Definition INVALID_MOUNT_PATH : string := "VOLUME::INVALID_MOUNT_PATH".
Definition INVALID_SUB_PATH : string := "VOLUME::INVALID_SUB_PATH".
Definition INVALID_HOST_PATH : string := "VOLUME::INVALID_HOST_PATH".
Definition HOST_PATH_NOT_ALLOWED : string := "VOLUME::HOST_PATH_NOT_ALLOWED".
Definition INVALID_PVC_NAME : string := "VOLUME::INVALID_PVC_NAME".
Definition HOST_PATH_CREATE_FAILED : string := "VOLUME::HOST_PATH_CREATE_FAILED".
Definition PVC_VOLUME_NOT_FOUND : string := "VOLUME::PVC_NOT_FOUND".
Definition PVC_VOLUME_INSPECT_FAILED : string := "VOLUME::PVC_INSPECT_FAILED".
Definition PVC_SUBPATH_UNSUPPORTED_DRIVER : string := "VOLUME::PVC_SUBPATH_UNSUPPORTED_DRIVER".
Definition INVALID_OSSFS_VERSION : string := "VOLUME::INVALID_OSSFS_VERSION".
Definition INVALID_OSSFS_ENDPOINT : string := "VOLUME::INVALID_OSSFS_ENDPOINT".
Definition INVALID_OSSFS_BUCKET : string := "VOLUME::INVALID_OSSFS_BUCKET".
Definition INVALID_OSSFS_OPTION : string := "VOLUME::INVALID_OSSFS_OPTION".
Definition INVALID_OSSFS_CREDENTIALS : string := "VOLUME::INVALID_OSSFS_CREDENTIALS".
Definition INVALID_OSSFS_MOUNT_ROOT : string := "VOLUME::INVALID_OSSFS_MOUNT_ROOT".
Definition OSSFS_MOUNT_FAILED : string := "VOLUME::OSSFS_MOUNT_FAILED".
Definition OSSFS_UNMOUNT_FAILED : string := "VOLUME::OSSFS_UNMOUNT_FAILED".
End SandboxErrorCodes.
