(* ===== verification/Validators.v ===== *)
(** * Request validators ([server/src/services/validators.py])

    Each [ensure_*] helper returns [Ok] or raises the [HTTPException] the code
    raises.  The current time, which two of them read, is an argument.  Paths
    are POSIX paths, so [os.path.splitdrive] has an empty drive. *)

From Stdlib Require Import Ascii.
From S2P Require Import Prelude PyString Paths Regex PyDict PyTime Schema.
Import SandboxErrorCodes.

Definition bad_request (code message : string) : exn := HTTPException 400 code message.

(** ** Entry point and labels *)

Definition ensure_entrypoint (entrypoint : list string) : result unit :=
  raise_if (bool_decide (entrypoint = []))
    (bad_request INVALID_ENTRYPOINT "Entrypoint must contain at least one command.").

Definition alnum (c : ascii) : bool := alpha c || is_digit c.
Definition label_char (c : ascii) : bool :=
  alnum c || bool_decide (c = "-"%char) || bool_decide (c = "_"%char) || bool_decide (c = "."%char).

(** [[a-z0-9]([-a-z0-9]*[a-z0-9])?] *)
Definition DNS_LABEL_PATTERN : regex := dns_label.
(** [^(?:L\.)*L$] for the label pattern L *)
Definition DNS_SUBDOMAIN_RE : regex :=
  RCat (RStar (RCat DNS_LABEL_PATTERN (RChar "."))) DNS_LABEL_PATTERN.
(** [^[A-Za-z0-9]([-A-Za-z0-9_.]*[A-Za-z0-9])?$] *)
Definition LABEL_NAME_RE : regex := edged alnum label_char.
(** [^([A-Za-z0-9]([-A-Za-z0-9_.]*[A-Za-z0-9])?)?$] *)
Definition LABEL_VALUE_RE : regex := ROpt (edged alnum label_char).

Definition is_valid_label_name (name : string) : bool :=
  negb ((63 <? len name) || negb (re_match LABEL_NAME_RE name)).

Definition is_valid_label_key (key : string) : bool :=
  match split_once "/" key with
  | Some (prefix, name) =>
      if negb (truthy prefix) || negb (truthy name) then false
      else if 253 <? len prefix then false
      else if negb (re_match DNS_SUBDOMAIN_RE prefix) then false
      else is_valid_label_name name
  | None => is_valid_label_name key
  end.

Definition is_valid_label_value (value : string) : bool :=
  if 63 <? len value then false else re_match LABEL_VALUE_RE value.

Definition ensure_metadata_label (kv : string * string) : result unit :=
  let '(key, value) := kv in
  raise_if (startswith key RESERVED_LABEL_PREFIX)
    (bad_request INVALID_METADATA_LABEL
       ("Metadata key '" +:+ key +:+ "' uses the reserved prefix '" +:+ RESERVED_LABEL_PREFIX
        +:+ "'. Keys under this prefix are managed by the system and cannot be set via metadata."));;
  raise_if (negb (is_valid_label_key key))
    (bad_request INVALID_METADATA_LABEL
       ("Metadata key '" +:+ key +:+ "' is not a valid Kubernetes label key."));;
  raise_if (negb (is_valid_label_value value))
    (bad_request INVALID_METADATA_LABEL
       ("Metadata value '" +:+ value +:+ "' is not a valid Kubernetes label value.")).

Definition ensure_metadata_labels (metadata : option (dict string)) : result unit :=
  match metadata with
  | None => Ok tt
  | Some d => for_each ensure_metadata_label d
  end.

(** ** Time *)

Definition overflow_error : exn := PyException OverflowError "date value out of range".

(** [now] is [datetime.now(timezone.utc)]. *)
Definition ensure_future_expiration (now : datetime) (expires_at : datetime) : result datetime :=
  normalized ←
    match expires_at with
    | Naive us => Ok (utc us)
    | Aware us off => match to_utc us off with Some t => Ok t | None => Raise overflow_error end
    end;
  past ← dt_le normalized now;
  if (past : bool)
  then Raise (bad_request INVALID_EXPIRATION "New expiration time must be in the future.")
  else Ok normalized.

Definition ensure_valid_port (port : Z) : result unit :=
  raise_if ((port <? 1) || (65535 <? port))%Z
    (bad_request INVALID_PORT "Port must be between 1 and 65535.").

Definition calculate_expiration_or_raise (created_at : datetime) (timeout_seconds : Z) : result datetime :=
  match timedelta_seconds timeout_seconds ≫= dt_add created_at with
  | Some t => Ok t
  | None => Raise (bad_request INVALID_PARAMETER
              ("Sandbox timeout " +:+ str_of_Z timeout_seconds +:+ "s is too large to represent safely."))
  end.

Definition ensure_timeout_within_limit (now : datetime) (timeout_seconds max_timeout_seconds : option Z)
  : result unit :=
  match timeout_seconds with
  | None => Ok tt
  | Some timeout =>
      calculate_expiration_or_raise now timeout;;
      match max_timeout_seconds with
      | None => Ok tt
      | Some max_timeout =>
          raise_if (max_timeout <? timeout)%Z
            (bad_request INVALID_PARAMETER
               ("Sandbox timeout " +:+ str_of_Z timeout +:+ "s exceeds configured maximum of "
                +:+ str_of_Z max_timeout +:+ "s."))
      end
  end.

(** ** Volumes *)

Definition VOLUME_NAME_RE : regex := dns_label.
Definition K8S_RESOURCE_NAME_RE : regex := dns_label.

Definition ensure_valid_volume_name (name : string) : result unit :=
  raise_if (negb (truthy name))
    (bad_request INVALID_VOLUME_NAME "Volume name cannot be empty.");;
  raise_if (63 <? len name)
    (bad_request INVALID_VOLUME_NAME
       ("Volume name '" +:+ name +:+ "' exceeds maximum length of 63 characters."));;
  raise_if (negb (re_match VOLUME_NAME_RE name))
    (bad_request INVALID_VOLUME_NAME
       ("Volume name '" +:+ name +:+ "' is not a valid DNS label. Must be lowercase alphanumeric with optional hyphens.")).

Definition ensure_valid_mount_path (mount_path : string) : result unit :=
  raise_if (negb (truthy mount_path))
    (bad_request INVALID_MOUNT_PATH "Mount path cannot be empty.");;
  raise_if (negb (startswith mount_path "/"))
    (bad_request INVALID_MOUNT_PATH
       ("Mount path '" +:+ mount_path +:+ "' must be an absolute path starting with '/'.")).

Definition ensure_valid_sub_path (sub_path : option string) : result unit :=
  match sub_path with
  | None => Ok tt
  | Some p =>
      if negb (truthy p) then Ok tt
      else
        raise_if (startswith p "/")
          (bad_request INVALID_SUB_PATH
             ("SubPath '" +:+ p +:+ "' must be a relative path, not absolute."));;
        for_each (λ part,
            raise_if (bool_decide (part = ".."))
              (bad_request INVALID_SUB_PATH
                 ("SubPath '" +:+ p +:+ "' contains path traversal '..' which is not allowed.")))
          (split_on slash p)
  end.

(** [os.path.normpath(path)] equals or lies below one of the prefixes. *)
Definition host_path_allowed (path : string) (allowed_prefixes : list string) : bool :=
  let norm_path := normpath path in
  existsb (λ prefix, bool_decide (norm_path = normpath prefix)
                     || startswith norm_path (normpath prefix +:+ "/")) allowed_prefixes.

Definition ensure_valid_host_path (path : string) (allowed_prefixes : option (list string)) : result unit :=
  raise_if (negb (truthy path))
    (bad_request INVALID_HOST_PATH "Host path cannot be empty.");;
  raise_if (negb (isabs path))
    (bad_request INVALID_HOST_PATH ("Host path '" +:+ path +:+ "' must be an absolute path."));;
  let tail_fwd := replace_char backslash slash path in
  raise_if (contains tail_fwd "/.." || bool_decide (tail_fwd = "/.."))
    (bad_request INVALID_HOST_PATH ("Host path '" +:+ path +:+ "' contains path traversal component '..'."));;
  raise_if (contains tail_fwd "//" || ((1 <? len tail_fwd) && endswith tail_fwd "/"))
    (bad_request INVALID_HOST_PATH
       ("Host path '" +:+ path +:+ "' is not normalized. Remove redundant slashes."));;
  match allowed_prefixes with
  | None => Ok tt
  | Some prefixes =>
      raise_if (negb (host_path_allowed path prefixes))
        (bad_request HOST_PATH_NOT_ALLOWED
           ("Host path '" +:+ path +:+ "' is not under any allowed prefix. Allowed prefixes: "
            +:+ repr_list prefixes))
  end.

Definition ensure_valid_pvc_name (claim_name : string) : result unit :=
  raise_if (negb (truthy claim_name))
    (bad_request INVALID_PVC_NAME "PVC claim name cannot be empty.");;
  raise_if (253 <? len claim_name)
    (bad_request INVALID_PVC_NAME
       ("PVC claim name '" +:+ claim_name +:+ "' exceeds maximum length of 253 characters."));;
  raise_if (negb (re_match K8S_RESOURCE_NAME_RE claim_name))
    (bad_request INVALID_PVC_NAME
       ("PVC claim name '" +:+ claim_name +:+ "' is not a valid Kubernetes resource name.")).

Definition ensure_valid_ossfs_option (opt : string) : result unit :=
  raise_if (negb (truthy (strip opt)))
    (bad_request INVALID_OSSFS_OPTION "OSSFS options must be non-empty strings.");;
  raise_if (startswith (strip opt) "-")
    (bad_request INVALID_OSSFS_OPTION
       "OSSFS options must be raw option payloads without '-' prefix (e.g. 'allow_other', 'uid=1000').").

Definition ossfs_credentials_error : exn :=
  bad_request INVALID_OSSFS_CREDENTIALS
    "OSSFS inline credentials are required: accessKeyId and accessKeySecret must be provided.".

Definition ensure_valid_ossfs_volume (ossfs : OSSFS) : result unit :=
  raise_if (negb (truthy (strip (bucket ossfs))))
    (bad_request INVALID_OSSFS_BUCKET "OSSFS bucket cannot be empty.");;
  raise_if (negb (truthy (strip (endpoint ossfs))))
    (bad_request INVALID_OSSFS_ENDPOINT "OSSFS endpoint cannot be empty.");;
  match options ossfs with
  | None => Ok tt
  | Some opts => for_each ensure_valid_ossfs_option opts
  end;;
  raise_if (negb (truthy_opt (access_key_id ossfs)) || negb (truthy_opt (access_key_secret ossfs)))
    ossfs_credentials_error.

(** [egress_image] is [egress_config.image] when there is an egress configuration. *)
Definition ensure_egress_configured (network_policy : option NetworkPolicy) (egress_image : option string)
  : result unit :=
  match network_policy with
  | None => Ok tt
  | Some _ =>
      raise_if (negb (truthy_opt egress_image))
        (bad_request INVALID_PARAMETER "egress.image must be configured when networkPolicy is provided.")
  end.

(** The body of the loop of [ensure_volumes_valid] after the duplicate check. *)
Definition ensure_volume_valid (allowed_host_prefixes : option (list string)) (volume : Volume) : result unit :=
  ensure_valid_volume_name (vol_name volume);;
  ensure_valid_mount_path (mount_path volume);;
  ensure_valid_sub_path (sub_path volume);;
  raise_if (count_backends volume =? 0)
    (bad_request INVALID_VOLUME_BACKEND
       ("Volume '" +:+ vol_name volume +:+ "' must specify exactly one backend (host, pvc, ossfs), but none was provided."));;
  raise_if (1 <? count_backends volume)
    (bad_request INVALID_VOLUME_BACKEND
       ("Volume '" +:+ vol_name volume +:+ "' must specify exactly one backend (host, pvc, ossfs), but multiple were provided."));;
  match vol_host volume with
  | Some h => ensure_valid_host_path (host_path h) allowed_host_prefixes
  | None => Ok tt
  end;;
  match vol_pvc volume with
  | Some p => ensure_valid_pvc_name (claim_name p)
  | None => Ok tt
  end;;
  match vol_ossfs volume with
  | Some o => ensure_valid_ossfs_volume o
  | None => Ok tt
  end.

Fixpoint ensure_volumes_loop (allowed_host_prefixes : option (list string))
    (seen_names : list string) (volumes : list Volume) : result unit :=
  match volumes with
  | [] => Ok tt
  | volume :: rest =>
      raise_if (bool_decide (vol_name volume ∈ seen_names))
        (bad_request DUPLICATE_VOLUME_NAME
           ("Duplicate volume name '" +:+ vol_name volume +:+ "'. Each volume must have a unique name."));;
      ensure_volume_valid allowed_host_prefixes volume;;
      ensure_volumes_loop allowed_host_prefixes (vol_name volume :: seen_names) rest
  end.

Definition ensure_volumes_valid (volumes : option (list Volume)) (allowed_host_prefixes : option (list string))
  : result unit :=
  match volumes with
  | None => Ok tt
  | Some vs => ensure_volumes_loop allowed_host_prefixes [] vs
  end.

(** ** What the validators accept *)

(** A Python [^...$] pattern also accepts one newline after its language. *)
Definition py_anchored (P : string → Prop) (s : string) : Prop :=
  P s ∨ ∃ t, s = t +:+ newline ∧ P t.

Definition dns_label_text (s : string) : Prop := edged_ok lower_alnum lower_alnum_dash s = true.
Definition label_text (s : string) : Prop := edged_ok alnum label_char s = true.

Lemma dns_label_match s : re_match dns_label s = true ↔ py_anchored dns_label_text s.
Proof.
  assert (∀ t, matches dns_label t ↔ dns_label_text t) as H.
  { intros t. apply edged_spec. intros c Hc. unfold lower_alnum_dash. by rewrite Hc. }
  rewrite re_match_spec. unfold py_anchored. by setoid_rewrite H.
Qed.

Lemma label_edged t : matches (edged alnum label_char) t ↔ label_text t.
Proof. apply edged_spec. intros c Hc. unfold label_char. by rewrite Hc. Qed.

Lemma label_name_match s : re_match LABEL_NAME_RE s = true ↔ py_anchored label_text s.
Proof. rewrite re_match_spec. unfold py_anchored, LABEL_NAME_RE. by setoid_rewrite label_edged. Qed.

Lemma label_value_match s :
  re_match LABEL_VALUE_RE s = true ↔ py_anchored (λ t, t = EmptyString ∨ label_text t) s.
Proof.
  rewrite re_match_spec. unfold py_anchored, LABEL_VALUE_RE, ROpt.
  setoid_rewrite matches_alt. setoid_rewrite matches_eps. by setoid_rewrite label_edged.
Qed.

Definition safe_sub_path (o : option string) : Prop :=
  match o with
  | None => True
  | Some p => p = EmptyString ∨ startswith p "/" = false ∧ dotdot ∉ split_on slash p
  end.

Lemma truthy_true s : truthy s = true ↔ s ≠ EmptyString.
Proof. by destruct s. Qed.

Lemma truthy_false s : truthy s = false ↔ s = EmptyString.
Proof. by destruct s. Qed.

Lemma ensure_valid_sub_path_Ok o : ensure_valid_sub_path o = Ok tt ↔ safe_sub_path o.
Proof.
  destruct o as [p|]; cbn; [|done]. destruct (truthy p) eqn:Hp; cbn.
  - apply truthy_true in Hp. results. setoid_rewrite raise_if_Ok.
    rewrite Forall_forall. setoid_rewrite bool_decide_eq_false.
    split; [intros [? Hf]; right|intros [?|[? Hf]]]; try done; split; try done.
    + intros Hin. by apply (Hf _ Hin).
    + intros w Hw ->. done.
  - apply truthy_false in Hp as ->. split; [by left|done].
Qed.

(** The conditions on one volume, without reference to the code. *)
Record volume_admissible (allowed : option (list string)) (v : Volume) : Prop := {
  va_name : py_anchored dns_label_text (vol_name v) ∧ len (vol_name v) ≤ 63;
  va_mount : startswith (mount_path v) "/" = true;
  va_sub : safe_sub_path (sub_path v);
  va_backend : count_backends v = 1;
  va_host : ∀ h, vol_host v = Some h →
    let p := replace_char backslash slash (host_path h) in
    startswith (host_path h) "/" = true ∧ contains p "/.." = false ∧ contains p "//" = false ∧
    (p = "/" ∨ endswith p "/" = false) ∧
    (∀ prefixes, allowed = Some prefixes →
       ∃ q, q ∈ prefixes ∧ (normpath (host_path h) = normpath q
                            ∨ startswith (normpath (host_path h)) (normpath q +:+ "/") = true));
  va_pvc : ∀ p, vol_pvc v = Some p →
    py_anchored dns_label_text (claim_name p) ∧ len (claim_name p) ≤ 253;
  va_ossfs : ∀ o, vol_ossfs v = Some o →
    strip (bucket o) ≠ EmptyString ∧ strip (endpoint o) ≠ EmptyString ∧
    (∀ opts x, options o = Some opts → x ∈ opts →
       strip x ≠ EmptyString ∧ startswith (strip x) "-" = false) ∧
    truthy_opt (access_key_id o) = true ∧ truthy_opt (access_key_secret o) = true }.

Lemma dns_label_nonempty s : py_anchored dns_label_text s → s ≠ EmptyString.
Proof. intros [H|(t&->&H)] E; [by subst|]. by destruct t. Qed.

Lemma name_check_Ok (n : nat) e1 e2 e3 s :
  (raise_if (negb (truthy s)) e1;; raise_if (n <? len s) e2;;
   raise_if (negb (re_match dns_label s)) e3) = Ok tt
  ↔ py_anchored dns_label_text s ∧ len s ≤ n.
Proof.
  results. rewrite dns_label_match, truthy_true.
  split; [naive_solver|]. intros [? ?]. eauto using dns_label_nonempty.
Qed.

Lemma ensure_valid_mount_path_Ok s : ensure_valid_mount_path s = Ok tt ↔ startswith s "/" = true.
Proof.
  unfold ensure_valid_mount_path. results. rewrite truthy_true.
  split; [naive_solver|]. intros H. split; [|done]. by intros ->.
Qed.

Lemma host_path_allowed_true p l :
  host_path_allowed p l = true ↔
  ∃ q, q ∈ l ∧ (normpath p = normpath q ∨ startswith (normpath p) (normpath q +:+ "/") = true).
Proof.
  unfold host_path_allowed. rewrite existsb_exists. setoid_rewrite <-list_elem_of_In.
  by setoid_rewrite orb_true_iff; setoid_rewrite bool_decide_eq_true.
Qed.

Lemma ensure_valid_host_path_Ok p allowed :
  ensure_valid_host_path p allowed = Ok tt ↔
  startswith p "/" = true ∧
  (let q := replace_char backslash slash p in
   contains q "/.." = false ∧ contains q "//" = false ∧ (q = "/" ∨ endswith q "/" = false)) ∧
  (∀ prefixes, allowed = Some prefixes → host_path_allowed p prefixes = true).
Proof.
  unfold ensure_valid_host_path, isabs. cbv zeta. rewrite !result_bind_unit_Ok, !raise_if_Ok.
  rewrite !negb_false_iff, !orb_false_iff, andb_false_iff, bool_decide_eq_false, truthy_true, Nat.ltb_ge.
  set (q := replace_char backslash slash p).
  assert (startswith p "/" = true → startswith q "/" = true) as Hq.
  { destruct p as [|c p]; [done|]. cbn. rewrite !andb_true_r, !bool_decide_eq_true.
    intros <-. done. }
  assert ((match allowed with None => Ok tt
           | Some prefixes => raise_if (negb (host_path_allowed p prefixes))
               (bad_request HOST_PATH_NOT_ALLOWED
                  ("Host path '" +:+ p +:+ "' is not under any allowed prefix. Allowed prefixes: "
                   +:+ repr_list prefixes)) end = Ok tt)
          ↔ ∀ prefixes, allowed = Some prefixes → host_path_allowed p prefixes = true) as ->.
  { destruct allowed; [|naive_solver]. rewrite raise_if_Ok, negb_false_iff. naive_solver. }
  split.
  - intros (Hne&Habs&[Hdd _]&[Hs Hend]&Hall). split_and!; try done.
    destruct Hend as [Hlen|?]; [left|by right].
    specialize (Hq Habs). apply startswith_true in Hq as [u Hu]. rewrite Hu in Hlen |- *.
    cbn in Hlen. destruct u; [done|]. cbn in Hlen. lia.
  - intros (Habs&(Hdd&Hs&Hend)&Hall). split_and!; try done.
    + by intros ->.
    + intros E. rewrite E in Hdd. done.
    + destruct Hend as [E|?]; [left; by rewrite E|by right].
Qed.

Lemma ensure_valid_ossfs_volume_Ok o :
  ensure_valid_ossfs_volume o = Ok tt ↔
  strip (bucket o) ≠ EmptyString ∧ strip (endpoint o) ≠ EmptyString ∧
  (∀ opts x, options o = Some opts → x ∈ opts →
     strip x ≠ EmptyString ∧ startswith (strip x) "-" = false) ∧
  truthy_opt (access_key_id o) = true ∧ truthy_opt (access_key_secret o) = true.
Proof.
  unfold ensure_valid_ossfs_volume, ensure_valid_ossfs_option.
  rewrite !result_bind_unit_Ok, !raise_if_Ok, !negb_false_iff, !orb_false_iff, !negb_false_iff, !truthy_true.
  do 2 f_equiv. destruct (options o) as [opts|]; [|naive_solver].
  rewrite for_each_Ok, Forall_forall. setoid_rewrite result_bind_unit_Ok.
  setoid_rewrite raise_if_Ok. setoid_rewrite negb_false_iff. setoid_rewrite truthy_true.
  naive_solver.
Qed.

Lemma ensure_valid_volume_name_Ok s :
  ensure_valid_volume_name s = Ok tt ↔ py_anchored dns_label_text s ∧ len s ≤ 63.
Proof. apply name_check_Ok. Qed.

Lemma ensure_valid_pvc_name_Ok s :
  ensure_valid_pvc_name s = Ok tt ↔ py_anchored dns_label_text s ∧ len s ≤ 253.
Proof. apply name_check_Ok. Qed.

Lemma opt_check_Ok {A} (f : A → result unit) (o : option A) :
  match o with Some a => f a | None => Ok tt end = Ok tt ↔ ∀ a, o = Some a → f a = Ok tt.
Proof. destruct o; naive_solver. Qed.

Lemma ensure_volume_valid_Ok allowed v :
  ensure_volume_valid allowed v = Ok tt ↔ volume_admissible allowed v.
Proof.
  unfold ensure_volume_valid.
  rewrite !result_bind_unit_Ok, !raise_if_Ok, !opt_check_Ok, Nat.eqb_neq, Nat.ltb_ge,
    ensure_valid_volume_name_Ok, ensure_valid_mount_path_Ok, ensure_valid_sub_path_Ok.
  setoid_rewrite ensure_valid_host_path_Ok. setoid_rewrite host_path_allowed_true.
  setoid_rewrite ensure_valid_pvc_name_Ok. setoid_rewrite ensure_valid_ossfs_volume_Ok.
  split.
  - intros (?&?&?&?&?&Hh&?&?). constructor; try done; [lia|].
    intros h Hv. destruct (Hh h Hv) as (?&(?&?&?)&?). split_and!; done.
  - intros [[? ?] ? ? ? Hh ? ?]. split_and!; try done; try lia.
    intros h Hv. destruct (Hh h Hv) as (?&?&?&?&?). split_and!; done.
Qed.

Lemma ensure_volumes_loop_Ok allowed seen vs :
  ensure_volumes_loop allowed seen vs = Ok tt ↔
  NoDup (vol_name <$> vs) ∧ (∀ n, n ∈ vol_name <$> vs → n ∉ seen) ∧
  Forall (volume_admissible allowed) vs.
Proof.
  revert seen. induction vs as [|v vs IH]; intros seen; cbn [ensure_volumes_loop].
  - split; [intros _|done]. split_and!; [constructor|set_solver|constructor].
  - rewrite !result_bind_unit_Ok, raise_if_Ok, bool_decide_eq_false, ensure_volume_valid_Ok, IH.
    rewrite fmap_cons, NoDup_cons, Forall_cons. setoid_rewrite elem_of_cons. set_solver.
Qed.

(** [ensure_volumes_valid] accepts exactly the volume lists whose names are
    pairwise distinct and in which every volume is admissible: a DNS label of at
    most 63 characters as name, an absolute mount path, a relative sub path
    without a [..] component, exactly one backend, and a backend that meets its
    own conditions (allow-listed normalised host path, claim name, OSSFS fields).
    Where the code uses an anchored Python pattern, one final newline is
    accepted too. *)
Theorem ensure_volumes_valid_spec (vs : list Volume) (allowed : option (list string)) :
  ensure_volumes_valid (Some vs) allowed = Ok tt ↔
  NoDup (vol_name <$> vs) ∧ Forall (volume_admissible allowed) vs.
Proof.
  cbn. rewrite ensure_volumes_loop_Ok. set_solver.
Qed.

(** ** Metadata labels *)

(** The Kubernetes rules for label keys and values. *)
Definition dns_subdomain (s : string) : Prop := matches DNS_SUBDOMAIN_RE s.

Definition k8s_label_value (v : string) : Prop := v = EmptyString ∨ label_text v.

Lemma is_valid_label_name_true n :
  is_valid_label_name n = true ↔ py_anchored label_text n ∧ len n ≤ 63.
Proof.
  unfold is_valid_label_name.
  rewrite negb_true_iff, orb_false_iff, negb_false_iff, Nat.ltb_ge, label_name_match. tauto.
Qed.

Lemma split_once_spec c s :
  match split_once c s with
  | Some (a, b) => s = a +:+ String c b ∧ has_char c a = false
  | None => has_char c s = false
  end.
Proof.
  induction s as [|d s IH]; [done|]. cbn. case_bool_decide as E; [by subst|].
  destruct (split_once c s) as [[a b]|]; cbn.
  - destruct IH as [-> ?]. split; [done|]. by rewrite bool_decide_eq_false_2.
  - by rewrite IH.
Qed.

Lemma split_unique c a a' b b' :
  a +:+ String c b = a' +:+ String c b' →
  has_char c a = false → has_char c a' = false → a = a' ∧ b = b'.
Proof.
  revert a'. induction a as [|d a IH]; intros [|d' a']; cbn.
  - by intros [= ->].
  - intros [= <- _] _ [H _]%orb_false_iff. by rewrite bool_decide_eq_true_2 in H.
  - intros [= -> _] [H _]%orb_false_iff. by rewrite bool_decide_eq_true_2 in H.
  - intros [= <- H] [_ ?]%orb_false_iff [_ ?]%orb_false_iff.
    by destruct (IH a' H) as [-> ->].
Qed.

Lemma is_valid_label_value_true v :
  is_valid_label_value v = true ↔ len v ≤ 63 ∧ py_anchored k8s_label_value v.
Proof.
  unfold is_valid_label_value. destruct (Nat.ltb_spec 63 (len v)); [split; [done|lia]|].
  rewrite label_value_match. unfold k8s_label_value. naive_solver.
Qed.

Definition admissible_key (key : string) : Prop :=
  (∃ prefix name, key = prefix +:+ "/" +:+ name ∧ has_char slash prefix = false ∧
     prefix ≠ EmptyString ∧ len prefix ≤ 253 ∧ py_anchored dns_subdomain prefix ∧
     len name ≤ 63 ∧ py_anchored label_text name)
  ∨ (has_char slash key = false ∧ len key ≤ 63 ∧ py_anchored label_text key).

Lemma label_text_nonempty n : py_anchored label_text n → n ≠ EmptyString.
Proof. intros [H|(t&->&H)] E; [by subst|]. by destruct t. Qed.

Lemma is_valid_label_key_true k : is_valid_label_key k = true ↔ admissible_key k.
Proof.
  unfold is_valid_label_key, admissible_key. pose proof (split_once_spec slash k) as Hs.
  change (split_once "/" k) with (split_once slash k).
  destruct (split_once slash k) as [[prefix name]|].
  - destruct Hs as [-> Hp]. rewrite has_char_app. cbn [has_char].
    rewrite bool_decide_eq_true_2, orb_true_r by done. split.
    + intros H. left. exists prefix, name. revert H.
      destruct (truthy prefix) eqn:Ep, (truthy name) eqn:En; try done; cbn [negb orb].
      destruct (Nat.ltb_spec 253 (len prefix)); [done|].
      destruct (re_match DNS_SUBDOMAIN_RE prefix) eqn:Er; [|done]. cbn [negb].
      intros [??]%is_valid_label_name_true. apply re_match_spec in Er.
      apply truthy_true in Ep. by split_and!.
    + intros [(p'&n'&Heq&Hc&Hne&Hlen&Hdns&Hn1&Hn2)|[? _]]; [|done].
      destruct (split_unique slash prefix p' name n' Heq Hp Hc) as [<- <-].
      rewrite (proj2 (truthy_true prefix)), (proj2 (truthy_true name)) by eauto using label_text_nonempty.
      cbn [negb orb]. destruct (Nat.ltb_spec 253 (len prefix)); [lia|].
      assert (re_match DNS_SUBDOMAIN_RE prefix = true) as -> by (by apply re_match_spec). cbn [negb].
      by apply is_valid_label_name_true.
  - rewrite is_valid_label_name_true. split; [intros [??]; by right|].
    intros [(p&n&->&_)|?]; [|naive_solver]. rewrite has_char_app in Hs. cbn in Hs.
    by rewrite orb_true_r in Hs.
Qed.

(** The metadata check accepts exactly the dictionaries whose keys are
    outside the reserved prefix and whose keys and values satisfy the Kubernetes
    label rules, up to one newline at the end of the prefix, the name or the
    value, which Python's [$] lets through. *)
Theorem ensure_metadata_labels_spec (d : dict string) :
  ensure_metadata_labels (Some d) = Ok tt ↔
  ∀ key value, (key, value) ∈ d →
    startswith key RESERVED_LABEL_PREFIX = false ∧ admissible_key key ∧
    len value ≤ 63 ∧ py_anchored k8s_label_value value.
Proof.
  cbn. rewrite for_each_Ok, Forall_forall.
  assert (∀ kv, ensure_metadata_label kv = Ok tt ↔
    startswith kv.1 RESERVED_LABEL_PREFIX = false ∧ admissible_key kv.1 ∧
    len kv.2 ≤ 63 ∧ py_anchored k8s_label_value kv.2) as H.
  { intros [key value]. unfold ensure_metadata_label.
    by rewrite !result_bind_unit_Ok, !raise_if_Ok, !negb_false_iff,
      is_valid_label_key_true, is_valid_label_value_true. }
  setoid_rewrite H. split; [by intros Hd key value ?%Hd|by intros Hd [key value] ?%Hd].
Qed.

(** ** Expiration times *)

(** The UTC microsecond count of a datetime; naive ones are read as UTC. *)
Definition instant (dt : datetime) : Z :=
  match dt with Naive us => us | Aware us off => (us - off)%Z end.

Definition dt_ok (dt : datetime) : bool :=
  match dt with Naive us => dt_in_range us | Aware us _ => dt_in_range us end.

(** An expiration request is normalised to UTC and refused with 400 exactly
    when it is not later than now; the only other outcome is an
    [OverflowError] for an aware time whose UTC value has no representation. *)
Theorem ensure_future_expiration_spec (n : Z) (e : datetime) :
  dt_ok e = true →
  ensure_future_expiration (utc n) e =
  if negb (dt_in_range (instant e)) then Raise overflow_error
  else if (instant e <=? n)%Z
  then Raise (HTTPException 400 INVALID_EXPIRATION "New expiration time must be in the future.")
  else Ok (utc (instant e)).
Proof.
  unfold ensure_future_expiration, to_utc. destruct e as [us|us off]; cbn.
  - intros ->. by rewrite !Z.sub_0_r.
  - intros _. destruct (dt_in_range (us - off)); cbn; [|done]. by rewrite !Z.sub_0_r.
Qed.

Lemma ensure_future_expiration_witness :
  ensure_future_expiration (utc 5) (Aware 0 3600000000) = Raise overflow_error ∧
  ensure_future_expiration (utc 5) (Naive 7) = Ok (utc 7).
Proof.
  split; [rewrite (ensure_future_expiration_spec 5 (Aware 0 3600000000)); reflexivity|].
  rewrite (ensure_future_expiration_spec 5 (Naive 7)); reflexivity.
Defined.

(** A timeout yields the creation time plus that many seconds, or a 400 error
    exactly when the sum is past the last representable datetime. *)
Theorem calculate_expiration_spec (us timeout : Z) :
  dt_in_range us = true → (0 ≤ timeout)%Z →
  calculate_expiration_or_raise (utc us) timeout =
  if (us + timeout * us_per_second <? dt_end)%Z
  then Ok (utc (us + timeout * us_per_second))
  else Raise (bad_request INVALID_PARAMETER
         ("Sandbox timeout " +:+ str_of_Z timeout +:+ "s is too large to represent safely.")).
Proof.
  intros [Hlo%Z.leb_le Hhi%Z.ltb_lt]%andb_true_iff Ht.
  unfold calculate_expiration_or_raise, timedelta_seconds.
  pose proof (Z.div_pos timeout 86400 Ht ltac:(lia)).
  rewrite (proj2 (Z.ltb_ge (timeout / 86400) (-999999999))) by lia. cbn [orb].
  destruct (Z.ltb_spec 999999999 (timeout / 86400)) as [Hbig|Hsmall]; cbn [mbind option_bind].
  - rewrite (proj2 (Z.ltb_ge _ _)); [done|].
    assert (999999999 * 86400 ≤ timeout)%Z by (Z.to_euclidean_division_equations; lia).
    unfold dt_end, max_days, us_per_day, us_per_second in *. lia.
  - unfold dt_add, utc, dt_in_range.
    rewrite (proj2 (Z.leb_le 0 _)) by (unfold us_per_second; lia). cbn [andb].
    by destruct (_ <? _)%Z.
Qed.

Lemma calculate_expiration_witness :
  calculate_expiration_or_raise (utc 0) 60 = Ok (utc 60000000).
Proof. rewrite (calculate_expiration_spec 0 60); [reflexivity|reflexivity|lia]. Defined.

(** ** Host paths and sub paths *)

(** A host path that the allow list admits, extended by a sub path that
    [ensure_valid_sub_path] admits, is still admitted by the allow list after
    normalisation, so the second check of the Docker service is only defence in
    depth; the entries of the list are absolute and not the root. *)
Theorem host_sub_path_confined (p sub : string) (prefixes : list string) :
  ensure_valid_host_path p (Some prefixes) = Ok tt →
  ensure_valid_sub_path (Some sub) = Ok tt →
  Forall (λ q, startswith q "/" = true ∧ normpath q ≠ "/" ∧ normpath q ≠ "//") prefixes →
  host_path_allowed (normpath (path_join p sub)) prefixes = true.
Proof.
  intros (Habs&_&Hall)%ensure_valid_host_path_Ok Hsub%ensure_valid_sub_path_Ok Hpre.
  specialize (Hall prefixes eq_refl). rewrite host_path_allowed_true in Hall |- *.
  destruct Hall as (q&Hq&Hunder). exists q. split; [done|].
  rewrite Forall_forall in Hpre. destruct (Hpre q Hq) as (Hqabs&Hq1&Hq2).
  assert (startswith sub "/" = false ∧ dotdot ∉ split_on slash sub) as [Hrel Hdd].
  { destruct Hsub as [->|?]; [|done]. split; [done|]. cbn. set_solver. }
  pose proof (normpath_join_under p sub Habs Hrel Hdd) as Hju.
  assert (startswith (path_join p sub) "/" = true) as Hj.
  { apply abs_split in Habs as (k&t&->&Ht).
    by destruct (path_join_abs k t sub Ht Hrel) as (m&->&_). }
  rewrite (normpath_idemp _ Hj).
  apply (path_under_trans_slash (normpath q) (normpath p)); try done.
  - by apply normpath_abs.
  - by apply normpath_idemp.
Qed.

Lemma host_sub_path_confined_witness :
  host_path_allowed (normpath (path_join "/data/a" "x/./y")) ["/data"] = true.
Proof.
  apply (host_sub_path_confined "/data/a" "x/./y" ["/data"]); [reflexivity|reflexivity|].
  constructor; [split_and!; vm_compute; [reflexivity|discriminate|discriminate]|constructor].
Defined.

(** ** Errors *)

Definition is_400 (e : exn) : bool :=
  match e with HTTPException 400 _ _ => true | _ => false end.

(** A check that can only fail with a 400 error. *)
Definition only_400 {A} (r : result A) : Prop := ∀ e, r = Raise e → is_400 e = true.

Lemma only_400_raise_if b c m : only_400 (raise_if b (bad_request c m)).
Proof. intros e. destruct b; cbn; [intros [= <-]|]; done. Qed.

Lemma only_400_Ok {A} (a : A) : only_400 (Ok a).
Proof. by intros e. Qed.

Lemma only_400_bind {A B} (m : result A) (f : A → result B) :
  only_400 m → (∀ a, only_400 (f a)) → only_400 (m ≫= f).
Proof. intros Hm Hf e. destruct m as [a|e']; cbn; [apply Hf|]. intros [= ->]. by apply Hm. Qed.

Lemma only_400_for_each {A} (f : A → result unit) l :
  (∀ x, only_400 (f x)) → only_400 (for_each f l).
Proof.
  intros Hf. induction l as [|x l IH]; cbn; [apply only_400_Ok|]. by apply only_400_bind.
Qed.

Ltac solve_400 :=
  intros; repeat first
    [ apply only_400_raise_if | apply only_400_Ok | apply only_400_bind; intros
    | apply only_400_for_each; intros
    | match goal with |- only_400 (match ?x with _ => _ end) => destruct x end
    | assumption ].

Lemma ensure_volume_valid_400 allowed v : only_400 (ensure_volume_valid allowed v).
Proof.
  unfold ensure_volume_valid, ensure_valid_volume_name, ensure_valid_mount_path,
    ensure_valid_sub_path, ensure_valid_host_path, ensure_valid_pvc_name,
    ensure_valid_ossfs_volume, ensure_valid_ossfs_option, ossfs_credentials_error.
  solve_400.
Qed.

Lemma ensure_volumes_loop_400 allowed seen vs : only_400 (ensure_volumes_loop allowed seen vs).
Proof.
  revert seen. induction vs as [|v vs IH]; intros seen; cbn [ensure_volumes_loop]; [solve_400|].
  apply only_400_bind; [solve_400|intros _]. apply only_400_bind; [apply ensure_volume_valid_400|done].
Qed.

Lemma calculate_expiration_400 t n : only_400 (calculate_expiration_or_raise t n).
Proof. unfold calculate_expiration_or_raise. intros e. case_match; [done|]. by intros [= <-]. Qed.

(** Whatever the request holds, the checks that precede sandbox creation
    either accept it or raise an HTTP 400 error; no other exception escapes. *)
Theorem create_checks_only_400 (now : datetime) (r : CreateSandboxRequest)
    (max_timeout : option Z) (allowed : option (list string)) (egress_image : option string) :
  only_400 (ensure_entrypoint (entrypoint r);;
            ensure_metadata_labels (req_metadata r);;
            ensure_timeout_within_limit now (timeout r) max_timeout;;
            ensure_egress_configured (network_policy r) egress_image;;
            ensure_volumes_valid (volumes r) allowed).
Proof.
  unfold ensure_entrypoint, ensure_metadata_labels, ensure_metadata_label,
    ensure_timeout_within_limit, ensure_egress_configured, ensure_volumes_valid.
  repeat (apply only_400_bind; [|intros _]); solve_400;
    [apply calculate_expiration_400|apply ensure_volumes_loop_400].
Qed.
