(* ===== verification/Config.v ===== *)
(** * Server configuration ([server/src/config.py])

    The configuration blocks as records, the constraints pydantic checks on
    their fields ([*_fields_ok]) and the three model validators.  A [Literal]
    field is a string whose admissible values are part of [*_fields_ok], so that
    code that compares it with other strings can be read as it is written. *)

From Stdlib Require Import Ascii QArith.
From S2P Require Import Prelude PyString PyDict Regex.
Open Scope string_scope.

Definition INGRESS_MODE_DIRECT : string := "direct".
Definition INGRESS_MODE_GATEWAY : string := "gateway".
Definition GATEWAY_ROUTE_MODE_WILDCARD : string := "wildcard".
Definition GATEWAY_ROUTE_MODE_HEADER : string := "header".
Definition GATEWAY_ROUTE_MODE_URI : string := "uri".

Definition str_eqb (a b : string) : bool := bool_decide (a = b).
Definition one_of (s : string) (l : list string) : bool := existsb (str_eqb s) l.

(** ** Addresses *)

(** [A-Za-z0-9-] *)
Definition host_char (c : ascii) : bool :=
  in_range 65 90 c || in_range 97 122 c || is_digit c || (code c =? 45)%N.

(** [[A-Za-z0-9-]{1,63}(?:\.[A-Za-z0-9-]{1,63})+] *)
Definition host_label : regex := RRange 1 63 (RClass host_char).
Definition dotted_host : regex := RCat host_label (RPlus (RCat (RChar ".") host_label)).

(** The text that [$] ends: one trailing newline is outside of the match. *)
Definition before_dollar (s : string) : string := default s (before_newline s).

(** [_DOMAIN_RE]: the lookahead bounds the length of the matched text to 1..253,
    the negative lookahead refuses a leading hyphen. *)
Definition is_valid_domain (host : string) : bool :=
  let n := len (before_dollar host) in
  (1 <=? n)%nat && (n <=? 253)%nat && negb (startswith host "-")
  && re_match dotted_host host.

(** [_WILDCARD_DOMAIN_RE] *)
Definition is_wildcard_domain (host : string) : bool :=
  startswith host "*." && negb (startswith host "*.-")
  && re_match (RCat (RLit "*.") dotted_host) host.

(** [ipaddress.ip_address] on a text without colons: four decimal octets,
    without leading zeros. *)
Definition valid_octet (s : string) : bool :=
  truthy s && string_forallb is_digit s && (len s <=? 3)%nat
  && (digits_val 0 s <=? 255)%Z
  && negb ((1 <? len s)%nat && startswith s "0").

Definition is_valid_ip (host : string) : bool :=
  match split_on "." host with
  | [a; b; c; d] => forallb valid_octet [a; b; c; d]
  | _ => false
  end.

(** [_IPV4_WITH_PORT_RE] *)
Definition ipv4_re : regex :=
  RCat (RTimes 3 (RCat (RRange 1 3 (RClass is_digit)) (RChar "."))) (RRange 1 3 (RClass is_digit)).
Definition ipv4_with_port_re : regex :=
  RCat ipv4_re (ROpt (RCat (RChar ":") (RRange 1 5 (RClass is_digit)))).

Definition is_valid_ip_or_ip_port (address : string) : bool :=
  if negb (re_match ipv4_with_port_re address) then false else
  (* the groups [ip] and [port]: neither contains a colon *)
  let '(ip_str, port_str) :=
    match split_once ":" (before_dollar address) with
    | Some (a, b) => (a, Some b)
    | None => (before_dollar address, None)
    end in
  if negb (is_valid_ip ip_str) then false else
  match port_str with
  | None => true
  | Some p =>
      match py_int p with
      | Some port => ((1 <=? port) && (port <=? 65535))%Z
      | None => false
      end
  end.

(** ** Ingress *)

Record GatewayRouteModeConfig := { route_mode : string }.
Record GatewayConfig := { gw_address : string; gw_route : GatewayRouteModeConfig }.
Record IngressConfig := { ingress_mode : string; ingress_gateway : option GatewayConfig }.

Definition gateway_fields_ok (g : GatewayConfig) : bool :=
  truthy (gw_address g)
  && one_of (route_mode (gw_route g))
       [GATEWAY_ROUTE_MODE_WILDCARD; GATEWAY_ROUTE_MODE_HEADER; GATEWAY_ROUTE_MODE_URI].

Definition ingress_fields_ok (i : IngressConfig) : bool :=
  one_of (ingress_mode i) [INGRESS_MODE_DIRECT; INGRESS_MODE_GATEWAY]
  && match ingress_gateway i with Some g => gateway_fields_ok g | None => true end.

Definition value_error (msg : string) : exn := PyException ValueError msg.

Definition validate_ingress_mode (i : IngressConfig) : result unit :=
  let gateway_mode := str_eqb (ingress_mode i) INGRESS_MODE_GATEWAY in
  raise_if (gateway_mode && negb (bool_decide (is_Some (ingress_gateway i))))
    (value_error "gateway block must be provided when ingress.mode = 'gateway'.");;
  raise_if (str_eqb (ingress_mode i) INGRESS_MODE_DIRECT
            && bool_decide (is_Some (ingress_gateway i)))
    (value_error "gateway block must be omitted unless ingress.mode = 'gateway'.");;
  match ingress_gateway i with
  | Some g =>
      if negb gateway_mode then Ok tt else
      let hostport := gw_address g in
      raise_if (contains hostport "://")
        (value_error "ingress.gateway.address must not include a scheme; clients choose http/https.");;
      if str_eqb (route_mode (gw_route g)) GATEWAY_ROUTE_MODE_WILDCARD then
        raise_if (negb (is_wildcard_domain hostport))
          (value_error "ingress.gateway.address must be a wildcard domain (e.g., *.example.com) when gateway.route.mode is wildcard.")
      else
        raise_if (contains hostport "*")
          (value_error "ingress.gateway.address must not contain wildcard when gateway.route.mode is not wildcard.");;
        raise_if (negb (is_valid_domain hostport || is_valid_ip_or_ip_port hostport))
          (value_error "ingress.gateway.address must be a valid domain, IP, or IP:port when gateway.route.mode is not wildcard.")
  | None => Ok tt
  end.

(** ** The other blocks *)

Record ServerConfig := {
  srv_host : string;
  srv_port : Z;
  log_level : string;
  api_key : option string;
  eip : option string;
  max_sandbox_timeout_seconds : option Z;
  terminal_token_secret : option string;
  terminal_token_ttl_seconds : Z }.

Definition opt_all {A} (p : A → bool) (o : option A) : bool :=
  match o with Some a => p a | None => true end.

Definition server_fields_ok (s : ServerConfig) : bool :=
  truthy (srv_host s) && ((1 <=? srv_port s) && (srv_port s <=? 65535))%Z
  && (3 <=? len (log_level s))%nat
  && opt_all (λ n, 60 <=? n)%Z (max_sandbox_timeout_seconds s)
  && opt_all (λ k, 16 <=? len k)%nat (terminal_token_secret s)
  && (30 <=? terminal_token_ttl_seconds s)%Z.

Record ExecdInitResources := {
  init_limits : option (dict string);
  init_requests : option (dict string) }.

(** The [float] fields hold the rational number they denote. *)
Record KubernetesRuntimeConfig := {
  kubeconfig_path : option string;
  informer_enabled : bool;
  informer_resync_seconds : Z;
  informer_watch_timeout_seconds : Z;
  read_qps : Q;
  read_burst : Z;
  write_qps : Q;
  write_burst : Z;
  k8s_namespace : option string;
  service_account : option string;
  workload_provider : option string;
  batchsandbox_template_file : option string;
  sandbox_create_timeout_seconds : Z;
  sandbox_create_poll_interval_seconds : Q;
  execd_init_resources : option ExecdInitResources }.

Definition default_kubernetes : KubernetesRuntimeConfig := {|
  kubeconfig_path := None; informer_enabled := true; informer_resync_seconds := 300;
  informer_watch_timeout_seconds := 60; read_qps := 0; read_burst := 0; write_qps := 0;
  write_burst := 0; k8s_namespace := None; service_account := None; workload_provider := None;
  batchsandbox_template_file := None; sandbox_create_timeout_seconds := 60;
  sandbox_create_poll_interval_seconds := 1; execd_init_resources := None |}.

Record AgentSandboxRuntimeConfig := {
  template_file : option string;
  shutdown_policy : string;
  ingress_enabled : bool }.

Definition default_agent_sandbox : AgentSandboxRuntimeConfig :=
  {| template_file := None; shutdown_policy := "Delete"; ingress_enabled := true |}.

Record StorageConfig := {
  allowed_host_paths : list string;
  ossfs_mount_root : string;
  default_workspace_volume_size : string }.

Record EgressConfig := { egress_image : option string }.

Record RuntimeConfig := { runtime_type : string; execd_image : string }.

Definition runtime_fields_ok (r : RuntimeConfig) : bool :=
  one_of (runtime_type r) ["docker"; "kubernetes"] && truthy (execd_image r).

Record SecureRuntimeConfig := {
  secure_type : string;
  docker_runtime : option string;
  k8s_runtime_class : option string }.

Definition secure_fields_ok (s : SecureRuntimeConfig) : bool :=
  one_of (secure_type s) [EmptyString; "gvisor"; "kata"; "firecracker"].

Definition validate_secure_runtime (s : SecureRuntimeConfig) : result unit :=
  if str_eqb (secure_type s) EmptyString then
    raise_if (bool_decide (is_Some (docker_runtime s)) || bool_decide (is_Some (k8s_runtime_class s)))
      (value_error "docker_runtime and k8s_runtime_class must be omitted when secure_runtime.type is empty.")
  else
    raise_if (str_eqb (secure_type s) "firecracker"
              && negb (bool_decide (is_Some (k8s_runtime_class s))))
      (value_error "secure_runtime.k8s_runtime_class is required when secure_runtime.type is 'firecracker'.");;
    raise_if (one_of (secure_type s) ["gvisor"; "kata"]
              && negb (bool_decide (is_Some (docker_runtime s)))
              && negb (bool_decide (is_Some (k8s_runtime_class s))))
      (value_error ("At least one of secure_runtime.docker_runtime or secure_runtime.k8s_runtime_class must be specified when secure_runtime.type is '"
                    +:+ secure_type s +:+ "'.")).

Record DockerConfig := {
  network_mode : string;
  api_timeout : option Z;
  host_ip : option string;
  drop_capabilities : list string;
  apparmor_profile : option string;
  no_new_privileges : bool;
  seccomp_profile : option string;
  pids_limit : option Z }.

Definition docker_fields_ok (d : DockerConfig) : bool :=
  opt_all (λ n, 1 <=? n)%Z (api_timeout d) && opt_all (λ n, 1 <=? n)%Z (pids_limit d).

(** ** The application configuration *)

Record AppConfig := {
  server : ServerConfig;
  runtime : RuntimeConfig;
  kubernetes : option KubernetesRuntimeConfig;
  agent_sandbox : option AgentSandboxRuntimeConfig;
  ingress : option IngressConfig;
  docker : DockerConfig;
  storage : StorageConfig;
  egress_config : option EgressConfig;
  secure_runtime : option SecureRuntimeConfig }.

Definition with_kubernetes (c : AppConfig) k a : AppConfig := {|
  server := server c; runtime := runtime c; kubernetes := k; agent_sandbox := a;
  ingress := ingress c; docker := docker c; storage := storage c;
  egress_config := egress_config c; secure_runtime := secure_runtime c |}.

(** The validator returns the model, with the defaults it has filled in. *)
Definition validate_runtime_blocks (c : AppConfig) : result AppConfig :=
  if str_eqb (runtime_type (runtime c)) "docker" then
    raise_if (bool_decide (is_Some (kubernetes c)))
      (value_error "Kubernetes block must be omitted when runtime.type = 'docker'.");;
    raise_if (bool_decide (is_Some (agent_sandbox c)))
      (value_error "agent_sandbox block must be omitted when runtime.type = 'docker'.");;
    raise_if (match ingress c with
              | Some i => negb (str_eqb (ingress_mode i) INGRESS_MODE_DIRECT) | None => false end)
      (value_error "ingress.mode must be 'direct' when runtime.type = 'docker'.");;
    raise_if (match secure_runtime c with
              | Some s => str_eqb (secure_type s) "firecracker" | None => false end)
      (value_error "secure_runtime.type 'firecracker' is only compatible with runtime.type='kubernetes'.");;
    Ok c
  else if str_eqb (runtime_type (runtime c)) "kubernetes" then
    let k := default default_kubernetes (kubernetes c) in
    let provider_type := lower (or_else (workload_provider k) EmptyString) in
    if str_eqb provider_type "agent-sandbox" then
      Ok (with_kubernetes c (Some k) (Some (default default_agent_sandbox (agent_sandbox c))))
    else
      raise_if (bool_decide (is_Some (agent_sandbox c)))
        (value_error "agent_sandbox block requires kubernetes.workload_provider = 'agent-sandbox'.");;
      Ok (with_kubernetes c (Some k) (agent_sandbox c))
  else Raise (value_error ("Unsupported runtime type '" +:+ runtime_type (runtime c) +:+ "'.")).

(** [AppConfig]: pydantic checks the nested models before the validator of the
    root runs. *)
Definition app_config (c : AppConfig) : result AppConfig :=
  raise_if (negb (server_fields_ok (server c) && runtime_fields_ok (runtime c)
                  && docker_fields_ok (docker c)
                  && opt_all (λ a, one_of (shutdown_policy a) ["Delete"; "Retain"]) (agent_sandbox c)
                  && opt_all ingress_fields_ok (ingress c)
                  && opt_all secure_fields_ok (secure_runtime c)))
    (value_error "validation error");;
  match ingress c with Some i => validate_ingress_mode i | None => Ok tt end;;
  match secure_runtime c with Some s => validate_secure_runtime s | None => Ok tt end;;
  validate_runtime_blocks c.

(** ** Lemmas *)

Lemma str_eqb_true a b : str_eqb a b = true ↔ a = b.
Proof. apply bool_decide_eq_true. Qed.

Lemma str_eqb_false a b : str_eqb a b = false ↔ a ≠ b.
Proof. apply bool_decide_eq_false. Qed.

Lemma one_of_true s l : one_of s l = true ↔ s ∈ l.
Proof.
  unfold one_of. rewrite existsb_exists. setoid_rewrite str_eqb_true.
  setoid_rewrite <-list_elem_of_In. naive_solver.
Qed.

#[export] Hint Rewrite str_eqb_true str_eqb_false one_of_true : sandbox.

(** The parts of [app_config] that hold of an accepted configuration. *)
Lemma app_config_Ok c c' :
  app_config c = Ok c' →
  opt_all ingress_fields_ok (ingress c) = true ∧ opt_all secure_fields_ok (secure_runtime c) = true ∧
  (∀ i, ingress c = Some i → validate_ingress_mode i = Ok tt) ∧
  (∀ s, secure_runtime c = Some s → validate_secure_runtime s = Ok tt) ∧
  validate_runtime_blocks c = Ok c'.
Proof.
  unfold app_config. intros H.
  apply result_bind_unit_Ok in H as [H1 [H2 [H3 H4]%result_bind_unit_Ok]%result_bind_unit_Ok].
  apply raise_if_Ok, negb_false_iff in H1. rewrite !andb_true_iff in H1. destruct_and! H1.
  split_and!; try done; intros ? E; by rewrite E in *.
Qed.

(** The validator only fills in defaults of the Kubernetes blocks. *)
Lemma validate_runtime_blocks_Ok c c' :
  validate_runtime_blocks c = Ok c' →
  ingress c' = ingress c ∧ secure_runtime c' = secure_runtime c ∧ runtime c' = runtime c ∧
  ((runtime_type (runtime c) = "docker" ∧ kubernetes c' = None ∧ agent_sandbox c' = None
    ∧ (∀ i, ingress c = Some i → ingress_mode i = INGRESS_MODE_DIRECT)
    ∧ (∀ s, secure_runtime c = Some s → secure_type s ≠ "firecracker"))
   ∨ (runtime_type (runtime c) = "kubernetes" ∧ is_Some (kubernetes c'))).
Proof.
  unfold validate_runtime_blocks. destruct (str_eqb (runtime_type (runtime c)) "docker") eqn:Hd.
  - intros H. rewrite !result_bind_unit_Ok in H. destruct H as (H1&H2&H3&H4&[= <-]).
    rewrite !raise_if_Ok in *. apply bool_decide_eq_false, eq_None_not_Some in H1, H2.
    apply str_eqb_true in Hd. split_and!; try done. left. split_and!; try done.
    + intros i Hi. rewrite Hi in H3. by apply negb_false_iff, str_eqb_true in H3.
    + intros s Hs. rewrite Hs in H4. by apply str_eqb_false in H4.
  - destruct (str_eqb _ "kubernetes") eqn:Hk; [|done]. apply str_eqb_true in Hk.
    cbn zeta. destruct (str_eqb (lower _) _).
    + intros [= <-]. cbn. naive_solver.
    + rewrite result_bind_unit_Ok. intros [_ [= <-]]. cbn. naive_solver.
Qed.
