(* ===== verification/RuntimeResolver.v ===== *)
(** * Secure container runtimes ([server/src/services/runtime_resolver.py])

    Which OCI runtime or RuntimeClass a sandbox runs under, and the check of
    that choice at startup.  The Docker daemon and the Kubernetes API are
    arguments: the outcome of [docker_client.info()] (the keys of its
    [Runtimes] table) and of [k8s_client.read_runtime_class]. *)

From S2P Require Import Prelude PyString PyDict Regex Config.
Open Scope string_scope.

Definition DEFAULT_DOCKER_RUNTIMES : dict string :=
  [("gvisor", "runsc"); ("kata", "kata-runtime")].

Definition DEFAULT_K8S_RUNTIME_CLASSES : dict string :=
  [("gvisor", "gvisor"); ("kata", "kata-qemu"); ("firecracker", "kata-fc")].

Record SecureRuntimeResolver := {
  res_secure_runtime : option SecureRuntimeConfig;
  runtime_mode : string }.

Definition make_resolver (config : AppConfig) : SecureRuntimeResolver :=
  {| res_secure_runtime := secure_runtime config; runtime_mode := runtime_type (runtime config) |}.

Definition is_enabled (r : SecureRuntimeResolver) : bool :=
  match res_secure_runtime r with
  | Some s => negb (str_eqb (secure_type s) EmptyString)
  | None => false
  end.

Definition get_docker_runtime (r : SecureRuntimeResolver) : option string :=
  if negb (is_enabled r) then None else
  s ← res_secure_runtime r;
  if truthy_opt (docker_runtime s) then docker_runtime s
  else dget (secure_type s) DEFAULT_DOCKER_RUNTIMES.

Definition get_k8s_runtime_class (r : SecureRuntimeResolver) : option string :=
  if negb (is_enabled r) then None else
  s ← res_secure_runtime r;
  if truthy_opt (k8s_runtime_class s) then k8s_runtime_class s
  else dget (secure_type s) DEFAULT_K8S_RUNTIME_CLASSES.

(** [docker_client] is [None] when there is no client, otherwise what
    [info().get("Runtimes", {})] gives: its keys, or an exception. *)
Definition validate_docker_runtime (r : SecureRuntimeResolver)
    (docker_client : option (result (list string))) : result unit :=
  let runtime_name := or_else (get_docker_runtime r) EmptyString in
  if negb (truthy runtime_name) then Ok tt else
  match docker_client with
  | None => Ok tt
  | Some info =>
      runtimes ← info;
      raise_if (negb (one_of runtime_name runtimes))
        (value_error ("Configured Docker runtime '" +:+ runtime_name
          +:+ "' is not available. Available runtimes: "
          +:+ (match runtimes with [] => "none" | _ => join ", " runtimes end)
          +:+ ". Please install and configure the runtime before starting the server."))
  end.

(** A 404 of the API becomes a [ValueError]; other exceptions pass through. *)
Definition validate_k8s_runtime_class (r : SecureRuntimeResolver)
    (k8s_client : option (string → result unit)) : result unit :=
  let name := or_else (get_k8s_runtime_class r) EmptyString in
  if negb (truthy name) then Ok tt else
  match k8s_client with
  | None => Ok tt
  | Some read_runtime_class =>
      match read_runtime_class name with
      | Raise (PyException (ApiException 404) _) =>
          Raise (value_error ("Configured Kubernetes RuntimeClass '" +:+ name
            +:+ "' does not exist. Please create the RuntimeClass before starting the server."))
      | out => out
      end
  end.

Definition validate_secure_runtime_on_startup (config : AppConfig)
    (docker_client : option (result (list string)))
    (k8s_client : option (string → result unit)) : result unit :=
  let resolver := make_resolver config in
  if negb (is_enabled resolver) then Ok tt else
  if str_eqb (runtime_type (runtime config)) "docker" then validate_docker_runtime resolver docker_client
  else if str_eqb (runtime_type (runtime config)) "kubernetes" then
    validate_k8s_runtime_class resolver k8s_client
  else Ok tt.

(** ** Lemmas *)

(** The runtime name of the backend that the configuration selects. *)
Definition resolved_runtime (c : AppConfig) : option string :=
  if str_eqb (runtime_type (runtime c)) "docker" then get_docker_runtime (make_resolver c)
  else get_k8s_runtime_class (make_resolver c).

Lemma enabled_type c :
  is_enabled (make_resolver c) = true →
  ∃ s, secure_runtime c = Some s ∧ secure_type s ≠ EmptyString.
Proof.
  unfold is_enabled, make_resolver; cbn. destruct (secure_runtime c) as [s|]; [|done].
  intros H%negb_true_iff%str_eqb_false. eauto.
Qed.

Lemma truthy_opt_Some o : truthy_opt o = true → ∃ s, o = Some s ∧ truthy s = true.
Proof. destruct o; cbn; eauto; done. Qed.

Lemma get_docker_runtime_Some c s :
  secure_runtime c = Some s → is_enabled (make_resolver c) = true →
  secure_type s ∈ ["gvisor"; "kata"] →
  ∃ name, get_docker_runtime (make_resolver c) = Some name ∧ truthy name = true.
Proof.
  intros Hs He Ht. unfold get_docker_runtime. rewrite He. cbn. rewrite Hs. cbn.
  destruct (truthy_opt (docker_runtime s)) eqn:E; [by apply truthy_opt_Some|].
  set_unfold. destruct Ht as [->|[->|[]]]; eexists; split; reflexivity.
Qed.

Lemma get_k8s_runtime_class_Some c s :
  secure_runtime c = Some s → is_enabled (make_resolver c) = true →
  secure_type s ∈ ["gvisor"; "kata"; "firecracker"] →
  ∃ name, get_k8s_runtime_class (make_resolver c) = Some name ∧ truthy name = true.
Proof.
  intros Hs He Ht. unfold get_k8s_runtime_class. rewrite He. cbn. rewrite Hs. cbn.
  destruct (truthy_opt (k8s_runtime_class s)) eqn:E; [by apply truthy_opt_Some|].
  set_unfold. destruct Ht as [->|[->|[->|[]]]]; eexists; split; reflexivity.
Qed.

Lemma resolved_runtime_Some c c' :
  app_config c = Ok c' → is_enabled (make_resolver c') = true →
  ∃ name, resolved_runtime c' = Some name ∧ truthy name = true.
Proof.
  intros Hc He. destruct (app_config_Ok _ _ Hc) as (_&Hf&_&_&Hv).
  destruct (validate_runtime_blocks_Ok _ _ Hv) as (_&Hsec&Hrun&Hcase).
  destruct (enabled_type _ He) as (s&Hs&Hne). rewrite <-Hsec in *. rewrite Hs in Hf. cbn [opt_all] in Hf. unfold secure_fields_ok in Hf.
  apply one_of_true in Hf. unfold resolved_runtime. rewrite Hrun.
  destruct Hcase as [(->&_&_&_&Hnf)|(->&_)]; cbn.
  - apply (get_docker_runtime_Some _ s); [done..|]. specialize (Hnf s Hs). set_solver.
  - apply (get_k8s_runtime_class_Some _ s); [done..|]. set_solver.
Qed.

(** A configuration that the validators accept and that enables a secure
    runtime resolves, on the backend it selects, to a non-empty runtime name
    (sandboxes never fall back to the default runtime), and the startup check
    with a live client succeeds only if that backend has this runtime. *)
Theorem secure_runtime_resolves c c' runtimes read_runtime_class :
  app_config c = Ok c' → is_enabled (make_resolver c') = true →
  ∃ name, resolved_runtime c' = Some name ∧ truthy name = true ∧
    (validate_secure_runtime_on_startup c' (Some (Ok runtimes)) (Some read_runtime_class) = Ok tt ↔
     (runtime_type (runtime c') = "docker" ∧ name ∈ runtimes)
     ∨ (runtime_type (runtime c') = "kubernetes" ∧ read_runtime_class name = Ok tt)).
Proof.
  intros Hc He. destruct (resolved_runtime_Some _ _ Hc He) as (name&Hr&Hn).
  exists name. split_and!; [done..|].
  destruct (app_config_Ok _ _ Hc) as (_&_&_&_&Hv).
  destruct (validate_runtime_blocks_Ok _ _ Hv) as (_&_&Hrun&Hcase).
  unfold validate_secure_runtime_on_startup, resolved_runtime in *. rewrite He, Hrun in *.
  destruct Hcase as [(Ht&_)|(Ht&_)]; rewrite Ht in *.
  - change (str_eqb "docker" "docker") with true in *. cbn [negb] in *. unfold validate_docker_runtime. rewrite Hr. cbn. rewrite Hn. cbn. rewrite Hn. cbn.
    rewrite raise_if_Ok, negb_false_iff, one_of_true. naive_solver.
  - change (str_eqb "kubernetes" "kubernetes") with true in *.
    change (str_eqb "kubernetes" "docker") with false in *. cbn [negb] in *.
    unfold validate_k8s_runtime_class. rewrite Hr. cbn. rewrite Hn. cbn. rewrite Hn. cbn.
    destruct (read_runtime_class name) as [[]|[|[]]]; case_all; naive_solver.
Qed.

(** A configuration with gVisor on Docker. *)
Definition gvisor_config : AppConfig := {|
  server := {| srv_host := "0.0.0.0"; srv_port := 8080; log_level := "INFO"; api_key := None;
               eip := None; max_sandbox_timeout_seconds := None; terminal_token_secret := None;
               terminal_token_ttl_seconds := 300 |};
  runtime := {| runtime_type := "docker"; execd_image := "execd:latest" |};
  kubernetes := None; agent_sandbox := None; ingress := None;
  docker := {| network_mode := "host"; api_timeout := None; host_ip := None;
               drop_capabilities := ["NET_ADMIN"]; apparmor_profile := None;
               no_new_privileges := true; seccomp_profile := None; pids_limit := Some 4096%Z |};
  storage := {| allowed_host_paths := []; ossfs_mount_root := "/mnt/ossfs";
                default_workspace_volume_size := "1Gi" |};
  egress_config := None;
  secure_runtime := Some {| secure_type := "gvisor"; docker_runtime := Some EmptyString;
                            k8s_runtime_class := None |} |}.

Lemma secure_runtime_resolves_witness :
  app_config gvisor_config = Ok gvisor_config ∧
  ∃ name, resolved_runtime gvisor_config = Some name ∧ truthy name = true ∧
    (validate_secure_runtime_on_startup gvisor_config (Some (Ok ["runc"; "runsc"])) (Some (λ _, Ok tt)) = Ok tt ↔
     (runtime_type (runtime gvisor_config) = "docker" ∧ name ∈ ["runc"; "runsc"])
     ∨ (runtime_type (runtime gvisor_config) = "kubernetes" ∧ Ok tt = Ok tt)).
Proof.
  split; [reflexivity|].
  exact (secure_runtime_resolves gvisor_config gvisor_config ["runc"; "runsc"] (λ _, Ok tt)
           ltac:(reflexivity) ltac:(reflexivity)).
Defined.
