(* ===== verification/PyFloat.v ===== *)
(** * Python [float]

    IEEE 754 binary64 numbers as the Standard Library specifies them
    ([spec_float] with 53 bits of precision), and the conversions the server
    uses: [float(s)] from text, correctly rounded, [int(x)], and [timedelta] of a
    number. *)

From Stdlib Require Import Ascii.
From Stdlib Require Export SpecFloat.
From S2P Require Import Prelude PyString PyTime.
Open Scope Z_scope.

Definition float_prec : Z := 53.
Definition float_emax : Z := 1024.

Definition fmul : spec_float → spec_float → spec_float := SFmul float_prec float_emax.
Definition fdiv : spec_float → spec_float → spec_float := SFdiv float_prec float_emax.
Definition fle : spec_float → spec_float → bool := SFleb.

(** The float nearest to an integer. *)
Definition float_of_Z (n : Z) : spec_float := binary_normalize float_prec float_emax n 0 false.

(** The float nearest to [m * 10^e] for [m >= 0].  For a negative exponent the
    quotient is computed with at least 64 significant bits and a sticky bit, so
    that rounding it rounds the exact value. *)
Definition float_of_decimal (m e : Z) : spec_float :=
  if 0 <=? e then float_of_Z (m * 10 ^ e) else
  let d := 10 ^ (- e) in
  let k := Z.max 0 (Z.log2 d - Z.log2 m + 66) in
  let q := Z.shiftl m k / d in
  let sticky := if Z.shiftl m k mod d =? 0 then 0 else 1 in
  binary_normalize float_prec float_emax (2 * q + sticky) (- k - 1) false.

(** Underscores are allowed between two digits, and dropped. *)
Fixpoint drop_underscores (prev_digit : bool) (s : string) : option string :=
  match s with
  | EmptyString => Some EmptyString
  | String c s' =>
      if (code c =? 95)%N then
        match s' with
        | String d _ => if prev_digit && is_digit d then drop_underscores false s' else None
        | EmptyString => None
        end
      else t ← drop_underscores (is_digit c) s'; Some (String c t)
  end.

(** The longest prefix of digits, and the rest. *)
Fixpoint span_digits (s : string) : string * string :=
  match s with
  | String c s' =>
      if is_digit c then let '(ds, rest) := span_digits s' in (String c ds, rest)
      else (EmptyString, s)
  | EmptyString => (EmptyString, EmptyString)
  end.

Definition strip_sign (s : string) : bool * string :=
  match s with
  | String c s' => if (code c =? 45)%N then (true, s') else if (code c =? 43)%N then (false, s') else (false, s)
  | EmptyString => (false, s)
  end.

(** [e[+-]digits], or nothing. *)
Definition parse_exponent (s : string) : option Z :=
  match s with
  | EmptyString => Some 0
  | String c s' =>
      if negb ((code c =? 101)%N || (code c =? 69)%N) then None else
      let '(neg, t) := strip_sign s' in
      let '(ds, rest) := span_digits t in
      if truthy ds && negb (truthy rest)
      then Some (if neg then - digits_val 0 ds else digits_val 0 ds) else None
  end.

(** An unsigned decimal number. *)
Definition parse_decimal (s : string) : option spec_float :=
  let '(ip, s1) := span_digits s in
  let '(fp, s2) :=
    match s1 with
    | String c s1' => if (code c =? 46)%N then span_digits s1' else (EmptyString, s1)
    | EmptyString => (EmptyString, s1)
    end in
  if negb (truthy ip || truthy fp) then None else
  e ← parse_exponent s2;
  Some (float_of_decimal (digits_val 0 (ip +:+ fp)) (e - Z.of_nat (len fp))).

(** [float(s)]; [None] is [ValueError]. *)
Definition py_float (s : string) : option spec_float :=
  t ← drop_underscores false (strip s);
  let '(neg, body) := strip_sign t in
  let word := lower body in
  x ← (if bool_decide (word = "inf"%string) || bool_decide (word = "infinity"%string)
       then Some (S754_infinity false)
       else if bool_decide (word = "nan"%string) then Some S754_nan
       else parse_decimal body);
  Some (if neg then SFopp x else x).

(** [int(x)]: truncation toward zero. *)
Definition int_of_float (x : spec_float) : result Z :=
  match x with
  | S754_nan => Raise (PyException ValueError "cannot convert float NaN to integer")
  | S754_infinity _ => Raise (PyException OverflowError "cannot convert float infinity to integer")
  | S754_zero _ => Ok 0
  | S754_finite s m e =>
      let n := if 0 <=? e then Z.pos m * 2 ^ e else Z.pos m / 2 ^ (- e) in
      Ok (if s then - n else n)
  end.

Lemma int_of_float_nonneg x n :
  fle x (S754_zero false) = false → int_of_float x = Ok n → 0 <= n.
Proof.
  destruct x as [| | |[] m e]; cbn; try done.
  intros _ [= <-]. destruct (0 <=? e) eqn:He; results; [lia|].
  apply Z.div_pos; lia.
Qed.

(** ** [timedelta] of a float *)

Definition fsub : spec_float → spec_float → spec_float := SFsub float_prec float_emax.
Definition fhalf : spec_float := fdiv (float_of_Z 1) (float_of_Z 2).

Definition timedelta_us (us : Z) : result Z :=
  let days := (us / (86400 * us_per_second)) in
  if (days <? -999999999) || (999999999 <? days)
  then Raise (PyException OverflowError ("days=" +:+ str_of_Z days +:+ "; must have magnitude <= 999999999"))
  else Ok us.

(** Whole microseconds and what is left of them, to the nearest, a tie to the even one. *)
Definition round_leftover (us : Z) (leftover : spec_float) : Z :=
  let away := match leftover with S754_finite true _ _ => (-1) | _ => 1 end in
  match SFcompare (SFabs leftover) fhalf with
  | Some Lt => us
  | Some Gt => (us + away)
  | _ => if Z.odd us then (us + away) else us
  end.

(** [timedelta(seconds=x)]: the whole seconds, then the microseconds of the rest. *)
Definition timedelta_of_seconds (x : spec_float) : result Z :=
  seconds ← int_of_float x;
  let micros := fmul (float_of_Z us_per_second) (fsub x (float_of_Z seconds)) in
  whole ← int_of_float micros;
  timedelta_us (round_leftover (seconds * us_per_second + whole) (fsub micros (float_of_Z whole))).

(** [timedelta(milliseconds=n)] of an integer *)
Definition timedelta_milliseconds (n : Z) : result Z := timedelta_us (n * 1000).

Example timedelta_examples :
  timedelta_of_seconds (float_of_Z 600) = Ok (600 * us_per_second) ∧
  timedelta_of_seconds (float_of_decimal 5 (-1)) = Ok 500000 ∧
  timedelta_of_seconds (float_of_decimal 1 (-7)) = Ok 0 ∧
  timedelta_of_seconds (float_of_decimal 25 (-7)) = Ok 2 ∧
  timedelta_of_seconds (SFopp (float_of_decimal 15 (-7))) = Ok (-2).
Proof. repeat split; vm_compute; reflexivity. Qed.
