(* ===== verification/Json.v ===== *)
(** * JSON

    [json.dumps] of a list of strings, [json.loads] of a text, and the values
    that the server and the Kubernetes client exchange.  A number is kept as its
    text.  Escapes of code points above 255 are outside of the character range
    of the development and refused. *)

From Stdlib Require Import Ascii.
From S2P Require Import Prelude PyString.

Inductive json :=
| JNull
| JBool (b : bool)
| JNum (text : string)
| JStr (s : string)
| JArr (l : list json)
| JObj (l : list (string * json)).

(** ** Printing *)

Definition quote : ascii := chr 34.

(** One character of a string, with [ensure_ascii]. *)
Definition esc_char (c : ascii) : string :=
  let esc (d : ascii) := String backslash (String d EmptyString) in
  if bool_decide (c = quote) || bool_decide (c = backslash) then esc c
  else if (code c =? 10)%N then esc "n"%char
  else if (code c =? 13)%N then esc "r"%char
  else if (code c =? 9)%N then esc "t"%char
  else if (code c =? 12)%N then esc "f"%char
  else if (code c =? 8)%N then esc "b"%char
  else if in_range 32 126 c then String c EmptyString
  else String backslash (String "u" (String "0" (String "0"
         (String (hex_digit (code c / 16)) (String (hex_digit (code c mod 16)) EmptyString))))).

Fixpoint esc_string (s : string) : string :=
  match s with EmptyString => EmptyString | String c s' => esc_char c +:+ esc_string s' end.

Definition dumps_string (s : string) : string :=
  String quote (esc_string s +:+ String quote EmptyString).

(** [json.dumps(l, separators=(",", ":"))] of a list of strings. *)
Definition dumps_list (l : list string) : string :=
  "[" +:+ join "," (dumps_string <$> l) +:+ "]".

(** ** Parsing *)

Definition json_space (c : ascii) : bool :=
  (code c =? 32)%N || (code c =? 9)%N || (code c =? 10)%N || (code c =? 13)%N.

Definition skip_ws (s : string) : string := lstrip_by json_space s.

Definition hex_val (c : ascii) : option N :=
  if is_digit c then Some (code c - 48)%N
  else if in_range 97 102 c then Some (code c - 87)%N
  else if in_range 65 70 c then Some (code c - 55)%N
  else None.

(** The rest of a string literal after its opening quote. *)
Fixpoint parse_string (s : string) : option (string * string) :=
  match s with
  | EmptyString => None
  | String c s' =>
      if bool_decide (c = quote) then Some (EmptyString, s')
      else if bool_decide (c = backslash) then
        match s' with
        | String "u" (String a (String b (String x (String y rest)))) =>
            a ← hex_val a; b ← hex_val b; x ← hex_val x; y ← hex_val y;
            if negb ((a =? 0) && (b =? 0))%N then None else
            '(t, r) ← parse_string rest; Some (String (chr (16 * x + y)) t, r)
        | String d rest =>
            e ← (if bool_decide (d = quote) || bool_decide (d = backslash) || bool_decide (d = "/"%char) then Some d
                 else if bool_decide (d = "n"%char) then Some (chr 10)
                 else if bool_decide (d = "r"%char) then Some (chr 13)
                 else if bool_decide (d = "t"%char) then Some (chr 9)
                 else if bool_decide (d = "f"%char) then Some (chr 12)
                 else if bool_decide (d = "b"%char) then Some (chr 8)
                 else None);
            '(t, r) ← parse_string rest; Some (String e t, r)
        | EmptyString => None
        end
      else if (code c <? 32)%N then None
      else '(t, r) ← parse_string s'; Some (String c t, r)
  end.

Fixpoint take_digits (s : string) : string * string :=
  match s with
  | String c s' => if is_digit c then let '(d, r) := take_digits s' in (String c d, r) else (EmptyString, s)
  | EmptyString => (EmptyString, EmptyString)
  end.

(** An optional minus, [0] or digits without a leading zero, an optional
    fraction, an optional exponent: the longest prefix that is a number. *)
Definition parse_number (s : string) : option (string * string) :=
  let '(sign, s) := match s with String "-" s' => ("-"%string, s') | _ => (EmptyString, s) end in
  '(ip, s) ← match s with
             | String "0" s' => Some ("0"%string, s')
             | _ => let '(d, r) := take_digits s in if truthy d then Some (d, r) else None
             end;
  let '(fp, s) :=
    match s with
    | String "." s' => let '(d, r) := take_digits s' in if truthy d then ("." +:+ d, r) else (EmptyString, s)
    | _ => (EmptyString, s)
    end in
  let '(ep, s) :=
    match s with
    | String c s' =>
        if negb ((code c =? 101)%N || (code c =? 69)%N) then (EmptyString, s) else
        let '(sg, s'') := match s' with
                          | String "-" t => ("-"%string, t) | String "+" t => ("+"%string, t)
                          | _ => (EmptyString, s') end in
        let '(d, r) := take_digits s'' in
        if truthy d then (String c (sg +:+ d), r) else (EmptyString, s)
    | EmptyString => (EmptyString, s)
    end in
  Some (sign +:+ ip +:+ fp +:+ ep, s).

Definition parse_word (w : string) (v : json) (s : string) : option (json * string) :=
  if startswith s w then Some (v, str_drop (len w) s) else None.

(** Values; [parse_elems] is inside an array, after its first element started,
    [parse_members] inside an object, at the quote of a key. *)
Fixpoint parse_value (fuel : nat) (s : string) : option (json * string) :=
  match fuel with
  | O => None
  | S f =>
      match s with
      | EmptyString => None
      | String c s' =>
          if bool_decide (c = quote) then '(t, r) ← parse_string s'; Some (JStr t, r)
          else if bool_decide (c = "["%char) then
            match skip_ws s' with
            | String "]" r => Some (JArr [], r)
            | t => '(l, r) ← parse_elems f t; Some (JArr l, r)
            end
          else if bool_decide (c = "{"%char) then
            match skip_ws s' with
            | String "}" r => Some (JObj [], r)
            | t => '(l, r) ← parse_members f t; Some (JObj l, r)
            end
          else if startswith s "null" then parse_word "null" JNull s
          else if startswith s "true" then parse_word "true" (JBool true) s
          else if startswith s "false" then parse_word "false" (JBool false) s
          else if startswith s "NaN" then parse_word "NaN" (JNum "NaN") s
          else if startswith s "Infinity" then parse_word "Infinity" (JNum "Infinity") s
          else if startswith s "-Infinity" then parse_word "-Infinity" (JNum "-Infinity") s
          else '(t, r) ← parse_number s; Some (JNum t, r)
      end
  end
with parse_elems (fuel : nat) (s : string) : option (list json * string) :=
  match fuel with
  | O => None
  | S f =>
      '(v, r) ← parse_value f s;
      match skip_ws r with
      | String "]" r' => Some ([v], r')
      | String "," r' => '(l, r'') ← parse_elems f (skip_ws r'); Some (v :: l, r'')
      | _ => None
      end
  end
with parse_members (fuel : nat) (s : string) : option (list (string * json) * string) :=
  match fuel with
  | O => None
  | S f =>
      match s with
      | String c s' =>
          if negb (bool_decide (c = quote)) then None else
          '(k, r) ← parse_string s';
          match skip_ws r with
          | String ":" r' =>
              '(v, r'') ← parse_value f (skip_ws r');
              match skip_ws r'' with
              | String "}" q => Some ([(k, v)], q)
              | String "," q => '(l, q') ← parse_members f (skip_ws q); Some ((k, v) :: l, q')
              | _ => None
              end
          | _ => None
          end
      | EmptyString => None
      end
  end.

(** [json.loads(s)]; [None] is [JSONDecodeError].  Every call of a parser reads
    at least one character or returns, so twice the length is enough fuel. *)
Definition loads (s : string) : option json :=
  '(v, r) ← parse_value (2 * len s + 2) (skip_ws s);
  if truthy (skip_ws r) then None else Some v.

(** [isinstance(v, list)], and the non-empty strings of a list. *)
Definition string_elems (v : json) : list string :=
  match v with
  | JArr l => omap (λ x, match x with JStr s => if truthy s then Some s else None | _ => None end) l
  | _ => []
  end.

(** ** Round trip *)

Lemma hex_val_digit n : (n < 16)%N → hex_val (hex_digit n) = Some n.
Proof.
  intros Hn. assert (n ∈ (N.of_nat <$> seq 0 16)) as Hin.
  { apply list_elem_of_fmap. exists (N.to_nat n). split; [lia|]. apply list_elem_of_In, in_seq. lia. }
  clear Hn. cbn in Hin. set_unfold.
  repeat match goal with H : _ ∨ _ |- _ => destruct H as [->|H]; [reflexivity|] end. done.
Qed.

Lemma chr_code c : chr (code c) = c.
Proof. apply ascii_N_embedding. Qed.

(** An escape other than [\u], and a hexadecimal escape below 256. *)
Lemma parse_string_short d e s :
  d ≠ "u"%char →
  (if bool_decide (d = quote) || bool_decide (d = backslash) || bool_decide (d = "/"%char) then Some d
   else if bool_decide (d = "n"%char) then Some (chr 10)
   else if bool_decide (d = "r"%char) then Some (chr 13)
   else if bool_decide (d = "t"%char) then Some (chr 9)
   else if bool_decide (d = "f"%char) then Some (chr 12)
   else if bool_decide (d = "b"%char) then Some (chr 8)
   else None) = Some e →
  parse_string (String backslash (String d s)) = ('(t, r) ← parse_string s; Some (String e t, r)).
Proof.
  intros Hu He. cbn [parse_string]. change (bool_decide (backslash = quote)) with false.
  change (bool_decide (backslash = backslash)) with true. cbn iota.
  destruct d as [[] [] [] [] [] [] [] []]; try done; by rewrite He.
Qed.

Lemma parse_string_hex n s :
  (n < 256)%N →
  parse_string (String backslash (String "u" (String "0" (String "0"
    (String (hex_digit (n / 16)) (String (hex_digit (n mod 16)) s))))))
  = ('(t, r) ← parse_string s; Some (String (chr n) t, r)).
Proof.
  intros Hn. cbn [parse_string]. change (bool_decide (backslash = quote)) with false.
  change (bool_decide (backslash = backslash)) with true. cbn iota.
  change (hex_val "0") with (Some 0%N). cbn [mbind option_bind].
  rewrite !hex_val_digit by (apply N.mod_lt || apply N.Div0.div_lt_upper_bound; lia).
  cbn [mbind option_bind]. change (negb _) with false. cbn iota.
  by rewrite <-N.div_mod.
Qed.

(** The case of a control character that has a one-letter escape. *)
Ltac short_escape c n H :=
  let E := fresh in
  destruct (code c =? n)%N eqn:E;
  [apply N.eqb_eq in E; cbn [String.append];
   rewrite (parse_string_short _ c), H by (done || (rewrite <-(chr_code c), E; done)); done|].

Lemma parse_string_cons c s t r :
  parse_string s = Some (t, r) → parse_string (esc_char c +:+ s) = Some (String c t, r).
Proof.
  intros H. unfold esc_char. cbv zeta.
  destruct (bool_decide (c = quote) || bool_decide (c = backslash)) eqn:Hq.
  { cbn [String.append]. rewrite (parse_string_short c c), H; [done| |by rewrite Hq].
    intros ->. done. }
  short_escape c 10%N H. short_escape c 13%N H. short_escape c 9%N H.
  short_escape c 12%N H. short_escape c 8%N H.
  destruct (in_range 32 126 c) eqn:E6; cbn [String.append].
  - apply orb_false_iff in Hq as [Hq Hb]. cbn [parse_string]. rewrite Hq, Hb.
    unfold in_range in E6. apply andb_true_iff in E6 as [E6%N.leb_le _].
    rewrite (proj2 (N.ltb_ge _ _)) by done. by rewrite H.
  - rewrite parse_string_hex, H, chr_code; [done|]. apply N_ascii_bounded.
Qed.

Lemma parse_string_esc s r : parse_string (esc_string s +:+ String quote r) = Some (s, r).
Proof.
  induction s as [|c s IH]; [done|]. cbn [esc_string]. rewrite str_app_assoc.
  by apply parse_string_cons.
Qed.

Lemma parse_value_string f s r :
  parse_value (S f) (dumps_string s +:+ r) = Some (JStr s, r).
Proof.
  unfold dumps_string. rewrite str_app_cons. cbn [parse_value].
  rewrite bool_decide_eq_true_2 by done. rewrite str_app_assoc.
  change (String quote EmptyString +:+ r) with (String quote r). by rewrite parse_string_esc.
Qed.

Lemma parse_elems_strings f l r :
  l ≠ [] → length l < f →
  parse_elems f (join "," (dumps_string <$> l) +:+ String "]" r) = Some (JStr <$> l, r).
Proof.
  revert f. induction l as [|s l IH]; intros f Hne Hf; [done|]. destruct f as [|[|f]]; cbn in Hf; [lia..|].
  change (parse_elems (S (S f))) with (λ s0, '(v, r) ← parse_value (S f) s0;
      match skip_ws r with
      | String "]" r' => Some ([v], r')
      | String "," r' => '(l, r'') ← parse_elems (S f) (skip_ws r'); Some (v :: l, r'')
      | _ => None
      end).
  cbv beta. destruct l as [|s' l].
  - cbn [fmap list_fmap join]. by rewrite parse_value_string.
  - rewrite !fmap_cons, join_cons by done. rewrite <-fmap_cons.
    rewrite !str_app_assoc, parse_value_string. cbn [mbind option_bind].
    assert (∀ t, skip_ws ("," +:+ t) = String "," t) as -> by done. cbn iota.
    assert (∀ t, skip_ws (join "," (dumps_string <$> s' :: l) +:+ t)
                 = join "," (dumps_string <$> s' :: l) +:+ t) as ->.
    { intros t. cbn [fmap list_fmap join]. by destruct (dumps_string <$> l). }
    rewrite (IH (S f)) by (done || (cbn in *; lia)). done.
Qed.

Lemma len_dumps_list l : length l < len (dumps_list l).
Proof.
  unfold dumps_list. rewrite !len_app. cbn [len].
  assert (length l ≤ len (join "," (dumps_string <$> l))); [|lia].
  induction l as [|s l IH]; [cbn; lia|].
  destruct l as [|s' l]; [cbn; lia|].
  rewrite fmap_cons, join_cons by done. rewrite !len_app. cbn [length] in *.
  assert (1 ≤ len (dumps_string s)) by (unfold dumps_string; cbn; lia). cbn [len]. lia.
Qed.

(** What [json.dumps] writes for a list of strings, [json.loads] reads back. *)
Lemma loads_dumps_list l : loads (dumps_list l) = Some (JArr (JStr <$> l)).
Proof.
  unfold loads. pose proof (len_dumps_list l) as Hlen.
  assert (skip_ws (dumps_list l) = dumps_list l) as -> by done.
  set (n := (2 * len (dumps_list l) + 1)).
  replace (2 * len (dumps_list l) + 2) with (S n) by lia.
  unfold dumps_list. change ("[" +:+ ?x) with (String "[" x). cbn [parse_value].
  destruct l as [|s l]; [done|].
  assert (bool_decide ("["%char = quote) = false) as -> by done.
  assert (bool_decide ("["%char = "["%char) = true) as -> by done.
  assert (∃ t, skip_ws (join "," (dumps_string <$> s :: l) +:+ "]") = String quote t ∧
               join "," (dumps_string <$> s :: l) +:+ "]" = String quote t) as (t&->&Ht).
  { cbn [fmap list_fmap join]. destruct (dumps_string <$> l); eexists; split; reflexivity. }
  transitivity ('(v, r) ← ('(l, r) ← parse_elems n (String quote t); Some (JArr l, r));
                if truthy (skip_ws r) then None else Some v); [reflexivity|]. rewrite <-Ht.
  rewrite parse_elems_strings by (done || (subst n; cbn [length] in *; lia)). done.
Qed.

Lemma string_elems_dumps l : Forall (λ s, truthy s = true) l →
  (string_elems <$> loads (dumps_list l)) = Some l.
Proof.
  intros Hl. rewrite loads_dumps_list. cbn. f_equal.
  induction Hl as [|s l Hs _ IH]; [done|]. cbn. by rewrite Hs, IH.
Qed.
