(* ===== verification/PyVal.v ===== *)
(** * Python values of JSON shape

    Manifests, API responses and templates are nested dictionaries and lists that
    the code reads with [.get], subscripts, [or] and truth tests.  A value is one of
    the types that JSON and YAML give; an operation on a value of the wrong type
    raises what Python raises.  Floats, which no manifest of the server holds, are
    kept as their text. *)

From Stdlib Require Import Ascii.
From S2P Require Import Prelude PyString PyDict PyFloat Json.
Close Scope Z_scope.
Open Scope string_scope.
Open Scope list_scope.

#[local] Unset Elimination Schemes.
Inductive pyval :=
| PNone
| PBool (b : bool)
| PInt (n : Z)
| PFloat (text : string)
| PStr (s : string)
| PList (l : list pyval)
| PDict (d : list (string * pyval)).
#[local] Set Elimination Schemes.

Section pyval_ind.
Variable P : pyval → Prop.
Hypothesis HNone : P PNone.
Hypothesis HBool : ∀ b, P (PBool b).
Hypothesis HInt : ∀ n, P (PInt n).
Hypothesis HFloat : ∀ t, P (PFloat t).
Hypothesis HStr : ∀ s, P (PStr s).
Hypothesis HList : ∀ l, Forall P l → P (PList l).
Hypothesis HDict : ∀ d, Forall (λ kv, P kv.2) d → P (PDict d).

Fixpoint pyval_ind (v : pyval) : P v :=
  match v with
  | PNone => HNone
  | PBool b => HBool b
  | PInt n => HInt n
  | PFloat t => HFloat t
  | PStr s => HStr s
  | PList l => HList l ((fix go l : Forall P l :=
      match l with [] => Forall_nil_2 _ | x :: l' => Forall_cons_2 _ _ _ (pyval_ind x) (go l') end) l)
  | PDict d => HDict d ((fix go d : Forall (λ kv : string * pyval, P kv.2) d :=
      match d with
      | [] => Forall_nil_2 _
      | kv :: d' => Forall_cons_2 (λ kv : string * pyval, P kv.2) kv d' (pyval_ind kv.2) (go d')
      end) d)
  end.
End pyval_ind.

#[global] Instance pyval_eq_dec : EqDecision pyval.
Proof.
  refine (fix go (x y : pyval) : {x = y} + {x ≠ y} :=
    match x, y with
    | PNone, PNone => left _
    | PBool a, PBool b => cast_if (decide (a = b))
    | PInt a, PInt b => cast_if (decide (a = b))
    | PFloat a, PFloat b => cast_if (decide (a = b))
    | PStr a, PStr b => cast_if (decide (a = b))
    | PList a, PList b => cast_if (@list_eq_dec _ (go : EqDecision pyval) a b)
    | PDict a, PDict b =>
        cast_if (@list_eq_dec _ (@prod_eq_dec _ _ _ (go : EqDecision pyval)) a b)
    | _, _ => right _
    end); abstract congruence.
Defined.

(** ** Types and truth *)

Definition type_name (v : pyval) : string :=
  match v with
  | PNone => "NoneType" | PBool _ => "bool" | PInt _ => "int" | PFloat _ => "float"
  | PStr _ => "str" | PList _ => "list" | PDict _ => "dict"
  end.

Definition is_dict (v : pyval) : bool := match v with PDict _ => true | _ => false end.
Definition is_list (v : pyval) : bool := match v with PList _ => true | _ => false end.

(** The text of a float that is zero: no other digit before the exponent. *)
Definition zero_text (t : string) : bool :=
  let mantissa := match split_once "e" (lower t) with Some (m, _) => m | None => lower t end in
  string_forallb (λ c, existsb (λ d, bool_decide (c = d)) ["0"; "."; "-"; "+"]%char) mantissa.

(** [bool(v)] *)
Definition vtruthy (v : pyval) : bool :=
  match v with
  | PNone => false
  | PBool b => b
  | PInt n => negb (n =? 0)%Z
  | PFloat t => negb (zero_text t)
  | PStr s => truthy s
  | PList l => match l with [] => false | _ => true end
  | PDict d => match d with [] => false | _ => true end
  end.

(** [a or b] *)
Definition val_or (a b : pyval) : pyval := if vtruthy a then a else b.

(** [v == n] and [v == s] for an integer and a string constant *)
Definition eq_int (v : pyval) (n : Z) : bool :=
  match v with PInt m => (m =? n)%Z | PBool b => ((if b then 1 else 0) =? n)%Z | _ => false end.
Definition eq_str (v : pyval) (s : string) : bool := bool_decide (v = PStr s).

(** ** Attributes and subscripts *)

Definition attribute_error (v : pyval) (name : string) : exn :=
  PyException AttributeError ("'" +:+ type_name v +:+ "' object has no attribute '" +:+ name +:+ "'").

(** [v.get(k, default)] *)
Definition get_or (v : pyval) (k : string) (default : pyval) : result pyval :=
  match v with
  | PDict d => Ok (dget_default k default d)
  | _ => Raise (attribute_error v "get")
  end.

(** [v.get(k)] and [v.get(k, {})] *)
Definition vget (v : pyval) (k : string) : result pyval := get_or v k PNone.
Definition vget_dict (v : pyval) (k : string) : result pyval := get_or v k (PDict []).

(** [v[k]] for a string constant [k] *)
Definition item (v : pyval) (k : string) : result pyval :=
  match v with
  | PDict d => match dget k d with Some x => Ok x | None => Raise (PyException KeyError (repr k)) end
  | PStr _ => Raise (PyException TypeError "string indices must be integers, not 'str'")
  | PList _ => Raise (PyException TypeError "list indices must be integers or slices, not str")
  | _ => Raise (PyException TypeError ("'" +:+ type_name v +:+ "' object is not subscriptable"))
  end.

(** [v[0]] *)
Definition item0 (v : pyval) : result pyval :=
  match v with
  | PList (x :: _) => Ok x
  | PList [] => Raise (PyException IndexError "list index out of range")
  | PStr (String c _) => Ok (PStr (String c EmptyString))
  | PStr EmptyString => Raise (PyException IndexError "string index out of range")
  | PDict _ => Raise (PyException KeyError "0")
  | _ => Raise (PyException TypeError ("'" +:+ type_name v +:+ "' object is not subscriptable"))
  end.

Fixpoint chars (s : string) : list pyval :=
  match s with EmptyString => [] | String c s' => PStr (String c EmptyString) :: chars s' end.

(** The values that [for x in v] visits. *)
Definition iterate (v : pyval) : result (list pyval) :=
  match v with
  | PList l => Ok l
  | PDict d => Ok (PStr <$> dkeys d)
  | PStr s => Ok (chars s)
  | _ => Raise (PyException TypeError ("'" +:+ type_name v +:+ "' object is not iterable"))
  end.

(** [len(v)] *)
Definition vlen (v : pyval) : result nat :=
  match v with
  | PList l => Ok (length l)
  | PDict d => Ok (length d)
  | PStr s => Ok (len s)
  | _ => Raise (PyException TypeError ("object of type '" +:+ type_name v +:+ "' has no len()"))
  end.

(** One element of [dict(l)]: a pair. *)
Definition dict_pair (v : pyval) : result (string * pyval) :=
  match v with
  | PList [PStr k; x] => Ok (k, x)
  | PStr (String a (String b EmptyString)) => Ok (String a EmptyString, PStr (String b EmptyString))
  | _ => Raise (PyException TypeError "cannot convert dictionary update sequence element to a sequence")
  end.

Fixpoint dict_pairs (l : list pyval) : result (dict pyval) :=
  match l with
  | [] => Ok []
  | v :: l' => kv ← dict_pair v; d ← dict_pairs l'; Ok (kv :: d)
  end.

(** [dict(v)] *)
Definition as_dict (v : pyval) : result (dict pyval) :=
  match v with
  | PDict d => Ok d
  | _ => l ← iterate v; d ← dict_pairs l; Ok (dupdate [] d)
  end.

(** [int(v)] *)
Definition int_of (v : pyval) : result Z :=
  match v with
  | PInt n => Ok n
  | PBool b => Ok (if b then 1 else 0)%Z
  | PStr s =>
      match py_int s with
      | Some n => Ok n
      | None => Raise (PyException ValueError ("invalid literal for int() with base 10: " +:+ repr s))
      end
  | PFloat t => match py_float t with Some x => int_of_float x | None => Raise (PyException ValueError "float") end
  | _ => Raise (PyException TypeError ("int() argument must be a string, a bytes-like object or a real number, not '"
           +:+ type_name v +:+ "'"))
  end.

(** [v > n] for an integer constant [n] *)
Definition gt_int (v : pyval) (n : Z) : result bool :=
  match v with
  | PInt m => Ok (n <? m)%Z
  | PBool b => Ok (n <? (if b then 1 else 0))%Z
  | _ => Raise (PyException TypeError ("'>' not supported between instances of '" +:+ type_name v +:+ "' and 'int'"))
  end.

(** ** Text *)

(** [repr(v)] *)
Fixpoint vrepr (v : pyval) : string :=
  match v with
  | PNone => "None"
  | PBool b => if b then "True" else "False"
  | PInt n => str_of_Z n
  | PFloat t => t
  | PStr s => repr s
  | PList l => "[" +:+ join ", " (map vrepr l) +:+ "]"
  | PDict d => "{" +:+ join ", " (map (λ kv, repr kv.1 +:+ ": " +:+ vrepr kv.2) d) +:+ "}"
  end.

(** [str(v)], and what [f"{v}"] shows *)
Definition vstr (v : pyval) : string := match v with PStr s => s | _ => vrepr v end.

(** [json.dumps(v)] *)
Fixpoint dumps (v : pyval) : string :=
  match v with
  | PNone => "null"
  | PBool b => if b then "true" else "false"
  | PInt n => str_of_Z n
  | PFloat t => t
  | PStr s => dumps_string s
  | PList l => "[" +:+ join ", " (map dumps l) +:+ "]"
  | PDict d => "{" +:+ join ", " (map (λ kv, dumps_string kv.1 +:+ ": " +:+ dumps kv.2) d) +:+ "}"
  end.

(** The value that [json.loads] gives; a repeated key keeps its last value. *)
Fixpoint of_json (j : json) : pyval :=
  match j with
  | JNull => PNone
  | JBool b => PBool b
  | JNum t => match py_int t with Some n => PInt n | None => PFloat t end
  | JStr s => PStr s
  | JArr l => PList (map of_json l)
  | JObj l => PDict (dupdate [] (map (λ kv, (kv.1, of_json kv.2)) l))
  end.

(** ** Well-formed values: no dictionary has a key twice *)

Fixpoint val_wf (v : pyval) : Prop :=
  match v with
  | PList l => foldr (λ x acc, val_wf x ∧ acc) True l
  | PDict d => dict_wf d ∧ foldr (λ kv acc, val_wf kv.2 ∧ acc) True d
  | _ => True
  end.

Lemma foldr_and {A} (P : A → Prop) l : foldr (λ x acc, P x ∧ acc) True l ↔ Forall P l.
Proof. induction l as [|x l IH]; cbn; [done|]. by rewrite Forall_cons, IH. Qed.

Lemma val_wf_list l : val_wf (PList l) ↔ Forall val_wf l.
Proof. apply foldr_and. Qed.

Lemma val_wf_dict d : val_wf (PDict d) ↔ dict_wf d ∧ Forall (λ kv, val_wf kv.2) d.
Proof. cbn [val_wf]. by rewrite (foldr_and (λ kv : string * pyval, val_wf kv.2)). Qed.

Lemma val_wf_get d k v : val_wf (PDict d) → dget k d = Some v → val_wf v.
Proof.
  rewrite val_wf_dict, Forall_forall. intros [_ Hd] Hk. apply (Hd (k, v)). by apply dget_elem.
Qed.

Lemma val_wf_set d k v : val_wf (PDict d) → val_wf v → val_wf (PDict (dset k v d)).
Proof.
  rewrite !val_wf_dict. intros [Hd Ha] Hv. split; [by apply dset_wf|].
  clear Hd. induction d as [|[k' v'] d IH]; cbn; [by repeat constructor|].
  apply Forall_cons in Ha as [? Ha]. case_decide; constructor; auto.
Qed.

(** The value at a path of keys. *)
Fixpoint val_at (path : list string) (v : pyval) : option pyval :=
  match path, v with
  | [], _ => Some v
  | k :: path', PDict d => dget k d ≫= val_at path'
  | _, _ => None
  end.

Lemma val_at_app p q v : val_at (p ++ q) v = val_at p v ≫= val_at q.
Proof.
  revert v. induction p as [|k p IH]; intros v; cbn; [done|].
  destruct v; cbn; try done. destruct (dget k d); cbn; [apply IH|done].
Qed.

(** The text of a list of strings, and of an optional dictionary of strings. *)
Definition of_strings (l : list string) : pyval := PList (PStr <$> l).
Definition of_str_dict (d : dict string) : pyval := PDict (prod_map id PStr <$> d).
