(* ===== verification/Helpers.v ===== *)
(** * Shared helpers ([server/src/services/helpers.py])

    Resource quantities, timestamps, filters and ingress endpoints. *)

From Stdlib Require Import Ascii.
From S2P Require Import Prelude PyString PyFloat PyDict PyTime Regex Schema Config.
Open Scope string_scope.

(** ** Memory *)

(** [^\s*(\d+)([kmgti]i?|[kmgti]?b)?\s*$] with [IGNORECASE]. *)
Definition unit_char (c : ascii) : bool :=
  existsb (λ d, bool_decide (lower_char c = d)) ["k"; "m"; "g"; "t"; "i"]%char.
Definition char_i (c : ascii) : bool := bool_decide (lower_char c = "i"%char).
Definition char_b (c : ascii) : bool := bool_decide (lower_char c = "b"%char).
Definition MEMORY_UNIT : regex :=
  RAlt (RCat (RClass unit_char) (ROpt (RClass char_i)))
       (RCat (ROpt (RClass unit_char)) (RClass char_b)).
Definition MEMORY_PATTERN : regex :=
  RCat (RStar (RClass is_space))
    (RCat (RPlus (RClass is_digit)) (RCat (ROpt MEMORY_UNIT) (RStar (RClass is_space)))).

Definition MEMORY_MULTIPLIERS : dict Z :=
  [(EmptyString, 1); ("b", 1); ("k", 1000); ("kb", 1000); ("ki", 1024);
   ("m", 1000000); ("mb", 1000000); ("mi", 1024 ^ 2);
   ("g", 1000000000); ("gb", 1000000000); ("gi", 1024 ^ 3);
   ("t", 1000000000000); ("tb", 1000000000000); ("ti", 1024 ^ 4)]%Z.

(** The groups of a match: the digits after the leading white space, and what
    is left of the rest without its trailing white space. *)
Definition memory_groups (value : string) : string * string :=
  let '(ds, rest) := span_digits (lstrip_by is_space value) in
  (ds, rstrip_by is_space rest).

Definition parse_memory_limit (value : option string) : result (option Z) :=
  match value with
  | None => Ok None
  | Some v =>
      if negb (truthy v) then Ok None else
      if negb (re_match MEMORY_PATTERN v) then Ok None else
      let '(g1, g2) := memory_groups v in
      match py_int g1 with
      | None => Raise (PyException ValueError "Exceeds the limit (4300 digits) for integer string conversion")
      | Some amount =>
          match dget (lower g2) MEMORY_MULTIPLIERS with
          | None => Ok None
          | Some multiplier =>
              if (multiplier =? 0)%Z then Ok None else Ok (Some (amount * multiplier)%Z)
          end
      end
  end.

(** ** CPU *)

Definition parse_nano_cpus (value : option string) : result (option Z) :=
  match value with
  | None => Ok None
  | Some v =>
      if negb (truthy v) then Ok None else
      let cpu_str := lower (strip v) in
      let cpus :=
        if endswith cpu_str "m"
        then x ← py_float (drop_last cpu_str); Some (fdiv x (float_of_Z 1000))
        else py_float cpu_str in
      match cpus with
      | None => Ok None
      | Some x =>
          if fle x (S754_zero false) then Ok None
          else n ← int_of_float (fmul x (float_of_Z 1000000000)); Ok (Some n)
      end
  end.

Example nano_half : parse_nano_cpus (Some "500m") = Ok (Some 500000000%Z).
Proof. vm_compute. reflexivity. Qed.
Example nano_1001 : parse_nano_cpus (Some "1001m") = Ok (Some 1000999999%Z).
Proof. vm_compute. reflexivity. Qed.
Example nano_dec : parse_nano_cpus (Some " 0.1 ") = Ok (Some 100000000%Z).
Proof. vm_compute. reflexivity. Qed.
Example nano_exp : parse_nano_cpus (Some "1_0E-1") = Ok (Some 1000000000%Z).
Proof. vm_compute. reflexivity. Qed.
Example nano_tiny : parse_nano_cpus (Some "1e-10") = Ok (Some 0%Z).
Proof. vm_compute. reflexivity. Qed.

(** ** Timestamps *)

(** The separator loop of [parse_timestamp]: the first [+], else the first [-]. *)
Definition split_tz (rest : string) : string * string :=
  match split_once "+" rest with
  | Some (frac, tz) => (frac, String "+" tz)
  | None =>
      match split_once "-" rest with
      | Some (frac, tz) => (frac, String "-" tz)
      | None => (rest, EmptyString)
      end
  end.

(** Truncate the fraction of a second to six digits. *)
Definition truncate_fraction (normalized : string) : string :=
  match split_once "." normalized with
  | None => normalized
  | Some (main, rest) =>
      let '(frac, tz) := split_tz rest in
      let frac := str_take 6 frac in
      if truthy frac then main +:+ "." +:+ frac +:+ tz else main +:+ tz
  end.

(** The parsed timestamp; [None] is the fallback to the current time. *)
Definition parse_timestamp_opt (timestamp : option string) : option datetime :=
  match timestamp with
  | None => None
  | Some ts =>
      if negb (truthy ts) || str_eqb ts "0001-01-01T00:00:00Z" then None else
      let normalized := if endswith ts "Z" then drop_last ts +:+ "+00:00" else ts in
      fromisoformat (truncate_fraction normalized)
  end.

(** [now] is what [datetime.now(timezone.utc)] returns. *)
Definition parse_timestamp (now : datetime) (timestamp : option string) : datetime :=
  default now (parse_timestamp_opt timestamp).

(** ** Endpoints and filters *)

Definition normalize_external_endpoint_url (endpoint default_scheme : string) : string :=
  let endpoint := strip endpoint in
  if startswith endpoint "http://" || startswith endpoint "https://" then endpoint
  else default_scheme +:+ "://" +:+ endpoint.

(** The metadata part: [metadata.get(key) != value] for some item refuses. *)
Definition metadata_matches (metadata wanted : dict string) : bool :=
  forallb (λ '(key, value), bool_decide (dget key metadata = Some value)) wanted.

Definition matches_filter (sandbox : Sandbox) (filter_ : SandboxFilter) : bool :=
  match filter_state filter_ with
  | Some ((_ :: _) as states) => one_of (lower (state (sb_status sandbox))) (lower <$> states)
  | _ => true
  end
  && match filter_metadata filter_ with
     | Some wanted => metadata_matches (default [] (sb_metadata sandbox)) wanted
     | None => true
     end.

Definition format_ingress_endpoint (ingress_config : option IngressConfig)
    (sandbox_id : string) (port : Z) : result (option Endpoint) :=
  match ingress_config with
  | None => Ok None
  | Some i =>
      if negb (str_eqb (ingress_mode i) INGRESS_MODE_GATEWAY) then Ok None else
      match ingress_gateway i with
      | None => Ok None
      | Some gateway_cfg =>
          let address := gw_address gateway_cfg in
          let route_mode := route_mode (gw_route gateway_cfg) in
          if str_eqb route_mode GATEWAY_ROUTE_MODE_WILDCARD then
            let base := if startswith address "*." then str_drop 2 address else address in
            Ok (Some {| ep_endpoint := sandbox_id +:+ "-" +:+ str_of_Z port +:+ "." +:+ base;
                        ep_headers := None |})
          else if str_eqb route_mode GATEWAY_ROUTE_MODE_URI then
            Ok (Some {| ep_endpoint := address +:+ "/" +:+ sandbox_id +:+ "/" +:+ str_of_Z port;
                        ep_headers := None |})
          else if str_eqb route_mode GATEWAY_ROUTE_MODE_HEADER then
            Ok (Some {| ep_endpoint := address;
                        ep_headers := Some [(OPEN_SANDBOX_INGRESS_HEADER,
                                             sandbox_id +:+ "-" +:+ str_of_Z port)] |})
          else Raise (PyException RuntimeError ("Unsupported route mode: " +:+ route_mode))
      end
  end.

(** ** Lemmas on texts *)

Lemma forallb_lstrip p s : string_forallb p s = true → lstrip_by p s = EmptyString.
Proof. induction s as [|c s IH]; cbn; [done|]. intros [-> ?]%andb_true_iff. auto. Qed.

(** Stripping removes a prefix of white space in front of other text. *)
Lemma lstrip_app p w c s :
  string_forallb p w = true → p c = false → lstrip_by p (w +:+ String c s) = String c s.
Proof.
  intros Hw Hc. induction w as [|d w IH]; [by cbn; rewrite Hc|].
  rewrite str_app_cons. cbn in *. apply andb_true_iff in Hw as [-> ?]. auto.
Qed.

Lemma rstrip_all p s : string_forallb p s = true → rstrip_by p s = EmptyString.
Proof. induction s as [|c s IH]; cbn; [done|]. intros [Hc ?]%andb_true_iff. by rewrite IH, Hc. Qed.

Lemma rstrip_app p s w :
  string_forallb (λ c, negb (p c)) s = true → string_forallb p w = true →
  rstrip_by p (s +:+ w) = s.
Proof.
  intros Hs Hw. induction s as [|c s IH]; [by apply rstrip_all|].
  rewrite str_app_cons. cbn in *. apply andb_true_iff in Hs as [Hc%negb_true_iff ?].
  rewrite IH by done. destruct s; [by rewrite Hc|done].
Qed.

Lemma span_digits_app ds s :
  string_forallb is_digit ds = true → (∀ c t, s = String c t → is_digit c = false) →
  span_digits (ds +:+ s) = (ds, s).
Proof.
  intros Hd Hs. induction ds as [|d ds IH].
  - change (EmptyString +:+ s) with s. destruct s as [|c t]; [done|]. cbn. by rewrite (Hs c t).
  - rewrite str_app_cons. cbn in *. apply andb_true_iff in Hd as [-> ?]. by rewrite IH.
Qed.

Lemma digit_not_space c : is_digit c = true → is_space c = false.
Proof.
  unfold is_digit, is_space, in_range. intros [H1%N.leb_le H2%N.leb_le]%andb_true_iff.
  rewrite !orb_false_iff, !andb_false_iff, !N.leb_gt, !N.eqb_neq. lia.
Qed.

Lemma digit_truthy_app ds s : truthy ds = true → truthy (ds +:+ s) = true.
Proof. by destruct ds. Qed.

(** *** [int] of a text of digits *)

Lemma rev_string_app a s t : rev_string a (s +:+ t) = rev_string (rev_string a s) t.
Proof. revert a. induction s as [|c s IH]; intros a; [done|]. rewrite str_app_cons. cbn. apply IH. Qed.

Lemma rev_string_acc a b s : rev_string (a +:+ b) s = rev_string a s +:+ b.
Proof. revert a. induction s as [|c s IH]; intros a; [done|]. cbn. by rewrite <-IH. Qed.

Lemma reverse_rev s acc : rev_string acc (reverse s) = s +:+ acc.
Proof.
  revert acc. induction s as [|c s IH]; intros acc; [done|]. unfold reverse. cbn.
  change (String c EmptyString) with (EmptyString +:+ String c EmptyString).
  rewrite rev_string_acc, rev_string_app. change (rev_string EmptyString s) with (reverse s).
  by rewrite IH.
Qed.

Lemma int_digits_all b acc ds :
  string_forallb is_digit ds = true → truthy ds || b = true →
  int_digits b acc ds = Some (reverse (rev_string acc ds)).
Proof.
  revert b acc. induction ds as [|c ds IH]; intros b acc Hd Hb; cbn in *; [by subst|].
  apply andb_true_iff in Hd as [-> Hd]. apply IH; [done|]. apply orb_true_r.
Qed.

Lemma py_int_digits ds :
  string_forallb is_digit ds = true → truthy ds = true →
  py_int ds = if (int_max_str_digits <? Z.of_nat (len ds))%Z then None else Some (digits_val 0 ds).
Proof.
  intros Hd Ht. unfold py_int.
  assert (strip ds = ds) as ->.
  { unfold strip. destruct ds as [|c ds]; [done|]. cbn in Hd. pose proof Hd as [Hc ?]%andb_true_iff.
    cbn [lstrip_by]. rewrite digit_not_space by done.
    rewrite <-(str_app_nil_r (String c ds)) at 1. apply rstrip_app; [|done].
    clear -Hd. change (is_digit c && string_forallb is_digit ds) with (string_forallb is_digit (String c ds)) in Hd.
    induction (String c ds) as [|d t IH]; [done|]. cbn in *. apply andb_true_iff in Hd as [??].
    by rewrite digit_not_space, IH. }
  destruct ds as [|c ds]; [done|]. cbn [string_forallb] in Hd. pose proof Hd as [Hc _]%andb_true_iff.
  assert ((code c =? 45)%N = false ∧ (code c =? 43)%N = false) as [-> ->].
  { unfold is_digit, in_range in Hc. apply andb_true_iff in Hc as [?%N.leb_le ?%N.leb_le].
    rewrite !N.eqb_neq. lia. }
  rewrite int_digits_all by done.
  change (rev_string EmptyString (String c ds)) with (reverse (String c ds)).
  unfold reverse at 1. rewrite reverse_rev, str_app_nil_r.
  cbn [mbind option_bind]. destruct (_ <? _)%Z; [done|]. f_equal. lia.
Qed.

(** *** The memory pattern *)

Definition spaces (w : string) : Prop := string_forallb is_space w = true.
Definition digits (ds : string) : Prop := string_forallb is_digit ds = true ∧ truthy ds = true.
Definition unit_text (c : ascii) : bool := unit_char c || char_i c || char_b c.

Lemma unit_text_plain c : unit_text c = true → is_space c = false ∧ is_digit c = false.
Proof. destruct c as [[] [] [] [] [] [] [] []]; vm_compute; auto. Qed.

Lemma matches_plus_class p s :
  matches (RPlus (RClass p)) s ↔ string_forallb p s = true ∧ truthy s = true.
Proof.
  unfold RPlus. rewrite matches_cat. setoid_rewrite matches_class. setoid_rewrite matches_star_class.
  split.
  - intros (a&b&->&(c&->&Hc)&Hb). rewrite str_app_cons. cbn. by rewrite Hc, Hb.
  - intros [Hs Ht]. destruct s as [|c s]; [done|]. cbn in Hs. apply andb_true_iff in Hs as [??].
    exists (String c EmptyString), s. split_and!; eauto.
Qed.

Lemma matches_opt r s : matches (ROpt r) s ↔ s = EmptyString ∨ matches r s.
Proof. unfold ROpt. by rewrite matches_alt, matches_eps. Qed.

Lemma memory_unit_text u : matches (ROpt MEMORY_UNIT) u → string_forallb unit_text u = true.
Proof.
  unfold MEMORY_UNIT. rewrite matches_opt, matches_alt, !matches_cat.
  setoid_rewrite matches_opt. setoid_rewrite matches_class.
  assert (∀ c, unit_char c = true → unit_text c = true) by (unfold unit_text; by intros c ->).
  assert (∀ c, char_i c = true → unit_text c = true) by (unfold unit_text; intros c ->; by rewrite orb_true_r).
  assert (∀ c, char_b c = true → unit_text c = true) by (unfold unit_text; intros c ->; by rewrite orb_true_r).
  intros [->|[(a&b&->&(c&->&?)&[->|(d&->&?)])|(a&b&->&[->|(d&->&?)]&(c&->&?))]];
    rewrite ?string_forallb_app; cbn; rewrite ?andb_true_r, ?andb_true_iff; auto.
Qed.

Lemma memory_pattern_spec v :
  re_match MEMORY_PATTERN v = true ↔
  ∃ w1 ds u w2, v = w1 +:+ ds +:+ u +:+ w2 ∧ spaces w1 ∧ digits ds ∧ matches (ROpt MEMORY_UNIT) u ∧ spaces w2.
Proof.
  rewrite re_match_spec.
  assert (∀ x, matches MEMORY_PATTERN x ↔ ∃ w1 ds u w2,
    x = w1 +:+ ds +:+ u +:+ w2 ∧ spaces w1 ∧ digits ds ∧ matches (ROpt MEMORY_UNIT) u ∧ spaces w2) as HP.
  { intros x. unfold MEMORY_PATTERN, spaces, digits. split.
    - intros (w1&?&->&?%matches_star_class&(ds&?&->&?%matches_plus_class&(u&w2&->&?&?%matches_star_class)%matches_cat)%matches_cat)%matches_cat.
      exists w1, ds, u, w2. auto.
    - intros (w1&ds&u&w2&->&?%matches_star_class&?%matches_plus_class&?&?%matches_star_class).
      apply matches_cat. do 2 eexists. split_and!; [done..|].
      apply matches_cat. do 2 eexists. split_and!; [done..|].
      apply matches_cat. eauto. }
  split.
  - intros [H%HP|(t&->&(w1&ds&u&w2&->&?&?&?&?)%HP)]; [done|].
    exists w1, ds, u, (w2 +:+ newline). rewrite !str_app_assoc. split_and!; try done.
    unfold spaces in *. rewrite string_forallb_app. by apply andb_true_iff.
  - intros H. left. by apply HP.
Qed.

Lemma memory_groups_spec w1 ds u w2 :
  spaces w1 → digits ds → string_forallb unit_text u = true → spaces w2 →
  memory_groups (w1 +:+ ds +:+ u +:+ w2) = (ds, u).
Proof.
  intros Hw1 [Hd Ht] Hu Hw2. unfold memory_groups. destruct ds as [|d ds]; [done|].
  pose proof Hd as Hd'. cbn in Hd'. apply andb_true_iff in Hd' as [Hd0 _].
  rewrite str_app_cons, lstrip_app; [|done|by apply digit_not_space].
  rewrite <-str_app_cons, span_digits_app; [|done|].
  - f_equal. apply rstrip_app; [|done]. clear -Hu. induction u as [|c u IH]; [done|].
    cbn in *. apply andb_true_iff in Hu as [[-> _]%unit_text_plain ?]. auto.
  - intros c t. destruct u as [|e u].
    + destruct w2 as [|f w2]; [done|]. intros [= <- <-]. cbn in Hw2.
      unfold spaces in Hw2. cbn in Hw2. apply andb_true_iff in Hw2 as [Hf _].
      destruct (is_digit f) eqn:E; [|done]. apply digit_not_space in E. congruence.
    + rewrite str_app_cons. intros [= <- <-]. cbn in Hu. apply andb_true_iff in Hu as [[_ ?]%unit_text_plain _]. done.
Qed.

(** The texts of the unit group. *)
Lemma unit_matches u :
  matches (ROpt MEMORY_UNIT) u ↔
  match u with
  | EmptyString => True
  | String a EmptyString => unit_char a = true ∨ char_b a = true
  | String a (String b EmptyString) => unit_char a = true ∧ (char_i b = true ∨ char_b b = true)
  | _ => False
  end.
Proof.
  unfold MEMORY_UNIT. rewrite matches_opt, matches_alt, !matches_cat.
  setoid_rewrite matches_opt. setoid_rewrite matches_class. split.
  - intros [->|[(x&y&->&(c&->&?)&[->|(d&->&?)])|(x&y&->&[->|(d&->&?)]&(c&->&?))]]; cbn; auto.
  - destruct u as [|a [|b [|]]]; try done; [by left|..].
    + intros [?|?]; right; [left; exists (String a EmptyString), EmptyString|
                            right; exists EmptyString, (String a EmptyString)]; naive_solver.
    + intros [? [?|?]]; right; [left|right]; exists (String a EmptyString), (String b EmptyString); naive_solver.
Qed.

Lemma multiplier_unit u m :
  dget (lower u) MEMORY_MULTIPLIERS = Some m → matches (ROpt MEMORY_UNIT) u ∧ m ≠ 0%Z.
Proof.
  intros H%dget_elem. rewrite unit_matches. unfold MEMORY_MULTIPLIERS in H. set_unfold.
  repeat match goal with H : _ ∨ _ |- _ => destruct H as [H|H] end; try done;
    injection H as H ->; (split; [|done]);
    destruct u as [|a [|b [|]]]; cbn in H; simplify_eq; try done;
    unfold unit_char, char_i, char_b;
    repeat match goal with E : lower_char ?a = _ |- _ => rewrite !E; clear E end;
    vm_compute; auto.
Qed.

(** [parse_memory_limit] returns [n] bytes exactly when the text is, up to
    surrounding white space, at most 4300 decimal digits followed by one of the
    units of the table (in any case), and [n] is the number times the
    multiplier of that unit; the result is then unique. *)
Theorem parse_memory_limit_spec v n :
  parse_memory_limit (Some v) = Ok (Some n) ↔
  ∃ w1 ds u w2 m, v = w1 +:+ ds +:+ u +:+ w2 ∧ spaces w1 ∧ digits ds ∧ spaces w2 ∧
    (Z.of_nat (len ds) ≤ int_max_str_digits)%Z ∧
    dget (lower u) MEMORY_MULTIPLIERS = Some m ∧ n = (digits_val 0 ds * m)%Z.
Proof.
  unfold parse_memory_limit. split.
  - destruct (truthy v); cbn [negb]; [|done].
    destruct (re_match MEMORY_PATTERN v) eqn:Hm; cbn [negb]; [|done].
    apply memory_pattern_spec in Hm as (w1&ds&u&w2&->&Hw1&Hds&Hu&Hw2).
    rewrite memory_groups_spec by auto using memory_unit_text.
    rewrite py_int_digits by apply Hds. destruct (_ <? _)%Z eqn:Hl; [done|]. apply Z.ltb_ge in Hl.
    destruct (dget (lower u) _) as [m|] eqn:Hg; [|done]. destruct (m =? 0)%Z; [done|].
    intros [= <-]. exists w1, ds, u, w2, m. auto 10.
  - intros (w1&ds&u&w2&m&->&Hw1&Hds&Hw2&Hl&Hg&->). pose proof (multiplier_unit _ _ Hg) as [Hu Hm].
    assert (truthy (w1 +:+ ds +:+ u +:+ w2) = true) as ->.
    { destruct w1; [|done]. apply (digit_truthy_app ds). apply Hds. }
    rewrite (proj2 (memory_pattern_spec _)) by eauto 10. cbn [negb].
    rewrite memory_groups_spec by auto using memory_unit_text.
    rewrite py_int_digits by apply Hds. rewrite (proj2 (Z.ltb_ge _ _)) by done. rewrite Hg.
    by rewrite (proj2 (Z.eqb_neq m 0)).
Qed.

(** *** Timestamps *)

Lemma split_once_app c s t :
  has_char c s = false → split_once c (s +:+ String c t) = Some (s, t).
Proof.
  induction s as [|d s IH]; intros H.
  - cbn. by rewrite bool_decide_eq_true_2.
  - rewrite str_app_cons. cbn in *. apply orb_false_iff in H as [-> H]. by rewrite IH.
Qed.

Lemma split_once_None c s : has_char c s = false → split_once c s = None.
Proof. induction s as [|d s IH]; cbn; [done|]. intros [-> H]%orb_false_iff. by rewrite IH. Qed.

Lemma str_take_len s t : str_take (len s) (s +:+ t) = s.
Proof. induction s as [|c s IH]; [by destruct t|]. rewrite str_app_cons. cbn. by rewrite IH. Qed.

Lemma has_char_fmt c k n : is_digit c = false → has_char c (fmt k n) = false.
Proof.
  intros Hc. pose proof (fixed_digits_digits k n EmptyString eq_refl) as H. fold (fmt k n) in H.
  induction (fmt k n) as [|d s IH]; [done|]. cbn in *. apply andb_true_iff in H as [Hd Hs].
  rewrite IH, bool_decide_eq_false_2 by (done || (intros ->; congruence)). done.
Qed.

Lemma len_fmt k n : len (fmt k n) = k.
Proof. unfold fmt. rewrite fixed_digits_len. cbn. lia. Qed.

(** [truncate_fraction] leaves the texts that [isoformat] produces alone. *)
Lemma truncate_fraction_isoformat us :
  truncate_fraction (isoformat (utc us)) = isoformat (utc us).
Proof.
  unfold isoformat, utc, format_local. destruct (day2ymd _) as [[y m] d].
  change (format_offset 0) with "+00:00".
  set (s := (us mod us_per_day / us_per_second)%Z). set (f := (us mod us_per_day mod us_per_second)%Z).
  set (main := fmt 4 y +:+ "-" +:+ fmt 2 m +:+ "-" +:+ fmt 2 d +:+ "T"
       +:+ fmt 2 (s / 3600) +:+ ":" +:+ fmt 2 (s / 60 mod 60) +:+ ":" +:+ fmt 2 (s mod 60)).
  assert (has_char "." main = false) as Hm.
  { subst main. rewrite !has_char_app, !has_char_fmt by done. done. }
  assert (∀ t, fmt 4 y +:+ "-" +:+ fmt 2 m +:+ "-" +:+ fmt 2 d +:+ "T"
       +:+ fmt 2 (s / 3600) +:+ ":" +:+ fmt 2 (s / 60 mod 60) +:+ ":" +:+ fmt 2 (s mod 60) +:+ t
       = main +:+ t) as Hmain by (intros t; subst main; by rewrite !str_app_assoc).
  rewrite Hmain. unfold truncate_fraction. destruct (f =? 0)%Z.
  - rewrite split_once_None; [done|]. by rewrite !has_char_app, Hm.
  - rewrite str_app_assoc. change ("." +:+ fmt 6 f) with (String "." (fmt 6 f)).
    rewrite str_app_cons, split_once_app by done. unfold split_tz.
    change "+00:00" with (String "+" "00:00").
    rewrite split_once_app by (by apply has_char_fmt).
    rewrite <-(str_app_nil_r (fmt 6 f)) at 1.
    replace 6%nat with (len (fmt 6 f)) at 1 by apply len_fmt. rewrite str_take_len.
    destruct (truthy (fmt 6 f)) eqn:E; [done|].
    pose proof (len_fmt 6 f). by destruct (fmt 6 f).
Qed.

Lemma endswith_app_false s t p :
  len t = len p → t ≠ p → endswith (s +:+ t) p = false.
Proof.
  intros Hl Hne. apply not_true_is_false. intros [u Hu]%endswith_true. apply Hne.
  assert (len s = len u) as Hsu by (apply (f_equal len) in Hu; rewrite !len_app in Hu; lia).
  clear Hl Hne. revert u Hu Hsu. induction s as [|c s IH]; intros [|d u] Hu Hl; try done.
  rewrite !str_app_cons in Hu. injection Hu as _ Hu. cbn in Hl. eauto.
Qed.

Lemma isoformat_utc_Z us : ∃ t, isoformat (utc us) = t +:+ "0".
Proof.
  exists (format_local us +:+ "+00:0"). unfold isoformat, utc.
  change (format_offset 0) with ("+00:0" +:+ "0"). by rewrite str_app_assoc.
Qed.

(** The text that the server writes into the expires-at label reads back as the
    same instant, without a look at the clock. *)
Lemma parse_timestamp_isoformat us :
  dt_in_range us = true → parse_timestamp_opt (Some (isoformat (utc us))) = Some (utc us).
Proof.
  intros Hr. unfold parse_timestamp_opt. destruct (isoformat_utc_Z us) as [t Ht].
  assert (endswith (isoformat (utc us)) "Z" = false) as HZ by (rewrite Ht; by apply endswith_app_false).
  assert (truthy (isoformat (utc us)) = true) as -> by (rewrite Ht; by destruct t).
  assert (str_eqb (isoformat (utc us)) "0001-01-01T00:00:00Z" = false) as ->.
  { apply str_eqb_false. intros E. rewrite E in HZ. done. }
  cbn [negb orb]. by rewrite HZ, truncate_fraction_isoformat, fromisoformat_isoformat.
Qed.

(** For every instant in range, [parse_timestamp] reads the RFC 3339 text
    that [isoformat] prints back as this instant, also when it carries the
    suffix [Z] instead of [+00:00] (then the sentinel of the zero time apart). *)
Theorem parse_timestamp_roundtrip now us :
  dt_in_range us = true →
  parse_timestamp now (Some (isoformat (utc us))) = utc us ∧
  (us ≠ 0%Z → parse_timestamp now (Some (format_local us +:+ "Z")) = utc us).
Proof.
  intros Hr. unfold parse_timestamp. split; [by rewrite parse_timestamp_isoformat|]. intros Hne.
  unfold parse_timestamp_opt. assert (truthy (format_local us +:+ "Z") = true) as ->.
  { by destruct (format_local us). }
  assert (str_eqb (format_local us +:+ "Z") "0001-01-01T00:00:00Z" = false) as ->.
  { apply str_eqb_false. intros E. apply Hne.
    assert (isoformat (utc us) = isoformat (utc 0)) as E'.
    { unfold isoformat, utc. f_equal. change "0001-01-01T00:00:00Z" with (format_local 0 +:+ "Z") in E.
      assert (∀ a b, a +:+ "Z" = b +:+ "Z" → a = b) as Hinj; [|by apply Hinj].
      intros a. induction a as [|c a IH]; intros [|d b] H; try done.
      - injection H as _ H. by destruct b.
      - injection H as _ H. by destruct a.
      - rewrite !str_app_cons in H. injection H as -> H. f_equal. auto. }
    apply (f_equal fromisoformat) in E'. rewrite !fromisoformat_isoformat in E' by done. by injection E'. }
  cbn [negb orb]. rewrite endswith_app.
  assert (drop_last (format_local us +:+ "Z") = format_local us) as ->.
  { unfold drop_last. rewrite len_app. cbn. rewrite Nat.add_1_r. cbn. apply str_take_len. }
  change (format_local us +:+ "+00:00") with (isoformat (utc us)).
  by rewrite truncate_fraction_isoformat, fromisoformat_isoformat.
Qed.

Lemma parse_timestamp_roundtrip_witness :
  parse_timestamp (utc 0) (Some (isoformat (utc 63902649600123456))) = utc 63902649600123456 ∧
  parse_timestamp (utc 0) (Some (format_local 63902649600123456 +:+ "Z")) = utc 63902649600123456.
Proof.
  destruct (parse_timestamp_roundtrip (utc 0) 63902649600123456 eq_refl) as [H1 H2].
  split; [exact H1|apply H2; discriminate].
Defined.

(** *** Filters and endpoints *)

(** A sandbox passes [matches_filter] exactly when its state is, up to
    case, one of the requested states (if any is requested) and its metadata
    holds every requested item. *)
Theorem matches_filter_spec sandbox f :
  matches_filter sandbox f = true ↔
  (∀ states, filter_state f = Some states → states ≠ [] →
     ∃ s, s ∈ states ∧ lower s = lower (state (sb_status sandbox))) ∧
  (∀ wanted k v, filter_metadata f = Some wanted → (k, v) ∈ wanted →
     dget k (default [] (sb_metadata sandbox)) = Some v).
Proof.
  unfold matches_filter. rewrite andb_true_iff. f_equiv.
  - destruct (filter_state f) as [[|s0 states]|]; [naive_solver| |naive_solver].
    rewrite one_of_true, list_elem_of_fmap. split; [intros (s&?&?) ? [= <-] _; eauto|].
    intros H. destruct (H _ eq_refl) as (s&?&?); [done|]. eauto.
  - destruct (filter_metadata f) as [wanted|]; [|naive_solver].
    unfold metadata_matches. rewrite forallb_forall. split.
    + intros H ? k v [= <-] Hin%list_elem_of_In. specialize (H _ Hin). by apply bool_decide_eq_true in H.
    + intros H [k v] Hin. apply bool_decide_eq_true. by eapply H, list_elem_of_In.
Qed.

Lemma wildcard_domain_prefix a : is_wildcard_domain a = true → ∃ d, a = "*." +:+ d.
Proof.
  unfold is_wildcard_domain. rewrite !andb_true_iff. intros [[H _] _].
  by apply startswith_true in H.
Qed.

(** With an ingress block that the configuration validators accept,
    [format_ingress_endpoint] never raises; it returns nothing in direct mode,
    and in gateway mode an endpoint from which the gateway can recover sandbox
    and port: in the host name under the wildcard domain, in the path, or in
    the routing header. *)
Theorem format_ingress_endpoint_valid i sandbox_id port :
  ingress_fields_ok i = true → validate_ingress_mode i = Ok tt →
  let target := sandbox_id +:+ "-" +:+ str_of_Z port in
  match ingress_gateway i with
  | None => ingress_mode i = INGRESS_MODE_DIRECT ∧
            format_ingress_endpoint (Some i) sandbox_id port = Ok None
  | Some g =>
      ∃ ep, format_ingress_endpoint (Some i) sandbox_id port = Ok (Some ep) ∧
      ((∃ domain, gw_address g = "*." +:+ domain ∧
          ep = {| ep_endpoint := target +:+ "." +:+ domain; ep_headers := None |})
       ∨ ep = {| ep_endpoint := gw_address g +:+ "/" +:+ sandbox_id +:+ "/" +:+ str_of_Z port; ep_headers := None |}
       ∨ ep = {| ep_endpoint := gw_address g; ep_headers := Some [(OPEN_SANDBOX_INGRESS_HEADER, target)] |})
  end.
Proof.
  intros Hf Hv target. unfold ingress_fields_ok in Hf. apply andb_true_iff in Hf as [Hm Hg].
  apply one_of_true in Hm.
  unfold validate_ingress_mode in Hv. cbn zeta in Hv. rewrite !result_bind_unit_Ok, !raise_if_Ok in Hv.
  destruct Hv as (Hv1&Hv2&Hv3). unfold format_ingress_endpoint.
  destruct (ingress_gateway i) as [g|].
  - rewrite andb_true_r in Hv2. apply str_eqb_false in Hv2.
    assert (str_eqb (ingress_mode i) INGRESS_MODE_GATEWAY = true) as HG
      by (apply str_eqb_true; set_solver).
    rewrite HG in *. cbn [negb] in *. apply (proj1 (result_bind_unit_Ok _ _ _)) in Hv3 as [_ Hv3].
    unfold gateway_fields_ok in Hg. apply andb_true_iff in Hg as [_ Hr]. apply one_of_true in Hr.
    destruct (str_eqb _ GATEWAY_ROUTE_MODE_WILDCARD) eqn:HW.
    + apply raise_if_Ok, negb_false_iff, wildcard_domain_prefix in Hv3 as [d Hd].
      eexists; split; [done|]. left. exists d. split; [done|]. rewrite Hd, startswith_app.
      unfold target. by rewrite !str_app_assoc.
    + apply str_eqb_false in HW. destruct (str_eqb _ GATEWAY_ROUTE_MODE_URI) eqn:HU; [by eauto 10|].
      apply str_eqb_false in HU.
      rewrite (proj2 (str_eqb_true _ GATEWAY_ROUTE_MODE_HEADER)) by set_solver. eauto 10.
  - rewrite andb_true_r in Hv1. rewrite Hv1. split; [|done]. apply str_eqb_false in Hv1. set_solver.
Qed.

Lemma format_ingress_endpoint_valid_witness :
  ∃ ep, format_ingress_endpoint
    (Some {| ingress_mode := "gateway";
             ingress_gateway := Some {| gw_address := "*.example.com"; gw_route := {| route_mode := "wildcard" |} |} |})
    "sb" 8080 = Ok (Some ep).
Proof.
  destruct (format_ingress_endpoint_valid
    {| ingress_mode := "gateway";
       ingress_gateway := Some {| gw_address := "*.example.com"; gw_route := {| route_mode := "wildcard" |} |} |}
    "sb" 8080 ltac:(vm_compute; reflexivity) ltac:(vm_compute; reflexivity)) as (ep&H&_).
  exists ep. exact H.
Defined.
