(* ===== verification/Shlex.v ===== *)
(** * [shlex]

    [shlex.split] in POSIX mode and [shlex.quote]. *)

From Stdlib Require Import Ascii.
From S2P Require Import Prelude PyString.
Open Scope string_scope.

(** ** [shlex.split] *)

Inductive shlex_state := Between | Word | Single | Double.

(** The words of a command line in POSIX mode; [None] is [ValueError]: an open
    quotation or a backslash at the end. *)
Fixpoint shlex_loop (st : shlex_state) (word : string) (s : string) : option (list string) :=
  match s with
  | EmptyString =>
      match st with
      | Between => Some []
      | Word => Some [reverse word]
      | Single | Double => None
      end
  | String c s' =>
      match st with
      | Single =>
          if bool_decide (c = "'"%char) then shlex_loop Word word s' else shlex_loop Single (String c word) s'
      | Double =>
          if bool_decide (c = chr 34) then shlex_loop Word word s'
          else if bool_decide (c = chr 92) then
            match s' with
            | EmptyString => None
            | String d s'' =>
                if bool_decide (d = chr 34) || bool_decide (d = chr 92)
                then shlex_loop Double (String d word) s''
                else shlex_loop Double (String d (String c word)) s''
            end
          else shlex_loop Double (String c word) s'
      | Between | Word =>
          if bool_decide (c = " "%char) || (code c =? 9)%N || (code c =? 10)%N || (code c =? 13)%N then
            match st with
            | Word => l ← shlex_loop Between EmptyString s'; Some (reverse word :: l)
            | _ => shlex_loop Between EmptyString s'
            end
          else if bool_decide (c = "'"%char) then shlex_loop Single word s'
          else if bool_decide (c = chr 34) then shlex_loop Double word s'
          else if bool_decide (c = chr 92) then
            match s' with EmptyString => None | String d s'' => shlex_loop Word (String d word) s'' end
          else shlex_loop Word (String c word) s'
      end
  end.

Definition shlex_split (s : string) : option (list string) := shlex_loop Between EmptyString s.

(** ** [shlex.quote] *)

(** [[\w@%+=:,./-]] with [re.ASCII] *)
Definition shlex_safe (c : ascii) : bool :=
  is_digit c || in_range 65 90 c || in_range 97 122 c
  || existsb (λ d, bool_decide (c = d)) ["_"; "@"; "%"; "+"; "="; ":"; ","; "."; "/"; "-"]%char.

(** [s.replace("'", "'\"'\"'")] *)
Fixpoint escape_quotes (s : string) : string :=
  match s with
  | EmptyString => EmptyString
  | String c s' =>
      if bool_decide (c = "'"%char)
      then "'" +:+ dquote +:+ "'" +:+ dquote +:+ "'" +:+ escape_quotes s'
      else String c (escape_quotes s')
  end.

Definition shlex_quote (s : string) : string :=
  if negb (truthy s) then "''"
  else if string_forallb shlex_safe s then s
  else "'" +:+ escape_quotes s +:+ "'".

(** ** How [/bin/sh] reads a command line

    Token recognition of a POSIX shell: words, operators, quotation.  [None]
    stands for a text in which the shell would expand something (a parameter, a
    command, a pattern), starts a comment, or that ends inside a quotation. *)

Inductive sh_token := SWord (s : string) | SOp (c : ascii).
Inductive sh_state := SBetween | SIn | SSingle | SDouble.

Definition sh_blank (c : ascii) : bool := bool_decide (c = " "%char) || (code c =? 9)%N.
Definition sh_operator (c : ascii) : bool :=
  (code c =? 10)%N || existsb (λ d, bool_decide (c = d)) ["&"; ";"; "|"; "<"; ">"; "("; ")"]%char.
Definition sh_special (c : ascii) : bool :=
  (code c =? 92)%N
  || existsb (λ d, bool_decide (c = d)) ["$"; "`"; "*"; "?"; "["; "]"; "~"; "#"; "!"; "{"; "}"; "^"]%char.

Fixpoint sh_loop (st : sh_state) (word : string) (s : string) : option (list sh_token) :=
  let close (l : list sh_token) := match st with SBetween => l | _ => SWord (reverse word) :: l end in
  match s with
  | EmptyString => match st with SBetween | SIn => Some (close []) | _ => None end
  | String c s' =>
      match st with
      | SSingle => if bool_decide (c = "'"%char) then sh_loop SIn word s' else sh_loop SSingle (String c word) s'
      | SDouble =>
          if bool_decide (c = chr 34) then sh_loop SIn word s'
          else if (code c =? 92)%N || bool_decide (c = "$"%char) || bool_decide (c = "`"%char) then None
          else sh_loop SDouble (String c word) s'
      | SBetween | SIn =>
          if sh_blank c then close <$> sh_loop SBetween EmptyString s'
          else if sh_operator c then (λ l, close (SOp c :: l)) <$> sh_loop SBetween EmptyString s'
          else if bool_decide (c = "'"%char) then sh_loop SSingle word s'
          else if bool_decide (c = chr 34) then sh_loop SDouble word s'
          else if sh_special c then None
          else sh_loop SIn (String c word) s'
      end
  end.

Definition sh_tokens (s : string) : option (list sh_token) := sh_loop SBetween EmptyString s.

Example sh_tokens_ex : sh_tokens "a 'b c';d" = Some [SWord "a"; SWord "b c"; SOp ";"; SWord "d"].
Proof. reflexivity. Qed.

(** ** Quoted words *)

Lemma rev_string_reverse acc s : rev_string acc s = reverse s +:+ acc.
Proof.
  unfold reverse. revert acc. induction s as [|c s IH]; intros acc; cbn; [done|].
  rewrite IH, (IH (String c EmptyString)), str_app_assoc. done.
Qed.

Lemma reverse_cons c s : reverse (String c s) = reverse s +:+ String c EmptyString.
Proof. unfold reverse at 1. cbn. apply rev_string_reverse. Qed.

Lemma shlex_safe_plain c :
  shlex_safe c = true →
  sh_blank c = false ∧ sh_operator c = false ∧ bool_decide (c = "'"%char) = false ∧
  bool_decide (c = chr 34) = false ∧ sh_special c = false.
Proof. destruct c as [[] [] [] [] [] [] [] []]; vm_compute; try discriminate; auto. Qed.

(** The characters of [s] join the word that the shell is reading. *)
Definition sh_reads (q s : string) : Prop :=
  ∀ st word rest, st = SBetween ∨ st = SIn →
    sh_loop st word (q +:+ rest) = sh_loop SIn (reverse s +:+ word) rest.

Lemma sh_reads_safe s : truthy s = true → string_forallb shlex_safe s = true → sh_reads s s.
Proof.
  intros Ht Hs st word rest Hst. revert st word Hst. induction s as [|c s IH]; intros st word Hst; [done|].
  cbn in Hs. apply andb_true_iff in Hs as [Hc Hs].
  destruct (shlex_safe_plain c Hc) as (H1&H2&H3&H4&H5).
  rewrite str_app_cons, reverse_cons, str_app_assoc. cbn [String.append].
  assert (sh_loop st word (String c (s +:+ rest)) = sh_loop SIn (String c word) (s +:+ rest)) as ->.
  { destruct Hst as [-> | ->]; cbn [sh_loop]; by rewrite H1, H2, H3, H4, H5. }
  destruct s as [|d s]; [done|]. apply IH; auto.
Qed.

Lemma sh_single s word rest :
  sh_loop SSingle word (escape_quotes s +:+ String "'" rest) = sh_loop SIn (reverse s +:+ word) rest.
Proof.
  revert word. induction s as [|c s IH]; intros word; [done|].
  rewrite reverse_cons, str_app_assoc. cbn [escape_quotes String.append].
  destruct (bool_decide (c = "'"%char)) eqn:Hc.
  - apply bool_decide_eq_true in Hc as ->. cbn. apply (IH (String "'" word)).
  - cbn [String.append sh_loop]. rewrite Hc. apply IH.
Qed.

Lemma sh_reads_quote s : sh_reads (shlex_quote s) s.
Proof.
  unfold shlex_quote. destruct (truthy s) eqn:Ht; cbn [negb].
  - destruct (string_forallb shlex_safe s) eqn:Hs; [by apply sh_reads_safe|].
    intros st word rest Hst. rewrite !str_app_assoc.
    destruct Hst as [-> | ->]; cbn; apply sh_single.
  - destruct s; [|done]. by intros st word rest [-> | ->].
Qed.

Lemma reverse_reverse s : reverse (reverse s) = s.
Proof.
  assert (∀ t u, reverse (t +:+ u) = reverse u +:+ reverse t) as Happ.
  { induction t as [|c t IH]; intros u; cbn [String.append]; [by rewrite str_app_nil_r|].
    by rewrite !reverse_cons, IH, str_app_assoc. }
  induction s as [|c s IH]; [done|]. by rewrite reverse_cons, Happ, IH.
Qed.

(** A quoted word, followed by a blank or by the end, is one word of the shell. *)
Lemma sh_quote_blank s rest :
  sh_loop SBetween EmptyString (shlex_quote s +:+ String " " rest) =
  cons (SWord s) <$> sh_loop SBetween EmptyString rest.
Proof.
  rewrite (sh_reads_quote s SBetween) by auto. cbn. rewrite str_app_nil_r.
  destruct (sh_loop SBetween EmptyString rest); cbn; [|done]. by rewrite reverse_reverse.
Qed.

Lemma sh_quote_end s : sh_loop SBetween EmptyString (shlex_quote s) = Some [SWord s].
Proof.
  rewrite <-(str_app_nil_r (shlex_quote s)), (sh_reads_quote s SBetween) by auto. cbn.
  by rewrite str_app_nil_r, reverse_reverse.
Qed.

(** [' '.join(shlex.quote(arg) for arg in args)], in front of more text, is read
    as the words [args]. *)
Lemma sh_quoted_words args rest :
  args ≠ [] →
  sh_loop SBetween EmptyString (join " " (shlex_quote <$> args) +:+ String " " rest) =
  app (SWord <$> args) <$> sh_loop SBetween EmptyString rest.
Proof.
  intros Hne. induction args as [|a args IH]; [done|]. destruct args as [|b args].
  - cbn [fmap list_fmap join]. rewrite sh_quote_blank. by destruct (sh_loop _ _ rest).
  - rewrite fmap_cons. rewrite (join_cons " " (shlex_quote a)) by done.
    rewrite !str_app_assoc. cbn [String.append]. rewrite sh_quote_blank, IH by done.
    by destruct (sh_loop _ _ rest).
Qed.
