(* ===== verification/Common.v ===== *)
(** * Pieces shared by the Docker and the Kubernetes service

    Identifiers and times, the JSON text of a network policy, and the headers of
    [services/endpoint_auth.py]. *)

From S2P Require Import Prelude PyString PyDict PyTime Json Schema Helpers.
Open Scope string_scope.

(** [str(uuid4())] from the 32 hexadecimal digits. *)
Definition uuid_str (hex : string) : string :=
  str_take 8 hex +:+ "-" +:+ str_take 4 (str_drop 8 hex) +:+ "-" +:+ str_take 4 (str_drop 12 hex)
  +:+ "-" +:+ str_take 4 (str_drop 16 hex) +:+ "-" +:+ str_drop 20 hex.

(** [int(time.time())]: seconds since 1970-01-01. *)
Definition unix_seconds (us : Z) : Z := (us / us_per_second - 62135596800)%Z.

(** ** Network policy as JSON *)

Definition dumps_rule (r : NetworkRule) : string :=
  "{" +:+ dumps_string "action" +:+ ": " +:+ dumps_string (action r) +:+ ", "
  +:+ dumps_string "target" +:+ ": " +:+ dumps_string (target r) +:+ "}".

(** [json.dumps(policy.model_dump(by_alias=True, exclude_none=True))] *)
Definition dumps_policy (p : NetworkPolicy) : string :=
  "{" +:+ match default_action p with
          | Some a => dumps_string "defaultAction" +:+ ": " +:+ dumps_string a +:+ ", "
          | None => EmptyString
          end
  +:+ dumps_string "egress" +:+ ": [" +:+ join ", " (dumps_rule <$> egress p) +:+ "]}".

(** ** Authentication of endpoints ([endpoint_auth.py]) *)

Definition build_egress_auth_headers (token : string) : dict string :=
  [(OPEN_SANDBOX_EGRESS_AUTH_HEADER, token)].

Definition merge_endpoint_headers (existing : option (dict string)) (extra : dict string) : dict string :=
  dupdate (dupdate [] (default [] existing)) extra.

(** ** Text of integers *)

Lemma nat_digits_spec fuel n acc :
  (0 ≤ n)%Z → (n < 2 ^ Z.of_nat fuel)%Z → (0 < fuel)%nat →
  digits_val 0 (nat_digits fuel n acc) = digits_val n acc ∧
  string_forallb is_digit (nat_digits fuel n acc) = string_forallb is_digit acc ∧
  truthy (nat_digits fuel n acc) = true ∧ (len (nat_digits fuel n acc) ≤ fuel + len acc)%nat.
Proof.
  revert n acc. induction fuel as [|fuel IH]; intros n acc Hn Hb Hf; [lia|]. cbn [nat_digits].
  assert (0 ≤ n mod 10 < 10)%Z as Hd by (apply Z.mod_pos_bound; lia).
  pose proof (digit_char_digit _ Hd) as Hdig. pose proof (digit_char_val _ Hd) as Hval.
  destruct (n <? 10)%Z eqn:Hlt.
  - apply Z.ltb_lt in Hlt. cbn [digits_val string_forallb len truthy]. rewrite Hdig, Hval, Z.mod_small by lia.
    split_and!; [f_equal; lia|done|done|lia].
  - apply Z.ltb_ge in Hlt.
    assert (n / 10 < 2 ^ Z.of_nat fuel)%Z as Hb'.
    { rewrite Nat2Z.inj_succ, Z.pow_succ_r in Hb by lia. apply Z.div_lt_upper_bound; lia. }
    destruct fuel as [|fuel]; [cbn in Hb'; pose proof (Z.div_le_lower_bound n 10 1); lia|].
    destruct (IH (n / 10)%Z (String (digit_char (n mod 10)) acc)) as (H1&H2&H3&H4); [apply Z.div_pos; lia|lia|lia|].
    rewrite H1, H2. cbn [digits_val string_forallb len] in *. rewrite Hdig, Hval.
    split_and!; [|done|done|lia]. f_equal. pose proof (Z.div_mod n 10). lia.
Qed.

(** What [str] writes, [int] reads back. *)
Lemma py_int_str n : (0 ≤ n < 2 ^ 4000)%Z → py_int (str_of_Z n) = Some n.
Proof.
  intros [Hn Hb]. unfold str_of_Z. rewrite (proj2 (Z.ltb_ge _ _)), Z.abs_eq by lia.
  assert (Z.log2 n < 4000)%Z as Hl.
  { destruct (decide (n = 0)%Z) as [->|]; [done|]. apply Z.log2_lt_pow2; lia. }
  pose proof (Z.log2_nonneg n) as Hl0. set (f := S (Z.to_nat (Z.log2 n))).
  assert (n < 2 ^ Z.of_nat f)%Z as Hf.
  { subst f. rewrite Nat2Z.inj_succ, Z2Nat.id by lia. destruct (decide (n = 0)%Z) as [->|]; [done|].
    apply Z.log2_lt_pow2; lia. }
  destruct (nat_digits_spec f n EmptyString) as (H1&H2&H3&H4); [done|done|lia|]. cbn [len digits_val] in *.
  rewrite py_int_digits by done. rewrite H1. rewrite (proj2 (Z.ltb_ge _ _)); [done|].
  unfold int_max_str_digits. subst f. lia.
Qed.

Lemma truthy_str_of_Z n : truthy (str_of_Z n) = true.
Proof.
  unfold str_of_Z. cbv zeta. destruct (n <? 0)%Z; [done|].
  assert (∀ f k acc, truthy acc = true → truthy (nat_digits f k acc) = true) as Hg.
  { induction f as [|f IH]; intros k acc Ha; cbn [nat_digits]; [done|]. destruct (k <? 10)%Z; [done|]. by apply IH. }
  cbn [nat_digits]. destruct (n <? 10)%Z; [done|]. by apply Hg.
Qed.
