(* ===== verification/Listing.v ===== *)
(** * Sorting and pages of a listing

    Both services sort the listed sandboxes by creation time and cut out a page. *)

From Stdlib Require Import Sorting.Sorted.
From S2P Require Import Prelude PyString PyDict PyTime Schema.
Open Scope string_scope.
Open Scope list_scope.

(** ** Sorting by creation time

    [sort(key=created_at, reverse=True)]: descending and stable.  A list that
    mixes naive and aware datetimes cannot be sorted without comparing one with
    the other, which raises. *)

Definition is_aware (d : datetime) : bool := match d with Aware _ _ => true | Naive _ => false end.

Definition created_us (s : Sandbox) : Z :=
  match sb_created_at s with Naive us => us | Aware us off => us - off end%Z.

Fixpoint insert_desc (s : Sandbox) (l : list Sandbox) : list Sandbox :=
  match l with
  | [] => [s]
  | s' :: l' => if (created_us s' <=? created_us s)%Z then s :: l else s' :: insert_desc s l'
  end.

Definition sort_desc (l : list Sandbox) : list Sandbox := foldr insert_desc [] l.

Definition sort_created (l : list Sandbox) : result (list Sandbox) :=
  if forallb (λ s, is_aware (sb_created_at s)) l || forallb (λ s, negb (is_aware (sb_created_at s))) l
  then Ok (sort_desc l)
  else Raise (PyException TypeError "can't compare offset-naive and offset-aware datetimes").

(** ** Pages *)

(** [l[a:b]] for [0 <= a <= b]. *)
Definition slice {A} (a b : Z) (l : list A) : list A :=
  take (Z.to_nat b - Z.to_nat a) (drop (Z.to_nat a) l).

(** [math.ceil(a / b)]; the quotient of two lengths below 2^44 by at most 200
    has no rounding error that reaches the next integer. *)
Definition ceil_div (a b : Z) : Z := ((a + b - 1) / b)%Z.

Definition paginate (pagination_request : option PaginationRequest) (sandboxes : list Sandbox)
    : ListSandboxesResponse :=
  let page := match pagination_request with Some p => page p | None => 1%Z end in
  let page_size := match pagination_request with Some p => page_size p | None => 20%Z end in
  let total := Z.of_nat (length sandboxes) in
  let pages := if (total =? 0)%Z then 0%Z else ceil_div total page_size in
  let start_index := ((page - 1) * page_size)%Z in
  let end_index := (start_index + page_size)%Z in
  {| items := slice start_index end_index sandboxes;
     pagination := {| info_page := page; info_page_size := page_size; total_items := total;
                      total_pages := pages; has_next_page := (page <? pages)%Z |} |}.

(** ** Sorting and pages *)

Definition newest_first : list Sandbox → Prop := Sorted (λ a b, (created_us b ≤ created_us a)%Z).

Lemma insert_desc_perm s l : insert_desc s l ≡ₚ s :: l.
Proof.
  induction l as [|s' l IH]; cbn; [done|]. destruct (_ <=? _)%Z; [done|]. rewrite IH. apply Permutation_swap.
Qed.

Lemma sort_desc_perm l : sort_desc l ≡ₚ l.
Proof. induction l as [|s l IH]; cbn; [done|]. by rewrite insert_desc_perm, IH. Qed.

Lemma insert_desc_sorted s l : newest_first l → newest_first (insert_desc s l).
Proof.
  unfold newest_first. induction l as [|s' l IH]; cbn; intros Hs; [by repeat constructor|].
  apply Sorted_inv in Hs as [Hs Hd]. destruct (_ <=? _)%Z eqn:Hle.
  - apply Z.leb_le in Hle. constructor; [by constructor|]. by constructor.
  - apply Z.leb_gt in Hle. constructor; [by apply IH|].
    destruct l as [|s2 l]; cbn; [constructor; lia|]. apply HdRel_inv in Hd.
    destruct (_ <=? _)%Z; constructor; lia.
Qed.

Lemma sort_desc_sorted l : newest_first (sort_desc l).
Proof. induction l as [|s l IH]; cbn; [constructor|]. by apply insert_desc_sorted. Qed.

(** Sandboxes of the same creation time keep their order. *)
Lemma sort_desc_stable l t :
  List.filter (λ s, (created_us s =? t)%Z) (sort_desc l) = List.filter (λ s, (created_us s =? t)%Z) l.
Proof.
  induction l as [|s l IH]; [done|].
  assert (∀ k, List.filter (λ s, (created_us s =? t)%Z) (insert_desc s k) =
               List.filter (λ s, (created_us s =? t)%Z) (s :: k)) as Hi.
  { induction k as [|s' k IHk]; [done|]. cbn [insert_desc]. destruct (created_us s' <=? created_us s)%Z eqn:Hle; [done|].
    apply Z.leb_gt in Hle. cbn [List.filter] in *. rewrite IHk.
    destruct (created_us s' =? t)%Z eqn:H1, (created_us s =? t)%Z eqn:H2; try done.
    apply Z.eqb_eq in H1, H2. lia. }
  change (sort_desc (s :: l)) with (insert_desc s (sort_desc l)). rewrite Hi. cbn [List.filter]. by rewrite IH.
Qed.

Definition page_of (ps : Z) (l : list Sandbox) (n : Z) : ListSandboxesResponse :=
  paginate (Some {| page := n; page_size := ps |}) l.

Lemma ceil_div_pred (a b : Z) : (0 < b)%Z → (0 < a)%Z → ceil_div a b = ((a - 1) / b + 1)%Z.
Proof. intros. unfold ceil_div. rewrite <-Z.div_add by lia. f_equal. lia. Qed.

Lemma pages_take ps l k :
  (0 < ps)%Z → concat ((λ n, items (page_of ps l n)) <$> seqZ 1 (Z.of_nat k)) = take (k * Z.to_nat ps) l.
Proof.
  intros Hps. induction k as [|k IH]; [done|].
  replace (Z.of_nat (S k)) with (Z.of_nat k + 1)%Z by lia. rewrite seqZ_app, fmap_app, concat_app, IH by lia.
  rewrite (seqZ_cons _ 1) by lia. change (seqZ _ (Z.pred 1)) with (@nil Z). cbn [fmap list_fmap concat].
  rewrite app_nil_r. unfold page_of, paginate, slice. cbn [items page page_size].
  replace (Z.to_nat ((1 + Z.of_nat k - 1) * ps)) with (k * Z.to_nat ps)%nat by lia.
  replace (Z.to_nat ((1 + Z.of_nat k - 1) * ps + ps)) with (k * Z.to_nat ps + Z.to_nat ps)%nat by lia.
  replace (k * Z.to_nat ps + Z.to_nat ps - k * Z.to_nat ps)%nat with (Z.to_nat ps) by lia.
  rewrite take_take_drop. f_equal. lia.
Qed.

(** For every admissible page size the pages [1 .. total_pages] are the
    sorted list cut into consecutive pieces: nothing is lost, repeated or
    reordered; no page is longer than the page size, none of them is empty, and
    [has_next_page] is set on all of them but the last. *)
Theorem pages_partition ps l :
  pagination_ok {| page := 1; page_size := ps |} = true →
  let pages := total_pages (pagination (page_of ps l 1)) in
  concat ((λ n, items (page_of ps l n)) <$> seqZ 1 pages) = l ∧
  ∀ n, (1 ≤ n)%Z →
    (Z.of_nat (length (items (page_of ps l n))) ≤ ps)%Z ∧
    total_pages (pagination (page_of ps l n)) = pages ∧
    (items (page_of ps l n) = [] ↔ (pages < n)%Z) ∧
    (has_next_page (pagination (page_of ps l n)) = true ↔ (n < pages)%Z).
Proof.
  unfold pagination_ok. rewrite !andb_true_iff, !Z.leb_le. cbn [page page_size]. intros [[_ Hps] _]. cbv zeta.
  set (pages := total_pages _). set (len_l := Z.of_nat (length l)).
  assert (pages = if (len_l =? 0)%Z then 0%Z else ceil_div len_l ps) as Hpages by done.
  assert (0 ≤ pages ∧ len_l ≤ pages * ps ∧ ∀ n, 1 ≤ n → (n ≤ pages ↔ (n - 1) * ps < len_l))%Z as (H0&Hle&Hn).
  { destruct (len_l =? 0)%Z eqn:Hz; rewrite Hpages.
    - apply Z.eqb_eq in Hz. split_and!; [lia|lia|]. intros n ?. split; nia.
    - apply Z.eqb_neq in Hz. rewrite ceil_div_pred by lia. pose proof (Z.div_mod (len_l - 1) ps).
      pose proof (Z.mod_pos_bound (len_l - 1) ps). pose proof (Z.div_pos (len_l - 1) ps).
      split_and!; [lia|lia|]. intros n ?. split; intros Hc; nia. }
  split.
  - pose proof (pages_take ps l (Z.to_nat pages)) as Ht. rewrite Z2Nat.id in Ht by done. rewrite Ht by lia.
    apply take_ge. nia.
  - intros n Hn1. assert (length (items (page_of ps l n)) =
      Nat.min (Z.to_nat ps) (length l - Z.to_nat ((n - 1) * ps))) as Hl.
    { cbn. unfold slice. rewrite length_take, length_drop. f_equal. nia. }
    split_and!.
    + rewrite Hl. lia.
    + done.
    + rewrite <-length_zero_iff_nil, Hl. specialize (Hn n Hn1). split; [|intros Hc]; nia.
    + change (has_next_page _) with (n <? pages)%Z. apply Z.ltb_lt.
Qed.

Lemma pages_partition_witness :
  let l := (λ t, {| sb_id := str_of_Z t; sb_image := {| uri := "python:3.11"; auth := None |};
                    sb_status := {| state := "Running"; reason := None; status_message := None;
                                    last_transition_at := None |};
                    sb_metadata := None; sb_entrypoint := []; sb_expires_at := None; sb_created_at := utc t;
                    sb_last_activity_at := None |}) <$> [5; 4; 3; 2; 1]%Z in
  total_pages (pagination (page_of 2 l 1)) = 3%Z ∧
  items (page_of 2 l 1) ++ items (page_of 2 l 2) ++ items (page_of 2 l 3) = l.
Proof.
  intros l. destruct (pages_partition 2 l eq_refl) as [Hc _]. split; [reflexivity|].
  rewrite <-Hc at 4. vm_compute. reflexivity.
Defined.

