(* ===== verification/Template.v ===== *)
(** * Sandbox templates ([server/src/services/k8s/template_manager.py])

    A provider may be given a YAML file with a manifest; the manifest that the
    server computes for a sandbox is merged into a copy of it.  Reading the file
    and parsing YAML are outside: [load_template] takes what they give. *)

From S2P Require Import Prelude PyString PyDict Json PyVal.
Open Scope string_scope.
Open Scope list_scope.

(** [BaseSandboxTemplateManager]: the file, its kind for messages, the template. *)
Record TemplateManager := {
  template_file_path : option string;
  template_kind : string;
  base_template : option pyval }.

(** What the file system and the YAML parser answer: whether the expanded path
    exists, and the parsed document or an exception. *)
Record TemplateFile := {
  tf_expanded : string;
  tf_exists : bool;
  tf_content : result pyval }.

(** [_load_template]: only mappings are accepted; [FileNotFoundError] and [ValueError] pass, anything
    else becomes a [RuntimeError]. *)
Definition load_template (kind : string) (file : TemplateFile) : result pyval :=
  if negb (tf_exists file) then
    Raise (PyException FileNotFoundError (kind +:+ " template file not found: " +:+ tf_expanded file))
  else match tf_content file with
  | Ok v =>
      if is_dict v then Ok v
      else Raise (PyException ValueError ("Invalid template file " +:+ tf_expanded file
             +:+ ": must be a YAML object, got " +:+ type_name v))
  | Raise (PyException (FileNotFoundError | ValueError) _ as e) => Raise e
  | Raise e =>
      Raise (PyException RuntimeError ("Failed to load " +:+ kind +:+ " template from " +:+ tf_expanded file
        +:+ ": " +:+ exn_text e))
  end.

(** [__init__]; [open_file] is the answer for the configured path. *)
Definition template_manager (template_file_path : option string) (kind : string) (open_file : string → TemplateFile)
    : result TemplateManager :=
  match template_file_path with
  | Some ((String _ _) as p) =>
      t ← load_template kind (open_file p);
      Ok {| template_file_path := Some p; template_kind := kind; base_template := Some t |}
  | path => Ok {| template_file_path := path; template_kind := kind; base_template := None |}
  end.

(** [_deep_copy]: a value is immutable here, so the copy is the value itself;
    the recursion is that of the code. *)
Fixpoint deep_copy (obj : pyval) : pyval :=
  match obj with
  | PDict d => PDict (map (λ kv, (kv.1, deep_copy kv.2)) d)
  | PList l => PList (map deep_copy l)
  | _ => obj
  end.

(** [_deep_merge] *)
Fixpoint deep_merge (base : dict pyval) (override : pyval) {struct override} : dict pyval :=
  match override with
  | PDict o =>
      (fix go (o : list (string * pyval)) (result : dict pyval) : dict pyval :=
         match o with
         | [] => result
         | (key, override_value) :: o' =>
             match override_value with
             | PNone => go o' result
             | _ =>
                 match dget key result with
                 | None => go o' (dset key (deep_copy override_value) result)
                 | Some cur =>
                     match cur, override_value with
                     | PDict b, PDict _ => go o' (dset key (PDict (deep_merge b override_value)) result)
                     | _, _ => go o' (dset key (deep_copy override_value) result)
                     end
                 end
             end
         end) o base
  | _ => base
  end.

(** [get_base_template] *)
Definition get_base_template (m : TemplateManager) : dict pyval :=
  match base_template m with
  | Some (PDict (_ :: _ as d)) => match deep_copy (PDict d) with PDict d' => d' | _ => [] end
  | _ => []
  end.

(** [merge_with_runtime_values] *)
Definition merge_with_runtime_values (m : TemplateManager) (runtime_manifest : dict pyval) : dict pyval :=
  match get_base_template m with
  | [] => runtime_manifest
  | base => deep_merge base (PDict runtime_manifest)
  end.

(** ** Merging key by key *)

Lemma map_id_forall {A} (f : A → A) l : Forall (λ x, f x = x) l → map f l = l.
Proof. induction 1 as [|x l Hx _ IH]; cbn; congruence. Qed.

Lemma deep_copy_id v : deep_copy v = v.
Proof.
  induction v as [| | | | |l IH|d IH] using pyval_ind; cbn; try done.
  - by rewrite map_id_forall.
  - f_equal. apply map_id_forall. eapply Forall_impl; [exact IH|]. intros [k v] Hv; cbn in *. by rewrite Hv.
Qed.

(** What one item of the override does. *)
Definition merged_value (cur : option pyval) (v : pyval) : option pyval :=
  match v with
  | PNone => cur
  | PDict _ => Some (match cur with Some (PDict b) => PDict (deep_merge b v) | _ => v end)
  | _ => Some v
  end.

Definition merge_item (result : dict pyval) (kv : string * pyval) : dict pyval :=
  match merged_value (dget kv.1 result) kv.2 with
  | Some v => if bool_decide (kv.2 = PNone) then result else dset kv.1 v result
  | None => result
  end.

Lemma deep_merge_fold base o : deep_merge base (PDict o) = fold_left merge_item o base.
Proof.
  cbn [deep_merge]. revert base. induction o as [|[k v] o IH]; intros base; [done|]. cbn [fold_left].
  rewrite <-IH. unfold merge_item, merged_value. cbn [fst snd].
  destruct v; try (rewrite bool_decide_eq_false_2 by done);
    rewrite ?deep_copy_id; try (by destruct (dget k base) as [[]|]).
Qed.

Lemma merge_item_get k result kv :
  dget k (merge_item result kv) =
  if decide (k = kv.1) then merged_value (dget k result) kv.2 else dget k result.
Proof.
  unfold merge_item. destruct kv as [k' v]. cbn [fst snd].
  destruct (bool_decide (v = PNone)) eqn:Hn.
  - apply bool_decide_eq_true in Hn as ->. cbn [merged_value].
    destruct (dget k' result) eqn:Hd; case_decide; by subst.
  - apply bool_decide_eq_false in Hn.
    assert (∃ x, merged_value (dget k' result) v = Some x) as [x Hx] by (destruct v; cbn; eauto; done).
    rewrite Hx. case_decide; [subst; by rewrite dget_set_eq|by apply dget_set_ne].
Qed.

(** The reference definition: the merge of two values, key by key. *)
Lemma deep_merge_get base o k :
  dict_wf o →
  dget k (deep_merge base (PDict o)) =
  match dget k o with None => dget k base | Some v => merged_value (dget k base) v end.
Proof.
  rewrite deep_merge_fold. revert base. induction o as [|[k' v] o IH]; intros base; [done|].
  intros Hwf. cbn [fold_left dget]. apply NoDup_cons in Hwf as [Hk Ho]. rewrite IH, merge_item_get by done.
  cbn [fst snd]. case_decide; [subst|done].
  by rewrite (proj2 (dget_None k' o)).
Qed.

Lemma deep_merge_wf base o : dict_wf base → dict_wf (deep_merge base (PDict o)).
Proof.
  rewrite deep_merge_fold. revert base. induction o as [|kv o IH]; intros base Hb; [done|].
  apply IH. unfold merge_item. destruct (merged_value _ _); [|done]. case_bool_decide; [done|]. by apply dset_wf.
Qed.

(** ** Merging path by path *)

(** The reference: what stands at a path.  The path is followed through both
    values; where the override has nothing (or [None]) the base counts, where the
    base has nothing the override counts, and what is not a dictionary on both
    sides is replaced.  [None] where the merged value is a dictionary. *)
Fixpoint overlay (path : list string) (base override : pyval) : option pyval :=
  match path with
  | [] => if is_dict base && is_dict override then None else Some override
  | k :: path' =>
      match base, override with
      | PDict b, PDict o =>
          match dget k o with
          | None | Some PNone => dget k b ≫= val_at path'
          | Some v => match dget k b with None => val_at path' v | Some cur => overlay path' cur v end
          end
      | _, _ => val_at path override
      end
  end.

Lemma overlay_replace path cur v : is_dict cur && is_dict v = false → overlay path cur v = val_at path v.
Proof. intros H. destruct path; cbn [overlay]; [by rewrite H|]. by destruct cur, v. Qed.

Lemma merge_is_overlay base o path x :
  val_wf (PDict o) → is_dict x = false →
  val_at path (PDict (deep_merge base (PDict o))) = Some x ↔ overlay path (PDict base) (PDict o) = Some x.
Proof.
  intros Hwf Hx. revert base o Hwf. induction path as [|k path IH]; intros base o Hwf.
  - cbn. split; [|done]. intros [= <-]. done.
  - cbn [val_at overlay]. rewrite deep_merge_get by (by apply val_wf_dict in Hwf as [? _]).
    destruct (dget k o) as [v|] eqn:Hk; [|done].
    pose proof (val_wf_get _ _ _ Hwf Hk) as Hv.
    destruct (dget k base) as [cur|]; [|by destruct v].
    destruct v as [| | | | | |o']; cbn [merged_value]; try done;
      try (rewrite overlay_replace; [done|by destruct cur]).
    destruct cur; try (rewrite overlay_replace; [done|done]). cbn [mbind option_bind]. by apply IH.
Qed.

(** C31: merging a manifest into a template is the same as choosing path by path:
    below any path, the merged manifest has a scalar or a list exactly where the
    override of the template by the manifest has it. *)
Theorem deep_merge_paths base o path x :
  val_wf (PDict o) → is_dict x = false →
  val_at path (PDict (deep_merge base (PDict o))) = Some x ↔ overlay path (PDict base) (PDict o) = Some x.
Proof. apply merge_is_overlay. Qed.

(** What the server puts in the manifest is what the cluster gets, whatever the
    template holds at that place. *)
Lemma runtime_value_wins base o path x :
  val_wf (PDict o) → is_dict x = false → x ≠ PNone → val_at path (PDict o) = Some x →
  val_at path (PDict (deep_merge base (PDict o))) = Some x.
Proof.
  intros Hwf Hx Hn Hp. apply merge_is_overlay; [done..|].
  revert base o Hwf Hp. induction path as [|k path IH]; intros base o Hwf Hp.
  - cbn in Hp. injection Hp as <-. done.
  - cbn [val_at] in Hp. cbn [overlay].
    destruct (dget k o) as [v|] eqn:Hk; [|done]. cbn in Hp.
    pose proof (val_wf_get _ _ _ Hwf Hk) as Hv.
    destruct (dget k base) as [cur|] eqn:Hb; cbn.
    + destruct v; try (rewrite overlay_replace; [done|by destruct cur]);
        [destruct path; cbn in Hp; congruence|].
      destruct (is_dict cur) eqn:Hc; [|by rewrite overlay_replace; [|by rewrite Hc]].
      destruct cur; try done. by apply IH.
    + destruct v; try done. destruct path; cbn in Hp; congruence.
Qed.

(** The merge with a template file: the manifest wins. *)
Lemma merge_runtime_wins m manifest path x :
  val_wf (PDict manifest) → is_dict x = false → x ≠ PNone → val_at path (PDict manifest) = Some x →
  val_at path (PDict (merge_with_runtime_values m manifest)) = Some x.
Proof.
  intros Hwf Hx Hn Hp. unfold merge_with_runtime_values. destruct (get_base_template m); [done|].
  by apply runtime_value_wins.
Qed.

Example merge_ex :
  deep_merge [("spec", PDict [("a", PInt 1); ("l", PList [PInt 1])])]
    (PDict [("spec", PDict [("l", PList [PInt 2]); ("b", PNone)]); ("kind", PStr "K")])
  = [("spec", PDict [("a", PInt 1); ("l", PList [PInt 2])]); ("kind", PStr "K")].
Proof. reflexivity. Qed.

(** A list of the manifest replaces the list of the template. *)
Lemma deep_merge_paths_witness :
  let base := [("spec", PDict [("a", PInt 1); ("l", PList [PInt 1])])] in
  let o := [("spec", PDict [("l", PList [PInt 2]); ("a", PNone)]); ("kind", PStr "K")] in
  val_wf (PDict o) ∧
  val_at ["spec"; "l"] (PDict (deep_merge base (PDict o))) = Some (PList [PInt 2]) ∧
  val_at ["spec"; "a"] (PDict (deep_merge base (PDict o))) = Some (PInt 1).
Proof.
  intros base o. assert (val_wf (PDict o)) as Hwf.
  { cbn. split; [apply (bool_decide_unpack _); reflexivity|].
    split_and!; try exact I. apply (bool_decide_unpack _). reflexivity. }
  split; [exact Hwf|]. split; apply deep_merge_paths; (exact Hwf || reflexivity).
Defined.
