(* ===== verification/RateLimiter.v ===== *)
(** * Token buckets ([server/src/services/k8s/rate_limiter.py])

    [TokenBucketRateLimiter], with the numbers that its floats denote: the
    arithmetic is that of exact rationals, without rounding.  Each call of
    [_try_acquire] holds the lock, so the calls of all threads form a sequence. *)

From Stdlib Require Import QArith Lqa.
From Stdlib Require Export Qminmax.
From S2P Require Import Prelude PyString.
Open Scope Q_scope.

Record Limiter := {
  lim_qps : Q;
  lim_burst : Q;
  lim_tokens : Q;
  lim_last_refill : Q }.

(** [x if x < y else y] and the like: Python's [min], [max] return the first of equal arguments. *)
Definition py_min (a b : Q) : Q := if negb (Qle_bool a b) then b else a.
Definition py_max (a b : Q) : Q := if negb (Qle_bool b a) then b else a.

(** [__init__]; [qps_text] is the text of [qps] in the message. *)
Definition make_limiter (now qps burst : Q) (qps_text : string) : result Limiter :=
  if Qle_bool qps 0 then Raise (PyException ValueError ("qps must be > 0, got " +:+ qps_text)%string)
  else
    let b := py_max (if negb (Qle_bool burst 0) then burst else qps) 1 in
    Ok {| lim_qps := qps; lim_burst := b; lim_tokens := b; lim_last_refill := now |}.

(** [_refill] at the time [now]. *)
Definition refill (now : Q) (l : Limiter) : Limiter :=
  let elapsed := now - lim_last_refill l in
  {| lim_qps := lim_qps l; lim_burst := lim_burst l;
     lim_tokens := py_min (lim_burst l) (lim_tokens l + elapsed * lim_qps l);
     lim_last_refill := now |}.

Definition set_tokens (t : Q) (l : Limiter) : Limiter :=
  {| lim_qps := lim_qps l; lim_burst := lim_burst l; lim_tokens := t; lim_last_refill := lim_last_refill l |}.

(** [_try_acquire]: the seconds to wait, 0 when a token was taken. *)
Definition try_take (now : Q) (l : Limiter) : Q * Limiter :=
  let l' := refill now l in
  if Qle_bool 1 (lim_tokens l') then (0, set_tokens (lim_tokens l' - 1) l')
  else ((1 - lim_tokens l') / lim_qps l', l').

(** [try_acquire] *)
Definition try_acquire (now : Q) (l : Limiter) : bool * Limiter :=
  let '(wait, l') := try_take now l in (Qle_bool wait 0, l').

(** [acquire]: try, sleep at least a millisecond, try again.  The limiter is a
    part of the state [St] that other threads share; [None] is a call that still
    waits after [fuel] rounds. *)
Section acquire.
Context {St : Type} (limiter : St → Limiter) (put : Limiter → St → St).
Context (monotonic : St → Q * St) (sleep : Q → St → St).

Fixpoint acquire_loop (fuel : nat) (s : St) : option St :=
  match fuel with
  | O => None
  | S n =>
      let '(now, s1) := monotonic s in
      let '(wait, l') := try_take now (limiter s1) in
      let s2 := put l' s1 in
      if Qle_bool wait 0 then Some s2 else acquire_loop n (sleep (py_max wait (1 # 1000)) s2)
  end.
End acquire.

(** ** The invariant of a bucket *)

Record limiter_ok (l : Limiter) : Prop := {
  ok_qps : 0 < lim_qps l;
  ok_burst : 1 <= lim_burst l;
  ok_tokens : 0 <= lim_tokens l <= lim_burst l }.

Lemma Qle_bool_false a b : Qle_bool a b = false ↔ b < a.
Proof.
  split; intros H.
  - destruct (Qlt_le_dec b a) as [|Hle]; [done|]. apply Qle_bool_iff in Hle. congruence.
  - destruct (Qle_bool a b) eqn:Hb; [|done]. apply Qle_bool_iff in Hb. lra.
Qed.

Lemma py_min_spec a b : py_min a b <= a ∧ py_min a b <= b ∧ (py_min a b = a ∨ py_min a b = b).
Proof.
  unfold py_min. destruct (Qle_bool a b) eqn:H; cbn.
  - apply Qle_bool_iff in H. split_and!; [lra|lra|auto].
  - apply Qle_bool_false in H. split_and!; [lra|lra|auto].
Qed.

Lemma py_max_spec a b : a <= py_max a b ∧ b <= py_max a b.
Proof.
  unfold py_max. destruct (Qle_bool b a) eqn:H; cbn.
  - apply Qle_bool_iff in H. lra.
  - apply Qle_bool_false in H. lra.
Qed.

Lemma make_limiter_ok now qps burst txt l : make_limiter now qps burst txt = Ok l → limiter_ok l.
Proof.
  unfold make_limiter. destruct (Qle_bool qps 0) eqn:H; [done|]. apply Qle_bool_false in H.
  intros [= <-]. pose proof (py_max_spec (if negb (Qle_bool burst 0) then burst else qps) 1).
  constructor; cbn; lra.
Qed.

Lemma refill_ok now l : limiter_ok l → lim_last_refill l <= now → limiter_ok (refill now l).
Proof.
  intros [Hq Hb [H0 Ht]] Hn.
  assert (0 <= (now - lim_last_refill l) * lim_qps l) by (apply Qmult_le_0_compat; lra).
  pose proof (py_min_spec (lim_burst l) (lim_tokens l + (now - lim_last_refill l) * lim_qps l)) as (H1&H2&[H3|H3]);
    constructor; cbn; try done; rewrite H3 in H1, H2 |- *; split; lra.
Qed.

Lemma refill_fields now l :
  lim_last_refill (refill now l) = now ∧ lim_qps (refill now l) = lim_qps l ∧ lim_burst (refill now l) = lim_burst l.
Proof. done. Qed.

Lemma refill_tokens now l :
  lim_tokens (refill now l) <= lim_tokens l + (now - lim_last_refill l) * lim_qps l.
Proof. apply py_min_spec. Qed.

Lemma refill_enough now l :
  lim_tokens (refill now l) = lim_burst l ∨
  lim_tokens (refill now l) = lim_tokens l + (now - lim_last_refill l) * lim_qps l.
Proof. apply py_min_spec. Qed.

#[local] Opaque refill.

Lemma take_token_ok l : limiter_ok l → 1 <= lim_tokens l → limiter_ok (set_tokens (lim_tokens l - 1) l).
Proof. intros [Hq Hb [H0 Ht]] H1. constructor; cbn [lim_qps lim_burst lim_tokens set_tokens]; lra. Qed.

Lemma try_take_ok now l w l' :
  limiter_ok l → lim_last_refill l <= now → try_take now l = (w, l') →
  limiter_ok l' ∧ lim_last_refill l' = now ∧ lim_qps l' = lim_qps l ∧ lim_burst l' = lim_burst l ∧ 0 <= w.
Proof.
  intros Hok Hn. pose proof (refill_ok now l Hok Hn) as [Hq Hb [H0 Ht]].
  pose proof (refill_fields now l) as (F1&F2&F3).
  unfold try_take. destruct (Qle_bool 1 _) eqn:H1; intros [= <- <-].
  - apply Qle_bool_iff in H1. split_and!; try done. by apply take_token_ok; [constructor|].
  - apply Qle_bool_false in H1. split_and!; try done. apply Qle_shift_div_l; [done|]. lra.
Qed.

(** ** The rate *)

(** The calls of all threads, at times that do not decrease: how many of them got
    a token, and the bucket after them. *)
Fixpoint take_all (times : list Q) (l : Limiter) : nat * Limiter :=
  match times with
  | [] => (O, l)
  | now :: times' =>
      let '(got, l1) := try_acquire now l in
      let '(n, l2) := take_all times' l1 in
      ((if got then S n else n), l2)
  end.

Fixpoint non_decreasing (t : Q) (times : list Q) : Prop :=
  match times with [] => True | u :: times' => t <= u ∧ non_decreasing u times' end.

Lemma try_acquire_budget now l got l' :
  limiter_ok l → lim_last_refill l <= now → try_acquire now l = (got, l') →
  (if got then 1 else 0) + lim_tokens l' <= lim_tokens l + (now - lim_last_refill l) * lim_qps l.
Proof.
  intros Hok Hn. pose proof (refill_ok now l Hok Hn) as [Hq Hb [H0 Ht]].
  pose proof (refill_tokens now l) as H2.
  unfold try_acquire, try_take. destruct (Qle_bool 1 _) eqn:H1.
  - intros [= <- <-]. change (Qle_bool 0 0) with true. cbn [lim_tokens set_tokens]. lra.
  - apply Qle_bool_false in H1. intros [= <- <-].
    assert (Qle_bool ((1 - lim_tokens (refill now l)) / lim_qps (refill now l)) 0 = false) as ->.
    { apply Qle_bool_false. apply Qlt_shift_div_l; [done|]. lra. }
    lra.
Qed.

Lemma try_acquire_ok now l got l' :
  limiter_ok l → lim_last_refill l <= now → try_acquire now l = (got, l') →
  limiter_ok l' ∧ lim_last_refill l' = now ∧ lim_qps l' = lim_qps l ∧ lim_burst l' = lim_burst l.
Proof.
  intros Hok Hn. unfold try_acquire. destruct (try_take now l) as [w l1] eqn:Ht. intros [= <- <-].
  by destruct (try_take_ok _ _ _ _ Hok Hn Ht) as (?&?&?&?&_).
Qed.

Lemma take_all_budget times l n l' :
  limiter_ok l → non_decreasing (lim_last_refill l) times → take_all times l = (n, l') →
  inject_Z (Z.of_nat n) + lim_tokens l' <=
    lim_tokens l + (lim_last_refill l' - lim_last_refill l) * lim_qps l ∧ limiter_ok l' ∧
  lim_burst l' = lim_burst l.
Proof.
  revert l n. induction times as [|now times IH]; intros l n Hok Hnd; cbn [take_all].
  - intros [= <- <-]. split_and!; [|done|done]. change (inject_Z (Z.of_nat 0)) with 0. lra.
  - destruct Hnd as [Hn Hnd]. destruct (try_acquire now l) as [got l1] eqn:Ht.
    destruct (take_all times l1) as [m l2] eqn:Hm. intros [= <- <-].
    pose proof (try_acquire_budget _ _ _ _ Hok Hn Ht) as Hb.
    destruct (try_acquire_ok _ _ _ _ Hok Hn Ht) as (Hok1&Hl1&Hq&Hbu).
    destruct (IH l1 m Hok1) as (H1&H2&H3); [by rewrite Hl1|done|]. split_and!; [|done|congruence].
    rewrite Hl1, Hq in H1. destruct got; [|lra].
    replace (inject_Z (Z.of_nat (S m))) with (inject_Z (Z.of_nat m + 1)) by (f_equal; lia).
    rewrite inject_Z_plus. change (inject_Z 1) with 1. lra.
Qed.


(** ** Waiting *)

(** A bucket that is too empty for a token has one after the time it asked to
    wait for. *)
Lemma try_take_again now l w l' later :
  limiter_ok l → lim_last_refill l <= now → try_take now l = (w, l') → Qle_bool w 0 = false →
  now + w <= later → ∃ l2, try_take later l' = (0, l2).
Proof.
  intros Hok Hn Ht Hw Hl. destruct (try_take_ok _ _ _ _ Hok Hn Ht) as ([Hq Hb [H0 Hle]]&Hr&_).
  assert (w = (1 - lim_tokens l') / lim_qps l') as Hwait.
  { unfold try_take in Ht. destruct (Qle_bool 1 _); [|by injection Ht as <- <-].
    injection Ht as <- _. discriminate. }
  assert (1 <= lim_tokens (refill later l')) as H1.
  { pose proof (refill_enough later l') as [H|H]; [by rewrite H|]. rewrite H, Hr.
    assert (w * lim_qps l' <= (later - now) * lim_qps l') as Hm by (apply Qmult_le_compat_r; lra).
    assert (w * lim_qps l' == 1 - lim_tokens l') as Hd by (rewrite Hwait; field; lra). lra. }
  unfold try_take. apply Qle_bool_iff in H1 as ->. eauto.
Qed.

(** What a thread that waits alone relies on: [monotonic] does not run back, and
    [sleep] sleeps for at least the time it is given. *)
Section waiting.
Context {St : Type} (limiter : St → Limiter) (put : Limiter → St → St).
Context (monotonic : St → Q * St) (sleep : Q → St → St) (now : St → Q).
Hypothesis limiter_put : ∀ l s, limiter (put l s) = l.
Hypothesis now_put : ∀ l s, now (put l s) = now s.
Hypothesis monotonic_now : ∀ s t s', monotonic s = (t, s') → now s <= t ∧ now s' = t ∧ limiter s' = limiter s.
Hypothesis sleep_now : ∀ d s, now s + d <= now (sleep d s) ∧ limiter (sleep d s) = limiter s.

Lemma acquire_twice n s :
  limiter_ok (limiter s) → lim_last_refill (limiter s) <= now s →
  ∃ s', acquire_loop limiter put monotonic sleep (2 + n) s = Some s' ∧ limiter_ok (limiter s').
Proof.
  intros Hok Hl. cbn [acquire_loop Nat.add]. destruct (monotonic s) as [t1 s1] eqn:Hm1.
  destruct (monotonic_now _ _ _ Hm1) as (Ht1&Hn1&->).
  destruct (try_take t1 (limiter s)) as [w l1] eqn:Htry.
  assert (lim_last_refill (limiter s) <= t1) as Hlt by lra.
  destruct (try_take_ok _ _ _ _ Hok Hlt Htry) as (Hok1&Hr1&_&_&Hw0).
  destruct (Qle_bool w 0) eqn:Hw; [eexists; split; [done|]; by rewrite limiter_put|].
  set (s2 := sleep _ _). destruct (sleep_now (py_max w (1 # 1000)) (put l1 s1)) as [Hs Hls]. fold s2 in Hs, Hls.
  rewrite limiter_put in Hls. rewrite now_put, Hn1 in Hs.
  destruct (monotonic s2) as [t2 s3] eqn:Hm2. destruct (monotonic_now _ _ _ Hm2) as (Ht2&Hn2&->).
  rewrite Hls. pose proof (py_max_spec w (1 # 1000)) as [Hmax _].
  destruct (try_take_again t1 (limiter s) w l1 t2) as [l2 Hl2]; [done..|lra|].
  rewrite Hl2. change (Qle_bool 0 0) with true. eexists; split; [done|]. rewrite limiter_put.
  by eapply (try_take_ok t2 l1); [|rewrite Hr1; lra|exact Hl2].
Qed.
End waiting.

