(* ===== verification/Informer.v ===== *)
(** * The cache of custom resources ([server/src/services/k8s/informer.py])

    [WorkloadInformer] keeps the objects of one resource and namespace.  A thread
    lists them and then follows a watch stream; request threads read the cache and
    store what they have fetched themselves.  The informer is a record; the thread
    is a machine that is driven by what the API server answers ([thread_step]).
    Every section under the lock is one step. *)

From S2P Require Import Prelude PyString PyDict Json PyVal Common.
From Stdlib Require Import QArith.
Close Scope Q_scope.
Open Scope string_scope.
Open Scope list_scope.

(** [_resource_version] is [PNone] until a version is known.  An object whose name
    is not a string is stored under a key that no lookup uses; it is left out. *)
Record Informer := {
  inf_cache : gmap string pyval;
  inf_version : pyval;
  inf_synced : bool;
  inf_stop : bool;
  inf_enable_watch : bool }.

Definition new_informer (enable_watch : bool) : Informer := {|
  inf_cache := ∅; inf_version := PNone; inf_synced := false; inf_stop := false;
  inf_enable_watch := enable_watch |}.

Definition set_cache f (i : Informer) : Informer := {|
  inf_cache := f (inf_cache i); inf_version := inf_version i; inf_synced := inf_synced i;
  inf_stop := inf_stop i; inf_enable_watch := inf_enable_watch i |}.
Definition set_version v (i : Informer) : Informer := {|
  inf_cache := inf_cache i; inf_version := v; inf_synced := inf_synced i;
  inf_stop := inf_stop i; inf_enable_watch := inf_enable_watch i |}.
Definition set_synced b (i : Informer) : Informer := {|
  inf_cache := inf_cache i; inf_version := inf_version i; inf_synced := b;
  inf_stop := inf_stop i; inf_enable_watch := inf_enable_watch i |}.
Definition set_stop b (i : Informer) : Informer := {|
  inf_cache := inf_cache i; inf_version := inf_version i; inf_synced := inf_synced i;
  inf_stop := b; inf_enable_watch := inf_enable_watch i |}.

(** [get] *)
Definition cache_get (name : string) (i : Informer) : option pyval := inf_cache i !! name.

(** [int(rv) > int(self._resource_version)] *)
Definition newer (rv cur : pyval) : result bool :=
  a ← int_of rv; b ← int_of cur; Ok (b <? a)%Z.

(** [_advance_resource_version] *)
Definition advance_resource_version (rv : pyval) : M Informer unit := λ i,
  if negb (vtruthy rv) then (Ok tt, i)
  else if bool_decide (inf_version i = PNone) then (Ok tt, set_version rv i)
  else match newer rv (inf_version i) with
       | Ok b => (Ok tt, if b then set_version rv i else i)
       | Raise e => if is_value_error e then (Ok tt, i) else (Raise e, i)
       end.

(** [self._cache[name] = obj], [self._cache.pop(name, None)] for a name that is true. *)
Definition cache_put (name obj : pyval) : M Informer unit := λ i,
  match name with
  | PStr s => (Ok tt, set_cache <[s:=obj]> i)
  | PList _ | PDict _ => (Raise (PyException TypeError ("unhashable type: '" +:+ type_name name +:+ "'")), i)
  | _ => (Ok tt, i)
  end.
Definition cache_pop (name : pyval) : M Informer unit := λ i,
  match name with
  | PStr s => (Ok tt, set_cache (delete s) i)
  | PList _ | PDict _ => (Raise (PyException TypeError ("unhashable type: '" +:+ type_name name +:+ "'")), i)
  | _ => (Ok tt, i)
  end.

(** [update_cache] *)
Definition update_cache (obj : pyval) : M Informer unit :=
  metadata ← lift (vget_dict obj "metadata");
  name ← lift (vget metadata "name");
  if negb (vtruthy name) then mret tt else
  cache_put name obj;;
  rv ← lift (vget metadata "resourceVersion");
  advance_resource_version rv.

(** The loop of [_full_resync] that builds the new cache. *)
Fixpoint index_items (items : list pyval) (acc : gmap string pyval) : result (gmap string pyval) :=
  match items with
  | [] => Ok acc
  | item :: items' =>
      metadata ← vget_dict item "metadata";
      name ← vget metadata "name";
      if negb (vtruthy name) then index_items items' acc else
      match name with
      | PStr s => index_items items' (<[s:=item]> acc)
      | PList _ | PDict _ => Raise (PyException TypeError ("unhashable type: '" +:+ type_name name +:+ "'"))
      | _ => index_items items' acc
      end
  end.

(** [_full_resync], with the answer of [list_fn]. *)
Definition full_resync (resp : pyval) : M Informer unit :=
  items ← lift (if is_dict resp then get_or resp "items" (PList []) else Ok (PList []));
  metadata ← lift (if is_dict resp then vget_dict resp "metadata" else Ok (PDict []));
  resource_version ← lift (vget metadata "resourceVersion");
  elems ← lift (iterate items);
  new_cache ← lift (index_items elems ∅);
  modify (set_cache (λ _, new_cache));;
  advance_resource_version resource_version;;
  modify (set_synced true).

(** [_handle_event]; what is not a dictionary has no [to_dict] here. *)
Definition handle_event (event : pyval) : M Informer unit :=
  obj ← lift (vget event "object");
  if negb (is_dict obj) then mret tt else
  metadata ← lift (vget_dict obj "metadata");
  name ← lift (vget metadata "name");
  if negb (vtruthy name) then mret tt else
  event_type ← lift (vget event "type");
  (if eq_str event_type "DELETED" then cache_pop name else cache_put name obj);;
  rv ← lift (vget metadata "resourceVersion");
  advance_resource_version rv.

(** ** The thread *)

(** Where [_run] is: at the head of its loop, in the watch loop, in the wait of an
    informer without watch, in the wait after an error, or finished. *)
Inductive phase := AtHead | Watching | Resting | BackingOff | Finished.

Record Thread := { th_informer : Informer; th_phase : phase; th_backoff : Q }.

Inductive input :=
| Listed (answer : result pyval)   (* [list_fn()] returns or raises *)
| Event (event : pyval)            (* the stream yields an event *)
| StreamEnd (failure : option exn) (* the stream times out or raises *)
| WaitOver                         (* [_stop_event.wait] returns *)
| Proceed                          (* the loop goes on without a list *)
| Stop                             (* another thread calls [stop] *)
| Fetched (obj : pyval).           (* another thread calls [update_cache] *)

Definition q_min (a b : Q) : Q := if Qle_bool a b then a else b.

(** [exc.status == 410] of an [ApiException]. *)
Definition is_gone (e : exn) : bool :=
  match e with PyException (ApiException status) _ => (status =? 410)%Z | _ => false end.

(** The [except] clauses of [_run]. *)
Definition on_error (e : exn) (t : Thread) : Thread :=
  if is_gone e then
    {| th_informer := set_synced false (set_version PNone (th_informer t)); th_phase := AtHead;
       th_backoff := th_backoff t |}
  else
    {| th_informer := set_synced false (th_informer t); th_phase := BackingOff;
       th_backoff := q_min (th_backoff t * 2) 30 |}.

Definition with_informer (i : Informer) (t : Thread) : Thread :=
  {| th_informer := i; th_phase := th_phase t; th_backoff := th_backoff t |}.
Definition goto (p : phase) (b : Q) (t : Thread) : Thread :=
  {| th_informer := th_informer t; th_phase := p; th_backoff := b |}.

(** What follows the list: watch, or rest until the next list. *)
Definition after_sync (t : Thread) : Thread :=
  goto (if inf_enable_watch (th_informer t) then Watching else Resting) (th_backoff t) t.

(** One step of the informer; [None] if the input cannot occur in this phase. *)
Definition thread_step (x : input) (t : Thread) : option Thread :=
  let i := th_informer t in
  match x, th_phase t with
  | Stop, _ => Some (with_informer (set_stop true i) t)
  | Fetched obj, _ => let '(_, i') := update_cache obj i in Some (with_informer i' t)
  | Proceed, AtHead =>
      if inf_stop i then Some (goto Finished (th_backoff t) t)
      else if inf_synced i then Some (after_sync t) else None
  | Listed answer, AtHead =>
      if inf_stop i || inf_synced i then None else
      Some (match answer with
            | Ok resp =>
                let '(r, i') := full_resync resp i in
                match r with
                | Ok _ => after_sync (goto AtHead 1 (with_informer i' t))
                | Raise e => on_error e (with_informer i' t)
                end
            | Raise e => on_error e t
            end)
  | Event event, Watching =>
      if inf_stop i then Some (goto AtHead 1 t) else
      let '(r, i') := handle_event event i in
      Some (match r with Ok _ => with_informer i' t | Raise e => on_error e (with_informer i' t) end)
  | StreamEnd None, Watching => Some (goto AtHead 1 t)
  | StreamEnd (Some e), Watching => Some (on_error e t)
  | WaitOver, Resting => Some (goto AtHead (th_backoff t) (with_informer (set_synced false i) t))
  | WaitOver, BackingOff => Some (goto AtHead (th_backoff t) t)
  | _, _ => None
  end.
