(* ===== verification/InformerSync.v ===== *)
(** * The informer against an API server

    The server is a history of writes with increasing revisions.  A list answers
    with the objects at one revision; a watch from a revision delivers the later
    writes in order; a fetch answers with the object at some revision.  This is
    the documented behaviour of the Kubernetes API.  The theorems relate the cache
    to the snapshots of that history over all interleavings. *)

From S2P Require Import Prelude PyString PyDict Json PyVal Common Informer.
From Stdlib Require Import QArith.
Close Scope Q_scope.
Open Scope string_scope.
Open Scope list_scope.
Open Scope Z_scope.

(** ** The server *)

(** A write of revision [w_rev]; [w_deleted] removes the object. *)
Record Write := { w_rev : Z; w_name : string; w_obj : pyval; w_deleted : bool }.

Definition apply_write (m : gmap string pyval) (w : Write) : gmap string pyval :=
  if w_deleted w then delete (w_name w) m else <[w_name w := w_obj w]> m.

(** The objects after the writes of revision up to [r]. *)
Definition state_at (h : list Write) (r : Z) : gmap string pyval :=
  fold_left apply_write (base.filter (λ w, w_rev w ≤ r) h) ∅.

#[global] Arguments state_at : simpl never.

(** An object carries its name and the revision of its last write. *)
Definition metadata_of (v : pyval) : option pyval := val_at ["metadata"] v.
Record object_ok (name : string) (rev : Z) (obj : pyval) : Prop := {
  obj_dict : is_dict obj = true;
  obj_metadata : is_dict (default PNone (metadata_of obj)) = true;
  obj_name : val_at ["metadata"; "name"] obj = Some (PStr name);
  obj_version : val_at ["metadata"; "resourceVersion"] obj = Some (PStr (str_of_Z rev));
  obj_named : truthy name = true }.

Definition max_rev : Z := 2 ^ 63.

Fixpoint revs_above (r : Z) (h : list Write) : Prop :=
  match h with
  | [] => True
  | w :: h' => r < w_rev w < max_rev ∧ object_ok (w_name w) (w_rev w) (w_obj w) ∧ revs_above (w_rev w) h'
  end.

(** The revision of the last write. *)
Fixpoint current (r : Z) (h : list Write) : Z :=
  match h with [] => r | w :: h' => current (w_rev w) h' end.

Definition list_answer (r : Z) (objs : list pyval) : pyval :=
  PDict [("items", PList objs); ("metadata", PDict [("resourceVersion", PStr (str_of_Z r))])].

Definition event_of (w : Write) (kind : string) : pyval :=
  PDict [("type", PStr (if w_deleted w then "DELETED" else kind)); ("object", w_obj w)].

(** ** The system *)

(** [s_pos] is how far the open stream has delivered.  [s_exact] is a ghost: the
    cache came from a list that was as new as the version, and no fetched object
    was stored since. *)
Record Sys := { s_hist : list Write; s_thread : Thread; s_pos : Z; s_exact : bool }.

Definition s_inf (s : Sys) : Informer := th_informer (s_thread s).

Definition version_number (i : Informer) : option Z :=
  match inf_version i with PStr t => py_int t | _ => None end.

(** Opening a stream starts at the version of the informer. *)
Definition opened (t : Thread) (pos : Z) : Z :=
  match th_phase t with Watching => default 0 (version_number (th_informer t)) | _ => pos end.

Inductive sys_step : Sys → Sys → Prop :=
| step_write s w :
    current 0 (s_hist s) < w_rev w < max_rev → object_ok (w_name w) (w_rev w) (w_obj w) →
    sys_step s {| s_hist := s_hist s ++ [w]; s_thread := s_thread s; s_pos := s_pos s; s_exact := s_exact s |}
| step_list s r objs t' :
    0 ≤ r ≤ current 0 (s_hist s) → objs ≡ₚ (map_to_list (state_at (s_hist s) r)).*2 →
    thread_step (Listed (Ok (list_answer r objs))) (s_thread s) = Some t' →
    sys_step s {| s_hist := s_hist s; s_thread := t'; s_pos := opened t' (s_pos s);
                  s_exact := bool_decide (default 0 (version_number (s_inf s)) ≤ r) |}
| step_list_fails s e t' :
    thread_step (Listed (Raise e)) (s_thread s) = Some t' →
    sys_step s {| s_hist := s_hist s; s_thread := t'; s_pos := s_pos s; s_exact := s_exact s |}
| step_event s w kind t' :
    w ∈ s_hist s → s_pos s < w_rev w → (∀ w', w' ∈ s_hist s → s_pos s < w_rev w' → w_rev w ≤ w_rev w') →
    kind ≠ "DELETED" →
    thread_step (Event (event_of w kind)) (s_thread s) = Some t' →
    sys_step s {| s_hist := s_hist s; s_thread := t'; s_pos := w_rev w; s_exact := s_exact s |}
| step_stream_ends s failure t' :
    thread_step (StreamEnd failure) (s_thread s) = Some t' →
    sys_step s {| s_hist := s_hist s; s_thread := t'; s_pos := s_pos s; s_exact := s_exact s |}
| step_loop s x t' :
    x = WaitOver ∨ x = Proceed → thread_step x (s_thread s) = Some t' →
    sys_step s {| s_hist := s_hist s; s_thread := t'; s_pos := opened t' (s_pos s); s_exact := s_exact s |}
| step_stop s t' :
    thread_step Stop (s_thread s) = Some t' →
    sys_step s {| s_hist := s_hist s; s_thread := t'; s_pos := s_pos s; s_exact := s_exact s |}
| step_fetch s name g obj t' :
    0 ≤ g ≤ current 0 (s_hist s) → state_at (s_hist s) g !! name = Some obj →
    thread_step (Fetched obj) (s_thread s) = Some t' →
    sys_step s {| s_hist := s_hist s; s_thread := t'; s_pos := s_pos s; s_exact := false |}.

Definition sys_init (watch : bool) : Sys := {|
  s_hist := []; s_pos := 0; s_exact := false;
  s_thread := {| th_informer := new_informer watch; th_phase := AtHead; th_backoff := 1 |} |}.

Definition sys_reachable (watch : bool) : Sys → Prop := rtc sys_step (sys_init watch).

(** ** Snapshots *)

Lemma revs_above_elem r h w :
  revs_above r h → w ∈ h → r < w_rev w < max_rev ∧ object_ok (w_name w) (w_rev w) (w_obj w).
Proof.
  revert r. induction h as [|v h IH]; cbn; intros r Hh Hin; [set_solver|].
  destruct Hh as (Hr&Ho&Hh). apply elem_of_cons in Hin as [->|Hin]; [done|].
  destruct (IH _ Hh Hin). split; [lia|done].
Qed.

Lemma revs_above_app r h w :
  revs_above r (h ++ [w]) ↔
  revs_above r h ∧ current r h < w_rev w < max_rev ∧ object_ok (w_name w) (w_rev w) (w_obj w).
Proof. revert r. induction h as [|v h IH]; intros r; cbn; [tauto|]. rewrite IH. tauto. Qed.

Lemma current_app r h w : current r (h ++ [w]) = w_rev w.
Proof. revert r. induction h as [|v h IH]; intros r; cbn; auto. Qed.

Lemma current_ge r h : revs_above r h → r ≤ current r h ∧ (0 ≤ r < max_rev → current r h < max_rev).
Proof.
  revert r. induction h as [|v h IH]; cbn; intros r Hh; [lia|]. destruct Hh as (Hr&_&Hh).
  destruct (IH _ Hh) as [H1 H2]. split; [lia|]. intros ?. apply H2. lia.
Qed.

Lemma elem_le_current r h w : revs_above r h → w ∈ h → w_rev w ≤ current r h.
Proof.
  revert r. induction h as [|v h IH]; cbn; intros r Hh Hin; [set_solver|]. destruct Hh as (Hr&_&Hh).
  apply elem_of_cons in Hin as [->|Hin]; [by apply current_ge|by eapply IH].
Qed.

Lemma state_at_app h w r :
  state_at (h ++ [w]) r = if decide (w_rev w ≤ r) then apply_write (state_at h r) w else state_at h r.
Proof.
  unfold state_at. rewrite filter_app. cbn. case_decide.
  - by rewrite fold_left_app.
  - by rewrite app_nil_r.
Qed.

(** A later write does not change an earlier snapshot. *)
Lemma state_at_old h w r : r ≤ current 0 h → current 0 h < w_rev w → state_at (h ++ [w]) r = state_at h r.
Proof. intros. rewrite state_at_app, decide_False by lia. done. Qed.

(** The snapshot after the first write beyond [p]. *)
Lemma state_at_next h p w :
  revs_above 0 h → w ∈ h → p < w_rev w → (∀ w', w' ∈ h → p < w_rev w' → w_rev w ≤ w_rev w') →
  state_at h (w_rev w) = apply_write (state_at h p) w.
Proof.
  induction h as [|v h IH] using rev_ind; intros Hh Hin Hp Hnext; [set_solver|].
  apply revs_above_app in Hh as (Hh&[Hv _]&_). rewrite !state_at_app.
  apply elem_of_app in Hin as [Hin| ->%list_elem_of_singleton].
  - pose proof (elem_le_current _ _ _ Hh Hin). rewrite !decide_False by lia.
    apply IH; [done|done|done|]. intros w' Hw'. apply Hnext. set_solver.
  - rewrite decide_True, decide_False by lia. f_equal.
    assert (∀ l : list Write, (∀ w', w' ∈ l → w' ∈ h) → base.filter (λ u, w_rev u ≤ w_rev v) l = base.filter (λ u, w_rev u ≤ p) l) as Hf.
    { clear IH. induction l as [|u l IHl]; intros Hl; [done|]. rewrite !filter_cons, IHl by set_solver.
      assert (u ∈ h) as Hu by (apply Hl; set_solver). pose proof (elem_le_current _ _ _ Hh Hu).
      rewrite decide_True by lia. destruct (decide (w_rev u ≤ p)); [done|].
      specialize (Hnext u ltac:(set_solver) ltac:(lia)). lia. }
    unfold state_at. by rewrite Hf.
Qed.

Lemma state_at_object h r name obj :
  revs_above 0 h → state_at h r !! name = Some obj → ∃ v, 0 < v ≤ current 0 h ∧ v < max_rev ∧ object_ok name v obj.
Proof.
  induction h as [|w h IH] using rev_ind; intros Hh.
  { change (state_at [] r) with (∅ : gmap string pyval). by rewrite lookup_empty. }
  apply revs_above_app in Hh as (Hh&Hw&Ho). rewrite state_at_app, current_app.
  pose proof (current_ge _ _ Hh) as [Hc _].
  assert (state_at h r !! name = Some obj →
          ∃ v, 0 < v ≤ w_rev w ∧ v < max_rev ∧ object_ok name v obj) as Hold.
  { intros Hs. destruct (IH Hh Hs) as (v&?&?&?). exists v. split_and!; [lia|lia|done|done]. }
  case_decide; [|done]. unfold apply_write. destruct (w_deleted w).
  - rewrite lookup_delete_Some. intros [_ ?]. auto.
  - rewrite lookup_insert_Some. intros [[<- <-]|[_ ?]]; [|auto]. exists (w_rev w). split_and!; [lia|lia|lia|done].
Qed.

(** ** What the informer does with well-formed answers *)

(** The version of an informer: none, or the text of a revision up to [top]. *)
Definition version_ok (top : Z) (i : Informer) : Prop :=
  inf_version i = PNone ∨ ∃ c, inf_version i = PStr (str_of_Z c) ∧ 0 ≤ c ≤ top ∧ c < max_rev.

Definition advance_to (v : Z) (i : Informer) : Informer :=
  match version_number i with
  | Some c => if c <? v then set_version (PStr (str_of_Z v)) i else i
  | None => set_version (PStr (str_of_Z v)) i
  end.

Lemma py_int_rev c : 0 ≤ c < max_rev → py_int (str_of_Z c) = Some c.
Proof.
  intros Hc. apply py_int_str. unfold max_rev in Hc. split; [lia|].
  eapply Z.lt_trans; [apply Hc|]. apply Z.pow_lt_mono_r; lia.
Qed.

Lemma version_number_str i c : inf_version i = PStr (str_of_Z c) → 0 ≤ c < max_rev → version_number i = Some c.
Proof. intros Hv Hc. unfold version_number. rewrite Hv. by apply py_int_rev. Qed.

Lemma advance_spec top v i :
  version_ok top i → 0 ≤ v < max_rev →
  advance_resource_version (PStr (str_of_Z v)) i = (Ok tt, advance_to v i).
Proof.
  intros Hi Hv. unfold advance_resource_version, advance_to. cbn [vtruthy]. rewrite truthy_str_of_Z. cbn [negb].
  destruct Hi as [Hn|(c&Hc&Hr&Hm)].
  - rewrite Hn, bool_decide_eq_true_2 by done. unfold version_number. by rewrite Hn.
  - rewrite (version_number_str i c), Hc, bool_decide_eq_false_2 by (done || lia).
    unfold newer, int_of. rewrite !py_int_rev by lia. cbn. by destruct (c <? v).
Qed.

Lemma advance_to_fields v i :
  inf_cache (advance_to v i) = inf_cache i ∧ inf_synced (advance_to v i) = inf_synced i ∧
  inf_stop (advance_to v i) = inf_stop i ∧ inf_enable_watch (advance_to v i) = inf_enable_watch i.
Proof. unfold advance_to. destruct (version_number i) as [c|]; [destruct (c <? v)|]; done. Qed.

Lemma advance_to_set_cache v f i : inf_version (advance_to v (set_cache f i)) = inf_version (advance_to v i).
Proof.
  unfold advance_to. change (version_number (set_cache f i)) with (version_number i).
  destruct (version_number i); [destruct (_ <? _)|]; done.
Qed.

Lemma advance_to_version top v i :
  version_ok top i → 0 ≤ v ≤ top → v < max_rev →
  ∃ c, inf_version (advance_to v i) = PStr (str_of_Z c) ∧ v ≤ c ≤ top ∧ c < max_rev ∧
       (c = v ∨ version_number i = Some c) ∧ (default 0 (version_number i) ≤ v → c = v).
Proof.
  intros [Hn|(c&Hc&Hr&Hm)] Hv Hv'; unfold advance_to.
  - assert (version_number i = None) as -> by (unfold version_number; by rewrite Hn).
    exists v. split_and!; [done|lia|lia|lia|by left|done].
  - rewrite (version_number_str i c) by (done || lia). destruct (c <? v) eqn:Hlt.
    + exists v. split_and!; [done|lia|lia|lia|by left|done].
    + apply Z.ltb_ge in Hlt. exists c. split_and!; [done|lia|lia|lia|by right|cbn; lia].
Qed.

Lemma version_ok_mono top top' i : version_ok top i → top ≤ top' → version_ok top' i.
Proof. intros [?|(c&?&?&?)] Ht; [by left|right]. exists c. split_and!; [done|lia|lia|done]. Qed.

(** How the code reads an object. *)
Lemma object_fields name v obj :
  object_ok name v obj →
  ∃ md, vget_dict obj "metadata" = Ok md ∧ vget md "name" = Ok (PStr name) ∧
        vget md "resourceVersion" = Ok (PStr (str_of_Z v)) ∧ is_dict obj = true.
Proof.
  intros [Hd Hm Hn Hv _]. destruct obj as [| | | | | |d]; try done. unfold metadata_of in Hm. cbn in *.
  unfold dget_default. destruct (dget "metadata" d) as [md|]; [|done]. cbn in *.
  exists md. destruct md as [| | | | | |m]; try done. cbn in *. unfold vget, get_or, dget_default.
  destruct (dget "name" m); [|done]. destruct (dget "resourceVersion" m); [|done]. cbn in *. by simplify_eq.
Qed.

Lemma update_cache_spec top name v obj i :
  object_ok name v obj → version_ok top i → 0 ≤ v < max_rev →
  update_cache obj i = (Ok tt, advance_to v (set_cache <[name:=obj]> i)).
Proof.
  intros Ho Hi Hv. destruct (object_fields _ _ _ Ho) as (md&H1&H2&H3&_).
  unfold update_cache, mbind, M_bind, lift. rewrite H1, H2. cbn [vtruthy]. rewrite (obj_named _ _ _ Ho). cbn [negb cache_put].
  rewrite H3. by rewrite (advance_spec top).
Qed.

Lemma handle_event_spec top w kind i :
  object_ok (w_name w) (w_rev w) (w_obj w) → version_ok top i → 0 ≤ w_rev w < max_rev → kind ≠ "DELETED" →
  handle_event (event_of w kind) i = (Ok tt, advance_to (w_rev w) (set_cache (λ m, apply_write m w) i)).
Proof.
  intros Ho Hi Hv Hk. destruct (object_fields _ _ _ Ho) as (md&H1&H2&H3&H4).
  assert (vget (event_of w kind) "object" = Ok (w_obj w)) as E1 by done.
  assert (vget (event_of w kind) "type" = Ok (PStr (if w_deleted w then "DELETED" else kind))) as E2 by done.
  unfold handle_event, mbind, M_bind, lift. rewrite E1, H4. cbn [negb]. rewrite H1, H2, E2. cbn [vtruthy]. rewrite (obj_named _ _ _ Ho). cbn [negb].
  unfold eq_str. unfold apply_write. destruct (w_deleted w).
  - rewrite bool_decide_eq_true_2 by done. cbn [cache_pop]. rewrite H3. by rewrite (advance_spec top).
  - rewrite bool_decide_eq_false_2 by congruence. cbn [cache_put]. rewrite H3. by rewrite (advance_spec top).
Qed.

Lemma index_items_spec l acc :
  (∀ n o, (n, o) ∈ l → ∃ v, object_ok n v o) → NoDup l.*1 →
  index_items l.*2 acc = Ok (list_to_map l ∪ acc).
Proof.
  revert acc. induction l as [|[n o] l IH]; intros acc Hok Hnd.
  - cbn. by rewrite (left_id_L ∅ (∪)).
  - apply NoDup_cons in Hnd as [Hn Hnd]. destruct (Hok n o) as [v Ho]; [set_solver|].
    destruct (object_fields _ _ _ Ho) as (md&H1&H2&_). cbn [fmap list_fmap index_items snd].
    rewrite H1. cbn [mbind result_bind]. rewrite H2. cbn [vtruthy mbind result_bind].
    rewrite (obj_named _ _ _ Ho). cbn [negb]. rewrite IH; [|set_solver|done].
    f_equal. cbn [list_to_map foldr]. rewrite <-insert_union_l, insert_union_r; [done|].
    apply not_elem_of_list_to_map_1. done.
Qed.

Lemma full_resync_spec top h r objs i :
  revs_above 0 h → version_ok top i → 0 ≤ r < max_rev → objs ≡ₚ (map_to_list (state_at h r)).*2 →
  full_resync (list_answer r objs) i =
    (Ok tt, set_synced true (advance_to r (set_cache (λ _, state_at h r) i))).
Proof.
  intros Hh Hi Hr Hp. apply Permutation_map_inv in Hp as (l&->&Hl). change (map snd l) with (l.*2).
  assert (index_items l.*2 ∅ = Ok (state_at h r)) as Hx.
  { rewrite index_items_spec.
    - rewrite (right_id_L ∅ (∪)). f_equal. transitivity (list_to_map (M:=gmap string pyval) (map_to_list (state_at h r)));
        [|apply list_to_map_to_list].
      symmetry. apply list_to_map_proper; [apply NoDup_fst_map_to_list|done].
    - intros n o Hin. rewrite <-Hl in Hin. apply elem_of_map_to_list in Hin.
      destruct (state_at_object _ _ _ _ Hh Hin) as (v&_&_&?). eauto.
    - rewrite <-Hl. apply NoDup_fst_map_to_list. }
  unfold full_resync, mbind, M_bind, lift. change (is_dict (list_answer r l.*2)) with true. cbv iota.
  assert (get_or (list_answer r l.*2) "items" (PList []) = Ok (PList l.*2)) as E1 by done.
  assert (vget_dict (list_answer r l.*2) "metadata" =
          Ok (PDict [("resourceVersion", PStr (str_of_Z r))])) as E2 by done.
  assert (vget (PDict [("resourceVersion", PStr (str_of_Z r))]) "resourceVersion" = Ok (PStr (str_of_Z r))) as E3 by done.
  rewrite E1, E2, E3. cbn [iterate]. rewrite Hx. unfold modify.
  by rewrite (advance_spec top).
Qed.

(** ** The invariant *)

Record sys_ok (s : Sys) : Prop := {
  so_hist : revs_above 0 (s_hist s);
  so_version : version_ok (current 0 (s_hist s)) (s_inf s);
  so_sound : ∀ n o, inf_cache (s_inf s) !! n = Some o →
    ∃ r, 0 ≤ r ≤ current 0 (s_hist s) ∧ state_at (s_hist s) r !! n = Some o;
  so_watch : th_phase (s_thread s) = Watching → inf_synced (s_inf s) = true;
  so_synced : inf_synced (s_inf s) = true → version_number (s_inf s) ≠ None;
  so_exact : s_exact s = true → inf_synced (s_inf s) = true →
    ∃ c, version_number (s_inf s) = Some c ∧ inf_cache (s_inf s) = state_at (s_hist s) c ∧
         (th_phase (s_thread s) = Watching → s_pos s = c) }.

Lemma init_ok watch : sys_ok (sys_init watch).
Proof. split; cbn; try done. by left. Qed.

(** A step that keeps cache and version, and may only clear the synced flag or
    leave the watch loop. *)
Lemma quiet_ok s t' pos ex :
  sys_ok s → inf_cache (th_informer t') = inf_cache (s_inf s) →
  inf_version (th_informer t') = inf_version (s_inf s) ∨
    inf_version (th_informer t') = PNone ∧ inf_synced (th_informer t') = false →
  (inf_synced (th_informer t') = true → inf_synced (s_inf s) = true) →
  (th_phase t' = Watching → inf_synced (th_informer t') = true ∧
     (th_phase (s_thread s) = Watching ∧ pos = s_pos s ∨ pos = opened t' (s_pos s))) →
  (ex = true → s_exact s = true) →
  sys_ok {| s_hist := s_hist s; s_thread := t'; s_pos := pos; s_exact := ex |}.
Proof.
  intros [Hh Hv Hs Hw Hn He] Hc Hver Hsy Hph Hex.
  assert (inf_synced (th_informer t') = true → version_number (th_informer t') = version_number (s_inf s)) as Hvn.
  { intros Hs'. destruct Hver as [E|[_ E]]; [|congruence]. unfold version_number. by rewrite E. }
  split; cbn; unfold s_inf in *; cbn in *.
  - done.
  - destruct Hver as [E|[E _]]; [|by left]. destruct Hv as [Hv|Hv]; [left|right]; by rewrite E.
  - rewrite Hc. done.
  - intros Hwt. by destruct (Hph Hwt).
  - intros Hs'. rewrite Hvn by done. by apply Hn, Hsy.
  - intros Hx Hs'. destruct (He (Hex Hx) (Hsy Hs')) as (c&Hvc&Hcc&Hpos). exists c.
    rewrite Hvn, Hc by done. split_and!; [done|done|]. intros Hwt.
    destruct (Hph Hwt) as [_ [[Hw' ->]| ->]]; [by apply Hpos|].
    unfold opened. rewrite Hwt, Hvn, Hvc by done. done.
Qed.

(** Storing [m] in the cache and moving the version to [v]. *)
Lemma store_ok s i' t' pos ex v m :
  sys_ok s → 0 ≤ v ≤ current 0 (s_hist s) →
  inf_cache i' = m → inf_version i' = inf_version (advance_to v (s_inf s)) →
  th_informer t' = i' →
  (∀ n o, m !! n = Some o → ∃ r, 0 ≤ r ≤ current 0 (s_hist s) ∧ state_at (s_hist s) r !! n = Some o) →
  (th_phase t' = Watching → inf_synced i' = true) →
  (ex = true → inf_synced i' = true →
     default 0 (version_number (s_inf s)) ≤ v ∧ m = state_at (s_hist s) v ∧
     (th_phase t' = Watching → pos = v ∨ pos = opened t' (s_pos s))) →
  sys_ok {| s_hist := s_hist s; s_thread := t'; s_pos := pos; s_exact := ex |}.
Proof.
  intros [Hh Hv Hs Hw Hn He] Hr Hc Hver Ht Hsound Hph Hex.
  pose proof (current_ge _ _ Hh) as [_ Hm]. specialize (Hm ltac:(done)).
  destruct (advance_to_version (current 0 (s_hist s)) v (s_inf s)) as (c&Hvc&Hcr&Hcm&_&Hle); [done|lia|lia|].
  assert (version_number i' = Some c) as Hvn by (apply version_number_str; [congruence|lia]).
  split; cbn; unfold s_inf; cbn; rewrite ?Ht.
  - done.
  - right. exists c. split_and!; [congruence|lia|lia|lia].
  - rewrite Hc. done.
  - done.
  - congruence.
  - intros Hx Hsy. destruct (Hex Hx Hsy) as (Hd&Hms&Hpos). assert (c = v) as -> by auto. exists v.
    split_and!; [done|by rewrite Hc|]. intros Hwt. destruct (Hpos Hwt) as [->| ->]; [done|].
    unfold opened. by rewrite Hwt, Ht, Hvn.
Qed.

(** The error handler forgets that the cache is synced, and perhaps the version. *)
Lemma on_error_ok s e t pos :
  sys_ok s → th_informer t = s_inf s → sys_ok {| s_hist := s_hist s; s_thread := on_error e t; s_pos := pos; s_exact := s_exact s |}.
Proof.
  intros Hok Ht. unfold on_error. apply quiet_ok; [done|..]; destruct (is_gone e); cbn; rewrite ?Ht; auto; done.
Qed.

Lemma write_ok s w :
  sys_ok s → current 0 (s_hist s) < w_rev w < max_rev → object_ok (w_name w) (w_rev w) (w_obj w) →
  sys_ok {| s_hist := s_hist s ++ [w]; s_thread := s_thread s; s_pos := s_pos s; s_exact := s_exact s |}.
Proof.
  intros [Hh Hv Hs Hw Hn He] Hr Ho. split; cbn; unfold s_inf in *; cbn; try done.
  - by apply revs_above_app.
  - rewrite current_app. eapply version_ok_mono; [done|lia].
  - rewrite current_app. intros n o Hc. destruct (Hs n o Hc) as (r&?&?). exists r.
    rewrite state_at_old by lia. split; [lia|done].
  - intros Hx Hsy. destruct (He Hx Hsy) as (c&Hvc&Hcc&Hpos). exists c. split_and!; [done| |done].
    rewrite state_at_old; [done| |lia]. destruct Hv as [Hv|(c'&Hv&?&?)].
    + unfold version_number in Hvc. by rewrite Hv in Hvc.
    + rewrite (version_number_str _ c') in Hvc by (done || lia). injection Hvc as <-. lia.
Qed.

Lemma list_ok s r objs t' :
  sys_ok s → 0 ≤ r ≤ current 0 (s_hist s) → objs ≡ₚ (map_to_list (state_at (s_hist s) r)).*2 →
  thread_step (Listed (Ok (list_answer r objs))) (s_thread s) = Some t' →
  sys_ok {| s_hist := s_hist s; s_thread := t'; s_pos := opened t' (s_pos s);
            s_exact := bool_decide (default 0 (version_number (s_inf s)) ≤ r) |}.
Proof.
  intros Hok Hr Hp. pose proof Hok as [Hh Hv _ _ _ _]. pose proof (current_ge _ _ Hh) as [_ Hm].
  specialize (Hm ltac:(done)). unfold thread_step. destruct (th_phase (s_thread s)); try done.
  destruct (_ || _); [done|].
  pose proof (full_resync_spec (current 0 (s_hist s)) (s_hist s) r objs (s_inf s)) as Hf. unfold s_inf in Hf at 2 3.
  rewrite Hf by (done || lia). intros [= <-].
  destruct (advance_to_fields r (set_cache (λ _, state_at (s_hist s) r) (s_inf s))) as (Hc&_).
  eapply (store_ok s (set_synced true (advance_to r (set_cache (λ _, state_at (s_hist s) r) (s_inf s)))) _ _ _ r
    (state_at (s_hist s) r)); [done|done|exact Hc| |done|eauto|done|].
  - apply advance_to_set_cache.
  - intros Hx%bool_decide_eq_true _. split_and!; [done|done|]. auto.
Qed.

Lemma event_ok s w kind t' :
  sys_ok s → w ∈ s_hist s → s_pos s < w_rev w →
  (∀ w', w' ∈ s_hist s → s_pos s < w_rev w' → w_rev w ≤ w_rev w') → kind ≠ "DELETED" →
  thread_step (Event (event_of w kind)) (s_thread s) = Some t' →
  sys_ok {| s_hist := s_hist s; s_thread := t'; s_pos := w_rev w; s_exact := s_exact s |}.
Proof.
  intros Hok Hin Hpos Hnext Hk. pose proof Hok as [Hh Hv Hs Hw Hn He].
  destruct (revs_above_elem _ _ _ Hh Hin) as [Hr Ho]. pose proof (elem_le_current _ _ _ Hh Hin).
  unfold thread_step. destruct (th_phase (s_thread s)) eqn:Hp; try done.
  destruct (inf_stop _).
  { intros [= <-]. apply quiet_ok; auto; done. }
  pose proof (handle_event_spec (current 0 (s_hist s)) w kind (s_inf s)) as Hf. unfold s_inf in Hf at 2 3.
  rewrite Hf by (done || lia). intros [= <-].
  destruct (advance_to_fields (w_rev w) (set_cache (λ m, apply_write m w) (s_inf s))) as (Hc&Hsy&_).
  eapply (store_ok s _ _ _ _ (w_rev w) (apply_write (inf_cache (s_inf s)) w)); [done|lia|exact Hc| |done|..].
  - apply advance_to_set_cache.
  - assert (state_at (s_hist s) (w_rev w) = apply_write (state_at (s_hist s) (w_rev w - 1)) w) as Hst.
    { apply state_at_next; [done|done|lia|]. intros w' _ ?. lia. }
    intros n o. unfold apply_write in *. destruct (w_deleted w) eqn:Hdel.
    + rewrite lookup_delete_Some. intros [_ ?]. by apply Hs.
    + rewrite lookup_insert_Some. intros [[<- <-]|[_ ?]]; [|by apply Hs]. exists (w_rev w).
      split; [lia|]. rewrite Hst. by rewrite lookup_insert_eq.
  - intros _. rewrite Hsy. by apply Hw.
  - rewrite Hsy. intros Hx Hsyn. destruct (He Hx Hsyn) as (c&Hvc&Hcc&Hpc). specialize (Hpc eq_refl).
    rewrite Hvc, Hcc. cbn. split_and!; [lia| |auto].
    symmetry. apply state_at_next; [done|done|lia|]. by rewrite <-Hpc.
Qed.

Lemma fetch_ok s name g obj t' :
  sys_ok s → state_at (s_hist s) g !! name = Some obj → 0 ≤ g ≤ current 0 (s_hist s) →
  thread_step (Fetched obj) (s_thread s) = Some t' →
  sys_ok {| s_hist := s_hist s; s_thread := t'; s_pos := s_pos s; s_exact := false |}.
Proof.
  intros Hok Hg Hgr. pose proof Hok as [Hh Hv Hs Hw Hn He].
  destruct (state_at_object _ _ _ _ Hh Hg) as (v&Hvr&Hvm&Ho).
  unfold thread_step. pose proof (update_cache_spec (current 0 (s_hist s)) name v obj (s_inf s)) as Hf.
  unfold s_inf in Hf at 2 3. rewrite Hf by (done || lia).
  destruct (advance_to_fields v (set_cache <[name:=obj]> (s_inf s))) as (Hc&Hsy&_).
  assert (Some (with_informer (advance_to v (set_cache <[name:=obj]> (s_inf s))) (s_thread s)) = Some t' →
    sys_ok {| s_hist := s_hist s; s_thread := t'; s_pos := s_pos s; s_exact := false |}) as Hgoal.
  { intros [= <-]. eapply (store_ok s _ _ _ _ v (<[name:=obj]> (inf_cache (s_inf s)))); [done|lia|exact Hc| |done|..].
    - apply advance_to_set_cache.
    - intros n o. rewrite lookup_insert_Some. intros [[<- <-]|[_ ?]]; [eauto|by apply Hs].
    - cbn. rewrite Hsy. apply Hw.
    - done. }
  by destruct (th_phase (s_thread s)).
Qed.

Lemma step_ok s s' : sys_ok s → sys_step s s' → sys_ok s'.
Proof.
  intros Hok Hstep. destruct Hstep as [s w|s r objs t' |s e t' Ht|s w kind t'|s f t' Ht|s x t' Hx Ht|s t' Ht|s name g obj t'].
  - by apply write_ok.
  - by eapply list_ok.
  - unfold thread_step in Ht. destruct (th_phase _); try done. destruct (_ || _); [done|].
    injection Ht as <-. by apply on_error_ok.
  - by eapply event_ok.
  - unfold thread_step in Ht. destruct f as [e|], (th_phase _); try done; injection Ht as <-.
    + by apply on_error_ok.
    + apply quiet_ok; auto; done.
  - assert (inf_synced (th_informer t') = true → inf_synced (s_inf s) = true) as Hs.
    { unfold thread_step in Ht. destruct Hx as [->| ->], (th_phase _); try done;
        try (injection Ht as <-; done). destruct (inf_stop _), (inf_synced _) eqn:?; try done; injection Ht as <-; done. }
    unfold thread_step in Ht. destruct Hx as [->| ->], (th_phase (s_thread s)) eqn:Hp; try done.
    + injection Ht as <-. apply quiet_ok; auto; done.
    + injection Ht as <-. apply quiet_ok; auto; done.
    + destruct (inf_stop _).
      * injection Ht as <-. apply quiet_ok; auto; done.
      * destruct (inf_synced _) eqn:Hsy; [|done]. injection Ht as <-. apply quiet_ok; auto.
  - unfold thread_step in Ht. destruct (th_phase (s_thread s)) eqn:Hp; injection Ht as <-;
      apply quiet_ok; cbn; rewrite ?Hp; auto; try done.
    intros _. split; [by apply so_watch|auto].
  - by eapply fetch_ok.
Qed.

Lemma reachable_ok watch s : sys_reachable watch s → sys_ok s.
Proof.
  unfold sys_reachable. intros Hr. remember (sys_init watch) as s0 eqn:H0.
  assert (sys_ok s0) as Hi by (subst; apply init_ok). clear H0.
  induction Hr as [|s1 s2 s3 Hstep _ IH]; [done|]. apply IH. by eapply step_ok.
Qed.

(** C15: whatever lists, watch events, failures and fetches come in whatever order,
    an object in the cache is one that the server has had under that name; and a
    synced cache that no fetch has touched since its list is exactly the snapshot of
    the server at the version the informer remembers, from which the open stream
    goes on. *)
Theorem informer_refines_snapshot watch s :
  sys_reachable watch s →
  (∀ name obj, cache_get name (s_inf s) = Some obj →
     ∃ r, 0 ≤ r ≤ current 0 (s_hist s) ∧ state_at (s_hist s) r !! name = Some obj) ∧
  (s_exact s = true → inf_synced (s_inf s) = true →
     ∃ c, version_number (s_inf s) = Some c ∧ (∀ name, cache_get name (s_inf s) = state_at (s_hist s) c !! name) ∧
          (th_phase (s_thread s) = Watching → s_pos s = c)).
Proof.
  intros Hr%reachable_ok. split.
  - apply (so_sound s Hr).
  - intros Hx Hs. destruct (so_exact s Hr Hx Hs) as (c&?&Hc&?). exists c. split_and!; [done| |done].
    intros name. unfold cache_get. by rewrite Hc.
Qed.

(** ** Concrete runs *)

Definition sample_object (name : string) (rev : Z) : pyval :=
  PDict [("metadata", PDict [("name", PStr name); ("resourceVersion", PStr (str_of_Z rev))])].

Definition sample_write (rev : Z) (name : string) (deleted : bool) : Write :=
  {| w_rev := rev; w_name := name; w_obj := sample_object name rev; w_deleted := deleted |}.

Lemma sample_ok name rev : truthy name = true → object_ok name rev (sample_object name rev).
Proof. by split. Qed.

(** A run as a function, for the objects above: writes, lists at the current
    revision, the next event, the end of the stream, the loop, fetches at the
    current revision. *)
Inductive act := DoWrite (name : string) (deleted : bool) | DoList | DoEvent | DoEnd | DoProceed | DoFetch (name : string).

Definition next_write (p : Z) (h : list Write) : option Write := List.find (λ w, p <? w_rev w) h.

Definition act_step (a : act) (s : Sys) : option Sys :=
  let h := s_hist s in
  let r := current 0 h in
  let put t' pos ex := {| s_hist := h; s_thread := t'; s_pos := pos; s_exact := ex |} in
  match a with
  | DoWrite name deleted =>
      if truthy name && (r + 1 <? max_rev) then
        Some {| s_hist := h ++ [sample_write (r + 1) name deleted]; s_thread := s_thread s; s_pos := s_pos s;
                s_exact := s_exact s |}
      else None
  | DoList =>
      t' ← thread_step (Listed (Ok (list_answer r (map_to_list (state_at h r)).*2))) (s_thread s);
      if 0 <=? r then Some (put t' (opened t' (s_pos s)) (bool_decide (default 0 (version_number (s_inf s)) ≤ r))) else None
  | DoEvent =>
      w ← next_write (s_pos s) h;
      t' ← thread_step (Event (event_of w "MODIFIED")) (s_thread s);
      if bool_decide (Forall (λ w', s_pos s < w_rev w' → w_rev w ≤ w_rev w') h) then Some (put t' (w_rev w) (s_exact s)) else None
  | DoEnd => t' ← thread_step (StreamEnd None) (s_thread s); Some (put t' (s_pos s) (s_exact s))
  | DoProceed => t' ← thread_step Proceed (s_thread s); Some (put t' (opened t' (s_pos s)) (s_exact s))
  | DoFetch name =>
      obj ← state_at h r !! name;
      t' ← thread_step (Fetched obj) (s_thread s);
      if 0 <=? r then Some (put t' (s_pos s) false) else None
  end.

Fixpoint act_run (l : list act) (s : Sys) : option Sys :=
  match l with [] => Some s | a :: l' => s' ← act_step a s; act_run l' s' end.

Lemma act_step_sound a s s' : act_step a s = Some s' → sys_step s s'.
Proof.
  destruct a; cbn [act_step]; intros H.
  - destruct (truthy name) eqn:Hn; [|done]. destruct (_ <? _) eqn:Hr; [|done]. injection H as <-.
    apply Z.ltb_lt in Hr. apply step_write; [cbn; lia|]. by apply sample_ok.
  - apply bind_Some in H as (t'&Ht&H). destruct (0 <=? _) eqn:Hr; [|done]. injection H as <-.
    apply Z.leb_le in Hr. by eapply step_list; [lia|reflexivity|].
  - apply bind_Some in H as (w&Hw&H). apply bind_Some in H as (t'&Ht&H). case_bool_decide as Hf; [|done].
    injection H as <-. apply List.find_some in Hw as [Hin Hw]. apply Z.ltb_lt in Hw.
    eapply (step_event _ _ "MODIFIED"); [by apply list_elem_of_In|done| |discriminate|exact Ht].
    rewrite Forall_forall in Hf. auto.
  - apply bind_Some in H as (t'&Ht&[= <-]). by apply (step_stream_ends _ None).
  - apply bind_Some in H as (t'&Ht&[= <-]). apply (step_loop _ Proceed); auto.
  - apply bind_Some in H as (o&Ho&H). apply bind_Some in H as (t'&Ht&H). destruct (0 <=? _) eqn:Hr; [|done].
    injection H as <-. apply Z.leb_le in Hr. by eapply step_fetch; [|exact Ho|]; [lia|].
Qed.

Lemma act_run_sound l s s' : act_run l s = Some s' → rtc sys_step s s'.
Proof.
  revert s. induction l as [|a l IH]; cbn; intros s H; [injection H as <-; apply rtc_refl|].
  apply bind_Some in H as (s1&H1&H2). eapply rtc_l; [by eapply act_step_sound|auto].
Qed.

(** A write, a list, a second write that the stream delivers. *)
Definition followed : Sys := {|
  s_hist := [sample_write 1 "a" false; sample_write 2 "a" false];
  s_thread := {| th_informer := {| inf_cache := {["a" := sample_object "a" 2]}; inf_version := PStr "2";
                                   inf_synced := true; inf_stop := false; inf_enable_watch := true |};
                 th_phase := Watching; th_backoff := 1 |};
  s_pos := 2; s_exact := true |}.

Lemma followed_reachable : sys_reachable true followed.
Proof. by apply (act_run_sound [DoWrite "a" false; DoList; DoWrite "a" false; DoEvent]); vm_compute. Qed.

Lemma informer_refines_snapshot_witness :
  cache_get "a" (s_inf followed) = state_at (s_hist followed) 2 !! "a".
Proof.
  destruct (informer_refines_snapshot true followed followed_reachable) as [_ He].
  destruct (He eq_refl eq_refl) as (c&Hc&Hg&_). vm_compute in Hc. injection Hc as <-. apply Hg.
Defined.

(** A fetch moves the version past writes that the stream has not delivered yet;
    the next stream starts after them.  Here the deletion of [a] is lost: the
    informer is synced, its stream has delivered everything, nothing has failed,
    and the cache still has [a]. *)
Definition stale : Sys := {|
  s_hist := [sample_write 1 "a" false; sample_write 2 "a" true; sample_write 3 "b" false];
  s_thread := {| th_informer := {| inf_cache := <["b" := sample_object "b" 3]> {["a" := sample_object "a" 1]};
                                   inf_version := PStr "3"; inf_synced := true; inf_stop := false;
                                   inf_enable_watch := true |};
                 th_phase := Watching; th_backoff := 1 |};
  s_pos := 3; s_exact := false |}.

Theorem fetch_loses_event :
  sys_reachable true stale ∧ inf_synced (s_inf stale) = true ∧ s_pos stale = current 0 (s_hist stale) ∧
  cache_get "a" (s_inf stale) = Some (sample_object "a" 1) ∧
  state_at (s_hist stale) (current 0 (s_hist stale)) !! "a" = None.
Proof.
  split; [|by vm_compute].
  by apply (act_run_sound [DoWrite "a" false; DoList; DoWrite "a" true; DoWrite "b" false; DoEnd; DoFetch "b"; DoProceed]);
    vm_compute.
Qed.
