(* ===== verification/PodSpec.v ===== *)
(** * Building pod specifications

    - [server/src/services/k8s/volume_helper.py]: the volumes of a request;
    - [server/src/services/k8s/egress_helper.py]: the egress side car and security contexts.

    A pod specification is a dictionary that the helpers change in place; a
    function here returns the changed dictionary.  When a helper raises, the
    caller drops the specification. *)

From S2P Require Import Prelude PyString PyDict Json PyVal Schema Common.
Open Scope string_scope.
Open Scope list_scope.

(** ** Volumes *)

(** The lists that [apply_volumes_to_pod_spec] appends to, the names in use, and
    the volume of each claim. *)
Record VolState := {
  vs_mounts : list pyval;
  vs_volumes : list pyval;
  vs_names : list pyval;
  vs_claims : dict string }.

Definition volume_mount (name : string) (vol : Volume) : pyval :=
  PDict ([("name", PStr name); ("mountPath", PStr (mount_path vol)); ("readOnly", PBool (read_only vol))]
         ++ (if truthy_opt (sub_path vol) then [("subPath", PStr (default EmptyString (sub_path vol)))] else [])).

Definition claim_volume (name claim : string) : pyval :=
  PDict [("name", PStr name); ("persistentVolumeClaim", PDict [("claimName", PStr claim)])].

Definition host_path_volume (name path : string) : pyval :=
  PDict [("name", PStr name); ("hostPath", PDict [("path", PStr path); ("type", PStr "DirectoryOrCreate")])].

(** One round of the loop. *)
Definition add_volume (st : VolState) (vol : Volume) : result VolState :=
  let name := vol_name vol in
  raise_if (bool_decide (PStr name ∈ vs_names st))
    (PyException ValueError ("Volume name '" +:+ name +:+
       "' conflicts with an internal volume. Please use a different volume name."));;
  match vol_pvc vol, vol_host vol with
  | Some pvc, _ =>
      let claim := claim_name pvc in
      let st1 :=
        if dmem claim (vs_claims st) then st
        else {| vs_mounts := vs_mounts st; vs_volumes := vs_volumes st ++ [claim_volume name claim];
                vs_names := PStr name :: vs_names st; vs_claims := dset claim name (vs_claims st) |} in
      Ok {| vs_mounts := vs_mounts st1 ++ [volume_mount (dget_default claim EmptyString (vs_claims st1)) vol];
            vs_volumes := vs_volumes st1; vs_names := vs_names st1; vs_claims := vs_claims st1 |}
  | None, Some h =>
      Ok {| vs_mounts := vs_mounts st ++ [volume_mount name vol];
            vs_volumes := vs_volumes st ++ [host_path_volume name (host_path h)];
            vs_names := vs_names st; vs_claims := vs_claims st |}
  | None, None =>
      Raise (PyException ValueError ("Volume '" +:+ name +:+
        "' has no supported backend specified. Supported backends: pvc, host"))
  end.

Fixpoint add_volumes (st : VolState) (vols : list Volume) : result VolState :=
  match vols with [] => Ok st | vol :: vols' => st' ← add_volume st vol; add_volumes st' vols' end.

(** [{v.get("name") for v in l if isinstance(v, dict)}] *)
Definition names_of (l : list pyval) : list pyval :=
  omap (λ v, match v with PDict d => Some (dget_default "name" PNone d) | _ => None end) l.

(** A value that the code appends to. *)
Definition as_list (v : pyval) : result (list pyval) :=
  match v with PList l => Ok l | _ => Raise (attribute_error v "append") end.

Definition apply_volumes_to_pod_spec (pod_spec : dict pyval) (volumes : list Volume) : result (dict pyval) :=
  let containers := dget_default "containers" (PList []) pod_spec in
  if negb (vtruthy containers) then Ok pod_spec else
  main_container ← item0 containers;
  mounts ← get_or main_container "volumeMounts" (PList []);
  mounts_list ← as_list mounts;
  pod_volumes ← as_list (dget_default "volumes" (PList []) pod_spec);
  st ← add_volumes {| vs_mounts := mounts_list; vs_volumes := pod_volumes; vs_names := names_of pod_volumes;
                      vs_claims := [] |} volumes;
  match containers, main_container with
  | PList (_ :: rest), PDict c =>
      Ok (dset "containers" (PList (PDict (dset "volumeMounts" (PList (vs_mounts st)) c) :: rest))
            (dset "volumes" (PList (vs_volumes st)) pod_spec))
  | _, _ => Raise (PyException TypeError "object does not support item assignment")
  end.

(** ** The egress side car *)

Definition K8S_EGRESS_RULES_ENV : string := "OPENSANDBOX_EGRESS_RULES".

Definition env_entry (name value : string) : pyval := PDict [("name", PStr name); ("value", PStr value)].

(** [_build_security_context_for_egress] *)
Definition build_security_context_for_egress : pyval :=
  PDict [("capabilities", PDict [("add", of_strings ["NET_ADMIN"])])].

Definition build_egress_sidecar_container (egress_image : string) (network_policy : NetworkPolicy)
    (egress_auth_token : option string) : pyval :=
  let env := [env_entry K8S_EGRESS_RULES_ENV (dumps_policy network_policy)]
             ++ (if truthy_opt egress_auth_token
                 then [env_entry "OPENSANDBOX_EGRESS_TOKEN" (default EmptyString egress_auth_token)] else []) in
  PDict [("name", PStr "egress"); ("image", PStr egress_image); ("env", PList env);
         ("securityContext", build_security_context_for_egress)].

Definition build_security_context_for_sandbox_container (has_network_policy : bool) : dict pyval :=
  if negb has_network_policy then []
  else [("capabilities", PDict [("drop", of_strings ["NET_ADMIN"])])].

(** One sysctl list of [_merge_sysctls]: entries with a name, last write wins. *)
Definition collect_sysctls (l : list pyval) (acc : dict pyval) : dict pyval :=
  fold_left (λ acc v, match v with
                      | PDict d => match dget "name" d with
                                   | Some (PStr n) => dset n (dget_default "value" (PStr EmptyString) d) acc
                                   | _ => acc
                                   end
                      | _ => acc
                      end) l acc.

Definition merge_sysctls (existing_sysctls : pyval) (new_sysctls : list pyval) : result (list pyval) :=
  if negb (vtruthy existing_sysctls) then Ok new_sysctls else
  existing ← iterate existing_sysctls;
  let d := collect_sysctls new_sysctls (collect_sysctls existing []) in
  Ok ((λ kv, PDict [("name", PStr kv.1); ("value", kv.2)]) <$> d).

Definition ipv6_sysctl_names : list string :=
  ["net.ipv6.conf.all.disable_ipv6"; "net.ipv6.conf.default.disable_ipv6"; "net.ipv6.conf.lo.disable_ipv6"].
Definition build_ipv6_disable_sysctls : list pyval := (λ n, env_entry n "1") <$> ipv6_sysctl_names.

(** [apply_egress_to_spec]; [containers] is the list that [pod_spec["containers"]] refers to. *)
Definition apply_egress_to_spec (pod_spec : dict pyval) (network_policy : option NetworkPolicy)
    (egress_image egress_auth_token : option string) : result (dict pyval) :=
  match network_policy, egress_image with
  | Some policy, Some ((String _ _) as img) =>
      containers ← as_list (dget_default "containers" (PList []) pod_spec);
      let pod_spec1 := dset "containers"
        (PList (containers ++ [build_egress_sidecar_container img policy egress_auth_token])) pod_spec in
      let context := dget_default "securityContext" (PDict []) pod_spec1 in
      existing_sysctls ← vget context "sysctls";
      sysctls ← merge_sysctls existing_sysctls build_ipv6_disable_sysctls;
      match context with
      | PDict c => Ok (dset "securityContext" (PDict (dset "sysctls" (PList sysctls) c)) pod_spec1)
      | _ => Raise (PyException TypeError "object does not support item assignment")
      end
  | _, _ => Ok pod_spec
  end.

(** ** Security contexts as client objects *)

(** [V1Capabilities] and [V1SecurityContext] *)
Record V1Capabilities := { cap_add : pyval; cap_drop : pyval }.
Record V1SecurityContext := { sc_capabilities : option V1Capabilities }.

Definition none_if_empty (v : pyval) : pyval := if vtruthy v then v else PNone.

Definition build_security_context_from_dict (d : dict pyval) : result (option V1SecurityContext) :=
  match d with
  | [] => Ok None
  | _ =>
      capabilities ← match dget "capabilities" d with
                     | Some caps =>
                         add_caps ← get_or caps "add" (PList []);
                         drop_caps ← get_or caps "drop" (PList []);
                         Ok (Some {| cap_add := none_if_empty add_caps; cap_drop := none_if_empty drop_caps |})
                     | None => Ok None
                     end;
      Ok (Some {| sc_capabilities := capabilities |})
  end.

Definition serialize_security_context_to_dict (security_context : option V1SecurityContext) : option (dict pyval) :=
  match security_context with
  | None => None
  | Some sc =>
      match sc_capabilities sc with
      | None => None
      | Some c =>
          let caps := (if vtruthy (cap_add c) then [("add", cap_add c)] else [])
                      ++ (if vtruthy (cap_drop c) then [("drop", cap_drop c)] else []) in
          match caps with [] => None | _ => Some [("capabilities", PDict caps)] end
      end
  end.

(** ** The volumes of a pod *)

Definition claim_of (v : pyval) : option string :=
  match val_at ["persistentVolumeClaim"; "claimName"] v with Some (PStr c) => Some c | _ => None end.

(** The mount [m] shows [vol], through one of the volumes [l]. *)
Definition mounted (l : list pyval) (vol : Volume) (m : pyval) : Prop :=
  ∃ n, m = volume_mount n vol ∧
    match vol_pvc vol, vol_host vol with
    | Some pvc, _ => claim_volume n (claim_name pvc) ∈ l
    | None, Some h => n = vol_name vol ∧ host_path_volume n (host_path h) ∈ l
    | None, None => False
    end.

Record volumes_added (b st : VolState) (vols : list Volume) (new : list pyval) : Prop := {
  va_volumes : vs_volumes st = vs_volumes b ++ new;
  va_mounts : ∃ ms, vs_mounts st = vs_mounts b ++ ms ∧ Forall2 (mounted new) vols ms;
  va_names : names_of new `sublist_of` (PStr ∘ vol_name <$> vols);
  va_apart : Forall (λ vol, PStr (vol_name vol) ∉ vs_names b) vols;
  va_kept : ∀ x, x ∈ vs_names b → x ∈ vs_names st;
  va_claims : omap claim_of new = dkeys (vs_claims st) ∧ dict_wf (vs_claims st);
  va_claim_names : ∀ c n, dget c (vs_claims st) = Some n → claim_volume n c ∈ new }.

Lemma mounted_app l l' vol m : mounted l vol m → mounted (l ++ l') vol m.
Proof.
  intros (n&->&H). exists n. split; [done|].
  destruct (vol_pvc vol), (vol_host vol); try done; set_solver.
Qed.

Lemma names_of_app l l' : names_of (l ++ l') = names_of l ++ names_of l'.
Proof. apply omap_app. Qed.

(** The state after one more volume, whose mount is [m] and which adds the volumes [extra]. *)
Lemma volumes_added_snoc b st st' vols new vol extra m :
  volumes_added b st vols new →
  vs_volumes st' = vs_volumes st ++ extra → vs_mounts st' = vs_mounts st ++ [m] →
  mounted (new ++ extra) vol m → names_of extra `sublist_of` [PStr (vol_name vol)] →
  PStr (vol_name vol) ∉ vs_names st → (∀ x, x ∈ vs_names st → x ∈ vs_names st') →
  omap claim_of extra = drop (length (dkeys (vs_claims st))) (dkeys (vs_claims st')) →
  take (length (dkeys (vs_claims st))) (dkeys (vs_claims st')) = dkeys (vs_claims st) →
  dict_wf (vs_claims st') →
  (∀ c n, dget c (vs_claims st') = Some n → claim_volume n c ∈ new ++ extra) →
  volumes_added b st' (vols ++ [vol]) (new ++ extra).
Proof.
  intros [Hv (ms&Hm&Hf) Hn Ha Hk [Hc Hw] Hcn] Hv' Hm' Hmt Hx Hfresh Hk' Hce Hct Hwf Hcn'. split.
  - by rewrite Hv', Hv, app_assoc.
  - exists (ms ++ [m]). split; [by rewrite Hm', Hm, app_assoc|]. apply Forall2_app.
    + eapply Forall2_impl; [exact Hf|]. intros ??. apply mounted_app.
    + by repeat constructor.
  - rewrite names_of_app, fmap_app. by apply sublist_app.
  - apply Forall_app. split; [done|]. constructor; [|done]. intros Hin. by apply Hfresh, Hk.
  - auto.
  - split; [|done]. rewrite omap_app, Hc, Hce, <-Hct at 1. rewrite Hct. by rewrite <-Hct at 1; rewrite take_drop.
  - done.
Qed.

Lemma add_volume_step b st vols new vol st' :
  volumes_added b st vols new → add_volume st vol = Ok st' →
  ∃ extra, volumes_added b st' (vols ++ [vol]) (new ++ extra).
Proof.
  intros Hinv. pose proof Hinv as [_ _ _ _ _ [Hc Hw] Hcn]. unfold add_volume.
  rewrite result_bind_unit_Ok, raise_if_Ok, bool_decide_eq_false. intros [Hfresh H]. revert H.
  destruct (vol_pvc vol) as [pvc|] eqn:Hp; [|destruct (vol_host vol) as [h|] eqn:Hh; [|done]].
  - unfold dmem. case_bool_decide as Hd.
    + destruct Hd as [n Hn]. intros [= <-]. exists []. rewrite app_nil_r.
      rewrite <-(app_nil_r new). unfold dget_default. rewrite Hn.
      eapply volumes_added_snoc; [done|cbn; by rewrite app_nil_r|done| |apply sublist_nil_l|done|done| | |done|];
        cbn [vs_claims]; rewrite ?app_nil_r.
      * exists n. split; [done|]. rewrite Hp. by apply Hcn.
      * by rewrite drop_all.
      * by rewrite firstn_all.
      * done.
    + assert (dget (claim_name pvc) (vs_claims st) = None) as Hnone.
      { destruct (dget _ _); [|done]. destruct Hd. eauto. }
      intros [= <-]. exists [claim_volume (vol_name vol) (claim_name pvc)].
      unfold dget_default. cbn [vs_claims]. rewrite dget_set_eq.
      eapply volumes_added_snoc; [done|done|done| |done|done|set_solver| | |by apply dset_wf|]; cbn [vs_claims].
      * exists (vol_name vol). split; [done|]. rewrite Hp. set_solver.
      * rewrite dset_new by done. unfold dkeys. rewrite fmap_app, drop_app_length. done.
      * rewrite dset_new by done. unfold dkeys. rewrite fmap_app, take_app_length. done.
      * intros c n. rewrite dget_set. case_decide; [intros [= <-]; subst; set_solver|].
        intros ?%Hcn. set_solver.
  - intros [= <-]. exists [host_path_volume (vol_name vol) (host_path h)].
    eapply volumes_added_snoc; [done|done|done| |done|done|done| | |done|]; cbn [vs_claims].
    + exists (vol_name vol). split; [done|]. rewrite Hp, Hh. set_solver.
    + by rewrite drop_all.
    + by rewrite firstn_all.
    + intros c n ?%Hcn. set_solver.
Qed.

Lemma add_volumes_inv b st vols new more st' :
  volumes_added b st vols new → add_volumes st more = Ok st' →
  ∃ new', volumes_added b st' (vols ++ more) new'.
Proof.
  revert st vols new. induction more as [|vol more IH]; intros st vols new Hinv; cbn.
  - intros [= <-]. rewrite app_nil_r. eauto.
  - rewrite result_bind_Ok. intros (st1&H1&H2). destruct (add_volume_step _ _ _ _ _ _ Hinv H1) as [extra Hx].
    destruct (IH _ _ _ Hx H2) as [new' Hn]. exists new'. by rewrite <-app_assoc in Hn.
Qed.

(** C32: what [apply_volumes_to_pod_spec] makes of a request with distinct volume
    names: the volumes of the pod keep distinct names, those that were there stay in
    front, every claim is defined once, and there is exactly one mount per requested
    volume, in order, with its path, mode and sub path, that refers to the pod
    volume of its claim or host path. *)
Theorem pod_volumes_sound pod_spec vols pod' base mounts c rest :
  dget "containers" pod_spec = Some (PList (PDict c :: rest)) →
  dget "volumes" pod_spec = Some (PList base) →
  dget "volumeMounts" c = Some (PList mounts) →
  NoDup (names_of base) → NoDup (vol_name <$> vols) →
  apply_volumes_to_pod_spec pod_spec vols = Ok pod' →
  ∃ new ms c', dget "volumes" pod' = Some (PList (base ++ new)) ∧
    dget "containers" pod' = Some (PList (PDict c' :: rest)) ∧
    dget "volumeMounts" c' = Some (PList (mounts ++ ms)) ∧
    NoDup (names_of (base ++ new)) ∧ NoDup (omap claim_of new) ∧ Forall2 (mounted new) vols ms.
Proof.
  intros Hc Hv Hm Hnb Hnv. unfold apply_volumes_to_pod_spec, dget_default. rewrite Hc, Hv. cbn [vtruthy negb item0].
  unfold mbind, result_bind. cbn [get_or dget_default]. unfold dget_default. rewrite Hm. cbn [as_list].
  destruct (add_volumes _ vols) as [st|] eqn:Hadd; [|done]. intros [= <-].
  set (b := {| vs_mounts := mounts; vs_volumes := base; vs_names := names_of base; vs_claims := [] |}) in Hadd.
  destruct (add_volumes_inv b b [] [] vols st) as [new Hinv]; [|done|].
  { split; cbn; try done; [by rewrite app_nil_r|exists []; by rewrite app_nil_r|split; [done|constructor]]. }
  destruct Hinv as [Ha (ms&Hms&Hf) Hn Hap _ [Hcl Hw] _]. cbn in Ha, Hms, Hap, Hn, Hf.
  exists new, ms, (dset "volumeMounts" (PList (vs_mounts st)) c). split_and!.
  - rewrite dget_set_ne, dget_set_eq by done. by rewrite Ha.
  - apply dget_set_eq.
  - by rewrite dget_set_eq, Hms.
  - rewrite names_of_app. apply NoDup_app. split_and!; [done| |].
    + intros x Hx Hx'. rewrite Forall_forall in Hap. eapply elem_of_sublist in Hx'; [|exact Hn].
      apply list_elem_of_fmap in Hx' as (vol&->&Hvol). by apply (Hap vol).
    + eapply sublist_NoDup; [|exact Hn]. rewrite list_fmap_compose. by apply NoDup_fmap_2; [intros ?? [= ->]|].
  - rewrite Hcl. done.
  - done.
Qed.

Lemma pod_volumes_sound_witness :
  let vol n c := {| vol_name := n; vol_host := None; vol_pvc := Some {| claim_name := c |}; vol_ossfs := None;
                    mount_path := "/" +:+ n; read_only := false; sub_path := None |} in
  let spec := [("containers", PList [PDict [("volumeMounts", PList [])]]); ("volumes", PList [])] in
  ∃ new ms c' pod', apply_volumes_to_pod_spec spec [vol "a" "data"; vol "b" "data"; vol "c" "logs"] = Ok pod' ∧
    dget "containers" pod' = Some (PList [PDict c']) ∧ dget "volumeMounts" c' = Some (PList ms) ∧
    new = [claim_volume "a" "data"; claim_volume "c" "logs"] ∧
    Forall2 (mounted new) [vol "a" "data"; vol "b" "data"; vol "c" "logs"] ms.
Proof.
  intros vol spec.
  destruct (apply_volumes_to_pod_spec spec [vol "a" "data"; vol "b" "data"; vol "c" "logs"]) as [pod'|] eqn:Ha;
    [|vm_compute in Ha; discriminate].
  edestruct (pod_volumes_sound spec [vol "a" "data"; vol "b" "data"; vol "c" "logs"] pod' [] [])
    as (new&ms&c'&H1&H2&H3&_&_&H6); [reflexivity|reflexivity|reflexivity|constructor| |exact Ha|].
  { apply (bool_decide_unpack _). vm_compute. exact I. }
  exists new, ms, c', pod'. split_and!; [done|exact H2|exact H3| |exact H6].
  vm_compute in Ha. injection Ha as <-. vm_compute in H1. injection H1 as <-. reflexivity.
Defined.
