(* ===== verification/K8sHelpers.v ===== *)
(** * Small helpers of the Kubernetes service

    - [server/src/services/k8s/resource_utils.py]: resource quantities;
    - [_to_dns1035_label] of [server/src/services/k8s/agent_sandbox_provider.py];
    - [server/src/services/k8s/image_pull_secret_helper.py]: image pull secrets. *)

From Stdlib Require Import Ascii.
From S2P Require Import Prelude PyString PyFloat PyDict Regex Json PyVal Schema Helpers.
Close Scope Z_scope.
Open Scope string_scope.
Open Scope list_scope.

(** ** Quantities *)

(** [^(\d+(?:\.\d+)?)\s*(E|P|T|G|M|K|Ei|Pi|Ti|Gi|Mi|Ki)?$] *)
Definition QUANTITY_RE : regex :=
  RCat (RPlus (RClass is_digit))
    (RCat (ROpt (RCat (RChar ".") (RPlus (RClass is_digit))))
       (RCat (RStar (RClass is_space)) (ROpt quantity_suffix))).

Definition QUANTITY_SUFFIXES : dict Z :=
  [(EmptyString, 1); ("K", 10 ^ 3); ("M", 10 ^ 6); ("G", 10 ^ 9); ("T", 10 ^ 12); ("P", 10 ^ 15); ("E", 10 ^ 18);
   ("Ki", 2 ^ 10); ("Mi", 2 ^ 20); ("Gi", 2 ^ 30); ("Ti", 2 ^ 40); ("Pi", 2 ^ 50); ("Ei", 2 ^ 60)]%Z.

(** The groups of a match. *)
Definition quantity_groups (value : string) : string * string :=
  let '(ip, rest) := span_digits value in
  let '(number, rest) :=
    match rest with
    | String c rest' => if (code c =? 46)%N then let '(fp, r) := span_digits rest' in (ip +:+ "." +:+ fp, r) else (ip, rest)
    | EmptyString => (ip, rest)
    end in
  (number, lstrip_by is_space rest).

Definition parse_k8s_quantity (value : string) : result Z :=
  let v := strip value in
  if negb (re_match QUANTITY_RE v)
  then Raise (PyException ValueError ("Invalid Kubernetes resource quantity: " +:+ value)) else
  let '(g1, g2) := quantity_groups v in
  match py_float g1, dget g2 QUANTITY_SUFFIXES with
  | Some number, Some multiplier => int_of_float (fmul number (float_of_Z multiplier))
  | None, _ => Raise (PyException ValueError ("could not convert string to float: " +:+ repr g1))
  | _, None => Raise (PyException ValueError ("Unknown suffix '" +:+ g2 +:+ "' in quantity: " +:+ value))
  end.

Example quantity_gi : parse_k8s_quantity "5Gi" = Ok 5368709120%Z.
Proof. vm_compute. reflexivity. Qed.
Example quantity_mi : parse_k8s_quantity " 0.5 Mi" = Ok 524288%Z.
Proof. vm_compute. reflexivity. Qed.
Example quantity_plain : parse_k8s_quantity "100" = Ok 100%Z.
Proof. vm_compute. reflexivity. Qed.

(** ** DNS-1035 labels *)

Definition DNS1035_LABEL_MAX_LENGTH : nat := 63.

Definition lower_alpha : ascii → bool := in_range 97 122.
Definition is_dash (c : ascii) : bool := bool_decide (c = "-"%char).

(** [re.sub(r"[...]+", "-", s)]: every maximal run of [p] becomes one hyphen. *)
Fixpoint sub_runs (p : ascii → bool) (in_run : bool) (s : string) : string :=
  match s with
  | EmptyString => EmptyString
  | String c s' =>
      if p c then (if in_run then sub_runs p true s' else String "-" (sub_runs p true s'))
      else String c (sub_runs p false s')
  end.

Definition strip_dashes (s : string) : string := rstrip_by is_dash (lstrip_by is_dash s).

(** [c.isalpha()] *)
Definition is_alpha (c : ascii) : bool :=
  in_range 65 90 c || in_range 97 122 c || in_range 192 214 c || in_range 216 246 c || in_range 248 255 c
  || (code c =? 170)%N || (code c =? 181)%N || (code c =? 186)%N.

Definition starts_alpha (s : string) : bool :=
  match s with String c _ => is_alpha c | EmptyString => false end.

(** [sha256] is the hexadecimal SHA-256 digest of the UTF-8 text. *)
Definition to_dns1035_label (sha256 : string → string) (value prefix : string) : string :=
  let normalized := sub_runs (λ c, negb (lower_alnum_dash c)) false (lower (strip value)) in
  let normalized := strip_dashes (sub_runs is_dash false normalized) in
  let hash_suffix := str_take 8 (sha256 value) in
  let normalized :=
    if negb (truthy normalized) then prefix +:+ "-" +:+ hash_suffix
    else if negb (starts_alpha normalized) then prefix +:+ "-" +:+ normalized
    else normalized in
  let normalized :=
    if (DNS1035_LABEL_MAX_LENGTH <? len normalized)%nat then
      let max_base := (DNS1035_LABEL_MAX_LENGTH - len hash_suffix - 1)%nat in
      let base := rstrip_by is_dash (str_take max_base normalized) in
      let base := if negb (truthy base) || negb (starts_alpha base) then prefix else base in
      base +:+ "-" +:+ hash_suffix
    else normalized in
  strip_dashes normalized.

(** A label of the cluster: [[a-z]([-a-z0-9]*[a-z0-9])?], at most 63 characters. *)
Definition dns1035_label (s : string) : Prop :=
  char_ok lower_alpha (first_char s) = true ∧ char_ok lower_alnum (last_char s) = true ∧
  string_forallb lower_alnum_dash s = true ∧ (len s ≤ 63)%nat.

Lemma sub_runs_chars p q b s :
  (∀ c, p c = false → q c = true) → q "-"%char = true → string_forallb q (sub_runs p b s) = true.
Proof.
  intros Hp Hd. revert b. induction s as [|c s IH]; intros b; cbn; [done|]. destruct (p c) eqn:Hc.
  - destruct b; [apply IH|]. cbn. by rewrite Hd, IH.
  - cbn. by rewrite (Hp c Hc), IH.
Qed.

Lemma sub_dash_chars q b s :
  string_forallb q s = true → q "-"%char = true → string_forallb q (sub_runs is_dash b s) = true.
Proof.
  revert b. induction s as [|c s IH]; intros b; cbn; [done|]. rewrite andb_true_iff. intros [Hc Hs] Hd.
  destruct (is_dash c); [destruct b; cbn; rewrite ?Hd; by apply IH|]. cbn. rewrite Hc. by apply IH.
Qed.

Lemma lstrip_forallb q p s : string_forallb q s = true → string_forallb q (lstrip_by p s) = true.
Proof.
  induction s as [|c s IH]; cbn; [done|]. rewrite andb_true_iff. intros [Hc Hs].
  destruct (p c); [auto|]. cbn. by rewrite Hc, Hs.
Qed.

Lemma rstrip_forallb q p s : string_forallb q s = true → string_forallb q (rstrip_by p s) = true.
Proof.
  induction s as [|c s IH]; cbn; [done|]. rewrite andb_true_iff. intros [Hc Hs]. specialize (IH Hs).
  destruct (rstrip_by p s); [destruct (p c); cbn; by rewrite ?Hc|]. cbn in *. by rewrite Hc, IH.
Qed.

Lemma rstrip_last p s c : last_char (rstrip_by p s) = Some c → p c = false.
Proof.
  induction s as [|d s IH]; cbn; [done|]. destruct (rstrip_by p s) as [|e t] eqn:Hr.
  - destruct (p d) eqn:Hd; cbn; [done|]. by intros [= <-].
  - intros H. apply IH. done.
Qed.

Lemma rstrip_first p s : truthy (rstrip_by p s) = true → first_char (rstrip_by p s) = first_char s.
Proof. destruct s as [|c s]; cbn; [done|]. by destruct (rstrip_by p s), (p c). Qed.

Lemma lstrip_first p s c : first_char (lstrip_by p s) = Some c → p c = false.
Proof. induction s as [|d s IH]; cbn; [done|]. destruct (p d) eqn:Hd; [done|]. by intros [= <-]. Qed.

Lemma rstrip_len p s : (len (rstrip_by p s) ≤ len s)%nat.
Proof. induction s as [|c s IH]; cbn; [lia|]. destruct (rstrip_by p s), (p c); cbn in *; lia. Qed.
Lemma lstrip_len p s : (len (lstrip_by p s) ≤ len s)%nat.
Proof. induction s as [|c s IH]; cbn; [lia|]. destruct (p c); cbn; lia. Qed.

(** A text whose first character is a lower case letter and whose last one is a
    letter or digit; [lower_alnum_dash] throughout. *)
Record label_text_ok (s : string) : Prop := {
  lt_first : char_ok lower_alpha (first_char s) = true;
  lt_last : char_ok lower_alnum (last_char s) = true;
  lt_chars : string_forallb lower_alnum_dash s = true }.

Lemma last_char_app s t : truthy t = true → last_char (s +:+ t) = last_char t.
Proof.
  intros Ht. induction s as [|c s IH]; [done|]. rewrite str_app_cons. cbn [last_char]. rewrite <-IH.
  destruct (s +:+ t) eqn:E; [|done]. destruct s; cbn in E; [by subst|done].
Qed.

Lemma first_char_app s t : truthy s = true → first_char (s +:+ t) = first_char s.
Proof. by destruct s. Qed.

Lemma last_char_in q s : truthy s = true → string_forallb q s = true → char_ok q (last_char s) = true.
Proof.
  induction s as [|c s IH]; [done|]. intros _ H. cbn in H. apply andb_true_iff in H as [Hc Hs].
  destruct s as [|d s]; [done|]. by apply IH.
Qed.

Lemma label_text_app s t :
  char_ok lower_alpha (first_char s) = true → string_forallb lower_alnum_dash s = true →
  char_ok lower_alnum (last_char t) = true → string_forallb lower_alnum_dash t = true → label_text_ok (s +:+ t).
Proof.
  intros Hf Hs Hl Ht. assert (truthy s = true ∧ truthy t = true) as [Hts Htt] by (destruct s, t; done). split.
  - by rewrite first_char_app.
  - by rewrite last_char_app.
  - by rewrite string_forallb_app, Hs, Ht.
Qed.

Lemma not_dash_alnum c : lower_alnum_dash c = true → is_dash c = false → lower_alnum c = true.
Proof. unfold lower_alnum_dash, is_dash. by destruct (lower_alnum c), (bool_decide _). Qed.

Lemma alnum_not_dash c : lower_alnum c = true → is_dash c = false.
Proof. destruct c as [[] [] [] [] [] [] [] []]; vm_compute; congruence. Qed.

Lemma alpha_lower c : lower_alnum_dash c = true → is_alpha c = lower_alpha c.
Proof. destruct c as [[] [] [] [] [] [] [] []]; vm_compute; congruence. Qed.

Lemma lower_alpha_alnum c : lower_alpha c = true → lower_alnum c = true.
Proof. intros H. unfold lower_alnum, lower_alpha in *. by rewrite H. Qed.

(** What is left of the identifier between hyphens. *)
Lemma strip_dashes_text s :
  string_forallb lower_alnum_dash s = true → truthy (strip_dashes s) = true →
  char_ok lower_alnum (first_char (strip_dashes s)) = true ∧
  char_ok lower_alnum (last_char (strip_dashes s)) = true ∧
  string_forallb lower_alnum_dash (strip_dashes s) = true.
Proof.
  intros Hs Ht. assert (string_forallb lower_alnum_dash (strip_dashes s) = true) as Hc
    by (by apply rstrip_forallb, lstrip_forallb). split_and!; [| |done].
  - destruct (first_char (strip_dashes s)) as [c|] eqn:Hf; [|by destruct (strip_dashes s)].
    apply not_dash_alnum.
    + destruct (strip_dashes s); [done|]. cbn in *. injection Hf as ->. by apply andb_true_iff in Hc as [? _].
    + unfold strip_dashes in *. rewrite rstrip_first in Hf by done. by apply lstrip_first in Hf.
  - pose proof (last_char_in _ _ Ht Hc) as Hl.
    destruct (last_char (strip_dashes s)) as [c|] eqn:Hf; [|done]. cbn in *.
    apply not_dash_alnum; [done|]. by apply rstrip_last in Hf.
Qed.

Lemma rstrip_id p s : (∀ c, last_char s = Some c → p c = false) → rstrip_by p s = s.
Proof.
  induction s as [|c s IH]; cbn [rstrip_by]; [done|]. intros H. destruct s as [|d s].
  - cbn. by rewrite (H c).
  - rewrite IH by (intros e He; by apply H). done.
Qed.

Lemma strip_dashes_id s : label_text_ok s → strip_dashes s = s.
Proof.
  intros [Hf Hl _]. unfold strip_dashes.
  assert (lstrip_by is_dash s = s) as ->.
  { destruct s as [|c s]; [done|]. cbn in *. by rewrite alnum_not_dash by (by apply lower_alpha_alnum). }
  apply rstrip_id. intros c Hc. rewrite Hc in Hl. by apply alnum_not_dash.
Qed.

Lemma str_take_chars q n s : string_forallb q s = true → string_forallb q (str_take n s) = true.
Proof.
  revert s. induction n as [|n IH]; intros [|c s]; cbn; try done.
  rewrite andb_true_iff. intros [Hc Hs]. by rewrite Hc, IH.
Qed.

Lemma len_str_take n s : len (str_take n s) = Nat.min n (len s).
Proof. revert s. induction n as [|n IH]; intros [|c s]; cbn; try done. by rewrite IH. Qed.

Section label.
Context (sha256 : string → string).
Hypothesis sha256_hex : ∀ v, len (sha256 v) = 64 ∧ string_forallb lower_alnum (sha256 v) = true.

Lemma forallb_impl p q s : (∀ c, p c = true → q c = true) → string_forallb p s = true → string_forallb q s = true.
Proof. intros H. induction s as [|c s IH]; cbn; [done|]. rewrite !andb_true_iff. intros [??]. auto. Qed.

Lemma hash_suffix_ok v :
  len (str_take 8 (sha256 v)) = 8 ∧ char_ok lower_alnum (last_char (str_take 8 (sha256 v))) = true ∧
  string_forallb lower_alnum_dash (str_take 8 (sha256 v)) = true.
Proof.
  destruct (sha256_hex v) as [Hl Hc]. assert (len (str_take 8 (sha256 v)) = 8) as Hn by (rewrite len_str_take, Hl; done).
  pose proof (str_take_chars lower_alnum 8 _ Hc) as Ht. split_and!; [done| |].
  - apply last_char_in; [|done]. by destruct (str_take 8 (sha256 v)).
  - eapply forallb_impl; [|exact Ht]. intros c H. unfold lower_alnum_dash. by rewrite H.
Qed.

(** The text before it is cut to length. *)
Lemma normalized_ok n0 hash :
  (truthy n0 = true → char_ok lower_alnum (first_char n0) = true ∧ char_ok lower_alnum (last_char n0) = true ∧
     string_forallb lower_alnum_dash n0 = true) →
  char_ok lower_alnum (last_char hash) = true → string_forallb lower_alnum_dash hash = true →
  label_text_ok (if negb (truthy n0) then "sandbox" +:+ "-" +:+ hash
                 else if negb (starts_alpha n0) then "sandbox" +:+ "-" +:+ n0 else n0).
Proof.
  intros Hn Hl Hc. destruct (truthy n0) eqn:Ht; cbn [negb].
  - destruct (Hn eq_refl) as (H1&H2&H3). destruct (starts_alpha n0) eqn:Ha; cbn [negb].
    + split; [|done|done]. destruct n0 as [|c n0]; [done|]. cbn in *. apply andb_true_iff in H3 as [Hd _].
      by rewrite <-alpha_lower.
    + rewrite <-str_app_assoc. by apply label_text_app.
  - rewrite <-str_app_assoc. by apply label_text_app.
Qed.

(** Every sandbox identifier becomes a name that the cluster accepts as a
    DNS-1035 label. *)
Theorem dns1035_label_valid value : dns1035_label (to_dns1035_label sha256 value "sandbox").
Proof.
  unfold to_dns1035_label. cbv zeta.
  set (n0 := strip_dashes (sub_runs is_dash false _)). destruct (hash_suffix_ok value) as (Hhn&Hhl&Hhc).
  set (hash := str_take 8 (sha256 value)) in *.
  assert (label_text_ok (if negb (truthy n0) then "sandbox" +:+ "-" +:+ hash
            else if negb (starts_alpha n0) then "sandbox" +:+ "-" +:+ n0 else n0)) as Hn1.
  { apply normalized_ok; [|done|done]. intros Ht. apply strip_dashes_text; [|done].
    apply sub_dash_chars; [|done]. apply sub_runs_chars; [|done]. intros c. by destruct (lower_alnum_dash c). }
  set (n1 := if negb (truthy n0) then _ else _) in *. clearbody n1 hash.
  destruct (DNS1035_LABEL_MAX_LENGTH <? len n1)%nat eqn:Hlen.
  - rewrite Hhn. change (DNS1035_LABEL_MAX_LENGTH - 8 - 1)%nat with 54.
    destruct Hn1 as [Hf _ Hc]. set (base := rstrip_by is_dash (str_take 54 n1)).
    assert (first_char base = first_char n1 ∧ string_forallb lower_alnum_dash base = true ∧ (len base ≤ 54)%nat) as (Hb1&Hb2&Hb3).
    { split_and!.
      - destruct n1 as [|c n1]; [done|]. subst base. cbn in Hf.
        change (str_take 54 (String c n1)) with (String c (str_take 53 n1)). generalize (str_take 53 n1). intros t.
        cbn [rstrip_by]. rewrite alnum_not_dash by (by apply lower_alpha_alnum). by destruct (rstrip_by is_dash t).
      - by apply rstrip_forallb, str_take_chars.
      - pose proof (rstrip_len is_dash (str_take 54 n1)). rewrite len_str_take in *. subst base. lia. }
    assert (negb (truthy base) || negb (starts_alpha base) = false) as ->.
    { destruct base as [|c base]; [by rewrite <-Hb1 in Hf|]. cbn in *. rewrite <-Hb1 in Hf. cbn in Hf.
      apply andb_true_iff in Hb2 as [Hd _]. by rewrite alpha_lower, Hf. }
    assert (label_text_ok (base +:+ "-" +:+ hash)) as Hok.
    { apply label_text_app; [by rewrite Hb1|done| |cbn; by rewrite Hhc].
      change (last_char ("-" +:+ hash)) with (last_char (String "-" hash)). destruct hash; [done|]. done. }
    rewrite strip_dashes_id by done. destruct Hok. split_and!; [done..|]. rewrite !len_app, Hhn. change (len "-") with 1. clearbody base. lia.
  - rewrite strip_dashes_id by done. destruct Hn1. split_and!; [done..|].
    apply Nat.ltb_ge in Hlen. done.
Qed.
End label.

Lemma dns1035_label_valid_witness :
  let sha v := join EmptyString (repeat "0" 64) in dns1035_label (to_dns1035_label sha "7F_x" "sandbox").
Proof. intros sha. apply (dns1035_label_valid sha). intros v. by vm_compute. Defined.

(** * Image pull secrets ([server/src/services/k8s/image_pull_secret_helper.py])

    The secret that lets the cluster pull a private image, with the text encodings
    it uses ([str.encode], [base64.b64encode], [json.dumps]). *)

(** ** [str.encode()] and [base64.b64encode] *)

Fixpoint utf8_encode (s : string) : list N :=
  match s with
  | EmptyString => []
  | String c s' =>
      (if (code c <? 128)%N then [code c] else [192 + code c / 64; 128 + code c mod 64]%N) ++ utf8_encode s'
  end.

(** The alphabet: [A-Z], [a-z], [0-9], [+], [/]. *)
Definition b64_char (n : N) : ascii :=
  chr (if n <? 26 then n + 65 else if n <? 52 then n + 71 else if n <? 62 then n - 4
       else if n =? 62 then 43 else 47)%N.

Fixpoint b64encode (l : list N) : string :=
  match l with
  | a :: b :: c :: l' =>
      String (b64_char (a / 4)) (String (b64_char (a mod 4 * 16 + b / 16))
        (String (b64_char (b mod 16 * 4 + c / 64)) (String (b64_char (c mod 64)) (b64encode l'))))
  | [a; b] =>
      String (b64_char (a / 4)) (String (b64_char (a mod 4 * 16 + b / 16)) (String (b64_char (b mod 16 * 4)) "="))
  | [a] => String (b64_char (a / 4)) (String (b64_char (a mod 4 * 16)) "==")
  | [] => EmptyString
  end.

(** ** The secret *)

Definition IMAGE_AUTH_SECRET_PREFIX : string := "opensandbox-image-auth".

Definition build_image_pull_secret_name (sandbox_id : string) : string :=
  IMAGE_AUTH_SECRET_PREFIX +:+ "-" +:+ sandbox_id.

Record V1OwnerReference := {
  owner_api_version : string; owner_kind : string; owner_name : string; owner_uid : pyval; owner_controller : bool }.

Record V1Secret := {
  sec_api_version : string;
  sec_kind : string;
  sec_name : string;
  sec_owners : list V1OwnerReference;
  sec_type : string;
  sec_data : dict string }.

(** The registry of an image: the first component, if it looks like a host name. *)
Definition image_registry (image_uri : string) : string :=
  match split_on "/" image_uri with
  | first :: _ :: _ => if has_char "." first || has_char ":" first then first else "https://index.docker.io/v1/"
  | _ => "https://index.docker.io/v1/"
  end.

Definition image_auth_text (a : ImageAuth) : string := b64encode (utf8_encode (username a +:+ ":" +:+ password a)).

Definition docker_config (registry : string) (a : ImageAuth) : pyval :=
  PDict [("auths", PDict [(registry, PDict [("username", PStr (username a)); ("password", PStr (password a));
                                            ("auth", PStr (image_auth_text a))])])].

Definition build_image_pull_secret (sandbox_id image_uri : string) (a : ImageAuth) (uid : pyval)
    (api_version kind : string) : V1Secret := {|
  sec_api_version := "v1"; sec_kind := "Secret"; sec_name := build_image_pull_secret_name sandbox_id;
  sec_owners := [{| owner_api_version := api_version; owner_kind := kind; owner_name := sandbox_id;
                    owner_uid := uid; owner_controller := false |}];
  sec_type := "kubernetes.io/dockerconfigjson";
  sec_data := [(".dockerconfigjson", b64encode (utf8_encode (dumps (docker_config (image_registry image_uri) a))))] |}.

Example b64_ex : b64encode (utf8_encode "user:pass") = "dXNlcjpwYXNz".
Proof. reflexivity. Qed.
Example b64_pad : b64encode (utf8_encode "ab") = "YWI=".
Proof. reflexivity. Qed.

(** ** Decoding *)

Definition b64_val (c : ascii) : option N :=
  let n := code c in
  (if in_range 65 90 c then Some (n - 65) else if in_range 97 122 c then Some (n - 71)
   else if in_range 48 57 c then Some (n + 4) else if n =? 43 then Some 62 else if n =? 47 then Some 63 else None)%N.

Fixpoint b64decode (s : string) : option (list N) :=
  match s with
  | EmptyString => Some []
  | String a (String b (String c (String d s'))) =>
      x ← b64_val a; y ← b64_val b;
      if bool_decide (c = "="%char) then
        if bool_decide (d = "="%char) && negb (truthy s') then Some [x * 4 + y / 16]%N else None
      else
        z ← b64_val c;
        if bool_decide (d = "="%char) then
          if negb (truthy s') then Some [x * 4 + y / 16; y mod 16 * 16 + z / 4]%N else None
        else
          w ← b64_val d;
          rest ← b64decode s';
          Some ([x * 4 + y / 16; y mod 16 * 16 + z / 4; z mod 4 * 64 + w]%N ++ rest)
  | _ => None
  end.

Fixpoint utf8_decode (l : list N) : option string :=
  match l with
  | [] => Some EmptyString
  | a :: l' =>
      if (a <? 128)%N then s ← utf8_decode l'; Some (String (chr a) s)
      else match l' with
           | b :: l'' =>
               if ((194 <=? a) && (a <=? 195) && (128 <=? b) && (b <? 192))%N
               then s ← utf8_decode l''; Some (String (chr ((a - 192) * 64 + (b - 128))) s) else None
           | [] => None
           end
  end.

Lemma b64_val_char n : (n < 64)%N → b64_val (b64_char n) = Some n ∧ b64_char n ≠ "="%char.
Proof.
  intros Hn. assert (n ∈ (N.of_nat <$> seq 0 64)) as Hin.
  { apply list_elem_of_fmap. exists (N.to_nat n). split; [lia|]. apply elem_of_seq. lia. }
  revert n Hin Hn. apply (Forall_forall (λ n, (n < 64)%N → b64_val (b64_char n) = Some n ∧ b64_char n ≠ "="%char)).
  repeat (constructor; [by vm_compute|]). constructor.
Qed.

(** Arithmetic with quotients and remainders by constants. *)
Ltac div_lia := zify; Z.to_euclidean_division_equations; lia.

Ltac b64_chars :=
  repeat match goal with
  | |- context [b64_val (b64_char ?n)] => rewrite (proj1 (b64_val_char n ltac:(div_lia)))
  | |- context [bool_decide (b64_char ?n = _)] =>
      rewrite (bool_decide_eq_false_2 (b64_char n = _)) by (apply b64_val_char; div_lia)
  end.

Lemma sextet_a a b : (b < 256)%N → (a / 4 * 4 + (a mod 4 * 16 + b / 16) / 16 = a)%N.
Proof. intros. div_lia. Qed.
Lemma sextet_b a b c :
  (b < 256)%N → (c < 256)%N → ((a mod 4 * 16 + b / 16) mod 16 * 16 + (b mod 16 * 4 + c / 64) / 4 = b)%N.
Proof. intros. div_lia. Qed.
Lemma sextet_c b c : (c < 256)%N → ((b mod 16 * 4 + c / 64) mod 4 * 64 + c mod 64 = c)%N.
Proof. intros. div_lia. Qed.
Lemma sextet_a1 a : (a / 4 * 4 + a mod 4 * 16 / 16 = a)%N.
Proof. div_lia. Qed.
Lemma sextet_b2 a b : (b < 256)%N → ((a mod 4 * 16 + b / 16) mod 16 * 16 + b mod 16 * 4 / 4 = b)%N.
Proof. intros. div_lia. Qed.

Lemma b64decode_encode l : Forall (λ n, (n < 256)%N) l → b64decode (b64encode l) = Some l.
Proof.
  induction l as [l IH] using (induction_ltof1 _ length). unfold ltof in IH.
  intros Hl. destruct l as [|a [|b [|c l]]]; [done|..]; repeat (apply Forall_cons in Hl as [? Hl]);
    cbn [b64encode b64decode]; b64_chars; rewrite ?IH by (cbn; lia || done);
    cbn -[N.div N.modulo N.mul N.add]; rewrite ?sextet_a, ?sextet_b, ?sextet_c, ?sextet_a1, ?sextet_b2 by done; done.
Qed.

Lemma code_lt c : (code c < 256)%N.
Proof. apply N_ascii_bounded. Qed.

Lemma utf8_encode_bytes s : Forall (λ n, (n < 256)%N) (utf8_encode s).
Proof.
  induction s as [|c s IH]; cbn [utf8_encode]; [done|]. apply Forall_app. split; [|done]. pose proof (code_lt c).
  destruct (code c <? 128)%N; repeat constructor; try done; div_lia.
Qed.

Lemma utf8_decode_encode s : utf8_decode (utf8_encode s) = Some s.
Proof.
  induction s as [|c s IH]; [done|]. cbn [utf8_encode]. pose proof (code_lt c) as Hc.
  destruct (code c <? 128)%N eqn:H; cbn [app utf8_decode].
  - by rewrite H, IH, chr_code.
  - apply N.ltb_ge in H.
    rewrite (proj2 (N.ltb_ge (192 + code c / 64) 128)) by (div_lia).
    replace ((194 <=? 192 + code c / 64) && (192 + code c / 64 <=? 195) && (128 <=? 128 + code c mod 64)
             && (128 + code c mod 64 <? 192))%N with true.
    + rewrite IH. cbn -[N.div N.modulo N.mul N.sub N.add]. do 2 f_equal. rewrite <-(chr_code c) at 3. f_equal.
      div_lia.
    + symmetry. rewrite !andb_true_iff, !N.leb_le, N.ltb_lt. split_and!; div_lia.
Qed.

(** What the cluster reads from the secret. *)
Lemma pull_secret_readable sandbox_id image_uri a uid api kind :
  let secret := build_image_pull_secret sandbox_id image_uri a uid api kind in
  (t ← dget ".dockerconfigjson" (sec_data secret); l ← b64decode t; utf8_decode l) =
    Some (dumps (docker_config (image_registry image_uri) a)) ∧
  (l ← b64decode (image_auth_text a); utf8_decode l) = Some (username a +:+ ":" +:+ password a).
Proof.
  intros secret. assert (∀ t, (l ← b64decode (b64encode (utf8_encode t)); utf8_decode l) = Some t) as Ht.
  { intros t. rewrite b64decode_encode by apply utf8_encode_bytes. apply utf8_decode_encode. }
  split; apply Ht.
Qed.
