(* ===== verification/K8sClient.v ===== *)
(** * The Kubernetes client ([server/src/services/k8s/client.py])

    [K8sClient] wraps the generated API classes with rate limiters and a pool of
    informers.  The API server, the clock, the threads and the random source are
    outside: the class [K8sEnv] lists the calls over an abstract state [E]; a call may
    raise anything.  While a thread sleeps, the other threads of the process and the
    cluster go on: [others] is what they do. *)

From Stdlib Require Import Ascii QArith.
From S2P Require Import Prelude PyString PyDict PyTime Json PyVal Schema Config.
From S2P Require Import RateLimiter Informer K8sHelpers.
Close Scope Q_scope.
Open Scope string_scope.
Open Scope list_scope.

(** ** State *)

(** A custom resource, and the key of its informer: with the namespace. *)
Record Resource := { r_group : string; r_version : string; r_plural : string }.
Definition InformerKey : Type := (string * string * string) * string.
Definition informer_key (r : Resource) (namespace : string) : InformerKey :=
  ((r_group r, r_version r, r_plural r), namespace).

(** The fields of [K8sClient] that change. *)
Record KClient := {
  informers : gmap InformerKey Informer;
  read_limiter : option Limiter;
  write_limiter : option Limiter }.

Definition set_informers f (c : KClient) : KClient :=
  {| informers := f (informers c); read_limiter := read_limiter c; write_limiter := write_limiter c |}.
Definition set_read_limiter l (c : KClient) : KClient :=
  {| informers := informers c; read_limiter := Some l; write_limiter := write_limiter c |}.
Definition set_write_limiter l (c : KClient) : KClient :=
  {| informers := informers c; read_limiter := read_limiter c; write_limiter := Some l |}.

(** ** What the API returns *)

Record PodStatus := { pod_phase : option string; pod_ip : option string }.
Record Pod := { pod_name : string; pod_status : option PodStatus }.
Record PvcInfo := { pvc_requests : dict string; pvc_storage_class : option string }.
Record StorageClass := { allow_volume_expansion : option bool }.
(** [V1PersistentVolumeClaim] as [create_pvc] builds it. *)
Record PvcBody := {
  pvc_name : string; pvc_labels : option (dict string); access_modes : list string; storage_request : string }.

(** The arguments of [read_namespaced_pod_log] and of an exec stream. *)
Record LogQuery := {
  log_pod : string; log_container : string; log_tail : option Z; log_follow : bool; log_preload : bool }.
Record ExecQuery := {
  exec_pod : string; exec_container : string; exec_command : list string;
  exec_stdin : bool; exec_tty : bool; exec_preload : bool }.

Class K8sEnv (E : Type) := {
  (* time, randomness, threads *)
  k_clock : E → Z * E;
  k_monotonic : E → Q * E;
  k_uuid4 : E → string * E;
  k_token_urlsafe : E → string * E;
  start_thread : M E unit;
  others : Q → KClient → E → KClient * E;
  (* custom objects *)
  api_create : Resource → string → pyval → M E pyval;
  api_get : Resource → string → string → M E pyval;
  api_list : Resource → string → string → M E pyval;
  api_delete : Resource → string → string → Z → M E unit;
  api_patch : Resource → string → string → pyval → M E pyval;
  (* secrets, pods, claims, classes *)
  api_create_secret : string → V1Secret → M E unit;
  api_list_pods : string → string → M E (list Pod);
  api_read_runtime_class : string → M E unit;
  api_create_pvc : string → PvcBody → M E unit;
  api_delete_pvc : string → string → M E unit;
  api_patch_pvc : string → string → pyval → M E unit;
  api_read_pvc : string → string → M E PvcInfo;
  api_read_storage_class : string → M E StorageClass;
  (* logs, exec *)
  api_read_log : string → LogQuery → M E string;
  api_exec : string → ExecQuery → M E string }.

Record KWorld (E : Type) := { kcl : KClient; kenv : E }.
Arguments kcl {E} k.
Arguments kenv {E} k.
Arguments Build_KWorld {E} kcl kenv.

Definition MK (E A : Type) : Type := M (KWorld E) A.

(** [e.status == n] of an [ApiException] *)
Definition is_api_status (n : Z) (e : exn) : bool :=
  match e with PyException (ApiException s) _ => (s =? n)%Z | _ => false end.

Section calls.
Context {E : Type} `{K8sEnv E}.

Definition kcall {A} (m : M E A) : MK E A := λ w, let '(r, e) := m (kenv w) in (r, Build_KWorld (kcl w) e).
Definition kquery {A} (m : E → A * E) : MK E A := λ w, let '(a, e) := m (kenv w) in (Ok a, Build_KWorld (kcl w) e).
Definition get_kcl {A} (f : KClient → A) : MK E A := λ w, (Ok (f (kcl w)), w).
Definition put_kcl (f : KClient → KClient) : MK E unit := λ w, (Ok tt, Build_KWorld (f (kcl w)) (kenv w)).

(** [datetime.now(timezone.utc)] *)
Definition know : MK E datetime := us ← kquery k_clock; mret (utc us).

Definition sleep_world (d : Q) (w : KWorld E) : KWorld E :=
  let '(c, e) := others d (kcl w) (kenv w) in Build_KWorld c e.
(** [time.sleep(d)] *)
Definition time_sleep (d : Q) : MK E unit := λ w, (Ok tt, sleep_world d w).

Definition world_monotonic (w : KWorld E) : Q * KWorld E :=
  let '(t, e) := k_monotonic (kenv w) in (t, Build_KWorld (kcl w) e).

(** ** Rate limiters *)

Definition acquire_fuel : nat := 1000.

(** [limiter.acquire()]; a call that is still waiting after [acquire_fuel] rounds
    is a [RuntimeError] here. *)
Definition acquire (limiter : KWorld E → Limiter) (put : Limiter → KClient → KClient) : MK E unit := λ w,
  match acquire_loop limiter (λ l w, Build_KWorld (put l (kcl w)) (kenv w)) world_monotonic sleep_world acquire_fuel w with
  | Some w' => (Ok tt, w')
  | None => (Raise (PyException RuntimeError "still waiting for a token"), w)
  end.

(** [if self._read_limiter: self._read_limiter.acquire()] *)
Definition throttle_read : MK E unit := λ w,
  match read_limiter (kcl w) with
  | Some l => acquire (λ w, default l (read_limiter (kcl w))) set_read_limiter w
  | None => (Ok tt, w)
  end.
Definition throttle_write : MK E unit := λ w,
  match write_limiter (kcl w) with
  | Some l => acquire (λ w, default l (write_limiter (kcl w))) set_write_limiter w
  | None => (Ok tt, w)
  end.

(** ** Informers *)

Context (cfg : KubernetesRuntimeConfig).

(** [_get_informer] *)
Definition get_informer (r : Resource) (namespace : string) : MK E (option InformerKey) :=
  if negb (informer_enabled cfg) then mret None else
  let key := informer_key r namespace in
  found ← get_kcl (λ c, informers c !! key);
  match found with
  | Some _ => mret (Some key)
  | None =>
      put_kcl (set_informers <[key := new_informer true]>);;
      try_except (kcall start_thread;; mret (Some key))
        (λ _, put_kcl (set_informers (delete key));; mret None)
  end.

(** [informer.update_cache(obj)] of the informer at [key]. *)
Definition informer_update (key : InformerKey) (obj : pyval) : MK E unit := λ w,
  match informers (kcl w) !! key with
  | Some i =>
      let '(r, i') := update_cache obj i in
      (r, Build_KWorld (set_informers <[key := i']> (kcl w)) (kenv w))
  | None => (Ok tt, w)
  end.

(** The cached object, if the informer has synced. *)
Definition cached_object (key : option InformerKey) (name : string) : MK E (option pyval) :=
  match key with
  | Some k => get_kcl (λ c, i ← informers c !! k; if inf_synced i then cache_get name i else None)
  | None => mret None
  end.

(** ** Custom objects *)

Definition create_custom_object (r : Resource) (namespace : string) (body : pyval) : MK E pyval :=
  throttle_write;; kcall (api_create r namespace body).

(** [PNone] on 404. *)
Definition get_custom_object (r : Resource) (namespace name : string) : MK E pyval :=
  informer ← get_informer r namespace;
  cached ← cached_object informer name;
  match cached with
  | Some obj => mret obj
  | None =>
      throttle_read;;
      catch (is_api_status 404)
        (obj ← kcall (api_get r namespace name);
         match informer with Some key => informer_update key obj | None => mret tt end;;
         mret obj)
        (λ _, mret PNone)
  end.

Definition list_custom_objects (r : Resource) (namespace label_selector : string) : MK E pyval :=
  throttle_read;;
  catch (is_api_status 404)
    (resp ← kcall (api_list r namespace label_selector); lift (get_or resp "items" (PList [])))
    (λ _, mret (PList [])).

Definition delete_custom_object (r : Resource) (namespace name : string) (grace : Z) : MK E unit :=
  throttle_write;; kcall (api_delete r namespace name grace).

Definition patch_custom_object (r : Resource) (namespace name : string) (body : pyval) : MK E pyval :=
  throttle_write;; kcall (api_patch r namespace name body).

(** ** Secrets, pods, runtime classes, claims *)

Definition create_secret (namespace : string) (body : V1Secret) : MK E unit :=
  throttle_write;; kcall (api_create_secret namespace body).

Definition list_pods (namespace label_selector : string) : MK E (list Pod) :=
  throttle_read;; kcall (api_list_pods namespace label_selector).

Definition read_runtime_class (name : string) : MK E unit :=
  throttle_read;; kcall (api_read_runtime_class name).

Definition create_pvc (namespace name storage_size : string) (labels : option (dict string)) : MK E unit :=
  throttle_write;;
  kcall (api_create_pvc namespace {| pvc_name := name; pvc_labels := labels; access_modes := ["ReadWriteOnce"];
                                     storage_request := storage_size |}).

Definition delete_pvc (namespace name : string) : MK E unit :=
  throttle_write;;
  catch (is_api_status 404) (kcall (api_delete_pvc namespace name)) (λ _, mret tt).

Definition patch_pvc (namespace name : string) (body : pyval) : MK E unit :=
  throttle_write;; kcall (api_patch_pvc namespace name body).

Definition get_storage_class (name : string) : MK E (option StorageClass) :=
  throttle_read;;
  catch (is_api_status 404) (c ← kcall (api_read_storage_class name); mret (Some c)) (λ _, mret None).

Definition get_pvc (namespace name : string) : MK E (option PvcInfo) :=
  throttle_read;;
  catch (is_api_status 404) (p ← kcall (api_read_pvc namespace name); mret (Some p)) (λ _, mret None).

(** ** Logs, exec, pods of a sandbox *)

Definition read_pod_log (namespace pod_name container : string) (tail_lines : option Z) (follow : bool) : MK E string :=
  throttle_read;;
  kcall (api_read_log namespace {| log_pod := pod_name; log_container := container; log_tail := tail_lines;
                                   log_follow := follow; log_preload := negb follow |}).

Definition exec_interactive (namespace pod_name container : string) (command : option (list string)) : MK E string :=
  throttle_read;;
  kcall (api_exec namespace {| exec_pod := pod_name; exec_container := container;
                               exec_command := default ["/bin/bash"] command;
                               exec_stdin := true; exec_tty := true; exec_preload := false |}).

Definition pod_running (p : Pod) : bool :=
  match pod_status p with Some s => bool_decide (pod_phase s = Some "Running") | None => false end.

Definition get_pod_name_for_sandbox (namespace sandbox_id : string) : MK E (option string) :=
  pods ← list_pods namespace ("opensandbox.io/id=" +:+ sandbox_id);
  mret (pod_name <$> List.find pod_running pods).

Definition get_pod_ip_for_sandbox (namespace sandbox_id : string) : MK E (option string) :=
  pods ← list_pods namespace ("opensandbox.io/id=" +:+ sandbox_id);
  mret (List.find (λ p, pod_running p && truthy_opt (pod_status p ≫= pod_ip)) pods ≫= λ p, pod_status p ≫= pod_ip).

Definition exec_in_pod (namespace pod_name : string) (command : list string) (container : string) : MK E string :=
  kcall (api_exec namespace {| exec_pod := pod_name; exec_container := container; exec_command := command;
                               exec_stdin := false; exec_tty := false; exec_preload := true |}).
End calls.

(** [__init__]: no informers, and a limiter for each positive rate. *)
Definition new_client (cfg : KubernetesRuntimeConfig) (now : Q) : result KClient :=
  let limiter qps burst :=
    if negb (Qle_bool qps 0) then l ← make_limiter now qps (inject_Z burst) EmptyString; Ok (Some l) else Ok None in
  r ← limiter (read_qps cfg) (read_burst cfg);
  w ← limiter (write_qps cfg) (write_burst cfg);
  Ok {| informers := ∅; read_limiter := r; write_limiter := w |}.
