(* ===== verification/WorkloadProvider.v ===== *)
(** * Workload providers: the interface and what the implementations share

    [server/src/services/k8s/workload_provider.py] is the interface between the
    Kubernetes service and the custom resource that stands for a sandbox.  The
    container objects and their conversion to dictionaries are the same in both
    implementations ([batchsandbox_provider.py], [agent_sandbox_provider.py]). *)

From Stdlib Require Import Ascii QArith.
From S2P Require Import Prelude PyString PyDict PyTime Json PyVal Schema Config Template PodSpec.
From S2P Require Import RateLimiter Informer K8sHelpers K8sClient.
Close Scope Q_scope.
Open Scope string_scope.
Open Scope list_scope.

(** ** The interface *)

(** The keyword arguments of [create_workload]. *)
Record CreateArgs := {
  ca_sandbox_id : string;
  ca_namespace : string;
  ca_image : ImageSpec;
  ca_entrypoint : list string;
  ca_env : dict (option string);
  ca_resource_limits : dict string;
  ca_labels : dict string;
  ca_expires_at : option datetime;
  ca_execd_image : string;
  ca_extensions : option (dict string);
  ca_network_policy : option NetworkPolicy;
  ca_egress_image : option string;
  ca_volumes : option (list Volume);
  ca_annotations : option (dict string);
  ca_egress_token : option string }.

(** The dictionary that [get_status] returns. *)
Record StatusInfo := {
  si_state : string;
  si_reason : pyval;
  si_message : pyval;
  si_last_transition : pyval }.

Record WorkloadProvider (E : Type) := {
  wp_create_workload : CreateArgs → MK E (pyval * pyval);
  wp_get_workload : string → string → MK E pyval;
  wp_delete_workload : string → string → MK E unit;
  wp_list_workloads : string → string → MK E pyval;
  wp_update_expiration : string → string → datetime → MK E unit;
  wp_get_expiration : pyval → result (option datetime);
  wp_get_status : pyval → MK E StatusInfo;
  wp_get_endpoint_info : pyval → Z → string → MK E (option Endpoint);
  wp_pause_workload : string → string → MK E unit;
  wp_resume_workload : string → string → MK E unit;
  wp_update_resource_limits : string → string → dict string → MK E unit;
  wp_update_env : string → string → dict (option string) → MK E unit;
  wp_supports_image_auth : bool;
  wp_touch_last_activity : string → string → datetime → MK E unit }.
Arguments wp_create_workload {E} w.
Arguments wp_get_workload {E} w.
Arguments wp_delete_workload {E} w.
Arguments wp_list_workloads {E} w.
Arguments wp_update_expiration {E} w.
Arguments wp_get_expiration {E} w.
Arguments wp_get_status {E} w.
Arguments wp_get_endpoint_info {E} w.
Arguments wp_pause_workload {E} w.
Arguments wp_resume_workload {E} w.
Arguments wp_update_resource_limits {E} w.
Arguments wp_update_env {E} w.
Arguments wp_supports_image_auth {E} w.
Arguments wp_touch_last_activity {E} w.

(** [legacy_resource_name] *)
Definition legacy_resource_name (sandbox_id : string) : string :=
  if startswith sandbox_id "sandbox-" then sandbox_id else "sandbox-" +:+ sandbox_id.

(** [raise Exception(msg)] *)
Definition plain_exception (msg : string) : exn := PyException RuntimeError msg.

(** ** Containers *)

Record V1ResourceRequirements := { rr_limits : option (dict string); rr_requests : option (dict string) }.
Record V1VolumeMount := { vm_name : string; vm_mount_path : string }.
Record V1Container := {
  co_name : string;
  co_image : string;
  co_command : list string;
  co_args : list string;
  co_env : list (string * option string);
  co_resources : option V1ResourceRequirements;
  co_volume_mounts : list V1VolumeMount;
  co_security_context : option V1SecurityContext }.

Definition of_opt_str (o : option string) : pyval := match o with Some s => PStr s | None => PNone end.

(** [result[key] = value] if [value] is true *)
Definition entry_if {A} (key : string) (l : list A) (v : pyval) : dict pyval :=
  match l with [] => [] | _ => [(key, v)] end.

Definition resources_dict (r : V1ResourceRequirements) : pyval :=
  PDict (entry_if "limits" (default [] (rr_limits r)) (of_str_dict (default [] (rr_limits r)))
         ++ entry_if "requests" (default [] (rr_requests r)) (of_str_dict (default [] (rr_requests r)))).

(** [_container_to_dict] *)
Definition container_to_dict (c : V1Container) : pyval :=
  PDict ([("name", PStr (co_name c)); ("image", PStr (co_image c))]
    ++ entry_if "command" (co_command c) (of_strings (co_command c))
    ++ entry_if "args" (co_args c) (of_strings (co_args c))
    ++ entry_if "env" (co_env c)
         (PList ((λ e, PDict [("name", PStr e.1); ("value", of_opt_str e.2)]) <$> co_env c))
    ++ match co_resources c with Some r => [("resources", resources_dict r)] | None => [] end
    ++ entry_if "volumeMounts" (co_volume_mounts c)
         (PList ((λ m, PDict [("name", PStr (vm_name m)); ("mountPath", PStr (vm_mount_path m))]) <$> co_volume_mounts c))
    ++ match serialize_security_context_to_dict (co_security_context c) with
       | Some d => [("securityContext", PDict d)]
       | None => []
       end).

Definition bin_mount : V1VolumeMount := {| vm_name := "opensandbox-bin"; vm_mount_path := "/opt/opensandbox/bin" |}.

Definition install_script : string :=
  "cp ./execd /opt/opensandbox/bin/execd && cp ./bootstrap.sh /opt/opensandbox/bin/bootstrap.sh && " +:+
  "chmod +x /opt/opensandbox/bin/execd && chmod +x /opt/opensandbox/bin/bootstrap.sh".

(** [_build_execd_init_container] *)
Definition build_execd_init_container (init_resources : option ExecdInitResources) (execd_image : string) : V1Container := {|
  co_name := "execd-installer"; co_image := execd_image; co_command := ["/bin/sh"; "-c"]; co_args := [install_script];
  co_env := []; co_volume_mounts := [bin_mount]; co_security_context := None;
  co_resources := (λ r, {| rr_limits := init_limits r; rr_requests := init_requests r |}) <$> init_resources |}.

Definition BOOTSTRAP_SH : string := "/opt/opensandbox/bin/bootstrap.sh".
Definition EXECD_ENV : string * option string := ("EXECD", Some "/opt/opensandbox/bin/execd").

(** [_build_main_container] *)
Definition build_main_container (image_spec : ImageSpec) (entrypoint : list string) (env : dict (option string))
    (resource_limits : dict string) (include_execd_volume has_network_policy : bool) : result V1Container :=
  security_context ← (if has_network_policy
                      then build_security_context_from_dict (build_security_context_for_sandbox_container true)
                      else Ok None);
  Ok {| co_name := "sandbox"; co_image := uri image_spec; co_command := BOOTSTRAP_SH :: entrypoint; co_args := [];
        co_env := env ++ [EXECD_ENV];
        co_resources := match resource_limits with
                        | [] => None
                        | l => Some {| rr_limits := Some l; rr_requests := Some l |}
                        end;
        co_volume_mounts := if include_execd_volume then [bin_mount] else [];
        co_security_context := security_context |}.

Definition bin_volume : pyval := PDict [("name", PStr "opensandbox-bin"); ("emptyDir", PDict [])].

(** ** Updates of the first container *)

(** [for key, value in limits.items(): cur[key] = value] *)
Definition update_strings (cur : dict pyval) (limits : dict string) : dict pyval :=
  dupdate cur (prod_map id PStr <$> limits).

(** [[{"name": k, "value": v or ""} ...]] with the EXECD variable *)
Definition env_list (env : dict (option string)) : pyval :=
  PList (((λ kv, env_entry kv.1 (or_else kv.2 EmptyString)) <$> env)
         ++ [env_entry "EXECD" "/opt/opensandbox/bin/execd"]).

(** The name and uid of a created object. *)
Definition created_info {St} (created : pyval) : M St (pyval * pyval) :=
  metadata ← lift (item created "metadata");
  name ← lift (item metadata "name");
  uid ← lift (item metadata "uid");
  mret (name, uid).

(** [metadata["name"]] of a workload, used in a URL. *)
Definition workload_name (workload : pyval) : result string :=
  metadata ← item workload "metadata";
  name ← item metadata "name";
  Ok (vstr name).

(** [datetime.fromisoformat(text.replace("Z", "+00:00"))] with its handlers *)
Fixpoint replace_z (s : string) : string :=
  match s with
  | EmptyString => EmptyString
  | String c s' => if bool_decide (c = "Z"%char) then "+00:00" +:+ replace_z s' else String c (replace_z s')
  end.

Definition parse_expiration (v : pyval) : result (option datetime) :=
  if negb (vtruthy v) then Ok None else
  match v with
  | PStr s => Ok (fromisoformat (replace_z s))
  | _ => Raise (attribute_error v "replace")
  end.
