(* ===== verification/BatchProvider.v ===== *)
(** * The BatchSandbox provider ([server/src/services/k8s/batchsandbox_provider.py]) *)

From Stdlib Require Import Ascii QArith.
From S2P Require Import Prelude PyString PyDict PyTime Json PyVal Schema Config Helpers Shlex Common.
From S2P Require Import Template PodSpec RateLimiter Informer K8sHelpers K8sClient WorkloadProvider.
Close Scope Q_scope.
Open Scope string_scope.
Open Scope list_scope.

(** The fields of [BatchSandboxProvider]. *)
Record BatchSandboxProvider := {
  bp_ingress : option IngressConfig;
  bp_init_resources : option ExecdInitResources;
  bp_runtime_class : option string;
  bp_templates : TemplateManager }.

Definition batch_resource : Resource :=
  {| r_group := "sandbox.opensandbox.io"; r_version := "v1alpha1"; r_plural := "batchsandboxes" |}.
Definition batch_api_version : string := "sandbox.opensandbox.io/v1alpha1".

(** ** Template extras *)

(** The container that carries the mounts: the one named [sandbox], or the first. *)
Fixpoint find_sandbox (l : list pyval) : result (option pyval) :=
  match l with
  | [] => Ok None
  | c :: l' =>
      name ← vget c "name";
      if eq_str name "sandbox" then Ok (Some c) else find_sandbox l'
  end.

Definition only_list (v : pyval) : list pyval := match v with PList l => l | _ => [] end.

(** [_extract_template_pod_extras] *)
Definition extract_template_pod_extras (m : TemplateManager) : result (list pyval * list pyval) :=
  let template := PDict (get_base_template m) in
  spec ← vget_dict template "spec";
  tmpl ← vget_dict spec "template";
  template_spec ← vget_dict tmpl "spec";
  volumes ← get_or template_spec "volumes" (PList []);
  let extra_volumes := val_or volumes (PList []) in
  conts ← get_or template_spec "containers" (PList []);
  let containers := val_or conts (PList []) in
  extra_mounts ←
    (if vtruthy containers then
       l ← iterate containers;
       found ← find_sandbox l;
       target ← match found with Some c => Ok c | None => item0 containers end;
       mounts ← get_or target "volumeMounts" (PList []);
       Ok (val_or mounts (PList []))
     else Ok (PList []));
  Ok (only_list extra_volumes, only_list extra_mounts).

(** Append the extras whose name is not in use yet. *)
Definition add_extra (acc : list pyval * list pyval) (v : pyval) : list pyval * list pyval :=
  match v with
  | PDict d =>
      let name := dget_default "name" PNone d in
      if negb (vtruthy name) || bool_decide (name ∈ acc.2) then acc else (acc.1 ++ [v], name :: acc.2)
  | _ => acc
  end.

Definition add_extras (l extras : list pyval) : list pyval := (fold_left add_extra extras (l, names_of l)).1.

(** [d[key] = val_or(d.get(key, []), [])] with the extras appended; a value that is
    not a list, or no extras, leaves the entry alone. *)
Definition merge_extras (key : string) (extras : list pyval) (d : dict pyval) : dict pyval :=
  match val_or (dget_default key (PList []) d) (PList []), extras with
  | PList l, _ :: _ => dset key (PList (add_extras l extras)) d
  | _, _ => d
  end.

(** The pod spec after the volumes and the mounts of the first container. *)
Definition merge_spec_extras (spec : dict pyval) (extra_volumes extra_mounts : list pyval) : result (dict pyval) :=
  let spec := merge_extras "volumes" extra_volumes spec in
  match val_or (dget_default "containers" (PList []) spec) (PList []) with
  | PList (PDict c :: rest) => Ok (dset "containers" (PList (PDict (merge_extras "volumeMounts" extra_mounts c) :: rest)) spec)
  | PList (c :: _) => Raise (attribute_error c "get")
  | _ => Ok spec
  end.

(** [_merge_pod_spec_extras]: the specification at [spec.template.spec]; without it
    (a [KeyError]) nothing changes. *)
Definition merge_pod_spec_extras (batchsandbox : dict pyval) (extra_volumes extra_mounts : list pyval)
    : result (dict pyval) :=
  match dget "spec" batchsandbox with
  | Some (PDict s) =>
      match dget "template" s with
      | Some (PDict t) =>
          match dget "spec" t with
          | Some (PDict p) =>
              p' ← merge_spec_extras p extra_volumes extra_mounts;
              Ok (dset "spec" (PDict (dset "template" (PDict (dset "spec" (PDict p') t)) s)) batchsandbox)
          | Some v => Raise (attribute_error v "get")
          | None => Ok batchsandbox
          end
      | Some v => _ ← item v "spec"; Ok batchsandbox
      | None => Ok batchsandbox
      end
  | Some v => _ ← item v "template"; Ok batchsandbox
  | None => Ok batchsandbox
  end.

(** ** Pool mode *)

(** [_build_task_template] *)
Definition user_process_cmd (entrypoint : list string) : string :=
  BOOTSTRAP_SH +:+ " " +:+ join " " (shlex_quote <$> entrypoint) +:+ " &".

Definition build_task_template (entrypoint : list string) (env : dict (option string)) : pyval :=
  PDict [("spec", PDict [("process", PDict [
    ("command", of_strings ["/bin/sh"; "-c"; user_process_cmd entrypoint]);
    ("env", PList ((λ kv, PDict [("name", PStr kv.1); ("value", of_opt_str kv.2)]) <$> env))])])].

Definition manifest_metadata (name namespace : string) (labels : dict string) : dict pyval :=
  [("name", PStr name); ("namespace", PStr namespace); ("labels", of_str_dict labels)].

Definition pool_manifest (a : CreateArgs) (pool_ref : string) : pyval :=
  PDict [("apiVersion", PStr batch_api_version); ("kind", PStr "BatchSandbox");
         ("metadata", PDict (manifest_metadata (ca_sandbox_id a) (ca_namespace a) (ca_labels a)));
         ("spec", PDict ([("replicas", PInt 1); ("poolRef", PStr pool_ref);
                          ("taskTemplate", build_task_template (ca_entrypoint a) (ca_env a))]
                         ++ match ca_expires_at a with Some t => [("expireTime", PStr (isoformat t))] | None => [] end))].

(** ** Template mode *)

Section batch.
Context {E : Type} `{K8sEnv E} (kcfg : KubernetesRuntimeConfig) (p : BatchSandboxProvider).

(** The pod specification before volumes. *)
Definition batch_base_spec (a : CreateArgs) : result (dict pyval) :=
  main_container ← build_main_container (ca_image a) (ca_entrypoint a) (ca_env a) (ca_resource_limits a) true
    (bool_decide (is_Some (ca_network_policy a)));
  let pod_spec := [
    ("initContainers", PList [container_to_dict (build_execd_init_container (bp_init_resources p) (ca_execd_image a))]);
    ("containers", PList [container_to_dict main_container]);
    ("volumes", PList [bin_volume])] in
  let pod_spec := match bp_runtime_class p with
                  | Some ((String _ _) as c) => dset "runtimeClassName" (PStr c) pod_spec
                  | _ => pod_spec
                  end in
  let pod_spec := match auth (ca_image a) with
                  | Some _ => dset "imagePullSecrets"
                      (PList [PDict [("name", PStr (build_image_pull_secret_name (ca_sandbox_id a)))]]) pod_spec
                  | None => pod_spec
                  end in
  apply_egress_to_spec pod_spec (ca_network_policy a) (ca_egress_image a) (ca_egress_token a).

(** [if volumes: apply_volumes_to_pod_spec(...)] *)
Definition with_volumes (a : CreateArgs) (pod_spec : dict pyval) : result (dict pyval) :=
  match ca_volumes a with
  | Some ((_ :: _) as vols) => apply_volumes_to_pod_spec pod_spec vols
  | _ => Ok pod_spec
  end.

(** [metadata], with annotations if there are any. *)
Definition metadata_dict (name : string) (a : CreateArgs) : pyval :=
  PDict (manifest_metadata name (ca_namespace a) (ca_labels a)
         ++ match ca_annotations a with
            | Some ((_ :: _) as d) => [("annotations", of_str_dict d)]
            | _ => []
            end).

(** Set or strip the expiration after the merge. *)
Definition set_expiration (field : string) (expires_at : option datetime) (manifest : dict pyval) : result (dict pyval) :=
  spec ← item (PDict manifest) "spec";
  match spec with
  | PDict s =>
      Ok (dset "spec" (PDict (match expires_at with
                              | None => dpop field s
                              | Some t => dset field (PStr (isoformat t)) s
                              end)) manifest)
  | v => Raise (attribute_error v "pop")
  end.

(** The manifest that is sent to the API server. *)
Definition batch_manifest (a : CreateArgs) : result (dict pyval) :=
  '(extra_volumes, extra_mounts) ← extract_template_pod_extras (bp_templates p);
  pod_spec ← batch_base_spec a;
  pod_spec ← with_volumes a pod_spec;
  let runtime_manifest := [
    ("apiVersion", PStr batch_api_version); ("kind", PStr "BatchSandbox");
    ("metadata", metadata_dict (ca_sandbox_id a) a);
    ("spec", PDict [("replicas", PInt 1); ("template", PDict [("spec", PDict pod_spec)])])] in
  let batchsandbox := merge_with_runtime_values (bp_templates p) runtime_manifest in
  batchsandbox ← set_expiration "expireTime" (ca_expires_at a) batchsandbox;
  merge_pod_spec_extras batchsandbox extra_volumes extra_mounts.

(** The image pull secret of a new workload; when it cannot be created the
    workload is deleted again. *)
Definition create_pull_secret (a : CreateArgs) (image_auth : ImageAuth) (created : pyval) : MK E unit :=
  metadata ← lift (item created "metadata");
  uid ← lift (item metadata "uid");
  let secret := build_image_pull_secret (ca_sandbox_id a) (uri (ca_image a)) image_auth uid batch_api_version "BatchSandbox" in
  try_except (create_secret (ca_namespace a) secret)
    (λ e,
      try_except (delete_custom_object batch_resource (ca_namespace a) (ca_sandbox_id a) 0) (λ _, mret tt);;
      raise e).

(** [create_workload] with [_create_workload_from_pool] *)
Definition batch_create_workload (a : CreateArgs) : MK E (pyval * pyval) :=
  match dget "poolRef" (default [] (ca_extensions a)) with
  | Some ((String _ _) as pool_ref) =>
      match ca_volumes a with
      | Some (_ :: _) =>
          raise (PyException ValueError
            "Pool mode does not support volumes. Remove 'volumes' from request or use template mode.")
      | _ =>
          created ← create_custom_object batch_resource (ca_namespace a) (pool_manifest a pool_ref);
          created_info created
      end
  | _ =>
      manifest ← lift (batch_manifest a);
      created ← create_custom_object batch_resource (ca_namespace a) (PDict manifest);
      match auth (ca_image a) with
      | Some image_auth => create_pull_secret a image_auth created
      | None => mret tt
      end;;
      created_info created
  end.

(** ** Reading and changing a workload *)

Definition batch_get_workload (sandbox_id namespace : string) : MK E pyval :=
  workload ← get_custom_object kcfg batch_resource namespace sandbox_id;
  if vtruthy workload then mret workload else
  let legacy_name := legacy_resource_name sandbox_id in
  if negb (bool_decide (legacy_name = sandbox_id))
  then get_custom_object kcfg batch_resource namespace legacy_name
  else mret PNone.

(** [get_workload], and an exception if there is none. *)
Definition batch_require (sandbox_id namespace : string) : MK E pyval :=
  batchsandbox ← batch_get_workload sandbox_id namespace;
  if vtruthy batchsandbox then mret batchsandbox
  else raise (plain_exception ("BatchSandbox for sandbox " +:+ sandbox_id +:+ " not found")).

Definition batch_delete_workload (sandbox_id namespace : string) : MK E unit :=
  batchsandbox ← batch_require sandbox_id namespace;
  name ← lift (workload_name batchsandbox);
  delete_custom_object batch_resource namespace name 0.

Definition batch_patch (namespace : string) (batchsandbox body : pyval) : MK E unit :=
  name ← lift (workload_name batchsandbox);
  _ ← patch_custom_object batch_resource namespace name body;
  mret tt.

(** [spec.template.spec.containers] of a workload *)
Definition batch_containers (batchsandbox : pyval) : result pyval :=
  spec ← vget_dict batchsandbox "spec";
  template ← vget_dict spec "template";
  pod_spec ← vget_dict template "spec";
  get_or pod_spec "containers" (PList []).

Definition batch_containers_patch (container : pyval) : pyval :=
  PDict [("spec", PDict [("template", PDict [("spec", PDict [("containers", PList [container])])])])].

Definition limits_of (container : pyval) (resource_limits : dict string) : result (pyval * pyval) :=
  current_resources ← vget_dict container "resources";
  limits ← vget_dict current_resources "limits";
  current_limits ← as_dict limits;
  requests ← vget_dict current_resources "requests";
  current_requests ← as_dict requests;
  Ok (PDict (update_strings current_limits resource_limits), PDict (update_strings current_requests resource_limits)).

Definition batch_limits_patch (batchsandbox : pyval) (resource_limits : dict string) : result pyval :=
  containers ← batch_containers batchsandbox;
  raise_if (negb (vtruthy containers)) (plain_exception "No containers found in BatchSandbox spec");;
  first ← item0 containers;
  '(limits, requests) ← limits_of first resource_limits;
  name ← get_or first "name" (PStr "sandbox");
  Ok (batch_containers_patch
        (PDict [("name", name); ("resources", PDict [("limits", limits); ("requests", requests)])])).

Definition batch_update_resource_limits (sandbox_id namespace : string) (resource_limits : dict string) : MK E unit :=
  batchsandbox ← batch_require sandbox_id namespace;
  patch_body ← lift (batch_limits_patch batchsandbox resource_limits);
  batch_patch namespace batchsandbox patch_body.

Definition batch_env_patch (batchsandbox : pyval) (env : dict (option string)) : result pyval :=
  containers ← batch_containers batchsandbox;
  raise_if (negb (vtruthy containers)) (plain_exception "No containers found in BatchSandbox spec");;
  first ← item0 containers;
  patched_container ← as_dict first;
  Ok (batch_containers_patch (PDict (dset "env" (env_list env) patched_container))).

Definition batch_update_env (sandbox_id namespace : string) (env : dict (option string)) : MK E unit :=
  batchsandbox ← batch_require sandbox_id namespace;
  patch_body ← lift (batch_env_patch batchsandbox env);
  batch_patch namespace batchsandbox patch_body.

Definition batch_pause_workload (sandbox_id namespace : string) : MK E unit :=
  raise (PyException NotImplementedError "Pause is not supported for BatchSandbox provider").
Definition batch_resume_workload (sandbox_id namespace : string) : MK E unit :=
  raise (PyException NotImplementedError "Resume is not supported for BatchSandbox provider").

Definition batch_list_workloads (namespace label_selector : string) : MK E pyval :=
  list_custom_objects batch_resource namespace label_selector.

Definition batch_update_expiration (sandbox_id namespace : string) (expires_at : datetime) : MK E unit :=
  batchsandbox ← batch_require sandbox_id namespace;
  batch_patch namespace batchsandbox (PDict [("spec", PDict [("expireTime", PStr (isoformat expires_at))])]).

Definition batch_get_expiration (workload : pyval) : result (option datetime) :=
  spec ← vget_dict workload "spec";
  expire_time ← vget spec "expireTime";
  parse_expiration expire_time.

(** ** Status and endpoints *)

(** [_parse_pod_ip]: the first element of the JSON array in the annotation. *)
Definition parse_pod_ip (workload : pyval) : result pyval :=
  metadata ← vget_dict workload "metadata";
  annotations ← vget_dict metadata "annotations";
  endpoints_str ← vget annotations "sandbox.opensandbox.io/endpoints";
  match endpoints_str with
  | PStr ((String _ _) as s) =>
      match loads s with
      | None => Ok PNone
      | Some j =>
          let endpoints := of_json j in
          if negb (vtruthy endpoints) then Ok PNone else
          match (n ← vlen endpoints; if (0 <? n)%nat then item0 endpoints else Ok PNone) with
          | Raise (PyException (IndexError | TypeError) _) => Ok PNone
          | r => r
          end
      end
  | _ => Ok PNone
  end.

Definition batch_status (workload : pyval) : result StatusInfo :=
  status ← vget_dict workload "status";
  replicas ← get_or status "replicas" (PInt 0);
  ready ← get_or status "ready" (PInt 0);
  allocated ← get_or status "allocated" (PInt 0);
  pod_ip ← parse_pod_ip workload;
  metadata ← vget_dict workload "metadata";
  let counts := "(" +:+ vstr allocated +:+ "/" +:+ vstr replicas +:+ " allocated, " +:+ vstr ready +:+ " ready)" in
  '(state, reason, message) ←
    (if eq_int ready 1 && vtruthy pod_ip then
       Ok ("Running", "POD_READY_WITH_IP",
           "Pod is ready with IP (" +:+ vstr ready +:+ "/" +:+ vstr replicas +:+ " ready)")
     else if vtruthy pod_ip then
       Ok ("Allocated", "IP_ASSIGNED", "Pod has IP assigned but not ready " +:+ counts)
     else
       some ← gt_int allocated 0;
       Ok (if (some : bool)
           then ("Pending", "POD_SCHEDULED", "Pod is scheduled but waiting for IP " +:+ counts)
           else ("Pending", "BATCHSANDBOX_PENDING", "BatchSandbox is pending allocation")));
  creation_timestamp ← vget metadata "creationTimestamp";
  Ok {| si_state := state; si_reason := PStr reason; si_message := PStr message;
        si_last_transition := creation_timestamp |}.

Definition batch_get_status (workload : pyval) : MK E StatusInfo := lift (batch_status workload).

Definition batch_get_endpoint_info (workload : pyval) (port : Z) (sandbox_id : string) : MK E (option Endpoint) :=
  let gateway := match bp_ingress p with Some i => str_eqb (ingress_mode i) INGRESS_MODE_GATEWAY | None => false end in
  if (gateway : bool) then lift (format_ingress_endpoint (bp_ingress p) sandbox_id port)
  else
    pod_ip ← lift (parse_pod_ip workload);
    if negb (vtruthy pod_ip) then mret None
    else mret (Some {| ep_endpoint := vstr pod_ip +:+ ":" +:+ str_of_Z port; ep_headers := None |}).

(** [int(timestamp.timestamp())] as a label *)
Definition activity_label (timestamp : datetime) : string :=
  str_of_Z (unix_seconds match timestamp with Naive us => us | Aware us off => us - off end%Z).

(** [touch_last_activity]: the labels with the new time. *)
Definition touched_labels (workload : pyval) (timestamp : datetime) : result (dict pyval) :=
  metadata ← vget_dict workload "metadata";
  labels ← vget metadata "labels";
  match val_or labels (PDict []) with
  | PDict d => Ok (dset SANDBOX_LAST_ACTIVITY_AT_LABEL (PStr (activity_label timestamp)) d)
  | v => Raise (attribute_error v "copy")
  end.

Definition batch_touch_last_activity (sandbox_id namespace : string) (timestamp : datetime) : MK E unit :=
  batchsandbox ← batch_get_workload sandbox_id namespace;
  if negb (vtruthy batchsandbox) then mret tt else
  labels ← lift (touched_labels batchsandbox timestamp);
  batch_patch namespace batchsandbox (PDict [("metadata", PDict [("labels", PDict labels)])]).

Definition batch_provider : WorkloadProvider E := {|
  wp_create_workload := batch_create_workload;
  wp_get_workload := batch_get_workload;
  wp_delete_workload := batch_delete_workload;
  wp_list_workloads := batch_list_workloads;
  wp_update_expiration := batch_update_expiration;
  wp_get_expiration := batch_get_expiration;
  wp_get_status := batch_get_status;
  wp_get_endpoint_info := batch_get_endpoint_info;
  wp_pause_workload := batch_pause_workload;
  wp_resume_workload := batch_resume_workload;
  wp_update_resource_limits := batch_update_resource_limits;
  wp_update_env := batch_update_env;
  wp_supports_image_auth := true;
  wp_touch_last_activity := batch_touch_last_activity |}.
End batch.
