(* ===== verification/AgentProvider.v ===== *)
(** * The agent-sandbox provider ([server/src/services/k8s/agent_sandbox_provider.py]) *)

From Stdlib Require Import Ascii QArith.
From S2P Require Import Prelude PyString PyDict PyTime Json PyVal Schema Config Helpers Common.
From S2P Require Import Template PodSpec RateLimiter Informer K8sHelpers K8sClient.
From S2P Require Import WorkloadProvider BatchProvider.
Close Scope Q_scope.
Close Scope Z_scope.
Open Scope string_scope.
Open Scope list_scope.

(** The fields of [AgentSandboxProvider]. *)
Record AgentSandboxProvider := {
  ap_shutdown_policy : string;
  ap_service_account : option string;
  ap_templates : TemplateManager;
  ap_ingress : option IngressConfig;
  ap_init_resources : option ExecdInitResources;
  ap_workspace_size : string;
  ap_runtime_class : option string }.

Definition agent_resource : Resource :=
  {| r_group := "agents.x-k8s.io"; r_version := "v1alpha1"; r_plural := "sandboxes" |}.
Definition agent_api_version : string := "agents.x-k8s.io/v1alpha1".

Section agent.
Context {E : Type} `{K8sEnv E} (sha256 : string → string).
Context (kcfg : KubernetesRuntimeConfig) (p : AgentSandboxProvider).

(** ** Names *)

Definition resource_name (sandbox_id : string) : string := to_dns1035_label sha256 sandbox_id "sandbox".

(** [_pvc_name] *)
Definition workspace_claim (sandbox_id : string) : string := "workspace-" +:+ resource_name sandbox_id.

Definition add_candidate (l : list string) (n : string) : list string := if bool_decide (n ∈ l) then l else l ++ [n].

Definition resource_name_candidates (sandbox_id : string) : list string :=
  add_candidate (add_candidate [resource_name sandbox_id] sandbox_id) (legacy_resource_name sandbox_id).

(** ** The manifest *)

(** [_build_pod_spec] *)
Definition agent_pod_spec (a : CreateArgs) (resource_limits : dict string) : result (dict pyval) :=
  main_container ← build_main_container (ca_image a) (ca_entrypoint a) (ca_env a) resource_limits true
    (bool_decide (is_Some (ca_network_policy a)));
  let pod_spec := [
    ("initContainers", PList [container_to_dict (build_execd_init_container (ap_init_resources p) (ca_execd_image a))]);
    ("containers", PList [container_to_dict main_container]);
    ("volumes", PList [bin_volume]);
    ("nodeSelector", PDict [("kubernetes.io/arch", PStr "arm64")])] in
  let pod_spec := match ap_runtime_class p with
                  | Some ((String _ _) as c) => dset "runtimeClassName" (PStr c) pod_spec
                  | _ => pod_spec
                  end in
  apply_egress_to_spec pod_spec (ca_network_policy a) (ca_egress_image a) (ca_egress_token a).

(** The size of the workspace and the limits of the container: [storage] is taken
    out of the resource limits. *)
Definition split_storage (a : CreateArgs) : string * dict string :=
  match dget "storage" (ca_resource_limits a) with
  | Some size => (size, dpop "storage" (ca_resource_limits a))
  | None => (ap_workspace_size p, ca_resource_limits a)
  end.

Definition workspace_volume (claim : string) : pyval :=
  PDict [("name", PStr "workspace"); ("persistentVolumeClaim", PDict [("claimName", PStr claim)])].
Definition workspace_mount : pyval :=
  PDict [("name", PStr "workspace"); ("mountPath", PStr "/workspace"); ("readOnly", PBool false)].

(** [pod_spec["volumes"].append(...)] and the mount of the first container. *)
Definition attach_workspace (claim : string) (pod_spec : dict pyval) : result (dict pyval) :=
  volumes ← item (PDict pod_spec) "volumes";
  l ← as_list volumes;
  let pod_spec := dset "volumes" (PList (l ++ [workspace_volume claim])) pod_spec in
  containers ← item (PDict pod_spec) "containers";
  first ← item0 containers;
  match containers, first with
  | PList (_ :: rest), PDict c =>
      mounts ← as_list (dget_default "volumeMounts" (PList []) c);
      Ok (dset "containers" (PList (PDict (dset "volumeMounts" (PList (mounts ++ [workspace_mount])) c) :: rest)) pod_spec)
  | _, v => Raise (attribute_error v "setdefault")
  end.

(** The manifest from a finished pod specification. *)
Definition agent_manifest (a : CreateArgs) (pod_spec : dict pyval) : result (dict pyval) :=
  let pod_spec := match ap_service_account p with
                  | Some ((String _ _) as s) => dset "serviceAccountName" (PStr s) pod_spec
                  | _ => pod_spec
                  end in
  let runtime_manifest := [
    ("apiVersion", PStr agent_api_version); ("kind", PStr "Sandbox");
    ("metadata", metadata_dict (resource_name (ca_sandbox_id a)) a);
    ("spec", PDict [("replicas", PInt 1); ("shutdownPolicy", PStr (ap_shutdown_policy p));
                    ("podTemplate", PDict [("metadata", PDict [("labels", of_str_dict (ca_labels a))]);
                                           ("spec", PDict pod_spec)])])] in
  set_expiration "shutdownTime" (ca_expires_at a) (merge_with_runtime_values (ap_templates p) runtime_manifest).

(** [create_workload] *)
Definition agent_create_workload (a : CreateArgs) : MK E (pyval * pyval) :=
  let '(workspace_size, limits) := split_storage a in
  pod_spec ← lift (agent_pod_spec a limits);
  pod_spec ← lift (with_volumes a pod_spec);
  let claim := workspace_claim (ca_sandbox_id a) in
  create_pvc (ca_namespace a) claim workspace_size (Some [(SANDBOX_ID_LABEL, ca_sandbox_id a)]);;
  pod_spec ← lift (attach_workspace claim pod_spec);
  sandbox ← lift (agent_manifest a pod_spec);
  created ← try_except (create_custom_object agent_resource (ca_namespace a) (PDict sandbox))
    (λ e, try_except (delete_pvc (ca_namespace a) claim) (λ _, mret tt);; raise e);
  created_info created.

(** ** Reading and changing a workload *)

Fixpoint first_workload (namespace : string) (names : list string) : MK E pyval :=
  match names with
  | [] => mret PNone
  | name :: names' =>
      workload ← get_custom_object kcfg agent_resource namespace name;
      if vtruthy workload then mret workload else first_workload namespace names'
  end.

Definition agent_get_workload (sandbox_id namespace : string) : MK E pyval :=
  first_workload namespace (resource_name_candidates sandbox_id).

Definition agent_require (text : string) (sandbox_id namespace : string) : MK E pyval :=
  sandbox ← agent_get_workload sandbox_id namespace;
  if vtruthy sandbox then mret sandbox
  else raise (plain_exception (text +:+ sandbox_id +:+ " not found")).

Definition agent_delete_workload (sandbox_id namespace : string) : MK E unit :=
  sandbox ← agent_require "Sandbox for sandbox " sandbox_id namespace;
  name ← lift (workload_name sandbox);
  delete_custom_object agent_resource namespace name 0;;
  try_except (delete_pvc namespace (workspace_claim sandbox_id)) (λ _, mret tt).

Definition agent_patch (namespace : string) (sandbox body : pyval) : MK E unit :=
  name ← lift (workload_name sandbox);
  _ ← patch_custom_object agent_resource namespace name body;
  mret tt.

(** The key of the pod template, and the containers below it. *)
Definition agent_containers (sandbox : pyval) : result (string * pyval) :=
  spec ← vget_dict sandbox "spec";
  template ← vget_dict spec "template";
  pod_template ← get_or spec "podTemplate" template;
  pod_spec ← vget_dict pod_template "spec";
  containers ← get_or pod_spec "containers" (PList []);
  Ok ((if match spec with PDict d => dmem "podTemplate" d | _ => false end then "podTemplate" else "template"), containers).

Definition agent_containers_patch (template_key : string) (container : pyval) : pyval :=
  PDict [("spec", PDict [(template_key, PDict [("spec", PDict [("containers", PList [container])])])])].

(** A patch that replaces one entry of the first container and keeps the others. *)
Definition agent_container_patch (sandbox : pyval) (key : string) (value : pyval → result pyval) : result pyval :=
  '(template_key, containers) ← agent_containers sandbox;
  raise_if (negb (vtruthy containers)) (plain_exception "No containers found in Sandbox spec");;
  first ← item0 containers;
  v ← value first;
  patched_container ← as_dict first;
  Ok (agent_containers_patch template_key (PDict (dset key v patched_container))).

Definition agent_update_resource_limits (sandbox_id namespace : string) (resource_limits : dict string) : MK E unit :=
  sandbox ← agent_require "Sandbox " sandbox_id namespace;
  patch_body ← lift (agent_container_patch sandbox "resources" (λ first,
    '(limits, requests) ← limits_of first resource_limits;
    Ok (PDict [("limits", limits); ("requests", requests)])));
  agent_patch namespace sandbox patch_body.

Definition agent_update_env (sandbox_id namespace : string) (env : dict (option string)) : MK E unit :=
  sandbox ← agent_require "Sandbox " sandbox_id namespace;
  patch_body ← lift (agent_container_patch sandbox "env" (λ _, Ok (env_list env)));
  agent_patch namespace sandbox patch_body.

(** [spec.replicas], 1 by default *)
Definition replicas_of (sandbox : pyval) : result pyval :=
  spec ← vget_dict sandbox "spec"; get_or spec "replicas" (PInt 1).

Definition replicas_patch (n : Z) : pyval := PDict [("spec", PDict [("replicas", PInt n)])].

Definition agent_pause_workload (sandbox_id namespace : string) : MK E unit :=
  sandbox ← agent_require "Sandbox " sandbox_id namespace;
  current ← lift (replicas_of sandbox);
  if eq_int current 0 then raise (plain_exception ("Sandbox " +:+ sandbox_id +:+ " is already paused")) else
  agent_patch namespace sandbox (replicas_patch 0).

Definition agent_resume_workload (sandbox_id namespace : string) : MK E unit :=
  sandbox ← agent_require "Sandbox " sandbox_id namespace;
  current ← lift (replicas_of sandbox);
  if negb (eq_int current 0) then raise (plain_exception ("Sandbox " +:+ sandbox_id +:+ " is not paused")) else
  agent_patch namespace sandbox (replicas_patch 1).

Definition agent_list_workloads (namespace label_selector : string) : MK E pyval :=
  list_custom_objects agent_resource namespace label_selector.

Definition agent_update_expiration (sandbox_id namespace : string) (expires_at : datetime) : MK E unit :=
  sandbox ← agent_require "Sandbox for sandbox " sandbox_id namespace;
  agent_patch namespace sandbox (PDict [("spec", PDict [("shutdownTime", PStr (isoformat expires_at))])]).

Definition agent_get_expiration (workload : pyval) : result (option datetime) :=
  spec ← vget_dict workload "spec";
  shutdown_time ← vget spec "shutdownTime";
  parse_expiration shutdown_time.

(** ** Status and endpoints *)

(** The first condition of type [Ready]. *)
Fixpoint find_ready (l : list pyval) : result pyval :=
  match l with
  | [] => Ok PNone
  | condition :: l' =>
      type ← vget condition "type";
      if eq_str type "Ready" then Ok condition else find_ready l'
  end.

(** The state that a pod shows; a pod without status shows none. *)
Definition pod_state (pod : Pod) : option (string * string * string) :=
  match pod_status pod with
  | None => None
  | Some s =>
      Some (if truthy_opt (pod_ip s) && bool_decide (pod_phase s = Some "Running")
            then ("Running", "POD_READY", "Pod is running with IP assigned")
            else if truthy_opt (pod_ip s)
            then ("Allocated", "IP_ASSIGNED", "Pod has IP assigned but not running yet")
            else ("Pending", "POD_SCHEDULED", "Pod is scheduled but waiting for IP assignment"))
  end.

Fixpoint first_pod_state (pods : list Pod) : option (string * string * string) :=
  match pods with
  | [] => None
  | pod :: pods' => match pod_state pod with Some s => Some s | None => first_pod_state pods' end
  end.

(** The selector and namespace of a workload. *)
Definition selector_of (workload : pyval) : result (pyval * pyval) :=
  status ← vget_dict workload "status";
  selector ← vget status "selector";
  metadata ← vget_dict workload "metadata";
  namespace ← vget metadata "namespace";
  Ok (selector, namespace).

(** [_pod_state_from_selector] *)
Definition pod_state_from_selector (workload : pyval) : MK E (option (string * string * string)) :=
  '(selector, namespace) ← lift (selector_of workload);
  if negb (vtruthy selector) || negb (vtruthy namespace) then mret None else
  try_except
    (pods ← list_pods (vstr namespace) (vstr selector);
     mret (match first_pod_state pods with
           | Some s => Some s
           | None => match pods with [] => None | _ => Some ("Pending", "POD_PENDING", "Pod is pending") end
           end))
    (λ _, mret None).

Definition condition_state (cond_status reason : pyval) : string :=
  if eq_str cond_status "True" then "Running"
  else if eq_str reason "SandboxExpired" then "Terminated"
  else "Pending".

Definition agent_get_status (workload : pyval) : MK E StatusInfo :=
  replicas ← lift (replicas_of workload);
  metadata ← lift (vget_dict workload "metadata");
  creation_timestamp ← lift (vget metadata "creationTimestamp");
  let info state reason message t := {| si_state := state; si_reason := reason; si_message := message; si_last_transition := t |} in
  if eq_int replicas 0 then
    mret (info "Paused" (PStr "SANDBOX_PAUSED") (PStr "Sandbox is paused (scaled to zero)") creation_timestamp)
  else
    status ← lift (vget_dict workload "status");
    conditions ← lift (get_or status "conditions" (PList []));
    l ← lift (iterate conditions);
    ready_condition ← lift (find_ready l);
    if negb (vtruthy ready_condition) then
      s ← pod_state_from_selector workload;
      mret (match s with
            | Some (state, reason, message) => info state (PStr reason) (PStr message) creation_timestamp
            | None => info "Pending" (PStr "SANDBOX_PENDING") (PStr "Sandbox is pending scheduling") creation_timestamp
            end)
    else
      cond_status ← lift (vget ready_condition "status");
      reason ← lift (vget ready_condition "reason");
      message ← lift (vget ready_condition "message");
      t ← lift (vget ready_condition "lastTransitionTime");
      mret (info (condition_state cond_status reason) reason message (val_or t creation_timestamp)).

Definition running_ip (pod : Pod) : bool :=
  match pod_status pod with
  | Some s => truthy_opt (pod_ip s) && bool_decide (pod_phase s = Some "Running")
  | None => false
  end.

Definition agent_get_endpoint_info (workload : pyval) (port : Z) (sandbox_id : string) : MK E (option Endpoint) :=
  ingress_endpoint ← lift (format_ingress_endpoint (ap_ingress p) sandbox_id port);
  match ingress_endpoint with
  | Some e => mret (Some e)
  | None =>
      let at_host (h : string) := Some {| ep_endpoint := h +:+ ":" +:+ str_of_Z port; ep_headers := None |} in
      '(selector, namespace) ← lift (selector_of workload);
      found ← (if vtruthy selector && vtruthy namespace then
                 try_except
                   (pods ← list_pods (vstr namespace) (vstr selector);
                    mret (List.find running_ip pods ≫= λ pod, pod_status pod ≫= pod_ip))
                   (λ _, mret None)
               else mret None);
      match found with
      | Some ip => mret (at_host ip)
      | None =>
          status ← lift (vget_dict workload "status");
          service_fqdn ← lift (vget status "serviceFQDN");
          mret (if vtruthy service_fqdn then at_host (vstr service_fqdn) else None)
      end
  end.

Definition agent_touch_last_activity (sandbox_id namespace : string) (timestamp : datetime) : MK E unit :=
  sandbox ← agent_get_workload sandbox_id namespace;
  if negb (vtruthy sandbox) then mret tt else
  labels ← lift (touched_labels sandbox timestamp);
  agent_patch namespace sandbox (PDict [("metadata", PDict [("labels", PDict labels)])]).

Definition agent_provider : WorkloadProvider E := {|
  wp_create_workload := agent_create_workload;
  wp_get_workload := agent_get_workload;
  wp_delete_workload := agent_delete_workload;
  wp_list_workloads := agent_list_workloads;
  wp_update_expiration := agent_update_expiration;
  wp_get_expiration := agent_get_expiration;
  wp_get_status := agent_get_status;
  wp_get_endpoint_info := agent_get_endpoint_info;
  wp_pause_workload := agent_pause_workload;
  wp_resume_workload := agent_resume_workload;
  wp_update_resource_limits := agent_update_resource_limits;
  wp_update_env := agent_update_env;
  wp_supports_image_auth := false;
  wp_touch_last_activity := agent_touch_last_activity |}.
End agent.
