(* ===== verification/ManifestPolicy.v ===== *)
(** * What the manifests enforce

    Whatever a template file holds, the manifest of a sandbox with a network policy
    has the egress side car with that policy and a sandbox container without
    [NET_ADMIN]; and a command for a pooled sandbox cannot be broken out of. *)

From Stdlib Require Import Ascii QArith.
From S2P Require Import Prelude PyString PyDict PyTime Json PyVal Schema Config Shlex Template PodSpec.
From S2P Require Import RateLimiter Informer K8sHelpers K8sClient WorkloadProvider.
From S2P Require Import BatchProvider AgentProvider.
Close Scope Q_scope.
Open Scope string_scope.
Open Scope list_scope.

(** ** The command of a pooled sandbox *)

(** The shell command that a pooled sandbox runs is, for every entry point
    (quotes, blanks, newlines, [;], [$] and the empty word included), the bootstrap
    script with exactly the words of the entry point as arguments, in the
    background: no text of a request is read as shell syntax. *)
Theorem pool_command_words entrypoint :
  sh_tokens (user_process_cmd entrypoint) = Some (SWord BOOTSTRAP_SH :: (SWord <$> entrypoint) ++ [SOp "&"]).
Proof.
  unfold sh_tokens, user_process_cmd.
  assert (∀ rest, sh_loop SBetween EmptyString (BOOTSTRAP_SH +:+ " " +:+ rest) =
                  cons (SWord BOOTSTRAP_SH) <$> sh_loop SBetween EmptyString rest) as Hb.
  { intros rest. exact (sh_quote_blank BOOTSTRAP_SH rest). }
  rewrite Hb. destruct (decide (entrypoint = [])) as [->|Hne]; [reflexivity|].
  rewrite (sh_quoted_words entrypoint "&") by done. by cbn.
Qed.

(** ** Merged dictionaries *)

(** [d'] is [d], or [d] merged into something. *)
Definition over (d d' : dict pyval) : Prop := d' = d ∨ ∃ b, d' = deep_merge b (PDict d).

Lemma over_dict d d' k x :
  dict_wf d → over d d' → dget k d = Some (PDict x) → ∃ x', dget k d' = Some (PDict x') ∧ over x x'.
Proof.
  intros Hwf [->|[b ->]] Hk; [exists x; split; [done|by left]|]. rewrite deep_merge_get, Hk by done.
  cbn [merged_value]. destruct (dget k b) as [[]|]; try by (eexists; split; [done|]; by left).
  eexists. split; [done|]. right. by eexists.
Qed.

Lemma over_value d d' k v :
  dict_wf d → over d d' → dget k d = Some v → is_dict v = false → v ≠ PNone → dget k d' = Some v.
Proof.
  intros Hwf [->|[b ->]] Hk Hv Hn; [done|]. rewrite deep_merge_get, Hk by done. by destruct v.
Qed.

Lemma merged_over m manifest : over manifest (merge_with_runtime_values m manifest).
Proof. unfold merge_with_runtime_values. destruct (get_base_template m); [by left|right; by eexists]. Qed.

(** ** The policy of a pod *)

Lemma extras_path d v1 v2 d' s1 t1 ps1 :
  merge_pod_spec_extras d v1 v2 = Ok d' →
  dget "spec" d = Some (PDict s1) → dget "template" s1 = Some (PDict t1) → dget "spec" t1 = Some (PDict ps1) →
  ∃ ps2, merge_spec_extras ps1 v1 v2 = Ok ps2 ∧
    d' = dset "spec" (PDict (dset "template" (PDict (dset "spec" (PDict ps2) t1)) s1)) d.
Proof.
  unfold merge_pod_spec_extras. intros He Hs Ht Hp. rewrite Hs, Ht, Hp in He.
  apply result_bind_Ok in He as (ps2&Hps2&[= <-]). eauto.
Qed.

Section policy.
Context (np : NetworkPolicy) (img : string) (token : option string).

Definition no_net_admin : pyval := PDict [("capabilities", PDict [("drop", of_strings ["NET_ADMIN"])])].

(** The containers are the sandbox, without the capability, and the side car; [C] is
    what is said of the security context of the pod. *)
Definition policy_with (C : pyval → Prop) (pod_spec : dict pyval) : Prop :=
  (∃ c, dget "containers" pod_spec = Some (PList [PDict c; build_egress_sidecar_container img np token]) ∧
        dget "name" c = Some (PStr "sandbox") ∧ dget "securityContext" c = Some no_net_admin) ∧
  ∃ ctx, dget "securityContext" pod_spec = Some ctx ∧ C ctx.

(** The pod switches IPv6 off. *)
Definition policy_enforced : dict pyval → Prop :=
  policy_with (λ ctx, val_at ["sysctls"] ctx = Some (PList build_ipv6_disable_sysctls)).
Definition policy_fresh : dict pyval → Prop :=
  policy_with (λ ctx, ctx = PDict [("sysctls", PList build_ipv6_disable_sysctls)]).

Lemma policy_set C k v ps :
  k ≠ "containers" → k ≠ "securityContext" → policy_with C ps → policy_with C (dset k v ps).
Proof. intros H1 H2 [Hc Hs]. split; by rewrite dget_set_ne by congruence. Qed.

(** A change of the mounts of the first container. *)
Lemma policy_mounts C v c rest ps :
  policy_with C ps → dget "containers" ps = Some (PList (PDict c :: rest)) →
  policy_with C (dset "containers" (PList (PDict (dset "volumeMounts" v c) :: rest)) ps).
Proof.
  intros [(c'&Hc'&Hn&Hsc) Hs] Hc. rewrite Hc in Hc'. injection Hc' as -> ->. split; [|by rewrite dget_set_ne].
  exists (dset "volumeMounts" v c'). by rewrite dget_set_eq, !dget_set_ne.
Qed.

Lemma policy_over ps ps' : dict_wf ps → over ps ps' → policy_fresh ps → policy_enforced ps'.
Proof.
  intros Hwf Ho [(c&Hc&Hcc) (ctx&Hs&->)]. split.
  - exists c. split; [|done]. by eapply over_value.
  - destruct (over_dict _ _ _ _ Hwf Ho Hs) as (ctx'&Hctx'&Hoc). exists (PDict ctx'). split; [done|]. cbn.
    erewrite (over_value [("sysctls", _)] ctx' "sysctls"); [done| |exact Hoc|done..].
    by apply (bool_decide_unpack _).
Qed.

(** ** The steps of the providers *)

Lemma with_volumes_policy C a ps ps' :
  policy_with C ps → dict_wf ps → with_volumes a ps = Ok ps' → policy_with C ps' ∧ dict_wf ps'.
Proof.
  intros Hp Hwf. unfold with_volumes. destruct (ca_volumes a) as [[|v vs]|]; try by intros [= <-].
  unfold apply_volumes_to_pod_spec. pose proof Hp as [(c&Hc&_) _]. 
  assert (dget_default "containers" (PList []) ps = PList [PDict c; build_egress_sidecar_container img np token]) as ->
    by (unfold dget_default; by rewrite Hc).
  cbv zeta. cbn [vtruthy negb item0]. intros (main&Hm&(mounts&_&(ml&_&(pv&_&(st&_&Hr)%result_bind_Ok)%result_bind_Ok)%result_bind_Ok)%result_bind_Ok)%result_bind_Ok.
  injection Hm as <-. injection Hr as <-.
  split; [|by apply dset_wf, dset_wf]. apply policy_mounts; [by apply policy_set|]. by rewrite dget_set_ne.
Qed.

(** A merged manifest and its expiration: what was at the path is still there. *)
Lemma dget_pop_ne {V} k k' (d : dict V) : k ≠ k' → dget k (dpop k' d) = dget k d.
Proof.
  intros Hk. induction d as [|[x v] d IH]; [done|]. cbn [dpop]. repeat case_decide; subst; cbn; rewrite ?IH; repeat case_decide; congruence.
Qed.

Lemma expiration_enforced field t key m manifest d' spec tmpl ps :
  set_expiration field t (merge_with_runtime_values m manifest) = Ok d' → field ≠ key →
  dict_wf manifest → dget "spec" manifest = Some (PDict spec) → dict_wf spec →
  dget key spec = Some (PDict tmpl) → dict_wf tmpl → dget "spec" tmpl = Some (PDict ps) → dict_wf ps →
  policy_fresh ps →
  ∃ s1 t1 ps1, dget "spec" d' = Some (PDict s1) ∧ dget key s1 = Some (PDict t1) ∧
    dget "spec" t1 = Some (PDict ps1) ∧ policy_enforced ps1.
Proof.
  intros He Hfk Hwm Hs Hws Ht Hwt Hp Hwp Hpol.
  destruct (over_dict _ _ _ _ Hwm (merged_over m manifest) Hs) as (s1&Hs1&Ho1).
  destruct (over_dict _ _ _ _ Hws Ho1 Ht) as (t1&Ht1&Ho2).
  destruct (over_dict _ _ _ _ Hwt Ho2 Hp) as (ps1&Hps1&Ho3).
  revert He. unfold set_expiration, item. rewrite Hs1. cbn. intros [= <-].
  eexists _, t1, ps1. rewrite dget_set_eq. split; [done|].
  split; [|split; [done|]; by eapply policy_over].
  destruct t; [by rewrite dget_set_ne|by rewrite dget_pop_ne].
Qed.

(** *** Extras of a template *)

Lemma merge_extras_cases k extras d : merge_extras k extras d = d ∨ ∃ v, merge_extras k extras d = dset k v d.
Proof.
  unfold merge_extras. destruct (val_or _ _); try by left. destruct extras; [by left|right; by eexists].
Qed.

Lemma spec_extras_policy C ps v1 v2 ps' :
  policy_with C ps → merge_spec_extras ps v1 v2 = Ok ps' → policy_with C ps'.
Proof.
  intros Hp. unfold merge_spec_extras. set (ps0 := merge_extras "volumes" v1 ps).
  assert (policy_with C ps0) as Hp0.
  { subst ps0. destruct (merge_extras_cases "volumes" v1 ps) as [->|[v ->]]; [done|by apply policy_set]. }
  pose proof Hp0 as [(c&Hc&Hn&Hsc) Hs].
  assert (dget_default "containers" (PList []) ps0 = PList [PDict c; build_egress_sidecar_container img np token]) as ->
    by (unfold dget_default; by rewrite Hc).
  cbn [val_or vtruthy]. intros [= <-].
  destruct (merge_extras_cases "volumeMounts" v2 c) as [->|[v ->]]; [|by apply policy_mounts].
  split; [|by rewrite dget_set_ne]. exists c. by rewrite dget_set_eq.
Qed.

Lemma pod_extras_enforced d v1 v2 d' s1 t1 ps1 :
  merge_pod_spec_extras d v1 v2 = Ok d' →
  dget "spec" d = Some (PDict s1) → dget "template" s1 = Some (PDict t1) → dget "spec" t1 = Some (PDict ps1) →
  policy_enforced ps1 →
  ∃ ps2, val_at ["spec"; "template"; "spec"] (PDict d') = Some (PDict ps2) ∧ policy_enforced ps2.
Proof.
  intros He Hs Ht Hp Hpol. destruct (extras_path _ _ _ _ _ _ _ He Hs Ht Hp) as (ps2&Hps2&->).
  exists ps2. split; [|by eapply spec_extras_policy]. cbn. rewrite dget_set_eq. cbn. rewrite dget_set_eq. cbn.
  by rewrite dget_set_eq.
Qed.
End policy.

(** ** The specifications that the providers start from *)

Lemma main_container_dict a limits c :
  build_main_container (ca_image a) (ca_entrypoint a) (ca_env a) limits true true = Ok c →
  ∃ d, container_to_dict c = PDict d ∧ dget "name" d = Some (PStr "sandbox") ∧ dget "securityContext" d = Some no_net_admin.
Proof.
  intros [= <-]. eexists. split; [reflexivity|]. split; [reflexivity|]. cbn.
  destruct (ca_env a), limits; reflexivity.
Qed.

Section base.
Context (a : CreateArgs) (np : NetworkPolicy) (img : string).
Hypothesis Hnp : ca_network_policy a = Some np.
Hypothesis Himg : ca_egress_image a = Some img.
Hypothesis Ht : truthy img = true.

(** Adding the side car to a specification whose only container is the sandbox. *)
Lemma egress_fresh spec c spec' :
  dict_wf spec → dget "containers" spec = Some (PList [PDict c]) → dget "securityContext" spec = None →
  dget "name" c = Some (PStr "sandbox") → dget "securityContext" c = Some no_net_admin →
  apply_egress_to_spec spec (Some np) (Some img) (ca_egress_token a) = Ok spec' →
  policy_fresh np img (ca_egress_token a) spec' ∧ dict_wf spec'.
Proof.
  intros Hwf Hc Hs Hn Hsc. unfold apply_egress_to_spec, dget_default. destruct img as [|ch img']; [done|].
  rewrite Hc. cbn [as_list]. cbn [mbind result_bind app]. rewrite dget_set_ne, Hs by done. cbn. intros [= <-].
  split; [|by apply dset_wf, dset_wf]. split.
  - exists c. split; [|done]. by rewrite dget_set_ne, dget_set_eq.
  - eexists. by rewrite dget_set_eq.
Qed.

Lemma batch_base_fresh p ps :
  batch_base_spec p a = Ok ps → policy_fresh np img (ca_egress_token a) ps ∧ dict_wf ps.
Proof.
  unfold batch_base_spec. rewrite Hnp, Himg. rewrite bool_decide_eq_true_2 by eauto.
  intros (main&Hmain&He)%result_bind_Ok. destruct (main_container_dict _ _ _ Hmain) as (d&Hd&Hn&Hsc).
  rewrite Hd in He. revert He. apply egress_fresh with (c := d);
    destruct (bp_runtime_class p) as [[]|], (auth (ca_image a)); try done; by apply (bool_decide_unpack _).
Qed.

Lemma agent_base_fresh p limits ps :
  agent_pod_spec p a limits = Ok ps → policy_fresh np img (ca_egress_token a) ps ∧ dict_wf ps.
Proof.
  unfold agent_pod_spec. rewrite Hnp, Himg. rewrite bool_decide_eq_true_2 by eauto.
  intros (main&Hmain&He)%result_bind_Ok. destruct (main_container_dict _ _ _ Hmain) as (d&Hd&Hn&Hsc).
  rewrite Hd in He. revert He. apply egress_fresh with (c := d);
    destruct (ap_runtime_class p) as [[]|]; try done; by apply (bool_decide_unpack _).
Qed.

Lemma attach_workspace_policy C claim ps ps' :
  policy_with np img (ca_egress_token a) C ps → dict_wf ps → attach_workspace claim ps = Ok ps' →
  policy_with np img (ca_egress_token a) C ps' ∧ dict_wf ps'.
Proof.
  intros Hp Hwf. unfold attach_workspace. intros (vols&_&(l&_&Hr)%result_bind_Ok)%result_bind_Ok. revert Hr. cbv zeta.
  set (ps0 := dset "volumes" _ ps). assert (policy_with np img (ca_egress_token a) C ps0) as Hp0 by by apply policy_set.
  assert (dict_wf ps0) by by apply dset_wf. pose proof Hp0 as [(c&Hc&_) _]. unfold item. rewrite Hc. cbn [mbind result_bind item0].
  destruct (as_list _); [|done]. intros [= <-]. split; [by apply policy_mounts|by apply dset_wf].
Qed.

End base.

(** A template that tries to bring its own containers and capabilities. *)
Definition greedy_provider : BatchSandboxProvider := {|
  bp_ingress := None; bp_init_resources := None; bp_runtime_class := Some "kata-qemu";
  bp_templates := {| template_file_path := Some "/etc/template.yaml"; template_kind := "BatchSandbox";
    base_template := Some (PDict [("spec", PDict [("template", PDict [("spec", PDict [
      ("containers", PList [PDict [("name", PStr "other");
         ("securityContext", PDict [("capabilities", PDict [("add", of_strings ["NET_ADMIN"])])]);
         ("volumeMounts", PList [PDict [("name", PStr "data"); ("mountPath", PStr "/data")]])]]);
      ("volumes", PList [PDict [("name", PStr "data"); ("emptyDir", PDict [])]]);
      ("securityContext", PDict [("runAsUser", PInt 0); ("sysctls", PList [])])])])])]) |} |}.

Definition policy_args : CreateArgs := {|
  ca_sandbox_id := "box-1"; ca_namespace := "sandboxes"; ca_image := {| uri := "python:3.11"; auth := None |};
  ca_entrypoint := ["python"]; ca_env := [("A", Some "1")]; ca_resource_limits := [("cpu", "1")];
  ca_labels := [(SANDBOX_ID_LABEL, "box-1")]; ca_expires_at := None; ca_execd_image := "execd:1"; ca_extensions := None;
  ca_network_policy := Some {| default_action := Some "deny"; egress := [{| action := "allow"; target := "pypi.org" |}] |};
  ca_egress_image := Some "egress:1"; ca_volumes := None;
  ca_annotations := Some [(SANDBOX_EGRESS_AUTH_TOKEN_METADATA_KEY, "t")]; ca_egress_token := Some "t" |}.

