(* ===== verification/Execd.v ===== *)
(** * Calls to execd inside a pod ([server/src/services/k8s/client.py])

    [call_execd] and [call_execd_submit] run a Python script in the sandbox
    container, which sends the request to [localhost:44772] and prints the answer
    as JSON.  The scripts are text here too.  [ast.literal_eval], the reader of the
    last resort, is a parameter. *)

From Stdlib Require Import Ascii QArith.
From S2P Require Import Prelude PyString PyDict PyTime Json PyVal Schema Config.
From S2P Require Import RateLimiter Informer K8sHelpers K8sClient WorkloadProvider.
Close Scope Q_scope.
Open Scope string_scope.
Open Scope list_scope.

(** ** [urllib.parse.urlencode] *)

Definition url_safe (c : ascii) : bool :=
  alpha c || is_digit c || existsb (λ d, bool_decide (c = d)) ["_"; "."; "-"; "~"]%char.

Definition upper_hex (n : N) : ascii := chr (if (n <? 10)%N then 48 + n else 55 + n)%N.

Definition quote_byte (n : N) : string :=
  if (n =? 32)%N then "+"
  else if (n <? 128)%N && url_safe (chr n) then String (chr n) EmptyString
  else String "%" (String (upper_hex (n / 16)) (String (upper_hex (n mod 16)) EmptyString)).

Definition quote_plus (s : string) : string := foldr (λ n acc, quote_byte n +:+ acc) EmptyString (utf8_encode s).

Definition urlencode (params : dict string) : string :=
  join "&" ((λ kv, quote_plus kv.1 +:+ "=" +:+ quote_plus kv.2) <$> params).

(** ** The scripts *)

(** Literal text in which a back quote stands for a double quote. *)
Definition text (s : string) : string := replace_char "`" (chr 34) s.

Definition on_http_error : string := text "except urllib.error.HTTPError as e:
    print(json.dumps({`status_code`: e.code, `body`: e.read().decode(), `headers`: {}}))
".

Definition print_response : string := text "    headers = dict(resp.headers)
    body = resp.read().decode()
    ct = headers.get(`Content-Type`, ``)
    if `json` in ct:
        body = json.loads(body)
    print(json.dumps({`status_code`: resp.status, `body`: body, `headers`: headers}))
".

Definition get_script (url : string) : string := text "
import urllib.request, json, sys
try:
    resp = urllib.request.urlopen(`" +:+ url +:+ text "`)
" +:+ print_response +:+ on_http_error.

Definition delete_script (url : string) : string := text "
import urllib.request, json, sys
try:
    req = urllib.request.Request(`" +:+ url +:+ text "`, method=`DELETE`)
    resp = urllib.request.urlopen(req)
    print(json.dumps({`status_code`: resp.status, `body`: resp.read().decode(), `headers`: {}}))
" +:+ on_http_error.

Definition post_script (url body_json : string) : string := text "
import urllib.request, json, sys
data = " +:+ repr body_json +:+ text ".encode()
req = urllib.request.Request(`" +:+ url +:+ text "`, data=data, headers={`Content-Type`: `application/json`})
try:
    resp = urllib.request.urlopen(req)
" +:+ print_response +:+ on_http_error.

Definition submit_script (body_json : string) : string := text "
import urllib.request, json, sys
data = " +:+ repr body_json +:+ text ".encode()
req = urllib.request.Request(`http://localhost:44772/command`, data=data, headers={`Content-Type`: `application/json`})
try:
    resp = urllib.request.urlopen(req)
    first_line = resp.readline().decode().strip()
    if first_line:
        event = json.loads(first_line)
        if event.get(`type`) == `init`:
            print(json.dumps({`status_code`: 200, `task_id`: event.get(`text`)}))
        else:
            print(json.dumps({`status_code`: 200, `task_id`: None}))
    else:
        print(json.dumps({`status_code`: 200, `task_id`: None}))
except urllib.error.HTTPError as e:
    print(json.dumps({`status_code`: e.code, `body`: e.read().decode()}))
".

Definition execd_url (path : string) (params : option (dict string)) : string :=
  "http://localhost:44772" +:+ path +:+ match params with Some ((_ :: _) as d) => "?" +:+ urlencode d | _ => EmptyString end.

(** ** The calls *)

Section execd.
Context {E : Type} `{K8sEnv E} (literal_eval : string → result pyval).

(** The output of a script: JSON, or else a Python literal. *)
Definition read_output (output : string) : result pyval :=
  match loads (strip output) with
  | Some j => Ok (of_json j)
  | None => literal_eval (strip output)
  end.

Definition run_script (failure : string) (namespace pod_name script : string) : MK E pyval :=
  try_except
    (output ← exec_in_pod namespace pod_name ["python3"; "-c"; script] "sandbox";
     lift (read_output output))
    (λ e, raise (plain_exception (failure +:+ exn_text e))).

Definition call_execd (namespace pod_name method path : string) (json_body : option (dict pyval))
    (params : option (dict string)) : MK E pyval :=
  let url := execd_url path params in
  let script :=
    if str_eqb method "GET" then get_script url
    else if str_eqb method "DELETE" then delete_script url
    else post_script url (match json_body with Some ((_ :: _) as d) => dumps (PDict d) | _ => "{}" end) in
  run_script "Failed to call execd: " namespace pod_name script.

Definition call_execd_submit (namespace pod_name : string) (json_body : dict pyval) : MK E pyval :=
  run_script "Failed to submit task: " namespace pod_name (submit_script (dumps (PDict json_body))).
End execd.
