(* ===== verification/K8sService.v ===== *)
(** * The Kubernetes service ([server/src/services/k8s/kubernetes_service.py])

    [KubernetesSandboxService] against the interface [WorkloadProvider]: a workload
    is the dictionary that the custom objects API returns.  pydantic, which turns
    the values of a workload into the fields of a response, is the class [Pydantic];
    its [ValidationError] is a [ValueError]. *)

From Stdlib Require Import Ascii QArith Qround.
From S2P Require Import Prelude PyString PyDict PyTime Json PyVal Schema Validators Config Helpers Common.
From S2P Require Import Listing RateLimiter Informer K8sHelpers K8sClient WorkloadProvider Execd.
Close Scope Q_scope.
Open Scope string_scope.
Open Scope list_scope.
Import SandboxErrorCodes.

(** How pydantic reads a datetime, and the text of its errors for a model. *)
Class Pydantic := {
  datetime_of : pyval → option datetime;
  validation_text : string → string }.

Record KubernetesSandboxService (E : Type) := {
  ks_config : AppConfig;
  ks_kubernetes : KubernetesRuntimeConfig;
  ks_namespace : string;
  ks_provider : WorkloadProvider E }.
Arguments ks_config {E} k.
Arguments ks_kubernetes {E} k.
Arguments ks_namespace {E} k.
Arguments ks_provider {E} k.

(** ** Errors *)

(** [str(e)]: the detail of an [HTTPException] is the dictionary of code and message. *)
Definition exc_str (e : exn) : string :=
  match e with
  | HTTPException s c m =>
      str_of_Z s +:+ ": {'code': " +:+ repr c +:+ ", 'message': " +:+ repr m +:+ "}"
  | PyException _ m => m
  end.

Definition sandbox_not_found (sandbox_id : string) : exn :=
  HTTPException 404 K8S_SANDBOX_NOT_FOUND ("Sandbox '" +:+ sandbox_id +:+ "' not found").

(** [except HTTPException: raise] and [except Exception as e: raise HTTPException(500, ...)] *)
Definition or_500 {St A} (code message : string) (m : M St A) : M St A :=
  try_except m (λ e, if is_http e then raise e else raise (HTTPException 500 code (message +:+ exc_str e))).

(** The handlers of the two create methods. *)
Definition create_handlers {St A} (m : M St A) : M St A :=
  try_except m (λ e,
    if is_http e then raise e
    else if is_value_error e then raise (bad_request INVALID_PARAMETER (exc_str e))
    else raise (HTTPException 500 K8S_API_ERROR ("Failed to create sandbox: " +:+ exc_str e))).

(** ** Models *)

Section models.
Context `{Pydantic}.

Definition validation_error (model : string) : exn := PyException ValueError (validation_text model).

Definition opt_text (model : string) (v : pyval) : result (option string) :=
  match v with PNone => Ok None | PStr s => Ok (Some s) | _ => Raise (validation_error model) end.

Definition some_text (model : string) (v : pyval) : result string :=
  match v with PStr s => Ok s | _ => Raise (validation_error model) end.

Definition a_datetime (model : string) (v : pyval) : result datetime :=
  match datetime_of v with Some d => Ok d | None => Raise (validation_error model) end.

Fixpoint text_list (model : string) (l : list pyval) : result (list string) :=
  match l with
  | [] => Ok []
  | v :: l' => s ← some_text model v; r ← text_list model l'; Ok (s :: r)
  end.

Fixpoint text_dict (model : string) (d : dict pyval) : result (dict string) :=
  match d with
  | [] => Ok []
  | (k, v) :: d' => s ← some_text model v; r ← text_dict model d'; Ok ((k, s) :: r)
  end.

(** [SandboxStatus(state=..., reason=..., message=..., last_transition_at=...)] *)
Definition sandbox_status (i : StatusInfo) : result SandboxStatus :=
  reason ← opt_text "SandboxStatus" (si_reason i);
  message ← opt_text "SandboxStatus" (si_message i);
  t ← match si_last_transition i with
      | PNone => Ok None
      | v => d ← a_datetime "SandboxStatus" v; Ok (Some d)
      end;
  Ok {| state := si_state i; reason := reason; status_message := message; last_transition_at := t |}.

(** [datetime.fromtimestamp(n, tz=timezone.utc)] *)
Definition fromtimestamp (n : Z) : result datetime :=
  if (n <? - 2 ^ 63)%Z || (2 ^ 63 <=? n)%Z then
    Raise (PyException OverflowError "timestamp out of range for platform time_t")
  else if (n <? -67768040609740800)%Z || (67768036191676800 <=? n)%Z then
    Raise (PyException OSError "[Errno 75] Value too large for defined data type")
  else
    let us := ((n + 62135596800) * us_per_second)%Z in
    if dt_in_range us then Ok (utc us) else Raise (PyException ValueError "year is out of range").

Definition is_value_or_type_error (e : exn) : bool :=
  match e with PyException (ValueError | TypeError) _ => true | _ => false end.

(** [last_activity_at]: seconds, or else ISO format, or else nothing. *)
Definition parse_activity (raw : pyval) : result (option datetime) :=
  if negb (vtruthy raw) then Ok None else
  match (n ← int_of raw; fromtimestamp n) with
  | Ok d => Ok (Some d)
  | Raise e =>
      if is_value_or_type_error e
      then Ok (match raw with PStr s => fromisoformat s | _ => None end)
      else Raise e
  end.

(** The first container of a workload. *)
Definition first_container (spec : pyval) : result (pyval * pyval) :=
  template ← vget spec "template";
  pod_template ← (if vtruthy template then Ok template else vget spec "podTemplate");
  let template := val_or pod_template (PDict []) in
  pod_spec ← vget_dict template "spec";
  containers ← get_or pod_spec "containers" (PList []);
  if vtruthy containers then
    container ← item0 containers;
    image_uri ← get_or container "image" (PStr EmptyString);
    entrypoint ← get_or container "command" (PList []);
    Ok (image_uri, entrypoint)
  else Ok (PStr EmptyString, PList []).

Definition user_labels (labels : dict pyval) : dict pyval :=
  List.filter (λ kv, negb (startswith kv.1 "opensandbox.io/")) labels.
End models.

(** [labels.items()] *)
Definition dict_items (v : pyval) : result (dict pyval) :=
  match v with PDict d => Ok d | _ => Raise (attribute_error v "items") end.

(** [f"{x / 10**6:.1f}"] of a count of microseconds *)
Definition seconds_text (us : Z) : string :=
  let q := (Z.abs us / 100000)%Z in
  let r := (Z.abs us mod 100000)%Z in
  let tenths := if (50000 <? r)%Z || ((r =? 50000)%Z && Z.odd q) then (q + 1)%Z else q in
  (if (us <? 0)%Z then "-" else EmptyString) +:+ str_of_Z (tenths / 10) +:+ "." +:+ str_of_Z (tenths mod 10).

(** ** The service *)

Section service.
Context {E : Type} `{K8sEnv E} `{Pydantic} (s : KubernetesSandboxService E).

(** *** Waiting for a sandbox *)

(** How a round of the loop ends: the workload is ready, or the next round
    starts after the pause. *)
Definition poll (sandbox_id : string) (last_state : option string) : MK E (pyval + option string) :=
  try_except
    (workload ← wp_get_workload (ks_provider s) sandbox_id (ks_namespace s);
     if negb (vtruthy workload) then mret (inr last_state) else
     status_info ← wp_get_status (ks_provider s) workload;
     if one_of (si_state status_info) ["Running"; "Allocated"] then mret (inl workload)
     else mret (inr (Some (si_state status_info))))
    (λ e, if is_http e then raise e else mret (inr last_state)).

(** The loop; [None] when the fuel is used up.  [inr] is the end of the time. *)
Fixpoint wait_loop (fuel : nat) (sandbox_id : string) (start timeout : Z) (interval : Q) (last_state : option string)
    (w : KWorld E) : option (result (pyval + option string) * KWorld E) :=
  match fuel with
  | O => None
  | S fuel' =>
      let '(now, e) := k_clock (kenv w) in
      let w := Build_KWorld (kcl w) e in
      if negb (now - start <? timeout * us_per_second)%Z then Some (Ok (inr last_state), w) else
      match poll sandbox_id last_state w with
      | (Ok (inl workload), w) => Some (Ok (inl workload), w)
      | (Ok (inr last_state'), w) =>
          wait_loop fuel' sandbox_id start timeout interval last_state' (sleep_world interval w)
      | (Raise x, w) => Some (Raise x, w)
      end
  end.

(** Enough rounds for a clock that runs on during the pauses. *)
Definition wait_fuel (timeout : Z) (interval : Q) : nat := Z.to_nat (Qceiling (inject_Z timeout / interval)) + 2.

(** [_wait_for_sandbox_ready]; a loop that is cut off is a [RuntimeError] here. *)
Definition wait_for_sandbox_ready (sandbox_id : string) (timeout : Z) (interval : Q) : MK E pyval :=
  start ← kquery k_clock;
  r ← (λ w, match wait_loop (wait_fuel timeout interval) sandbox_id start timeout interval None w with
            | Some (r, w') => (r, w')
            | None => (Raise (PyException RuntimeError "still waiting for the sandbox"), w)
            end);
  match r with
  | inl workload => mret workload
  | inr last_state =>
      now ← kquery k_clock;
      raise (HTTPException 504 K8S_POD_READY_TIMEOUT
        ("Timeout waiting for sandbox " +:+ sandbox_id +:+ " to be Running with IP. Elapsed: "
         +:+ seconds_text (now - start) +:+ "s, Last state: " +:+ default "None" last_state))
  end.

(** *** Creation *)

Definition ensure_network_policy_support (request : CreateSandboxRequest) : result unit :=
  ensure_egress_configured (network_policy request) (egress_config (ks_config s) ≫= egress_image).

Definition ensure_image_auth_support (request : CreateSandboxRequest) : result unit :=
  match auth (image request) with
  | None => Ok tt
  | Some _ =>
      raise_if (negb (wp_supports_image_auth (ks_provider s)))
        (bad_request INVALID_PARAMETER
           ("image.auth is not supported by the current workload provider. " +:+
            "Use imagePullSecrets via Kubernetes ServiceAccount or sandbox template."))
  end.

(** The checks before anything is created. *)
Definition validate_request (request : CreateSandboxRequest) : MK E unit :=
  lift (ensure_entrypoint (entrypoint request));;
  lift (ensure_metadata_labels (req_metadata request));;
  match timeout request with
  | None => mret tt
  | Some _ => now ← know; lift (ensure_timeout_within_limit now (timeout request) (max_sandbox_timeout_seconds (server (ks_config s))))
  end;;
  lift (ensure_network_policy_support request);;
  lift (ensure_image_auth_support request).

Definition create_labels (sandbox_id : string) (created_at : Z) (expires_at : option datetime)
    (metadata : option (dict string)) : dict string :=
  let labels := [(SANDBOX_ID_LABEL, sandbox_id); (SANDBOX_LAST_ACTIVITY_AT_LABEL, str_of_Z (unix_seconds created_at))] in
  let labels := match expires_at with None => dset SANDBOX_MANUAL_CLEANUP_LABEL "true" labels | Some _ => labels end in
  match metadata with Some ((_ :: _) as m) => dupdate labels m | _ => labels end.

(** The arguments of [create_workload]: the egress image and token of a sandbox
    with a network policy, and the checks of the volumes. *)
Definition workload_args (request : CreateSandboxRequest) (sandbox_id : string) (created_at : Z)
    (expires_at : option datetime) : MK E CreateArgs :=
  '(egress_img, token, annotations) ←
    match network_policy request with
    | Some _ =>
        token ← kquery k_token_urlsafe;
        mret (egress_config (ks_config s) ≫= egress_image, Some token,
              Some [(SANDBOX_EGRESS_AUTH_TOKEN_METADATA_KEY, token)])
    | None => mret (None, None, None)
    end;
  lift (ensure_volumes_valid (volumes request)
          (match allowed_host_paths (storage (ks_config s)) with [] => None | l => Some l end));;
  mret {| ca_sandbox_id := sandbox_id; ca_namespace := (ks_namespace s); ca_image := image request;
          ca_entrypoint := entrypoint request; ca_env := default [] (env request);
          ca_resource_limits := resource_limits request;
          ca_labels := create_labels sandbox_id created_at expires_at (req_metadata request);
          ca_expires_at := expires_at; ca_execd_image := execd_image (runtime (ks_config s));
          ca_extensions := extensions request; ca_network_policy := network_policy request;
          ca_egress_image := egress_img; ca_volumes := volumes request; ca_annotations := annotations;
          ca_egress_token := token |}.

(** The identifier, the creation time and the expiration of a new sandbox. *)
Definition new_identity (request : CreateSandboxRequest) : MK E (string * Z * option datetime) :=
  hex ← kquery k_uuid4;
  created_at ← kquery k_clock;
  expires_at ← match timeout request with
               | Some t => d ← lift (calculate_expiration_or_raise (utc created_at) t); mret (Some d)
               | None => mret None
               end;
  mret (uuid_str hex, created_at, expires_at).

Definition create_response (request : CreateSandboxRequest) (sandbox_id : string) (created_at : Z)
    (expires_at : option datetime) (st : SandboxStatus) : CreateSandboxResponse :=
  {| resp_id := sandbox_id; resp_status := st; resp_metadata := req_metadata request; resp_expires_at := expires_at;
     resp_created_at := utc created_at; resp_entrypoint := entrypoint request |}.

Definition create_sandbox (request : CreateSandboxRequest) : MK E CreateSandboxResponse :=
  validate_request request;;
  '(sandbox_id, created_at, expires_at) ← new_identity request;
  create_handlers
    (args ← workload_args request sandbox_id created_at expires_at;
     _ ← wp_create_workload (ks_provider s) args;
     catch is_http
       (workload ← wait_for_sandbox_ready sandbox_id (sandbox_create_timeout_seconds (ks_kubernetes s))
                     (sandbox_create_poll_interval_seconds (ks_kubernetes s));
        status_info ← wp_get_status (ks_provider s) workload;
        st ← lift (sandbox_status status_info);
        mret (create_response request sandbox_id created_at expires_at st))
       (λ e,
          try_except (wp_delete_workload (ks_provider s) sandbox_id (ks_namespace s)) (λ _, mret tt);;
          raise e)).

Definition create_sandbox_async (request : CreateSandboxRequest) : MK E CreateSandboxResponse :=
  validate_request request;;
  '(sandbox_id, created_at, expires_at) ← new_identity request;
  create_handlers
    (args ← workload_args request sandbox_id created_at expires_at;
     _ ← wp_create_workload (ks_provider s) args;
     mret (create_response request sandbox_id created_at expires_at
       {| state := "Pending"; reason := Some "PROVISIONING";
          status_message := Some "Sandbox creation in progress. Poll GET /sandboxes/{id} for status.";
          last_transition_at := Some (utc created_at) |})).

(** *** Reading *)

Definition find_workload (sandbox_id : string) : MK E pyval :=
  workload ← wp_get_workload (ks_provider s) sandbox_id (ks_namespace s);
  if negb (vtruthy workload) then raise (sandbox_not_found sandbox_id) else mret workload.

(** [_build_sandbox_from_workload] of a dictionary *)
Definition build_sandbox_from_workload (workload : pyval) : MK E Sandbox :=
  metadata ← lift (vget_dict workload "metadata");
  spec ← lift (vget_dict workload "spec");
  labels ← lift (vget_dict metadata "labels");
  creation_timestamp ← lift (vget metadata "creationTimestamp");
  sandbox_id ← lift (get_or labels SANDBOX_ID_LABEL (PStr EmptyString));
  expires_at ← lift (wp_get_expiration (ks_provider s) workload);
  status_info ← wp_get_status (ks_provider s) workload;
  label_items ← lift (dict_items labels);
  let user_metadata := user_labels label_items in
  '(image_uri, entrypoint) ← lift (first_container spec);
  image ← lift (if vtruthy image_uri then some_text "ImageSpec" image_uri else Ok "unknown");
  last_activity_raw ← lift (vget labels SANDBOX_LAST_ACTIVITY_AT_LABEL);
  last_activity_at ← lift (parse_activity last_activity_raw);
  st ← lift (sandbox_status status_info);
  lift (id ← some_text "Sandbox" sandbox_id;
        created_at ← a_datetime "Sandbox" creation_timestamp;
        metadata ← match user_metadata with [] => Ok None | d => m ← text_dict "Sandbox" d; Ok (Some m) end;
        entry ← match entrypoint with PList l => text_list "Sandbox" l | _ => Raise (validation_error "Sandbox") end;
        Ok {| sb_id := id; sb_image := {| uri := image; auth := None |}; sb_status := st; sb_metadata := metadata;
              sb_entrypoint := entry; sb_expires_at := expires_at; sb_created_at := created_at;
              sb_last_activity_at := last_activity_at |}).

Definition get_sandbox (sandbox_id : string) : MK E Sandbox :=
  or_500 K8S_API_ERROR "Failed to get sandbox: "
    (workload ← find_workload sandbox_id; build_sandbox_from_workload workload).

Fixpoint build_sandboxes (workloads : list pyval) : MK E (list Sandbox) :=
  match workloads with
  | [] => mret []
  | w :: ws => sandbox ← build_sandbox_from_workload w; rest ← build_sandboxes ws; mret (sandbox :: rest)
  end.

Definition apply_filters (sandboxes : list Sandbox) (filter_spec : SandboxFilter) : list Sandbox :=
  List.filter (λ sandbox, matches_filter sandbox filter_spec) sandboxes.

(** The page of the sorted list. *)
Definition page_response (p : PaginationRequest) (filtered : list Sandbox) : ListSandboxesResponse :=
  let total := Z.of_nat (length filtered) in
  let start_idx := ((page p - 1) * page_size p)%Z in
  let end_idx := (start_idx + page_size p)%Z in
  let pages := ((total + page_size p - 1) / page_size p)%Z in
  {| items := slice start_idx end_idx filtered;
     pagination := {| info_page := page p; info_page_size := page_size p; total_items := total;
                      total_pages := pages; has_next_page := (page p <? pages)%Z |} |}.

Definition list_sandboxes (request : ListSandboxesRequest) : MK E ListSandboxesResponse :=
  try_except
    (workloads ← wp_list_workloads (ks_provider s) (ks_namespace s) SANDBOX_ID_LABEL;
     l ← lift (iterate workloads);
     sandboxes ← build_sandboxes l;
     filtered ← lift (sort_created (apply_filters sandboxes (Schema.list_filter request)));
     match list_pagination request with
     | Some p => mret (page_response p filtered)
     | None => raise (attribute_error PNone "page")
     end)
    (λ e, raise (HTTPException 500 K8S_API_ERROR ("Failed to list sandboxes: " +:+ exc_str e))).

(** *** Deleting, pausing, resuming *)

Definition delete_sandbox (sandbox_id : string) : MK E unit :=
  try_except (wp_delete_workload (ks_provider s) sandbox_id (ks_namespace s))
    (λ e,
      if contains (lower (exc_str e)) "not found" then raise (sandbox_not_found sandbox_id)
      else raise (HTTPException 500 K8S_API_ERROR ("Failed to delete sandbox: " +:+ exc_str e))).

Definition invalid_state (text state must : string) : exn :=
  HTTPException 409 K8S_INVALID_STATE ("Cannot " +:+ text +:+ " in state '" +:+ state +:+ "'. Must be " +:+ must).

(** The status, which has to be one of [allowed]. *)
Definition require_state (text must : string) (allowed : list string) (workload : pyval) : MK E unit :=
  status_info ← wp_get_status (ks_provider s) workload;
  if one_of (si_state status_info) allowed then mret tt
  else raise (invalid_state text (si_state status_info) must).

Definition pause_sandbox (sandbox_id : string) : MK E unit :=
  or_500 K8S_API_ERROR "Failed to pause sandbox: "
    (workload ← find_workload sandbox_id;
     require_state "pause sandbox" "Running." ["Running"] workload;;
     wp_pause_workload (ks_provider s) sandbox_id (ks_namespace s)).

Definition resume_sandbox (sandbox_id : string) : MK E unit :=
  or_500 K8S_API_ERROR "Failed to resume sandbox: "
    (workload ← find_workload sandbox_id;
     require_state "resume sandbox" "Paused." ["Paused"] workload;;
     wp_resume_workload (ks_provider s) sandbox_id (ks_namespace s)).

(** *** Updates *)

(** Its check of the storage class *)
Definition check_expandable (storage_class_name : option string) : MK E unit :=
  match storage_class_name with
  | Some ((String _ _) as sc_name) =>
      sc ← get_storage_class sc_name;
      match sc with
      | Some c =>
          if default false (allow_volume_expansion c) then mret tt
          else raise (HTTPException 422 K8S_VOLUME_EXPANSION_NOT_SUPPORTED
            ("StorageClass '" +:+ sc_name +:+ "' does not support volume expansion. " +:+
             "Set allowVolumeExpansion: true on the StorageClass."))
      | None => mret tt
      end
  | _ => mret tt
  end.

(** [_expand_workspace_storage] *)
Definition expand_workspace_storage (sandbox_id new_size : string) : MK E unit :=
  let pvc_name := "workspace-" +:+ sandbox_id in
  found ← get_pvc (ks_namespace s) pvc_name;
  match found with
  | None =>
      raise (HTTPException 404 K8S_PVC_EXPAND_FAILED
        ("Workspace PVC '" +:+ pvc_name +:+ "' not found for sandbox '" +:+ sandbox_id +:+ "'"))
  | Some pvc =>
      let current_size_str := dget_default "storage" "0" (pvc_requests pvc) in
      current_bytes ← lift (parse_k8s_quantity current_size_str);
      new_bytes ← lift (parse_k8s_quantity new_size);
      if (new_bytes <? current_bytes)%Z then
        raise (HTTPException 400 K8S_PVC_SHRINK_NOT_SUPPORTED
          ("Cannot shrink storage from " +:+ current_size_str +:+ " to " +:+ new_size +:+ ". Only expansion is supported."))
      else if (new_bytes =? current_bytes)%Z then mret tt
      else
        check_expandable (pvc_storage_class pvc);;
        patch_pvc (ks_namespace s) pvc_name
          (PDict [("spec", PDict [("resources", PDict [("requests", PDict [("storage", PStr new_size)])])])])
  end.

(** [_extract_resource_limits] *)
Definition extract_resource_limits (workload : pyval) : result (dict pyval) :=
  match workload with
  | PDict _ =>
      spec ← vget_dict workload "spec";
      pod_template ← vget_dict spec "podTemplate";
      template ← get_or spec "template" pod_template;
      pod_spec ← vget_dict template "spec";
      containers ← get_or pod_spec "containers" (PList []);
      if vtruthy containers then
        first ← item0 containers;
        resources ← vget_dict first "resources";
        limits ← vget_dict resources "limits";
        as_dict limits
      else Ok []
  | _ => Ok []
  end.

Definition opt_entry (key : string) (o : option string) : dict string :=
  match o with Some v => [(key, v)] | None => [] end.

Definition update_resource_limits (sandbox_id : string) (limits : UpdateResourceLimitsRequest)
    : MK E UpdateSandboxResourceLimitsResponse :=
  or_500 K8S_RESOURCE_UPDATE_FAILED "Failed to update resource limits: "
    (workload ← find_workload sandbox_id;
     require_state "update resources" "Running or Paused." ["Running"; "Paused"] workload;;
     let compute_updates := opt_entry "cpu" (upd_cpu limits) ++ opt_entry "memory" (upd_memory limits) in
     match compute_updates with
     | [] => mret tt
     | _ => wp_update_resource_limits (ks_provider s) sandbox_id (ks_namespace s) compute_updates
     end;;
     match upd_storage limits with
     | Some size => expand_workspace_storage sandbox_id size
     | None => mret tt
     end;;
     let result_limits := compute_updates ++ opt_entry "storage" (upd_storage limits) in
     workload ← wp_get_workload (ks_provider s) sandbox_id (ks_namespace s);
     status_info ← wp_get_status (ks_provider s) workload;
     current_limits ← lift (extract_resource_limits workload);
     st ← lift (sandbox_status status_info);
     now ← lift (text_dict "UpdateSandboxResourceLimitsResponse" (update_strings current_limits result_limits));
     mret {| limits_id := sandbox_id; limits_status := st; limits_now := now |}).

(** [{k: (v or "") ...}] *)
Definition clean_env (env : dict (option string)) : dict string := prod_map id (λ v, or_else v EmptyString) <$> env.

Definition update_env (sandbox_id : string) (env : dict (option string)) : MK E UpdateSandboxEnvResponse :=
  or_500 K8S_RESOURCE_UPDATE_FAILED "Failed to update environment variables: "
    (workload ← find_workload sandbox_id;
     require_state "update env" "Running or Paused." ["Running"; "Paused"] workload;;
     wp_update_env (ks_provider s) sandbox_id (ks_namespace s) (prod_map id Some <$> clean_env env);;
     mret {| env_id := sandbox_id; env_now := clean_env env |}).

Definition renew_expiration (sandbox_id : string) (request : RenewSandboxExpirationRequest)
    : MK E RenewSandboxExpirationResponse :=
  now ← know;
  new_expiration ← lift (ensure_future_expiration now (renew_expires_at request));
  or_500 K8S_API_ERROR "Failed to renew expiration: "
    (workload ← find_workload sandbox_id;
     current_expiration ← lift (wp_get_expiration (ks_provider s) workload);
     match current_expiration with
     | None =>
         raise (HTTPException 409 INVALID_EXPIRATION
           ("Sandbox " +:+ sandbox_id +:+ " does not have automatic expiration enabled."))
     | Some _ =>
         wp_update_expiration (ks_provider s) sandbox_id (ks_namespace s) new_expiration;;
         mret {| renewed_expires_at := new_expiration |}
     end).

(** Best effort: every exception is swallowed. *)
Definition touch_last_activity (sandbox_id : string) : MK E unit :=
  try_except
    (timestamp ← know; wp_touch_last_activity (ks_provider s) sandbox_id (ks_namespace s) timestamp)
    (λ _, mret tt).

(** *** Endpoints *)

Definition get_egress_auth_token (workload : pyval) : result pyval :=
  metadata ← vget_dict workload "metadata";
  annotations ← vget_dict metadata "annotations";
  vget (val_or annotations (PDict [])) SANDBOX_EGRESS_AUTH_TOKEN_METADATA_KEY.

(** The headers go into the endpoint object, whose fields are not checked again. *)
Definition k8s_attach_headers (endpoint : Endpoint) (workload : pyval) : result Endpoint :=
  token ← get_egress_auth_token workload;
  Ok (if vtruthy token then
        {| ep_endpoint := ep_endpoint endpoint;
           ep_headers := Some (merge_endpoint_headers (ep_headers endpoint) (build_egress_auth_headers (vstr token))) |}
      else endpoint).

Definition get_endpoint (sandbox_id : string) (port : Z) (resolve_internal : bool) : MK E Endpoint :=
  lift (ensure_valid_port port);;
  or_500 K8S_API_ERROR "Failed to get endpoint: "
    (workload ← find_workload sandbox_id;
     endpoint ← wp_get_endpoint_info (ks_provider s) workload port sandbox_id;
     match endpoint with
     | None =>
         raise (HTTPException 404 K8S_POD_IP_NOT_AVAILABLE
           "Pod IP is not yet available. The Pod may still be starting.")
     | Some e => lift (k8s_attach_headers e workload)
     end).

(** *** Pods: logs, terminals, tasks *)

Definition get_sandbox_pod_name (sandbox_id : string) : MK E string :=
  workload ← find_workload sandbox_id;
  status_info ← wp_get_status (ks_provider s) workload;
  if str_eqb (si_state status_info) "Paused"
  then raise (HTTPException 409 K8S_INVALID_STATE "Sandbox is paused. Resume it first.")
  else
    pod_name ← get_pod_name_for_sandbox (ks_namespace s) sandbox_id;
    match pod_name with
    | Some ((String _ _) as n) => mret n
    | _ => raise (HTTPException 404 K8S_POD_IP_NOT_AVAILABLE "No running pod found for this sandbox.")
    end.

Definition get_sandbox_logs (sandbox_id : string) (tail_lines : Z) (follow : bool) : MK E string :=
  pod_name ← get_sandbox_pod_name sandbox_id;
  try_except (read_pod_log (ks_namespace s) pod_name "sandbox" (Some tail_lines) follow)
    (λ e, raise (HTTPException 500 K8S_API_ERROR ("Failed to read pod logs: " +:+ exc_str e))).

Definition exec_sandbox_terminal (sandbox_id command : string) : MK E string :=
  pod_name ← get_sandbox_pod_name sandbox_id;
  exec_interactive (ks_namespace s) pod_name "sandbox" (Some [command]).

Context (literal_eval : string → result pyval).

Definition task_body (command cwd timeout_ms envs : pyval) : dict pyval :=
  [("command", command); ("cwd", cwd); ("background", PBool true)]
  ++ (if bool_decide (timeout_ms = PNone) then [] else [("timeout", timeout_ms)])
  ++ (if vtruthy envs then [("envs", envs)] else []).

(** The arguments come from the JSON body of a request, unchecked. *)
Definition submit_task (sandbox_id : string) (command cwd timeout_ms envs : pyval) : MK E pyval :=
  pod_name ← get_sandbox_pod_name sandbox_id;
  result ← call_execd_submit literal_eval (ks_namespace s) pod_name (task_body command cwd timeout_ms envs);
  status_code ← lift (vget result "status_code");
  body ← lift (vget result "body");
  if negb (eq_int status_code 200)
  then raise (HTTPException 502 K8S_API_ERROR ("execd returned error: " +:+ vstr body))
  else
    task_id ← lift (vget result "task_id");
    mret (PDict [("taskId", task_id); ("status", PStr "running")]).

Definition task_not_found (task_id : string) : exn :=
  HTTPException 404 "TASK::NOT_FOUND" ("Task '" +:+ task_id +:+ "' not found").

(** [result["status_code"] == 404] raises. *)
Definition check_task (answer : pyval) (task_id : string) : result unit :=
  status_code ← item answer "status_code";
  raise_if (eq_int status_code 404) (task_not_found task_id).

Definition get_task_status (sandbox_id task_id : string) : MK E pyval :=
  pod_name ← get_sandbox_pod_name sandbox_id;
  result ← call_execd literal_eval (ks_namespace s) pod_name "GET" ("/command/status/" +:+ task_id) None None;
  lift (check_task result task_id);;
  lift (item result "body").

Definition get_task_logs (sandbox_id task_id : string) (cursor : option Z) : MK E pyval :=
  pod_name ← get_sandbox_pod_name sandbox_id;
  let params := match cursor with Some c => Some [("cursor", str_of_Z c)] | None => None end in
  result ← call_execd literal_eval (ks_namespace s) pod_name "GET" ("/command/" +:+ task_id +:+ "/logs") None params;
  lift (check_task result task_id);;
  lift (body ← item result "body";
        headers ← item result "headers";
        lower_case ← vget headers "execd-commands-tail-cursor";
        cursor ← (if vtruthy lower_case then Ok lower_case else vget headers "Execd-Commands-Tail-Cursor");
        Ok (PDict [("body", body); ("cursor", cursor)])).

Definition kill_task (sandbox_id task_id : string) : MK E unit :=
  pod_name ← get_sandbox_pod_name sandbox_id;
  result ← call_execd literal_eval (ks_namespace s) pod_name "DELETE" "/command" None (Some [("id", task_id)]);
  lift (check_task result task_id).
End service.
