(* ===== verification/ServiceFactory.v ===== *)
(** * Construction of the services

    [server/src/services/factory.py], [server/src/services/k8s/provider_factory.py] and
    the constructors of [KubernetesSandboxService], [BatchSandboxProvider] and
    [AgentSandboxProvider].  Template files, the cluster configuration and provider
    classes from outside are parameters. *)

From Stdlib Require Import Ascii QArith.
From S2P Require Import Prelude PyString PyDict PyTime Json PyVal Schema Config RuntimeResolver.
From S2P Require Import Template RateLimiter Informer K8sHelpers K8sClient WorkloadProvider.
From S2P Require Import BatchProvider AgentProvider Execd K8sService.
Close Scope Q_scope.
Open Scope string_scope.
Open Scope list_scope.

(** ** The registry of providers *)

Definition PROVIDER_TYPE_BATCHSANDBOX : string := "batchsandbox".
Definition PROVIDER_TYPE_AGENT_SANDBOX : string := "agent-sandbox".

(** A class of the server, or one from outside: its name, and whether it inherits
    from [WorkloadProvider]. *)
Inductive provider_class :=
| AgentSandboxClass
| BatchSandboxClass
| CustomClass (name : string) (subclass : bool).

Definition Registry : Type := dict provider_class.

Definition default_registry : Registry :=
  [(PROVIDER_TYPE_AGENT_SANDBOX, AgentSandboxClass); (PROVIDER_TYPE_BATCHSANDBOX, BatchSandboxClass)].

Definition register_provider (name : string) (cls : provider_class) : M Registry unit :=
  match cls with
  | CustomClass n false =>
      raise (PyException TypeError ("Provider class must inherit from WorkloadProvider, got " +:+ n))
  | _ => modify (dset (lower name) cls)
  end.

Fixpoint insert_string (x : string) (l : list string) : list string :=
  match l with
  | [] => [x]
  | y :: l' => if String.leb x y then x :: l else y :: insert_string x l'
  end.

Definition list_available_providers (registry : Registry) : list string := foldr insert_string [] (dkeys registry).

(** ** Constructors *)

Section factory.
Context {E : Type} `{K8sEnv E} (sha256 : string → string) (open_file : string → TemplateFile).
Context (custom : string → option AppConfig → result (WorkloadProvider E)).

(** [SecureRuntimeResolver(app_config).get_k8s_runtime_class()] *)
Definition runtime_class_of (app_config : option AppConfig) : option string :=
  app_config ≫= λ c, get_k8s_runtime_class (make_resolver c).

Definition make_batch_provider (app_config : option AppConfig) : result BatchSandboxProvider :=
  let k8s_config := app_config ≫= kubernetes in
  templates ← template_manager (k8s_config ≫= batchsandbox_template_file) "BatchSandbox" open_file;
  Ok {| bp_ingress := app_config ≫= ingress;
        bp_init_resources := k8s_config ≫= execd_init_resources;
        bp_runtime_class := runtime_class_of app_config;
        bp_templates := templates |}.

Definition make_agent_provider (app_config : option AppConfig) : result AgentSandboxProvider :=
  let k8s_config := app_config ≫= kubernetes in
  let agent_config := app_config ≫= agent_sandbox in
  templates ← template_manager (agent_config ≫= template_file) "Agent-sandbox" open_file;
  Ok {| ap_shutdown_policy := match agent_config with Some a => shutdown_policy a | None => "Delete" end;
        ap_service_account := k8s_config ≫= service_account;
        ap_templates := templates;
        ap_ingress := app_config ≫= ingress;
        ap_init_resources := k8s_config ≫= execd_init_resources;
        ap_workspace_size := match app_config with Some c => default_workspace_volume_size (storage c) | None => "1Gi" end;
        ap_runtime_class := runtime_class_of app_config |}.

(** [create_workload_provider]; the client holds the Kubernetes configuration. *)
Definition create_workload_provider (registry : Registry) (provider_type : option string)
    (kcfg : KubernetesRuntimeConfig) (app_config : AppConfig) : result (WorkloadProvider E) :=
  provider_type ←
    match provider_type with
    | Some t => Ok t
    | None =>
        match dkeys registry with
        | t :: _ => Ok t
        | [] => Raise (value_error "No workload providers are registered. Cannot create a default provider.")
        end
    end;
  let provider_type_lower := lower provider_type in
  match dget provider_type_lower registry with
  | None =>
      Raise (value_error ("Unsupported workload provider type '" +:+ provider_type +:+ "'. Available providers: "
               +:+ join ", " (dkeys registry)))
  | Some cls =>
      let argument := if one_of provider_type_lower [PROVIDER_TYPE_BATCHSANDBOX; PROVIDER_TYPE_AGENT_SANDBOX]
                      then Some app_config else None in
      match cls with
      | BatchSandboxClass => p ← make_batch_provider argument; Ok (batch_provider kcfg p)
      | AgentSandboxClass => p ← make_agent_provider argument; Ok (agent_provider sha256 kcfg p)
      | CustomClass name _ => custom name argument
      end
  end.

Definition init_error (message : string) : exn :=
  HTTPException 503 SandboxErrorCodes.K8S_INITIALIZATION_ERROR message.

(** [KubernetesSandboxService.__init__]; [load_config] is what reading the cluster
    configuration gives, [now] the monotonic clock, and the namespace of the
    configuration has to be there. *)
Definition kubernetes_service (registry : Registry) (load_config : result unit) (now : Q) (namespace : string)
    (config : AppConfig) : result (KubernetesSandboxService E * KClient) :=
  raise_if (negb (str_eqb (runtime_type (runtime config)) "kubernetes"))
    (value_error "KubernetesSandboxService requires runtime.type = 'kubernetes'");;
  match kubernetes config with
  | None => Raise (value_error "Kubernetes configuration is required")
  | Some kcfg =>
      client ←
        match (match load_config with
               | Ok _ => new_client kcfg now
               | Raise e => Raise (plain_exception ("Failed to load Kubernetes configuration: " +:+ exc_str e))
               end) with
        | Ok c => Ok c
        | Raise e => Raise (init_error ("Failed to initialize Kubernetes client: " +:+ exc_str e))
        end;
      provider ←
        match create_workload_provider registry (workload_provider kcfg) kcfg config with
        | Ok p => Ok p
        | Raise e =>
            if is_value_error e
            then Raise (init_error ("Invalid workload provider configuration: " +:+ exc_str e))
            else Raise e
        end;
      Ok ({| ks_config := config; ks_kubernetes := kcfg; ks_namespace := namespace; ks_provider := provider |}, client)
  end.

(** [create_sandbox_service]: the constructor of the selected implementation. *)
Definition create_sandbox_service {D K : Type} (docker_service : AppConfig → result D)
    (kubernetes_service : AppConfig → result K) (service_type : option string) (config : AppConfig) : result (D + K) :=
  let selected_type := lower (match service_type with
                              | Some ((String _ _) as t) => t
                              | _ => runtime_type (runtime config)
                              end) in
  if str_eqb selected_type "docker" then d ← docker_service config; Ok (inl d)
  else if str_eqb selected_type "kubernetes" then k ← kubernetes_service config; Ok (inr k)
  else Raise (value_error ("Unsupported sandbox service type: " +:+ selected_type
                +:+ ". Supported types: docker, kubernetes")).
End factory.
