(* ===== verification/SimCluster.v ===== *)
(** * A simulated cluster

    A concrete instance of [K8sEnv]: an API server that stores custom objects and
    claims, applies merge patches (RFC 7386), counts versions, and has a clock that
    moves while a thread sleeps.  It shows that the laws that the theorems ask of
    the outside can hold, and evaluates their witnesses. *)

From Stdlib Require Import Ascii QArith Qround.
From S2P Require Import Prelude PyString PyDict PyTime Json PyVal Schema Config.
From S2P Require Import RateLimiter Informer K8sHelpers K8sClient.
Close Scope Q_scope.
Open Scope string_scope.
Open Scope list_scope.

(** ** Merge patches *)

Fixpoint merge_patch (target patch : pyval) {struct patch} : pyval :=
  match patch with
  | PDict p =>
      let base := match target with PDict d => d | _ => [] end in
      PDict ((fix go (d : dict pyval) (p : list (string * pyval)) : dict pyval :=
        match p with
        | [] => d
        | (k, PNone) :: p' => go (dpop k d) p'
        | (k, v) :: p' => go (dset k (merge_patch (dget_default k PNone d) v) d) p'
        end) base p)
  | _ => patch
  end.

(** ** The cluster *)

Definition ObjectKey : Type := (string * string) * string.
Definition object_key (r : Resource) (namespace name : string) : ObjectKey := (r_plural r, namespace, name).

Record SimCluster := {
  sc_objects : gmap ObjectKey pyval;
  sc_claims : gmap (string * string) PvcInfo;
  sc_pods : list (string * Pod);
  sc_clock : Z;
  sc_count : Z }.

Definition sc_set_objects f c : SimCluster := {|
  sc_objects := f (sc_objects c); sc_claims := sc_claims c; sc_pods := sc_pods c; sc_clock := sc_clock c; sc_count := sc_count c + 1 |}.
Definition sc_set_claims f c : SimCluster := {|
  sc_objects := sc_objects c; sc_claims := f (sc_claims c); sc_pods := sc_pods c; sc_clock := sc_clock c; sc_count := sc_count c + 1 |}.
Definition sc_advance (us : Z) c : SimCluster := {|
  sc_objects := sc_objects c; sc_claims := sc_claims c; sc_pods := sc_pods c; sc_clock := sc_clock c + us; sc_count := sc_count c + 1 |}.

Definition not_found_404 : exn := PyException (ApiException 404) "(404) Reason: Not Found".

Definition name_in (body : pyval) : option string :=
  match val_at ["metadata"; "name"] body with Some (PStr s) => Some s | _ => None end.

(** What the server makes sure of: every object carries its name and a version; a
    new one also gets an identifier and the time. *)
Definition served (n : string) (o : pyval) : pyval :=
  merge_patch o (PDict [("metadata", PDict [("name", PStr n); ("resourceVersion", PStr "1")])]).
Definition new_object (n : string) (count : Z) (body : pyval) : pyval :=
  merge_patch body (PDict [("metadata", PDict [("name", PStr n); ("resourceVersion", PStr "1");
    ("uid", PStr ("uid-" +:+ str_of_Z count)); ("creationTimestamp", PStr "2025-01-01T00:00:00Z")])]).

Definition sim_create (r : Resource) (namespace : string) (body : pyval) : M SimCluster pyval := λ c,
  match name_in body with
  | None => (Raise (PyException (ApiException 422) "(422) Reason: Unprocessable Entity"), c)
  | Some name =>
      let key := object_key r namespace name in
      match sc_objects c !! key with
      | Some _ => (Raise (PyException (ApiException 409) "(409) Reason: Conflict"), c)
      | None => let obj := new_object name (sc_count c) body in (Ok obj, sc_set_objects <[key := obj]> c)
      end
  end.

Definition sim_get (r : Resource) (namespace name : string) : M SimCluster pyval := λ c,
  match sc_objects c !! object_key r namespace name with
  | Some o => (Ok (served name o), c)
  | None => (Raise not_found_404, c)
  end.

Definition sim_patch (r : Resource) (namespace name : string) (body : pyval) : M SimCluster pyval := λ c,
  let key := object_key r namespace name in
  match sc_objects c !! key with
  | Some o => let o' := merge_patch o body in (Ok o', sc_set_objects <[key := o']> c)
  | None => (Raise not_found_404, c)
  end.

Definition sim_delete (r : Resource) (namespace name : string) (grace : Z) : M SimCluster unit := λ c,
  let key := object_key r namespace name in
  match sc_objects c !! key with
  | Some _ => (Ok tt, sc_set_objects (delete key) c)
  | None => (Raise not_found_404, c)
  end.

(** The objects of a resource and namespace; labels are not matched. *)
Definition sim_list (r : Resource) (namespace : string) (selector : string) : M SimCluster pyval := λ c,
  let found := List.filter (λ kv, bool_decide (kv.1.1 = (r_plural r, namespace))) (map_to_list (sc_objects c)) in
  (Ok (PDict [("items", PList found.*2)]), c).

Definition sim_claim (namespace name : string) : M SimCluster PvcInfo := λ c,
  match sc_claims c !! (namespace, name) with Some p => (Ok p, c) | None => (Raise not_found_404, c) end.

Definition claim_size (body : pyval) : option string :=
  match val_at ["spec"; "resources"; "requests"; "storage"] body with Some (PStr s) => Some s | _ => None end.

Definition sim_patch_claim (namespace name : string) (body : pyval) : M SimCluster unit := λ c,
  match sc_claims c !! (namespace, name), claim_size body with
  | Some p, Some size =>
      (Ok tt, sc_set_claims <[(namespace, name) := {| pvc_requests := dset "storage" size (pvc_requests p);
                                                      pvc_storage_class := pvc_storage_class p |}]> c)
  | _, _ => (Raise not_found_404, c)
  end.

#[global] Instance sim_k8s : K8sEnv SimCluster := {|
  k_clock := λ c, (sc_clock c, c);
  k_monotonic := λ c, (Qmake (sc_clock c) 1000000, c);
  k_uuid4 := λ c, ("0123456789abcdef0123456789abcdef", c);
  k_token_urlsafe := λ c, ("token-" +:+ str_of_Z (sc_count c), sc_advance 0 c);
  start_thread := λ c, (Ok tt, c);
  others := λ d kc c, (kc, sc_advance (Qceiling (d * 1000000)) c);
  api_create := sim_create;
  api_get := sim_get;
  api_list := sim_list;
  api_delete := sim_delete;
  api_patch := sim_patch;
  api_create_secret := λ _ _ c, (Ok tt, c);
  api_list_pods := λ namespace _ c, (Ok (List.filter (λ p, bool_decide (p.1 = namespace)) (sc_pods c)).*2, c);
  api_read_runtime_class := λ _ c, (Ok tt, c);
  api_create_pvc := λ namespace body c,
    (Ok tt, sc_set_claims <[(namespace, pvc_name body) := {| pvc_requests := [("storage", storage_request body)];
                                                             pvc_storage_class := None |}]> c);
  api_delete_pvc := λ namespace name c,
    match sc_claims c !! (namespace, name) with
    | Some _ => (Ok tt, sc_set_claims (delete (namespace, name)) c)
    | None => (Raise not_found_404, c)
    end;
  api_patch_pvc := sim_patch_claim;
  api_read_pvc := sim_claim;
  api_read_storage_class := λ _ c, (Ok {| allow_volume_expansion := Some true |}, c);
  api_read_log := λ _ _ c, (Ok EmptyString, c);
  api_exec := λ _ _ c, (Ok "{}", c) |}.

Definition empty_cluster : SimCluster := {|
  sc_objects := ∅; sc_claims := ∅; sc_pods := []; sc_clock := 63871372800000000; sc_count := 1 |}.

Definition idle_client : KClient := {| informers := ∅; read_limiter := None; write_limiter := None |}.

Definition sim_world : KWorld SimCluster := Build_KWorld idle_client empty_cluster.
