(* ===== verification/K8sWait.v ===== *)
(** * The wait for a sandbox ends

    [_wait_for_sandbox_ready] of [kubernetes_service.py] polls until the sandbox is
    ready or the time is over.  The loop ends if the clock runs on while the thread
    sleeps, within [wait_fuel] rounds. *)

From Stdlib Require Import Ascii QArith Qround Lqa.
From S2P Require Import Prelude PyString PyDict PyTime Json PyVal Schema Config Helpers Common.
From S2P Require Import RateLimiter Informer K8sHelpers K8sClient WorkloadProvider K8sService SimCluster.
Close Scope Q_scope.
Open Scope string_scope.
Open Scope list_scope.

Lemma inject_us (n : Z) : (inject_Z n * 1000000 == inject_Z (n * us_per_second))%Q.
Proof. unfold us_per_second. by rewrite inject_Z_mult. Qed.

Section waiting.
Context {E : Type} `{K8sEnv E} (s : KubernetesSandboxService E).

(** [time w] is the time that a clock would show at [w] at least: it does not go back
    in the calls of the loop, and a sleep lasts as long as it was asked to. *)
Record wait_laws (time : KWorld E → Z) : Prop := {
  clock_read : ∀ w t e, k_clock (kenv w) = (t, e) → (time w ≤ t ≤ time (Build_KWorld (kcl w) e))%Z;
  clock_sleep : ∀ d w, (0 < d)%Q → (inject_Z (time w) + d * 1000000 <= inject_Z (time (sleep_world d w)))%Q;
  clock_get : ∀ id w r w', wp_get_workload (ks_provider s) id (ks_namespace s) w = (r, w') → (time w ≤ time w')%Z;
  clock_status : ∀ wl w r w', wp_get_status (ks_provider s) wl w = (r, w') → (time w ≤ time w')%Z }.

(** The workload has been seen in a state that ends the wait. *)
Definition seen_ready (workload : pyval) : Prop :=
  vtruthy workload = true ∧
  ∃ w1 si w2, wp_get_status (ks_provider s) workload w1 = (Ok si, w2) ∧ (si_state si = "Running" ∨ si_state si = "Allocated").

(** The provider itself has raised the HTTP exception [x]. *)
Definition provider_raised (id : string) (x : exn) : Prop :=
  is_http x = true ∧
  ∃ w1 w2, wp_get_workload (ks_provider s) id (ks_namespace s) w1 = (Raise x, w2) ∨
           ∃ wl, wp_get_status (ks_provider s) wl w1 = (Raise x, w2).

Lemma one_of_two x a b : one_of x [a; b] = true ↔ x = a ∨ x = b.
Proof. unfold one_of, str_eqb. cbn. rewrite orb_false_r, orb_true_iff, !bool_decide_eq_true. done. Qed.

Lemma poll_spec time id last w r w' :
  wait_laws time → poll s id last w = (r, w') →
  (time w ≤ time w')%Z ∧
  match r with Ok (inl wl) => seen_ready wl | Ok (inr _) => True | Raise x => provider_raised id x end.
Proof.
  intros L. unfold poll, try_except, mbind, M_bind.
  destruct (wp_get_workload _ _ _ w) as [[wl|x] w1] eqn:Hg; pose proof (clock_get _ L _ _ _ _ Hg) as Ht.
  - destruct (vtruthy wl) eqn:Hwl; cbn [negb]; [|by intros [= <- <-]].
    destruct (wp_get_status _ wl w1) as [[si|x] w2] eqn:Hs; pose proof (clock_status _ L _ _ _ _ Hs) as Ht'.
    + destruct (one_of _ _) eqn:Ho; intros [= <- <-]; (split; [lia|]); [|done].
      apply one_of_two in Ho. split; [done|]. by exists w1, si, w2.
    + destruct (is_http x) eqn:Hx; intros [= <- <-]; (split; [lia|]); [|done].
      split; [done|]. exists w1, w2. right. by exists wl.
  - destruct (is_http x) eqn:Hx; intros [= <- <-]; (split; [lia|]); [|done].
    split; [done|]. exists w, w1. by left.
Qed.

Lemma wait_loop_ends time id start timeout interval n last w :
  wait_laws time → (0 < interval)%Q →
  (inject_Z (start + timeout * us_per_second - time w) <= inject_Z (Z.of_nat n) * (interval * 1000000))%Q →
  ∃ r w', wait_loop s (S n) id start timeout interval last w = Some (r, w') ∧
  match r with
  | Ok (inl wl) => seen_ready wl
  | Ok (inr _) => (start + timeout * us_per_second ≤ time w')%Z
  | Raise x => provider_raised id x
  end.
Proof.
  intros L Hi. revert last w. induction n as [|n IH]; intros last w Hr.
  all: cbn [wait_loop]; destruct (k_clock (kenv w)) as [t e] eqn:Hc; pose proof (clock_read _ L _ _ _ Hc) as Ht;
    destruct (t - start <? timeout * us_per_second)%Z eqn:Hlt; cbn [negb];
    [apply Z.ltb_lt in Hlt|apply Z.ltb_ge in Hlt; eexists _, _; split; [done|]; cbv beta iota; lia].
  - assert (start + timeout * us_per_second - time w ≤ 0)%Z; [|lia].
    rewrite Zle_Qle. change (inject_Z (Z.of_nat 0)) with 0%Q in Hr. rewrite Qmult_0_l in Hr. exact Hr.
  - destruct (poll s id last _) as [r w1] eqn:Hp. apply (poll_spec time) in Hp as [Ht1 Hp]; [|done].
    destruct r as [[wl|last']|x]; [by eauto| |by eauto]. apply IH.
    pose proof (clock_sleep _ L interval w1 Hi) as Hsl.
    assert (inject_Z (time w) <= inject_Z (time w1))%Q by (rewrite <-Zle_Qle; lia).
    assert (inject_Z (Z.of_nat (S n)) == inject_Z (Z.of_nat n) + 1)%Q as HS.
    { rewrite Nat2Z.inj_succ, <-Z.add_1_r, inject_Z_plus. done. }
    rewrite HS in Hr. unfold Z.sub in *. rewrite inject_Z_plus, inject_Z_opp in *. lra.
Qed.

Lemma wait_fuel_enough timeout interval :
  (0 < interval)%Q →
  ∃ n, wait_fuel timeout interval = S n ∧
    (inject_Z (timeout * us_per_second) <= inject_Z (Z.of_nat n) * (interval * 1000000))%Q.
Proof.
  intros Hi. unfold wait_fuel. set (c := Qceiling (inject_Z timeout / interval)).
  exists (S (Z.to_nat c)). split; [lia|]. rewrite <-inject_us.
  assert (inject_Z timeout / interval <= inject_Z (Z.of_nat (S (Z.to_nat c))))%Q as Hc.
  { eapply Qle_trans; [apply Qle_ceiling|]. rewrite <-Zle_Qle. fold c. lia. }
  assert (inject_Z timeout <= inject_Z (Z.of_nat (S (Z.to_nat c))) * interval)%Q as Hm.
  { apply (Qmult_le_compat_r _ _ interval) in Hc; [|lra].
    rewrite <-(Qmult_div_r (inject_Z timeout) interval) by lra.
    rewrite Qmult_comm in Hc. exact Hc. }
  lra.
Qed.

(** The loop runs out of time before it runs out of fuel. *)
Lemma wait_outcome time id timeout interval w :
  wait_laws time → (0 < interval)%Q →
  ∃ r w', wait_for_sandbox_ready s id timeout interval w = (r, w') ∧
  match r with
  | Ok workload => seen_ready workload
  | Raise x => provider_raised id x ∨
      (http_status x = 504%Z ∧ (time w + timeout * us_per_second ≤ time w')%Z)
  end.
Proof.
  intros L Hi. unfold wait_for_sandbox_ready, kquery, mbind, M_bind.
  destruct (k_clock (kenv w)) as [start e] eqn:Hc. pose proof (clock_read _ L _ _ _ Hc) as Ht. cbn [fst snd].
  set (w1 := Build_KWorld (kcl w) e) in *.
  destruct (wait_fuel_enough timeout interval Hi) as (n&->&Hn).
  destruct (wait_loop_ends time id start timeout interval n None w1 L Hi) as (r&w2&->&Hr).
  { eapply Qle_trans; [|exact Hn]. rewrite <-Zle_Qle. lia. }
  destruct r as [[wl|last]|x].
  - by eexists _, _.
  - destruct (k_clock (kenv w2)) as [now e2] eqn:Hc2. pose proof (clock_read _ L _ _ _ Hc2).
    eexists _, _. split; [done|]. right. split; [done|]. lia.
  - eexists _, _. split; [done|]. by left.
Qed.
(** C33: waiting for a new sandbox always ends, whatever the cluster does, if the
    clock runs while the thread sleeps and the poll interval is positive: either
    with a workload that was seen Running or Allocated, or with an HTTP exception
    of the provider, or with the 504 after at least the whole timeout. *)
Theorem wait_ends time id timeout interval w :
  wait_laws time → (0 < interval)%Q →
  ∃ r w', wait_for_sandbox_ready s id timeout interval w = (r, w') ∧
  match r with
  | Ok workload => seen_ready workload
  | Raise x => provider_raised id x ∨
      (http_status x = 504%Z ∧ (time w + timeout * us_per_second ≤ time w')%Z)
  end.
Proof. apply wait_outcome. Qed.
End waiting.
