(* ===== verification/ProviderLaws.v ===== *)
(** * What a workload provider promises, and that both providers keep it

    [ProviderLaws] states what the Kubernetes service relies on when it creates a
    sandbox and has to clean up: a creation that returns has made the object, one
    that raises has not, and a deletion leaves no object behind.  Both providers are
    shown to keep it when the API server answers its calls ([api_laws]). *)

From Stdlib Require Import Ascii QArith.
From S2P Require Import Prelude PyString PyDict PyTime Json PyVal Schema Config Template PodSpec.
From S2P Require Import RateLimiter Informer K8sHelpers K8sClient WorkloadProvider.
From S2P Require Import BatchProvider AgentProvider SimCluster.
Close Scope Q_scope.
Open Scope string_scope.
Open Scope list_scope.

(** ** The interface *)

(** [ready]: the worlds in which the laws hold; [name_of]: the name of the object of
    a sandbox; [present]: there is an object of that name. *)
Class ProviderLaws {E : Type} `{K8sEnv E} (p : WorkloadProvider E) (namespace : string)
    (ready : KWorld E → Prop) (name_of : string → string) (present : string → KWorld E → Prop) : Prop := {
  token_keeps w t e : ready w → k_token_urlsafe (kenv w) = (t, e) →
    ready (Build_KWorld (kcl w) e) ∧ ∀ n, present n (Build_KWorld (kcl w) e) ↔ present n w;
  create_adds a i w w' : ca_namespace a = namespace → ready w → wp_create_workload p a w = (Ok i, w') →
    present (name_of (ca_sandbox_id a)) w';
  create_raises a x w w' : ca_namespace a = namespace → ready w → wp_create_workload p a w = (Raise x, w') →
    ¬ present (name_of (ca_sandbox_id a)) w → ¬ present (name_of (ca_sandbox_id a)) w';
  create_ready a r w w' : ca_namespace a = namespace → ready w → wp_create_workload p a w = (r, w') → ready w';
  get_ready id r w w' : ready w → wp_get_workload p id namespace w = (r, w') → ready w';
  status_ready wl r w w' : ready w → wp_get_status p wl w = (r, w') → ready w';
  delete_clears id r w w' : ready w → wp_delete_workload p id namespace w = (r, w') → ¬ present (name_of id) w' }.

(** ** Objects and the cache *)

(** An object of the API server: it has its name, and a version that is text. *)
Definition good_object (n : string) (o : pyval) : Prop :=
  ∃ d m, o = PDict d ∧ dget "metadata" d = Some (PDict m) ∧ dget "name" m = Some (PStr n) ∧
  (dget_default "resourceVersion" PNone m = PNone ∨ ∃ v, dget_default "resourceVersion" PNone m = PStr v).

Definition has_uid (o : pyval) : Prop := is_Some (val_at ["metadata"; "uid"] o).

Lemma good_truthy n o : good_object n o → vtruthy o = true.
Proof. intros (d&m&->&Hd&_). by destruct d. Qed.

Lemma good_name n o : good_object n o → workload_name o = Ok n.
Proof.
  intros (d&m&->&Hd&Hn&_). unfold workload_name, item. rewrite Hd. cbn. by rewrite Hn.
Qed.

Lemma good_created {St} n o (s : St) : good_object n o → has_uid o → ∃ u, created_info o s = (Ok (PStr n, u), s).
Proof.
  intros (d&m&->&Hd&Hn&_) [u Hu]. exists u. cbn in Hu. rewrite Hd in Hu. cbn in Hu.
  unfold created_info, mbind, M_bind, lift, item. rewrite Hd, Hn. by destruct (dget "uid" m); simplify_eq/=.
Qed.

(** A cache that holds objects under their names. *)
Definition good_informer (i : Informer) : Prop :=
  (∀ n o, inf_cache i !! n = Some o → good_object n o) ∧
  (inf_version i = PNone ∨ ∃ v, inf_version i = PStr v).

Lemma advance_good rv i :
  good_informer i → (rv = PNone ∨ ∃ v, rv = PStr v) →
  ∃ i', advance_resource_version rv i = (Ok tt, i') ∧ good_informer i'.
Proof.
  intros Hi Hrv. pose proof Hi as [Hc Hv]. unfold advance_resource_version.
  destruct (vtruthy rv) eqn:Ht; cbn [negb]; [|eauto].
  assert (good_informer (set_version rv i)) as Hs by done.
  destruct (bool_decide _) eqn:Hb; [eauto|]. apply bool_decide_eq_false in Hb.
  destruct Hrv as [->|[v ->]]; [done|]. destruct Hv as [?|[cur Hcur]]; [done|]. rewrite Hcur.
  unfold newer, int_of. destruct (py_int v); cbn; [|eauto].
  destruct (py_int cur); cbn; [|eauto]. destruct (_ <? _)%Z; eauto.
Qed.

Lemma update_cache_good n o i :
  good_informer i → good_object n o → ∃ i', update_cache o i = (Ok tt, i') ∧ good_informer i'.
Proof.
  intros Hi Ho. pose proof Ho as (d&m&->&Hd&Hn&Hrv). unfold update_cache, mbind, M_bind, lift, vget_dict, vget, get_or, dget_default.
  rewrite Hd. rewrite Hn. destruct (vtruthy (PStr n)); cbn [negb]; [|eauto].
  cbn [cache_put]. change (match dget "resourceVersion" m with Some v => v | None => PNone end)
    with (dget_default "resourceVersion" PNone m). apply advance_good; [|done].
  destruct Hi as [Hc Hv]. split; [|done]. cbn. intros n' o' [[<- <-]|[_ Hl]]%lookup_insert_Some; [done|by apply Hc].
Qed.

(** ** The API server *)

Section api.
Context {E : Type} `{K8sEnv E} (obj : Resource → string → string → E → Prop).

Definition same_objects (e e' : E) : Prop := ∀ r ns n, obj r ns n e' ↔ obj r ns n e.

(** The API server answers every call, and only create and delete change which
    custom objects there are. *)
Record api_laws : Prop := {
  al_create r ns body e o e' : api_create r ns body e = (Ok o, e') →
    ∃ n, name_in body = Some n ∧ good_object n o ∧ has_uid o ∧ obj r ns n e';
  al_create_raises r ns body e x e' : api_create r ns body e = (Raise x, e') → same_objects e e';
  al_get r ns n e x e' : api_get r ns n e = (x, e') → same_objects e e' ∧
    match x with Ok o => good_object n o | Raise y => is_api_status 404 y = true ∧ ¬ obj r ns n e' end;
  al_delete r ns n g e x e' : api_delete r ns n g e = (x, e') →
    ¬ obj r ns n e' ∧ ∀ r' ns' n', obj r' ns' n' e' → obj r' ns' n' e;
  al_secret ns b e x e' : api_create_secret ns b e = (x, e') → same_objects e e';
  al_create_pvc ns b e x e' : api_create_pvc ns b e = (x, e') → same_objects e e';
  al_delete_pvc ns n e x e' : api_delete_pvc ns n e = (x, e') → same_objects e e';
  al_thread e x e' : start_thread e = (x, e') → same_objects e e';
  al_token e t e' : k_token_urlsafe e = (t, e') → same_objects e e' }.

(** The client has no limiters (a call waits for nobody) and good caches. *)
Definition calm (w : KWorld E) : Prop :=
  read_limiter (kcl w) = None ∧ write_limiter (kcl w) = None ∧
  ∀ k i, informers (kcl w) !! k = Some i → good_informer i.

Context (L : api_laws) (kcfg : KubernetesRuntimeConfig).

Lemma same_refl e : same_objects e e.
Proof. done. Qed.
Lemma same_trans e1 e2 e3 : same_objects e1 e2 → same_objects e2 e3 → same_objects e1 e3.
Proof. intros H1 H2 r ns n. by rewrite (H2 r ns n), (H1 r ns n). Qed.

Lemma read_free w : calm w → throttle_read w = (Ok tt, w).
Proof. intros (Hr&_). unfold throttle_read. by rewrite Hr. Qed.
Lemma write_free w : calm w → throttle_write w = (Ok tt, w).
Proof. intros (_&Hw&_). unfold throttle_write. by rewrite Hw. Qed.

(** What a call of the client does that makes no objects: the world stays calm. *)
Definition quiet_step (w w' : KWorld E) : Prop := calm w' ∧ same_objects (kenv w) (kenv w').

Lemma quiet_refl w : calm w → quiet_step w w.
Proof. by split. Qed.
Lemma quiet_trans w1 w2 w3 : quiet_step w1 w2 → quiet_step w2 w3 → quiet_step w1 w3.
Proof. intros [_ H1] [H2 H3]. split; [done|]. by eapply same_trans. Qed.

(** A write that leaves the objects alone. *)
Lemma write_quiet {A} (m : M E A) w r w' :
  calm w → (∀ e x e', m e = (x, e') → same_objects e e') →
  (throttle_write;; kcall m) w = (r, w') → quiet_step w w'.
Proof.
  intros Hc Hm. unfold mbind, M_bind. rewrite write_free by done. unfold kcall.
  destruct (m (kenv w)) as [x e] eqn:Hx. intros [= <- <-]. split; [done|]. by eapply Hm.
Qed.

Lemma get_informer_quiet r ns w :
  calm w → ∃ k w', get_informer kcfg r ns w = (Ok k, w') ∧ quiet_step w w'.
Proof.
  intros Hc. unfold get_informer. destruct (informer_enabled kcfg); cbn [negb]; [|eauto using quiet_refl].
  unfold mbind at 1, M_bind, get_kcl. destruct (informers (kcl w) !! _) as [i|] eqn:Hi; [eauto using quiet_refl|].
  unfold mbind at 1, M_bind, put_kcl, try_except, mbind, M_bind, kcall. cbn [kenv kcl].
  destruct Hc as (Hr&Hw&Hinf). destruct (start_thread (kenv w)) as [[[]|x] e] eqn:Hst;
    (eexists _, _; split; [reflexivity|]; split; [|by apply (al_thread L _ _ _ Hst)]; split_and!; [done..|]); cbn.
  - intros k i [[<- <-]|[_ Hl]]%lookup_insert_Some; [|by eapply Hinf]. split; [|by left].
    cbn. intros n o Hn. by rewrite lookup_empty in Hn.
  - intros k i [Hne Hl]%lookup_delete_Some. rewrite lookup_insert_ne in Hl by done. by eapply Hinf.
Qed.

Lemma informer_update_quiet k n o w :
  calm w → good_object n o → ∃ w', informer_update k o w = (Ok tt, w') ∧ quiet_step w w'.
Proof.
  intros Hc Ho. pose proof Hc as (Hr&Hw&Hi). unfold informer_update.
  destruct (informers (kcl w) !! k) as [i|] eqn:Hk; [|eauto using quiet_refl].
  destruct (update_cache_good n o i) as (i'&->&Hi'); [by eapply Hi|done|]. eexists. split; [done|].
  split; [|done]. split_and!; [done..|]. cbn. intros k' i0 [[<- <-]|[_ Hl]]%lookup_insert_Some; [done|by eapply Hi].
Qed.

(** Reading an object by its name: the object, or [None] if there is none. *)
Lemma get_object_spec r ns n w res w' :
  calm w → get_custom_object kcfg r ns n w = (res, w') →
  quiet_step w w' ∧ ∃ o, res = Ok o ∧ (good_object n o ∨ o = PNone ∧ ¬ obj r ns n (kenv w')).
Proof.
  intros Hc. unfold get_custom_object, mbind at 1, M_bind.
  destruct (get_informer_quiet r ns w Hc) as (k&w1&->&Hq1). pose proof Hq1 as [Hc1 _].
  unfold mbind at 1, M_bind. destruct (cached_object k n w1) as [rc w1'] eqn:Hcache.
  assert (w1' = w1 ∧ ∃ c, rc = Ok c ∧ ∀ o, c = Some o → good_object n o) as (->&c&->&Hgood).
  { unfold cached_object in Hcache. destruct k as [k|]; [|injection Hcache as <- <-; split; [done|]; by eexists].
    unfold get_kcl in Hcache. injection Hcache as <- <-. split; [done|]. eexists. split; [done|].
    intros o Ho. destruct (informers (kcl w1) !! k) as [i|] eqn:Hk; [|done]. cbn in Ho.
    destruct (inf_synced i); [|done]. destruct Hc1 as (_&_&Hi). by eapply Hi. }
  destruct c as [o|]; [intros [= <- <-]; split; [done|]; exists o; split; [done|]; left; by apply Hgood|].
  unfold mbind at 1, M_bind. rewrite read_free by done. unfold catch, try_except, mbind, M_bind, kcall.
  destruct (api_get r ns n (kenv w1)) as [[o|x] e] eqn:Hg; destruct (al_get L _ _ _ _ _ _ Hg) as [Hs Hx];
    set (w2 := Build_KWorld (kcl w1) e); assert (quiet_step w w2) as Hq2 by (by eapply quiet_trans; [|split]).
  - destruct k as [k|].
    + destruct (informer_update_quiet k n o w2) as (w3&->&Hq3); [apply Hq2|done|]. intros [= <- <-].
      split; [by eapply quiet_trans|]. exists o. auto.
    + intros [= <- <-]. split; [done|]. exists o. auto.
  - destruct Hx as [-> Hn]. intros [= <- <-]. split; [done|]. exists PNone. auto.
Qed.

(** Deleting clears the name and adds nothing. *)
Lemma delete_object_spec r ns n g w res w' :
  calm w → delete_custom_object r ns n g w = (res, w') →
  calm w' ∧ ¬ obj r ns n (kenv w') ∧ ∀ r' ns' n', obj r' ns' n' (kenv w') → obj r' ns' n' (kenv w).
Proof.
  intros Hc. unfold delete_custom_object, mbind, M_bind. rewrite write_free by done. unfold kcall.
  destruct (api_delete r ns n g (kenv w)) as [x e] eqn:Hx. intros [= <- <-].
  destruct (al_delete L _ _ _ _ _ _ _ Hx). by split_and!.
Qed.

Lemma delete_pvc_quiet ns n w res w' : calm w → delete_pvc ns n w = (res, w') → quiet_step w w'.
Proof.
  intros Hc. unfold delete_pvc, mbind, M_bind. rewrite write_free by done. unfold catch, try_except, kcall.
  destruct (api_delete_pvc ns n (kenv w)) as [x e] eqn:Hx. pose proof (al_delete_pvc L _ _ _ _ _ Hx) as Hs.
  destruct x as [[]|x]; [intros [= <- <-]; by split|]. destruct (is_api_status 404 x); intros [= <- <-]; by split.
Qed.

Lemma create_pvc_quiet ns n sz l w res w' : calm w → create_pvc ns n sz l w = (res, w') → quiet_step w w'.
Proof. intros Hc. apply write_quiet; [done|]. intros. by eapply al_create_pvc. Qed.

Lemma create_object_spec r ns body w res w' :
  calm w → create_custom_object r ns body w = (res, w') → calm w' ∧
  match res with
  | Ok o => ∃ n, name_in body = Some n ∧ good_object n o ∧ has_uid o ∧ obj r ns n (kenv w')
  | Raise _ => same_objects (kenv w) (kenv w')
  end.
Proof.
  intros Hc. unfold create_custom_object, mbind, M_bind. rewrite write_free by done. unfold kcall.
  destruct (api_create r ns body (kenv w)) as [[o|x] e] eqn:Hx; intros [= <- <-]; (split; [done|]).
  - by eapply al_create.
  - by eapply al_create_raises.
Qed.

(** The outcome of a creation: the object is there, or it is not there unless it
    was before. *)
Definition made {A} (r : Resource) (ns n : string) (w : KWorld E) (res : result A) (w' : KWorld E) : Prop :=
  calm w' ∧ match res with
            | Ok _ => obj r ns n (kenv w')
            | Raise _ => ¬ obj r ns n (kenv w) → ¬ obj r ns n (kenv w')
            end.

(** What may follow on a creation: it keeps the object, or removes it and raises. *)
Definition finishes {A} (r : Resource) (ns n : string) (m : MK E A) : Prop :=
  ∀ w res w', calm w → obj r ns n (kenv w) → m w = (res, w') →
  calm w' ∧ match res with Ok _ => obj r ns n (kenv w') | Raise _ => ¬ obj r ns n (kenv w') end.

Lemma info_finishes r ns n o : good_object n o → has_uid o → finishes r ns n (created_info o).
Proof. intros Ho Hu w res w' Hc Hp. destruct (good_created n o w Ho Hu) as [u ->]. by intros [= <- <-]. Qed.

Lemma create_finishes {A} r ns n body (k : pyval → MK E A) w res w' :
  calm w → name_in body = Some n →
  (∀ o, good_object n o → has_uid o → finishes r ns n (k o)) →
  (created ← create_custom_object r ns body; k created) w = (res, w') → made r ns n w res w'.
Proof.
  intros Hc Hname Hk. unfold mbind, M_bind. destruct (create_custom_object _ _ _ w) as [r1 w1] eqn:H1.
  destruct (create_object_spec _ _ _ _ _ _ Hc H1) as [Hc1 Hr1]. destruct r1 as [o|x].
  - destruct Hr1 as (n'&Hn&Ho&Hu&Hp). rewrite Hname in Hn. injection Hn as <-.
    intros Hrest. destruct (Hk _ Ho Hu _ _ _ Hc1 Hp Hrest) as [? Hr]. split; [done|]. by destruct res.
  - intros [= <- <-]. split; [done|]. by rewrite (Hr1 _ _ _).
Qed.
End api.

(** ** The name in a merged manifest *)

Lemma merge_keeps_entry m manifest k md k' x :
  dict_wf manifest → dget k manifest = Some (PDict md) → dict_wf md → dget k' md = Some (PStr x) →
  ∃ md', dget k (merge_with_runtime_values m manifest) = Some (PDict md') ∧ dget k' md' = Some (PStr x).
Proof.
  intros Hwf Hk Hmd Hk'. unfold merge_with_runtime_values. destruct (get_base_template m) as [|kv base]; [eauto|].
  rewrite deep_merge_get, Hk by done. cbn [merged_value].
  destruct (dget k (kv :: base)) as [[]|]; try by eauto. eexists. split; [done|].
  by rewrite deep_merge_get, Hk'.
Qed.

Lemma metadata_wf name a : ∃ md, metadata_dict name a = PDict md ∧ dict_wf md ∧ dget "name" md = Some (PStr name).
Proof.
  unfold metadata_dict. eexists. split; [done|]. split; [|done].
  unfold dict_wf. destruct (ca_annotations a) as [[|??]|]; by apply (bool_decide_unpack _).
Qed.

Lemma set_expiration_metadata field t manifest d' :
  set_expiration field t manifest = Ok d' → dget "metadata" d' = dget "metadata" manifest.
Proof.
  unfold set_expiration. intros (spec&_&Hs)%result_bind_Ok. destruct spec; simplify_eq. by rewrite dget_set_ne.
Qed.

Lemma extras_metadata manifest v1 v2 d' :
  merge_pod_spec_extras manifest v1 v2 = Ok d' → dget "metadata" d' = dget "metadata" manifest.
Proof.
  unfold merge_pod_spec_extras.
  destruct (dget "spec" manifest) as [[]|]; cbn; try done; try by intros [= <-].
  destruct (dget "template" d) as [[]|]; cbn; try done; try by intros [= <-].
  - destruct (dget "spec" d0) as [[]|]; cbn; try done; try by intros [= <-].
    destruct (merge_spec_extras _ _ _); [|done]. intros [= <-]. by rewrite dget_set_ne.
Qed.

Lemma name_in_metadata d md n : dget "metadata" d = Some (PDict md) → dget "name" md = Some (PStr n) → name_in (PDict d) = Some n.
Proof. intros Hd Hn. unfold name_in. cbn. rewrite Hd. cbn. by rewrite Hn. Qed.

Lemma batch_manifest_name p a d : batch_manifest p a = Ok d → name_in (PDict d) = Some (ca_sandbox_id a).
Proof.
  unfold batch_manifest. intros ([v1 v2]&_&(spec&_&(spec'&_&(d1&Hd1&Hd)%result_bind_Ok)%result_bind_Ok)%result_bind_Ok)%result_bind_Ok.
  apply extras_metadata in Hd. apply set_expiration_metadata in Hd1. rewrite Hd1 in Hd.
  destruct (metadata_wf (ca_sandbox_id a) a) as (md&Hmd&Hw&Hn). rewrite Hmd in Hd.
  match type of Hd with _ = dget _ (merge_with_runtime_values _ ?m) => set (manifest := m) in Hd end.
  destruct (merge_keeps_entry (bp_templates p) manifest "metadata" md "name" (ca_sandbox_id a)) as (md'&H1&H2);
    [by apply (bool_decide_unpack _)|done..|].
  eapply name_in_metadata; [|exact H2]. by rewrite Hd.
Qed.

Lemma agent_manifest_name sha p a spec d :
  agent_manifest sha p a spec = Ok d → name_in (PDict d) = Some (resource_name sha (ca_sandbox_id a)).
Proof.
  unfold agent_manifest. cbv zeta. intros Hd. apply set_expiration_metadata in Hd.
  destruct (metadata_wf (resource_name sha (ca_sandbox_id a)) a) as (md&Hmd&Hw&Hn). rewrite Hmd in Hd.
  match type of Hd with _ = dget _ (merge_with_runtime_values _ ?m) => set (manifest := m) in Hd end.
  destruct (merge_keeps_entry (ap_templates p) manifest "metadata" md "name" (resource_name sha (ca_sandbox_id a)))
    as (md'&H1&H2); [by apply (bool_decide_unpack _)|done..|].
  eapply name_in_metadata; [|exact H2]. by rewrite Hd.
Qed.

(** ** The BatchSandbox provider *)

Section batch_laws.
Context {E : Type} `{K8sEnv E} (obj : Resource → string → string → E → Prop) (L : api_laws obj).
Context (kcfg : KubernetesRuntimeConfig) (p : BatchSandboxProvider) (ns : string).

Definition batch_present (n : string) (w : KWorld E) : Prop := obj batch_resource ns n (kenv w).

Lemma batch_get_spec id w res w' :
  calm w → batch_get_workload kcfg id ns w = (res, w') →
  quiet_step obj w w' ∧ ∃ o, res = Ok o ∧
    (good_object id o ∨ ¬ batch_present id w' ∧ (o = PNone ∨ ∃ n, good_object n o)).
Proof.
  intros Hc. unfold batch_get_workload, mbind, M_bind.
  destruct (get_custom_object kcfg batch_resource ns id w) as [r1 w1] eqn:H1.
  destruct (get_object_spec obj L kcfg _ _ _ _ _ _ Hc H1) as (Hq1&o&->&Ho).
  destruct (vtruthy o) eqn:Ht.
  - intros [= <- <-]. split; [done|]. exists o. split; [done|]. destruct Ho as [?|[-> _]]; [by left|done].
  - destruct Ho as [Ho%good_truthy|[-> Hn]]; [congruence|]. destruct (bool_decide _); cbn [negb].
    + intros [= <- <-]. split; [done|]. exists PNone. auto.
    + intros H2. destruct (get_object_spec obj L kcfg _ _ _ _ _ _ (proj1 Hq1) H2) as (Hq2&o2&->&Ho2).
      split; [by eapply quiet_trans|]. exists o2. split; [done|]. right.
      split; [unfold batch_present; by rewrite (proj2 Hq2 _ _ _)|]. destruct Ho2 as [?|[-> _]]; eauto.
Qed.

Lemma batch_delete_clears id w r w' :
  calm w → batch_delete_workload kcfg id ns w = (r, w') → ¬ batch_present id w'.
Proof.
  intros Hc. unfold batch_delete_workload, batch_require, mbind, M_bind.
  destruct (batch_get_workload kcfg id ns w) as [r1 w1] eqn:H1.
  destruct (batch_get_spec _ _ _ _ Hc H1) as ((Hc1&_)&o&->&Ho).
  destruct Ho as [Ho|[Hn [->|[n Ho]]]]; [|intros [= _ <-]; done|].
  all: rewrite (good_truthy _ _ Ho); unfold lift; cbv beta iota delta [mret M_ret];
    rewrite (good_name _ _ Ho); intros Hd;
    destruct (delete_object_spec obj L _ _ _ _ _ _ _ Hc1 Hd) as (_&Hx&Hsub).
  - done.
  - unfold batch_present. intros Hp. by apply Hn, Hsub.
Qed.

Lemma pull_secret_finishes a au n created :
  ca_namespace a = ns → good_object n created → has_uid created →
  finishes obj batch_resource ns (ca_sandbox_id a) (create_pull_secret a au created).
Proof.
  intros Hns (d&m&->&Hd&Hn&_) [u Hu] w r w' Hc Hp. cbn in Hu. rewrite Hd in Hu. cbn in Hu.
  unfold create_pull_secret, mbind at 1 2, M_bind, lift, item. rewrite Hd.
  destruct (dget "uid" m) as [uid|]; [|done]. unfold try_except at 1.
  destruct (create_secret _ _ w) as [r1 w1] eqn:Hs.
  assert (quiet_step obj w w1) as [Hc1 Hsame].
  { revert Hs. apply write_quiet; [done|]. intros. by eapply al_secret. }
  destruct r1 as [[]|x]; [intros [= <- <-]; by rewrite (Hsame _ _ _)|]. unfold mbind, M_bind, try_except.
  destruct (delete_custom_object _ _ _ _ w1) as [r2 w2] eqn:H2. rewrite Hns in H2.
  destruct (delete_object_spec obj L _ _ _ _ _ _ _ Hc1 H2) as (Hc2&Hx&_).
  destruct r2 as [[]|?]; intros [= <- <-]; done.
Qed.

Lemma bind_finishes {A B} r n (m : MK E A) (k : A → MK E B) :
  finishes obj r ns n m → (∀ a, finishes obj r ns n (k a)) → finishes obj r ns n (m ≫= k).
Proof.
  intros Hm Hk w res w' Hc Hp. unfold mbind, M_bind. destruct (m w) as [r1 w1] eqn:H1.
  destruct (Hm _ _ _ Hc Hp H1) as [Hc1 Hr1]. destruct r1; [by apply Hk|by intros [= <- <-]].
Qed.

Lemma template_mode_made a w r w' :
  ca_namespace a = ns → calm w →
  (manifest ← lift (batch_manifest p a); created ← create_custom_object batch_resource ns (PDict manifest);
   match auth (ca_image a) with Some image_auth => create_pull_secret a image_auth created | None => mret tt end;;
   created_info created) w = (r, w') →
  made obj batch_resource ns (ca_sandbox_id a) w r w'.
Proof.
  intros Hns Hc. unfold mbind at 1, M_bind, lift.
  destruct (batch_manifest p a) as [m|x] eqn:Hm; [|by intros [= <- <-]]. apply create_finishes; [done..| |].
  - by eapply batch_manifest_name.
  - intros o Ho Hu. apply bind_finishes; [|intros _; by apply info_finishes].
    destruct (auth (ca_image a)); [by eapply pull_secret_finishes|]. intros w1 r1 w1' ??. by intros [= <- <-].
Qed.

Lemma batch_create_made a w r w' :
  ca_namespace a = ns → calm w → batch_create_workload p a w = (r, w') →
  made obj batch_resource ns (ca_sandbox_id a) w r w'.
Proof.
  intros Hns Hc. unfold batch_create_workload. rewrite Hns.
  destruct (dget "poolRef" _) as [[|c pool]|]; [by apply template_mode_made| |by apply template_mode_made].
  destruct (ca_volumes a) as [[|v vs]|]; try (by intros [= <- <-]);
    (apply create_finishes; [done..|]; intros; by apply info_finishes).
Qed.

#[export] Instance batch_provider_laws : ProviderLaws (batch_provider kcfg p) ns calm id batch_present.
Proof.
  split.
  - intros w t e Hc Ht. split; [done|]. intros n. apply (al_token _ L _ _ _ Ht).
  - intros a i w w' Hns Hc Hr. by apply (batch_create_made a w _ _ Hns Hc Hr).
  - intros a x w w' Hns Hc Hr. by apply (batch_create_made a w _ _ Hns Hc Hr).
  - intros a r w w' Hns Hc Hr. by apply (batch_create_made a w _ _ Hns Hc Hr).
  - intros id r w w' Hc Hr. by apply (batch_get_spec id w _ _ Hc Hr).
  - intros wl r w w' Hc. cbn. intros [= _ <-]. done.
  - intros id r w w' Hc Hr. by eapply batch_delete_clears.
Qed.
End batch_laws.

(** ** Calls that keep the world calm *)

Section steady.
Context {E : Type} `{K8sEnv E}.

Definition steady {A} (m : MK E A) : Prop := ∀ w r w', calm w → m w = (r, w') → calm w'.

Lemma steady_ret {A} (a : A) : steady (mret a).
Proof. intros w r w' Hc [= <- <-]. done. Qed.
Lemma steady_lift {A} (a : result A) : steady (lift a).
Proof. intros w r w' Hc [= <- <-]. done. Qed.
Lemma steady_raise {A} x : steady (A:=A) (raise x).
Proof. intros w r w' Hc [= <- <-]. done. Qed.
Lemma steady_bind {A B} (m : MK E A) (k : A → MK E B) : steady m → (∀ a, steady (k a)) → steady (m ≫= k).
Proof.
  intros Hm Hk w r w' Hc. unfold mbind, M_bind. destruct (m w) as [[a|x] w1] eqn:H1; [|intros [= <- <-]; by eapply Hm].
  intros H2. eapply Hk; [|exact H2]. by eapply Hm.
Qed.
Lemma steady_try {A} (m : MK E A) h : steady m → (∀ x, steady (h x)) → steady (try_except m h).
Proof.
  intros Hm Hh w r w' Hc. unfold try_except. destruct (m w) as [[a|x] w1] eqn:H1; [intros [= <- <-]; by eapply Hm|].
  intros H2. eapply Hh; [|exact H2]. by eapply Hm.
Qed.
Lemma steady_list_pods ns sel : steady (list_pods ns sel).
Proof.
  intros w r w' Hc. unfold list_pods, mbind, M_bind. rewrite read_free by done. unfold kcall.
  destruct (api_list_pods _ _ _). by intros [= <- <-].
Qed.
End steady.

Create HintDb steady.
#[export] Hint Resolve steady_ret steady_lift steady_raise steady_list_pods : steady.

Ltac steady :=
  repeat first
    [ progress intros
    | solve [eauto with steady]
    | apply steady_bind | apply steady_try
    | match goal with
      | |- steady (if ?b then _ else _) => destruct b
      | |- steady (match ?x with _ => _ end) => destruct x
      end ].

(** ** The agent-sandbox provider *)

Section agent_laws.
Context {E : Type} `{K8sEnv E} (obj : Resource → string → string → E → Prop) (L : api_laws obj).
Context (sha256 : string → string) (kcfg : KubernetesRuntimeConfig) (p : AgentSandboxProvider) (ns : string).

Definition agent_present (n : string) (w : KWorld E) : Prop := obj agent_resource ns n (kenv w).

Lemma first_workload_spec names w res w' :
  calm w → first_workload kcfg ns names w = (res, w') →
  quiet_step obj w w' ∧ ∃ o, res = Ok o ∧ (o = PNone ∨ ∃ n, good_object n o).
Proof.
  revert w. induction names as [|n names IH]; intros w Hc; cbn [first_workload].
  - intros [= <- <-]. split; [by apply quiet_refl|]. eauto.
  - unfold mbind, M_bind. destruct (get_custom_object _ _ _ n w) as [r1 w1] eqn:H1.
    destruct (get_object_spec obj L kcfg _ _ _ _ _ _ Hc H1) as (Hq1&o&->&Ho). destruct (vtruthy o) eqn:Ht.
    + intros [= <- <-]. split; [done|]. exists o. split; [done|]. destruct Ho as [?|[-> _]]; eauto.
    + intros H2. destruct (IH _ (proj1 Hq1) H2) as [Hq2 ?]. split; [by eapply quiet_trans|done].
Qed.

Lemma candidates_head id : ∃ rest, resource_name_candidates sha256 id = resource_name sha256 id :: rest.
Proof. unfold resource_name_candidates, add_candidate. repeat case_bool_decide; cbn; eauto. Qed.

Lemma agent_get_spec id w res w' :
  calm w → agent_get_workload sha256 kcfg id ns w = (res, w') →
  quiet_step obj w w' ∧ ∃ o, res = Ok o ∧
    (good_object (resource_name sha256 id) o ∨
     ¬ agent_present (resource_name sha256 id) w' ∧ (o = PNone ∨ ∃ n, good_object n o)).
Proof.
  intros Hc. unfold agent_get_workload. destruct (candidates_head id) as [rest ->]. cbn [first_workload].
  unfold mbind, M_bind. destruct (get_custom_object _ _ _ _ w) as [r1 w1] eqn:H1.
  destruct (get_object_spec obj L kcfg _ _ _ _ _ _ Hc H1) as (Hq1&o&->&Ho). destruct (vtruthy o) eqn:Ht.
  - intros [= <- <-]. split; [done|]. exists o. split; [done|]. destruct Ho as [?|[-> _]]; [by left|done].
  - destruct Ho as [Ho%good_truthy|[-> Hn]]; [congruence|]. intros H2.
    destruct (first_workload_spec _ _ _ _ (proj1 Hq1) H2) as (Hq2&o2&->&Ho2). split; [by eapply quiet_trans|].
    exists o2. split; [done|]. right. split; [unfold agent_present; by rewrite (proj2 Hq2 _ _ _)|done].
Qed.

Lemma quiet_delete_pvc_try name w :
  calm w → ∃ w', try_except (delete_pvc ns name) (λ _, mret tt) w = (Ok tt, w') ∧ quiet_step obj w w'.
Proof.
  intros Hc. unfold try_except. destruct (delete_pvc ns name w) as [r1 w1] eqn:H1.
  pose proof (delete_pvc_quiet obj L _ _ _ _ _ Hc H1). destruct r1 as [[]|x]; eauto.
Qed.

Lemma agent_delete_clears id w r w' :
  calm w → agent_delete_workload sha256 kcfg id ns w = (r, w') → ¬ agent_present (resource_name sha256 id) w'.
Proof.
  intros Hc. unfold agent_delete_workload, agent_require, mbind, M_bind.
  destruct (agent_get_workload sha256 kcfg id ns w) as [r1 w1] eqn:H1.
  destruct (agent_get_spec _ _ _ _ Hc H1) as ((Hc1&_)&o&->&Ho).
  destruct Ho as [Ho|[Hn [->|[n Ho]]]]; [|intros [= _ <-]; done|].
  all: rewrite (good_truthy _ _ Ho); unfold lift; cbv beta iota delta [mret M_ret]; rewrite (good_name _ _ Ho);
    destruct (delete_custom_object _ _ _ _ w1) as [r2 w2] eqn:Hd;
    destruct (delete_object_spec obj L _ _ _ _ _ _ _ Hc1 Hd) as (Hc2&Hx&Hsub);
    assert (¬ agent_present (resource_name sha256 id) w2) as Hgone by (unfold agent_present in *; naive_solver);
    (destruct r2 as [[]|x]; [|by intros [= _ <-]]);
    destruct (quiet_delete_pvc_try (workspace_claim sha256 id) w2 Hc2) as (w3&Hw3&[_ Hs]);
    unfold mret, M_ret in Hw3; rewrite Hw3; intros [= _ <-]; unfold agent_present; by rewrite (Hs _ _ _).
Qed.

Lemma agent_create_made a w r w' :
  ca_namespace a = ns → calm w → agent_create_workload sha256 p a w = (r, w') →
  made obj agent_resource ns (resource_name sha256 (ca_sandbox_id a)) w r w'.
Proof.
  intros Hns Hc. unfold agent_create_workload. rewrite Hns. destruct (split_storage p a) as [size limits].
  unfold mbind at 1 2 3, M_bind, lift. destruct (agent_pod_spec p a limits) as [spec|x]; [|by intros [= <- <-]].
  destruct (with_volumes a spec) as [spec'|x]; [|by intros [= <- <-]].
  destruct (create_pvc _ _ _ _ w) as [rp w1] eqn:Hp. destruct (create_pvc_quiet obj L _ _ _ _ _ _ _ Hc Hp) as [Hc1 Hs1].
  assert (∀ (r : result (pyval * pyval)) w', made obj agent_resource ns (resource_name sha256 (ca_sandbox_id a)) w1 r w' →
            made obj agent_resource ns (resource_name sha256 (ca_sandbox_id a)) w r w') as Hback.
  { intros r0 w0 [? Hr0]. split; [done|]. destruct r0; [done|]. by rewrite (Hs1 _ _ _) in Hr0. }
  destruct rp as [[]|x]; [|intros [= <- <-]; by apply Hback]. unfold mbind at 1 2, M_bind.
  destruct (attach_workspace _ _) as [spec2|x]; [|intros [= <- <-]; by apply Hback].
  destruct (agent_manifest sha256 p a spec2) as [m|x] eqn:Hm; [|intros [= <- <-]; by apply Hback].
  intros H2. apply Hback. revert H2. unfold mbind at 1, M_bind, try_except at 1.
  destruct (create_custom_object _ _ _ w1) as [r2 w2] eqn:H2.
  destruct (create_object_spec obj L _ _ _ _ _ _ Hc1 H2) as [Hc2 Hr2]. destruct r2 as [o|x].
  - destruct Hr2 as (n&Hn&Ho&Hu&Hpres). rewrite (agent_manifest_name _ _ _ _ _ Hm) in Hn. injection Hn as <-.
    intros Hi. destruct (info_finishes obj agent_resource ns _ _ Ho Hu _ _ _ Hc2 Hpres Hi) as [? Hr].
    split; [done|]. by destruct r.
  - unfold mbind, M_bind. destruct (quiet_delete_pvc_try (workspace_claim sha256 (ca_sandbox_id a)) w2 Hc2) as (w3&->&[Hc3 Hs3]).
    intros [= <- <-]. split; [done|]. by rewrite (Hs3 _ _ _), (Hr2 _ _ _).
Qed.

Lemma agent_status_steady wl : steady (agent_get_status (E:=E) wl).
Proof. unfold agent_get_status, pod_state_from_selector. cbv zeta. steady. Qed.

#[export] Instance agent_provider_laws :
  ProviderLaws (agent_provider sha256 kcfg p) ns calm (resource_name sha256) agent_present.
Proof.
  split.
  - intros w t e Hc Ht. split; [done|]. intros n. apply (al_token _ L _ _ _ Ht).
  - intros a i w w' Hns Hc Hr. by apply (agent_create_made a w _ _ Hns Hc Hr).
  - intros a x w w' Hns Hc Hr. by apply (agent_create_made a w _ _ Hns Hc Hr).
  - intros a r w w' Hns Hc Hr. by apply (agent_create_made a w _ _ Hns Hc Hr).
  - intros id r w w' Hc Hr. by apply (agent_get_spec id w _ _ Hc Hr).
  - intros wl r w w' Hc Hr. by apply (agent_status_steady wl w r w' Hc Hr).
  - intros id r w w' Hc Hr. by eapply agent_delete_clears.
Qed.
End agent_laws.
