(* ===== verification/SimLaws.v ===== *)
(** * The laws hold in the simulated cluster

    [SimCluster] satisfies what the theorems ask of the API server and the clock. *)

From Stdlib Require Import Ascii QArith Qround Lqa.
From S2P Require Import Prelude PyString PyDict PyTime Json PyVal Schema Validators Config Helpers Common.
From S2P Require Import Template PodSpec RateLimiter Informer K8sHelpers K8sClient WorkloadProvider.
From S2P Require Import BatchProvider AgentProvider K8sService SimCluster K8sWait ProviderLaws.
Close Scope Q_scope.
Open Scope string_scope.
Open Scope list_scope.

(** ** The API server *)

Definition sim_object (r : Resource) (ns n : string) (c : SimCluster) : Prop :=
  is_Some (sc_objects c !! object_key r ns n).

Lemma served_good n o : good_object n (served n o).
Proof.
  unfold good_object, served. cbn [merge_patch]. eexists _, _. split; [done|]. rewrite dget_set_eq.
  split; [done|]. cbn. rewrite dget_set_ne, dget_set_eq by done. split; [done|]. right. eexists.
  unfold dget_default. by rewrite dget_set_eq.
Qed.

Lemma new_object_good n k body : good_object n (new_object n k body) ∧ has_uid (new_object n k body).
Proof.
  unfold good_object, has_uid, new_object, dget_default. cbn [merge_patch val_at]. rewrite !dget_set_eq.
  split.
  - eexists _, _. split; [done|]. rewrite dget_set_eq. split; [done|]. cbn.
    rewrite !dget_set_ne, dget_set_eq by done. split; [done|]. right. eexists.
    by rewrite !dget_set_ne, dget_set_eq by done.
  - cbn. rewrite dget_set_ne, dget_set_eq by done. by eexists.
Qed.

Lemma sim_api_laws : api_laws sim_object.
Proof.
  split; cbn; unfold sim_create, sim_get, sim_delete, same_objects, sim_object.
  - intros r ns body e o e' H. destruct (name_in body) as [n|]; [|done]. exists n. split; [done|].
    destruct (sc_objects e !! _); [done|]. injection H as <- <-.
    destruct (new_object_good n (sc_count e) body). split_and!; [done..|]. cbn. rewrite lookup_insert_eq. by eexists.
  - intros r ns body e x e' H. destruct (name_in body); [|by injection H as _ <-].
    destruct (sc_objects e !! _); [by injection H as _ <-|done].
  - intros r ns n e x e' H. destruct (sc_objects e !! object_key r ns n) as [o|] eqn:Ho; injection H as <- <-.
    + split; [done|]. apply served_good.
    + split; [done|]. split; [done|]. rewrite Ho. by intros [??].
  - intros r ns n g e x e' H. destruct (sc_objects e !! object_key r ns n) as [o|] eqn:Ho; injection H as <- <-.
    + cbn. rewrite lookup_delete_eq. split; [by intros [??]|]. intros r' ns' n' [o' [_ Hl]%lookup_delete_Some]. by eexists.
    + rewrite Ho. split; [by intros [??]|done].
  - intros ns b e x e' [= <- <-]. done.
  - intros ns b e x e' [= <- <-]. done.
  - intros ns n e x e' H. destruct (sc_claims e !! _); injection H as <- <-; done.
  - intros e x e' [= <- <-]. done.
  - intros e t e' [= <- <-]. done.
Qed.

Lemma sim_sleep_calm d (w : KWorld SimCluster) : calm w → calm (sleep_world d w).
Proof. done. Qed.

(** ** The clock *)

Definition sim_time (w : KWorld SimCluster) : Z := sc_clock (kenv w).

Lemma sim_sleep d w : (0 < d)%Q → (inject_Z (sim_time w) + d * 1000000 <= inject_Z (sim_time (sleep_world d w)))%Q.
Proof.
  intros Hd. unfold sim_time, sleep_world. cbn. rewrite inject_Z_plus. pose proof (Qle_ceiling (d * 1000000)). lra.
Qed.

(** Calls in which the clock does not go back. *)
Definition onward {A} (m : MK SimCluster A) : Prop := ∀ w r w', m w = (r, w') → (sim_time w ≤ sim_time w')%Z.

Lemma onward_ret {A} (a : A) : onward (mret a).
Proof. by intros w r w' [= _ <-]. Qed.
Lemma onward_lift {A} (a : result A) : onward (lift a).
Proof. by intros w r w' [= _ <-]. Qed.
Lemma onward_raise {A} x : onward (A:=A) (raise x).
Proof. by intros w r w' [= _ <-]. Qed.
Lemma onward_get {A} (f : KClient → A) : onward (get_kcl f).
Proof. by intros w r w' [= _ <-]. Qed.
Lemma onward_put f : onward (put_kcl f).
Proof. by intros w r w' [= _ <-]. Qed.
Lemma onward_bind {A B} (m : MK SimCluster A) (k : A → MK SimCluster B) :
  onward m → (∀ a, onward (k a)) → onward (m ≫= k).
Proof.
  intros Hm Hk w r w'. unfold mbind, M_bind. destruct (m w) as [[a|x] w1] eqn:H1; pose proof (Hm _ _ _ H1).
  - intros H2. pose proof (Hk _ _ _ _ H2). lia.
  - by intros [= _ <-].
Qed.
Lemma onward_try {A} (m : MK SimCluster A) h : onward m → (∀ x, onward (h x)) → onward (try_except m h).
Proof.
  intros Hm Hh w r w'. unfold try_except. destruct (m w) as [[a|x] w1] eqn:H1; pose proof (Hm _ _ _ H1).
  - by intros [= _ <-].
  - intros H2. pose proof (Hh _ _ _ _ H2). lia.
Qed.
Lemma onward_call {A} (m : M SimCluster A) : (∀ c, sc_clock (m c).2 = sc_clock c) → onward (kcall m).
Proof.
  intros Hm w r w'. unfold kcall. specialize (Hm (kenv w)). destruct (m (kenv w)) as [x e]. intros [= _ <-].
  unfold sim_time. cbn in *. lia.
Qed.

Lemma acquire_onward limiter put n w w' :
  acquire_loop limiter (λ l w, Build_KWorld (put l (kcl w)) (kenv w)) world_monotonic (@sleep_world SimCluster _) n w = Some w' →
  (sim_time w ≤ sim_time w')%Z.
Proof.
  revert w. induction n as [|n IH]; intros w; cbn [acquire_loop]; [done|].
  unfold world_monotonic. cbn [k_monotonic sim_k8s]. destruct (try_take _ _) as [wait l].
  destruct (Qle_bool wait 0); [by intros [= <-]|]. intros Hr%IH. etrans; [|exact Hr].
  pose proof (py_max_spec wait (1 # 1000)) as [_ Hmax].
  set (w1 := Build_KWorld _ _) in *. pose proof (sim_sleep (py_max wait (1 # 1000)) w1 ltac:(lra)) as Hs.
  rewrite Zle_Qle. change (sim_time w) with (sim_time w1). lra.
Qed.

Lemma onward_throttle_read : onward throttle_read.
Proof.
  intros w r w'. unfold throttle_read, acquire. destruct (read_limiter _); [|by intros [= _ <-]].
  destruct (acquire_loop _ _ _ _ _ _) eqn:Ha; intros [= _ <-]; [|done]. by eapply acquire_onward.
Qed.

Lemma onward_informer_update k o : onward (informer_update k o).
Proof.
  intros w r w'. unfold informer_update. destruct (informers _ !! k); [|by intros [= _ <-]].
  destruct (update_cache _ _). by intros [= _ <-].
Qed.

Create HintDb onward.
#[export] Hint Resolve onward_ret onward_lift onward_raise onward_get onward_put onward_throttle_read
  onward_informer_update : onward.

Ltac onward :=
  repeat first
    [ progress intros
    | solve [eauto with onward]
    | apply onward_bind | apply onward_try
    | match goal with
      | |- onward (if ?b then _ else _) => destruct b
      | |- onward (match ?x with _ => _ end) => destruct x
      | |- onward (kcall _) => apply onward_call; intros c
      end ].

Lemma onward_get_object kcfg r ns n : onward (get_custom_object kcfg r ns n).
Proof.
  unfold get_custom_object, get_informer, cached_object, catch. cbv zeta. onward; try done.
  cbn. unfold sim_get. by destruct (sc_objects c !! _).
Qed.

Lemma onward_list_pods ns sel : onward (list_pods ns sel).
Proof. unfold list_pods. onward. Qed.
#[export] Hint Resolve onward_get_object onward_list_pods : onward.

Section agent.
Context (sha256 : string → string) (kcfg : KubernetesRuntimeConfig) (p : AgentSandboxProvider).

Lemma agent_get_onward id ns : onward (agent_get_workload sha256 kcfg id ns).
Proof.
  unfold agent_get_workload. generalize (resource_name_candidates sha256 id). intros l.
  induction l as [|n l IH]; cbn [first_workload]; onward.
Qed.

Lemma agent_status_onward wl : onward (agent_get_status wl).
Proof. unfold agent_get_status, pod_state_from_selector. cbv zeta. onward. Qed.

(** A service with the agent-sandbox provider over the simulated cluster. *)
Definition agent_service (cfg : AppConfig) : KubernetesSandboxService SimCluster := {|
  ks_config := cfg; ks_kubernetes := kcfg; ks_namespace := "sandboxes"; ks_provider := agent_provider sha256 kcfg p |}.

Lemma agent_wait_laws cfg : wait_laws (agent_service cfg) sim_time.
Proof.
  split.
  - intros w t e [= <- <-]. unfold sim_time. cbn. lia.
  - intros. by apply sim_sleep.
  - intros id w r w' Hr. exact (agent_get_onward id _ w r w' Hr).
  - intros wl w r w' Hr. exact (agent_status_onward wl w r w' Hr).
Qed.
End agent.

(** ** A service for witnesses *)

Definition sim_kubernetes : KubernetesRuntimeConfig := {|
  kubeconfig_path := None; informer_enabled := true; informer_resync_seconds := 300;
  informer_watch_timeout_seconds := 60; read_qps := 0; read_burst := 0; write_qps := 0;
  write_burst := 0; k8s_namespace := Some "sandboxes"; service_account := None; workload_provider := Some "agent-sandbox";
  batchsandbox_template_file := None; sandbox_create_timeout_seconds := 2;
  sandbox_create_poll_interval_seconds := 1; execd_init_resources := None |}.

Definition sim_config : AppConfig := {|
  server := {| srv_host := "0.0.0.0"; srv_port := 8080; log_level := "INFO"; api_key := None;
               eip := None; max_sandbox_timeout_seconds := Some 86400%Z; terminal_token_secret := None;
               terminal_token_ttl_seconds := 300 |};
  runtime := {| runtime_type := "kubernetes"; execd_image := "execd:1" |};
  kubernetes := Some sim_kubernetes; agent_sandbox := Some default_agent_sandbox; ingress := None;
  docker := {| network_mode := "host"; api_timeout := None; host_ip := None;
               drop_capabilities := []; apparmor_profile := None;
               no_new_privileges := true; seccomp_profile := None; pids_limit := None |};
  storage := {| allowed_host_paths := []; ossfs_mount_root := "/mnt/ossfs"; default_workspace_volume_size := "1Gi" |};
  egress_config := Some {| egress_image := Some "egress:1" |};
  secure_runtime := None |}.

Definition sim_agent : AgentSandboxProvider := {|
  ap_shutdown_policy := "Delete"; ap_service_account := None;
  ap_templates := {| template_file_path := None; template_kind := "Agent-sandbox"; base_template := None |};
  ap_ingress := None; ap_init_resources := None; ap_workspace_size := "1Gi"; ap_runtime_class := None |}.

Definition sim_sha256 (v : string) : string := join EmptyString (repeat "0" 64).

Definition sim_service : KubernetesSandboxService SimCluster := agent_service sim_sha256 sim_kubernetes sim_agent sim_config.

(** A sandbox that is never there: three polls, then the 504. *)
Lemma wait_ends_witness :
  ∃ x w', wait_for_sandbox_ready sim_service "box-1" 2 1 sim_world = (Raise x, w') ∧
    http_status x = 504%Z ∧
    (provider_raised sim_service "box-1" x ∨
     (http_status x = 504%Z ∧ (sim_time sim_world + 2 * us_per_second ≤ sim_time w')%Z)).
Proof.
  destruct (wait_ends sim_service sim_time "box-1" 2 1 sim_world (agent_wait_laws _ _ _ _) eq_refl) as (r&w'&Hr&Hp).
  assert (match r with Ok _ => False | Raise x => http_status x = 504%Z end) as Hx.
  { change r with (r, w').1. rewrite <-Hr. vm_compute. reflexivity. }
  destruct r as [|x]; [destruct Hx|]. exists x, w'. split; [exact Hr|]. split; [exact Hx|exact Hp].
Defined.
