(* ===== verification/K8sCreate.v ===== *)
(** * Creating a sandbox in Kubernetes: all or nothing

    The service is proved against the interface [ProviderLaws]; with
    [agent_provider_laws] and [batch_provider_laws] the result holds for both
    providers. *)

From Stdlib Require Import Ascii QArith Qround Lqa.
From S2P Require Import Prelude PyString PyDict PyTime Json PyVal Schema Validators Config Helpers Common.
From S2P Require Import Template PodSpec RateLimiter Informer K8sHelpers K8sClient WorkloadProvider.
From S2P Require Import BatchProvider AgentProvider K8sService SimCluster K8sWait ProviderLaws SimLaws.
Close Scope Q_scope.
Open Scope string_scope.
Open Scope list_scope.

Section client.
Context {E : Type} `{K8sEnv E} `{Pydantic} (s : KubernetesSandboxService E).
Context (ready : KWorld E → Prop) (name_of : string → string) (present : string → KWorld E → Prop).
Context {PL : ProviderLaws (ks_provider s) (ks_namespace s) ready name_of present}.
Context (time : KWorld E → Z) (WL : wait_laws s time).

(** The clock and the other threads leave the world in a state in which the laws hold. *)
Record time_keeps_ready : Prop := {
  clock_ready w t e : ready w → k_clock (kenv w) = (t, e) → ready (Build_KWorld (kcl w) e);
  sleep_ready d w : ready w → ready (sleep_world d w) }.

(** The world is as the reading of the status of a workload that is ready left it,
    and that status cannot be put in a response. *)
Definition status_lost (w' : KWorld E) : Prop :=
  ∃ wl w r, seen_ready s wl ∧ wp_get_status (ks_provider s) wl w = (r, w') ∧
  match r with Ok si => is_ok (sandbox_status si) = false | Raise x => is_http x = false end.

(** No object of the sandbox is left, except in the case above. *)
Definition nothing_left (id : string) (w' : KWorld E) : Prop := ¬ present (name_of id) w' ∨ status_lost w'.

Context (TR : time_keeps_ready).

Lemma poll_ready id last w r w' : ready w → poll s id last w = (r, w') → ready w'.
Proof.
  intros Hw. unfold poll, try_except, mbind, M_bind.
  destruct (wp_get_workload _ _ _ w) as [[wl|x] w1] eqn:Hg; pose proof (get_ready _ _ _ _ Hw Hg) as Hw1.
  - destruct (vtruthy wl); cbn [negb]; [|by intros [= <- <-]].
    destruct (wp_get_status _ wl w1) as [[si|x] w2] eqn:Hs; pose proof (status_ready _ _ _ _ Hw1 Hs).
    + destruct (one_of _ _); by intros [= <- <-].
    + destruct (is_http x); by intros [= <- <-].
  - destruct (is_http x); by intros [= <- <-].
Qed.

Lemma wait_loop_ready n id start timeout interval last w r w' :
  ready w → wait_loop s n id start timeout interval last w = Some (r, w') → ready w'.
Proof.
  revert last w. induction n as [|n IH]; intros last w Hw; cbn [wait_loop]; [done|].
  destruct (k_clock (kenv w)) as [t e] eqn:Hc. pose proof (clock_ready TR _ _ _ Hw Hc) as Hw1.
  destruct (negb _); [by intros [= <- <-]|]. destruct (poll s id last _) as [r1 w2] eqn:Hp.
  pose proof (poll_ready _ _ _ _ _ Hw1 Hp) as Hw2. destruct r1 as [[wl|last']|x]; [by intros [= <- <-]| |by intros [= <- <-]].
  apply IH. by apply sleep_ready.
Qed.

Lemma wait_ready id timeout interval w r w' :
  ready w → wait_for_sandbox_ready s id timeout interval w = (r, w') → ready w'.
Proof.
  intros Hw. unfold wait_for_sandbox_ready, kquery, mbind, M_bind.
  destruct (k_clock (kenv w)) as [start e] eqn:Hc. pose proof (clock_ready TR _ _ _ Hw Hc) as Hw1. cbn [fst snd].
  destruct (wait_loop _ _ _ _ _ _ _ _) as [[r1 w2]|] eqn:Hl; [|by intros [= <- <-]].
  pose proof (wait_loop_ready _ _ _ _ _ _ _ _ _ Hw1 Hl) as Hw2.
  destruct r1 as [[wl|last]|x]; try by intros [= <- <-].
  destruct (k_clock (kenv w2)) as [now e2] eqn:Hc2. intros [= <- <-]. by apply (clock_ready TR _ _ _ Hw2 Hc2).
Qed.

(** The handlers of the create methods let only HTTP exceptions out. *)
Lemma create_handlers_spec {A} (m : MK E A) (P : A → KWorld E → Prop) (Q : KWorld E → Prop) w r w' :
  (∀ r0 w0, m w = (r0, w0) → match r0 with Ok a => P a w0 | Raise _ => Q w0 end) →
  create_handlers m w = (r, w') → match r with Ok a => P a w' | Raise x => is_http x = true ∧ Q w' end.
Proof.
  intros Hm. unfold create_handlers, try_except. destruct (m w) as [[a|x] w1]; specialize (Hm _ _ eq_refl).
  - intros [= <- <-]. done.
  - destruct (is_http x) eqn:Hx; [intros [= <- <-]; done|]. destruct (is_value_error x); intros [= <- <-]; done.
Qed.

Lemma workload_args_spec request id t exp w r w' :
  ready w → workload_args s request id t exp w = (r, w') →
  ready w' ∧ (∀ n, present n w' ↔ present n w) ∧
  match r with Ok a => ca_sandbox_id a = id ∧ ca_namespace a = ks_namespace s | Raise _ => True end.
Proof.
  intros Hw. unfold workload_args, mbind at 1, M_bind. destruct (network_policy request) as [np|].
  - unfold kquery, mbind at 1, M_bind. destruct (k_token_urlsafe (kenv w)) as [tok e] eqn:Ht.
    destruct (token_keeps w tok e Hw Ht) as [Hw1 Hp1]. cbn. unfold mbind, M_bind, lift.
    destruct (ensure_volumes_valid _ _); intros [= <- <-]; split_and!; done.
  - cbn. unfold mbind, M_bind, lift. destruct (ensure_volumes_valid _ _); intros [= <- <-]; split_and!; done.
Qed.

Lemma create_started request id t exp w (m : MK E CreateSandboxResponse) r w' :
  ready w → ¬ present (name_of id) w →
  (∀ w1 r w', ready w1 → present (name_of id) w1 → m w1 = (r, w') →
     match r with Ok resp => resp_id resp = id | Raise _ => nothing_left id w' end) →
  (args ← workload_args s request id t exp; _ ← wp_create_workload (ks_provider s) args; m) w = (r, w') →
  match r with Ok resp => resp_id resp = id | Raise _ => nothing_left id w' end.
Proof.
  intros Hw Hn Hm. unfold mbind, M_bind. destruct (workload_args s request id t exp w) as [ra w1] eqn:Ha.
  destruct (workload_args_spec _ _ _ _ _ _ _ Hw Ha) as (Hw1&Hp1&Hargs).
  destruct ra as [a|x]; [|intros [= <- <-]; left; by rewrite Hp1]. destruct Hargs as [<- Hns].
  destruct (wp_create_workload _ a w1) as [rc w2] eqn:Hcr. pose proof (create_ready _ _ _ _ Hns Hw1 Hcr).
  destruct rc as [i|x].
  - apply Hm; [done|]. exact (create_adds a i w1 w2 Hns Hw1 Hcr).
  - intros [= <- <-]. left. apply (create_raises a x w1 w2 Hns Hw1 Hcr). by rewrite Hp1.
Qed.

Lemma finish_create request id t exp timeout interval w r w' :
  ready w → (0 < interval)%Q →
  catch is_http
    (workload ← wait_for_sandbox_ready s id timeout interval;
     status_info ← wp_get_status (ks_provider s) workload;
     st ← lift (sandbox_status status_info);
     mret (create_response request id t exp st))
    (λ e, try_except (wp_delete_workload (ks_provider s) id (ks_namespace s)) (λ _, mret tt);; raise e) w = (r, w') →
  match r with Ok resp => resp_id resp = id | Raise _ => nothing_left id w' end.
Proof.
  intros Hw Hi. unfold catch, try_except at 1. set (m := mbind _ _).
  assert (∀ r1 w1, m w = (r1, w1) → ready w1 ∧
    match r1 with Ok resp => resp_id resp = id | Raise x => is_http x = true ∨ status_lost w1 end) as Hm.
  { subst m. unfold mbind, M_bind. intros r1 w1.
    destruct (wait_outcome s time id timeout interval w WL Hi) as (rw&w2&Hwait&Hrw). rewrite Hwait.
    pose proof (wait_ready _ _ _ _ _ _ Hw Hwait) as Hw2. destruct rw as [wl|x].
    - destruct (wp_get_status _ wl w2) as [rs w3] eqn:Hs. pose proof (status_ready _ _ _ _ Hw2 Hs) as Hw3.
      destruct rs as [si|x].
      + unfold lift. destruct (sandbox_status si) eqn:Hsi; intros [= <- <-]; split; [done..|].
        right. exists wl, w2, (Ok si). by rewrite Hsi.
      + intros [= <- <-]. split; [done|]. destruct (is_http x) eqn:Hx; [by left|right]. by exists wl, w2, (Raise x).
    - intros [= <- <-]. split; [done|]. left. destruct Hrw as [[? _]|[Hx _]]; [done|]. by destruct x. }
  destruct (m w) as [[resp|x] w1]; specialize (Hm _ _ eq_refl) as [Hw1 Hr1]; [by intros [= <- <-]|].
  destruct (is_http x) eqn:Hx; [|destruct Hr1 as [|Hlost]; [done|intros [= <- <-]; by right]].
  unfold mbind, M_bind, try_except.
  destruct (wp_delete_workload _ id _ w1) as [rd w2] eqn:Hd. pose proof (delete_clears _ _ _ _ Hw1 Hd).
  destruct rd as [[]|?]; intros [= <- <-]; by left.
Qed.

Lemma bind_then {A B C} (m : MK E A) (n : MK E B) (k : B → MK E C) w b w1 :
  (m;; n) w = (Ok b, w1) → (m;; n ≫= k) w = k b w1.
Proof. unfold mbind, M_bind. destruct (m w) as [[a|x] w0]; [|done]. by intros ->. Qed.

End client.

(** ** A run over the simulated cluster *)

#[local] Instance sim_pydantic : Pydantic := {|
  datetime_of := λ v, match v with PStr t => fromisoformat (replace_z t) | _ => None end;
  validation_text := λ model, "1 validation error for " +:+ model |}.

Definition sim_request : CreateSandboxRequest := {|
  image := {| uri := "python:3.11"; auth := None |}; timeout := Some 3600%Z; resource_limits := [("cpu", "500m")];
  env := None; req_metadata := Some [("team", "a")]; entrypoint := ["python"; "main.py"]; network_policy := None;
  volumes := None; extensions := None |}.

Definition sim_id : string := "01234567-89ab-cdef-0123-456789abcdef".

