(* ===== verification/K8sReadBack.v ===== *)
(** * A sandbox reads back as it was requested

    The object that [create_workload] sends, kept by the cluster, gives back the
    identifier, the metadata, the image and the expiration of the request when
    [_build_sandbox_from_workload] reads it. *)

From Stdlib Require Import Ascii QArith.
From S2P Require Import Prelude PyString PyDict PyTime Json PyVal Schema Validators Config Helpers Common.
From S2P Require Import Template PodSpec RateLimiter Informer K8sHelpers K8sClient WorkloadProvider.
From S2P Require Import BatchProvider AgentProvider ManifestPolicy K8sService SimCluster SimLaws K8sCreate.
Close Scope Q_scope.
Open Scope string_scope.
Open Scope list_scope.

(** ** Expirations *)

Lemma replace_z_digits s : string_forallb is_digit s = true → replace_z s = s.
Proof.
  induction s as [|c s IH]; cbn; [done|]. intros [Hc Hs]%andb_true_iff. rewrite bool_decide_eq_false_2, IH; [done..|].
  intros ->. done.
Qed.

Lemma replace_z_app s t : replace_z (s +:+ t) = replace_z s +:+ replace_z t.
Proof.
  induction s as [|c s IH]; [done|]. rewrite str_app_cons. cbn [replace_z]. rewrite IH.
  by destruct (bool_decide _); rewrite ?str_app_assoc.
Qed.

Lemma replace_z_fmt k n : replace_z (fmt k n) = fmt k n.
Proof. apply replace_z_digits. unfold fmt. by rewrite fixed_digits_digits. Qed.

Lemma replace_z_iso us : replace_z (isoformat (utc us)) = isoformat (utc us).
Proof.
  unfold isoformat, utc, format_local. destruct (day2ymd _) as [[y m] d].
  change (format_offset 0) with "+00:00". rewrite !replace_z_app, !replace_z_fmt.
  destruct (_ =? 0)%Z; [done|]. by rewrite replace_z_app, replace_z_fmt.
Qed.

Lemma parse_expiration_iso us : dt_in_range us = true → parse_expiration (PStr (isoformat (utc us))) = Ok (Some (utc us)).
Proof.
  intros Hr. unfold parse_expiration. rewrite replace_z_iso, fromisoformat_isoformat by done.
  destruct (vtruthy _) eqn:Ht; [done|]. exfalso. revert Ht. cbn. unfold isoformat, utc, format_local.
  destruct (day2ymd _) as [[y m] d]. by rewrite str_app_assoc, truthy_fmt_app.
Qed.

(** ** Labels *)

(** The time of the label: seconds. *)
Definition whole_second (us : Z) : Z := (us / us_per_second * us_per_second)%Z.

Lemma parse_activity_label t :
  (62135596800 * us_per_second ≤ t < dt_end)%Z →
  parse_activity (PStr (str_of_Z (unix_seconds t))) = Ok (Some (utc (whole_second t))).
Proof.
  intros Ht. unfold parse_activity. cbn [vtruthy]. rewrite truthy_str_of_Z. cbn [negb].
  assert (0 ≤ unix_seconds t < 2 ^ 40)%Z as Hn.
  { unfold unix_seconds. pose proof (Z.div_le_mono (62135596800 * us_per_second) t us_per_second).
    rewrite Z.div_mul in * by done.
    assert (t / us_per_second < 2 ^ 40)%Z by (apply Z.div_lt_upper_bound; [done|]; unfold dt_end, max_days, us_per_day, us_per_second in *; lia).
    unfold us_per_second in *. lia. }
  unfold int_of. rewrite py_int_str by (split; [lia|]; apply Z.lt_le_trans with (2 ^ 40)%Z; [lia|]; apply Z.pow_le_mono_r; lia).
  cbn [mbind result_bind]. unfold fromtimestamp.
  rewrite (proj2 (Z.ltb_ge _ _)), (proj2 (Z.leb_gt _ _)) by lia. cbn [orb].
  rewrite (proj2 (Z.ltb_ge _ _)), (proj2 (Z.leb_gt _ _)) by lia. cbn [orb].
  assert ((unix_seconds t + 62135596800) * us_per_second = whole_second t)%Z as ->.
  { unfold unix_seconds, whole_second. lia. }
  assert (dt_in_range (whole_second t) = true) as ->; [|done].
  unfold dt_in_range, whole_second. pose proof (Z.mul_div_le t us_per_second). pose proof (Z.div_pos t us_per_second).
  rewrite andb_true_iff, Z.leb_le, Z.ltb_lt. unfold us_per_second in *. lia.
Qed.

Lemma dget_of_str k (d : dict string) : dget k (prod_map id PStr <$> d) = PStr <$> dget k d.
Proof. induction d as [|[k' v] d IH]; cbn; [done|]. case_decide; [done|exact IH]. Qed.

Lemma text_dict_of_str `{Pydantic} m (d : dict string) : text_dict m (prod_map id PStr <$> d) = Ok d.
Proof. induction d as [|[k v] d IH]; cbn in *; [done|]. by rewrite IH. Qed.

Lemma text_list_of_str `{Pydantic} m (l : list string) : text_list m (PStr <$> l) = Ok l.
Proof. induction l as [|v l IH]; cbn in *; [done|]. by rewrite IH. Qed.

(** The user's part of the labels. *)
Definition user_part (metadata : option (dict string)) : option (dict string) :=
  match metadata with Some ((_ :: _) as m) => Some m | _ => None end.

Definition system_labels (sandbox_id : string) (t : Z) (exp : option datetime) : dict string :=
  [(SANDBOX_ID_LABEL, sandbox_id); (SANDBOX_LAST_ACTIVITY_AT_LABEL, str_of_Z (unix_seconds t))]
  ++ match exp with None => [(SANDBOX_MANUAL_CLEANUP_LABEL, "true")] | Some _ => [] end.

Definition plain_keys (metadata : option (dict string)) : Prop :=
  ∀ d, metadata = Some d → dict_wf d ∧ Forall (λ kv, startswith kv.1 "opensandbox.io/" = false) d.

Lemma accepted_plain metadata :
  ensure_metadata_labels metadata = Ok tt → (∀ d, metadata = Some d → dict_wf d) → plain_keys metadata.
Proof.
  intros Ha Hwf d ->. split; [by apply Hwf|]. cbn in Ha. apply for_each_Ok in Ha.
  eapply Forall_impl; [exact Ha|]. intros [k v] Hk. unfold ensure_metadata_label in Hk. results. cbn. apply Hk.
Qed.

Lemma create_labels_eq sandbox_id t exp metadata :
  plain_keys metadata →
  create_labels sandbox_id t exp metadata = system_labels sandbox_id t exp ++ default [] (user_part metadata).
Proof.
  intros Hp. unfold create_labels, system_labels, user_part.
  assert (∀ d, Forall (λ kv : string * string, startswith kv.1 "opensandbox.io/" = false) d → ∀ k, k ∈ dkeys d →
            startswith k "opensandbox.io/" = false) as Hk.
  { intros d Hd k. rewrite Forall_forall in Hd. unfold dkeys. rewrite list_elem_of_fmap. intros ([k' v]&->&Hin).
    by apply (Hd (k', v)). }
  destruct metadata as [[|kv m]|]; [destruct exp; done| |destruct exp; done].
  destruct (Hp _ eq_refl) as [Hwf Hpre]. specialize (Hk _ Hpre). cbn [default].
  rewrite dupdate_fresh; [by destruct exp|done|].
  intros k Hin%Hk. apply dget_None. intros Hx.
  assert (k ∈ [SANDBOX_ID_LABEL; SANDBOX_LAST_ACTIVITY_AT_LABEL; SANDBOX_MANUAL_CLEANUP_LABEL]) as Hy.
  { destruct exp; cbn in Hx; set_solver. }
  rewrite !elem_of_cons, elem_of_nil in Hy. by destruct Hy as [->|[->|[->|[]]]].
Qed.

Lemma user_labels_eq sandbox_id t exp metadata :
  plain_keys metadata →
  user_labels (prod_map id PStr <$> create_labels sandbox_id t exp metadata)
  = prod_map id PStr <$> default [] (user_part metadata).
Proof.
  intros Hp. rewrite create_labels_eq by done. rewrite fmap_app. unfold user_labels. rewrite List.filter_app.
  assert (List.filter (λ kv : string * pyval, negb (startswith kv.1 "opensandbox.io/"))
            (prod_map id PStr <$> system_labels sandbox_id t exp) = []) as -> by (by destruct exp).
  cbn [app]. assert (Forall (λ kv : string * string, startswith kv.1 "opensandbox.io/" = false) (default [] (user_part metadata))) as Hf.
  { destruct metadata as [[|kv m]|]; [constructor| |constructor]. by destruct (Hp _ eq_refl). }
  induction Hf as [|[k v] d Hkv _ IH]; [done|]. cbn in *. rewrite Hkv. cbn. by rewrite IH.
Qed.

(** ** The first container *)

Section container.
Context (a : CreateArgs).

(** The first container is the sandbox, with its image and command. *)
Definition sandbox_first (ps : dict pyval) : Prop :=
  ∃ c rest, dget "containers" ps = Some (PList (PDict c :: rest)) ∧
    dget "image" c = Some (PStr (uri (ca_image a))) ∧
    dget "command" c = Some (of_strings (BOOTSTRAP_SH :: ca_entrypoint a)).

Lemma first_set k v ps : k ≠ "containers" → sandbox_first ps → sandbox_first (dset k v ps).
Proof. intros Hk. unfold sandbox_first. by rewrite dget_set_ne by congruence. Qed.

Lemma first_mounts v c rest ps :
  sandbox_first ps → dget "containers" ps = Some (PList (PDict c :: rest)) →
  sandbox_first (dset "containers" (PList (PDict (dset "volumeMounts" v c) :: rest)) ps).
Proof.
  intros (c'&rest'&Hc'&Hi&Hcmd) Hc. rewrite Hc in Hc'. injection Hc' as -> ->.
  exists (dset "volumeMounts" v c'), rest'. by rewrite dget_set_eq, !dget_set_ne.
Qed.

Lemma first_egress ps np img tok ps' :
  sandbox_first ps → apply_egress_to_spec ps np img tok = Ok ps' → sandbox_first ps'.
Proof.
  intros Hf. unfold apply_egress_to_spec. destruct np, img as [[|ch i]|]; try by intros [= <-].
  intros (cs&Hcs&(ex&_&(sy&_&Hr)%result_bind_Ok)%result_bind_Ok)%result_bind_Ok.
  destruct Hf as (c&rest&Hc&Hcc). unfold dget_default at 1 in Hcs. rewrite Hc in Hcs. injection Hcs as <-.
  revert Hr. destruct (dget_default "securityContext" _ _); try done. intros [= <-]. apply first_set; [done|].
  exists c. eexists. by rewrite dget_set_eq.
Qed.

Lemma first_volumes ps ps' : sandbox_first ps → with_volumes a ps = Ok ps' → sandbox_first ps'.
Proof.
  intros Hf. unfold with_volumes. destruct (ca_volumes a) as [[|v vs]|]; try by intros [= <-].
  unfold apply_volumes_to_pod_spec. pose proof Hf as (c&rest&Hc&_).
  assert (dget_default "containers" (PList []) ps = PList (PDict c :: rest)) as -> by (unfold dget_default; by rewrite Hc).
  cbv zeta. cbn [vtruthy negb item0].
  intros (main&Hm&(mounts&_&(ml&_&(pv&_&(st&_&Hr)%result_bind_Ok)%result_bind_Ok)%result_bind_Ok)%result_bind_Ok)%result_bind_Ok.
  injection Hm as <-. injection Hr as <-. apply first_mounts; [by apply first_set|]. by rewrite dget_set_ne.
Qed.

Lemma first_attach claim ps ps' : sandbox_first ps → attach_workspace claim ps = Ok ps' → sandbox_first ps'.
Proof.
  intros Hf. unfold attach_workspace. intros (vols&_&(l&_&Hr)%result_bind_Ok)%result_bind_Ok. revert Hr. cbv zeta.
  set (ps0 := dset "volumes" _ ps). assert (sandbox_first ps0) as Hf0 by by apply first_set.
  pose proof Hf0 as (c&rest&Hc&_). unfold item. rewrite Hc. cbn [mbind result_bind item0].
  destruct (as_list _); [|done]. intros [= <-]. by apply first_mounts.
Qed.

Lemma first_main limits b spec c :
  build_main_container (ca_image a) (ca_entrypoint a) (ca_env a) limits true b = Ok c →
  dget "containers" spec = Some (PList [container_to_dict c]) → sandbox_first spec.
Proof.
  intros Hc Hs. exists (match container_to_dict c with PDict d => d | _ => [] end), []. revert Hc. unfold build_main_container.
  intros (sc&_&[= <-])%result_bind_Ok. by rewrite Hs.
Qed.

Lemma first_batch p ps : batch_base_spec p a = Ok ps → sandbox_first ps.
Proof.
  unfold batch_base_spec. intros (main&Hm&He)%result_bind_Ok. eapply first_egress; [|exact He].
  eapply first_main; [exact Hm|]. destruct (bp_runtime_class p) as [[]|], (auth (ca_image a)); done.
Qed.

Lemma first_agent p limits ps : agent_pod_spec p a limits = Ok ps → sandbox_first ps.
Proof.
  unfold agent_pod_spec. intros (main&Hm&He)%result_bind_Ok. eapply first_egress; [|exact He].
  eapply first_main; [exact Hm|]. by destruct (ap_runtime_class p) as [[]|].
Qed.

Lemma first_extras ps v1 v2 ps' : sandbox_first ps → merge_spec_extras ps v1 v2 = Ok ps' → sandbox_first ps'.
Proof.
  intros Hp. unfold merge_spec_extras. set (ps0 := merge_extras "volumes" v1 ps).
  assert (sandbox_first ps0) as Hp0.
  { subst ps0. destruct (merge_extras_cases "volumes" v1 ps) as [->|[v ->]]; [done|by apply first_set]. }
  pose proof Hp0 as (c&rest&Hc&Hi&Hcmd).
  assert (dget_default "containers" (PList []) ps0 = PList (PDict c :: rest)) as ->
    by (unfold dget_default; by rewrite Hc).
  cbn [val_or vtruthy]. intros [= <-].
  destruct (merge_extras_cases "volumeMounts" v2 c) as [->|[v ->]]; [|by apply first_mounts].
  exists c, rest. by rewrite dget_set_eq.
Qed.

(** Reading the first container of a specification, under either key. *)
Lemma read_first key spec ps :
  key = "template" ∨ key = "podTemplate" ∧ dget "template" spec = None →
  (∃ t, dget key spec = Some (PDict t) ∧ dget "spec" t = Some (PDict ps)) → sandbox_first ps →
  first_container (PDict spec) = Ok (PStr (uri (ca_image a)), of_strings (BOOTSTRAP_SH :: ca_entrypoint a)).
Proof.
  intros Hkey (t&Ht&Hps) (c&rest&Hc&Hi&Hcmd). unfold first_container, vget, vget_dict, get_or, dget_default.
  assert (vtruthy (PDict t) = true) as Htr by by destruct t.
  destruct Hkey as [->|[-> Hn]]; [rewrite Ht; cbn [mbind result_bind]; rewrite Htr
    |rewrite Hn, Ht; cbn [mbind result_bind]; change (vtruthy PNone) with false];
    cbn [mbind result_bind]; unfold val_or; rewrite Htr, Hps; cbn [mbind result_bind]; rewrite Hc;
    cbn [mbind result_bind vtruthy item0]; by rewrite Hi, Hcmd.
Qed.
End container.

(** ** Reading a workload *)

(** The cluster keeps the specification and the labels and adds the creation time. *)
Definition kept (manifest o : dict pyval) (creation : pyval) : Prop :=
  dget "spec" o = dget "spec" manifest ∧
  ∃ md md', dget "metadata" manifest = Some (PDict md) ∧ dget "metadata" o = Some (PDict md') ∧
    dget "labels" md' = dget "labels" md ∧ dget "creationTimestamp" md' = Some creation.

(** A time that a timestamp can show: none, or a UTC time in range. *)
Definition utc_or_none (exp : option datetime) : Prop :=
  ∀ d, exp = Some d → ∃ us, d = utc us ∧ dt_in_range us = true.

Lemma expiration_reads field exp spec d d' s' :
  utc_or_none exp → dget "spec" d = Some (PDict spec) → dict_wf spec →
  set_expiration field exp d = Ok d' → dget "spec" d' = Some (PDict s') →
  (v ← vget (PDict s') field; parse_expiration v) = Ok exp.
Proof.
  intros He Hd Hwf. unfold set_expiration, item. rewrite Hd. cbn. intros [= <-]. rewrite dget_set_eq. intros [= <-].
  destruct exp as [dt|]; unfold dget_default.
  - destruct (He _ eq_refl) as (us&->&Hr). rewrite dget_set_eq. by apply parse_expiration_iso.
  - by rewrite dget_pop, decide_True.
Qed.

Lemma set_expiration_spec field exp d spec d' :
  dget "spec" d = Some (PDict spec) → set_expiration field exp d = Ok d' →
  ∃ spec', dget "spec" d' = Some (PDict spec') ∧ (∀ k, k ≠ field → dget k spec' = dget k spec) ∧
    dget "metadata" d' = dget "metadata" d.
Proof.
  intros Hd. unfold set_expiration, item. rewrite Hd. cbn. intros [= <-].
  eexists. rewrite dget_set_eq, dget_set_ne by done. split_and!; [done| |done].
  intros k Hk. destruct exp; [by rewrite dget_set_ne|by rewrite dget_pop_ne].
Qed.

Section reading.
Context {E : Type} `{K8sEnv E} `{Pydantic} (s : KubernetesSandboxService E).
Context (request : CreateSandboxRequest) (sid : string) (t : Z) (exp : option datetime).
Hypothesis Hplain : plain_keys (req_metadata request).
Hypothesis Himage : truthy (uri (image request)) = true.
Hypothesis Htime : (62135596800 * us_per_second ≤ t < dt_end)%Z.

(** The sandbox that is shown: the fields of the request, the command with the
    bootstrap script in front, and the state from the cluster. *)
Definition shown (st : SandboxStatus) (created : datetime) : Sandbox := {|
  sb_id := sid; sb_image := {| uri := uri (image request); auth := None |}; sb_status := st;
  sb_metadata := user_part (req_metadata request); sb_entrypoint := BOOTSTRAP_SH :: entrypoint request;
  sb_expires_at := exp; sb_created_at := created; sb_last_activity_at := Some (utc (whole_second t)) |}.

Lemma default_some {V} k (v x : V) d : dget k d = Some v → dget_default k x d = v.
Proof. unfold dget_default. by intros ->. Qed.

Lemma label_reads k :
  dget k (create_labels sid t exp (req_metadata request)) =
  match dget k (system_labels sid t exp) with Some v => Some v | None => dget k (default [] (user_part (req_metadata request))) end.
Proof.
  rewrite create_labels_eq by done. generalize (system_labels sid t exp). intros d.
  induction d as [|[k' v] d IH]; cbn; [done|]. case_decide; [done|exact IH].
Qed.

Lemma workload_shown o md spec creation created si st w w' :
  dget "metadata" o = Some (PDict md) →
  dget "labels" md = Some (of_str_dict (create_labels sid t exp (req_metadata request))) →
  dget "creationTimestamp" md = Some creation → datetime_of creation = Some created →
  dget "spec" o = Some (PDict spec) →
  first_container (PDict spec) = Ok (PStr (uri (image request)), of_strings (BOOTSTRAP_SH :: entrypoint request)) →
  wp_get_expiration (ks_provider s) (PDict o) = Ok exp →
  wp_get_status (ks_provider s) (PDict o) w = (Ok si, w') → sandbox_status si = Ok st →
  build_sandbox_from_workload s (PDict o) w = (Ok (shown st created), w').
Proof.
  intros Hmd Hl Hct Hcr Hsp Hfc Hexp Hst Hss. unfold build_sandbox_from_workload, mbind, M_bind, lift.
  unfold vget_dict, vget, get_or. rewrite (default_some _ _ _ _ Hmd), (default_some _ _ _ _ Hsp).
  rewrite (default_some _ _ _ _ Hl), (default_some _ _ _ _ Hct). unfold of_str_dict.
  set (L := prod_map id PStr <$> create_labels sid t exp (req_metadata request)).
  assert (dget SANDBOX_ID_LABEL L = Some (PStr sid)) as HL1.
  { subst L. rewrite dget_of_str, label_reads. by destruct exp. }
  assert (dget SANDBOX_LAST_ACTIVITY_AT_LABEL L = Some (PStr (str_of_Z (unix_seconds t)))) as HL2.
  { subst L. rewrite dget_of_str, label_reads. by destruct exp. }
  rewrite (default_some _ _ _ _ HL1), Hexp, Hst. cbn [dict_items]. subst L. rewrite user_labels_eq by done.
  rewrite Hfc. cbn [vtruthy]. rewrite Himage. cbn [some_text].
  rewrite (default_some _ _ _ _ HL2), parse_activity_label, Hss by done.
  cbn [mbind result_bind some_text]. unfold a_datetime. rewrite Hcr. cbn [mbind result_bind].
  unfold of_strings. rewrite text_list_of_str. unfold shown.
  destruct (user_part (req_metadata request)) as [[|kv m]|] eqn:Hu; cbn [default].
  - exfalso. revert Hu. by destruct (req_metadata request) as [[]|].
  - pose proof (text_dict_of_str "Sandbox" (kv :: m)) as Ht. cbn [fmap list_fmap] in *. destruct kv as [k v]. cbn in *.
    by rewrite Ht.
  - done.
Qed.

Context (a : CreateArgs).
Hypothesis Hexp : utc_or_none exp.
Hypothesis Hargs : ca_sandbox_id a = sid ∧ ca_image a = image request ∧ ca_entrypoint a = entrypoint request ∧
  ca_labels a = create_labels sid t exp (req_metadata request) ∧ ca_expires_at a = exp.

(** A manifest without template: labels, expiration and first container read back. *)
Lemma manifest_shown field key d0 d1 d spec0 tmpl spec o md creation created si st w w' :
  dget "spec" d0 = Some (PDict spec0) → dict_wf spec0 → set_expiration field exp d0 = Ok d1 → dget "spec" d1 = Some (PDict spec) →
  dget field spec = dget field (match dget "spec" d with Some (PDict x) => x | _ => [] end) →
  dget "metadata" d = Some (PDict md) → dget "labels" md = Some (of_str_dict (ca_labels a)) →
  (∃ sp ps, dget "spec" d = Some (PDict sp) ∧ (key = "template" ∨ key = "podTemplate" ∧ dget "template" sp = None) ∧
     dget key sp = Some (PDict tmpl) ∧ dget "spec" tmpl = Some (PDict ps) ∧ sandbox_first a ps) →
  kept d o creation → datetime_of creation = Some created →
  (wp_get_expiration (ks_provider s) (PDict o) =
     (spec ← vget_dict (PDict o) "spec"; v ← vget spec field; parse_expiration v)) →
  wp_get_status (ks_provider s) (PDict o) w = (Ok si, w') → sandbox_status si = Ok st →
  build_sandbox_from_workload s (PDict o) w = (Ok (shown st created), w').
Proof.
  destruct Hargs as (Hid&Hi&Hep&Hlab&Hex).
  intros Hd0 Hwf0 Hd1 Hsp1 Hfield Hmd Hlabels (sp&ps&Hsp&Hkey&Hk&Hps&Hf) (Hs&md'&mo&Hmd'&Hmo&Hlo&Hco) Hcr Hget Hst Hss.
  rewrite Hmd in Hmd'. injection Hmd' as <-. rewrite Hsp in Hs, Hfield.
  eapply workload_shown; [exact Hmo|by rewrite Hlo, Hlabels, Hlab|exact Hco|exact Hcr|exact Hs| | |exact Hst|exact Hss].
  - rewrite <-Hi, <-Hep. eapply read_first; [exact Hkey| |exact Hf]. by exists tmpl.
  - rewrite Hget. unfold vget_dict, vget, get_or. rewrite (default_some _ _ _ _ Hs). cbn [mbind result_bind].
    pose proof (expiration_reads _ _ _ _ _ _ Hexp Hd0 Hwf0 Hd1 Hsp1) as Hr. unfold vget, get_or in Hr.
    cbn [mbind result_bind] in Hr. unfold dget_default in *. by rewrite <-Hfield.
Qed.

End reading.

(** ** A request over the simulated cluster *)

#[local] Existing Instance sim_pydantic.

Definition plain_batch : BatchSandboxProvider := {|
  bp_ingress := None; bp_init_resources := None; bp_runtime_class := None;
  bp_templates := {| template_file_path := None; template_kind := "BatchSandbox"; base_template := None |} |}.

Definition batch_service : KubernetesSandboxService SimCluster := {|
  ks_config := sim_config; ks_kubernetes := sim_kubernetes; ks_namespace := "sandboxes";
  ks_provider := batch_provider sim_kubernetes plain_batch |}.

Definition sim_created : Z := 63871372800123456.
Definition sim_expires : option datetime := Some (utc 63871376400123456).

Definition sim_args : CreateArgs := {|
  ca_sandbox_id := sim_id; ca_namespace := "sandboxes"; ca_image := image sim_request;
  ca_entrypoint := entrypoint sim_request; ca_env := []; ca_resource_limits := resource_limits sim_request;
  ca_labels := create_labels sim_id sim_created sim_expires (req_metadata sim_request); ca_expires_at := sim_expires;
  ca_execd_image := "execd:1"; ca_extensions := None; ca_network_policy := None; ca_egress_image := None;
  ca_volumes := None; ca_annotations := None; ca_egress_token := None |}.

Definition sim_manifest : dict pyval :=
  Eval vm_compute in match batch_manifest plain_batch sim_args with Ok d => d | Raise _ => [] end.

(** The object in the cluster. *)
Definition sim_workload : dict pyval :=
  Eval vm_compute in match new_object sim_id 7 (PDict sim_manifest) with PDict d => d | _ => [] end.

