(* ===== verification/K8sGuards.v ===== *)
(** * Guards of the Kubernetes operations, and growing a workspace volume

    Every operation on a sandbox first looks its workload up and then at its state:
    which refusals follow, and that a refused operation has done nothing but read.
    A workspace volume only ever grows. *)

From Stdlib Require Import Ascii QArith.
From S2P Require Import Prelude PyString PyDict PyTime Json PyVal Schema Validators Config K8sHelpers.
From S2P Require Import RateLimiter Informer K8sHelpers K8sClient WorkloadProvider Execd K8sService.
From S2P Require Import SimCluster ProviderLaws SimLaws K8sCreate.
Close Scope Q_scope.
Open Scope string_scope.
Open Scope list_scope.
Import SandboxErrorCodes.

(** ** Guards *)

Section guards.
Context {E : Type} `{K8sEnv E} `{Pydantic} (s : KubernetesSandboxService E) (literal_eval : string → result pyval).
Context (id : string) (w w1 : KWorld E) (workload : pyval).
Context (Hget : wp_get_workload (ks_provider s) id (ks_namespace s) w = (Ok workload, w1)).

Lemma find_absent {A} (k : pyval → MK E A) :
  vtruthy workload = false → (find_workload s id ≫= k) w = (Raise (sandbox_not_found id), w1).
Proof using Hget. intros Hv. unfold find_workload, mbind, M_bind. by rewrite Hget, Hv. Qed.

Lemma find_present {A} (k : pyval → MK E A) :
  vtruthy workload = true → (find_workload s id ≫= k) w = k workload w1.
Proof using Hget. intros Hv. unfold find_workload, mbind, M_bind. by rewrite Hget, Hv. Qed.

Lemma or_500_http {A} code text (m : MK E A) w0 x w0' :
  m w0 = (Raise x, w0') → is_http x = true → or_500 code text m w0 = (Raise x, w0').
Proof. intros Hm Hx. unfold or_500, try_except. by rewrite Hm, Hx. Qed.

Lemma bind_raise {A B} (m : MK E A) (k : A → MK E B) w0 x w0' :
  m w0 = (Raise x, w0') → (m ≫= k) w0 = (Raise x, w0').
Proof. intros Hm. unfold mbind, M_bind. by rewrite Hm. Qed.

Lemma pod_absent : vtruthy workload = false → get_sandbox_pod_name s id w = (Raise (sandbox_not_found id), w1).
Proof using Hget. apply find_absent. Qed.

Context (info : StatusInfo) (w2 : KWorld E).
Context (Hstatus : wp_get_status (ks_provider s) workload w1 = (Ok info, w2)).

Lemma state_refused {A} text must allowed (k : unit → MK E A) :
  one_of (si_state info) allowed = false →
  (require_state s text must allowed workload ≫= k) w1 = (Raise (invalid_state text (si_state info) must), w2).
Proof using Hstatus. intros Ha. unfold require_state, mbind, M_bind. by rewrite Hstatus, Ha. Qed.

Definition paused_error : exn := HTTPException 409 K8S_INVALID_STATE "Sandbox is paused. Resume it first.".

Lemma pod_paused :
  vtruthy workload = true → si_state info = "Paused" → get_sandbox_pod_name s id w = (Raise paused_error, w2).
Proof using Hget Hstatus.
  intros Hv Hp. unfold get_sandbox_pod_name. rewrite find_present by done.
  unfold mbind, M_bind. rewrite Hstatus, Hp. reflexivity.
Qed.
End guards.


#[local] Existing Instance sim_pydantic.

(** The simulated cluster after a creation that does not wait. *)
Definition created_world : KWorld SimCluster := (create_sandbox_async sim_service sim_request sim_world).2.


(** ** Workspace volumes *)

Section storage.
Context {E : Type} `{K8sEnv E} `{Pydantic} (s : KubernetesSandboxService E) (claims : E → gmap (string * string) PvcInfo).

Definition resized (p : PvcInfo) (size : string) : PvcInfo := {|
  pvc_requests := dset "storage" size (pvc_requests p); pvc_storage_class := pvc_storage_class p |}.
Definition requested (p : PvcInfo) : string := dget_default "storage" "0" (pvc_requests p).

(** Reading claims and classes changes no claim; a patch that the server accepts sets
    the requested size of its claim and nothing else. *)
Record claim_laws : Prop := {
  cl_read ns n e r e' : api_read_pvc ns n e = (r, e') →
    claims e' = claims e ∧ match r with Ok p => claims e !! (ns, n) = Some p | Raise _ => True end;
  cl_class n e r e' : api_read_storage_class n e = (r, e') → claims e' = claims e;
  cl_patch ns n body e r e' : api_patch_pvc ns n body e = (r, e') →
    match r with
    | Ok _ => ∃ p size, claims e !! (ns, n) = Some p ∧ claim_size body = Some size ∧ claims e' = <[(ns, n) := resized p size]> (claims e)
    | Raise _ => claims e' = claims e
    end }.

Context (L : claim_laws).

Lemma get_pvc_spec ns n w r w' :
  calm w → get_pvc ns n w = (r, w') →
  calm w' ∧ claims (kenv w') = claims (kenv w) ∧ match r with Ok (Some p) => claims (kenv w) !! (ns, n) = Some p | _ => True end.
Proof using L.
  intros Hc. unfold get_pvc, mbind at 1, M_bind. rewrite read_free by done. unfold catch, try_except, mbind, M_bind, kcall.
  destruct (api_read_pvc ns n (kenv w)) as [[p|x] e] eqn:Hr; destruct (cl_read L _ _ _ _ _ Hr) as [He Hp];
    [|destruct (is_api_status 404 x)]; intros [= <- <-]; auto.
Qed.

Lemma get_class_spec n w r w' :
  calm w → get_storage_class n w = (r, w') → calm w' ∧ claims (kenv w') = claims (kenv w).
Proof using L.
  intros Hc. unfold get_storage_class, mbind at 1, M_bind. rewrite read_free by done. unfold catch, try_except, mbind, M_bind, kcall.
  destruct (api_read_storage_class n (kenv w)) as [[p|x] e] eqn:Hr; pose proof (cl_class L _ _ _ _ Hr);
    [|destruct (is_api_status 404 x)]; intros [= <- <-]; auto.
Qed.

Lemma patch_pvc_spec ns n body w r w' :
  calm w → patch_pvc ns n body w = (r, w') →
  match r with
  | Ok _ => ∃ p size, claims (kenv w) !! (ns, n) = Some p ∧ claim_size body = Some size ∧
                      claims (kenv w') = <[(ns, n) := resized p size]> (claims (kenv w))
  | Raise _ => claims (kenv w') = claims (kenv w)
  end.
Proof using L.
  intros Hc. unfold patch_pvc, mbind at 1, M_bind. rewrite write_free by done. unfold kcall.
  destruct (api_patch_pvc ns n body (kenv w)) as [x e] eqn:Hr. intros [= <- <-]. by apply (cl_patch L) in Hr.
Qed.

(** The check of the storage class changes no claim. *)
Lemma class_check_spec sc w r w' :
  calm w → check_expandable sc w = (r, w') → calm w' ∧ claims (kenv w') = claims (kenv w).
Proof using L.
  intros Hc. unfold check_expandable. destruct sc as [[|c n]|]; [by intros [= _ <-]| |by intros [= _ <-]].
  unfold mbind, M_bind. destruct (get_storage_class _ w) as [rc w1] eqn:Hg.
  apply get_class_spec in Hg as [Hc1 He]; [|done].
  destruct rc as [[k|]|x]; [destruct (default false _)|..]; by intros [= _ <-].
Qed.

(** What a call may have done to the claims. *)
Definition grown (id size : string) (r : result unit) (w w' : KWorld E) : Prop :=
  let key := (ks_namespace s, "workspace-" +:+ id) in
  (claims (kenv w') = claims (kenv w) ∧
   (r = Ok tt → ∃ p n, claims (kenv w) !! key = Some p ∧ parse_k8s_quantity (requested p) = Ok n ∧ parse_k8s_quantity size = Ok n)) ∨
  (r = Ok tt ∧ ∃ p old new, claims (kenv w) !! key = Some p ∧ claims (kenv w') = <[key := resized p size]> (claims (kenv w)) ∧
     parse_k8s_quantity (requested p) = Ok old ∧ parse_k8s_quantity size = Ok new ∧ (old < new)%Z).

End storage.

Definition claimed_world (size : string) : KWorld SimCluster := Build_KWorld idle_client
  (sc_set_claims (λ _, {[ ("sandboxes", "workspace-box-1") := {| pvc_requests := [("storage", size)]; pvc_storage_class := Some "standard" |} ]}) empty_cluster).

Lemma sim_claim_laws : claim_laws sc_claims.
Proof.
  split.
  - intros ns n e r e'. cbn. unfold sim_claim. destruct (sc_claims e !! _) eqn:Hp; by intros [= <- <-].
  - by intros n e r e' [= _ <-].
  - intros ns n body e r e'. cbn. unfold sim_patch_claim.
    destruct (sc_claims e !! _) as [p|] eqn:Hp, (claim_size body) as [size|] eqn:Hs; intros [= <- <-]; [|done..]. by exists p, size.
Qed.


(** The provider names the claim after the object, not after the sandbox: where the two
    differ, the workspace of an existing sandbox is not found. *)
Example workspace_claim_mismatch :
  (map_to_list (sc_claims (kenv created_world))).*1 = [("sandboxes", "workspace-sandbox-" +:+ sim_id)] ∧
  http_status (match (expand_workspace_storage sim_service sim_id "2Gi" created_world).1 with Raise x => x | Ok _ => not_found_404 end) = 404%Z.
Proof. split; vm_compute; reflexivity. Qed.
