(* ===== verification/Auth.v ===== *)
(** * Authentication ([server/src/middleware/auth.py],
      [server/src/services/terminal_auth.py])

    The API key middleware, the signed tokens of terminal sessions, and the check
    that [sandbox_terminal] of [server/src/api/lifecycle.py] makes before it
    accepts a connection. *)

From Stdlib Require Import Ascii.
From S2P Require Import Prelude PyString PyDict Regex Config RuntimeResolver Helpers.
Open Scope string_scope.
Open Scope list_scope.

(** ** API keys *)

Definition API_KEY_HEADER : string := "OPEN-SANDBOX-API-KEY".
Definition EXEMPT_PATHS : list string := ["/health"; "/docs"; "/redoc"; "/openapi.json"].

Definition not_slash (c : ascii) : bool := negb (is_slash c).

(** [(/v1)?/sandboxes/[^/]+/proxy/\d+] *)
Definition PROXY_PATH : regex :=
  RCat (ROpt (RLit "/v1"))
    (RCat (RLit "/sandboxes/")
      (RCat (RPlus (RClass not_slash)) (RCat (RLit "/proxy/") (RPlus (RClass is_digit))))).

(** [re.match] of [^(/v1)?/sandboxes/[^/]+/proxy/\d+(/|$)]: what follows the port
    is a slash and anything, or the end. *)
Definition proxy_path_match (path : string) : bool :=
  re_match PROXY_PATH path
  || re_full (RCat PROXY_PATH (RCat (RChar "/") (RStar (RClass (λ _, true))))) path.

Definition is_proxy_path (path : string) : bool :=
  if contains path ".." then false else proxy_path_match path.

(** A set with at most one key. *)
Definition load_api_keys (config : AppConfig) : list string :=
  match api_key (server config) with
  | Some key => if truthy key && truthy (strip key) then [key] else []
  | None => []
  end.

(** What the middleware does with a request. *)
Inductive verdict :=
| CallNext
| Respond (status_code : Z) (code message : string).

Definition dispatch (valid_api_keys : list string) (path : string) (api_key : option string) : verdict :=
  if existsb (startswith path) EXEMPT_PATHS then CallNext else
  if is_proxy_path path then CallNext else
  match valid_api_keys with
  | [] => CallNext
  | _ =>
      if negb (truthy_opt api_key) then
        Respond 401 "MISSING_API_KEY"
          "Authentication credentials are missing. Provide API key via OPEN-SANDBOX-API-KEY header."
      else if negb (one_of (or_else api_key EmptyString) valid_api_keys) then
        Respond 401 "INVALID_API_KEY" "Authentication credentials are invalid. Check your API key and try again."
      else CallNext
  end.

(** [__call__]: WebSocket connections pass. *)
Definition middleware (config : AppConfig) (scope_type path : string) (api_key : option string) : verdict :=
  if str_eqb scope_type "websocket" then CallNext else dispatch (load_api_keys config) path api_key.

(** *** What reaches the handlers *)

(** The shape of a proxy route: [/sandboxes/<id>/proxy/<port>], optionally under
    [/v1], and what may follow it. *)
Definition proxy_route (path : string) : Prop :=
  ∃ v id port rest,
    path = v +:+ "/sandboxes/" +:+ id +:+ "/proxy/" +:+ port +:+ rest ∧
    (v = EmptyString ∨ v = "/v1") ∧
    truthy id = true ∧ string_forallb not_slash id = true ∧
    truthy port = true ∧ string_forallb is_digit port = true ∧
    (rest = EmptyString ∨ rest = newline ∨ startswith rest "/" = true).

Lemma matches_lit l s : matches (RLit l) s ↔ s = l.
Proof.
  revert s. induction l as [|c l IH]; intros s; cbn; [apply matches_eps|].
  unfold RChar. rewrite matches_cat. setoid_rewrite matches_class. setoid_rewrite IH. split.
  - by intros (a&b&->&(d&->&->%bool_decide_eq_true)&->).
  - intros ->. exists (String c EmptyString), l. split_and!; [done| |done].
    exists c. split; [done|]. by apply bool_decide_eq_true.
Qed.

Lemma matches_proxy s :
  matches PROXY_PATH s ↔
  ∃ v id port, s = v +:+ "/sandboxes/" +:+ id +:+ "/proxy/" +:+ port ∧ (v = EmptyString ∨ v = "/v1") ∧
    truthy id = true ∧ string_forallb not_slash id = true ∧
    truthy port = true ∧ string_forallb is_digit port = true.
Proof.
  unfold PROXY_PATH. split.
  - intros (v&a&->&Hv&(b&c&->&->%matches_lit&(id&d&->&[Hi1 Hi2]%matches_plus_class&
      (e&port&->&->%matches_lit&[Hp1 Hp2]%matches_plus_class)%matches_cat)%matches_cat)%matches_cat)%matches_cat.
    apply matches_opt in Hv. rewrite matches_lit in Hv. exists v, id, port. by split_and!.
  - intros (v&id&port&->&Hv&Hi1&Hi2&Hp1&Hp2). constructor; [by apply matches_opt; rewrite matches_lit|].
    constructor; [by apply matches_lit|]. constructor; [by apply matches_plus_class|].
    constructor; [by apply matches_lit|]. by apply matches_plus_class.
Qed.

Lemma matches_any s : matches (RStar (RClass (λ _, true))) s.
Proof. apply matches_star_class. induction s; [done|by cbn]. Qed.

Lemma proxy_path_match_spec path : proxy_path_match path = true ↔ proxy_route path.
Proof.
  unfold proxy_path_match, proxy_route. rewrite orb_true_iff, re_match_spec, re_full_spec.
  rewrite (matches_cat PROXY_PATH). setoid_rewrite matches_proxy.
  setoid_rewrite (matches_cat (RChar "/")). split.
  - intros [[(v&id&port&->&H)|(t&->&v&id&port&->&H)]|(a&b&->&(v&id&port&->&H)&x&y&->&Hx&_)].
    + exists v, id, port, EmptyString. rewrite str_app_nil_r. naive_solver.
    + exists v, id, port, newline. rewrite !str_app_assoc. naive_solver.
    + exists v, id, port, (x +:+ y). rewrite !str_app_assoc. split; [done|].
      unfold RChar in Hx. apply matches_class in Hx as (c&->&->%bool_decide_eq_true). destruct_and! H.
      split_and!; try done. by right; right.
  - intros (v&id&port&rest&->&Hv&Hi1&Hi2&Hp1&Hp2&[->|[->|Hr]]).
    + left. left. exists v, id, port. by rewrite str_app_nil_r.
    + left. right. exists (v +:+ "/sandboxes/" +:+ id +:+ "/proxy/" +:+ port).
      split; [by rewrite !str_app_assoc|]. by exists v, id, port.
    + right. apply startswith_true in Hr as [t ->].
      exists (v +:+ "/sandboxes/" +:+ id +:+ "/proxy/" +:+ port), ("/" +:+ t). rewrite !str_app_assoc.
      split_and!; [done|by exists v, id, port|]. exists "/", t. split_and!; [done| |apply matches_any].
      by constructor.
Qed.

(** C28: when a key is configured, an HTTP request reaches the handlers exactly if
    its path starts with one of the four exempt paths, is a proxy route without
    [..], or the request carries that key; every other request is answered
    with 401. *)
Theorem auth_gate config path header key :
  load_api_keys config = [key] →
  (middleware config "http" path header = CallNext ↔
     (∃ p, p ∈ EXEMPT_PATHS ∧ startswith path p = true) ∨
     (contains path ".." = false ∧ proxy_route path) ∨
     header = Some key) ∧
  (middleware config "http" path header = CallNext ∨
   ∃ code message, middleware config "http" path header = Respond 401 code message).
Proof.
  intros Hk. assert (truthy key = true) as Htk.
  { unfold load_api_keys in Hk. destruct (api_key (server config)) as [k|]; [|done].
    destruct (truthy k && truthy (strip k)) eqn:Ht; [|done]. injection Hk as ->. by apply andb_true_iff in Ht as [? _]. }
  unfold middleware. change (str_eqb "http" "websocket") with false. cbv iota. rewrite Hk. unfold dispatch.
  assert (existsb (startswith path) EXEMPT_PATHS = true ↔ ∃ p, p ∈ EXEMPT_PATHS ∧ startswith path p = true) as Hex.
  { rewrite existsb_exists. by setoid_rewrite list_elem_of_In. }
  assert (is_proxy_path path = true ↔ contains path ".." = false ∧ proxy_route path) as Hpr.
  { unfold is_proxy_path. rewrite <-proxy_path_match_spec. destruct (contains path ".."); naive_solver. }
  rewrite <-Hex, <-Hpr. clear Hex Hpr.
  destruct (existsb (startswith path) EXEMPT_PATHS); [naive_solver|].
  destruct (is_proxy_path path); [naive_solver|].
  destruct header as [h|]; [|cbn; split; [naive_solver|eauto]].
  cbn [truthy_opt or_else]. destruct (truthy h) eqn:Hh; cbn [negb].
  - cbn [one_of existsb]. rewrite orb_false_r. destruct (str_eqb h key) eqn:He; cbn [negb].
    + apply str_eqb_true in He. subst h. naive_solver.
    + apply str_eqb_false in He. split; [naive_solver|eauto].
  - split; [|eauto]. split; [done|]. intros [?|[?|[= ->]]]; congruence.
Qed.

(** A configuration with an API key. *)
Definition keyed_config : AppConfig := {|
  server := {| srv_host := "0.0.0.0"; srv_port := 8080; log_level := "INFO"; api_key := Some "secret";
               eip := None; max_sandbox_timeout_seconds := None; terminal_token_secret := None;
               terminal_token_ttl_seconds := 300 |};
  runtime := runtime gvisor_config; kubernetes := None; agent_sandbox := None; ingress := None;
  docker := docker gvisor_config; storage := storage gvisor_config; egress_config := None;
  secure_runtime := None |}.

Lemma auth_gate_witness :
  load_api_keys keyed_config = ["secret"] ∧
  middleware keyed_config "http" "/v1/sandboxes" (Some "secret") = CallNext ∧
  middleware keyed_config "http" "/v1/sandboxes" (Some "guess") ≠ CallNext ∧
  middleware keyed_config "http" "/sandboxes/a/proxy/80/../x" None ≠ CallNext.
Proof.
  split; [reflexivity|]. split_and!.
  - apply (proj1 (auth_gate keyed_config "/v1/sandboxes" (Some "secret") "secret" eq_refl)). by right; right.
  - vm_compute. discriminate.
  - vm_compute. discriminate.
Defined.

(** ** Terminal tokens *)

Definition JWT_ISSUER : string := "supersandbox".

Record Payload := { tok_sub : string; tok_iss : string; tok_iat : Z; tok_exp : Z }.

(** What [jwt.decode] returns or raises, by the classes the code distinguishes. *)
Inductive decoded :=
| Decoded (payload : Payload)
| ExpiredSignatureError
| InvalidIssuerError
| DecodeError
| InvalidTokenError (message : string).

(** PyJWT with HS256 is code outside of this repository.  Times are microseconds
    since 1970 for the clock and seconds in the payload. *)
Class Jwt := {
  jwt_encode : Payload → string → string;
  jwt_decode : Z → string → string → string → decoded }.

Definition create_terminal_token `{Jwt} (now_us : Z) (secret sandbox_id : string) (ttl_seconds : Z)
    : string * Z :=
  let now := (now_us / 1000000)%Z in
  let exp := (now + ttl_seconds)%Z in
  (jwt_encode {| tok_sub := sandbox_id; tok_iss := JWT_ISSUER; tok_iat := now; tok_exp := exp |} secret, exp).

(** [None] is a valid token, otherwise the error message. *)
Definition validate_terminal_token `{Jwt} (now_us : Z) (secret token expected_sandbox_id : string)
    : option string :=
  match jwt_decode now_us token secret JWT_ISSUER with
  | ExpiredSignatureError => Some "Token has expired"
  | InvalidIssuerError => Some "Invalid token issuer"
  | DecodeError => Some "Invalid token"
  | InvalidTokenError e => Some ("Token validation failed: " +:+ e)
  | Decoded payload =>
      if negb (str_eqb (tok_sub payload) expected_sandbox_id) then Some "Token not valid for this sandbox"
      else None
  end.

(** The part of [sandbox_terminal] before [websocket.accept()]. *)
Inductive connection := Accept | Close (code : Z) (reason : string).

Definition terminal_gate `{Jwt} (now_us : Z) (terminal_token_secret token : option string) (sandbox_id : string)
    : connection :=
  match terminal_token_secret with
  | Some ((String _ _) as secret) =>
      match token with
      | Some ((String _ _) as tok) =>
          match validate_terminal_token now_us secret tok sandbox_id with
          | Some err => Close 1008 (str_take 123 err)
          | None => Accept
          end
      | _ => Close 1008 "Missing terminal token"
      end
  | _ => Accept
  end.

(** What the library documents: a token is not empty, and decoding one that was
    signed with the same secret checks the issuer and the claims [iat] and [exp]
    against the clock and returns the payload. *)
Class JwtLaws `{Jwt} := {
  jwt_nonempty p secret : truthy (jwt_encode p secret) = true;
  jwt_decode_encode now p secret issuer :
    tok_iss p = issuer → (tok_iat p * 1000000 ≤ now)%Z →
    jwt_decode now (jwt_encode p secret) secret issuer =
    if (tok_exp p * 1000000 <=? now)%Z then ExpiredSignatureError else Decoded p }.

(** C39: with a secret configured, the token that [create_terminal_token] issues
    opens the terminal of its own sandbox and of no other one, from the moment
    it was issued until it expires; without a token the connection is closed. *)
Theorem terminal_token_scoped `{JwtLaws} t n secret sid ttl sid' :
  truthy secret = true → (t ≤ n)%Z →
  let '(token, exp) := create_terminal_token t secret sid ttl in
  (terminal_gate n (Some secret) (Some token) sid' = Accept ↔ sid' = sid ∧ (n < exp * 1000000)%Z) ∧
  terminal_gate n (Some secret) None sid' = Close 1008 "Missing terminal token".
Proof.
  intros Hs Hn. unfold create_terminal_token. set (p := {| tok_sub := sid |}). cbv zeta.
  destruct secret as [|c secret]; [done|]. split; [|done].
  pose proof (jwt_nonempty p (String c secret)) as Ht. pose proof (jwt_decode_encode n p (String c secret) JWT_ISSUER eq_refl) as Hd.
  unfold terminal_gate, validate_terminal_token. destruct (jwt_encode p (String c secret)) as [|d tok]; [done|].
  pose proof (Z.mul_div_le t 1000000 ltac:(lia)) as Hdiv.
  rewrite Hd by (subst p; cbn [tok_iat]; lia). subst p. cbn [tok_exp tok_sub].
  destruct (_ <=? n)%Z eqn:He.
  - apply Z.leb_le in He. split; [done|]. intros [_ Hlt]. exfalso. cbn [tok_exp] in He. lia.
  - apply Z.leb_gt in He. cbn [tok_exp] in He. cbn [tok_sub]. destruct (decide (sid' = sid)) as [->|Hne].
    + rewrite (proj2 (str_eqb_true sid sid)) by done. split; [intros _; split; [done|lia]|done].
    + rewrite (proj2 (str_eqb_false sid sid')) by (by intros ->). split; [done|]. by intros [? _].
Qed.

(** An encoder with these laws: the bits of the payload and the secret. *)
Fixpoint bits (p : positive) : string :=
  match p with xH => "1" | xO q => String "0" (bits q) | xI q => String "1" (bits q) end.

Fixpoint unbits (s : string) : option positive :=
  match s with
  | EmptyString => None
  | String c EmptyString => if bool_decide (c = "1"%char) then Some xH else None
  | String c s' => q ← unbits s'; Some (if bool_decide (c = "1"%char) then xI q else xO q)
  end.

Lemma unbits_bits p : unbits (bits p) = Some p.
Proof.
  induction p as [p IH|p IH|]; [| |done]; cbn; rewrite IH; by destruct p.
Qed.

#[export] Instance bits_jwt : Jwt := {
  jwt_encode p secret := bits (encode (tok_sub p, tok_iss p, tok_iat p, tok_exp p, secret));
  jwt_decode now token secret issuer :=
    match unbits token ≫= decode (A := string * string * Z * Z * string) with
    | Some (sub, iss, iat, exp, secret') =>
        if negb (str_eqb secret secret') then DecodeError
        else if (now <? iat * 1000000)%Z then InvalidTokenError "The token is not yet valid (iat)"
        else if (exp * 1000000 <=? now)%Z then ExpiredSignatureError
        else if negb (str_eqb iss issuer) then InvalidIssuerError
        else Decoded {| tok_sub := sub; tok_iss := iss; tok_iat := iat; tok_exp := exp |}
    | None => DecodeError
    end }.

#[export] Instance bits_jwt_laws : JwtLaws.
Proof.
  split.
  - intros p secret. cbn. by destruct (encode _).
  - intros now p secret issuer Hi Hn. cbn. rewrite unbits_bits. cbn. rewrite decode_encode.
    rewrite (proj2 (str_eqb_true secret secret)) by done. cbn. rewrite (proj2 (Z.ltb_ge _ _)) by done.
    destruct (_ <=? now)%Z; [done|]. rewrite (proj2 (str_eqb_true _ _)) by done. by destruct p.
Qed.

Lemma terminal_token_scoped_witness :
  let '(token, exp) := create_terminal_token 5000000 "0123456789abcdef" "sb" 300 in
  exp = 305%Z ∧ terminal_gate 6000000 (Some "0123456789abcdef") (Some token) "sb" = Accept ∧
  terminal_gate 6000000 (Some "0123456789abcdef") (Some token) "other" ≠ Accept.
Proof.
  pose proof (terminal_token_scoped 5000000 6000000 "0123456789abcdef" "sb" 300 "sb" eq_refl ltac:(lia)) as [H1 _].
  pose proof (terminal_token_scoped 5000000 6000000 "0123456789abcdef" "sb" 300 "other" eq_refl ltac:(lia)) as [H2 _].
  split; [reflexivity|]. split.
  - apply H1. split; [reflexivity|]. vm_compute. reflexivity.
  - intros Ha. apply H2 in Ha as [Hne _]. discriminate.
Defined.
