(* ===== verification/DockerHost.v ===== *)
(** * The Docker runtime: its state and what it calls

    [DockerSandboxService] keeps its own tables (the fields that [__init__]
    creates) and calls the Docker daemon, the operating system and the clock.
    The latter are code outside of this repository: the class [HostEnv] lists the
    calls, over an abstract state [E] of the world outside of the process, and
    every definition and theorem is stated for an arbitrary instance.  A call may
    raise any exception.  What a theorem needs of the outside is a hypothesis of
    that theorem. *)

From S2P Require Import Prelude PyString PyDict PyTime Schema Config.
Open Scope string_scope.

(** ** Exception classes *)

(** [except DockerException]: [ImageNotFound] and [NotFound] are subclasses. *)
Definition is_docker_exn (e : exn) : bool :=
  match e with
  | PyException (DockerException | DockerNotFound | ImageNotFound) _ => true
  | _ => false
  end.
Definition is_docker_not_found (e : exn) : bool :=
  match e with PyException (DockerNotFound | ImageNotFound) _ => true | _ => false end.
Definition is_image_not_found (e : exn) : bool :=
  match e with PyException ImageNotFound _ => true | _ => false end.
Definition is_os_error (e : exn) : bool :=
  match e with PyException (OSError | FileNotFoundError | FileExistsError) _ => true | _ => false end.
Definition is_type_error (e : exn) : bool :=
  match e with PyException TypeError _ => true | _ => false end.
(** ** What Docker reports *)

Record ContainerState := {
  st_status : option string;
  st_running : bool;
  st_paused : bool;
  st_restarting : bool;
  st_exit_code : option Z;
  st_finished_at : option string }.

Record NetworkSettings := {
  net_ip_address : option string;
  net_networks : dict (option (option string)) }.

Inductive container_cmd := CmdList (l : list string) | CmdStr (s : string).

(** A [Container] object: the attributes that the client has read. *)
Record Container := {
  c_id : string;
  c_labels : option (dict string);
  c_state : ContainerState;
  c_status : string;
  c_cmd : option container_cmd;
  c_created : option string;
  c_network : NetworkSettings }.

(** [container.attrs.get("Config", {}).get("Labels") or {}] *)
Definition labels_of (c : Container) : dict string := default [] (c_labels c).

(** [docker volume inspect] *)
Record VolumeInfo := { vi_driver : option string; vi_mountpoint : option string }.

Inductive list_filter :=
| AllContainers
| HasLabel (key : string)
| LabelEq (key value : string).

(** Values of the host configuration dictionary. *)
Inductive hvalue :=
| HStr (s : string)
| HInt (n : Z)
| HList (l : list string)
| HPorts (l : list (string * (string * Z)))
| HSysctls (l : list (string * Z)).

(** The keyword arguments of [api.create_container]. *)
Record ContainerSpec := {
  spec_image : string;
  spec_name : string;
  spec_entrypoint : option (list string);
  spec_command : option (list string);
  spec_ports : option (list string);
  spec_environment : list string;
  spec_labels : dict string;
  spec_host_config : dict hvalue }.

(** What [put_archive] sends: a tar file with one directory or one file, or the
    bytes of an archive that was read before. *)
Inductive archive :=
| TarDir (name : string) (mode mtime : Z)
| TarFile (name : string) (mode mtime : Z) (content : string)
| RawArchive (data : string).

(** ** The calls *)

Class HostEnv (E : Type) := {
  (* time, randomness *)
  clock : E → Z * E;
  uuid4 : E → string * E;
  token_urlsafe : E → string * E;
  randint : Z → Z → E → Z * E;
  (* operating system *)
  ismount : string → E → bool;
  gettempdir : string;
  makedirs : string → M E unit;
  write_file : string → string → M E unit;
  chmod : string → Z → M E unit;
  remove_file : string → M E unit;
  realpath : string → M E string;
  bind_port : Z → M E unit;
  subprocess_run : list string → M E (Z * string);
  (* Docker *)
  containers_list : list_filter → M E (list Container);
  containers_get : string → M E Container;
  container_kill : string → M E unit;
  container_remove : string → M E unit;
  container_start : string → M E unit;
  container_pause : string → M E unit;
  container_unpause : string → M E unit;
  container_reload : string → M E unit;
  container_update : string → dict string → M E unit;
  container_post_update : string → dict string → M E unit;
  container_image : string → M E (list string * string);
  put_archive : string → string → archive → M E unit;
  get_archive : string → string → M E string;
  images_get : string → M E unit;
  images_pull : string → option ImageAuth → M E unit;
  create_host_config : dict hvalue → M E unit;
  create_container : ContainerSpec → M E (option string);
  containers_create : ContainerSpec → M E Container;
  inspect_volume : string → M E VolumeInfo;
  networks_get : string → M E unit }.

(** ** The state of the service *)

Inductive callback :=
| ExpireSandbox (sandbox_id : string) (fallback_mount_keys : option (list string))
| RemovePending (sandbox_id : string).

(** A [threading.Timer]: it calls back at its deadline unless it is cancelled
    before; it calls back once. *)
Record Timer := {
  t_deadline : Z;
  t_callback : callback;
  t_cancelled : bool;
  t_fired : bool }.

Record PendingSandbox := {
  pend_request : CreateSandboxRequest;
  pend_created_at : datetime;
  pend_expires_at : option datetime;
  pend_status : SandboxStatus }.

(** The timer objects are in [timers]; the tables refer to them by index. *)
Record Service := {
  sandbox_expirations : gmap string datetime;
  expiration_timers : gmap string nat;
  timers : list Timer;
  pending_sandboxes : dict PendingSandbox;
  pending_cleanup_timers : gmap string nat;
  ossfs_mount_ref_counts : gmap string Z;
  execd_archive_cache : option string }.

Definition empty_service : Service := {|
  sandbox_expirations := ∅; expiration_timers := ∅; timers := []; pending_sandboxes := [];
  pending_cleanup_timers := ∅; ossfs_mount_ref_counts := ∅; execd_archive_cache := None |}.

Definition set_expirations f (s : Service) : Service := {|
  sandbox_expirations := f (sandbox_expirations s); expiration_timers := expiration_timers s;
  timers := timers s; pending_sandboxes := pending_sandboxes s;
  pending_cleanup_timers := pending_cleanup_timers s;
  ossfs_mount_ref_counts := ossfs_mount_ref_counts s; execd_archive_cache := execd_archive_cache s |}.
Definition set_timers f g (s : Service) : Service := {|
  sandbox_expirations := sandbox_expirations s; expiration_timers := f (expiration_timers s);
  timers := g (timers s); pending_sandboxes := pending_sandboxes s;
  pending_cleanup_timers := pending_cleanup_timers s;
  ossfs_mount_ref_counts := ossfs_mount_ref_counts s; execd_archive_cache := execd_archive_cache s |}.
Definition set_pending f (s : Service) : Service := {|
  sandbox_expirations := sandbox_expirations s; expiration_timers := expiration_timers s;
  timers := timers s; pending_sandboxes := f (pending_sandboxes s);
  pending_cleanup_timers := pending_cleanup_timers s;
  ossfs_mount_ref_counts := ossfs_mount_ref_counts s; execd_archive_cache := execd_archive_cache s |}.
Definition set_pending_timers f g (s : Service) : Service := {|
  sandbox_expirations := sandbox_expirations s; expiration_timers := expiration_timers s;
  timers := g (timers s); pending_sandboxes := pending_sandboxes s;
  pending_cleanup_timers := f (pending_cleanup_timers s);
  ossfs_mount_ref_counts := ossfs_mount_ref_counts s; execd_archive_cache := execd_archive_cache s |}.
Definition set_refs f (s : Service) : Service := {|
  sandbox_expirations := sandbox_expirations s; expiration_timers := expiration_timers s;
  timers := timers s; pending_sandboxes := pending_sandboxes s;
  pending_cleanup_timers := pending_cleanup_timers s;
  ossfs_mount_ref_counts := f (ossfs_mount_ref_counts s); execd_archive_cache := execd_archive_cache s |}.
Definition set_archive v (s : Service) : Service := {|
  sandbox_expirations := sandbox_expirations s; expiration_timers := expiration_timers s;
  timers := timers s; pending_sandboxes := pending_sandboxes s;
  pending_cleanup_timers := pending_cleanup_timers s;
  ossfs_mount_ref_counts := ossfs_mount_ref_counts s; execd_archive_cache := v |}.

Record World (E : Type) := { svc : Service; env : E }.
Arguments svc {E} w.
Arguments env {E} w.
Arguments Build_World {E} svc env.

(** A method of the service. *)
Definition MW (E A : Type) : Type := M (World E) A.

Section calls.
Context {E : Type}.

(** A call of the outside world; it does not touch the tables. *)
Definition call {A} (m : M E A) : MW E A := λ w,
  let '(r, e) := m (env w) in (r, Build_World (svc w) e).

(** A call that always returns. *)
Definition query {A} (m : E → A * E) : MW E A := λ w,
  let '(a, e) := m (env w) in (Ok a, Build_World (svc w) e).

Definition get_svc {A} (f : Service → A) : MW E A := λ w, (Ok (f (svc w)), w).
Definition get_env {A} (f : E → A) : MW E A := λ w, (Ok (f (env w)), w).
Definition put_svc (f : Service → Service) : MW E unit := λ w,
  (Ok tt, Build_World (f (svc w)) (env w)).

End calls.

(** [datetime.now(timezone.utc)] *)
Definition now {E} `{HostEnv E} : MW E datetime := us ← query clock; mret (utc us).

(** ** Reasoning about methods

    [keeps P m]: whatever happens, [m] preserves [P] of the tables.  The rules
    follow the structure of the monad, so that the automation below settles the
    methods that only call the outside. *)

Definition keeps {E A} (P : Service → Prop) (m : MW E A) : Prop :=
  ∀ w r w', P (svc w) → m w = (r, w') → P (svc w').

Section keeps.
Context {E : Type} (P : Service → Prop).

Lemma keeps_ret {A} (a : A) : keeps (E:=E) P (mret a).
Proof. by intros w r w' HP [= <- <-]. Qed.

Lemma keeps_raise {A} e : keeps (E:=E) (A:=A) P (raise e).
Proof. by intros w r w' HP [= <- <-]. Qed.

Lemma keeps_lift {A} (x : result A) : keeps (E:=E) P (lift x).
Proof. by intros w r w' HP [= <- <-]. Qed.

Lemma keeps_bind {A B} (m : MW E A) (k : A → MW E B) :
  keeps P m → (∀ a, keeps P (k a)) → keeps P (m ≫= k).
Proof.
  intros Hm Hk w r w' HP. unfold mbind, M_bind.
  destruct (m w) as [[a|e] w1] eqn:Em.
  - intros Hk'. eapply Hk; [|exact Hk']. by eapply Hm.
  - intros [= <- <-]. by eapply Hm.
Qed.

Lemma keeps_call {A} (m : M E A) : keeps P (call m).
Proof. intros w r w' HP. unfold call. destruct (m (env w)). by intros [= <- <-]. Qed.

Lemma keeps_query {A} (m : E → A * E) : keeps P (query m).
Proof. intros w r w' HP. unfold query. destruct (m (env w)). by intros [= <- <-]. Qed.

Lemma keeps_get_svc {A} (f : Service → A) : keeps (E:=E) P (get_svc f).
Proof. by intros w r w' HP [= <- <-]. Qed.

Lemma keeps_get_env {A} (f : E → A) : keeps P (get_env f).
Proof. by intros w r w' HP [= <- <-]. Qed.

Lemma keeps_put (f : Service → Service) : (∀ s, P s → P (f s)) → keeps (E:=E) P (put_svc f).
Proof. intros Hf w r w' HP [= <- <-]. by apply Hf. Qed.

Lemma keeps_try {A} (m : MW E A) h : keeps P m → (∀ e, keeps P (h e)) → keeps P (try_except m h).
Proof.
  intros Hm Hh w r w' HP. unfold try_except. destruct (m w) as [[a|e] w1] eqn:Em.
  - intros [= <- <-]. by eapply Hm.
  - intros Hh'. eapply Hh; [|exact Hh']. by eapply Hm.
Qed.

Lemma keeps_catch {A} p (m : MW E A) h : keeps P m → (∀ e, keeps P (h e)) → keeps P (catch p m h).
Proof. intros Hm Hh. apply keeps_try; [done|]. intros e. destruct (p e); [done|apply keeps_raise]. Qed.

Lemma keeps_finally {A} (m : MW E A) fin : keeps P m → keeps P fin → keeps P (try_finally m fin).
Proof.
  intros Hm Hf w r w' HP. unfold try_finally. destruct (m w) as [r1 w1] eqn:Em.
  destruct (fin w1) as [[u|e] w2] eqn:Ef; intros [= <- <-]; (eapply Hf; [|exact Ef]); by eapply Hm.
Qed.

Lemma keeps_for {A} (f : A → MW E unit) l : (∀ x, keeps P (f x)) → keeps P (for_eachM f l).
Proof.
  intros Hf. induction l as [|x l IH]; [apply keeps_ret|]. cbn.
  apply keeps_bind; [apply Hf|]. intros _. exact IH.
Qed.

End keeps.

Lemma keeps_now {E} `{HostEnv E} P : keeps (E:=E) P now.
Proof. apply keeps_bind; [apply keeps_query|]. intros. apply keeps_ret. Qed.

Create HintDb keeps.
#[export] Hint Resolve keeps_ret keeps_raise keeps_lift keeps_call keeps_query keeps_get_svc
  keeps_get_env keeps_now : keeps.

(** Decompose a method into its calls. *)
Ltac keeps :=
  repeat first
    [ progress intros
    | solve [eauto with keeps]
    | apply keeps_bind | apply keeps_catch | apply keeps_try | apply keeps_finally | apply keeps_for
    | match goal with
      | |- keeps _ (if ?b then _ else _) => destruct b
      | |- keeps _ (match ?x with _ => _ end) => destruct x
      | |- keeps _ (let '(_, _) := ?x in _) => destruct x
      end ].
