(* ===== verification/SimHost.v ===== *)
(** * A concrete outside world

    An instance of [HostEnv] that keeps a table of mount points and containers.  The
    theorems hold for every instance; this one shows that their hypotheses can
    hold and gives concrete runs.  [sim_fail] lists the calls that raise. *)

From S2P Require Import Prelude PyString PyDict PyTime Schema Config DockerHost.
Open Scope string_scope.

Record Sim := {
  sim_clock : Z;
  sim_next : nat;
  sim_fail : list string;
  sim_mounts : list string;
  sim_containers : list Container }.

Definition sim_init : Sim :=
  {| sim_clock := 0; sim_next := 0; sim_fail := []; sim_mounts := ["/"]; sim_containers := [] |}.

Definition sim_tick (e : Sim) : Sim := {|
  sim_clock := sim_clock e; sim_next := S (sim_next e); sim_fail := sim_fail e;
  sim_mounts := sim_mounts e; sim_containers := sim_containers e |}.
Definition sim_set_mounts f (e : Sim) : Sim := {|
  sim_clock := sim_clock e; sim_next := sim_next e; sim_fail := sim_fail e;
  sim_mounts := f (sim_mounts e); sim_containers := sim_containers e |}.
Definition sim_set_containers f (e : Sim) : Sim := {|
  sim_clock := sim_clock e; sim_next := sim_next e; sim_fail := sim_fail e;
  sim_mounts := sim_mounts e; sim_containers := f (sim_containers e) |}.
Definition sim_set_fail l (e : Sim) : Sim := {|
  sim_clock := sim_clock e; sim_next := sim_next e; sim_fail := l;
  sim_mounts := sim_mounts e; sim_containers := sim_containers e |}.
Definition sim_set_clock t (e : Sim) : Sim := {|
  sim_clock := t; sim_next := sim_next e; sim_fail := sim_fail e;
  sim_mounts := sim_mounts e; sim_containers := sim_containers e |}.

(** The clock shows a time in the years 1 to 8999. *)
Definition sim_now (e : Sim) : Z := (sim_clock e mod (8999 * 365 * us_per_day))%Z.

(** A fresh text of each call. *)
Definition sim_fresh (e : Sim) : string * Sim := (str_of_Z (Z.of_nat (sim_next e)), sim_tick e).

(** A call that changes the world unless it is listed as failing. *)
Definition sim_op {A} (name : string) (f : Sim → A * Sim) : M Sim A := λ e,
  if bool_decide (name ∈ sim_fail e)
  then (Raise (PyException DockerException name), e)
  else let '(a, e') := f e in (Ok a, e').

Definition sim_unit (name : string) (f : Sim → Sim) : M Sim unit := sim_op name (λ e, (tt, f e)).

Definition sim_state (running paused : bool) : ContainerState := {|
  st_status := Some (if running then "running" else "exited"); st_running := running; st_paused := paused;
  st_restarting := false; st_exit_code := Some 0%Z; st_finished_at := None |}.

Definition sim_with_state (st : ContainerState) (c : Container) : Container := {|
  c_id := c_id c; c_labels := c_labels c; c_state := st; c_status := c_status c; c_cmd := c_cmd c;
  c_created := c_created c; c_network := c_network c |}.
Definition sim_with_labels (l : dict string) (c : Container) : Container := {|
  c_id := c_id c; c_labels := Some l; c_state := c_state c; c_status := c_status c; c_cmd := c_cmd c;
  c_created := c_created c; c_network := c_network c |}.

Definition sim_on (id : string) (f : Container → Container) (l : list Container) : list Container :=
  (λ c, if bool_decide (c_id c = id) then f c else c) <$> l.

Definition sim_matches (f : list_filter) (c : Container) : bool :=
  match f with
  | AllContainers => true
  | HasLabel k => dmem k (labels_of c)
  | LabelEq k v => bool_decide (dget k (labels_of c) = Some v)
  end.

Definition sim_container (id : string) (labels : dict string) (running : bool) : Container := {|
  c_id := id; c_labels := Some labels; c_state := sim_state running false; c_status := "running";
  c_cmd := Some (CmdList ["sleep"; "60"]); c_created := Some "2025-01-01T00:00:00Z";
  c_network := {| net_ip_address := Some "172.17.0.2"; net_networks := [] |} |}.

(** Mount and unmount commands; every other command fails. *)
Definition sim_run (cmd : list string) (e : Sim) : (Z * string) * Sim :=
  match cmd with
  | ["fusermount"; "-u"; p] | ["umount"; p] =>
      ((0%Z, EmptyString), sim_set_mounts (base.filter (λ q, q ≠ p)) e)
  | "ossfs2" :: "mount" :: p :: _ | "ossfs" :: _ :: p :: _ =>
      ((0%Z, EmptyString), sim_set_mounts (cons p) e)
  | _ => ((1%Z, "unknown command"), e)
  end.

Definition sim_missing : exn := PyException DockerNotFound "no such container".

#[export] Instance sim_host : HostEnv Sim := {
  clock e := (sim_now e, e);
  uuid4 := sim_fresh;
  token_urlsafe := sim_fresh;
  randint lo hi e := ((lo + Z.of_nat (sim_next e) mod (hi - lo + 1))%Z, sim_tick e);
  ismount p e := bool_decide (p ∈ sim_mounts e);
  gettempdir := "/tmp";
  makedirs _ := sim_unit "makedirs" id;
  write_file _ _ := sim_unit "write_file" id;
  chmod _ _ := sim_unit "chmod" id;
  remove_file _ := sim_unit "remove_file" id;
  realpath p := sim_op "realpath" (λ e, (p, e));
  bind_port _ := sim_unit "bind_port" id;
  subprocess_run cmd := λ e,
    if bool_decide ("run" ∈ sim_fail e) then (Ok (1%Z, "failed"), e)
    else let '(a, e') := sim_run cmd e in (Ok a, e');
  containers_list f := sim_op "list" (λ e, (List.filter (sim_matches f) (sim_containers e), e));
  containers_get i := λ e,
    match List.find (λ c, bool_decide (c_id c = i)) (sim_containers e) with
    | Some c => sim_op "get" (λ e, (c, e)) e
    | None => (Raise sim_missing, e)
    end;
  container_kill i := sim_unit "kill" (sim_set_containers (sim_on i (sim_with_state (sim_state false false))));
  container_remove i := sim_unit "remove" (sim_set_containers (List.filter (λ c, negb (bool_decide (c_id c = i)))));
  container_start i := sim_unit "start" (sim_set_containers (sim_on i (sim_with_state (sim_state true false))));
  container_pause i := sim_unit "pause" (sim_set_containers (sim_on i (sim_with_state (sim_state true true))));
  container_unpause i := sim_unit "unpause" (sim_set_containers (sim_on i (sim_with_state (sim_state true false))));
  container_reload _ := sim_unit "reload" id;
  container_update i l := sim_unit "update" (sim_set_containers (sim_on i (sim_with_labels l)));
  container_post_update i l := sim_unit "post_update" (sim_set_containers (sim_on i (sim_with_labels l)));
  container_image _ := sim_op "image" (λ e, ((["python:3.11"], "sha256:0"), e));
  put_archive _ _ _ := sim_unit "put_archive" id;
  get_archive _ _ := sim_op "get_archive" (λ e, ("archive", e));
  images_get _ := sim_unit "images_get" id;
  images_pull _ _ := sim_unit "images_pull" id;
  create_host_config _ := sim_unit "create_host_config" id;
  create_container s := sim_op "create" (λ e,
    let '(i, e') := sim_fresh e in
    (Some i, sim_set_containers (cons (sim_container i (spec_labels s) false)) e'));
  containers_create s := sim_op "create" (λ e,
    let '(i, e') := sim_fresh e in
    (sim_container i (spec_labels s) false,
     sim_set_containers (cons (sim_container i (spec_labels s) false)) e'));
  inspect_volume _ := sim_op "inspect_volume" (λ e,
    ({| vi_driver := Some "local"; vi_mountpoint := Some "/var/lib/docker/volumes/v/_data" |}, e));
  networks_get _ := sim_unit "networks_get" id }.
