(* ===== verification/Ossfs.v ===== *)
(** * OSSFS mounts of the Docker runtime ([server/src/services/ossfs_mixin.py])

    Checks against command injection, the path a bucket is mounted at, the mount
    commands, and the reference-counted mount table with its roll back. *)

From Stdlib Require Import Ascii.
From S2P Require Import Prelude PyString Paths PyDict Regex PyTime Schema Validators Config.
From S2P Require Import Helpers DockerHost.
Open Scope string_scope.
Open Scope list_scope.

Definition internal_error (code message : string) : exn := HTTPException 500 code message.

(** ** Checks *)

(** [[a-z0-9]([a-z0-9-]{1,61}[a-z0-9])?] *)
Definition BUCKET_RE : regex :=
  RCat (RClass lower_alnum)
    (ROpt (RCat (RRange 1 61 (RClass lower_alnum_dash)) (RClass lower_alnum))).

Definition validate_bucket_name (bucket : string) : result unit :=
  raise_if (negb (truthy bucket))
    (bad_request SandboxErrorCodes.INVALID_PARAMETER "OSSFS bucket name cannot be empty.");;
  raise_if (negb (re_match BUCKET_RE bucket))
    (bad_request SandboxErrorCodes.INVALID_PARAMETER
       ("Invalid bucket name '" +:+ bucket +:+ "'. Bucket names must be 3-63 characters, contain only lowercase letters, numbers, and hyphens, and start/end with a letter or number.")).

(** The characters of [dangerous_chars], in order. *)
Definition dangerous_chars : list ascii :=
  [";"; "&"; "|"; "`"; "$"; "("; ")"; "<"; ">"]%char ++ [chr 10; chr 13].

(** [for char in chars: if char in text: raise]. *)
Definition refuse_chars (chars : list ascii) (message : ascii → string) (text : string) : result unit :=
  for_each (λ c, raise_if (has_char c text)
                   (bad_request SandboxErrorCodes.INVALID_PARAMETER (message c))) chars.

Definition validate_ossfs_option (option : string) : result unit :=
  refuse_chars dangerous_chars
    (λ c, "Invalid OSSFS option: contains forbidden character '" +:+ String c EmptyString
          +:+ "'. Options must not contain shell metacharacters.") option.

Definition validate_mount_path (path : string) : result unit :=
  raise_if (negb (truthy path))
    (bad_request SandboxErrorCodes.INVALID_PARAMETER "Mount path cannot be empty.");;
  raise_if (negb (startswith path "/"))
    (bad_request SandboxErrorCodes.INVALID_PARAMETER ("Mount path must be absolute: '" +:+ path +:+ "'"));;
  refuse_chars dangerous_chars
    (λ c, "Invalid mount path: contains forbidden character '" +:+ String c EmptyString
          +:+ "'. Paths must not contain shell metacharacters.") path.

Definition validate_endpoint_url (endpoint_url : string) : result unit :=
  raise_if (negb (truthy endpoint_url))
    (bad_request SandboxErrorCodes.INVALID_PARAMETER "Endpoint URL cannot be empty.");;
  refuse_chars (dangerous_chars ++ [" "%char])
    (λ c, "Invalid endpoint URL: contains forbidden character '" +:+ String c EmptyString
          +:+ "'. URLs must not contain shell metacharacters or spaces.") endpoint_url.

Definition normalize_ossfs_option (raw_option : string) : string := strip raw_option.

(** ** Paths *)

Definition strip_slashes (s : string) : string := rstrip_by is_slash (lstrip_by is_slash s).

(** A path equal to [root] or below it, as the code tests it. *)
Definition within (root path : string) : bool :=
  let prefix := if endswith root "/" then root else root +:+ "/" in
  bool_decide (path = root) || startswith path prefix.

Section mixin.
Context {E : Type} `{HostEnv E} (storage : StorageConfig).

Definition ossfs_bucket_root (bucket : string) : string :=
  normpath (path_join (normpath (strip (ossfs_mount_root storage))) bucket).

Definition resolve_ossfs_paths (volume : Volume) (o : OSSFS) : result (string * string) :=
  let mount_root := strip (ossfs_mount_root storage) in
  raise_if (negb (startswith mount_root "/"))
    (internal_error SandboxErrorCodes.INVALID_OSSFS_MOUNT_ROOT
       "storage.ossfs_mount_root must be configured as an absolute path.");;
  let bucket_root := ossfs_bucket_root (bucket o) in
  let prefix := lstrip_by is_slash (or_else (sub_path volume) EmptyString) in
  let backend_path := normpath (path_join bucket_root prefix) in
  raise_if (negb (within bucket_root backend_path))
    (bad_request SandboxErrorCodes.INVALID_SUB_PATH
       ("Volume '" +:+ vol_name volume +:+ "': resolved OSSFS prefix escapes bucket root."));;
  Ok (backend_path, backend_path).

(** ** Commands *)

(** The options that [f] turns into arguments, each checked. *)
Fixpoint option_args (f : string → list string) (options : list string) : result (list string) :=
  match options with
  | [] => Ok []
  | raw :: rest =>
      let opt := normalize_ossfs_option raw in
      if truthy opt then validate_ossfs_option opt;; l ← option_args f rest; Ok (f opt ++ l)
      else option_args f rest
  end.

Definition build_ossfs_v1_command (o : OSSFS)
    (source backend_path endpoint_url passwd_file : string) : result (list string) :=
  validate_bucket_name (bucket o);;
  validate_endpoint_url endpoint_url;;
  validate_mount_path backend_path;;
  args ← option_args (λ opt, ["-o"; opt]) (default [] (options o));
  Ok (["ossfs"; source; backend_path; "-o"; "url=" +:+ endpoint_url;
       "-o"; "passwd_file=" +:+ passwd_file] ++ args).

Definition build_ossfs_v2_config_lines (o : OSSFS) (endpoint_url prefix : string)
    : result (list string) :=
  validate_bucket_name (bucket o);;
  validate_endpoint_url endpoint_url;;
  args ← option_args (λ opt, ["--" +:+ opt]) (default [] (options o));
  Ok (["--oss_endpoint=" +:+ endpoint_url; "--oss_bucket=" +:+ bucket o;
       "--oss_access_key_id=" +:+ or_else (access_key_id o) "None";
       "--oss_access_key_secret=" +:+ or_else (access_key_secret o) "None"]
      ++ (if truthy prefix
          then ["--oss_bucket_prefix=" +:+ (if endswith prefix "/" then prefix else prefix +:+ "/")]
          else [])
      ++ args).

Definition build_ossfs_v2_mount_command (backend_path conf_file : string) : result (list string) :=
  validate_mount_path backend_path;;
  Ok ["ossfs2"; "mount"; backend_path; "-c"; conf_file].

(** ** Mounting *)

Definition run_ossfs_mount_command (cmd : list string) (volume_name : string) : MW E unit :=
  '(returncode, stderr) ← call (subprocess_run cmd);
  lift (raise_if (negb (returncode =? 0)%Z)
    (internal_error SandboxErrorCodes.OSSFS_MOUNT_FAILED
       ("Volume '" +:+ volume_name +:+ "': failed to mount OSSFS backend. stderr="
        +:+ (if truthy (strip stderr) then strip stderr else "unknown error")))).

(** [try: os.remove(f) except OSError: pass] *)
Definition remove_quietly (f : string) : MW E unit :=
  catch is_os_error (call (remove_file f)) (λ _, mret tt).

Definition mount_ossfs_backend_path (volume : Volume) (o : OSSFS) (backend_path : string) : MW E unit :=
  lift (raise_if (negb (truthy_opt (access_key_id o)) || negb (truthy_opt (access_key_secret o)))
    (bad_request SandboxErrorCodes.INVALID_OSSFS_CREDENTIALS
       "OSSFS inline credentials are required: accessKeyId and accessKeySecret must be provided."));;
  call (makedirs backend_path);;
  let prefix := strip_slashes (or_else (sub_path volume) EmptyString) in
  let source := if truthy prefix then bucket o +:+ ":/" +:+ prefix else bucket o in
  let endpoint_url := normalize_external_endpoint_url (endpoint o) "https" in
  let version := if truthy (version o) then version o else "2.0" in
  catch is_os_error
    (if bool_decide (version = "1.0") then
       hex ← query uuid4;
       let passwd_file := path_join gettempdir ("opensandbox-ossfs-inline-" +:+ hex) in
       try_finally
         (call (write_file passwd_file
            (bucket o +:+ ":" +:+ or_else (access_key_id o) EmptyString +:+ ":"
             +:+ or_else (access_key_secret o) EmptyString));;
          call (chmod passwd_file 384);;
          cmd ← lift (build_ossfs_v1_command o source backend_path endpoint_url passwd_file);
          run_ossfs_mount_command cmd (vol_name volume))
         (remove_quietly passwd_file)
     else if bool_decide (version = "2.0") then
       conf_lines ← lift (build_ossfs_v2_config_lines o endpoint_url prefix);
       hex ← query uuid4;
       let conf_file := path_join gettempdir ("opensandbox-ossfs2-" +:+ hex +:+ ".conf") in
       try_finally
         (call (write_file conf_file (join newline conf_lines +:+ newline));;
          call (chmod conf_file 384);;
          cmd ← lift (build_ossfs_v2_mount_command backend_path conf_file);
          run_ossfs_mount_command cmd (vol_name volume))
         (remove_quietly conf_file)
     else raise (bad_request SandboxErrorCodes.INVALID_OSSFS_VERSION
            ("Volume '" +:+ vol_name volume +:+ "': unsupported OSSFS version '" +:+ version +:+ "'.")))
    (λ exc, raise (internal_error SandboxErrorCodes.OSSFS_MOUNT_FAILED
       ("Volume '" +:+ vol_name volume +:+ "': failed to execute ossfs command: " +:+ exn_text exc))).

(** ** The mount table *)

Definition ref_count (key : string) (s : Service) : Z :=
  default 0%Z (ossfs_mount_ref_counts s !! key).

(** The argument of [_ensure_ossfs_mounted]: a volume or a mount key. *)
Inductive mount_target :=
| ByVolume (volume : Volume) (o : OSSFS)
| ByKey (mount_key : string).

Definition ensure_ossfs_mounted (target : mount_target) : MW E string :=
  '(mount_key, volume) ←
    match target with
    | ByKey key => mret (key, None)
    | ByVolume v o => '(backend_path, _) ← lift (resolve_ossfs_paths v o); mret (backend_path, Some (v, o))
    end;
  current ← get_svc (ref_count mount_key);
  if (0 <? current)%Z then
    put_svc (set_refs (<[mount_key := (current + 1)%Z]>));; mret mount_key
  else
    mounted ← get_env (ismount mount_key);
    (if mounted : bool then mret tt else
     match volume with
     | None => raise (internal_error SandboxErrorCodes.OSSFS_MOUNT_FAILED
                 ("Failed to mount OSSFS path '" +:+ mount_key +:+ "': missing volume context."))
     | Some (v, o) => mount_ossfs_backend_path v o mount_key
     end);;
    put_svc (set_refs (<[mount_key := 1%Z]>));; mret mount_key.

(** The part of [_release_ossfs_mount] under the lock: should it unmount? *)
Definition release_decrement (mount_key : string) : MW E bool :=
  current ← get_svc (ref_count mount_key);
  if (current <=? 0)%Z then mret false
  else if (current =? 1)%Z then put_svc (set_refs (delete mount_key));; mret true
  else put_svc (set_refs (<[mount_key := (current - 1)%Z]>));; mret false.

(** [for cmd in (...)]: the first command that succeeds ends the release. *)
Fixpoint run_unmount (mount_key : string) (cmds : list (list string)) (errors : list string) : MW E unit :=
  match cmds with
  | [] => raise (internal_error SandboxErrorCodes.OSSFS_UNMOUNT_FAILED
            ("Failed to unmount OSSFS path '" +:+ mount_key +:+ "': " +:+ join "; " errors))
  | cmd :: cmds' =>
      '(returncode, stderr) ← call (subprocess_run cmd);
      if (returncode =? 0)%Z then mret tt
      else run_unmount mount_key cmds'
             (errors ++ [if truthy (strip stderr) then strip stderr else "unknown error"])
  end.

(** The part after the lock has been released. *)
Definition release_unmount (mount_key : string) (should_unmount : bool) : MW E unit :=
  mounted ← get_env (ismount mount_key);
  if negb should_unmount || negb mounted then mret tt
  else run_unmount mount_key [["fusermount"; "-u"; mount_key]; ["umount"; mount_key]] [].

Definition release_ossfs_mount (mount_key : string) : MW E unit :=
  lift (validate_mount_path mount_key);;
  should_unmount ← release_decrement mount_key;
  release_unmount mount_key should_unmount.

Definition release_ossfs_mounts (mount_keys : list string) : MW E unit :=
  for_eachM (λ key, catch is_http (release_ossfs_mount key) (λ _, mret tt)) mount_keys.

(** [key_to_volume]: the first volume of every mount key, in order. *)
Fixpoint collect_keys (volumes : list Volume) (key_to_volume : dict (Volume * OSSFS))
    : result (dict (Volume * OSSFS)) :=
  match volumes with
  | [] => Ok key_to_volume
  | v :: rest =>
      match vol_ossfs v with
      | None => collect_keys rest key_to_volume
      | Some o =>
          '(mount_key, _) ← resolve_ossfs_paths v o;
          collect_keys rest (if dmem mount_key key_to_volume then key_to_volume
                             else dset mount_key (v, o) key_to_volume)
      end
  end.

(** The loop of [_prepare_ossfs_mounts]: the keys prepared so far are kept for
    the roll back, so they are returned next to the outcome. *)
Fixpoint prepare_loop (items : dict (Volume * OSSFS)) (prepared : list string)
    : World E → result unit * list string * World E :=
  λ w, match items with
  | [] => (Ok tt, prepared, w)
  | (mount_key, (v, o)) :: rest =>
      match ensure_ossfs_mounted (ByVolume v o) w with
      | (Ok _, w') => prepare_loop rest (prepared ++ [mount_key]) w'
      | (Raise e, w') => (Raise e, prepared, w')
      end
  end.

(** [try: ... except Exception: roll back; raise] *)
Definition prepare_all (key_to_volume : dict (Volume * OSSFS)) : MW E (list string) := λ w,
  match prepare_loop key_to_volume [] w with
  | (Ok _, _, w') => (Ok (dkeys key_to_volume), w')
  | (Raise e, prepared, w') => (release_ossfs_mounts prepared;; raise e) w'
  end.

Definition prepare_ossfs_mounts (volumes : option (list Volume)) : MW E (list string) :=
  match volumes with
  | None | Some [] => mret []
  | Some vols => lift (collect_keys vols []) ≫= prepare_all
  end.

Definition validate_ossfs_volume (windows : bool) (volume : Volume) (o : OSSFS) : result unit :=
  raise_if windows
    (bad_request SandboxErrorCodes.INVALID_PARAMETER
       "OSSFS backend on Docker runtime requires a Linux host with FUSE support. Running OpenSandbox Server on Windows is not supported for OSSFS mounts.");;
  raise_if (negb (truthy_opt (access_key_id o)) || negb (truthy_opt (access_key_secret o)))
    (bad_request SandboxErrorCodes.INVALID_OSSFS_CREDENTIALS
       "OSSFS inline credentials are required: accessKeyId and accessKeySecret must be provided.");;
  resolve_ossfs_paths volume o;;
  Ok tt.

End mixin.

(** ** Paths stay below the mount root *)

Lemma within_true root p : within root p = true ↔ path_under root p.
Proof. unfold within, path_under. by rewrite orb_true_iff, bool_decide_eq_true. Qed.

Lemma path_under_trans a b c : path_under a b → path_under b c → path_under a c.
Proof.
  unfold path_under. intros [->|Hb] Hc; [done|].
  destruct Hc as [->|Hc]; [by right|]. right.
  eapply startswith_trans; [exact Hc|]. destruct (endswith b "/"); [done|].
  eapply startswith_trans; [apply startswith_app|done].
Qed.

(** The characters of a bucket name that the check accepts. *)
Lemma bucket_re_chars b :
  re_match BUCKET_RE b = true → string_forallb (λ c, lower_alnum_dash c || (code c =? 10)%N) b = true.
Proof.
  assert (∀ p q s, (∀ c, p c = true → q c = true) → string_forallb p s = true → string_forallb q s = true) as Hmono.
  { intros p q s Hpq. induction s as [|c s IH]; [done|]. cbn.
    intros [Hc Hs]%andb_true_iff. by rewrite Hpq, IH. }
  assert (∀ n p s, matches (RUpTo n (RClass p)) s → string_forallb p s = true) as Hup.
  { intros n p. induction n as [|n IH]; cbn; intros s.
    - by intros ->%matches_eps.
    - unfold ROpt. intros [->%matches_eps|(a&b'&->&(c&->&Hc)%matches_class&Hb)%matches_cat]%matches_alt; [done|].
      rewrite string_forallb_app. cbn. by rewrite Hc, IH. }
  assert (∀ t, matches BUCKET_RE t → string_forallb lower_alnum_dash t = true) as Hb.
  { assert (∀ c, lower_alnum c = true → lower_alnum_dash c = true) as Hl
      by (intros c Hc; unfold lower_alnum_dash; by rewrite Hc).
    intros t (a&b'&->&(c&->&Hc)%matches_class&Hr%matches_opt)%matches_cat.
    rewrite string_forallb_app. cbn. rewrite Hl by done. cbn.
    destruct Hr as [->|(x&y&->&Hx&(d&->&Hd)%matches_class)%matches_cat]; [done|].
    rewrite string_forallb_app. cbn. rewrite Hl, andb_true_r by done.
    unfold RRange in Hx. cbn [RTimes] in Hx.
    apply matches_cat in Hx as (x1&x2&->&Hx1&Hx2). rewrite string_forallb_app, (Hup _ _ _ Hx2).
    apply matches_cat in Hx1 as (y1&y2&->&(e&->&He)%matches_class&->%matches_eps). cbn. by rewrite He. }
  rewrite re_match_spec. intros [H|(t&->&H)].
  - eapply Hmono; [|by apply Hb]. intros c ->. done.
  - rewrite string_forallb_app. cbn. rewrite andb_true_r.
    eapply Hmono; [|by apply Hb]. intros c ->. done.
Qed.

Lemma has_char_forallb p c s : string_forallb p s = true → p c = false → has_char c s = false.
Proof.
  induction s as [|d s IH]; cbn; [done|]. intros [Hd Hs]%andb_true_iff Hc.
  rewrite IH, bool_decide_eq_false_2 by (done || (intros ->; congruence)). done.
Qed.

Lemma bucket_name_plain b :
  validate_bucket_name b = Ok tt → startswith b "/" = false ∧ dotdot ∉ split_on slash b.
Proof.
  unfold validate_bucket_name. rewrite result_bind_unit_Ok, !raise_if_Ok, !negb_false_iff.
  intros [_ Hb%bucket_re_chars].
  pose proof (has_char_forallb _ slash _ Hb eq_refl) as Hs.
  pose proof (has_char_forallb _ "."%char _ Hb eq_refl) as Hd. split.
  - apply not_true_is_false. intros [t ->]%startswith_true. by rewrite has_char_app in Hs.
  - rewrite split_no_sep by done. rewrite list_elem_of_singleton. intros <-. done.
Qed.

Section paths.
Context (storage : StorageConfig).

Lemma resolve_ossfs_paths_Ok v o p q :
  resolve_ossfs_paths storage v o = Ok (p, q) →
  p = q ∧ startswith (strip (ossfs_mount_root storage)) "/" = true ∧
  p = normpath (path_join (ossfs_bucket_root storage (bucket o))
        (lstrip_by is_slash (or_else (sub_path v) EmptyString))) ∧
  path_under (ossfs_bucket_root storage (bucket o)) p.
Proof.
  unfold resolve_ossfs_paths. cbv zeta. rewrite !result_bind_unit_Ok, !raise_if_Ok, !negb_false_iff, within_true.
  intros (?&?&[= <- <-]). auto.
Qed.

(** For a bucket name that [_validate_bucket_name] accepts, whatever the
    sub path, a resolved OSSFS path lies below the directory of the bucket, and
    that directory below the configured mount root. *)
Theorem ossfs_path_confined v o p q :
  validate_bucket_name (bucket o) = Ok tt →
  resolve_ossfs_paths storage v o = Ok (p, q) →
  p = q ∧ path_under (ossfs_bucket_root storage (bucket o)) p ∧
  path_under (normpath (strip (ossfs_mount_root storage))) (ossfs_bucket_root storage (bucket o)) ∧
  path_under (normpath (strip (ossfs_mount_root storage))) p.
Proof.
  intros [Hrel Hdd]%bucket_name_plain (->&Habs&_&Hu)%resolve_ossfs_paths_Ok.
  assert (path_under (normpath (strip (ossfs_mount_root storage))) (ossfs_bucket_root storage (bucket o))) as Hr.
  { unfold ossfs_bucket_root. rewrite <-(normpath_idemp (strip _)) at 1 by done.
    apply normpath_join_under; [by apply normpath_abs|done..]. }
  split_and!; [done..|]. by eapply path_under_trans.
Qed.

End paths.

Definition sample_storage : StorageConfig :=
  {| allowed_host_paths := ["/data"]; ossfs_mount_root := "/mnt/ossfs"; default_workspace_volume_size := "1Gi" |}.
Definition sample_ossfs (b : string) : OSSFS :=
  {| bucket := b; endpoint := "oss-cn-hangzhou.aliyuncs.com"; version := "2.0"; options := Some ["allow_other"];
     access_key_id := Some "id"; access_key_secret := Some "secret" |}.
Definition sample_volume (b : string) (sub : option string) : Volume :=
  {| vol_name := "data"; vol_host := None; vol_pvc := None; vol_ossfs := Some (sample_ossfs b);
     mount_path := "/data"; read_only := false; sub_path := sub |}.

Lemma ossfs_path_confined_witness :
  path_under "/mnt/ossfs" "/mnt/ossfs/my-bucket/a/b".
Proof.
  apply (ossfs_path_confined sample_storage (sample_volume "my-bucket" (Some "a//b/")) (sample_ossfs "my-bucket")
    "/mnt/ossfs/my-bucket/a/b" "/mnt/ossfs/my-bucket/a/b"); vm_compute; reflexivity.
Defined.

(** ** The commands carry no shell metacharacters *)

Definition clean (s : string) : Prop := Forall (λ c, has_char c s = false) dangerous_chars.

Lemma clean_app s t : clean (s +:+ t) ↔ clean s ∧ clean t.
Proof.
  unfold clean. rewrite <-Forall_and. apply Forall_iff. intros c. by rewrite has_char_app, orb_false_iff.
Qed.

Lemma refuse_chars_Ok chars msg s :
  refuse_chars chars msg s = Ok tt ↔ Forall (λ c, has_char c s = false) chars.
Proof. unfold refuse_chars. rewrite for_each_Ok. apply Forall_iff. intros c. apply raise_if_Ok. Qed.

Lemma validate_mount_path_Ok p :
  validate_mount_path p = Ok tt ↔ startswith p "/" = true ∧ clean p.
Proof.
  unfold validate_mount_path. rewrite !result_bind_unit_Ok, !raise_if_Ok, !negb_false_iff, refuse_chars_Ok.
  split; [tauto|]. intros [? ?]. split_and!; try done. by destruct p.
Qed.

Lemma validate_endpoint_url_clean u : validate_endpoint_url u = Ok tt → clean u.
Proof.
  unfold validate_endpoint_url. rewrite result_bind_unit_Ok. intros [_ H%refuse_chars_Ok].
  by apply Forall_app in H as [? _].
Qed.

Lemma option_args_clean f opts args :
  (∀ x, clean x → Forall clean (f x)) → option_args f opts = Ok args → Forall clean args.
Proof.
  intros Hf. revert args. induction opts as [|raw opts IH]; cbn [option_args]; intros args; [by intros [= <-]|].
  cbv zeta. destruct (truthy _); [|apply IH].
  intros [Hv (l&Hl&[= <-])%result_bind_Ok]%result_bind_unit_Ok.
  apply refuse_chars_Ok in Hv. apply Forall_app. split; [by apply Hf|by apply IH].
Qed.

(** A character of one component is a character of the joined path. *)
Lemma has_char_join c w ws sp : w ∈ ws → has_char c w = true → has_char c (join sp ws) = true.
Proof.
  intros Hin Hc. induction ws as [|x ws IH]; [by apply not_elem_of_nil in Hin|].
  destruct ws as [|y ws].
  - apply list_elem_of_singleton in Hin as ->. done.
  - rewrite join_cons by done. rewrite !has_char_app.
    apply elem_of_cons in Hin as [->|Hin]; [by rewrite Hc|]. rewrite IH, !orb_true_r by done. done.
Qed.

Lemma has_char_split c d s : c ≠ d → has_char c s = true → ∃ w, w ∈ split_on d s ∧ has_char c w = true.
Proof.
  intros Hcd Hs. rewrite <-(join_split d s) in Hs.
  induction (split_on d s) as [|w ws IH]; [done|]. destruct ws as [|w' ws].
  - exists w. split; [by left|done].
  - rewrite join_cons in Hs by done. rewrite !has_char_app in Hs. cbn in Hs.
    rewrite (bool_decide_eq_false_2 (c = d)) in Hs by done. cbn in Hs.
    apply orb_true_iff in Hs as [Hs|Hs]; [exists w; split; [by left|done]|].
    destruct (IH Hs) as (x&?&?). exists x. split; [by right|done].
Qed.

(** Normalising a path without [..] loses no character other than slashes and
    dots. *)
Lemma normpath_join_chars c p sub :
  startswith p "/" = true → startswith sub "/" = false → dotdot ∉ split_on slash sub →
  c ≠ slash → c ≠ "."%char →
  has_char c (normpath (path_join p sub)) = false →
  has_char c (normpath p) = false ∧ has_char c sub = false.
Proof.
  intros Hp Hrel Hdd Hcs Hcd. destruct (normpath_join_comps p sub Hp Hrel Hdd) as (n&cs&_&Hcs'&->&->).
  rewrite !has_char_app, !orb_false_iff. intros [Hn Hj]. split.
  - split; [done|]. apply not_true_is_false. intros Hc. destruct cs as [|x cs]; [done|].
    destruct (kept (split_on slash sub)) as [|k ks]; [by rewrite app_nil_r, Hc in Hj|].
    rewrite join_app, has_char_app, Hc in Hj by done. done.
  - apply not_true_is_false. intros Hc.
    destruct (has_char_split c slash sub Hcs Hc) as (w&Hw&Hcw).
    rewrite (has_char_join c w) in Hj; [done| |done].
    apply elem_of_app. right. unfold kept. apply list_elem_of_filter. split; [|done].
    apply skipped_false. split; intros ->; cbn in Hcw; [done|].
    rewrite bool_decide_eq_false_2 in Hcw by done. done.
Qed.

Lemma dangerous_not_path c : c ∈ dangerous_chars → c ≠ slash ∧ c ≠ "."%char.
Proof.
  assert (forallb (λ c, negb (bool_decide (c = slash)) && negb (bool_decide (c = "."%char))) dangerous_chars = true)
    as Hall by reflexivity.
  rewrite forallb_forall in Hall. intros Hc%list_elem_of_In%Hall.
  apply andb_true_iff in Hc as [?%negb_true_iff ?%negb_true_iff].
  by rewrite !bool_decide_eq_false in *.
Qed.

Lemma clean_normpath_join p sub :
  startswith p "/" = true → startswith sub "/" = false → dotdot ∉ split_on slash sub →
  clean (normpath (path_join p sub)) → clean (normpath p) ∧ clean sub.
Proof.
  unfold clean. intros Hp Hrel Hdd Hcl. rewrite <-Forall_and. rewrite Forall_forall in *.
  intros c Hc. destruct (dangerous_not_path c Hc). by apply normpath_join_chars; auto.
Qed.

Lemma rstrip_chars c p s : has_char c s = false → has_char c (rstrip_by p s) = false.
Proof.
  induction s as [|d s IH]; [done|]. cbn. intros [Hd Hs]%orb_false_iff. specialize (IH Hs).
  destruct (rstrip_by p s); [destruct (p d); cbn; by rewrite ?Hd|]. cbn in *. by rewrite Hd.
Qed.

Lemma lstrip_relative s : startswith s "/" = false → lstrip_by is_slash s = s.
Proof.
  destruct s as [|c s]; [done|]. cbn. intros H. destruct (is_slash c) eqn:E; [|done].
  unfold is_slash in E. apply N.eqb_eq in E. exfalso.
  assert (c = "/"%char) as -> by (rewrite <-(ascii_N_embedding c); unfold code in E; by rewrite E).
  done.
Qed.

(** The bucket and the prefix of a volume are clean if its mount path is. *)
Lemma resolved_clean storage v o p q :
  validate_bucket_name (bucket o) = Ok tt → safe_sub_path (sub_path v) →
  resolve_ossfs_paths storage v o = Ok (p, q) → clean p →
  clean (bucket o) ∧ clean (strip_slashes (or_else (sub_path v) EmptyString)).
Proof.
  intros [Hrel Hdd]%bucket_name_plain Hsub (->&Habs&Hp&_)%resolve_ossfs_paths_Ok Hcl.
  set (sp := or_else (sub_path v) EmptyString) in *.
  assert (startswith sp "/" = false ∧ dotdot ∉ split_on slash sp) as [Hsr Hsd].
  { subst sp. destruct (sub_path v) as [s|]; cbn in *; [|set_solver].
    destruct (truthy s) eqn:Ht; [|set_solver]. by destruct Hsub as [->|]. }
  rewrite lstrip_relative in Hp by done. rewrite Hp in Hcl.
  apply clean_normpath_join in Hcl as [Hb Hs]; [|unfold ossfs_bucket_root; apply normpath_abs|done..].
  - split.
    + unfold ossfs_bucket_root in Hb. rewrite normpath_idemp in Hb.
      * by apply clean_normpath_join in Hb as [_ ?]; [|apply normpath_abs|..].
      * unfold path_join. rewrite Hrel. pose proof (normpath_abs _ Habs) as Hn.
        apply startswith_true in Hn as [t ->]. destruct (_ || _); reflexivity.
    + unfold clean, strip_slashes in *. rewrite lstrip_relative by done.
      eapply Forall_impl; [exact Hs|]. intros c. apply rstrip_chars.
  - unfold path_join. rewrite Hrel. pose proof (normpath_abs _ Habs) as Hn.
    apply startswith_true in Hn as [t ->]. destruct (_ || _); reflexivity.
Qed.

(** For a volume whose sub path passed validation, no argument of the
    commands that mount it contains a shell metacharacter or a line break,
    provided the name of the temporary file does not; this includes the source
    argument, which [_build_ossfs_v1_command] does not check itself. *)
Theorem ossfs_commands_clean storage v o p q tmp :
  ensure_valid_sub_path (sub_path v) = Ok tt →
  resolve_ossfs_paths storage v o = Ok (p, q) →
  clean tmp →
  let prefix := strip_slashes (or_else (sub_path v) EmptyString) in
  let source := if truthy prefix then bucket o +:+ ":/" +:+ prefix else bucket o in
  (∀ url cmd, build_ossfs_v1_command o source p url tmp = Ok cmd → Forall clean cmd) ∧
  (∀ cmd, build_ossfs_v2_mount_command p tmp = Ok cmd → Forall clean cmd).
Proof.
  rewrite ensure_valid_sub_path_Ok. intros Hsub Hres Htmp prefix source. split.
  - intros url cmd. unfold build_ossfs_v1_command.
    rewrite !result_bind_unit_Ok.
    intros (Hb&Hu%validate_endpoint_url_clean&Hm&(args&Ha&<-%Ok_inj)%result_bind_Ok).
    apply validate_mount_path_Ok in Hm as [_ Hm].
    destruct (resolved_clean _ _ _ _ _ Hb Hsub Hres Hm) as [Hbc Hpc].
    assert (clean source) as Hs.
    { subst source. destruct (truthy prefix); [|done]. rewrite !clean_app. split_and!; try done.
      by repeat constructor. }
    apply Forall_app. split; [|eapply option_args_clean; [|done]; intros x Hx; rewrite !Forall_cons; by repeat first [assumption|constructor]].
    rewrite !Forall_cons, Forall_nil, !clean_app. split_and!; try done; by repeat constructor.
  - intros cmd. unfold build_ossfs_v2_mount_command. rewrite result_bind_unit_Ok.
    intros [[_ Hm]%validate_mount_path_Ok <-%Ok_inj].
    rewrite !Forall_cons, Forall_nil. split_and!; try done; by repeat constructor.
Qed.

Lemma ossfs_commands_clean_witness :
  Forall clean ["ossfs2"; "mount"; "/mnt/ossfs/my-bucket/a"; "-c"; "/tmp/x.conf"].
Proof.
  destruct (ossfs_commands_clean sample_storage (sample_volume "my-bucket" (Some "a")) (sample_ossfs "my-bucket")
    "/mnt/ossfs/my-bucket/a" "/mnt/ossfs/my-bucket/a" "/tmp/x.conf") as [_ H];
    [vm_compute; reflexivity|vm_compute; reflexivity|by repeat constructor|].
  apply H. vm_compute. reflexivity.
Defined.
