(* ===== verification/OssfsMounts.v ===== *)
(** * Reference counts of the OSSFS mount table

    What [_ensure_ossfs_mounted], [_release_ossfs_mount] and
    [_prepare_ossfs_mounts] do to [_ossfs_mount_ref_counts], on every branch. *)

From Stdlib Require Import Ascii.
From S2P Require Import Prelude PyString Paths PyDict Regex PyTime Schema Validators Config.
From S2P Require Import Helpers DockerHost SimHost Ossfs.
Open Scope string_scope.
Open Scope list_scope.

(** The table holds positive counts only. *)
Definition refs_wf (s : Service) : Prop := map_Forall (λ _ n, (0 < n)%Z) (ossfs_mount_ref_counts s).

(** The other tables are the same. *)
Definition same_but_refs (s s' : Service) : Prop :=
  s' = set_refs (λ _, ossfs_mount_ref_counts s') s.

Lemma same_but_refs_refl s : same_but_refs s s.
Proof. by destruct s. Qed.

Lemma same_but_refs_trans s1 s2 s3 : same_but_refs s1 s2 → same_but_refs s2 s3 → same_but_refs s1 s3.
Proof. unfold same_but_refs. intros H1 H2. rewrite H2, H1. by destruct s1. Qed.

Lemma same_but_refs_set f s : same_but_refs s (set_refs f s).
Proof. done. Qed.

(** Positive tables with the same counts are equal. *)
Lemma refs_ext s s' :
  refs_wf s → refs_wf s' → (∀ k, ref_count k s = ref_count k s') →
  ossfs_mount_ref_counts s = ossfs_mount_ref_counts s'.
Proof.
  unfold refs_wf, ref_count. intros Hs Hs' Heq. apply map_eq. intros k. specialize (Heq k).
  destruct (ossfs_mount_ref_counts s !! k) as [n|] eqn:E1,
           (ossfs_mount_ref_counts s' !! k) as [n'|] eqn:E2; cbn in *; try done.
  - by f_equal.
  - specialize (Hs _ _ E1). cbn in Hs. lia.
  - specialize (Hs' _ _ E2). cbn in Hs'. lia.
Qed.

Lemma ref_count_nonneg k s : refs_wf s → (0 ≤ ref_count k s)%Z.
Proof.
  unfold ref_count, refs_wf. intros Hs. destruct (_ !! k) eqn:E; cbn; [|lia].
  specialize (Hs _ _ E). cbn in Hs. lia.
Qed.

Lemma ref_count_insert k k' n s :
  ref_count k (set_refs (<[k' := n]>) s) = if decide (k = k') then n else ref_count k s.
Proof.
  unfold ref_count, set_refs. cbn. destruct (decide (k = k')) as [->|];
    [by rewrite lookup_insert_eq|by rewrite lookup_insert_ne].
Qed.

Lemma ref_count_delete k k' s :
  ref_count k (set_refs (delete k') s) = if decide (k = k') then 0%Z else ref_count k s.
Proof.
  unfold ref_count, set_refs. cbn. destruct (decide (k = k')) as [->|];
    [by rewrite lookup_delete_eq|by rewrite lookup_delete_ne].
Qed.

Lemma refs_wf_insert k n s : (0 < n)%Z → refs_wf s → refs_wf (set_refs (<[k := n]>) s).
Proof. intros. by apply map_Forall_insert_2. Qed.

Lemma refs_wf_delete k s : refs_wf s → refs_wf (set_refs (delete k) s).
Proof. intros. by apply map_Forall_delete. Qed.

Section mounts.
Context {E : Type} `{HostEnv E} (storage : StorageConfig).

(** Mounting does not touch the tables. *)
Lemma mount_ossfs_backend_path_keeps P v o p : keeps (E:=E) P (mount_ossfs_backend_path v o p).
Proof. unfold mount_ossfs_backend_path, run_ossfs_mount_command, remove_quietly. keeps. Qed.

Lemma run_unmount_keeps P k cmds errs : keeps (E:=E) P (run_unmount k cmds errs).
Proof. revert errs. induction cmds as [|c cmds IH]; intros errs; cbn [run_unmount]; keeps. Qed.

Lemma release_unmount_keeps P k b : keeps (E:=E) P (release_unmount k b).
Proof. pose proof run_unmount_keeps. unfold release_unmount. keeps. Qed.

(** [w] with [d] more references of the key [k]. *)
Definition refs_changed (k : string) (d : Z) (s s' : Service) : Prop :=
  same_but_refs s s' ∧ refs_wf s' ∧
  ∀ k', ref_count k' s' = (ref_count k' s + if decide (k' = k) then d else 0)%Z.

Lemma ensure_by_volume_spec v o w r w' :
  refs_wf (svc w) → ensure_ossfs_mounted storage (ByVolume v o) w = (r, w') →
  match r with
  | Ok key => (∃ q, resolve_ossfs_paths storage v o = Ok (key, q)) ∧ refs_changed key 1 (svc w) (svc w')
  | Raise _ => svc w' = svc w
  end.
Proof.
  intros Hwf. unfold ensure_ossfs_mounted, mbind, M_bind, lift.
  destruct (resolve_ossfs_paths storage v o) as [[key q]|e] eqn:Hres; [|by intros [= <- <-]].
  cbn. pose proof (ref_count_nonneg key _ Hwf) as Hnn.
  destruct (0 <? ref_count key (svc w))%Z eqn:Hc.
  - apply Z.ltb_lt in Hc. intros [= <- <-]. split; [by eauto|]. cbn. split_and!; [done|by apply refs_wf_insert; [lia|]|].
    intros k'. rewrite ref_count_insert. case_decide; subst; lia.
  - apply Z.ltb_ge in Hc.
    assert (∀ w1 : World E, svc w1 = svc w → refs_changed key 1 (svc w) (set_refs (<[key := 1%Z]>) (svc w1))) as Hset.
    { intros w1 ->. split_and!; [done|by apply refs_wf_insert; [lia|]|].
      intros k'. rewrite ref_count_insert. case_decide; subst; lia. }
    destruct (ismount key (env w)).
    + intros [= <- <-]. split; [by eauto|]. cbn. by apply Hset.
    + destruct (mount_ossfs_backend_path v o key w) as [[[]|e] w1] eqn:Em; intros [= <- <-];
        assert (svc w1 = svc w) as Hw1
          by (by eapply (mount_ossfs_backend_path_keeps (λ s, s = svc w))); [|done].
      split; [by eauto|]. cbn. by apply Hset.
Qed.

(** Releasing a valid key gives one reference back, whatever the outcome of the
    unmount commands. *)
Lemma release_ossfs_mount_spec key w r w' :
  refs_wf (svc w) → validate_mount_path key = Ok tt →
  release_ossfs_mount key w = (r, w') →
  refs_changed key (if (0 <? ref_count key (svc w))%Z then -1 else 0) (svc w) (svc w').
Proof.
  intros Hwf Hv. unfold release_ossfs_mount, mbind, M_bind, lift. rewrite Hv. cbn.
  unfold release_decrement, mbind, M_bind. cbn. pose proof (ref_count_nonneg key _ Hwf) as Hnn.
  destruct (ref_count key (svc w) <=? 0)%Z eqn:Hc; cbn.
  - intros Hr. apply (release_unmount_keeps (λ s, s = svc w)) in Hr; [|done]. rewrite Hr.
    apply Z.leb_le in Hc. rewrite (proj2 (Z.ltb_ge _ _)) by done.
    split_and!; [apply same_but_refs_refl|done|]. intros k'. case_decide; lia.
  - apply Z.leb_gt in Hc. rewrite (proj2 (Z.ltb_lt _ _)) by done.
    destruct (ref_count key (svc w) =? 1)%Z eqn:H1; cbn; intros Hr.
    + apply Z.eqb_eq in H1.
      apply (release_unmount_keeps (λ s, s = set_refs (delete key) (svc w))) in Hr; [|done]. rewrite Hr.
      split_and!; [done|by apply refs_wf_delete|]. intros k'. rewrite ref_count_delete. case_decide; subst; lia.
    + apply Z.eqb_neq in H1.
      apply (release_unmount_keeps (λ s, s = set_refs (<[key := (ref_count key (svc w) - 1)%Z]>) (svc w))) in Hr;
        [|done]. rewrite Hr.
      split_and!; [done|by apply refs_wf_insert; [lia|]|].
      intros k'. rewrite ref_count_insert. case_decide; subst; lia.
Qed.

(** ** Releasing a list of keys

    [fusermount] and [umount] are installed and do not time out: running them
    returns an exit status instead of raising. *)
Definition unmount_returns : Prop :=
  ∀ cmd e, head cmd = Some "fusermount" ∨ head cmd = Some "umount" →
    ∃ rc err e', subprocess_run cmd e = (Ok (rc, err), e').

Lemma run_unmount_http k cmds errs w e w' :
  unmount_returns → Forall (λ c, head c = Some "fusermount" ∨ head c = Some "umount") cmds →
  run_unmount (E:=E) k cmds errs w = (Raise e, w') → is_http e = true.
Proof.
  intros Hret Hc. revert errs w. induction Hc as [|c cmds Hc _ IH]; intros errs w; cbn [run_unmount].
  - by intros [= <- _].
  - unfold mbind, M_bind, call. destruct (Hret c (env w) Hc) as (rc&err&e'&->).
    destruct (rc =? 0)%Z; [done|]. apply IH.
Qed.

Lemma release_ossfs_mount_http k w e w' :
  unmount_returns → release_ossfs_mount (E:=E) k w = (Raise e, w') → is_http e = true.
Proof.
  intros Hret. unfold release_ossfs_mount, mbind, M_bind, lift.
  destruct (validate_mount_path k) as [[]|e0] eqn:Hv.
  - assert (∃ b w1, release_decrement (E:=E) k w = (Ok b, w1)) as (b&w1&->).
    { unfold release_decrement, mbind, M_bind, get_svc, put_svc. cbn.
      destruct (_ <=? 0)%Z; [eauto|]. destruct (_ =? 1)%Z; eauto. }
    unfold release_unmount, mbind, M_bind, get_env. cbv beta iota.
    destruct (negb b || _); [done|]. apply run_unmount_http; [done|].
    constructor; [by left|]. constructor; [by right|constructor].
  - intros [= <- _]. unfold validate_mount_path, bad_request in Hv.
    destruct (negb (truthy k)); [by injection Hv as <-|]. cbn [raise_if mbind result_bind] in Hv.
    destruct (negb (startswith k "/")); [by injection Hv as <-|]. cbn [raise_if mbind result_bind] in Hv.
    unfold refuse_chars in Hv. apply for_each_Raise in Hv as (l1&c&l2&_&_&Hc).
    unfold raise_if in Hc. destruct (has_char c k); [|done]. by injection Hc as <-.
Qed.

Lemma refs_changed_trans k1 d1 s1 s2 s3 (f : string → Z) :
  refs_changed k1 d1 s1 s2 →
  (same_but_refs s2 s3 ∧ refs_wf s3 ∧ ∀ k, ref_count k s3 = (ref_count k s2 + f k)%Z) →
  same_but_refs s1 s3 ∧ refs_wf s3 ∧
  ∀ k, ref_count k s3 = (ref_count k s1 + ((if decide (k = k1) then d1 else 0) + f k))%Z.
Proof.
  intros (Hs&_&Hc) (Hs'&Hw&Hc'). split_and!; [by eapply same_but_refs_trans|done|].
  intros k. rewrite Hc', Hc. lia.
Qed.

(** Releasing distinct valid keys that are held gives one reference of each
    back and returns. *)
Lemma release_ossfs_mounts_spec keys w r w' :
  unmount_returns → refs_wf (svc w) → NoDup keys →
  Forall (λ k, validate_mount_path k = Ok tt ∧ (0 < ref_count k (svc w))%Z) keys →
  release_ossfs_mounts keys w = (r, w') →
  r = Ok tt ∧ same_but_refs (svc w) (svc w') ∧ refs_wf (svc w') ∧
  ∀ k, ref_count k (svc w') = (ref_count k (svc w) + if decide (k ∈ keys) then -1 else 0)%Z.
Proof.
  intros Hret Hwf Hnd Hk. revert w Hwf Hk. induction Hnd as [|key keys Hnin Hnd IH]; intros w Hwf Hk.
  - intros [= <- <-]. split_and!; [done|apply same_but_refs_refl|done|]. intros k. rewrite decide_False by apply not_elem_of_nil. lia.
  - apply Forall_cons in Hk as [[Hv Hpos] Hk]. cbn. unfold mbind, M_bind, catch, try_except.
    destruct (release_ossfs_mount key w) as [r1 w1] eqn:Hrel.
    pose proof (release_ossfs_mount_spec _ _ _ _ Hwf Hv Hrel) as Hch.
    rewrite (proj2 (Z.ltb_lt _ _)) in Hch by done.
    assert (match r1 with Ok a => (Ok a, w1) | Raise e => (if is_http e then mret tt else raise e) w1 end
            = (Ok tt, w1)) as ->.
    { destruct r1 as [[]|e]; [done|]. by rewrite (release_ossfs_mount_http _ _ _ _ Hret Hrel). }
    intros Hrest. destruct (IH w1) as (->&Hb&Hw&Hc); [apply Hch| |done|].
    { rewrite Forall_forall in Hk |- *. intros k Hin. destruct (Hk k Hin) as [??]. split; [done|].
      destruct Hch as (_&_&->). rewrite decide_False by (intros ->; done). lia. }
    split; [done|]. destruct (refs_changed_trans _ _ _ _ _ (λ k, if decide (k ∈ keys) then -1 else 0)%Z Hch
      (conj Hb (conj Hw Hc))) as (?&?&Hc'). split_and!; [done..|].
    intros k. rewrite Hc'. repeat case_decide; set_solver by lia.
Qed.

(** ** Preparing the mounts of a request *)

(** The keys that a request asks for resolve from its volumes. *)
Definition resolves_to (kv : string * (Volume * OSSFS)) : Prop :=
  ∃ q, resolve_ossfs_paths storage kv.2.1 kv.2.2 = Ok (kv.1, q).

Lemma collect_keys_spec vols d d' :
  Forall resolves_to d → dict_wf d → collect_keys storage vols d = Ok d' →
  Forall resolves_to d' ∧ dict_wf d'.
Proof.
  revert d. induction vols as [|v vols IH]; cbn [collect_keys]; intros d Hd Hwf; [by intros [= <-]|].
  destruct (vol_ossfs v) as [o|]; [|by apply IH].
  intros ([key q]&Hres&Hrest)%result_bind_Ok. apply IH in Hrest; [done|..];
    destruct (dmem key d) eqn:Hm; try done.
  - assert (key ∉ dkeys d) as Hn.
    { apply dget_None. apply bool_decide_eq_false in Hm. by apply eq_None_not_Some. }
    clear -Hd Hres Hn. induction Hd as [|[k x] d Hx Hd IHd]; cbn.
    + constructor; [by exists q|done].
    + cbn in Hn. rewrite decide_False by set_solver. constructor; [done|]. apply IHd. set_solver.
  - by apply dset_wf.
Qed.

(** The loop acquires one reference of each key it has passed. *)
Lemma prepare_loop_spec items prepared w r keys w' :
  refs_wf (svc w) → Forall resolves_to items →
  prepare_loop storage items prepared w = (r, keys, w') →
  ∃ done_, keys = prepared ++ done_ ∧ done_ `prefix_of` dkeys items ∧
    (r = Ok tt → done_ = dkeys items) ∧
    same_but_refs (svc w) (svc w') ∧ refs_wf (svc w') ∧
    (NoDup (dkeys items) →
     ∀ k, ref_count k (svc w') = (ref_count k (svc w) + if decide (k ∈ done_) then 1 else 0)%Z).
Proof.
  intros Hwf Hit. revert prepared w Hwf. induction Hit as [|[key [v o]] items Hx Hit IH]; intros prepared w Hwf.
  - intros [= <- <- <-]. exists []. rewrite app_nil_r.
    split_and!; try done; [apply same_but_refs_refl|]. intros _ k. rewrite decide_False by apply not_elem_of_nil. lia.
  - cbn [prepare_loop]. destruct (ensure_ossfs_mounted storage (ByVolume v o) w) as [[key'|e] w1] eqn:Hens;
      pose proof (ensure_by_volume_spec _ _ _ _ _ Hwf Hens) as Hsp.
    + destruct Hsp as [[q Hq] Hch]. destruct Hx as [q' Hq']. cbn in Hq'. rewrite Hq in Hq'. injection Hq' as -> _.
      intros Hloop. destruct (IH (prepared ++ [key]) w1) as (dn&->&Hpre&Hok&Hb&Hw&Hc); [apply Hch|done|].
      exists (key :: dn). split_and!.
      * by rewrite <-(assoc_L app).
      * by apply prefix_cons.
      * intros Hr. cbn. by rewrite Hok.
      * eapply same_but_refs_trans; [apply Hch|done].
      * done.
      * cbn. intros [Hn Hnd]%NoDup_cons k. rewrite Hc by done. destruct Hch as (_&_&->).
        assert (key ∉ dn) by (intros Hin; apply Hn; by eapply elem_of_prefix).
        repeat case_decide; set_solver by lia.
    + intros [= <- <- <-]. exists []. rewrite app_nil_r. rewrite Hsp.
      split_and!; try done; [apply prefix_nil|apply same_but_refs_refl|]. intros _ k. rewrite decide_False by apply not_elem_of_nil. lia.
Qed.

(** Every OSSFS volume of the request has a mount path that the release of its
    reference will accept. *)
Definition keys_releasable (vols : list Volume) : Prop :=
  ∀ v o p q, v ∈ vols → vol_ossfs v = Some o → resolve_ossfs_paths storage v o = Ok (p, q) →
    validate_mount_path p = Ok tt.

Lemma collect_keys_from vols d d' k v o :
  collect_keys storage vols d = Ok d' → (k, (v, o)) ∈ d' →
  (k, (v, o)) ∈ d ∨ (v ∈ vols ∧ vol_ossfs v = Some o ∧ ∃ q, resolve_ossfs_paths storage v o = Ok (k, q)).
Proof.
  revert d. induction vols as [|u vols IH]; cbn [collect_keys]; intros d; [intros [= <-]; by left|].
  destruct (vol_ossfs u) as [ou|] eqn:Hu.
  - intros ([key q]&Hres&Hrest)%result_bind_Ok Hin. destruct (IH _ Hrest Hin) as [Hd|(?&?&?)]; [|set_solver].
    destruct (dmem key d); [by left|].
    assert ((k, (v, o)) ∈ d ∨ (k, (v, o)) = (key, (u, ou))) as [?|[= -> -> ->]]; [|by left|].
    { clear -Hd. induction d as [|[k' x] d IHd]; cbn in Hd.
      - set_solver.
      - case_decide; set_solver. }
    right. split_and!; [set_solver|done|eauto].
  - intros Hrest Hin. destruct (IH _ Hrest Hin) as [?|(?&?&?)]; set_solver.
Qed.

Lemma prepare_ossfs_mounts_spec vols w r w' :
  unmount_returns → refs_wf (svc w) → keys_releasable vols →
  prepare_ossfs_mounts storage (Some vols) w = (r, w') →
  same_but_refs (svc w) (svc w') ∧ refs_wf (svc w') ∧
  match r with
  | Ok keys => NoDup keys ∧ Forall (λ k, validate_mount_path k = Ok tt) keys ∧
      ∀ k, ref_count k (svc w') = (ref_count k (svc w) + if decide (k ∈ keys) then 1 else 0)%Z
  | Raise _ => ossfs_mount_ref_counts (svc w') = ossfs_mount_ref_counts (svc w)
  end.
Proof.
  intros Hret Hwf Hkr. destruct vols as [|v0 vols0].
  { intros [= <- <-]. split_and!; [apply same_but_refs_refl|done|constructor|constructor|]. intros k. rewrite decide_False by apply not_elem_of_nil. lia. }
  set (vols := v0 :: vols0) in *.
  change (prepare_ossfs_mounts storage (Some vols)) with (lift (St:=World E) (collect_keys storage vols []) ≫= prepare_all storage).
  unfold mbind, M_bind, lift.
  destruct (collect_keys storage vols []) as [d|e] eqn:Hc.
  2:{ intros [= <- <-]. split_and!; [apply same_but_refs_refl|done..]. }
  destruct (collect_keys_spec vols [] d) as [Hres Hdw]; [constructor|constructor|done|].
  unfold prepare_all. destruct (prepare_loop storage d [] w) as [[r1 keys] w1] eqn:Hloop.
  destruct (prepare_loop_spec _ _ _ _ _ _ Hwf Hres Hloop) as (dn&->&Hpre&Hok&Hb&Hw&Hcnt).
  specialize (Hcnt Hdw). cbn [app].
  assert (∀ k, k ∈ dkeys d → validate_mount_path k = Ok tt) as Hval.
  { intros k [[k' [v o]] [-> Hin']]%list_elem_of_fmap.
    destruct (collect_keys_from _ _ _ _ _ _ Hc Hin') as [Hnil|(?&?&q&?)]; [set_solver|]. by eapply Hkr. }
  destruct r1 as [[]|e].
  - intros [= <- <-]. rewrite (Hok eq_refl) in Hcnt. split_and!; try done. by apply Forall_forall.
  - unfold mbind, M_bind. destruct (release_ossfs_mounts dn w1) as [r2 w2] eqn:Hrel.
    apply release_ossfs_mounts_spec in Hrel as (->&Hb'&Hw'&Hcnt'); [|done|done| |].
    + intros [= <- <-]. split_and!; [by eapply same_but_refs_trans|done|].
      symmetry. apply refs_ext; [done..|]. intros k. rewrite Hcnt', Hcnt. case_decide; lia.
    + destruct Hpre as [rest Hpre]. unfold dict_wf in Hdw. rewrite Hpre in Hdw. by apply NoDup_app in Hdw as [? _].
    + rewrite Forall_forall. intros k Hin. rewrite Hcnt, decide_True by done.
      pose proof (ref_count_nonneg k _ Hwf). split; [|lia]. apply Hval. by eapply elem_of_prefix.
Qed.


End mounts.

(** ** Concrete runs *)

Lemma sim_unmount_returns : unmount_returns (E:=Sim).
Proof.
  intros cmd e _. cbn. destruct (bool_decide _); [by eauto|].
  destruct (sim_run cmd e) as [[rc err] e']. eauto.
Qed.

Definition two_buckets : list Volume := [sample_volume "bucket-a" None; sample_volume "bucket-b" None].

Lemma two_buckets_releasable : keys_releasable sample_storage two_buckets.
Proof.
  intros v o p q Hv Ho. unfold two_buckets in Hv. set_unfold.
  destruct Hv as [->|[->|[]]]; injection Ho as <-; vm_compute; intros [= <- _]; reflexivity.
Qed.

(** The second mount fails, because its configuration file cannot be written
    after the first has been mounted. *)
Definition one_mounted : World Sim :=
  {| svc := empty_service;
     env := sim_set_fail ["write_file"] (sim_set_mounts (cons "/mnt/ossfs/bucket-a") sim_init) |}.


(** The release of a mount takes two steps: the count is decremented under
    [_ossfs_mount_lock], the unmount command runs after the lock is released.  A
    request that is served in between finds the path still mounted. *)
Definition shared_key : string := "/mnt/ossfs/bucket-a".

Definition shared_world : World Sim :=
  {| svc := set_refs (λ _, {[shared_key := 1%Z]}) empty_service;
     env := sim_set_mounts (cons shared_key) sim_init |}.

Definition interleaved : World Sim :=
  let '(_, w1) := release_decrement shared_key shared_world in
  let '(_, w2) := ensure_ossfs_mounted sample_storage (ByVolume (sample_volume "bucket-a" None) (sample_ossfs "bucket-a")) w1 in
  let '(_, w3) := release_unmount shared_key true w2 in w3.

Definition sequential : World Sim :=
  let '(_, w1) := release_ossfs_mount shared_key shared_world in
  let '(_, w2) := ensure_ossfs_mounted sample_storage (ByVolume (sample_volume "bucket-a" None) (sample_ossfs "bucket-a")) w1 in w2.

(** The interleaved run ends with a reference to a path that is not mounted; the
    two calls one after the other end with the path mounted. *)
Theorem release_unmount_race :
  ref_count shared_key (svc interleaved) = 1%Z ∧ ismount shared_key (env interleaved) = false ∧
  ref_count shared_key (svc sequential) = 1%Z ∧ ismount shared_key (env sequential) = true.
Proof. vm_compute. auto. Qed.
