(* ===== verification/DockerExpiry.v ===== *)
(** * Expiration of Docker sandboxes ([server/src/services/docker.py])

    The timer table and everything that writes it: scheduling, renewal, the timer
    callback, deletion, and the restoration after a restart; with the other
    operations on an existing container. *)

From Stdlib Require Import Ascii.
From S2P Require Import Prelude PyString PyDict PyTime Json Schema Validators Config Helpers.
From S2P Require Import DockerHost Ossfs.
Open Scope string_scope.
Open Scope list_scope.

Definition EGRESS_SIDECAR_LABEL : string := "opensandbox.io/egress-sidecar-for".

(** [a - b] of two datetimes, in microseconds. *)
Definition dt_sub (a b : datetime) : result Z :=
  match a, b with
  | Naive x, Naive y => Ok (x - y)%Z
  | Aware x ox, Aware y oy => Ok ((x - ox) - (y - oy))%Z
  | _, _ => Raise (PyException TypeError "can't subtract offset-naive and offset-aware datetimes")
  end.

(** ** The timer table *)

Definition cancel_timer (t : Timer) : Timer :=
  {| t_deadline := t_deadline t; t_callback := t_callback t; t_cancelled := true; t_fired := t_fired t |}.
Definition fire_timer (t : Timer) : Timer :=
  {| t_deadline := t_deadline t; t_callback := t_callback t; t_cancelled := t_cancelled t; t_fired := true |}.

Definition cancel_opt (o : option nat) (ts : list Timer) : list Timer :=
  match o with Some j => alter cancel_timer j ts | None => ts end.

(** The section of [_schedule_expiration] under [_expiration_lock]: cancel the
    timer that the table holds, then enter the new one. *)
Definition install_timer (sandbox_id : string) (timer : Timer) (expiration : option datetime)
    (s : Service) : Service :=
  let existing := expiration_timers s !! sandbox_id in
  let s := match expiration with
           | Some e => set_expirations (<[sandbox_id := e]>) s
           | None => s
           end in
  set_timers (<[sandbox_id := length (timers s)]>) (λ ts, cancel_opt existing ts ++ [timer]) s.

Definition untrack (sandbox_id : string) (s : Service) : Service :=
  set_expirations (delete sandbox_id)
    (set_timers (delete sandbox_id) (cancel_opt (expiration_timers s !! sandbox_id)) s).

Definition has_manual_cleanup (labels : dict string) : bool :=
  str_eqb (lower (dget_default SANDBOX_MANUAL_CLEANUP_LABEL EmptyString labels)) "true".

(** The mount keys of a label as [_expire_sandbox] and the restoration read
    them: the non-empty strings of a list, nothing if it is something else. *)
Definition label_mount_keys (labels : dict string) : list string :=
  match loads (dget_default SANDBOX_OSSFS_MOUNTS_LABEL "[]" labels) with
  | Some v => string_elems v
  | None => []
  end.

(** The single characters of a string, as iterating over it yields them. *)
Fixpoint chars_of (s : string) : list string :=
  match s with EmptyString => [] | String c s' => String c EmptyString :: chars_of s' end.

(** Iterating over a JSON value as [delete_sandbox] does: only the strings
    matter, since the release of any other element is refused and ignored, as is
    that of the empty string. *)
Definition iter_keys (v : json) : result (list string) :=
  match v with
  | JArr l => Ok ((λ x, match x with JStr s => s | _ => EmptyString end) <$> l)
  | JObj l => Ok (dkeys (dupdate [] l))
  | JStr s => Ok (chars_of s)
  | _ => Raise (PyException TypeError "object is not iterable")
  end.

Section expiry.
Context {E : Type} `{HostEnv E}.

(** ** Queries *)

Definition get_container_by_sandbox_id (sandbox_id : string) : MW E Container :=
  containers ← catch is_docker_exn
    (call (containers_list (LabelEq SANDBOX_ID_LABEL sandbox_id)))
    (λ exc, raise (internal_error SandboxErrorCodes.CONTAINER_QUERY_FAILED
       ("Failed to query sandbox containers: " +:+ exn_text exc)));
  match containers with
  | [] => raise (HTTPException 404 SandboxErrorCodes.SANDBOX_NOT_FOUND
            ("Sandbox " +:+ sandbox_id +:+ " not found."))
  | c :: _ => mret c
  end.

(** [parse_timestamp], which asks for the time only when it falls back to it. *)
Definition parse_timestampM (timestamp : option string) : MW E datetime :=
  match parse_timestamp_opt timestamp with Some d => mret d | None => now end.

(** ** Timers *)

Definition schedule_expiration (sandbox_id : string) (expires_at : datetime)
    (update_expiration : bool) (fallback_mount_keys : option (list string)) : MW E unit :=
  us ← query clock;
  delta ← lift (dt_sub expires_at (utc us));
  let timer := {| t_deadline := (us + Z.max 0 delta)%Z;
                  t_callback := ExpireSandbox sandbox_id fallback_mount_keys;
                  t_cancelled := false; t_fired := false |} in
  put_svc (install_timer sandbox_id timer (if update_expiration then Some expires_at else None)).

Definition remove_expiration_tracking (sandbox_id : string) : MW E unit :=
  put_svc (untrack sandbox_id).

Definition get_tracked_expiration (sandbox_id : string) (labels : dict string)
    : MW E (option datetime) :=
  tracked ← get_svc (λ s, sandbox_expirations s !! sandbox_id);
  match tracked with
  | Some d => mret (Some d)
  | None =>
      match dget SANDBOX_EXPIRES_AT_LABEL labels with
      | Some label_value =>
          if truthy label_value then d ← parse_timestampM (Some label_value); mret (Some d) else mret None
      | None => mret None
      end
  end.

Definition remove_container_quietly (c : Container) : MW E unit :=
  catch is_docker_exn (call (container_remove (c_id c))) (λ _, mret tt).

Definition cleanup_egress_sidecar (sandbox_id : string) : MW E unit :=
  containers ← catch is_docker_exn
    (call (containers_list (LabelEq EGRESS_SIDECAR_LABEL sandbox_id))) (λ _, mret []);
  for_eachM remove_container_quietly containers.

(** [current_expires and current_expires > datetime.now(timezone.utc)] *)
Definition renewed_meanwhile (sandbox_id : string) : MW E bool :=
  current ← get_svc (λ s, sandbox_expirations s !! sandbox_id);
  match current with
  | None => mret false
  | Some d => n ← now; lift (dt_lt n d)
  end.

(** The branch of [_expire_sandbox] where the container query fails with [exc]. *)
Definition expire_unavailable (sandbox_id : string) (fallback_mount_keys : option (list string))
    (exc : exn) : MW E unit :=
  if (http_status exc =? 404)%Z then
    remove_expiration_tracking sandbox_id;;
    match fallback_mount_keys with
    | Some ((_ :: _) as keys) => release_ossfs_mounts keys
    | _ => mret tt
    end
  else
    current ← get_svc (λ s, sandbox_expirations s !! sandbox_id);
    us ← query clock;
    renewed ← match current with None => mret false | Some d => lift (dt_lt (utc us) d) end;
    if renewed : bool then mret tt else
    match dt_add (utc us) (30 * us_per_second) with
    | None => raise (PyException OverflowError "date value out of range")
    | Some retry_at => schedule_expiration sandbox_id retry_at false fallback_mount_keys
    end.

(** The branch where the container exists: what follows the check for a renewal. *)
Definition expire_container (sandbox_id : string) (container : Container) : MW E unit :=
  let mount_keys := label_mount_keys (labels_of container) in
  catch is_docker_exn
    (if st_running (c_state container) then call (container_kill (c_id container)) else mret tt)
    (λ _, mret tt);;
  remove_container_quietly container;;
  remove_expiration_tracking sandbox_id;;
  cleanup_egress_sidecar sandbox_id;;
  release_ossfs_mounts mount_keys.

Definition expire_sandbox (sandbox_id : string) (fallback_mount_keys : option (list string)) : MW E unit :=
  container ← catch is_http
    (c ← get_container_by_sandbox_id sandbox_id; mret (Some c))
    (λ exc, expire_unavailable sandbox_id fallback_mount_keys exc;; mret None);
  match container with
  | None => mret tt
  | Some c =>
      renewed ← renewed_meanwhile sandbox_id;
      if renewed : bool then mret tt else expire_container sandbox_id c
  end.

(** ** Restoration at startup *)

(** [seen_sidecars] is a Python set, whose order is unspecified; here in the order
    of the containers. *)
Record Restoring := {
  seen_sidecars : list string;
  restored_mount_refs : gmap string Z;
  expired_entries : list (string * list string) }.

Definition add_refs (keys : list string) (m : gmap string Z) : gmap string Z :=
  fold_left (λ m k, <[k := (default 0 (m !! k) + 1)%Z]> m) keys m.

(** One iteration of pass 1. *)
Definition restore_container (n : datetime) (acc : Restoring) (container : Container) : MW E Restoring :=
  let labels := labels_of container in
  match dget EGRESS_SIDECAR_LABEL labels with
  | Some ((String _ _) as sidecar_for) =>
      mret {| seen_sidecars := if bool_decide (sidecar_for ∈ seen_sidecars acc) then seen_sidecars acc
                               else seen_sidecars acc ++ [sidecar_for];
              restored_mount_refs := restored_mount_refs acc; expired_entries := expired_entries acc |}
  | _ =>
      match dget SANDBOX_ID_LABEL labels with
      | Some ((String _ _) as sandbox_id) =>
          let mount_keys := label_mount_keys labels in
          let acc := {| seen_sidecars := seen_sidecars acc;
                        restored_mount_refs := add_refs mount_keys (restored_mount_refs acc);
                        expired_entries := expired_entries acc |} in
          match dget SANDBOX_EXPIRES_AT_LABEL labels with
          | Some ((String _ _) as expires_label) =>
              expires_at ← parse_timestampM (Some expires_label);
              expired ← lift (dt_le expires_at n);
              if expired : bool then
                mret {| seen_sidecars := seen_sidecars acc; restored_mount_refs := restored_mount_refs acc;
                        expired_entries := expired_entries acc ++ [(sandbox_id, mount_keys)] |}
              else schedule_expiration sandbox_id expires_at true None;; mret acc
          | _ => mret acc
          end
      | _ => mret acc
      end
  end.

Fixpoint restore_loop (n : datetime) (acc : Restoring) (containers : list Container) : MW E Restoring :=
  match containers with
  | [] => mret acc
  | c :: rest => acc' ← restore_container n acc c; restore_loop n acc' rest
  end.

(** A side car without a sandbox is removed; a failing query leaves it alone. *)
Definition cleanup_orphan (orphan_id : string) : MW E unit :=
  catch is_http (get_container_by_sandbox_id orphan_id;; mret tt)
    (λ exc, if (http_status exc =? 404)%Z then cleanup_egress_sidecar orphan_id else mret tt).

Definition restore_existing_sandboxes : MW E unit :=
  listed ← catch is_docker_exn
    (cs ← call (containers_list AllContainers); mret (Some cs)) (λ _, mret None);
  match listed with
  | None => mret tt
  | Some containers =>
      n ← now;
      acc ← restore_loop n {| seen_sidecars := []; restored_mount_refs := ∅; expired_entries := [] |} containers;
      put_svc (set_refs (λ _, restored_mount_refs acc));;
      for_eachM (λ '(sandbox_id, keys), expire_sandbox sandbox_id (Some keys)) (expired_entries acc);;
      for_eachM cleanup_orphan (seen_sidecars acc)
  end.

(** ** Operations on a container *)

Definition kill_or_stopped (c : Container) : MW E unit :=
  catch is_docker_exn (call (container_kill (c_id c)))
    (λ exc, if contains (lower (exn_text exc)) "is not running" then mret tt else raise exc).

Definition delete_sandbox (sandbox_id : string) : MW E unit :=
  container ← get_container_by_sandbox_id sandbox_id;
  let raw := dget_default SANDBOX_OSSFS_MOUNTS_LABEL "[]" (labels_of container) in
  let mount_keys := match loads raw with Some v => v | None => JArr [] end in
  try_finally
    (catch is_docker_exn
       (kill_or_stopped container;; call (container_remove (c_id container)))
       (λ exc, raise (internal_error SandboxErrorCodes.SANDBOX_DELETE_FAILED
          ("Failed to delete sandbox container: " +:+ exn_text exc))))
    (remove_expiration_tracking sandbox_id;;
     cleanup_egress_sidecar sandbox_id;;
     keys ← lift (iter_keys mount_keys);
     release_ossfs_mounts keys).

Definition conflict (code message : string) : exn := HTTPException 409 code message.

Definition pause_sandbox (sandbox_id : string) : MW E unit :=
  container ← get_container_by_sandbox_id sandbox_id;
  lift (raise_if (negb (st_running (c_state container)))
    (conflict SandboxErrorCodes.SANDBOX_NOT_RUNNING "Sandbox is not in a running state."));;
  catch is_docker_exn (call (container_pause (c_id container)))
    (λ exc, raise (internal_error SandboxErrorCodes.SANDBOX_PAUSE_FAILED
       ("Failed to pause sandbox container: " +:+ exn_text exc))).

Definition resume_sandbox (sandbox_id : string) : MW E unit :=
  container ← get_container_by_sandbox_id sandbox_id;
  lift (raise_if (negb (st_paused (c_state container)))
    (conflict SandboxErrorCodes.SANDBOX_NOT_PAUSED "Sandbox is not in a paused state."));;
  catch is_docker_exn (call (container_unpause (c_id container)))
    (λ exc, raise (internal_error SandboxErrorCodes.SANDBOX_RESUME_FAILED
       ("Failed to resume sandbox container: " +:+ exn_text exc))).

Definition update_container_labels (container : Container) (labels : dict string) : MW E unit :=
  catch is_type_error (call (container_update (c_id container) labels))
    (λ _, call (container_post_update (c_id container) labels));;
  call (container_reload (c_id container)).

Definition renew_expiration (sandbox_id : string) (request : RenewSandboxExpirationRequest)
    : MW E RenewSandboxExpirationResponse :=
  container ← get_container_by_sandbox_id sandbox_id;
  n ← now;
  new_expiration ← lift (ensure_future_expiration n (renew_expires_at request));
  let labels := labels_of container in
  lift (raise_if (has_manual_cleanup labels)
    (conflict SandboxErrorCodes.INVALID_EXPIRATION
       ("Sandbox " +:+ sandbox_id +:+ " does not have automatic expiration enabled.")));;
  tracked ← get_tracked_expiration sandbox_id labels;
  lift (raise_if (negb (bool_decide (is_Some tracked)))
    (conflict SandboxErrorCodes.INVALID_EXPIRATION
       ("Sandbox " +:+ sandbox_id +:+ " is missing expiration metadata and cannot be renewed safely.")));;
  schedule_expiration sandbox_id new_expiration true None;;
  catch (λ e, is_docker_exn e || is_type_error e)
    (update_container_labels container (dset SANDBOX_EXPIRES_AT_LABEL (isoformat new_expiration) labels))
    (λ _, mret tt);;
  mret {| renewed_expires_at := new_expiration |}.

Definition touch_last_activity (sandbox_id : string) : MW E unit :=
  try_except
    (container ← get_container_by_sandbox_id sandbox_id;
     n ← now;
     update_container_labels container
       (dset SANDBOX_LAST_ACTIVITY_AT_LABEL (isoformat n) (labels_of container)))
    (λ _, mret tt).

End expiry.
