(* ===== verification/DockerTimers.v ===== *)
(** * Correctness of the expiration timers

    The timer table invariant and its preservation by every operation; what
    renewal, deletion and the timer callback guarantee. *)

From Stdlib Require Import Ascii.
From S2P Require Import Prelude PyString PyDict PyTime Json Schema Validators Config Helpers.
From S2P Require Import DockerHost SimHost Ossfs OssfsMounts DockerExpiry.
Open Scope string_scope.
Open Scope list_scope.

(** ** The invariant *)

(** A timer that will still call back. *)
Definition live (t : Timer) : Prop := t_cancelled t = false ∧ t_fired t = false.

(** The tables point at timers of their own sandbox, and every live timer is in
    its table: cancelling through the table reaches all of them. *)
Record timers_ok (s : Service) : Prop := {
  to_entry : ∀ sid j, expiration_timers s !! sid = Some j →
    ∃ t fb, timers s !! j = Some t ∧ t_callback t = ExpireSandbox sid fb;
  to_live : ∀ j t sid fb, timers s !! j = Some t → live t → t_callback t = ExpireSandbox sid fb →
    expiration_timers s !! sid = Some j;
  to_pending_entry : ∀ sid j, pending_cleanup_timers s !! sid = Some j →
    ∃ t, timers s !! j = Some t ∧ t_callback t = RemovePending sid;
  to_pending_live : ∀ j t sid, timers s !! j = Some t → live t → t_callback t = RemovePending sid →
    pending_cleanup_timers s !! sid = Some j }.

Lemma cancel_opt_length o ts : length (cancel_opt o ts) = length ts.
Proof. destruct o; cbn; [apply length_alter|done]. Qed.

Lemma cancel_opt_lookup o ts j t :
  cancel_opt o ts !! j = Some t →
  ∃ t0, ts !! j = Some t0 ∧ t_callback t = t_callback t0 ∧
    (o = Some j → t_cancelled t = true) ∧ (o ≠ Some j → t = t0).
Proof.
  destruct o as [i|]; cbn; [|intros H; exists t; naive_solver].
  destruct (decide (i = j)) as [->|Hne].
  - rewrite list_lookup_alter_eq. intros (t0&->&Ht)%fmap_Some.
    exists t0. subst t. split_and!; naive_solver.
  - rewrite list_lookup_alter_ne by done. intros H. exists t. naive_solver.
Qed.

Lemma cancel_opt_same o ts j t :
  ts !! j = Some t → ∃ t', cancel_opt o ts !! j = Some t' ∧ t_callback t' = t_callback t ∧
    (o ≠ Some j → t' = t).
Proof.
  intros Ht. destruct o as [i|]; cbn; [|naive_solver]. destruct (decide (i = j)) as [->|Hne].
  - rewrite list_lookup_alter_eq, Ht. cbn. naive_solver.
  - rewrite list_lookup_alter_ne by done. naive_solver.
Qed.

Lemma live_not_cancelled t : live t → t_cancelled t ≠ true.
Proof. intros [-> _]. done. Qed.

Lemma snoc_lookup {A} (l : list A) x j y :
  (l ++ [x]) !! j = Some y → l !! j = Some y ∨ (j = length l ∧ y = x).
Proof.
  intros Hj. destruct (decide (j < length l)) as [Hl|Hl].
  - left. by rewrite lookup_app_l in Hj.
  - rewrite lookup_app_r in Hj by lia. right.
    destruct (j - length l) as [|n] eqn:Hn; cbn in Hj; [|by destruct n].
    injection Hj as <-. split; [lia|done].
Qed.

Lemma install_timer_ok sid d fb exp s :
  timers_ok s →
  timers_ok (install_timer sid {| t_deadline := d; t_callback := ExpireSandbox sid fb;
                                  t_cancelled := false; t_fired := false |} exp s).
Proof.
  intros [He Hl Hpe Hpl]. unfold install_timer.
  assert (∀ s', expiration_timers (match exp with Some e => set_expirations (<[sid := e]>) s' | None => s' end)
            = expiration_timers s' ∧
          timers (match exp with Some e => set_expirations (<[sid := e]>) s' | None => s' end) = timers s' ∧
          pending_cleanup_timers (match exp with Some e => set_expirations (<[sid := e]>) s' | None => s' end)
            = pending_cleanup_timers s') as Hexp by (by destruct exp).
  destruct (Hexp s) as (Hx1&Hx2&Hx3). set (nt := {| t_deadline := d |}).
  set (existing := expiration_timers s !! sid).
  assert (∀ j t, timers s !! j = Some t → ∃ t', (cancel_opt existing (timers s) ++ [nt]) !! j = Some t' ∧
            t_callback t' = t_callback t) as Hkeep.
  { intros j t Ht. destruct (cancel_opt_same existing _ _ _ Ht) as (t'&Ht'&?&_).
    exists t'. split; [|done]. by apply lookup_app_l_Some. }
  split; cbn; rewrite ?Hx1, ?Hx2, ?Hx3.
  - intros sid' j. rewrite lookup_insert. case_decide; [intros [= <-]|].
    + subst sid'. exists nt, fb. split; [|done].
      rewrite lookup_app_r, cancel_opt_length, Nat.sub_diag by (rewrite cancel_opt_length; lia). done.
    + intros (t&fb'&Ht&Hcb)%He. destruct (Hkeep _ _ Ht) as (t'&?&?). exists t', fb'. split; [done|congruence].
  - intros j t sid' fb' [Hj|[-> ->]]%snoc_lookup Hlive Hcb.
    + destruct (cancel_opt_lookup _ _ _ _ Hj) as (t0&Ht0&Hcb0&Hc1&Hc2).
      destruct (decide (existing = Some j)) as [Hj'|Hne].
      { destruct (live_not_cancelled _ Hlive). by apply Hc1. }
      rewrite (Hc2 Hne) in *. pose proof (Hl _ _ _ _ Ht0 Hlive Hcb) as Hs.
      rewrite lookup_insert_ne; [done|]. intros ->. by apply Hne.
    + injection Hcb as <- _. by rewrite lookup_insert_eq, cancel_opt_length.
  - intros sid' j (t&Ht&Hcb)%Hpe. destruct (Hkeep _ _ Ht) as (t'&?&?). exists t'. split; [done|congruence].
  - intros j t sid' [Hj|[-> ->]]%snoc_lookup Hlive Hcb; [|done].
    destruct (cancel_opt_lookup _ _ _ _ Hj) as (t0&Ht0&Hcb0&Hc1&Hc2).
    destruct (decide (existing = Some j)) as [Hj'|Hne].
    { destruct (live_not_cancelled _ Hlive). by apply Hc1. }
    rewrite (Hc2 Hne) in *. by eapply Hpl.
Qed.

Lemma untrack_ok sid s : timers_ok s → timers_ok (untrack sid s).
Proof.
  intros [He Hl Hpe Hpl]. unfold untrack. split; cbn.
  - intros sid' j [Hne (t&fb&Ht&Hcb)%He]%lookup_delete_Some.
    destruct (cancel_opt_same (expiration_timers s !! sid) _ _ _ Ht) as (t'&?&?&_).
    exists t', fb. split; [done|congruence].
  - intros j t sid' fb Hj Hlive Hcb. destruct (cancel_opt_lookup _ _ _ _ Hj) as (t0&Ht0&Hcb0&Hc1&Hc2).
    destruct (decide (expiration_timers s !! sid = Some j)) as [Hj'|Hne].
    { destruct (live_not_cancelled _ Hlive). by apply Hc1. }
    rewrite (Hc2 Hne) in *. pose proof (Hl _ _ _ _ Ht0 Hlive Hcb).
    rewrite lookup_delete_ne; [done|]. intros ->. done.
  - intros sid' j (t&Ht&Hcb)%Hpe.
    destruct (cancel_opt_same (expiration_timers s !! sid) _ _ _ Ht) as (t'&?&?&_).
    exists t'. split; [done|congruence].
  - intros j t sid' Hj Hlive Hcb. destruct (cancel_opt_lookup _ _ _ _ Hj) as (t0&Ht0&Hcb0&Hc1&Hc2).
    destruct (decide (expiration_timers s !! sid = Some j)) as [Hj'|Hne].
    { destruct (live_not_cancelled _ Hlive). by apply Hc1. }
    rewrite (Hc2 Hne) in *. by eapply Hpl.
Qed.

(** ** Tracked sandboxes have a live timer *)

Definition aware (d : datetime) : Prop := match d with Aware _ _ => True | Naive _ => False end.

(** Every sandbox with a tracked expiration (but [x]) has a live timer, which
    does not fire before that time. *)
Definition tracked_live_but (x : option string) (s : Service) : Prop :=
  ∀ sid exp, Some sid ≠ x → sandbox_expirations s !! sid = Some exp →
    aware exp ∧ ∃ j t, expiration_timers s !! sid = Some j ∧ timers s !! j = Some t ∧ live t ∧
      (instant exp ≤ t_deadline t)%Z.

Definition tracked_live : Service → Prop := tracked_live_but None.

Definition inv (s : Service) : Prop := timers_ok s ∧ tracked_live s.

Lemma tracked_live_weaken x s : tracked_live s → tracked_live_but x s.
Proof. intros Hs sid exp _. by apply Hs. Qed.

(** Cancelling the timer of one sandbox leaves those of the others alone. *)
Lemma other_timer_kept s sid sid' j t :
  timers_ok s → sid ≠ sid' → expiration_timers s !! sid' = Some j → timers s !! j = Some t →
  cancel_opt (expiration_timers s !! sid) (timers s) !! j = Some t.
Proof.
  intros Hok Hne Hj Ht. destruct (cancel_opt_same (expiration_timers s !! sid) _ _ _ Ht) as (t'&Ht'&_&Heq).
  rewrite Ht'. f_equal. apply Heq. intros Hs.
  destruct (to_entry _ Hok _ _ Hs) as (t1&fb1&Ht1&Hc1). destruct (to_entry _ Hok _ _ Hj) as (t2&fb2&Ht2&Hc2).
  congruence.
Qed.

(** Installing a timer that respects the tracked time makes the sandbox live. *)
Lemma install_tracked sid d fb exp s :
  timers_ok s → tracked_live_but (Some sid) s →
  (∀ e, match exp with Some e' => Some e' | None => sandbox_expirations s !! sid end = Some e →
        aware e ∧ instant e ≤ d)%Z →
  tracked_live (install_timer sid {| t_deadline := d; t_callback := ExpireSandbox sid fb;
                                     t_cancelled := false; t_fired := false |} exp s).
Proof.
  intros Hok Hs Hd sid' e _ He. set (nt := {| t_deadline := d |}) in *.
  assert (expiration_timers (install_timer sid nt exp s) = <[sid := length (timers s)]> (expiration_timers s)
    ∧ timers (install_timer sid nt exp s) = cancel_opt (expiration_timers s !! sid) (timers s) ++ [nt]
    ∧ sandbox_expirations (install_timer sid nt exp s)
      = match exp with Some e => <[sid := e]> (sandbox_expirations s) | None => sandbox_expirations s end)
    as (Ht1&Ht2&Ht3) by (by destruct exp).
  rewrite Ht1, Ht2. rewrite Ht3 in He.
  destruct (decide (sid' = sid)) as [->|Hne].
  - destruct (Hd e) as [Ha Hi].
    { destruct exp; [by rewrite lookup_insert_eq in He|done]. }
    split; [done|]. exists (length (timers s)), nt. rewrite lookup_insert_eq.
    split_and!; try done.
    rewrite lookup_app_r, cancel_opt_length, Nat.sub_diag by (rewrite cancel_opt_length; lia). done.
  - destruct (Hs sid' e) as (Ha&j&t&Hj&Ht&Hl&Hi).
    { intros [= ->]. done. } { destruct exp; [by rewrite lookup_insert_ne in He|done]. }
    split; [done|]. exists j, t. rewrite lookup_insert_ne by done. split_and!; try done.
    apply lookup_app_l_Some. by eapply other_timer_kept.
Qed.

Lemma untrack_tracked sid s :
  timers_ok s → tracked_live_but (Some sid) s → tracked_live (untrack sid s).
Proof.
  intros Hok Hs sid' e _. unfold untrack. cbn. intros [Hne He]%lookup_delete_Some.
  destruct (Hs sid' e) as (Ha&j&t&Hj&Ht&Hl&Hi); [by intros [= ->]|done|].
  split; [done|]. exists j, t. rewrite lookup_delete_ne by done. split_and!; try done.
  by eapply other_timer_kept.
Qed.

Lemma untrack_inv sid s : timers_ok s → tracked_live_but (Some sid) s → inv (untrack sid s).
Proof. intros. split; [by apply untrack_ok|by apply untrack_tracked]. Qed.

(** A property that does not depend on the reference counts. *)
Definition refs_free (P : Service → Prop) : Prop := ∀ f s, P s → P (set_refs f s).

Lemma inv_refs_free : refs_free inv.
Proof. intros f s [[] Ht]. split; [by split|exact Ht]. Qed.

Section preserve.
Context {E : Type} `{HostEnv E}.

Lemma release_ossfs_mount_keeps P key : refs_free P → keeps (E:=E) P (release_ossfs_mount key).
Proof.
  intros HP. pose proof (release_unmount_keeps (E:=E) P) as Hu.
  unfold release_ossfs_mount, release_decrement. keeps; apply keeps_put; intros; by apply HP.
Qed.

Lemma release_ossfs_mounts_keeps P keys : refs_free P → keeps (E:=E) P (release_ossfs_mounts keys).
Proof.
  intros HP. unfold release_ossfs_mounts. apply keeps_for. intros key.
  apply keeps_catch; [by apply release_ossfs_mount_keeps|]. intros. apply keeps_ret.
Qed.

Lemma get_container_keeps P sid : keeps (E:=E) P (get_container_by_sandbox_id sid).
Proof. unfold get_container_by_sandbox_id. keeps. Qed.

Lemma cleanup_egress_sidecar_keeps P sid : keeps (E:=E) P (cleanup_egress_sidecar sid).
Proof. unfold cleanup_egress_sidecar, remove_container_quietly. keeps. Qed.

Lemma remove_container_quietly_keeps P c : keeps (E:=E) P (remove_container_quietly c).
Proof. unfold remove_container_quietly. keeps. Qed.

Lemma get_tracked_keeps P sid labels : keeps (E:=E) P (get_tracked_expiration sid labels).
Proof. unfold get_tracked_expiration, parse_timestampM. keeps. Qed.

Lemma renewed_meanwhile_keeps P sid : keeps (E:=E) P (renewed_meanwhile sid).
Proof. unfold renewed_meanwhile. keeps. Qed.

Lemma dt_sub_utc a us delta : dt_sub a (utc us) = Ok delta → aware a ∧ instant a = (us + delta)%Z.
Proof. destruct a; cbn; [done|]. intros [= <-]. split; [done|lia]. Qed.

(** Scheduling with a new expiration establishes the invariant for the sandbox. *)
Lemma schedule_update_inv sid exp fb w r w' :
  timers_ok (svc w) → tracked_live_but (Some sid) (svc w) →
  schedule_expiration (E:=E) sid exp true fb w = (r, w') →
  (r = Ok tt ∧ inv (svc w')) ∨ (is_ok r = false ∧ svc w' = svc w).
Proof.
  intros Hok Hs. unfold schedule_expiration, mbind, M_bind, query, lift, put_svc.
  destruct (clock (env w)) as [us e']. destruct (dt_sub exp (utc us)) as [delta|e] eqn:Hd.
  - intros [= <- <-]. left. split; [done|]. apply dt_sub_utc in Hd as [Ha Hi]. cbn. split.
    + by apply install_timer_ok.
    + apply install_tracked; [done..|]. intros e [= <-]. split; [done|]. lia.
  - intros [= <- <-]. by right.
Qed.

Lemma schedule_keeps_inv sid exp fb : keeps (E:=E) inv (schedule_expiration sid exp true fb).
Proof.
  intros w r w' [Hok Hs] Hr.
  apply schedule_update_inv in Hr as [[_ ?]|[_ ->]]; try done. by apply tracked_live_weaken.
Qed.

(** The retry of a failed expiration: the tracked time has passed. *)
Lemma schedule_retry_inv sid us fb w r w' :
  timers_ok (svc w) → tracked_live_but (Some sid) (svc w) →
  (∀ exp, sandbox_expirations (svc w) !! sid = Some exp → aware exp ∧ instant exp ≤ us)%Z →
  schedule_expiration (E:=E) sid (utc us) false fb w = (r, w') → r = Ok tt ∧ inv (svc w').
Proof.
  intros Hok Hs Hexp. unfold schedule_expiration, mbind, M_bind, query, lift, put_svc.
  destruct (clock (env w)) as [us' e']. cbn. intros [= <- <-]. split; [done|]. cbn. split.
  - by apply install_timer_ok.
  - apply install_tracked; [done..|]. intros exp He. destruct (Hexp exp He). split; [done|lia].
Qed.

(** The timer callback when the query fails: either the invariant holds for the
    sandbox again, or nothing was changed because the sandbox was renewed or the
    time of the retry cannot be represented. *)
Lemma expire_unavailable_spec sid fb exc w r w' :
  timers_ok (svc w) → tracked_live_but (Some sid) (svc w) →
  (∀ exp, sandbox_expirations (svc w) !! sid = Some exp → aware exp) →
  expire_unavailable (E:=E) sid fb exc w = (r, w') →
  inv (svc w') ∨
  (svc w' = svc w ∧ ∃ us e', clock (env w) = (us, e') ∧
     (dt_add (utc us) (30 * us_per_second) = None ∨
      ∃ exp, sandbox_expirations (svc w) !! sid = Some exp ∧ us < instant exp)%Z).
Proof.
  intros Hok Hs Haw. unfold expire_unavailable. destruct (http_status exc =? 404)%Z.
  - intros Hr. left.
    assert (keeps (E:=E) inv match fb with Some ((_ :: _) as keys) => release_ossfs_mounts keys | _ => mret tt end) as Hm.
    { destruct fb as [[|k ks]|]; try apply keeps_ret. apply release_ossfs_mounts_keeps, inv_refs_free. }
    eapply (Hm (Build_World (untrack sid (svc w)) (env w))); [by apply untrack_inv|exact Hr].
  - unfold mbind at 1 2, M_bind, get_svc, query. destruct (clock (env w)) as [us e'] eqn:Hc.
    destruct (sandbox_expirations (svc w) !! sid) as [exp|] eqn:Hexp.
    + pose proof (Haw exp eq_refl) as Ha. destruct exp as [|x ox]; [done|].
      unfold mbind, M_bind, lift. cbn. rewrite Z.sub_0_r.
      destruct (us <? x - ox)%Z eqn:Hlt.
      { intros [= <- <-]. right. split; [done|]. exists us, e'. split; [done|]. right.
        exists (Aware x ox). split; [done|]. by apply Z.ltb_lt. }
      apply Z.ltb_ge in Hlt. destruct (dt_in_range _) eqn:Hr.
      * intros Hsch. left. eapply (schedule_retry_inv sid (us + 30 * us_per_second)); [..|exact Hsch]; try done.
        intros exp'. cbn. rewrite Hexp. intros [= <-]. split; [done|]. cbn. unfold us_per_second. lia.
      * intros [= <- <-]. right. split; [done|]. exists us, e'. split; [done|]. left. by rewrite Hr.
    + unfold mbind, M_bind. cbn. destruct (dt_in_range _) eqn:Hr.
      * intros Hsch. left. eapply (schedule_retry_inv sid (us + 30 * us_per_second)); [..|exact Hsch]; try done.
        intros exp'. cbn. by rewrite Hexp.
      * intros [= <- <-]. right. split; [done|]. exists us, e'. split; [done|]. left. by rewrite Hr.
Qed.

(** The part of the callback that removes the container, from the point where
    the tracking is removed. *)
Lemma after_untrack_keeps P sid keys :
  refs_free P → keeps (E:=E) P (cleanup_egress_sidecar sid;; release_ossfs_mounts keys).
Proof.
  intros HP. apply keeps_bind; [apply cleanup_egress_sidecar_keeps|]. intros _.
  by apply release_ossfs_mounts_keeps.
Qed.

Lemma get_container_cases sid w :
  ∃ rl e, containers_list (LabelEq SANDBOX_ID_LABEL sid) (env w) = (rl, e) ∧
  get_container_by_sandbox_id (E:=E) sid w =
  (match rl with
   | Ok [] => Raise (HTTPException 404 SandboxErrorCodes.SANDBOX_NOT_FOUND ("Sandbox " +:+ sid +:+ " not found."))
   | Ok (c :: _) => Ok c
   | Raise exc => if is_docker_exn exc
                  then Raise (internal_error SandboxErrorCodes.CONTAINER_QUERY_FAILED
                                ("Failed to query sandbox containers: " +:+ exn_text exc))
                  else Raise exc
   end, Build_World (svc w) e).
Proof.
  unfold get_container_by_sandbox_id, mbind, M_bind, catch, try_except, call.
  destruct (containers_list _ (env w)) as [[[|c cs]|exc] e].
  - by do 2 eexists.
  - by do 2 eexists.
  - exists (Raise exc), e. split; [done|]. destruct (is_docker_exn exc); reflexivity.
Qed.

End preserve.

(** ** What the callback relies on

    Time does not run backwards, the clock can be advanced by 30 seconds, and
    the Docker calls of the callback fail with [DockerException] only. *)
Class ReliableHost (E : Type) `{HostEnv E} := {
  time : E → Z;
  clock_time e t e' : clock e = (t, e') → (time e ≤ t)%Z ∧ dt_in_range (t + 30 * us_per_second) = true;
  list_time f e r e' : containers_list f e = (r, e') → (time e ≤ time e')%Z;
  list_docker f e x e' : containers_list f e = (Raise x, e') → is_docker_exn x = true;
  kill_docker i e x e' : container_kill i e = (Raise x, e') → is_docker_exn x = true;
  remove_docker i e x e' : container_remove i e = (Raise x, e') → is_docker_exn x = true }.

Section reliable.
Context {E : Type} `{ReliableHost E}.

(** A call that is guarded by [except DockerException] returns. *)
Lemma guarded_call (m : M E unit) (w : World E) :
  (∀ e x e', m e = (Raise x, e') → is_docker_exn x = true) →
  ∃ e, catch is_docker_exn (call m) (λ _, mret tt) w = (Ok tt, Build_World (svc w) e).
Proof.
  intros Hm. unfold catch, try_except, call. destruct (m (env w)) as [[[]|x] e] eqn:He; [by eauto|].
  rewrite (Hm _ _ _ He). eauto.
Qed.

Lemma expire_container_inv sid c w r w' :
  timers_ok (svc w) → tracked_live_but (Some sid) (svc w) →
  expire_container (E:=E) sid c w = (r, w') → inv (svc w').
Proof.
  intros Hok Hs. unfold expire_container. cbv zeta. unfold mbind at 1, M_bind.
  assert (∃ e, catch is_docker_exn
    (if st_running (c_state c) then call (container_kill (c_id c)) else mret tt) (λ _, mret tt) w
    = (Ok tt, Build_World (svc w) e)) as (e1&->).
  { destruct (st_running _); [apply guarded_call, kill_docker|]. exists (env w). by destruct w. }
  unfold mbind at 1, M_bind, remove_container_quietly.
  destruct (guarded_call (container_remove (c_id c)) (Build_World (svc w) e1)) as (e2&->); [apply remove_docker|].
  unfold mbind at 1, M_bind, remove_expiration_tracking, put_svc. intros Hrest.
  eapply (after_untrack_keeps inv); [apply inv_refs_free| |exact Hrest]. cbn. by apply untrack_inv.
Qed.

(** The callback at a time when the tracked expiration has passed ends with the
    sandbox either untracked or tracked by a live timer. *)
Lemma expire_sandbox_due sid fb w r w' :
  timers_ok (svc w) → tracked_live_but (Some sid) (svc w) →
  (∀ exp, sandbox_expirations (svc w) !! sid = Some exp → aware exp ∧ instant exp ≤ time (env w))%Z →
  expire_sandbox (E:=E) sid fb w = (r, w') → inv (svc w').
Proof.
  intros Hok Hs Hdue. unfold expire_sandbox, mbind at 1, M_bind, catch, try_except.
  destruct (get_container_cases sid w) as (rl&e&Hl&Hgc).
  assert (time (env w) ≤ time e)%Z as Hte by (by eapply list_time).
  assert (∀ exc r1 w1, expire_unavailable sid fb exc (Build_World (svc w) e) = (r1, w1) → inv (svc w1)) as Hun.
  { intros exc r1 w1 Hu. apply expire_unavailable_spec in Hu; [|done|done|intros; by apply Hdue].
    destruct Hu as [?|[_ (us&e'&Hc&Hd)]]; [done|]. cbn in Hc.
    destruct (clock_time _ _ _ Hc) as [Hus Hrange]. destruct Hd as [Hd|(exp&He&Hlt)].
    - cbn in Hd. by rewrite Hrange in Hd.
    - cbn in He. destruct (Hdue _ He). lia. }
  unfold mbind at 1, M_bind. rewrite Hgc. destruct rl as [[|c cs]|exc]; cbn [is_http].
  - unfold mbind, M_bind. destruct (expire_unavailable _ _ _ _) as [r1 w1] eqn:Hu.
    specialize (Hun _ _ _ Hu). destruct r1 as [[]|]; by intros [= <- <-].
  - unfold mbind, M_bind, renewed_meanwhile, mbind, M_bind, get_svc. cbn.
    destruct (sandbox_expirations (svc w) !! sid) as [exp|] eqn:He.
    + destruct (Hdue exp eq_refl) as [Ha Hi]. destruct exp as [|x ox]; [done|].
      unfold now, mbind, M_bind, query, lift. cbn. destruct (clock e) as [us e'] eqn:Hc. cbn. rewrite Z.sub_0_r.
      destruct (clock_time _ _ _ Hc) as [Hus _].
      rewrite (proj2 (Z.ltb_ge _ _)) by (cbn in Hi; lia). by apply expire_container_inv.
    + by apply expire_container_inv.
  - pose proof (list_docker _ _ _ _ Hl) as ->. cbn [is_http internal_error].
    unfold mbind, M_bind. destruct (expire_unavailable _ _ _ _) as [r1 w1] eqn:Hu.
    specialize (Hun _ _ _ Hu). destruct r1 as [[]|]; by intros [= <- <-].
Qed.

End reliable.

(** ** Preservation by the operations *)

Section operations.
Context {E : Type} `{HostEnv E}.

(** A property that tracking may change. *)
Record timer_stable (P : Service → Prop) : Prop := {
  ts_refs : refs_free P;
  ts_untrack : ∀ sid s, P s → P (untrack sid s);
  ts_schedule : ∀ sid exp fb, keeps (E:=E) P (schedule_expiration sid exp true fb);
  ts_unavailable : ∀ sid fb exc, keeps (E:=E) P (expire_unavailable sid fb exc) }.

Lemma schedule_keeps_ok sid exp b fb : keeps (E:=E) timers_ok (schedule_expiration sid exp b fb).
Proof.
  unfold schedule_expiration. keeps. apply keeps_put. intros. by apply install_timer_ok.
Qed.

Lemma timers_ok_refs_free : refs_free timers_ok.
Proof. intros f s []. by split. Qed.

Lemma timers_ok_stable : timer_stable timers_ok.
Proof.
  split.
  - apply timers_ok_refs_free.
  - intros. by apply untrack_ok.
  - intros. apply schedule_keeps_ok.
  - intros sid fb exc. pose proof (release_ossfs_mounts_keeps (E:=E) timers_ok) as Hrel.
    pose proof timers_ok_refs_free. pose proof schedule_keeps_ok.
    unfold expire_unavailable, remove_expiration_tracking. keeps.
    apply keeps_put. intros. by apply untrack_ok.
Qed.

Lemma inv_stable : timer_stable inv.
Proof.
  split.
  - apply inv_refs_free.
  - intros sid s [Hok Hs]. apply untrack_inv; [done|]. by apply tracked_live_weaken.
  - intros. apply schedule_keeps_inv.
  - intros sid fb exc w r w' [Hok Hs] Hr.
    apply expire_unavailable_spec in Hr as [?|[-> _]]; try done.
    + by apply tracked_live_weaken.
    + intros exp He. by destruct (Hs sid exp ltac:(done) He).
Qed.

Section stable.
Context (P : Service → Prop) (HP : timer_stable P).

Lemma stable_untrack sid : keeps (E:=E) P (remove_expiration_tracking sid).
Proof. apply keeps_put. intros. by apply (ts_untrack P HP). Qed.

Lemma stable_release keys : keeps (E:=E) P (release_ossfs_mounts keys).
Proof. apply release_ossfs_mounts_keeps, (ts_refs P HP). Qed.

Lemma stable_schedule sid exp fb : keeps (E:=E) P (schedule_expiration sid exp true fb).
Proof. apply (ts_schedule P HP). Qed.

Lemma stable_unavailable sid fb exc : keeps (E:=E) P (expire_unavailable sid fb exc).
Proof. apply (ts_unavailable P HP). Qed.

Hint Resolve stable_untrack stable_release stable_schedule stable_unavailable get_container_keeps cleanup_egress_sidecar_keeps
  remove_container_quietly_keeps get_tracked_keeps renewed_meanwhile_keeps : keeps.

Lemma expire_sandbox_keeps sid fb : keeps (E:=E) P (expire_sandbox sid fb).
Proof. unfold expire_sandbox, expire_container. keeps. Qed.
Hint Resolve expire_sandbox_keeps : keeps.

Lemma delete_sandbox_keeps sid : keeps (E:=E) P (delete_sandbox sid).
Proof. unfold delete_sandbox, kill_or_stopped. keeps. Qed.

Lemma pause_sandbox_keeps sid : keeps (E:=E) P (pause_sandbox sid).
Proof. unfold pause_sandbox. keeps. Qed.

Lemma resume_sandbox_keeps sid : keeps (E:=E) P (resume_sandbox sid).
Proof. unfold resume_sandbox. keeps. Qed.

Lemma renew_expiration_keeps sid req : keeps (E:=E) P (renew_expiration sid req).
Proof. unfold renew_expiration, update_container_labels. keeps. Qed.

Lemma touch_last_activity_keeps sid : keeps (E:=E) P (touch_last_activity sid).
Proof. unfold touch_last_activity, update_container_labels. keeps. Qed.

Lemma restore_loop_keeps n acc cs : keeps (E:=E) P (restore_loop n acc cs).
Proof.
  revert acc. induction cs as [|c cs IH]; intros acc; cbn [restore_loop]; [keeps|].
  apply keeps_bind; [|intros; apply IH]. unfold restore_container, parse_timestampM. keeps.
Qed.

Lemma restore_existing_sandboxes_keeps : keeps (E:=E) P restore_existing_sandboxes.
Proof.
  pose proof restore_loop_keeps. unfold restore_existing_sandboxes, cleanup_orphan. keeps.
  apply keeps_put. intros. by apply (ts_refs P HP).
Qed.

End stable.
End operations.

(** ** Deletion *)

Definition untracked (sid : string) (s : Service) : Prop :=
  sandbox_expirations s !! sid = None ∧ expiration_timers s !! sid = None.

Lemma untrack_untracked sid s : untracked sid (untrack sid s).
Proof. split; cbn; apply lookup_delete_eq. Qed.

Lemma untracked_refs_free sid : refs_free (untracked sid).
Proof. by intros f s []. Qed.

(** C13: once [delete_sandbox] has found the container, it ends the tracking of
    the sandbox whatever Docker answers and even if the call itself fails: no
    tracked expiration, no table entry and no live timer of it remain. *)
Theorem delete_sandbox_untracks {E} `{HostEnv E} sid w c cs e r w' :
  timers_ok (svc w) →
  containers_list (LabelEq SANDBOX_ID_LABEL sid) (env w) = (Ok (c :: cs), e) →
  delete_sandbox (E:=E) sid w = (r, w') →
  untracked sid (svc w') ∧
  ∀ j t fb, timers (svc w') !! j = Some t → t_callback t = ExpireSandbox sid fb → ¬ live t.
Proof.
  intros Hok Hl Hd.
  assert (timers_ok (svc w')) as Hok'
    by (by eapply (delete_sandbox_keeps timers_ok timers_ok_stable)).
  assert (untracked sid (svc w')) as Hun.
  2:{ split; [done|]. intros j t fb Ht Hcb Hlive. destruct Hun as [_ Hun].
      rewrite (to_live _ Hok' _ _ _ _ Ht Hlive Hcb) in Hun. done. }
  revert Hd. unfold delete_sandbox, mbind at 1, M_bind.
  destruct (get_container_cases sid w) as (rl&e0&Hl'&->). rewrite Hl in Hl'. injection Hl' as <- <-.
  cbv beta iota zeta. unfold try_finally. destruct (catch _ _ _ _) as [r1 w1].
  set (fin := (_ ;; _ : MW E unit)). destruct (fin w1) as [r2 w2] eqn:Hf.
  intros Hw. assert (svc w' = svc w2) as -> by (destruct r2; by injection Hw as <- <-).
  subst fin. revert Hf. unfold mbind at 1, M_bind, remove_expiration_tracking, put_svc.
  set (rest := (cleanup_egress_sidecar sid;; _ : MW E unit)). intros Hf.
  assert (keeps (E:=E) (untracked sid) rest) as Hkeep.
  { pose proof (cleanup_egress_sidecar_keeps (E:=E) (untracked sid)).
    pose proof (λ keys, release_ossfs_mounts_keeps (E:=E) (untracked sid) keys (untracked_refs_free sid)).
    subst rest. keeps. }
  eapply Hkeep; [|exact Hf]. apply untrack_untracked.
Qed.

Definition running_box (sid : string) : Container := sim_container "c1" [(SANDBOX_ID_LABEL, sid)] true.

(** A sandbox with a timer; [remove] and [kill] fail. *)
Definition delete_world : World Sim :=
  {| svc := install_timer "sb" {| t_deadline := 60; t_callback := ExpireSandbox "sb" None;
                                  t_cancelled := false; t_fired := false |} (Some (utc 60)) empty_service;
     env := sim_set_fail ["remove"] (sim_set_containers (cons (running_box "sb")) sim_init) |}.

Lemma empty_timers_ok : timers_ok empty_service.
Proof. split; cbn; try done; intros; simplify_map_eq. Qed.

Lemma delete_sandbox_untracks_witness :
  let '(r, w') := delete_sandbox "sb" delete_world in
  is_ok r = false ∧ untracked "sb" (svc w').
Proof.
  pose proof (delete_sandbox_untracks (E:=Sim) "sb" delete_world (running_box "sb") [] (env delete_world)) as H.
  destruct (delete_sandbox "sb" delete_world) as [r w'] eqn:Hd.
  specialize (H r w' (install_timer_ok _ _ _ _ _ empty_timers_ok) ltac:(vm_compute; reflexivity) eq_refl).
  split; [|apply H]. vm_compute in Hd. injection Hd as <- _. reflexivity.
Defined.

(** The same run: the container that could not be removed is still there, but
    nothing will expire it any more. *)
Theorem failed_delete_leaks :
  let '(r, w') := delete_sandbox "sb" delete_world in
  is_ok r = false ∧ sandbox_expirations (svc w') = ∅ ∧ expiration_timers (svc w') = ∅ ∧
  Forall (λ t, t_cancelled t = true) (timers (svc w')) ∧ (c_id <$> sim_containers (env w')) = ["c1"].
Proof. vm_compute. split_and!; try reflexivity. by repeat constructor. Qed.

(** ** Renewal *)

Section renewal.
Context {E : Type} `{HostEnv E}.

Lemma ensure_future_aware n d d' : ensure_future_expiration n d = Ok d' → d' = utc (instant d).
Proof.
  unfold ensure_future_expiration. intros (x&Hx&(b&Hb&Hr)%result_bind_Ok)%result_bind_Ok.
  destruct b; [done|]. injection Hr as ->. destruct d as [us|us off]; cbn in *.
  - by injection Hx as ->.
  - unfold to_utc in Hx. destruct (dt_in_range _); [|done]. by injection Hx as ->.
Qed.

(** What a successful scheduling leaves. *)
Lemma schedule_update_tracks sid exp fb w r w' :
  schedule_expiration (E:=E) sid exp true fb w = (r, w') → is_ok r = true →
  sandbox_expirations (svc w') !! sid = Some exp.
Proof.
  unfold schedule_expiration, mbind, M_bind, query, lift, put_svc.
  destruct (clock (env w)) as [us e']. destruct (dt_sub exp (utc us)); [|by intros [= <- <-]].
  intros [= <- <-] _. cbn. apply lookup_insert_eq.
Qed.

Lemma renew_expiration_tracks sid req w resp w' :
  renew_expiration (E:=E) sid req w = (Ok resp, w') →
  renewed_expires_at resp = utc (instant (renew_expires_at req)) ∧
  sandbox_expirations (svc w') !! sid = Some (renewed_expires_at resp).
Proof.
  unfold renew_expiration, mbind at 1, M_bind. destruct (get_container_by_sandbox_id sid w) as [[c|] w1]; [|done].
  unfold mbind at 1, M_bind. destruct (now w1) as [[n|] w2]; [|done].
  unfold mbind at 1, M_bind, lift at 1.
  destruct (ensure_future_expiration n _) as [d|] eqn:Hd; [|done]. apply ensure_future_aware in Hd as ->.
  cbv zeta. unfold mbind at 1, M_bind, lift at 1. destruct (raise_if _ _) as [[]|]; [|done].
  unfold mbind at 1, M_bind. destruct (get_tracked_expiration _ _ _) as [[tr|] w3]; [|done].
  unfold mbind at 1, M_bind, lift at 1. destruct (raise_if _ _) as [[]|]; [|done].
  unfold mbind at 1, M_bind. destruct (schedule_expiration _ _ _ _ w3) as [[[]|] w4] eqn:Hs; [|done].
  apply schedule_update_tracks in Hs; [|done].
  unfold mbind, M_bind. destruct (catch _ _ _ w4) as [[[]|] w5] eqn:Hc; [|done].
  intros [= <- <-]. split; [done|]. cbn.
  eapply (keeps_catch (λ s, sandbox_expirations s !! sid = _)); [..|exact Hs|exact Hc];
    unfold update_container_labels; keeps.
Qed.


End renewal.

Definition tracked_world : World Sim :=
  {| svc := svc delete_world; env := sim_set_fail [] (env delete_world) |}.

Lemma empty_tracked_live : tracked_live empty_service.
Proof. intros sid exp _. cbn. by rewrite lookup_empty. Qed.

Lemma tracked_world_inv : inv (svc tracked_world).
Proof.
  split; [apply install_timer_ok, empty_timers_ok|].
  apply install_tracked; [apply empty_timers_ok|apply tracked_live_weaken, empty_tracked_live|].
  intros e [= <-]. by split.
Qed.

Definition renew_to (us : Z) : RenewSandboxExpirationRequest := {| renew_expires_at := Naive us |}.

