(* ===== verification/DockerRestore.v ===== *)
(** * Restoration after a restart

    The tables that [_restore_existing_sandboxes] builds from the labels of the
    containers: reference counts of the mounts and tracked expirations. *)

From Stdlib Require Import Ascii.
From S2P Require Import Prelude PyString PyDict PyTime Json Schema Validators Config Helpers.
From S2P Require Import DockerHost SimHost Ossfs OssfsMounts DockerExpiry DockerTimers.
Open Scope string_scope.
Open Scope list_scope.

(** The sandbox that a container runs; side cars run none. *)
Definition sandbox_of (c : Container) : option string :=
  if truthy_opt (dget EGRESS_SIDECAR_LABEL (labels_of c)) then None else
  match dget SANDBOX_ID_LABEL (labels_of c) with
  | Some i => if truthy i then Some i else None
  | None => None
  end.

(** The mounts that a container holds. *)
Definition mounts_of (c : Container) : list string :=
  match sandbox_of c with Some _ => label_mount_keys (labels_of c) | None => [] end.

Definition occurrences (k : string) (l : list string) : Z := Z.of_nat (length (base.filter (λ x, x = k) l)).

(** The expiration that the label of a container reports, when it has not passed. *)
Definition due_later (n : datetime) (c : Container) (d : datetime) : Prop :=
  truthy_opt (dget SANDBOX_EXPIRES_AT_LABEL (labels_of c)) = true ∧
  parse_timestamp_opt (dget SANDBOX_EXPIRES_AT_LABEL (labels_of c)) = Some d ∧ dt_le d n = Ok false.

Lemma occurrences_app k l1 l2 : occurrences k (l1 ++ l2) = (occurrences k l1 + occurrences k l2)%Z.
Proof. unfold occurrences. rewrite filter_app, length_app. lia. Qed.

Lemma occurrences_cons k x l : occurrences k (x :: l) = ((if decide (x = k) then 1 else 0) + occurrences k l)%Z.
Proof. unfold occurrences. rewrite filter_cons. case_decide; cbn [length]; lia. Qed.

Lemma add_refs_count keys m k : default 0%Z (add_refs keys m !! k) = (default 0%Z (m !! k) + occurrences k keys)%Z.
Proof.
  revert m. unfold add_refs. induction keys as [|x keys IH]; intros m; cbn [fold_left].
  { unfold occurrences. cbn. lia. }
  rewrite IH, occurrences_cons. rewrite lookup_insert. repeat case_decide; subst; cbn; (done || lia).
Qed.

Section restore.
Context {E : Type} `{HostEnv E}.

(** One iteration: it files the references of the container, and it writes the
    tracked expiration of its sandbox only. *)
Lemma restore_container_spec n acc c w acc' w' :
  restore_container (E:=E) n acc c w = (Ok acc', w') →
  restored_mount_refs acc' = add_refs (mounts_of c) (restored_mount_refs acc) ∧
  (∀ sid, sandbox_of c ≠ Some sid → sandbox_expirations (svc w') !! sid = sandbox_expirations (svc w) !! sid) ∧
  (∀ sid d, sandbox_of c = Some sid → due_later n c d → sandbox_expirations (svc w') !! sid = Some d).
Proof.
  unfold restore_container, mounts_of, sandbox_of, due_later.
  destruct (dget EGRESS_SIDECAR_LABEL (labels_of c)) as [[|a sc]|];
    [|by intros [= <- <-]; split_and!|];
    (destruct (dget SANDBOX_ID_LABEL (labels_of c)) as [[|b sid]|];
      [by intros [= <- <-]; split_and!| |by intros [= <- <-]; split_and!]);
    (destruct (dget SANDBOX_EXPIRES_AT_LABEL (labels_of c)) as [[|x e]|]; cbn [truthy_opt truthy];
      [by intros [= <- <-]; split_and!; [done|done|intros ?? _ [? _]]| |
       by intros [= <- <-]; split_and!; [done|done|intros ?? _ [? _]]]).
  all: intros (d&w1&Hd&(b'&w2&Hb&Hrest)%M_bind_Ok)%M_bind_Ok; injection Hb as Hb <-;
    assert (sandbox_expirations (svc w1) = sandbox_expirations (svc w)) as Hw1
      by (refine ((_ : keeps (λ s, sandbox_expirations s = _) _) _ _ _ eq_refl Hd); unfold parse_timestampM; keeps);
    unfold parse_timestampM in Hd; destruct b'.
  1, 3: injection Hrest as <- <-; split_and!; [done|by intros; rewrite Hw1|];
    intros sid' d' _ (_&Hp&Hle); rewrite Hp in Hd; injection Hd as -> _; congruence.
  all: apply M_bind_Ok in Hrest as ([]&w3&Hs&[= <- <-]);
    pose proof (schedule_update_tracks _ _ _ _ _ _ Hs eq_refl) as Ht; split_and!; [done| |].
  1, 3: intros sid' Hne; revert Hs; unfold schedule_expiration, mbind, M_bind, query, lift, put_svc;
    destruct (clock (env w1)) as [us e1]; destruct (dt_sub d (utc us)); [|done]; intros [= <-]; cbn;
    rewrite lookup_insert_ne, Hw1; [done|congruence].
  all: intros sid' d' [= <-] (_&Hp&_); rewrite Hp in Hd; injection Hd as -> _; exact Ht.
Qed.

(** C34: after a restart the count of every mount is the number of times that
    the labels of the sandbox containers name it, and every sandbox whose
    expiration has not passed is tracked again under the time of its label. *)
Theorem restore_loop_spec n cs w acc w' :
  restore_loop (E:=E) n {| seen_sidecars := []; restored_mount_refs := ∅; expired_entries := [] |} cs w
    = (Ok acc, w') →
  (∀ k, default 0%Z (restored_mount_refs acc !! k) = occurrences k (cs ≫= mounts_of)) ∧
  (NoDup (omap sandbox_of cs) →
   ∀ c sid d, c ∈ cs → sandbox_of c = Some sid → due_later n c d →
     sandbox_expirations (svc w') !! sid = Some d).
Proof.
  intros Hl. assert (∀ acc0 w0, restore_loop n acc0 cs w0 = (Ok acc, w') →
    (∀ k, default 0%Z (restored_mount_refs acc !! k) =
          (default 0%Z (restored_mount_refs acc0 !! k) + occurrences k (cs ≫= mounts_of))%Z) ∧
    (∀ sid, sid ∉ omap sandbox_of cs →
       sandbox_expirations (svc w') !! sid = sandbox_expirations (svc w0) !! sid) ∧
    (NoDup (omap sandbox_of cs) → ∀ c sid d, c ∈ cs → sandbox_of c = Some sid → due_later n c d →
       sandbox_expirations (svc w') !! sid = Some d)) as Hgen.
  2:{ destruct (Hgen _ _ Hl) as (Hk&_&Ht). split; [|done]. intros k. rewrite Hk. cbn. by rewrite lookup_empty. }
  clear. induction cs as [|c cs IH]; intros acc0 w0; cbn [restore_loop].
  { intros [= -> ->]. split_and!; [intros; cbn; unfold occurrences; cbn; lia|done|set_solver]. }
  intros (acc1&w1&Hc&Hrest)%M_bind_Ok. apply restore_container_spec in Hc as (Hm&Ho&Hs).
  destruct (IH _ _ Hrest) as (IHk&IHo&IHt). split_and!.
  - intros k. rewrite IHk, Hm, add_refs_count. change ((c :: cs) ≫= mounts_of) with (mounts_of c ++ (cs ≫= mounts_of)).
    rewrite occurrences_app. lia.
  - intros sid Hsid. cbn in Hsid. rewrite IHo; [apply Ho|]; destruct (sandbox_of c); set_solver.
  - intros Hnd c' sid d Hin Hsid Hd. cbn in Hnd. apply elem_of_cons in Hin as [->|Hin].
    + rewrite IHo; [by apply Hs|]. rewrite Hsid in Hnd. by apply NoDup_cons in Hnd as [? _].
    + apply (IHt) with c'; [|done..]. destruct (sandbox_of c); [by apply NoDup_cons in Hnd as [_ ?]|done].
Qed.

End restore.

(** Two sandboxes that share a mount. *)
Definition sharing (i sid : string) : Container :=
  sim_container i [(SANDBOX_ID_LABEL, sid); (SANDBOX_EXPIRES_AT_LABEL, "0001-01-01T00:00:01+00:00");
                   (SANDBOX_OSSFS_MOUNTS_LABEL, dumps_list ["/mnt/ossfs/b"])] true.

Definition sharing_cs : list Container := [sharing "c1" "s1"; sharing "c2" "s2"].

Lemma restore_loop_spec_witness :
  ∃ acc w', restore_loop (utc 0) {| seen_sidecars := []; restored_mount_refs := ∅; expired_entries := [] |} sharing_cs
              (Build_World empty_service sim_init) = (Ok acc, w') ∧
    default 0%Z (restored_mount_refs acc !! "/mnt/ossfs/b") = 2%Z ∧
    sandbox_expirations (svc w') !! "s1" = Some (utc 1000000).
Proof.
  destruct (restore_loop (utc 0) {| seen_sidecars := []; restored_mount_refs := ∅; expired_entries := [] |} sharing_cs
              (Build_World empty_service sim_init)) as [[acc|x] w'] eqn:Hl; [|vm_compute in Hl; discriminate].
  destruct (restore_loop_spec (utc 0) sharing_cs (Build_World empty_service sim_init) acc w' Hl) as [Hk Ht].
  exists acc, w'. split; [reflexivity|]. split.
  - rewrite Hk. vm_compute. reflexivity.
  - apply (Ht ltac:(compute_done) (sharing "c1" "s1")); [left|reflexivity|].
    split_and!; vm_compute; reflexivity.
Defined.
