(* ===== verification/DockerVolumes.v ===== *)
(** * Volumes of Docker sandboxes ([server/src/services/docker.py])

    The Docker-level checks of [_validate_volumes] and the bind specifications
    that [_build_volume_binds] hands to Docker. *)

From Stdlib Require Import Ascii.
From S2P Require Import Prelude PyString Paths PyDict PyTime Regex Schema Validators Config.
From S2P Require Import Helpers DockerHost SimHost Ossfs.
Open Scope string_scope.
Open Scope list_scope.

(** [type(e).__name__] of the exceptions [os.makedirs] raises. *)
Definition exn_class_name (e : exn) : string :=
  match e with
  | PyException FileNotFoundError _ => "FileNotFoundError"
  | _ => "OSError"
  end.

Section volumes.
Context {E : Type} `{HostEnv E} (storage : StorageConfig).

(** [allowed_host_paths or None] *)
Definition allowed_prefixes : option (list string) :=
  match allowed_host_paths storage with [] => None | l => Some l end.

(** The directory of a host volume: [host.path] with the optional sub path. *)
Definition resolved_host_path (volume : Volume) (h : Host) : string :=
  match sub_path volume with
  | Some ((String _ _) as sub) => normpath (path_join (host_path h) sub)
  | _ => host_path h
  end.

Definition validate_host_volume (volume : Volume) (h : Host) (allowed : option (list string))
    : MW E unit :=
  let resolved_path := resolved_host_path volume h in
  (match allowed with
   | Some ((_ :: _) as prefixes) =>
       if negb (bool_decide (resolved_path = host_path h))
       then lift (ensure_valid_host_path resolved_path (Some prefixes)) else mret tt
   | _ => mret tt
   end);;
  catch is_os_error (call (makedirs resolved_path))
    (λ e, raise (internal_error SandboxErrorCodes.HOST_PATH_CREATE_FAILED
       ("Volume '" +:+ vol_name volume +:+ "': could not ensure host path directory exists at '"
        +:+ resolved_path +:+ "': " +:+ exn_class_name e))).

Definition pvc_escape (volume : Volume) (suffix : string) : exn :=
  bad_request SandboxErrorCodes.INVALID_SUB_PATH
    ("Volume '" +:+ vol_name volume +:+ "': resolved subPath escapes the volume mountpoint" +:+ suffix).

(** The checks of a sub path of a named volume: the driver, the lexical check
    against the mount point, and the best-effort check behind symbolic links. *)
Definition validate_pvc_sub_path (volume : Volume) (volume_name sub : string) (vol_info : VolumeInfo)
    : MW E unit :=
  let driver := default EmptyString (vi_driver vol_info) in
  lift (raise_if (negb (bool_decide (driver = "local")))
    (bad_request SandboxErrorCodes.PVC_SUBPATH_UNSUPPORTED_DRIVER
       ("Volume '" +:+ vol_name volume
        +:+ "': subPath is only supported for Docker named volumes using the 'local' driver, but volume '"
        +:+ volume_name +:+ "' uses driver '" +:+ driver +:+ "'.")));;
  let mountpoint := default EmptyString (vi_mountpoint vol_info) in
  lift (raise_if (negb (truthy mountpoint))
    (bad_request SandboxErrorCodes.PVC_SUBPATH_UNSUPPORTED_DRIVER
       ("Volume '" +:+ vol_name volume +:+ "': cannot resolve subPath because Docker named volume '"
        +:+ volume_name +:+ "' has no Mountpoint.")));;
  let resolved_path := normpath (path_join mountpoint sub) in
  lift (raise_if (negb (within mountpoint resolved_path)) (pvc_escape volume "."));;
  catch is_os_error
    (canonical_mountpoint ← call (realpath mountpoint);
     canonical_resolved ← call (realpath resolved_path);
     lift (raise_if (negb (within canonical_mountpoint canonical_resolved))
       (pvc_escape volume " after symlink resolution.")))
    (λ _, mret tt).

Definition validate_pvc_volume (volume : Volume) (p : PVC) : MW E VolumeInfo :=
  let volume_name := claim_name p in
  vol_info ← catch is_docker_exn (call (inspect_volume volume_name))
    (λ exc,
       if is_docker_not_found exc then
         raise (bad_request SandboxErrorCodes.PVC_VOLUME_NOT_FOUND
           ("Volume '" +:+ vol_name volume +:+ "': Docker named volume '" +:+ volume_name
            +:+ "' does not exist. Named volumes must be created before sandbox creation (e.g., 'docker volume create <name>')."))
       else
         raise (internal_error SandboxErrorCodes.PVC_VOLUME_INSPECT_FAILED
           ("Volume '" +:+ vol_name volume +:+ "': failed to inspect Docker named volume '" +:+ volume_name
            +:+ "': " +:+ exn_text exc)));
  (match sub_path volume with
   | Some ((String _ _) as sub) => validate_pvc_sub_path volume volume_name sub vol_info
   | _ => mret tt
   end);;
  mret vol_info.

Fixpoint validate_volumes_loop (volumes : list Volume) (cache : dict VolumeInfo)
    : MW E (dict VolumeInfo) :=
  match volumes with
  | [] => mret cache
  | volume :: rest =>
      cache' ←
        match vol_host volume with
        | Some h => validate_host_volume volume h allowed_prefixes;; mret cache
        | None =>
            match vol_pvc volume with
            | Some p => vol_info ← validate_pvc_volume volume p; mret (dset (claim_name p) vol_info cache)
            | None =>
                match vol_ossfs volume with
                | Some o => lift (validate_ossfs_volume storage false volume o);; mret cache
                | None => mret cache
                end
            end
        end;
      validate_volumes_loop rest cache'
  end.

Definition validate_volumes (request : CreateSandboxRequest) : MW E (dict VolumeInfo) :=
  match volumes request with
  | None | Some [] => mret []
  | Some vols =>
      lift (ensure_volumes_valid (Some vols) allowed_prefixes);;
      validate_volumes_loop vols []
  end.

(** ** Binds *)

Definition bind_mode (volume : Volume) : string := if read_only volume then "ro" else "rw".

Definition bind_spec (source : string) (volume : Volume) : string :=
  source +:+ ":" +:+ mount_path volume +:+ ":" +:+ bind_mode volume.

(** The source of the bind of one volume, if it has a backend. *)
Definition bind_source (cache : dict VolumeInfo) (volume : Volume) : result (option string) :=
  match vol_host volume with
  | Some h => Ok (Some (resolved_host_path volume h))
  | None =>
      match vol_pvc volume with
      | Some p =>
          match sub_path volume with
          | Some ((String _ _) as sub) =>
              let mountpoint := default EmptyString (dget (claim_name p) cache ≫= vi_mountpoint) in
              Ok (Some (normpath (path_join mountpoint sub)))
          | _ => Ok (Some (claim_name p))
          end
      | None =>
          match vol_ossfs volume with
          | Some o => '(_, host_path) ← resolve_ossfs_paths storage volume o; Ok (Some host_path)
          | None => Ok None
          end
      end
  end.

Fixpoint build_binds_loop (cache : dict VolumeInfo) (volumes : list Volume) : result (list string) :=
  match volumes with
  | [] => Ok []
  | volume :: rest =>
      source ← bind_source cache volume;
      binds ← build_binds_loop cache rest;
      Ok (match source with Some s => bind_spec s volume :: binds | None => binds end)
  end.

Definition build_volume_binds (volumes : option (list Volume)) (pvc_inspect_cache : dict VolumeInfo)
    : result (list string) :=
  match volumes with
  | None => Ok []
  | Some vols => build_binds_loop pvc_inspect_cache vols
  end.

End volumes.

(** ** What reaches Docker *)

Section confined.
Context {E : Type} `{HostEnv E} (storage : StorageConfig).

Definition host_checked (v : Volume) : Prop :=
  ∀ h prefixes, vol_host v = Some h → allowed_prefixes storage = Some prefixes →
    resolved_host_path v h ≠ host_path h →
    ensure_valid_host_path (resolved_host_path v h) (Some prefixes) = Ok tt.

Lemma validate_host_volume_Ok v h w w' :
  vol_host v = Some h →
  validate_host_volume (E:=E) v h (allowed_prefixes storage) w = (Ok tt, w') → host_checked v.
Proof.
  intros Hh Hv h' prefixes Hh' Hp Hne. rewrite Hh in Hh'. injection Hh' as <-. revert Hv.
  unfold validate_host_volume. cbv zeta. rewrite Hp. destruct prefixes as [|q qs].
  { unfold allowed_prefixes in Hp. by destruct (allowed_host_paths storage). }
  rewrite bool_decide_eq_false_2 by done. cbn [negb]. intros ([]&s1&Hl&_)%M_bind_Ok.
  unfold lift in Hl. by injection Hl.
Qed.

Definition pvc_cached (cache : dict VolumeInfo) (v : Volume) : Prop :=
  ∀ p, vol_host v = None → vol_pvc v = Some p → is_Some (dget (claim_name p) cache).

Lemma pvc_cached_mono cache cache' v :
  (∀ k, is_Some (dget k cache) → is_Some (dget k cache')) → pvc_cached cache v → pvc_cached cache' v.
Proof. intros Hc Hv p ??. by apply Hc, Hv. Qed.

Lemma validate_volumes_loop_Ok vols cache w cache' w' :
  validate_volumes_loop (E:=E) storage vols cache w = (Ok cache', w') →
  (∀ k, is_Some (dget k cache) → is_Some (dget k cache')) ∧
  Forall (λ v, host_checked v ∧ pvc_cached cache' v) vols.
Proof.
  revert cache w. induction vols as [|v vols IH]; cbn [validate_volumes_loop]; intros cache w.
  { intros [= <- <-]. by split. }
  intros (c1&w1&Hv&Hrest)%M_bind_Ok. destruct (IH _ _ Hrest) as [Hmono Hall].
  assert (host_checked v ∧ pvc_cached c1 v ∧ (∀ k, is_Some (dget k cache) → is_Some (dget k c1))) as (Hh&Hp&Hc).
  { destruct (vol_host v) as [h|] eqn:Eh.
    - apply M_bind_Ok in Hv as ([]&w2&Hv&[= <- _]). split_and!; [by eapply validate_host_volume_Ok| |done].
      intros p. by rewrite Eh.
    - split; [intros h pr; by rewrite Eh|]. destruct (vol_pvc v) as [p|] eqn:Ep.
      + apply M_bind_Ok in Hv as (info&w2&_&[= <- _]). split.
        * intros p' _. rewrite Ep. intros [= <-]. rewrite dget_set_eq. eauto.
        * intros k Hk. rewrite dget_set. case_decide; eauto.
      + assert (c1 = cache) as ->.
        { destruct (vol_ossfs v); [apply M_bind_Ok in Hv as ([]&w2&_&[= <- _])|injection Hv as <-]; done. }
        split; [intros p _; by rewrite Ep|done]. }
  split; [auto|]. constructor; [|done]. split; [done|]. by eapply pvc_cached_mono.
Qed.

(** Where the data of a volume may come from. *)
Definition source_confined (cache : dict VolumeInfo) (v : Volume) (src : string) : Prop :=
  (∀ h prefixes, vol_host v = Some h → allowed_prefixes storage = Some prefixes →
     host_path_allowed src prefixes = true) ∧
  (∀ p, vol_pvc v = Some p →
     match sub_path v with
     | Some ((String _ _) as sub) =>
         ∃ info, dget (claim_name p) cache = Some info ∧
           let mountpoint := default EmptyString (vi_mountpoint info) in
           startswith mountpoint "/" = true → path_under (normpath mountpoint) src
     | _ => src = claim_name p
     end) ∧
  (∀ o, vol_ossfs v = Some o → path_under (ossfs_bucket_root storage (bucket o)) src).

Lemma bind_source_confined cache v src :
  volume_admissible (allowed_prefixes storage) v → host_checked v → pvc_cached cache v →
  bind_source storage cache v = Ok src → ∃ s, src = Some s ∧ source_confined cache v s.
Proof.
  intros Hadm Hh Hp. pose proof (va_backend _ _ Hadm) as Hone. unfold count_backends in Hone.
  unfold bind_source. destruct (vol_host v) as [h|] eqn:Eh.
  - intros [= <-]. eexists. split; [done|]. split_and!.
    + intros h' prefixes Eh' Hpre. rewrite Eh in Eh'. injection Eh' as <-. destruct (decide (resolved_host_path v h = host_path h)) as [->|Hne].
      * destruct (va_host _ _ Hadm h Eh) as (_&_&_&_&Hal). by apply host_path_allowed_true, Hal.
      * specialize (Hh h prefixes Eh Hpre Hne). apply ensure_valid_host_path_Ok in Hh as (_&_&Hal). by apply Hal.
    + intros p Ep. rewrite Ep in Hone. destruct (vol_ossfs v); lia.
    + intros o Eo. rewrite Eo in Hone. destruct (vol_pvc v); lia.
  - destruct (vol_pvc v) as [p|] eqn:Ep.
    + assert (vol_ossfs v = None) as Eo by (destruct (vol_ossfs v); [lia|done]).
      destruct (Hp p Eh Ep) as [info Hinfo]. pose proof (va_sub _ _ Hadm) as Hsub.
      destruct (sub_path v) as [[|ch sub]|] eqn:Es; intros [= <-]; (eexists; split; [done|]); split_and!;
        rewrite ?Eh, ?Ep, ?Eo; try done; intros p' [= <-]; rewrite Es; try done.
      exists info. split; [done|]. cbv zeta. rewrite Hinfo. cbn [mbind option_bind]. intros Hmp.
      destruct Hsub as [?|[Hrel Hdd]]; [done|]. by apply normpath_join_under.
    + destruct (vol_ossfs v) as [o|] eqn:Eo; [|done].
      intros ([q q']&Hres&[= <-])%result_bind_Ok. eexists. split; [done|].
      apply resolve_ossfs_paths_Ok in Hres as (->&_&_&Hu).
      split_and!; rewrite ?Eh, ?Ep, ?Eo; try done. by intros o' [= <-].
Qed.

(** C3: if the volumes of a request pass [_validate_volumes], every bind that
    [_build_volume_binds] makes of them has a confined source: a host path
    (sub path included) is under the allow list, a sub path of a named volume
    stays below the mount point Docker reported, an OSSFS path below the
    directory of its bucket; target and mode are those of the volume. *)
Theorem validated_binds_confined request w cache w' vols binds :
  volumes request = Some vols →
  validate_volumes (E:=E) storage request w = (Ok cache, w') →
  build_volume_binds storage (volumes request) cache = Ok binds →
  Forall2 (λ v b, ∃ src, b = src +:+ ":" +:+ mount_path v +:+ ":" +:+ (if read_only v then "ro" else "rw")
                         ∧ source_confined cache v src) vols binds.
Proof.
  intros Hvols. unfold validate_volumes, build_volume_binds. rewrite Hvols.
  destruct vols as [|v0 vols0]; [by intros _ [= <-]|]. set (vols := v0 :: vols0) in *.
  intros ([]&w1&Hl&[_ Hall]%validate_volumes_loop_Ok)%M_bind_Ok. apply (f_equal fst) in Hl.
  apply (proj1 (ensure_volumes_loop_Ok (allowed_prefixes storage) [] vols)) in Hl as (_&_&Hadm). clearbody vols. clear Hvols.
  revert binds. induction vols as [|v vols IH]; cbn [build_binds_loop]; intros binds; [by intros [= <-]|].
  apply Forall_cons in Hall as [[Hh Hp] Hall]. apply Forall_cons in Hadm as [Ha Hadm].
  intros (src&Hsrc&(bs&Hbs&[= <-])%result_bind_Ok)%result_bind_Ok.
  destruct (bind_source_confined _ _ _ Ha Hh Hp Hsrc) as (s&->&Hc). constructor; [|by apply IH].
  exists s. by split.
Qed.

End confined.

(** A request with one volume of each kind, and a host that knows the volume. *)
Definition sample_request (vols : list Volume) : CreateSandboxRequest := {|
  image := {| uri := "python:3.11"; auth := None |}; timeout := Some 60%Z; resource_limits := [];
  Schema.env := None; req_metadata := None; entrypoint := ["sleep"; "60"]; network_policy := None;
  volumes := Some vols; extensions := None |}.

Definition sample_volumes : list Volume := [
  {| vol_name := "work"; vol_host := Some {| host_path := "/data/work" |}; vol_pvc := None; vol_ossfs := None;
     mount_path := "/work"; read_only := false; sub_path := Some "a/./b" |};
  {| vol_name := "models"; vol_host := None; vol_pvc := Some {| claim_name := "models" |}; vol_ossfs := None;
     mount_path := "/models"; read_only := true; sub_path := Some "v1" |};
  sample_volume "my-bucket" None ].

Definition plain_world : World Sim := {| svc := empty_service; DockerHost.env := sim_init |}.

Definition sample_binds : list string :=
  ["/data/work/a/b:/work:rw"; "/var/lib/docker/volumes/v/_data/v1:/models:ro"; "/mnt/ossfs/my-bucket:/data:rw"].

Lemma validated_binds_confined_witness :
  ∃ cache, Forall2 (λ v b, ∃ src, b = src +:+ ":" +:+ mount_path v +:+ ":" +:+ (if read_only v then "ro" else "rw")
                         ∧ source_confined sample_storage cache v src) sample_volumes sample_binds.
Proof.
  destruct (validate_volumes sample_storage (sample_request sample_volumes) plain_world) as [[cache|x] w'] eqn:Hv;
    [|vm_compute in Hv; discriminate].
  exists cache.
  apply (validated_binds_confined sample_storage (sample_request sample_volumes) plain_world cache w'
    sample_volumes sample_binds); [reflexivity|exact Hv|].
  vm_compute in Hv. injection Hv as <- _. vm_compute. reflexivity.
Defined.

(** ** Buckets that are paths

    [OSSFS.bucket] is only required to have 3 to 63 characters when a request is
    accepted; [_validate_bucket_name] runs when a mount command is built.  For a
    bucket of the form [../..] the path resolves to the root directory, which is
    a mount point, so that no mount command is built. *)
Definition escaping_volume : Volume := sample_volume "../../" None.

Theorem ossfs_bucket_escape :
  volume_fields_ok escaping_volume = true ∧
  (let '(r, w') := validate_volumes sample_storage (sample_request [escaping_volume]) plain_world in
   r = Ok [] ∧
   let '(keys, _) := prepare_ossfs_mounts sample_storage (Some [escaping_volume]) w' in
   keys = Ok ["/"]) ∧
  build_volume_binds sample_storage (Some [escaping_volume]) [] = Ok ["/:/data:rw"] ∧
  ¬ path_under (ossfs_mount_root sample_storage) "/" ∧
  host_path_allowed "/" (allowed_host_paths sample_storage) = false.
Proof. vm_compute. split_and!; try reflexivity. by intros [?|?]. Qed.
