(* ===== verification/DockerProvision.v ===== *)
(** * Creating Docker sandboxes ([server/src/services/docker.py])

    Labels, environment, host configuration and ports of a new sandbox; the
    egress side car; the container with its roll back; provisioning in the
    request or in the background, and the table of pending sandboxes. *)

From Stdlib Require Import Ascii.
From S2P Require Import Prelude PyString Paths PyDict PyTime Json Regex Schema Validators.
From S2P Require Import Config RuntimeResolver Helpers Shlex Common DockerHost Ossfs DockerExpiry DockerVolumes.
Open Scope string_scope.
Open Scope list_scope.

Definition OPENSANDBOX_DIR : string := "/opt/opensandbox".
Definition EXECED_INSTALL_PATH : string := path_join OPENSANDBOX_DIR "execd".
Definition BOOTSTRAP_PATH : string := path_join OPENSANDBOX_DIR "bootstrap.sh".
Definition HOST_NETWORK_MODE : string := "host".
Definition BRIDGE_NETWORK_MODE : string := "bridge".
Definition EGRESS_RULES_ENV : string := "OPENSANDBOX_EGRESS_RULES".

Section provision.
Context {E : Type} `{HostEnv E} (cfg : AppConfig).

Definition service_network_mode : string :=
  lower (if truthy (network_mode (docker cfg)) then network_mode (docker cfg) else HOST_NETWORK_MODE).

Definition is_user_defined_network : bool :=
  negb (one_of service_network_mode [HOST_NETWORK_MODE; BRIDGE_NETWORK_MODE; "none"])
  && negb (startswith service_network_mode "container:").

(** [self.docker_runtime] *)
Definition service_docker_runtime : option string := get_docker_runtime (make_resolver cfg).

Definition egress_image_of : option string := egress_config cfg ≫= egress_image.

(** ** Labels, environment, limits *)

(** [n] is the current time. *)
Definition build_labels (n : datetime) (sandbox_id : string) (request : CreateSandboxRequest)
    (expires_at : option datetime) : dict string :=
  let labels := dupdate [] (default [] (req_metadata request)) in
  let labels := dset SANDBOX_ID_LABEL sandbox_id labels in
  let labels := dset SANDBOX_LAST_ACTIVITY_AT_LABEL (isoformat n) labels in
  match expires_at with
  | None => dset SANDBOX_MANUAL_CLEANUP_LABEL "true" labels
  | Some e => dset SANDBOX_EXPIRES_AT_LABEL (isoformat e) labels
  end.

Definition build_env (request : CreateSandboxRequest) : list string :=
  omap (λ '(key, value), match value with Some v => Some (key +:+ "=" +:+ v) | None => None end)
    (default [] (Schema.env request)).

Definition build_labels_and_env (sandbox_id : string) (request : CreateSandboxRequest)
    (expires_at : option datetime) : MW E (dict string * list string) :=
  n ← now; mret (build_labels n sandbox_id request expires_at, build_env request).

Definition pull_image (image_uri : string) (auth_config : option ImageAuth) : MW E unit :=
  catch is_docker_exn (call (images_pull image_uri auth_config))
    (λ exc, raise (internal_error SandboxErrorCodes.IMAGE_PULL_FAILED
       ("Failed to pull image " +:+ image_uri +:+ ": " +:+ exn_text exc))).

Definition ensure_image_available (image_uri : string) (auth_config : option ImageAuth) : MW E unit :=
  catch is_docker_exn (call (images_get image_uri))
    (λ exc,
       if is_image_not_found exc then pull_image image_uri auth_config
       else raise (internal_error SandboxErrorCodes.IMAGE_PULL_FAILED
              ("Failed to inspect image " +:+ image_uri +:+ ": " +:+ exn_text exc))).

Definition resolve_image_auth (request : CreateSandboxRequest) : MW E (string * option ImageAuth) :=
  let image_uri := uri (image request) in
  let auth_config := auth (image request) in
  ensure_image_available image_uri auth_config;; mret (image_uri, auth_config).

Definition resolve_resource_limits (request : CreateSandboxRequest) : result (option Z * option Z) :=
  mem_limit ← parse_memory_limit (dget "memory" (resource_limits request));
  nano_cpus ← parse_nano_cpus (dget "cpu" (resource_limits request));
  Ok (mem_limit, nano_cpus).

Definition nonzero (o : option Z) : option Z :=
  match o with Some n => if (n =? 0)%Z then None else Some n | None => None end.

(** [if o: d[key] = o] *)
Definition dset_opt {V} (key : string) (o : option V) (d : dict V) : dict V :=
  match o with Some v => dset key v d | None => d end.

Definition security_opts : list string :=
  (if no_new_privileges (docker cfg) then ["no-new-privileges:true"] else [])
  ++ (if truthy_opt (apparmor_profile (docker cfg))
      then ["apparmor=" +:+ or_else (apparmor_profile (docker cfg)) EmptyString] else [])
  ++ (if truthy_opt (seccomp_profile (docker cfg))
      then ["seccomp=" +:+ or_else (seccomp_profile (docker cfg)) EmptyString] else []).

Definition base_host_config_kwargs (mem_limit nano_cpus : option Z) (network_mode : string) : dict hvalue :=
  let kw := [("network_mode", HStr network_mode)] in
  let kw := match security_opts with [] => kw | l => dset "security_opt" (HList l) kw end in
  let kw := match drop_capabilities (docker cfg) with [] => kw | l => dset "cap_drop" (HList l) kw end in
  let kw := dset_opt "pids_limit" (HInt <$> pids_limit (docker cfg)) kw in
  let kw := dset_opt "mem_limit" (HInt <$> nonzero mem_limit) kw in
  let kw := dset_opt "nano_cpus" (HInt <$> nonzero nano_cpus) kw in
  if truthy_opt service_docker_runtime
  then dset "runtime" (HStr (or_else service_docker_runtime EmptyString)) kw else kw.

(** ** Ports *)

Fixpoint allocate_host_port_loop (min_port max_port : Z) (attempts : nat) : MW E (option Z) :=
  match attempts with
  | O => mret None
  | S n =>
      port ← query (randint min_port max_port);
      free ← catch is_os_error (call (bind_port port);; mret true) (λ _, mret false);
      if free : bool then mret (Some port) else allocate_host_port_loop min_port max_port n
  end.

Definition allocate_host_port : MW E (option Z) := allocate_host_port_loop 40000 60000 50.

Definition no_ports (what : string) : exn :=
  internal_error SandboxErrorCodes.CONTAINER_START_FAILED
    ("Failed to allocate " +:+ what +:+ "host ports for sandbox container.").

(** [while host_http_port == host_execd_port]: the loop has no bound in the code;
    the model stops after [fuel] draws that repeat the port. *)
Fixpoint distinct_port_loop (fuel : nat) (host_execd_port host_http_port : Z) : MW E (Z * Z) :=
  if negb (host_http_port =? host_execd_port)%Z then mret (host_execd_port, host_http_port) else
  match fuel with
  | O => raise (PyException RuntimeError "out of fuel")
  | S f =>
      next ← allocate_host_port;
      match next with
      | None => raise (no_ports "distinct ")
      | Some p => distinct_port_loop f host_execd_port p
      end
  end.

Definition port_fuel : nat := 1000.

Definition allocate_distinct_host_ports : MW E (Z * Z) :=
  execd ← allocate_host_port;
  http ← allocate_host_port;
  match execd, http with
  | Some host_execd_port, Some host_http_port => distinct_port_loop port_fuel host_execd_port host_http_port
  | _, _ => raise (no_ports EmptyString)
  end.

Definition port_bindings (host_execd_port host_http_port : Z) : list (string * (string * Z)) :=
  [("44772", ("0.0.0.0", host_execd_port)); ("8080", ("0.0.0.0", host_http_port))].

(** ** Execd *)

(** Fetch and memoize the execd archive.  The container that a failing [start]
    leaves behind is outside of the [try] with the clean up. *)
Definition fetch_execd_archive : MW E string :=
  cached ← get_svc execd_archive_cache;
  match cached with
  | Some data => mret data
  | None =>
      container ← catch is_docker_exn
        (catch is_image_not_found (call (images_get (execd_image (runtime cfg))))
           (λ _, call (images_pull (execd_image (runtime cfg)) None));;
         hex ← query uuid4;
         c ← call (containers_create {|
               spec_image := execd_image (runtime cfg); spec_name := "sandbox-execd-" +:+ uuid_str hex;
               spec_entrypoint := None; spec_command := Some ["tail"; "-f"; "/dev/null"];
               spec_ports := None; spec_environment := []; spec_labels := []; spec_host_config := [] |});
         call (container_start (c_id c));;
         call (container_reload (c_id c));;
         mret c)
        (λ exc, raise (HTTPException 503 SandboxErrorCodes.EXECD_START_FAILED
           ("Failed to start execd container: " +:+ exn_text exc)));
      data ← try_finally
        (catch is_docker_exn (call (get_archive (c_id container) "/execd"))
           (λ exc, raise (internal_error SandboxErrorCodes.EXECD_DISTRIBUTION_FAILED
              ("Failed to read execd artifacts: " +:+ exn_text exc))))
        (remove_container_quietly container);
      put_svc (set_archive (Some data));;
      mret data
  end.

Definition ensure_directory (container : Container) (path : string) : MW E unit :=
  if negb (truthy path) || bool_decide (path = "/") then mret tt else
  let normalized_path := rstrip_by is_slash path in
  if negb (truthy normalized_path) then mret tt else
  us ← query clock;
  catch is_docker_exn
    (call (put_archive (c_id container) "/"
       (TarDir (lstrip_by is_slash normalized_path) 493 (unix_seconds us))))
    (λ exc, raise (internal_error SandboxErrorCodes.EXECD_DISTRIBUTION_FAILED
       ("Failed to create directory " +:+ path +:+ " in sandbox: " +:+ exn_text exc))).

Definition copy_execd_to_container (container : Container) : MW E unit :=
  data ← fetch_execd_archive;
  ensure_directory container OPENSANDBOX_DIR;;
  catch is_docker_exn (call (put_archive (c_id container) OPENSANDBOX_DIR (RawArchive data)))
    (λ exc, raise (internal_error SandboxErrorCodes.EXECD_DISTRIBUTION_FAILED
       ("Failed to copy execd into sandbox: " +:+ exn_text exc))).

Definition bootstrap_script : string :=
  join newline ["#!/bin/sh"; "set -e"; EXECED_INSTALL_PATH +:+ " >/tmp/execd.log 2>&1 &";
                "exec " +:+ dquote +:+ "$@" +:+ dquote; EmptyString].

Definition install_bootstrap_script (container : Container) : MW E unit :=
  ensure_directory container OPENSANDBOX_DIR;;
  us ← query clock;
  catch is_docker_exn
    (call (put_archive (c_id container) "/"
       (TarFile (lstrip_by is_slash BOOTSTRAP_PATH) 493 (unix_seconds us) bootstrap_script)))
    (λ exc, raise (internal_error SandboxErrorCodes.BOOTSTRAP_INSTALL_FAILED
       ("Failed to install bootstrap launcher: " +:+ exn_text exc))).

Definition prepare_sandbox_runtime (container : Container) : MW E unit :=
  copy_execd_to_container container;; install_bootstrap_script container.

(** ** Containers *)

(** [try: remove(id) except DockerException: log] *)
Definition remove_id_quietly (id : string) : MW E unit :=
  catch is_docker_exn (call (container_remove id)) (λ _, mret tt).

(** [if isinstance(exc, HTTPException): raise exc], else a 500. *)
Definition as_http (message : exn → string) (exc : exn) : exn :=
  if is_http exc then exc
  else internal_error SandboxErrorCodes.CONTAINER_START_FAILED (message exc).

(** Create a container and run [start] on it; when anything fails after Docker
    has returned an identifier, the container is removed. *)
Definition create_then (spec : ContainerSpec) (missing : string) (message : exn → string)
    (start : Container → MW E unit) : MW E Container :=
  id ← try_except (call (create_container spec)) (λ e, raise (as_http message e));
  match id with
  | Some ((String _ _) as container_id) =>
      container ← try_except (call (containers_get container_id))
        (λ e, remove_id_quietly container_id;; raise (as_http message e));
      try_except (start container;; mret container)
        (λ e, remove_id_quietly (c_id container);; raise (as_http message e))
  | _ => raise (internal_error SandboxErrorCodes.CONTAINER_START_FAILED missing)
  end.

Definition start_egress_sidecar (sandbox_id : string) (policy : NetworkPolicy) (egress_token : string)
    (host_execd_port host_http_port : Z) : MW E Container :=
  match egress_image_of with
  | Some ((String _ _) as image) =>
      ensure_image_available image None;;
      let host_config :=
        [("network_mode", HStr BRIDGE_NETWORK_MODE); ("cap_add", HList ["NET_ADMIN"]);
         ("port_bindings", HPorts (port_bindings host_execd_port host_http_port));
         ("sysctls", HSysctls [("net.ipv6.conf.all.disable_ipv6", 1%Z);
                               ("net.ipv6.conf.default.disable_ipv6", 1%Z);
                               ("net.ipv6.conf.lo.disable_ipv6", 1%Z)])] in
      call (create_host_config host_config);;
      create_then {|
           spec_image := image; spec_name := "sandbox-egress-" +:+ sandbox_id;
           spec_entrypoint := None; spec_command := None; spec_ports := Some ["44772"; "8080"];
           spec_environment := [EGRESS_RULES_ENV +:+ "=" +:+ dumps_policy policy;
                                "OPENSANDBOX_EGRESS_TOKEN=" +:+ egress_token];
           spec_labels := [(EGRESS_SIDECAR_LABEL, sandbox_id)];
           spec_host_config := host_config |}
        "Docker did not return an egress sidecar container ID."
        (λ _, "Egress sidecar container failed to start.")
        (λ c, call (container_start (c_id c)))
  | _ => raise (value_error "egress.image must be configured when networkPolicy is provided.")
  end.

Definition normalize_command (bootstrap_command : list string) : result (list string) :=
  match bootstrap_command with
  | [cmd] =>
      if has_char " " cmd then
        match shlex_split cmd with
        | Some l => Ok l
        | None => Raise (value_error "No closing quotation")
        end
      else Ok bootstrap_command
  | _ => Ok bootstrap_command
  end.

Definition create_and_start_container (sandbox_id image_uri : string) (bootstrap_command : list string)
    (labels : dict string) (environment : list string) (host_config_kwargs : dict hvalue)
    (exposed_ports : option (list string)) : MW E Container :=
  command ← lift (normalize_command bootstrap_command);
  call (create_host_config host_config_kwargs);;
  create_then {|
       spec_image := image_uri; spec_name := "sandbox-" +:+ sandbox_id;
       spec_entrypoint := Some [BOOTSTRAP_PATH]; spec_command := Some command;
       spec_ports := exposed_ports; spec_environment := environment; spec_labels := labels;
       spec_host_config := host_config_kwargs |}
    "Docker did not return a container ID."
    (λ exc, "Failed to create or start container: " +:+ exn_text exc)
    (λ c, prepare_sandbox_runtime c;; call (container_start (c_id c))).

(** ** Provisioning *)

(** [labels[...] = str(port)] for both ports. *)
Definition port_labels (host_execd_port host_http_port : Z) (labels : dict string) : dict string :=
  dset SANDBOX_HTTP_PORT_LABEL (str_of_Z host_http_port)
    (dset SANDBOX_EMBEDDING_PROXY_PORT_LABEL (str_of_Z host_execd_port) labels).

(** [cap_drop = set(...); cap_drop.add("NET_ADMIN")], as a list. *)
Definition drop_net_admin (kw : dict hvalue) : dict hvalue :=
  let caps := match dget "cap_drop" kw with Some (HList l) => l | _ => [] end in
  dset "cap_drop" (HList (remove_dups (caps ++ ["NET_ADMIN"]))) kw.

Definition with_binds (volume_binds : list string) (kw : dict hvalue) : dict hvalue :=
  match volume_binds with [] => kw | l => dset "binds" (HList l) kw end.

(** What the first part of the [try] of [_provision_sandbox] has prepared. *)
Record Prepared := {
  prep_sidecar : option Container;
  prep_labels : dict string;
  prep_kwargs : dict hvalue;
  prep_ports : option (list string) }.

(** The [try] up to the call of [_create_and_start_container]: when it raises,
    [sidecar_container] is still [None]. *)
Definition prepare_container (sandbox_id : string) (request : CreateSandboxRequest)
    (pvc_inspect_cache : dict VolumeInfo) (labels : dict string) (mem_limit nano_cpus : option Z)
    : MW E Prepared :=
  volume_binds ← lift (build_volume_binds (storage cfg) (volumes request) pvc_inspect_cache);
  match network_policy request with
  | Some policy =>
      egress_token ← query token_urlsafe;
      let labels := dset SANDBOX_EGRESS_AUTH_TOKEN_METADATA_KEY egress_token labels in
      '(host_execd_port, host_http_port) ← allocate_distinct_host_ports;
      sidecar ← start_egress_sidecar sandbox_id policy egress_token host_execd_port host_http_port;
      let kw := base_host_config_kwargs mem_limit nano_cpus ("container:" +:+ c_id sidecar) in
      mret {| prep_sidecar := Some sidecar; prep_labels := port_labels host_execd_port host_http_port labels;
              prep_kwargs := with_binds volume_binds (drop_net_admin kw); prep_ports := None |}
  | None =>
      let kw := base_host_config_kwargs mem_limit nano_cpus service_network_mode in
      if negb (bool_decide (service_network_mode = HOST_NETWORK_MODE)) then
        '(host_execd_port, host_http_port) ← allocate_distinct_host_ports;
        let kw := dset "port_bindings" (HPorts (port_bindings host_execd_port host_http_port)) kw in
        mret {| prep_sidecar := None; prep_labels := port_labels host_execd_port host_http_port labels;
                prep_kwargs := with_binds volume_binds kw; prep_ports := Some ["44772"; "8080"] |}
      else
        mret {| prep_sidecar := None; prep_labels := labels; prep_kwargs := with_binds volume_binds kw;
                prep_ports := None |}
  end.

(** [except Exception]: remove the side car, release the mounts, raise again. *)
Definition provision_rollback (sidecar : option Container) (ossfs_mount_keys : list string) {A} (e : exn)
    : MW E A :=
  (match sidecar with Some c => remove_container_quietly c | None => mret tt end);;
  release_ossfs_mounts ossfs_mount_keys;;
  raise e.

Definition with_mounts_label (keys : list string) (labels : dict string) : dict string :=
  match keys with [] => labels | _ => dset SANDBOX_OSSFS_MOUNTS_LABEL (dumps_list keys) labels end.

(** The [try] of [_provision_sandbox]. *)
Definition provision_container (sandbox_id : string) (request : CreateSandboxRequest)
    (pvc_inspect_cache : dict VolumeInfo) (labels : dict string) (environment : list string)
    (image_uri : string) (mem_limit nano_cpus : option Z) (ossfs_mount_keys : list string) : MW E unit :=
  prep ← try_except
    (prepare_container sandbox_id request pvc_inspect_cache labels mem_limit nano_cpus)
    (provision_rollback None ossfs_mount_keys);
  try_except
    (create_and_start_container sandbox_id image_uri (entrypoint request) (prep_labels prep) environment
       (prep_kwargs prep) (prep_ports prep);; mret tt)
    (provision_rollback (prep_sidecar prep) ossfs_mount_keys).

Definition provision_sandbox (sandbox_id : string) (request : CreateSandboxRequest) (created_at : datetime)
    (expires_at : option datetime) (pvc_inspect_cache : dict VolumeInfo) : MW E CreateSandboxResponse :=
  '(labels, environment) ← build_labels_and_env sandbox_id request expires_at;
  '(image_uri, _) ← resolve_image_auth request;
  '(mem_limit, nano_cpus) ← lift (resolve_resource_limits request);
  ossfs_mount_keys ← prepare_ossfs_mounts (storage cfg) (volumes request);
  provision_container sandbox_id request pvc_inspect_cache (with_mounts_label ossfs_mount_keys labels)
    environment image_uri mem_limit nano_cpus ossfs_mount_keys;;
  (match expires_at with
   | Some t => schedule_expiration sandbox_id t true None
   | None => mret tt
   end);;
  mret {| resp_id := sandbox_id;
          resp_status := {| state := "Running"; reason := Some "CONTAINER_RUNNING";
                            status_message := Some "Sandbox container started successfully.";
                            last_transition_at := Some created_at |};
          resp_metadata := req_metadata request; resp_expires_at := expires_at;
          resp_created_at := created_at; resp_entrypoint := entrypoint request |}.

(** ** Requests *)

Definition validate_network_exists : MW E unit :=
  if negb is_user_defined_network then mret tt else
  catch is_docker_exn (call (networks_get service_network_mode))
    (λ exc,
       if is_docker_not_found exc then
         raise (bad_request SandboxErrorCodes.INVALID_PARAMETER
           ("Docker network '" +:+ service_network_mode
            +:+ "' does not exist. Create it first with 'docker network create <name>'."))
       else
         raise (internal_error SandboxErrorCodes.CONTAINER_START_FAILED
           ("Failed to inspect Docker network '" +:+ service_network_mode +:+ "': " +:+ exn_text exc))).

Definition ensure_network_policy_support (request : CreateSandboxRequest) : result unit :=
  match network_policy request with
  | None => Ok tt
  | Some _ =>
      raise_if (bool_decide (service_network_mode = HOST_NETWORK_MODE))
        (bad_request SandboxErrorCodes.INVALID_PARAMETER
           "networkPolicy is not supported when docker network_mode=host.");;
      raise_if is_user_defined_network
        (bad_request SandboxErrorCodes.INVALID_PARAMETER
           ("networkPolicy is not supported when docker network_mode='" +:+ service_network_mode
            +:+ "' (user-defined network). Use network_mode='bridge' to enable network policy enforcement."));;
      ensure_egress_configured (network_policy request) egress_image_of
  end.

Definition prepare_creation_context (request : CreateSandboxRequest)
    : MW E (string * datetime * option datetime) :=
  hex ← query uuid4;
  created_at ← now;
  expires_at ← match timeout request with
               | None => mret None
               | Some t => e ← lift (calculate_expiration_or_raise created_at t); mret (Some e)
               end;
  mret (uuid_str hex, created_at, expires_at).

(** The checks that [create_sandbox] and [create_sandbox_async] share. *)
Definition validate_create (request : CreateSandboxRequest) : MW E (dict VolumeInfo) :=
  lift (ensure_entrypoint (entrypoint request));;
  lift (ensure_metadata_labels (req_metadata request));;
  (match timeout request with
   | None => mret tt
   | Some _ =>
       n ← now;
       lift (ensure_timeout_within_limit n (timeout request) (max_sandbox_timeout_seconds (server cfg)))
   end);;
  lift (ensure_network_policy_support request);;
  validate_network_exists;;
  validate_volumes (storage cfg) request.

Definition create_sandbox (request : CreateSandboxRequest) : MW E CreateSandboxResponse :=
  pvc_inspect_cache ← validate_create request;
  '(sandbox_id, created_at, expires_at) ← prepare_creation_context request;
  provision_sandbox sandbox_id request created_at expires_at pvc_inspect_cache.

End provision.
