(* ===== verification/DockerPending.v ===== *)
(** * Background provisioning of Docker sandboxes ([server/src/services/docker.py])

    [create_sandbox_async] registers a pending record and starts a worker thread;
    the worker settles the record. *)

From S2P Require Import Prelude PyString PyDict PyTime Json Schema Validators Config Helpers.
From S2P Require Import Shlex Common DockerHost Ossfs DockerExpiry DockerVolumes DockerProvision.
Open Scope string_scope.
Open Scope list_scope.

(** The section of [_schedule_pending_cleanup] under [_pending_lock]. *)
Definition install_pending_timer (sandbox_id : string) (timer : Timer) (s : Service) : Service :=
  set_pending_timers (<[sandbox_id := length (timers s)]>)
    (λ ts, cancel_opt (pending_cleanup_timers s !! sandbox_id) ts ++ [timer]) s.

(** [_remove_pending_sandbox] *)
Definition drop_pending (sandbox_id : string) (s : Service) : Service :=
  set_pending (dpop sandbox_id)
    (set_pending_timers (delete sandbox_id) (cancel_opt (pending_cleanup_timers s !! sandbox_id)) s).

Definition with_status (p : PendingSandbox) (st : SandboxStatus) : PendingSandbox :=
  {| pend_request := pend_request p; pend_created_at := pend_created_at p;
     pend_expires_at := pend_expires_at p; pend_status := st |}.

(** The arguments of a worker thread. *)
Record ProvisionJob := {
  job_id : string;
  job_request : CreateSandboxRequest;
  job_created_at : datetime;
  job_expires_at : option datetime;
  job_pvc_cache : dict VolumeInfo }.

Section pending.
Context {E : Type} `{HostEnv E} (cfg : AppConfig) (pending_failure_ttl_seconds : Z).

Definition remove_pending_sandbox (sandbox_id : string) : MW E unit := put_svc (drop_pending sandbox_id).

Definition get_pending_sandbox (sandbox_id : string) : MW E (option PendingSandbox) :=
  get_svc (λ s, dget sandbox_id (pending_sandboxes s)).

Definition iter_pending_sandboxes : MW E (list (string * PendingSandbox)) := get_svc pending_sandboxes.

Definition pending_to_sandbox (sandbox_id : string) (pending : PendingSandbox) : Sandbox := {|
  sb_id := sandbox_id; sb_image := image (pend_request pending); sb_status := pend_status pending;
  sb_metadata := req_metadata (pend_request pending); sb_entrypoint := entrypoint (pend_request pending);
  sb_expires_at := pend_expires_at pending; sb_created_at := pend_created_at pending;
  sb_last_activity_at := Some (pend_created_at pending) |}.

Definition mark_pending_failed (sandbox_id message : string) : MW E unit :=
  pending ← get_pending_sandbox sandbox_id;
  match pending with
  | None => mret tt
  | Some p =>
      n ← now;
      put_svc (set_pending (dset sandbox_id (with_status p
        {| state := "Failed"; reason := Some "PROVISIONING_ERROR"; status_message := Some message;
           last_transition_at := Some n |})))
  end.

(** Remove one container that a failed provision left, then release the mounts
    its label names. *)
Definition cleanup_failed_container (container : Container) : MW E unit :=
  let raw := dget_default SANDBOX_OSSFS_MOUNTS_LABEL "[]" (labels_of container) in
  let mount_keys := match loads raw with Some v => v | None => JArr [] end in
  try_finally (remove_container_quietly container)
    (keys ← lift (iter_keys mount_keys); release_ossfs_mounts keys).

Definition cleanup_failed_containers (sandbox_id : string) : MW E unit :=
  listed ← catch is_docker_exn
    (cs ← call (containers_list (LabelEq SANDBOX_ID_LABEL sandbox_id)); mret (Some cs)) (λ _, mret None);
  match listed with
  | None => cleanup_egress_sidecar sandbox_id
  | Some containers =>
      for_eachM cleanup_failed_container containers;;
      cleanup_egress_sidecar sandbox_id
  end.

Definition schedule_pending_cleanup (sandbox_id : string) : MW E unit :=
  us ← query clock;
  put_svc (install_pending_timer sandbox_id
    {| t_deadline := (us + pending_failure_ttl_seconds * us_per_second)%Z;
       t_callback := RemovePending sandbox_id; t_cancelled := false; t_fired := false |}).

(** The message of the pending record after a failure. *)
Definition failure_message (exc : exn) : string :=
  match exc with
  | HTTPException _ _ message => if truthy message then message else "Sandbox provisioning failed."
  | PyException _ message => message
  end.

Definition provision_failed (sandbox_id : string) (exc : exn) : MW E unit :=
  mark_pending_failed sandbox_id (failure_message exc);;
  cleanup_failed_containers sandbox_id;;
  schedule_pending_cleanup sandbox_id.

Definition async_provision_worker (job : ProvisionJob) : MW E unit :=
  provisioned ← try_except
    (provision_sandbox cfg (job_id job) (job_request job) (job_created_at job) (job_expires_at job)
       (job_pvc_cache job);; mret true)
    (λ exc, provision_failed (job_id job) exc;; mret false);
  if provisioned : bool then remove_pending_sandbox (job_id job) else mret tt.

Definition create_sandbox_async (request : CreateSandboxRequest) : MW E (CreateSandboxResponse * ProvisionJob) :=
  pvc_inspect_cache ← validate_create cfg request;
  '(sandbox_id, created_at, expires_at) ← prepare_creation_context request;
  let pending_status := {| state := "Pending"; reason := Some "PROVISIONING";
                           status_message := Some "Sandbox creation in progress.";
                           last_transition_at := Some created_at |} in
  put_svc (set_pending (dset sandbox_id
    {| pend_request := request; pend_created_at := created_at; pend_expires_at := expires_at;
       pend_status := pending_status |}));;
  mret ({| resp_id := sandbox_id; resp_status := pending_status; resp_metadata := req_metadata request;
           resp_expires_at := expires_at; resp_created_at := created_at; resp_entrypoint := entrypoint request |},
        {| job_id := sandbox_id; job_request := request; job_created_at := created_at;
           job_expires_at := expires_at; job_pvc_cache := pvc_inspect_cache |}).

End pending.
