(* ===== verification/Provisioning.v ===== *)
(** * Correctness of provisioning

    A provision that fails leaves the tables as they were; one that succeeds
    holds exactly its mounts and is tracked; the container gets the configured
    hardening; its labels carry the state that a restart needs. *)

From Stdlib Require Import Ascii.
From S2P Require Import Prelude PyString Paths PyDict PyTime Json Regex Schema Validators.
From S2P Require Import Config RuntimeResolver Helpers DockerHost SimHost Ossfs OssfsMounts DockerExpiry.
From S2P Require Import Shlex Common DockerTimers DockerVolumes DockerProvision DockerPending.
Open Scope string_scope.
Open Scope list_scope.

(** ** What the parts touch *)

Definition archive_free (P : Service → Prop) : Prop := ∀ v s, P s → P (set_archive v s).

Section frames.
Context {E : Type} `{HostEnv E} (cfg : AppConfig).

Lemma allocate_host_port_keeps P : keeps (E:=E) P allocate_host_port.
Proof.
  unfold allocate_host_port. generalize 50. intros n.
  induction n as [|n IH]; cbn [allocate_host_port_loop]; keeps.
Qed.

Lemma allocate_distinct_keeps P : keeps (E:=E) P allocate_distinct_host_ports.
Proof.
  pose proof (allocate_host_port_keeps P) as Ha.
  assert (∀ n a b, keeps (E:=E) P (distinct_port_loop n a b)) as Hd.
  { induction n as [|n IH]; intros a b; cbn [distinct_port_loop]; keeps. }
  unfold allocate_distinct_host_ports. keeps.
Qed.

Lemma ensure_image_available_keeps P uri auth : keeps (E:=E) P (ensure_image_available uri auth).
Proof. unfold ensure_image_available, pull_image. keeps. Qed.

Lemma create_then_keeps P spec missing message start :
  (∀ c, keeps (E:=E) P (start c)) → keeps (E:=E) P (create_then spec missing message start).
Proof. intros Hs. unfold create_then, remove_id_quietly. keeps. Qed.

Lemma start_egress_sidecar_keeps P sid policy token p q :
  keeps (E:=E) P (start_egress_sidecar cfg sid policy token p q).
Proof.
  pose proof (ensure_image_available_keeps P) as Hi. unfold start_egress_sidecar.
  destruct (egress_image_of cfg) as [[|]|]; try apply keeps_raise. apply keeps_bind; [apply Hi|].
  intros _. apply keeps_bind; [apply keeps_call|]. intros _. apply create_then_keeps. keeps.
Qed.

Lemma prepare_container_keeps P sid req cache labels mem cpus :
  keeps (E:=E) P (prepare_container cfg sid req cache labels mem cpus).
Proof.
  pose proof (start_egress_sidecar_keeps P) as Hs. pose proof (allocate_distinct_keeps P) as Ha.
  unfold prepare_container. keeps.
Qed.

Lemma fetch_execd_archive_keeps P : archive_free P → keeps (E:=E) P (fetch_execd_archive cfg).
Proof.
  intros HP. pose proof (remove_container_quietly_keeps (E:=E) P) as Hr.
  unfold fetch_execd_archive. keeps. apply keeps_put. intros. by apply HP.
Qed.

Lemma ensure_directory_keeps P c path : keeps (E:=E) P (ensure_directory c path).
Proof. unfold ensure_directory. keeps. Qed.

Lemma create_and_start_keeps P sid uri cmd labels environment kw ports :
  archive_free P → keeps (E:=E) P (create_and_start_container cfg sid uri cmd labels environment kw ports).
Proof.
  intros HP. pose proof (fetch_execd_archive_keeps P HP) as Hf.
  pose proof (ensure_directory_keeps P) as Hd. unfold create_and_start_container.
  apply keeps_bind; [apply keeps_lift|]. intros command.
  apply keeps_bind; [apply keeps_call|]. intros _. apply create_then_keeps.
  unfold prepare_sandbox_runtime, copy_execd_to_container, install_bootstrap_script. keeps.
Qed.

Lemma resolve_image_auth_keeps P req : keeps (E:=E) P (resolve_image_auth req).
Proof.
  pose proof (ensure_image_available_keeps P) as Hi. unfold resolve_image_auth. keeps.
Qed.

End frames.

(** ** Holding mounts *)

(** [s] is [s0] with one reference of each of the [keys] more. *)
Definition acquired (keys : list string) (s0 s : Service) : Prop :=
  same_but_refs s0 s ∧ refs_wf s ∧
  ∀ k, ref_count k s = (ref_count k s0 + if decide (k ∈ keys) then 1 else 0)%Z.

Lemma acquired_archive keys s0 s v : acquired keys s0 s → acquired keys (set_archive v s0) (set_archive v s).
Proof.
  intros (Hs&Hw&Hc). split_and!; [|done|done]. unfold same_but_refs in *. cbn. rewrite Hs at 1. done.
Qed.

Lemma set_archive_twice v v' s : set_archive v (set_archive v' s) = set_archive v s.
Proof. done. Qed.

(** The tables up to the cached execd archive. *)
Definition same_but_archive (s s' : Service) : Prop := ∃ v, s' = set_archive v s.

Lemma acquired_archive_free keys s0 :
  archive_free (λ s, ∃ v, acquired keys (set_archive v s0) s).
Proof. intros v' s [v Hv]. exists v'. apply (acquired_archive _ _ _ v') in Hv. exact Hv. Qed.

Section rollback.
Context {E : Type} `{HostEnv E}.

(** [container.remove] fails with [DockerException] only. *)
Definition remove_raises_docker : Prop :=
  ∀ i e x e', container_remove i e = (Raise x, e') → is_docker_exn x = true.

Lemma release_restores keys s0 w r w' :
  unmount_returns (E:=E) → refs_wf s0 → NoDup keys → Forall (λ k, validate_mount_path k = Ok tt) keys →
  acquired keys s0 (svc w) →
  release_ossfs_mounts keys w = (r, w') → r = Ok tt ∧ svc w' = s0.
Proof.
  intros Hret Hwf Hnd Hval (Hs&Hw&Hc) Hrel.
  apply release_ossfs_mounts_spec in Hrel as (->&Hs'&Hw'&Hc'); [|done|done|done|].
  - split; [done|]. assert (ossfs_mount_ref_counts (svc w') = ossfs_mount_ref_counts s0) as Hr.
    { apply refs_ext; [done..|]. intros k. rewrite Hc', Hc. case_decide; lia. }
    pose proof (same_but_refs_trans _ _ _ Hs Hs') as Ht. unfold same_but_refs in Ht. rewrite Ht, Hr. by destruct s0.
  - rewrite Forall_forall in *. intros k Hk. split; [by apply Hval|].
    rewrite Hc, decide_True by done. pose proof (ref_count_nonneg k _ Hwf). lia.
Qed.

Lemma quiet_remove c (w : World E) :
  remove_raises_docker → ∃ e, remove_container_quietly c w = (Ok tt, Build_World (svc w) e).
Proof.
  intros Hdock. unfold remove_container_quietly, catch, try_except, call.
  destruct (container_remove (c_id c) (env w)) as [[[]|y] e] eqn:Hr; [by eauto|].
  rewrite (Hdock _ _ _ _ Hr). eauto.
Qed.

Lemma rollback_restores {A} sidecar keys s0 x w (r : result A) w' :
  unmount_returns (E:=E) → remove_raises_docker → refs_wf s0 → NoDup keys →
  Forall (λ k, validate_mount_path k = Ok tt) keys → acquired keys s0 (svc w) →
  provision_rollback sidecar keys x w = (r, w') → r = Raise x ∧ svc w' = s0.
Proof.
  intros Hret Hdock Hwf Hnd Hval Hacq.
  assert (∃ e, provision_rollback sidecar keys x w
               = (release_ossfs_mounts keys;; raise (A:=A) x) (Build_World (svc w) e)) as (e&->).
  { unfold provision_rollback. destruct sidecar as [c|]; [|exists (env w); by destruct w].
    destruct (quiet_remove c w Hdock) as [e He]. exists e. unfold mbind at 1, M_bind. by rewrite He. }
  unfold mbind, M_bind. destruct (release_ossfs_mounts keys _) as [r1 w1] eqn:Hrel.
  eapply release_restores in Hrel as [-> Hw1]; [|done..]. intros [= <- <-]. done.
Qed.

End rollback.

(** ** Provisioning as a whole *)

Section provisioning.
Context {E : Type} `{HostEnv E} (cfg : AppConfig).

(** The mounts that a request asks for can be released again. *)
Definition request_releasable (req : CreateSandboxRequest) : Prop :=
  ∀ vols, volumes req = Some vols → keys_releasable (storage cfg) vols.

Lemma prepare_request_spec req w r w' :
  unmount_returns (E:=E) → refs_wf (svc w) → request_releasable req →
  prepare_ossfs_mounts (storage cfg) (volumes req) w = (r, w') →
  match r with
  | Ok keys => NoDup keys ∧ Forall (λ k, validate_mount_path k = Ok tt) keys ∧ acquired keys (svc w) (svc w')
  | Raise _ => svc w' = svc w
  end.
Proof.
  intros Hret Hwf Hreq. destruct (volumes req) as [vols|] eqn:Hv.
  - intros Hp. apply prepare_ossfs_mounts_spec in Hp as (Hs&Hw&Hr); [|done|done|by apply Hreq].
    destruct r as [keys|e].
    + destruct Hr as (?&?&?). by split_and!.
    + unfold same_but_refs in Hs. rewrite Hs, Hr. by destruct (svc w).
  - intros [= <- <-]. split_and!; [constructor|constructor|]. split_and!; [apply same_but_refs_refl|done|].
    intros k. rewrite decide_False by apply not_elem_of_nil. lia.
Qed.

(** The [try] of [_provision_sandbox]: the container is there and the mounts are
    held, or everything is rolled back. *)
Lemma provision_try_spec sid req cache labels environment uri mem cpus keys s0 w r w' :
  unmount_returns (E:=E) → remove_raises_docker (E:=E) → refs_wf s0 → NoDup keys →
  Forall (λ k, validate_mount_path k = Ok tt) keys → acquired keys s0 (svc w) →
  provision_container cfg sid req cache labels environment uri mem cpus keys w = (r, w') →
  match r with
  | Ok _ => ∃ v, acquired keys (set_archive v s0) (svc w')
  | Raise _ => same_but_archive s0 (svc w')
  end.
Proof.
  intros Hret Hdock Hwf Hnd Hval Hacq. unfold provision_container, mbind at 1, M_bind, try_except at 1.
  destruct (prepare_container _ _ _ _ _ _ _ w) as [[prep|x] w1] eqn:Hp.
  - pose proof (prepare_container_keeps cfg (acquired keys s0) _ _ _ _ _ _ _ _ _ Hacq Hp) as Hacq1.
    unfold try_except. set (m := (create_and_start_container _ _ _ _ _ _ _ _;; mret tt : MW E unit)).
    assert (keeps (E:=E) (λ s, ∃ v, acquired keys (set_archive v s0) s) m) as Hm.
    { subst m. apply keeps_bind; [apply create_and_start_keeps, acquired_archive_free|]. intros. apply keeps_ret. }
    destruct (m w1) as [r2 w2] eqn:Hc.
    assert (∃ v, acquired keys (set_archive v s0) (svc w2)) as [v Hv].
    { eapply Hm; [|exact Hc]. exists (execd_archive_cache s0). by destruct s0. }
    destruct r2 as [[]|x]; [intros [= <- <-]; by exists v|].
    intros Hrb. eapply (rollback_restores _ _ (set_archive v s0)) in Hrb as [-> Hw]; [|done..].
    rewrite Hw. by exists v.
  - pose proof (prepare_container_keeps cfg (acquired keys s0) _ _ _ _ _ _ _ _ _ Hacq Hp) as Hacq1.
    destruct (provision_rollback None keys x w1) as [r2 w2] eqn:Hrb.
    eapply (rollback_restores _ _ s0) in Hrb as [-> Hw]; [|done..].
    intros [= <- <-]. exists (execd_archive_cache s0). rewrite Hw. by destruct s0.
Qed.

Lemma provision_spec sid req created exp cache w r w' :
  unmount_returns (E:=E) → remove_raises_docker (E:=E) → refs_wf (svc w) → request_releasable req →
  (∀ d, exp = Some d → aware d) →
  provision_sandbox cfg sid req created exp cache w = (r, w') →
  match r with
  | Ok resp => resp_id resp = sid ∧ resp_expires_at resp = exp ∧
      ∃ keys v s1, NoDup keys ∧ acquired keys (set_archive v (svc w)) s1 ∧
        match exp with
        | Some d => ∃ deadline, (instant d ≤ deadline)%Z ∧
            svc w' = install_timer sid {| t_deadline := deadline; t_callback := ExpireSandbox sid None;
                                          t_cancelled := false; t_fired := false |} (Some d) s1
        | None => svc w' = s1
        end
  | Raise _ => same_but_archive (svc w) (svc w')
  end.
Proof.
  intros Hret Hdock Hwf Hreq Hexp. unfold provision_sandbox.
  assert (∀ s, same_but_archive s s) as Hrefl by (intros s; exists (execd_archive_cache s); by destruct s).
  unfold mbind at 1, M_bind. destruct (build_labels_and_env _ _ _ w) as [[[labels environment]|x] w0] eqn:Hb;
    (assert (svc w0 = svc w) as Hw0
       by (refine ((_ : keeps (λ s, s = svc w) _) _ _ _ eq_refl Hb); unfold build_labels_and_env; keeps)).
  2:{ intros [= <- <-]. by rewrite Hw0. }
  unfold mbind at 1, M_bind. destruct (resolve_image_auth req w0) as [[[uri au]|x] w1] eqn:Hi;
    pose proof (resolve_image_auth_keeps (λ s, s = svc w) _ _ _ _ Hw0 Hi) as Hw1.
  2:{ intros [= <- <-]. by rewrite Hw1. }
  unfold mbind at 1, M_bind, lift. destruct (resolve_resource_limits req) as [[mem cpus]|x].
  2:{ intros [= <- <-]. by rewrite Hw1. }
  unfold mbind at 1, M_bind. destruct (prepare_ossfs_mounts _ _ w1) as [rk w2] eqn:Hp.
  apply prepare_request_spec in Hp; [|done|by rewrite Hw1|done]. rewrite Hw1 in Hp.
  destruct rk as [keys|x]; [|intros [= <- <-]; by rewrite Hp].
  destruct Hp as (Hnd&Hval&Hacq). unfold mbind at 1, M_bind.
  destruct (provision_container _ _ _ _ _ _ _ _ _ _ w2) as [rc w3] eqn:Hc.
  eapply (provision_try_spec _ _ _ _ _ _ _ _ _ (svc w)) in Hc; [|done..].
  destruct rc as [u|x]; [|intros [= <- <-]; done]. destruct Hc as [v Hv].
  unfold mbind at 1, M_bind. destruct exp as [d|].
  - unfold schedule_expiration, mbind, M_bind, query, lift, put_svc.
    destruct (clock (env w3)) as [us e]. specialize (Hexp d eq_refl). destruct d as [|x ox]; [done|]. cbn.
    intros [= <- <-]. cbn. split_and!; [done..|]. exists keys, v, (svc w3). split_and!; [done..|].
    eexists. split; [|done]. lia.
  - intros [= <- <-]. cbn. split_and!; [done..|]. exists keys, v, (svc w3). by split_and!.
Qed.



End provisioning.

(** ** Concrete runs *)

Definition sample_config (net : string) (egress : option string) : AppConfig := {|
  server := server gvisor_config; runtime := runtime gvisor_config; kubernetes := None;
  agent_sandbox := None; ingress := None;
  docker := {| network_mode := net; api_timeout := None; host_ip := None;
               drop_capabilities := ["MKNOD"; "SYS_ADMIN"]; apparmor_profile := None;
               no_new_privileges := true; seccomp_profile := None; pids_limit := Some 4096%Z |};
  storage := sample_storage; egress_config := Some {| egress_image := egress |};
  secure_runtime := secure_runtime gvisor_config |}.

Definition host_config : AppConfig := sample_config "host" None.

Definition bucket_request : CreateSandboxRequest := sample_request [sample_volume "my-bucket" None].

Lemma sim_remove_raises_docker : remove_raises_docker (E:=Sim).
Proof.
  intros i e x e'. cbn. unfold sim_unit, sim_op. destruct (bool_decide _); [|done]. by intros [= <- _].
Qed.

Lemma bucket_request_releasable : request_releasable host_config bucket_request.
Proof.
  intros vols [= <-] v o p q ->%list_elem_of_singleton [= <-]. vm_compute. intros [= <- _]. reflexivity.
Qed.

(** The execd archive is cached; [start] fails or not. *)
Definition provision_world (fail : list string) : World Sim :=
  {| svc := set_archive (Some "archive") empty_service; env := sim_set_fail fail sim_init |}.


Lemma provision_world_inv fail : inv (svc (provision_world fail)).
Proof. destruct empty_timers_ok. split; [by split|apply empty_tracked_live]. Qed.


(** ** The background worker *)

Section worker.
Context {E : Type} `{HostEnv E} (cfg : AppConfig) (ttl : Z).

Lemma ensure_ossfs_mounted_keeps P storage t : refs_free P → keeps (E:=E) P (ensure_ossfs_mounted storage t).
Proof.
  intros HP. pose proof (mount_ossfs_backend_path_keeps (E:=E) P) as Hm.
  unfold ensure_ossfs_mounted. keeps; apply keeps_put; intros; by apply HP.
Qed.

Lemma prepare_ossfs_mounts_keeps P storage vols : refs_free P → keeps (E:=E) P (prepare_ossfs_mounts storage vols).
Proof.
  intros HP.
  assert (∀ items prepared w r l w', P (svc w) → prepare_loop (E:=E) storage items prepared w = (r, l, w') → P (svc w')) as Hl.
  { induction items as [|[k [v o]] items IH]; intros prepared w r l w' Hw; cbn [prepare_loop]; [by intros [= <- <- <-]|].
    destruct (ensure_ossfs_mounted storage (ByVolume v o) w) as [[key|x] w1] eqn:He;
      pose proof (ensure_ossfs_mounted_keeps P storage _ HP _ _ _ Hw He); [by apply IH|by intros [= <- <- <-]]. }
  unfold prepare_ossfs_mounts. destruct vols as [[|v vols]|]; try apply keeps_ret.
  apply keeps_bind; [apply keeps_lift|]. intros d w r w' Hw. unfold prepare_all.
  destruct (prepare_loop storage d [] w) as [[r1 l] w1] eqn:Hp. pose proof (Hl _ _ _ _ _ _ Hw Hp) as Hw1.
  destruct r1 as [[]|x]; [by intros [= <- <-]|].
  refine ((_ : keeps P _) _ _ _ Hw1). pose proof (release_ossfs_mounts_keeps (E:=E) P l HP). keeps.
Qed.

(** A property that none of the tables which provisioning writes can change. *)
Record provision_stable (P : Service → Prop) : Prop := {
  ps_refs : refs_free P;
  ps_archive : archive_free P;
  ps_schedule : ∀ sid t, keeps (E:=E) P (schedule_expiration sid t true None) }.

Lemma provision_sandbox_keeps P sid req created exp cache :
  provision_stable P → keeps (E:=E) P (provision_sandbox cfg sid req created exp cache).
Proof.
  intros [Hr Ha Hi]. pose proof (resolve_image_auth_keeps (E:=E) P) as H1.
  pose proof (λ s v, prepare_ossfs_mounts_keeps P s v Hr) as H2.
  pose proof (prepare_container_keeps (E:=E) cfg P) as H3.
  pose proof (λ sid uri cmd l e kw p, create_and_start_keeps (E:=E) cfg P sid uri cmd l e kw p Ha) as H4.
  pose proof (λ keys, release_ossfs_mounts_keeps (E:=E) P keys Hr) as H5.
  pose proof (remove_container_quietly_keeps (E:=E) P) as H6.
  unfold provision_sandbox, build_labels_and_env, provision_container, provision_rollback. keeps.
Qed.

Lemma pending_provision_stable d : provision_stable (λ s, pending_sandboxes s = d).
Proof.
  split; [by intros f s|by intros v s|]. intros sid t. unfold schedule_expiration. keeps. by apply keeps_put.
Qed.

Lemma cleanup_failed_containers_keeps P sid : refs_free P → keeps (E:=E) P (cleanup_failed_containers sid).
Proof.
  intros Hr. pose proof (λ keys, release_ossfs_mounts_keeps (E:=E) P keys Hr) as H1.
  pose proof (remove_container_quietly_keeps (E:=E) P) as H2.
  pose proof (cleanup_egress_sidecar_keeps (E:=E) P) as H3.
  unfold cleanup_failed_containers, cleanup_failed_container. keeps.
Qed.

Definition settled (sid : string) (s : Service) : Prop :=
  ∀ p, dget sid (pending_sandboxes s) = Some p → state (pend_status p) = "Failed".

Lemma mark_pending_failed_settles sid msg w r w' :
  mark_pending_failed (E:=E) sid msg w = (r, w') → r = Ok tt ∧ settled sid (svc w').
Proof.
  unfold mark_pending_failed, get_pending_sandbox, mbind, M_bind, get_svc.
  destruct (dget sid (pending_sandboxes (svc w))) as [p|] eqn:Hp.
  - unfold now, mbind, M_bind, query, put_svc. destruct (clock (env w)) as [us e].
    intros [= <- <-]. split; [done|]. intros p'. cbn. rewrite dget_set_eq. by intros [= <-].
  - intros [= <- <-]. split; [done|]. intros p'. by rewrite Hp.
Qed.

Lemma worker_settles job w r w' :
  dict_wf (pending_sandboxes (svc w)) →
  async_provision_worker (E:=E) cfg ttl job w = (r, w') →
  settled (job_id job) (svc w').
Proof.
  intros Hwf. unfold async_provision_worker, mbind at 1, M_bind, try_except.
  destruct ((provision_sandbox cfg _ _ _ _ _;; mret true) w) as [rp w1] eqn:Hp.
  assert (pending_sandboxes (svc w1) = pending_sandboxes (svc w)) as Hpend.
  { refine ((_ : keeps (λ s, pending_sandboxes s = _) _) _ _ _ eq_refl Hp).
    pose proof (λ a b c d e, provision_sandbox_keeps _ a b c d e (pending_provision_stable (pending_sandboxes (svc w)))).
    keeps. }
  destruct rp as [b|x].
  - assert (b = true) as ->.
    { unfold mbind, M_bind in Hp. destruct (provision_sandbox _ _ _ _ _ _ w) as [[]]; by injection Hp. }
    intros [= <- <-]. intros p. cbn. rewrite Hpend, dget_pop by done. rewrite decide_True by done. done.
  - unfold provision_failed. set (m := (mark_pending_failed _ _;; _ : MW E unit)).
    assert (∀ w2 r2, m w1 = (r2, w2) → settled (job_id job) (svc w2)) as Hm.
    { intros w2 r2. subst m. unfold mbind at 1, M_bind.
      destruct (mark_pending_failed _ _ w1) as [r3 w3] eqn:Hmark.
      apply mark_pending_failed_settles in Hmark as [-> Hs]. intros Hrest.
      refine ((_ : keeps (settled _) _) _ _ _ Hs Hrest).
      pose proof (cleanup_failed_containers_keeps (settled (job_id job)) (job_id job)) as Hc.
      assert (refs_free (settled (job_id job))) by (by intros f s).
      unfold schedule_pending_cleanup. keeps. by apply keeps_put. }
    unfold mbind, M_bind. destruct (m w1) as [[[]|y] w2] eqn:E2; specialize (Hm _ _ eq_refl); by intros [= <- <-].
Qed.

(** C37: whatever happens to a background provision, when its worker ends the
    pending record of the sandbox is gone or reports the state [Failed]; it is
    gone if the worker succeeded.  No sandbox stays in [PROVISIONING]. *)
Theorem async_worker_settles job w r w' :
  dict_wf (pending_sandboxes (svc w)) →
  async_provision_worker (E:=E) cfg ttl job w = (r, w') →
  settled (job_id job) (svc w').
Proof. apply worker_settles. Qed.

End worker.

Definition sample_job : ProvisionJob :=
  {| job_id := "sb"; job_request := bucket_request; job_created_at := utc 0;
     job_expires_at := Some (utc 60); job_pvc_cache := [] |}.

Definition pending_world (fail : list string) : World Sim :=
  {| svc := set_pending (dset "sb" {| pend_request := bucket_request; pend_created_at := utc 0;
              pend_expires_at := Some (utc 60);
              pend_status := {| state := "Pending"; reason := Some "PROVISIONING"; status_message := None;
                                last_transition_at := None |} |}) (svc (provision_world fail));
     env := env (provision_world fail) |}.

Lemma async_worker_settles_witness :
  let '(r, w') := async_provision_worker host_config 3600 sample_job (pending_world ["start"]) in
  is_ok r = true ∧ settled "sb" (svc w') ∧ is_Some (dget "sb" (pending_sandboxes (svc w'))).
Proof.
  pose proof (async_worker_settles host_config 3600 sample_job (pending_world ["start"])) as H.
  destruct (async_provision_worker host_config 3600 sample_job (pending_world ["start"])) as [r w'] eqn:Hr.
  specialize (H r w' (NoDup_singleton "sb") eq_refl).
  split_and!; [|exact H|]; vm_compute in Hr; injection Hr as <- <-; [reflexivity|]. by eexists.
Defined.

(** *** Defects of the clean up

    A sandbox [other] holds the mount of the bucket.  A second sandbox that uses
    the bucket fails to start, and Docker refuses to remove its container: the
    roll back of [_provision_sandbox] releases the reference, and
    [_cleanup_failed_containers] releases it again because the container with
    its label is still there.  The mount that [other] uses is gone. *)
Definition bucket_path : string := "/mnt/ossfs/my-bucket".

Definition shared_bucket_world : World Sim :=
  {| svc := set_refs (λ _, {[bucket_path := 1%Z]}) (svc (pending_world ["start"; "remove"]));
     env := sim_set_mounts (cons bucket_path) (env (pending_world ["start"; "remove"])) |}.

Theorem failed_provision_releases_twice :
  ref_count bucket_path (svc shared_bucket_world) = 1%Z ∧ ismount bucket_path (env shared_bucket_world) = true ∧
  let '(r, w') := async_provision_worker host_config 3600 sample_job shared_bucket_world in
  r = Ok tt ∧ ref_count bucket_path (svc w') = 0%Z ∧ ismount bucket_path (env w') = false.
Proof. vm_compute. by repeat split. Qed.

(** The temporary execd container stays behind when it cannot be started. *)
Theorem execd_container_leaks :
  let '(r, w') := fetch_execd_archive host_config {| svc := empty_service; env := sim_set_fail ["start"] sim_init |} in
  is_ok r = false ∧ (c_id <$> sim_containers (env w')) = ["1"].
Proof. vm_compute. by repeat split. Qed.

(** ** Hardening of the container *)

Definition in_list (x : string) (key : string) (kw : dict hvalue) : Prop :=
  ∃ l, dget key kw = Some (HList l) ∧ x ∈ l.

Section hardening.
Context (cfg : AppConfig).

(** The settings of the Docker configuration that every sandbox gets. *)
Record hardened (kw : dict hvalue) : Prop := {
  h_caps : ∀ cap, cap ∈ drop_capabilities (docker cfg) → in_list cap "cap_drop" kw;
  h_privileges : no_new_privileges (docker cfg) = true → in_list "no-new-privileges:true" "security_opt" kw;
  h_seccomp : ∀ p, seccomp_profile (docker cfg) = Some p → truthy p = true →
    in_list ("seccomp=" +:+ p) "security_opt" kw;
  h_apparmor : ∀ p, apparmor_profile (docker cfg) = Some p → truthy p = true →
    in_list ("apparmor=" +:+ p) "security_opt" kw;
  h_pids : ∀ n, pids_limit (docker cfg) = Some n → dget "pids_limit" kw = Some (HInt n);
  h_runtime : ∀ r, service_docker_runtime cfg = Some r → truthy r = true → dget "runtime" kw = Some (HStr r) }.

Lemma dget_opt_ne {V} k k' (o : option V) d : k ≠ k' → dget k (dset_opt k' o d) = dget k d.
Proof. intros. destruct o; [by apply dget_set_ne|done]. Qed.

Lemma dget_opt_eq {V} k (o : option V) d : dget k d = None → dget k (dset_opt k o d) = o.
Proof. intros. destruct o; [by apply dget_set_eq|done]. Qed.

(** The steps of [_base_host_config_kwargs], all as optional entries. *)
Lemma base_kwargs_steps mem cpus net :
  base_host_config_kwargs cfg mem cpus net =
  dset_opt "runtime" (if truthy_opt (service_docker_runtime cfg)
                      then Some (HStr (or_else (service_docker_runtime cfg) EmptyString)) else None)
  (dset_opt "nano_cpus" (HInt <$> nonzero cpus) (dset_opt "mem_limit" (HInt <$> nonzero mem)
  (dset_opt "pids_limit" (HInt <$> pids_limit (docker cfg))
  (dset_opt "cap_drop" (match drop_capabilities (docker cfg) with [] => None | l => Some (HList l) end)
  (dset_opt "security_opt" (match security_opts cfg with [] => None | l => Some (HList l) end)
    [("network_mode", HStr net)]))))).
Proof.
  unfold base_host_config_kwargs. cbv zeta.
  by destruct (truthy_opt _), (security_opts cfg), (drop_capabilities (docker cfg)).
Qed.

Lemma base_kwargs_get mem cpus net :
  let kw := base_host_config_kwargs cfg mem cpus net in
  dget "network_mode" kw = Some (HStr net) ∧
  dget "security_opt" kw = match security_opts cfg with [] => None | l => Some (HList l) end ∧
  dget "cap_drop" kw = match drop_capabilities (docker cfg) with [] => None | l => Some (HList l) end ∧
  dget "pids_limit" kw = HInt <$> pids_limit (docker cfg) ∧
  dget "mem_limit" kw = HInt <$> nonzero mem ∧
  dget "nano_cpus" kw = HInt <$> nonzero cpus ∧
  dget "runtime" kw = if truthy_opt (service_docker_runtime cfg)
                      then Some (HStr (or_else (service_docker_runtime cfg) EmptyString)) else None.
Proof.
  cbv zeta. rewrite base_kwargs_steps.
  split_and!; rewrite ?dget_opt_ne by done; try done; apply dget_opt_eq; by rewrite ?dget_opt_ne.
Qed.

Lemma in_list_ext x key kw kw' : dget key kw' = dget key kw → in_list x key kw → in_list x key kw'.
Proof. unfold in_list. by intros ->. Qed.

Lemma base_hardened mem cpus net : hardened (base_host_config_kwargs cfg mem cpus net).
Proof.
  destruct (base_kwargs_get mem cpus net) as (_&Hs&Hc&Hp&_&_&Hr).
  assert (∀ x, x ∈ security_opts cfg → in_list x "security_opt" (base_host_config_kwargs cfg mem cpus net)) as Hopt.
  { intros x Hx. rewrite <-(app_nil_r (security_opts cfg)) in Hx. unfold in_list. rewrite Hs. rewrite app_nil_r in Hx.
    destruct (security_opts cfg); [set_solver|]. eauto. }
  split.
  - intros cap Hcap. unfold in_list. rewrite Hc. destruct (drop_capabilities (docker cfg)); [set_solver|]. eauto.
  - intros Hn. apply Hopt. unfold security_opts. rewrite Hn. set_solver.
  - intros p Hpr Ht. apply Hopt. unfold security_opts. rewrite Hpr. cbn. rewrite Ht. set_solver.
  - intros p Hpr Ht. apply Hopt. unfold security_opts. rewrite Hpr. cbn. rewrite Ht. set_solver.
  - intros n Hn. by rewrite Hp, Hn.
  - intros r Hrt Ht. rewrite Hr, Hrt. cbn. by rewrite Ht.
Qed.

Lemma hardened_dset k v kw :
  k ∉ ["cap_drop"; "security_opt"; "pids_limit"; "runtime"] → hardened kw → hardened (dset k v kw).
Proof.
  intros Hk [H1 H2 H3 H4 H5 H6].
  assert (∀ x, x ∈ ["cap_drop"; "security_opt"; "pids_limit"; "runtime"] → dget x (dset k v kw) = dget x kw) as G.
  { intros x Hx. apply dget_set_ne. intros ->. done. }
  split; intros; first [eapply in_list_ext; [apply G; set_solver|by auto]|rewrite G by set_solver; auto].
Qed.

Lemma hardened_binds binds kw : hardened kw → hardened (with_binds binds kw).
Proof. intros Hh. unfold with_binds. destruct binds; [done|]. apply hardened_dset; [set_solver|done]. Qed.

Lemma hardened_net_admin kw :
  hardened kw → hardened (drop_net_admin kw) ∧ in_list "NET_ADMIN" "cap_drop" (drop_net_admin kw).
Proof.
  intros [H1 H2 H3 H4 H5 H6]. unfold drop_net_admin. cbv zeta.
  assert ("NET_ADMIN" ∈ remove_dups (match dget "cap_drop" kw with Some (HList l) => l | _ => [] end ++ ["NET_ADMIN"]))
    as Hna by (apply elem_of_remove_dups; set_solver).
  split; [|eexists; by rewrite dget_set_eq].
  split; [|intros; first [eapply in_list_ext; [by apply dget_set_ne|by auto]|rewrite dget_set_ne by done; auto]..].
  intros cap Hcap. destruct (H1 cap Hcap) as (l&Hl&Hin). unfold in_list. rewrite Hl, dget_set_eq.
  eexists. split; [done|]. apply elem_of_remove_dups. set_solver.
Qed.

Lemma dget_with_binds k binds kw : k ≠ "binds" → dget k (with_binds binds kw) = dget k kw.
Proof. intros. unfold with_binds. destruct binds; [done|]. by apply dget_set_ne. Qed.

(** C29: whatever the network mode and with or without network policy, the host
    configuration of a sandbox container carries all of the configured
    hardening (dropped capabilities, no-new-privileges, seccomp and AppArmor
    profiles, the process limit, the secure runtime); under a network policy it
    also drops [NET_ADMIN] and joins the network of the side car. *)
Theorem sandbox_container_hardened {E} `{HostEnv E} sid req cache labels mem cpus w prep w' :
  prepare_container (E:=E) cfg sid req cache labels mem cpus w = (Ok prep, w') →
  hardened (prep_kwargs prep) ∧
  match network_policy req with
  | Some _ => in_list "NET_ADMIN" "cap_drop" (prep_kwargs prep) ∧
      ∃ sidecar, prep_sidecar prep = Some sidecar ∧
        dget "network_mode" (prep_kwargs prep) = Some (HStr ("container:" +:+ c_id sidecar))
  | None => prep_sidecar prep = None ∧
      dget "network_mode" (prep_kwargs prep) = Some (HStr (service_network_mode cfg))
  end.
Proof.
  unfold prepare_container. intros (binds&w1&_&Hrest)%M_bind_Ok.
  pose proof (base_hardened mem cpus) as Hb. pose proof (λ n, proj1 (base_kwargs_get mem cpus n)) as Hn.
  destruct (network_policy req) as [policy|].
  - apply M_bind_Ok in Hrest as (token&w2&_&([p q]&w3&_&(sidecar&w4&_&[= <- <-])%M_bind_Ok)%M_bind_Ok).
    cbn [prep_kwargs prep_sidecar]. destruct (hardened_net_admin _ (Hb ("container:" +:+ c_id sidecar))) as [Hh Ha].
    split_and!; [by apply hardened_binds| |].
    + eapply in_list_ext; [by apply dget_with_binds|done].
    + exists sidecar. split; [done|]. rewrite dget_with_binds by done. unfold drop_net_admin.
      rewrite dget_set_ne by done. apply Hn.
  - destruct (negb _).
    + apply M_bind_Ok in Hrest as ([p q]&w3&_&[= <- <-]). cbn [prep_kwargs prep_sidecar]. split_and!.
      * apply hardened_binds, hardened_dset; [set_solver|apply Hb].
      * done.
      * rewrite dget_with_binds, dget_set_ne by done. apply Hn.
    + injection Hrest as <- <-. cbn [prep_kwargs prep_sidecar]. split_and!; [apply hardened_binds, Hb|done|].
      rewrite dget_with_binds by done. apply Hn.
Qed.

End hardening.

Definition policy_request : CreateSandboxRequest := {|
  image := {| uri := "python:3.11"; auth := None |}; timeout := Some 60%Z; resource_limits := [];
  Schema.env := None; req_metadata := Some [("team", "core")]; entrypoint := ["sleep"; "60"];
  network_policy := Some {| default_action := Some "deny";
                            egress := [{| action := "allow"; target := "example.com" |}] |};
  volumes := None; extensions := None |}.

Definition bridge_config : AppConfig := sample_config "bridge" (Some "egress:1").

Lemma sandbox_container_hardened_witness :
  ∃ prep w', prepare_container bridge_config "sb" policy_request [] [] None None (provision_world [])
               = (Ok prep, w') ∧
    hardened bridge_config (prep_kwargs prep) ∧ in_list "NET_ADMIN" "cap_drop" (prep_kwargs prep).
Proof.
  destruct (prepare_container bridge_config "sb" policy_request [] [] None None (provision_world []))
    as [[prep|x] w'] eqn:Hp; [|vm_compute in Hp; discriminate].
  destruct (sandbox_container_hardened bridge_config "sb" policy_request [] [] None None (provision_world [])
    prep w' Hp) as (Hh&Ha&_).
  exists prep, w'. by split_and!.
Defined.

(** ** What the labels carry over a restart *)

Section labels.
Context {E : Type} `{HostEnv E} (cfg : AppConfig).

(** The labels that [prepare_container] adds. *)
Definition late_labels : list string :=
  [SANDBOX_EGRESS_AUTH_TOKEN_METADATA_KEY; SANDBOX_EMBEDDING_PROXY_PORT_LABEL; SANDBOX_HTTP_PORT_LABEL].

Lemma dget_port_labels k p q labels : k ∉ late_labels → dget k (port_labels p q labels) = dget k labels.
Proof.
  intros Hk. unfold port_labels. rewrite !dget_set_ne; [done|..]; intros ->; apply Hk; unfold late_labels; set_solver.
Qed.

Lemma prepare_container_labels sid req cache labels mem cpus w prep w' k :
  k ∉ late_labels →
  prepare_container (E:=E) cfg sid req cache labels mem cpus w = (Ok prep, w') →
  dget k (prep_labels prep) = dget k labels.
Proof.
  intros Hk. unfold prepare_container. intros (binds&w1&_&Hrest)%M_bind_Ok.
  destruct (network_policy req) as [policy|].
  - apply M_bind_Ok in Hrest as (token&w2&_&([p q]&w3&_&(sidecar&w4&_&[= <- <-])%M_bind_Ok)%M_bind_Ok).
    cbn [prep_labels]. rewrite dget_port_labels, dget_set_ne; [done| |done].
    intros ->. apply Hk. unfold late_labels. set_solver.
  - destruct (negb _).
    + apply M_bind_Ok in Hrest as ([p q]&w3&_&[= <- <-]). by apply dget_port_labels.
    + by injection Hrest as <- <-.
Qed.

Lemma dget_mounts_label k keys labels :
  k ≠ SANDBOX_OSSFS_MOUNTS_LABEL → dget k (with_mounts_label keys labels) = dget k labels.
Proof. intros. unfold with_mounts_label. destruct keys; [done|]. by apply dget_set_ne. Qed.

(** No key of checked metadata is one that the system manages. *)
Lemma metadata_not_reserved md k :
  ensure_metadata_labels md = Ok tt → startswith k RESERVED_LABEL_PREFIX = true →
  dget k (default [] md) = None.
Proof.
  destruct md as [d|]; [|done]. cbn [ensure_metadata_labels default from_option id].
  rewrite for_each_Ok, Forall_forall. intros Hd Hk. apply eq_None_not_Some. intros [v Hv].
  apply dget_elem, Hd in Hv. unfold ensure_metadata_label in Hv.
  rewrite !result_bind_unit_Ok, !raise_if_Ok in Hv. destruct Hv as [Hv _]. congruence.
Qed.

Definition build_keys : list string :=
  [SANDBOX_ID_LABEL; SANDBOX_LAST_ACTIVITY_AT_LABEL; SANDBOX_MANUAL_CLEANUP_LABEL; SANDBOX_EXPIRES_AT_LABEL].

Lemma dget_build_labels k n sid req exp :
  dict_wf (default [] (req_metadata req)) → k ∉ build_keys →
  dget k (build_labels n sid req exp) = dget k (default [] (req_metadata req)).
Proof.
  intros Hwf Hk. unfold build_labels. cbv zeta. unfold build_keys in Hk.
  destruct exp; rewrite !dget_set_ne by (intros ->; apply Hk; set_solver);
    rewrite dget_dupdate by done; by destruct (dget k _).
Qed.

Lemma dget_build_labels_reserved k n sid req exp :
  dict_wf (default [] (req_metadata req)) → ensure_metadata_labels (req_metadata req) = Ok tt →
  startswith k RESERVED_LABEL_PREFIX = true →
  dget k (build_labels n sid req exp) =
  match exp with
  | Some e => if decide (k = SANDBOX_EXPIRES_AT_LABEL) then Some (isoformat e) else
              if decide (k = SANDBOX_LAST_ACTIVITY_AT_LABEL) then Some (isoformat n) else
              if decide (k = SANDBOX_ID_LABEL) then Some sid else None
  | None => if decide (k = SANDBOX_MANUAL_CLEANUP_LABEL) then Some "true" else
            if decide (k = SANDBOX_LAST_ACTIVITY_AT_LABEL) then Some (isoformat n) else
            if decide (k = SANDBOX_ID_LABEL) then Some sid else None
  end.
Proof.
  intros Hwf Hmd Hk. unfold build_labels. cbv zeta.
  destruct exp; rewrite !dget_set, dget_dupdate by done; by rewrite (metadata_not_reserved _ _ Hmd Hk).
Qed.

(** C30: the labels of a new sandbox container carry what a restarted server
    needs: the identifier; the expiration, to the microsecond, or the mark for
    manual clean up and no expiration; the mount keys; and all of the user's
    metadata, which cannot forge any of the former. *)
Theorem sandbox_labels_roundtrip n sid req exp keys cache mem cpus w prep w' :
  ensure_metadata_labels (req_metadata req) = Ok tt →
  dict_wf (default [] (req_metadata req)) →
  Forall (λ k, truthy k = true) keys →
  match exp with Some d => ∃ us, d = utc us ∧ dt_in_range us = true | None => True end →
  prepare_container (E:=E) cfg sid req cache (with_mounts_label keys (build_labels n sid req exp)) mem cpus w
    = (Ok prep, w') →
  let labels := prep_labels prep in
  dget SANDBOX_ID_LABEL labels = Some sid ∧
  label_mount_keys labels = keys ∧
  match exp with
  | Some d => has_manual_cleanup labels = false ∧
      parse_timestamp_opt (dget SANDBOX_EXPIRES_AT_LABEL labels) = Some d
  | None => has_manual_cleanup labels = true ∧ dget SANDBOX_EXPIRES_AT_LABEL labels = None
  end ∧
  dget EGRESS_SIDECAR_LABEL labels = None ∧
  ∀ k v, dget k (default [] (req_metadata req)) = Some v → dget k labels = Some v.
Proof.
  intros Hmd Hwf Hkeys Hexp Hp. cbv zeta.
  pose proof (λ k Hk, prepare_container_labels _ _ _ _ _ _ _ _ _ k Hk Hp) as Hl.
  pose proof (λ k, dget_build_labels_reserved k n sid req exp Hwf Hmd) as Hb.
  assert (∀ k, k ∉ late_labels → k ≠ SANDBOX_OSSFS_MOUNTS_LABEL →
    dget k (prep_labels prep) = dget k (build_labels n sid req exp)) as Hg.
  { intros k Hk Hne. by rewrite Hl, dget_mounts_label. }
  split_and!.
  - rewrite Hg, Hb by (done || compute_done). by destruct exp.
  - unfold label_mount_keys, dget_default. rewrite Hl by (compute_done).
    destruct keys as [|k0 keys]; cbn [with_mounts_label]; [rewrite Hb by done; by destruct exp|].
    rewrite dget_set_eq. pose proof (string_elems_dumps _ Hkeys) as Hs.
    destruct (loads (dumps_list (k0 :: keys))); [by injection Hs|done].
  - destruct exp as [d|].
    + destruct Hexp as (us&->&Hus). unfold has_manual_cleanup, dget_default.
      rewrite !Hg, !Hb by (done || compute_done). split; [done|].
      by apply (parse_timestamp_isoformat us).
    + unfold has_manual_cleanup, dget_default. by rewrite !Hg, !Hb by (done || compute_done).
  - rewrite Hg, Hb by (done || compute_done). by destruct exp.
  - intros k v Hv. assert (startswith k RESERVED_LABEL_PREFIX = false) as Hk.
    { destruct (startswith k RESERVED_LABEL_PREFIX) eqn:Hk; [|done].
      by rewrite (metadata_not_reserved _ _ Hmd Hk) in Hv. }
    rewrite Hg, dget_build_labels; [done|done|..].
    + intros Hin. unfold build_keys in Hin. by repeat (apply elem_of_cons in Hin as [->|Hin]; [done|]); apply not_elem_of_nil in Hin.
    + intros Hin. unfold late_labels in Hin. by repeat (apply elem_of_cons in Hin as [->|Hin]; [done|]); apply not_elem_of_nil in Hin.
    + by intros ->.
Qed.

End labels.

Lemma sandbox_labels_roundtrip_witness :
  ∃ prep w', prepare_container bridge_config "sb" policy_request []
      (with_mounts_label [bucket_path] (build_labels (utc 0) "sb" policy_request (Some (utc 60)))) None None
      (provision_world []) = (Ok prep, w') ∧
    label_mount_keys (prep_labels prep) = [bucket_path] ∧ dget "team" (prep_labels prep) = Some "core".
Proof.
  destruct (prepare_container bridge_config "sb" policy_request []
      (with_mounts_label [bucket_path] (build_labels (utc 0) "sb" policy_request (Some (utc 60)))) None None
      (provision_world [])) as [[prep|x] w'] eqn:Hp; [|vm_compute in Hp; discriminate].
  exists prep, w'. split; [reflexivity|].
  destruct (sandbox_labels_roundtrip bridge_config (utc 0) "sb" policy_request (Some (utc 60)) [bucket_path] []
    None None (provision_world []) prep w') as (_&Hk&_&_&Hm); [reflexivity| | | |exact Hp|].
  - compute_done.
  - by repeat constructor.
  - exists 60%Z. split; reflexivity.
  - split; [exact Hk|]. by apply Hm.
Defined.
