(* ===== verification/DockerQuery.v ===== *)
(** * Reading Docker sandboxes ([server/src/services/docker.py],
      [server/src/services/endpoint_auth.py])

    The view of a container that the API returns, the list with its pages, and
    the endpoints of a sandbox; with what a client may rely on. *)

From Stdlib Require Import Ascii Sorting.Sorted.
From S2P Require Import Prelude PyString Paths PyDict PyTime Json Schema Validators Config.
From S2P Require Import RuntimeResolver Helpers DockerHost SimHost Ossfs DockerExpiry DockerVolumes.
From S2P Require Import Shlex Common Listing DockerProvision DockerPending Provisioning.
Open Scope string_scope.
Open Scope list_scope.

(** ** The network of the server

    [os.path.exists]; the local address of a UDP socket that is connected to a
    public address; the addresses of the host name.  [v6] selects the family. *)
Class NetEnv (E : Type) := {
  path_exists : string → E → bool;
  udp_local_address : bool → M E string;
  host_addresses : bool → M E (list string) }.

Definition attach_egress_auth_headers (endpoint : Endpoint) (labels : dict string) : Endpoint :=
  match dget SANDBOX_EGRESS_AUTH_TOKEN_METADATA_KEY labels with
  | Some ((String _ _) as token) =>
      {| ep_endpoint := ep_endpoint endpoint;
         ep_headers := Some (merge_endpoint_headers (ep_headers endpoint) (build_egress_auth_headers token)) |}
  | _ => endpoint
  end.

(** ** The state of a container *)

(** [f"{exit_code}"] *)
Definition exit_code_text (o : option Z) : string :=
  match o with Some n => str_of_Z n | None => "None" end.

Definition container_state (c : Container) : string * string * string :=
  let st := c_state c in
  let status_value := lower (if truthy_opt (st_status st) then or_else (st_status st) EmptyString else c_status c) in
  if st_running st && negb (st_paused st) then
    ("Running", "CONTAINER_RUNNING", "Sandbox container is running.")
  else if st_paused st then
    ("Paused", "CONTAINER_PAUSED", "Sandbox container is paused.")
  else if st_restarting st then
    ("Running", "CONTAINER_RESTARTING", "Sandbox container is restarting.")
  else if one_of status_value ["created"; "starting"] then
    ("Pending", "CONTAINER_STARTING", "Sandbox container is starting.")
  else if one_of status_value ["exited"; "dead"] then
    if bool_decide (st_exit_code st = Some 0%Z) then
      ("Terminated", "CONTAINER_EXITED", "Sandbox container exited successfully.")
    else
      ("Failed", "CONTAINER_EXITED_ERROR",
       "Sandbox container exited with code " +:+ exit_code_text (st_exit_code st) +:+ ".")
  else
    ("Unknown", "CONTAINER_STATE_UNKNOWN",
     "Sandbox container is in state '" +:+ (if truthy status_value then status_value else "unknown") +:+ "'.").

Definition hidden_labels : list string :=
  [SANDBOX_ID_LABEL; SANDBOX_EXPIRES_AT_LABEL; SANDBOX_MANUAL_CLEANUP_LABEL; SANDBOX_LAST_ACTIVITY_AT_LABEL].

(** The metadata that the API shows; [... or None]. *)
Definition visible_metadata (labels : dict string) : option (dict string) :=
  match List.filter (λ kv, negb (one_of kv.1 hidden_labels)) labels with [] => None | d => Some d end.

Definition container_entrypoint (c : Container) : list string :=
  match c_cmd c with
  | Some (CmdList l) => l
  | Some (CmdStr (String _ _ as s)) => [s]
  | _ => []
  end.

Section query.
Context {E : Type} `{HostEnv E} `{NetEnv E} (cfg : AppConfig).

Definition container_to_sandbox (container : Container) (sandbox_id : option string) : MW E Sandbox :=
  let labels := labels_of container in
  let resolved_id := if truthy_opt sandbox_id then sandbox_id else dget SANDBOX_ID_LABEL labels in
  match resolved_id with
  | Some ((String _ _) as id) =>
      let '(st, rs, msg) := container_state container in
      '(image_tags, short_id) ← call (container_image (c_id container));
      let image_uri := match image_tags with t :: _ => t | [] => short_id end in
      created_at ← parse_timestampM (c_created container);
      last_transition ←
        match st_finished_at (c_state container) with
        | Some ((String _ _) as finished_at) =>
            if bool_decide (finished_at = "0001-01-01T00:00:00Z") then mret created_at
            else parse_timestampM (Some finished_at)
        | _ => mret created_at
        end;
      expires_at ← get_tracked_expiration id labels;
      last_activity ←
        match dget SANDBOX_LAST_ACTIVITY_AT_LABEL labels with
        | Some ((String _ _) as raw) => d ← parse_timestampM (Some raw); mret (Some d)
        | _ => mret None
        end;
      mret {| sb_id := id; sb_image := {| uri := image_uri; auth := None |};
              sb_status := {| state := st; reason := Some rs; status_message := Some msg;
                              last_transition_at := Some last_transition |};
              sb_metadata := visible_metadata labels; sb_entrypoint := container_entrypoint container;
              sb_expires_at := expires_at; sb_created_at := created_at;
              sb_last_activity_at := last_activity |}
  | _ => raise (internal_error SandboxErrorCodes.SANDBOX_NOT_FOUND "Container missing sandbox ID label.")
  end.

(** The first loop of [list_sandboxes]: the matching sandboxes by identifier, and
    the identifiers that have a container. *)
Fixpoint list_containers_loop (filter_ : SandboxFilter) (acc : dict Sandbox) (ids : gset string)
    (containers : list Container) : MW E (dict Sandbox * gset string) :=
  match containers with
  | [] => mret (acc, ids)
  | container :: rest =>
      match dget SANDBOX_ID_LABEL (labels_of container) with
      | Some ((String _ _) as sandbox_id) =>
          sandbox_obj ← container_to_sandbox container (Some sandbox_id);
          list_containers_loop filter_
            (if matches_filter sandbox_obj filter_ then dset sandbox_id sandbox_obj acc else acc)
            ({[sandbox_id]} ∪ ids) rest
      | _ => list_containers_loop filter_ acc ids rest
      end
  end.

(** The second loop: pending sandboxes that have no container. *)
Definition add_pending (filter_ : SandboxFilter) (ids : gset string) (acc : dict Sandbox)
    (pending : string * PendingSandbox) : dict Sandbox :=
  let '(sandbox_id, p) := pending in
  if bool_decide (sandbox_id ∈ ids) then acc else
  let sandbox_obj := pending_to_sandbox sandbox_id p in
  if matches_filter sandbox_obj filter_ then dset sandbox_id sandbox_obj acc else acc.

Definition list_sandboxes (request : ListSandboxesRequest) : MW E ListSandboxesResponse :=
  containers ← catch is_docker_exn (call (containers_list (HasLabel SANDBOX_ID_LABEL)))
    (λ exc, raise (internal_error SandboxErrorCodes.CONTAINER_QUERY_FAILED
       ("Failed to query sandbox containers: " +:+ exn_text exc)));
  '(by_id, ids) ← list_containers_loop (Schema.list_filter request) [] ∅ containers;
  pending ← iter_pending_sandboxes;
  let by_id := fold_left (add_pending (Schema.list_filter request) ids) pending by_id in
  sandboxes ← lift (sort_created (dvalues by_id));
  mret (paginate (list_pagination request) sandboxes).

Definition get_sandbox (sandbox_id : string) : MW E Sandbox :=
  found ← catch is_http
    (c ← get_container_by_sandbox_id sandbox_id; mret (inl c))
    (λ exc,
       if negb (http_status exc =? 404)%Z then raise exc else
       pending ← get_pending_sandbox sandbox_id;
       match pending with
       | Some p => mret (inr (pending_to_sandbox sandbox_id p))
       | None => raise exc
       end);
  match found with
  | inl container => container_to_sandbox container (Some sandbox_id)
  | inr sandbox => mret sandbox
  end.

(** ** Endpoints *)

Definition running_inside_docker_container : MW E bool := get_env (path_exists "/.dockerenv").

(** [SandboxService._resolve_bind_ip] *)
Definition resolve_bind_ip_by (v6 : bool) (fallback : MW E string) : MW E string :=
  found ← catch is_os_error
    (ip ← call (udp_local_address v6);
     mret (if truthy ip && (negb v6 || negb (startswith ip "fe80")) then Some (inl ip) else None))
    (λ _, mret (if v6 then Some (inr tt) else None));
  match found with
  | Some (inl ip) => mret ip
  | Some (inr _) => fallback
  | None =>
      second ← catch is_os_error
        (infos ← call (host_addresses v6);
         mret (match infos with (String _ _ as addr) :: _ => Some addr | _ => None end))
        (λ _, mret None);
      match second with
      | Some addr => mret addr
      | None => mret (if v6 then "::1" else "127.0.0.1")
      end
  end.

Definition resolve_bind_ip (v6 : bool) : MW E string :=
  resolve_bind_ip_by v6 (resolve_bind_ip_by false (mret EmptyString)).

Definition get_docker_host_ip : option string :=
  let ip := strip (or_else (host_ip (docker cfg)) EmptyString) in
  if truthy ip then Some ip else None.

Definition resolve_host (fallback : MW E string) : MW E string :=
  let host_cfg := strip (srv_host (server cfg)) in
  if one_of (lower host_cfg) [EmptyString; "0.0.0.0"; "::"] then
    inside ← running_inside_docker_container;
    match (if inside : bool then get_docker_host_ip else None) with
    | Some ip => mret ip
    | None => fallback
    end
  else mret host_cfg.

Definition resolve_public_host : MW E string :=
  let eip_cfg := strip (or_else (eip (server cfg)) EmptyString) in
  if truthy eip_cfg then mret eip_cfg else resolve_host (resolve_bind_ip false).

Definition resolve_proxy_host : MW E string := resolve_host (mret "127.0.0.1").

(** [_parse_host_port_label] *)
Definition parse_host_port_label (value : option string) : option Z :=
  match value with
  | Some ((String _ _) as v) =>
      match py_int v with
      | Some port => if (port <=? 0)%Z || (65535 <? port)%Z then None else Some port
      | None => None
      end
  | _ => None
  end.

Definition unavailable (message : string) : exn :=
  internal_error SandboxErrorCodes.NETWORK_MODE_ENDPOINT_UNAVAILABLE message.

Definition resolve_host_mapped_endpoint (public_host : string) (labels : dict string) (port : Z)
    : result Endpoint :=
  let execd_host_port := parse_host_port_label (dget SANDBOX_EMBEDDING_PROXY_PORT_LABEL labels) in
  let http_host_port := parse_host_port_label (dget SANDBOX_HTTP_PORT_LABEL labels) in
  if (port =? 8080)%Z then
    match http_host_port with
    | None => Raise (unavailable "Missing host port mapping for container port 8080.")
    | Some p => Ok {| ep_endpoint := public_host +:+ ":" +:+ str_of_Z p; ep_headers := None |}
    end
  else
    match execd_host_port with
    | None => Raise (unavailable "Missing host port mapping for execd proxy port 44772.")
    | Some p =>
        Ok (attach_egress_auth_headers
              {| ep_endpoint := public_host +:+ ":" +:+ str_of_Z p +:+ "/proxy/" +:+ str_of_Z port;
                 ep_headers := None |} labels)
    end.

(** [conf.get("IPAddress") or None] of an entry that may be null. *)
Definition entry_ip (conf : option (option string)) : option string :=
  match conf with Some (Some (String _ _ as ip)) => Some ip | _ => None end.

Fixpoint first_ip (confs : list (option (option string))) : option string :=
  match confs with
  | [] => None
  | conf :: rest => match entry_ip conf with Some ip => Some ip | None => first_ip rest end
  end.

Definition extract_bridge_ip (container : Container) : result string :=
  let networks := net_networks (c_network container) in
  let by_name := if is_user_defined_network cfg
                 then entry_ip (default None (dget (service_network_mode cfg) networks)) else None in
  let by_default := match by_name with
                    | Some ip => Some ip
                    | None => entry_ip (Some (net_ip_address (c_network container)))
                    end in
  match (match by_default with Some ip => Some ip | None => first_ip (dvalues networks) end) with
  | Some ip => Ok ip
  | None => Raise (unavailable "Container is running but has no assigned IP address.")
  end.

Definition resolve_internal_endpoint (container : Container) (port : Z) : result Endpoint :=
  if bool_decide (service_network_mode cfg = HOST_NETWORK_MODE) then
    Ok {| ep_endpoint := "127.0.0.1:" +:+ str_of_Z port; ep_headers := None |}
  else
    ip_address ← extract_bridge_ip container;
    Ok {| ep_endpoint := ip_address +:+ ":" +:+ str_of_Z port; ep_headers := None |}.

Definition get_endpoint (sandbox_id : string) (port : Z) (resolve_internal : bool) : MW E Endpoint :=
  catch is_value_error (lift (ensure_valid_port port))
    (λ exc, raise (bad_request SandboxErrorCodes.INVALID_PORT (exn_text exc)));;
  if resolve_internal then
    container ← get_container_by_sandbox_id sandbox_id;
    let labels := labels_of container in
    if truthy_opt (dget SANDBOX_EGRESS_AUTH_TOKEN_METADATA_KEY labels) then
      host ← resolve_proxy_host;
      lift (resolve_host_mapped_endpoint host labels port)
    else lift (resolve_internal_endpoint container port)
  else
    public_host ← resolve_public_host;
    container ← get_container_by_sandbox_id sandbox_id;
    if bool_decide (service_network_mode cfg = HOST_NETWORK_MODE) then
      mret (attach_egress_auth_headers
        {| ep_endpoint := public_host +:+ ":" +:+ str_of_Z port; ep_headers := None |} (labels_of container))
    else lift (resolve_host_mapped_endpoint public_host (labels_of container) port).

End query.

Lemma parse_host_port_str p : (1 ≤ p ≤ 65535)%Z → parse_host_port_label (Some (str_of_Z p)) = Some p.
Proof.
  intros Hp. unfold parse_host_port_label. pose proof (truthy_str_of_Z p) as Ht.
  pose proof (py_int_str p) as Hi. destruct (str_of_Z p); [done|]. rewrite Hi.
  - rewrite (proj2 (Z.leb_gt _ _)), (proj2 (Z.ltb_ge _ _)) by lia. done.
  - split; [lia|]. apply Z.le_lt_trans with (2 ^ 16)%Z; [lia|]. apply Z.pow_lt_mono_r; lia.
Qed.

(** ** Ports and endpoints *)

Section endpoints.
Context {E : Type} `{HostEnv E} (cfg : AppConfig).

(** [random.randint(a, b)] returns a number of the closed interval. *)
Definition randint_in_range : Prop :=
  ∀ lo hi e, (lo ≤ hi)%Z → (lo ≤ (randint lo hi e).1 ≤ hi)%Z.

Lemma allocate_host_port_range w p w' :
  randint_in_range → allocate_host_port (E:=E) w = (Ok (Some p), w') → (40000 ≤ p ≤ 60000)%Z.
Proof.
  intros Hr. unfold allocate_host_port. generalize 50. intros n. revert w.
  induction n as [|n IH]; intros w; cbn [allocate_host_port_loop]; [done|].
  intros (port&w1&Hq&(free&w2&_&Hrest)%M_bind_Ok)%M_bind_Ok.
  destruct free; [|by eapply IH]. injection Hrest as <- <-. unfold query in Hq.
  specialize (Hr 40000%Z 60000%Z (env w) ltac:(lia)). destruct (randint _ _ _). by injection Hq as -> <-.
Qed.

Lemma distinct_port_loop_spec fuel a b w p q w' :
  randint_in_range → (40000 ≤ b ≤ 60000)%Z →
  distinct_port_loop (E:=E) fuel a b w = (Ok (p, q), w') → p = a ∧ p ≠ q ∧ (40000 ≤ q ≤ 60000)%Z.
Proof.
  intros Hr. revert b w. induction fuel as [|fuel IH]; intros b w Hb; cbn [distinct_port_loop];
    destruct (b =? a)%Z eqn:Hab; cbn [negb].
  - done.
  - intros [= <- <- <-]. apply Z.eqb_neq in Hab. split_and!; lia.
  - intros (o&w1&Ho&Hrest)%M_bind_Ok. destruct o as [p'|]; [|done].
    apply allocate_host_port_range in Ho; [|done]. by eapply IH.
  - intros [= <- <- <-]. apply Z.eqb_neq in Hab. split_and!; lia.
Qed.

Lemma allocate_distinct_spec w p q w' :
  randint_in_range → allocate_distinct_host_ports (E:=E) w = (Ok (p, q), w') →
  p ≠ q ∧ (1 ≤ p ≤ 65535)%Z ∧ (1 ≤ q ≤ 65535)%Z.
Proof.
  intros Hr (o1&w1&Ho1&(o2&w2&Ho2&Hrest)%M_bind_Ok)%M_bind_Ok.
  destruct o1 as [a|]; [|done]. destruct o2 as [b|]; [|done].
  apply allocate_host_port_range in Ho1, Ho2; [|done..].
  apply distinct_port_loop_spec in Hrest as (->&?&?); [|done..]. split_and!; (done || lia).
Qed.

(** The endpoints that the labels [port_labels p q] give. *)
Definition maps_to (labels : dict string) (p q : Z) : Prop :=
  ∀ host, resolve_host_mapped_endpoint host labels 8080
            = Ok {| ep_endpoint := host +:+ ":" +:+ str_of_Z q; ep_headers := None |} ∧
  ∀ port, port ≠ 8080%Z → resolve_host_mapped_endpoint host labels port
            = Ok (attach_egress_auth_headers
                    {| ep_endpoint := host +:+ ":" +:+ str_of_Z p +:+ "/proxy/" +:+ str_of_Z port;
                       ep_headers := None |} labels).

Lemma port_labels_map p q labels :
  (1 ≤ p ≤ 65535)%Z → (1 ≤ q ≤ 65535)%Z → maps_to (port_labels p q labels) p q.
Proof.
  intros Hp Hq host. unfold resolve_host_mapped_endpoint.
  assert (dget SANDBOX_EMBEDDING_PROXY_PORT_LABEL (port_labels p q labels) = Some (str_of_Z p)) as ->.
  { unfold port_labels. rewrite dget_set_ne by done. apply dget_set_eq. }
  assert (dget SANDBOX_HTTP_PORT_LABEL (port_labels p q labels) = Some (str_of_Z q)) as -> by apply dget_set_eq.
  rewrite !parse_host_port_str by done. split; [done|]. intros port Hport. by rewrite (proj2 (Z.eqb_neq _ _)).
Qed.

(** Outside of host networking every container that provisioning prepares
    can be reached: its labels resolve, for any host name, to the two distinct
    host ports that were allocated, the same ports that its container (or its
    side car) publishes; under a network policy the proxied endpoints carry the
    token of the side car. *)
Theorem prepared_endpoints_resolve sid req cache labels mem cpus w prep w' :
  randint_in_range →
  prepare_container (E:=E) cfg sid req cache labels mem cpus w = (Ok prep, w') →
  network_policy req ≠ None ∨ service_network_mode cfg ≠ HOST_NETWORK_MODE →
  ∃ p q, p ≠ q ∧ maps_to (prep_labels prep) p q ∧
    match network_policy req with
    | Some _ => ∃ token, dget SANDBOX_EGRESS_AUTH_TOKEN_METADATA_KEY (prep_labels prep) = Some token ∧
        (truthy token = true → ∀ host port, port ≠ 8080%Z →
           ∃ ep, resolve_host_mapped_endpoint host (prep_labels prep) port = Ok ep ∧
                 ep_headers ep = Some [(OPEN_SANDBOX_EGRESS_AUTH_HEADER, token)])
    | None => dget "port_bindings" (prep_kwargs prep) = Some (HPorts (port_bindings p q))
    end.
Proof.
  intros Hr. unfold prepare_container. intros (binds&w1&_&Hrest)%M_bind_Ok Hmode.
  destruct (network_policy req) as [policy|].
  - apply M_bind_Ok in Hrest as (token&w2&_&([p q]&w3&Hpq&(sidecar&w4&_&[= <- <-])%M_bind_Ok)%M_bind_Ok).
    apply allocate_distinct_spec in Hpq as (Hne&Hp&Hq); [|done]. exists p, q. cbn [prep_labels].
    pose proof (port_labels_map p q (dset SANDBOX_EGRESS_AUTH_TOKEN_METADATA_KEY token labels) Hp Hq) as Hm.
    split_and!; [done|done|]. exists token.
    assert (dget SANDBOX_EGRESS_AUTH_TOKEN_METADATA_KEY (port_labels p q
      (dset SANDBOX_EGRESS_AUTH_TOKEN_METADATA_KEY token labels)) = Some token) as Ht.
    { unfold port_labels. rewrite !dget_set_ne by done. apply dget_set_eq. }
    split; [exact Ht|]. intros Htr host port Hport. destruct (Hm host) as [_ Hm']. rewrite Hm' by done.
    eexists. split; [done|]. unfold attach_egress_auth_headers. rewrite Ht. by destruct token.
  - destruct Hmode as [Hmode|Hmode]; [done|]. rewrite bool_decide_eq_false_2 in Hrest by done. cbn [negb] in Hrest.
    apply M_bind_Ok in Hrest as ([p q]&w3&Hpq&[= <- <-]). cbn [prep_labels prep_kwargs].
    apply allocate_distinct_spec in Hpq as (Hne&Hp&Hq); [|done]. exists p, q. split_and!; [done| |].
    + by apply port_labels_map.
    + unfold with_binds. destruct binds; [|rewrite dget_set_ne by done]; apply dget_set_eq.
Qed.

End endpoints.

Lemma sim_randint_in_range : randint_in_range (E:=Sim).
Proof. intros lo hi e Hle. cbn. pose proof (Z.mod_pos_bound (Z.of_nat (sim_next e)) (hi - lo + 1)). lia. Qed.

Lemma prepared_endpoints_resolve_witness :
  ∃ prep w' p q, prepare_container bridge_config "sb" policy_request [] [] None None (provision_world [])
                   = (Ok prep, w') ∧ p ≠ q ∧ maps_to (prep_labels prep) p q.
Proof.
  destruct (prepare_container bridge_config "sb" policy_request [] [] None None (provision_world []))
    as [[prep|x] w'] eqn:Hp; [|vm_compute in Hp; discriminate].
  destruct (prepared_endpoints_resolve bridge_config "sb" policy_request [] [] None None (provision_world [])
    prep w' sim_randint_in_range Hp) as (p&q&Hne&Hm&_); [left; discriminate|].
  exists prep, w', p, q. split_and!; [reflexivity|exact Hne|exact Hm].
Defined.

(** ** The list *)

(** The part of the filter that only depends on the container. *)
Definition container_matches (f : SandboxFilter) (c : Container) : bool :=
  match filter_state f with
  | Some ((_ :: _) as states) => one_of (lower (container_state c).1.1) (lower <$> states)
  | _ => true
  end
  && match filter_metadata f with
     | Some wanted => metadata_matches (default [] (visible_metadata (labels_of c))) wanted
     | None => true
     end.

(** [s] is a view of the container [c]. *)
Record shows (c : Container) (s : Sandbox) : Prop := {
  shows_id : dget SANDBOX_ID_LABEL (labels_of c) = Some (sb_id s);
  shows_status : container_state c = (state (sb_status s), default EmptyString (reason (sb_status s)),
                                      default EmptyString (status_message (sb_status s)));
  shows_metadata : sb_metadata s = visible_metadata (labels_of c);
  shows_entrypoint : sb_entrypoint s = container_entrypoint c }.

Lemma shows_matches f c s : shows c s → matches_filter s f = container_matches f c.
Proof. intros [_ Hs Hm _]. unfold matches_filter, container_matches. by rewrite Hs, Hm. Qed.

Definition has_id (c : Container) (i : string) : Prop :=
  dget SANDBOX_ID_LABEL (labels_of c) = Some i ∧ truthy i = true.

Section listing.
Context {E : Type} `{HostEnv E}.

Lemma parse_timestampM_keeps P t : keeps (E:=E) P (parse_timestampM t).
Proof. unfold parse_timestampM. keeps. Qed.

Lemma container_to_sandbox_keeps P c o : keeps (E:=E) P (container_to_sandbox c o).
Proof.
  pose proof (parse_timestampM_keeps P) as Hp. unfold container_to_sandbox, get_tracked_expiration. keeps.
Qed.

Lemma container_to_sandbox_shows c i w s w' :
  has_id c i → container_to_sandbox (E:=E) c (Some i) w = (Ok s, w') → shows c s ∧ sb_id s = i.
Proof.
  intros [Hid Ht]. unfold container_to_sandbox. cbn [truthy_opt]. rewrite Ht. destruct i as [|a i]; [done|].
  destruct (container_state c) as [[st rs] msg] eqn:Hst.
  intros ([tags short]&w1&_&(cr&w2&_&(lt&w3&_&(ex&w4&_&(la&w5&_&[= <- <-])%M_bind_Ok)%M_bind_Ok)%M_bind_Ok)%M_bind_Ok)%M_bind_Ok.
  split; [|done]. split; done.
Qed.

(** The invariant of the first loop: each entry is filed under its identifier
    and is the matching view of one of the containers seen. *)
Definition listed (f : SandboxFilter) (seen : list Container) (acc : dict Sandbox) : Prop :=
  dict_wf acc ∧
  ∀ i s, dget i acc = Some s → sb_id s = i ∧ ∃ c, c ∈ seen ∧ shows c s ∧ container_matches f c = true.

Lemma list_loop_spec f seen acc ids rest w by_id ids' w' :
  listed f seen acc → (∀ i, i ∈ ids ↔ ∃ c, c ∈ seen ∧ has_id c i) →
  (∀ c i, c ∈ seen → has_id c i → container_matches f c = true → is_Some (dget i acc)) →
  list_containers_loop (E:=E) f acc ids rest w = (Ok (by_id, ids'), w') →
  listed f (seen ++ rest) by_id ∧ (∀ i, i ∈ ids' ↔ ∃ c, c ∈ seen ++ rest ∧ has_id c i) ∧
  (∀ c i, c ∈ seen ++ rest → has_id c i → container_matches f c = true → is_Some (dget i by_id)).
Proof.
  revert seen acc ids w. induction rest as [|c rest IH]; intros seen acc ids w Hl Hids Hc; cbn [list_containers_loop].
  { intros [= <- <- <-]. by rewrite app_nil_r. }
  rewrite (cons_middle c seen rest), (assoc_L (++)).
  assert (∀ acc', listed f seen acc' → listed f (seen ++ [c]) acc') as Hweak.
  { intros acc' [Hw Ha]. split; [done|]. intros i s Hi. destruct (Ha i s Hi) as (?&c'&?&?). split; [done|].
    exists c'. split; [set_solver|done]. }
  destruct (dget SANDBOX_ID_LABEL (labels_of c)) as [[|a i]|] eqn:Hid.
  1, 3: assert (∀ i, ¬ has_id c i) as Hno by (intros i [Hh Ht]; rewrite Hid in Hh; by simplify_eq);
    apply IH; [by apply Hweak| |];
    [intros i; rewrite Hids; split; [intros (c'&?&?); exists c'; set_solver|];
       intros (c'&[?| ->%list_elem_of_singleton]%elem_of_app&Hh); [by eauto|by destruct (Hno i)]
    |intros c' i [?| ->%list_elem_of_singleton]%elem_of_app Hh; [by eauto|by destruct (Hno i)]].
  intros (s&w1&Hs&Hrest)%M_bind_Ok. revert Hrest.
  assert (has_id c (String a i)) as Hhas by done.
  apply container_to_sandbox_shows in Hs as [Hsh Hsid]; [|done].
  rewrite (shows_matches f c s Hsh). destruct Hl as [Hw Ha].
  apply IH.
  - destruct (container_matches f c) eqn:Hm; [|by apply Hweak].
    split; [by apply dset_wf|]. intros i' s'. rewrite dget_set. case_decide as Hd; [intros [= <-]|].
    + subst i'. split; [done|]. exists c. split_and!; [set_solver|done|done].
    + intros Hi. by apply (Hweak acc (conj Hw Ha)).
  - intros i'. rewrite elem_of_union, elem_of_singleton, Hids. split.
    + intros [-> |(c'&?&?)]; [exists c|exists c']; split; (done || set_solver).
    + intros (c'&[?| ->%list_elem_of_singleton]%elem_of_app&Hh); [by eauto|]. left. destruct Hh, Hhas. congruence.
  - intros c' i' [Hin| ->%list_elem_of_singleton]%elem_of_app Hh Hm.
    + destruct (Hc _ _ Hin Hh Hm). destruct (container_matches f c); [|by eauto]. rewrite dget_set. case_decide; eauto.
    + assert (i' = String a i) as -> by (destruct Hh, Hhas; congruence). rewrite Hm, dget_set_eq. eauto.
Qed.

Lemma add_pending_get f ids acc pl i :
  dict_wf pl → dict_wf acc →
  dict_wf (fold_left (add_pending f ids) pl acc) ∧
  dget i (fold_left (add_pending f ids) pl acc) =
  match dget i pl with
  | Some p => if decide (i ∈ ids) then dget i acc else
              if matches_filter (pending_to_sandbox i p) f then Some (pending_to_sandbox i p) else dget i acc
  | None => dget i acc
  end.
Proof.
  unfold dict_wf, dkeys. revert acc. induction pl as [|[j p] pl IH]; intros acc; cbn [fold_left]; [done|].
  rewrite fmap_cons, NoDup_cons. intros [Hj Hpl] Hacc.
  assert (dict_wf (add_pending f ids acc (j, p))) as Hacc'.
  { unfold add_pending. destruct (bool_decide _); [done|]. destruct (matches_filter _ f); [by apply dset_wf|done]. }
  destruct (IH (add_pending f ids acc (j, p))) as [Hwf ->]; [done|done|]. split; [exact Hwf|]. cbn [dget].
  destruct (decide (i = j)) as [->|Hne].
  - rewrite (proj2 (dget_None j pl)) by done. unfold add_pending. destruct (decide (j ∈ ids)).
    + by rewrite bool_decide_eq_true_2.
    + rewrite bool_decide_eq_false_2 by done. destruct (matches_filter _ f); [apply dget_set_eq|done].
  - assert (dget i (add_pending f ids acc (j, p)) = dget i acc) as ->; [|done].
    unfold add_pending. destruct (bool_decide _); [done|].
    destruct (matches_filter (pending_to_sandbox j p) f); [by apply dget_set_ne|done].
Qed.

Lemma dvalues_elem {V} (d : dict V) v : dict_wf d → v ∈ dvalues d ↔ ∃ k, dget k d = Some v.
Proof.
  intros Hwf. unfold dvalues. rewrite list_elem_of_fmap. split.
  - intros ([k v']&->&Hin). exists k. by apply elem_dget.
  - intros [k Hk%dget_elem]. by exists (k, v).
Qed.

Lemma dvalues_ids (d : dict Sandbox) :
  dict_wf d → (∀ i s, dget i d = Some s → sb_id s = i) → NoDup (sb_id <$> dvalues d).
Proof.
  intros Hwf Hid. assert (sb_id <$> dvalues d = dkeys d) as ->; [|done].
  unfold dvalues, dkeys. rewrite <-list_fmap_compose. apply list_fmap_ext. intros n [k s] Hn. cbn.
  by apply Hid, elem_dget, list_elem_of_lookup_2 with n.
Qed.

Lemma sort_created_Ok l l' : sort_created l = Ok l' → newest_first l' ∧ l' ≡ₚ l.
Proof.
  unfold sort_created. destruct (_ || _); [|done]. intros [= <-]. split; [apply sort_desc_sorted|apply sort_desc_perm].
Qed.

Lemma list_loop_keeps P f acc ids rest : keeps (E:=E) P (list_containers_loop f acc ids rest).
Proof.
  pose proof (container_to_sandbox_keeps P) as Hc. revert acc ids.
  induction rest as [|c rest IH]; intros acc ids; cbn [list_containers_loop]; keeps.
Qed.

(** The answer of [list_sandboxes]: a page of the newest-first list of the
    sandboxes that match, each once. *)
Record list_answer (f : SandboxFilter) (pending : dict PendingSandbox) (cs : list Container)
    (all : list Sandbox) : Prop := {
  la_sorted : newest_first all;
  la_once : NoDup (sb_id <$> all);
  la_sound : ∀ s, s ∈ all → matches_filter s f = true ∧
    ((∃ c, c ∈ cs ∧ shows c s) ∨
     (∃ p, dget (sb_id s) pending = Some p ∧ s = pending_to_sandbox (sb_id s) p ∧
        ∀ c, c ∈ cs → ¬ has_id c (sb_id s)));
  la_containers : ∀ c i, c ∈ cs → has_id c i → container_matches f c = true → i ∈ sb_id <$> all;
  la_pending : ∀ i p, dget i pending = Some p → (∀ c, c ∈ cs → ¬ has_id c i) →
    matches_filter (pending_to_sandbox i p) f = true → pending_to_sandbox i p ∈ all }.

Lemma list_answer_perm f pending cs l all :
  newest_first all → all ≡ₚ l → NoDup (sb_id <$> l) →
  (∀ s, s ∈ l → matches_filter s f = true ∧
    ((∃ c, c ∈ cs ∧ shows c s) ∨
     (∃ p, dget (sb_id s) pending = Some p ∧ s = pending_to_sandbox (sb_id s) p ∧
        ∀ c, c ∈ cs → ¬ has_id c (sb_id s)))) →
  (∀ c i, c ∈ cs → has_id c i → container_matches f c = true → i ∈ sb_id <$> l) →
  (∀ i p, dget i pending = Some p → (∀ c, c ∈ cs → ¬ has_id c i) →
    matches_filter (pending_to_sandbox i p) f = true → pending_to_sandbox i p ∈ l) →
  list_answer f pending cs all.
Proof.
  intros Hs Hp Hn H1 H2 H3. split; [done|by rewrite Hp| | |].
  - intros s. rewrite Hp. apply H1.
  - intros c i. rewrite Hp. apply H2.
  - intros i p. rewrite Hp. apply H3.
Qed.

Lemma elem_of_ids i s (l : list Sandbox) : s ∈ l → sb_id s = i → i ∈ sb_id <$> l.
Proof. intros Hs <-. by apply list_elem_of_fmap_2. Qed.

(** What both loops leave in [sandboxes_by_id]. *)
Lemma list_loops_answer f pending cs by_id ids all :
  dict_wf pending → listed f cs by_id → (∀ i, i ∈ ids ↔ ∃ c, c ∈ cs ∧ has_id c i) →
  (∀ c i, c ∈ cs → has_id c i → container_matches f c = true → is_Some (dget i by_id)) →
  sort_created (dvalues (fold_left (add_pending f ids) pending by_id)) = Ok all →
  list_answer f pending cs all.
Proof.
  intros Hwf [Hw Hl] Hids Hc [Hs Hp]%sort_created_Ok.
  pose proof (λ i, add_pending_get f ids by_id pending i Hwf Hw) as Hg.
  set (d := fold_left _ _ _) in *. assert (dict_wf d) as Hd by apply (Hg EmptyString).
  assert (∀ i s, dget i d = Some s → sb_id s = i ∧
    (dget i by_id = Some s ∨ (∃ p, dget i pending = Some p ∧ s = pending_to_sandbox i p ∧ (i ∉ ids) ∧
       matches_filter s f = true))) as Hinv.
  { intros i s. destruct (Hg i) as [_ ->]. destruct (dget i pending) as [p|] eqn:Hi; [|by intros Hb; split; [apply Hl|auto]].
    case_decide; [by intros Hb; split; [apply Hl|auto]|].
    destruct (matches_filter (pending_to_sandbox i p) f) eqn:Hm; [|by intros Hb; split; [apply Hl|auto]].
    intros [= <-]. split; [done|]. right. by exists p. }
  apply (list_answer_perm f pending cs _ all Hs Hp).
  - apply dvalues_ids; [done|]. intros i s Hi. by apply Hinv.
  - intros s [i Hi]%dvalues_elem; [|done]. destruct (Hinv i s Hi) as [<- [Hb|(p&Hpd&Heq&Hni&Hm)]].
    + destruct (Hl _ _ Hb) as (_&c&Hin&Hsh&Hm). split; [by rewrite (shows_matches f c s Hsh)|]. left. eauto.
    + split; [done|]. right. exists p. split_and!; [done|done|]. intros c Hin Hh. apply Hni, Hids. eauto.
  - intros c i Hin Hh Hm. destruct (Hc c i Hin Hh Hm) as [s Hb].
    assert (dget i d = Some s) as Hi.
    { destruct (Hg i) as [_ ->]. destruct (dget i pending); [|done]. rewrite decide_True; [done|]. apply Hids. eauto. }
    apply (elem_of_ids i s); [apply dvalues_elem; eauto|by apply Hinv].
  - intros i p Hi Hno Hm. apply dvalues_elem; [done|]. exists i. destruct (Hg i) as [_ ->]. rewrite Hi, decide_False.
    + by rewrite Hm.
    + rewrite Hids. intros (c&Hin&Hh). by apply (Hno c).
Qed.

(** C35: what [list_sandboxes] returns is the requested page of a list that is
    sorted newest first and holds exactly the sandboxes that match the filter,
    each once: a view of its container when it has one, its pending record only
    when no container carries its identifier.  The call changes no table. *)
Theorem list_sandboxes_spec request w resp w' :
  dict_wf (pending_sandboxes (svc w)) →
  list_sandboxes (E:=E) request w = (Ok resp, w') →
  svc w' = svc w ∧
  ∃ cs e all, containers_list (HasLabel SANDBOX_ID_LABEL) (env w) = (Ok cs, e) ∧
    resp = paginate (list_pagination request) all ∧
    list_answer (Schema.list_filter request) (pending_sandboxes (svc w)) cs all.
Proof.
  intros Hwf. unfold list_sandboxes.
  intros (cs&w1&Hcs&([by_id ids]&w2&Hloop&(pl&w3&[= <- <-]&(all&w4&Hsort&[= <- <-])%M_bind_Ok)%M_bind_Ok)%M_bind_Ok)%M_bind_Ok.
  unfold catch, try_except, call in Hcs.
  destruct (containers_list _ (env w)) as [[cs'|x] e]; [|by destruct (is_docker_exn x)]. injection Hcs as -> <-.
  assert (svc w2 = svc w) as Hw2 by (by refine (list_loop_keeps (λ s, s = svc w) _ _ _ _ _ _ _ _ Hloop)).
  injection Hsort as Hsort <-.
  split; [done|]. exists cs, e, all. split_and!; [done|done|]. rewrite Hw2 in Hsort.
  apply (list_loop_spec _ []) in Hloop as (Hl&Hids&Hc); [|by split; [apply NoDup_nil_2|]|set_solver|set_solver].
  by apply (list_loops_answer _ _ _ by_id ids).
Qed.

End listing.

Definition listing_world : World Sim := {|
  svc := svc (pending_world []);
  env := sim_set_containers (λ _, [sim_container "c1" [(SANDBOX_ID_LABEL, "a"); ("team", "core")] true]) sim_init |}.

Definition list_everything : ListSandboxesRequest :=
  {| Schema.list_filter := {| filter_state := None; filter_metadata := None |}; list_pagination := None |}.

Lemma list_sandboxes_spec_witness :
  ∃ resp w', list_sandboxes list_everything listing_world = (Ok resp, w') ∧
    sb_id <$> items resp = ["a"; "sb"] ∧ svc w' = svc listing_world.
Proof.
  destruct (list_sandboxes list_everything listing_world) as [[resp|x] w'] eqn:Hl;
    [|vm_compute in Hl; discriminate].
  destruct (list_sandboxes_spec list_everything listing_world resp w' (NoDup_singleton "sb") Hl) as [Hw _].
  exists resp, w'. split_and!; [reflexivity| |exact Hw]. vm_compute in Hl. injection Hl as <- _. reflexivity.
Defined.

(** ** A sandbox that is created in the background *)

Section visible.
Context {E : Type} `{HostEnv E} (cfg : AppConfig) (ttl : Z).

Lemma get_sandbox_pending sid (w : World E) e :
  containers_list (LabelEq SANDBOX_ID_LABEL sid) (env w) = (Ok [], e) →
  get_sandbox sid w =
  (match dget sid (pending_sandboxes (svc w)) with
   | Some p => Ok (pending_to_sandbox sid p)
   | None => Raise (HTTPException 404 SandboxErrorCodes.SANDBOX_NOT_FOUND ("Sandbox " +:+ sid +:+ " not found."))
   end, Build_World (svc w) e).
Proof.
  intros Hc. unfold get_sandbox, get_container_by_sandbox_id, get_pending_sandbox, catch, try_except, mbind, M_bind,
    call, get_svc. rewrite Hc. cbn. by destruct (dget sid _).
Qed.

Lemma create_async_inv req w resp job w1 :
  create_sandbox_async (E:=E) cfg req w = (Ok (resp, job), w1) →
  job_id job = resp_id resp ∧
  dget (resp_id resp) (pending_sandboxes (svc w1)) =
    Some {| pend_request := req; pend_created_at := resp_created_at resp; pend_expires_at := resp_expires_at resp;
            pend_status := resp_status resp |} ∧
  resp_metadata resp = req_metadata req ∧ resp_entrypoint resp = entrypoint req ∧
  state (resp_status resp) = "Pending".
Proof.
  unfold create_sandbox_async.
  intros (cache&w2&_&([[sid created] exp]&w3&_&([]&w4&[= <-]&[= <- <- <-])%M_bind_Ok)%M_bind_Ok)%M_bind_Ok.
  cbn. split_and!; try done. apply dget_set_eq.
Qed.

(** C36: the answer of [create_sandbox_async] can be read back: as long as no
    container carries the identifier, [get_sandbox] returns the sandbox with the
    same status, metadata, expiration, creation time and entry point; and once
    the worker has ended without leaving a container it reports [Failed] or 404,
    never [Pending]. *)
Theorem async_create_visible req w resp job w1 e1 w2 r2 w3 e3 :
  create_sandbox_async (E:=E) cfg req w = (Ok (resp, job), w1) →
  containers_list (LabelEq SANDBOX_ID_LABEL (resp_id resp)) (env w1) = (Ok [], e1) →
  dict_wf (pending_sandboxes (svc w2)) →
  async_provision_worker (E:=E) cfg ttl job w2 = (r2, w3) →
  containers_list (LabelEq SANDBOX_ID_LABEL (resp_id resp)) (env w3) = (Ok [], e3) →
  (get_sandbox (resp_id resp) w1).1 =
    Ok {| sb_id := resp_id resp; sb_image := image req; sb_status := resp_status resp;
          sb_metadata := resp_metadata resp; sb_entrypoint := resp_entrypoint resp;
          sb_expires_at := resp_expires_at resp; sb_created_at := resp_created_at resp;
          sb_last_activity_at := Some (resp_created_at resp) |} ∧
  state (resp_status resp) = "Pending" ∧
  match (get_sandbox (resp_id resp) w3).1 with
  | Ok s => state (sb_status s) = "Failed"
  | Raise x => http_status x = 404%Z
  end.
Proof.
  intros (Hj&Hp&Hm&Hent&Hst)%create_async_inv Hc1 Hwf Hwork Hc3.
  rewrite (get_sandbox_pending _ _ _ Hc1), (get_sandbox_pending _ _ _ Hc3), Hp. cbn [fst]. split_and!; [|done|].
  - unfold pending_to_sandbox. cbn. by rewrite Hm, Hent.
  - apply worker_settles in Hwork; [|done]. unfold settled in Hwork. rewrite Hj in Hwork.
    destruct (dget (resp_id resp) (pending_sandboxes (svc w3))) as [p|]; [|done]. by apply (Hwork p).
Qed.

End visible.

Lemma async_create_visible_witness :
  ∃ resp job w1 r2 w3,
    create_sandbox_async host_config bucket_request (provision_world ["start"]) = (Ok (resp, job), w1) ∧
    async_provision_worker host_config 3600 job w1 = (r2, w3) ∧
    match (get_sandbox (resp_id resp) w3).1 with
    | Ok s => state (sb_status s) = "Failed"
    | Raise x => http_status x = 404%Z
    end.
Proof.
  destruct (create_sandbox_async host_config bucket_request (provision_world ["start"]))
    as [[[resp job]|x] w1] eqn:Hc; [|vm_compute in Hc; discriminate].
  destruct (async_provision_worker host_config 3600 job w1) as [r2 w3] eqn:Hw.
  exists resp, job, w1, r2, w3. split; [reflexivity|]. split; [exact Hw|].
  refine (proj2 (proj2 (async_create_visible host_config 3600 bucket_request (provision_world ["start"]) resp job w1
    (env w1) w1 r2 w3 (env w3) Hc _ _ Hw _))); vm_compute in Hc; injection Hc as <- <- <-.
  - vm_compute. reflexivity.
  - vm_compute. repeat constructor. apply not_elem_of_nil.
  - vm_compute in Hw. injection Hw as <- <-. vm_compute. reflexivity.
Defined.
