(* ===== verification/DockerSystem.v ===== *)
(** * The Docker service as a transition system

    Requests, worker threads, timer callbacks and the outside world take steps in
    any order.  Each operation is one step: the code guards its tables with locks
    and every section under a lock is one [put_svc] of the model.  The theorems
    hold in every state that can be reached after a start. *)

From Stdlib Require Import Ascii.
From S2P Require Import Prelude PyString PyDict PyTime Json Schema Validators Config Helpers.
From S2P Require Import DockerHost SimHost Ossfs OssfsMounts DockerExpiry DockerTimers DockerVolumes.
From S2P Require Import Shlex Common Listing DockerProvision DockerPending Provisioning DockerQuery.
Open Scope string_scope.
Open Scope list_scope.

(** ** The system *)

(** The tables, the outside, and the worker threads that are still running. *)
Record System (E : Type) := { sys_world : World E; sys_jobs : list ProvisionJob }.
Arguments sys_world {E} s.
Arguments sys_jobs {E} s.
Arguments Build_System {E} sys_world sys_jobs.

Inductive request :=
| Create (r : CreateSandboxRequest)
| CreateAsync (r : CreateSandboxRequest)
| ListAll (r : ListSandboxesRequest)
| Get (sandbox_id : string)
| Delete (sandbox_id : string)
| Pause (sandbox_id : string)
| Resume (sandbox_id : string)
| Renew (sandbox_id : string) (r : RenewSandboxExpirationRequest)
| Touch (sandbox_id : string)
| GetEndpoint (sandbox_id : string) (port : Z) (resolve_internal : bool).

(** [Timer.run]: the callback starts once. *)
Definition mark_fired (i : nat) (s : Service) : Service := set_timers id (alter fire_timer i) s.

Section system.
Context {E : Type} `{HostEnv E} `{NetEnv E} (cfg : AppConfig) (ttl : Z).

Definition discard {A B} (b : B) (m : MW E A) : MW E B := m;; mret b.

(** A request; [create_sandbox_async] starts a worker. *)
Definition handle (q : request) : MW E (option ProvisionJob) :=
  match q with
  | Create r => discard None (create_sandbox cfg r)
  | CreateAsync r => '(_, job) ← create_sandbox_async cfg r; mret (Some job)
  | ListAll r => discard None (list_sandboxes r)
  | Get sid => discard None (get_sandbox sid)
  | Delete sid => discard None (delete_sandbox sid)
  | Pause sid => discard None (pause_sandbox sid)
  | Resume sid => discard None (resume_sandbox sid)
  | Renew sid r => discard None (renew_expiration sid r)
  | Touch sid => discard None (touch_last_activity sid)
  | GetEndpoint sid port internal => discard None (get_endpoint cfg sid port internal)
  end.

Definition run_callback (cb : callback) : MW E unit :=
  match cb with
  | ExpireSandbox sid fallback => expire_sandbox sid fallback
  | RemovePending sid => remove_pending_sandbox sid
  end.

Context `{!ReliableHost E}.

Inductive step (y : System E) : System E → Prop :=
| StepRequest q r w :
    handle q (sys_world y) = (r, w) →
    step y (Build_System w (match r with Ok (Some job) => job :: sys_jobs y | _ => sys_jobs y end))
| StepWorker l1 job l2 r w :
    sys_jobs y = l1 ++ job :: l2 →
    async_provision_worker cfg ttl job (sys_world y) = (r, w) →
    step y (Build_System w (l1 ++ l2))
| StepTimer i t r w :
    timers (svc (sys_world y)) !! i = Some t → live t →
    (t_deadline t ≤ time (env (sys_world y)))%Z →
    run_callback (t_callback t) (Build_World (mark_fired i (svc (sys_world y))) (env (sys_world y))) = (r, w) →
    step y (Build_System w (sys_jobs y))
| StepOutside e :
    (time (env (sys_world y)) ≤ time e)%Z →
    step y (Build_System (Build_World (svc (sys_world y)) e) (sys_jobs y)).

(** The states after a start of the server, which restores the tables. *)
Inductive reachable : System E → Prop :=
| ReachStart e w :
    restore_existing_sandboxes (Build_World empty_service e) = (Ok tt, w) → reachable (Build_System w [])
| ReachStep y y' : reachable y → step y y' → reachable y'.

End system.

(** ** Timers of pending records *)

Lemma pending_timer_other s sid sid' j t :
  timers_ok s → expiration_timers s !! sid' = Some j → timers s !! j = Some t →
  cancel_opt (pending_cleanup_timers s !! sid) (timers s) !! j = Some t.
Proof.
  intros Hok Hj Ht. destruct (cancel_opt_same (pending_cleanup_timers s !! sid) _ _ _ Ht) as (t'&Ht'&_&Heq).
  rewrite Ht'. f_equal. apply Heq. intros Hs.
  destruct (to_pending_entry _ Hok _ _ Hs) as (t1&Ht1&Hc1). destruct (to_entry _ Hok _ _ Hj) as (t2&fb2&Ht2&Hc2).
  congruence.
Qed.

(** A live timer survives the cancelling of another one. *)
Lemma cancel_opt_live o ts j t : cancel_opt o ts !! j = Some t → live t → ts !! j = Some t ∧ o ≠ Some j.
Proof.
  intros Hj Hl. destruct (cancel_opt_lookup _ _ _ _ Hj) as (t0&Ht0&_&Hc1&Hc2).
  assert (o ≠ Some j) as Hne by (intros Ho; destruct (live_not_cancelled _ Hl); by apply Hc1).
  by rewrite (Hc2 Hne) in *.
Qed.

Lemma cancel_opt_callback o ts j t : ts !! j = Some t → ∃ t', cancel_opt o ts !! j = Some t' ∧ t_callback t' = t_callback t.
Proof. intros Ht. destruct (cancel_opt_same o _ _ _ Ht) as (t'&?&?&_). eauto. Qed.

Lemma drop_pending_ok sid s : timers_ok s → timers_ok (drop_pending sid s).
Proof.
  intros [He Hl Hpe Hpl]. unfold drop_pending. split; cbn.
  - intros sid' j (t&fb&Ht&Hcb)%He. destruct (cancel_opt_callback (pending_cleanup_timers s !! sid) _ _ _ Ht) as (t'&?&?).
    exists t', fb. split; [done|congruence].
  - intros j t sid' fb Hj Hlive Hcb. destruct (cancel_opt_live _ _ _ _ Hj Hlive) as [Hj' _]. by eapply Hl.
  - intros sid' j [Hne (t&Ht&Hcb)%Hpe]%lookup_delete_Some.
    destruct (cancel_opt_callback (pending_cleanup_timers s !! sid) _ _ _ Ht) as (t'&?&?). exists t'. split; [done|congruence].
  - intros j t sid' Hj Hlive Hcb. destruct (cancel_opt_live _ _ _ _ Hj Hlive) as [Hj' Hne].
    pose proof (Hpl _ _ _ Hj' Hlive Hcb). rewrite lookup_delete_ne; [done|]. by intros ->.
Qed.

Lemma install_pending_ok sid d s :
  timers_ok s →
  timers_ok (install_pending_timer sid {| t_deadline := d; t_callback := RemovePending sid;
                                          t_cancelled := false; t_fired := false |} s).
Proof.
  intros [He Hl Hpe Hpl]. set (nt := {| t_deadline := d |}). set (o := pending_cleanup_timers s !! sid).
  assert (∀ j t, timers s !! j = Some t → ∃ t', (cancel_opt o (timers s) ++ [nt]) !! j = Some t' ∧
            t_callback t' = t_callback t) as Hkeep.
  { intros j t Ht. destruct (cancel_opt_callback o _ _ _ Ht) as (t'&Ht'&?). exists t'. split; [|done].
    by apply lookup_app_l_Some. }
  unfold install_pending_timer. split; cbn; fold o.
  - intros sid' j (t&fb&Ht&Hcb)%He. destruct (Hkeep _ _ Ht) as (t'&?&?). exists t', fb. split; [done|congruence].
  - intros j t sid' fb [Hj|[-> ->]]%snoc_lookup Hlive Hcb; [|done].
    destruct (cancel_opt_live _ _ _ _ Hj Hlive) as [Hj' _]. by eapply Hl.
  - intros sid' j. rewrite lookup_insert. case_decide; [intros [= <-]|].
    + subst sid'. exists nt. split; [|done].
      rewrite lookup_app_r, cancel_opt_length, Nat.sub_diag by (rewrite cancel_opt_length; lia). done.
    + intros (t&Ht&Hcb)%Hpe. destruct (Hkeep _ _ Ht) as (t'&?&?). exists t'. split; [done|congruence].
  - intros j t sid' [Hj|[-> ->]]%snoc_lookup Hlive Hcb.
    + destruct (cancel_opt_live _ _ _ _ Hj Hlive) as [Hj' Hne]. pose proof (Hpl _ _ _ Hj' Hlive Hcb).
      rewrite lookup_insert_ne; [done|]. by intros ->.
    + injection Hcb as <-. by rewrite lookup_insert_eq, cancel_opt_length.
Qed.

Lemma drop_pending_inv sid s : inv s → inv (drop_pending sid s).
Proof.
  intros [Hok Hs]. split; [by apply drop_pending_ok|]. intros sid' e _ He.
  destruct (Hs sid' e) as (Ha&j&t&Hj&Ht&Hl&Hi); [done|done|]. split; [done|]. exists j, t. split_and!; try done.
  by eapply pending_timer_other.
Qed.

Lemma install_pending_inv sid d s :
  inv s → inv (install_pending_timer sid {| t_deadline := d; t_callback := RemovePending sid;
                                            t_cancelled := false; t_fired := false |} s).
Proof.
  intros [Hok Hs]. split; [by apply install_pending_ok|]. intros sid' e _ He.
  destruct (Hs sid' e) as (Ha&j&t&Hj&Ht&Hl&Hi); [done|done|]. split; [done|]. exists j, t. split_and!; try done.
  cbn. apply lookup_app_l_Some. by eapply pending_timer_other.
Qed.

(** ** A timer that fires *)

Lemma mark_fired_lookup i s j t :
  timers (mark_fired i s) !! j = Some t →
  ∃ t0, timers s !! j = Some t0 ∧ t_callback t = t_callback t0 ∧ (live t → i ≠ j ∧ t = t0).
Proof.
  unfold mark_fired. cbn. destruct (decide (i = j)) as [->|Hne].
  - rewrite list_lookup_alter_eq. intros (t0&->&->)%fmap_Some. exists t0. split_and!; [done|done|]. by intros [_ ?].
  - rewrite list_lookup_alter_ne by done. intros Ht. exists t. naive_solver.
Qed.

Lemma mark_fired_callback i s j t :
  timers s !! j = Some t → ∃ t', timers (mark_fired i s) !! j = Some t' ∧ t_callback t' = t_callback t ∧ (i ≠ j → t' = t).
Proof.
  intros Ht. unfold mark_fired. cbn. destruct (decide (i = j)) as [->|Hne].
  - rewrite list_lookup_alter_eq, Ht. cbn. eexists. split_and!; done.
  - rewrite list_lookup_alter_ne by done. eauto.
Qed.

Lemma mark_fired_ok i s : timers_ok s → timers_ok (mark_fired i s).
Proof.
  intros [He Hl Hpe Hpl]. split.
  - intros sid j (t&fb&Ht&Hcb)%He. destruct (mark_fired_callback i _ _ _ Ht) as (t'&?&?&_).
    exists t', fb. split; [done|congruence].
  - intros j t sid fb Hj Hlive Hcb. destruct (mark_fired_lookup _ _ _ _ Hj) as (t0&Ht0&_&Hx).
    destruct (Hx Hlive) as [_ ->]. by eapply Hl.
  - intros sid j (t&Ht&Hcb)%Hpe. destruct (mark_fired_callback i _ _ _ Ht) as (t'&?&?&_).
    exists t'. split; [done|congruence].
  - intros j t sid Hj Hlive Hcb. destruct (mark_fired_lookup _ _ _ _ Hj) as (t0&Ht0&_&Hx).
    destruct (Hx Hlive) as [_ ->]. by eapply Hpl.
Qed.

(** The tracked sandboxes whose timer is not the one that fires keep theirs. *)
Lemma mark_fired_tracked i t x s :
  timers_ok s → timers s !! i = Some t →
  (∀ sid fb, t_callback t = ExpireSandbox sid fb → x = Some sid) →
  tracked_live s → tracked_live_but x (mark_fired i s).
Proof.
  intros Hok Hi Hx Hs sid e Hne He. destruct (Hs sid e) as (Ha&j&t0&Hj&Ht&Hl&Hd); [done|done|].
  split; [done|]. exists j, t0. split_and!; try done.
  destruct (mark_fired_callback i _ _ _ Ht) as (t'&Ht'&_&Heq). rewrite Ht'. f_equal. apply Heq. intros ->.
  destruct (to_entry _ Hok _ _ Hj) as (t1&fb&Ht1&Hcb). rewrite Hi in Ht1. injection Ht1 as <-.
  by rewrite (Hx sid fb Hcb) in Hne.
Qed.

(** ** What the operations preserve *)

Section preserved.
Context {E : Type} `{HostEnv E} `{NetEnv E} (cfg : AppConfig) (ttl : Z).

Lemma pending_timer_stable d : timer_stable (E:=E) (λ s, pending_sandboxes s = d).
Proof.
  assert (refs_free (λ s, pending_sandboxes s = d)) as Hr by (by intros f s).
  assert (∀ sid exp b fb, keeps (E:=E) (λ s, pending_sandboxes s = d) (schedule_expiration sid exp b fb)) as Hs.
  { intros sid exp b fb. unfold schedule_expiration. keeps. apply keeps_put. intros s <-. by destruct b. }
  split; [done|by intros sid s|auto|]. intros sid fb exc.
  pose proof (λ keys, release_ossfs_mounts_keeps (E:=E) _ keys Hr).
  unfold expire_unavailable, remove_expiration_tracking. keeps. by apply keeps_put.
Qed.

Lemma inv_provision_stable : provision_stable (E:=E) inv.
Proof.
  split; [apply inv_refs_free| |intros; apply schedule_keeps_inv].
  intros v s [[] Ht]. split; [by split|exact Ht].
Qed.

Lemma inv_set_pending f s : inv s → inv (set_pending f s).
Proof. intros [[] Ht]. split; [by split|exact Ht]. Qed.

Lemma validate_create_keeps P req : keeps (E:=E) P (validate_create cfg req).
Proof.
  assert (∀ vols cache, keeps (E:=E) P (validate_volumes_loop (storage cfg) vols cache)) as Hl.
  { induction vols as [|v vols IH]; intros cache; cbn [validate_volumes_loop]; [apply keeps_ret|].
    apply keeps_bind; [|intros; apply IH].
    unfold validate_host_volume, validate_pvc_volume, validate_pvc_sub_path. keeps. }
  unfold validate_create, validate_network_exists, validate_volumes. keeps.
Qed.

Lemma prepare_creation_context_keeps P req : keeps (E:=E) P (prepare_creation_context req).
Proof. unfold prepare_creation_context. keeps. Qed.

Lemma list_sandboxes_keeps P r : keeps (E:=E) P (list_sandboxes r).
Proof. pose proof (list_loop_keeps (E:=E) P). unfold list_sandboxes, iter_pending_sandboxes. keeps. Qed.

Lemma get_sandbox_keeps P sid : keeps (E:=E) P (get_sandbox sid).
Proof.
  pose proof (container_to_sandbox_keeps (E:=E) P). pose proof (get_container_keeps (E:=E) P).
  unfold get_sandbox, get_pending_sandbox. keeps.
Qed.

Lemma get_endpoint_keeps P sid port b : keeps (E:=E) P (get_endpoint cfg sid port b).
Proof.
  pose proof (get_container_keeps (E:=E) P).
  unfold get_endpoint, resolve_proxy_host, resolve_public_host, resolve_host, resolve_bind_ip, resolve_bind_ip_by,
    running_inside_docker_container. keeps.
Qed.

(** Every request but [create_sandbox_async] leaves the pending records alone. *)
Lemma handle_keeps P q :
  timer_stable (E:=E) P → provision_stable (E:=E) P →
  (match q with CreateAsync _ => ∀ f s, P s → P (set_pending f s) | _ => True end) →
  keeps (E:=E) P (handle cfg q).
Proof.
  intros Ht Hp Hq.
  pose proof (λ a b c d e, provision_sandbox_keeps (E:=E) cfg P a b c d e Hp) as H1.
  pose proof (validate_create_keeps P) as H2. pose proof (prepare_creation_context_keeps P) as H3.
  pose proof (list_sandboxes_keeps P) as H4. pose proof (get_sandbox_keeps P) as H5.
  pose proof (get_endpoint_keeps P) as H6.
  pose proof (delete_sandbox_keeps P Ht) as D1. pose proof (renew_expiration_keeps P Ht) as D4.
  pose proof (pause_sandbox_keeps (E:=E) P) as D2. pose proof (resume_sandbox_keeps (E:=E) P) as D3.
  pose proof (touch_last_activity_keeps (E:=E) P) as D5.
  unfold handle, discard, create_sandbox, create_sandbox_async.
  destruct q; keeps. apply keeps_put. intros. by apply Hq.
Qed.

Record worker_stable (sid : string) (P : Service → Prop) : Prop := {
  ws_provision : provision_stable (E:=E) P;
  ws_set : ∀ p s, P s → P (set_pending (dset sid p) s);
  ws_drop : ∀ s, P s → P (drop_pending sid s);
  ws_install : ∀ d s, P s →
    P (install_pending_timer sid {| t_deadline := d; t_callback := RemovePending sid;
                                    t_cancelled := false; t_fired := false |} s) }.

Lemma worker_keeps P job :
  worker_stable (job_id job) P → keeps (E:=E) P (async_provision_worker cfg ttl job).
Proof.
  intros [Hp Hs Hd Hi].
  pose proof (λ a b c d e, provision_sandbox_keeps (E:=E) cfg P a b c d e Hp) as H1.
  pose proof (cleanup_failed_containers_keeps (E:=E) P (job_id job) (ps_refs _ Hp)) as H2.
  unfold async_provision_worker, provision_failed, mark_pending_failed, get_pending_sandbox,
    schedule_pending_cleanup, remove_pending_sandbox.
  keeps; apply keeps_put; auto.
Qed.

Lemma inv_worker_stable sid : worker_stable sid inv.
Proof.
  split; [apply inv_provision_stable|intros; by apply inv_set_pending|intros; by apply drop_pending_inv|].
  intros. by apply install_pending_inv.
Qed.

(** The other pending records stay as they are. *)
Definition others_kept (sid : string) (d : dict PendingSandbox) (s : Service) : Prop :=
  dict_wf (pending_sandboxes s) ∧ ∀ x, x ≠ sid → dget x (pending_sandboxes s) = dget x d.

Lemma others_worker_stable sid d : worker_stable sid (others_kept sid d).
Proof.
  split.
  - split; [by intros f s|by intros v s|]. intros x t. unfold schedule_expiration. keeps. by apply keeps_put.
  - intros p s [Hw Ho]. split; cbn; [by apply dset_wf|]. intros x Hx. rewrite dget_set_ne by done. by apply Ho.
  - intros s [Hw Ho]. split; cbn; [by apply dpop_wf|]. intros x Hx. rewrite dget_pop by done.
    rewrite decide_False by done. by apply Ho.
  - intros t s Hs. exact Hs.
Qed.

End preserved.

(** ** The invariant of the system *)

Section reachability.
Context {E : Type} `{HostEnv E} `{NetEnv E} `{!ReliableHost E} (cfg : AppConfig) (ttl : Z).

Record sys_inv (y : System E) : Prop := {
  si_inv : inv (svc (sys_world y));
  si_pending : dict_wf (pending_sandboxes (svc (sys_world y)));
  si_jobs : ∀ sid p, dget sid (pending_sandboxes (svc (sys_world y))) = Some p →
    state (pend_status p) = "Failed" ∨ ∃ job, job ∈ sys_jobs y ∧ job_id job = sid }.

Lemma sys_inv_same y w jobs :
  sys_inv y → inv (svc w) → pending_sandboxes (svc w) = pending_sandboxes (svc (sys_world y)) →
  sys_jobs y ⊆ jobs → sys_inv (Build_System w jobs).
Proof.
  intros [_ Hd Hj] Hi Hp Hsub. split; cbn; [done|by rewrite Hp|]. intros sid p. rewrite Hp. intros Hg.
  destruct (Hj _ _ Hg) as [?|(job&?&?)]; [by left|right]. exists job. split; [by apply Hsub|done].
Qed.

Lemma create_async_pending req w r w' :
  create_sandbox_async (E:=E) cfg req w = (r, w') →
  match r with
  | Ok (_, job) => ∃ p, pending_sandboxes (svc w') = dset (job_id job) p (pending_sandboxes (svc w))
  | Raise _ => pending_sandboxes (svc w') = pending_sandboxes (svc w)
  end.
Proof.
  unfold create_sandbox_async, mbind at 1, M_bind.
  destruct (validate_create cfg req w) as [[cache|x] w1] eqn:Hv;
    pose proof (validate_create_keeps cfg (λ s, pending_sandboxes s = pending_sandboxes (svc w)) req _ _ _ eq_refl Hv) as Hw1;
    [|by intros [= <- <-]].
  unfold mbind at 1, M_bind. destruct (prepare_creation_context req w1) as [[[[sid created] exp]|x] w2] eqn:Hc;
    pose proof (prepare_creation_context_keeps (λ s, pending_sandboxes s = pending_sandboxes (svc w)) req _ _ _ Hw1 Hc) as Hw2;
    [|by intros [= <- <-]].
  intros [= <- <-]. eexists. cbn. by rewrite Hw2.
Qed.

Lemma request_sys_inv y q r w :
  sys_inv y → handle cfg q (sys_world y) = (r, w) →
  sys_inv (Build_System w (match r with Ok (Some job) => job :: sys_jobs y | _ => sys_jobs y end)).
Proof.
  intros Hy Hq. pose proof Hy as [Hi Hd Hj].
  assert (inv (svc w)) as Hi'.
  { eapply (handle_keeps cfg inv q inv_stable inv_provision_stable); [|exact Hi|exact Hq].
    destruct q; try done. intros. by apply inv_set_pending. }
  assert ((∃ req, q = CreateAsync req) ∨ (∀ req, q ≠ CreateAsync req)) as [[req ->]|Hne]
    by (destruct q; first [by left; eauto|by right]).
  - revert Hq. cbn [handle]. unfold mbind, M_bind. destruct (create_sandbox_async cfg req (sys_world y)) as [rc w1] eqn:Hc.
    apply create_async_pending in Hc. destruct rc as [[resp job]|x]; intros [= <- <-].
    + destruct Hc as [p Hp]. split; cbn; [done|rewrite Hp; by apply dset_wf|].
      intros sid p'. rewrite Hp, dget_set. case_decide as Hs.
      * intros _. right. exists job. split; [set_solver|done].
      * intros Hg. destruct (Hj _ _ Hg) as [?|(job'&?&?)]; [by left|right]. exists job'. split; [set_solver|done].
    + by eapply sys_inv_same.
  - eapply (sys_inv_same y); [done|done| |by destruct r as [[]|]; set_solver].
    eapply (handle_keeps cfg (λ s, pending_sandboxes s = _) q (pending_timer_stable _) (pending_provision_stable _));
      [|reflexivity|exact Hq].
    destruct q; try done. by destruct (Hne r0).
Qed.

Lemma worker_sys_inv y l1 job l2 r w :
  sys_inv y → sys_jobs y = l1 ++ job :: l2 →
  async_provision_worker cfg ttl job (sys_world y) = (r, w) → sys_inv (Build_System w (l1 ++ l2)).
Proof.
  intros [Hi Hd Hj] Hl Hw. pose proof (worker_settles cfg ttl job _ _ _ Hd Hw) as Hset.
  destruct (worker_keeps cfg ttl _ job (others_worker_stable _ (pending_sandboxes (svc (sys_world y))))
    _ _ _ (conj Hd (λ x _, eq_refl)) Hw) as [Hd' Ho].
  pose proof (worker_keeps cfg ttl _ job (inv_worker_stable _) _ _ _ Hi Hw) as Hi'.
  split; cbn; [done|done|]. intros sid p Hg. destruct (decide (sid = job_id job)) as [->|Hne].
  - left. by apply Hset.
  - rewrite Ho in Hg by done. destruct (Hj _ _ Hg) as [?|(job'&Hin&Hid)]; [by left|right].
    exists job'. split; [|done]. rewrite Hl in Hin. apply elem_of_app in Hin as [?|Hin]; [set_solver|].
    apply elem_of_cons in Hin as [->|?]; [congruence|set_solver].
Qed.

Lemma timer_sys_inv y i t r w :
  sys_inv y → timers (svc (sys_world y)) !! i = Some t → live t →
  (t_deadline t ≤ time (env (sys_world y)))%Z →
  run_callback (t_callback t) (Build_World (mark_fired i (svc (sys_world y))) (env (sys_world y))) = (r, w) →
  sys_inv (Build_System w (sys_jobs y)).
Proof.
  intros Hy Hi Hl Hdue Hrun. pose proof Hy as [[Hok Ht] Hd Hj]. pose proof (mark_fired_ok i _ Hok) as Hok'.
  destruct (t_callback t) as [sid fb|sid] eqn:Hcb; cbn [run_callback] in Hrun.
  - apply (sys_inv_same y); [done| | |done].
    + eapply expire_sandbox_due; [..|exact Hrun]; [exact Hok'| |].
      * eapply mark_fired_tracked; [done|exact Hi| |done]. intros sid' fb'. rewrite Hcb. by intros [= <- _].
      * cbn. intros exp He. destruct (Ht sid exp) as (Ha&j&t'&Hj'&Ht'&Hl'&Hle); [done|done|]. split; [done|].
        rewrite (to_live _ Hok _ _ _ _ Hi Hl Hcb) in Hj'. injection Hj' as <-. rewrite Hi in Ht'.
        injection Ht' as <-. lia.
    + eapply (expire_sandbox_keeps (λ s, pending_sandboxes s = _) (pending_timer_stable _)); [|exact Hrun]. done.
  - injection Hrun as _ <-. split; cbn.
    + apply drop_pending_inv. split; [done|]. eapply mark_fired_tracked; [done|exact Hi| |done].
      intros ??. by rewrite Hcb.
    + by apply dpop_wf.
    + intros sid' p. rewrite dget_pop by done. case_decide; [done|]. apply Hj.
Qed.

Lemma restore_pending e r w :
  restore_existing_sandboxes (E:=E) (Build_World empty_service e) = (r, w) → pending_sandboxes (svc w) = [].
Proof.
  intros Hw. eapply (restore_existing_sandboxes_keeps (λ s, pending_sandboxes s = []) (pending_timer_stable []));
    [|exact Hw]. done.
Qed.

Lemma reachable_sys_inv y : reachable cfg ttl y → sys_inv y.
Proof.
  intros Hr. induction Hr as [e w Hw|y y' Hr IH Hs].
  - split; cbn.
    + eapply (restore_existing_sandboxes_keeps inv inv_stable); [|exact Hw].
      split; [apply empty_timers_ok|apply empty_tracked_live].
    + rewrite (restore_pending _ _ _ Hw). apply NoDup_nil_2.
    + intros sid p. by rewrite (restore_pending _ _ _ Hw).
  - destruct Hs; [by eapply request_sys_inv|by eapply worker_sys_inv|by eapply timer_sys_inv|].
    eapply (sys_inv_same y); [done|apply IH|done|done].
Qed.


Lemma expire_container_untracks sid c w r w' :
  expire_container (E:=E) sid c w = (r, w') → untracked sid (svc w').
Proof.
  unfold expire_container. cbv zeta. unfold mbind at 1, M_bind.
  assert (∃ e, catch is_docker_exn
    (if st_running (c_state c) then call (container_kill (c_id c)) else mret tt) (λ _, mret tt) w
    = (Ok tt, Build_World (svc w) e)) as (e1&->).
  { destruct (st_running _); [apply guarded_call, kill_docker|]. exists (env w). by destruct w. }
  unfold mbind at 1, M_bind, remove_container_quietly.
  destruct (guarded_call (container_remove (c_id c)) (Build_World (svc w) e1)) as (e2&->); [apply remove_docker|].
  unfold mbind at 1, M_bind, remove_expiration_tracking, put_svc. intros Hrest.
  eapply (after_untrack_keeps (untracked sid)); [apply untracked_refs_free| |exact Hrest]. apply untrack_untracked.
Qed.

Lemma expire_missing_untracks sid fb exc w r w' :
  http_status exc = 404%Z → expire_unavailable (E:=E) sid fb exc w = (r, w') → untracked sid (svc w').
Proof.
  intros Hx. unfold expire_unavailable. rewrite Hx. cbn [Z.eqb Pos.eqb].
  unfold mbind at 1, M_bind, remove_expiration_tracking, put_svc. intros Hr.
  assert (keeps (E:=E) (untracked sid) match fb with Some ((_ :: _) as keys) => release_ossfs_mounts keys | _ => mret tt end) as Hm.
  { destruct fb as [[|k ks]|]; try apply keeps_ret. apply release_ossfs_mounts_keeps, untracked_refs_free. }
  eapply Hm; [|exact Hr]. apply untrack_untracked.
Qed.

Lemma expire_failed_retries sid fb msg w e r w' :
  (time (env w) ≤ time e)%Z →
  (∀ exp, sandbox_expirations (svc w) !! sid = Some exp → aware exp ∧ instant exp ≤ time (env w))%Z →
  expire_unavailable (E:=E) sid fb (internal_error SandboxErrorCodes.CONTAINER_QUERY_FAILED msg) (Build_World (svc w) e)
    = (r, w') →
  sandbox_expirations (svc w') = sandbox_expirations (svc w) ∧
  ∃ j t, timers (svc w') !! j = Some t ∧ live t ∧ t_callback t = ExpireSandbox sid fb ∧
    (time (env w) + 30 * us_per_second ≤ t_deadline t)%Z.
Proof.
  intros Hte Hdue. unfold expire_unavailable. change (http_status _ =? 404)%Z with false. cbv iota.
  unfold mbind at 1 2, M_bind, get_svc, query. cbn [svc env]. destruct (clock e) as [us e'] eqn:Hc.
  destruct (clock_time _ _ _ Hc) as [Hus Hrange].
  assert ((match sandbox_expirations (svc w) !! sid with
           | None => mret false | Some d => lift (dt_lt (utc us) d) end : MW E bool) (Build_World (svc w) e')
          = (Ok false, Build_World (svc w) e')) as Hren.
  { destruct (sandbox_expirations (svc w) !! sid) as [exp|] eqn:He; [|done].
    destruct (Hdue exp eq_refl) as [Ha Hi]. destruct exp as [|x ox]; [done|]. unfold lift. cbn in *.
    rewrite Z.sub_0_r, (proj2 (Z.ltb_ge _ _)) by lia. done. }
  unfold mbind at 1, M_bind. cbn [svc]. rewrite Hren. cbn [dt_add utc]. rewrite Hrange.
  unfold schedule_expiration, mbind, M_bind, query, lift, put_svc. cbn [env svc].
  destruct (clock e') as [us2 e2]. cbn. intros [= <- <-]. cbn. split; [done|].
  eexists _, _. split; [apply list_lookup_middle; reflexivity|]. split_and!; [done|done|cbn].
  unfold us_per_second in *. lia.
Qed.

(** The callback of a due timer, by what Docker answers. *)
Lemma expire_due_outcome sid fb w r w' :
  (∀ exp, sandbox_expirations (svc w) !! sid = Some exp → aware exp ∧ instant exp ≤ time (env w))%Z →
  expire_sandbox (E:=E) sid fb w = (r, w') →
  match (containers_list (LabelEq SANDBOX_ID_LABEL sid) (env w)).1 with
  | Ok _ => untracked sid (svc w')
  | Raise _ => sandbox_expirations (svc w') = sandbox_expirations (svc w) ∧
      ∃ j t, timers (svc w') !! j = Some t ∧ live t ∧ t_callback t = ExpireSandbox sid fb ∧
        (time (env w) + 30 * us_per_second ≤ t_deadline t)%Z
  end.
Proof.
  intros Hdue. unfold expire_sandbox, mbind at 1, M_bind, catch, try_except.
  destruct (get_container_cases sid w) as (rl&e&Hl&Hgc). rewrite Hl. cbn [fst].
  assert (time (env w) ≤ time e)%Z as Hte by (by eapply list_time).
  unfold mbind at 1, M_bind. rewrite Hgc. destruct rl as [[|c cs]|exc]; cbn [is_http].
  - unfold mbind, M_bind. destruct (expire_unavailable _ _ _ _) as [r1 w1] eqn:Hu. intros Hw.
    assert (svc w' = svc w1) as -> by (destruct r1 as [[]|]; by injection Hw as <- <-).
    eapply (expire_missing_untracks sid fb); [|exact Hu]. done.
  - unfold mbind, M_bind, renewed_meanwhile, mbind, M_bind, get_svc. cbn.
    destruct (sandbox_expirations (svc w) !! sid) as [exp|] eqn:He.
    + destruct (Hdue exp eq_refl) as [Ha Hi]. destruct exp as [|x ox]; [done|].
      unfold now, mbind, M_bind, query, lift. cbn. destruct (clock e) as [us e'] eqn:Hc. cbn. rewrite Z.sub_0_r.
      destruct (clock_time _ _ _ Hc) as [Hus _].
      rewrite (proj2 (Z.ltb_ge _ _)) by (cbn in Hi; lia). by apply expire_container_untracks.
    + by apply expire_container_untracks.
  - pose proof (list_docker _ _ _ _ Hl) as ->. cbn [is_http internal_error].
    unfold mbind, M_bind. destruct (expire_unavailable _ _ _ _) as [r1 w1] eqn:Hu. intros Hw.
    assert (svc w' = svc w1) as -> by (destruct r1 as [[]|]; by injection Hw as <- <-).
    eapply (expire_failed_retries sid fb); [exact Hte|exact Hdue|exact Hu].
Qed.


End reachability.

(** ** A concrete start *)

#[export] Instance sim_net : NetEnv Sim := {
  path_exists _ _ := false;
  udp_local_address _ := sim_op "connect" (λ e, ("10.0.0.5", e));
  host_addresses _ := sim_op "getaddrinfo" (λ e, (["10.0.0.5"], e)) }.

Lemma sim_op_docker {A} name (f : Sim → A * Sim) e x e' :
  sim_op name f e = (Raise x, e') → is_docker_exn x = true.
Proof. unfold sim_op. destruct (bool_decide _); [by intros [= <- _]|]. by destruct (f e). Qed.

#[export] Program Instance sim_reliable : ReliableHost Sim := { time := sim_now }.
Next Obligation.
  intros e t e' [= <- _]. split; [lia|]. unfold sim_now, dt_in_range, dt_end, max_days, us_per_second, us_per_day, us_per_second.
  pose proof (Z.mod_pos_bound (sim_clock e) (8999 * 365 * (86400 * 1000000))). apply andb_true_iff.
  rewrite Z.leb_le, Z.ltb_lt. lia.
Qed.
Next Obligation.
  intros f e r e'. cbn. unfold sim_op. destruct (bool_decide _); by intros [= _ <-].
Qed.
Next Obligation. intros f e x e'. cbn. apply sim_op_docker. Qed.
Next Obligation. intros i e x e'. cbn. apply sim_op_docker. Qed.
Next Obligation. intros i e x e'. cbn. apply sim_op_docker. Qed.

(** A server that starts while a sandbox is running that expires one second
    later. *)
Definition restart_labels : dict string :=
  [(SANDBOX_ID_LABEL, "sb"); (SANDBOX_EXPIRES_AT_LABEL, "0001-01-01T00:00:01+00:00")].

Definition restart_env : Sim := sim_set_containers (λ _, [sim_container "c1" restart_labels true]) sim_init.

Definition restarted : System Sim :=
  Build_System (restore_existing_sandboxes (Build_World empty_service restart_env)).2 [].

Lemma restarted_reachable : reachable bridge_config 3600 restarted.
Proof.
  unfold restarted. destruct (restore_existing_sandboxes _) as [r w] eqn:Hr. cbn [snd].
  eapply ReachStart. rewrite Hr. f_equal. vm_compute in Hr. by injection Hr as <- _.
Qed.


(** Two seconds later. *)
Definition overdue : System Sim :=
  Build_System (Build_World (svc (sys_world restarted)) (sim_set_clock 2000000 (env (sys_world restarted)))) [].

