(* ===== verification/Lifecycle.v ===== *)
(** * The HTTP API ([server/src/api/lifecycle.py], [server/src/main.py],
      [server/src/middleware/request_id.py])

    The routes over the interface of [services/sandbox_service.py]; what the proxy
    forwards; the errors and the request identifier that every response carries.
    FastAPI has parsed and checked the parameters; httpx is the parameter [send]. *)

From Stdlib Require Import Ascii.
From S2P Require Import Prelude PyString PyDict PyTime Json PyVal Schema Config Auth.
Open Scope string_scope.
Open Scope list_scope.

(** ** The service interface *)

(** The abstract methods of [SandboxService], over the state [St]. *)
Record SandboxService (St : Type) := {
  sv_create_sandbox : CreateSandboxRequest → M St CreateSandboxResponse;
  sv_create_sandbox_async : CreateSandboxRequest → M St CreateSandboxResponse;
  sv_list_sandboxes : ListSandboxesRequest → M St ListSandboxesResponse;
  sv_get_sandbox : string → M St Sandbox;
  sv_delete_sandbox : string → M St unit;
  sv_pause_sandbox : string → M St unit;
  sv_resume_sandbox : string → M St unit;
  sv_renew_expiration : string → RenewSandboxExpirationRequest → M St RenewSandboxExpirationResponse;
  sv_get_endpoint : string → Z → bool → M St Endpoint;
  sv_get_sandbox_logs : string → Z → bool → M St string;
  sv_exec_sandbox_terminal : string → string → M St string;
  sv_submit_task : string → pyval → pyval → pyval → pyval → M St pyval;
  sv_get_task_status : string → string → M St pyval;
  sv_get_task_logs : string → string → option Z → M St pyval;
  sv_kill_task : string → string → M St unit;
  sv_update_env : string → dict (option string) → M St UpdateSandboxEnvResponse;
  sv_update_resource_limits : string → UpdateResourceLimitsRequest → M St UpdateSandboxResourceLimitsResponse;
  sv_touch_last_activity : string → M St unit }.
Arguments sv_create_sandbox {St} s.
Arguments sv_create_sandbox_async {St} s.
Arguments sv_list_sandboxes {St} s.
Arguments sv_get_sandbox {St} s.
Arguments sv_delete_sandbox {St} s.
Arguments sv_pause_sandbox {St} s.
Arguments sv_resume_sandbox {St} s.
Arguments sv_renew_expiration {St} s.
Arguments sv_get_endpoint {St} s.
Arguments sv_get_sandbox_logs {St} s.
Arguments sv_exec_sandbox_terminal {St} s.
Arguments sv_submit_task {St} s.
Arguments sv_get_task_status {St} s.
Arguments sv_get_task_logs {St} s.
Arguments sv_kill_task {St} s.
Arguments sv_update_env {St} s.
Arguments sv_update_resource_limits {St} s.
Arguments sv_touch_last_activity {St} s.

(** ** Requests and responses *)

Inductive Body :=
| NoBody
| CreatedBody (r : CreateSandboxResponse)
| ListBody (r : ListSandboxesResponse)
| SandboxBody (s : Sandbox)
| RenewedBody (r : RenewSandboxExpirationResponse)
| EndpointBody (e : Endpoint)
| LimitsBody (r : UpdateSandboxResourceLimitsResponse)
| EnvBody (r : UpdateSandboxEnvResponse)
| TokenBody (url token : string) (expires_at : Z)
| TextBody (text : string)
| JsonBody (v : pyval).

Record Reply := { rp_status : Z; rp_body : Body; rp_headers : dict string }.

Definition reply (status : Z) (b : Body) : Reply := {| rp_status := status; rp_body := b; rp_headers := [] |}.

(** What the routes read of a request.  Header names arrive in lower case, in order and
    possibly repeated. *)
Record IncomingRequest := {
  rq_method : string;
  rq_headers : list (string * string);
  rq_query : string;
  rq_base_url : string;
  rq_scheme : string;
  rq_netloc : string;
  rq_json : result pyval }.

(** [request.headers.get(name)] for a name in lower case *)
Definition header (name : string) (headers : list (string * string)) : option string := dget name headers.

(** An [HTTPException] whose detail is a text carries no code. *)
Definition text_exception (status : Z) (detail : string) : exn := HTTPException status EmptyString detail.

(** ** Query strings: [urllib.parse.parse_qsl] *)

Definition is_hex (c : ascii) : bool := is_digit c || in_range 97 102 c || in_range 65 70 c.
Definition hex_val (c : ascii) : N :=
  if is_digit c then (code c - 48)%N else if in_range 97 102 c then (code c - 87)%N else (code c - 55)%N.

(** [unquote_to_bytes] of ASCII text *)
Fixpoint unquote_to_bytes (s : string) : list N :=
  match s with
  | EmptyString => []
  | String "%"%char ((String a (String b rest)) as tail) =>
      if is_hex a && is_hex b then (hex_val a * 16 + hex_val b)%N :: unquote_to_bytes rest
      else code "%" :: unquote_to_bytes tail
  | String c rest => code c :: unquote_to_bytes rest
  end.

(** The longest prefix of ASCII characters, and the rest. *)
Fixpoint ascii_prefix (s : string) : string * string :=
  match s with
  | String c s' => if (code c <? 128)%N then let '(a, b) := ascii_prefix s' in (String c a, b) else (EmptyString, s)
  | EmptyString => (EmptyString, EmptyString)
  end.

Section query_strings.
(** [bytes.decode("utf-8", "replace")] *)
Context (decode : list N → string).

(** [unquote]: runs of ASCII characters are decoded, the others stay. *)
Fixpoint unquote_runs (fuel : nat) (s : string) : string :=
  match fuel, s with
  | O, _ | _, EmptyString => EmptyString
  | S f, String c s' =>
      let '(a, b) := ascii_prefix s in
      if (code c <? 128)%N then decode (unquote_to_bytes a) +:+ unquote_runs f b
      else String c (unquote_runs f s')
  end.
Definition unquote (s : string) : string := if has_char "%" s then unquote_runs (len s) s else s.

Definition unquote_plus (s : string) : string := unquote (replace_char "+" " " s).

(** [parse_qsl(qs, keep_blank_values=True, strict_parsing=True)] *)
Fixpoint parse_fields (fields : list string) : result (list (string * string)) :=
  match fields with
  | [] => Ok []
  | name_value :: rest =>
      match split_once "=" name_value with
      | None => Raise (PyException ValueError ("bad query field: " +:+ repr name_value))
      | Some (name, value) =>
          r ← parse_fields rest; Ok ((unquote_plus name, unquote_plus value) :: r)
      end
  end.
Definition parse_qsl (qs : string) : result (list (string * string)) := parse_fields (split_on "&" qs).

(** The metadata filter of [list_sandboxes]. *)
Definition parse_metadata (metadata : option string) : result (dict string) :=
  match metadata with
  | Some ((String _ _) as m) =>
      match parse_qsl m with
      | Ok parsed => Ok (dupdate [] parsed)
      | Raise e => Raise (HTTPException 400 "INVALID_METADATA_FORMAT" ("Invalid metadata format: " +:+ exn_text e))
      end
  | _ => Ok []
  end.
End query_strings.

(** ** What the proxy forwards *)

Definition HOP_BY_HOP_HEADERS : list string :=
  ["connection"; "keep-alive"; "proxy-authenticate"; "proxy-authorization"; "te"; "trailer"; "transfer-encoding"; "upgrade"].
Definition SENSITIVE_HEADERS : list string := ["authorization"; "cookie"].

(** The names that a [Connection] header lists. *)
Definition connection_names (connection : option string) : list string :=
  match connection with
  | Some ((String _ _) as c) =>
      (λ h, lower (strip h)) <$> List.filter (λ h, truthy (strip h)) (split_on "," c)
  | _ => []
  end.

Definition hop_by_hop (connection : option string) : list string := HOP_BY_HOP_HEADERS ++ connection_names connection.

Definition forwarded (connection : option string) (key : string) : bool :=
  let key_lower := lower key in
  negb (str_eqb key_lower "host") && negb (one_of key_lower (hop_by_hop connection))
  && negb (one_of key_lower SENSITIVE_HEADERS).

(** The loop over the request headers; a repeated header keeps its last value. *)
Definition forward_headers (headers : list (string * string)) : dict string :=
  fold_left (λ acc kv, if forwarded (header "connection" headers) kv.1 then dset kv.1 kv.2 acc else acc) headers [].

(** The headers of the answer that are passed on. *)
Definition response_headers (headers : dict string) : dict string :=
  List.filter (λ kv, negb (one_of (lower kv.1) (hop_by_hop (header "connection" headers)))) headers.

Record ProxyRequest := {
  px_method : string; px_url : string; px_params : option string; px_headers : dict string; px_body : bool }.
Record ProxyResponse := { pr_status : Z; pr_headers : dict string; pr_content : string }.

(** [str(endpoint)] of the pydantic model *)
Definition endpoint_str (e : Endpoint) : string :=
  "endpoint=" +:+ repr (ep_endpoint e) +:+ " headers=" +:+
  match ep_headers e with None => "None" | Some d => vrepr (of_str_dict d) end.

Definition is_connect_error (e : exn) : bool := match e with PyException ConnectError _ => true | _ => false end.

Fixpoint remove_fuel (fuel : nat) (p s : string) : string :=
  match fuel, s with
  | O, _ | _, EmptyString => s
  | S f, String c s' => if startswith s p then remove_fuel f p (str_drop (len p) s) else String c (remove_fuel f p s')
  end.
(** [s.replace(p, "")] for a text [p] that is not empty *)
Definition remove_all (p s : string) : string := remove_fuel (len s) p s.

(** ** The routes *)

Section routes.
Context {St : Type} `{Jwt} (svc : SandboxService St) (config : AppConfig).
Context (decode : list N → string) (unix_us : St → Z * St) (send : ProxyRequest → M St ProxyResponse).

Definition create_sandbox (request : CreateSandboxRequest) (wait : bool) : M St Reply :=
  r ← (if wait then sv_create_sandbox svc request else sv_create_sandbox_async svc request);
  mret (reply 202 (CreatedBody r)).

Definition list_sandboxes (state : option (list string)) (metadata : option string) (page page_size : Z) : M St Reply :=
  metadata_dict ← lift (parse_metadata decode metadata);
  r ← sv_list_sandboxes svc
        {| list_filter := {| filter_state := state;
                             filter_metadata := match metadata_dict with [] => None | d => Some d end |};
           list_pagination := Some {| page := page; page_size := page_size |} |};
  mret (reply 200 (ListBody r)).

Definition get_sandbox (sandbox_id : string) : M St Reply :=
  r ← sv_get_sandbox svc sandbox_id; mret (reply 200 (SandboxBody r)).

Definition delete_sandbox (sandbox_id : string) : M St Reply :=
  sv_delete_sandbox svc sandbox_id;; mret (reply 204 NoBody).

Definition update_sandbox_resource_limits (sandbox_id : string) (request : UpdateResourceLimitsRequest) : M St Reply :=
  r ← sv_update_resource_limits svc sandbox_id request; mret (reply 200 (LimitsBody r)).

Definition update_sandbox_env (sandbox_id : string) (env : dict (option string)) : M St Reply :=
  r ← sv_update_env svc sandbox_id env; mret (reply 200 (EnvBody r)).

Definition pause_sandbox (sandbox_id : string) : M St Reply :=
  sv_pause_sandbox svc sandbox_id;; mret (reply 202 NoBody).

Definition resume_sandbox (sandbox_id : string) : M St Reply :=
  sv_resume_sandbox svc sandbox_id;; mret (reply 202 NoBody).

Definition renew_sandbox_expiration (sandbox_id : string) (request : RenewSandboxExpirationRequest) : M St Reply :=
  r ← sv_renew_expiration svc sandbox_id request; mret (reply 200 (RenewedBody r)).

Definition get_sandbox_endpoint (request : IncomingRequest) (sandbox_id : string) (port : Z) (use_server_proxy : bool)
    : M St Reply :=
  endpoint ← sv_get_endpoint svc sandbox_id port false;
  mret (reply 200 (EndpointBody
    (if use_server_proxy then
       let base_url := remove_all "http://" (remove_all "https://" (rstrip_by is_slash (rq_base_url request))) in
       {| ep_endpoint := base_url +:+ "/sandboxes/" +:+ sandbox_id +:+ "/proxy/" +:+ str_of_Z port;
          ep_headers := ep_headers endpoint |}
     else endpoint))).

(** [_touch_sandbox_activity] *)
Definition touch_sandbox_activity (sandbox_id : string) : M St unit :=
  try_except (sv_touch_last_activity svc sandbox_id) (λ _, mret tt).

(** The request that goes to the sandbox. *)
Definition proxy_request (request : IncomingRequest) (target_host full_path : string) : ProxyRequest := {|
  px_method := rq_method request; px_url := "http://" +:+ target_host +:+ "/" +:+ full_path;
  px_params := if truthy (rq_query request) then Some (rq_query request) else None;
  px_headers := forward_headers (rq_headers request);
  px_body := one_of (rq_method request) ["POST"; "PUT"; "PATCH"; "DELETE"] |}.

Definition proxy_sandbox_endpoint_request (request : IncomingRequest) (sandbox_id : string) (port : Z) (full_path : string)
    : M St Reply :=
  touch_sandbox_activity sandbox_id;;
  endpoint ← sv_get_endpoint svc sandbox_id port true;
  try_except
    (if str_eqb (lower (or_else (header "upgrade" (rq_headers request)) EmptyString)) "websocket"
     then raise (text_exception 400 "Websocket upgrade is not supported yet")
     else
       resp ← send (proxy_request request (ep_endpoint endpoint) full_path);
       mret {| rp_status := pr_status resp; rp_body := TextBody (pr_content resp);
               rp_headers := response_headers (pr_headers resp) |})
    (λ e,
       if is_connect_error e then
         raise (text_exception 502 ("Could not connect to the backend sandbox " +:+ endpoint_str endpoint +:+ ": " +:+ exn_text e))
       else if is_http e then raise e
       else raise (text_exception 500 ("An internal error occurred in the proxy: " +:+ exn_text e))).

Definition text_headers : dict string := [("content-type", "text/plain; charset=utf-8")].

(** The logs; a stream of lines is the text of its lines here. *)
Definition get_sandbox_logs (sandbox_id : string) (tail : Z) (follow : bool) : M St Reply :=
  logs ← sv_get_sandbox_logs svc sandbox_id tail follow;
  mret {| rp_status := 200; rp_body := TextBody logs; rp_headers := text_headers |}.

Definition get_terminal_token (request : IncomingRequest) (sandbox_id : string) : M St Reply :=
  touch_sandbox_activity sandbox_id;;
  _ ← sv_get_sandbox svc sandbox_id;
  match terminal_token_secret (server config) with
  | Some ((String _ _) as secret) =>
      now ← (λ st, let '(t, st') := unix_us st in (Ok t, st'));
      let '(token, expires_at) := create_terminal_token now secret sandbox_id (terminal_token_ttl_seconds (server config)) in
      let ws_scheme := if str_eqb (rq_scheme request) "https" then "wss" else "ws" in
      mret (reply 200 (TokenBody
        (ws_scheme +:+ "://" +:+ rq_netloc request +:+ "/sandboxes/" +:+ sandbox_id +:+ "/terminal?token=" +:+ token)
        token expires_at))
  | _ => raise (HTTPException 500 "INTERNAL_ERROR" "Terminal token secret not configured")
  end.

(** The start of [sandbox_terminal]: the gate, then the shell; [inr] is a closed connection. *)
Definition open_terminal (sandbox_id : string) (token : option string) : M St (string + Z * string) :=
  now ← (λ st, let '(t, st') := unix_us st in (Ok t, st'));
  match terminal_gate now (terminal_token_secret (server config)) token sandbox_id with
  | Close code reason => mret (inr (code, reason))
  | Accept =>
      touch_sandbox_activity sandbox_id;;
      try_except (ws_client ← sv_exec_sandbox_terminal svc sandbox_id "/bin/bash"; mret (inl ws_client))
        (λ e, mret (inr (if is_http e then 1008%Z else 1011%Z, str_take 123 (exn_text e))))
  end.

Definition submit_task (request : IncomingRequest) (sandbox_id : string) : M St Reply :=
  touch_sandbox_activity sandbox_id;;
  body ← lift (rq_json request);
  command ← lift (vget body "command");
  if negb (vtruthy command) then raise (HTTPException 400 "TASK::INVALID_REQUEST" "command is required") else
  cwd ← lift (get_or body "cwd" (PStr "/workspace"));
  timeout_ms ← lift (vget body "timeout");
  envs ← lift (vget body "envs");
  r ← sv_submit_task svc sandbox_id command cwd timeout_ms envs;
  mret (reply 201 (JsonBody r)).

Definition get_task_status (sandbox_id task_id : string) : M St Reply :=
  touch_sandbox_activity sandbox_id;;
  r ← sv_get_task_status svc sandbox_id task_id; mret (reply 200 (JsonBody r)).

Definition get_task_logs (sandbox_id task_id : string) (cursor : option Z) : M St Reply :=
  touch_sandbox_activity sandbox_id;;
  result ← sv_get_task_logs svc sandbox_id task_id cursor;
  cur ← lift (vget result "cursor");
  body ← lift (item result "body");
  mret {| rp_status := 200; rp_body := TextBody (vstr body);
          rp_headers := text_headers ++ (if vtruthy cur then [("X-Task-Log-Cursor", vstr cur)] else []) |}.

Definition kill_task (sandbox_id task_id : string) : M St Reply :=
  touch_sandbox_activity sandbox_id;;
  sv_kill_task svc sandbox_id task_id;; mret (reply 204 NoBody).
End routes.

(** ** Errors ([main.py]) *)

Definition DEFAULT_ERROR_CODE : string := "GENERAL::UNKNOWN_ERROR".
Definition DEFAULT_ERROR_MESSAGE : string := "An unexpected error occurred.".

(** [_normalize_error_detail] *)
Definition normalize_error_detail (detail : pyval) : dict pyval :=
  match detail with
  | PDict d =>
      [("code", val_or (dget_default "code" PNone d) (PStr DEFAULT_ERROR_CODE));
       ("message", val_or (dget_default "message" PNone d) (PStr DEFAULT_ERROR_MESSAGE))]
  | _ =>
      [("code", PStr DEFAULT_ERROR_CODE);
       ("message", PStr (if vtruthy detail then vstr detail else DEFAULT_ERROR_MESSAGE))]
  end.

(** The detail of an exception: a dictionary, or a text if there is no code. *)
Definition detail_of (code message : string) : pyval :=
  if truthy code then PDict [("code", PStr code); ("message", PStr message)] else PStr message.

(** The answer to a route that raised: [sandbox_http_exception_handler], or the plain
    500 of the framework. *)
Definition error_reply (e : exn) : Reply :=
  match e with
  | HTTPException status code message => reply status (JsonBody (PDict (normalize_error_detail (detail_of code message))))
  | PyException _ _ => {| rp_status := 500; rp_body := TextBody "Internal Server Error"; rp_headers := [] |}
  end.

(** The exception handlers run inside every middleware. *)
Definition exception_handler {St} (route : M St Reply) : M St Reply :=
  catch is_http route (λ e, mret (error_reply e)).

(** [AuthMiddleware.dispatch] with its two answers as responses. *)
Definition authenticated {St} (config : AppConfig) (path : string) (api_key : option string) (call_next : M St Reply) : M St Reply :=
  match middleware config "http" path api_key with
  | CallNext => call_next
  | Respond status code message => mret (reply status (JsonBody (PDict [("code", PStr code); ("message", PStr message)])))
  end.

(** ** The configuration that is shown *)

Definition SENSITIVE_KEYS : list string := ["api_key"; "kubeconfig_path"; "password"].

(** [_redact] *)
Fixpoint redact (obj : pyval) : pyval :=
  match obj with
  | PDict d => PDict (map (λ kv, (kv.1, if one_of kv.1 SENSITIVE_KEYS && vtruthy kv.2 then PStr "******" else redact kv.2)) d)
  | PList l => PList (map redact l)
  | _ => obj
  end.

(** [get_server_config] *)
Definition get_server_config (config_dump : dict pyval) (config_path : string) : Reply :=
  match redact (PDict config_dump) with
  | PDict d => reply 200 (JsonBody (PDict (dset "config_path" (PStr config_path) d)))
  | v => reply 200 (JsonBody v)
  end.

Definition health_check : Reply := reply 200 (JsonBody (PDict [("status", PStr "healthy")])).

(** ** Request identifiers ([request_id.py]) *)

Definition X_REQUEST_ID_HEADER : string := "X-Request-ID".

(** [(raw and raw.strip()) or uuid.uuid4().hex] *)
Definition request_id (raw : option string) (fresh : string) : string :=
  match raw with
  | Some r => if truthy r && truthy (strip r) then strip r else fresh
  | None => fresh
  end.

(** The state of a request: the context variable next to the rest. *)
Definition Ctx (St : Type) : Type := option string * St.

(** [dispatch]: the identifier is in the context while [call_next] runs, on its
    response, and no longer in the context afterwards. *)
Definition dispatch_request {St} (raw : option string) (fresh : string) (call_next : M (Ctx St) Reply) : M (Ctx St) Reply := λ s,
  let rid := request_id raw fresh in
  let '(r, s') := call_next (Some rid, s.2) in
  (match r with
   | Ok rep => Ok {| rp_status := rp_status rep; rp_body := rp_body rep; rp_headers := dset X_REQUEST_ID_HEADER rid (rp_headers rep) |}
   | Raise e => Raise e
   end, (s.1, s'.2)).

(** The application: the request identifier is outermost, then the key, then the
    exception handlers and the route; what is still raised becomes the plain 500 of
    the framework. *)
Definition serve {St} (config : AppConfig) (path : string) (headers : list (string * string)) (fresh : string)
    (route : M (Ctx St) Reply) (s : Ctx St) : Reply * Ctx St :=
  match dispatch_request (header "x-request-id" headers) fresh
          (authenticated config path (header (lower API_KEY_HEADER) headers) (exception_handler route)) s with
  | (Ok r, s') => (r, s')
  | (Raise e, s') => (error_reply e, s')
  end.

(** [RequestIdFilter.filter]: what a log record shows. *)
Definition log_request_id {St} (s : Ctx St) : string :=
  match s.1 with Some ((String _ _) as rid) => rid | _ => "-" end.

(** ** Payloads of the front end ([CreateSandboxRequest.normalize_frontend_payload] of [schema.py]) *)

(** One pair of [envVariables] or [labels]. *)
Definition add_pair (acc : dict pyval) (pair : pyval) : dict pyval :=
  match pair with
  | PDict d =>
      let key := dget_default "key" PNone d in
      if vtruthy key then dset (vstr key) (PStr (vstr (dget_default "value" (PStr EmptyString) d))) acc else acc
  | _ => acc
  end.

Definition is_none (o : option pyval) : bool := match o with None | Some PNone => true | _ => false end.

(** Copy a list of pairs to a field that is not given. *)
Definition fill_pairs (field source : string) (d : dict pyval) : dict pyval :=
  match is_none (dget field d), dget source d with
  | true, Some (PList pairs) =>
      match fold_left add_pair pairs [] with [] => d | pd => dset field (PDict pd) d end
  | _, _ => d
  end.

Definition normalize_frontend_payload (data : pyval) : pyval :=
  match data with
  | PDict d =>
      let d := fill_pairs "env" "envVariables" d in
      let d := fill_pairs "metadata" "labels" d in
      PDict (if is_none (dget "networkPolicy" d) && bool_decide (dget "blockAllNetwork" d = Some (PBool true))
             then dset "networkPolicy" (PDict [("defaultAction", PStr "deny"); ("egress", PList [])]) d
             else d)
  | _ => data
  end.
