(* ===== verification/LifecycleProofs.v ===== *)
(** * Properties of the HTTP API

    What the proxy forwards, the metadata filter against [urlencode], and the answers
    of the whole middleware stack of [main.py]. *)

From Stdlib Require Import Ascii.
From S2P Require Import Prelude PyString PyDict PyTime Helpers Json PyVal Schema Config Auth.
From S2P Require Import K8sHelpers Execd Lifecycle.
Open Scope string_scope.
Open Scope list_scope.

(** ** The proxy *)

(** The headers of a request without the ones the proxy keeps to itself, except the two
    that it reads. *)
Definition private_header (connection : option string) (key : string) : bool :=
  negb (forwarded connection key) && negb (one_of key ["connection"; "upgrade"]).
Definition public_headers (headers : list (string * string)) : list (string * string) :=
  List.filter (λ kv, negb (private_header (header "connection" headers) kv.1)) headers.
Definition with_headers (r : IncomingRequest) (headers : list (string * string)) : IncomingRequest := {|
  rq_method := rq_method r; rq_headers := headers; rq_query := rq_query r; rq_base_url := rq_base_url r;
  rq_scheme := rq_scheme r; rq_netloc := rq_netloc r; rq_json := rq_json r |}.

Lemma dget_filter {V} k (f : string → bool) (d : list (string * V)) :
  f k = true → dget k (List.filter (λ kv, f kv.1) d) = dget k d.
Proof.
  intros Hk. induction d as [|[x v] d IH]; cbn; [done|]. destruct (f x) eqn:Hx; cbn.
  - by case_decide.
  - case_decide; [congruence|done].
Qed.

Lemma public_header k headers :
  one_of k ["connection"; "upgrade"] = true → header k (public_headers headers) = header k headers.
Proof.
  intros Hk. unfold header, public_headers.
  rewrite (dget_filter k (λ x, negb (private_header (dget "connection" headers) x))); [done|].
  unfold private_header. rewrite Hk. cbn. by rewrite andb_false_r.
Qed.

Lemma forward_public headers : forward_headers (public_headers headers) = forward_headers headers.
Proof.
  unfold forward_headers. rewrite public_header by done. unfold public_headers.
  generalize (header "connection" headers). intros c. generalize (@nil (string * string)).
  induction headers as [|[k v] hs IH]; intros acc; cbn; [done|]. unfold private_header at 1. cbn.
  destruct (forwarded c k) eqn:Hf; cbn; [rewrite Hf; apply IH|].
  destruct (_ || _); cbn; [rewrite Hf|]; apply IH.
Qed.

Lemma proxy_public {St} (svc : SandboxService St) send request sandbox_id port path st :
  proxy_sandbox_endpoint_request svc send request sandbox_id port path st =
  proxy_sandbox_endpoint_request svc send (with_headers request (public_headers (rq_headers request))) sandbox_id port path st.
Proof.
  unfold proxy_sandbox_endpoint_request, proxy_request, with_headers.
  cbn [rq_method rq_headers rq_query]. by rewrite forward_public, public_header by done.
Qed.

Lemma dget_rev_cons {V} k x (v : V) l :
  dget k (rev l ++ [(x, v)]) = match dget k (rev l) with Some w => Some w | None => if decide (k = x) then Some v else None end.
Proof. generalize (rev l). intros m. induction m as [|[y w] m IH]; cbn; [done|]. by destruct (decide (k = y)). Qed.

Lemma forward_last c k (hs acc : list (string * string)) :
  dget k (fold_left (λ acc kv, if forwarded c kv.1 then dset kv.1 kv.2 acc else acc) hs acc) =
  if forwarded c k then match dget k (rev hs) with Some v => Some v | None => dget k acc end else dget k acc.
Proof.
  revert acc. induction hs as [|[x v] hs IH]; intros acc; cbn; [by destruct (forwarded c k)|].
  rewrite IH, dget_rev_cons. destruct (decide (k = x)) as [->|Hne].
  - destruct (forwarded c x); [|done]. rewrite dget_set_eq. by destruct (dget x (rev hs)).
  - destruct (forwarded c x); [rewrite dget_set_ne by done|]; by destruct (forwarded c k), (dget k (rev hs)).
Qed.

Lemma forwarded_false c k :
  forwarded c k = false ↔
  lower k = "host" ∨ lower k ∈ HOP_BY_HOP_HEADERS ∨ lower k ∈ connection_names c ∨ lower k ∈ SENSITIVE_HEADERS.
Proof.
  unfold forwarded, hop_by_hop. rewrite !andb_false_iff, !negb_false_iff, !one_of_true, str_eqb_true, elem_of_app. tauto.
Qed.


Definition idle_service : SandboxService unit :=
  let no {A} : M unit A := raise (PyException NotImplementedError EmptyString) in {|
  sv_create_sandbox _ := no; sv_create_sandbox_async _ := no; sv_list_sandboxes _ := no; sv_get_sandbox _ := no;
  sv_delete_sandbox _ := no; sv_pause_sandbox _ := no; sv_resume_sandbox _ := no; sv_renew_expiration _ _ := no;
  sv_get_endpoint _ _ _ := mret {| ep_endpoint := "10.0.0.7:8080"; ep_headers := None |};
  sv_get_sandbox_logs _ _ _ := no; sv_exec_sandbox_terminal _ _ := no; sv_submit_task _ _ _ _ _ := no;
  sv_get_task_status _ _ := no; sv_get_task_logs _ _ _ := no; sv_kill_task _ _ := no; sv_update_env _ _ := no;
  sv_update_resource_limits _ _ := no; sv_touch_last_activity _ := mret tt |}.

(** The API key of the server itself is not among the private headers. *)
Example proxy_forwards_api_key :
  let request := {| rq_method := "GET"; rq_query := ""; rq_base_url := ""; rq_scheme := "http"; rq_netloc := "s"; rq_json := Ok PNone;
                    rq_headers := [("authorization", "Bearer t"); ("open-sandbox-api-key", "secret")] |} in
  px_headers (proxy_request request "10.0.0.7:8080" "x") = [("open-sandbox-api-key", "secret")].
Proof. reflexivity. Qed.

(** ** The metadata filter *)

Definition unplus : string → string := replace_char "+" " ".
Definition quote_bytes (l : list N) : string := foldr (λ n acc, quote_byte n +:+ acc) EmptyString l.

Lemma unplus_app s t : unplus (s +:+ t) = unplus s +:+ unplus t.
Proof. unfold unplus. induction s as [|c s IH]; cbn; [done|]. by rewrite IH. Qed.

(** A byte is the code of a character. *)
Lemma byte_code n : (n < 256)%N → ∃ c, n = code c.
Proof. intros Hn. exists (chr n). symmetry. by apply N_ascii_embedding. Qed.

Lemma unquote_byte n s :
  (n < 256)%N → unquote_to_bytes (unplus (quote_byte n) +:+ s) = n :: unquote_to_bytes s.
Proof.
  intros [c ->]%byte_code. by destruct c as [[] [] [] [] [] [] [] []]; destruct s.
Qed.

Lemma unquote_bytes l : Forall (λ n, (n < 256)%N) l → unquote_to_bytes (unplus (quote_bytes l)) = l.
Proof.
  induction 1 as [|n l Hn _ IH]; [done|]. cbn [quote_bytes foldr]. fold (quote_bytes l).
  by rewrite unplus_app, unquote_byte, IH.
Qed.

(** Quoted text is ASCII and has neither separator of a query string. *)
Definition plain_char (c : ascii) : bool := (code c <? 128)%N && negb (bool_decide (c = "&"%char)) && negb (bool_decide (c = "="%char)).

Lemma quote_bytes_plain l : Forall (λ n, (n < 256)%N) l → string_forallb plain_char (quote_bytes l) = true.
Proof.
  induction 1 as [|n l Hn _ IH]; [done|]. cbn [quote_bytes foldr]. fold (quote_bytes l).
  rewrite string_forallb_app, IH, andb_true_r. apply byte_code in Hn as [c ->].
  by destruct c as [[] [] [] [] [] [] [] []].
Qed.

Lemma plain_no_sep s : string_forallb plain_char s = true → has_char "&" s = false ∧ has_char "=" s = false.
Proof.
  induction s as [|c s IH]; cbn; [done|]. rewrite andb_true_iff. intros [Hc Hs]. destruct (IH Hs) as [-> ->].
  unfold plain_char in Hc. rewrite !andb_true_iff, !negb_true_iff, !bool_decide_eq_false in Hc.
  rewrite !orb_false_r. split; apply bool_decide_eq_false; naive_solver.
Qed.

Lemma plain_ascii s : string_forallb plain_char s = true → ascii_prefix (unplus s) = (unplus s, EmptyString).
Proof.
  unfold unplus. induction s as [|c s IH]; cbn [string_forallb replace_char ascii_prefix]; [done|].
  rewrite andb_true_iff. intros [Hc Hs]. rewrite (IH Hs). unfold plain_char in Hc. rewrite !andb_true_iff in Hc.
  destruct (bool_decide_reflect (c = "+"%char)); [done|]. by destruct Hc as [[-> _] _].
Qed.

(** Text without [%] stands for itself. *)
Lemma unquoted_encode s : has_char "%" (unplus (quote_plus s)) = false → unplus (quote_plus s) = s.
Proof.
  unfold quote_plus. induction s as [|c s IH]; [done|]. cbn [utf8_encode].
  destruct (code c <? 128)%N eqn:Hc; cbn [app foldr]; rewrite !unplus_app, !has_char_app, !orb_false_iff.
  - intros [Hq Hs]. rewrite (IH Hs). clear IH Hs Hc. destruct c as [[] [] [] [] [] [] [] []]; (discriminate Hq || reflexivity).
  - intros [Hq _]. clear IH. exfalso. destruct c as [[] [] [] [] [] [] [] []]; (discriminate Hq || discriminate Hc).
Qed.

Section roundtrip.
Context (decode : list N → string) (Hdecode : ∀ s, decode (utf8_encode s) = s).

Lemma unquote_quote_plus s : unquote_plus decode (quote_plus s) = s.
Proof using Hdecode.
  unfold unquote_plus, unquote. fold (unplus (quote_plus s)).
  destruct (has_char "%" (unplus (quote_plus s))) eqn:Hp; [|by apply unquoted_encode].
  pose proof (quote_bytes_plain _ (utf8_encode_bytes s)) as Hq. apply plain_ascii in Hq.
  change (quote_bytes (utf8_encode s)) with (quote_plus s) in Hq.
  destruct (unplus (quote_plus s)) as [|c t] eqn:Ht; [done|]. cbn [len String.length unquote_runs]. rewrite Hq.
  assert ((code c <? 128)%N = true) as ->.
  { cbn in Hq. destruct (code c <? 128)%N; [done|]. by destruct (ascii_prefix t). }
  rewrite <-Ht. change (unplus (quote_plus s)) with (unplus (quote_bytes (utf8_encode s))).
  rewrite unquote_bytes, Hdecode by apply utf8_encode_bytes.
  transitivity (s +:+ EmptyString); [|apply str_app_nil_r]. by destruct (len t).
Qed.

Lemma quote_plus_no_sep s : has_char "&" (quote_plus s) = false ∧ has_char "=" (quote_plus s) = false.
Proof. apply plain_no_sep, quote_bytes_plain, utf8_encode_bytes. Qed.

Lemma parse_urlencoded (d : dict string) :
  parse_fields decode ((λ kv, quote_plus kv.1 +:+ "=" +:+ quote_plus kv.2) <$> d) = Ok d.
Proof using Hdecode.
  induction d as [|[k v] d IH]; [done|]. rewrite fmap_cons. cbn [parse_fields fst snd].
  change (quote_plus k +:+ "=" +:+ quote_plus v) with (quote_plus k +:+ String "=" (quote_plus v)).
  rewrite split_once_app by apply quote_plus_no_sep. rewrite IH. cbn. by rewrite !unquote_quote_plus.
Qed.
End roundtrip.

(** The metadata filter of [GET /sandboxes] reads back what a client wrote with
    [urllib.parse.urlencode]: any metadata, with any characters in keys and values, is
    recovered in its order, provided that UTF-8 decoding undoes UTF-8 encoding. *)
Theorem metadata_query_roundtrip (decode : list N → string) (metadata : dict string) :
  (∀ s, decode (utf8_encode s) = s) → dict_wf metadata → metadata ≠ [] →
  parse_metadata decode (Some (urlencode metadata)) = Ok metadata.
Proof.
  intros Hdecode Hwf Hne. assert (parse_qsl decode (urlencode metadata) = Ok metadata) as Hp.
  { unfold parse_qsl, urlencode. rewrite split_join; [by apply parse_urlencoded|by destruct metadata|].
    apply Forall_fmap, Forall_true. intros [k v]. unfold compose. cbn [fst snd]. rewrite !has_char_app.
    by rewrite (proj1 (quote_plus_no_sep k)), (proj1 (quote_plus_no_sep v)). }
  unfold parse_metadata. rewrite Hp. destruct (urlencode metadata) eqn:Hu; [|by rewrite dupdate_fresh].
  exfalso. destruct metadata as [|[k v] d]; [done|]. clear -Hu. unfold urlencode in Hu. rewrite fmap_cons in Hu.
  cbn [fst snd] in Hu. by destruct (quote_plus k), (_ <$> d).
Qed.

Lemma metadata_query_roundtrip_witness :
  let decode l := default EmptyString (utf8_decode l) in
  let metadata := [("team", "a b&c=d"); ("path", "/x%2F+" +:+ String (chr 233) EmptyString); ("empty", "")] in
  urlencode metadata = "team=a+b%26c%3Dd&path=%2Fx%252F%2B%C3%A9&empty=" ∧
  parse_metadata decode (Some (urlencode metadata)) = Ok metadata.
Proof.
  intros decode metadata. split; [reflexivity|]. apply metadata_query_roundtrip.
  - intros s. unfold decode. by rewrite utf8_decode_encode.
  - unfold dict_wf. apply (bool_decide_unpack _). reflexivity.
  - discriminate.
Defined.

(** ** The middleware stack *)

Lemma request_id_truthy raw fresh : truthy fresh = true → truthy (request_id raw fresh) = true.
Proof. intros Hf. unfold request_id. destruct raw as [r|]; [|done]. destruct (truthy r && _) eqn:Hr; [|done]. by apply andb_true_iff in Hr as [_ ?]. Qed.

Lemma log_request_id_truthy {St} rid (s : St) : truthy rid = true → log_request_id (Some rid, s) = rid.
Proof. by destruct rid. Qed.

(** What the client reads of an error: never an empty code or message. *)
Definition or_default (s default : string) : string := if truthy s then s else default.

Lemma error_reply_shape status code message :
  error_reply (HTTPException status code message) =
  reply status (JsonBody (PDict [("code", PStr (or_default code DEFAULT_ERROR_CODE)); ("message", PStr (or_default message DEFAULT_ERROR_MESSAGE))])).
Proof. by destruct code, message. Qed.

Lemma middleware_respond config path key status code message :
  middleware config "http" path key = Respond status code message →
  status = 401%Z ∧ truthy code = true ∧ truthy message = true.
Proof. unfold middleware, dispatch. cbn [str_eqb]. intros H. repeat case_match; simplify_eq; done. Qed.

Lemma serve_step {St} config path headers fresh (route : M (Ctx St) Reply) s :
  let rid := request_id (header "x-request-id" headers) fresh in
  let stamp r := {| rp_status := rp_status r; rp_body := rp_body r; rp_headers := dset X_REQUEST_ID_HEADER rid (rp_headers r) |} in
  serve config path headers fresh route s =
  match middleware config "http" path (header (lower API_KEY_HEADER) headers) with
  | Respond status code message =>
      (stamp (reply status (JsonBody (PDict [("code", PStr code); ("message", PStr message)]))), s)
  | CallNext =>
      match route (Some rid, s.2) with
      | (Ok r, t) => (stamp r, (s.1, t.2))
      | (Raise (HTTPException _ _ _ as e), t) => (stamp (error_reply e), (s.1, t.2))
      | (Raise (PyException _ _ as e), t) => (error_reply e, (s.1, t.2))
      end
  end.
Proof.
  unfold serve, dispatch_request, authenticated, exception_handler, catch, try_except. cbv zeta. destruct s as [c s].
  destruct (middleware _ _ _ _); [|done]. cbn [fst snd]. by destruct (route _) as [[r|[]] t].
Qed.

(** An answer of the server.  The request identifier is never empty; it is the one
    every log line shows while the handler runs, and it is gone afterwards.  A request
    that the key check rejects leaves the state alone.  Whatever the handler returns,
    and every [HTTPException] it raises, is answered with that identifier, and an error
    is a pair of a code and a message of which neither is empty; any other exception
    is answered with the bare 500 of the framework, without identifier. *)
Theorem answer_identified {St} config path headers fresh (route : M (Ctx St) Reply) s :
  truthy fresh = true →
  let rid := request_id (header "x-request-id" headers) fresh in
  let '(r, s') := serve config path headers fresh route s in
  let identified := dget X_REQUEST_ID_HEADER (rp_headers r) = Some rid in
  let error status code message :=
    rp_status r = status ∧ rp_body r = JsonBody (PDict [("code", PStr code); ("message", PStr message)]) ∧
    truthy code = true ∧ truthy message = true in
  truthy rid = true ∧ log_request_id (Some rid, s.2) = rid ∧ s'.1 = s.1 ∧
  match middleware config "http" path (header (lower API_KEY_HEADER) headers), route (Some rid, s.2) with
  | Respond _ code message, _ => identified ∧ error 401%Z code message ∧ s' = s
  | CallNext, (Ok rep, t) => identified ∧ rp_status r = rp_status rep ∧ rp_body r = rp_body rep ∧ s'.2 = t.2
  | CallNext, (Raise (HTTPException status code message), t) =>
      identified ∧ error status (or_default code DEFAULT_ERROR_CODE) (or_default message DEFAULT_ERROR_MESSAGE) ∧ s'.2 = t.2
  | CallNext, (Raise (PyException _ _), t) =>
      r = {| rp_status := 500; rp_body := TextBody "Internal Server Error"; rp_headers := [] |} ∧ s'.2 = t.2
  end.
Proof.
  intros Hf rid. pose proof (request_id_truthy (header "x-request-id" headers) fresh Hf) as Hr.
  rewrite serve_step. fold rid. fold rid in Hr.
  assert (log_request_id (Some rid, s.2) = rid) as Hl by (by apply log_request_id_truthy).
  assert (∀ t d, truthy d = true → truthy (or_default t d) = true) as Hd.
  { intros t d. unfold or_default. by destruct (truthy t) eqn:Ht. }
  destruct (middleware _ _ _ _) as [|status code message] eqn:Hm.
  - destruct (route _) as [[rep|[status code message|cls msg]] t]; rewrite ?error_reply_shape; cbn [fst snd rp_status rp_body rp_headers];
      rewrite ?dget_set_eq; split_and!; auto; apply Hd; done.
  - apply middleware_respond in Hm as (-> & Hc & Hmsg). destruct s as [c s].
    cbn [fst snd rp_status rp_body rp_headers reply]. rewrite dget_set_eq. split_and!; auto.
Qed.

(** The handler of a sandbox that is not there. *)
Definition missing_route : M (Ctx nat) Reply := λ s, (Raise (HTTPException 404 "SANDBOX_NOT_FOUND" ""), (s.1, S s.2)).

Lemma answer_identified_witness :
  truthy "f00d" = true ∧
  let '(r, s') := serve keyed_config "/sandboxes/x" [("x-request-id", " 42 "); ("open-sandbox-api-key", "secret")] "f00d" missing_route (None, 0) in
  s' = (None, 1) ∧ rp_status r = 404%Z ∧ dget X_REQUEST_ID_HEADER (rp_headers r) = Some "42" ∧
  rp_body r = JsonBody (PDict [("code", PStr "SANDBOX_NOT_FOUND"); ("message", PStr DEFAULT_ERROR_MESSAGE)]).
Proof.
  split; [reflexivity|].
  pose proof (answer_identified keyed_config "/sandboxes/x" [("x-request-id", " 42 "); ("open-sandbox-api-key", "secret")]
                "f00d" missing_route (None, 0) eq_refl) as H.
  vm_compute in H |- *. destruct H as (_ & _ & _ & Hid & (Hst & Hb & _) & _). split_and!; [reflexivity|exact Hst|exact Hid|exact Hb].
Defined.

(** ** Payloads of the front end *)

Lemma fill_pairs_other field source d k : k ≠ field → dget k (fill_pairs field source d) = dget k d.
Proof.
  intros Hk. unfold fill_pairs. destruct (is_none _); [|done]. destruct (dget source d) as [[]|]; try done.
  destruct (fold_left _ _ _); [done|]. by rewrite dget_set_ne.
Qed.

Lemma fill_pairs_given field source d : is_none (dget field d) = false → fill_pairs field source d = d.
Proof. intros Hf. unfold fill_pairs. by rewrite Hf. Qed.

(** A second pass over what the first one made finds nothing to do. *)
Lemma fill_pairs_done field source d d' :
  dget field d' = dget field (fill_pairs field source d) → dget source d' = dget source d →
  fill_pairs field source d' = d'.
Proof.
  intros Hf Hs. unfold fill_pairs in Hf |- *. rewrite Hs, Hf. destruct (is_none (dget field d)) eqn:Hn; [|by rewrite Hn].
  destruct (dget source d) as [[]|]; rewrite ?Hn; try done.
  destruct (fold_left _ _ _) as [|p ps] eqn:Hp; [by rewrite Hn|]. by rewrite dget_set_eq.
Qed.

(** The payload of the front end is translated once and never against the client:
    a field that the request gives, and every field but [env], [metadata] and
    [networkPolicy], stays as it is; [blockAllNetwork] without a policy becomes the
    policy that denies everything; and a second translation changes nothing. *)
Theorem payload_translation d :
  ∃ d', normalize_frontend_payload (PDict d) = PDict d' ∧
    (∀ k, is_none (dget k d) = false ∨ k ∉ ["env"; "metadata"; "networkPolicy"] → dget k d' = dget k d) ∧
    (is_none (dget "networkPolicy" d) = true → dget "blockAllNetwork" d = Some (PBool true) →
       dget "networkPolicy" d' = Some (PDict [("defaultAction", PStr "deny"); ("egress", PList [])])) ∧
    normalize_frontend_payload (PDict d') = PDict d'.
Proof.
  unfold normalize_frontend_payload. set (d1 := fill_pairs "env" "envVariables" d). set (d2 := fill_pairs "metadata" "labels" d1).
  set (deny := PDict [("defaultAction", PStr "deny"); ("egress", PList [])]).
  set (block := is_none (dget "networkPolicy" d2) && bool_decide (dget "blockAllNetwork" d2 = Some (PBool true))).
  set (d3 := if block then dset "networkPolicy" deny d2 else d2). exists d3. split; [done|].
  assert (∀ k, k ∉ ["env"; "metadata"] → dget k d2 = dget k d) as H2.
  { intros k Hk. unfold d2, d1. rewrite !fill_pairs_other; [done|set_solver..]. }
  assert (∀ k, k ≠ "networkPolicy" → dget k d3 = dget k d2) as H3.
  { intros k Hk. unfold d3. destruct block; [by rewrite dget_set_ne|done]. }
  assert (∀ k, is_none (dget k d) = false → dget k d2 = dget k d) as Hgiven.
  { intros k Hk. destruct (decide (k = "env")) as [->|]; [|destruct (decide (k = "metadata")) as [->|]; [|apply H2; set_solver]].
    - unfold d2. rewrite fill_pairs_other by done. unfold d1. by rewrite fill_pairs_given.
    - assert (dget "metadata" d1 = dget "metadata" d) as Hm by (unfold d1; by rewrite fill_pairs_other).
      unfold d2. rewrite fill_pairs_given; [done|]. by rewrite Hm. }
  split_and!.
  - intros k Hk. destruct (decide (k = "networkPolicy")) as [->|].
    + destruct Hk as [Hk|Hk]; [|set_solver]. unfold d3, block. rewrite (H2 "networkPolicy"), Hk by set_solver. cbn. apply Hgiven, Hk.
    + rewrite H3 by done. destruct Hk; [by apply Hgiven|]. apply H2. set_solver.
  - intros Hn Hb. unfold d3, block. rewrite !H2, Hn, Hb by set_solver. rewrite bool_decide_true by done. cbn [andb]. by rewrite dget_set_eq.
  - rewrite (fill_pairs_done "env" "envVariables" d d3), (fill_pairs_done "metadata" "labels" d1 d3).
    + f_equal. destruct (is_none (dget "networkPolicy" d3)) eqn:Hn; cbn; [|done]. unfold d3 in Hn |- *.
      destruct block eqn:Hb; [by rewrite dget_set_eq in Hn|]. unfold block in Hb. rewrite Hn in Hb. cbn in Hb. by rewrite Hb.
    + by rewrite H3.
    + rewrite H3 by done. unfold d2. by rewrite fill_pairs_other.
    + rewrite H3 by done. unfold d2. by rewrite fill_pairs_other.
    + rewrite H3 by done. by rewrite H2 by set_solver.
Qed.
