(* ===== verification/TerminalBridge.v ===== *)
(** * A terminal session ([sandbox_terminal] of [server/src/api/lifecycle.py])

    Once a terminal is open, three tasks run: one copies what the shell prints to the
    WebSocket, one copies what the client types to the shell, one marks the sandbox
    as active every 30 seconds.  When the first of them ends, the others are
    cancelled and both connections are closed.  A task runs alone between two
    [await]s; [bridge_step] is what one task does from one [await] to the next, and a
    session is a sequence of events in any order. *)

From S2P Require Import Prelude PyString.
Open Scope string_scope.
Open Scope list_scope.

(** ** State *)

(** [read_from_k8s]: at the head of the loop, in [read_stdout], in [send_text] *)
Inductive Reader := RHead | RReading | RSending (data : string) | RDone | RCancelled.
(** [write_to_k8s]: in [receive_text] *)
Inductive Writer := WReceiving | WDone | WCancelled.
(** [periodic_activity_touch]: at the head of the loop, in [sleep] *)
Inductive Heart := HHead | HSleeping | HDone | HCancelled.
(** The route itself: in [asyncio.wait], or past its [finally] block *)
Inductive MainTask := Waiting | Closed.

Record Bridge := {
  br_reader : Reader;
  br_writer : Writer;
  br_heart : Heart;
  br_main : MainTask;
  br_open : bool;             (* what [ws_client.is_open()] answers *)
  br_closed : bool;           (* [ws_client.close()] has been called *)
  br_printed : list string;   (* what [read_stdout] returned, in order *)
  br_sent : list string;      (* what [send_text] has sent *)
  br_typed : list string;     (* what [receive_text] returned *)
  br_stdin : list string;     (* what [write_stdin] has written *)
  br_touched : nat }.         (* calls of [_touch_sandbox_activity] *)

Definition session_start : Bridge := {|
  br_reader := RHead; br_writer := WReceiving; br_heart := HHead; br_main := Waiting; br_open := true; br_closed := false;
  br_printed := []; br_sent := []; br_typed := []; br_stdin := []; br_touched := 0 |}.

Definition set_reader (r : Reader) (b : Bridge) : Bridge := {|
  br_reader := r; br_writer := br_writer b; br_heart := br_heart b; br_main := br_main b; br_open := br_open b;
  br_closed := br_closed b; br_printed := br_printed b; br_sent := br_sent b; br_typed := br_typed b;
  br_stdin := br_stdin b; br_touched := br_touched b |}.
Definition set_writer (x : Writer) (b : Bridge) : Bridge := {|
  br_reader := br_reader b; br_writer := x; br_heart := br_heart b; br_main := br_main b; br_open := br_open b;
  br_closed := br_closed b; br_printed := br_printed b; br_sent := br_sent b; br_typed := br_typed b;
  br_stdin := br_stdin b; br_touched := br_touched b |}.
Definition set_heart (h : Heart) (b : Bridge) : Bridge := {|
  br_reader := br_reader b; br_writer := br_writer b; br_heart := h; br_main := br_main b; br_open := br_open b;
  br_closed := br_closed b; br_printed := br_printed b; br_sent := br_sent b; br_typed := br_typed b;
  br_stdin := br_stdin b; br_touched := br_touched b |}.
(** One more marker of activity, and what was copied. *)
Definition record (printed sent typed stdin : list string) (touches : nat) (b : Bridge) : Bridge := {|
  br_reader := br_reader b; br_writer := br_writer b; br_heart := br_heart b; br_main := br_main b; br_open := br_open b;
  br_closed := br_closed b; br_printed := br_printed b ++ printed; br_sent := br_sent b ++ sent;
  br_typed := br_typed b ++ typed; br_stdin := br_stdin b ++ stdin; br_touched := touches + br_touched b |}.

(** ** Steps *)

Inductive BridgeEvent :=
| ReaderChecks                   (* [while ws_client.is_open()] *)
| ShellPrints (data : string)    (* [read_stdout] returns *)
| DataSent                       (* [send_text] returns *)
| ReaderRaises                   (* [read_stdout] or [send_text] raises *)
| ClientTypes (data : string)    (* [receive_text] returns and [write_stdin] too *)
| WriteRaises (data : string)    (* [receive_text] returns and [write_stdin] raises *)
| ClientLeaves                   (* [receive_text] raises *)
| HeartChecks                    (* [while ws_client.is_open()] *)
| HeartBeats                     (* [sleep] returns *)
| ShellExits                     (* the shell or its connection ends *)
| SessionEnds                    (* [asyncio.wait] returns *)
| SessionCancelled.              (* [asyncio.wait] is cancelled *)

Definition reader_done (r : Reader) : bool := match r with RDone => true | _ => false end.
Definition writer_done (x : Writer) : bool := match x with WDone => true | _ => false end.
Definition heart_done (h : Heart) : bool := match h with HDone => true | _ => false end.
Definition some_done (b : Bridge) : bool := reader_done (br_reader b) || writer_done (br_writer b) || heart_done (br_heart b).

Definition cancel_reader (r : Reader) : Reader := match r with RDone => RDone | _ => RCancelled end.
Definition cancel_writer (x : Writer) : Writer := match x with WDone => WDone | _ => WCancelled end.
Definition cancel_heart (h : Heart) : Heart := match h with HDone => HDone | _ => HCancelled end.

(** The [finally] block: [ws_client.close()], and [websocket.close()] whose exceptions
    are dropped. *)
Definition close_both (b : Bridge) : Bridge := {|
  br_reader := br_reader b; br_writer := br_writer b; br_heart := br_heart b; br_main := Closed; br_open := false;
  br_closed := true; br_printed := br_printed b; br_sent := br_sent b; br_typed := br_typed b; br_stdin := br_stdin b;
  br_touched := br_touched b |}.

Definition cancel_pending (b : Bridge) : Bridge :=
  set_reader (cancel_reader (br_reader b)) (set_writer (cancel_writer (br_writer b)) (set_heart (cancel_heart (br_heart b)) b)).

Definition shell_exits (b : Bridge) : Bridge := {|
  br_reader := br_reader b; br_writer := br_writer b; br_heart := br_heart b; br_main := br_main b; br_open := false;
  br_closed := br_closed b; br_printed := br_printed b; br_sent := br_sent b; br_typed := br_typed b;
  br_stdin := br_stdin b; br_touched := br_touched b |}.

Definition bridge_step (e : BridgeEvent) (b : Bridge) : option Bridge :=
  match e with
  | ReaderChecks =>
      match br_reader b with RHead => Some (set_reader (if br_open b then RReading else RDone) b) | _ => None end
  | ShellPrints data =>
      match br_reader b with
      | RReading =>
          Some (if truthy data then set_reader (RSending data) (record [data] [] [] [] 1 b) else set_reader RHead b)
      | _ => None
      end
  | DataSent =>
      match br_reader b with RSending data => Some (set_reader RHead (record [] [data] [] [] 0 b)) | _ => None end
  | ReaderRaises =>
      match br_reader b with RReading | RSending _ => Some (set_reader RDone b) | _ => None end
  | ClientTypes data =>
      match br_writer b with WReceiving => Some (record [] [] [data] [data] 1 b) | _ => None end
  | WriteRaises data =>
      match br_writer b with WReceiving => Some (set_writer WDone (record [] [] [data] [] 1 b)) | _ => None end
  | ClientLeaves =>
      match br_writer b with WReceiving => Some (set_writer WDone b) | _ => None end
  | HeartChecks =>
      match br_heart b with HHead => Some (set_heart (if br_open b then HSleeping else HDone) b) | _ => None end
  | HeartBeats =>
      match br_heart b with HSleeping => Some (set_heart HHead (record [] [] [] [] 1 b)) | _ => None end
  | ShellExits => Some (shell_exits b)
  | SessionEnds =>
      match br_main b with Waiting => if some_done b then Some (close_both (cancel_pending b)) else None | Closed => None end
  | SessionCancelled =>
      match br_main b with Waiting => Some (close_both b) | Closed => None end
  end.

Fixpoint session (events : list BridgeEvent) (b : Bridge) : option Bridge :=
  match events with [] => Some b | e :: events' => b' ← bridge_step e b; session events' b' end.

(** ** What a session copies *)

(** What the reader has in hand: nothing, or what it is about to send; a reader that
    was stopped may have dropped one piece. *)
Definition in_hand (r : Reader) (pending : list string) : Prop :=
  match r with
  | RHead | RReading => pending = []
  | RSending data => pending = [data]
  | RDone | RCancelled => (length pending ≤ 1)%nat
  end.

Definition untyped (x : Writer) (pending : list string) : Prop :=
  match x with WReceiving => pending = [] | WDone | WCancelled => (length pending ≤ 1)%nat end.

Record bridge_ok (b : Bridge) : Prop := {
  bo_printed : ∃ pending, br_printed b = br_sent b ++ pending ∧ in_hand (br_reader b) pending;
  bo_typed : ∃ pending, br_typed b = br_stdin b ++ pending ∧ untyped (br_writer b) pending;
  bo_touched : (length (br_printed b) + length (br_typed b) ≤ br_touched b)%nat;
  bo_main : br_main b = Closed → br_closed b = true ∧ br_open b = false }.

Lemma start_ok : bridge_ok session_start.
Proof. split; cbn; [by exists []|by exists []|lia|done]. Qed.

Lemma in_hand_short r pending : in_hand r pending → (length pending ≤ 1)%nat.
Proof. destruct r; cbn; intros H; subst; cbn; lia. Qed.
Lemma untyped_short x pending : untyped x pending → (length pending ≤ 1)%nat.
Proof. destruct x; cbn; intros H; subst; cbn; lia. Qed.

(** A task that has ended keeps its promise whatever it had in hand. *)
Lemma in_hand_cancel r pending : in_hand r pending → in_hand (cancel_reader r) pending.
Proof. intros H. apply in_hand_short in H. by destruct r. Qed.
Lemma untyped_cancel x pending : untyped x pending → untyped (cancel_writer x) pending.
Proof. intros H. apply untyped_short in H. by destruct x. Qed.

Ltac moved := cbn; rewrite ?app_nil_r, ?length_app; cbn; (done || lia || auto).

Lemma bridge_step_ok e b b' : bridge_ok b → bridge_step e b = Some b' → bridge_ok b'.
Proof.
  intros [(p&Hp&Hh) (q&Hq&Hu) Ht Hm] Hs. pose proof (in_hand_short _ _ Hh) as Hlp. pose proof (untyped_short _ _ Hu) as Hlq.
  destruct e; cbn [bridge_step] in Hs.
  - destruct (br_reader b) eqn:Hr; simplify_eq. cbn in Hh. subst p.
    rewrite app_nil_r in Hp. split; [exists []|exists q|..]; moved. destruct (br_open b); cbn; auto.
  - destruct (br_reader b) eqn:Hr; simplify_eq. cbn in Hh. subst p. rewrite app_nil_r in Hp.
    destruct (truthy data); split; [exists [data]|exists q| | |exists []|exists q|..]; moved. by rewrite Hp.
  - destruct (br_reader b) eqn:Hr; simplify_eq. cbn in Hh. subst p.
    split; [exists []|exists q|..]; moved.
  - assert (b' = set_reader RDone b) as -> by (destruct (br_reader b); by simplify_eq).
    split; [exists p|exists q|..]; moved.
  - destruct (br_writer b) eqn:Hw; simplify_eq. cbn in Hu. subst q. rewrite app_nil_r in Hq.
    split; [exists p|exists []|..]; moved. by rewrite Hq, Hw.
  - destruct (br_writer b) eqn:Hw; simplify_eq. cbn in Hu. subst q. rewrite app_nil_r in Hq.
    split; [exists p|exists [data]|..]; moved. by rewrite Hq.
  - destruct (br_writer b) eqn:Hw; simplify_eq. split; [exists p|exists q|..]; moved.
  - destruct (br_heart b) eqn:Hw; simplify_eq. split; [exists p|exists q|..]; moved.
  - destruct (br_heart b) eqn:Hw; simplify_eq. split; [exists p|exists q|..]; moved.
  - simplify_eq. split; [exists p|exists q|..]; moved. intros H. by destruct (Hm H).
  - destruct (br_main b), (some_done b); simplify_eq. split; [exists p|exists q|..]; cbn; auto using in_hand_cancel, untyped_cancel.
  - destruct (br_main b); simplify_eq. split; [exists p|exists q|..]; moved.
Qed.

Lemma session_ok events b b' : bridge_ok b → session events b = Some b' → bridge_ok b'.
Proof.
  revert b. induction events as [|e events IH]; intros b Hb; cbn; [by intros [= <-]|].
  destruct (bridge_step e b) as [b1|] eqn:He; [|done]. cbn. apply IH. by eapply bridge_step_ok.
Qed.

(** ** How a session ends *)

(** Steps of the reader that are left once the shell has gone. *)
Definition reader_left (r : Reader) : nat :=
  match r with RReading => 3 | RSending _ => 2 | RHead => 1 | RDone | RCancelled => 0 end.

Definition reader_event (e : BridgeEvent) : bool :=
  match e with ReaderChecks | ShellPrints _ | DataSent | ReaderRaises => true | _ => false end.

(** Without a shell, every step of the reader brings it closer to its end, and no step
    of another task sets it back or brings the shell back. *)
Lemma reader_progress e b b' :
  br_open b = false → bridge_step e b = Some b' →
  br_open b' = false ∧ (reader_left (br_reader b') ≤ reader_left (br_reader b))%nat ∧
  (reader_event e = true → (reader_left (br_reader b') < reader_left (br_reader b))%nat).
Proof.
  intros Ho Hs. destruct e; cbn [bridge_step] in Hs; rewrite ?Ho in Hs; destruct (br_reader b) eqn:Hr;
    repeat (case_match; simplify_eq); simplify_eq; cbn; rewrite ?Ho, ?Hr; cbn; split_and!; (done || lia).
Qed.

Lemma reader_steps_bounded events b b' :
  br_open b = false → session events b = Some b' →
  (length (List.filter reader_event events) + reader_left (br_reader b') ≤ reader_left (br_reader b))%nat.
Proof.
  revert b. induction events as [|e events IH]; intros b Ho; cbn; [intros [= <-]; lia|].
  destruct (bridge_step e b) as [b1|] eqn:He; [|done]. cbn. intros Hs.
  destruct (reader_progress _ _ _ Ho He) as (Ho1&Hle&Hlt). specialize (IH _ Ho1 Hs).
  destruct (reader_event e); cbn; [specialize (Hlt eq_refl)|]; lia.
Qed.

(** C40: a terminal session, in whatever order its tasks run, however it fails and
    wherever it is stopped.  What the client has been sent is what the shell printed,
    in order and unchanged, but for at most the last piece; what the shell was given
    is what the client typed, but for at most the last message; every piece marked the
    sandbox as active; a session that is over has closed the connection to the shell;
    one whose shell has gone lets its reader take at most three more steps, after
    which the session can end; and a session that ends cancels what still runs. *)
Theorem terminal_relay events b :
  session events session_start = Some b →
  (∃ lost, br_printed b = br_sent b ++ lost ∧ (length lost ≤ 1)%nat) ∧
  (∃ lost, br_typed b = br_stdin b ++ lost ∧ (length lost ≤ 1)%nat) ∧
  (length (br_printed b) + length (br_typed b) ≤ br_touched b)%nat ∧
  (br_main b = Closed → br_closed b = true) ∧
  (br_open b = false → ∀ more b', session more b = Some b' →
     (length (List.filter reader_event more) ≤ 3)%nat ∧
     (br_reader b' = RDone → br_main b' = Waiting →
        ∃ b2, bridge_step SessionEnds b' = Some b2 ∧ br_closed b2 = true ∧
          br_writer b2 ≠ WReceiving ∧ br_heart b2 ∈ [HDone; HCancelled])).
Proof.
  intros Hs. destruct (session_ok _ _ _ start_ok Hs) as [(p&Hp&Hh) (q&Hq&Hu) Ht Hm].
  split; [exists p; eauto using in_hand_short|]. split; [exists q; eauto using untyped_short|].
  split; [done|]. split; [intros Hc; by apply Hm|]. intros Ho more b' Hmore. split.
  - pose proof (reader_steps_bounded _ _ _ Ho Hmore). destruct (br_reader b); cbn in *; lia.
  - intros Hr Hw. cbn [bridge_step]. rewrite Hw. unfold some_done. rewrite Hr. cbn. eexists. split; [done|].
    cbn. split; [done|]. split; [by destruct (br_writer b')|]. clear. destruct (br_heart b'); cbn; set_solver.
Qed.

Lemma terminal_relay_witness :
  let events := [ReaderChecks; HeartChecks; ClientTypes "ls"; ShellPrints "a b"; ClientTypes "exit"; DataSent;
                 ReaderChecks; ShellPrints "logout"; ShellExits; DataSent; ReaderChecks; SessionEnds] in
  ∃ b, session events session_start = Some b ∧ br_sent b = ["a b"; "logout"] ∧ br_stdin b = ["ls"; "exit"] ∧
    br_main b = Closed ∧ br_closed b = true.
Proof.
  intros events. set (b := default session_start (session events session_start)). exists b.
  assert (session events session_start = Some b) as Hs by (vm_compute; reflexivity).
  assert (br_main b = Closed) as Hm by (vm_compute; reflexivity).
  destruct (terminal_relay events b Hs) as (_&_&_&Hc&_).
  split; [exact Hs|]. split; [vm_compute; reflexivity|]. split; [vm_compute; reflexivity|].
  split; [exact Hm|exact (Hc Hm)].
Defined.
