(* ===== verification/Services.v ===== *)
(** * The two implementations behind the HTTP API

    The classes [DockerSandboxService] and [KubernetesSandboxService] as values of the
    interface [SandboxService], the table of the routes, and the refinement: whatever
    route is called over the Docker service, the server takes steps of the transition
    system of [DockerSystem.v], so that its invariants hold behind the HTTP API. *)

From Stdlib Require Import Ascii QArith.
From S2P Require Import Prelude PyString PyDict PyTime Json PyVal Schema Validators Config Helpers.
From S2P Require Import K8sClient WorkloadProvider K8sService Auth.
From S2P Require Import DockerHost SimHost Ossfs OssfsMounts DockerExpiry DockerTimers DockerVolumes.
From S2P Require Import DockerProvision DockerPending Provisioning DockerQuery DockerSystem Lifecycle LifecycleProofs.
Close Scope Q_scope.
Open Scope string_scope.
Open Scope list_scope.
Import SandboxErrorCodes.

(** ** Kubernetes *)

Definition kubernetes_sandbox_service {E} `{K8sEnv E} `{Pydantic} (s : KubernetesSandboxService E)
    (literal_eval : string → result pyval) : SandboxService (KWorld E) := {|
  sv_create_sandbox := K8sService.create_sandbox s;
  sv_create_sandbox_async := K8sService.create_sandbox_async s;
  sv_list_sandboxes := K8sService.list_sandboxes s;
  sv_get_sandbox := K8sService.get_sandbox s;
  sv_delete_sandbox := K8sService.delete_sandbox s;
  sv_pause_sandbox := K8sService.pause_sandbox s;
  sv_resume_sandbox := K8sService.resume_sandbox s;
  sv_renew_expiration := K8sService.renew_expiration s;
  sv_get_endpoint := K8sService.get_endpoint s;
  sv_get_sandbox_logs := K8sService.get_sandbox_logs s;
  sv_exec_sandbox_terminal := K8sService.exec_sandbox_terminal s;
  sv_submit_task := K8sService.submit_task s literal_eval;
  sv_get_task_status := K8sService.get_task_status s literal_eval;
  sv_get_task_logs := K8sService.get_task_logs s literal_eval;
  sv_kill_task := K8sService.kill_task s literal_eval;
  sv_update_env := K8sService.update_env s;
  sv_update_resource_limits := K8sService.update_resource_limits s;
  sv_touch_last_activity := K8sService.touch_last_activity s |}.

(** ** Docker *)

Section docker.
Context {E : Type} `{HostEnv E} `{NetEnv E} (cfg : AppConfig) (ttl : Z).

(** A method over the tables; the worker threads go on. *)
Definition in_world {A} (m : MW E A) : M (System E) A := λ y,
  let '(r, w) := m (sys_world y) in (r, Build_System w (sys_jobs y)).

(** [create_sandbox_async]: the worker thread is started. *)
Definition start_worker (m : MW E (CreateSandboxResponse * ProvisionJob)) : M (System E) CreateSandboxResponse := λ y,
  match m (sys_world y) with
  | (Ok (resp, job), w) => (Ok resp, Build_System w (job :: sys_jobs y))
  | (Raise e, w) => (Raise e, Build_System w (sys_jobs y))
  end.

Definition not_implemented {St A} (what : string) : M St A :=
  raise (PyException NotImplementedError (what +:+ " not yet implemented for Docker runtime")).
Definition not_supported {St A} (what : string) : M St A :=
  raise (HTTPException 501 API_NOT_SUPPORTED ("Updating " +:+ what +:+ " is not supported for Docker runtime")).

Definition docker_sandbox_service : SandboxService (System E) := {|
  sv_create_sandbox r := in_world (DockerProvision.create_sandbox cfg r);
  sv_create_sandbox_async r := start_worker (DockerPending.create_sandbox_async cfg r);
  sv_list_sandboxes r := in_world (DockerQuery.list_sandboxes r);
  sv_get_sandbox id := in_world (DockerQuery.get_sandbox id);
  sv_delete_sandbox id := in_world (DockerExpiry.delete_sandbox id);
  sv_pause_sandbox id := in_world (DockerExpiry.pause_sandbox id);
  sv_resume_sandbox id := in_world (DockerExpiry.resume_sandbox id);
  sv_renew_expiration id r := in_world (DockerExpiry.renew_expiration id r);
  sv_get_endpoint id port internal := in_world (DockerQuery.get_endpoint cfg id port internal);
  sv_get_sandbox_logs _ _ _ := not_implemented "Logs are";
  sv_exec_sandbox_terminal _ _ := not_implemented "Terminal is";
  sv_submit_task _ _ _ _ _ := not_implemented "Tasks are";
  sv_get_task_status _ _ := not_implemented "Tasks are";
  sv_get_task_logs _ _ _ := not_implemented "Tasks are";
  sv_kill_task _ _ := not_implemented "Tasks are";
  sv_update_env _ _ := not_supported "environment variables";
  sv_update_resource_limits _ _ := not_supported "resource limits";
  sv_touch_last_activity id := in_world (DockerExpiry.touch_last_activity id) |}.
End docker.

(** ** The routes *)

Inductive ApiCall :=
| PostSandbox (request : CreateSandboxRequest) (wait : bool)
| ListSandboxes (state : option (list string)) (metadata : option string) (page page_size : Z)
| GetSandbox (id : string)
| DeleteSandbox (id : string)
| PatchResources (id : string) (request : UpdateResourceLimitsRequest)
| PatchEnv (id : string) (env : dict (option string))
| PostPause (id : string)
| PostResume (id : string)
| PostRenew (id : string) (request : RenewSandboxExpirationRequest)
| GetEndpointRoute (request : IncomingRequest) (id : string) (port : Z) (use_server_proxy : bool)
| Proxy (request : IncomingRequest) (id : string) (port : Z) (full_path : string)
| GetLogs (id : string) (tail : Z) (follow : bool)
| GetTerminalToken (request : IncomingRequest) (id : string)
| PostTask (request : IncomingRequest) (id : string)
| GetTask (id task_id : string)
| GetTaskLogs (id task_id : string) (cursor : option Z)
| DeleteTask (id task_id : string).

Section router.
Context {St : Type} `{Jwt} (svc : SandboxService St) (config : AppConfig).
Context (decode : list N → string) (unix_us : St → Z * St) (send : ProxyRequest → M St ProxyResponse).

Definition route (c : ApiCall) : M St Reply :=
  match c with
  | PostSandbox r wait => Lifecycle.create_sandbox svc r wait
  | ListSandboxes state metadata page page_size => Lifecycle.list_sandboxes svc decode state metadata page page_size
  | GetSandbox id => Lifecycle.get_sandbox svc id
  | DeleteSandbox id => Lifecycle.delete_sandbox svc id
  | PatchResources id r => Lifecycle.update_sandbox_resource_limits svc id r
  | PatchEnv id env => Lifecycle.update_sandbox_env svc id env
  | PostPause id => Lifecycle.pause_sandbox svc id
  | PostResume id => Lifecycle.resume_sandbox svc id
  | PostRenew id r => Lifecycle.renew_sandbox_expiration svc id r
  | GetEndpointRoute rq id port proxy => Lifecycle.get_sandbox_endpoint svc rq id port proxy
  | Proxy rq id port path => Lifecycle.proxy_sandbox_endpoint_request svc send rq id port path
  | GetLogs id tail follow => Lifecycle.get_sandbox_logs svc id tail follow
  | GetTerminalToken rq id => Lifecycle.get_terminal_token svc config unix_us rq id
  | PostTask rq id => Lifecycle.submit_task svc rq id
  | GetTask id task => Lifecycle.get_task_status svc id task
  | GetTaskLogs id task cursor => Lifecycle.get_task_logs svc id task cursor
  | DeleteTask id task => Lifecycle.kill_task svc id task
  end.
End router.

(** A handler next to the context variable of the request. *)
Definition in_context {St A} (m : M St A) : M (Ctx St) A := λ s, let '(r, y) := m s.2 in (r, (s.1, y)).

(** ** The routes over the Docker service *)

Section refinement.
Context {E : Type} `{HostEnv E} `{NetEnv E} `{!ReliableHost E} (cfg : AppConfig) (ttl : Z).

(** A call that only takes steps of the system. *)
Definition stepping {A} (m : M (System E) A) : Prop := ∀ y r y', m y = (r, y') → rtc (step cfg ttl) y y'.

Lemma stepping_ret {A} (a : A) : stepping (mret a).
Proof. by intros y r y' [= _ <-]. Qed.
Lemma stepping_raise {A} x : stepping (A:=A) (raise x).
Proof. by intros y r y' [= _ <-]. Qed.
Lemma stepping_lift {A} (a : result A) : stepping (lift a).
Proof. by intros y r y' [= _ <-]. Qed.
Lemma stepping_bind {A B} (m : M (System E) A) (k : A → M (System E) B) :
  stepping m → (∀ a, stepping (k a)) → stepping (m ≫= k).
Proof.
  intros Hm Hk y r y'. unfold mbind, M_bind. destruct (m y) as [[a|x] y1] eqn:Hy.
  - intros Hr. transitivity y1; [by eapply Hm|by eapply Hk].
  - intros [= _ <-]. by eapply Hm.
Qed.
Lemma stepping_try {A} (m : M (System E) A) h : stepping m → (∀ x, stepping (h x)) → stepping (try_except m h).
Proof.
  intros Hm Hh y r y'. unfold try_except. destruct (m y) as [[a|x] y1] eqn:Hy.
  - intros [= _ <-]. by eapply Hm.
  - intros Hr. transitivity y1; [by eapply Hm|by eapply Hh].
Qed.

(** A method is the request [q] of the system. *)
Lemma stepping_request {A} q (m : MW E A) : handle cfg q = discard None m → stepping (in_world m).
Proof.
  intros Hq y r y'. unfold in_world. destruct (m (sys_world y)) as [rm w] eqn:Hm. intros [= <- <-].
  apply rtc_once. assert (∃ r', handle cfg q (sys_world y) = (r', w) ∧ ∀ j, r' ≠ Ok (Some j)) as (r'&Hr'&Hn).
  { rewrite Hq. unfold discard, mbind, M_bind. rewrite Hm. destruct rm; eauto. }
  pose proof (StepRequest cfg ttl y q r' w Hr') as Hs. destruct r' as [[j|]|]; [by destruct (Hn j)|done..].
Qed.

Lemma stepping_worker r : stepping (start_worker (DockerPending.create_sandbox_async cfg r)).
Proof.
  intros y res y'. unfold start_worker. destruct (DockerPending.create_sandbox_async _ _ _) as [ra w] eqn:Hm.
  assert (handle cfg (CreateAsync r) (sys_world y) = (match ra with Ok (_, job) => Ok (Some job) | Raise e => Raise e end, w)) as Hh.
  { cbn [handle]. unfold mbind, M_bind. rewrite Hm. by destruct ra as [[??]|]. }
  apply (StepRequest cfg ttl) in Hh. destruct ra as [[resp job]|e]; intros [= <- <-]; by apply rtc_once.
Qed.

Create HintDb stepping.
#[local] Hint Resolve stepping_ret stepping_raise stepping_lift stepping_worker : stepping.

Context `{Jwt} (decode : list N → string) (unix_us : System E → Z * System E) (send : ProxyRequest → M (System E) ProxyResponse).

(** The other end of the proxy and the clock are outside: they leave the tables alone,
    and time does not run backwards. *)
Definition outside_step (y y' : System E) : Prop :=
  ∃ e, (time (env (sys_world y)) ≤ time e)%Z ∧ y' = Build_System (Build_World (svc (sys_world y)) e) (sys_jobs y).
Context (Hsend : ∀ q y r y', send q y = (r, y') → outside_step y y').
Context (Hclock : ∀ y t y', unix_us y = (t, y') → outside_step y y').

Lemma stepping_send q : stepping (send q).
Proof using Hsend. intros y r y' (e&Ht&->)%Hsend. apply rtc_once. by apply StepOutside. Qed.
Lemma stepping_clock : stepping (λ y, let '(t, y') := unix_us y in (Ok t, y')).
Proof using Hclock.
  intros y r y'. destruct (unix_us y) as [t y1] eqn:Ht. intros [= _ <-].
  apply Hclock in Ht as (e&Ht&->). apply rtc_once. by apply StepOutside.
Qed.
#[local] Hint Resolve stepping_send stepping_clock : stepping.

Ltac stepping :=
  repeat first
    [ progress intros
    | solve [eauto with stepping]
    | apply stepping_bind | apply stepping_try
    | match goal with
      | |- stepping (in_world (DockerProvision.create_sandbox _ ?r)) => apply (stepping_request (Create r))
      | |- stepping (in_world (DockerQuery.list_sandboxes ?r)) => apply (stepping_request (ListAll r))
      | |- stepping (in_world (DockerQuery.get_sandbox ?i)) => apply (stepping_request (Get i))
      | |- stepping (in_world (DockerExpiry.delete_sandbox ?i)) => apply (stepping_request (Delete i))
      | |- stepping (in_world (DockerExpiry.pause_sandbox ?i)) => apply (stepping_request (Pause i))
      | |- stepping (in_world (DockerExpiry.resume_sandbox ?i)) => apply (stepping_request (Resume i))
      | |- stepping (in_world (DockerExpiry.renew_expiration ?i ?r)) => apply (stepping_request (Renew i r))
      | |- stepping (in_world (DockerExpiry.touch_last_activity ?i)) => apply (stepping_request (Touch i))
      | |- stepping (in_world (DockerQuery.get_endpoint _ ?i ?p ?b)) => apply (stepping_request (GetEndpoint i p b))
      | |- stepping (if ?b then _ else _) => destruct b
      | |- stepping (match ?x with _ => _ end) => destruct x
      | |- _ = discard None _ => reflexivity
      end ].

Lemma route_stepping c : stepping (route (docker_sandbox_service cfg) cfg decode unix_us send c).
Proof using Hsend Hclock.
  destruct c; cbn [route];
    unfold Lifecycle.create_sandbox, Lifecycle.list_sandboxes, Lifecycle.get_sandbox, Lifecycle.delete_sandbox,
      Lifecycle.update_sandbox_resource_limits, Lifecycle.update_sandbox_env, Lifecycle.pause_sandbox,
      Lifecycle.resume_sandbox, Lifecycle.renew_sandbox_expiration, Lifecycle.get_sandbox_endpoint,
      Lifecycle.proxy_sandbox_endpoint_request, Lifecycle.get_sandbox_logs, Lifecycle.get_terminal_token,
      Lifecycle.submit_task, Lifecycle.get_task_status, Lifecycle.get_task_logs, Lifecycle.kill_task,
      touch_sandbox_activity, not_implemented, not_supported; cbn [docker_sandbox_service sv_create_sandbox sv_create_sandbox_async
        sv_list_sandboxes sv_get_sandbox sv_delete_sandbox sv_pause_sandbox sv_resume_sandbox sv_renew_expiration sv_get_endpoint
        sv_get_sandbox_logs sv_submit_task sv_get_task_status sv_get_task_logs sv_kill_task sv_update_env
        sv_update_resource_limits sv_touch_last_activity]; unfold not_implemented, not_supported; stepping.
  all: try (unfold create_terminal_token; cbv zeta; stepping).
Qed.

(** A request as it arrives, with the identifier that the server would give it. *)
Record HttpCall := { h_path : string; h_headers : list (string * string); h_fresh : string; h_call : ApiCall }.

Definition serve_call (h : HttpCall) : Ctx (System E) → Reply * Ctx (System E) :=
  serve cfg (h_path h) (h_headers h) (h_fresh h)
    (in_context (route (docker_sandbox_service cfg) cfg decode unix_us send (h_call h))).

Fixpoint serve_all (calls : list HttpCall) (s : Ctx (System E)) : list Reply * Ctx (System E) :=
  match calls with
  | [] => ([], s)
  | h :: calls' => let '(r, s1) := serve_call h s in let '(rs, s2) := serve_all calls' s1 in (r :: rs, s2)
  end.

Lemma serve_call_steps h s r s' : serve_call h s = (r, s') → s'.1 = s.1 ∧ rtc (step cfg ttl) s.2 s'.2.
Proof using Hsend Hclock.
  unfold serve_call. rewrite serve_step. destruct (middleware _ _ _ _); [|by intros [= _ <-]].
  unfold in_context. cbn [snd fst]. destruct (route _ _ _ _ _ _ s.2) as [rr y] eqn:Hy. apply route_stepping in Hy.
  destruct rr as [rep|[]]; by intros [= _ <-].
Qed.

Lemma steps_reachable y y' : rtc (step cfg ttl) y y' → reachable cfg ttl y → reachable cfg ttl y'.
Proof. induction 1; [done|]. eauto using ReachStep. Qed.

End refinement.

(** ** A run *)

Definition sim_send : ProxyRequest → M (System Sim) ProxyResponse := λ q y,
  (Ok {| pr_status := 200; pr_headers := []; pr_content := px_url q |}, y).
Definition sim_unix (y : System Sim) : Z * System Sim := (0%Z, y).

Definition sim_calls : list HttpCall :=
  let call c := {| h_path := "/sandboxes"; h_headers := [("x-request-id", "r1")]; h_fresh := "f00d"; h_call := c |} in
  [call (GetSandbox "sb"); call (DeleteSandbox "nobody"); call (PostTask
     {| rq_method := "POST"; rq_headers := []; rq_query := ""; rq_base_url := ""; rq_scheme := "http"; rq_netloc := "s";
        rq_json := Ok (PDict [("command", PStr "ls")]) |} "sb")].

