(* ===== verification/JsonRoundtrip.v ===== *)
(** * JSON round trip

    What [json.dumps] writes for a value of strings, booleans, natural numbers, lists and
    dictionaries, [json.loads] reads back as the same value. *)

From Stdlib Require Import Ascii.
From S2P Require Import Prelude PyString PyDict PyTime PyFloat Json PyVal Common.
Close Scope Z_scope.
Open Scope string_scope.
Open Scope list_scope.

(** The values without floats, with natural numbers of up to 1200 digits, and whose
    dictionaries have every key once. *)
Fixpoint json_plain (v : pyval) : Prop :=
  match v with
  | PNone | PBool _ | PStr _ => True
  | PInt n => (0 ≤ n < 2 ^ 4000)%Z
  | PFloat _ => False
  | PList l => foldr (λ x acc, json_plain x ∧ acc) True l
  | PDict d => dict_wf d ∧ foldr (λ kv acc, json_plain kv.2 ∧ acc) True d
  end.

Lemma json_plain_list l : json_plain (PList l) ↔ Forall json_plain l.
Proof. apply foldr_and. Qed.
Lemma json_plain_dict d : json_plain (PDict d) ↔ dict_wf d ∧ Forall (λ kv, json_plain kv.2) d.
Proof. cbn [json_plain]. by rewrite (foldr_and (λ kv : string * pyval, json_plain kv.2)). Qed.

Fixpoint to_json (v : pyval) : json :=
  match v with
  | PNone => JNull
  | PBool b => JBool b
  | PInt n => JNum (str_of_Z n)
  | PFloat t => JNum t
  | PStr s => JStr s
  | PList l => JArr (map to_json l)
  | PDict d => JObj (map (λ kv, (kv.1, to_json kv.2)) d)
  end.

Lemma of_to_json v : json_plain v → of_json (to_json v) = v.
Proof.
  induction v as [| | | | |l IH|d IH] using pyval_ind; cbn [to_json of_json]; try done.
  - intros Hn. cbn in Hn. by rewrite py_int_str.
  - rewrite json_plain_list. intros Hl. f_equal. rewrite map_map. induction Hl as [|x l Hx _ IHl]; [done|].
    apply Forall_cons in IH as [Hv IH]. cbn. by rewrite Hv, IHl.
  - rewrite json_plain_dict. intros [Hwf Hd]. f_equal. rewrite map_map. cbn [fst snd].
    assert (map (λ kv : string * pyval, (kv.1, of_json (to_json kv.2))) d = d) as ->; [|by rewrite dupdate_fresh].
    clear Hwf. induction Hd as [|[k x] d Hx _ IHd]; [done|]. apply Forall_cons in IH as [Hv IH]. cbn in *. by rewrite Hv, IHd.
Qed.

(** ** Numbers *)

(** The text that follows a value inside a list, inside a dictionary or at the end. *)
Definition ends (r : string) : Prop :=
  match r with EmptyString => True | String c _ => c ∈ [","; "]"; "}"]%char end.

Lemma ends_cases r : ends r → r = EmptyString ∨ ∃ t, r = String "," t ∨ r = String "]" t ∨ r = String "}" t.
Proof. destruct r as [|c r]; [by left|]. cbn. rewrite !elem_of_cons, elem_of_nil. naive_solver. Qed.

Lemma take_digits_app ds r : string_forallb is_digit ds = true → ends r → take_digits (ds +:+ r) = (ds, r).
Proof.
  intros Hd Hr. induction ds as [|c ds IH].
  - destruct (ends_cases r Hr) as [->|(t&[->|[->| ->]])]; done.
  - cbn in Hd. apply andb_true_iff in Hd as [Hc Hd]. rewrite str_app_cons. cbn [take_digits]. by rewrite Hc, IH.
Qed.

Lemma nat_digits_first fuel n acc :
  (0 < n)%Z → (n < 2 ^ Z.of_nat fuel)%Z → ∃ c t, nat_digits fuel n acc = String c t ∧ c ≠ "0"%char.
Proof.
  revert n acc. induction fuel as [|fuel IH]; intros n acc Hn Hb; [cbn in Hb; lia|]. cbn [nat_digits].
  destruct (n <? 10)%Z eqn:Hlt.
  - apply Z.ltb_lt in Hlt. eexists _, _. split; [done|]. rewrite Z.mod_small by lia. intros H.
    assert (0 <= n < 10)%Z as Hb' by lia. pose proof (digit_char_val n Hb') as Hv. rewrite H in Hv. change (digit_val _) with 0%Z in Hv. lia.
  - apply Z.ltb_ge in Hlt. apply IH; [apply Z.div_str_pos; lia|].
    rewrite Nat2Z.inj_succ, Z.pow_succ_r in Hb by lia. apply Z.div_lt_upper_bound; lia.
Qed.

(** The text of a natural number: digits, the first of which is a zero only for zero. *)
Lemma str_of_Z_digits n : (0 ≤ n)%Z →
  string_forallb is_digit (str_of_Z n) = true ∧
  (str_of_Z n = "0" ∨ ∃ c t, str_of_Z n = String c t ∧ c ≠ "0"%char).
Proof.
  intros Hn. unfold str_of_Z. rewrite (proj2 (Z.ltb_ge _ _)), Z.abs_eq by lia.
  assert (n < 2 ^ Z.of_nat (S (Z.to_nat (Z.log2 n))))%Z as Hf.
  { pose proof (Z.log2_nonneg n). rewrite Nat2Z.inj_succ, Z2Nat.id by lia. destruct (decide (n = 0)%Z) as [->|]; [done|].
    apply Z.log2_lt_pow2; lia. }
  split.
  - destruct (nat_digits_spec (S (Z.to_nat (Z.log2 n))) n EmptyString) as (_&->&_); [done|done|lia|done].
  - destruct (decide (n = 0)%Z) as [->|]; [by left|]. right. apply nat_digits_first; [lia|done].
Qed.

Lemma digit_cases c : is_digit c = true → c ∈ ["0"; "1"; "2"; "3"; "4"; "5"; "6"; "7"; "8"; "9"]%char.
Proof. destruct c as [[] [] [] [] [] [] [] []]; try done; intros _; by apply (bool_decide_unpack _). Qed.

(** Goes through the ten digits that a character may be. *)
Ltac digit_split H :=
  apply digit_cases in H; rewrite !elem_of_cons, elem_of_nil in H; repeat (destruct H as [->|H]); [..|done].

Lemma parse_number_nat n r : (0 ≤ n)%Z → ends r → parse_number (str_of_Z n +:+ r) = Some (str_of_Z n, r).
Proof.
  intros Hn Hr. destruct (str_of_Z_digits n Hn) as [Hd Hz]. unfold parse_number.
  destruct Hz as [Hz|(c&t&Hz&Hc)].
  - rewrite Hz. destruct (ends_cases r Hr) as [->|(t&[->|[->| ->]])]; done.
  - pose proof (take_digits_app _ _ Hd Hr) as Ht. rewrite Hz in *. rewrite str_app_cons in *.
    cbn [string_forallb] in Hd. apply andb_true_iff in Hd as [Hdc _].
    digit_split Hdc; [done|..].
    all: rewrite Ht; cbn [truthy mbind option_bind].
    all: destruct (ends_cases r Hr) as [->|(u&[->|[->| ->]])];
      match goal with |- _ = Some (String ?c ?u, ?r) =>
        transitivity (Some (String c (u +:+ EmptyString), r)); [reflexivity|by rewrite str_app_nil_r] end.
Qed.

Lemma parse_value_nat f n r : (0 ≤ n)%Z → ends r → parse_value (S f) (str_of_Z n +:+ r) = Some (JNum (str_of_Z n), r).
Proof.
  intros Hn Hr. pose proof (parse_number_nat n r Hn Hr) as Hp. destruct (str_of_Z_digits n Hn) as [Hd _].
  pose proof (truthy_str_of_Z n) as Ht. destruct (str_of_Z n) as [|c t]; [done|]. rewrite str_app_cons in *.
  cbn [string_forallb] in Hd. apply andb_true_iff in Hd as [Hdc _]. 
  transitivity ('(t, r) ← parse_number (String c (t +:+ r)); Some (JNum t, r)); [|by rewrite Hp].
  digit_split Hdc; reflexivity.
Qed.

(** ** Values *)

(** The fuel that the parser needs. *)
Fixpoint cost (v : pyval) : nat :=
  match v with
  | PList l => S (foldr (λ x n, S (Nat.max (cost x) n)) 0 l)
  | PDict d => S (foldr (λ kv n, S (Nat.max (cost kv.2) n)) 0 d)
  | _ => 1
  end.
Definition cost_list (l : list pyval) : nat := foldr (λ x n, S (Nat.max (cost x) n)) 0 l.
Definition cost_dict (d : dict pyval) : nat := foldr (λ kv n, S (Nat.max (cost kv.2) n)) 0 d.

Lemma cost_pos v : (1 ≤ cost v)%nat.
Proof. destruct v; cbn; lia. Qed.

(** A value starts with neither white space nor the end of a list or a dictionary. *)
Definition starts (s : string) : Prop :=
  ∃ c t, s = String c t ∧ json_space c = false ∧ c ≠ "]"%char ∧ c ≠ "}"%char.

Lemma starts_app s r : starts s → starts (s +:+ r).
Proof. intros (c&t&->&H). by exists c, (t +:+ r). Qed.

Lemma dumps_starts v : json_plain v → starts (dumps v).
Proof.
  destruct v as [|[]|n| |s|l|d]; cbn [dumps]; intros Hv; try done; try (eexists _, _; split; [reflexivity|done]).
  cbn in Hv. destruct (str_of_Z_digits n) as [Hd _]; [lia|]. pose proof (truthy_str_of_Z n).
  destruct (str_of_Z n) as [|c t]; [done|]. exists c, t. split; [done|]. cbn in Hd. apply andb_true_iff in Hd as [Hd _].
  digit_split Hd; done.
Qed.

Lemma skip_ws_starts s : starts s → skip_ws s = s.
Proof. intros (c&t&->&Hc&_). unfold skip_ws. cbn. by rewrite Hc. Qed.

Lemma ends_comma t : ends ("," +:+ t). Proof. cbn. set_solver. Qed.
Lemma ends_list t : ends ("]" +:+ t). Proof. cbn. set_solver. Qed.
Lemma ends_dict t : ends ("}" +:+ t). Proof. cbn. set_solver. Qed.

(** What is proved of one value. *)
Definition reads (v : pyval) : Prop :=
  ∀ f r, (cost v ≤ f)%nat → ends r → parse_value f (dumps v +:+ r) = Some (to_json v, r).

Lemma parse_elems_reads l f r :
  l ≠ [] → Forall json_plain l → Forall reads l → (cost_list l ≤ f)%nat →
  parse_elems f (join ", " (map dumps l) +:+ "]" +:+ r) = Some (map to_json l, r).
Proof.
  intros Hne Hp Hl. revert f Hne Hp. induction Hl as [|v l Hv Hl IH]; intros f Hne Hp Hf; [done|].
  destruct f as [|f]; [cbn in Hf; lia|]. cbn [cost_list foldr] in Hf. fold (cost_list l) in Hf.
  apply Forall_cons in Hp as [Hpv Hp].
  transitivity ('(v, r) ← parse_value f (join ", " (map dumps (v :: l)) +:+ "]" +:+ r);
      match skip_ws r with
      | String "]" r' => Some ([v], r')
      | String "," r' => '(l, r'') ← parse_elems f (skip_ws r'); Some (v :: l, r'')
      | _ => None
      end); [done|].
  destruct l as [|v' l]; cbn [map].
  - cbn [join]. rewrite Hv by (lia || apply ends_list). done.
  - rewrite join_cons by done. rewrite !str_app_assoc, Hv by (lia || apply ends_comma). cbn [mbind option_bind].
    assert (∀ t, skip_ws (", " +:+ t) = String "," (String " " t)) as -> by done. cbn iota.
    assert (skip_ws (String " " (join ", " (dumps v' :: map dumps l) +:+ "]" +:+ r))
            = join ", " (map dumps (v' :: l)) +:+ "]" +:+ r) as ->.
    { transitivity (skip_ws (join ", " (map dumps (v' :: l)) +:+ "]" +:+ r)); [done|]. apply skip_ws_starts, starts_app.
      apply Forall_cons in Hp as [Hp _]. pose proof (dumps_starts _ Hp) as Hs.
      cbn [map join]. destruct (map dumps l); [done|by apply starts_app]. }
    rewrite IH by (done || lia). done.
Qed.

Definition dumps_member (kv : string * pyval) : string := dumps_string kv.1 +:+ ": " +:+ dumps kv.2.

Lemma parse_members_reads d f r :
  d ≠ [] → Forall (λ kv, json_plain kv.2) d → Forall (λ kv, reads kv.2) d → (cost_dict d ≤ f)%nat →
  parse_members f (join ", " (map dumps_member d) +:+ "}" +:+ r) = Some (map (λ kv, (kv.1, to_json kv.2)) d, r).
Proof.
  intros Hne Hp Hd. revert f Hne Hp. induction Hd as [|[k v] d Hv Hd IH]; intros f Hne Hp Hf; [done|].
  destruct f as [|f]; [cbn in Hf; lia|]. cbn [cost_dict foldr snd] in Hf. fold (cost_dict d) in Hf.
  apply Forall_cons in Hp as [Hpv Hp]. cbn [snd] in *.
  set (rest := match d with [] => "}" +:+ r | _ => ", " +:+ join ", " (map dumps_member d) +:+ "}" +:+ r end).
  assert (join ", " (map dumps_member ((k, v) :: d)) +:+ "}" +:+ r
          = String quote (esc_string k +:+ String quote (": " +:+ dumps v +:+ rest))) as ->.
  { unfold rest. destruct d as [|kv d]; cbn [map]; [cbn [join]|rewrite join_cons by done];
      unfold dumps_member at 1, dumps_string at 1; cbn [fst snd]; rewrite !str_app_cons, !str_app_assoc; done. }
  cbn [parse_members]. rewrite bool_decide_eq_true_2 by done. cbn [negb]. rewrite parse_string_esc. cbn [mbind option_bind].
  assert (∀ t, skip_ws (": " +:+ t) = String ":" (String " " t)) as -> by done. cbn iota.
  assert (skip_ws (String " " (dumps v +:+ rest)) = dumps v +:+ rest) as ->.
  { transitivity (skip_ws (dumps v +:+ rest)); [done|]. by apply skip_ws_starts, starts_app, dumps_starts. }
  assert (ends rest) as Hr by (unfold rest; destruct d; [apply ends_dict|apply ends_comma]).
  rewrite Hv by (done || lia). cbn [mbind option_bind]. unfold rest. destruct d as [|[k' v'] d]; [done|].
  assert (∀ t, skip_ws (", " +:+ t) = String "," (String " " t)) as -> by done. cbn iota.
  assert (skip_ws (String " " (join ", " (map dumps_member ((k', v') :: d)) +:+ "}" +:+ r))
          = join ", " (map dumps_member ((k', v') :: d)) +:+ "}" +:+ r) as ->.
  { transitivity (skip_ws (join ", " (map dumps_member ((k', v') :: d)) +:+ "}" +:+ r)); [done|].
    apply skip_ws_starts, starts_app. cbn [map join]. destruct (map dumps_member d); eexists _, _; (split; [reflexivity|done]). }
  rewrite IH by (done || lia). done.
Qed.

Lemma reads_plain v : json_plain v → reads v.
Proof.
  induction v as [|b|n|t|s|l IH|d IH] using pyval_ind; intros Hp f r Hf Hr; (destruct f as [|f]; [cbn in Hf; lia|]).
  - cbn [dumps to_json]. destruct (ends_cases r Hr) as [->|(t&[->|[->| ->]])]; reflexivity.
  - destruct b; cbn [dumps to_json]; destruct (ends_cases r Hr) as [->|(t&[->|[->| ->]])]; reflexivity.
  - cbn in Hp. apply parse_value_nat; [lia|done].
  - done.
  - apply parse_value_string.
  - cbn [dumps to_json]. rewrite json_plain_list in Hp. cbn [cost] in Hf. fold (cost_list l) in Hf. rewrite !str_app_assoc.
    assert (Forall reads l) as Hl.
    { clear -IH Hp. induction IH as [|x l Hx _ IHl]; [done|]. apply Forall_cons in Hp as [??]. constructor; auto. }
    destruct l as [|v l]; [done|].
    assert (starts (join ", " (map dumps (v :: l)) +:+ "]" +:+ r)) as Hs.
    { apply starts_app. apply Forall_cons in Hp as [Hv _]. apply dumps_starts in Hv. cbn [map join].
      destruct (map dumps l); [done|by apply starts_app]. }
    pose proof (parse_elems_reads (v :: l) f r ltac:(done) Hp Hl ltac:(lia)) as He.
    transitivity ('(l, r) ← parse_elems f (join ", " (map dumps (v :: l)) +:+ "]" +:+ r); Some (JArr l, r)); [|by rewrite He].
    rewrite <-(skip_ws_starts _ Hs) at 2. destruct Hs as (c&t&Hs&Hsp&Hc&_).
    change (parse_value (S f) ("[" +:+ ?x)) with
      (match skip_ws x with String "]" r => Some (JArr [], r) | t => '(l, r) ← parse_elems f t; Some (JArr l, r) end).
    rewrite Hs. unfold skip_ws. cbn [lstrip_by]. rewrite Hsp. clear -Hc.
    destruct c as [[] [] [] [] [] [] [] []]; done.
  - cbn [dumps to_json]. rewrite json_plain_dict in Hp. cbn [cost] in Hf. fold (cost_dict d) in Hf. rewrite !str_app_assoc.
    destruct Hp as [_ Hp].
    assert (Forall (λ kv, reads kv.2) d) as Hl.
    { clear -IH Hp. induction IH as [|x l Hx _ IHl]; [done|]. apply Forall_cons in Hp as [??]. constructor; auto. }
    destruct d as [|[k v] d]; [done|].
    pose proof (parse_members_reads ((k, v) :: d) f r ltac:(done) Hp Hl ltac:(lia)) as He.
    change (map (λ kv : string * pyval, dumps_string kv.1 +:+ ": " +:+ dumps kv.2)) with (map dumps_member).
    transitivity ('(l, r) ← parse_members f (join ", " (map dumps_member ((k, v) :: d)) +:+ "}" +:+ r); Some (JObj l, r));
      [|by rewrite He].
    assert (∃ t, join ", " (map dumps_member ((k, v) :: d)) +:+ "}" +:+ r = String quote t) as [t ->]; [|done].
    cbn [map join]. destruct (map dumps_member d); by eexists.
Qed.

(** The fuel of [loads] is enough. *)
Lemma cost_items {A} (c : A → nat) (p : A → string) l :
  Forall (λ x, (c x ≤ len (p x))%nat) l → (foldr (λ x n, S (Nat.max (c x) n)) 0 l ≤ S (len (join ", " (map p l))))%nat.
Proof.
  induction 1 as [|x l Hx _ IH]; cbn [foldr map]; [lia|]. destruct l as [|y l]; [cbn in *; lia|].
  rewrite join_cons by done. rewrite !len_app. cbn [len] in *. lia.
Qed.

Lemma cost_dumps v : json_plain v → (cost v ≤ len (dumps v))%nat.
Proof.
  induction v as [|[]|n|t|s|l IH|d IH] using pyval_ind; intros Hp; try done.
  - cbn. lia.
  - cbn. lia.
  - cbn. lia.
  - cbn [cost dumps]. pose proof (truthy_str_of_Z n). destruct (str_of_Z n); [done|]. cbn. lia.
  - cbn. lia.
  - rewrite json_plain_list in Hp. cbn [cost dumps]. rewrite !len_app. cbn [len].
    assert (Forall (λ x, (cost x ≤ len (dumps x))%nat) l) as Hl.
    { clear -IH Hp. induction IH as [|x l Hx _ IHl]; [done|]. apply Forall_cons in Hp as [??]. constructor; auto. }
    apply cost_items in Hl. lia.
  - rewrite json_plain_dict in Hp. destruct Hp as [_ Hp]. cbn [cost dumps]. rewrite !len_app. cbn [len].
    assert (Forall (λ kv : string * pyval, (cost kv.2 ≤ len (dumps_member kv))%nat) d) as Hl.
    { clear -IH Hp. induction IH as [|x l Hx _ IHl]; [done|]. apply Forall_cons in Hp as [Hp ?]. constructor; [|auto].
      unfold dumps_member. rewrite !len_app. specialize (Hx Hp). lia. }
    apply (cost_items (λ kv : string * pyval, cost kv.2)) in Hl. unfold dumps_member in Hl. lia.
Qed.

Lemma loads_dumps v : json_plain v → loads (dumps v) = Some (to_json v).
Proof.
  intros Hp. unfold loads. rewrite (skip_ws_starts _ (dumps_starts _ Hp)).
  pose proof (reads_plain v Hp (2 * len (dumps v) + 2) EmptyString) as Hr. rewrite str_app_nil_r in Hr.
  rewrite Hr; [done|pose proof (cost_dumps v Hp); lia|done].
Qed.

(** [json.loads] undoes [json.dumps]: for every value built from [None], booleans,
    texts, natural numbers, lists and dictionaries (without repeated keys), at any depth
    and with any characters, reading what was written gives the value back. *)
Theorem json_roundtrip v : json_plain v → (of_json <$> loads (dumps v)) = Some v.
Proof. intros Hp. rewrite loads_dumps by done. cbn. by rewrite of_to_json. Qed.

Definition json_sample : pyval :=
  PDict [("image", PDict [("uri", PStr "a b"); ("auth", PNone)]); ("ports", PList [PInt 0; PInt 44772; PList []]); ("ok", PBool true)].
Lemma json_roundtrip_witness : (of_json <$> loads (dumps json_sample)) = Some json_sample.
Proof. apply json_roundtrip. cbn. split_and!; try done; try lia; apply (bool_decide_unpack _); vm_compute; exact I. Defined.
