(* ===== verification/SdkBase.v ===== *)
(** * The Python client: exceptions, outcomes, the world
      ([sdks/sandbox/python/src/opensandbox/exceptions/sandbox.py])

    The client library raises its own exceptions, each with an error code, a request
    identifier and, for an answer of the API, a status code.  A call of the client is a
    function of the world it runs in ([Sdk W]): the world keeps what was done in it when
    the call raises.  What the client takes from elsewhere (httpx, the clock, the text
    codecs of the interpreter) are the classes [Net] and [Codecs].  The chain of causes
    ([__cause__]) and the log are not modelled. *)

From Stdlib Require Import Ascii.
From S2P Require Import Prelude PyString PyDict PyTime Json PyVal.
Open Scope string_scope.
Open Scope list_scope.

(** ** Exceptions *)

(** [SandboxError]: its fields hold whatever the answer held. *)
Record SandboxError := { err_code : pyval; err_message : pyval }.

Definition INTERNAL_UNKNOWN_ERROR : string := "INTERNAL_UNKNOWN_ERROR".
Definition READY_TIMEOUT : string := "READY_TIMEOUT".
Definition UNHEALTHY : string := "UNHEALTHY".
Definition INVALID_ARGUMENT : string := "INVALID_ARGUMENT".
Definition UNEXPECTED_RESPONSE : string := "UNEXPECTED_RESPONSE".

(** [SandboxError(code)] and [SandboxError(code, message)] *)
Definition sandbox_error (c : string) : SandboxError := {| err_code := PStr c; err_message := PNone |}.
Definition sandbox_error_with (c m : string) : SandboxError := {| err_code := PStr c; err_message := PStr m |}.

(** The subclasses of [SandboxException]. *)
Inductive sandbox_class :=
| SandboxApiException | SandboxInternalException | SandboxUnhealthyException
| SandboxReadyTimeoutException | InvalidArgumentException.

Record SandboxException := {
  se_class : sandbox_class;
  se_message : string;
  se_error : SandboxError;
  se_request_id : option string;
  se_status_code : option Z }.

(** The constructors of the subclasses. *)
Definition sandbox_api_exception (message : string) (status_code : option Z) (error : option SandboxError)
    (request_id : option string) : SandboxException := {|
  se_class := SandboxApiException; se_message := message;
  se_error := default (sandbox_error UNEXPECTED_RESPONSE) error;
  se_request_id := request_id; se_status_code := status_code |}.
Definition sandbox_internal_exception (message : string) : SandboxException := {|
  se_class := SandboxInternalException; se_message := message;
  se_error := sandbox_error INTERNAL_UNKNOWN_ERROR; se_request_id := None; se_status_code := None |}.
Definition sandbox_unhealthy_exception (message : string) : SandboxException := {|
  se_class := SandboxUnhealthyException; se_message := message;
  se_error := sandbox_error_with UNHEALTHY message; se_request_id := None; se_status_code := None |}.
Definition sandbox_ready_timeout_exception (message : string) : SandboxException := {|
  se_class := SandboxReadyTimeoutException; se_message := message;
  se_error := sandbox_error_with READY_TIMEOUT message; se_request_id := None; se_status_code := None |}.
Definition invalid_argument_exception (message : string) : SandboxException := {|
  se_class := InvalidArgumentException; se_message := message;
  se_error := sandbox_error_with INVALID_ARGUMENT message; se_request_id := None; se_status_code := None |}.

(** ** HTTP messages, as httpx has them *)

(** Header names are looked up without regard to case, so they are kept in lower case. *)
Record HttpResponse := {
  rs_status : Z;
  rs_headers : dict string;
  rs_content : list N }.

(** The part of a multipart form: the name of the field, then the name of the file, the
    content and the type of the content. *)
Inductive part_content := PartText (s : string) | PartBytes (b : list N) | PartStream (id : nat).
Record Part := { pt_name : string; pt_filename : string; pt_content : part_content; pt_type : string }.

Inductive request_body := EmptyBody | JsonPayload (v : pyval) | Multipart (parts : list Part).

(** The request that a client sends: the base URL and the default headers of the httpx
    client are in it already.  The values of [hr_params] are those given to httpx. *)
Record HttpRequest := {
  hr_method : string;
  hr_url : string;
  hr_params : dict pyval;
  hr_headers : dict string;
  hr_body : request_body }.

(** The errors of httpx itself: timeouts, network errors, and the rest of its
    [TransportError]s. *)
Inductive httpx_error := HttpxTimeout | HttpxNetwork | HttpxOther.

(** Every exception that the client meets. *)
Inductive sexn :=
| Sandbox (e : SandboxException)
| UnexpectedStatus (status_code : Z) (content : list N)
| HTTPStatusError (response : HttpResponse) (msg : string)
| HttpxError (kind : httpx_error) (msg : string)
| ValidationError (msg : string)
| PyError (e : exn).

Definition is_sandbox_exception (e : sexn) : bool := match e with Sandbox _ => true | _ => false end.

(** ** Outcomes *)

Inductive outcome (A : Type) : Type :=
| Return (a : A)
| Throw (e : sexn).
Arguments Return {A} a.
Arguments Throw {A} e.

#[global] Instance outcome_ret : MRet outcome := fun A => @Return A.
#[global] Instance outcome_bind : MBind outcome := fun A B f m =>
  match m with Return a => f a | Throw e => Throw e end.
#[global] Instance outcome_fmap : FMap outcome := fun A B f m =>
  match m with Return a => Return (f a) | Throw e => Throw e end.

(** The outcome of code that raises only exceptions of the interpreter. *)
Definition of_result {A} (r : result A) : outcome A :=
  match r with Ok a => Return a | Raise e => Throw (PyError e) end.

Definition throw_if (b : bool) (e : sexn) : outcome unit := if b then Throw e else Return tt.

(** [[f(x) for x in l]], stopping at the first exception *)
Fixpoint mapO {A B} (f : A → outcome B) (l : list A) : outcome (list B) :=
  match l with
  | [] => Return []
  | x :: l' => y ← f x; ys ← mapO f l'; Return (y :: ys)
  end.

(** An optional field. *)
Definition optO {A B} (f : A → outcome B) (o : option A) : outcome (option B) :=
  match o with Some a => b ← f a; Return (Some b) | None => Return None end.

Definition Sdk (W A : Type) : Type := W → outcome A * W.

#[global] Instance Sdk_ret {W} : MRet (Sdk W) := fun A a w => (Return a, w).
#[global] Instance Sdk_bind {W} : MBind (Sdk W) := fun A B f m w =>
  match m w with
  | (Return a, w') => f a w'
  | (Throw e, w') => (Throw e, w')
  end.

Section calls.
Context {W : Type}.

Definition liftO {A} (r : outcome A) : Sdk W A := λ w, (r, w).
Definition throw {A} (e : sexn) : Sdk W A := λ w, (Throw e, w).
Definition raise_sandbox {A} (e : SandboxException) : Sdk W A := throw (Sandbox e).

(** [try: m except Exception as e: h e] *)
Definition sdk_try {A} (m : Sdk W A) (h : sexn → Sdk W A) : Sdk W A := λ w,
  match m w with
  | (Return a, w') => (Return a, w')
  | (Throw e, w') => h e w'
  end.

(** [try: m except Exception: pass] *)
Definition sdk_quietly (m : Sdk W unit) : Sdk W unit := sdk_try m (λ _, mret tt).
End calls.

(** ** What the client is given *)

(** [bytes.decode("utf-8")] ([None] is [UnicodeDecodeError]),
    [bytes.decode("utf-8", errors="replace")], and the texts of the errors of the JSON
    reader and of the models of pydantic. *)
Class Codecs := {
  decode_strict : list N → option string;
  decode_replace : list N → string;
  json_error : string → string;
  invalid_text : string → list string → string }.

(** httpx, [time.time()] (in microseconds), [sleep] (a duration in microseconds), the
    transports by number, and the environment. *)
Class Net (W : Type) := {
  n_send : HttpRequest → Sdk W HttpResponse;
  n_time : W → Z * W;
  n_sleep : Z → W → W;
  n_new_transport : W → nat * W;
  n_close_transport : nat → Sdk W unit;
  n_getenv : string → option string }.

(** [str(e)] *)
Definition sexn_text `{Codecs} (e : sexn) : string :=
  match e with
  | Sandbox x => se_message x
  | UnexpectedStatus s c =>
      "Unexpected status code: " +:+ str_of_Z s +:+ newline +:+ newline +:+ "Response content:" +:+ newline +:+ decode_replace c
  | HTTPStatusError _ m | HttpxError _ m | ValidationError m => m
  | PyError x => exn_text x
  end.

Section net.
Context {W : Type} `{Net W}.

Definition now_us : Sdk W Z := λ w, let '(t, w') := n_time w in (Return t, w').
Definition sleep_us (d : Z) : Sdk W unit := λ w, (Return tt, n_sleep d w).
Definition new_transport : Sdk W nat := λ w, let '(t, w') := n_new_transport w in (Return t, w').
End net.

(** [response.json()] *)
Definition response_json `{Codecs} (r : HttpResponse) : outcome pyval :=
  match decode_strict (rs_content r) with
  | None => Throw (PyError (PyException ValueError "'utf-8' codec can't decode bytes"))
  | Some t =>
      match loads t with
      | None => Throw (PyError (PyException ValueError (json_error t)))
      | Some j => Return (of_json j)
      end
  end.

(** ** Lemmas *)

Lemma outcome_bind_Return {A B} (m : outcome A) (f : A → outcome B) b :
  (m ≫= f) = Return b ↔ ∃ a, m = Return a ∧ f a = Return b.
Proof. destruct m; cbn; naive_solver. Qed.

Lemma Sdk_bind_Return {W A B} (m : Sdk W A) (k : A → Sdk W B) w b w' :
  (m ≫= k) w = (Return b, w') → ∃ a w1, m w = (Return a, w1) ∧ k a w1 = (Return b, w').
Proof. unfold mbind, Sdk_bind. destruct (m w) as [[a|] w1]; [eauto|done]. Qed.

Lemma Sdk_bind_assoc {W A B C} (m : Sdk W A) (k : A → Sdk W B) (h : B → Sdk W C) w :
  ((m ≫= k) ≫= h) w = (m ≫= λ a, k a ≫= h) w.
Proof. unfold mbind, Sdk_bind. by destruct (m w) as [[a|] w1]. Qed.

Lemma mapO_Return {A B} (f : A → outcome B) l ys : mapO f l = Return ys ↔ Forall2 (λ x y, f x = Return y) l ys.
Proof.
  revert ys. induction l as [|x l IH]; intros ys; cbn.
  - split; [by intros [= <-]|by intros ->%Forall2_nil_inv_l].
  - rewrite outcome_bind_Return. split.
    + intros (y&Hy&H). apply outcome_bind_Return in H as (ys'&Hys&[= <-]). constructor; [done|by apply IH].
    + intros H. inversion H as [|? y ? ys' Hy Hys]; subst. exists y. split; [done|]. apply IH in Hys. by rewrite Hys.
Qed.

Lemma mapO_total {A B} (f : A → outcome B) (g : A → B) l : (∀ x, f x = Return (g x)) → mapO f l = Return (g <$> l).
Proof. intros Hf. induction l as [|x l IH]; cbn; [done|]. by rewrite Hf, IH. Qed.

(** * The Python client: answers and errors
      ([opensandbox/adapters/converter/response_handler.py],
      [exception_converter.py], [api/lifecycle/models/error_response.py])

    How an answer of the API is checked, and how any exception becomes one of the
    exceptions of the client. *)

(** ** The answer of a generated function *)

(** [models.error_response.ErrorResponse] *)
Record ApiErrorResponse := { aer_code : pyval; aer_message : pyval }.

(** What was parsed: the value of the call, an error, or the text of an error.  Only
    [ErrorResponse] has the attributes [message] and [code]. *)
Inductive Parsed (T : Type) := ParsedValue (t : T) | ParsedError (e : ApiErrorResponse) | ParsedText (s : string).
Arguments ParsedValue {T} t.
Arguments ParsedError {T} e.
Arguments ParsedText {T} s.

(** [types.Response] *)
Record ApiResponse (T : Type) := {
  ar_status_code : Z;
  ar_content : list N;
  ar_headers : dict string;
  ar_parsed : option (Parsed T) }.
Arguments ar_status_code {T} _.
Arguments ar_content {T} _.
Arguments ar_headers {T} _.
Arguments ar_parsed {T} _.

(** [extract_request_id] *)
Definition extract_request_id (headers : dict string) : option string :=
  match headers with
  | [] => None
  | _ =>
      let get k := dget (lower k) headers in
      let value := if truthy_opt (get "X-Request-ID") then get "X-Request-ID" else get "x-request-id" in
      match value with
      | Some v => if truthy (strip v) then Some (strip v) else None
      | None => None
      end
  end.

(** The kinds of value that [_status_code_to_int] tells apart: an [HTTPStatus] or an
    [int], and anything else by its [.value] and what [int(...)] makes of it. *)
Inductive status_like := StatusEnum (n : Z) | StatusInt (n : Z) | StatusOther (value as_int : option Z).

Definition status_code_to_int (s : status_like) : Z :=
  match s with
  | StatusEnum n | StatusInt n => n
  | StatusOther (Some v) _ => v
  | StatusOther None (Some n) => n
  | StatusOther None None => 0
  end.

Section responses.
Context {T : Type}.
Implicit Types r : ApiResponse T.

Definition api_status r : Z := status_code_to_int (StatusEnum (ar_status_code r)).

(** [require_parsed]: an [ErrorResponse] or a text is not of the expected type. *)
Definition require_parsed r (operation_name : string) : outcome T :=
  let fail what := Throw (Sandbox (sandbox_api_exception (operation_name +:+ " failed: " +:+ what)
                     (Some (api_status r)) None (extract_request_id (ar_headers r)))) in
  match ar_parsed r with
  | None => fail "empty response"
  | Some (ParsedError _ | ParsedText _) => fail "unexpected response type"
  | Some (ParsedValue t) => Return t
  end.

(** [handle_api_error] *)
Definition handle_api_error r (operation_name : string) : outcome unit :=
  if (300 <=? api_status r)%Z then
    let error_message :=
      match ar_parsed r with
      | Some (ParsedError e) => operation_name +:+ " failed: " +:+ vstr (aer_message e)
      | _ => operation_name +:+ " failed: HTTP " +:+ str_of_Z (api_status r)
      end in
    Throw (Sandbox (sandbox_api_exception error_message (Some (api_status r)) None (extract_request_id (ar_headers r))))
  else Return tt.
End responses.

(** ** The converter *)

(** What [_parse_error_body] is given. *)
Inductive error_body := BodyNone | BodyBytes (b : list N) | BodyText (s : string) | BodyValue (v : pyval).

Section converter.
Context `{Codecs}.

(** The end of [_parse_error_body]: code and message of a dictionary. *)
Definition error_of_value (v : pyval) : option SandboxError :=
  match v with
  | PDict d =>
      let code := dget_default "code" PNone d in
      let message := dget_default "message" PNone d in
      if vtruthy code then Some {| err_code := code; err_message := val_or message (PStr EmptyString) |} else None
  | _ => None
  end.

Definition error_of_text (s : string) : option SandboxError :=
  if negb (truthy s) then None else
  match loads s with
  | None => Some (sandbox_error_with UNEXPECTED_RESPONSE s)
  | Some j => error_of_value (of_json j)
  end.

(** [_parse_error_body] *)
Definition parse_error_body (body : error_body) : option SandboxError :=
  match body with
  | BodyNone => None
  | BodyBytes [] => None
  | BodyBytes b => error_of_text (decode_replace b)
  | BodyText s => error_of_text s
  | BodyValue (PStr s) => error_of_text s
  | BodyValue v => error_of_value v
  end.

Definition api_error_message (status_code : Z) : string := "API error: HTTP " +:+ str_of_Z status_code.

(** [_convert_unexpected_status_to_api_exception] *)
Definition convert_unexpected_status (status_code : Z) (content : list N) : SandboxException :=
  sandbox_api_exception (api_error_message status_code) (Some status_code) (parse_error_body (BodyBytes content)) None.

(** [_convert_httpx_error_to_api_exception] *)
Definition convert_httpx_error (response : HttpResponse) : SandboxException :=
  sandbox_api_exception (api_error_message (rs_status response)) (Some (rs_status response))
    (parse_error_body (BodyBytes (rs_content response))) (extract_request_id (rs_headers response)).

(** [isinstance(e, (IOError, OSError, ConnectionError))] *)
Definition is_os_error (e : sexn) : bool :=
  match e with PyError (PyException (OSError | FileNotFoundError | FileExistsError) _) => true | _ => false end.

(** [_is_httpx_network_error] *)
Definition is_httpx_network_error (e : sexn) : bool :=
  match e with
  | HttpxError (HttpxTimeout | HttpxNetwork) _ | PyError (PyException ConnectError _) => true
  | _ => false
  end.

(** [isinstance(e, (ValueError, TypeError))] *)
Definition is_value_or_type_error (e : sexn) : bool :=
  match e with PyError (PyException (ValueError | TypeError) _) => true | _ => false end.

Definition is_not_implemented (e : sexn) : bool :=
  match e with PyError (PyException NotImplementedError _) => true | _ => false end.

(** [ExceptionConverter.to_sandbox_exception] *)
Definition to_sandbox_exception (e : sexn) : SandboxException :=
  match e with
  | Sandbox x => x
  | UnexpectedStatus s c => convert_unexpected_status s c
  | HTTPStatusError r _ => convert_httpx_error r
  | _ =>
      if is_os_error e || is_httpx_network_error e then
        sandbox_internal_exception ("Network connectivity error: " +:+ sexn_text e)
      else if match e with ValidationError _ => true | _ => false end then invalid_argument_exception (sexn_text e)
      else if is_value_or_type_error e then invalid_argument_exception (sexn_text e)
      else if is_not_implemented e then sandbox_internal_exception ("Operation not supported: " +:+ sexn_text e)
      else sandbox_internal_exception ("Unexpected SDK error occurred: " +:+ sexn_text e)
  end.

(** The [except Exception as e: raise ExceptionConverter.to_sandbox_exception(e) from e]
    that ends every method of the adapters. *)
Definition converting {W A} (m : Sdk W A) : Sdk W A :=
  sdk_try m (λ e, raise_sandbox (to_sandbox_exception e)).

(** ** Theorems *)

Lemma converting_Return {W A} (m : Sdk W A) w a w' : converting m w = (Return a, w') ↔ m w = (Return a, w').
Proof. unfold converting, sdk_try. destruct (m w) as [[]]; cbn; naive_solver. Qed.

Lemma converting_Throw {W A} (m : Sdk W A) w e w' :
  converting m w = (Throw e, w') ↔ ∃ x, m w = (Throw x, w') ∧ e = Sandbox (to_sandbox_exception x).
Proof. unfold converting, sdk_try, raise_sandbox, throw. destruct (m w) as [[]]; cbn; naive_solver. Qed.

(** A refusal that the client raised itself goes through unchanged. *)
Lemma converting_sandbox {W A} (m : Sdk W A) w x w' :
  m w = (Throw (Sandbox x), w') → converting m w = (Throw (Sandbox x), w').
Proof. intros Hm. unfold converting, sdk_try. by rewrite Hm. Qed.

Lemma handle_api_error_Return {T} (r : ApiResponse T) op :
  handle_api_error r op = Return tt ↔ (ar_status_code r < 300)%Z.
Proof. unfold handle_api_error, api_status, status_code_to_int. destruct (300 <=? _)%Z eqn:Hs; results; naive_solver lia. Qed.

Lemma handle_api_error_Throw {T} (r : ApiResponse T) op :
  (300 ≤ ar_status_code r)%Z →
  ∃ x, handle_api_error r op = Throw (Sandbox x) ∧ se_class x = SandboxApiException ∧
       se_status_code x = Some (ar_status_code r) ∧ se_request_id x = extract_request_id (ar_headers r).
Proof.
  intros Hs. unfold handle_api_error, api_status, status_code_to_int.
  rewrite (proj2 (Z.leb_le _ _)) by done. by eexists.
Qed.

(** The answers that the checks let through: a status below 300 and a parsed value. *)
Lemma checked_value {T} (r : ApiResponse T) op op' t :
  (handle_api_error r op;; require_parsed r op') = Return t ↔
  (ar_status_code r < 300)%Z ∧ ar_parsed r = Some (ParsedValue t).
Proof.
  rewrite outcome_bind_Return. split.
  - intros ([]&H1%handle_api_error_Return&H2). split; [done|]. unfold require_parsed in H2.
    destruct (ar_parsed r) as [[]|]; naive_solver.
  - intros [H1 H2]. exists tt. rewrite handle_api_error_Return. split; [done|].
    unfold require_parsed. by rewrite H2.
Qed.

(** The status code that an exception of the API reports is the one that was answered,
    whichever way the answer was read. *)
Lemma conversion_keeps_status e x :
  to_sandbox_exception e = x → se_class x = SandboxApiException →
  match e with
  | Sandbox y => x = y
  | UnexpectedStatus s _ => se_status_code x = Some s
  | HTTPStatusError r _ => se_status_code x = Some (rs_status r) ∧ se_request_id x = extract_request_id (rs_headers r)
  | _ => False
  end.
Proof.
  intros <-. destruct e as [y|s c|r m|k m|m|e]; cbn; try done.
  - by destruct k.
  - by destruct e as [|[]].
Qed.
End converter.
