(* ===== verification/SdkModels.v ===== *)
(** * The Python client: its data models
      ([opensandbox/models/sandboxes.py], [models/execd.py], [models/filesystem.py])

    The pydantic models of the client as records, and their constructors with the
    validators of the source.  A constructor that refuses raises [ValidationError] with
    the messages of all the field validators that failed; a model validator runs after
    the fields are accepted.  Values that come from an answer are dynamic ([pyval]); how
    pydantic reads them as the declared type is the class [PydanticFields]. *)

From Stdlib Require Import Ascii.
From S2P Require Import Prelude PyString PyDict PyTime Json PyVal SdkBase.
Open Scope string_scope.
Open Scope list_scope.

(** ** pydantic *)

(** How a dynamic value is read as a [str], [int], [bool], [float] or [datetime]. *)
Class PydanticFields := {
  pf_str : pyval → option string;
  pf_int : pyval → option Z;
  pf_bool : pyval → option bool;
  pf_float : pyval → option pyval;
  pf_datetime : pyval → option datetime }.

(** A value of the declared type is kept; [str] takes nothing else. *)
Class PydanticLaws `{PydanticFields} : Prop := {
  pf_str_spec : ∀ v s, pf_str v = Some s ↔ v = PStr s;
  pf_int_int : ∀ n, pf_int (PInt n) = Some n;
  pf_bool_bool : ∀ b, pf_bool (PBool b) = Some b }.

Section validation.
Context `{Codecs}.

(** The messages of the validators that fail, in the order of the fields. *)
Definition failures (checks : list (bool * string)) : list string :=
  omap (λ c : bool * string, if c.1 then None else Some c.2) checks.

Definition validated {A} (model : string) (checks : list (bool * string)) (a : A) : outcome A :=
  match failures checks with
  | [] => Return a
  | errs => Throw (ValidationError (invalid_text model errs))
  end.

Lemma validated_Return {A} model checks (a b : A) :
  validated model checks a = Return b ↔ a = b ∧ Forall (λ c, c.1 = true) checks.
Proof.
  unfold validated. assert (failures checks = [] ↔ Forall (λ c, c.1 = true) checks) as Hf.
  { unfold failures. induction checks as [|[[] m] l IH]; cbn; [done|by rewrite Forall_cons, IH; naive_solver|].
    rewrite Forall_cons. naive_solver. }
  destruct (failures checks) eqn:E; [naive_solver|]. split; [done|]. intros [_ Hc%Hf]. done.
Qed.

Definition not_blank (s : string) : bool := truthy (strip s).

(** ** Images and networks *)

Record SandboxImageAuth := { ia_username : string; ia_password : string }.
Definition sandbox_image_auth (username password : string) : outcome SandboxImageAuth :=
  validated "SandboxImageAuth"
    [(not_blank username, "Username cannot be blank"); (not_blank password, "Password cannot be blank")]
    {| ia_username := username; ia_password := password |}.

Record SandboxImageSpec := { is_image : string; is_auth : option SandboxImageAuth }.
Definition sandbox_image_spec (image : string) (auth : option SandboxImageAuth) : outcome SandboxImageSpec :=
  validated "SandboxImageSpec" [(not_blank image, "Image cannot be blank")] {| is_image := image; is_auth := auth |}.

Definition is_action (s : string) : bool := bool_decide (s = "allow") || bool_decide (s = "deny").

Record NetworkRule := { nr_action : string; nr_target : string }.
Definition network_rule (action target : string) : outcome NetworkRule :=
  validated "NetworkRule"
    [(is_action action, "Input should be 'allow' or 'deny'"); (not_blank target, "Network rule target cannot be blank")]
    {| nr_action := action; nr_target := target |}.

Record NetworkPolicy := { np_default_action : option string; np_egress : option (list NetworkRule) }.
Definition network_policy (default_action : option string) (egress : option (list NetworkRule)) : outcome NetworkPolicy :=
  validated "NetworkPolicy"
    [(match default_action with Some a => is_action a | None => true end, "Input should be 'allow' or 'deny'")]
    {| np_default_action := default_action; np_egress := egress |}.

(** ** Volumes *)

Record Host := { h_path : string }.
Definition host (path : string) : outcome Host :=
  validated "Host" [(startswith path "/", "Host path must be an absolute path starting with '/'")] {| h_path := path |}.

Record PVC := { pvc_claim_name : string }.
Definition pvc (claim_name : string) : outcome PVC :=
  validated "PVC" [(not_blank claim_name, "PVC claim name cannot be blank")] {| pvc_claim_name := claim_name |}.

Record OSSFS := {
  o_bucket : string; o_endpoint : string; o_version : string; o_options : option (list string);
  o_access_key_id : option string; o_access_key_secret : option string }.
Definition ossfs (o : OSSFS) : outcome OSSFS :=
  o' ← validated "OSSFS" [(bool_decide (o_version o = "1.0") || bool_decide (o_version o = "2.0"), "Input should be '1.0' or '2.0'")] o;
  validated "OSSFS"
    [(truthy_opt (o_access_key_id o') && truthy_opt (o_access_key_secret o'),
      "OSSFS inline credentials are required: accessKeyId and accessKeySecret.")] o'.

Record Volume := {
  v_name : string; v_host : option Host; v_pvc : option PVC; v_ossfs : option OSSFS;
  v_mount_path : string; v_read_only : bool; v_sub_path : option string }.

Definition specified_backends (v : Volume) : nat :=
  (if v_host v is Some _ then 1 else 0) + (if v_pvc v is Some _ then 1 else 0) + (if v_ossfs v is Some _ then 1 else 0).

Definition volume (v : Volume) : outcome Volume :=
  v' ← validated "Volume"
         [(not_blank (v_name v), "Volume name cannot be blank");
          (startswith (v_mount_path v) "/", "Mount path must be an absolute path starting with '/'")] v;
  validated "Volume"
    [(negb (Nat.eqb (specified_backends v') 0),
      "Exactly one backend (host, pvc, ossfs) must be specified, but none was provided.");
     (Nat.leb (specified_backends v') 1,
      "Exactly one backend (host, pvc, ossfs) must be specified, but multiple were provided.")] v'.

(** ** Sandboxes *)

Record SandboxStatus := {
  st_state : string; st_reason : option string; st_message : option string; st_last_transition_at : option datetime }.

Record SandboxInfo := {
  si_id : string; si_status : SandboxStatus; si_entrypoint : list string; si_expires_at : option datetime;
  si_created_at : datetime; si_image : option SandboxImageSpec; si_metadata : option (dict string) }.

Record SandboxCreateResponse := { scr_id : string }.
Record SandboxRenewResponse := { srr_expires_at : datetime }.
Record SandboxEndpoint := { se_endpoint : string; se_headers : dict string }.

Record PaginationInfo := {
  pi_page : Z; pi_page_size : Z; pi_total_items : Z; pi_total_pages : Z; pi_has_next_page : bool }.
Record PagedSandboxInfos := { psi_sandbox_infos : list SandboxInfo; psi_pagination : PaginationInfo }.

Record SandboxFilter := {
  sf_states : option (list string); sf_metadata : option (dict string); sf_page_size : option Z; sf_page : option Z }.
Definition sandbox_filter (f : SandboxFilter) : outcome SandboxFilter :=
  validated "SandboxFilter"
    [(match sf_page_size f with Some n => (0 <? n)%Z | None => true end, "Page size must be positive");
     (match sf_page f with Some n => (0 <=? n)%Z | None => true end, "Page must be non-negative")] f.

Record SandboxMetrics := {
  sm_cpu_count : pyval; sm_cpu_used_percentage : pyval; sm_memory_total_in_mib : pyval; sm_memory_used_in_mib : pyval;
  sm_timestamp : Z }.

(** [SandboxState.values()] *)
Definition sandbox_states : list string :=
  ["Pending"; "Running"; "Pausing"; "Paused"; "Stopping"; "Terminated"; "Failed"; "Unknown"].

(** ** Execution *)

Record OutputMessage := { om_text : string; om_timestamp : Z; om_is_error : bool }.
Record ExecutionResult := { er_text : option string; er_timestamp : Z; er_extra : dict string }.
Record ExecutionError := { ee_name : string; ee_value : string; ee_timestamp : Z; ee_traceback : list string }.
Record ExecutionLogs := { el_stdout : list OutputMessage; el_stderr : list OutputMessage }.
Record ExecutionComplete := { ec_timestamp : Z; ec_execution_time_in_millis : Z }.
Record ExecutionInit := { ei_id : string; ei_timestamp : Z }.
Record Execution := {
  ex_id : option string; ex_execution_count : option Z; ex_result : list ExecutionResult;
  ex_error : option ExecutionError; ex_logs : ExecutionLogs }.

Definition add_stdout (m : OutputMessage) (l : ExecutionLogs) : ExecutionLogs :=
  {| el_stdout := el_stdout l ++ [m]; el_stderr := el_stderr l |}.
Definition add_stderr (m : OutputMessage) (l : ExecutionLogs) : ExecutionLogs :=
  {| el_stdout := el_stdout l; el_stderr := el_stderr l ++ [m] |}.
Definition add_result (r : ExecutionResult) (e : Execution) : Execution :=
  {| ex_id := ex_id e; ex_execution_count := ex_execution_count e; ex_result := ex_result e ++ [r];
     ex_error := ex_error e; ex_logs := ex_logs e |}.

Definition is_newline (c : ascii) : bool := (code c =? 10)%N.

(** [Execution.text] *)
Definition execution_text (e : Execution) : string :=
  join newline
    (((λ m, rstrip_by is_newline (om_text m)) <$> el_stdout (ex_logs e))
     ++ omap (λ r : ExecutionResult, match er_text r with
                   | Some ((String _ _) as t) => Some (rstrip_by is_newline t)
                   | _ => None
                   end) (ex_result e)).

(** [Execution.__str__] *)
Definition execution_str (e : Execution) : string :=
  join newline
    ((match el_stdout (ex_logs e), ex_result e with [], [] => [] | _, _ => [execution_text e] end)
     ++ (match el_stderr (ex_logs e) with
         | [] => []
         | ms => ["[stderr]" +:+ newline +:+ join newline ((λ m, rstrip_by is_newline (om_text m)) <$> ms)]
         end)
     ++ (match ex_error e with
         | None => []
         | Some x => ["[error] " +:+ ee_name x +:+ ": " +:+ ee_value x]
         end)).

(** [RunCommandOpts]; a duration is in microseconds. *)
Record RunCommandOpts := {
  rc_background : bool; rc_working_directory : option string; rc_timeout : option Z;
  rc_uid : option Z; rc_gid : option Z; rc_envs : option (dict string) }.
Definition default_run_opts : RunCommandOpts := {|
  rc_background := false; rc_working_directory := None; rc_timeout := None; rc_uid := None; rc_gid := None; rc_envs := None |}.
Definition non_negative (o : option Z) : bool := match o with Some n => (0 <=? n)%Z | None => true end.
Definition run_command_opts (o : RunCommandOpts) : outcome RunCommandOpts :=
  o' ← validated "RunCommandOpts"
         [(non_negative (rc_uid o), "Input should be greater than or equal to 0");
          (non_negative (rc_gid o), "Input should be greater than or equal to 0")] o;
  validated "RunCommandOpts"
    [(match rc_gid o', rc_uid o' with Some _, None => false | _, _ => true end, "uid is required when gid is provided")] o'.

Record CommandStatus := {
  cs_id : option string; cs_content : option string; cs_running : option bool; cs_exit_code : option Z;
  cs_error : option string; cs_started_at : option datetime; cs_finished_at : option datetime }.
Record CommandLogs := { cl_content : string; cl_cursor : option Z }.

(** ** Files *)

Record EntryInfo := {
  en_path : string; en_mode : Z; en_owner : string; en_group : string; en_size : Z;
  en_modified_at : datetime; en_created_at : datetime }.

(** What may be written: a text, bytes, a binary or a text stream, or something else of
    the given type. *)
Inductive file_data :=
| DataText (s : string) | DataBytes (b : list N) | DataBinaryStream (id : nat) | DataTextStream (id : nat)
| DataOther (type_repr : string).

Record WriteEntry := {
  we_path : string; we_data : option file_data; we_mode : Z; we_owner : option string; we_group : option string;
  we_encoding : string }.
Definition write_entry (e : WriteEntry) : outcome WriteEntry :=
  validated "WriteEntry"
    [(not_blank (we_path e), "Path cannot be blank"); ((0 <=? we_mode e)%Z, "Mode must be non-negative");
     (not_blank (we_encoding e), "Encoding cannot be blank")] e.

Record MoveEntry := { me_src : string; me_dest : string }.
Definition move_entry (src dest : string) : outcome MoveEntry :=
  validated "MoveEntry"
    [(not_blank src, "Source path cannot be blank"); (not_blank dest, "Destination path cannot be blank")]
    {| me_src := src; me_dest := dest |}.

Record SetPermissionEntry := {
  sp_path : string; sp_owner : option string; sp_group : option string; sp_mode : Z }.
Definition set_permission_entry (e : SetPermissionEntry) : outcome SetPermissionEntry :=
  validated "SetPermissionEntry"
    [(not_blank (sp_path e), "Path cannot be blank"); ((0 <=? sp_mode e)%Z, "Mode must be non-negative")] e.

Record ContentReplaceEntry := { cr_path : string; cr_old_content : string; cr_new_content : string }.
Definition content_replace_entry (e : ContentReplaceEntry) : outcome ContentReplaceEntry :=
  validated "ContentReplaceEntry" [(not_blank (cr_path e), "Path cannot be blank")] e.

Record SearchEntry := { sr_path : string; sr_pattern : string }.
Definition search_entry (e : SearchEntry) : outcome SearchEntry :=
  validated "SearchEntry"
    [(not_blank (sr_path e), "Path cannot be blank"); (not_blank (sr_pattern e), "Pattern cannot be blank")] e.
End validation.

(** ** Dynamic values *)

Section dynamic.
Context `{Codecs} `{PydanticFields}.

(** One field of a model read from a dynamic value. *)
Definition field_of {A} (model : string) (read : pyval → option A) (v : pyval) : outcome A :=
  match read v with Some a => Return a | None => Throw (ValidationError (invalid_text model ["Input should be valid"])) end.

(** A value of type [T | None]. *)
Definition nullable {A} (read : pyval → option A) (v : pyval) : option (option A) :=
  match v with PNone => Some None | _ => Some <$> read v end.

(** [list[str]] and [dict[str, str]] *)
Definition read_strings (v : pyval) : option (list string) :=
  match v with PList l => mapM pf_str l | _ => None end.
Definition read_str_dict (v : pyval) : option (dict string) :=
  match v with PDict d => mapM (λ kv : string * pyval, s ← pf_str kv.2; Some (kv.1, s)) d | _ => None end.
End dynamic.
