(* ===== verification/SdkApi.v ===== *)
(** * The generated client of the lifecycle API: its models
      ([opensandbox/api/lifecycle/models/*.py])

    The attrs classes with [to_dict] and [from_dict].  [from_dict] does not check the
    types of what it reads, so a field holds a dynamic value; [UNSET] is [None] here, and
    the [None] of Python is [PNone].  A property that a class does not declare is kept in
    [additional_properties].  [isoparse] of dateutil is a parameter. *)

From Stdlib Require Import Ascii.
From S2P Require Import Prelude PyString PyDict PyTime Json PyVal SdkBase.
Open Scope string_scope.
Open Scope list_scope.

Class Dateutil := { isoparse : pyval → result datetime }.

(** ** Dictionaries *)

(** [d.pop(k)] and [d.pop(k, UNSET)] *)
Definition pop (k : string) (d : dict pyval) : result (pyval * dict pyval) :=
  match dget k d with Some v => Ok (v, dpop k d) | None => Raise (PyException KeyError (repr k)) end.
Definition pop_opt (k : string) (d : dict pyval) : option pyval * dict pyval := (dget k d, dpop k d).

(** [if v is not UNSET: field_dict[k] = v] *)
Definition set_opt (k : string) (v : option pyval) (d : dict pyval) : dict pyval :=
  match v with Some x => dset k x d | None => d end.

(** The classes that are a dictionary with a name: [from_dict] and [to_dict]. *)
Definition props_from_dict (src : pyval) : result (dict pyval) := as_dict src.
Definition props_to_dict (props : dict pyval) : pyval := PDict (dupdate [] props).

(** [Enum(value)] for an enumeration of strings *)
Definition enum_value (name : string) (values : list string) (v : pyval) : result string :=
  match v with
  | PStr s => if bool_decide (s ∈ values) then Ok s else Raise (PyException ValueError (vrepr v +:+ " is not a valid " +:+ name))
  | _ => Raise (PyException ValueError (vrepr v +:+ " is not a valid " +:+ name))
  end.

(** [for x in v: f(x)], building a list *)
Fixpoint mapR {A B} (f : A → result B) (l : list A) : result (list B) :=
  match l with [] => Ok [] | x :: l' => y ← f x; ys ← mapR f l'; Ok (y :: ys) end.

(** [UNSET if isinstance(v, Unset) else f(v)] *)
Definition unless_unset {A} (f : pyval → result A) (v : option pyval) : result (option A) :=
  match v with Some x => a ← f x; Ok (Some a) | None => Ok None end.

(** The same where [None] counts as unset too. *)
Definition unless_null {A} (f : pyval → result A) (v : option pyval) : result (option A) :=
  match v with Some PNone | None => Ok None | Some x => a ← f x; Ok (Some a) end.

(** ** Images *)

Record ApiImageSpecAuth := { aia_username : option pyval; aia_password : option pyval }.
Definition image_spec_auth_to_dict (a : ApiImageSpecAuth) : pyval :=
  PDict (set_opt "password" (aia_password a) (set_opt "username" (aia_username a) [])).
Definition image_spec_auth_from_dict (src : pyval) : result ApiImageSpecAuth :=
  d ← as_dict src;
  let '(username, d) := pop_opt "username" d in
  let '(password, d) := pop_opt "password" d in
  Ok {| aia_username := username; aia_password := password |}.

Record ApiImageSpec := { ais_uri : pyval; ais_auth : option ApiImageSpecAuth }.
Definition image_spec_to_dict (i : ApiImageSpec) : pyval :=
  PDict (set_opt "auth" (image_spec_auth_to_dict <$> ais_auth i) (dupdate [] [("uri", ais_uri i)])).
Definition image_spec_from_dict (src : pyval) : result ApiImageSpec :=
  d ← as_dict src;
  '(uri, d) ← pop "uri" d;
  let '(_auth, d) := pop_opt "auth" d in
  auth ← unless_null image_spec_auth_from_dict _auth;
  Ok {| ais_uri := uri; ais_auth := auth |}.

(** ** Network policy *)

Definition ACTIONS : list string := ["allow"; "deny"].

Record ApiNetworkRule := { anr_action : string; anr_target : pyval }.
Definition network_rule_to_dict (r : ApiNetworkRule) : pyval :=
  PDict (dupdate [] [("action", PStr (anr_action r)); ("target", anr_target r)]).
Definition network_rule_from_dict (src : pyval) : result ApiNetworkRule :=
  d ← as_dict src;
  '(a, d) ← pop "action" d;
  action ← enum_value "NetworkRuleAction" ACTIONS a;
  '(target, d) ← pop "target" d;
  Ok {| anr_action := action; anr_target := target |}.

Record ApiNetworkPolicy := { anp_default_action : option string; anp_egress : option (list ApiNetworkRule) }.
Definition network_policy_to_dict (p : ApiNetworkPolicy) : pyval :=
  PDict (set_opt "egress" ((λ l, PList (network_rule_to_dict <$> l)) <$> anp_egress p)
           (set_opt "defaultAction" (PStr <$> anp_default_action p) [])).
Definition network_policy_from_dict (src : pyval) : result ApiNetworkPolicy :=
  d ← as_dict src;
  let '(_default_action, d) := pop_opt "defaultAction" d in
  default_action ← unless_unset (enum_value "NetworkPolicyDefaultAction" ACTIONS) _default_action;
  let '(_egress, d) := pop_opt "egress" d in
  egress ← unless_unset (λ v, l ← iterate v; mapR network_rule_from_dict l) _egress;
  Ok {| anp_default_action := default_action; anp_egress := egress |}.

(** ** Volumes *)

Record ApiHost := { ah_path : pyval }.
Definition host_to_dict (h : ApiHost) : pyval := PDict (dupdate [] [("path", ah_path h)]).
Definition host_from_dict (src : pyval) : result ApiHost :=
  d ← as_dict src; '(path, d) ← pop "path" d; Ok {| ah_path := path |}.

Record ApiPVC := { apvc_claim_name : pyval }.
Definition pvc_to_dict (p : ApiPVC) : pyval := PDict (dupdate [] [("claimName", apvc_claim_name p)]).
Definition pvc_from_dict (src : pyval) : result ApiPVC :=
  d ← as_dict src; '(claim_name, d) ← pop "claimName" d; Ok {| apvc_claim_name := claim_name |}.

Definition OSSFS_VERSIONS : list string := ["1.0"; "2.0"].

Record ApiOSSFS := {
  ao_bucket : pyval; ao_endpoint : pyval; ao_access_key_id : pyval; ao_access_key_secret : pyval;
  ao_version : option string; ao_options : option pyval }.
Definition ossfs_to_dict (o : ApiOSSFS) : pyval :=
  PDict (set_opt "options" (ao_options o) (set_opt "version" (PStr <$> ao_version o)
    (dupdate [] [("bucket", ao_bucket o); ("endpoint", ao_endpoint o); ("accessKeyId", ao_access_key_id o);
                 ("accessKeySecret", ao_access_key_secret o)]))).
Definition ossfs_from_dict (src : pyval) : result ApiOSSFS :=
  d ← as_dict src;
  '(bucket, d) ← pop "bucket" d;
  '(endpoint, d) ← pop "endpoint" d;
  '(access_key_id, d) ← pop "accessKeyId" d;
  '(access_key_secret, d) ← pop "accessKeySecret" d;
  let '(_version, d) := pop_opt "version" d in
  version ← unless_unset (enum_value "OSSFSVersion" OSSFS_VERSIONS) _version;
  let '(options, d) := pop_opt "options" d in
  Ok {| ao_bucket := bucket; ao_endpoint := endpoint; ao_access_key_id := access_key_id;
        ao_access_key_secret := access_key_secret; ao_version := version; ao_options := options |}.

Record ApiVolume := {
  av_name : pyval; av_mount_path : pyval; av_host : option ApiHost; av_pvc : option ApiPVC;
  av_ossfs : option ApiOSSFS; av_read_only : option pyval; av_sub_path : option pyval }.
Definition volume_to_dict (v : ApiVolume) : pyval :=
  PDict (set_opt "subPath" (av_sub_path v) (set_opt "readOnly" (av_read_only v)
    (set_opt "ossfs" (ossfs_to_dict <$> av_ossfs v) (set_opt "pvc" (pvc_to_dict <$> av_pvc v)
      (set_opt "host" (host_to_dict <$> av_host v)
        (dupdate [] [("name", av_name v); ("mountPath", av_mount_path v)])))))).
Definition volume_from_dict (src : pyval) : result ApiVolume :=
  d ← as_dict src;
  '(name, d) ← pop "name" d;
  '(mount_path, d) ← pop "mountPath" d;
  let '(_host, d) := pop_opt "host" d in
  host ← unless_unset host_from_dict _host;
  let '(_pvc, d) := pop_opt "pvc" d in
  pvc ← unless_unset pvc_from_dict _pvc;
  let '(_ossfs, d) := pop_opt "ossfs" d in
  ossfs ← unless_unset ossfs_from_dict _ossfs;
  let '(read_only, d) := pop_opt "readOnly" d in
  let '(sub_path, d) := pop_opt "subPath" d in
  Ok {| av_name := name; av_mount_path := mount_path; av_host := host; av_pvc := pvc; av_ossfs := ossfs;
        av_read_only := read_only; av_sub_path := sub_path |}.

(** ** Requests *)

Record ApiCreateSandboxRequest := {
  acr_image : ApiImageSpec; acr_resource_limits : dict pyval; acr_entrypoint : pyval; acr_timeout : option pyval;
  acr_env : option (dict pyval); acr_metadata : option (dict pyval); acr_network_policy : option ApiNetworkPolicy;
  acr_volumes : option (list ApiVolume); acr_extensions : option (dict pyval);
  acr_additional_properties : dict pyval }.
Definition create_request_to_dict (r : ApiCreateSandboxRequest) : pyval :=
  PDict (set_opt "extensions" (props_to_dict <$> acr_extensions r)
    (set_opt "volumes" ((λ l, PList (volume_to_dict <$> l)) <$> acr_volumes r)
    (set_opt "networkPolicy" (network_policy_to_dict <$> acr_network_policy r)
    (set_opt "metadata" (props_to_dict <$> acr_metadata r)
    (set_opt "env" (props_to_dict <$> acr_env r)
    (set_opt "timeout" (acr_timeout r)
    (dupdate (dupdate [] (acr_additional_properties r))
       [("image", image_spec_to_dict (acr_image r)); ("resourceLimits", props_to_dict (acr_resource_limits r));
        ("entrypoint", acr_entrypoint r)]))))))).
Definition create_request_from_dict (src : pyval) : result ApiCreateSandboxRequest :=
  d ← as_dict src;
  '(_image, d) ← pop "image" d;
  image ← image_spec_from_dict _image;
  '(_limits, d) ← pop "resourceLimits" d;
  resource_limits ← props_from_dict _limits;
  '(entrypoint, d) ← pop "entrypoint" d;
  let '(timeout, d) := pop_opt "timeout" d in
  let '(_env, d) := pop_opt "env" d in
  env ← unless_unset props_from_dict _env;
  let '(_metadata, d) := pop_opt "metadata" d in
  metadata ← unless_unset props_from_dict _metadata;
  let '(_network_policy, d) := pop_opt "networkPolicy" d in
  network_policy ← unless_unset network_policy_from_dict _network_policy;
  let '(_volumes, d) := pop_opt "volumes" d in
  volumes ← unless_unset (λ v, l ← iterate v; mapR volume_from_dict l) _volumes;
  let '(_extensions, d) := pop_opt "extensions" d in
  extensions ← unless_unset props_from_dict _extensions;
  Ok {| acr_image := image; acr_resource_limits := resource_limits; acr_entrypoint := entrypoint; acr_timeout := timeout;
        acr_env := env; acr_metadata := metadata; acr_network_policy := network_policy; acr_volumes := volumes;
        acr_extensions := extensions; acr_additional_properties := d |}.

Record ApiRenewRequest := { arq_expires_at : datetime }.
Definition renew_request_to_dict (r : ApiRenewRequest) : pyval :=
  PDict (dupdate [] [("expiresAt", PStr (isoformat (arq_expires_at r)))]).

(** [ErrorResponse] *)
Definition error_response_to_dict (e : ApiErrorResponse) : pyval :=
  PDict (dupdate [] [("code", aer_code e); ("message", aer_message e)]).
Definition error_response_from_dict (src : pyval) : result ApiErrorResponse :=
  d ← as_dict src;
  '(code, d) ← pop "code" d;
  '(message, d) ← pop "message" d;
  Ok {| aer_code := code; aer_message := message |}.

(** ** Answers *)

(** A time that may be missing or null, or that could not be parsed. *)
Inductive api_time := TimeUnset | TimeNull | TimeAt (dt : datetime) | TimeRaw (v : pyval).

Record ApiSandboxStatus := {
  ass_state : pyval; ass_reason : option pyval; ass_message : option pyval; ass_last_transition_at : option datetime;
  ass_additional_properties : dict pyval }.
Definition sandbox_status_to_dict (s : ApiSandboxStatus) : pyval :=
  PDict (set_opt "lastTransitionAt" ((λ t, PStr (isoformat t)) <$> ass_last_transition_at s)
    (set_opt "message" (ass_message s) (set_opt "reason" (ass_reason s)
      (dupdate (dupdate [] (ass_additional_properties s)) [("state", ass_state s)])))).

Record ApiCreateSandboxResponse := {
  acs_id : pyval; acs_status : ApiSandboxStatus; acs_created_at : datetime; acs_entrypoint : pyval;
  acs_metadata : option (dict pyval); acs_expires_at : api_time; acs_additional_properties : dict pyval }.

Record ApiSandbox := {
  asb_id : pyval; asb_image : ApiImageSpec; asb_status : ApiSandboxStatus; asb_entrypoint : pyval;
  asb_created_at : datetime; asb_metadata : option (dict pyval); asb_expires_at : api_time;
  asb_additional_properties : dict pyval }.

Record ApiPaginationInfo := {
  api_page : pyval; api_page_size : pyval; api_total_items : pyval; api_total_pages : pyval; api_has_next_page : pyval;
  api_page_properties : dict pyval }.
Definition pagination_info_from_dict (src : pyval) : result ApiPaginationInfo :=
  d ← as_dict src;
  '(page, d) ← pop "page" d;
  '(page_size, d) ← pop "pageSize" d;
  '(total_items, d) ← pop "totalItems" d;
  '(total_pages, d) ← pop "totalPages" d;
  '(has_next_page, d) ← pop "hasNextPage" d;
  Ok {| api_page := page; api_page_size := page_size; api_total_items := total_items; api_total_pages := total_pages;
        api_has_next_page := has_next_page; api_page_properties := d |}.
Definition pagination_info_to_dict (p : ApiPaginationInfo) : pyval :=
  PDict (dupdate (dupdate [] (api_page_properties p))
    [("page", api_page p); ("pageSize", api_page_size p); ("totalItems", api_total_items p);
     ("totalPages", api_total_pages p); ("hasNextPage", api_has_next_page p)]).

Record ApiListSandboxesResponse := {
  alr_items : list ApiSandbox; alr_pagination : ApiPaginationInfo; alr_additional_properties : dict pyval }.
Record ApiRenewResponse := { arr_expires_at : datetime }.
Record ApiEndpoint := { aep_endpoint : pyval; aep_headers : option (dict pyval) }.

Definition endpoint_to_dict (e : ApiEndpoint) : pyval :=
  PDict (set_opt "headers" (props_to_dict <$> aep_headers e) (dupdate [] [("endpoint", aep_endpoint e)])).
Definition endpoint_from_dict (src : pyval) : result ApiEndpoint :=
  d ← as_dict src;
  '(endpoint, d) ← pop "endpoint" d;
  let '(_headers, d) := pop_opt "headers" d in
  headers ← unless_unset props_from_dict _headers;
  Ok {| aep_endpoint := endpoint; aep_headers := headers |}.

(** The [expiresAt] of an answer. *)
Definition time_to_value (t : api_time) : option pyval :=
  match t with
  | TimeUnset => None
  | TimeNull => Some PNone
  | TimeAt dt => Some (PStr (isoformat dt))
  | TimeRaw v => Some v
  end.

Section answers.
Context `{Dateutil}.

Definition renew_request_from_dict (src : pyval) : result ApiRenewRequest :=
  d ← as_dict src; '(t, d) ← pop "expiresAt" d; dt ← isoparse t; Ok {| arq_expires_at := dt |}.

Definition sandbox_status_from_dict (src : pyval) : result ApiSandboxStatus :=
  d ← as_dict src;
  '(state, d) ← pop "state" d;
  let '(reason, d) := pop_opt "reason" d in
  let '(message, d) := pop_opt "message" d in
  let '(_last_transition_at, d) := pop_opt "lastTransitionAt" d in
  last_transition_at ← unless_null isoparse _last_transition_at;
  Ok {| ass_state := state; ass_reason := reason; ass_message := message;
        ass_last_transition_at := last_transition_at; ass_additional_properties := d |}.

(** The exceptions that [_parse_expires_at] swallows. *)
Definition unparsed_time (e : exn) : bool :=
  match e with PyException (TypeError | ValueError | AttributeError | KeyError) _ => true | _ => false end.

(** [_parse_expires_at] *)
Definition parse_expires_at (data : option pyval) : result api_time :=
  match data with
  | Some PNone => Ok TimeNull
  | None => Ok TimeUnset
  | Some ((PStr _) as v) =>
      match isoparse v with
      | Ok dt => Ok (TimeAt dt)
      | Raise e => if unparsed_time e then Ok (TimeRaw v) else Raise e
      end
  | Some v => Ok (TimeRaw v)
  end.

Definition create_response_from_dict (src : pyval) : result ApiCreateSandboxResponse :=
  d ← as_dict src;
  '(id, d) ← pop "id" d;
  '(_status, d) ← pop "status" d;
  status ← sandbox_status_from_dict _status;
  '(_created_at, d) ← pop "createdAt" d;
  created_at ← isoparse _created_at;
  '(entrypoint, d) ← pop "entrypoint" d;
  let '(_metadata, d) := pop_opt "metadata" d in
  metadata ← unless_null props_from_dict _metadata;
  let '(_expires_at, d) := pop_opt "expiresAt" d in
  expires_at ← parse_expires_at _expires_at;
  Ok {| acs_id := id; acs_status := status; acs_created_at := created_at; acs_entrypoint := entrypoint;
        acs_metadata := metadata; acs_expires_at := expires_at; acs_additional_properties := d |}.

Definition sandbox_from_dict (src : pyval) : result ApiSandbox :=
  d ← as_dict src;
  '(id, d) ← pop "id" d;
  '(_image, d) ← pop "image" d;
  image ← image_spec_from_dict _image;
  '(_status, d) ← pop "status" d;
  status ← sandbox_status_from_dict _status;
  '(entrypoint, d) ← pop "entrypoint" d;
  '(_created_at, d) ← pop "createdAt" d;
  created_at ← isoparse _created_at;
  let '(_metadata, d) := pop_opt "metadata" d in
  metadata ← unless_null props_from_dict _metadata;
  let '(_expires_at, d) := pop_opt "expiresAt" d in
  expires_at ← parse_expires_at _expires_at;
  Ok {| asb_id := id; asb_image := image; asb_status := status; asb_entrypoint := entrypoint;
        asb_created_at := created_at; asb_metadata := metadata; asb_expires_at := expires_at;
        asb_additional_properties := d |}.

Definition list_response_from_dict (src : pyval) : result ApiListSandboxesResponse :=
  d ← as_dict src;
  '(_items, d) ← pop "items" d;
  l ← iterate _items;
  items ← mapR sandbox_from_dict l;
  '(_pagination, d) ← pop "pagination" d;
  pagination ← pagination_info_from_dict _pagination;
  Ok {| alr_items := items; alr_pagination := pagination; alr_additional_properties := d |}.

Definition renew_response_from_dict (src : pyval) : result ApiRenewResponse :=
  d ← as_dict src; '(t, d) ← pop "expiresAt" d; dt ← isoparse t; Ok {| arr_expires_at := dt |}.
End answers.

Definition create_response_to_dict (r : ApiCreateSandboxResponse) : pyval :=
  PDict (set_opt "expiresAt" (time_to_value (acs_expires_at r)) (set_opt "metadata" (props_to_dict <$> acs_metadata r)
    (dupdate (dupdate [] (acs_additional_properties r))
       [("id", acs_id r); ("status", sandbox_status_to_dict (acs_status r));
        ("createdAt", PStr (isoformat (acs_created_at r))); ("entrypoint", acs_entrypoint r)]))).
Definition sandbox_to_dict (s : ApiSandbox) : pyval :=
  PDict (set_opt "expiresAt" (time_to_value (asb_expires_at s)) (set_opt "metadata" (props_to_dict <$> asb_metadata s)
    (dupdate (dupdate [] (asb_additional_properties s))
       [("id", asb_id s); ("image", image_spec_to_dict (asb_image s)); ("status", sandbox_status_to_dict (asb_status s));
        ("entrypoint", asb_entrypoint s); ("createdAt", PStr (isoformat (asb_created_at s)))]))).
Definition list_response_to_dict (r : ApiListSandboxesResponse) : pyval :=
  PDict (dupdate (dupdate [] (alr_additional_properties r))
    [("items", PList (sandbox_to_dict <$> alr_items r)); ("pagination", pagination_info_to_dict (alr_pagination r))]).
Definition renew_response_to_dict (r : ApiRenewResponse) : pyval :=
  PDict (dupdate [] [("expiresAt", PStr (isoformat (arr_expires_at r)))]).

(** * The generated client of the lifecycle API: its calls
      ([opensandbox/api/lifecycle/api/sandboxes/*.py], [client.py], [types.py])

    Each function builds the arguments of an httpx request ([_get_kwargs]), sends it, and
    parses the answer by its status ([_parse_response]). *)

From S2P Require Import Schema K8sHelpers Execd.

(** ** [urllib.parse.quote] *)

Definition percent_byte (n : N) : string :=
  String "%" (String (upper_hex (n / 16)) (String (upper_hex (n mod 16)) EmptyString)).
Definition url_quote_byte (safe : ascii → bool) (n : N) : string :=
  if (n <? 128)%N && (url_safe (chr n) || safe (chr n)) then String (chr n) EmptyString else percent_byte n.

(** [quote(s, safe=...)] *)
Definition url_quote (safe : ascii → bool) (s : string) : string :=
  foldr (λ n acc, url_quote_byte safe n +:+ acc) EmptyString (utf8_encode s).
Definition no_safe (c : ascii) : bool := false.
Definition quote_all (s : string) : string := url_quote no_safe s.

(** ** Requests *)

(** The dictionary that [_get_kwargs] returns. *)
Record ApiKwargs := {
  kw_method : string; kw_url : string; kw_params : dict pyval; kw_json : option pyval; kw_headers : dict string }.

(** A generated client whose httpx client was set: the base URL and the headers of that
    httpx client, and [raise_on_unexpected_status]. *)
Record ApiClient := { ac_base_url : string; ac_headers : dict string; ac_raise_on_unexpected_status : bool }.

Definition lower_keys (d : dict string) : dict string := dupdate [] (prod_map lower id <$> d).

(** What httpx makes of the arguments: the URL is appended to the base URL, the headers
    of the request replace those of the client. *)
Definition client_request (c : ApiClient) (kw : ApiKwargs) : HttpRequest := {|
  hr_method := kw_method kw; hr_url := ac_base_url c +:+ kw_url kw; hr_params := kw_params kw;
  hr_headers := dupdate (lower_keys (ac_headers c)) (lower_keys (kw_headers kw));
  hr_body := match kw_json kw with Some v => JsonPayload v | None => EmptyBody end |}.

(** The headers of a call with a JSON body. *)
Definition json_headers : dict string := [("Content-Type", "application/json")].

(** [{k: v for k, v in params.items() if v is not UNSET and v is not None}] *)
Definition drop_unset (params : list (string * option pyval)) : dict pyval :=
  omap (λ kv : string * option pyval, match kv.2 with Some PNone | None => None | Some v => Some (kv.1, v) end) params.

(** ** Answers *)

(** The members of [http.HTTPStatus]. *)
Definition http_statuses : list Z :=
  [100; 101; 102; 103; 200; 201; 202; 203; 204; 205; 206; 207; 208; 226; 300; 301; 302; 303; 304; 305; 307; 308;
   400; 401; 402; 403; 404; 405; 406; 407; 408; 409; 410; 411; 412; 413; 414; 415; 416; 417; 418; 421; 422; 423; 424;
   425; 426; 428; 429; 431; 451; 500; 501; 502; 503; 504; 505; 506; 507; 508; 510; 511]%Z.
Definition http_status_enum (n : Z) : outcome Z :=
  if bool_decide (n ∈ http_statuses) then Return n
  else Throw (PyError (PyException ValueError (str_of_Z n +:+ " is not a valid HTTPStatus"))).

Section answers.
Context `{Codecs}.

(** [cls.from_dict(response.json())] *)
Definition parse_json {A} (from_dict : pyval → result A) (response : HttpResponse) : outcome A :=
  v ← response_json response; of_result (from_dict v).

(** [_parse_response]: the status of success with its parser ([None] is an answer without
    a value), the statuses that carry an [ErrorResponse], and the rest. *)
Definition parse_response {T} (c : ApiClient) (success : Z) (parse : HttpResponse → outcome (option T))
    (errors : list Z) (response : HttpResponse) : outcome (option (Parsed T)) :=
  if (rs_status response =? success)%Z then (v ← parse response; Return (fmap (M:=option) ParsedValue v))
  else if bool_decide (rs_status response ∈ errors) then
    (e ← parse_json error_response_from_dict response; Return (Some (ParsedError e)))
  else if ac_raise_on_unexpected_status c then Throw (UnexpectedStatus (rs_status response) (rs_content response))
  else Return None.

(** [_build_response] *)
Definition build_response {T} (parse : HttpResponse → outcome (option (Parsed T))) (response : HttpResponse)
    : outcome (ApiResponse T) :=
  status ← http_status_enum (rs_status response);
  parsed ← parse response;
  Return {| ar_status_code := status; ar_content := rs_content response; ar_headers := rs_headers response;
            ar_parsed := parsed |}.

(** [asyncio_detailed] and [sync_detailed]; the client is an argument of both. *)
Definition detailed {W T} `{Net W} (c : ApiClient) (kw : ApiKwargs)
    (parse : ApiClient → HttpResponse → outcome (option (Parsed T))) : Sdk W (ApiResponse T) :=
  response ← n_send (client_request c kw);
  liftO (build_response (parse c) response).

(** A parser of a JSON body, and the answer without a body. *)
Definition body {A} (from_dict : pyval → result A) (response : HttpResponse) : outcome (option A) :=
  a ← parse_json from_dict response; Return (Some a).
Definition no_body {A} (response : HttpResponse) : outcome (option A) := Return None.
End answers.

(** ** The calls *)

Definition get_kwargs (method url : string) : ApiKwargs := {|
  kw_method := method; kw_url := url; kw_params := []; kw_json := None; kw_headers := [] |}.
Definition sandbox_url (sandbox_id suffix : string) : string := "/sandboxes/" +:+ quote_all sandbox_id +:+ suffix.

(** [post_sandboxes.py] *)
Definition post_sandboxes_kwargs (b : ApiCreateSandboxRequest) : ApiKwargs := {|
  kw_method := "post"; kw_url := "/sandboxes"; kw_params := []; kw_json := Some (create_request_to_dict b);
  kw_headers := json_headers |}.

(** [get_sandboxes.py] *)
Definition get_sandboxes_kwargs (state metadata page page_size : option pyval) : ApiKwargs := {|
  kw_method := "get"; kw_url := "/sandboxes";
  kw_params := drop_unset [("state", state); ("metadata", metadata); ("page", page); ("pageSize", page_size)];
  kw_json := None; kw_headers := [] |}.

(** [get_sandboxes_sandbox_id.py], [delete_sandboxes_sandbox_id.py],
    [post_sandboxes_sandbox_id_pause.py], [post_sandboxes_sandbox_id_resume.py] *)
Definition get_sandbox_kwargs (sandbox_id : string) : ApiKwargs := get_kwargs "get" (sandbox_url sandbox_id EmptyString).
Definition delete_sandbox_kwargs (sandbox_id : string) : ApiKwargs := get_kwargs "delete" (sandbox_url sandbox_id EmptyString).
Definition pause_kwargs (sandbox_id : string) : ApiKwargs := get_kwargs "post" (sandbox_url sandbox_id "/pause").
Definition resume_kwargs (sandbox_id : string) : ApiKwargs := get_kwargs "post" (sandbox_url sandbox_id "/resume").

(** [post_sandboxes_sandbox_id_renew_expiration.py] *)
Definition renew_kwargs (sandbox_id : string) (b : ApiRenewRequest) : ApiKwargs := {|
  kw_method := "post"; kw_url := sandbox_url sandbox_id "/renew-expiration"; kw_params := [];
  kw_json := Some (renew_request_to_dict b); kw_headers := json_headers |}.

(** [get_sandboxes_sandbox_id_endpoints_port.py] *)
Definition endpoint_kwargs (sandbox_id : string) (port : Z) (use_server_proxy : option pyval) : ApiKwargs := {|
  kw_method := "get"; kw_url := sandbox_url sandbox_id ("/endpoints/" +:+ quote_all (str_of_Z port));
  kw_params := drop_unset [("use_server_proxy", use_server_proxy)]; kw_json := None; kw_headers := [] |}.

Section calls.
Context `{Codecs} `{Dateutil}.

Definition post_sandboxes_parse (c : ApiClient) : HttpResponse → outcome (option (Parsed ApiCreateSandboxResponse)) :=
  parse_response c 202 (body create_response_from_dict) [400; 401; 409; 500]%Z.
Definition get_sandboxes_parse (c : ApiClient) : HttpResponse → outcome (option (Parsed ApiListSandboxesResponse)) :=
  parse_response c 200 (body list_response_from_dict) [400; 401; 500]%Z.
Definition get_sandbox_parse (c : ApiClient) : HttpResponse → outcome (option (Parsed ApiSandbox)) :=
  parse_response c 200 (body sandbox_from_dict) [401; 403; 404; 500]%Z.
Definition delete_sandbox_parse (c : ApiClient) : HttpResponse → outcome (option (Parsed unit)) :=
  parse_response c 204 no_body [401; 403; 404; 409; 500]%Z.
Definition pause_parse (c : ApiClient) : HttpResponse → outcome (option (Parsed unit)) :=
  parse_response c 202 no_body [401; 403; 404; 409; 500]%Z.
Definition resume_parse (c : ApiClient) : HttpResponse → outcome (option (Parsed unit)) :=
  parse_response c 202 no_body [401; 403; 404; 409; 500]%Z.
Definition renew_parse (c : ApiClient) : HttpResponse → outcome (option (Parsed ApiRenewResponse)) :=
  parse_response c 200 (body renew_response_from_dict) [400; 401; 403; 404; 409; 500]%Z.
Definition endpoint_parse (c : ApiClient) : HttpResponse → outcome (option (Parsed ApiEndpoint)) :=
  parse_response c 200 (body endpoint_from_dict) [401; 403; 404; 500]%Z.

Context {W : Type} `{Net W} (c : ApiClient).

Definition post_sandboxes (b : ApiCreateSandboxRequest) : Sdk W (ApiResponse ApiCreateSandboxResponse) :=
  detailed c (post_sandboxes_kwargs b) post_sandboxes_parse.
Definition get_sandboxes (state metadata page page_size : option pyval) : Sdk W (ApiResponse ApiListSandboxesResponse) :=
  detailed c (get_sandboxes_kwargs state metadata page page_size) get_sandboxes_parse.
Definition get_sandboxes_sandbox_id (sandbox_id : string) : Sdk W (ApiResponse ApiSandbox) :=
  detailed c (get_sandbox_kwargs sandbox_id) get_sandbox_parse.
Definition delete_sandboxes_sandbox_id (sandbox_id : string) : Sdk W (ApiResponse unit) :=
  detailed c (delete_sandbox_kwargs sandbox_id) delete_sandbox_parse.
Definition post_sandboxes_sandbox_id_pause (sandbox_id : string) : Sdk W (ApiResponse unit) :=
  detailed c (pause_kwargs sandbox_id) pause_parse.
Definition post_sandboxes_sandbox_id_resume (sandbox_id : string) : Sdk W (ApiResponse unit) :=
  detailed c (resume_kwargs sandbox_id) resume_parse.
Definition post_sandboxes_sandbox_id_renew_expiration (sandbox_id : string) (b : ApiRenewRequest)
    : Sdk W (ApiResponse ApiRenewResponse) :=
  detailed c (renew_kwargs sandbox_id b) renew_parse.
Definition get_sandboxes_sandbox_id_endpoints_port (sandbox_id : string) (port : Z) (use_server_proxy : option pyval)
    : Sdk W (ApiResponse ApiEndpoint) :=
  detailed c (endpoint_kwargs sandbox_id port use_server_proxy) endpoint_parse.
End calls.

(** ** What can come back *)

(** An answer that a generated function returns has a status of [HTTPStatus], and a parsed
    value only under the status of success. *)
Lemma build_response_Return {T} `{Codecs} c success (parse : HttpResponse → outcome (option T)) errors response r :
  build_response (parse_response c success parse errors) response = Return r →
  ar_status_code r = rs_status response ∧ rs_status response ∈ http_statuses ∧ ar_headers r = rs_headers response ∧
  (∀ t, ar_parsed r = Some (ParsedValue t) → rs_status response = success) ∧
  (∀ e, ar_parsed r = Some (ParsedError e) → rs_status response ∈ errors).
Proof.
  intros (st&Hst&Hr)%outcome_bind_Return. unfold http_status_enum in Hst. case_bool_decide as Hin; [|done].
  injection Hst as <-. apply outcome_bind_Return in Hr as (parsed&Hp&[= <-]). cbn. split_and!; [done..| |].
  all: unfold parse_response in Hp; destruct (rs_status response =? success)%Z eqn:Hs;
    [apply outcome_bind_Return in Hp as (v&_&[= <-]); apply Z.eqb_eq in Hs; destruct v; by intros ? [=]|].
  all: case_bool_decide as He;
    [apply outcome_bind_Return in Hp as (v&_&[= <-]); by intros ? [=]|destruct (ac_raise_on_unexpected_status c); [done|]].
  all: injection Hp as <-; by intros ? [=].
Qed.
