(* ===== verification/SdkConfig.v ===== *)
(** * The Python client: connection configuration
      ([opensandbox/config/connection.py])

    Where the API is, the key and the headers of every request, and who owns the
    transport: the client closes a transport only if it made it. *)

From Stdlib Require Import Ascii.
From S2P Require Import Prelude PyString PyDict PyTime PyFloat Json PyVal SdkBase SdkModels SdkApi.
Open Scope string_scope.
Open Scope list_scope.

(** ** Durations *)

(** [delta.total_seconds()]: the float nearest to the quotient *)
Definition total_seconds (us : Z) : spec_float :=
  if (us <? 0)%Z then SFopp (float_of_decimal (- us) (-6)) else float_of_decimal us (-6).

(** [int(delta.total_seconds())] *)
Definition int_seconds (us : Z) : result Z := int_of_float (total_seconds us).

Example int_seconds_ex : int_seconds 600000000 = Ok 600%Z ∧ int_seconds 999999 = Ok 0%Z ∧ int_seconds (-1500000) = Ok (-1)%Z.
Proof. vm_compute. done. Qed.

(** ** The configuration *)

Record ConnectionConfig := {
  cc_api_key : option string;
  cc_domain : option string;
  cc_protocol : string;
  cc_request_timeout : Z;
  cc_debug : bool;
  cc_user_agent : string;
  cc_headers : dict string;
  cc_transport : option nat;
  cc_use_server_proxy : bool;
  cc_owns_transport : bool }.

Definition ENV_API_KEY : string := "OPEN_SANDBOX_API_KEY".
Definition ENV_DOMAIN : string := "OPEN_SANDBOX_DOMAIN".
Definition DEFAULT_DOMAIN : string := "localhost:8080".
Definition API_VERSION : string := "v1".

(** The arguments of the constructor; [ca_transport] is [Some] if the argument is given
    at all ([None] itself can be given). *)
Record ConfigArgs := {
  ca_api_key : option string; ca_domain : option string; ca_protocol : string; ca_request_timeout : Z; ca_debug : bool;
  ca_user_agent : string; ca_headers : dict string; ca_transport : option (option nat); ca_use_server_proxy : bool }.
Definition default_args : ConfigArgs := {|
  ca_api_key := None; ca_domain := None; ca_protocol := "http"; ca_request_timeout := 30 * us_per_second; ca_debug := false;
  ca_user_agent := "OpenSandbox-Python-SDK/0.1.5"; ca_headers := []; ca_transport := None; ca_use_server_proxy := false |}.

(** [protocol_must_be_valid], [timeout_must_be_positive] *)
Definition protocol_valid (v : string) : bool := bool_decide (lower v ∈ ["http"; "https"]).
Definition timeout_positive (us : Z) : bool := (0 <? us)%Z.

(** [ConnectionConfig(...)] with [model_post_init] *)
Definition connection_config `{Codecs} (a : ConfigArgs) : outcome ConnectionConfig :=
  validated "ConnectionConfig"
    [(protocol_valid (ca_protocol a), "Protocol must be 'http' or 'https'");
     (timeout_positive (ca_request_timeout a), "Request timeout must be positive")]
    {| cc_api_key := ca_api_key a; cc_domain := ca_domain a; cc_protocol := lower (ca_protocol a);
       cc_request_timeout := ca_request_timeout a; cc_debug := ca_debug a; cc_user_agent := ca_user_agent a;
       cc_headers := ca_headers a; cc_transport := default None (ca_transport a);
       cc_use_server_proxy := ca_use_server_proxy a;
       cc_owns_transport := match ca_transport a with Some _ => false | None => true end |}.

Definition default_config : ConnectionConfig := {|
  cc_api_key := None; cc_domain := None; cc_protocol := "http"; cc_request_timeout := 30 * us_per_second; cc_debug := false;
  cc_user_agent := "OpenSandbox-Python-SDK/0.1.5"; cc_headers := []; cc_transport := None; cc_use_server_proxy := false;
  cc_owns_transport := true |}.

Lemma default_config_ok `{Codecs} : connection_config default_args = Return default_config.
Proof. by apply validated_Return; split; [|repeat constructor]. Qed.

(** [config.model_copy(update={"transport": t})], then [_owns_transport = True] *)
Definition with_owned_transport (t : nat) (c : ConnectionConfig) : ConnectionConfig := {|
  cc_api_key := cc_api_key c; cc_domain := cc_domain c; cc_protocol := cc_protocol c;
  cc_request_timeout := cc_request_timeout c; cc_debug := cc_debug c; cc_user_agent := cc_user_agent c;
  cc_headers := cc_headers c; cc_transport := Some t; cc_use_server_proxy := cc_use_server_proxy c;
  cc_owns_transport := true |}.

Section config.
Context {W : Type} `{Net W}.
Implicit Types c : ConnectionConfig.

Definition with_transport_if_missing c : Sdk W ConnectionConfig :=
  match cc_transport c with
  | Some _ => mret c
  | None => t ← new_transport; mret (with_owned_transport t c)
  end.

Definition close_transport_if_owned c : Sdk W unit :=
  match cc_transport c with
  | None => mret tt
  | Some t => if negb (cc_owns_transport c) then mret tt else sdk_quietly (n_close_transport t)
  end.

(** [value or os.getenv(name, default)] *)
Definition or_getenv (value : option string) (name default : string) : string :=
  match value with
  | Some ((String _ _) as s) => s
  | _ => match n_getenv (W:=W) name with Some s => s | None => default end
  end.

Definition get_api_key c : string := or_getenv (cc_api_key c) ENV_API_KEY EmptyString.
Definition get_domain c : string := or_getenv (cc_domain c) ENV_DOMAIN DEFAULT_DOMAIN.
Definition get_base_url c : string :=
  let domain := get_domain c in
  if startswith domain "http://" || startswith domain "https://" then domain +:+ "/" +:+ API_VERSION
  else cc_protocol c +:+ "://" +:+ domain +:+ "/" +:+ API_VERSION.

(** ** The headers of the requests *)

(** The dictionary display [{"User-Agent": ..., **headers, **endpoint_headers}] *)
Definition base_headers c (endpoint_headers : dict string) : dict string :=
  dupdate (dupdate [("User-Agent", cc_user_agent c)] (cc_headers c)) endpoint_headers.

(** [SandboxesAdapter.__init__]: the client of the lifecycle API *)
Definition lifecycle_client c : ApiClient :=
  let api_key := get_api_key c in
  let headers := base_headers c [] in
  {| ac_base_url := get_base_url c;
     ac_headers := if truthy api_key then dset "OPEN-SANDBOX-API-KEY" api_key headers else headers;
     ac_raise_on_unexpected_status := false |}.

(** The client of an endpoint of the sandbox: [CommandsAdapter.__init__],
    [FilesystemAdapter.__init__], [HealthAdapter.__init__], [MetricsAdapter.__init__] and
    [EgressAdapter.__init__].  The headers of the endpoint replace those of the user. *)
Definition endpoint_url c (endpoint path : string) : string := cc_protocol c +:+ "://" +:+ endpoint +:+ path.
Definition endpoint_client c (e : SandboxEndpoint) : ApiClient := {|
  ac_base_url := endpoint_url c (se_endpoint e) EmptyString;
  ac_headers := base_headers c (se_headers e);
  ac_raise_on_unexpected_status := false |}.

(** ** Ownership *)

(** Only the transports that the client made are ever closed by it, and closing never
    raises. *)
Lemma close_transport_Return c w r w' : close_transport_if_owned c w = (r, w') → r = Return tt.
Proof.
  unfold close_transport_if_owned. destruct (cc_transport c); [|by intros [= <- _]].
  destruct (cc_owns_transport c); [|by intros [= <- _]]. cbn [negb]. unfold sdk_quietly, sdk_try.
  destruct (n_close_transport _ w) as [[[]|] w1]; by intros [= <- _].
Qed.

Lemma close_transport_not_owned c w : cc_owns_transport c = false → close_transport_if_owned c w = (Return tt, w).
Proof. intros Ho. unfold close_transport_if_owned. destruct (cc_transport c); [by rewrite Ho|done]. Qed.

Lemma with_transport_spec c w r w' :
  with_transport_if_missing c w = (r, w') →
  ∃ c', r = Return c' ∧ (∃ t, cc_transport c' = Some t) ∧
        cc_owns_transport c' = (match cc_transport c with Some _ => cc_owns_transport c | None => true end) ∧
        (cc_transport c ≠ None → c' = c ∧ w' = w) ∧
        get_base_url c' = get_base_url c ∧ cc_use_server_proxy c' = cc_use_server_proxy c ∧
        lifecycle_client c' = lifecycle_client c.
Proof.
  unfold with_transport_if_missing. destruct (cc_transport c) as [t|] eqn:Ht.
  - intros [= <- <-]. exists c. by split_and!; eauto.
  - unfold mbind, Sdk_bind, new_transport. destruct (n_new_transport w) as [t w1]. intros [= <- <-].
    eexists. split_and!; [done|by eexists|done..].
Qed.
End config.
