(* ===== verification/SdkAdapter.v ===== *)
(** * The Python client: between its models and the API
      ([opensandbox/adapters/converter/sandbox_model_converter.py])

    Requests are built from the models of the client; answers are read into them. *)

From Stdlib Require Import Ascii.
From S2P Require Import Prelude PyString PyDict PyTime PyFloat Json PyVal SdkBase SdkModels SdkApi SdkConfig.
Open Scope string_scope.
Open Scope list_scope.

(** ** Requests *)

Definition to_api_image_spec (spec : SandboxImageSpec) : ApiImageSpec := {|
  ais_uri := PStr (is_image spec);
  ais_auth := (λ a, {| aia_username := Some (PStr (ia_username a)); aia_password := Some (PStr (ia_password a)) |}) <$> is_auth spec |}.

Definition to_api_ossfs (o : OSSFS) : result (option ApiOSSFS) :=
  match o_access_key_id o, o_access_key_secret o with
  | Some key_id, Some secret =>
      version ← enum_value "OSSFSVersion" OSSFS_VERSIONS (PStr (o_version o));
      Ok (Some {| ao_bucket := PStr (o_bucket o); ao_endpoint := PStr (o_endpoint o); ao_access_key_id := PStr key_id;
                  ao_access_key_secret := PStr secret; ao_version := Some version;
                  ao_options := of_strings <$> o_options o |})
  | _, _ => Ok None
  end.

Definition to_api_volume (v : Volume) : result ApiVolume :=
  api_ossfs ← match v_ossfs v with Some o => to_api_ossfs o | None => Ok None end;
  Ok {| av_name := PStr (v_name v); av_mount_path := PStr (v_mount_path v);
        av_host := (λ h, {| ah_path := PStr (h_path h) |}) <$> v_host v;
        av_pvc := (λ p, {| apvc_claim_name := PStr (pvc_claim_name p) |}) <$> v_pvc v;
        av_ossfs := api_ossfs; av_read_only := Some (PBool (v_read_only v)); av_sub_path := PStr <$> v_sub_path v |}.

(** [ApiNetworkRule(action=NetworkRuleAction(rule.action), target=rule.target)] *)
Definition to_api_network_rule (r : NetworkRule) : result ApiNetworkRule :=
  action ← enum_value "NetworkRuleAction" ACTIONS (PStr (nr_action r));
  Ok {| anr_action := action; anr_target := PStr (nr_target r) |}.

Definition to_api_network_rules (rules : list NetworkRule) : result (list ApiNetworkRule) := mapR to_api_network_rule rules.

Definition to_api_network_policy (p : NetworkPolicy) : result ApiNetworkPolicy :=
  default_action ← match np_default_action p with
                   | Some ((String _ _) as a) => x ← enum_value "NetworkPolicyDefaultAction" ACTIONS (PStr a); Ok (Some x)
                   | _ => Ok None
                   end;
  egress ← match np_egress p with Some l => x ← mapR to_api_network_rule l; Ok (Some x) | None => Ok None end;
  Ok {| anp_default_action := default_action; anp_egress := egress |}.

(** [Props.from_dict(d) if d else UNSET] *)
Definition props_or_unset (d : dict string) : option (dict pyval) :=
  match d with [] => None | _ => Some (prod_map id PStr <$> d) end.

Definition to_api_create_sandbox_request (spec : SandboxImageSpec) (entrypoint : list string) (env metadata : dict string)
    (timeout : option Z) (resource : dict string) (policy : option NetworkPolicy) (extensions : dict string)
    (volumes : option (list Volume)) : result ApiCreateSandboxRequest :=
  api_network_policy ← match policy with Some p => x ← to_api_network_policy p; Ok (Some x) | None => Ok None end;
  api_volumes ← match volumes with
                | Some ((_ :: _) as l) => x ← mapR to_api_volume l; Ok (Some x)
                | _ => Ok None
                end;
  api_timeout ← match timeout with Some us => n ← int_seconds us; Ok (Some (PInt n)) | None => Ok None end;
  Ok {| acr_image := to_api_image_spec spec; acr_resource_limits := prod_map id PStr <$> resource;
        acr_entrypoint := of_strings entrypoint; acr_timeout := api_timeout; acr_env := props_or_unset env;
        acr_metadata := props_or_unset metadata; acr_network_policy := api_network_policy; acr_volumes := api_volumes;
        acr_extensions := props_or_unset extensions; acr_additional_properties := [] |}.

(** A naive time is taken as UTC. *)
Definition to_api_renew_request (new_expiration_time : datetime) : ApiRenewRequest := {|
  arq_expires_at := match new_expiration_time with Naive us => Aware us 0 | t => t end |}.

(** ** Answers *)

Section answers.
Context `{Codecs} `{PydanticFields}.

Definition to_network_rule (r : ApiNetworkRule) : outcome NetworkRule :=
  target ← field_of "NetworkRule" pf_str (anr_target r); network_rule (anr_action r) target.

Definition to_sandbox_network_policy (p : ApiNetworkPolicy) : outcome NetworkPolicy :=
  egress ← optO (mapO to_network_rule) (anp_egress p);
  network_policy (Some (default "deny" (anp_default_action p))) egress.

Definition to_sandbox_renew_response (r : ApiRenewResponse) : SandboxRenewResponse := {| srr_expires_at := arr_expires_at r |}.

Definition to_sandbox_create_response (r : ApiCreateSandboxResponse) : SandboxCreateResponse := {| scr_id := vstr (acs_id r) |}.

(** [isinstance(value, str)] *)
Definition str_or_none (v : option pyval) : option string := match v with Some (PStr s) => Some s | _ => None end.

(** [_convert_sandbox_status] *)
Definition convert_sandbox_status (s : option ApiSandboxStatus) : outcome SandboxStatus :=
  match s with
  | None => Return {| st_state := "Unknown"; st_reason := None; st_message := None; st_last_transition_at := None |}
  | Some s =>
      state ← field_of "SandboxStatus" pf_str (ass_state s);
      Return {| st_state := state; st_reason := str_or_none (ass_reason s); st_message := str_or_none (ass_message s);
                st_last_transition_at := ass_last_transition_at s |}
  end.

(** [_convert_pagination_info] *)
Definition convert_pagination_info (p : option ApiPaginationInfo) : outcome PaginationInfo :=
  match p with
  | None => Return {| pi_page := 1; pi_page_size := 10; pi_total_items := 0; pi_total_pages := 0; pi_has_next_page := false |}
  | Some p =>
      page ← field_of "PaginationInfo" pf_int (val_or (api_page p) (PInt 1));
      page_size ← field_of "PaginationInfo" pf_int (val_or (api_page_size p) (PInt 10));
      total_pages ← field_of "PaginationInfo" pf_int (val_or (api_total_pages p) (PInt 0));
      total_items ← field_of "PaginationInfo" pf_int (val_or (api_total_items p) (PInt 0));
      has_next_page ← field_of "PaginationInfo" pf_bool (val_or (api_has_next_page p) (PBool false));
      Return {| pi_page := page; pi_page_size := page_size; pi_total_items := total_items; pi_total_pages := total_pages;
                pi_has_next_page := has_next_page |}
  end.

(** The image of an answer; credentials are kept if both are strings. *)
Definition to_image_spec (i : ApiImageSpec) : outcome SandboxImageSpec :=
  auth ← match ais_auth i with
         | Some {| aia_username := Some (PStr u); aia_password := Some (PStr p) |} =>
             a ← sandbox_image_auth u p; Return (Some a)
         | _ => Return None
         end;
  image ← field_of "SandboxImageSpec" pf_str (ais_uri i);
  sandbox_image_spec image auth.

(** [expires_at], where [Unset] is [None] *)
Definition to_expires_at (t : api_time) : outcome (option datetime) :=
  match t with
  | TimeUnset | TimeNull => Return None
  | TimeAt dt => Return (Some dt)
  | TimeRaw v => field_of "SandboxInfo" (nullable pf_datetime) v
  end.

Definition to_sandbox_info (s : ApiSandbox) : outcome SandboxInfo :=
  image ← to_image_spec (asb_image s);
  status ← convert_sandbox_status (Some (asb_status s));
  id ← field_of "SandboxInfo" pf_str (asb_id s);
  entrypoint ← field_of "SandboxInfo" read_strings (asb_entrypoint s);
  expires_at ← to_expires_at (asb_expires_at s);
  metadata ← field_of "SandboxInfo" read_str_dict (PDict (default [] (asb_metadata s)));
  Return {| si_id := id; si_status := status; si_entrypoint := entrypoint; si_expires_at := expires_at;
            si_created_at := asb_created_at s; si_image := Some image; si_metadata := Some metadata |}.

Definition to_paged_sandbox_infos (r : ApiListSandboxesResponse) : outcome PagedSandboxInfos :=
  infos ← mapO to_sandbox_info (alr_items r);
  pagination ← convert_pagination_info (Some (alr_pagination r));
  Return {| psi_sandbox_infos := infos; psi_pagination := pagination |}.

Definition to_sandbox_endpoint (e : ApiEndpoint) : outcome SandboxEndpoint :=
  endpoint ← field_of "SandboxEndpoint" pf_str (aep_endpoint e);
  headers ← field_of "SandboxEndpoint" read_str_dict (PDict (default [] (aep_headers e)));
  Return {| se_endpoint := endpoint; se_headers := headers |}.
End answers.

(** ** What the validators have made sure of *)

Lemma enum_value_ok name values s : s ∈ values → enum_value name values (PStr s) = Ok s.
Proof. intros Hs. cbn. by rewrite bool_decide_eq_true_2. Qed.

Lemma is_action_elem s : is_action s = true → s ∈ ACTIONS.
Proof. unfold is_action, ACTIONS. rewrite orb_true_iff, !bool_decide_eq_true. set_solver. Qed.

(** The models that passed their constructors. *)
Definition rule_valid (r : NetworkRule) : Prop := is_action (nr_action r) = true ∧ not_blank (nr_target r) = true.
Definition policy_valid (p : NetworkPolicy) : Prop :=
  (∀ a, np_default_action p = Some a → is_action a = true) ∧ (∀ l, np_egress p = Some l → Forall rule_valid l).
Definition ossfs_valid (o : OSSFS) : Prop :=
  o_version o ∈ OSSFS_VERSIONS ∧ truthy_opt (o_access_key_id o) = true ∧ truthy_opt (o_access_key_secret o) = true.
Definition volume_valid (v : Volume) : Prop :=
  not_blank (v_name v) = true ∧ startswith (v_mount_path v) "/" = true ∧ specified_backends v = 1%nat ∧
  (∀ h, v_host v = Some h → startswith (h_path h) "/" = true) ∧
  (∀ p, v_pvc v = Some p → not_blank (pvc_claim_name p) = true) ∧
  (∀ o, v_ossfs v = Some o → ossfs_valid o).

Lemma network_rule_valid `{Codecs} a t r : network_rule a t = Return r → rule_valid r.
Proof. intros [<- Hc]%validated_Return. rewrite !Forall_cons in Hc. by destruct Hc as (?&?&_). Qed.

Lemma ossfs_valid_spec `{Codecs} o o' : ossfs o = Return o' → o' = o ∧ ossfs_valid o.
Proof.
  intros (o1&[<- H1]%validated_Return&[<- H2]%validated_Return)%outcome_bind_Return. split; [done|].
  rewrite Forall_cons in H1, H2. destruct H1 as [H1 _], H2 as [H2 _]. cbn in H1, H2.
  apply andb_true_iff in H2. rewrite orb_true_iff, !bool_decide_eq_true in H1.
  split; [|done]. unfold OSSFS_VERSIONS. set_solver.
Qed.

Lemma to_api_network_rule_ok r : rule_valid r →
  to_api_network_rule r = Ok {| anr_action := nr_action r; anr_target := PStr (nr_target r) |}.
Proof. intros [Ha _]. unfold to_api_network_rule. by rewrite enum_value_ok by by apply is_action_elem. Qed.

Lemma mapR_Forall {A B} (f : A → result B) (g : A → B) (P : A → Prop) l :
  (∀ x, P x → f x = Ok (g x)) → Forall P l → mapR f l = Ok (g <$> l).
Proof. intros Hf. induction 1 as [|x l Hx _ IH]; cbn; [done|]. by rewrite Hf, IH by done. Qed.

(** Converting a valid volume never fails, and loses nothing. *)
Lemma to_api_volume_ok v : volume_valid v → ∃ a, to_api_volume v = Ok a ∧
  av_name a = PStr (v_name v) ∧ av_mount_path a = PStr (v_mount_path v) ∧
  av_host a = (λ h, {| ah_path := PStr (h_path h) |}) <$> v_host v ∧
  av_pvc a = (λ p, {| apvc_claim_name := PStr (pvc_claim_name p) |}) <$> v_pvc v ∧
  (av_ossfs a = None ↔ v_ossfs v = None) ∧
  av_read_only a = Some (PBool (v_read_only v)) ∧ av_sub_path a = PStr <$> v_sub_path v.
Proof.
  intros (_&_&_&_&_&Ho). unfold to_api_volume. destruct (v_ossfs v) as [o|] eqn:Hv; [|eexists; by split_and!].
  destruct (Ho o eq_refl) as (Hver&Hid&Hsec). unfold to_api_ossfs.
  destruct (o_access_key_id o); [|done]. destruct (o_access_key_secret o); [|done].
  rewrite enum_value_ok by done. cbn. eexists. by split_and!.
Qed.

(** * The Python client: the adapter of the lifecycle API
      ([opensandbox/adapters/sandboxes_adapter.py], [services/sandbox.py])

    One call of the API per method: build the request, send it, check the answer, convert
    it; whatever goes wrong is one of the client's exceptions. *)

(** ** The interface [Sandboxes] *)

Record Sandboxes (W : Type) := {
  ss_create_sandbox : SandboxImageSpec → list string → dict string → dict string → option Z → dict string →
    option NetworkPolicy → dict string → option (list Volume) → Sdk W SandboxCreateResponse;
  ss_get_sandbox_info : string → Sdk W SandboxInfo;
  ss_list_sandboxes : SandboxFilter → Sdk W PagedSandboxInfos;
  ss_get_sandbox_endpoint : string → Z → bool → Sdk W SandboxEndpoint;
  ss_pause_sandbox : string → Sdk W unit;
  ss_resume_sandbox : string → Sdk W unit;
  ss_renew_sandbox_expiration : string → datetime → Sdk W SandboxRenewResponse;
  ss_kill_sandbox : string → Sdk W unit }.
Arguments ss_create_sandbox {W} _.
Arguments ss_get_sandbox_info {W} _.
Arguments ss_list_sandboxes {W} _.
Arguments ss_get_sandbox_endpoint {W} _.
Arguments ss_pause_sandbox {W} _.
Arguments ss_resume_sandbox {W} _.
Arguments ss_renew_sandbox_expiration {W} _.
Arguments ss_kill_sandbox {W} _.

Section adapter.
Context {W : Type} `{Net W} `{Codecs} `{Dateutil} `{PydanticFields}.
Context (c : ApiClient).

(** [handle_api_error], then [require_parsed]. *)
Definition checked {T} (r : ApiResponse T) (op op' : string) : outcome T :=
  handle_api_error r op;; require_parsed r op'.

Definition create_sandbox (spec : SandboxImageSpec) (entrypoint : list string) (env metadata : dict string)
    (timeout : option Z) (resource : dict string) (policy : option NetworkPolicy) (extensions : dict string)
    (volumes : option (list Volume)) : Sdk W SandboxCreateResponse :=
  converting (
    create_request ← liftO (of_result (to_api_create_sandbox_request spec entrypoint env metadata timeout resource policy
                                         extensions volumes));
    response_obj ← post_sandboxes c create_request;
    parsed ← liftO (checked response_obj "Create sandbox" "Create sandbox");
    mret (to_sandbox_create_response parsed)).

Definition get_sandbox_info (sandbox_id : string) : Sdk W SandboxInfo :=
  let op := "Get sandbox " +:+ sandbox_id in
  converting (
    response_obj ← get_sandboxes_sandbox_id c sandbox_id;
    parsed ← liftO (checked response_obj op op);
    liftO (to_sandbox_info parsed)).

(** The metadata of a filter as one text: [key=value] joined by [&]. *)
Definition metadata_param (metadata : option (dict string)) : option string :=
  match metadata with
  | Some ((_ :: _) as d) => Some (join "&" ((λ kv, kv.1 +:+ "=" +:+ kv.2) <$> d))
  | _ => None
  end.

(** [filter.states if filter.states else API_UNSET] *)
Definition states_param (states : option (list string)) : option pyval :=
  match states with Some ((_ :: _) as l) => Some (of_strings l) | _ => None end.

Definition list_sandboxes (f : SandboxFilter) : Sdk W PagedSandboxInfos :=
  let metadata := metadata_param (sf_metadata f) in
  converting (
    response_obj ← get_sandboxes c (states_param (sf_states f)) (PStr <$> metadata) (PInt <$> sf_page f) (PInt <$> sf_page_size f);
    parsed ← liftO (checked response_obj "List sandboxes" "List sandboxes");
    liftO (to_paged_sandbox_infos parsed)).

Definition get_sandbox_endpoint (sandbox_id : string) (port : Z) (use_server_proxy : bool) : Sdk W SandboxEndpoint :=
  converting (
    response_obj ← get_sandboxes_sandbox_id_endpoints_port c sandbox_id port (Some (PBool use_server_proxy));
    parsed ← liftO (checked response_obj ("Get endpoint for sandbox " +:+ sandbox_id +:+ " port " +:+ str_of_Z port) "Get endpoint");
    liftO (to_sandbox_endpoint parsed)).

Definition pause_sandbox (sandbox_id : string) : Sdk W unit :=
  converting (
    response_obj ← post_sandboxes_sandbox_id_pause c sandbox_id;
    liftO (handle_api_error response_obj ("Pause sandbox " +:+ sandbox_id))).

Definition resume_sandbox (sandbox_id : string) : Sdk W unit :=
  converting (
    response_obj ← post_sandboxes_sandbox_id_resume c sandbox_id;
    liftO (handle_api_error response_obj ("Resume sandbox " +:+ sandbox_id))).

Definition renew_sandbox_expiration (sandbox_id : string) (new_expiration_time : datetime) : Sdk W SandboxRenewResponse :=
  let op := "Renew sandbox " +:+ sandbox_id +:+ " expiration" in
  converting (
    response_obj ← post_sandboxes_sandbox_id_renew_expiration c sandbox_id (to_api_renew_request new_expiration_time);
    parsed ← liftO (checked response_obj op op);
    mret (to_sandbox_renew_response parsed)).

Definition kill_sandbox (sandbox_id : string) : Sdk W unit :=
  converting (
    response_obj ← delete_sandboxes_sandbox_id c sandbox_id;
    liftO (handle_api_error response_obj ("Kill sandbox " +:+ sandbox_id))).

Definition sandboxes_adapter : Sandboxes W := {|
  ss_create_sandbox := create_sandbox; ss_get_sandbox_info := get_sandbox_info; ss_list_sandboxes := list_sandboxes;
  ss_get_sandbox_endpoint := get_sandbox_endpoint; ss_pause_sandbox := pause_sandbox; ss_resume_sandbox := resume_sandbox;
  ss_renew_sandbox_expiration := renew_sandbox_expiration; ss_kill_sandbox := kill_sandbox |}.

(** ** Answers that are not what the generated client knows *)

(** Only the client's exceptions leave a method. *)
Definition sandbox_only {A} (m : Sdk W A) : Prop := ∀ w e w', m w = (Throw e, w') → is_sandbox_exception e = true.

Lemma converting_only {A} (m : Sdk W A) : sandbox_only (converting m).
Proof. intros w e w' (x&_&->)%converting_Throw. done. Qed.

Lemma adapter_only_create s e v m t r p x l : sandbox_only (create_sandbox s e v m t r p x l).
Proof. apply converting_only. Qed.
Lemma adapter_only_endpoint i p u : sandbox_only (get_sandbox_endpoint i p u).
Proof. apply converting_only. Qed.
Lemma adapter_only_resume i : sandbox_only (resume_sandbox i).
Proof. apply converting_only. Qed.
Lemma adapter_only_kill i : sandbox_only (kill_sandbox i).
Proof. apply converting_only. Qed.

(** A call that gives no value succeeds exactly if the answer has a status below 300 that
    the call can read. *)
Lemma unit_call_spec (call : Sdk W (ApiResponse unit)) op w r w' :
  converting (response_obj ← call; liftO (handle_api_error response_obj op)) w = (r, w') →
  (r = Return tt ∧ ∃ a, call w = (Return a, w') ∧ (ar_status_code a < 300)%Z) ∨
  (∃ x, r = Throw (Sandbox x) ∧
     ((∃ a, call w = (Return a, w') ∧ (300 ≤ ar_status_code a)%Z ∧ se_class x = SandboxApiException ∧
            se_status_code x = Some (ar_status_code a)) ∨
      (∃ e, call w = (Throw e, w') ∧ x = to_sandbox_exception e))).
Proof.
  unfold converting, sdk_try, raise_sandbox, throw, mbind, Sdk_bind, liftO.
  destruct (call w) as [[a|e] w1] eqn:Hc.
  - destruct (handle_api_error a op) as [[]|e] eqn:He.
    + intros [= <- <-]. left. split; [done|]. exists a. split; [done|]. by apply handle_api_error_Return in He.
    + assert (300 ≤ ar_status_code a)%Z as Hs.
      { destruct (Z.lt_ge_cases (ar_status_code a) 300) as [Hl|]; [|done].
        apply (handle_api_error_Return a op) in Hl. congruence. }
      destruct (handle_api_error_Throw a op Hs) as (x&Hx&Hcl&Hst&_). rewrite He in Hx. injection Hx as ->.
      intros [= <- <-]. right. exists x. split; [done|]. left. eauto.
  - intros [= <- <-]. right. eexists. split; [done|]. right. eauto.
Qed.
End adapter.
