(* ===== verification/SdkExecdApi.v ===== *)
(** * The generated clients of execd and of the egress sidecar
      ([opensandbox/api/execd/models/*.py], [api/execd/api/{command,filesystem,health,metric}/*.py],
      [api/egress/models/*.py], [api/egress/api/policy/*.py])

    Same conventions as [SdkApi.v] and [SdkApi.v]; the classes [NetworkPolicy] and
    [NetworkRule] of the egress client are those of the lifecycle client. *)

From Stdlib Require Import Ascii.
From S2P Require Import Prelude PyString PyDict PyTime Json PyVal SdkBase SdkApi.
Open Scope string_scope.
Open Scope list_scope.

(** ** Commands *)

Record ApiCommandStatus := {
  act_id : option pyval; act_content : option pyval; act_running : option pyval; act_exit_code : option pyval;
  act_error : option pyval; act_started_at : option datetime; act_finished_at : api_time;
  act_additional_properties : dict pyval }.
Definition command_status_from_dict `{Dateutil} (src : pyval) : result ApiCommandStatus :=
  d ← as_dict src;
  let '(id, d) := pop_opt "id" d in
  let '(content, d) := pop_opt "content" d in
  let '(running, d) := pop_opt "running" d in
  let '(exit_code, d) := pop_opt "exit_code" d in
  let '(error, d) := pop_opt "error" d in
  let '(_started_at, d) := pop_opt "started_at" d in
  started_at ← unless_unset isoparse _started_at;
  let '(_finished_at, d) := pop_opt "finished_at" d in
  finished_at ← parse_expires_at _finished_at;
  Ok {| act_id := id; act_content := content; act_running := running; act_exit_code := exit_code; act_error := error;
        act_started_at := started_at; act_finished_at := finished_at; act_additional_properties := d |}.

Record ApiRunCommandRequest := {
  arc_command : pyval; arc_cwd : option pyval; arc_background : option pyval; arc_timeout : option pyval;
  arc_uid : option pyval; arc_gid : option pyval; arc_envs : option (dict pyval);
  arc_additional_properties : dict pyval }.
Definition run_command_to_dict (r : ApiRunCommandRequest) : pyval :=
  PDict (set_opt "envs" (props_to_dict <$> arc_envs r) (set_opt "gid" (arc_gid r) (set_opt "uid" (arc_uid r)
    (set_opt "timeout" (arc_timeout r) (set_opt "background" (arc_background r) (set_opt "cwd" (arc_cwd r)
      (dupdate (dupdate [] (arc_additional_properties r)) [("command", arc_command r)]))))))).
Definition run_command_from_dict (src : pyval) : result ApiRunCommandRequest :=
  d ← as_dict src;
  '(command, d) ← pop "command" d;
  let '(cwd, d) := pop_opt "cwd" d in
  let '(background, d) := pop_opt "background" d in
  let '(timeout, d) := pop_opt "timeout" d in
  let '(uid, d) := pop_opt "uid" d in
  let '(gid, d) := pop_opt "gid" d in
  let '(_envs, d) := pop_opt "envs" d in
  envs ← unless_unset props_from_dict _envs;
  Ok {| arc_command := command; arc_cwd := cwd; arc_background := background; arc_timeout := timeout; arc_uid := uid;
        arc_gid := gid; arc_envs := envs; arc_additional_properties := d |}.

(** ** Files *)

Record ApiFileInfo := {
  afi_path : pyval; afi_size : pyval; afi_modified_at : datetime; afi_created_at : datetime; afi_owner : pyval;
  afi_group : pyval; afi_mode : pyval; afi_additional_properties : dict pyval }.
Definition file_info_from_dict `{Dateutil} (src : pyval) : result ApiFileInfo :=
  d ← as_dict src;
  '(path, d) ← pop "path" d;
  '(size, d) ← pop "size" d;
  '(_modified_at, d) ← pop "modified_at" d;
  modified_at ← isoparse _modified_at;
  '(_created_at, d) ← pop "created_at" d;
  created_at ← isoparse _created_at;
  '(owner, d) ← pop "owner" d;
  '(group, d) ← pop "group" d;
  '(mode, d) ← pop "mode" d;
  Ok {| afi_path := path; afi_size := size; afi_modified_at := modified_at; afi_created_at := created_at;
        afi_owner := owner; afi_group := group; afi_mode := mode; afi_additional_properties := d |}.

Record ApiPermission := {
  apm_mode : pyval; apm_owner : option pyval; apm_group : option pyval; apm_additional_properties : dict pyval }.
Definition permission_to_dict (p : ApiPermission) : pyval :=
  PDict (set_opt "group" (apm_group p) (set_opt "owner" (apm_owner p)
    (dupdate (dupdate [] (apm_additional_properties p)) [("mode", apm_mode p)]))).
Definition permission_from_dict (src : pyval) : result ApiPermission :=
  d ← as_dict src;
  '(mode, d) ← pop "mode" d;
  let '(owner, d) := pop_opt "owner" d in
  let '(group, d) := pop_opt "group" d in
  Ok {| apm_mode := mode; apm_owner := owner; apm_group := group; apm_additional_properties := d |}.

Record ApiRenameItem := { ari_src : pyval; ari_dest : pyval; ari_additional_properties : dict pyval }.
Definition rename_item_to_dict (i : ApiRenameItem) : pyval :=
  PDict (dupdate (dupdate [] (ari_additional_properties i)) [("src", ari_src i); ("dest", ari_dest i)]).

Record ApiReplaceItem := { arp_old : pyval; arp_new : pyval; arp_additional_properties : dict pyval }.
Definition replace_item_to_dict (i : ApiReplaceItem) : pyval :=
  PDict (dupdate (dupdate [] (arp_additional_properties i)) [("old", arp_old i); ("new", arp_new i)]).
Definition replace_item_from_dict (src : pyval) : result ApiReplaceItem :=
  d ← as_dict src;
  '(old, d) ← pop "old" d;
  '(new, d) ← pop "new" d;
  Ok {| arp_old := old; arp_new := new; arp_additional_properties := d |}.

(** The classes that map names to objects ([MakeDirsBody], [ChmodFilesBody],
    [ReplaceContentBody], [GetFilesInfoResponse200]): [from_dict] and [to_dict]. *)
Fixpoint map_props {A} (f : pyval → result A) (d : dict pyval) (acc : dict A) : result (dict A) :=
  match d with
  | [] => Ok acc
  | (k, v) :: d' => a ← f v; map_props f d' (dset k a acc)
  end.
Definition objects_from_dict {A} (f : pyval → result A) (src : pyval) : result (dict A) :=
  d ← as_dict src; map_props f d [].
Definition objects_to_dict {A} (f : A → pyval) (props : dict A) : pyval :=
  PDict (fold_left (λ acc kv, dset kv.1 (f kv.2) acc) props []).

(** ** Metrics and policy *)

Record ApiMetrics := {
  amt_cpu_count : pyval; amt_cpu_used_pct : pyval; amt_mem_total_mib : pyval; amt_mem_used_mib : pyval;
  amt_timestamp : pyval; amt_additional_properties : dict pyval }.
Definition metrics_from_dict (src : pyval) : result ApiMetrics :=
  d ← as_dict src;
  '(cpu_count, d) ← pop "cpu_count" d;
  '(cpu_used_pct, d) ← pop "cpu_used_pct" d;
  '(mem_total_mib, d) ← pop "mem_total_mib" d;
  '(mem_used_mib, d) ← pop "mem_used_mib" d;
  '(timestamp, d) ← pop "timestamp" d;
  Ok {| amt_cpu_count := cpu_count; amt_cpu_used_pct := cpu_used_pct; amt_mem_total_mib := mem_total_mib;
        amt_mem_used_mib := mem_used_mib; amt_timestamp := timestamp; amt_additional_properties := d |}.

Record ApiPolicyStatus := {
  aps_status : option pyval; aps_mode : option pyval; aps_enforcement_mode : option pyval; aps_reason : option pyval;
  aps_policy : option ApiNetworkPolicy }.
Definition policy_status_from_dict (src : pyval) : result ApiPolicyStatus :=
  d ← as_dict src;
  let '(status, d) := pop_opt "status" d in
  let '(mode, d) := pop_opt "mode" d in
  let '(enforcement_mode, d) := pop_opt "enforcementMode" d in
  let '(reason, d) := pop_opt "reason" d in
  let '(_policy, d) := pop_opt "policy" d in
  policy ← unless_unset network_policy_from_dict _policy;
  Ok {| aps_status := status; aps_mode := mode; aps_enforcement_mode := enforcement_mode; aps_reason := reason;
        aps_policy := policy |}.

(** ** Calls *)

Definition with_params (method url : string) (params : list (string * option pyval)) : ApiKwargs := {|
  kw_method := method; kw_url := url; kw_params := drop_unset params; kw_json := None; kw_headers := [] |}.
Definition with_json (method url : string) (v : pyval) : ApiKwargs := {|
  kw_method := method; kw_url := url; kw_params := []; kw_json := Some v; kw_headers := json_headers |}.

Definition command_status_kwargs (id : string) : ApiKwargs := get_kwargs "get" ("/command/status/" +:+ quote_all id).
Definition command_logs_kwargs (id : string) (cursor : option pyval) : ApiKwargs :=
  with_params "get" ("/command/" +:+ quote_all id +:+ "/logs") [("cursor", cursor)].
Definition interrupt_command_kwargs (id : string) : ApiKwargs := with_params "delete" "/command" [("id", Some (PStr id))].
Definition make_dirs_kwargs (b : dict ApiPermission) : ApiKwargs :=
  with_json "post" "/directories" (objects_to_dict permission_to_dict b).
Definition chmod_files_kwargs (b : dict ApiPermission) : ApiKwargs :=
  with_json "post" "/files/permissions" (objects_to_dict permission_to_dict b).
Definition replace_content_kwargs (b : dict ApiReplaceItem) : ApiKwargs :=
  with_json "post" "/files/replace" (objects_to_dict replace_item_to_dict b).
Definition rename_files_kwargs (b : list ApiRenameItem) : ApiKwargs :=
  with_json "post" "/files/mv" (PList (rename_item_to_dict <$> b)).
Definition remove_files_kwargs (path : list string) : ApiKwargs := with_params "delete" "/files" [("path", Some (of_strings path))].
Definition remove_dirs_kwargs (path : list string) : ApiKwargs :=
  with_params "delete" "/directories" [("path", Some (of_strings path))].
Definition get_files_info_kwargs (path : list string) : ApiKwargs :=
  with_params "get" "/files/info" [("path", Some (of_strings path))].
Definition search_files_kwargs (path : string) (pattern : option pyval) : ApiKwargs :=
  with_params "get" "/files/search" [("path", Some (PStr path)); ("pattern", pattern)].
Definition ping_kwargs : ApiKwargs := get_kwargs "get" "/ping".
Definition get_metrics_kwargs : ApiKwargs := get_kwargs "get" "/metrics".
Definition get_policy_kwargs : ApiKwargs := get_kwargs "get" "/policy".
Definition patch_policy_kwargs (b : list ApiNetworkRule) : ApiKwargs :=
  with_json "patch" "/policy" (PList (network_rule_to_dict <$> b)).

Section parsers.
Context `{Codecs} `{Dateutil}.

(** [response.text] *)
Definition response_text (r : HttpResponse) : string := decode_replace (rs_content r).

Definition command_status_parse (c : ApiClient) : HttpResponse → outcome (option (Parsed ApiCommandStatus)) :=
  parse_response c 200 (body command_status_from_dict) [400; 404; 500]%Z.
Definition command_logs_parse (c : ApiClient) : HttpResponse → outcome (option (Parsed string)) :=
  parse_response c 200 (λ r, Return (Some (response_text r))) [400; 404; 500]%Z.
Definition interrupt_command_parse (c : ApiClient) : HttpResponse → outcome (option (Parsed unit)) :=
  parse_response c 200 no_body [400; 500]%Z.
Definition make_dirs_parse (c : ApiClient) : HttpResponse → outcome (option (Parsed unit)) :=
  parse_response c 200 no_body [400; 500]%Z.
Definition chmod_files_parse (c : ApiClient) : HttpResponse → outcome (option (Parsed unit)) :=
  parse_response c 200 no_body [400; 500]%Z.
Definition replace_content_parse (c : ApiClient) : HttpResponse → outcome (option (Parsed unit)) :=
  parse_response c 200 no_body [400; 500]%Z.
Definition rename_files_parse (c : ApiClient) : HttpResponse → outcome (option (Parsed unit)) :=
  parse_response c 200 no_body [400; 404; 500]%Z.
Definition remove_files_parse (c : ApiClient) : HttpResponse → outcome (option (Parsed unit)) :=
  parse_response c 200 no_body [500]%Z.
Definition remove_dirs_parse (c : ApiClient) : HttpResponse → outcome (option (Parsed unit)) :=
  parse_response c 200 no_body [500]%Z.
Definition get_files_info_parse (c : ApiClient) : HttpResponse → outcome (option (Parsed (dict ApiFileInfo))) :=
  parse_response c 200 (body (objects_from_dict file_info_from_dict)) [404; 500]%Z.
Definition search_files_parse (c : ApiClient) : HttpResponse → outcome (option (Parsed (list ApiFileInfo))) :=
  parse_response c 200 (body (λ v, l ← iterate v; mapR file_info_from_dict l)) [400; 404; 500]%Z.
Definition ping_parse (c : ApiClient) : HttpResponse → outcome (option (Parsed unit)) := parse_response c 200 no_body [].
Definition get_metrics_parse (c : ApiClient) : HttpResponse → outcome (option (Parsed ApiMetrics)) :=
  parse_response c 200 (body metrics_from_dict) [500]%Z.

(** The errors of the sidecar are plain text. *)
Definition parse_text_errors {T} (c : ApiClient) (errors : list Z) (parse : HttpResponse → outcome (option (Parsed T)))
    (r : HttpResponse) : outcome (option (Parsed T)) :=
  if bool_decide (rs_status r ∈ errors) then Return (Some (ParsedText (response_text r))) else parse r.
Definition get_policy_parse (c : ApiClient) : HttpResponse → outcome (option (Parsed ApiPolicyStatus)) :=
  parse_text_errors c [401; 500]%Z (parse_response c 200 (body policy_status_from_dict) []).
Definition patch_policy_parse (c : ApiClient) : HttpResponse → outcome (option (Parsed ApiPolicyStatus)) :=
  parse_text_errors c [400; 401; 500]%Z (parse_response c 200 (body policy_status_from_dict) []).

(** ** The calls *)

Context {W : Type} `{Net W} (c : ApiClient).

Definition get_command_status_detailed (id : string) : Sdk W (ApiResponse ApiCommandStatus) :=
  detailed c (command_status_kwargs id) command_status_parse.
Definition get_background_command_logs_detailed (id : string) (cursor : option pyval) : Sdk W (ApiResponse string) :=
  detailed c (command_logs_kwargs id cursor) command_logs_parse.
Definition interrupt_command_detailed (id : string) : Sdk W (ApiResponse unit) :=
  detailed c (interrupt_command_kwargs id) interrupt_command_parse.
Definition make_dirs_detailed (b : dict ApiPermission) : Sdk W (ApiResponse unit) := detailed c (make_dirs_kwargs b) make_dirs_parse.
Definition chmod_files_detailed (b : dict ApiPermission) : Sdk W (ApiResponse unit) :=
  detailed c (chmod_files_kwargs b) chmod_files_parse.
Definition replace_content_detailed (b : dict ApiReplaceItem) : Sdk W (ApiResponse unit) :=
  detailed c (replace_content_kwargs b) replace_content_parse.
Definition rename_files_detailed (b : list ApiRenameItem) : Sdk W (ApiResponse unit) :=
  detailed c (rename_files_kwargs b) rename_files_parse.
Definition remove_files_detailed (path : list string) : Sdk W (ApiResponse unit) :=
  detailed c (remove_files_kwargs path) remove_files_parse.
Definition remove_dirs_detailed (path : list string) : Sdk W (ApiResponse unit) :=
  detailed c (remove_dirs_kwargs path) remove_dirs_parse.
Definition get_files_info_detailed (path : list string) : Sdk W (ApiResponse (dict ApiFileInfo)) :=
  detailed c (get_files_info_kwargs path) get_files_info_parse.
Definition search_files_detailed (path : string) (pattern : option pyval) : Sdk W (ApiResponse (list ApiFileInfo)) :=
  detailed c (search_files_kwargs path pattern) search_files_parse.
Definition ping_detailed : Sdk W (ApiResponse unit) := detailed c ping_kwargs ping_parse.
Definition get_metrics_detailed : Sdk W (ApiResponse ApiMetrics) := detailed c get_metrics_kwargs get_metrics_parse.
Definition get_policy_detailed : Sdk W (ApiResponse ApiPolicyStatus) := detailed c get_policy_kwargs get_policy_parse.
Definition patch_policy_detailed (b : list ApiNetworkRule) : Sdk W (ApiResponse ApiPolicyStatus) :=
  detailed c (patch_policy_kwargs b) patch_policy_parse.
End parsers.
