(* ===== verification/SdkCommands.v ===== *)
(** * The Python client: health, metrics, egress policy
      ([opensandbox/adapters/health_adapter.py], [metrics_adapter.py], [egress_adapter.py],
      [converter/metrics_model_converter.py], [services/*.py])

    The services that a sandbox offers at its endpoints, besides files and commands. *)

From Stdlib Require Import Ascii.
From S2P Require Import Prelude PyString PyDict PyTime Json PyVal SdkBase SdkModels SdkApi SdkConfig SdkAdapter SdkExecdApi.
Open Scope string_scope.
Open Scope list_scope.

(** ** The interfaces *)

Record Health (W : Type) := { hs_ping : string → Sdk W bool }.
Record Metrics (W : Type) := { ms_get_metrics : string → Sdk W SandboxMetrics }.
Record Egress (W : Type) := { es_get_policy : Sdk W NetworkPolicy; es_patch_rules : list NetworkRule → Sdk W unit }.
Arguments hs_ping {W} _.
Arguments ms_get_metrics {W} _.
Arguments es_get_policy {W} _.
Arguments es_patch_rules {W} _.

Section adapters.
Context {W : Type} `{Net W} `{Codecs} `{Dateutil} `{PydanticFields} (c : ApiClient).

(** [HealthAdapter.ping]: never raises *)
Definition ping (sandbox_id : string) : Sdk W bool :=
  sdk_try (response_obj ← ping_detailed c;
           liftO (handle_api_error response_obj "Ping");;
           mret true)
    (λ _, mret false).

(** [MetricsModelConverter.to_sandbox_metrics] *)
Definition to_sandbox_metrics (m : ApiMetrics) : outcome SandboxMetrics :=
  cpu_count ← field_of "SandboxMetrics" pf_float (amt_cpu_count m);
  cpu_used ← field_of "SandboxMetrics" pf_float (amt_cpu_used_pct m);
  total ← field_of "SandboxMetrics" pf_float (amt_mem_total_mib m);
  used ← field_of "SandboxMetrics" pf_float (amt_mem_used_mib m);
  timestamp ← field_of "SandboxMetrics" pf_int (amt_timestamp m);
  Return {| sm_cpu_count := cpu_count; sm_cpu_used_percentage := cpu_used; sm_memory_total_in_mib := total;
            sm_memory_used_in_mib := used; sm_timestamp := timestamp |}.

(** [MetricsAdapter.get_metrics] *)
Definition get_metrics (sandbox_id : string) : Sdk W SandboxMetrics :=
  converting (
    response_obj ← get_metrics_detailed c;
    parsed ← liftO (checked response_obj "Get metrics" "Get metrics");
    liftO (to_sandbox_metrics parsed)).

(** [NetworkPolicy.model_validate(policy.to_dict())]: a missing default action is the
    default of the model. *)
Definition validate_policy (p : ApiNetworkPolicy) : outcome NetworkPolicy :=
  egress ← optO (mapO to_network_rule) (anp_egress p);
  network_policy (Some (default "deny" (anp_default_action p))) egress.

(** [EgressAdapter.get_policy] *)
Definition get_policy : Sdk W NetworkPolicy :=
  converting (
    response_obj ← get_policy_detailed c;
    parsed ← liftO (checked response_obj "Get egress policy" "Get egress policy");
    match aps_policy parsed with
    | None => throw (PyError (PyException ValueError "Egress policy response missing policy payload"))
    | Some policy => liftO (validate_policy policy)
    end).

(** [EgressAdapter.patch_rules] *)
Definition patch_rules (rules : list NetworkRule) : Sdk W unit :=
  converting (
    b ← liftO (of_result (mapR to_api_network_rule rules));
    response_obj ← patch_policy_detailed c b;
    liftO (handle_api_error response_obj "Patch egress rules")).

Definition health_adapter : Health W := {| hs_ping := ping |}.
Definition metrics_adapter : Metrics W := {| ms_get_metrics := get_metrics |}.
Definition egress_adapter : Egress W := {| es_get_policy := get_policy; es_patch_rules := patch_rules |}.

(** ** Health *)

Lemma handle_api_error_lt {T} (a : ApiResponse T) op :
  (ar_status_code a <? 300)%Z = match handle_api_error a op with Return _ => true | Throw _ => false end.
Proof.
  destruct (handle_api_error a op) as [[]|e] eqn:He.
  - apply handle_api_error_Return in He. by apply Z.ltb_lt.
  - apply Z.ltb_ge. destruct (Z.lt_ge_cases (ar_status_code a) 300) as [Hl|]; [|done].
    apply (handle_api_error_Return a op) in Hl. congruence.
Qed.

(** A ping is true exactly if execd answered with a known status below 300. *)
Lemma ping_spec sandbox_id w b w' :
  ac_raise_on_unexpected_status c = false → ping sandbox_id w = (b, w') →
  b = Return (match n_send (client_request c ping_kwargs) w with
              | (Return r, _) => bool_decide (rs_status r ∈ http_statuses) && (rs_status r <? 300)%Z
              | (Throw _, _) => false
              end).
Proof.
  intros Hc. unfold ping, ping_detailed, detailed, sdk_try, mbind, Sdk_bind, liftO.
  destruct (n_send _ w) as [[r|e] w1]; [|by intros [= <- _]].
  unfold build_response, http_status_enum. case_bool_decide as Hs; [|by intros [= <- _]].
  cbn [mbind outcome_bind]. unfold ping_parse, parse_response, no_body. rewrite Hc.
  rewrite bool_decide_eq_false_2 by set_solver. cbn [mbind outcome_bind andb].
  destruct (rs_status r =? 200)%Z; cbn [mbind outcome_bind].
  all: match goal with |- context [handle_api_error ?a ?op] =>
    pose proof (handle_api_error_lt a op) as Hlt; cbn [ar_status_code] in Hlt; rewrite Hlt;
    destruct (handle_api_error a op) end; by intros [= <- _].
Qed.
End adapters.

(** * The Python client: running commands
      ([opensandbox/adapters/command_adapter.py], [converter/event_node.py],
      [converter/execution_event_dispatcher.py], [converter/execution_converter.py],
      [converter/command_model_converter.py])

    A command is run by a request whose answer is a stream of server-sent events; the
    dispatcher collects them in an [Execution] and calls the handlers of the user. *)

From S2P Require Import PyFloat.

(** The answer to a streaming request: its lines, and the exception that cuts it off, if
    one does. *)
Record StreamResponse := { stm_response : HttpResponse; stm_lines : list string; stm_end : option sexn }.
Class Streams (W : Type) := { n_stream : HttpRequest → Sdk W StreamResponse }.

(** ** Events *)

Record EventNodeError := { ene_name : option string; ene_value : option string; ene_traceback : list string }.
Record EventNodeResults := { enr_text : option string }.
Record EventNode := {
  ev_type : string; ev_text : option string; ev_execution_count : option Z; ev_execution_time : option Z;
  ev_timestamp : Z; ev_results : option EventNodeResults; ev_error : option EventNodeError }.

(** [EventNodeResults.get_text] *)
Definition results_get_text (r : EventNodeResults) : string := default EmptyString (enr_text r).

Section events.
Context `{Codecs} `{PydanticFields}.

Definition missing_field (model : string) : sexn := ValidationError (invalid_text model ["Field required"]).

(** A field that must be there, and one that is [T | None] with default [None]. *)
Definition required {A} (model k : string) (read : pyval → option A) (d : dict pyval) : outcome A :=
  match dget k d with Some v => field_of model read v | None => Throw (missing_field model) end.
Definition optional {A} (model k : string) (read : pyval → option A) (d : dict pyval) : outcome (option A) :=
  match dget k d with Some v => field_of model (nullable read) v | None => Return None end.

Definition read_opt {A} (k : string) (read : pyval → option A) (d : dict pyval) : option (option A) :=
  match dget k d with Some v => nullable read v | None => Some None end.

Definition read_results (v : pyval) : option EventNodeResults :=
  match v with PDict d => t ← read_opt "text" pf_str d; Some {| enr_text := t |} | _ => None end.
Definition read_error (v : pyval) : option EventNodeError :=
  match v with
  | PDict d =>
      name ← read_opt "ename" pf_str d;
      value ← read_opt "evalue" pf_str d;
      traceback ← match dget "traceback" d with Some t => read_strings t | None => Some [] end;
      Some {| ene_name := name; ene_value := value; ene_traceback := traceback |}
  | _ => None
  end.

(** [EventNode( **event_dict )] *)
Definition event_node (v : pyval) : outcome EventNode :=
  match v with
  | PDict d =>
      type ← required "EventNode" "type" pf_str d;
      text ← optional "EventNode" "text" pf_str d;
      count ← optional "EventNode" "execution_count" pf_int d;
      time ← optional "EventNode" "execution_time" pf_int d;
      timestamp ← required "EventNode" "timestamp" pf_int d;
      results ← optional "EventNode" "results" read_results d;
      error ← optional "EventNode" "error" read_error d;
      Return {| ev_type := type; ev_text := text; ev_execution_count := count; ev_execution_time := time;
                ev_timestamp := timestamp; ev_results := results; ev_error := error |}
  | _ => Throw (PyError (PyException TypeError "argument after ** must be a mapping"))
  end.

(** The data of a line: with or without the prefix of server-sent events. *)
Definition line_data (line : string) : string :=
  if startswith line "data:" then strip (str_drop 5 line) else line.

Definition parse_event (data : string) : outcome EventNode :=
  match loads data with
  | None => Throw (PyError (PyException ValueError (json_error data)))
  | Some j => event_node (of_json j)
  end.
End events.

(** ** The dispatcher *)

Record ExecutionHandlers (W : Type) := {
  on_stdout : option (OutputMessage → Sdk W unit);
  on_stderr : option (OutputMessage → Sdk W unit);
  on_result : option (ExecutionResult → Sdk W unit);
  on_execution_complete : option (ExecutionComplete → Sdk W unit);
  on_error : option (ExecutionError → Sdk W unit);
  on_init : option (ExecutionInit → Sdk W unit) }.
Arguments on_stdout {W} _.
Arguments on_stderr {W} _.
Arguments on_result {W} _.
Arguments on_execution_complete {W} _.
Arguments on_error {W} _.
Arguments on_init {W} _.

Definition empty_execution : Execution := {|
  ex_id := None; ex_execution_count := None; ex_result := []; ex_error := None;
  ex_logs := {| el_stdout := []; el_stderr := [] |} |}.

(** The assignments to the fields of the shared [Execution]. *)
Definition set_id (i : string) (e : Execution) : Execution := {|
  ex_id := Some i; ex_execution_count := ex_execution_count e; ex_result := ex_result e; ex_error := ex_error e;
  ex_logs := ex_logs e |}.
Definition set_count (n : Z) (e : Execution) : Execution := {|
  ex_id := ex_id e; ex_execution_count := Some n; ex_result := ex_result e; ex_error := ex_error e; ex_logs := ex_logs e |}.
Definition set_error (x : ExecutionError) (e : Execution) : Execution := {|
  ex_id := ex_id e; ex_execution_count := ex_execution_count e; ex_result := ex_result e; ex_error := Some x;
  ex_logs := ex_logs e |}.
Definition set_logs (f : ExecutionLogs → ExecutionLogs) (e : Execution) : Execution := {|
  ex_id := ex_id e; ex_execution_count := ex_execution_count e; ex_result := ex_result e; ex_error := ex_error e;
  ex_logs := f (ex_logs e) |}.

Section dispatch.
Context {W : Type} (handlers : option (ExecutionHandlers W)).

(** The execution is shared with the caller: it keeps what was stored when a handler
    raises. *)
Definition update (f : Execution → Execution) : Sdk (Execution * W) unit := λ s, (Return tt, (f s.1, s.2)).
Definition in_user {A} (m : Sdk W A) : Sdk (Execution * W) A := λ s, let '(r, w) := m s.2 in (r, (s.1, w)).

(** [if self.handlers and self.handlers.on_x: await self.handlers.on_x(x)] *)
Definition notify {A} (select : ExecutionHandlers W → option (A → Sdk W unit)) (x : A) : Sdk (Execution * W) unit :=
  match handlers with
  | Some hs => match select hs with Some f => in_user (f x) | None => mret tt end
  | None => mret tt
  end.

Definition handle_init (ev : EventNode) : Sdk (Execution * W) unit :=
  let init_event := {| ei_id := default EmptyString (ev_text ev); ei_timestamp := ev_timestamp ev |} in
  update (set_id (ei_id init_event));; notify on_init init_event.

Definition handle_stdout (ev : EventNode) : Sdk (Execution * W) unit :=
  let message := {| om_text := default EmptyString (ev_text ev); om_timestamp := ev_timestamp ev; om_is_error := false |} in
  update (set_logs (add_stdout message));; notify on_stdout message.

Definition handle_stderr (ev : EventNode) : Sdk (Execution * W) unit :=
  let message := {| om_text := default EmptyString (ev_text ev); om_timestamp := ev_timestamp ev; om_is_error := true |} in
  update (set_logs (add_stderr message));; notify on_stderr message.

Definition handle_result (ev : EventNode) : Sdk (Execution * W) unit :=
  let result_text := match ev_results ev with Some r => results_get_text r | None => EmptyString end in
  let r := {| er_text := Some result_text; er_timestamp := ev_timestamp ev; er_extra := [] |} in
  update (add_result r);; notify on_result r.

Definition handle_error (ev : EventNode) : Sdk (Execution * W) unit :=
  match ev_error ev with
  | None => mret tt
  | Some error_data =>
      let error := {| ee_name := default EmptyString (ene_name error_data); ee_value := default EmptyString (ene_value error_data);
                      ee_timestamp := ev_timestamp ev; ee_traceback := ene_traceback error_data |} in
      update (set_error error);; notify on_error error
  end.

Definition handle_execution_complete (ev : EventNode) : Sdk (Execution * W) unit :=
  notify on_execution_complete
    {| ec_timestamp := ev_timestamp ev; ec_execution_time_in_millis := default 0%Z (ev_execution_time ev) |}.

Definition dispatch (ev : EventNode) : Sdk (Execution * W) unit :=
  let event_type := ev_type ev in
  if bool_decide (event_type = "stdout") then handle_stdout ev
  else if bool_decide (event_type = "stderr") then handle_stderr ev
  else if bool_decide (event_type = "result") then handle_result ev
  else if bool_decide (event_type = "error") then handle_error ev
  else if bool_decide (event_type = "execution_complete") then handle_execution_complete ev
  else if bool_decide (event_type = "init") then handle_init ev
  else if bool_decide (event_type = "execution_count") then
    match ev_execution_count ev with Some n => update (set_count n) | None => mret tt end
  else mret tt.

Context `{Codecs} `{PydanticFields}.

(** One line of the stream; an event that cannot be read, or whose handler raises, is
    logged and the stream goes on. *)
Definition handle_line (line : string) : Sdk (Execution * W) unit :=
  if negb (truthy (strip line)) then mret tt
  else sdk_try (ev ← liftO (parse_event (line_data line)); dispatch ev) (λ _, mret tt).

Fixpoint handle_lines (lines : list string) : Sdk (Execution * W) unit :=
  match lines with
  | [] => mret tt
  | line :: lines' => handle_line line;; handle_lines lines'
  end.
End dispatch.

(** ** The requests *)

(** [int(delta.total_seconds() * 1000)] *)
Definition int_milliseconds (us : Z) : result Z := int_of_float (fmul (total_seconds us) (float_of_Z 1000)).

(** A timeout of 1.001 seconds is sent as 1000 milliseconds. *)
Example timeout_truncated : int_milliseconds 1001000 = Ok 1000%Z.
Proof. vm_compute. reflexivity. Qed.

(** [ExecutionConverter.to_api_run_command_request] *)
Definition to_api_run_command_request (command : string) (opts : RunCommandOpts) : result ApiRunCommandRequest :=
  timeout ← match rc_timeout opts with Some us => n ← int_milliseconds us; Ok (Some (PInt n)) | None => Ok None end;
  Ok {| arc_command := PStr command;
        arc_cwd := match rc_working_directory opts with Some ((String _ _) as d) => Some (PStr d) | _ => None end;
        arc_background := if rc_background opts then Some (PBool true) else None;
        arc_timeout := timeout; arc_uid := PInt <$> rc_uid opts; arc_gid := PInt <$> rc_gid opts;
        arc_envs := (λ d, fold_left (λ acc kv, dset kv.1 (PStr kv.2) acc) d []) <$> rc_envs opts;
        arc_additional_properties := [] |}.

(** [ExecutionConverter.to_api_run_command_json] *)
Definition to_api_run_command_json (command : string) (opts : RunCommandOpts) : result pyval :=
  api_request ← to_api_run_command_request command opts; Ok (run_command_to_dict api_request).

(** [to_command_status], with [_unwrap_optional] *)
Definition to_command_status `{Codecs} `{PydanticFields} (raw : ApiCommandStatus) : outcome CommandStatus :=
  let field {A} (read : pyval → option A) (v : option pyval) : outcome (option A) :=
    match v with None => Return None | Some x => field_of "CommandStatus" (nullable read) x end in
  id ← field pf_str (act_id raw);
  content ← field pf_str (act_content raw);
  running ← field pf_bool (act_running raw);
  exit_code ← field pf_int (act_exit_code raw);
  error ← field pf_str (act_error raw);
  finished_at ← to_expires_at (act_finished_at raw);
  Return {| cs_id := id; cs_content := content; cs_running := running; cs_exit_code := exit_code; cs_error := error;
            cs_started_at := act_started_at raw; cs_finished_at := finished_at |}.

(** ** The adapter *)

Record Commands (W : Type) := {
  cm_run : string → option RunCommandOpts → option (ExecutionHandlers W) → Sdk W Execution;
  cm_interrupt : string → Sdk W unit;
  cm_get_command_status : string → Sdk W CommandStatus;
  cm_get_background_command_logs : string → option Z → Sdk W CommandLogs }.
Arguments cm_run {W} _.
Arguments cm_interrupt {W} _.
Arguments cm_get_command_status {W} _.
Arguments cm_get_background_command_logs {W} _.

Section adapter.
Context {W : Type} `{Net W} `{Streams W} `{Codecs} `{Dateutil} `{PydanticFields}.
Context (config : ConnectionConfig) (execd_endpoint : SandboxEndpoint).

Definition RUN_COMMAND_PATH : string := "/command".

(** The headers of the client for streams. *)
Definition sse_headers : dict string :=
  dset "Cache-Control" "no-cache" (dset "Accept" "text/event-stream" (base_headers config (se_headers execd_endpoint))).

Definition run_request (json_body : pyval) : HttpRequest := {|
  hr_method := "POST"; hr_url := endpoint_url config (se_endpoint execd_endpoint) RUN_COMMAND_PATH; hr_params := [];
  hr_headers := lower_keys sse_headers; hr_body := JsonPayload json_body |}.

(** The loop over the lines, from an empty execution. *)
Definition consume (handlers : option (ExecutionHandlers W)) (s : StreamResponse) : Sdk W Execution := λ w,
  let '(_, (execution, w')) := handle_lines handlers (stm_lines s) (empty_execution, w) in
  match stm_end s with Some e => (Throw e, w') | None => (Return execution, w') end.

Definition run (command : string) (opts : option RunCommandOpts) (handlers : option (ExecutionHandlers W)) : Sdk W Execution :=
  if negb (truthy (strip command)) then raise_sandbox (invalid_argument_exception "Command cannot be empty")
  else converting (
    json_body ← liftO (of_result (to_api_run_command_json command (default default_run_opts opts)));
    response ← n_stream (run_request json_body);
    if negb (rs_status (stm_response response) =? 200)%Z then
      raise_sandbox (sandbox_api_exception
        ("Failed to run command. Status code: " +:+ str_of_Z (rs_status (stm_response response)))
        (Some (rs_status (stm_response response))) None (extract_request_id (rs_headers (stm_response response))))
    else consume handlers response).

Definition execd_client : ApiClient := endpoint_client config execd_endpoint.

Definition interrupt (execution_id : string) : Sdk W unit :=
  converting (
    response_obj ← interrupt_command_detailed execd_client execution_id;
    liftO (handle_api_error response_obj "Interrupt command")).

Definition get_command_status (execution_id : string) : Sdk W CommandStatus :=
  converting (
    response_obj ← get_command_status_detailed execd_client execution_id;
    parsed ← liftO (checked response_obj "Get command status" "Get command status");
    liftO (to_command_status parsed)).

(** The cursor of the answer; a header that is no number is as good as none. *)
Definition next_cursor (headers : dict string) : option Z :=
  match dget (lower "EXECD-COMMANDS-TAIL-CURSOR") headers with
  | Some ((String _ _) as h) => py_int h
  | _ => None
  end.

Definition get_background_command_logs (execution_id : string) (cursor : option Z) : Sdk W CommandLogs :=
  converting (
    response_obj ← get_background_command_logs_detailed execd_client execution_id (PInt <$> cursor);
    content ← liftO (checked response_obj "Get command logs" "Get command logs");
    mret {| cl_content := content; cl_cursor := next_cursor (ar_headers response_obj) |}).

Definition commands_adapter : Commands W := {|
  cm_run := run; cm_interrupt := interrupt; cm_get_command_status := get_command_status;
  cm_get_background_command_logs := get_background_command_logs |}.
End adapter.
