(* ===== verification/SdkExecution.v ===== *)
(** * A simulated world for the Python client

    Concrete instances of what the client is given: a network that answers by the request
    and the time, a clock that moves with every request and every sleep, and the codecs.
    The examples and the witnesses run in it. *)

From Stdlib Require Import Ascii.
From S2P Require Import Prelude PyString PyDict PyTime Json PyVal K8sHelpers SdkBase SdkModels SdkApi SdkCommands.
Open Scope string_scope.
Open Scope list_scope.

#[global] Instance sim_codecs : Codecs := {|
  decode_strict := utf8_decode;
  decode_replace l := default EmptyString (utf8_decode l);
  json_error _ := "Expecting value: line 1 column 1 (char 0)";
  invalid_text model errs := model +:+ ": " +:+ join "; " errs |}.

#[global] Instance sim_pydantic : PydanticFields := {|
  pf_str v := match v with PStr s => Some s | _ => None end;
  pf_int v := match v with PInt n => Some n | _ => None end;
  pf_bool v := match v with PBool b => Some b | _ => None end;
  pf_float v := match v with PInt _ | PFloat _ => Some v | _ => None end;
  pf_datetime v := match v with PStr s => fromisoformat s | _ => None end |}.

#[global] Instance sim_pydantic_laws : PydanticLaws.
Proof. split; [|done|done]. intros [] t; cbn; naive_solver. Qed.

#[global] Instance sim_dateutil : Dateutil := {|
  isoparse v :=
    match v with
    | PStr s => match fromisoformat s with
                | Some dt => Ok dt
                | None => Raise (PyException ValueError "Unused components in ISO string")
                end
    | _ => Raise (PyException TypeError "Parser must be a string or character stream")
    end |}.

(** What was sent, the time, the transports made and closed, and the answers. *)
Record SimNet := {
  sn_sent : list HttpRequest;
  sn_time : Z;
  sn_transports : nat;
  sn_closed : list nat;
  sn_answer : HttpRequest → Z → outcome HttpResponse;
  sn_stream : outcome StreamResponse }.

Definition sim_sent (r : HttpRequest) (w : SimNet) : SimNet := {|
  sn_sent := sn_sent w ++ [r]; sn_time := (sn_time w + 1)%Z; sn_transports := sn_transports w; sn_closed := sn_closed w;
  sn_answer := sn_answer w; sn_stream := sn_stream w |}.
Definition sim_wait (d : Z) (w : SimNet) : SimNet := {|
  sn_sent := sn_sent w; sn_time := (sn_time w + Z.max 0 d)%Z; sn_transports := sn_transports w; sn_closed := sn_closed w;
  sn_answer := sn_answer w; sn_stream := sn_stream w |}.
Definition sim_made (w : SimNet) : SimNet := {|
  sn_sent := sn_sent w; sn_time := sn_time w; sn_transports := S (sn_transports w); sn_closed := sn_closed w;
  sn_answer := sn_answer w; sn_stream := sn_stream w |}.
Definition sim_closed (t : nat) (w : SimNet) : SimNet := {|
  sn_sent := sn_sent w; sn_time := sn_time w; sn_transports := sn_transports w; sn_closed := t :: sn_closed w;
  sn_answer := sn_answer w; sn_stream := sn_stream w |}.

#[global] Instance sim_net : Net SimNet := {|
  n_send r w := (sn_answer w r (sn_time w), sim_sent r w);
  n_time w := (sn_time w, w);
  n_sleep d w := sim_wait d w;
  n_new_transport w := (sn_transports w, sim_made w);
  n_close_transport t w := (Return tt, sim_closed t w);
  n_getenv _ := None |}.

#[global] Instance sim_streams : Streams SimNet := {| n_stream r w := (sn_stream w, sim_sent r w) |}.

Definition sim_start (answer : HttpRequest → Z → outcome HttpResponse) (stream : outcome StreamResponse) : SimNet := {|
  sn_sent := []; sn_time := 0; sn_transports := 0; sn_closed := []; sn_answer := answer; sn_stream := stream |}.

(** An answer with a text or a JSON value as its body. *)
Definition text_answer (status : Z) (t : string) : HttpResponse := {|
  rs_status := status; rs_headers := [("x-request-id", "req-1")]; rs_content := utf8_encode t |}.
Definition json_answer (status : Z) (v : pyval) : HttpResponse := text_answer status (dumps v).

(** * What a command run returns

    The [Execution] that [CommandsAdapter.run] returns, against a reference that reads the
    events of the stream without a dispatcher. *)

From S2P Require Import PyFloat SdkConfig SdkAdapter SdkExecdApi.

(** ** The reference *)

Definition event_message (is_error : bool) (ev : EventNode) : OutputMessage := {|
  om_text := default EmptyString (ev_text ev); om_timestamp := ev_timestamp ev; om_is_error := is_error |}.
Definition event_result (ev : EventNode) : ExecutionResult := {|
  er_text := Some (match ev_results ev with Some r => results_get_text r | None => EmptyString end);
  er_timestamp := ev_timestamp ev; er_extra := [] |}.
Definition event_error (ev : EventNode) : option ExecutionError :=
  (λ x, {| ee_name := default EmptyString (ene_name x); ee_value := default EmptyString (ene_value x);
           ee_timestamp := ev_timestamp ev; ee_traceback := ene_traceback x |}) <$> ev_error ev.

(** The events of one type. *)
Definition of_type (t : string) (evs : list EventNode) : list EventNode := List.filter (λ ev, bool_decide (ev_type ev = t)) evs.

Definition collected (evs : list EventNode) : Execution := {|
  ex_id := last ((λ ev, default EmptyString (ev_text ev)) <$> of_type "init" evs);
  ex_execution_count := last (omap ev_execution_count (of_type "execution_count" evs));
  ex_result := event_result <$> of_type "result" evs;
  ex_error := last (omap event_error (of_type "error" evs));
  ex_logs := {| el_stdout := event_message false <$> of_type "stdout" evs;
                el_stderr := event_message true <$> of_type "stderr" evs |} |}.

(** ** The dispatcher against the reference *)

Section collecting.
Context `{Codecs} `{PydanticFields}.

(** The event that a line holds, if it holds one. *)
Definition event_of_line (line : string) : option EventNode :=
  if truthy (strip line) then match parse_event (line_data line) with Return ev => Some ev | Throw _ => None end else None.

Lemma of_type_snoc t evs ev :
  of_type t (evs ++ [ev]) = of_type t evs ++ (if bool_decide (ev_type ev = t) then [ev] else []).
Proof. unfold of_type. rewrite List.filter_app. cbn. by case_bool_decide. Qed.

Context {W : Type} (handlers : option (ExecutionHandlers W)).

Lemma notify_execution {A} (select : ExecutionHandlers W → option (A → Sdk W unit)) x e w :
  ∃ r w', notify handlers select x (e, w) = (r, (e, w')).
Proof.
  unfold notify, in_user. destruct handlers as [hs|]; [|by eauto]. destruct (select hs) as [f|]; [|by eauto].
  cbn. destruct (f x w). eauto.
Qed.

Lemma update_notify {A} f (select : ExecutionHandlers W → option (A → Sdk W unit)) x e w :
  ∃ r w', (update f;; notify handlers select x) (e, w) = (r, (f e, w')).
Proof. unfold mbind, Sdk_bind, update. apply notify_execution. Qed.

Lemma last_snoc_app {A} (l k : list A) : last (l ++ k) = match last k with Some x => Some x | None => last l end.
Proof.
  destruct k as [|x k] using rev_ind; [by rewrite app_nil_r|]. by rewrite app_assoc, !last_snoc.
Qed.

Lemma event_error_Some ev x : ev_error ev = Some x → event_error ev = Some {|
  ee_name := default EmptyString (ene_name x); ee_value := default EmptyString (ene_value x);
  ee_timestamp := ev_timestamp ev; ee_traceback := ene_traceback x |}.
Proof. unfold event_error. by intros ->. Qed.
Lemma event_error_None ev : ev_error ev = None → event_error ev = None.
Proof. unfold event_error. by intros ->. Qed.

(** One event: the execution becomes what the reference says, whatever the handler does. *)
Lemma dispatch_collected evs ev w :
  ∃ r w', dispatch handlers ev (collected evs, w) = (r, (collected (evs ++ [ev]), w')).
Proof.
  unfold dispatch.
  assert (∀ t, ev_type ev = t → ∀ t', of_type t' (evs ++ [ev]) = of_type t' evs ++ (if bool_decide (t = t') then [ev] else [])) as Hs.
  { intros t <- t'. apply of_type_snoc. }
  repeat (case_bool_decide; [match goal with Ht : ev_type ev = _ |- _ => pose proof (Hs _ Ht) as Hn; clear Hs end|]).
  8:{ exists (Return tt), w. unfold collected. rewrite !of_type_snoc.
      rewrite !(bool_decide_eq_false_2 (ev_type ev = _)) by done. by rewrite !app_nil_r. }
  all: unfold handle_stdout, handle_stderr, handle_result, handle_error, handle_execution_complete, handle_init;
    unfold collected at 2; rewrite !Hn; cbn [bool_decide decide_rel decide]; cbv zeta.
  1,2,3,6: edestruct @update_notify as (r&w'&->); exists r, w'; unfold collected, set_logs, add_stdout, add_stderr, add_result, set_id;
    cbn; rewrite ?app_nil_r, ?fmap_app, ?last_snoc_app; done.
  - destruct (ev_error ev) as [x|] eqn:Hx.
    + edestruct @update_notify as (r&w'&->). exists r, w'. unfold collected, set_error; cbn.
      rewrite (bool_decide_eq_true_2 ("error" = "error")) by done.
      rewrite ?app_nil_r, omap_app, last_snoc_app. cbn. by rewrite (event_error_Some ev x Hx).
    + exists (Return tt), w. unfold collected; cbn. rewrite (bool_decide_eq_true_2 ("error" = "error")) by done.
      rewrite ?app_nil_r, omap_app, last_snoc_app. cbn.
      by rewrite (event_error_None ev Hx).
  - edestruct @notify_execution as (r&w'&->). exists r, w'. unfold collected; cbn. by rewrite ?app_nil_r.
  - destruct (ev_execution_count ev) as [n|] eqn:Hx; exists (Return tt), w; unfold update, collected, set_count; cbn;
      rewrite (bool_decide_eq_true_2 ("execution_count" = "execution_count")) by done;
      rewrite ?app_nil_r, omap_app, last_snoc_app; cbn; by rewrite Hx.
Qed.

Lemma handle_lines_collected lines evs w :
  ∃ w', handle_lines handlers lines (collected evs, w) = (Return tt, (collected (evs ++ omap event_of_line lines), w')).
Proof.
  revert evs w. induction lines as [|line lines IH]; intros evs w; [rewrite app_nil_r; by eexists|].
  cbn [handle_lines omap list_omap]. unfold mbind, Sdk_bind. unfold handle_line, event_of_line at 1.
  destruct (truthy (strip line)) eqn:Hl; cbn [negb].
  - unfold sdk_try, mbind, Sdk_bind, liftO. destruct (parse_event (line_data line)) as [ev|x].
    + destruct (dispatch_collected evs ev w) as (r&w1&->).
      destruct (IH (evs ++ [ev]) w1) as (w2&Hw2). rewrite <-app_assoc in Hw2. exists w2.
      destruct r; exact Hw2.
    + destruct (IH evs w) as (w2&Hw2). by exists w2.
  - destruct (IH evs w) as (w2&Hw2). by exists w2.
Qed.
End collecting.

Section running.
Context {W : Type} `{Net W} `{Streams W} `{Codecs} `{PydanticFields}.
Context (config : ConnectionConfig) (execd_endpoint : SandboxEndpoint).

(** C19: A command that execd runs to the end returns an [Execution] that holds exactly the
    events of the stream, each in its order: every stdout, stderr and result event in its
    list, the last identifier, count and error.  Blank lines, lines that are no event and
    handlers that raise change nothing of it, and with a good stream the call returns. *)
Theorem run_collects handlers command opts json_body s w w1 :
  truthy (strip command) = true →
  to_api_run_command_json command (default default_run_opts opts) = Ok json_body →
  n_stream (run_request config execd_endpoint json_body) w = (Return s, w1) →
  rs_status (stm_response s) = 200%Z → stm_end s = None →
  ∃ w', run config execd_endpoint command opts handlers w = (Return (collected (omap event_of_line (stm_lines s))), w').
Proof.
  intros Hc Hb Hs Hst He. unfold run. rewrite Hc. cbn [negb].
  unfold converting, sdk_try, mbind, Sdk_bind, liftO. rewrite Hb. cbn [of_result]. rewrite Hs, Hst.
  change (negb (200 =? 200)%Z) with false. cbn iota. unfold consume. change empty_execution with (collected []).
  destruct (handle_lines_collected handlers (stm_lines s) [] w1) as (w2&->). rewrite He. by exists w2.
Qed.
End running.

(** ** A run *)

Definition sim_lines : list string :=
  ["data: " +:+ dumps (PDict [("type", PStr "init"); ("text", PStr "cmd-1"); ("timestamp", PInt 1)]); "";
   dumps (PDict [("type", PStr "stdout"); ("text", PStr "a"); ("timestamp", PInt 2)]);
   "data: not json";
   "data:" +:+ dumps (PDict [("type", PStr "stderr"); ("text", PStr "w"); ("timestamp", PInt 3)]);
   dumps (PDict [("type", PStr "stdout"); ("timestamp", PStr "late")]);
   dumps (PDict [("type", PStr "stdout"); ("text", PStr "b"); ("timestamp", PInt 4)])].

Definition sim_stream_response : StreamResponse := {|
  stm_response := text_answer 200 ""; stm_lines := sim_lines; stm_end := None |}.

(** A handler of stdout that raises. *)
Definition raising_handlers : ExecutionHandlers SimNet := {|
  on_stdout := Some (λ _, throw (PyError (PyException RuntimeError "handler failed")));
  on_stderr := None; on_result := None; on_execution_complete := None; on_error := None; on_init := None |}.

Lemma run_collects_witness :
  (om_text <$> el_stdout (ex_logs (collected (omap event_of_line sim_lines)))) = ["a"; "b"] ∧
  ex_id (collected (omap event_of_line sim_lines)) = Some "cmd-1" ∧
  ∃ w', run default_config {| se_endpoint := "host:1"; se_headers := [] |} "ls" None (Some raising_handlers)
    (sim_start (λ _ _, Return (text_answer 200 "")) (Return sim_stream_response))
    = (Return (collected (omap event_of_line sim_lines)), w').
Proof.
  split; [vm_compute; reflexivity|]. split; [vm_compute; reflexivity|].
  eapply (run_collects default_config {| se_endpoint := "host:1"; se_headers := [] |} (Some raising_handlers) "ls" None
    (PDict [("command", PStr "ls")]) sim_stream_response); vm_compute; reflexivity.
Defined.
