(* ===== verification/SdkFiles.v ===== *)
(** * The Python client: files
      ([opensandbox/adapters/filesystem_adapter.py],
      [converter/filesystem_model_converter.py])

    Reading and writing the files of a sandbox: uploads are one multipart request,
    downloads one request with the path in the URL, the rest are calls of the generated
    client of execd. *)

From Stdlib Require Import Ascii.
From S2P Require Import Prelude PyString PyDict PyTime PyFloat Json PyVal K8sHelpers Execd SdkBase SdkModels SdkApi SdkConfig SdkAdapter SdkExecdApi.
Open Scope string_scope.
Open Scope list_scope.

(** ** The converter *)

Section converter.
Context `{Codecs} `{PydanticFields}.

Definition to_entry_info (f : ApiFileInfo) : outcome EntryInfo :=
  path ← field_of "EntryInfo" pf_str (afi_path f);
  mode ← field_of "EntryInfo" pf_int (afi_mode f);
  owner ← field_of "EntryInfo" pf_str (afi_owner f);
  group ← field_of "EntryInfo" pf_str (afi_group f);
  size ← field_of "EntryInfo" pf_int (afi_size f);
  Return {| en_path := path; en_mode := mode; en_owner := owner; en_group := group; en_size := size;
            en_modified_at := afi_modified_at f; en_created_at := afi_created_at f |}.

Definition to_entry_info_list (l : list ApiFileInfo) : outcome (list EntryInfo) := mapO to_entry_info l.

Fixpoint entry_info_items (d : dict ApiFileInfo) (acc : dict EntryInfo) : outcome (dict EntryInfo) :=
  match d with
  | [] => Return acc
  | (path, info_data) :: d' => i ← to_entry_info info_data; entry_info_items d' (dset path i acc)
  end.
Definition to_entry_info_map (d : dict ApiFileInfo) : outcome (dict EntryInfo) := entry_info_items d [].
End converter.

Definition opt_str (o : option string) : pyval := match o with Some s => PStr s | None => PNone end.

(** [{entry.path: {...} for entry in entries}] *)
Definition by_path {A} (path : A → string) (value : A → pyval) (entries : list A) : pyval :=
  PDict (fold_left (λ acc e, dset (path e) (value e) acc) entries []).

Definition permission_value (mode : Z) (owner group : option string) : pyval :=
  PDict [("mode", PInt mode); ("owner", opt_str owner); ("group", opt_str group)].

Definition to_api_make_dirs_body (entries : list WriteEntry) : result (dict ApiPermission) :=
  objects_from_dict permission_from_dict
    (by_path we_path (λ e, permission_value (we_mode e) (we_owner e) (we_group e)) entries).
Definition to_api_chmod_files_body (entries : list SetPermissionEntry) : result (dict ApiPermission) :=
  objects_from_dict permission_from_dict
    (by_path sp_path (λ e, permission_value (sp_mode e) (sp_owner e) (sp_group e)) entries).
Definition to_api_replace_content_body (entries : list ContentReplaceEntry) : result (dict ApiReplaceItem) :=
  objects_from_dict replace_item_from_dict
    (by_path cr_path (λ e, PDict [("old", PStr (cr_old_content e)); ("new", PStr (cr_new_content e))]) entries).
Definition to_api_rename_file_items (entries : list MoveEntry) : list ApiRenameItem :=
  (λ e, {| ari_src := PStr (me_src e); ari_dest := PStr (me_dest e); ari_additional_properties := [] |}) <$> entries.

(** ** The adapter *)

(** A request for a download: [_DownloadRequest] *)
Record DownloadRequest := { dr_url : string; dr_params : option (dict string); dr_headers : dict string }.

Definition slash_safe (c : ascii) : bool := bool_decide (c = "/"%char).

Record Filesystem (W : Type) := {
  fs_read_file : string → string → option string → Sdk W string;
  fs_read_bytes : string → option string → Sdk W (list N);
  fs_read_bytes_stream : string → nat → option string → Sdk W (list (list N));
  fs_write_files : list WriteEntry → Sdk W unit;
  fs_write_file : string → file_data → string → Z → option string → option string → Sdk W unit;
  fs_create_directories : list WriteEntry → Sdk W unit;
  fs_delete_files : list string → Sdk W unit;
  fs_delete_directories : list string → Sdk W unit;
  fs_move_files : list MoveEntry → Sdk W unit;
  fs_set_permissions : list SetPermissionEntry → Sdk W unit;
  fs_replace_contents : list ContentReplaceEntry → Sdk W unit;
  fs_search : SearchEntry → Sdk W (list EntryInfo);
  fs_get_file_info : list string → Sdk W (dict EntryInfo) }.
Arguments fs_read_file {W} _.
Arguments fs_read_bytes {W} _.
Arguments fs_read_bytes_stream {W} _.
Arguments fs_write_files {W} _.
Arguments fs_write_file {W} _.
Arguments fs_create_directories {W} _.
Arguments fs_delete_files {W} _.
Arguments fs_delete_directories {W} _.
Arguments fs_move_files {W} _.
Arguments fs_set_permissions {W} _.
Arguments fs_replace_contents {W} _.
Arguments fs_search {W} _.
Arguments fs_get_file_info {W} _.

(** The chunks of [aiter_bytes(chunk_size)]. *)
Fixpoint chunks_fuel (fuel n : nat) (l : list N) : list (list N) :=
  match fuel, l with
  | O, _ | _, [] => []
  | S f, _ => take n l :: chunks_fuel f n (drop n l)
  end.
Definition chunks (n : nat) (l : list N) : list (list N) := chunks_fuel (length l) n l.

Section adapter.
Context {W : Type} `{Net W} `{Codecs} `{Dateutil} `{PydanticFields}.
(** [bytes.decode(encoding)] *)
Context (bytes_decode : string → list N → result string).
Context (config : ConnectionConfig) (execd_endpoint : SandboxEndpoint).

Definition FILESYSTEM_UPLOAD_PATH : string := "/files/upload".
Definition FILESYSTEM_DOWNLOAD_PATH : string := "/files/download".

Definition fs_client : ApiClient := endpoint_client config execd_endpoint.
Definition get_execd_url (path : string) : string := endpoint_url config (se_endpoint execd_endpoint) path.

(** [_build_download_request] *)
Definition build_download_request (path : string) (range_header : option string) : DownloadRequest := {|
  dr_url := get_execd_url FILESYSTEM_DOWNLOAD_PATH +:+ "?path=" +:+ url_quote slash_safe path;
  dr_params := None;
  dr_headers := match range_header with Some ((String _ _) as r) => [("Range", r)] | _ => [] end |}.

Definition http_request (method url : string) (headers : dict string) (b : request_body) : HttpRequest := {|
  hr_method := method; hr_url := url; hr_params := [];
  hr_headers := dupdate (lower_keys (ac_headers fs_client)) (lower_keys headers); hr_body := b |}.

Definition download_request (path : string) (range_header : option string) : HttpRequest :=
  let request_data := build_download_request path range_header in
  http_request "GET" (dr_url request_data) (dr_headers request_data) EmptyBody.

(** [response.raise_for_status()]: every status but 2xx raises *)
Definition raise_for_status (r : HttpResponse) : outcome unit :=
  throw_if (negb ((200 <=? rs_status r) && (rs_status r <? 300))%Z)
    (HTTPStatusError r ("Error response " +:+ str_of_Z (rs_status r))).

Definition read_bytes (path : string) (range_header : option string) : Sdk W (list N) :=
  converting (
    response ← n_send (download_request path range_header);
    liftO (raise_for_status response);;
    mret (rs_content response)).

Definition read_file (path encoding : string) (range_header : option string) : Sdk W string :=
  content ← read_bytes path range_header;
  liftO (of_result (bytes_decode encoding content)).

Definition stream_refused (path : string) (r : HttpResponse) : SandboxException :=
  sandbox_api_exception ("Failed to stream file " +:+ path +:+ ": " +:+ str_of_Z (rs_status r)) (Some (rs_status r)) None
    (extract_request_id (rs_headers r)).

Definition read_bytes_stream (path : string) (chunk_size : nat) (range_header : option string) : Sdk W (list (list N)) :=
  converting (
    response ← n_send (download_request path range_header);
    if (300 <=? rs_status response)%Z then raise_sandbox (stream_refused path response)
    else mret (chunks chunk_size (rs_content response))).

(** The two parts of one entry: its metadata, then its content. *)
Definition entry_parts (e : WriteEntry) : outcome (list Part) :=
  throw_if (negb (truthy (we_path e))) (Sandbox (invalid_argument_exception "File path cannot be null"));;
  match we_data e with
  | None => Throw (Sandbox (invalid_argument_exception "File data cannot be null"))
  | Some data =>
      let metadata := PDict [("path", PStr (we_path e)); ("owner", opt_str (we_owner e)); ("group", opt_str (we_group e));
                             ("mode", PInt (we_mode e))] in
      let metadata_part := {| pt_name := "metadata"; pt_filename := "metadata"; pt_content := PartText (dumps metadata);
                              pt_type := "application/json" |} in
      let file_part content content_type := {| pt_name := "file"; pt_filename := we_path e; pt_content := content;
                                               pt_type := content_type |} in
      match data with
      | DataBytes b => Return [metadata_part; file_part (PartBytes b) "application/octet-stream"]
      | DataText s =>
          let encoding := if truthy (we_encoding e) then we_encoding e else "utf-8" in
          Return [metadata_part; file_part (PartText s) ("text/plain; charset=" +:+ encoding)]
      | DataTextStream _ =>
          Throw (Sandbox (invalid_argument_exception
            "File stream must be binary (opened with 'rb'). Text streams are not supported."))
      | DataBinaryStream id => Return [metadata_part; file_part (PartStream id) "application/octet-stream"]
      | DataOther t => Throw (Sandbox (invalid_argument_exception ("Unsupported file data type: " +:+ t)))
      end
  end.

Fixpoint multipart_parts (entries : list WriteEntry) : outcome (list Part) :=
  match entries with
  | [] => Return []
  | e :: entries' => ps ← entry_parts e; rest ← multipart_parts entries'; Return (ps ++ rest)
  end.

Definition upload_request (parts : list Part) : HttpRequest :=
  http_request "POST" (get_execd_url FILESYSTEM_UPLOAD_PATH) [] (Multipart parts).

Definition write_files (entries : list WriteEntry) : Sdk W unit :=
  match entries with
  | [] => mret tt
  | _ =>
      converting (
        parts ← liftO (multipart_parts entries);
        response ← n_send (upload_request parts);
        liftO (raise_for_status response))
  end.

(** A single file; the entry is made, and checked, outside the conversion. *)
Definition write_file (path : string) (data : file_data) (encoding : string) (mode : Z) (owner group : option string)
    : Sdk W unit :=
  entry ← liftO (write_entry {| we_path := path; we_data := Some data; we_mode := mode; we_owner := owner;
                                we_group := group; we_encoding := encoding |});
  write_files [entry].

(** A call of execd that gives no value. *)
Definition unit_call (call : Sdk W (ApiResponse unit)) (op : string) : Sdk W unit :=
  response_obj ← call; liftO (handle_api_error response_obj op).

Definition create_directories (entries : list WriteEntry) : Sdk W unit :=
  converting (
    b ← liftO (of_result (to_api_make_dirs_body entries));
    unit_call (make_dirs_detailed fs_client b) "Create directories").
Definition delete_files (paths : list string) : Sdk W unit :=
  converting (unit_call (remove_files_detailed fs_client paths) "Delete files").
Definition delete_directories (paths : list string) : Sdk W unit :=
  converting (unit_call (remove_dirs_detailed fs_client paths) "Delete directories").
Definition move_files (entries : list MoveEntry) : Sdk W unit :=
  converting (unit_call (rename_files_detailed fs_client (to_api_rename_file_items entries)) "Move files").
Definition set_permissions (entries : list SetPermissionEntry) : Sdk W unit :=
  converting (
    b ← liftO (of_result (to_api_chmod_files_body entries));
    unit_call (chmod_files_detailed fs_client b) "Set permissions").
Definition replace_contents (entries : list ContentReplaceEntry) : Sdk W unit :=
  converting (
    b ← liftO (of_result (to_api_replace_content_body entries));
    unit_call (replace_content_detailed fs_client b) "Replace contents").

Definition search (entry : SearchEntry) : Sdk W (list EntryInfo) :=
  converting (
    response_obj ← search_files_detailed fs_client (sr_path entry) (Some (PStr (sr_pattern entry)));
    liftO (handle_api_error response_obj "Search files");;
    match ar_parsed response_obj with
    | None | Some (ParsedValue []) => mret []
    | Some (ParsedValue l) => liftO (to_entry_info_list l)
    | Some (ParsedError _ | ParsedText _) =>
        raise_sandbox (sandbox_api_exception "Search files failed: unexpected response type" None None
          (extract_request_id (ar_headers response_obj)))
    end).

Definition get_file_info (paths : list string) : Sdk W (dict EntryInfo) :=
  converting (
    response_obj ← get_files_info_detailed fs_client paths;
    liftO (handle_api_error response_obj "Get file info");;
    match ar_parsed response_obj with
    | Some (ParsedValue d) => liftO (to_entry_info_map d)
    | _ => mret []
    end).

Definition filesystem_adapter : Filesystem W := {|
  fs_read_file := read_file; fs_read_bytes := read_bytes; fs_read_bytes_stream := read_bytes_stream;
  fs_write_files := write_files; fs_write_file := write_file; fs_create_directories := create_directories;
  fs_delete_files := delete_files; fs_delete_directories := delete_directories; fs_move_files := move_files;
  fs_set_permissions := set_permissions; fs_replace_contents := replace_contents; fs_search := search;
  fs_get_file_info := get_file_info |}.
End adapter.
