(* ===== verification/SdkSandbox.v ===== *)
(** * The Python client: sandboxes and their manager
      ([opensandbox/sandbox.py], [manager.py], [adapters/factory.py], [constants.py])

    What a user of the client holds: a sandbox with its services at the endpoints that
    the server gave, made by [create], [connect] or [resume], and the manager that works
    by identifiers.  The messages of the log are not modelled. *)

From Stdlib Require Import Ascii.
From S2P Require Import Prelude PyString PyDict PyTime PyFloat Json PyVal SdkBase SdkModels SdkApi SdkConfig SdkAdapter SdkExecdApi SdkCommands SdkFiles.
Open Scope string_scope.
Open Scope list_scope.

Definition DEFAULT_EXECD_PORT : Z := 44772.
Definition DEFAULT_EGRESS_PORT : Z := 18080.

(** ** Texts and times *)

(** The digits of a fraction of a second, without the zeros at the end but one. *)
Fixpoint drop_zeros (s : string) : string :=
  match s with
  | EmptyString => EmptyString
  | String c s' => match drop_zeros s' with
                   | EmptyString => if bool_decide (c = "0"%char) then EmptyString else String c EmptyString
                   | t => String c t
                   end
  end.
Definition fraction_text (us : Z) : string :=
  match drop_zeros (fmt 6 us) with EmptyString => "0" | t => t end.

(** [f"{delta.total_seconds()}"]: the shortest text of the float, for durations of at most
    fifteen digits of microseconds (31 years). *)
Definition total_seconds_text (us : Z) : string :=
  let a := Z.abs us in
  (if (us <? 0)%Z then "-" else EmptyString) +:+
  (if (a =? 0)%Z then "0.0"
   else if (a <? 10)%Z then str_of_Z a +:+ "e-06"
   else if (a <? 100)%Z then
     str_of_Z (a / 10) +:+ (if (a mod 10 =? 0)%Z then EmptyString else "." +:+ str_of_Z (a mod 10)) +:+ "e-05"
   else str_of_Z (a / us_per_second) +:+ "." +:+ fraction_text (a mod us_per_second)).

Example total_seconds_text_ex :
  total_seconds_text 30000000 = "30.0" ∧ total_seconds_text 250000 = "0.25" ∧ total_seconds_text (-1000500) = "-1.0005" ∧
  total_seconds_text 12 = "1.2e-05".
Proof. vm_compute. done. Qed.

(** Microseconds from the first day of the calendar to the epoch of [time.time()]. *)
Definition epoch_us : Z := 62135596800 * us_per_second.

Example epoch_us_ex : epoch_us = (ymd2day 1970 1 1 * us_per_day)%Z.
Proof. reflexivity. Qed.

(** A step whose exception is a value: [try] with a handler that uses what came before. *)
Definition attempted {W A} (m : Sdk W A) : Sdk W (outcome A) := λ w, let '(r, w') := m w in (Return r, w').

(** [except Exception as e]: an exception of the client as it is, any other one as an
    internal one. *)
Definition reraised `{Codecs} (prefix : string) (e : sexn) : SandboxException :=
  match e with
  | Sandbox x => x
  | _ => sandbox_internal_exception (prefix +:+ sexn_text e)
  end.

(** ** The factory *)

Section factory.
Context {W : Type} `{Net W} `{Streams W} `{Codecs} `{Dateutil} `{PydanticFields}.
Context (bytes_decode : string → list N → result string).
Implicit Types config : ConnectionConfig.

Definition create_sandbox_service config : Sandboxes W := sandboxes_adapter (lifecycle_client (W:=W) config).
Definition create_filesystem_service config (e : SandboxEndpoint) : Filesystem W := filesystem_adapter bytes_decode config e.
Definition create_command_service config (e : SandboxEndpoint) : Commands W := commands_adapter config e.
Definition create_egress_service config (e : SandboxEndpoint) : Egress W := egress_adapter (endpoint_client config e).
Definition create_health_service config (e : SandboxEndpoint) : Health W := health_adapter (endpoint_client config e).
Definition create_metrics_service config (e : SandboxEndpoint) : Metrics W := metrics_adapter (endpoint_client config e).
End factory.

(** ** A sandbox *)

(** The attributes of a [Sandbox] but for the health check of the user. *)
Record SandboxCore (W : Type) := {
  sb_id : string;
  sb_sandbox_service : Sandboxes W;
  sb_filesystem_service : Filesystem W;
  sb_command_service : Commands W;
  sb_health_service : Health W;
  sb_metrics_service : Metrics W;
  sb_egress_service : Egress W;
  sb_connection_config : ConnectionConfig }.
Arguments sb_id {W} _.
Arguments sb_sandbox_service {W} _.
Arguments sb_filesystem_service {W} _.
Arguments sb_command_service {W} _.
Arguments sb_health_service {W} _.
Arguments sb_metrics_service {W} _.
Arguments sb_egress_service {W} _.
Arguments sb_connection_config {W} _.

(** The health check of the user is a function of the sandbox. *)
Definition HealthCheck (W : Type) : Type := SandboxCore W → Sdk W bool.
Record SandboxHandle (W : Type) := {
  sb_core : SandboxCore W;
  sb_custom_health_check : option (HealthCheck W) }.
Arguments sb_core {W} _.
Arguments sb_custom_health_check {W} _.

(** How a loop of health checks ended; [CutOff]: after more rounds than the clock allows. *)
Inductive readiness := Healthy | TimedOut (attempt : Z) (last_exception : option sexn) | CutOff.

(** Rounds enough if every round takes the polling interval, or a microsecond at least. *)
Definition ready_fuel (timeout polling_interval : Z) : nat := Z.to_nat (timeout / Z.max 1 polling_interval) + 2.

Section sandbox.
Context {W : Type} `{Net W} `{Streams W} `{Codecs} `{Dateutil} `{PydanticFields}.
Context (bytes_decode : string → list N → result string).
Implicit Types sb : SandboxHandle W.

Definition files sb : Filesystem W := sb_filesystem_service (sb_core sb).
Definition commands sb : Commands W := sb_command_service (sb_core sb).
Definition metrics sb : Metrics W := sb_metrics_service (sb_core sb).
Definition sandbox_config sb : ConnectionConfig := sb_connection_config (sb_core sb).

Definition get_info sb : Sdk W SandboxInfo := ss_get_sandbox_info (sb_sandbox_service (sb_core sb)) (sb_id (sb_core sb)).
Definition get_endpoint sb (port : Z) : Sdk W SandboxEndpoint :=
  ss_get_sandbox_endpoint (sb_sandbox_service (sb_core sb)) (sb_id (sb_core sb)) port (cc_use_server_proxy (sandbox_config sb)).
Definition sandbox_metrics sb : Sdk W SandboxMetrics :=
  ms_get_metrics (sb_metrics_service (sb_core sb)) (sb_id (sb_core sb)).

(** [datetime.now(timezone.utc) + timeout] *)
Definition expiration_after (timeout : Z) : Sdk W datetime :=
  now ← now_us;
  match dt_add (utc (epoch_us + now)) timeout with
  | Some dt => mret dt
  | None => throw (PyError (PyException OverflowError "date value out of range"))
  end.

Definition renew sb (timeout : Z) : Sdk W SandboxRenewResponse :=
  new_expiration ← expiration_after timeout;
  ss_renew_sandbox_expiration (sb_sandbox_service (sb_core sb)) (sb_id (sb_core sb)) new_expiration.

Definition get_egress_policy sb : Sdk W NetworkPolicy := es_get_policy (sb_egress_service (sb_core sb)).
Definition patch_egress_rules sb (rules : list NetworkRule) : Sdk W unit :=
  es_patch_rules (sb_egress_service (sb_core sb)) rules.
Definition pause sb : Sdk W unit := ss_pause_sandbox (sb_sandbox_service (sb_core sb)) (sb_id (sb_core sb)).
Definition kill sb : Sdk W unit := ss_kill_sandbox (sb_sandbox_service (sb_core sb)) (sb_id (sb_core sb)).
Definition close sb : Sdk W unit := sdk_quietly (close_transport_if_owned (sandbox_config sb)).

(** [_ping] *)
Definition ping_sandbox sb : Sdk W bool :=
  sdk_try (hs_ping (sb_health_service (sb_core sb)) (sb_id (sb_core sb))) (λ _, mret false).

Definition is_healthy sb : Sdk W bool :=
  match sb_custom_health_check sb with
  | Some check => check (sb_core sb)
  | None => ping_sandbox sb
  end.

(** ** Waiting until the sandbox is ready *)

Fixpoint ready_loop sb (fuel : nat) (deadline polling_interval attempt : Z) (last_exception : option sexn) : Sdk W readiness :=
  match fuel with
  | O => mret CutOff
  | S f =>
      now ← now_us;
      if negb (now <? deadline)%Z then mret (TimedOut attempt last_exception) else
      r ← attempted (is_healthy sb);
      match r with
      | Return true => mret Healthy
      | Return false =>
          sleep_us polling_interval;;
          ready_loop sb f deadline polling_interval (attempt + 1) None
      | Throw e =>
          sleep_us polling_interval;;
          ready_loop sb f deadline polling_interval (attempt + 1) (Some e)
      end
  end.

(** The message of the exception; [cls] is the name of the configuration in the hint. *)
Definition connection_hint (cls : string) (use_server_proxy : bool) : string :=
  if use_server_proxy then
    "Hint: server proxy mode is enabled. Check server-to-sandbox connectivity and server API key/auth configuration."
  else
    "Hint: direct sandbox endpoint access is enabled. If the SDK cannot directly reach sandbox network/ports, set "
    +:+ cls +:+ "(use_server_proxy=True). For Docker bridge deployments where server runs in a container, also configure "
    +:+ "server [docker].host_ip to a host-reachable address.".

Definition ready_timeout_message (cls : string) (config : ConnectionConfig) (timeout attempt : Z)
    (last_exception : option sexn) : string :=
  let error_detail := match last_exception with
                      | Some e => "Last error: " +:+ sexn_text e
                      | None => "Health check returned false continuously"
                      end in
  let connection_detail := "ConnectionConfig(domain=" +:+ get_domain (W:=W) config +:+ ", use_server_proxy="
                           +:+ vstr (PBool (cc_use_server_proxy config)) +:+ ")" in
  "Sandbox health check timed out after " +:+ total_seconds_text timeout +:+ "s (" +:+ str_of_Z attempt +:+ " attempts). "
  +:+ error_detail +:+ ". " +:+ connection_detail +:+ ". " +:+ connection_hint cls (cc_use_server_proxy config).

(** [check_ready]; a loop that is cut off is a [RuntimeError] here. *)
Definition check_ready sb (timeout polling_interval : Z) : Sdk W unit :=
  now ← now_us;
  r ← ready_loop sb (ready_fuel timeout polling_interval) (now + timeout) polling_interval 0 None;
  match r with
  | Healthy => mret tt
  | TimedOut attempt last_exception =>
      raise_sandbox (sandbox_ready_timeout_exception
        (ready_timeout_message "ConnectionConfig" (sandbox_config sb) timeout attempt last_exception))
  | CutOff => throw (PyError (PyException RuntimeError "still waiting for the sandbox"))
  end.

(** ** Making a sandbox *)

(** The image is given as a text or as a specification. *)
Inductive image_arg := ImageText (s : string) | ImageSpec (i : SandboxImageSpec).

Record CreateArgs := {
  ca_image : image_arg; ca_timeout : option Z; ca_ready_timeout : Z; ca_env : option (dict string);
  ca_metadata : option (dict string); ca_resource : option (dict string); ca_network_policy : option NetworkPolicy;
  ca_extensions : option (dict string); ca_entrypoint : option (list string); ca_volumes : option (list Volume);
  ca_connection_config : option ConnectionConfig; ca_health_check : option (HealthCheck W);
  ca_health_check_polling_interval : Z; ca_skip_health_check : bool }.

(** The arguments that have defaults. *)
Definition create_args (image : image_arg) : CreateArgs := {|
  ca_image := image; ca_timeout := Some (600 * us_per_second)%Z; ca_ready_timeout := 30 * us_per_second; ca_env := None;
  ca_metadata := None; ca_resource := None; ca_network_policy := None; ca_extensions := None; ca_entrypoint := None;
  ca_volumes := None; ca_connection_config := None; ca_health_check := None; ca_health_check_polling_interval := 200000;
  ca_skip_health_check := false |}.

(** [value or default] of a list or a dictionary *)
Definition or_default {A} (o : option (list A)) (d : list A) : list A :=
  match o with Some ((_ :: _) as l) => l | _ => d end.

Definition image_of (i : image_arg) : outcome SandboxImageSpec :=
  match i with ImageText s => sandbox_image_spec s None | ImageSpec s => Return s end.

(** The constructor with the services of the two endpoints. *)
Definition sandbox_at (config : ConnectionConfig) (svc : Sandboxes W) (id : string)
    (execd_endpoint egress_endpoint : SandboxEndpoint) (check : option (HealthCheck W)) : SandboxHandle W := {|
  sb_core := {|
    sb_id := id; sb_sandbox_service := svc;
    sb_filesystem_service := create_filesystem_service bytes_decode config execd_endpoint;
    sb_command_service := create_command_service config execd_endpoint;
    sb_health_service := create_health_service config execd_endpoint;
    sb_metrics_service := create_metrics_service config execd_endpoint;
    sb_egress_service := create_egress_service config egress_endpoint;
    sb_connection_config := config |};
  sb_custom_health_check := check |}.

(** The end of [create], [connect] and [resume]: the endpoints, the services and the
    wait. *)
Definition initialised (config : ConnectionConfig) (svc : Sandboxes W) (id : string) (check : option (HealthCheck W))
    (timeout polling_interval : Z) (skip_health_check : bool) : Sdk W (SandboxHandle W) :=
  execd_endpoint ← ss_get_sandbox_endpoint svc id DEFAULT_EXECD_PORT (cc_use_server_proxy config);
  egress_endpoint ← ss_get_sandbox_endpoint svc id DEFAULT_EGRESS_PORT (cc_use_server_proxy config);
  let sandbox := sandbox_at config svc id execd_endpoint egress_endpoint check in
  (if negb skip_health_check then check_ready sandbox timeout polling_interval else mret tt);;
  mret sandbox.

(** The handler of [create]: the sandbox that was made is killed, the transport closed. *)
Definition kill_zombie (svc : Sandboxes W) (sandbox_id : option string) : Sdk W unit :=
  match sandbox_id with
  | Some ((String _ _) as id) => sdk_quietly (ss_kill_sandbox svc id)
  | _ => mret tt
  end.
Definition creation_failed (config : ConnectionConfig) (svc : Sandboxes W) (sandbox_id : option string) (e : sexn)
    : Sdk W (SandboxHandle W) :=
  kill_zombie svc sandbox_id;;
  close_transport_if_owned config;;
  raise_sandbox (reraised "Internal exception when creating sandbox: " e).

(** The call that makes the sandbox, with the defaults filled in. *)
Definition creation_call (a : CreateArgs) (svc : Sandboxes W) (image : SandboxImageSpec) : Sdk W SandboxCreateResponse :=
  ss_create_sandbox svc image (or_default (ca_entrypoint a) ["tail"; "-f"; "/dev/null"])
    (or_default (ca_env a) []) (or_default (ca_metadata a) []) (ca_timeout a)
    (or_default (ca_resource a) [("cpu", "1"); ("memory", "2Gi")]) (ca_network_policy a)
    (or_default (ca_extensions a) []) (ca_volumes a).

Definition create (a : CreateArgs) : Sdk W (SandboxHandle W) :=
  config ← with_transport_if_missing (default default_config (ca_connection_config a));
  image ← liftO (image_of (ca_image a));
  let svc := create_sandbox_service config in
  created ← attempted (creation_call a svc image);
  match created with
  | Throw e => creation_failed config svc None e
  | Return response =>
      sandbox ← attempted (initialised config svc (scr_id response) (ca_health_check a) (ca_ready_timeout a)
                             (ca_health_check_polling_interval a) (ca_skip_health_check a));
      match sandbox with
      | Return sb => mret sb
      | Throw e => creation_failed config svc (Some (scr_id response)) e
      end
  end.

(** The handler of [connect] and of [resume]. *)
Definition connection_failed (prefix : string) (config : ConnectionConfig) (e : sexn) : Sdk W (SandboxHandle W) :=
  close_transport_if_owned config;;
  raise_sandbox (reraised prefix e).

Record ConnectArgs := {
  co_sandbox_id : string; co_connection_config : option ConnectionConfig; co_health_check : option (HealthCheck W);
  co_timeout : Z; co_polling_interval : Z; co_skip_health_check : bool }.

Definition connect (a : ConnectArgs) : Sdk W (SandboxHandle W) :=
  if negb (truthy (co_sandbox_id a)) then raise_sandbox (invalid_argument_exception "Sandbox ID must be specified") else
  config ← with_transport_if_missing (default default_config (co_connection_config a));
  sdk_try
    (let svc := create_sandbox_service config in
     initialised config svc (co_sandbox_id a) (co_health_check a) (co_timeout a) (co_polling_interval a)
       (co_skip_health_check a))
    (connection_failed "Failed to connect to sandbox: " config).

Definition resume (a : ConnectArgs) : Sdk W (SandboxHandle W) :=
  if negb (truthy (co_sandbox_id a)) then raise_sandbox (invalid_argument_exception "Sandbox ID must be specified") else
  config ← with_transport_if_missing (default default_config (co_connection_config a));
  sdk_try
    (let svc := create_sandbox_service config in
     ss_resume_sandbox svc (co_sandbox_id a);;
     initialised config svc (co_sandbox_id a) (co_health_check a) (co_timeout a) (co_polling_interval a)
       (co_skip_health_check a))
    (connection_failed "Failed to resume sandbox: " config).

(** [async with sandbox: ...]: the sandbox is closed, whatever the body does. *)
Definition with_sandbox {A} sb (body : SandboxHandle W → Sdk W A) : Sdk W A :=
  r ← attempted (body sb);
  close sb;;
  liftO r.

(** ** The manager *)

Record SandboxManager := { mg_sandbox_service : Sandboxes W; mg_connection_config : ConnectionConfig }.
Implicit Types m : SandboxManager.

Definition manager_create (connection_config : option ConnectionConfig) : Sdk W SandboxManager :=
  config ← with_transport_if_missing (default default_config connection_config);
  mret {| mg_sandbox_service := create_sandbox_service config; mg_connection_config := config |}.

Definition manager_list_sandbox_infos m (f : SandboxFilter) : Sdk W PagedSandboxInfos := ss_list_sandboxes (mg_sandbox_service m) f.
Definition manager_get_sandbox_info m (id : string) : Sdk W SandboxInfo := ss_get_sandbox_info (mg_sandbox_service m) id.
Definition manager_kill_sandbox m (id : string) : Sdk W unit := ss_kill_sandbox (mg_sandbox_service m) id.
Definition manager_renew_sandbox m (id : string) (timeout : Z) : Sdk W SandboxRenewResponse :=
  new_expiration ← expiration_after timeout;
  ss_renew_sandbox_expiration (mg_sandbox_service m) id new_expiration.
Definition manager_pause_sandbox m (id : string) : Sdk W unit := ss_pause_sandbox (mg_sandbox_service m) id.
Definition manager_resume_sandbox m (id : string) : Sdk W unit := ss_resume_sandbox (mg_sandbox_service m) id.
Definition manager_close m : Sdk W unit := sdk_quietly (close_transport_if_owned (mg_connection_config m)).
End sandbox.
