(* ===== verification/SdkTrace.v ===== *)
(** * The Python client: what it does to the world

    Any world of the client with a trace beside it ([Traced]): the requests that were
    sent, the pauses, and the transports that were opened and closed, in order.  [emits P m]
    says that [m] adds only events of [P] to the trace; it is kept by everything that the
    adapters are built from. *)

From Stdlib Require Import Ascii.
From S2P Require Import Prelude PyString PyDict PyTime PyFloat Json PyVal SdkBase SdkModels SdkApi SdkConfig SdkAdapter SdkExecdApi SdkCommands SdkFiles SdkSandbox.
Open Scope string_scope.
Open Scope list_scope.

Inductive event := Sent (r : HttpRequest) | Opened (t : nat) | Closed (t : nat) | Slept (d : Z).

Definition Traced (W : Type) : Type := W * list event.

Section traced.
Context {W : Type}.

Definition record_event {A} (ev : event) (m : Sdk W A) : Sdk (Traced W) A := λ s,
  let '(r, w) := m s.1 in (r, (w, s.2 ++ [ev])).

#[global] Instance traced_net `{Net W} : Net (Traced W) := {|
  n_send r := record_event (Sent r) (n_send r);
  n_time s := let '(t, w) := n_time s.1 in (t, (w, s.2));
  n_sleep d s := (n_sleep d s.1, s.2 ++ [Slept d]);
  n_new_transport s := let '(t, w) := n_new_transport s.1 in (t, (w, s.2 ++ [Opened t]));
  n_close_transport t := record_event (Closed t) (n_close_transport t);
  n_getenv := n_getenv (W:=W) |}.

#[global] Instance traced_streams `{Streams W} : Streams (Traced W) := {|
  n_stream r := record_event (Sent r) (n_stream r) |}.
End traced.

(** Requests and pauses, and requests that only read. *)
Definition calm (e : event) : Prop := match e with Sent _ | Slept _ => True | Opened _ | Closed _ => False end.
Definition reading (e : event) : Prop :=
  match e with Sent r => hr_method r = "get" | Slept _ => True | Opened _ | Closed _ => False end.

Lemma reading_calm e : reading e → calm e.
Proof. by destruct e. Qed.

(** ** Adding events *)

Section emits.
Context {W : Type} `{Net W} `{Codecs}.

Definition emits {A} (P : event → Prop) (m : Sdk (Traced W) A) : Prop :=
  ∀ s r s', m s = (r, s') → ∃ l, s'.2 = s.2 ++ l ∧ Forall P l.

Lemma emits_pure {A} P (m : Sdk (Traced W) A) : (∀ s, (m s).2.2 = s.2) → emits P m.
Proof. intros Hm s r s' Hr. exists []. rewrite app_nil_r. split; [|done]. specialize (Hm s). by rewrite Hr in Hm. Qed.

Lemma emits_one {A} (P : event → Prop) ev (m : Sdk W A) : P ev → emits P (record_event ev m).
Proof.
  intros Hev s r s'. unfold record_event. destruct (m s.1). intros [= <- <-]. exists [ev]. split; [done|by constructor].
Qed.

Lemma emits_bind {A B} P (m : Sdk (Traced W) A) (k : A → Sdk (Traced W) B) :
  emits P m → (∀ a, emits P (k a)) → emits P (m ≫= k).
Proof.
  intros Hm Hk s r s'. unfold mbind, Sdk_bind. destruct (m s) as [[a|e] s1] eqn:E.
  - intros Hr. destruct (Hm _ _ _ E) as (l1&Hl1&HP1), (Hk _ _ _ _ Hr) as (l2&Hl2&HP2).
    exists (l1 ++ l2). by rewrite Hl2, Hl1, <-app_assoc, Forall_app.
  - intros [= <- <-]. by apply Hm in E.
Qed.

Lemma emits_try {A} P (m : Sdk (Traced W) A) h : emits P m → (∀ e, emits P (h e)) → emits P (sdk_try m h).
Proof.
  intros Hm Hh s r s'. unfold sdk_try. destruct (m s) as [[a|e] s1] eqn:E.
  - intros [= <- <-]. by apply Hm in E.
  - intros Hr. destruct (Hm _ _ _ E) as (l1&Hl1&HP1), (Hh _ _ _ _ Hr) as (l2&Hl2&HP2).
    exists (l1 ++ l2). by rewrite Hl2, Hl1, <-app_assoc, Forall_app.
Qed.

Lemma emits_ret {A} P (a : A) : emits P (mret a).
Proof. by apply emits_pure. Qed.
Lemma emits_liftO {A} P (r : outcome A) : emits P (liftO r).
Proof. by apply emits_pure. Qed.
Lemma emits_throw {A} P e : emits (A:=A) P (throw e).
Proof. by apply emits_pure. Qed.
Lemma emits_raise {A} P e : emits (A:=A) P (raise_sandbox e).
Proof. by apply emits_pure. Qed.
Lemma emits_now P : emits P now_us.
Proof. apply emits_pure. intros s. unfold now_us. cbn. by destruct (n_time s.1). Qed.

Lemma emits_attempted {A} P (m : Sdk (Traced W) A) : emits P m → emits P (attempted m).
Proof. intros Hm s r s'. unfold attempted. destruct (m s) eqn:E. intros [= <- <-]. by apply Hm in E. Qed.

Lemma emits_sleep (P : event → Prop) d : P (Slept d) → emits P (sleep_us d).
Proof. intros Hd s r s' [= <- <-]. exists [Slept d]. split; [done|by constructor]. Qed.

Lemma emits_converting {A} P (m : Sdk (Traced W) A) : emits P m → emits P (converting m).
Proof. intros Hm. apply emits_try; [done|]. intros e. apply emits_raise. Qed.

Lemma emits_detailed {T} (P : event → Prop) c kw (parse : ApiClient → HttpResponse → outcome (option (Parsed T))) :
  P (Sent (client_request c kw)) → emits P (detailed c kw parse).
Proof. intros Hk. apply emits_bind; [by apply emits_one|intros; apply emits_liftO]. Qed.

Lemma emits_weaken {A} (P Q : event → Prop) (m : Sdk (Traced W) A) : (∀ e, P e → Q e) → emits P m → emits Q m.
Proof. intros HPQ Hm s r s' Hr. apply Hm in Hr as (l&->&HP). exists l. split; [done|]. by eapply Forall_impl. Qed.

(** A call of the generated client is one request, whatever comes back. *)
Lemma detailed_sends {T} c kw (parse : ApiClient → HttpResponse → outcome (option (Parsed T))) s r s' :
  detailed c kw parse s = (r, s') → s'.2 = s.2 ++ [Sent (client_request c kw)].
Proof.
  unfold detailed, mbind, Sdk_bind, liftO. cbn [n_send traced_net]. unfold record_event.
  destruct (n_send _ s.1) as [[]]; by intros [= <- <-].
Qed.
End emits.

Create HintDb emits.
#[export] Hint Resolve emits_ret emits_liftO emits_throw emits_raise emits_now emits_one emits_bind emits_try emits_attempted emits_converting emits_detailed emits_sleep : emits.

(** Takes a call apart into its steps. *)
Ltac emit_steps :=
  repeat match goal with
  | |- emits _ (sdk_try _ _) => apply emits_try
  | |- emits _ (converting _) => apply emits_converting
  | |- emits _ (mbind _ _) => apply emits_bind
  | |- emits _ (match ?x with _ => _ end) => destruct x
  | |- emits _ _ => solve [auto with emits]
  | |- ∀ _, _ => intros ?
  end.
