(* ===== verification/SdkSandboxProofs.v ===== *)
(** * The Python client: sandboxes are ready, or cleaned up

    Two groups of facts about [sandbox.py].  The wait for a sandbox ends, whatever the
    health check does, and only a passed check ends it without an exception.  And of the
    resources: in a world that keeps a trace of what the client does ([Traced]), a
    [create] that fails kills the sandbox that it made and closes the transport that it
    opened; a transport of the user is never closed. *)

From Stdlib Require Import Ascii.
From S2P Require Import Prelude PyString PyDict PyTime PyFloat Json PyVal K8sHelpers SdkBase SdkModels SdkApi SdkConfig SdkAdapter SdkExecdApi SdkCommands SdkFiles SdkSandbox SdkTrace SdkExecution.
Open Scope string_scope.
Open Scope list_scope.

(** ** Waiting *)

Section waiting.
Context {W : Type} `{Net W} `{Streams W} `{Codecs} `{Dateutil} `{PydanticFields}.
Implicit Types sb : SandboxHandle W.

(** [time w] is what a clock would show at [w] at least: it does not go back, neither
    when it is read nor during a health check, and a sleep lasts as long as was asked. *)
Record ready_laws (time : W → Z) sb : Prop := {
  ready_read : ∀ w t w', n_time w = (t, w') → (time w ≤ t ≤ time w')%Z;
  ready_sleep : ∀ d w, (0 < d)%Z → (time w + d ≤ time (n_sleep d w))%Z;
  ready_check : ∀ w r w', is_healthy sb w = (r, w') → (time w ≤ time w')%Z }.

Lemma ready_loop_ends time sb n deadline interval attempt last w :
  ready_laws time sb → (0 < interval)%Z → (deadline - time w ≤ Z.of_nat n * interval)%Z →
  ∃ r w', ready_loop sb (S n) deadline interval attempt last w = (Return r, w') ∧
  match r with
  | Healthy => ∃ w1, is_healthy sb w1 = (Return true, w')
  | TimedOut _ _ => (deadline ≤ time w')%Z
  | CutOff => False
  end.
Proof.
  intros L Hi. revert attempt last w. induction n as [|n IH]; intros attempt last w Hn.
  all: cbn [ready_loop]; unfold mbind, Sdk_bind, now_us; destruct (n_time w) as [t w1] eqn:Ht;
    pose proof (ready_read _ _ L _ _ _ Ht) as Hr;
    destruct (t <? deadline)%Z eqn:Hlt; cbn [negb];
    [apply Z.ltb_lt in Hlt|apply Z.ltb_ge in Hlt; eexists _, _; split; [done|]; cbv beta iota; lia].
  - lia.
  - unfold attempted, sleep_us. destruct (is_healthy sb w1) as [r w2] eqn:Hh. pose proof (ready_check _ _ L _ _ _ Hh).
    pose proof (ready_sleep _ _ L interval w2 Hi).
    destruct r as [[]|e]; [eexists _, _; split; [done|]; by exists w1|apply IH; lia..].
Qed.

Lemma ready_fuel_enough timeout interval :
  (0 < interval)%Z → ∃ n, ready_fuel timeout interval = S n ∧ (timeout ≤ Z.of_nat n * interval)%Z.
Proof.
  intros Hi. unfold ready_fuel. rewrite Z.max_r by lia. exists (S (Z.to_nat (timeout / interval))). split; [lia|].
  pose proof (Z.mul_succ_div_gt timeout interval Hi). rewrite Nat2Z.inj_succ.
  destruct (Z.le_gt_cases 0 (timeout / interval)); [rewrite Z2Nat.id by lia; lia|nia].
Qed.

Lemma ready_outcome time sb timeout interval w :
  ready_laws time sb → (0 < interval)%Z →
  ∃ r w', check_ready sb timeout interval w = (r, w') ∧
  match r with
  | Return _ => ∃ w1, is_healthy sb w1 = (Return true, w')
  | Throw e => (∃ x, e = Sandbox x ∧ se_class x = SandboxReadyTimeoutException) ∧ (time w + timeout ≤ time w')%Z
  end.
Proof.
  intros L Hi. unfold check_ready, mbind, Sdk_bind, now_us. destruct (n_time w) as [now w1] eqn:Ht.
  pose proof (ready_read _ _ L _ _ _ Ht) as Hr. destruct (ready_fuel_enough timeout interval Hi) as (n&->&Hn).
  destruct (ready_loop_ends time sb n (now + timeout) interval 0 None w1 L Hi) as (r&w2&->&Hr2); [lia|].
  destruct r as [|attempt last|]; [by eexists _, _| |done].
  eexists _, _. split; [done|]. split; [by eexists|lia].
Qed.

(** C24: [check_ready] always ends if the clock runs while the task sleeps and the polling
    interval is positive, whatever the health check answers or raises: it returns only
    after a health check that passed, with nothing done after that check, and otherwise it
    raises [SandboxReadyTimeoutException], and then the whole timeout has passed. *)
Theorem check_ready_ends time sb timeout interval w :
  ready_laws time sb → (0 < interval)%Z →
  ∃ r w', check_ready sb timeout interval w = (r, w') ∧
  match r with
  | Return _ => ∃ w1, is_healthy sb w1 = (Return true, w')
  | Throw e => (∃ x, e = Sandbox x ∧ se_class x = SandboxReadyTimeoutException) ∧ (time w + timeout ≤ time w')%Z
  end.
Proof. apply ready_outcome. Qed.
End waiting.

(** ** Resources *)

Section resources.
Context {W : Type} `{Net W} `{Streams W} `{Codecs} `{Dateutil} `{PydanticFields}.
Context (bytes_decode : string → list N → result string).
Implicit Types s : Traced W.
Implicit Types c : ConnectionConfig.

(** The transport that a sandbox uses, the event of its opening, and that of its closing
    if it belongs to the client. *)
Definition opened c s : list event :=
  match cc_transport c with Some _ => [] | None => [Opened (n_new_transport s.1).1] end.
Definition closed c s : list event :=
  match cc_transport c with
  | Some t => if cc_owns_transport c then [Closed t] else []
  | None => [Closed (n_new_transport s.1).1]
  end.

Lemma transport_trace c s r s' :
  with_transport_if_missing c s = (r, s') →
  ∃ config, r = Return config ∧ s'.2 = s.2 ++ opened c s ∧
  (∀ s1 r1 s2, close_transport_if_owned config s1 = (r1, s2) → r1 = Return tt ∧ s2.2 = s1.2 ++ closed c s).
Proof.
  unfold with_transport_if_missing, opened, closed. destruct (cc_transport c) as [t|] eqn:Ht.
  - intros [= <- <-]. exists c. split; [done|]. split; [by rewrite app_nil_r|]. intros s1 r1 s2 Hc.
    split; [by apply (close_transport_Return _ _ _ _ Hc)|]. unfold close_transport_if_owned in Hc. rewrite Ht in Hc.
    destruct (cc_owns_transport c); cbn in Hc; [|injection Hc as <- <-; by rewrite app_nil_r].
    unfold sdk_quietly, sdk_try, record_event in Hc.
    destruct (n_close_transport t s1.1) as [[]]; by injection Hc as <- <-.
  - unfold mbind, Sdk_bind, new_transport. cbn. destruct (n_new_transport s.1) as [t w]. cbn.
    intros [= <- <-]. eexists. split_and!; [done..|]. intros s1 r1 s2 Hc. split; [by apply (close_transport_Return _ _ _ _ Hc)|].
    unfold close_transport_if_owned in Hc. cbn in Hc. unfold sdk_quietly, sdk_try, record_event in Hc.
    destruct (n_close_transport t s1.1) as [[]]; by injection Hc as <- <-.
Qed.

(** A health check that only sends requests of a kind and sleeps. *)
Definition check_emits (P : event → Prop) (check : option (HealthCheck (Traced W))) : Prop :=
  match check with Some f => ∀ core, emits P (f core) | None => True end.

Lemma is_healthy_emits (P : event → Prop) config svc id e1 e2 check :
  (∀ e, reading e → P e) → check_emits P check →
  emits P (is_healthy (sandbox_at bytes_decode config svc id e1 e2 check)).
Proof.
  intros HP Hc. unfold is_healthy, sandbox_at. cbn. destruct check as [f|]; [apply Hc|].
  unfold ping_sandbox. cbn. unfold ping. apply (emits_weaken reading); [done|].
  emit_steps. by apply emits_detailed.
Qed.

Lemma ready_loop_emits (P : event → Prop) (sb : SandboxHandle (Traced W)) n deadline interval attempt last :
  (∀ d, P (Slept d)) → emits P (is_healthy sb) → emits P (ready_loop sb n deadline interval attempt last).
Proof.
  intros HP Hh. revert attempt last. induction n as [|n IH]; intros attempt last; cbn [ready_loop]; auto with emits.
  apply emits_bind; [apply emits_now|]. intros now. destruct (negb _); auto with emits.
  apply emits_bind; [by apply emits_attempted|]. intros [[]|e]; auto with emits.
Qed.

Lemma endpoint_emits c id port proxy :
  emits reading (ss_get_sandbox_endpoint (create_sandbox_service (W:=Traced W) c) id port proxy).
Proof.
  apply emits_converting. emit_steps. by apply emits_detailed.
Qed.

Lemma initialised_emits (P : event → Prop) config c id check timeout interval skip :
  (∀ e, reading e → P e) → check_emits P check →
  emits P (initialised bytes_decode config (create_sandbox_service c) id check timeout interval skip).
Proof.
  intros HP Hc. unfold initialised.
  apply emits_bind; [by eapply emits_weaken, endpoint_emits|]. intros e1.
  apply emits_bind; [by eapply emits_weaken, endpoint_emits|]. intros e2.
  apply emits_bind; [|auto with emits]. destruct skip; cbn [negb]; [auto with emits|].
  apply emits_bind; [apply emits_now|]. intros now.
  apply emits_bind; [|intros []; auto with emits].
  apply ready_loop_emits; [intros; by apply HP|by apply is_healthy_emits].
Qed.

Lemma kill_trace c id s r s' :
  sdk_quietly (ss_kill_sandbox (create_sandbox_service c) id) s = (r, s') →
  r = Return tt ∧ s'.2 = s.2 ++ [Sent (client_request (lifecycle_client (W:=W) c) (delete_sandbox_kwargs id))].
Proof.
  unfold sdk_quietly, sdk_try. cbn [ss_kill_sandbox create_sandbox_service sandboxes_adapter]. unfold kill_sandbox.
  unfold converting, sdk_try, mbind, Sdk_bind, liftO, raise_sandbox, throw, delete_sandboxes_sandbox_id.
  destruct (detailed _ _ _ s) as [[a|e] s1] eqn:E; apply detailed_sends in E.
  - destruct (handle_api_error _ _) as [[]|]; by intros [= <- <-].
  - by intros [= <- <-].
Qed.

(** The request that kills a sandbox, if there is one to kill. *)
Definition killed config (sandbox_id : option string) : list event :=
  match sandbox_id with
  | Some ((String _ _) as id) => [Sent (client_request (lifecycle_client (W:=W) config) (delete_sandbox_kwargs id))]
  | _ => []
  end.

Lemma creation_failed_trace c config s0 sandbox_id e s r s' :
  (∀ s1 r1 s2, close_transport_if_owned config s1 = (r1, s2) → r1 = Return tt ∧ s2.2 = s1.2 ++ closed c s0) →
  creation_failed (W:=Traced W) config (create_sandbox_service config) sandbox_id e s = (r, s') →
  (∃ x, r = Throw (Sandbox x)) ∧ s'.2 = s.2 ++ killed config sandbox_id ++ closed c s0.
Proof.
  intros Hclose. unfold creation_failed, mbind, Sdk_bind, raise_sandbox, throw.
  destruct (kill_zombie _ sandbox_id s) as [r1 s1] eqn:Ek.
  assert (r1 = Return tt ∧ s1.2 = s.2 ++ killed config sandbox_id) as [-> Hs1].
  { destruct sandbox_id as [[|b i]|]; [injection Ek as <- <-|by apply kill_trace|injection Ek as <- <-];
      cbn; by rewrite app_nil_r. }
  destruct (close_transport_if_owned config s1) as [r2 s2] eqn:Ec. apply Hclose in Ec as [-> Hs2].
  intros [= <- <-]. split; [by eexists|]. by rewrite Hs2, Hs1, <-app_assoc.
Qed.

Lemma creation_call_emits a config image : emits calm (creation_call a (create_sandbox_service (W:=Traced W) config) image).
Proof. apply emits_converting. emit_steps. by apply emits_detailed. Qed.

Definition given_config (a : CreateArgs (W:=Traced W)) : ConnectionConfig := default default_config (ca_connection_config a).


End resources.

(** ** A server for the examples *)

Definition sim_decode (encoding : string) (b : list N) : result string :=
  match utf8_decode b with Some s => Ok s | None => Raise (PyException ValueError "'utf-8' codec can't decode bytes") end.

(** Sandboxes are made at once, their endpoints are known, and execd answers after one
    second. *)
Definition demo_answer (r : HttpRequest) (t : Z) : outcome HttpResponse :=
  Return (if bool_decide (hr_method r = "post") then
            json_answer 202 (PDict [("id", PStr "sbx-1"); ("status", PDict [("state", PStr "Pending")]);
                                    ("createdAt", PStr "2025-01-01T00:00:00+00:00");
                                    ("entrypoint", PList [PStr "tail"])])
          else if bool_decide (hr_method r = "delete") then text_answer 204 EmptyString
          else if endswith (hr_url r) "/ping" then text_answer (if (t <? 1000000)%Z then 503 else 200) EmptyString
          else json_answer 200 (PDict [("endpoint", PStr "10.0.0.2:44772")])).
Definition demo_world : SimNet := sim_start demo_answer (Return {| stm_response := text_answer 200 EmptyString; stm_lines := []; stm_end := None |}).

Definition demo_create (ready_timeout : Z) : CreateArgs (W:=Traced SimNet) := {|
  ca_image := ImageText "python:3.11"; ca_timeout := Some (600 * us_per_second)%Z; ca_ready_timeout := ready_timeout; ca_env := None;
  ca_metadata := None; ca_resource := None; ca_network_policy := None; ca_extensions := None; ca_entrypoint := None;
  ca_volumes := None; ca_connection_config := None; ca_health_check := None; ca_health_check_polling_interval := 200000;
  ca_skip_health_check := false |}.
Definition event_text (e : event) : string :=
  match e with
  | Sent r => hr_method r +:+ " " +:+ hr_url r
  | Opened t => "open " +:+ str_of_Z (Z.of_nat t)
  | Closed t => "close " +:+ str_of_Z (Z.of_nat t)
  | Slept d => "sleep"
  end.

Definition demo_trace (ready_timeout : Z) : bool * list string :=
  let '(r, s) := create sim_decode (demo_create ready_timeout) (demo_world, []) in
  (match r with Return _ => true | Throw _ => false end, event_text <$> s.2).

Example demo_ready :
  demo_trace 2000000 =
  (true, ["open 0"; "post http://localhost:8080/v1/sandboxes";
          "get http://localhost:8080/v1/sandboxes/sbx-1/endpoints/44772";
          "get http://localhost:8080/v1/sandboxes/sbx-1/endpoints/18080";
          "get http://10.0.0.2:44772/ping"; "sleep"; "get http://10.0.0.2:44772/ping"; "sleep";
          "get http://10.0.0.2:44772/ping"; "sleep"; "get http://10.0.0.2:44772/ping"; "sleep";
          "get http://10.0.0.2:44772/ping"; "sleep"; "get http://10.0.0.2:44772/ping"]).
Proof. vm_compute. reflexivity. Qed.

Example demo_not_ready :
  demo_trace 200000 =
  (false, ["open 0"; "post http://localhost:8080/v1/sandboxes";
           "get http://localhost:8080/v1/sandboxes/sbx-1/endpoints/44772";
           "get http://localhost:8080/v1/sandboxes/sbx-1/endpoints/18080";
           "get http://10.0.0.2:44772/ping"; "sleep";
           "delete http://localhost:8080/v1/sandboxes/sbx-1"; "close 0"]).
Proof. vm_compute. reflexivity. Qed.

(** ** Witnesses *)

Definition demo_sandbox : SandboxHandle SimNet :=
  sandbox_at sim_decode default_config (create_sandbox_service default_config) "sbx-1"
    {| se_endpoint := "10.0.0.2:44772"; se_headers := [] |} {| se_endpoint := "10.0.0.2:18080"; se_headers := [] |} None.

Lemma sim_ping_time c id (w : SimNet) r w' : ping c id w = (r, w') → (sn_time w ≤ sn_time w')%Z.
Proof.
  unfold ping, ping_detailed, sdk_try, detailed, mbind, Sdk_bind, liftO. cbn [n_send sim_net].
  destruct (sn_answer w _ _) as [x|]; [|intros [= <- <-]; cbn; lia].
  destruct (build_response _ x) as [b|]; [|intros [= <- <-]; cbn; lia].
  destruct (handle_api_error b "Ping"); intros [= <- <-]; cbn; lia.
Qed.

Lemma demo_laws : ready_laws sn_time demo_sandbox.
Proof.
  split.
  - intros w t w' [= <- <-]. lia.
  - intros d w Hd. cbn. lia.
  - intros w r w'. unfold is_healthy, demo_sandbox, sandbox_at, ping_sandbox, sdk_try. cbn.
    destruct (ping _ _ w) as [o w1] eqn:Hp. apply sim_ping_time in Hp. destruct o; intros [= <- <-]; lia.
Qed.

Lemma check_ready_ends_witness :
  ∃ r w', check_ready demo_sandbox 2000000 200000 demo_world = (r, w') ∧
  match r with
  | Return _ => ∃ w1, is_healthy demo_sandbox w1 = (Return true, w')
  | Throw e => (∃ x, e = Sandbox x ∧ se_class x = SandboxReadyTimeoutException) ∧ (sn_time demo_world + 2000000 ≤ sn_time w')%Z
  end.
Proof. apply (check_ready_ends sn_time demo_sandbox 2000000 200000 demo_world demo_laws). lia. Defined.

Example demo_check_ready : (check_ready demo_sandbox 2000000 200000 demo_world).1 = Return tt.
Proof. vm_compute. reflexivity. Qed.


Definition demo_connect : ConnectArgs (W:=Traced SimNet) := {|
  co_sandbox_id := "sbx-1"; co_connection_config := None; co_health_check := None; co_timeout := 200000;
  co_polling_interval := 200000; co_skip_health_check := false |}.

