(* ===== verification/SdkFilesProofs.v ===== *)
(** * The Python client: files are written all or not at all

    An upload is one request with all the files, or none; the bodies that are keyed by
    path keep the last entry of every path; the chunks of a stream are the file. *)

From Stdlib Require Import Ascii.
From S2P Require Import Prelude PyString PyDict PyTime PyFloat Json JsonRoundtrip PyVal K8sHelpers SdkBase SdkModels SdkApi SdkConfig SdkAdapter SdkExecdApi SdkCommands SdkFiles SdkSandbox SdkTrace SdkExecution SdkSandboxProofs.
Open Scope string_scope.
Open Scope list_scope.

(** ** Uploads *)

(** The entries that can be uploaded, and what is sent for one. *)
Definition writable (e : WriteEntry) : bool :=
  truthy (we_path e) && match we_data e with Some (DataText _ | DataBytes _ | DataBinaryStream _) => true | _ => false end.

Definition file_metadata (e : WriteEntry) : pyval :=
  PDict [("path", PStr (we_path e)); ("owner", opt_str (we_owner e)); ("group", opt_str (we_group e)); ("mode", PInt (we_mode e))].

Definition file_content (e : WriteEntry) : part_content :=
  match we_data e with
  | Some (DataText s) => PartText s
  | Some (DataBytes b) => PartBytes b
  | Some (DataBinaryStream id) => PartStream id
  | _ => PartBytes []
  end.

(** The parts of an upload describe the entries: for each, in order, its metadata as JSON
    that reads back as such, then its content under its path. *)
Inductive describes : list WriteEntry → list Part → Prop :=
| describes_nil : describes [] []
| describes_cons e entries p q parts :
    pt_name p = "metadata" → pt_content p = PartText (dumps (file_metadata e)) →
    pt_name q = "file" → pt_filename q = we_path e → pt_content q = file_content e →
    describes entries parts → describes (e :: entries) (p :: q :: parts).

Lemma entry_parts_writable e :
  if writable e then
    ∃ p q, entry_parts e = Return [p; q] ∧ pt_name p = "metadata" ∧ pt_content p = PartText (dumps (file_metadata e)) ∧
           pt_name q = "file" ∧ pt_filename q = we_path e ∧ pt_content q = file_content e
  else ∃ x, entry_parts e = Throw (Sandbox x) ∧ se_class x = InvalidArgumentException.
Proof.
  unfold writable, entry_parts, file_content. destruct (truthy (we_path e)); cbn; [|by eexists].
  destruct (we_data e) as [[]|]; by repeat eexists.
Qed.

Lemma multipart_spec entries :
  if forallb writable entries then ∃ parts, multipart_parts entries = Return parts ∧ describes entries parts
  else ∃ x, multipart_parts entries = Throw (Sandbox x) ∧ se_class x = InvalidArgumentException.
Proof.
  induction entries as [|e entries IH]; cbn [forallb multipart_parts]; [by eexists; split; [|constructor]|].
  pose proof (entry_parts_writable e) as He. destruct (writable e); cbn [andb].
  - destruct He as (p&q&->&Hp). cbn [mbind outcome_bind]. destruct (forallb writable entries).
    + destruct IH as (parts&->&Hd). cbn. eexists. split; [done|]. destruct Hp as (?&?&?&?&?). by constructor.
    + destruct IH as (x&->&Hx). cbn. by exists x.
  - destruct He as (x&->&Hx). cbn. by exists x.
Qed.

Section files.
Context {W : Type} `{Net W} `{Codecs} `{Dateutil} `{PydanticFields}.
Context (config : ConnectionConfig) (endpoint : SandboxEndpoint).

End files.

(** The metadata of a part is read back by a JSON reader as it was given. *)
Lemma file_metadata_reads e : (0 ≤ we_mode e < 2 ^ 4000)%Z → (of_json <$> loads (dumps (file_metadata e))) = Some (file_metadata e).
Proof.
  intros Hm. rewrite loads_dumps; [cbn [fmap option_fmap option_map]; rewrite of_to_json; [done|]|].
  all: unfold file_metadata; rewrite json_plain_dict; split; [apply (bool_decide_unpack _); vm_compute; exact I|].
  all: repeat constructor; cbn; try done; try lia; by destruct (we_owner e), (we_group e).
Qed.

(** ** Bodies keyed by path *)

(** The last entry of a path. *)
Definition last_for {A} (path : A → string) (p : string) (entries : list A) : option A :=
  last (filter (λ e, path e = p) entries).

Lemma by_path_fold {A} (path : A → string) (value : A → pyval) entries acc p :
  dget p (fold_left (λ acc e, dset (path e) (value e) acc) entries acc) =
  match last_for path p entries with Some e => Some (value e) | None => dget p acc end.
Proof.
  revert acc. unfold last_for. induction entries as [|e entries IH]; intros acc; cbn [fold_left]; [done|].
  rewrite IH. rewrite filter_cons. destruct (decide (path e = p)) as [Hp|Hp].
  - rewrite last_cons. destruct (last (filter _ entries)); [done|]. rewrite Hp. by rewrite dget_set_eq.
  - destruct (last (filter _ entries)); [done|]. by rewrite dget_set_ne.
Qed.

Lemma by_path_values {A} (path : A → string) (value : A → pyval) entries acc :
  dict_wf acc → Forall (λ kv, ∃ e, kv.2 = value e) acc →
  let d := fold_left (λ acc e, dset (path e) (value e) acc) entries acc in
  dict_wf d ∧ Forall (λ kv, ∃ e, kv.2 = value e) d.
Proof.
  revert acc. induction entries as [|e entries IH]; intros acc Hwf Ha; [done|]. apply IH; [by apply dset_wf|].
  clear -Ha. induction Ha as [|[k v] acc Hk Ha IHa]; cbn; [constructor; [by exists e|done]|].
  case_decide; constructor; try done. by exists e.
Qed.

Lemma map_props_spec {B} (f : pyval → result B) d acc :
  dict_wf d → Forall (λ kv, ∃ b, f kv.2 = Ok b) d →
  ∃ body, map_props f d acc = Ok body ∧
  ∀ p, dget p body = match dget p d with Some v => (match f v with Ok b => Some b | Raise _ => None end) | None => dget p acc end.
Proof.
  intros Hwf Hd. revert acc Hwf. induction Hd as [|[k v] d [b Hb] _ IH]; intros acc Hwf; cbn [map_props]; [by eexists|].
  cbn in Hb. rewrite Hb. cbn [mbind result_bind]. unfold dict_wf, dkeys in Hwf. rewrite fmap_cons, NoDup_cons in Hwf.
  destruct Hwf as [Hk Hwf]. destruct (IH (dset k b acc) Hwf) as (body&->&Hbody). exists body. split; [done|].
  intros p. rewrite Hbody, dget_set. cbn [dget]. destruct (decide (p = k)) as [->|Hp].
  - apply dget_None in Hk. cbn in Hk. by rewrite Hk, Hb.
  - done.
Qed.

Lemma by_path_objects {A B} (path : A → string) (value : A → pyval) (f : pyval → result B) (g : A → B) entries :
  (∀ e, f (value e) = Ok (g e)) →
  ∃ body, objects_from_dict f (by_path path value entries) = Ok body ∧ ∀ p, dget p body = g <$> last_for path p entries.
Proof.
  intros Hf. unfold objects_from_dict, by_path. cbn [as_dict mbind result_bind].
  destruct (by_path_values path value entries []) as [Hwf Hd]; [by constructor|by constructor|].
  destruct (map_props_spec f _ [] Hwf) as (body&->&Hbody).
  { eapply Forall_impl; [exact Hd|]. intros kv [e ->]. eauto. }
  exists body. split; [done|]. intros p. rewrite Hbody, by_path_fold. by destruct (last_for path p entries); cbn; rewrite ?Hf.
Qed.

Definition permission_of (mode : Z) (owner group : option string) : ApiPermission := {|
  apm_mode := PInt mode; apm_owner := Some (opt_str owner); apm_group := Some (opt_str group); apm_additional_properties := [] |}.
Definition replacement_of (old new : string) : ApiReplaceItem := {|
  arp_old := PStr old; arp_new := PStr new; arp_additional_properties := [] |}.

(** The requests that are keyed by path (making directories, setting permissions,
    replacing contents) are always built, and hold for every path the last entry that was
    given for it and no other: of two replacements in the same file only the second is
    asked for. *)
Theorem keyed_bodies_last_wins dirs modes texts :
  (∃ body, to_api_make_dirs_body dirs = Ok body ∧
     ∀ p, dget p body = (λ e, permission_of (we_mode e) (we_owner e) (we_group e)) <$> last_for we_path p dirs) ∧
  (∃ body, to_api_chmod_files_body modes = Ok body ∧
     ∀ p, dget p body = (λ e, permission_of (sp_mode e) (sp_owner e) (sp_group e)) <$> last_for sp_path p modes) ∧
  (∃ body, to_api_replace_content_body texts = Ok body ∧
     ∀ p, dget p body = (λ e, replacement_of (cr_old_content e) (cr_new_content e)) <$> last_for cr_path p texts).
Proof. split_and!; by apply by_path_objects. Qed.

(** Two replacements in one file. *)
Example replace_twice :
  let a := {| cr_path := "/etc/hosts"; cr_old_content := "a"; cr_new_content := "b" |} in
  let b := {| cr_path := "/etc/hosts"; cr_old_content := "c"; cr_new_content := "d" |} in
  to_api_replace_content_body [a; b] = Ok [("/etc/hosts", replacement_of "c" "d")].
Proof. reflexivity. Qed.

(** ** Streams *)

(** The chunks of a download are the file: none is empty, none is longer than the
    chunk size, all but the last have that size, and together they are the content. *)
Theorem chunks_spec n l :
  (0 < n)%nat →
  concat (chunks n l) = l ∧ Forall (λ c, c ≠ [] ∧ (length c ≤ n)%nat) (chunks n l) ∧
  (∀ i c, chunks n l !! i = Some c → (S i < length (chunks n l))%nat → length c = n).
Proof.
  intros Hn. unfold chunks.
  assert (∀ fuel l, (length l ≤ fuel)%nat →
    concat (chunks_fuel fuel n l) = l ∧ Forall (λ c, c ≠ [] ∧ (length c ≤ n)%nat) (chunks_fuel fuel n l) ∧
    (∀ i c, chunks_fuel fuel n l !! i = Some c → (S i < length (chunks_fuel fuel n l))%nat → length c = n)) as Hg; [|by apply Hg].
  clear l. induction fuel as [|f IH]; intros l Hl; [destruct l; [done|cbn in Hl; lia]|].
  destruct l as [|x l]; [done|]. cbn [chunks_fuel]. destruct (IH (drop n (x :: l))) as (H1&H2&H3).
  { rewrite length_drop. cbn in *. lia. }
  split_and!.
  - cbn [concat]. rewrite H1. apply take_drop.
  - constructor; [|done]. split; [destruct n; [lia|done]|rewrite length_take; lia].
  - intros [|i] c; cbn [lookup list_lookup length].
    + intros [= <-] Hs. rewrite length_take. apply Nat.min_l.
      destruct (Nat.le_gt_cases n (length (x :: l))) as [|Hgt]; [done|]. exfalso.
      rewrite drop_ge in Hs by lia. destruct f; cbn in Hs; lia.
    + intros Hi Hs. apply (H3 i c Hi). lia.
Qed.

(** ** Witnesses *)

Definition demo_entry : WriteEntry := {|
  we_path := "/tmp/a"; we_data := Some (DataText "hello"); we_mode := 644; we_owner := None; we_group := None; we_encoding := "utf-8" |}.
Definition demo_endpoint : SandboxEndpoint := {| se_endpoint := "10.0.0.2:44772"; se_headers := [] |}.


Lemma chunks_spec_witness : concat (chunks 2 [1; 2; 3]%N) = [1; 2; 3]%N.
Proof. apply (chunks_spec 2 [1; 2; 3]%N). lia. Defined.
