(* ===== verification/SdkSync.v ===== *)
(** * The Python client: the adapters of the blocking client
      ([opensandbox/sync/adapters/*.py], [sync/adapters/converter/execution_event_dispatcher.py],
      [config/connection_sync.py])

    The blocking client is written out a second time in the source; so it is here.  A
    blocking call and an awaited one are the same kind of step of the world.  The fields
    of [ConnectionConfigSync] are those of [ConnectionConfig]; the transports are those of
    the blocking httpx. *)

From Stdlib Require Import Ascii.
From S2P Require Import Prelude PyString PyDict PyTime PyFloat Json PyVal SdkBase SdkModels SdkApi SdkConfig SdkAdapter SdkExecdApi SdkCommands SdkFiles.
Open Scope string_scope.
Open Scope list_scope.

(** ** The configuration *)

Definition ConnectionConfigSync : Type := ConnectionConfig.

Definition connection_config_sync `{Codecs} (a : ConfigArgs) : outcome ConnectionConfigSync :=
  validated "ConnectionConfigSync"
    [(protocol_valid (ca_protocol a), "Protocol must be 'http' or 'https'");
     (timeout_positive (ca_request_timeout a), "Request timeout must be positive")]
    {| cc_api_key := ca_api_key a; cc_domain := ca_domain a; cc_protocol := lower (ca_protocol a);
       cc_request_timeout := ca_request_timeout a; cc_debug := ca_debug a; cc_user_agent := ca_user_agent a;
       cc_headers := ca_headers a; cc_transport := default None (ca_transport a);
       cc_use_server_proxy := ca_use_server_proxy a;
       cc_owns_transport := match ca_transport a with Some _ => false | None => true end |}.

Section config.
Context {W : Type} `{Net W}.
Implicit Types c : ConnectionConfigSync.

Definition with_transport_if_missing_sync c : Sdk W ConnectionConfigSync :=
  match cc_transport c with
  | Some _ => mret c
  | None => t ← new_transport; mret (with_owned_transport t c)
  end.

Definition close_transport_if_owned_sync c : Sdk W unit :=
  match cc_transport c with
  | None => mret tt
  | Some t => if negb (cc_owns_transport c) then mret tt else sdk_quietly (n_close_transport t)
  end.

Definition get_api_key_sync c : string := or_getenv (W:=W) (cc_api_key c) "OPEN_SANDBOX_API_KEY" EmptyString.
Definition get_domain_sync c : string := or_getenv (W:=W) (cc_domain c) "OPEN_SANDBOX_DOMAIN" "localhost:8080".
Definition get_base_url_sync c : string :=
  let domain := get_domain_sync c in
  if startswith domain "http://" || startswith domain "https://" then domain +:+ "/v1"
  else cc_protocol c +:+ "://" +:+ domain +:+ "/v1".

(** [SandboxesAdapterSync.__init__] *)
Definition lifecycle_client_sync c : ApiClient :=
  let api_key := get_api_key_sync c in
  let headers := dupdate [("User-Agent", cc_user_agent c)] (cc_headers c) in
  {| ac_base_url := get_base_url_sync c;
     ac_headers := if truthy api_key then dset "OPEN-SANDBOX-API-KEY" api_key headers else headers;
     ac_raise_on_unexpected_status := false |}.
End config.

(** [HealthAdapterSync.__init__] and the others at an endpoint *)
Definition endpoint_client_sync (c : ConnectionConfigSync) (e : SandboxEndpoint) : ApiClient := {|
  ac_base_url := cc_protocol c +:+ "://" +:+ se_endpoint e;
  ac_headers := dupdate (dupdate [("User-Agent", cc_user_agent c)] (cc_headers c)) (se_headers e);
  ac_raise_on_unexpected_status := false |}.

(** ** The lifecycle API *)

Section lifecycle.
Context {W : Type} `{Net W} `{Codecs} `{Dateutil} `{PydanticFields} (c : ApiClient).

Definition create_sandbox_sync (spec : SandboxImageSpec) (entrypoint : list string) (env metadata : dict string)
    (timeout : option Z) (resource : dict string) (policy : option NetworkPolicy) (extensions : dict string)
    (volumes : option (list Volume)) : Sdk W SandboxCreateResponse :=
  converting (
    create_request ← liftO (of_result (to_api_create_sandbox_request spec entrypoint env metadata timeout resource policy
                                         extensions volumes));
    response_obj ← post_sandboxes c create_request;
    liftO (handle_api_error response_obj "Create sandbox");;
    parsed ← liftO (require_parsed response_obj "Create sandbox");
    mret (to_sandbox_create_response parsed)).

Definition get_sandbox_info_sync (sandbox_id : string) : Sdk W SandboxInfo :=
  converting (
    response_obj ← get_sandboxes_sandbox_id c sandbox_id;
    liftO (handle_api_error response_obj ("Get sandbox " +:+ sandbox_id));;
    parsed ← liftO (require_parsed response_obj ("Get sandbox " +:+ sandbox_id));
    liftO (to_sandbox_info parsed)).

(** Each key and value of the metadata is quoted twice, then they are joined; httpx quotes
    the whole parameter once more. *)
Definition metadata_param_sync (metadata : option (dict string)) : option string :=
  match metadata with
  | Some ((_ :: _) as d) =>
      Some (join "&" ((λ kv : string * string,
        let k1 := quote_all kv.1 in let v1 := quote_all kv.2 in
        let k2 := quote_all k1 in let v2 := quote_all v1 in k2 +:+ "=" +:+ v2) <$> d))
  | _ => None
  end.

Definition list_sandboxes_sync (f : SandboxFilter) : Sdk W PagedSandboxInfos :=
  let metadata := metadata_param_sync (sf_metadata f) in
  converting (
    response_obj ← get_sandboxes c (states_param (sf_states f)) (PStr <$> metadata) (PInt <$> sf_page f) (PInt <$> sf_page_size f);
    liftO (handle_api_error response_obj "List sandboxes");;
    parsed ← liftO (require_parsed response_obj "List sandboxes");
    liftO (to_paged_sandbox_infos parsed)).

Definition get_sandbox_endpoint_sync (sandbox_id : string) (port : Z) (use_server_proxy : bool) : Sdk W SandboxEndpoint :=
  converting (
    response_obj ← get_sandboxes_sandbox_id_endpoints_port c sandbox_id port (Some (PBool use_server_proxy));
    liftO (handle_api_error response_obj ("Get endpoint for sandbox " +:+ sandbox_id +:+ " port " +:+ str_of_Z port));;
    parsed ← liftO (require_parsed response_obj "Get endpoint");
    liftO (to_sandbox_endpoint parsed)).

Definition pause_sandbox_sync (sandbox_id : string) : Sdk W unit :=
  converting (
    response_obj ← post_sandboxes_sandbox_id_pause c sandbox_id;
    liftO (handle_api_error response_obj ("Pause sandbox " +:+ sandbox_id))).

Definition resume_sandbox_sync (sandbox_id : string) : Sdk W unit :=
  converting (
    response_obj ← post_sandboxes_sandbox_id_resume c sandbox_id;
    liftO (handle_api_error response_obj ("Resume sandbox " +:+ sandbox_id))).

Definition renew_sandbox_expiration_sync (sandbox_id : string) (new_expiration_time : datetime) : Sdk W SandboxRenewResponse :=
  converting (
    let renew_request := to_api_renew_request new_expiration_time in
    response_obj ← post_sandboxes_sandbox_id_renew_expiration c sandbox_id renew_request;
    liftO (handle_api_error response_obj ("Renew sandbox " +:+ sandbox_id +:+ " expiration"));;
    parsed ← liftO (require_parsed response_obj ("Renew sandbox " +:+ sandbox_id +:+ " expiration"));
    mret (to_sandbox_renew_response parsed)).

Definition kill_sandbox_sync (sandbox_id : string) : Sdk W unit :=
  converting (
    response_obj ← delete_sandboxes_sandbox_id c sandbox_id;
    liftO (handle_api_error response_obj ("Kill sandbox " +:+ sandbox_id))).

Definition sandboxes_adapter_sync : Sandboxes W := {|
  ss_create_sandbox := create_sandbox_sync; ss_get_sandbox_info := get_sandbox_info_sync;
  ss_list_sandboxes := list_sandboxes_sync; ss_get_sandbox_endpoint := get_sandbox_endpoint_sync;
  ss_pause_sandbox := pause_sandbox_sync; ss_resume_sandbox := resume_sandbox_sync;
  ss_renew_sandbox_expiration := renew_sandbox_expiration_sync; ss_kill_sandbox := kill_sandbox_sync |}.

(** ** Health, metrics, egress *)

Definition ping_sync (sandbox_id : string) : Sdk W bool :=
  sdk_try (response_obj ← ping_detailed c;
           liftO (handle_api_error response_obj "Ping");;
           mret true)
    (λ _, mret false).

Definition get_metrics_sync (sandbox_id : string) : Sdk W SandboxMetrics :=
  converting (
    response_obj ← get_metrics_detailed c;
    liftO (handle_api_error response_obj "Get metrics");;
    parsed ← liftO (require_parsed response_obj "Get metrics");
    liftO (to_sandbox_metrics parsed)).

Definition get_policy_sync : Sdk W NetworkPolicy :=
  converting (
    response_obj ← get_policy_detailed c;
    liftO (handle_api_error response_obj "Get egress policy");;
    parsed ← liftO (require_parsed response_obj "Get egress policy");
    match aps_policy parsed with
    | None => throw (PyError (PyException ValueError "Egress policy response missing policy payload"))
    | Some policy => liftO (validate_policy policy)
    end).

Definition patch_rules_sync (rules : list NetworkRule) : Sdk W unit :=
  converting (
    b ← liftO (of_result (mapR to_api_network_rule rules));
    response_obj ← patch_policy_detailed c b;
    liftO (handle_api_error response_obj "Patch egress rules")).

Definition health_adapter_sync : Health W := {| hs_ping := ping_sync |}.
Definition metrics_adapter_sync : Metrics W := {| ms_get_metrics := get_metrics_sync |}.
Definition egress_adapter_sync : Egress W := {| es_get_policy := get_policy_sync; es_patch_rules := patch_rules_sync |}.
End lifecycle.

(** ** Commands *)

Section dispatch.
Context {W : Type} (handlers : option (ExecutionHandlers W)).

Definition handle_init_sync (ev : EventNode) : Sdk (Execution * W) unit :=
  let execution_id := default EmptyString (ev_text ev) in
  let init_event := {| ei_id := execution_id; ei_timestamp := ev_timestamp ev |} in
  update (set_id (ei_id init_event));; notify handlers on_init init_event.

Definition handle_stdout_sync (ev : EventNode) : Sdk (Execution * W) unit :=
  let message := {| om_text := default EmptyString (ev_text ev); om_timestamp := ev_timestamp ev; om_is_error := false |} in
  update (set_logs (add_stdout message));; notify handlers on_stdout message.

Definition handle_stderr_sync (ev : EventNode) : Sdk (Execution * W) unit :=
  let message := {| om_text := default EmptyString (ev_text ev); om_timestamp := ev_timestamp ev; om_is_error := true |} in
  update (set_logs (add_stderr message));; notify handlers on_stderr message.

Definition handle_result_sync (ev : EventNode) : Sdk (Execution * W) unit :=
  let result_text := match ev_results ev with Some r => results_get_text r | None => EmptyString end in
  let r := {| er_text := Some result_text; er_timestamp := ev_timestamp ev; er_extra := [] |} in
  update (add_result r);; notify handlers on_result r.

Definition handle_error_sync (ev : EventNode) : Sdk (Execution * W) unit :=
  match ev_error ev with
  | None => mret tt
  | Some error_data =>
      let error := {| ee_name := default EmptyString (ene_name error_data); ee_value := default EmptyString (ene_value error_data);
                      ee_timestamp := ev_timestamp ev; ee_traceback := ene_traceback error_data |} in
      update (set_error error);; notify handlers on_error error
  end.

Definition handle_execution_complete_sync (ev : EventNode) : Sdk (Execution * W) unit :=
  notify handlers on_execution_complete
    {| ec_timestamp := ev_timestamp ev; ec_execution_time_in_millis := default 0%Z (ev_execution_time ev) |}.

Definition dispatch_sync (ev : EventNode) : Sdk (Execution * W) unit :=
  let event_type := ev_type ev in
  if bool_decide (event_type = "stdout") then handle_stdout_sync ev
  else if bool_decide (event_type = "stderr") then handle_stderr_sync ev
  else if bool_decide (event_type = "result") then handle_result_sync ev
  else if bool_decide (event_type = "error") then handle_error_sync ev
  else if bool_decide (event_type = "execution_complete") then handle_execution_complete_sync ev
  else if bool_decide (event_type = "init") then handle_init_sync ev
  else if bool_decide (event_type = "execution_count") then
    match ev_execution_count ev with Some n => update (set_count n) | None => mret tt end
  else mret tt.

Context `{Codecs} `{PydanticFields}.

(** [if not line or not line.strip(): continue], then the event *)
Definition handle_line_sync (line : string) : Sdk (Execution * W) unit :=
  if negb (truthy line) || negb (truthy (strip line)) then mret tt
  else sdk_try (ev ← liftO (parse_event (line_data line)); dispatch_sync ev) (λ _, mret tt).

Fixpoint handle_lines_sync (lines : list string) : Sdk (Execution * W) unit :=
  match lines with
  | [] => mret tt
  | line :: lines' => handle_line_sync line;; handle_lines_sync lines'
  end.
End dispatch.

Section commands.
Context {W : Type} `{Net W} `{Streams W} `{Codecs} `{Dateutil} `{PydanticFields}.
Context (config : ConnectionConfigSync) (execd_endpoint : SandboxEndpoint).

Definition sse_headers_sync : dict string :=
  dset "Cache-Control" "no-cache" (dset "Accept" "text/event-stream"
    (dupdate (dupdate [("User-Agent", cc_user_agent config)] (cc_headers config)) (se_headers execd_endpoint))).
Definition execd_url_sync (path : string) : string := cc_protocol config +:+ "://" +:+ se_endpoint execd_endpoint +:+ path.

Definition run_request_sync (json_body : pyval) : HttpRequest := {|
  hr_method := "POST"; hr_url := execd_url_sync "/command"; hr_params := [];
  hr_headers := lower_keys sse_headers_sync; hr_body := JsonPayload json_body |}.

Definition consume_sync (handlers : option (ExecutionHandlers W)) (s : StreamResponse) : Sdk W Execution := λ w,
  let '(_, (execution, w')) := handle_lines_sync handlers (stm_lines s) (empty_execution, w) in
  match stm_end s with Some e => (Throw e, w') | None => (Return execution, w') end.

Definition run_sync (command : string) (opts : option RunCommandOpts) (handlers : option (ExecutionHandlers W)) : Sdk W Execution :=
  if negb (truthy (strip command)) then raise_sandbox (invalid_argument_exception "Command cannot be empty")
  else converting (
    json_body ← liftO (of_result (to_api_run_command_json command (default default_run_opts opts)));
    response ← n_stream (run_request_sync json_body);
    if negb (rs_status (stm_response response) =? 200)%Z then
      raise_sandbox (sandbox_api_exception
        ("Failed to run command. Status code: " +:+ str_of_Z (rs_status (stm_response response)))
        (Some (rs_status (stm_response response))) None (extract_request_id (rs_headers (stm_response response))))
    else consume_sync handlers response).

Let client : ApiClient := endpoint_client_sync config execd_endpoint.

Definition interrupt_sync (execution_id : string) : Sdk W unit :=
  converting (
    response_obj ← interrupt_command_detailed client execution_id;
    liftO (handle_api_error response_obj "Interrupt command")).

Definition get_command_status_sync (execution_id : string) : Sdk W CommandStatus :=
  converting (
    response_obj ← get_command_status_detailed client execution_id;
    liftO (handle_api_error response_obj "Get command status");;
    parsed ← liftO (require_parsed response_obj "Get command status");
    liftO (to_command_status parsed)).

Definition get_background_command_logs_sync (execution_id : string) (cursor : option Z) : Sdk W CommandLogs :=
  converting (
    response_obj ← get_background_command_logs_detailed client execution_id (PInt <$> cursor);
    liftO (handle_api_error response_obj "Get command logs");;
    content ← liftO (require_parsed response_obj "Get command logs");
    mret {| cl_content := content; cl_cursor := next_cursor (ar_headers response_obj) |}).

Definition commands_adapter_sync : Commands W := {|
  cm_run := run_sync; cm_interrupt := interrupt_sync; cm_get_command_status := get_command_status_sync;
  cm_get_background_command_logs := get_background_command_logs_sync |}.

(** ** Files *)

Context (bytes_decode : string → list N → result string).

Definition build_download_request_sync (path : string) (range_header : option string) : DownloadRequest := {|
  dr_url := execd_url_sync "/files/download" +:+ "?path=" +:+ url_quote slash_safe path;
  dr_params := None;
  dr_headers := match range_header with Some ((String _ _) as r) => [("Range", r)] | _ => [] end |}.

Definition files_request_sync (method url : string) (headers : dict string) (b : request_body) : HttpRequest := {|
  hr_method := method; hr_url := url; hr_params := [];
  hr_headers := dupdate (lower_keys (ac_headers client)) (lower_keys headers); hr_body := b |}.

Definition download_request_sync (path : string) (range_header : option string) : HttpRequest :=
  let request_data := build_download_request_sync path range_header in
  files_request_sync "GET" (dr_url request_data) (dr_headers request_data) EmptyBody.

Definition read_bytes_sync (path : string) (range_header : option string) : Sdk W (list N) :=
  converting (
    response ← n_send (download_request_sync path range_header);
    liftO (raise_for_status response);;
    mret (rs_content response)).

Definition read_file_sync (path encoding : string) (range_header : option string) : Sdk W string :=
  content ← read_bytes_sync path range_header;
  liftO (of_result (bytes_decode encoding content)).

(** Not inside the conversion: the exceptions of httpx leave it as they are. *)
Definition read_bytes_stream_sync (path : string) (chunk_size : nat) (range_header : option string) : Sdk W (list (list N)) :=
  response ← n_send (download_request_sync path range_header);
  if (300 <=? rs_status response)%Z then raise_sandbox (stream_refused path response)
  else mret (chunks chunk_size (rs_content response)).

Definition entry_parts_sync (e : WriteEntry) : outcome (list Part) :=
  throw_if (negb (truthy (we_path e))) (Sandbox (invalid_argument_exception "File path cannot be null"));;
  match we_data e with
  | None => Throw (Sandbox (invalid_argument_exception "File data cannot be null"))
  | Some data =>
      let metadata := PDict [("path", PStr (we_path e)); ("owner", opt_str (we_owner e)); ("group", opt_str (we_group e));
                             ("mode", PInt (we_mode e))] in
      let metadata_part := {| pt_name := "metadata"; pt_filename := "metadata"; pt_content := PartText (dumps metadata);
                              pt_type := "application/json" |} in
      '(content, content_type) ←
        match data with
        | DataBytes b => Return (PartBytes b, "application/octet-stream")
        | DataText s =>
            let encoding := if truthy (we_encoding e) then we_encoding e else "utf-8" in
            Return (PartText s, "text/plain; charset=" +:+ encoding)
        | DataTextStream _ =>
            Throw (Sandbox (invalid_argument_exception
              "File stream must be binary (opened with 'rb'). Text streams are not supported."))
        | DataBinaryStream id => Return (PartStream id, "application/octet-stream")
        | DataOther t => Throw (Sandbox (invalid_argument_exception ("Unsupported file data type: " +:+ t)))
        end;
      Return [metadata_part; {| pt_name := "file"; pt_filename := we_path e; pt_content := content; pt_type := content_type |}]
  end.

Fixpoint multipart_parts_sync (entries : list WriteEntry) : outcome (list Part) :=
  match entries with
  | [] => Return []
  | e :: entries' => ps ← entry_parts_sync e; rest ← multipart_parts_sync entries'; Return (ps ++ rest)
  end.

Definition write_files_sync (entries : list WriteEntry) : Sdk W unit :=
  match entries with
  | [] => mret tt
  | _ =>
      converting (
        parts ← liftO (multipart_parts_sync entries);
        response ← n_send (files_request_sync "POST" (execd_url_sync "/files/upload") [] (Multipart parts));
        liftO (raise_for_status response))
  end.

Definition write_file_sync (path : string) (data : file_data) (encoding : string) (mode : Z) (owner group : option string)
    : Sdk W unit :=
  entry ← liftO (write_entry {| we_path := path; we_data := Some data; we_mode := mode; we_owner := owner;
                                we_group := group; we_encoding := encoding |});
  write_files_sync [entry].

Definition unit_call_sync (call : Sdk W (ApiResponse unit)) (op : string) : Sdk W unit :=
  response_obj ← call; liftO (handle_api_error response_obj op).

Definition create_directories_sync (entries : list WriteEntry) : Sdk W unit :=
  converting (
    b ← liftO (of_result (to_api_make_dirs_body entries));
    unit_call_sync (make_dirs_detailed client b) "Create directories").
Definition delete_files_sync (paths : list string) : Sdk W unit :=
  converting (unit_call_sync (remove_files_detailed client paths) "Delete files").
Definition delete_directories_sync (paths : list string) : Sdk W unit :=
  converting (unit_call_sync (remove_dirs_detailed client paths) "Delete directories").
Definition move_files_sync (entries : list MoveEntry) : Sdk W unit :=
  converting (unit_call_sync (rename_files_detailed client (to_api_rename_file_items entries)) "Move files").
Definition set_permissions_sync (entries : list SetPermissionEntry) : Sdk W unit :=
  converting (
    b ← liftO (of_result (to_api_chmod_files_body entries));
    unit_call_sync (chmod_files_detailed client b) "Set permissions").
Definition replace_contents_sync (entries : list ContentReplaceEntry) : Sdk W unit :=
  converting (
    b ← liftO (of_result (to_api_replace_content_body entries));
    unit_call_sync (replace_content_detailed client b) "Replace contents").

Definition search_sync (entry : SearchEntry) : Sdk W (list EntryInfo) :=
  converting (
    response_obj ← search_files_detailed client (sr_path entry) (Some (PStr (sr_pattern entry)));
    liftO (handle_api_error response_obj "Search files");;
    match ar_parsed response_obj with
    | None | Some (ParsedValue []) => mret []
    | Some (ParsedValue l) => liftO (to_entry_info_list l)
    | Some (ParsedError _ | ParsedText _) =>
        raise_sandbox (sandbox_api_exception "Search files failed: unexpected response type" None None
          (extract_request_id (ar_headers response_obj)))
    end).

Definition get_file_info_sync (paths : list string) : Sdk W (dict EntryInfo) :=
  converting (
    response_obj ← get_files_info_detailed client paths;
    liftO (handle_api_error response_obj "Get file info");;
    match ar_parsed response_obj with
    | Some (ParsedValue d) => liftO (to_entry_info_map d)
    | _ => mret []
    end).

Definition filesystem_adapter_sync : Filesystem W := {|
  fs_read_file := read_file_sync; fs_read_bytes := read_bytes_sync; fs_read_bytes_stream := read_bytes_stream_sync;
  fs_write_files := write_files_sync; fs_write_file := write_file_sync; fs_create_directories := create_directories_sync;
  fs_delete_files := delete_files_sync; fs_delete_directories := delete_directories_sync; fs_move_files := move_files_sync;
  fs_set_permissions := set_permissions_sync; fs_replace_contents := replace_contents_sync; fs_search := search_sync;
  fs_get_file_info := get_file_info_sync |}.
End commands.

(** * The Python client: blocking sandboxes and their manager
      ([opensandbox/sync/sandbox.py], [sync/manager.py], [sync/adapters/factory.py])

    The blocking twins of [SdkSandbox].  [time.sleep] refuses a negative duration, which
    [asyncio.sleep] takes for zero. *)

From S2P Require Import SdkSandbox.

Section sandbox.
Context {W : Type} `{Net W} `{Streams W} `{Codecs} `{Dateutil} `{PydanticFields}.
Context (bytes_decode : string → list N → result string).
Implicit Types config : ConnectionConfigSync.

(** ** The factory *)

Definition create_sandbox_service_sync config : Sandboxes W := sandboxes_adapter_sync (lifecycle_client_sync (W:=W) config).
Definition create_filesystem_service_sync config (e : SandboxEndpoint) : Filesystem W := filesystem_adapter_sync config e bytes_decode.
Definition create_command_service_sync config (e : SandboxEndpoint) : Commands W := commands_adapter_sync config e.
Definition create_egress_service_sync config (e : SandboxEndpoint) : Egress W := egress_adapter_sync (endpoint_client_sync config e).
Definition create_health_service_sync config (e : SandboxEndpoint) : Health W := health_adapter_sync (endpoint_client_sync config e).
Definition create_metrics_service_sync config (e : SandboxEndpoint) : Metrics W := metrics_adapter_sync (endpoint_client_sync config e).

(** ** A sandbox *)

(** The attributes of a [SandboxSync] are those of a [Sandbox], with blocking services. *)
Definition SandboxSync : Type := SandboxHandle W.
Implicit Types sb : SandboxSync.

Definition get_info_sync sb : Sdk W SandboxInfo := ss_get_sandbox_info (sb_sandbox_service (sb_core sb)) (sb_id (sb_core sb)).
Definition get_endpoint_sync sb (port : Z) : Sdk W SandboxEndpoint :=
  ss_get_sandbox_endpoint (sb_sandbox_service (sb_core sb)) (sb_id (sb_core sb)) port
    (cc_use_server_proxy (sb_connection_config (sb_core sb))).
Definition sandbox_metrics_sync sb : Sdk W SandboxMetrics :=
  ms_get_metrics (sb_metrics_service (sb_core sb)) (sb_id (sb_core sb)).
Definition renew_sync sb (timeout : Z) : Sdk W SandboxRenewResponse :=
  new_expiration ← expiration_after timeout;
  ss_renew_sandbox_expiration (sb_sandbox_service (sb_core sb)) (sb_id (sb_core sb)) new_expiration.
Definition get_egress_policy_sync sb : Sdk W NetworkPolicy := es_get_policy (sb_egress_service (sb_core sb)).
Definition patch_egress_rules_sync sb (rules : list NetworkRule) : Sdk W unit :=
  es_patch_rules (sb_egress_service (sb_core sb)) rules.
Definition pause_sync sb : Sdk W unit := ss_pause_sandbox (sb_sandbox_service (sb_core sb)) (sb_id (sb_core sb)).
Definition kill_sync sb : Sdk W unit := ss_kill_sandbox (sb_sandbox_service (sb_core sb)) (sb_id (sb_core sb)).
Definition close_sync sb : Sdk W unit := sdk_quietly (close_transport_if_owned_sync (sb_connection_config (sb_core sb))).

Definition is_healthy_sync sb : Sdk W bool :=
  match sb_custom_health_check sb with
  | Some check => check (sb_core sb)
  | None => sdk_try (hs_ping (sb_health_service (sb_core sb)) (sb_id (sb_core sb))) (λ _, mret false)
  end.

(** [time.sleep(delta.total_seconds())] *)
Definition time_sleep (d : Z) : Sdk W unit :=
  if (d <? 0)%Z then throw (PyError (PyException ValueError "sleep length must be non-negative")) else sleep_us d.

Fixpoint ready_loop_sync sb (fuel : nat) (deadline polling_interval attempt : Z) (last_exception : option sexn) : Sdk W readiness :=
  match fuel with
  | O => mret CutOff
  | S f =>
      now ← now_us;
      if negb (now <? deadline)%Z then mret (TimedOut attempt last_exception) else
      let attempt := (attempt + 1)%Z in
      r ← attempted (is_healthy_sync sb);
      match r with
      | Return true => mret Healthy
      | _ =>
          let last_exception := match r with Throw e => Some e | Return _ => None end in
          time_sleep polling_interval;;
          ready_loop_sync sb f deadline polling_interval attempt last_exception
      end
  end.

Definition check_ready_sync sb (timeout polling_interval : Z) : Sdk W unit :=
  now ← now_us;
  r ← ready_loop_sync sb (ready_fuel timeout polling_interval) (now + timeout) polling_interval 0 None;
  match r with
  | Healthy => mret tt
  | TimedOut attempt last_exception =>
      raise_sandbox (sandbox_ready_timeout_exception
        (ready_timeout_message (W:=W) "ConnectionConfigSync" (sb_connection_config (sb_core sb)) timeout attempt last_exception))
  | CutOff => throw (PyError (PyException RuntimeError "still waiting for the sandbox"))
  end.

(** ** Making a sandbox *)

Definition sandbox_at_sync config (svc : Sandboxes W) (id : string)
    (execd_endpoint egress_endpoint : SandboxEndpoint) (check : option (HealthCheck W)) : SandboxSync := {|
  sb_core := {|
    sb_id := id; sb_sandbox_service := svc;
    sb_filesystem_service := create_filesystem_service_sync config execd_endpoint;
    sb_command_service := create_command_service_sync config execd_endpoint;
    sb_health_service := create_health_service_sync config execd_endpoint;
    sb_metrics_service := create_metrics_service_sync config execd_endpoint;
    sb_egress_service := create_egress_service_sync config egress_endpoint;
    sb_connection_config := config |};
  sb_custom_health_check := check |}.

Definition initialised_sync config (svc : Sandboxes W) (id : string) (check : option (HealthCheck W))
    (timeout polling_interval : Z) (skip_health_check : bool) : Sdk W SandboxSync :=
  execd_endpoint ← ss_get_sandbox_endpoint svc id DEFAULT_EXECD_PORT (cc_use_server_proxy config);
  egress_endpoint ← ss_get_sandbox_endpoint svc id DEFAULT_EGRESS_PORT (cc_use_server_proxy config);
  let sandbox := sandbox_at_sync config svc id execd_endpoint egress_endpoint check in
  (if negb skip_health_check then check_ready_sync sandbox timeout polling_interval else mret tt);;
  mret sandbox.

Definition creation_failed_sync config (svc : Sandboxes W) (sandbox_id : option string) (e : sexn) : Sdk W SandboxSync :=
  (match sandbox_id with
   | Some ((String _ _) as id) => sdk_quietly (ss_kill_sandbox svc id)
   | _ => mret tt
   end);;
  close_transport_if_owned_sync config;;
  raise_sandbox (reraised "Internal exception when creating sandbox: " e).

Definition create_sync (a : CreateArgs) : Sdk W SandboxSync :=
  config ← with_transport_if_missing_sync (default default_config (ca_connection_config a));
  image ← liftO (image_of (ca_image a));
  let svc := create_sandbox_service_sync config in
  created ← attempted (ss_create_sandbox svc image (or_default (ca_entrypoint a) ["tail"; "-f"; "/dev/null"])
    (or_default (ca_env a) []) (or_default (ca_metadata a) []) (ca_timeout a)
    (or_default (ca_resource a) [("cpu", "1"); ("memory", "2Gi")]) (ca_network_policy a)
    (or_default (ca_extensions a) []) (ca_volumes a));
  match created with
  | Throw e => creation_failed_sync config svc None e
  | Return response =>
      sandbox ← attempted (initialised_sync config svc (scr_id response) (ca_health_check a) (ca_ready_timeout a)
                             (ca_health_check_polling_interval a) (ca_skip_health_check a));
      match sandbox with
      | Return sb => mret sb
      | Throw e => creation_failed_sync config svc (Some (scr_id response)) e
      end
  end.

Definition connection_failed_sync (prefix : string) config (e : sexn) : Sdk W SandboxSync :=
  close_transport_if_owned_sync config;;
  raise_sandbox (reraised prefix e).

Definition connect_sync (a : ConnectArgs) : Sdk W SandboxSync :=
  if negb (truthy (co_sandbox_id a)) then raise_sandbox (invalid_argument_exception "Sandbox ID must be specified") else
  config ← with_transport_if_missing_sync (default default_config (co_connection_config a));
  sdk_try
    (let svc := create_sandbox_service_sync config in
     initialised_sync config svc (co_sandbox_id a) (co_health_check a) (co_timeout a) (co_polling_interval a)
       (co_skip_health_check a))
    (connection_failed_sync "Failed to connect to sandbox: " config).

Definition resume_sync (a : ConnectArgs) : Sdk W SandboxSync :=
  if negb (truthy (co_sandbox_id a)) then raise_sandbox (invalid_argument_exception "Sandbox ID must be specified") else
  config ← with_transport_if_missing_sync (default default_config (co_connection_config a));
  sdk_try
    (let svc := create_sandbox_service_sync config in
     ss_resume_sandbox svc (co_sandbox_id a);;
     initialised_sync config svc (co_sandbox_id a) (co_health_check a) (co_timeout a) (co_polling_interval a)
       (co_skip_health_check a))
    (connection_failed_sync "Failed to resume sandbox: " config).

(** [with sandbox: ...] *)
Definition with_sandbox_sync {A} sb (body : SandboxSync → Sdk W A) : Sdk W A :=
  r ← attempted (body sb);
  close_sync sb;;
  liftO r.

(** ** The manager *)

Definition SandboxManagerSync : Type := SandboxManager (W:=W).
Implicit Types m : SandboxManagerSync.

Definition manager_create_sync (connection_config : option ConnectionConfigSync) : Sdk W SandboxManagerSync :=
  config ← with_transport_if_missing_sync (default default_config connection_config);
  mret {| mg_sandbox_service := create_sandbox_service_sync config; mg_connection_config := config |}.
Definition manager_list_sandbox_infos_sync m (f : SandboxFilter) : Sdk W PagedSandboxInfos := ss_list_sandboxes (mg_sandbox_service m) f.
Definition manager_get_sandbox_info_sync m (id : string) : Sdk W SandboxInfo := ss_get_sandbox_info (mg_sandbox_service m) id.
Definition manager_kill_sandbox_sync m (id : string) : Sdk W unit := ss_kill_sandbox (mg_sandbox_service m) id.
Definition manager_renew_sandbox_sync m (id : string) (timeout : Z) : Sdk W SandboxRenewResponse :=
  new_expiration ← expiration_after timeout;
  ss_renew_sandbox_expiration (mg_sandbox_service m) id new_expiration.
Definition manager_pause_sandbox_sync m (id : string) : Sdk W unit := ss_pause_sandbox (mg_sandbox_service m) id.
Definition manager_resume_sandbox_sync m (id : string) : Sdk W unit := ss_resume_sandbox (mg_sandbox_service m) id.
Definition manager_close_sync m : Sdk W unit := sdk_quietly (close_transport_if_owned_sync (mg_connection_config m)).
End sandbox.
