(* ===== verification/SdkSyncProofs.v ===== *)
(** * The Python client: the blocking client does what the asynchronous one does

    Equality of calls in every world ([≐]), and with it the methods of the two clients:
    all the same, but for the metadata of a filter, the exceptions of a stream of bytes,
    a negative polling interval and the name of the configuration in one hint.  Making a
    sandbox with either does the same to the world. *)

From Stdlib Require Import Ascii Setoid Morphisms.
From S2P Require Import Prelude PyString PyDict PyTime PyFloat Json PyVal K8sHelpers SdkBase SdkModels SdkApi SdkConfig SdkAdapter SdkExecdApi SdkCommands SdkFiles SdkSandbox SdkTrace SdkExecution SdkSandboxProofs SdkSync.
Open Scope string_scope.
Open Scope list_scope.

(** ** Equal calls *)

Definition sdk_eq {W A} : relation (Sdk W A) := pointwise_relation W (=).
Infix "≐" := sdk_eq (at level 70).

#[global] Instance sdk_eq_equivalence {W A} : Equivalence (@sdk_eq W A).
Proof. unfold sdk_eq. apply _. Qed.

Section ext.
Context {W : Type}.

#[global] Instance Sdk_bind_proper {A B} :
  Proper (pointwise_relation A sdk_eq ==> sdk_eq ==> sdk_eq) (@mbind (Sdk W) _ A B).
Proof.
  intros k k' Hk m m' Hm w. unfold mbind, Sdk_bind. rewrite (Hm w). destruct (m' w) as [[a|e] w1]; [apply Hk|done].
Qed.

#[global] Instance sdk_try_proper {A} :
  Proper (sdk_eq ==> pointwise_relation sexn sdk_eq ==> sdk_eq) (@sdk_try W A).
Proof. intros m m' Hm h h' Hh w. unfold sdk_try. rewrite (Hm w). destruct (m' w) as [[a|e] w1]; [done|apply Hh]. Qed.

#[global] Instance sdk_quietly_proper : Proper (sdk_eq ==> sdk_eq) (@sdk_quietly W).
Proof. intros m m' Hm. unfold sdk_quietly. by apply sdk_try_proper. Qed.

#[global] Instance converting_proper `{Codecs} {A} : Proper (sdk_eq ==> sdk_eq) (@converting _ W A).
Proof. intros m m' Hm. unfold converting. by apply sdk_try_proper. Qed.

#[global] Instance attempted_proper {A} : Proper (sdk_eq ==> sdk_eq) (@attempted W A).
Proof. intros m m' Hm w. unfold attempted. by rewrite (Hm w). Qed.

(** The two checks of an answer, at once or one after the other. *)
Lemma checked_in_turn {T A} (r : ApiResponse T) op op' (k : T → Sdk W A) :
  (parsed ← liftO (checked r op op'); k parsed) ≐
  (liftO (handle_api_error r op);; parsed ← liftO (require_parsed r op'); k parsed).
Proof. intros w. unfold checked, mbind, Sdk_bind, liftO. by destruct (handle_api_error r op) as [[]|]. Qed.

(** A call that is converted already is not changed by a second conversion. *)
Lemma converting_twice `{Codecs} {A} (m : Sdk W A) : converting (converting m) ≐ converting m.
Proof. intros w. unfold converting, sdk_try. destruct (m w) as [[a|e] w1]; done. Qed.
End ext.

(** Goes under the steps that two calls have in common. *)
Ltac same_steps :=
  repeat match goal with
  | |- ?x ≐ ?x => reflexivity
  | |- converting _ ≐ converting _ => apply converting_proper
  | |- mbind _ (liftO (checked _ _ _)) ≐ _ => etransitivity; [apply checked_in_turn|]
  | |- mbind _ _ ≐ mbind _ _ => apply Sdk_bind_proper
  | |- pointwise_relation _ _ _ _ => intros ?
  end; try reflexivity.

(** ** The adapters *)

Section adapters.
Context {W : Type} `{Net W} `{Streams W} `{Codecs} `{Dateutil} `{PydanticFields}.
Context (bytes_decode : string → list N → result string).

(** What the client of one service may rely on of the other. *)
Record sandboxes_agree (a b : Sandboxes W) : Prop := {
  sa_create : ∀ i e v m t r p x l, ss_create_sandbox a i e v m t r p x l ≐ ss_create_sandbox b i e v m t r p x l;
  sa_info : ∀ id, ss_get_sandbox_info a id ≐ ss_get_sandbox_info b id;
  sa_list : ∀ f, or_default (sf_metadata f) [] = [] → ss_list_sandboxes a f ≐ ss_list_sandboxes b f;
  sa_endpoint : ∀ id port proxy, ss_get_sandbox_endpoint a id port proxy ≐ ss_get_sandbox_endpoint b id port proxy;
  sa_pause : ∀ id, ss_pause_sandbox a id ≐ ss_pause_sandbox b id;
  sa_resume : ∀ id, ss_resume_sandbox a id ≐ ss_resume_sandbox b id;
  sa_renew : ∀ id t, ss_renew_sandbox_expiration a id t ≐ ss_renew_sandbox_expiration b id t;
  sa_kill : ∀ id, ss_kill_sandbox a id ≐ ss_kill_sandbox b id }.

Record commands_agree (a b : Commands W) : Prop := {
  ca_run : ∀ c o h, cm_run a c o h ≐ cm_run b c o h;
  ca_interrupt : ∀ id, cm_interrupt a id ≐ cm_interrupt b id;
  ca_status : ∀ id, cm_get_command_status a id ≐ cm_get_command_status b id;
  ca_logs : ∀ id c, cm_get_background_command_logs a id c ≐ cm_get_background_command_logs b id c }.

Record filesystem_agree (a b : Filesystem W) : Prop := {
  fa_read_file : ∀ p e r, fs_read_file a p e r ≐ fs_read_file b p e r;
  fa_read_bytes : ∀ p r, fs_read_bytes a p r ≐ fs_read_bytes b p r;
  fa_stream : ∀ p n r, fs_read_bytes_stream a p n r ≐ converting (fs_read_bytes_stream b p n r);
  fa_write_files : ∀ l, fs_write_files a l ≐ fs_write_files b l;
  fa_write_file : ∀ p d e m o g, fs_write_file a p d e m o g ≐ fs_write_file b p d e m o g;
  fa_mkdir : ∀ l, fs_create_directories a l ≐ fs_create_directories b l;
  fa_rm : ∀ l, fs_delete_files a l ≐ fs_delete_files b l;
  fa_rmdir : ∀ l, fs_delete_directories a l ≐ fs_delete_directories b l;
  fa_move : ∀ l, fs_move_files a l ≐ fs_move_files b l;
  fa_chmod : ∀ l, fs_set_permissions a l ≐ fs_set_permissions b l;
  fa_replace : ∀ l, fs_replace_contents a l ≐ fs_replace_contents b l;
  fa_search : ∀ e, fs_search a e ≐ fs_search b e;
  fa_info : ∀ l, fs_get_file_info a l ≐ fs_get_file_info b l }.

Record services_agree (h h' : Health W) (m m' : Metrics W) (e e' : Egress W) : Prop := {
  va_ping : ∀ id, hs_ping h id ≐ hs_ping h' id;
  va_metrics : ∀ id, ms_get_metrics m id ≐ ms_get_metrics m' id;
  va_policy : es_get_policy e ≐ es_get_policy e';
  va_patch : ∀ rules, es_patch_rules e rules ≐ es_patch_rules e' rules }.

Lemma clients_equal (c : ConnectionConfig) : lifecycle_client_sync (W:=W) c = lifecycle_client (W:=W) c.
Proof. done. Qed.
Lemma endpoint_clients_equal c e : endpoint_client_sync c e = endpoint_client c e.
Proof.
  unfold endpoint_client, endpoint_client_sync, endpoint_url, base_headers. f_equal. by rewrite str_app_nil_r.
Qed.

Lemma lifecycle_agrees c : sandboxes_agree (sandboxes_adapter c) (sandboxes_adapter_sync c).
Proof.
  split; intros; cbn.
  all: unfold create_sandbox, create_sandbox_sync, get_sandbox_info, get_sandbox_info_sync, list_sandboxes, list_sandboxes_sync,
    get_sandbox_endpoint, get_sandbox_endpoint_sync, renew_sandbox_expiration, renew_sandbox_expiration_sync; same_steps.
  unfold metadata_param, metadata_param_sync. destruct (sf_metadata f) as [[|]|]; done.
Qed.

Lemma services_agree_at c c' :
  services_agree (health_adapter c) (health_adapter_sync c) (metrics_adapter c) (metrics_adapter_sync c)
    (egress_adapter c') (egress_adapter_sync c').
Proof. split; intros; cbn; [done|unfold get_metrics, get_metrics_sync|unfold get_policy, get_policy_sync|done]; same_steps. Qed.

(** The dispatchers, line by line. *)
Lemma handle_lines_agree (handlers : option (ExecutionHandlers W)) lines :
  handle_lines_sync handlers lines ≐ handle_lines handlers lines.
Proof.
  induction lines as [|line lines IH]; cbn; [done|]. apply Sdk_bind_proper; [by intros ?|].
  intros s. unfold handle_line_sync, handle_line. by destruct line.
Qed.

Lemma commands_agree_at config e : commands_agree (commands_adapter config e) (commands_adapter_sync config e).
Proof.
  split; intros; cbn.
  - unfold run, run_sync. destruct (truthy (strip c)); [|done]. cbn [negb]. apply converting_proper, Sdk_bind_proper; [|done].
    intros body. apply Sdk_bind_proper; [|done]. intros response. destruct (_ =? 200)%Z; [|done]. cbn [negb].
    intros w. unfold consume, consume_sync. by rewrite (handle_lines_agree h (stm_lines response) _).
  - unfold interrupt, interrupt_sync, execd_client. by rewrite endpoint_clients_equal.
  - unfold get_command_status, get_command_status_sync, execd_client. rewrite endpoint_clients_equal. same_steps.
  - unfold get_background_command_logs, get_background_command_logs_sync, execd_client. rewrite endpoint_clients_equal. same_steps.
Qed.

Lemma multipart_agree entries : multipart_parts_sync entries = multipart_parts entries.
Proof.
  induction entries as [|e l IH]; cbn; [done|]. rewrite IH. f_equal. unfold entry_parts_sync, entry_parts.
  destruct (throw_if _ _); cbn; [|done]. by destruct (we_data e) as [[]|].
Qed.

Lemma filesystem_agrees_at config e :
  filesystem_agree (filesystem_adapter bytes_decode config e) (filesystem_adapter_sync config e bytes_decode).
Proof.
  assert (∀ l, write_files config e l ≐ write_files_sync config e l) as Hw.
  { intros l. unfold write_files, write_files_sync, upload_request. destruct l as [|x l]; [done|].
    rewrite multipart_agree. done. }
  split; intros; cbn.
  all: unfold read_file, read_file_sync, read_bytes, read_bytes_sync, read_bytes_stream, read_bytes_stream_sync,
    write_file, write_file_sync, create_directories, create_directories_sync, delete_files, delete_files_sync,
    delete_directories, delete_directories_sync, move_files, move_files_sync, set_permissions, set_permissions_sync,
    replace_contents, replace_contents_sync, search, search_sync, get_file_info, get_file_info_sync,
    unit_call, unit_call_sync, fs_client.
  all: rewrite ?endpoint_clients_equal; try done.
  - apply Sdk_bind_proper; [|done]. intros entry. apply Hw.
Qed.
End adapters.

(** ** Calls that agree *)

(** Exceptions that agree: the same, or the two time-outs, whose hints name the two
    configurations. *)
Definition exn_agree (e e' : sexn) : Prop :=
  e = e' ∨ ∃ x x', e = Sandbox x ∧ e' = Sandbox x' ∧
                   se_class x = SandboxReadyTimeoutException ∧ se_class x' = SandboxReadyTimeoutException.

Definition outcome_agree {A B} (R : A → B → Prop) (r : outcome A) (r' : outcome B) : Prop :=
  match r, r' with
  | Return a, Return b => R a b
  | Throw e, Throw e' => exn_agree e e'
  | _, _ => False
  end.

(** The same is done to the world, and the outcomes agree. *)
Definition sdk_sim {W A B} (R : A → B → Prop) (m : Sdk W A) (m' : Sdk W B) : Prop :=
  ∀ w, (m w).2 = (m' w).2 ∧ outcome_agree R (m w).1 (m' w).1.

Section simulation.
Context {W : Type}.

Lemma sim_of_eq {A} (m m' : Sdk W A) : m ≐ m' → sdk_sim eq m m'.
Proof. intros Hm w. rewrite (Hm w). split; [done|]. destruct (m' w).1; [done|by left]. Qed.

Lemma sim_ret {A B} (R : A → B → Prop) a b : R a b → sdk_sim (W:=W) R (mret a) (mret b).
Proof. intros HR w. done. Qed.

Lemma sim_raise {A B} (R : A → B → Prop) e e' : exn_agree e e' → sdk_sim (W:=W) R (throw e) (throw e').
Proof. intros He w. done. Qed.

Lemma sim_bind {A B A' B'} (R : A → A' → Prop) (S : B → B' → Prop) (m : Sdk W A) m' (k : A → Sdk W B) k' :
  sdk_sim R m m' → (∀ a b, R a b → sdk_sim S (k a) (k' b)) → sdk_sim S (m ≫= k) (m' ≫= k').
Proof.
  intros Hm Hk w. specialize (Hm w). unfold mbind, Sdk_bind. destruct (m w) as [r w1], (m' w) as [r' w1']. cbn in Hm.
  destruct Hm as [-> Hr]. destruct r, r'; cbn in Hr; [by apply Hk|done..].
Qed.

Lemma sim_bind_eq {A B B'} (S : B → B' → Prop) (m m' : Sdk W A) k k' :
  m ≐ m' → (∀ a, sdk_sim S (k a) (k' a)) → sdk_sim S (m ≫= k) (m' ≫= k').
Proof. intros Hm Hk. eapply sim_bind; [by apply sim_of_eq|]. intros a b ->. done. Qed.

Lemma sim_try {A B} (R : A → B → Prop) (m : Sdk W A) m' h h' :
  sdk_sim R m m' → (∀ e e', exn_agree e e' → sdk_sim R (h e) (h' e')) → sdk_sim R (sdk_try m h) (sdk_try m' h').
Proof.
  intros Hm Hh w. specialize (Hm w). unfold sdk_try. destruct (m w) as [r w1], (m' w) as [r' w1']. cbn in Hm.
  destruct Hm as [-> Hr]. destruct r, r'; cbn in Hr; [done..|by apply Hh].
Qed.

Lemma sim_attempted {A B} (R : A → B → Prop) (m : Sdk W A) m' :
  sdk_sim R m m' → sdk_sim (outcome_agree R) (attempted m) (attempted m').
Proof.
  intros Hm w. specialize (Hm w). unfold attempted. destruct (m w) as [r w1], (m' w) as [r' w1']. exact Hm.
Qed.

Lemma reraised_agree `{Codecs} prefix e e' :
  exn_agree e e' → exn_agree (Sandbox (reraised prefix e)) (Sandbox (reraised prefix e')).
Proof. intros [->|(x&x'&->&->&Hx)]; [by left|]. right. by exists x, x'. Qed.
End simulation.

(** ** Sandboxes that agree *)

Section sandboxes.
Context {W : Type} `{Net W} `{Streams W} `{Codecs} `{Dateutil} `{PydanticFields}.
Context (bytes_decode : string → list N → result string).

Record core_agree (a b : SandboxCore W) : Prop := {
  cg_id : sb_id a = sb_id b;
  cg_config : sb_connection_config a = sb_connection_config b;
  cg_sandboxes : sandboxes_agree (sb_sandbox_service a) (sb_sandbox_service b);
  cg_files : filesystem_agree (sb_filesystem_service a) (sb_filesystem_service b);
  cg_commands : commands_agree (sb_command_service a) (sb_command_service b);
  cg_services : services_agree (sb_health_service a) (sb_health_service b) (sb_metrics_service a) (sb_metrics_service b)
                  (sb_egress_service a) (sb_egress_service b) }.

Definition handle_agree (a b : SandboxHandle W) : Prop :=
  core_agree (sb_core a) (sb_core b) ∧ sb_custom_health_check a = sb_custom_health_check b.

(** A health check that cannot tell the two kinds of sandbox apart. *)
Definition check_respects (check : option (HealthCheck W)) : Prop :=
  match check with Some f => ∀ a b, core_agree a b → f a ≐ f b | None => True end.

Lemma sandbox_at_agrees config id e1 e2 check :
  handle_agree (sandbox_at bytes_decode config (create_sandbox_service config) id e1 e2 check)
    (sandbox_at_sync bytes_decode config (create_sandbox_service_sync config) id e1 e2 check).
Proof.
  split; [|done]. split; cbn; [done..| | | |].
  - apply lifecycle_agrees.
  - apply filesystem_agrees_at.
  - apply commands_agree_at.
  - unfold create_health_service, create_health_service_sync, create_metrics_service, create_metrics_service_sync,
      create_egress_service, create_egress_service_sync. rewrite !endpoint_clients_equal. apply services_agree_at.
Qed.

Lemma is_healthy_agrees sb sb' :
  handle_agree sb sb' → check_respects (sb_custom_health_check sb) → is_healthy sb ≐ is_healthy_sync sb'.
Proof.
  intros [Hc Hh] Hr. unfold is_healthy, is_healthy_sync. rewrite <-Hh. destruct (sb_custom_health_check sb) as [f|]; [by apply Hr|].
  unfold ping_sandbox. rewrite (cg_id _ _ Hc). apply sdk_try_proper; [|done]. apply (va_ping _ _ _ _ _ _ (cg_services _ _ Hc)).
Qed.

Lemma ready_loop_agrees sb sb' n deadline interval attempt last :
  (0 ≤ interval)%Z → is_healthy sb ≐ is_healthy_sync sb' →
  ready_loop sb n deadline interval attempt last ≐ ready_loop_sync sb' n deadline interval attempt last.
Proof.
  intros Hi Hh. revert attempt last. induction n as [|n IH]; intros attempt last; cbn [ready_loop ready_loop_sync]; [done|].
  assert (time_sleep interval ≐ sleep_us interval) as Hs.
  { intros w. unfold time_sleep. by rewrite (proj2 (Z.ltb_ge _ _) Hi). }
  apply Sdk_bind_proper; [|done]. intros now. destruct (negb _); [done|].
  apply Sdk_bind_proper; [|by apply attempted_proper].
  intros [[]|e]; [done|..]; apply Sdk_bind_proper; [by intros ?|by symmetry|by intros ?|by symmetry].
Qed.

Lemma check_ready_agrees sb sb' timeout interval :
  (0 ≤ interval)%Z → handle_agree sb sb' → check_respects (sb_custom_health_check sb) →
  sdk_sim eq (check_ready sb timeout interval) (check_ready_sync sb' timeout interval).
Proof.
  intros Hi Ha Hr. apply sim_bind_eq; [done|]. intros now.
  apply sim_bind_eq; [by apply ready_loop_agrees, is_healthy_agrees|]. intros [|attempt last|].
  - by apply sim_ret.
  - apply sim_raise. right. by eexists _, _.
  - apply sim_raise. by left.
Qed.

Lemma initialised_agrees config id check timeout interval skip :
  (0 ≤ interval)%Z → check_respects check →
  sdk_sim handle_agree (initialised bytes_decode config (create_sandbox_service config) id check timeout interval skip)
    (initialised_sync bytes_decode config (create_sandbox_service_sync config) id check timeout interval skip).
Proof.
  intros Hi Hr. pose proof (lifecycle_agrees (lifecycle_client (W:=W) config)) as Hs. unfold initialised, initialised_sync.
  apply sim_bind_eq; [apply (sa_endpoint _ _ Hs)|]. intros e1. apply sim_bind_eq; [apply (sa_endpoint _ _ Hs)|]. intros e2.
  apply (sim_bind eq); [|intros; apply sim_ret, sandbox_at_agrees].
  destruct skip; cbn [negb]; [by apply sim_ret|]. apply check_ready_agrees; [done|apply sandbox_at_agrees|done].
Qed.

Lemma closing_agrees config prefix e e' :
  exn_agree e e' → sdk_sim handle_agree (connection_failed prefix config e) (connection_failed_sync prefix config e').
Proof. intros He. apply sim_bind_eq; [done|]. intros _. by apply sim_raise, reraised_agree. Qed.

Lemma creation_failed_agrees config sandbox_id e e' :
  exn_agree e e' →
  sdk_sim handle_agree (creation_failed config (create_sandbox_service config) sandbox_id e)
    (creation_failed_sync config (create_sandbox_service_sync config) sandbox_id e').
Proof.
  intros He. pose proof (lifecycle_agrees (lifecycle_client (W:=W) config)) as Hs.
  unfold creation_failed, creation_failed_sync. apply sim_bind_eq.
  - unfold kill_zombie. destruct sandbox_id as [[|b i]|]; [done| |done]. apply sdk_quietly_proper, (sa_kill _ _ Hs).
  - intros _. by apply (closing_agrees config "Internal exception when creating sandbox: ").
Qed.

End sandboxes.

(** ** Where they differ *)

(** A key with a slash: the server sees it quoted. *)
Example filter_metadata_differs :
  metadata_param (Some [("team/name", "a b")]) = Some "team/name=a b" ∧
  metadata_param_sync (Some [("team/name", "a b")]) = Some "team%252Fname=a%2520b".
Proof. vm_compute. done. Qed.

(** A negative polling interval: an error for one, no pause for the other. *)
Example negative_interval_differs :
  (time_sleep (-1) demo_world).1 = Throw (PyError (PyException ValueError "sleep length must be non-negative")) ∧
  (sleep_us (-1) demo_world).1 = Return tt.
Proof. done. Qed.

(** ** Witness *)

