(* ===== verification/CodeInterpreter.v ===== *)
(** * The code interpreter client
      ([sdks/code-interpreter/python/src/code_interpreter/*.py],
      [opensandbox/api/execd/api/code_interpreting/*.py])

    A client on top of the sandbox client: contexts and code that runs in them, at the
    execd endpoint of a sandbox, asynchronous and blocking. *)

From Stdlib Require Import Ascii.
From S2P Require Import Prelude PyString PyDict PyTime PyFloat Json PyVal SdkBase SdkModels SdkApi SdkConfig SdkAdapter SdkExecdApi SdkCommands SdkExecution SdkFiles SdkSandbox SdkTrace SdkSync SdkSyncProofs.
Open Scope string_scope.
Open Scope list_scope.

(** ** The generated client *)

Record ApiCodeContext := { acc_language : pyval; acc_id : option pyval; acc_additional_properties : dict pyval }.
Definition code_context_to_dict (x : ApiCodeContext) : pyval :=
  PDict (set_opt "id" (acc_id x) (dupdate (dupdate [] (acc_additional_properties x)) [("language", acc_language x)])).
Definition code_context_from_dict (src : pyval) : result ApiCodeContext :=
  d ← as_dict src;
  '(language, d) ← pop "language" d;
  let '(id, d) := pop_opt "id" d in
  Ok {| acc_language := language; acc_id := id; acc_additional_properties := d |}.

Record ApiCodeContextRequest := { ccr_language : option pyval; ccr_additional_properties : dict pyval }.
Definition code_context_request_to_dict (r : ApiCodeContextRequest) : pyval :=
  PDict (set_opt "language" (ccr_language r) (dupdate [] (ccr_additional_properties r))).
Definition code_context_request_from_dict (src : pyval) : result ApiCodeContextRequest :=
  d ← as_dict src;
  let '(language, d) := pop_opt "language" d in
  Ok {| ccr_language := language; ccr_additional_properties := d |}.

Definition create_code_context_kwargs (b : ApiCodeContextRequest) : ApiKwargs := {|
  kw_method := "post"; kw_url := "/code/context"; kw_params := []; kw_json := Some (code_context_request_to_dict b);
  kw_headers := json_headers |}.
Definition get_context_kwargs (context_id : string) : ApiKwargs := get_kwargs "get" ("/code/contexts/" +:+ quote_all context_id).
Definition delete_context_kwargs (context_id : string) : ApiKwargs := get_kwargs "delete" ("/code/contexts/" +:+ quote_all context_id).

(** A call with one parameter in its query. *)
Definition query_kwargs (method url name value : string) : ApiKwargs := {|
  kw_method := method; kw_url := url; kw_params := drop_unset [(name, Some (PStr value))]; kw_json := None; kw_headers := [] |}.
Definition list_contexts_kwargs (language : string) : ApiKwargs := query_kwargs "get" "/code/contexts" "language" language.
Definition delete_contexts_by_language_kwargs (language : string) : ApiKwargs :=
  query_kwargs "delete" "/code/contexts" "language" language.
Definition interrupt_code_kwargs (id : string) : ApiKwargs := query_kwargs "delete" "/code" "id" id.

Section calls.
Context `{Codecs}.

Definition create_code_context_parse (c : ApiClient) : HttpResponse → outcome (option (Parsed ApiCodeContext)) :=
  parse_response c 200 (body code_context_from_dict) [400; 500]%Z.
Definition get_context_parse (c : ApiClient) : HttpResponse → outcome (option (Parsed ApiCodeContext)) :=
  parse_response c 200 (body code_context_from_dict) [404; 500]%Z.
Definition list_contexts_parse (c : ApiClient) : HttpResponse → outcome (option (Parsed (list ApiCodeContext))) :=
  parse_response c 200 (body (λ v, l ← iterate v; mapR code_context_from_dict l)) [400; 500]%Z.
Definition delete_context_parse (c : ApiClient) : HttpResponse → outcome (option (Parsed unit)) :=
  parse_response c 200 no_body [400; 404; 500]%Z.
Definition delete_contexts_by_language_parse (c : ApiClient) : HttpResponse → outcome (option (Parsed unit)) :=
  parse_response c 200 no_body [400; 500]%Z.
Definition interrupt_code_parse (c : ApiClient) : HttpResponse → outcome (option (Parsed unit)) :=
  parse_response c 200 no_body [400; 500]%Z.

Context {W : Type} `{Net W} (c : ApiClient).
Definition create_code_context_detailed (b : ApiCodeContextRequest) : Sdk W (ApiResponse ApiCodeContext) :=
  detailed c (create_code_context_kwargs b) create_code_context_parse.
Definition get_context_detailed (context_id : string) : Sdk W (ApiResponse ApiCodeContext) :=
  detailed c (get_context_kwargs context_id) get_context_parse.
Definition list_contexts_detailed (language : string) : Sdk W (ApiResponse (list ApiCodeContext)) :=
  detailed c (list_contexts_kwargs language) list_contexts_parse.
Definition delete_context_detailed (context_id : string) : Sdk W (ApiResponse unit) :=
  detailed c (delete_context_kwargs context_id) delete_context_parse.
Definition delete_contexts_by_language_detailed (language : string) : Sdk W (ApiResponse unit) :=
  detailed c (delete_contexts_by_language_kwargs language) delete_contexts_by_language_parse.
Definition interrupt_code_detailed (id : string) : Sdk W (ApiResponse unit) :=
  detailed c (interrupt_code_kwargs id) interrupt_code_parse.
End calls.

(** ** Models ([models/code.py], [models/code_sync.py]) *)

Definition PYTHON : string := "python".

Record CodeContext := { cx_id : option string; cx_language : string }.
Definition code_context `{Codecs} (id : option string) (language : string) : outcome CodeContext :=
  validated "CodeContext" [(truthy (strip language), "Language cannot be blank")] {| cx_id := id; cx_language := language |}.

(** [CodeContextSync] has the same fields. *)
Definition CodeContextSync : Type := CodeContext.
Definition code_context_sync `{Codecs} (id : option string) (language : string) : outcome CodeContextSync :=
  validated "CodeContextSync" [(truthy (strip language), "Language cannot be blank")] {| cx_id := id; cx_language := language |}.

(** ** The converter *)

Definition to_api_code_context (x : CodeContext) : pyval :=
  PDict (("language", PStr (cx_language x)) :: match cx_id x with Some ((String _ _) as i) => [("id", PStr i)] | _ => [] end).
Definition to_api_run_code_request (code : string) (context : option CodeContext) : pyval :=
  PDict (("code", PStr code) :: match context with Some x => [("context", to_api_code_context x)] | None => [] end).

Section converter.
Context `{Codecs} `{PydanticFields}.

Definition from_api_code_context (x : ApiCodeContext) : outcome CodeContext :=
  id ← match acc_id x with Some v => field_of "CodeContext" (nullable pf_str) v | None => Return None end;
  language ← field_of "CodeContext" pf_str (acc_language x);
  code_context id language.

Definition from_api_code_context_dict (d : dict pyval) : outcome CodeContext :=
  id ← field_of "CodeContext" (nullable pf_str) (dget_default "id" PNone d);
  language ← field_of "CodeContext" pf_str (dget_default "language" (PStr "python") d);
  code_context id language.
End converter.

(** ** Events *)

Section events.
Context {W : Type} `{Net W} `{Codecs} `{PydanticFields}.

(** The error event that is made of an [ErrorResponse] in the stream. *)
Definition error_event (timestamp : Z) (d : dict pyval) : pyval := PDict
  [("type", PStr "error"); ("timestamp", PInt timestamp);
   ("error", PDict [("ename", PStr (vstr (dget_default "code" PNone d))); ("evalue", PStr (vstr (dget_default "message" PNone d)));
                    ("traceback", PList [])])].

(** [_normalize_sse_event]; what is no dictionary cannot become an event either way. *)
Definition normalize_sse_event (v : pyval) : Sdk W pyval :=
  match v with
  | PDict d =>
      if dmem "type" d && dmem "timestamp" d then mret v
      else if dmem "code" d && dmem "message" d then
        now ← now_us;
        timestamp ← liftO (of_result (int_milliseconds now));
        mret (error_event timestamp d)
      else mret v
  | _ => mret v
  end.

Definition parse_data (data : string) : outcome pyval :=
  match loads data with
  | None => Throw (PyError (PyException ValueError (json_error data)))
  | Some j => Return (of_json j)
  end.

Context (handlers : option (ExecutionHandlers W)).

(** One line of the stream. *)
Definition handle_code_line (line : string) : Sdk (Execution * W) unit :=
  if negb (truthy (strip line)) then mret tt
  else sdk_try (
    v ← liftO (parse_data (line_data line));
    event_dict ← in_user (normalize_sse_event v);
    ev ← liftO (event_node event_dict);
    dispatch handlers ev) (λ _, mret tt).

Fixpoint handle_code_lines (lines : list string) : Sdk (Execution * W) unit :=
  match lines with
  | [] => mret tt
  | line :: lines' => handle_code_line line;; handle_code_lines lines'
  end.
End events.

(** ** The adapter ([adapters/code_adapter.py]) *)

Record Codes (W : Type) := {
  cd_create_context : string → Sdk W CodeContext;
  cd_get_context : string → Sdk W CodeContext;
  cd_list_contexts : string → Sdk W (list CodeContext);
  cd_delete_context : string → Sdk W unit;
  cd_delete_contexts : string → Sdk W unit;
  cd_run : string → option string → option CodeContext → option (ExecutionHandlers W) → Sdk W Execution;
  cd_interrupt : string → Sdk W unit }.
Arguments cd_create_context {W} _.
Arguments cd_get_context {W} _.
Arguments cd_list_contexts {W} _.
Arguments cd_delete_context {W} _.
Arguments cd_delete_contexts {W} _.
Arguments cd_run {W} _.
Arguments cd_interrupt {W} _.

(** [context.language != language] of two that are given *)
Definition language_mismatch (language : option string) (context : option CodeContext) : option sexn :=
  match context, language with
  | Some x, Some l =>
      if bool_decide (cx_language x = l) then None
      else Some (Sandbox (invalid_argument_exception
                   ("language '" +:+ l +:+ "' must match context.language '" +:+ cx_language x +:+ "'")))
  | _, _ => None
  end.

Section adapter.
Context {W : Type} `{Net W} `{Streams W} `{Codecs} `{PydanticFields}.
Context (config : ConnectionConfig) (execd_endpoint : SandboxEndpoint).

Definition RUN_CODE_PATH : string := "/code".
Definition code_client : ApiClient := endpoint_client config execd_endpoint.

Definition create_context (language : string) : Sdk W CodeContext :=
  converting (
    response_obj ← create_code_context_detailed code_client {| ccr_language := Some (PStr language); ccr_additional_properties := [] |};
    parsed ← liftO (checked response_obj "Create code context" "Create code context");
    liftO (from_api_code_context parsed)).

Definition get_context (context_id : string) : Sdk W CodeContext :=
  converting (
    response_obj ← get_context_detailed code_client context_id;
    parsed ← liftO (checked response_obj "Get code context" "Get code context");
    liftO (from_api_code_context parsed)).

Definition list_contexts (language : string) : Sdk W (list CodeContext) :=
  converting (
    response_obj ← list_contexts_detailed code_client language;
    parsed_list ← liftO (checked response_obj "List code contexts" "List code contexts");
    liftO (mapO from_api_code_context parsed_list)).

Definition delete_context (context_id : string) : Sdk W unit :=
  converting (
    response_obj ← delete_context_detailed code_client context_id;
    liftO (handle_api_error response_obj "Delete code context")).

Definition delete_contexts (language : string) : Sdk W unit :=
  converting (
    response_obj ← delete_contexts_by_language_detailed code_client language;
    liftO (handle_api_error response_obj "Delete code contexts by language")).

Definition run_code_request (json_body : pyval) : HttpRequest := {|
  hr_method := "POST"; hr_url := endpoint_url config (se_endpoint execd_endpoint) RUN_CODE_PATH; hr_params := [];
  hr_headers := lower_keys (sse_headers config execd_endpoint); hr_body := JsonPayload json_body |}.

Definition consume_code (handlers : option (ExecutionHandlers W)) (s : StreamResponse) : Sdk W Execution := λ w,
  let '(_, (execution, w')) := handle_code_lines handlers (stm_lines s) (empty_execution, w) in
  match stm_end s with Some e => (Throw e, w') | None => (Return execution, w') end.

Definition run_code_failed (r : HttpResponse) : SandboxException :=
  sandbox_api_exception ("Failed to run code. Status code: " +:+ str_of_Z (rs_status r)) (Some (rs_status r)) None
    (extract_request_id (rs_headers r)).

(** The context of a run: the one that is given, or a new one for the language. *)
Definition context_for (language : option string) (context : option CodeContext) : outcome CodeContext :=
  match context with Some x => Return x | None => code_context None (or_else language PYTHON) end.

Definition run_code (code : string) (language : option string) (context : option CodeContext)
    (handlers : option (ExecutionHandlers W)) : Sdk W Execution :=
  if negb (truthy (strip code)) then raise_sandbox (invalid_argument_exception "Code cannot be empty")
  else converting (
    match language_mismatch language context with Some e => throw e | None => mret tt end;;
    context ← liftO (context_for language context);
    response ← n_stream (run_code_request (to_api_run_code_request code (Some context)));
    if negb (rs_status (stm_response response) =? 200)%Z then raise_sandbox (run_code_failed (stm_response response))
    else consume_code handlers response).

Definition interrupt_code (execution_id : string) : Sdk W unit :=
  converting (
    response_obj ← interrupt_code_detailed code_client execution_id;
    liftO (handle_api_error response_obj "Interrupt code execution")).

Definition codes_adapter : Codes W := {|
  cd_create_context := create_context; cd_get_context := get_context; cd_list_contexts := list_contexts;
  cd_delete_context := delete_context; cd_delete_contexts := delete_contexts; cd_run := run_code; cd_interrupt := interrupt_code |}.
End adapter.

(** ** The interpreter ([code_interpreter.py], [adapters/factory.py]) *)

Record CodeInterpreter (W : Type) := { ci_sandbox : SandboxHandle W; ci_code_service : Codes W }.
Arguments ci_sandbox {W} _.
Arguments ci_code_service {W} _.

Section interpreter.
Context {W : Type} `{Net W} `{Streams W} `{Codecs} `{PydanticFields}.
Implicit Types ci : CodeInterpreter W.

Definition create_code_execution_service (connection_config : ConnectionConfig) (e : SandboxEndpoint) : Codes W :=
  codes_adapter connection_config e.

Definition interpreter_create (sandbox : option (SandboxHandle W)) : Sdk W (CodeInterpreter W) :=
  match sandbox with
  | None => raise_sandbox (invalid_argument_exception "Sandbox instance must be provided")
  | Some sb =>
      sdk_try (
        e ← get_endpoint sb DEFAULT_EXECD_PORT;
        mret {| ci_sandbox := sb; ci_code_service := create_code_execution_service (sandbox_config sb) e |})
        (λ e, raise_sandbox (reraised "Failed to create code interpreter: " e))
  end.

Definition interpreter_id ci : string := sb_id (sb_core (ci_sandbox ci)).
Definition interpreter_files ci : Filesystem W := files (ci_sandbox ci).
Definition interpreter_commands ci : Commands W := commands (ci_sandbox ci).
Definition interpreter_metrics ci : Metrics W := metrics (ci_sandbox ci).
Definition codes ci : Codes W := ci_code_service ci.
End interpreter.

(** ** The blocking interpreter ([sync/adapters/code_adapter.py], [sync/code_interpreter.py]) *)

Section sync_events.
Context {W : Type} `{Net W} `{Codecs} `{PydanticFields}.

Definition normalize_sse_event_sync (v : pyval) : Sdk W pyval :=
  match v with
  | PDict d =>
      if dmem "type" d && dmem "timestamp" d then mret v
      else if dmem "code" d && dmem "message" d then
        now ← now_us;
        timestamp ← liftO (of_result (int_milliseconds now));
        mret (error_event timestamp d)
      else mret v
  | _ => mret v
  end.

Context (handlers : option (ExecutionHandlers W)).

Definition handle_code_line_sync (line : string) : Sdk (Execution * W) unit :=
  if negb (truthy line) || negb (truthy (strip line)) then mret tt
  else sdk_try (
    v ← liftO (parse_data (line_data line));
    event_dict ← in_user (normalize_sse_event_sync v);
    ev ← liftO (event_node event_dict);
    dispatch_sync handlers ev) (λ _, mret tt).

Fixpoint handle_code_lines_sync (lines : list string) : Sdk (Execution * W) unit :=
  match lines with
  | [] => mret tt
  | line :: lines' => handle_code_line_sync line;; handle_code_lines_sync lines'
  end.
End sync_events.

Section sync_adapter.
Context {W : Type} `{Net W} `{Streams W} `{Codecs} `{PydanticFields}.
Context (config : ConnectionConfigSync) (execd_endpoint : SandboxEndpoint).

(** The headers of both clients: those of the endpoint are not among them. *)
Definition code_headers_sync : dict string := dupdate [("User-Agent", cc_user_agent config)] (cc_headers config).
Definition code_client_sync : ApiClient := {|
  ac_base_url := cc_protocol config +:+ "://" +:+ se_endpoint execd_endpoint;
  ac_headers := code_headers_sync; ac_raise_on_unexpected_status := false |}.

Definition to_context_sync (x : ApiCodeContext) : outcome CodeContextSync :=
  id ← match acc_id x with Some v => field_of "CodeContextSync" (nullable pf_str) v | None => Return None end;
  language ← field_of "CodeContextSync" pf_str (acc_language x);
  code_context_sync id language.

Definition create_context_sync (language : string) : Sdk W CodeContextSync :=
  converting (
    response_obj ← create_code_context_detailed code_client_sync
      {| ccr_language := Some (PStr language); ccr_additional_properties := [] |};
    liftO (handle_api_error response_obj "Create code context");;
    parsed ← liftO (require_parsed response_obj "Create code context");
    liftO (to_context_sync parsed)).

Definition get_context_sync (context_id : string) : Sdk W CodeContextSync :=
  converting (
    response_obj ← get_context_detailed code_client_sync context_id;
    liftO (handle_api_error response_obj "Get code context");;
    parsed ← liftO (require_parsed response_obj "Get code context");
    liftO (to_context_sync parsed)).

Definition list_contexts_sync (language : string) : Sdk W (list CodeContextSync) :=
  converting (
    response_obj ← list_contexts_detailed code_client_sync language;
    liftO (handle_api_error response_obj "List code contexts");;
    parsed_list ← liftO (require_parsed response_obj "List code contexts");
    liftO (mapO to_context_sync parsed_list)).

Definition delete_context_sync (context_id : string) : Sdk W unit :=
  converting (
    response_obj ← delete_context_detailed code_client_sync context_id;
    liftO (handle_api_error response_obj "Delete code context")).

Definition delete_contexts_sync (language : string) : Sdk W unit :=
  converting (
    response_obj ← delete_contexts_by_language_detailed code_client_sync language;
    liftO (handle_api_error response_obj "Delete code contexts by language")).

Definition run_code_request_sync (json_body : pyval) : HttpRequest := {|
  hr_method := "POST"; hr_url := cc_protocol config +:+ "://" +:+ se_endpoint execd_endpoint +:+ "/code"; hr_params := [];
  hr_headers := lower_keys (dset "Cache-Control" "no-cache" (dset "Accept" "text/event-stream" code_headers_sync));
  hr_body := JsonPayload json_body |}.

Definition run_code_body_sync (code : string) (context : CodeContextSync) : pyval :=
  PDict [("code", PStr code);
         ("context", PDict (("language", PStr (cx_language context)) ::
            match cx_id context with Some ((String _ _) as i) => [("id", PStr i)] | _ => [] end))].

Definition consume_code_sync (handlers : option (ExecutionHandlers W)) (s : StreamResponse) : Sdk W Execution := λ w,
  let '(_, (execution, w')) := handle_code_lines_sync handlers (stm_lines s) (empty_execution, w) in
  match stm_end s with Some e => (Throw e, w') | None => (Return execution, w') end.

Definition context_for_sync (language : option string) (context : option CodeContextSync) : outcome CodeContextSync :=
  match context with Some x => Return x | None => code_context_sync None (or_else language PYTHON) end.

Definition run_code_sync (code : string) (language : option string) (context : option CodeContextSync)
    (handlers : option (ExecutionHandlers W)) : Sdk W Execution :=
  if negb (truthy (strip code)) then raise_sandbox (invalid_argument_exception "Code cannot be empty")
  else converting (
    match language_mismatch language context with Some e => throw e | None => mret tt end;;
    context ← liftO (context_for_sync language context);
    response ← n_stream (run_code_request_sync (run_code_body_sync code context));
    if negb (rs_status (stm_response response) =? 200)%Z then
      raise_sandbox (sandbox_api_exception
        ("Failed to run code. Status code: " +:+ str_of_Z (rs_status (stm_response response)))
        (Some (rs_status (stm_response response))) None (extract_request_id (rs_headers (stm_response response))))
    else consume_code_sync handlers response).

Definition interrupt_code_sync (execution_id : string) : Sdk W unit :=
  converting (
    response_obj ← interrupt_code_detailed code_client_sync execution_id;
    liftO (handle_api_error response_obj "Interrupt code execution")).

Definition codes_adapter_sync : Codes W := {|
  cd_create_context := create_context_sync; cd_get_context := get_context_sync; cd_list_contexts := list_contexts_sync;
  cd_delete_context := delete_context_sync; cd_delete_contexts := delete_contexts_sync; cd_run := run_code_sync;
  cd_interrupt := interrupt_code_sync |}.

End sync_adapter.

Section sync_interpreter.
Context {W : Type} `{Net W} `{Streams W} `{Codecs} `{PydanticFields}.

Definition create_code_execution_service_sync (connection_config : ConnectionConfigSync) (e : SandboxEndpoint) : Codes W :=
  codes_adapter_sync connection_config e.

Definition interpreter_create_sync (sandbox : option (SandboxHandle W)) : Sdk W (CodeInterpreter W) :=
  match sandbox with
  | None => raise_sandbox (invalid_argument_exception "Sandbox instance must be provided")
  | Some sb =>
      sdk_try (
        e ← get_endpoint_sync sb DEFAULT_EXECD_PORT;
        mret {| ci_sandbox := sb; ci_code_service := create_code_execution_service_sync (sandbox_config sb) e |})
        (λ e, raise_sandbox (reraised "Failed to create code interpreter: " e))
  end.
End sync_interpreter.

(** ** What a run returns *)

(** The event that a line holds when it is read at a time. *)
Definition code_event `{Codecs} `{PydanticFields} (now : Z) (line : string) : option EventNode :=
  if negb (truthy (strip line)) then None
  else match parse_data (line_data line) with
  | Return (PDict d) =>
      let ev :=
        if dmem "type" d && dmem "timestamp" d then Some (PDict d)
        else if dmem "code" d && dmem "message" d then
          match int_milliseconds now with Ok t => Some (error_event t d) | Raise _ => None end
        else Some (PDict d) in
      match event_node <$> ev with Some (Return ev) => Some ev | _ => None end
  | _ => None
  end.

(** The events of the lines, each read at its time. *)
Definition code_events `{Codecs} `{PydanticFields} (times : list Z) (lines : list string) : list EventNode :=
  omap (λ tl : Z * string, code_event tl.1 tl.2) (zip times lines).

Section collecting.
Context {W : Type} `{Net W} `{Streams W} `{Codecs} `{PydanticFields}.
Context (handlers : option (ExecutionHandlers W)).

Lemma handle_code_line_collected line evs w :
  ∃ t w', handle_code_line handlers line (collected evs, w) = (Return tt, (collected (evs ++ option_list (code_event t line)), w')).
Proof.
  unfold handle_code_line. destruct (truthy (strip line)) eqn:Hl; cbn [negb].
  2:{ exists 0%Z, w. unfold code_event. by rewrite Hl, app_nil_r. }
  assert (∀ (ev : EventNode) w1, ∃ w2, sdk_try (dispatch handlers ev) (λ _, mret tt) (collected evs, w1)
    = (Return tt, (collected (evs ++ [ev]), w2))) as Hd.
  { intros ev w1. unfold sdk_try. destruct (dispatch_collected handlers evs ev w1) as (r&w2&->).
    exists w2. by destruct r as [[]|]. }
  destruct (parse_data (line_data line)) as [v|x] eqn:Hp.
  2:{ exists 0%Z, w. unfold code_event, sdk_try, mbind, Sdk_bind, liftO. by rewrite Hl, Hp, app_nil_r. }
  destruct (n_time w) as [now w1] eqn:Ht. exists now.
  unfold code_event. rewrite Hl, Hp. cbn [negb].
  unfold sdk_try in *. unfold mbind, Sdk_bind, liftO, in_user, normalize_sse_event.
  destruct v as [| | | | | |d]; try (exists w; by rewrite app_nil_r). generalize event_node. intros node.
  destruct (dmem "type" d && dmem "timestamp" d).
  { cbn. destruct (node (PDict d)) as [ev|x]; [apply Hd|exists w; by rewrite app_nil_r]. }
  destruct (dmem "code" d && dmem "message" d).
  - unfold now_us, mbind, Sdk_bind. cbn. rewrite Ht. destruct (int_milliseconds now) as [t|x]; cbn; [|exists w1; by rewrite app_nil_r].
    destruct (node (error_event t d)) as [ev|x]; [apply Hd|exists w1; by rewrite app_nil_r].
  - cbn. destruct (node (PDict d)) as [ev|x]; [apply Hd|exists w; by rewrite app_nil_r].
Qed.

Lemma handle_code_lines_collected lines evs w :
  ∃ times w', length times = length lines ∧
    handle_code_lines handlers lines (collected evs, w) = (Return tt, (collected (evs ++ code_events times lines), w')).
Proof.
  revert evs w. induction lines as [|line lines IH]; intros evs w.
  { exists [], w. cbn. by rewrite app_nil_r. }
  destruct (handle_code_line_collected line evs w) as (t&w1&Hw1).
  destruct (IH (evs ++ option_list (code_event t line)) w1) as (times&w2&Hn&Hw2).
  exists (t :: times), w2. split; [cbn; by rewrite Hn|].
  cbn [handle_code_lines]. unfold mbind at 1, Sdk_bind at 1. rewrite Hw1, Hw2, <-app_assoc.
  unfold code_events. cbn. by destruct (code_event t line).
Qed.
End collecting.

Section running.
Context {W : Type} `{Net W} `{Streams W} `{Codecs} `{PydanticFields}.
Context (config : ConnectionConfig) (execd_endpoint : SandboxEndpoint).

(** Code that execd runs to the end returns an [Execution] that holds exactly the events of
    the stream, in their order, an [ErrorResponse] among them as the error it is; the code
    goes out with the context that is given, or a new one of the language, or of Python. *)
Theorem run_code_collects handlers code language context x s w w1 :
  truthy (strip code) = true →
  language_mismatch language context = None →
  context_for language context = Return x →
  n_stream (run_code_request config execd_endpoint (to_api_run_code_request code (Some x))) w = (Return s, w1) →
  rs_status (stm_response s) = 200%Z → stm_end s = None →
  ∃ times w', length times = length (stm_lines s) ∧
    run_code config execd_endpoint code language context handlers w = (Return (collected (code_events times (stm_lines s))), w').
Proof.
  intros Hc Hm Hx Hs Hst He. unfold run_code. rewrite Hc, Hm, Hx. cbn [negb].
  unfold converting, sdk_try, mbind, Sdk_bind, liftO, mret, Sdk_ret. rewrite Hs, Hst.
  change (negb (200 =? 200)%Z) with false. cbn iota. unfold consume_code. change empty_execution with (collected []).
  destruct (handle_code_lines_collected handlers (stm_lines s) [] w1) as (times&w2&Hn&->). rewrite He. by exists times, w2.
Qed.

(** What is refused before anything is sent. *)
Lemma run_code_refused handlers code language context w :
  truthy (strip code) = false ∨ is_Some (language_mismatch language context) ∨
    (context = None ∧ truthy (strip (or_else language PYTHON)) = false) →
  ∃ x, run_code config execd_endpoint code language context handlers w = (Throw (Sandbox x), w) ∧
       se_class x = InvalidArgumentException.
Proof.
  intros Hr. unfold run_code. destruct (truthy (strip code)) eqn:Hc; cbn [negb]; [|by eexists].
  destruct Hr as [?|[Hm|[-> Hl]]]; [done| |].
  - unfold language_mismatch in *. destruct context as [x|], language as [l|]; try by destruct Hm.
    case_bool_decide; [by destruct Hm|]. by eexists.
  - cbn [language_mismatch context_for]. unfold code_context, validated. rewrite Hl. by eexists.
Qed.
End running.

(** The error event of an [ErrorResponse]. *)
Lemma error_response_event `{Codecs} `{PydanticLaws} now t line d code message :
  truthy (strip line) = true → parse_data (line_data line) = Return (PDict d) →
  dmem "type" d && dmem "timestamp" d = false → dget "code" d = Some code → dget "message" d = Some message →
  int_milliseconds now = Ok t →
  ∃ ev, code_event now line = Some ev ∧ ev_type ev = "error" ∧
    event_error ev = Some {| ee_name := vstr code; ee_value := vstr message; ee_timestamp := t; ee_traceback := [] |}.
Proof.
  intros Hl Hp Ht Hc Hm Hn. unfold code_event. rewrite Hl, Hp, Ht. cbn [negb]. unfold dmem at 1 2. rewrite Hc, Hm, Hn.
  assert (∀ s, pf_str (PStr s) = Some s) as Hs by (intros s; by apply pf_str_spec).
  cbn. unfold error_event, dget_default. rewrite Hc, Hm. cbn.
  unfold event_node, required, optional, field_of, read_error, read_opt. cbn.
  repeat (first [rewrite decide_True by done|rewrite decide_False by done|rewrite Hs|rewrite pf_int_int]; cbn). by eexists.
Qed.

(** ** The two interpreters *)

(** The two models are refused alike, each with its own name in the message. *)
Definition text_agree (e e' : sexn) : Prop :=
  e = e' ∨ (∃ t t', e = ValidationError t ∧ e' = ValidationError t') ∨
  ∃ t t', e = Sandbox (invalid_argument_exception t) ∧ e' = Sandbox (invalid_argument_exception t').

Definition agree {A} (r r' : outcome A) : Prop :=
  match r, r' with Return a, Return b => a = b | Throw e, Throw e' => text_agree e e' | _, _ => False end.

(** The same is done to the world, and what comes back agrees. *)
Definition code_sim {W A} (m m' : Sdk W A) : Prop := ∀ w, (m w).2 = (m' w).2 ∧ agree (m w).1 (m' w).1.

Section code_sim.
Context {W : Type} `{Codecs}.

Lemma agree_refl {A} (r : outcome A) : agree r r.
Proof. destruct r; [done|by left]. Qed.
Lemma code_sim_eq {A} (m m' : Sdk W A) : m ≐ m' → code_sim m m'.
Proof. intros Hm w. rewrite (Hm w). split; [done|apply agree_refl]. Qed.
Lemma code_sim_trans {A} (m m1 m' : Sdk W A) : m ≐ m1 → code_sim m1 m' → code_sim m m'.
Proof. intros Hm Hs w. rewrite (Hm w). apply Hs. Qed.
Lemma code_sim_liftO {A} (r r' : outcome A) : agree r r' → code_sim (W:=W) (liftO r) (liftO r').
Proof. intros Hr w. done. Qed.
Lemma code_sim_bind {A B} (m m' : Sdk W A) (k k' : A → Sdk W B) :
  code_sim m m' → (∀ a, code_sim (k a) (k' a)) → code_sim (m ≫= k) (m' ≫= k').
Proof.
  intros Hm Hk w. specialize (Hm w). unfold mbind, Sdk_bind. destruct (m w) as [r w1], (m' w) as [r' w1']. cbn in Hm.
  destruct Hm as [-> Hr]. destruct r as [a|e], r' as [b|e']; cbn in Hr; [subst b; apply Hk|done..].
Qed.
Lemma code_sim_converting {A} (m m' : Sdk W A) : code_sim m m' → code_sim (converting m) (converting m').
Proof.
  intros Hm w. specialize (Hm w). unfold converting, sdk_try. destruct (m w) as [r w1], (m' w) as [r' w1']. cbn in Hm.
  destruct Hm as [-> Hr]. destruct r as [a|e], r' as [b|e']; cbn in Hr; try done. cbn. split; [done|].
  destruct Hr as [->|[(t&t'&->&->)|(t&t'&->&->)]]; [by left| |]; right; right; do 2 eexists; done.
Qed.
End code_sim.

Section outcomes.
Context `{Codecs} `{PydanticFields}.

Lemma agree_bind {A B} (r r' : outcome A) (k k' : A → outcome B) :
  agree r r' → (∀ a, agree (k a) (k' a)) → agree (r ≫= k) (r' ≫= k').
Proof. destruct r, r'; cbn; intros Hr Hk; [subst; apply Hk|done..]. Qed.
Lemma agree_mapO {A B} (f g : A → outcome B) l : (∀ x, agree (f x) (g x)) → agree (mapO f l) (mapO g l).
Proof.
  intros Hf. induction l as [|x l IH]; cbn [mapO]; [done|]. apply agree_bind; [done|]. intros y.
  apply agree_bind; [done|]. done.
Qed.
Lemma field_of_agree {A} m m' (read : pyval → option A) v : agree (field_of m read v) (field_of m' read v).
Proof. unfold field_of. destruct (read v); [done|]. right; left. by do 2 eexists. Qed.
Lemma validated_agree {A} m m' checks (a : A) : agree (validated m checks a) (validated m' checks a).
Proof. unfold validated. destruct (failures checks); [done|]. right; left. by do 2 eexists. Qed.
Lemma contexts_agree x : agree (from_api_code_context x) (to_context_sync x).
Proof.
  apply agree_bind; [destruct (acc_id x); [apply field_of_agree|done]|]. intros id.
  apply agree_bind; [apply field_of_agree|]. intros language. apply validated_agree.
Qed.
Lemma context_for_agree language context : agree (context_for language context) (context_for_sync language context).
Proof. destruct context; [done|]. apply validated_agree. Qed.
End outcomes.

Section interpreters.
Context {W : Type} `{Net W} `{Streams W} `{Codecs} `{PydanticFields}.

(** What the user of one interpreter may rely on of the other. *)
Record codes_agree (a b : Codes W) : Prop := {
  da_create : ∀ l, code_sim (cd_create_context a l) (cd_create_context b l);
  da_get : ∀ id, code_sim (cd_get_context a id) (cd_get_context b id);
  da_list : ∀ l, code_sim (cd_list_contexts a l) (cd_list_contexts b l);
  da_delete : ∀ id, code_sim (cd_delete_context a id) (cd_delete_context b id);
  da_delete_all : ∀ l, code_sim (cd_delete_contexts a l) (cd_delete_contexts b l);
  da_run : ∀ c l x h, code_sim (cd_run a c l x h) (cd_run b c l x h);
  da_interrupt : ∀ id, code_sim (cd_interrupt a id) (cd_interrupt b id) }.

(** The endpoint without the headers that a request through it needs. *)
Definition without_headers (e : SandboxEndpoint) : SandboxEndpoint := {| se_endpoint := se_endpoint e; se_headers := [] |}.

Lemma code_clients_equal config e : code_client_sync config e = code_client config (without_headers e).
Proof. unfold code_client_sync, code_client, endpoint_client, endpoint_url. cbn. by rewrite str_app_nil_r. Qed.

Lemma handle_code_lines_agree (handlers : option (ExecutionHandlers W)) lines :
  handle_code_lines_sync handlers lines ≐ handle_code_lines handlers lines.
Proof.
  induction lines as [|line lines IH]; cbn; [done|]. apply Sdk_bind_proper; [by intros ?|].
  intros s. unfold handle_code_line_sync, handle_code_line. by destruct line.
Qed.

Lemma run_code_agrees config e code language context (handlers : option (ExecutionHandlers W)) :
  code_sim (run_code config (without_headers e) code language context handlers)
    (run_code_sync config e code language context handlers).
Proof.
  unfold run_code, run_code_sync. destruct (truthy (strip code)); cbn [negb]; [|by apply code_sim_eq].
  apply code_sim_converting, code_sim_bind; [by apply code_sim_eq|]. intros _.
  apply code_sim_bind; [apply code_sim_liftO, context_for_agree|]. intros x.
  apply code_sim_bind; [by apply code_sim_eq|]. intros response. apply code_sim_eq.
  destruct (_ =? 200)%Z; [|done]. cbn [negb]. intros w. unfold consume_code, consume_code_sync.
  by rewrite (handle_code_lines_agree handlers (stm_lines response) _).
Qed.

(** C22: At every endpoint the blocking interpreter sends and returns what the asynchronous one
    does at the same address without the headers of the endpoint. *)
Theorem sync_interpreter_agrees config e :
  codes_agree (codes_adapter config (without_headers e)) (codes_adapter_sync config e).
Proof.
  split; intros; cbn; [..|apply run_code_agrees|].
  all: unfold create_context, create_context_sync, get_context, get_context_sync, list_contexts, list_contexts_sync,
    delete_context, delete_context_sync, delete_contexts, delete_contexts_sync, interrupt_code, interrupt_code_sync;
    rewrite code_clients_equal; try by apply code_sim_eq.
  all: apply code_sim_converting, code_sim_bind; [by apply code_sim_eq|]; intros response.
  all: eapply code_sim_trans; [apply checked_in_turn|].
  all: apply code_sim_bind; [by apply code_sim_eq|]; intros _.
  all: apply code_sim_bind; [by apply code_sim_eq|]; intros parsed; apply code_sim_liftO.
  3: apply agree_mapO. all: intros; apply contexts_agree.
Qed.

(** Both interpreters ask for the endpoint of execd, and fail alike. *)
Lemma interpreter_create_refused (w : W) :
  interpreter_create None w = interpreter_create_sync None w ∧
  ∃ x, interpreter_create None w = (Throw (Sandbox x), w) ∧ se_class x = InvalidArgumentException.
Proof. split; [done|]. by eexists. Qed.
End interpreters.

(** ** In the simulated world *)

(** An endpoint that is reached through the server with a header. *)
Definition proxied_endpoint : SandboxEndpoint := {|
  se_endpoint := "gateway:8080"; se_headers := [("OpenSandbox-Ingress-To", "sbx-1-44772")] |}.

Definition code_lines : list string :=
  [dumps (PDict [("type", PStr "init"); ("text", PStr "run-1"); ("timestamp", PInt 1)]);
   "data: " +:+ dumps (PDict [("type", PStr "stdout"); ("text", PStr "4"); ("timestamp", PInt 2)]);
   dumps (PDict [("code", PStr "RUNTIME_ERROR"); ("message", PStr "kernel died")])].

Definition code_world : SimNet := sim_start (λ _ _, Return (text_answer 200 ""))
  (Return {| stm_response := text_answer 200 ""; stm_lines := code_lines; stm_end := None |}).

Lemma run_code_collects_witness : ∃ times w', length times = 3 ∧
  run_code default_config proxied_endpoint "2+2" None None (Some raising_handlers) code_world
  = (Return (collected (code_events times code_lines)), w').
Proof.
  apply (run_code_collects default_config proxied_endpoint (Some raising_handlers) "2+2" None None
    {| cx_id := None; cx_language := "python" |}
    {| stm_response := text_answer 200 ""; stm_lines := code_lines; stm_end := None |} code_world
    (sim_sent (run_code_request default_config proxied_endpoint
      (to_api_run_code_request "2+2" (Some {| cx_id := None; cx_language := "python" |}))) code_world)); reflexivity.
Defined.

(** The blocking interpreter leaves out the header of the endpoint, the other sends it. *)
Example sync_interpreter_drops_headers :
  (dget "opensandbox-ingress-to" ∘ hr_headers <$>
     sn_sent (run_code default_config proxied_endpoint "2+2" None None None code_world).2) = [Some "sbx-1-44772"] ∧
  (dget "opensandbox-ingress-to" ∘ hr_headers <$>
     sn_sent (run_code_sync default_config proxied_endpoint "2+2" None None None code_world).2) = [None].
Proof. split; vm_compute; reflexivity. Qed.
