(* ===== verification/McpServer.v ===== *)
(** * The MCP server
      ([sdks/mcp/sandbox/python/src/opensandbox_mcp/server.py], [__main__.py])

    Tools over the Python client: a registry of the sandboxes that were made or connected
    to, and one operation per tool.  The state is the registry with the configuration that
    all clients share; a tool is a step of the registry and the world.  The tools run one
    after the other here: the interleaving of tools that wait, and the lock around one
    access to the registry, are not modelled. *)

From Stdlib Require Import Ascii.
From stdpp Require Import gmap strings.
From S2P Require Import Prelude PyString PyDict PyTime PyFloat Json PyVal SdkBase SdkModels SdkApi SdkConfig SdkAdapter SdkExecdApi SdkCommands SdkExecution SdkFiles SdkSandbox SdkTrace SdkSandboxProofs.
Open Scope string_scope.
Open Scope list_scope.

(** ** The state *)

Record ServerState (W : Type) := {
  st_sandboxes : gmap string (SandboxHandle W);
  st_connection_config : ConnectionConfig }.
Arguments st_sandboxes {W} _.
Arguments st_connection_config {W} _.

(** [ctx.report_progress] *)
Definition progress_context (W : Type) : Type := pyval → pyval → string → Sdk W unit.

Record DirectoryEntryInput := { di_path : string; di_mode : Z; di_owner : option string; di_group : option string }.

(** The registry and the world. *)
Definition McpWorld (W : Type) : Type := ServerState W * W.

Section state.
Context {W : Type}.
(** A step of the world alone. *)
Definition in_world {A} (m : Sdk W A) : Sdk (McpWorld W) A := λ s, let '(r, w) := m s.2 in (r, (s.1, w)).

Definition with_sandboxes (f : gmap string (SandboxHandle W) → gmap string (SandboxHandle W)) (st : ServerState W)
    : ServerState W := {| st_sandboxes := f (st_sandboxes st); st_connection_config := st_connection_config st |}.

Definition state_add (sb : SandboxHandle W) : Sdk (McpWorld W) unit := λ s,
  (Return tt, (with_sandboxes (<[sb_id (sb_core sb) := sb]>) s.1, s.2)).
Definition state_get (sandbox_id : string) : Sdk (McpWorld W) (option (SandboxHandle W)) := λ s,
  (Return (st_sandboxes s.1 !! sandbox_id), s).
Definition state_remove (sandbox_id : string) : Sdk (McpWorld W) (option (SandboxHandle W)) := λ s,
  (Return (st_sandboxes s.1 !! sandbox_id), (with_sandboxes (delete sandbox_id) s.1, s.2)).
Definition state_config : Sdk (McpWorld W) ConnectionConfig := λ s, (Return (st_connection_config s.1), s).

(** [try: m finally: c] *)
Definition finally {A} (m : Sdk (McpWorld W) A) (c : Sdk (McpWorld W) unit) : Sdk (McpWorld W) A := r ← attempted m; c;; liftO r.
End state.

(** ** The tools *)

Record SandboxCreateInput := {
  ti_image : string; ti_auth_username : option string; ti_auth_password : option string;
  ti_timeout_seconds : spec_float; ti_ready_timeout_seconds : spec_float; ti_health_check_polling_interval_ms : Z;
  ti_skip_health_check : bool; ti_env : option (dict string); ti_metadata : option (dict string);
  ti_resource : option (dict string); ti_network_policy : option NetworkPolicy; ti_extensions : option (dict string);
  ti_entrypoint : option (list string) }.

(** What a tool answers. *)
Inductive tool_result :=
| Status (status : string)
| InfoResponse (sandbox_id : string) (info : SandboxInfo)
| Info (info : SandboxInfo)
| Infos (l : PagedSandboxInfos)
| Renewed (r : SandboxRenewResponse)
| MetricsOf (m : SandboxMetrics)
| HealthResponse (sandbox_id : string) (healthy : bool)
| Executed (e : Execution)
| FileRead (path content : string)
| Found (l : list EntryInfo)
| EndpointOf (e : SandboxEndpoint).

Section tools.
Context {W : Type} `{Net W} `{Streams W} `{Codecs} `{Dateutil} `{PydanticFields}.
Context (bytes_decode : string → list N → result string).

(** [if ctx: await ctx.report_progress(...)] *)
Definition report (ctx : option (progress_context W)) (progress message : string) : Sdk (McpWorld W) unit :=
  match ctx with
  | Some c => in_world (c (PFloat progress) (PFloat "1.0") message)
  | None => mret tt
  end.

Definition not_in_registry : sexn := PyError (PyException ValueError
  ("Sandbox not found in local registry. Call sandbox_connect or " +:+ "set connect_if_missing=True with connection parameters.")).

(** [Sandbox.connect(sandbox_id, connection_config=...)] with the defaults of [connect] *)
Definition connect_defaults (sandbox_id : string) (config : ConnectionConfig) : ConnectArgs (W:=W) := {|
  co_sandbox_id := sandbox_id; co_connection_config := Some config; co_health_check := None;
  co_timeout := 30 * us_per_second; co_polling_interval := 200000; co_skip_health_check := false |}.

Definition get_or_connect_sandbox (sandbox_id : string) (connect_if_missing : bool) : Sdk (McpWorld W) (SandboxHandle W) :=
  sandbox ← state_get sandbox_id;
  match sandbox with
  | Some sb => mret sb
  | None =>
      if negb connect_if_missing then throw not_in_registry else
      config ← state_config;
      sb ← in_world (connect bytes_decode (connect_defaults sandbox_id config));
      state_add sb;;
      mret sb
  end.

(** The credentials of the image, of which both or neither must be given. *)
Definition image_auth (auth_username auth_password : option string) : outcome (option SandboxImageAuth) :=
  let u := default EmptyString auth_username in
  let p := default EmptyString auth_password in
  if truthy u || truthy p then
    if negb (truthy u) || negb (truthy p)
    then Throw (PyError (PyException ValueError "auth_username and auth_password must be provided together"))
    else a ← sandbox_image_auth u p; Return (Some a)
  else Return None.

Definition sandbox_create (i : SandboxCreateInput) (ctx : option (progress_context W)) : Sdk (McpWorld W) tool_result :=
  report ctx "0.1" "Validating input";;
  auth ← liftO (image_auth (ti_auth_username i) (ti_auth_password i));
  image_spec ← liftO (sandbox_image_spec (ti_image i) auth);
  report ctx "0.3" "Creating sandbox";;
  timeout ← liftO (of_result (timedelta_of_seconds (ti_timeout_seconds i)));
  ready_timeout ← liftO (of_result (timedelta_of_seconds (ti_ready_timeout_seconds i)));
  interval ← liftO (of_result (timedelta_milliseconds (ti_health_check_polling_interval_ms i)));
  config ← state_config;
  sandbox ← in_world (create bytes_decode {|
    ca_image := ImageSpec image_spec; ca_timeout := Some timeout; ca_ready_timeout := ready_timeout; ca_env := ti_env i;
    ca_metadata := ti_metadata i; ca_resource := ti_resource i; ca_network_policy := ti_network_policy i;
    ca_extensions := ti_extensions i; ca_entrypoint := ti_entrypoint i; ca_volumes := None;
    ca_connection_config := Some config; ca_health_check := None; ca_health_check_polling_interval := interval;
    ca_skip_health_check := ti_skip_health_check i |});
  state_add sandbox;;
  report ctx "0.8" "Fetching sandbox info";;
  info ← in_world (get_info sandbox);
  report ctx "1.0" "Done";;
  mret (InfoResponse (sb_id (sb_core sandbox)) info).

Definition sandbox_connect (sandbox_id : string) (connect_timeout_seconds : spec_float)
    (health_check_polling_interval_ms : Z) (skip_health_check : bool) : Sdk (McpWorld W) tool_result :=
  config ← state_config;
  timeout ← liftO (of_result (timedelta_of_seconds connect_timeout_seconds));
  interval ← liftO (of_result (timedelta_milliseconds health_check_polling_interval_ms));
  sandbox ← in_world (connect bytes_decode {|
    co_sandbox_id := sandbox_id; co_connection_config := Some config; co_health_check := None; co_timeout := timeout;
    co_polling_interval := interval; co_skip_health_check := skip_health_check |});
  state_add sandbox;;
  info ← in_world (get_info sandbox);
  mret (InfoResponse (sb_id (sb_core sandbox)) info).

(** A manager of the shared configuration, for one call. *)
Definition with_manager {A} (call : SandboxManager (W:=W) → Sdk W A) : Sdk (McpWorld W) A :=
  config ← state_config;
  manager ← in_world (manager_create (Some config));
  finally (in_world (call manager)) (in_world (manager_close manager)).

Definition sandbox_kill (sandbox_id : string) : Sdk (McpWorld W) tool_result :=
  sandbox ← state_remove sandbox_id;
  match sandbox with
  | None => with_manager (λ m, manager_kill_sandbox m sandbox_id)
  | Some sb => finally (in_world (kill sb)) (in_world (close sb))
  end;;
  mret (Status "killed").

Definition sandbox_get_info (sandbox_id : string) : Sdk (McpWorld W) tool_result :=
  sandbox ← state_get sandbox_id;
  match sandbox with
  | Some sb => info ← in_world (get_info sb); mret (Info info)
  | None => info ← with_manager (λ m, manager_get_sandbox_info m sandbox_id); mret (Info info)
  end.

Definition no_filter : SandboxFilter := {| sf_states := None; sf_metadata := None; sf_page_size := None; sf_page := None |}.

Definition sandbox_list (filter : option SandboxFilter) (ctx : option (progress_context W)) : Sdk (McpWorld W) tool_result :=
  report ctx "0.1" "Listing sandboxes";;
  result ← with_manager (λ m, manager_list_sandbox_infos m (default no_filter filter));
  report ctx "1.0" "Done";;
  mret (Infos result).

Definition sandbox_renew (sandbox_id : string) (timeout_seconds : spec_float) : Sdk (McpWorld W) tool_result :=
  sandbox ← state_get sandbox_id;
  response ← match sandbox with
  | None => with_manager (λ m,
      timeout ← liftO (of_result (timedelta_of_seconds timeout_seconds));
      manager_renew_sandbox m sandbox_id timeout)
  | Some sb =>
      timeout ← liftO (of_result (timedelta_of_seconds timeout_seconds));
      in_world (renew sb timeout)
  end;
  mret (Renewed response).

(** The tools that work at a sandbox of the registry. *)
Definition at_sandbox {A} (sandbox_id : string) (connect_if_missing : bool) (call : SandboxHandle W → Sdk W A)
    (answer : A → tool_result) : Sdk (McpWorld W) tool_result :=
  sandbox ← get_or_connect_sandbox sandbox_id connect_if_missing;
  a ← in_world (call sandbox);
  mret (answer a).

Definition sandbox_get_metrics (sandbox_id : string) (connect_if_missing : bool) : Sdk (McpWorld W) tool_result :=
  at_sandbox sandbox_id connect_if_missing sandbox_metrics MetricsOf.
Definition sandbox_healthcheck (sandbox_id : string) (connect_if_missing : bool) : Sdk (McpWorld W) tool_result :=
  at_sandbox sandbox_id connect_if_missing is_healthy (HealthResponse sandbox_id).
Definition command_run (sandbox_id command : string) (background : bool) (working_directory : option string)
    (connect_if_missing : bool) : Sdk (McpWorld W) tool_result :=
  at_sandbox sandbox_id connect_if_missing (λ sb,
    opts ← liftO (run_command_opts {| rc_background := background; rc_working_directory := working_directory;
                                      rc_timeout := None; rc_uid := None; rc_gid := None; rc_envs := None |});
    cm_run (commands sb) command (Some opts) None) Executed.
Definition command_interrupt (sandbox_id execution_id : string) (connect_if_missing : bool) : Sdk (McpWorld W) tool_result :=
  at_sandbox sandbox_id connect_if_missing (λ sb, cm_interrupt (commands sb) execution_id) (λ _, Status "interrupted").
Definition file_read (sandbox_id path encoding : string) (range_header : option string) (connect_if_missing : bool)
    : Sdk (McpWorld W) tool_result :=
  at_sandbox sandbox_id connect_if_missing (λ sb, fs_read_file (files sb) path encoding range_header) (FileRead path).
Definition file_write (sandbox_id path content encoding : string) (mode : Z) (owner group : option string)
    (connect_if_missing : bool) : Sdk (McpWorld W) tool_result :=
  at_sandbox sandbox_id connect_if_missing (λ sb, fs_write_file (files sb) path (DataText content) encoding mode owner group)
    (λ _, Status "written").
Definition file_delete (sandbox_id : string) (paths : list string) (connect_if_missing : bool) : Sdk (McpWorld W) tool_result :=
  at_sandbox sandbox_id connect_if_missing (λ sb, fs_delete_files (files sb) paths) (λ _, Status "deleted").
Definition file_search (sandbox_id path pattern : string) (connect_if_missing : bool) : Sdk (McpWorld W) tool_result :=
  at_sandbox sandbox_id connect_if_missing (λ sb,
    entry ← liftO (search_entry {| sr_path := path; sr_pattern := pattern |});
    fs_search (files sb) entry) Found.

(** [WriteEntry( **entry.model_dump(exclude_none=True))] *)
Definition directory_entry (e : DirectoryEntryInput) : outcome WriteEntry :=
  write_entry {| we_path := di_path e; we_data := None; we_mode := di_mode e; we_owner := di_owner e; we_group := di_group e;
                 we_encoding := "utf-8" |}.
Definition file_create_directories (sandbox_id : string) (entries : list DirectoryEntryInput) (connect_if_missing : bool)
    : Sdk (McpWorld W) tool_result :=
  at_sandbox sandbox_id connect_if_missing (λ sb,
    write_entries ← liftO (mapO directory_entry entries);
    fs_create_directories (files sb) write_entries) (λ _, Status "created").
Definition file_delete_directories (sandbox_id : string) (paths : list string) (connect_if_missing : bool) : Sdk (McpWorld W) tool_result :=
  at_sandbox sandbox_id connect_if_missing (λ sb, fs_delete_directories (files sb) paths) (λ _, Status "deleted").
Definition file_move (sandbox_id : string) (entries : list MoveEntry) (connect_if_missing : bool) : Sdk (McpWorld W) tool_result :=
  at_sandbox sandbox_id connect_if_missing (λ sb, fs_move_files (files sb) entries) (λ _, Status "moved").
Definition file_replace_contents (sandbox_id : string) (entries : list ContentReplaceEntry) (connect_if_missing : bool)
    : Sdk (McpWorld W) tool_result :=
  at_sandbox sandbox_id connect_if_missing (λ sb,
    replace_entries ← liftO (mapO content_replace_entry entries);
    fs_replace_contents (files sb) replace_entries) (λ _, Status "updated").
Definition sandbox_get_endpoint (sandbox_id : string) (port : Z) (connect_if_missing : bool) : Sdk (McpWorld W) tool_result :=
  at_sandbox sandbox_id connect_if_missing (λ sb, get_endpoint sb port) EndpointOf.

(** ** The server *)

(** [register_tools]: the state that the tools share.  A transport is made for the
    configuration even when a state is given. *)
Definition register_state (state : option (ServerState W)) (connection_config : option ConnectionConfig) : Sdk W (ServerState W) :=
  config ← with_transport_if_missing (default default_config connection_config);
  mret (default {| st_sandboxes := ∅; st_connection_config := config |} state).

Definition create_server (connection_config : option ConnectionConfig) : Sdk W (ServerState W) :=
  register_state None connection_config.

(** [main]: the configuration of the arguments; the protocol and the timeout have
    defaults, so there always is one. *)
Definition main_config (api_key domain : option string) (protocol : string) (request_timeout_seconds : spec_float)
    : outcome ConnectionConfig :=
  request_timeout ← of_result (timedelta_of_seconds request_timeout_seconds);
  connection_config {|
    ca_api_key := match api_key with Some ((String _ _) as s) => Some s | _ => None end;
    ca_domain := match domain with Some ((String _ _) as s) => Some s | _ => None end;
    ca_protocol := protocol; ca_request_timeout := request_timeout; ca_debug := ca_debug default_args;
    ca_user_agent := ca_user_agent default_args; ca_headers := ca_headers default_args; ca_transport := ca_transport default_args;
    ca_use_server_proxy := ca_use_server_proxy default_args |}.
End tools.

(** The names of the tools, with the prefix. *)
Definition tool_names (prefix : string) : list string :=
  (λ n, (if truthy prefix then prefix +:+ "_" else EmptyString) +:+ n) <$>
  ["sandbox_create"; "sandbox_connect"; "sandbox_kill"; "sandbox_get_info"; "sandbox_list"; "sandbox_renew";
   "sandbox_get_metrics"; "sandbox_healthcheck"; "command_run"; "command_interrupt"; "file_read"; "file_write";
   "file_delete"; "file_search"; "file_create_directories"; "file_delete_directories"; "file_move";
   "file_replace_contents"; "sandbox_get_endpoint"].

(** ** Calls *)

Inductive tool_call (W : Type) :=
| CallSandboxCreate (i : SandboxCreateInput) (ctx : option (progress_context W))
| CallSandboxConnect (sandbox_id : string) (connect_timeout_seconds : spec_float) (interval_ms : Z) (skip : bool)
| CallSandboxKill (sandbox_id : string)
| CallSandboxGetInfo (sandbox_id : string)
| CallSandboxList (filter : option SandboxFilter) (ctx : option (progress_context W))
| CallSandboxRenew (sandbox_id : string) (timeout_seconds : spec_float)
| CallSandboxGetMetrics (sandbox_id : string) (connect_if_missing : bool)
| CallSandboxHealthcheck (sandbox_id : string) (connect_if_missing : bool)
| CallCommandRun (sandbox_id command : string) (background : bool) (cwd : option string) (connect_if_missing : bool)
| CallCommandInterrupt (sandbox_id execution_id : string) (connect_if_missing : bool)
| CallFileRead (sandbox_id path encoding : string) (range_header : option string) (connect_if_missing : bool)
| CallFileWrite (sandbox_id path content encoding : string) (mode : Z) (owner group : option string) (connect_if_missing : bool)
| CallFileDelete (sandbox_id : string) (paths : list string) (connect_if_missing : bool)
| CallFileSearch (sandbox_id path pattern : string) (connect_if_missing : bool)
| CallFileCreateDirectories (sandbox_id : string) (entries : list DirectoryEntryInput) (connect_if_missing : bool)
| CallFileDeleteDirectories (sandbox_id : string) (paths : list string) (connect_if_missing : bool)
| CallFileMove (sandbox_id : string) (entries : list MoveEntry) (connect_if_missing : bool)
| CallFileReplaceContents (sandbox_id : string) (entries : list ContentReplaceEntry) (connect_if_missing : bool)
| CallSandboxGetEndpoint (sandbox_id : string) (port : Z) (connect_if_missing : bool).
Arguments CallSandboxCreate {W} _ _.
Arguments CallSandboxConnect {W} _ _ _ _.
Arguments CallSandboxKill {W} _.
Arguments CallSandboxGetInfo {W} _.
Arguments CallSandboxList {W} _ _.
Arguments CallSandboxRenew {W} _ _.
Arguments CallSandboxGetMetrics {W} _ _.
Arguments CallSandboxHealthcheck {W} _ _.
Arguments CallCommandRun {W} _ _ _ _ _.
Arguments CallCommandInterrupt {W} _ _ _.
Arguments CallFileRead {W} _ _ _ _ _.
Arguments CallFileWrite {W} _ _ _ _ _ _ _ _.
Arguments CallFileDelete {W} _ _ _.
Arguments CallFileSearch {W} _ _ _ _.
Arguments CallFileCreateDirectories {W} _ _ _.
Arguments CallFileDeleteDirectories {W} _ _ _.
Arguments CallFileMove {W} _ _ _.
Arguments CallFileReplaceContents {W} _ _ _.
Arguments CallSandboxGetEndpoint {W} _ _ _.

Create HintDb keeping.

Section serving.
Context {W : Type} `{Net W} `{Streams W} `{Codecs} `{Dateutil} `{PydanticFields}.
Context (bytes_decode : string → list N → result string).


Definition call_tool (c : tool_call W) : Sdk (McpWorld W) tool_result :=
  match c with
  | CallSandboxCreate i ctx => sandbox_create bytes_decode i ctx
  | CallSandboxConnect id t ms skip => sandbox_connect bytes_decode id t ms skip
  | CallSandboxKill id => sandbox_kill id
  | CallSandboxGetInfo id => sandbox_get_info id
  | CallSandboxList f ctx => sandbox_list f ctx
  | CallSandboxRenew id t => sandbox_renew id t
  | CallSandboxGetMetrics id b => sandbox_get_metrics bytes_decode id b
  | CallSandboxHealthcheck id b => sandbox_healthcheck bytes_decode id b
  | CallCommandRun id c bg cwd b => command_run bytes_decode id c bg cwd b
  | CallCommandInterrupt id e b => command_interrupt bytes_decode id e b
  | CallFileRead id p e r b => file_read bytes_decode id p e r b
  | CallFileWrite id p c e m o g b => file_write bytes_decode id p c e m o g b
  | CallFileDelete id ps b => file_delete bytes_decode id ps b
  | CallFileSearch id p q b => file_search bytes_decode id p q b
  | CallFileCreateDirectories id l b => file_create_directories bytes_decode id l b
  | CallFileDeleteDirectories id l b => file_delete_directories bytes_decode id l b
  | CallFileMove id l b => file_move bytes_decode id l b
  | CallFileReplaceContents id l b => file_replace_contents bytes_decode id l b
  | CallSandboxGetEndpoint id p b => sandbox_get_endpoint bytes_decode id p b
  end.

(** Calls one after the other; one that raises is answered with its error, and the server
    goes on. *)
Fixpoint serve (calls : list (tool_call W)) : Sdk (McpWorld W) (list (outcome tool_result)) :=
  match calls with
  | [] => mret []
  | c :: calls' => r ← attempted (call_tool c); rs ← serve calls'; mret (r :: rs)
  end.

(** ** The registry *)

(** A handle that the server keeps under an identifier. *)
Record registered (config : ConnectionConfig) (id : string) (sb : SandboxHandle W) : Prop := {
  rg_id : sb_id (sb_core sb) = id;
  rg_config : sandbox_config sb = config;
  rg_service : sb_sandbox_service (sb_core sb) = create_sandbox_service config;
  rg_check : sb_custom_health_check sb = None }.

Record registry_ok (config : ConnectionConfig) (st : ServerState W) : Prop := {
  ro_config : st_connection_config st = config;
  ro_transport : is_Some (cc_transport config);
  ro_entries : map_Forall (registered config) (st_sandboxes st) }.

Lemma initialised_registered config id timeout interval skip w sb w' :
  initialised bytes_decode config (create_sandbox_service config) id None timeout interval skip w = (Return sb, w') →
  registered config id sb.
Proof.
  unfold initialised. intros (e1&w1&_&Hk)%Sdk_bind_Return. apply Sdk_bind_Return in Hk as (e2&w2&_&Hk).
  apply Sdk_bind_Return in Hk as ([]&w3&_&[= <- _]). done.
Qed.

Lemma connect_registered config a w sb w' :
  co_connection_config a = Some config → is_Some (cc_transport config) → co_health_check a = None →
  connect bytes_decode a w = (Return sb, w') → registered config (co_sandbox_id a) sb.
Proof.
  intros Hc [t Ht] Hh. unfold connect. destruct (truthy _); [|done]. rewrite Hc, Hh. cbn [negb default from_option id].
  unfold with_transport_if_missing. rewrite Ht. unfold mbind, Sdk_bind, mret, Sdk_ret, sdk_try at 1.
  destruct (initialised _ _ _ _ _ _ _ _ w) as [[sb'|e] w1] eqn:Hi.
  - intros [= <- <-]. by eapply initialised_registered.
  - intros Hf. unfold connection_failed, mbind, Sdk_bind in Hf. by destruct (close_transport_if_owned config w1) as [[]].
Qed.

Lemma creation_failed_throws config svc id e w sb w' : creation_failed config svc id e w ≠ (Return sb, w').
Proof.
  unfold creation_failed, mbind, Sdk_bind. destruct (kill_zombie svc id w) as [[] w1]; [|done].
  by destruct (close_transport_if_owned config w1) as [[]].
Qed.

Lemma create_registered config a w sb w' :
  ca_connection_config a = Some config → is_Some (cc_transport config) → ca_health_check a = None →
  create bytes_decode a w = (Return sb, w') → registered config (sb_id (sb_core sb)) sb.
Proof.
  intros Hc [t Ht] Hh. unfold create. rewrite Hc, Hh. cbn [negb default from_option id]. unfold with_transport_if_missing. rewrite Ht.
  unfold mbind, Sdk_bind, mret, Sdk_ret, liftO, attempted. destruct (image_of _) as [image|]; [|done].
  destruct (creation_call _ _ _ w) as [[response|e] w1].
  2:{ intros Hf. by apply creation_failed_throws in Hf. }
  destruct (initialised _ _ _ _ _ _ _ _ w1) as [[sb'|e] w2] eqn:Hi.
  - intros [= <- <-]. apply initialised_registered in Hi as Hr. by rewrite (rg_id _ _ _ Hr).
  - intros Hf. by apply creation_failed_throws in Hf.
Qed.

(** What a step keeps, whether it returns or raises, and what holds of what it returns. *)
Definition keeps (config : ConnectionConfig) {A} (m : Sdk (McpWorld W) A) (Q : A → Prop) : Prop :=
  ∀ s, registry_ok config s.1 → registry_ok config (m s).2.1 ∧ ∀ a, (m s).1 = Return a → Q a.

Section keeping.
Context (config : ConnectionConfig).

Lemma mcp_keeps_bind {A B} (m : Sdk (McpWorld W) A) (k : A → Sdk (McpWorld W) B) P Q :
  keeps config m P → (∀ a, P a → keeps config (k a) Q) → keeps config (m ≫= k) Q.
Proof.
  intros Hm Hk s Hs. destruct (Hm s Hs) as [Hok Hr]. unfold mbind, Sdk_bind. destruct (m s) as [[a|e] s1]; cbn in *.
  - apply Hk; [by apply Hr|done].
  - done.
Qed.
Lemma mcp_keeps_world {A} (m : Sdk W A) : keeps config (in_world m) (λ _, True).
Proof. intros [st w] Hs. unfold in_world. cbn in *. destruct (m w). done. Qed.
Lemma mcp_keeps_liftO {A} (r : outcome A) : keeps config (liftO r) (λ _, True).
Proof. by intros s Hs. Qed.
Lemma mcp_keeps_ret {A} (a : A) : keeps config (mret a) (λ _, True).
Proof. by intros s Hs. Qed.
Lemma mcp_keeps_throw {A} e : keeps config (throw e) (λ _ : A, True).
Proof. by intros s Hs. Qed.
Lemma mcp_keeps_weaken {A} (m : Sdk (McpWorld W) A) (P : A → Prop) : keeps config m P → keeps config m (λ _, True).
Proof. intros Hm s Hs. split; [by apply Hm|done]. Qed.
Lemma mcp_keeps_attempted {A} (m : Sdk (McpWorld W) A) : keeps config m (λ _, True) → keeps config (attempted m) (λ _, True).
Proof. intros Hm s Hs. destruct (Hm s Hs) as [Hok _]. unfold attempted. by destruct (m s). Qed.
Lemma mcp_keeps_finally {A} (m : Sdk (McpWorld W) A) c :
  keeps config m (λ _, True) → keeps config c (λ _, True) → keeps config (finally m c) (λ _, True).
Proof.
  intros Hm Hc. eapply mcp_keeps_bind; [by apply mcp_keeps_attempted|]. intros r _.
  eapply mcp_keeps_bind; [done|]. intros ? _. apply mcp_keeps_liftO.
Qed.
Lemma mcp_keeps_report ctx p m : keeps config (report ctx p m) (λ _, True).
Proof. destruct ctx; [apply mcp_keeps_world|apply mcp_keeps_ret]. Qed.
Lemma mcp_keeps_config : keeps config state_config (eq config).
Proof. intros s Hs. split; [done|]. intros c [= <-]. by rewrite (ro_config _ _ Hs). Qed.
Lemma mcp_keeps_get id : keeps config (state_get id) (λ _, True).
Proof. by intros s Hs. Qed.
Lemma mcp_keeps_remove id : keeps config (state_remove id) (λ _, True).
Proof. intros s [Hc Ht He]. split; [|done]. split; [done..|]. cbn. by apply map_Forall_delete. Qed.
Lemma mcp_keeps_add id sb : registered config id sb → keeps config (state_add sb) (λ _, True).
Proof.
  intros Hr s [Hc Ht He]. split; [|done]. split; [done..|]. cbn. apply map_Forall_insert_2; [|done].
  by rewrite (rg_id _ _ _ Hr).
Qed.

(** A step of the world that returns a handle to keep. *)
Lemma mcp_keeps_handle (m : Sdk W (SandboxHandle W)) :
  (is_Some (cc_transport config) → ∀ w sb w', m w = (Return sb, w') → registered config (sb_id (sb_core sb)) sb) →
  keeps config (in_world m) (λ sb, registered config (sb_id (sb_core sb)) sb).
Proof.
  intros Hm [st w] Hs. unfold in_world. cbn in *. destruct (m w) as [r w'] eqn:Hw. split; [done|]. cbn. intros sb ->.
  eapply Hm; [apply Hs|done].
Qed.
End keeping.
#[local] Hint Resolve mcp_keeps_world mcp_keeps_liftO mcp_keeps_ret mcp_keeps_throw mcp_keeps_report mcp_keeps_get mcp_keeps_remove mcp_keeps_attempted
  mcp_keeps_finally : keeping.

(** Steps that keep the registry, one after the other. *)
Ltac keep_steps :=
  repeat first
    [ solve [cbn beta; auto 4 with keeping]
    | eapply mcp_keeps_bind; [solve [cbn beta; auto 4 with keeping]|intros ? _]
    | match goal with |- keeps _ (match ?x with _ => _ end) _ => destruct x end ].

Lemma registering_keeps config (m : Sdk W (SandboxHandle W)) {A} (k : SandboxHandle W → Sdk (McpWorld W) A) :
  (is_Some (cc_transport config) → ∀ w sb w', m w = (Return sb, w') → registered config (sb_id (sb_core sb)) sb) →
  (∀ sb, keeps config (k sb) (λ _, True)) →
  keeps config (sb ← in_world m; state_add sb;; k sb) (λ _, True).
Proof.
  intros Hm Hk. eapply mcp_keeps_bind; [apply mcp_keeps_handle, Hm|]. intros sb Hsb.
  eapply mcp_keeps_bind; [eapply mcp_keeps_add, Hsb|]. intros [] _. apply Hk.
Qed.

Lemma connecting_keeps config a {A} (k : SandboxHandle W → Sdk (McpWorld W) A) :
  co_connection_config a = Some config → co_health_check a = None → (∀ sb, keeps config (k sb) (λ _, True)) →
  keeps config (sb ← in_world (connect bytes_decode a); state_add sb;; k sb) (λ _, True).
Proof.
  intros Hc Hh Hk. apply registering_keeps; [|done]. intros Ht w sb w' Hr.
  eapply connect_registered in Hr; [|done..]. by rewrite (rg_id _ _ _ Hr).
Qed.

Lemma get_or_connect_keeps config id b : keeps config (get_or_connect_sandbox bytes_decode id b) (λ _, True).
Proof.
  unfold get_or_connect_sandbox. keep_steps. eapply mcp_keeps_bind; [apply mcp_keeps_config|]. intros c <-.
  apply connecting_keeps; [done..|]. intros sb. keep_steps.
Qed.

Lemma with_manager_keeps config {A} (call : SandboxManager (W:=W) → Sdk W A) :
  keeps config (with_manager call) (λ _, True).
Proof. eapply mcp_keeps_bind; [eapply mcp_keeps_weaken, mcp_keeps_config|]. intros c _. keep_steps. Qed.
#[local] Hint Resolve get_or_connect_keeps with_manager_keeps : keeping.

Lemma at_sandbox_keeps config {A} id b (call : SandboxHandle W → Sdk W A) answer :
  keeps config (at_sandbox bytes_decode id b call answer) (λ _, True).
Proof. unfold at_sandbox. keep_steps. Qed.

Lemma sandbox_create_keeps config i ctx : keeps config (sandbox_create bytes_decode i ctx) (λ _, True).
Proof.
  unfold sandbox_create. keep_steps. eapply mcp_keeps_bind; [apply mcp_keeps_config|]. intros c <-. apply registering_keeps.
  - intros Ht w sb w' Hc. by eapply create_registered in Hc.
  - intros sb. keep_steps.
Qed.

Lemma sandbox_connect_keeps config id t ms skip : keeps config (sandbox_connect bytes_decode id t ms skip) (λ _, True).
Proof.
  eapply mcp_keeps_bind; [apply mcp_keeps_config|]. intros c <-.
  do 2 (eapply mcp_keeps_bind; [apply mcp_keeps_liftO|intros ? _]). apply connecting_keeps; [done..|]. intros sb. keep_steps.
Qed.

Lemma call_tool_keeps config c : keeps config (call_tool c) (λ _, True).
Proof.
  destruct c; cbn [call_tool]; try apply at_sandbox_keeps; try apply sandbox_create_keeps; try apply sandbox_connect_keeps.
  all: unfold sandbox_kill, sandbox_get_info, sandbox_list, sandbox_renew; keep_steps.
  all: eapply mcp_keeps_bind; [|intros; apply mcp_keeps_ret]; keep_steps.
Qed.

Lemma serve_keeps config calls : keeps config (serve calls) (λ _, True).
Proof.
  induction calls as [|c calls IH]; cbn [serve]; [keep_steps|]. eapply mcp_keeps_bind; [apply mcp_keeps_attempted, call_tool_keeps|].
  intros r _. eapply mcp_keeps_bind; [apply IH|]. intros rs _. keep_steps.
Qed.

Lemma create_server_ok given w st w' :
  create_server given w = (Return st, w') → registry_ok (st_connection_config st) st ∧ st_sandboxes st = ∅.
Proof.
  unfold create_server, register_state. intros (c&w1&Hc&[= <- _])%Sdk_bind_Return. cbn. split; [|done].
  split; [done| |apply map_Forall_empty]. unfold with_transport_if_missing in Hc.
  destruct (cc_transport (default default_config given)) as [t|] eqn:Ht; [injection Hc as <- _; by exists t|].
  apply Sdk_bind_Return in Hc as (t&w2&_&[= <- _]). by eexists.
Qed.

(** C20: From its start, through any calls and whatever they raise, the server keeps only
    sandboxes under their own identifiers, all with its one configuration and the lifecycle
    service of it. *)
Theorem mcp_registry_sound given w st w1 calls :
  create_server given w = (Return st, w1) → registry_ok (st_connection_config st) (serve calls (st, w1)).2.1.
Proof. intros [Hok _]%create_server_ok. by apply (serve_keeps _ calls (st, w1)). Qed.

(** ** What the tools do *)

Lemma sdk_quietly_Return (m : Sdk W unit) w r w' : sdk_quietly m w = (r, w') → r = Return tt.
Proof. unfold sdk_quietly, sdk_try. destruct (m w) as [[[]|] w1]; by intros [= <-]. Qed.
Lemma liftO_Return {A V} (o : outcome A) (s : V) a s' : liftO o s = (Return a, s') → o = Return a ∧ s' = s.
Proof. by intros [= -> ->]. Qed.

(** The manager of the shared configuration, and what closes it. *)
Lemma with_manager_spec config {A} (call : SandboxManager (W:=W) → Sdk W A) st w :
  registry_ok config st →
  with_manager call (st, w) =
    (let '(r, w1) := call {| mg_sandbox_service := create_sandbox_service config; mg_connection_config := config |} w in
     (r, (st, (sdk_quietly (close_transport_if_owned config) w1).2))).
Proof.
  intros [Hc [t Ht] _]. unfold with_manager, manager_create, state_config, in_world, finally, attempted.
  unfold mbind, Sdk_bind. cbn [fst snd default from_option id]. rewrite Hc. unfold with_transport_if_missing. rewrite Ht.
  cbn [mret Sdk_ret]. unfold mret, Sdk_ret. cbn [fst snd].
  destruct (call _ w) as [r w1]. cbn [fst snd]. unfold manager_close. cbn [mg_connection_config].
  destruct (sdk_quietly (close_transport_if_owned config) w1) as [c w2] eqn:Hq. apply sdk_quietly_Return in Hq as ->. done.
Qed.

(** Killing a sandbox is one call of the lifecycle service, whether the server knows the
    sandbox or not; the server forgets it whatever the answer, and closes the shared
    transport if the client owns it. *)
Theorem sandbox_kill_spec config id st w :
  registry_ok config st →
  sandbox_kill id (st, w) =
    (let '(r, w1) := ss_kill_sandbox (create_sandbox_service config) id w in
     (r ≫= (λ _, Return (Status "killed")),
      (with_sandboxes (delete id) st, (sdk_quietly (close_transport_if_owned config) w1).2))).
Proof.
  intros Hok. unfold sandbox_kill, state_remove. unfold mbind at 1, Sdk_bind at 1. cbn [fst snd].
  destruct (mcp_keeps_remove config id (st, w) Hok) as [Hok' _]. cbn in Hok'.
  destruct (st_sandboxes st !! id) as [sb|] eqn:Hsb.
  - destruct (ro_entries _ _ Hok _ _ Hsb) as [Hid Hcfg Hsvc _].
    unfold finally, attempted, in_world, kill, close, mbind, Sdk_bind. cbn [fst snd]. rewrite Hsvc, Hid, Hcfg.
    destruct (ss_kill_sandbox _ id w) as [r w1]. cbn [fst snd].
    destruct (sdk_quietly (close_transport_if_owned config) w1) as [c w2] eqn:Hq. apply sdk_quietly_Return in Hq as ->.
    by destruct r as [[]|].
  - unfold mbind, Sdk_bind. rewrite (with_manager_spec config) by done. unfold manager_kill_sandbox. cbn [mg_sandbox_service].
    destruct (ss_kill_sandbox _ id w) as [[[]|] w1]; done.
Qed.

Lemma get_info_answer config id st w :
  registry_ok config st →
  (sandbox_get_info id (st, w)).1 =
    ((ss_get_sandbox_info (create_sandbox_service config) id w).1 ≫= (λ i, Return (Info i))).
Proof.
  intros Hok. unfold sandbox_get_info, state_get. unfold mbind at 1, Sdk_bind at 1. cbn [fst snd].
  destruct (st_sandboxes st !! id) as [sb|] eqn:Hsb; unfold mbind at 1, Sdk_bind at 1.
  - destruct (ro_entries _ _ Hok _ _ Hsb) as [Hid _ Hsvc _]. unfold in_world, get_info. cbn [fst snd]. rewrite Hsvc, Hid.
    by destruct (ss_get_sandbox_info _ id w) as [[]].
  - rewrite (with_manager_spec config) by done. unfold manager_get_sandbox_info. cbn [mg_sandbox_service].
    by destruct (ss_get_sandbox_info _ id w) as [[]].
Qed.

(** The renewal of a sandbox, by its identifier. *)
Definition renewal (config : ConnectionConfig) (id : string) (t : spec_float) : Sdk W SandboxRenewResponse :=
  timeout ← liftO (of_result (timedelta_of_seconds t));
  new_expiration ← expiration_after timeout;
  ss_renew_sandbox_expiration (create_sandbox_service config) id new_expiration.

Lemma renew_answer config id t st w :
  registry_ok config st →
  (sandbox_renew id t (st, w)).1 = ((renewal config id t w).1 ≫= (λ r, Return (Renewed r))).
Proof.
  intros Hok. unfold sandbox_renew, state_get. unfold mbind at 1, Sdk_bind at 1. cbn [fst snd]. unfold renewal.
  destruct (st_sandboxes st !! id) as [sb|] eqn:Hsb; unfold mbind at 1, Sdk_bind at 1.
  - destruct (ro_entries _ _ Hok _ _ Hsb) as [Hid _ Hsvc _]. unfold in_world, renew, mbind, Sdk_bind, liftO.
    cbn [fst snd]. rewrite Hsvc, Hid.
    destruct (of_result (timedelta_of_seconds t)) as [us|]; [|reflexivity]. cbn [fst snd].
    destruct (expiration_after us w) as [[e|] w1]; [|reflexivity].
    by destruct (ss_renew_sandbox_expiration _ id e w1) as [[]].
  - rewrite (with_manager_spec config) by done. unfold manager_renew_sandbox, mbind, Sdk_bind, liftO. cbn [mg_sandbox_service].
    destruct (of_result (timedelta_of_seconds t)) as [us|]; [|reflexivity].
    destruct (expiration_after us w) as [[e|] w1]; [|reflexivity].
    by destruct (ss_renew_sandbox_expiration _ id e w1) as [[]].
Qed.

(** A tool at a sandbox that the server does not know sends nothing unless it may connect. *)
Lemma at_missing_sandbox {A} id (call : SandboxHandle W → Sdk W A) answer st w :
  st_sandboxes st !! id = None → at_sandbox bytes_decode id false call answer (st, w) = (Throw not_in_registry, (st, w)).
Proof. intros Hn. unfold at_sandbox, get_or_connect_sandbox, state_get, mbind, Sdk_bind. cbn. by rewrite Hn. Qed.

(** A tool at a sandbox that the server knows is the call of the client, and leaves the
    registry alone. *)
Lemma at_known_sandbox {A} id b (call : SandboxHandle W → Sdk W A) answer st sb w :
  st_sandboxes st !! id = Some sb →
  at_sandbox bytes_decode id b call answer (st, w) =
    (let '(r, w') := call sb w in (r ≫= (λ a, Return (answer a)), (st, w'))).
Proof.
  intros Hn. unfold at_sandbox, get_or_connect_sandbox, state_get, in_world, mbind, Sdk_bind. cbn. rewrite Hn. cbn.
  by destruct (call sb w) as [[]].
Qed.

(** The identifier that [sandbox_connect] answers is known from then on. *)
Lemma connected_is_known config id t ms skip st w id' info st' w' :
  registry_ok config st →
  sandbox_connect bytes_decode id t ms skip (st, w) = (Return (InfoResponse id' info), (st', w')) →
  id' = id ∧ is_Some (st_sandboxes st' !! id).
Proof.
  intros [Hc Ht _]. unfold sandbox_connect. intros (c&s1&[= <- <-]&Hk)%Sdk_bind_Return. cbn [fst] in Hk. rewrite Hc in Hk.
  apply Sdk_bind_Return in Hk as (timeout&s2&Hs2&Hk). apply liftO_Return in Hs2 as [_ ->].
  apply Sdk_bind_Return in Hk as (interval&s3&Hs3&Hk). apply liftO_Return in Hs3 as [_ ->].
  apply Sdk_bind_Return in Hk as (sb&[st1 w1]&Hcon&Hk). unfold in_world in Hcon. cbn [fst snd] in Hcon.
  destruct (connect _ _ w) as [r w2] eqn:Hr. injection Hcon as -> <- <-.
  eapply connect_registered in Hr; [|done..]. cbn in Hr. destruct Hr as [Hid _ _ _].
  apply Sdk_bind_Return in Hk as ([]&s4&[= <-]&Hk). apply Sdk_bind_Return in Hk as (i&[st5 w5]&Hi&[= <- _ <- _]).
  unfold in_world in Hi. cbn [fst snd] in Hi. destruct (get_info sb _) as [ri w6]. injection Hi as -> <- <-. cbn.
  rewrite Hid. split; [done|]. by rewrite lookup_insert_eq.
Qed.
End serving.

(** ** In the simulated world *)

Definition mcp_calls : list (tool_call SimNet) :=
  [CallSandboxConnect "a" (float_of_Z 30) 200 true; CallSandboxConnect "b" (float_of_Z 30) 200 true; CallSandboxKill "a"].

Definition mcp_run : ServerState SimNet * SimNet :=
  match create_server None demo_world with
  | (Return st, w) => (serve sim_decode mcp_calls (st, w)).2
  | (Throw _, w) => ({| st_sandboxes := ∅; st_connection_config := default_config |}, w)
  end.

(** Two sandboxes share the transport of the server, and killing one closes it. *)
Example shared_transport_closed :
  sn_closed mcp_run.2 = [0%nat] ∧
  ((λ sb, cc_transport (sandbox_config sb)) <$> (st_sandboxes mcp_run.1 !! "b")) = Some (Some 0%nat) ∧
  st_sandboxes mcp_run.1 !! "a" = None.
Proof. repeat split; vm_compute; reflexivity. Qed.

Definition sim_server : ServerState SimNet := {|
  st_sandboxes := ∅; st_connection_config := with_owned_transport 0 default_config |}.
Lemma sim_server_ok : registry_ok (with_owned_transport 0 default_config) sim_server.
Proof. split; [done|by eexists|apply map_Forall_empty]. Qed.

Lemma mcp_registry_sound_witness :
  registry_ok (with_owned_transport 0 default_config) (serve sim_decode mcp_calls (sim_server, sim_made demo_world)).2.1.
Proof. apply (mcp_registry_sound sim_decode None demo_world sim_server (sim_made demo_world) mcp_calls). reflexivity. Defined.

Lemma sandbox_kill_spec_witness :
  sandbox_kill "a" (sim_server, demo_world) =
    (let '(r, w1) := ss_kill_sandbox (create_sandbox_service (with_owned_transport 0 default_config)) "a" demo_world in
     (r ≫= (λ _, Return (Status "killed")),
      (with_sandboxes (delete "a") sim_server, (sdk_quietly (close_transport_if_owned (with_owned_transport 0 default_config)) w1).2))).
Proof. apply (sandbox_kill_spec (with_owned_transport 0 default_config) "a" sim_server demo_world), sim_server_ok. Defined.
