(* ===== verification/Cli.v ===== *)
(** * The command line client: parameters, configuration, context and output
      ([cli/src/opensandbox_cli/utils.py], [config.py], [client.py], [output.py], [main.py],
      [commands/config_cmd.py])

    click has parsed the arguments already; what it is given (the types of parameters, the
    handler of errors) is here.  Output is the sequence of the calls of click, of rich and
    of the standard streams; how rich and PyYAML render them is not modelled.  Texts are
    of one-byte characters, so [str.isdigit] and [\d] are the ten digits. *)

From Stdlib Require Import Ascii.
From S2P Require Import Prelude PyString PyDict PyTime PyFloat Json PyVal SdkBase SdkModels SdkApi SdkConfig SdkAdapter SdkExecdApi SdkCommands SdkFiles SdkSandbox SdkSync.
Open Scope string_scope.
Open Scope list_scope.

(** ** Outcomes *)

(** [click.ClickException] (and its subclasses), [sys.exit(code)], any other exception *)
Inductive cli_exn := ClickError (message : string) | SystemExit (code : Z) | Failed (e : sexn).

Inductive cli_outcome (A : Type) := Done (a : A) | Fails (e : cli_exn).
Arguments Done {A} a.
Arguments Fails {A} e.

#[global] Instance cli_outcome_ret : MRet cli_outcome := fun A => @Done A.
#[global] Instance cli_outcome_bind : MBind cli_outcome := fun A B f m =>
  match m with Done a => f a | Fails e => Fails e end.

Definition of_outcome {A} (r : outcome A) : cli_outcome A := match r with Return a => Done a | Throw e => Fails (Failed e) end.

(** ** Types of parameters ([utils.py]) *)

Definition bad_duration (value : string) : cli_exn :=
  ClickError ("Invalid duration '" +:+ value +:+ "'. Use format like 10m, 1h30m, 90s.").

(** [(?:(\d+)u)?] *)
Definition take_unit (u : ascii) (s : string) : option string * string :=
  match span_digits s with
  | (String _ _ as ds, String c rest) => if bool_decide (c = u) then (Some ds, rest) else (None, s)
  | _ => (None, s)
  end.

(** [_DURATION_RE.match] of a text without a newline at its end *)
Definition match_duration (s : string) : option (option string * option string * option string) :=
  let '(hours, s) := take_unit "h" s in
  let '(minutes, s) := take_unit "m" s in
  let '(seconds, s) := take_unit "s" s in
  if truthy s then None else Some (hours, minutes, seconds).

(** [int(digits or 0)], [ValueError] beyond 4300 digits *)
Definition int_or_0 (digits : option string) : result Z :=
  match digits with
  | None => Ok 0%Z
  | Some ds => match py_int ds with Some n => Ok n | None => Raise (PyException ValueError "Exceeds the limit (4300 digits) for integer string conversion") end
  end.

Definition parse_duration (value : string) : cli_outcome Z :=
  let value := strip value in
  if negb (truthy value) then Fails (ClickError "Duration cannot be empty")
  else if string_forallb is_digit value then
    of_outcome (of_result (n ← int_or_0 (Some value); timedelta_us (n * us_per_second)))
  else match match_duration value with
  | None => Fails (bad_duration value)
  | Some (hours, minutes, seconds) =>
      of_outcome (of_result (
        h ← int_or_0 hours; m ← int_or_0 minutes; s ← int_or_0 seconds;
        timedelta_us ((h * 3600 + m * 60 + s) * us_per_second)))
  end.

(** [DurationType.convert] of a text *)
Definition convert_duration (value : string) : cli_outcome Z :=
  match parse_duration value with
  | Fails (ClickError _) => Fails (bad_duration value)
  | r => r
  end.

(** [KeyValueType.convert] *)
Definition convert_key_value (value : string) : cli_outcome (string * string) :=
  match split_once "=" value with
  | Some (key, val) => Done (key, val)
  | None => Fails (ClickError ("Expected KEY=VALUE format, got '" +:+ value +:+ "'"))
  end.

(** ** The terminal *)

Record rich_text := { tx_text : string; tx_style : string }.
Record rich_column := { co_header : string; co_style : string; co_no_wrap : bool }.
Record rich_table := { tb_title : option string; tb_columns : list rich_column; tb_rows : list (list rich_text) }.

(** [click.echo], [click.secho], [Console.print] of a text, of JSON, of a panel and of a
    table, a status line, and [sys.stdout.write]; [err] is the stream of errors. *)
Inductive term_event :=
| Echo (err nl : bool) (text : string)
| Secho (err : bool) (fg text : string)
| Rich (err : bool) (markup : string)
| RichJson (text : string)
| RichPanel (content : string) (title : option string) (border : string)
| RichTable (t : rich_table)
| Spinner (markup : string)
| Written (err : bool) (text : string).

(** The process: its output, the variable [last_text] of a running command, and the world
    outside. *)
Record Shell (W : Type) := { sh_terminal : list term_event; sh_last_text : string; sh_world : W }.
Arguments sh_terminal {W} _.
Arguments sh_last_text {W} _.
Arguments sh_world {W} _.

Definition lift_shell {W A} (m : Sdk W A) : Sdk (Shell W) A := λ s,
  let '(r, w) := m (sh_world s) in
  (r, {| sh_terminal := sh_terminal s; sh_last_text := sh_last_text s; sh_world := w |}).
Definition in_shell {W} (w : W) (s : Shell W) : Shell W := {|
  sh_terminal := sh_terminal s; sh_last_text := sh_last_text s; sh_world := w |}.

#[global] Instance shell_net {W} `{Net W} : Net (Shell W) := {|
  n_send r := lift_shell (n_send r);
  n_time s := let '(t, w) := n_time (sh_world s) in (t, in_shell w s);
  n_sleep d s := in_shell (n_sleep d (sh_world s)) s;
  n_new_transport s := let '(t, w) := n_new_transport (sh_world s) in (t, in_shell w s);
  n_close_transport t := lift_shell (n_close_transport t);
  n_getenv := n_getenv (W:=W) |}.
#[global] Instance shell_streams {W} `{Streams W} : Streams (Shell W) := {| n_stream r := lift_shell (n_stream r) |}.

Definition emit {W} (e : term_event) : Sdk (Shell W) unit := λ s,
  (Return tt, {| sh_terminal := sh_terminal s ++ [e]; sh_last_text := sh_last_text s; sh_world := sh_world s |}).
Definition set_last_text {W} (t : string) : Sdk (Shell W) unit := λ s,
  (Return tt, {| sh_terminal := sh_terminal s; sh_last_text := t; sh_world := sh_world s |}).

(** ** What the client is given *)

(** Files of the machine and the standard input, the readers of TOML and of a network
    policy, [yaml.dump] ([None]: PyYAML is not installed), how pydantic renders a time in
    JSON, and [type(exc).__name__]. *)
Class Host (W : Type) := {
  lh_exists : string → W → bool;
  lh_read_bytes : string → Sdk W (list N);
  lh_write_bytes : string → list N → Sdk W unit;
  lh_read_text : string → Sdk W string;
  lh_write_text : string → string → Sdk W unit;
  lh_mkdir_parent : string → Sdk W unit;
  lh_stdin : Sdk W string;
  lh_isatty : W → bool;
  lh_default_config_path : string;
  toml_load : list N → outcome (dict pyval);
  yaml_dump : option (pyval → string);
  dump_datetime : datetime → string;
  policy_of : pyval → outcome NetworkPolicy;
  exn_type_name : sexn → string }.

(** ** Configuration ([config.py]) *)

Section config.
Context {W : Type} `{Net W} `{Host W}.

(** [config_path or DEFAULT_CONFIG_PATH]; a path is always true *)
Definition path_or_default (config_path : option string) : string := default (lh_default_config_path (W:=W)) config_path.

Definition load_config_file (config_path : option string) : Sdk W (dict pyval) :=
  let path := path_or_default config_path in
  λ w, if negb (lh_exists path w) then (Return [], w)
       else (b ← lh_read_bytes path; liftO (toml_load (W:=W) b)) w.

Definition int_or_none (value : option string) : pyval :=
  match value with Some s => match py_int s with Some n => PInt n | None => PNone end | None => PNone end.

Definition of_opt (o : option string) : pyval := match o with Some s => PStr s | None => PNone end.
Definition env (name : string) : pyval := of_opt (n_getenv (W:=W) name).

Record CliFlags := {
  fl_api_key : option string; fl_domain : option string; fl_protocol : option string; fl_timeout : option Z;
  fl_output : option string; fl_config_path : option string; fl_no_color : bool }.

(** The dictionary that [resolve_config] makes of the file. *)
Definition resolved_config (f : CliFlags) (file_cfg : dict pyval) : result (dict pyval) :=
  let conn := dget_default "connection" (PDict []) file_cfg in
  let output_cfg := dget_default "output" (PDict []) file_cfg in
  let defaults := dget_default "defaults" (PDict []) file_cfg in
  let first a b (rest : result pyval) : result pyval := if vtruthy a then Ok a else if vtruthy b then Ok b else rest in
  api_key ← first (of_opt (fl_api_key f)) (env "OPEN_SANDBOX_API_KEY") (vget conn "api_key");
  domain ← first (of_opt (fl_domain f)) (env "OPEN_SANDBOX_DOMAIN") (vget conn "domain");
  protocol ← first (of_opt (fl_protocol f)) (env "OPEN_SANDBOX_PROTOCOL") (v ← vget conn "protocol"; Ok (val_or v (PStr "http")));
  request_timeout ← first (match fl_timeout f with Some n => PInt n | None => PNone end)
    (int_or_none (n_getenv (W:=W) "OPEN_SANDBOX_REQUEST_TIMEOUT")) (v ← vget conn "request_timeout"; Ok (val_or v (PInt 30)));
  output_format ← first (of_opt (fl_output f)) (env "OPEN_SANDBOX_OUTPUT") (v ← vget output_cfg "format"; Ok (val_or v (PStr "table")));
  color ← get_or output_cfg "color" (PBool true);
  default_image ← vget defaults "image";
  default_timeout ← vget defaults "timeout";
  Ok [("api_key", api_key); ("domain", domain); ("protocol", protocol); ("request_timeout", request_timeout);
      ("output_format", output_format); ("color", color); ("default_image", default_image); ("default_timeout", default_timeout)].

Definition resolve_config (f : CliFlags) : Sdk W (dict pyval) :=
  file_cfg ← load_config_file (fl_config_path f);
  liftO (of_result (resolved_config f file_cfg)).

Definition quoted (s : string) : string := dquote +:+ s +:+ dquote.
Definition DEFAULT_CONFIG_TEMPLATE : string :=
  join newline
    ["# OpenSandbox CLI configuration";
     "# Priority: CLI flags > environment variables > this file > SDK defaults"; "";
     "[connection]"; "# api_key = " +:+ quoted "your-api-key"; "# domain = " +:+ quoted "localhost:8080";
     "# protocol = " +:+ quoted "http"; "# request_timeout = 30"; "";
     "[output]"; "# format = " +:+ quoted "table" +:+ "    # table | json | yaml"; "# color = true"; "";
     "[defaults]"; "# image = " +:+ quoted "python:3.11"; "# timeout = " +:+ quoted "10m"; ""].

Definition file_exists_error (path : string) : sexn := PyError (PyException FileExistsError
  ("Config file already exists at " +:+ path +:+ ". Use --force to overwrite.")).

Definition init_config_file (config_path : option string) (force : bool) : Sdk W string :=
  let path := path_or_default config_path in
  λ w, if lh_exists path w && negb force then (Throw (file_exists_error path), w)
       else (lh_mkdir_parent path;; lh_write_text path DEFAULT_CONFIG_TEMPLATE;; mret path) w.
End config.

(** ** Output ([output.py]) *)

Fixpoint repeat_text (n : nat) (t : string) : string := match n with O => EmptyString | S k => t +:+ repeat_text k t end.

(** The characters that end a line; [\r\n] is one end. *)
Definition is_line_end (c : ascii) : bool := bool_decide (code c ∈ [10; 11; 12; 13; 28; 29; 30; 133]%N).
Fixpoint split_lines (acc : string) (s : string) : list string :=
  match s with
  | EmptyString => match acc with EmptyString => [] | _ => [reverse acc] end
  | String c rest =>
      if is_line_end c then
        reverse acc :: match rest with
                       | String d rest' => if (code c =? 13)%N && (code d =? 10)%N then split_lines EmptyString rest' else split_lines EmptyString rest
                       | EmptyString => []
                       end
      else split_lines (String c acc) rest
  end.
Definition splitlines (s : string) : list string := split_lines EmptyString s.

(** [json.dumps(v, indent=2)] *)
Fixpoint dumps_indent (indent : string) (v : pyval) : string :=
  let deeper := indent +:+ "  " in
  let block (o c : string) (items : list string) : string :=
    o +:+ newline +:+ join ("," +:+ newline) ((λ i, deeper +:+ i) <$> items) +:+ newline +:+ indent +:+ c in
  match v with
  | PList (_ :: _ as l) => block "[" "]" (map (dumps_indent deeper) l)
  | PDict (_ :: _ as d) => block "{" "}" (map (λ kv, dumps_string kv.1 +:+ ": " +:+ dumps_indent deeper kv.2) d)
  | _ => dumps v
  end.

Definition STATUS_STYLES : dict (string * string) :=
  [("running", ("bold green", "●")); ("ready", ("bold green", "●")); ("healthy", ("bold green", "●"));
   ("pending", ("bold yellow", "◐")); ("creating", ("bold yellow", "◐")); ("starting", ("bold yellow", "◐"));
   ("paused", ("bold blue", "⏸")); ("stopped", ("dim", "○")); ("terminated", ("dim", "○")); ("killed", ("dim", "○"));
   ("error", ("bold red", "✗")); ("failed", ("bold red", "✗")); ("unhealthy", ("bold red", "✗")); ("created", ("bold cyan", "✦"))].
Definition STATUS_COLUMNS : list string := ["status"; "state"; "healthy"].
Definition DIM_COLUMNS : list string := ["created_at"; "expires_at"; "modified_at"; "updated_at"].
Definition ID_COLUMNS : list string := ["id"; "sandbox_id"; "execution_id"; "context_id"].
Definition among (c : string) (l : list string) : bool := bool_decide (c ∈ l).

Definition style_value (col value : string) : rich_text :=
  let rest := if among col DIM_COLUMNS then {| tx_text := value; tx_style := "dim" |}
              else if among col ID_COLUMNS then {| tx_text := value; tx_style := "bold cyan" |}
              else {| tx_text := value; tx_style := EmptyString |} in
  if among col STATUS_COLUMNS then
    match dget (lower value) STATUS_STYLES with
    | Some (style, icon) => {| tx_text := icon +:+ " " +:+ value; tx_style := style |}
    | None => rest
    end
  else rest.

Record OutputFormatter := { of_fmt : pyval; of_color : bool }.

Section output.
Context {W : Type} `{Host W} (o : OutputFormatter).
Definition fmt_is (s : string) : bool := eq_str (of_fmt o) s.

Definition success (msg : string) : Sdk (Shell W) unit :=
  emit (if of_color o then Rich false ("  [bold green]✅ " +:+ msg +:+ "[/]") else Echo false true ("OK: " +:+ msg)).
Definition info (msg : string) : Sdk (Shell W) unit :=
  emit (if of_color o then Rich false ("  [bold blue]ℹ️  " +:+ msg +:+ "[/]") else Echo false true ("INFO: " +:+ msg)).
Definition warning (msg : string) : Sdk (Shell W) unit :=
  emit (if of_color o then Rich true ("  [bold yellow]⚠️  " +:+ msg +:+ "[/]") else Echo true true ("WARN: " +:+ msg)).
Definition error (msg : string) : Sdk (Shell W) unit :=
  emit (if of_color o then Rich true ("  [bold red]❌ " +:+ msg +:+ "[/]") else Echo true true ("ERROR: " +:+ msg)).

Fixpoint emit_all (l : list term_event) : Sdk (Shell W) unit :=
  match l with [] => mret tt | e :: l' => emit e;; emit_all l' end.

Definition rule (title : string) : string := "  [dim]" +:+ repeat_text (len title + 2) "─" +:+ "[/]".

Definition error_panel (msg title : string) : Sdk (Shell W) unit :=
  if of_color o then
    emit_all ([Rich true EmptyString; Rich true ("  [bold red]" +:+ title +:+ "[/]"); Rich true (rule title)]
              ++ ((λ line, Rich true ("  " +:+ line)) <$> splitlines msg) ++ [Rich true EmptyString])
  else emit (Echo true true ("ERROR [" +:+ title +:+ "]: " +:+ msg)).

Definition spinner {A} (msg : string) (body : Sdk (Shell W) A) : Sdk (Shell W) A :=
  (if of_color o && fmt_is "table" then emit (Spinner ("[bold cyan]⏳ " +:+ msg +:+ "[/]")) else mret tt);; body.

Definition panel (content : string) (title : option string) (style : string) : Sdk (Shell W) unit :=
  if of_color o then emit (RichPanel content title style)
  else match title with Some (String _ _ as t) => emit (Echo false true ("--- " +:+ t +:+ " ---")) | _ => mret tt end;;
       emit (Echo false true content).

Definition print_text (text : string) : Sdk (Shell W) unit := emit (Echo false true text).

Definition print_json (data : pyval) : Sdk (Shell W) unit :=
  emit (if of_color o then RichJson (dumps data) else Echo false true (dumps_indent EmptyString data)).

(** [sys.exit(1)] after the message is a [None]. *)
Definition print_yaml (data : pyval) : Sdk (Shell W) bool :=
  match yaml_dump (W:=W) with
  | None => emit (Secho true "red" "PyYAML is not installed. Use --output json instead.");; mret false
  | Some dump => emit (Echo false true (rstrip_by is_space (dump data)));; mret true
  end.

Definition print_kv_table (data : dict pyval) (title : option string) : Sdk (Shell W) unit :=
  emit (RichTable {|
    tb_title := title;
    tb_columns := [{| co_header := "Key"; co_style := "bold cyan"; co_no_wrap := true |};
                   {| co_header := "Value"; co_style := EmptyString; co_no_wrap := false |}];
    tb_rows := (λ kv : string * pyval,
      [{| tx_text := kv.1; tx_style := EmptyString |};
       match kv.2 with PNone => {| tx_text := "-"; tx_style := "dim" |} | v => style_value kv.1 (vstr v) end]) <$> data |}).

(** [str.upper], for names of letters *)
Fixpoint upper_text (s : string) : string :=
  match s with
  | EmptyString => EmptyString
  | String c s' => String (if in_range 97 122 c then chr (code c - 32) else c) (upper_text s')
  end.

Definition print_table (rows : list (dict pyval)) (columns : list string) (title : option string) : Sdk (Shell W) unit :=
  emit (RichTable {|
    tb_title := title;
    tb_columns := (λ col, {| co_header := upper_text col;
      co_style := if among col ID_COLUMNS then "bold cyan" else if among col DIM_COLUMNS then "dim" else EmptyString;
      co_no_wrap := among col ID_COLUMNS |}) <$> columns;
    tb_rows := (λ row, (λ col,
      let val := vstr (dget_default col (PStr "-") row) in
      if among col STATUS_COLUMNS then style_value col val else {| tx_text := val; tx_style := EmptyString |}) <$> columns) <$> rows |}).

(** JSON, YAML, or what a table shows; [false] is [sys.exit(1)]. *)
Definition by_format (data : pyval) (table : Sdk (Shell W) unit) : Sdk (Shell W) bool :=
  if fmt_is "json" then print_json data;; mret true
  else if fmt_is "yaml" then print_yaml data
  else table;; mret true.

Definition print_dict (data : dict pyval) (title : option string) : Sdk (Shell W) bool :=
  by_format (PDict data) (print_kv_table data title).
Definition print_rows (rows : list (dict pyval)) (columns : list string) (title : option string) : Sdk (Shell W) bool :=
  by_format (PList (PDict <$> rows)) (print_table rows columns title).

Definition success_panel (data : dict pyval) (title : string) : Sdk (Shell W) bool :=
  if negb (fmt_is "table") then
    if fmt_is "json" then print_json (PDict data);; mret true
    else if fmt_is "yaml" then print_yaml (PDict data) else mret true
  else if of_color o then
    emit_all ([Rich false EmptyString; Rich false ("  [bold green]✓ " +:+ title +:+ "[/]"); Rich false (rule title)]
              ++ ((λ kv : string * pyval, Rich false ("  [bold]" +:+ kv.1 +:+ ":[/] [cyan]" +:+ vstr kv.2 +:+ "[/]")) <$> data)
              ++ [Rich false EmptyString]);; mret true
  else
    emit_all (Echo false true ("--- " +:+ title +:+ " ---")
              :: ((λ kv : string * pyval, Echo false true ("  " +:+ kv.1 +:+ ": " +:+ vstr kv.2)) <$> data));; mret true.
End output.

(** ** The models as dictionaries ([model_dump(mode="json")]) *)

Section dumps.
Context {W : Type} `{Host W}.
Definition dump_time (t : datetime) : pyval := PStr (dump_datetime (W:=W) t).
Definition dump_opt {A} (f : A → pyval) (o : option A) : pyval := match o with Some a => f a | None => PNone end.

Definition dump_status (s : SandboxStatus) : pyval := PDict
  [("state", PStr (st_state s)); ("reason", dump_opt PStr (st_reason s)); ("message", dump_opt PStr (st_message s));
   ("last_transition_at", dump_opt dump_time (st_last_transition_at s))].
Definition dump_image_auth (a : SandboxImageAuth) : pyval := PDict
  [("username", PStr (ia_username a)); ("password", PStr (ia_password a))].
Definition dump_image (i : SandboxImageSpec) : pyval := PDict
  [("image", PStr (is_image i)); ("auth", dump_opt dump_image_auth (is_auth i))].
Definition dump_info (i : SandboxInfo) : dict pyval :=
  [("id", PStr (si_id i)); ("status", dump_status (si_status i)); ("entrypoint", of_strings (si_entrypoint i));
   ("expires_at", dump_opt dump_time (si_expires_at i)); ("created_at", dump_time (si_created_at i));
   ("image", dump_opt dump_image (si_image i)); ("metadata", dump_opt of_str_dict (si_metadata i))].
Definition dump_endpoint (e : SandboxEndpoint) : dict pyval :=
  [("endpoint", PStr (se_endpoint e)); ("headers", of_str_dict (se_headers e))].
Definition dump_metrics (m : SandboxMetrics) : dict pyval :=
  [("cpu_count", sm_cpu_count m); ("cpu_used_percentage", sm_cpu_used_percentage m);
   ("memory_total_in_mib", sm_memory_total_in_mib m); ("memory_used_in_mib", sm_memory_used_in_mib m);
   ("timestamp", PInt (sm_timestamp m))].
Definition dump_command_status (c : CommandStatus) : dict pyval :=
  [("id", dump_opt PStr (cs_id c)); ("content", dump_opt PStr (cs_content c)); ("running", dump_opt PBool (cs_running c));
   ("exit_code", dump_opt PInt (cs_exit_code c)); ("error", dump_opt PStr (cs_error c));
   ("started_at", dump_opt dump_time (cs_started_at c)); ("finished_at", dump_opt dump_time (cs_finished_at c))].
Definition dump_logs (l : CommandLogs) : dict pyval := [("content", PStr (cl_content l)); ("cursor", dump_opt PInt (cl_cursor l))].
Definition dump_entry (e : EntryInfo) : dict pyval :=
  [("path", PStr (en_path e)); ("mode", PInt (en_mode e)); ("owner", PStr (en_owner e)); ("group", PStr (en_group e));
   ("size", PInt (en_size e)); ("modified_at", dump_time (en_modified_at e)); ("created_at", dump_time (en_created_at e))].
End dumps.

(** ** The context of a command ([client.py]) *)

(** What does not change: the configuration and the formatter. *)
Record ClientContext := { ctx_resolved_config : dict pyval; ctx_output : OutputFormatter }.

(** What is made on first use, and the process. *)
Record CliState (W : Type) := {
  cst_connection_config : option ConnectionConfigSync;
  cst_manager : option (SandboxManagerSync (W:=Shell W));
  cst_shell : Shell W }.
Arguments cst_connection_config {W} _.
Arguments cst_manager {W} _.
Arguments cst_shell {W} _.

Definition Cli (W A : Type) : Type := CliState W → cli_outcome A * CliState W.
#[global] Instance Cli_ret {W} : MRet (Cli W) := fun A a s => (Done a, s).
#[global] Instance Cli_bind {W} : MBind (Cli W) := fun A B f m s =>
  match m s with (Done a, s') => f a s' | (Fails e, s') => (Fails e, s') end.

Section cli.
Context {W : Type}.

Definition cli_raise {A} (e : cli_exn) : Cli W A := λ s, (Fails e, s).
Definition lift_cli {A} (r : cli_outcome A) : Cli W A := λ s, (r, s).

(** A step of the process. *)
Definition run_sdk {A} (m : Sdk (Shell W) A) : Cli W A := λ s,
  let '(r, sh) := m (cst_shell s) in
  (of_outcome r, {| cst_connection_config := cst_connection_config s; cst_manager := cst_manager s; cst_shell := sh |}).

(** A method of the formatter that may end the process. *)
Definition shown (m : Sdk (Shell W) bool) : Cli W unit :=
  run_sdk m ≫= λ go_on : bool, if go_on then mret tt else cli_raise (SystemExit 1).

(** [try: m finally: c] *)
Definition cli_finally {A} (m : Cli W A) (c : Cli W unit) : Cli W A := λ s,
  let '(r, s1) := m s in
  match c s1 with (Done _, s2) => (r, s2) | (Fails e, s2) => (Fails e, s2) end.
End cli.

(** [timedelta(seconds=v)] *)
Definition timedelta_of_value (v : pyval) : result Z :=
  match v with
  | PInt n => timedelta_us (n * us_per_second)
  | PBool b => timedelta_us (if b then us_per_second else 0)
  | PFloat t => match py_float t with
                | Some x => timedelta_of_seconds x
                | None => Raise (PyException ValueError ("could not convert string to float: " +:+ repr t))
                end
  | _ => Raise (PyException TypeError ("unsupported type for timedelta seconds component: " +:+ type_name v))
  end.

(** Eight hexadecimal digits, three times four and twelve, with dashes; the text may end
    with a newline. *)
Definition is_hex (c : ascii) : bool := is_digit c || in_range 97 102 c || in_range 65 70 c.
Definition uuid_groups (s : string) : bool :=
  match split_on "-" s with
  | [a; b; c; d; e] =>
      forallb (string_forallb is_hex) [a; b; c; d; e] && bool_decide (len <$> [a; b; c; d; e] = [8; 4; 4; 4; 12])
  | _ => false
  end.
Definition is_uuid (s : string) : bool := uuid_groups s || (endswith s newline && uuid_groups (drop_last s)).

Section context.
Context {W : Type} `{Net W} `{Streams W} `{Host W} `{Codecs} `{Dateutil} `{PydanticFields}.
Context (bytes_decode : string → list N → result string).
(** The pages that a listing is read to, at most; a longer one is a [RuntimeError] here. *)
Context (max_pages : nat).
Context (obj : ClientContext).

(** [ConnectionConfigSync(...)] of the resolved configuration *)
Definition connection_args (cfg : dict pyval) : outcome ConnectionConfigSync :=
  request_timeout ← of_result (timedelta_of_value (dget_default "request_timeout" (PInt 30) cfg));
  api_key ← field_of "ConnectionConfigSync" (nullable pf_str) (dget_default "api_key" PNone cfg);
  domain ← field_of "ConnectionConfigSync" (nullable pf_str) (dget_default "domain" PNone cfg);
  protocol ← field_of "ConnectionConfigSync" pf_str (dget_default "protocol" (PStr "http") cfg);
  connection_config_sync {|
    ca_api_key := api_key; ca_domain := domain; ca_protocol := protocol; ca_request_timeout := request_timeout;
    ca_debug := ca_debug default_args; ca_user_agent := ca_user_agent default_args; ca_headers := ca_headers default_args;
    ca_transport := ca_transport default_args; ca_use_server_proxy := ca_use_server_proxy default_args |}.

Definition context_config : Cli W ConnectionConfigSync := λ s,
  match cst_connection_config s with
  | Some c => (Done c, s)
  | None =>
      match connection_args (ctx_resolved_config obj) with
      | Throw e => (Fails (Failed e), s)
      | Return c => (Done c, {| cst_connection_config := Some c; cst_manager := cst_manager s; cst_shell := cst_shell s |})
      end
  end.

Definition keep_manager (m : SandboxManagerSync (W:=Shell W)) : Cli W unit := λ s,
  (Done tt, {| cst_connection_config := cst_connection_config s; cst_manager := Some m; cst_shell := cst_shell s |}).

Definition get_manager : Cli W (SandboxManagerSync (W:=Shell W)) := λ s,
  match cst_manager s with
  | Some m => (Done m, s)
  | None => (c ← context_config; m ← run_sdk (manager_create_sync (Some c)); keep_manager m;; mret m) s
  end.

Definition page_filter (page : Z) : SandboxFilter := {|
  sf_states := None; sf_metadata := None; sf_page_size := Some 100%Z; sf_page := Some page |}.

(** The loop over the pages. *)
Fixpoint matching_loop (mgr : SandboxManagerSync (W:=Shell W)) (prefix : string) (fuel : nat) (page : Z) (matches : list string)
    : Cli W (list string) :=
  match fuel with
  | O => cli_raise (Failed (PyError (PyException RuntimeError "still listing")))
  | S f =>
      filter ← lift_cli (of_outcome (sandbox_filter (page_filter page)));
      result ← run_sdk (manager_list_sandbox_infos_sync mgr filter);
      let matches := matches ++ List.filter (λ i, startswith i prefix) (si_id <$> psi_sandbox_infos result) in
      if (1 <? length matches)%nat then mret matches
      else if negb (pi_has_next_page (psi_pagination result)) then mret matches
      else matching_loop mgr prefix f (page + 1) matches
  end.

Definition no_match (prefix : string) : cli_exn := ClickError ("No sandbox found with ID prefix '" +:+ prefix +:+ "'").
Definition ambiguous (prefix : string) (matches : list string) : cli_exn :=
  ClickError ("Ambiguous ID prefix '" +:+ prefix +:+ "' matches " +:+ str_of_Z (Z.of_nat (length matches)) +:+ " sandboxes: "
    +:+ join ", " (take 5 matches) +:+ (if (5 <? length matches)%nat then ", ..." else EmptyString)).

Definition resolve_sandbox_id (prefix : string) : Cli W string :=
  if is_uuid prefix then mret prefix else
  mgr ← get_manager;
  matches ← matching_loop mgr prefix max_pages 0 [];
  match matches with
  | [id] => mret id
  | [] => cli_raise (no_match prefix)
  | _ => cli_raise (ambiguous prefix matches)
  end.

Definition connect_sandbox (sandbox_id : string) : Cli W (SandboxHandle (Shell W)) :=
  sandbox_id ← resolve_sandbox_id sandbox_id;
  config ← context_config;
  run_sdk (connect_sync bytes_decode {|
    co_sandbox_id := sandbox_id; co_connection_config := Some config; co_health_check := None;
    co_timeout := 30 * us_per_second; co_polling_interval := 200000; co_skip_health_check := true |}).

(** [ClientContext.close] *)
Definition context_close : Cli W unit := λ s,
  let '(_, sh1) := match cst_manager s with Some m => manager_close_sync m (cst_shell s) | None => (Return tt, cst_shell s) end in
  let '(_, sh2) := match cst_connection_config s with
                   | Some c => close_transport_if_owned_sync c sh1
                   | None => (Return tt, sh1)
                   end in
  (Done tt, {| cst_connection_config := None; cst_manager := None; cst_shell := sh2 |}).

(** [sandbox = obj.connect_sandbox(...)], then [try: ... finally: sandbox.close()] *)
Definition with_connected {A} (sandbox_id : string) (body : SandboxHandle (Shell W) → Cli W A) : Cli W A :=
  sandbox ← connect_sandbox sandbox_id;
  cli_finally (body sandbox) (run_sdk (close_sync sandbox)).

(** ** The handler of errors ([utils.py]) *)

Definition error_report (e : sexn) : Sdk (Shell W) unit :=
  match e with
  | Sandbox _ => error_panel (ctx_output obj) (sexn_text e) "Sandbox Error"
  | _ => error_panel (ctx_output obj)
           (sexn_text e +:+ newline +:+ newline +:+ "[dim]Type: " +:+ exn_type_name (W:=W) e +:+ "[/]") (exn_type_name (W:=W) e)
  end.

Definition handle_errors {A} (m : Cli W A) : Cli W A := λ s,
  match m s with
  | (Fails (Failed e), s') => (run_sdk (error_report e);; cli_raise (SystemExit 1)) s'
  | r => r
  end.
End context.

(** ** The start ([main.py]) *)

Section start.
Context {W : Type} `{Net W} `{Host W}.

Definition client_context (f : CliFlags) (resolved : dict pyval) : ClientContext := {|
  ctx_resolved_config := resolved;
  ctx_output := {| of_fmt := dget_default "output_format" PNone resolved;
                   of_color := negb (fl_no_color f) && vtruthy (dget_default "color" (PBool true) resolved) |} |}.

(** [cli]: the context, the command, and the closing of the context. *)
Definition cli (f : CliFlags) (command : ClientContext → Cli W unit) : Cli W unit :=
  resolved ← run_sdk (lift_shell (resolve_config f));
  cli_finally (command (client_context f resolved)) context_close.
End start.

(** ** [config] ([commands/config_cmd.py]) *)

(** [raw.lower() in ("true", "false")], then [int(raw)], then [float(raw)] *)
Definition toml_value (raw : string) : string :=
  if among (lower raw) ["true"; "false"] then lower raw
  else match py_int raw, py_float raw with
  | None, None => quoted raw
  | _, _ => raw
  end.

(** [re.search(r"(\[section\].*?)(?=\n\[|\Z)", content, re.DOTALL)]: what comes before,
    the section and what comes after *)
Fixpoint until_section (acc s : string) : string * string :=
  match s with
  | EmptyString => (reverse acc, EmptyString)
  | String c rest => if startswith s (newline +:+ "[") then (reverse acc, s) else until_section (String c acc) rest
  end.
Fixpoint find_section (header acc s : string) : option (string * string * string) :=
  if startswith s header then
    let '(text, rest) := until_section (reverse header) (str_drop (len header) s) in Some (reverse acc, text, rest)
  else match s with EmptyString => None | String c rest => find_section header (String c acc) rest end.

(** [\s*]: the rests after it, the longest match first *)
Fixpoint after_spaces (s : string) : list string :=
  match s with
  | String c rest => if is_space c then after_spaces rest ++ [s] else [s]
  | EmptyString => [s]
  end.
Definition after_line (s : string) : string := (fix go s := match s with
  | String c rest => if (code c =? 10)%N then s else go rest
  | EmptyString => EmptyString
  end) s.

(** [#?\s*field\s*=\s*.*$] at the beginning of a text: what comes after the match *)
Definition match_field (field s : string) : option string :=
  let starts := match s with String c rest => if (code c =? 35)%N then [rest; s] else [s] | EmptyString => [s] end in
  let rests :=
    s1 ← starts;
    s2 ← after_spaces s1;
    s3 ← (if startswith s2 field then [str_drop (len field) s2] else []);
    s4 ← after_spaces s3;
    s5 ← (if startswith s4 "=" then [str_drop 1 s4] else []);
    after_spaces s5 in
  after_line <$> head rests.

(** [re.search] of it with [re.MULTILINE]: before and after the match *)
Fixpoint find_field (field : string) (line_start : bool) (acc s : string) : option (string * string) :=
  match (if line_start then match_field field s else None) with
  | Some rest => Some (reverse acc, rest)
  | None => match s with
            | EmptyString => None
            | String c rest => find_field field (code c =? 10)%N (String c acc) rest
            end
  end.

(** The new text of the file. *)
Definition set_field (section field value content : string) : string :=
  let toml_val := toml_value value in
  let new_line := field +:+ " = " +:+ toml_val in
  match find_section ("[" +:+ section +:+ "]") EmptyString content with
  | Some (before, text, after) =>
      match find_field field true EmptyString text with
      | Some (pre, post) => before +:+ pre +:+ new_line +:+ post +:+ after
      | None => before +:+ text +:+ newline +:+ new_line +:+ after
      end
  | None => content +:+ newline +:+ "[" +:+ section +:+ "]" +:+ newline +:+ new_line +:+ newline
  end.

Section config_commands.
Context {W : Type} `{Host W} `{Codecs} (obj : ClientContext).

Definition config_show : Cli W unit :=
  handle_errors obj (shown (print_dict (ctx_output obj) (ctx_resolved_config obj) (Some "Resolved Configuration"))).

Definition config_init (force : bool) (config_path : option string) : Cli W unit :=
  handle_errors obj (λ s,
    match run_sdk (lift_shell (init_config_file config_path force)) s with
    | (Done path, s') => run_sdk (success (ctx_output obj) ("Config file created: " +:+ path)) s'
    | (Fails (Failed (PyError (PyException FileExistsError m))), s') => run_sdk (warning (ctx_output obj) m) s'
    | (Fails e, s') => (Fails e, s')
    end).

Definition config_set (key value : string) (config_path : option string) : Cli W unit :=
  let path := path_or_default (W:=W) config_path in
  handle_errors obj (λ s,
    if negb (lh_exists path (sh_world (cst_shell s))) then
      run_sdk (emit (Secho true "red" ("Config file not found: " +:+ path +:+ ". Run 'osb config init' first."))) s
    else (
      content ← run_sdk (lift_shell (lh_read_text path));
      match split_once "." key with
      | None => run_sdk (emit (Secho true "red" "Key must be in 'section.field' format (e.g. connection.domain)."))
      | Some (section, field) =>
          run_sdk (lift_shell (lh_write_text path (set_field section field value content)));;
          run_sdk (success (ctx_output obj) ("Set " +:+ key +:+ " = " +:+ value))
      end) s).
End config_commands.
