(* ===== verification/CliCommands.v ===== *)
(** * The command line client: its commands
      ([cli/src/opensandbox_cli/commands/sandbox.py], [command.py], [file.py], [code.py])

    Every command over the blocking client, with what it prints and how it ends, and the
    theorems on resolving an identifier, on durations and on what a command leaves open. *)

From Stdlib Require Import Ascii.
From S2P Require Import Prelude PyString PyDict PyTime PyFloat Json PyVal Helpers Common JsonRoundtrip Shlex SdkBase SdkModels SdkApi SdkConfig SdkAdapter SdkExecdApi SdkCommands SdkExecution SdkFiles SdkSandbox SdkTrace SdkSandboxProofs SdkSync SdkSyncProofs CodeInterpreter Cli.
Open Scope string_scope.
Open Scope list_scope.

Section commands.
Context {W : Type} `{Net W} `{Streams W} `{Host W} `{Codecs} `{Dateutil} `{PydanticFields}.
Context (bytes_decode : string → list N → result string) (max_pages : nat) (obj : ClientContext).

Let out : OutputFormatter := ctx_output obj.
Let resolve : string → Cli W string := resolve_sandbox_id max_pages obj.
Let manager : Cli W (SandboxManagerSync (W:=Shell W)) := get_manager obj.
Let connected {A} : string → (SandboxHandle (Shell W) → Cli W A) → Cli W A := with_connected bytes_decode max_pages obj.
Let sdk {A} : Sdk (Shell W) A → Cli W A := run_sdk.
Let lift {A} (o : outcome A) : Cli W A := lift_cli (of_outcome o).
Let machine_readable : bool := fmt_is out "json" || fmt_is out "yaml".

(** ** [sandbox] *)

(** [--entrypoint]: JSON if it is, else a command for the shell.  JSON that is false gives
    the default entry point; other JSON that is no list of strings is sent as it is and
    refused by the server, here it is an error at once. *)
Definition entrypoint_words (text : string) : outcome (list string) :=
  match loads text with
  | None => Return ["sh"; "-c"; text]
  | Some j =>
      if negb (vtruthy (of_json j)) then Return []
      else match read_strings (of_json j) with
      | Some l => Return l
      | None => Throw (PyError (PyException TypeError "entrypoint"))
      end
  end.

(** [dict(pairs)] if there are any *)
Definition dict_of (pairs : list (string * string)) : option (dict string) :=
  match pairs with [] => None | _ => Some (dupdate [] pairs) end.

Definition sandbox_create (image : string) (timeout ready_timeout : option Z) (envs metadata_kv resources_kv : list (string * string))
    (entrypoint network_policy_file : option string) (skip_health_check : bool) : Cli W unit :=
  handle_errors obj (
    config ← context_config obj;
    words ← match entrypoint with
            | Some (String _ _ as t) => l ← lift (entrypoint_words t); mret (Some l)
            | _ => mret None
            end;
    policy ← match network_policy_file with
             | Some (String _ _ as path) =>
                 text ← sdk (lift_shell (lh_read_text path));
                 j ← lift (parse_data text);
                 p ← lift (policy_of (W:=W) j);
                 mret (Some p)
             | _ => mret None
             end;
    sandbox ← sdk (spinner out "Creating sandbox..." (create_sync bytes_decode {|
      ca_image := ImageText image;
      ca_timeout := Some (default (600 * us_per_second)%Z timeout); ca_ready_timeout := default (30 * us_per_second)%Z ready_timeout;
      ca_env := dict_of envs; ca_metadata := dict_of metadata_kv; ca_resource := dict_of resources_kv;
      ca_network_policy := policy; ca_extensions := None; ca_entrypoint := words; ca_volumes := None;
      ca_connection_config := Some config; ca_health_check := None; ca_health_check_polling_interval := 200000;
      ca_skip_health_check := skip_health_check |}));
    shown (success_panel out
      [("id", PStr (sb_id (sb_core sandbox))); ("image", PStr image); ("status", PStr "created")] "Sandbox Created")).

Definition SANDBOX_COLUMNS : list string := ["id"; "status"; "image"; "created_at"; "expires_at"].

(** The nested values of a row, flattened for a table. *)
Definition flatten_value (key inner : string) (d : dict pyval) : dict pyval :=
  match dget key d with
  | Some (PDict v) => dset key (dget_default inner (PStr (vstr (PDict v))) v) d
  | _ => d
  end.
Definition flatten_row (d : dict pyval) : dict pyval := flatten_value "image" "image" (flatten_value "status" "state" d).

Definition sandbox_list (states : list string) (metadata_kv : list (string * string)) (page page_size : option Z) : Cli W unit :=
  handle_errors obj (
    mgr ← manager;
    filt ← lift (sandbox_filter {|
      sf_states := match states with [] => None | _ => Some states end; sf_metadata := dict_of metadata_kv;
      sf_page_size := page_size; sf_page := page |});
    result ← sdk (spinner out "Fetching sandboxes..." (manager_list_sandbox_infos_sync mgr filt));
    let raw_rows := dump_info (W:=W) <$> psi_sandbox_infos result in
    match raw_rows with
    | [] => if machine_readable then shown (print_rows out [] SANDBOX_COLUMNS (Some "Sandboxes"))
            else sdk (info out "No sandboxes found.")
    | _ => shown (print_rows out (if machine_readable then raw_rows else flatten_row <$> raw_rows) SANDBOX_COLUMNS (Some "Sandboxes"))
    end).

(** [if status_val.get(key): d[name] = status_val[key]] *)
Definition add_if (name key : string) (status d : dict pyval) : dict pyval :=
  match dget key status with
  | Some v => if vtruthy v then dset name v d else d
  | None => d
  end.
Definition flatten_info (d : dict pyval) : dict pyval :=
  let flat := flatten_value "status" "state" d in
  let flat := match dget "status" d with
              | Some (PDict st) => add_if "status_message" "message" st (add_if "status_reason" "reason" st flat)
              | _ => flat
              end in
  flatten_value "image" "image" flat.

Definition sandbox_get (sandbox_id : string) : Cli W unit :=
  handle_errors obj (
    sandbox_id ← resolve sandbox_id;
    mgr ← manager;
    info ← sdk (manager_get_sandbox_info_sync mgr sandbox_id);
    let d := dump_info (W:=W) info in
    shown (print_dict out (if machine_readable then d else flatten_info d) (Some "Sandbox Info"))).

Fixpoint kill_each (mgr : SandboxManagerSync (W:=Shell W)) (sandbox_ids : list string) : Cli W unit :=
  match sandbox_ids with
  | [] => mret tt
  | sid :: rest =>
      resolved ← resolve sid;
      sdk (spinner out ("Killing sandbox " +:+ resolved +:+ "...") (manager_kill_sandbox_sync mgr resolved));;
      sdk (success out ("Sandbox terminated: " +:+ resolved));;
      kill_each mgr rest
  end.
Definition sandbox_kill (sandbox_ids : list string) : Cli W unit :=
  handle_errors obj (mgr ← manager; kill_each mgr sandbox_ids).

Definition sandbox_pause (sandbox_id : string) : Cli W unit :=
  handle_errors obj (
    sandbox_id ← resolve sandbox_id;
    mgr ← manager;
    sdk (spinner out "Pausing sandbox..." (manager_pause_sandbox_sync mgr sandbox_id));;
    sdk (success out ("Sandbox paused: " +:+ sandbox_id))).
Definition sandbox_resume (sandbox_id : string) : Cli W unit :=
  handle_errors obj (
    sandbox_id ← resolve sandbox_id;
    mgr ← manager;
    sdk (spinner out "Resuming sandbox..." (manager_resume_sandbox_sync mgr sandbox_id));;
    sdk (success out ("Sandbox resumed: " +:+ sandbox_id))).

(** [str(datetime)] is [isoformat] with a blank for the [T]. *)
Definition datetime_str (t : datetime) : string := replace_char "T" " " (isoformat t).

Definition sandbox_renew (sandbox_id : string) (timeout : Z) : Cli W unit :=
  handle_errors obj (
    sandbox_id ← resolve sandbox_id;
    mgr ← manager;
    resp ← sdk (spinner out "Renewing sandbox..." (manager_renew_sandbox_sync mgr sandbox_id timeout));
    shown (success_panel out [("sandbox_id", PStr sandbox_id); ("expires_at", PStr (datetime_str (srr_expires_at resp)))] "Sandbox Renewed")).

Definition sandbox_endpoint (sandbox_id : string) (port : Z) : Cli W unit :=
  handle_errors obj (connected sandbox_id (λ sandbox,
    ep ← sdk (get_endpoint_sync sandbox port);
    shown (print_dict out (dump_endpoint ep) (Some "Sandbox Endpoint")))).

Definition sandbox_health (sandbox_id : string) : Cli W unit :=
  handle_errors obj (connected sandbox_id (λ sandbox,
    sdk (is_healthy_sync sandbox) ≫= λ healthy : bool,
    if fmt_is out "table" then
      if healthy then sdk (success out ("Sandbox " +:+ sandbox_id +:+ " is healthy"))
      else sdk (error out ("Sandbox " +:+ sandbox_id +:+ " is unhealthy"))
    else shown (print_dict out [("sandbox_id", PStr sandbox_id); ("healthy", PBool healthy)] (Some "Health Check")))).

Definition sandbox_metrics (sandbox_id : string) : Cli W unit :=
  handle_errors obj (connected sandbox_id (λ sandbox,
    m ← sdk (sandbox_metrics_sync sandbox);
    shown (print_dict out (dump_metrics m) (Some "Sandbox Metrics")))).

(** ** [command] and [exec] *)

(** [" ".join(shlex.quote(arg) for arg in command)] *)
Definition command_text (command : list string) : string := join " " (shlex_quote <$> command).

(** The handlers of the output; those of a command keep [last_text]. *)
Definition streaming (remember : bool) : ExecutionHandlers (Shell W) := {|
  on_stdout := Some (λ m, (if remember then set_last_text (om_text m) else mret tt);; emit (Written false (om_text m)));
  on_stderr := Some (λ m, (if remember then set_last_text (om_text m) else mret tt);; emit (Written true (om_text m)));
  on_result := None; on_execution_complete := None; on_error := None; on_init := None |}.

(** A newline after output that has none at its end. *)
Definition finish_line : Sdk (Shell W) unit := λ s,
  if truthy (sh_last_text s) && negb (endswith (sh_last_text s) newline) then emit (Written false newline) s else (Return tt, s).

Definition error_line (e : ExecutionError) : string := ee_name e +:+ ": " +:+ ee_value e.

Definition run_command (sandbox_id : string) (command : list string) (background : bool) (workdir : option string)
    (timeout : option Z) : Cli W unit :=
  connected sandbox_id (λ sandbox,
    opts ← lift (run_command_opts {| rc_background := background; rc_working_directory := workdir; rc_timeout := timeout;
                                     rc_uid := None; rc_gid := None; rc_envs := None |});
    if background then
      execution ← sdk (cm_run (commands sandbox) (command_text command) (Some opts) None);
      shown (success_panel out
        [("execution_id", dump_opt PStr (ex_id execution)); ("sandbox_id", PStr sandbox_id); ("mode", PStr "background")]
        "Background Command Started")
    else
      sdk (set_last_text EmptyString);;
      execution ← sdk (cm_run (commands sandbox) (command_text command) (Some opts) (Some (streaming true)));
      sdk finish_line;;
      match ex_error execution with
      | Some e => sdk (error_panel out (error_line e) "Execution Error");; cli_raise (SystemExit 1)
      | None => mret tt
      end).
Definition command_run (sandbox_id : string) (command : list string) (background : bool) (workdir : option string)
    (timeout : option Z) : Cli W unit := handle_errors obj (run_command sandbox_id command background workdir timeout).
Definition exec_cmd (sandbox_id : string) (command : list string) (background : bool) (workdir : option string)
    (timeout : option Z) : Cli W unit := handle_errors obj (run_command sandbox_id command background workdir timeout).

Definition command_status (sandbox_id execution_id : string) : Cli W unit :=
  handle_errors obj (connected sandbox_id (λ sandbox,
    status ← sdk (cm_get_command_status (commands sandbox) execution_id);
    shown (print_dict out (dump_command_status (W:=W) status) (Some "Command Status")))).
Definition command_logs (sandbox_id execution_id : string) (cursor : option Z) : Cli W unit :=
  handle_errors obj (connected sandbox_id (λ sandbox,
    logs ← sdk (cm_get_background_command_logs (commands sandbox) execution_id cursor);
    if machine_readable then shown (print_dict out (dump_logs logs) (Some "Command Logs"))
    else sdk (emit (Echo false true (cl_content logs))))).
Definition command_interrupt (sandbox_id execution_id : string) : Cli W unit :=
  handle_errors obj (connected sandbox_id (λ sandbox,
    sdk (cm_interrupt (commands sandbox) execution_id);;
    sdk (success out ("Interrupted: " +:+ execution_id)))).

(** ** [file] *)

(** One call of the file system, then a line per path. *)
Definition file_call (sandbox_id : string) (call : Filesystem (Shell W) → Sdk (Shell W) unit) (lines : list string) : Cli W unit :=
  handle_errors obj (connected sandbox_id (λ sandbox,
    sdk (call (files sandbox));;
    foldr (λ line k, sdk (success out line);; k) (mret tt) lines)).

Definition file_cat (sandbox_id path encoding : string) : Cli W unit :=
  handle_errors obj (connected sandbox_id (λ sandbox,
    content ← sdk (fs_read_file (files sandbox) path encoding None);
    sdk (emit (Echo false false content)))).

(** The text of [--content], or of the standard input. *)
Definition content_or_stdin (given : option string) (prompt : string) : Cli W string :=
  match given with
  | Some c => mret c
  | None => λ s,
      ((if lh_isatty (sh_world (cst_shell s)) then sdk (emit (Echo true true prompt)) else mret tt);;
       sdk (lift_shell lh_stdin)) s
  end.

(** A mode is a text that pydantic reads as an integer. *)
Definition mode_of (model : string) (mode : option string) : outcome Z :=
  match mode with Some m => field_of model pf_int (PStr m) | None => Return 755%Z end.

Definition file_write (sandbox_id path : string) (content : option string) (encoding : string)
    (mode owner group : option string) : Cli W unit :=
  handle_errors obj (
    content ← content_or_stdin content "Reading from stdin (Ctrl+D to finish):";
    connected sandbox_id (λ sandbox,
      m ← lift (mode_of "WriteEntry" mode);
      sdk (fs_write_file (files sandbox) path (DataText content) encoding m owner group);;
      sdk (success out ("Written: " +:+ path)))).

Definition file_upload (sandbox_id local_path remote_path : string) : Cli W unit :=
  handle_errors obj (
    data ← sdk (lift_shell (lh_read_bytes local_path));
    connected sandbox_id (λ sandbox,
      sdk (fs_write_file (files sandbox) remote_path (DataBytes data) "utf-8" 755 None None);;
      sdk (success out ("Uploaded: " +:+ local_path +:+ " → " +:+ remote_path)))).

Definition file_download (sandbox_id remote_path local_path : string) : Cli W unit :=
  handle_errors obj (connected sandbox_id (λ sandbox,
    content ← sdk (fs_read_bytes (files sandbox) remote_path None);
    sdk (lift_shell (lh_write_bytes local_path content));;
    sdk (success out ("Downloaded: " +:+ remote_path +:+ " → " +:+ local_path)))).

Definition file_rm (sandbox_id : string) (paths : list string) : Cli W unit :=
  file_call sandbox_id (λ fs, fs_delete_files fs paths) ((λ p, "Deleted: " +:+ p) <$> paths).
Definition file_rmdir (sandbox_id : string) (paths : list string) : Cli W unit :=
  file_call sandbox_id (λ fs, fs_delete_directories fs paths) ((λ p, "Removed: " +:+ p) <$> paths).
Definition file_mv (sandbox_id source destination : string) : Cli W unit :=
  file_call sandbox_id (λ fs, e ← liftO (move_entry source destination); fs_move_files fs [e])
    ["Moved: " +:+ source +:+ " → " +:+ destination].
Definition file_mkdir (sandbox_id : string) (paths : list string) (mode owner group : option string) : Cli W unit :=
  file_call sandbox_id (λ fs,
    entries ← liftO (mapO (λ p, m ← mode_of "WriteEntry" mode;
      write_entry {| we_path := p; we_data := None; we_mode := m; we_owner := owner; we_group := group; we_encoding := "utf-8" |}) paths);
    fs_create_directories fs entries) ((λ p, "Created: " +:+ p) <$> paths).
Definition file_chmod (sandbox_id path mode : string) (owner group : option string) : Cli W unit :=
  file_call sandbox_id (λ fs,
    m ← liftO (mode_of "SetPermissionEntry" (Some mode));
    e ← liftO (set_permission_entry {| sp_path := path; sp_owner := owner; sp_group := group; sp_mode := m |});
    fs_set_permissions fs [e]) ["Permissions set: " +:+ path].
Definition file_replace (sandbox_id path old new : string) : Cli W unit :=
  file_call sandbox_id (λ fs,
    e ← liftO (content_replace_entry {| cr_path := path; cr_old_content := old; cr_new_content := new |});
    fs_replace_contents fs [e]) ["Replaced in: " +:+ path].

Definition file_search (sandbox_id path pattern : string) : Cli W unit :=
  handle_errors obj (connected sandbox_id (λ sandbox,
    entry ← lift (search_entry {| sr_path := path; sr_pattern := pattern |});
    results ← sdk (fs_search (files sandbox) entry);
    match results with
    | [] => if machine_readable then shown (print_rows out [] [] None) else sdk (info out "No files found.")
    | _ => if machine_readable
           then shown (print_rows out (dump_entry (W:=W) <$> results) ["path"; "size"; "mode"; "owner"; "modified_at"] None)
           else shown (print_rows out (dump_entry (W:=W) <$> results) ["path"; "size"; "owner"] (Some "Search Results"))
    end)).

Definition file_info (sandbox_id : string) (paths : list string) : Cli W unit :=
  handle_errors obj (connected sandbox_id (λ sandbox,
    info_map ← sdk (fs_get_file_info (files sandbox) paths);
    foldr (λ kv k, shown (print_dict out (dupdate [("path", PStr kv.1)] (dump_entry (W:=W) kv.2)) (Some kv.1));; k) (mret tt) info_map)).

(** ** [code] *)

Definition interpreted {A} (sandbox_id : string) (body : SandboxHandle (Shell W) → Codes (Shell W) → Cli W A) : Cli W A :=
  connected sandbox_id (λ sandbox,
    interpreter ← sdk (interpreter_create_sync (Some sandbox));
    body sandbox (codes interpreter)).

Definition code_run (sandbox_id language : string) (code context_id : option string) : Cli W unit :=
  handle_errors obj (
    code ← content_or_stdin code "Reading code from stdin (Ctrl+D to finish):";
    interpreted sandbox_id (λ _ codes,
      context ← match context_id with
                | Some (String _ _ as id) => x ← sdk (cd_get_context codes id); mret (Some x)
                | _ => mret None
                end;
      execution ← sdk (cd_run codes code (Some language) context (Some (streaming false)));
      match ex_error execution with
      | Some e => sdk (error out (error_line e));; cli_raise (SystemExit 1)
      | None => mret tt
      end)).

Definition context_create (sandbox_id language : string) : Cli W unit :=
  handle_errors obj (interpreted sandbox_id (λ _ codes,
    ctx ← sdk (cd_create_context codes language);
    shown (success_panel out [("context_id", dump_opt PStr (cx_id ctx)); ("language", PStr language)] "Context Created"))).
Definition context_list (sandbox_id language : string) : Cli W unit :=
  handle_errors obj (interpreted sandbox_id (λ _ codes,
    contexts ← sdk (cd_list_contexts codes language);
    foldr (λ ctx k, sdk (emit (Echo false true (vstr (dump_opt PStr (cx_id ctx)))));; k) (mret tt) contexts)).
Definition context_delete (sandbox_id context_id : string) : Cli W unit :=
  handle_errors obj (interpreted sandbox_id (λ _ codes,
    sdk (cd_delete_context codes context_id);;
    sdk (success out ("Deleted context: " +:+ context_id)))).
Definition context_delete_all (sandbox_id language : string) : Cli W unit :=
  handle_errors obj (interpreted sandbox_id (λ _ codes,
    sdk (cd_delete_contexts codes language);;
    sdk (success out ("Deleted all " +:+ language +:+ " contexts")))).
Definition code_interrupt (sandbox_id execution_id : string) : Cli W unit :=
  handle_errors obj (connected sandbox_id (λ sandbox,
    sdk (cm_interrupt (commands sandbox) execution_id);;
    sdk (success out ("Interrupted: " +:+ execution_id)))).
End commands.

(** ** Durations *)

Definition unit_text (u : ascii) (n : option Z) : string :=
  match n with Some k => str_of_Z k +:+ String u EmptyString | None => EmptyString end.

(** A duration as it is written on the command line. *)
Definition duration_text (hours minutes seconds : option Z) : string :=
  unit_text "h" hours +:+ unit_text "m" minutes +:+ unit_text "s" seconds.

Definition writable (n : option Z) : Prop := ∀ k, n = Some k → (0 ≤ k < 2 ^ 4000)%Z.

Lemma take_unit_own u n rest : writable n → is_digit u = false → n ≠ None →
  take_unit u (unit_text u n +:+ rest) = (str_of_Z <$> n, rest).
Proof.
  intros Hw Hu Hn. destruct n as [k|]; [|done]. destruct (Hw k) as [Hk _]; [done|]. cbn [unit_text]. rewrite str_app_assoc.
  unfold take_unit. rewrite span_digits_app; [|by apply str_of_Z_digits|].
  - pose proof (truthy_str_of_Z k). destruct (str_of_Z k) as [|c t] eqn:E; [done|]. cbn. rewrite bool_decide_eq_true_2 by done.
    by rewrite E.
  - by intros c t [= <- _].
Qed.

Lemma take_unit_other u v n rest : writable n → is_digit v = false → v ≠ u →
  take_unit u rest = (None, rest) → take_unit u (unit_text v n +:+ rest) = (None, unit_text v n +:+ rest).
Proof.
  intros Hw Hv Hne Hr. destruct n as [k|]; [|done]. destruct (Hw k) as [Hk _]; [done|]. cbn [unit_text]. rewrite str_app_assoc.
  unfold take_unit. rewrite span_digits_app; [|by apply str_of_Z_digits|by intros c t [= <- _]].
  destruct (str_of_Z k); [done|]. cbn. by rewrite bool_decide_eq_false_2.
Qed.

Lemma take_unit_text u n rest : writable n → is_digit u = false → take_unit u rest = (None, rest) →
  take_unit u (unit_text u n +:+ rest) = (str_of_Z <$> n, rest).
Proof. intros Hw Hu Hr. destruct n as [k|]; [by apply take_unit_own|done]. Qed.

Lemma match_duration_text h m s : writable h → writable m → writable s →
  match_duration (duration_text h m s) = Some (str_of_Z <$> h, str_of_Z <$> m, str_of_Z <$> s).
Proof.
  intros Hh Hm Hs. assert (∀ u, take_unit u EmptyString = (None, EmptyString)) as He by done.
  assert (∀ u, u ≠ "s"%char → take_unit u (unit_text "s" s) = (None, unit_text "s" s)) as H1.
  { intros u Hu. rewrite <-(str_app_nil_r (unit_text "s" s)). by apply take_unit_other. }
  unfold match_duration, duration_text. rewrite take_unit_text; [|done..|by apply take_unit_other; [..|apply H1]].
  rewrite take_unit_text; [|done..|by apply H1].
  rewrite <-(str_app_nil_r (unit_text "s" s)), take_unit_text; done.
Qed.

Lemma strip_id s : string_forallb (λ c, negb (is_space c)) s = true → strip s = s.
Proof.
  intros Hs. unfold strip. destruct s as [|c s]; [done|]. pose proof Hs as Hs'. cbn [string_forallb] in Hs'.
  apply andb_true_iff in Hs' as [Hc%negb_true_iff _]. cbn [lstrip_by]. rewrite Hc.
  rewrite <-(str_app_nil_r (String c s)) at 1. by apply rstrip_app.
Qed.

Lemma unit_text_spaceless u n : writable n → is_space u = false → string_forallb (λ c, negb (is_space c)) (unit_text u n) = true.
Proof.
  intros Hw Hu. destruct n as [k|]; [|done]. destruct (Hw k) as [Hk _]; [done|]. cbn [unit_text].
  rewrite string_forallb_app. cbn. rewrite Hu. cbn. rewrite andb_true_r.
  destruct (str_of_Z_digits k Hk) as [Hd _]. induction (str_of_Z k) as [|c t IH]; [done|]. cbn in *.
  apply andb_true_iff in Hd as [Hc Hd]. by rewrite digit_not_space, IH.
Qed.

Lemma unit_text_digits u n rest : is_digit u = false → n ≠ None → string_forallb is_digit (unit_text u n +:+ rest) = false.
Proof.
  intros Hu Hn. destruct n as [k|]; [|done]. cbn [unit_text]. rewrite !string_forallb_app. cbn. rewrite Hu. cbn.
  by rewrite andb_false_r.
Qed.

Lemma int_or_0_text n : writable n → int_or_0 (str_of_Z <$> n) = Ok (default 0%Z n).
Proof. intros Hw. destruct n as [k|]; [|done]. cbn. by rewrite py_int_str by by apply Hw. Qed.

(** C23: What is written as hours, minutes and seconds is read as their sum. *)
Theorem duration_roundtrip h m s :
  writable h → writable m → writable s → (h ≠ None ∨ m ≠ None ∨ s ≠ None) →
  parse_duration (duration_text h m s) =
    of_outcome (of_result (timedelta_us ((default 0 h * 3600 + default 0 m * 60 + default 0 s) * us_per_second)%Z)).
Proof.
  intros Hh Hm Hs Hsome. unfold parse_duration.
  assert (strip (duration_text h m s) = duration_text h m s) as ->.
  { apply strip_id. unfold duration_text. rewrite !string_forallb_app. by rewrite !unit_text_spaceless. }
  assert (string_forallb is_digit (duration_text h m s) = false) as Hd.
  { unfold duration_text. destruct h as [h'|]; [by apply unit_text_digits|]. cbn [unit_text]. rewrite string_forallb_app. cbn.
    destruct m as [m'|]; [by apply unit_text_digits|]. cbn [unit_text]. rewrite string_forallb_app. cbn.
    destruct s as [s'|]; [|by destruct Hsome as [|[]]]. rewrite <-(str_app_nil_r (unit_text "s" (Some s'))). by apply unit_text_digits. }
  destruct (truthy (duration_text h m s)) eqn:Ht; [|by destruct (duration_text h m s)]. cbn [negb].
  rewrite Hd, match_duration_text by done. rewrite !int_or_0_text by done. done.
Qed.

Lemma duration_roundtrip_witness : parse_duration "1h30m" = Done (5400 * us_per_second)%Z.
Proof.
  apply (duration_roundtrip (Some 1%Z) (Some 30%Z) None); [by intros k [= <-]..|done|by left].
Defined.

(** ** Commands *)

(** The shell in the sandbox reads the command line as the arguments that were given. *)
Theorem command_words args : args ≠ [] → sh_tokens (command_text args) = Some (SWord <$> args).
Proof.
  unfold command_text, sh_tokens. induction args as [|a args IH]; [done|]. intros _. destruct args as [|b args].
  - cbn. apply sh_quote_end.
  - rewrite fmap_cons, (join_cons " " (shlex_quote a)) by done. cbn [String.append].
    rewrite sh_quote_blank, IH by done. done.
Qed.

Lemma command_words_witness : sh_tokens (command_text ["echo"; "it's; $HOME"]) = Some [SWord "echo"; SWord "it's; $HOME"].
Proof. by apply (command_words ["echo"; "it's; $HOME"]). Defined.

(** ** Resolving an identifier *)

Section resolving.
Context {W : Type} `{Net W} `{Streams W} `{Host W} `{Codecs} `{Dateutil} `{PydanticFields}.
Context (obj : ClientContext) (mgr : SandboxManagerSync (W:=Shell W)).

(** The manager lists these pages, whatever happens in between. *)
Definition lists_pages (pages : list (list SandboxInfo)) : Prop :=
  ∀ i page sh, pages !! i = Some page →
    ∃ r sh', ss_list_sandboxes (mg_sandbox_service mgr) (page_filter (Z.of_nat i)) sh = (Return r, sh') ∧
      psi_sandbox_infos r = page ∧ pi_has_next_page (psi_pagination r) = bool_decide (S i < length pages)%nat.

(** The identifiers with the prefix, in the order of the pages. *)
Definition matching (prefix : string) (pages : list (list SandboxInfo)) : list string :=
  List.filter (λ i, startswith i prefix) (si_id <$> concat pages).

Lemma matching_cons prefix page pages :
  matching prefix (page :: pages) = List.filter (λ i, startswith i prefix) (si_id <$> page) ++ matching prefix pages.
Proof. unfold matching. cbn [concat]. by rewrite fmap_app, List.filter_app. Qed.

Lemma page_filter_ok i : sandbox_filter (page_filter (Z.of_nat i)) = Return (page_filter (Z.of_nat i)).
Proof. apply validated_Return. split; [done|]. repeat constructor. cbn. apply Z.leb_le. lia. Qed.

Lemma matching_loop_spec prefix pages i fuel acc (s : CliState W) :
  lists_pages pages → (i < length pages)%nat → (length pages - i ≤ fuel)%nat → (length acc ≤ 1)%nat →
  ∃ l s', matching_loop mgr prefix fuel (Z.of_nat i) acc s = (Done l, s') ∧
    l `prefix_of` (acc ++ matching prefix (drop i pages)) ∧
    ((length l ≤ 1)%nat → l = acc ++ matching prefix (drop i pages)).
Proof.
  intros Hp. revert i acc s. induction fuel as [|fuel IH]; intros i acc s Hi Hf Ha; [lia|].
  destruct (lookup_lt_is_Some_2 pages i Hi) as [page Hpage].
  destruct (Hp i page (cst_shell s) Hpage) as (r&sh'&Hr&Hpi&Hn).
  rewrite (drop_S pages page i) by done. rewrite matching_cons, app_assoc.
  cbn [matching_loop]. rewrite page_filter_ok. unfold mbind, Cli_bind. cbn [of_outcome lift_cli].
  unfold run_sdk, manager_list_sandbox_infos_sync. rewrite Hr. cbn [of_outcome]. rewrite Hpi, Hn.
  set (acc' := acc ++ List.filter (λ i0, startswith i0 prefix) (si_id <$> page)).
  destruct (1 <? length acc')%nat eqn:Hl.
  { apply Nat.ltb_lt in Hl. eexists _, _. split; [done|]. split; [by apply prefix_app_r|lia]. }
  apply Nat.ltb_ge in Hl. case_bool_decide as Hnext; cbn [negb].
  - replace (Z.of_nat i + 1)%Z with (Z.of_nat (S i)) by lia.
    apply IH; [done|lia|done].
  - rewrite drop_ge by lia. unfold matching. cbn. rewrite app_nil_r. eexists _, _. split; [done|]. done.
Qed.

End resolving.

(** ** How a command ends *)

Section ending.
Context {W : Type} `{Net W} `{Streams W} `{Host W} `{Codecs} `{Dateutil} `{PydanticFields}.
Context (bytes_decode : string → list N → result string) (max_pages : nat) (obj : ClientContext).

Lemma emit_all_returns l (sh : Shell W) : ∃ sh', emit_all l sh = (Return tt, sh') ∧ sh_terminal sh' = sh_terminal sh ++ l.
Proof.
  revert sh. induction l as [|e l IH]; intros sh; [exists sh; by rewrite app_nil_r|].
  cbn [emit_all]. unfold mbind, Sdk_bind, emit at 1. edestruct IH as (sh'&->&Ht). exists sh'. split; [done|].
  rewrite Ht. cbn. by rewrite <-app_assoc.
Qed.

Lemma error_report_returns e (sh : Shell W) : ∃ sh' x l, error_report obj e sh = (Return tt, sh') ∧ sh_terminal sh' = sh_terminal sh ++ x :: l.
Proof.
  assert (∀ msg title, ∃ sh' x l, error_panel (ctx_output obj) msg title sh = (Return tt, sh') ∧ sh_terminal sh' = sh_terminal sh ++ x :: l) as Hp.
  { intros msg title. unfold error_panel. destruct (of_color (ctx_output obj)).
    - edestruct emit_all_returns as (sh'&->&Ht). do 3 eexists. split; [done|]. exact Ht.
    - by do 3 eexists. }
  unfold error_report. by destruct e.
Qed.

(** A command never ends with an exception of Python: it returns, it ends with an error of
    click, or it has printed the error and exits; then the status is 1. *)
Theorem handle_errors_ends {A} (m : Cli W A) s :
  match m s with
  | (Fails (Failed e), s1) => ∃ s2 x l, handle_errors obj m s = (Fails (SystemExit 1), s2) ∧
                                 sh_terminal (cst_shell s2) = sh_terminal (cst_shell s1) ++ x :: l
  | r => handle_errors obj m s = r
  end.
Proof.
  unfold handle_errors. destruct (m s) as [[a|[msg|n|e]] s1]; try done.
  unfold mbind, Cli_bind, run_sdk. destruct (error_report_returns e (cst_shell s1)) as (sh'&x&l&->&Ht).
  by do 3 eexists.
Qed.

(** What is opened for a command is closed after it, however it ended. *)
Lemma with_connected_closes {A} id (body : SandboxHandle (Shell W) → Cli W A) s sb s1 :
  connect_sandbox bytes_decode max_pages obj id s = (Done sb, s1) →
  ∃ s', with_connected bytes_decode max_pages obj id body s = ((body sb s1).1, s') ∧
    cst_shell s' = (close_sync sb (cst_shell (body sb s1).2)).2.
Proof.
  intros Hc. unfold with_connected, mbind, Cli_bind. rewrite Hc. unfold cli_finally. destruct (body sb s1) as [r s2]. cbn.
  unfold run_sdk. destruct (close_sync sb (cst_shell s2)) as [o sh] eqn:Ho.
  assert (o = Return tt) as ->.
  { unfold close_sync, sdk_quietly, sdk_try in Ho. destruct (close_transport_if_owned_sync _ _) as [[[]|] ?]; by injection Ho as <- _. }
  by eexists.
Qed.
End ending.

(** ** Examples *)

(** A machine with an empty file at every path. *)
#[local] Instance sim_host : Host SimNet := {|
  lh_exists _ _ := true; lh_read_bytes _ := mret []; lh_write_bytes _ _ := mret tt;
  lh_read_text _ := mret EmptyString; lh_write_text _ _ := mret tt; lh_mkdir_parent _ := mret tt; lh_stdin := mret EmptyString;
  lh_isatty _ := false; lh_default_config_path := "/home/user/.opensandbox/config.toml";
  toml_load _ := Return []; yaml_dump := None; dump_datetime := isoformat;
  policy_of _ := Throw (PyError (PyException TypeError "policy"));
  exn_type_name _ := "Exception" |}.

Definition plain_context : ClientContext := {|
  ctx_resolved_config := [("protocol", PStr "http"); ("request_timeout", PInt 30)];
  ctx_output := {| of_fmt := PStr "table"; of_color := false |} |}.

Definition sim_info (id : string) : SandboxInfo := {|
  si_id := id; si_status := {| st_state := "Running"; st_reason := None; st_message := None; st_last_transition_at := None |};
  si_entrypoint := []; si_expires_at := None; si_created_at := utc 0; si_image := None; si_metadata := None |}.
Definition sim_pages : list (list SandboxInfo) := [[sim_info "abc1"; sim_info "x"]; [sim_info "b2"]].

(** A lifecycle service that lists these pages and refuses the rest. *)
Definition paged_service : Sandboxes (Shell SimNet) :=
  let refuse {A} : Sdk (Shell SimNet) A := throw (PyError (PyException NotImplementedError EmptyString)) in {|
  ss_create_sandbox _ _ _ _ _ _ _ _ _ := refuse; ss_get_sandbox_info _ := refuse;
  ss_list_sandboxes f := mret {|
    psi_sandbox_infos := default [] (sim_pages !! Z.to_nat (default 0%Z (sf_page f)));
    psi_pagination := {| pi_page := 0; pi_page_size := 100; pi_total_items := 3; pi_total_pages := 2;
                         pi_has_next_page := bool_decide (S (Z.to_nat (default 0%Z (sf_page f))) < 2)%nat |} |};
  ss_get_sandbox_endpoint _ _ _ := refuse; ss_pause_sandbox _ := refuse; ss_resume_sandbox _ := refuse;
  ss_renew_sandbox_expiration _ _ := refuse; ss_kill_sandbox _ := refuse |}.
Definition paged_state : CliState SimNet := {|
  cst_connection_config := None;
  cst_manager := Some {| mg_sandbox_service := paged_service; mg_connection_config := default_config |};
  cst_shell := {| sh_terminal := []; sh_last_text := EmptyString; sh_world := demo_world |} |}.


(** [config set] on the file that [config init] writes. *)
Example config_set_template :
  contains (set_field "connection" "domain" "sandbox.example.com" DEFAULT_CONFIG_TEMPLATE)
    (newline +:+ "domain = " +:+ quoted "sandbox.example.com" +:+ newline) = true ∧
  contains (set_field "connection" "domain" "sandbox.example.com" DEFAULT_CONFIG_TEMPLATE) "# domain" = false.
Proof. split; vm_compute; reflexivity. Qed.

(** A quotation mark in a value ends the text in the file. *)
Example config_set_unescaped : toml_value ("a" +:+ dquote +:+ "b") = dquote +:+ "a" +:+ dquote +:+ "b" +:+ dquote.
Proof. reflexivity. Qed.

(** A command for the shell that is JSON as well is not given to the shell. *)
Example entrypoint_json : entrypoint_words "make test" = Return ["sh"; "-c"; "make test"] ∧
  entrypoint_words "true" = Throw (PyError (PyException TypeError "entrypoint")) ∧ entrypoint_words "false" = Return [].
Proof. repeat split; reflexivity. Qed.

Definition sim_uuid : string := "12345678-1234-1234-1234-123456789abc".
Definition fresh_state : CliState SimNet := {|
  cst_connection_config := None; cst_manager := None;
  cst_shell := {| sh_terminal := []; sh_last_text := EmptyString; sh_world := demo_world |} |}.

(** One run from the start: the sandbox is reached, the command answered, and the one
    transport that was opened is closed. *)
Example interrupt_run :
  let r := command_interrupt sim_decode 1 plain_context sim_uuid "cmd-1" fresh_state in
  r.1 = Done tt ∧ sh_terminal (cst_shell r.2) = [Echo false true "OK: Interrupted: cmd-1"] ∧
  (hr_url <$> last (sn_sent (sh_world (cst_shell r.2)))) = Some "http://10.0.0.2:44772/command" ∧
  sn_transports (sh_world (cst_shell r.2)) = 1%nat ∧ sn_closed (sh_world (cst_shell r.2)) = [0%nat].
Proof. repeat split; vm_compute; reflexivity. Qed.
