(* ===== verification/SdkQueries.v ===== *)
(** * The Python client: what the other side reads in its URLs

    [quote] undone by [unquote_plus], the path of a download, and the metadata of a filter
    as the server parses it: the asynchronous client writes it so that the server reads
    it back, the blocking client does not. *)

From Stdlib Require Import Ascii.
From S2P Require Import Prelude PyString PyDict PyTime Helpers Json PyVal Regex Schema Validators K8sHelpers Execd Lifecycle LifecycleProofs.
From S2P Require Import SdkBase SdkModels SdkApi SdkConfig SdkAdapter SdkFiles SdkSync.
Open Scope string_scope.
Open Scope list_scope.

(** ** Quoting *)

(** The two sets of characters that the client lets through besides the usual ones. *)
Definition known_safe (safe : ascii → bool) : Prop := safe = no_safe ∨ safe = slash_safe.

Definition url_quote_bytes (safe : ascii → bool) (l : list N) : string :=
  foldr (λ n acc, url_quote_byte safe n +:+ acc) EmptyString l.

Lemma url_unquote_byte safe n s :
  known_safe safe → (n < 256)%N → unquote_to_bytes (unplus (url_quote_byte safe n) +:+ s) = n :: unquote_to_bytes s.
Proof. intros [-> | ->] [c ->]%byte_code; by destruct c as [[] [] [] [] [] [] [] []]; destruct s. Qed.

Lemma url_unquote_bytes safe l :
  known_safe safe → Forall (λ n, (n < 256)%N) l → unquote_to_bytes (unplus (url_quote_bytes safe l)) = l.
Proof.
  intros Hs. induction 1 as [|n l Hn _ IH]; [done|]. cbn [url_quote_bytes foldr]. fold (url_quote_bytes safe l).
  by rewrite unplus_app, url_unquote_byte, IH.
Qed.

Lemma url_quote_bytes_plain safe l :
  known_safe safe → Forall (λ n, (n < 256)%N) l → string_forallb plain_char (url_quote_bytes safe l) = true.
Proof.
  intros Hs. induction 1 as [|n l Hn _ IH]; [done|]. cbn [url_quote_bytes foldr]. fold (url_quote_bytes safe l).
  rewrite string_forallb_app, IH, andb_true_r. apply byte_code in Hn as [c ->].
  destruct Hs as [-> | ->]; by destruct c as [[] [] [] [] [] [] [] []].
Qed.

Lemma url_unquoted safe s :
  known_safe safe → has_char "%" (unplus (url_quote safe s)) = false → unplus (url_quote safe s) = s.
Proof.
  intros Hs. unfold url_quote. induction s as [|c s IH]; [done|]. cbn [utf8_encode].
  destruct (code c <? 128)%N eqn:Hc; cbn [app foldr]; rewrite !unplus_app, !has_char_app, !orb_false_iff.
  - intros [Hq Ht]. rewrite (IH Ht). clear IH Ht Hc.
    destruct Hs as [-> | ->]; destruct c as [[] [] [] [] [] [] [] []]; (discriminate Hq || reflexivity).
  - intros [Hq _]. clear IH. exfalso.
    destruct Hs as [-> | ->]; destruct c as [[] [] [] [] [] [] [] []]; (discriminate Hq || discriminate Hc).
Qed.

Lemma url_quote_no_sep safe s :
  known_safe safe → has_char "&" (url_quote safe s) = false ∧ has_char "=" (url_quote safe s) = false.
Proof. intros Hs. apply plain_no_sep, url_quote_bytes_plain; [done|apply utf8_encode_bytes]. Qed.

Section decoding.
Context (decode : list N → string) (Hdecode : ∀ s, decode (utf8_encode s) = s).

Lemma unquote_url_quote safe s : known_safe safe → unquote_plus decode (url_quote safe s) = s.
Proof using Hdecode.
  intros Hs. unfold unquote_plus, unquote. fold (unplus (url_quote safe s)).
  destruct (has_char "%" (unplus (url_quote safe s))) eqn:Hp; [|by apply url_unquoted].
  pose proof (url_quote_bytes_plain _ _ Hs (utf8_encode_bytes s)) as Hq. apply plain_ascii in Hq.
  change (url_quote_bytes safe (utf8_encode s)) with (url_quote safe s) in Hq.
  destruct (unplus (url_quote safe s)) as [|c t] eqn:Ht; [done|]. cbn [len String.length unquote_runs]. rewrite Hq.
  assert ((code c <? 128)%N = true) as ->.
  { cbn in Hq. destruct (code c <? 128)%N; [done|]. by destruct (ascii_prefix t). }
  rewrite <-Ht. change (unplus (url_quote safe s)) with (unplus (url_quote_bytes safe (utf8_encode s))).
  rewrite url_unquote_bytes, Hdecode by (done || apply utf8_encode_bytes).
  transitivity (s +:+ EmptyString); [|apply str_app_nil_r]. by destruct (len t).
Qed.

Lemma quote_all_inj s t : quote_all s = quote_all t → s = t.
Proof using Hdecode.
  intros Heq. rewrite <-(unquote_url_quote no_safe s), <-(unquote_url_quote no_safe t) by by left. by f_equal.
Qed.

(** ** Downloads *)

(** The path of a download survives its trip in the URL: what follows the question
    mark of [_build_download_request] is one query field named [path], whose value is the
    path of the file, whatever characters it has. *)
Theorem download_path_roundtrip config endpoint path range :
  ∃ query, dr_url (build_download_request config endpoint path range)
           = get_execd_url config endpoint FILESYSTEM_DOWNLOAD_PATH +:+ "?" +:+ query ∧
           parse_qsl decode query = Ok [("path", path)].
Proof using Hdecode.
  exists ("path=" +:+ url_quote slash_safe path). split; [done|]. unfold parse_qsl.
  assert (known_safe slash_safe) as Hk by by right. destruct (url_quote_no_sep _ path Hk) as [Ha He].
  pose proof (split_join "&" ["path=" +:+ url_quote slash_safe path]) as Hj. cbn [join] in Hj.
  rewrite Hj by (done || (repeat constructor; rewrite has_char_app; by cbn)). cbn [parse_fields]. change ("path=" +:+ url_quote slash_safe path) with ("path" +:+ String "=" (url_quote slash_safe path)).
  rewrite split_once_app by done. cbn [mbind result_bind]. by rewrite (unquote_url_quote _ path Hk).
Qed.

(** ** The metadata of a filter *)

Definition query_plain (s : string) : Prop := Forall (λ c, has_char c s = false) ["%"; "+"; "&"; "="]%char.

Lemma unplus_plain s : has_char "+" s = false → unplus s = s.
Proof.
  unfold unplus. induction s as [|c s IH]; cbn; [done|]. rewrite orb_false_iff, bool_decide_eq_false. intros [Hc Hs].
  rewrite (IH Hs). by rewrite bool_decide_eq_false_2.
Qed.

Lemma unquote_query_plain s : query_plain s → unquote_plus decode s = s.
Proof using.
  intros Hs. unfold query_plain in Hs. rewrite !Forall_cons in Hs. destruct Hs as (Hp&Hq&_).
  unfold unquote_plus, unquote. fold (unplus s). by rewrite unplus_plain, Hp.
Qed.

(** Fields whose names and values have no separators are read one by one. *)
Lemma parse_fields_each (f g : string → string) (d : dict string) :
  Forall (λ kv, has_char "=" (f kv.1) = false ∧ has_char "&" (f kv.1) = false ∧ has_char "&" (f kv.2) = false ∧
                unquote_plus decode (f kv.1) = g kv.1 ∧ unquote_plus decode (f kv.2) = g kv.2) d →
  d ≠ [] → parse_qsl decode (join "&" ((λ kv, f kv.1 +:+ "=" +:+ f kv.2) <$> d)) = Ok (prod_map g g <$> d).
Proof using.
  intros Hd Hne. unfold parse_qsl. rewrite split_join.
  - clear Hne. induction Hd as [|[k v] d (H1&_&_&H2&H3) _ IH]; [done|]. rewrite fmap_cons. cbn [parse_fields fst snd] in *.
    change (f k +:+ "=" +:+ f v) with (f k +:+ String "=" (f v)). rewrite split_once_app by done. rewrite IH. cbn.
    by rewrite H2, H3.
  - by destruct d.
  - apply Forall_fmap. eapply Forall_impl; [exact Hd|]. intros [k v] (_&H1&H2&_). cbn [compose fst snd] in *.
    rewrite !has_char_app, H1, H2. done.
Qed.

Lemma parsed_metadata m d : truthy m = true → parse_qsl decode m = Ok d → dict_wf d → parse_metadata decode (Some m) = Ok d.
Proof using. intros Hm Hp Hwf. unfold parse_metadata. destruct m; [done|]. rewrite Hp. by rewrite dupdate_fresh. Qed.

Lemma joined_truthy (f : string → string) (d : dict string) :
  d ≠ [] → truthy (join "&" ((λ kv, f kv.1 +:+ "=" +:+ f kv.2) <$> d)) = true.
Proof using. destruct d as [|[k v] d]; [done|]. intros _. rewrite fmap_cons. cbn [fst snd]. by destruct (f k), (_ <$> d). Qed.

Lemma filter_reads_back d :
  Forall (λ kv, query_plain kv.1 ∧ query_plain kv.2) d → dict_wf d → d ≠ [] →
  parse_metadata decode (metadata_param (Some d)) = Ok d.
Proof using.
  intros Hd Hwf Hne. unfold metadata_param. destruct d as [|kv d'] eqn:E; [done|]. rewrite <-E in *.
  apply parsed_metadata; [by apply (joined_truthy id)| |done].
  transitivity (@Ok (dict string) (prod_map id id <$> d)).
  - apply (parse_fields_each id id); [|by rewrite E]. eapply Forall_impl; [exact Hd|]. intros [k v] [Hk Hv]. cbn in *.
    pose proof Hk as Hk'. pose proof Hv as Hv'. unfold query_plain in Hk', Hv'. rewrite !Forall_cons in Hk', Hv'.
    split_and!; [apply Hk'..|apply Hv'| |]; by apply unquote_query_plain.
  - f_equal. clear. induction d as [|[k v] d IH]; [done|]. by rewrite fmap_cons, IH.
Qed.

(** The blocking client quotes the metadata of a filter once too often: whatever the
    metadata, the server reads the keys and values in their quoted form. *)
Theorem sync_filter_reads_quoted d :
  dict_wf d → d ≠ [] →
  parse_metadata decode (metadata_param_sync (Some d)) = Ok (prod_map quote_all quote_all <$> d).
Proof using Hdecode.
  intros Hwf Hne. unfold metadata_param_sync. destruct d as [|kv d'] eqn:E; [done|]. rewrite <-E in *.
  assert (known_safe no_safe) as Hs by by left.
  apply parsed_metadata; [by apply (joined_truthy (λ s, quote_all (quote_all s)))| |].
  - apply (parse_fields_each (λ s, quote_all (quote_all s)) quote_all); [|by rewrite E].
    apply Forall_true. intros [k v]. cbn. pose proof (url_quote_no_sep no_safe (quote_all k) Hs) as [??].
    pose proof (url_quote_no_sep no_safe (quote_all v) Hs) as [??].
    split_and!; [done..| |]; by apply unquote_url_quote.
  - revert Hwf. unfold dict_wf, dkeys. rewrite <-list_fmap_compose.
    assert (fst ∘ prod_map quote_all quote_all = quote_all ∘ fst) as -> by done.
    rewrite list_fmap_compose. intros Hn. apply NoDup_fmap_2_strong; [|done].
    intros x y _ _. apply quote_all_inj.
Qed.
End decoding.

(** ** What a label may hold *)

Fixpoint re_over (P : ascii → bool) (r : regex) : Prop :=
  match r with
  | REmpty | REps => True
  | RClass p => ∀ c, p c = true → P c = true
  | RCat r s | RAlt r s => re_over P r ∧ re_over P s
  | RStar r => re_over P r
  end.

Lemma matches_over P r s : matches r s → re_over P r → string_forallb P s = true.
Proof.
  induction 1; cbn; try (intros; rewrite ?string_forallb_app; naive_solver).
  - intros Hp. by rewrite (Hp _ H).
  - intros [??]. rewrite string_forallb_app, IHmatches1, IHmatches2; done.
  - intros ?. rewrite string_forallb_app, IHmatches1, IHmatches2; done.
Qed.

(** The characters of the labels that the server accepts. *)
Definition key_char (c : ascii) : bool := label_char c || bool_decide (c = "/"%char) || (code c =? 10)%N.

Lemma key_char_plain s : string_forallb key_char s = true → query_plain s.
Proof.
  intros Hs. unfold query_plain. rewrite !Forall_cons. split_and!; [..|done].
  all: induction s as [|c s IH]; [done|]; cbn in *; apply andb_true_iff in Hs as [Hc Hs]; rewrite (IH Hs), orb_false_r;
    apply bool_decide_eq_false; intros Heq; subst; discriminate Hc.
Qed.

Lemma label_text_over t : label_text t → string_forallb key_char t = true.
Proof.
  intros Ht%label_edged. apply (matches_over _ _ _ Ht).
  cbn. split_and!; try done; intros c; unfold key_char, label_char; intros ->; by rewrite ?orb_true_r.
Qed.

Lemma subdomain_over t : dns_subdomain t → string_forallb key_char t = true.
Proof.
  intros Ht. apply (matches_over _ _ _ Ht).
  assert (∀ c, lower_alnum c = true → key_char c = true) as Hl.
  { intros c. by destruct c as [[] [] [] [] [] [] [] []]. }
  cbn. split_and!; try done; intros c; try apply Hl.
  all: try (intros ->%bool_decide_eq_true; done).
  all: by destruct c as [[] [] [] [] [] [] [] []].
Qed.

Lemma anchored_over (Q : string → Prop) s :
  (∀ t, Q t → string_forallb key_char t = true) → py_anchored Q s → string_forallb key_char s = true.
Proof. intros HQ [Hs|(t&->&Ht)]; [by apply HQ|]. by rewrite string_forallb_app, (HQ _ Ht). Qed.

Lemma accepted_plain_text d :
  ensure_metadata_labels (Some d) = Ok tt → Forall (λ kv, query_plain kv.1 ∧ query_plain kv.2) d.
Proof.
  intros Hd. cbn in Hd. apply for_each_Ok in Hd. eapply Forall_impl; [exact Hd|]. intros [k v] Hkv.
  unfold ensure_metadata_label in Hkv. rewrite !result_bind_unit_Ok, !raise_if_Ok, !negb_false_iff in Hkv.
  destruct Hkv as [_ [[_ Hk] Hv]] || destruct Hkv as [[_ Hk] Hv] || destruct Hkv as (_&Hk&Hv).
  apply is_valid_label_key_true in Hk. apply is_valid_label_value_true in Hv as [_ Hv]. split; apply key_char_plain; cbn.
  - destruct Hk as [(p&n&->&_&_&_&Hp&_&Hn)|(_&_&Hn)]; [|by eapply anchored_over, Hn; apply label_text_over].
    rewrite !string_forallb_app. rewrite (anchored_over _ _ subdomain_over Hp), (anchored_over _ _ label_text_over Hn). done.
  - eapply anchored_over, Hv. intros t [->|Ht]; [done|by apply label_text_over].
Qed.

(** Metadata that the server accepts can be filtered by.  The filter that the
    asynchronous client sends for any metadata that passes [ensure_metadata_labels] is
    read by the server as exactly that metadata, in order. *)
Theorem accepted_metadata_filters (decode : list N → string) d :
  ensure_metadata_labels (Some d) = Ok tt → dict_wf d → d ≠ [] →
  parse_metadata decode (metadata_param (Some d)) = Ok d.
Proof. intros Hd. apply filter_reads_back. by apply accepted_plain_text. Qed.

Lemma accepted_metadata_filters_witness :
  parse_metadata (λ l, default EmptyString (utf8_decode l)) (metadata_param (Some [("team/name", "a.b"); ("env", "prod")]))
  = Ok [("team/name", "a.b"); ("env", "prod")].
Proof.
  apply (accepted_metadata_filters _ [("team/name", "a.b"); ("env", "prod")]); [vm_compute; reflexivity| |done].
  unfold dict_wf. apply (bool_decide_unpack _). vm_compute. exact I.
Defined.

Lemma sync_filter_reads_quoted_witness :
  parse_metadata (λ l, default EmptyString (utf8_decode l)) (metadata_param_sync (Some [("team/name", "a.b")]))
  = Ok [("team%2Fname", "a.b")].
Proof.
  apply (sync_filter_reads_quoted (λ l, default EmptyString (utf8_decode l))) with (d := [("team/name", "a.b")]); [|..|done].
  - intros s. by rewrite utf8_decode_encode.
  - unfold dict_wf. apply (bool_decide_unpack _). vm_compute. exact I.
Defined.

Lemma download_path_roundtrip_witness :
  ∃ query, dr_url (build_download_request default_config {| se_endpoint := "10.0.0.2:44772"; se_headers := [] |} "/a b/c&d" None)
           = get_execd_url default_config {| se_endpoint := "10.0.0.2:44772"; se_headers := [] |} FILESYSTEM_DOWNLOAD_PATH
             +:+ "?" +:+ query ∧
           parse_qsl (λ l, default EmptyString (utf8_decode l)) query = Ok [("path", "/a b/c&d")].
Proof. apply download_path_roundtrip. intros s. by rewrite utf8_decode_encode. Defined.
