(* ===== verification/Wire.v ===== *)
(** * The wire format of the lifecycle API ([server/src/api/schema.py])

    How the server reads the JSON bodies of requests into its models, by the aliases of
    the fields, and what it writes for the models of its answers.  How pydantic reads a
    value of a declared type is the class [PydanticFields]; the text that it writes for a
    datetime, and the bytes of a JSON value, are the class [ServerWire]. *)

From Stdlib Require Import Ascii.
From S2P Require Import Prelude PyString PyDict PyTime Json PyVal K8sHelpers JsonRoundtrip Common SdkBase SdkModels SdkApi Schema Lifecycle.
Close Scope Z_scope.
Open Scope string_scope.
Open Scope list_scope.

(** ** Requests *)

Section reading.
Context `{PydanticFields}.

(** A field by its alias or, as [populate_by_name] allows, by its name. *)
Definition given (alias name : string) (d : dict pyval) : option pyval :=
  match dget alias d with Some v => Some v | None => dget name d end.

(** A required field, one that may be missing or null, and one with a default. *)
Definition need {A} (alias name : string) (read : pyval → option A) (d : dict pyval) : option A :=
  v ← given alias name d; read v.
Definition may {A} (alias name : string) (read : pyval → option A) (d : dict pyval) : option (option A) :=
  match given alias name d with Some v => nullable read v | None => Some None end.
Definition or_given {A} (alias name : string) (read : pyval → option A) (dflt : A) (d : dict pyval) : option A :=
  match given alias name d with Some v => read v | None => Some dflt end.

(** The constraints of a field or of a model. *)
Definition only_if {A} (b : bool) (a : A) : option A := if b then Some a else None.

Definition as_object (v : pyval) : option (dict pyval) := match v with PDict d => Some d | _ => None end.
Definition read_list {A} (read : pyval → option A) (v : pyval) : option (list A) :=
  match v with PList l => mapM read l | _ => None end.
Definition read_pairs {A} (read : pyval → option A) (v : pyval) : option (dict A) :=
  match v with PDict d => mapM (λ kv : string * pyval, a ← read kv.2; Some (kv.1, a)) d | _ => None end.

Definition read_image_auth (v : pyval) : option ImageAuth :=
  d ← as_object v;
  username ← need "username" "username" pf_str d;
  password ← need "password" "password" pf_str d;
  Some {| username := username; password := password |}.

Definition read_image_spec (v : pyval) : option ImageSpec :=
  d ← as_object v;
  uri ← need "uri" "uri" pf_str d;
  auth ← may "auth" "auth" read_image_auth d;
  Some {| uri := uri; auth := auth |}.

(** [target] has [min_length=1]. *)
Definition rule_fields_ok (r : NetworkRule) : bool := Nat.leb 1 (len (target r)).

Definition read_network_rule (v : pyval) : option NetworkRule :=
  d ← as_object v;
  action ← need "action" "action" pf_str d;
  target ← need "target" "target" pf_str d;
  let r := {| action := action; target := target |} in only_if (rule_fields_ok r) r.

Definition read_network_policy (v : pyval) : option NetworkPolicy :=
  d ← as_object v;
  default_action ← may "defaultAction" "default_action" pf_str d;
  egress ← or_given "egress" "egress" (read_list read_network_rule) [] d;
  Some {| default_action := default_action; egress := egress |}.

Definition read_host (v : pyval) : option Host :=
  d ← as_object v;
  path ← need "path" "path" pf_str d;
  only_if (host_path_pattern path) {| host_path := path |}.

Definition read_pvc (v : pyval) : option PVC :=
  d ← as_object v;
  claim_name ← need "claimName" "claim_name" pf_str d;
  let p := {| claim_name := claim_name |} in only_if (pvc_fields_ok p) p.

Definition read_ossfs (v : pyval) : option OSSFS :=
  d ← as_object v;
  bucket ← need "bucket" "bucket" pf_str d;
  endpoint ← need "endpoint" "endpoint" pf_str d;
  version ← or_given "version" "version" pf_str "2.0" d;
  options ← may "options" "options" read_strings d;
  access_key_id ← may "accessKeyId" "access_key_id" pf_str d;
  access_key_secret ← may "accessKeySecret" "access_key_secret" pf_str d;
  let o := {| bucket := bucket; endpoint := endpoint; version := version; options := options;
              access_key_id := access_key_id; access_key_secret := access_key_secret |} in
  only_if (ossfs_fields_ok o) o.

Definition read_volume (v : pyval) : option Volume :=
  d ← as_object v;
  name ← need "name" "name" pf_str d;
  host ← may "host" "host" read_host d;
  pvc ← may "pvc" "pvc" read_pvc d;
  ossfs ← may "ossfs" "ossfs" read_ossfs d;
  mount_path ← need "mountPath" "mount_path" pf_str d;
  read_only ← or_given "readOnly" "read_only" pf_bool false d;
  sub_path ← may "subPath" "sub_path" pf_str d;
  let vol := {| vol_name := name; vol_host := host; vol_pvc := pvc; vol_ossfs := ossfs; mount_path := mount_path;
                read_only := read_only; sub_path := sub_path |} in
  only_if (volume_fields_ok vol) vol.

(** [timeout] is at least 60; the entry point is not empty. *)
Definition request_fields_ok (r : CreateSandboxRequest) : bool :=
  opt_ok (λ n, (60 <=? n)%Z) (timeout r) && negb (bool_decide (entrypoint r = [])).

(** [CreateSandboxRequest], after [normalize_frontend_payload] *)
Definition read_create_request (v : pyval) : option CreateSandboxRequest :=
  d ← as_object (normalize_frontend_payload v);
  image ← need "image" "image" read_image_spec d;
  timeout ← may "timeout" "timeout" pf_int d;
  resource_limits ← need "resourceLimits" "resource_limits" read_str_dict d;
  env ← may "env" "env" (read_pairs (nullable pf_str)) d;
  metadata ← may "metadata" "metadata" read_str_dict d;
  entrypoint ← need "entrypoint" "entrypoint" read_strings d;
  network_policy ← may "networkPolicy" "network_policy" read_network_policy d;
  volumes ← may "volumes" "volumes" (read_list read_volume) d;
  extensions ← may "extensions" "extensions" read_str_dict d;
  let r := {| image := image; timeout := timeout; resource_limits := resource_limits; env := env;
              req_metadata := metadata; entrypoint := entrypoint; network_policy := network_policy;
              volumes := volumes; extensions := extensions |} in
  only_if (request_fields_ok r) r.

Definition read_renew_request (v : pyval) : option RenewSandboxExpirationRequest :=
  d ← as_object v;
  expires_at ← need "expiresAt" "expires_at" pf_datetime d;
  Some {| renew_expires_at := expires_at |}.

(** [UpdateResourceLimitsRequest], whose validators run on the values that are given, and
    [UpdateSandboxEnvRequest] *)
Definition read_limits_request (v : pyval) : option UpdateResourceLimitsRequest :=
  d ← as_object v;
  cpu ← may "cpu" "cpu" pf_str d;
  memory ← may "memory" "memory" pf_str d;
  storage ← may "storage" "storage" pf_str d;
  let r := {| upd_cpu := cpu; upd_memory := memory; upd_storage := storage |} in only_if (update_limits_ok r) r.

(** [UpdateSandboxResourceLimitsRequest], the body of the route *)
Definition read_limits_body (v : pyval) : option UpdateResourceLimitsRequest :=
  d ← as_object v; need "resourceLimits" "resource_limits" read_limits_request d.

Definition read_env_request (v : pyval) : option (dict (option string)) :=
  d ← as_object v; need "env" "env" (read_pairs (nullable pf_str)) d.
End reading.

(** ** Answers *)

(** The text of a datetime in an answer, and the bytes of a JSON body. *)
Class ServerWire := {
  dt_json : datetime → string;
  json_bytes : pyval → list N }.

Section writing.
Context `{ServerWire}.

Definition or_null {A} (f : A → pyval) (o : option A) : pyval := match o with Some a => f a | None => PNone end.
Definition time_value (t : datetime) : pyval := PStr (dt_json t).

Definition status_value (s : SandboxStatus) : pyval := PDict
  [("state", PStr (state s)); ("reason", or_null PStr (reason s)); ("message", or_null PStr (status_message s));
   ("lastTransitionAt", or_null time_value (last_transition_at s))].

Definition image_auth_value (a : ImageAuth) : pyval :=
  PDict [("username", PStr (username a)); ("password", PStr (password a))].
Definition image_spec_value (i : ImageSpec) : pyval :=
  PDict [("uri", PStr (uri i)); ("auth", or_null image_auth_value (auth i))].

(** [CreateSandboxResponse] *)
Definition created_value (r : CreateSandboxResponse) : pyval := PDict
  [("id", PStr (resp_id r)); ("status", status_value (resp_status r)); ("metadata", or_null of_str_dict (resp_metadata r));
   ("expiresAt", or_null time_value (resp_expires_at r)); ("createdAt", time_value (resp_created_at r));
   ("entrypoint", of_strings (resp_entrypoint r))].

Definition sandbox_value (s : Sandbox) : pyval := PDict
  [("id", PStr (sb_id s)); ("image", image_spec_value (sb_image s)); ("status", status_value (sb_status s));
   ("metadata", or_null of_str_dict (sb_metadata s)); ("entrypoint", of_strings (sb_entrypoint s));
   ("expiresAt", or_null time_value (sb_expires_at s)); ("createdAt", time_value (sb_created_at s));
   ("lastActivityAt", or_null time_value (sb_last_activity_at s))].

Definition pagination_value (p : PaginationInfo) : pyval := PDict
  [("page", PInt (info_page p)); ("pageSize", PInt (info_page_size p)); ("totalItems", PInt (total_items p));
   ("totalPages", PInt (total_pages p)); ("hasNextPage", PBool (has_next_page p))].

(** [ListSandboxesResponse], [RenewSandboxExpirationResponse], and [Endpoint] without the
    headers where there are none ([response_model_exclude_none]) *)
Definition list_value (r : ListSandboxesResponse) : pyval :=
  PDict [("items", PList (sandbox_value <$> items r)); ("pagination", pagination_value (pagination r))].
Definition renewed_value (r : RenewSandboxExpirationResponse) : pyval :=
  PDict [("expiresAt", time_value (renewed_expires_at r))].
Definition endpoint_value (e : Endpoint) : pyval :=
  PDict (("endpoint", PStr (ep_endpoint e)) ::
         match ep_headers e with Some h => [("headers", of_str_dict h)] | None => [] end).

(** [UpdateSandboxResourceLimitsResponse], [UpdateSandboxEnvResponse], [TerminalTokenResponse] *)
Definition limits_value (r : UpdateSandboxResourceLimitsResponse) : pyval := PDict
  [("id", PStr (limits_id r)); ("status", status_value (limits_status r)); ("resourceLimits", of_str_dict (limits_now r))].
Definition env_value (r : UpdateSandboxEnvResponse) : pyval :=
  PDict [("id", PStr (env_id r)); ("env", of_str_dict (env_now r))].
Definition token_value (url token : string) (expires_at : Z) : pyval :=
  PDict [("url", PStr url); ("token", PStr token); ("expiresAt", PInt expires_at)].

(** The bytes of the body of an answer. *)
Definition body_bytes (b : Body) : list N :=
  match b with
  | NoBody => []
  | TextBody t => utf8_encode t
  | JsonBody v => json_bytes v
  | CreatedBody r => json_bytes (created_value r)
  | ListBody r => json_bytes (list_value r)
  | SandboxBody s => json_bytes (sandbox_value s)
  | RenewedBody r => json_bytes (renewed_value r)
  | EndpointBody e => json_bytes (endpoint_value e)
  | LimitsBody r => json_bytes (limits_value r)
  | EnvBody r => json_bytes (env_value r)
  | TokenBody url token t => json_bytes (token_value url token t)
  end.

(** The answer as it arrives at a client; header names are kept in lower case. *)
Definition respond (r : Reply) : HttpResponse := {|
  rs_status := rp_status r; rs_headers := prod_map lower id <$> rp_headers r; rs_content := body_bytes (rp_body r) |}.
End writing.

(** ** What the other side relies on *)

(** A JSON body is the text of its value; pydantic reads and writes RFC 3339, which
    dateutil reads; the client decodes UTF-8. *)
Class WireLaws `{Codecs} `{PydanticFields} `{ServerWire} `{Dateutil} : Prop := {
  decode_utf8 : ∀ s, decode_strict (utf8_encode s) = Some s;
  isoparse_dt : ∀ us, dt_in_range us = true → isoparse (PStr (dt_json (utc us))) = Ok (utc us);
  json_bytes_read : ∀ v r, json_plain v → rs_content r = json_bytes v → response_json r = Return v;
  pf_datetime_iso : ∀ us, dt_in_range us = true → pf_datetime (PStr (isoformat (utc us))) = Some (utc us) }.

(** * The Python client: what the server reads of its requests

    The request to create a sandbox goes through four forms: the arguments of the client,
    its generated model, the JSON value, and the model of the server.  The server reads
    exactly what was asked for, or refuses it by one of the constraints of its schema. *)

From S2P Require Import PyFloat SdkConfig SdkAdapter SdkCommands SdkExecution LifecycleProofs.

(** ** What is asked for *)

Definition requested_image (spec : SandboxImageSpec) : ImageSpec := {|
  uri := is_image spec;
  auth := (λ a, {| username := ia_username a; password := ia_password a |}) <$> is_auth spec |}.

Definition requested_rule (r : SdkModels.NetworkRule) : NetworkRule := {| action := nr_action r; target := nr_target r |}.
Definition requested_policy (p : SdkModels.NetworkPolicy) : NetworkPolicy := {|
  default_action := np_default_action p; egress := requested_rule <$> default [] (np_egress p) |}.

Definition requested_ossfs (o : SdkModels.OSSFS) : OSSFS := {|
  bucket := o_bucket o; endpoint := o_endpoint o; version := o_version o; options := o_options o;
  access_key_id := o_access_key_id o; access_key_secret := o_access_key_secret o |}.
Definition requested_volume (v : SdkModels.Volume) : Volume := {|
  vol_name := v_name v; vol_host := (λ h, {| host_path := h_path h |}) <$> v_host v;
  vol_pvc := (λ p, {| claim_name := pvc_claim_name p |}) <$> v_pvc v; vol_ossfs := requested_ossfs <$> v_ossfs v;
  mount_path := v_mount_path v; read_only := v_read_only v; sub_path := v_sub_path v |}.

(** An empty dictionary or list of volumes is not sent. *)
Definition unless_empty {A} (l : list A) : option (list A) := match l with [] => None | _ => Some l end.

Definition requested (spec : SandboxImageSpec) (entrypoint : list string) (env metadata : dict string) (timeout : option Z)
    (resource : dict string) (policy : option SdkModels.NetworkPolicy) (extensions : dict string)
    (volumes : option (list SdkModels.Volume)) : CreateSandboxRequest := {|
  image := requested_image spec; timeout := timeout; resource_limits := resource;
  env := map (prod_map id Some) <$> unless_empty env; req_metadata := unless_empty metadata;
  entrypoint := entrypoint; network_policy := requested_policy <$> policy;
  volumes := map requested_volume <$> (volumes ≫= unless_empty); extensions := unless_empty extensions |}.

(** The constraints of the schema of the server. *)
Definition schema_ok (r : CreateSandboxRequest) : bool :=
  request_fields_ok r && opt_ok (forallb volume_fields_ok) (volumes r)
  && opt_ok (λ p, forallb rule_fields_ok (egress p)) (network_policy r).

(** ** Reading values *)

Section reading.
Context `{PydanticLaws}.

Lemma pf_str_str s : pf_str (PStr s) = Some s.
Proof. by apply pf_str_spec. Qed.

Lemma mapM_pf_str l : mapM pf_str (PStr <$> l) = Some l.
Proof. induction l as [|s l IH]; cbn; [done|]. rewrite pf_str_str. cbn in *. by rewrite IH. Qed.

Lemma read_strings_of l : read_strings (of_strings l) = Some l.
Proof. apply mapM_pf_str. Qed.

Lemma read_pairs_of {A B} (read : pyval → option B) (f : A → pyval) (g : A → B) (d : dict A) :
  (∀ a, read (f a) = Some (g a)) → read_pairs read (PDict (prod_map id f <$> d)) = Some (prod_map id g <$> d).
Proof.
  intros Hf. cbn [read_pairs]. induction d as [|[k a] d IH]; cbn; [done|]. rewrite Hf. cbn in *. by rewrite IH.
Qed.

Lemma prod_map_id {A} (d : dict A) : prod_map id id <$> d = d.
Proof. induction d as [|[k a] d IH]; cbn; [done|]. by f_equal. Qed.

Lemma read_str_dict_of d : read_str_dict (of_str_dict d) = Some d.
Proof. pose proof (read_pairs_of pf_str PStr id d pf_str_str) as Hr. by rewrite prod_map_id in Hr. Qed.

(** Reading a list stops at the first element that is refused. *)
Lemma mapM_only_if {A B} (read : pyval → option B) (write : A → pyval) (conv : A → B) (ok : B → bool) l :
  Forall (λ a, read (write a) = only_if (ok (conv a)) (conv a)) l →
  mapM read (write <$> l) = only_if (forallb ok (conv <$> l)) (conv <$> l).
Proof.
  induction 1 as [|a l Ha _ IH]; cbn; [done|]. rewrite Ha. destruct (ok (conv a)); cbn; [|done].
  rewrite IH. by destruct (forallb ok (conv <$> l)).
Qed.

(** ** The parts of the request *)

(** Looks up keys that are given as texts. *)
Ltac decide_keys :=
  repeat match goal with
  | |- context [decide (?a = ?b)] =>
      first [rewrite (decide_False (P := a = b)) by discriminate | rewrite (decide_True (P := a = b)) by reflexivity]
  end.
Ltac reading :=
  repeat (progress (cbn; unfold need, may, or_given, given; cbn; decide_keys; cbn; rewrite ?pf_str_str, ?pf_bool_bool, ?pf_int_int)).

Lemma image_reads_back spec : read_image_spec (image_spec_to_dict (to_api_image_spec spec)) = Some (requested_image spec).
Proof. destruct spec as [i [[u p]|]]; reading; done. Qed.

(** The generated model of a valid rule. *)
Definition api_rule (r : SdkModels.NetworkRule) : ApiNetworkRule := {| anr_action := nr_action r; anr_target := PStr (nr_target r) |}.

Lemma rule_reads_back r :
  read_network_rule (network_rule_to_dict (api_rule r))
  = only_if (rule_fields_ok (requested_rule r)) (requested_rule r).
Proof. destruct r as [a t]. reading. done. Qed.

Lemma policy_reads_back p : policy_valid p →
  ∃ a, to_api_network_policy p = Ok a ∧
  read_network_policy (network_policy_to_dict a)
  = only_if (forallb rule_fields_ok (egress (requested_policy p))) (requested_policy p).
Proof.
  destruct p as [da eg]. intros [Hd He]. cbn in Hd, He. unfold to_api_network_policy. cbn [np_default_action np_egress].
  assert (∀ l, eg = Some l → mapR to_api_network_rule l = Ok (api_rule <$> l)) as Hl.
  { intros l ->. eapply mapR_Forall; [apply to_api_network_rule_ok|by apply He]. }
  assert (match da with Some (String _ _ as x) => x ← enum_value "NetworkPolicyDefaultAction" ACTIONS (PStr x); Ok (Some x) | _ => Ok None end
          = Ok da) as ->.
  { destruct da as [x|]; [|done]. specialize (Hd x eq_refl). destruct x; [done|]. by rewrite enum_value_ok by by apply is_action_elem. }
  destruct eg as [l|]; [rewrite Hl by done|]; cbn [mbind result_bind]; (eexists; split; [done|]).
  - pose proof (mapM_only_if read_network_rule (network_rule_to_dict ∘ api_rule) requested_rule rule_fields_ok l) as Hm.
    rewrite list_fmap_compose in Hm. unfold requested_policy. cbn [egress np_egress np_default_action default].
    unfold network_policy_to_dict. cbn [anp_default_action anp_egress].
    destruct da as [x|]; reading; rewrite Hm by (apply Forall_true; intros; apply rule_reads_back);
      by destruct (forallb _ _).
  - by destruct da; reading.
Qed.

Lemma ossfs_reads_back o : ossfs_valid o →
  ∃ a, to_api_ossfs o = Ok (Some a) ∧
  read_ossfs (ossfs_to_dict a) = only_if (ossfs_fields_ok (requested_ossfs o)) (requested_ossfs o).
Proof.
  intros (Hv&Hi&Hs). unfold to_api_ossfs. destruct o as [b e v opts [i|] [s|]]; try done. cbn in *.
  rewrite bool_decide_eq_true_2 by done. cbn. eexists. split; [done|].
  destruct opts as [l|]; reading; [rewrite mapM_pf_str; cbn|]; done.
Qed.

(** ** Fields *)

Lemma dget_set_opt_eq k v d : dget k (set_opt k v d) = match v with Some x => Some x | None => dget k d end.
Proof. destruct v; cbn; [apply dget_set_eq|done]. Qed.
Lemma dget_set_opt_ne k k' v d : k ≠ k' → dget k (set_opt k' v d) = dget k d.
Proof. intros Hk. destruct v; cbn; [by apply dget_set_ne|done]. Qed.

(** Finds the value of a key in a dictionary that is written field by field. *)
Ltac lookup_key :=
  repeat first [rewrite dget_set_opt_ne by discriminate | rewrite dget_set_opt_eq
               | rewrite dget_set_ne by discriminate | rewrite dget_set_eq];
  cbn; decide_keys; try done;
  try (by match goal with |- match ?o with Some _ => _ | None => _ end = _ => destruct o end).

Lemma need_at {A} alias name (read : pyval → option A) d v : dget alias d = Some v → need alias name read d = read v.
Proof. intros Hd. unfold need, given. by rewrite Hd. Qed.

Lemma or_given_at {A} alias name (read : pyval → option A) dflt d v : dget alias d = Some v → or_given alias name read dflt d = read v.
Proof. intros Hd. unfold or_given, given. by rewrite Hd. Qed.

Definition opt_value {A B} (read : A → option B) (o : option A) : option (option B) :=
  match o with Some a => Some <$> read a | None => Some None end.

Lemma may_at {A B} alias name (read : pyval → option B) (f : A → pyval) (o : option A) d :
  dget alias d = f <$> o → dget name d = f <$> o ∨ dget name d = None → (∀ a, f a ≠ PNone) →
  may alias name read d = opt_value (read ∘ f) o.
Proof.
  intros Ha Hn Hf. unfold may, given. rewrite Ha. destruct o as [a|]; cbn.
  - specialize (Hf a). unfold nullable, compose. by destruct (f a) eqn:Hv.
  - by destruct Hn as [->| ->].
Qed.

Lemma opt_value_map {A B C} (read : B → option C) (f : A → B) (o : option A) : opt_value read (f <$> o) = opt_value (read ∘ f) o.
Proof. by destruct o. Qed.

Lemma opt_value_only_if {A B} (read : A → option B) (ok : B → bool) (conv : A → B) (o : option A) :
  (∀ a, o = Some a → read a = only_if (ok (conv a)) (conv a)) →
  opt_value read o = only_if (opt_ok ok (conv <$> o)) (conv <$> o).
Proof. destruct o as [a|]; cbn; [|done]. intros H1. rewrite H1 by done. by destruct (ok (conv a)). Qed.

Lemma opt_value_some {A B} (read : A → option B) (conv : A → B) (o : option A) :
  (∀ a, o = Some a → read a = Some (conv a)) → opt_value read o = Some (conv <$> o).
Proof. destruct o as [a|]; cbn; [|done]. intros H1. by rewrite H1. Qed.

Lemma host_reads_back h : read_host (host_to_dict {| ah_path := PStr (h_path h) |})
  = only_if (host_path_pattern (h_path h)) {| host_path := h_path h |}.
Proof. by reading. Qed.
Lemma pvc_reads_back p : read_pvc (pvc_to_dict {| apvc_claim_name := PStr (pvc_claim_name p) |})
  = only_if (pvc_fields_ok {| claim_name := pvc_claim_name p |}) {| claim_name := pvc_claim_name p |}.
Proof. by reading. Qed.

Lemma volume_reads_back v a : volume_valid v → to_api_volume v = Ok a →
  read_volume (volume_to_dict a) = only_if (volume_fields_ok (requested_volume v)) (requested_volume v).
Proof.
  intros (_&_&_&_&_&Ho) Ha.
  assert (∃ ao, (∀ x, v_ossfs v = Some x → ∃ ax, ao = Some ax ∧
      read_ossfs (ossfs_to_dict ax) = only_if (ossfs_fields_ok (requested_ossfs x)) (requested_ossfs x)) ∧
    (v_ossfs v = None → ao = None) ∧
    a = {| av_name := PStr (v_name v); av_mount_path := PStr (v_mount_path v);
           av_host := (λ h, {| ah_path := PStr (h_path h) |}) <$> v_host v;
           av_pvc := (λ p, {| apvc_claim_name := PStr (pvc_claim_name p) |}) <$> v_pvc v; av_ossfs := ao;
           av_read_only := Some (PBool (v_read_only v)); av_sub_path := PStr <$> v_sub_path v |}) as (ao&Hs&Hn&->).
  { unfold to_api_volume in Ha. destruct (v_ossfs v) as [x|].
    - destruct (ossfs_reads_back x (Ho x eq_refl)) as (ax&Hx&Hr). rewrite Hx in Ha. injection Ha as <-.
      exists (Some ax). split_and!; [|done|done]. intros ? [= <-]. eauto.
    - injection Ha as <-. exists None. by split_and!. }
  unfold read_volume, volume_to_dict.
  cbn [as_object mbind option_bind av_name av_mount_path av_host av_pvc av_ossfs av_read_only av_sub_path].
  set (D := set_opt "subPath" _ _).
  rewrite (need_at "name" _ _ D (PStr (v_name v))) by (unfold D; lookup_key). rewrite pf_str_str.
  rewrite (may_at "host" "host" _ host_to_dict ((λ h, {| ah_path := PStr (h_path h) |}) <$> v_host v)) by (unfold D; try left; lookup_key).
  rewrite (may_at "pvc" "pvc" _ pvc_to_dict ((λ p, {| apvc_claim_name := PStr (pvc_claim_name p) |}) <$> v_pvc v)) by (unfold D; try left; lookup_key).
  rewrite (may_at "ossfs" "ossfs" _ ossfs_to_dict ao) by (unfold D; try left; lookup_key).
  rewrite (need_at "mountPath" _ _ D (PStr (v_mount_path v))), pf_str_str by (unfold D; lookup_key).
  rewrite (or_given_at "readOnly" _ _ _ D (PBool (v_read_only v))), pf_bool_bool by (unfold D; lookup_key).
  rewrite (may_at "subPath" "sub_path" _ PStr (v_sub_path v)) by (unfold D; first [by lookup_key|right; lookup_key]). clear D.
  rewrite !opt_value_map.
  rewrite (opt_value_only_if _ (λ h, host_path_pattern (host_path h)) (λ h, {| host_path := h_path h |})) by (intros; apply host_reads_back).
  rewrite (opt_value_only_if _ pvc_fields_ok (λ p, {| claim_name := pvc_claim_name p |})) by (intros; apply pvc_reads_back).
  assert (opt_value (read_ossfs ∘ ossfs_to_dict) ao
          = only_if (opt_ok ossfs_fields_ok (requested_ossfs <$> v_ossfs v)) (requested_ossfs <$> v_ossfs v)) as ->.
  { destruct (v_ossfs v) as [x|]; [|by rewrite Hn]. destruct (Hs x eq_refl) as (ax&->&Hr). cbn [opt_value fmap option_fmap option_map opt_ok]. unfold compose. rewrite Hr.
    by destruct (ossfs_fields_ok _). }
  rewrite (opt_value_some _ id) by (intros; apply pf_str_str). rewrite option_fmap_id.
  cbn [mbind option_bind].
  unfold only_if, requested_volume, volume_fields_ok. cbn [vol_name vol_host vol_pvc vol_ossfs mount_path].
  destruct (opt_ok (λ h, _) _) eqn:Eh, (opt_ok pvc_fields_ok _) eqn:Ep, (opt_ok ossfs_fields_ok _) eqn:Eo;
    cbn [mbind option_bind]; rewrite ?Eh, ?Ep, ?Eo, ?andb_false_r, ?andb_false_l; done.
Qed.

(** ** The request *)

Lemma dupdate_values {A} (f : A → pyval) (d : dict A) : dict_wf d → dupdate [] (prod_map id f <$> d) = prod_map id f <$> d.
Proof.
  intros Hd. apply (dupdate_fresh []); [|done]. unfold dict_wf, dkeys in *. rewrite <-list_fmap_compose.
  by rewrite (list_fmap_ext _ fst) by (by intros ? [] _).
Qed.

Lemma props_sent d : dict_wf d → props_to_dict <$> props_or_unset d = of_str_dict <$> unless_empty d.
Proof.
  intros Hd. destruct d as [|kv d]; [done|].
  change (Some (PDict (dupdate [] (prod_map id PStr <$> kv :: d))) = Some (PDict (prod_map id PStr <$> kv :: d))).
  by rewrite dupdate_values.
Qed.

(** The fields that the server translates from front-end payloads are not sent. *)
Lemma plain_payload d :
  dget "envVariables" d = None → dget "labels" d = None → dget "blockAllNetwork" d = None →
  normalize_frontend_payload (PDict d) = PDict d.
Proof.
  intros He Hl Hb. cbn [normalize_frontend_payload]. assert (fill_pairs "env" "envVariables" d = d) as ->.
  { unfold fill_pairs. rewrite He. by destruct (is_none _). }
  assert (fill_pairs "metadata" "labels" d = d) as ->.
  { unfold fill_pairs. rewrite Hl. by destruct (is_none _). }
  rewrite Hb. cbn. by rewrite andb_false_r.
Qed.

Lemma volumes_read_back l : Forall volume_valid l →
  ∃ a, mapR to_api_volume l = Ok a ∧
  read_list read_volume (PList (volume_to_dict <$> a))
  = only_if (forallb volume_fields_ok (requested_volume <$> l)) (requested_volume <$> l).
Proof.
  induction 1 as [|v l Hv _ (a&Ha&IH)]; [by exists []|]. destruct (to_api_volume_ok v Hv) as (x&Hx&_).
  exists (x :: a). cbn [mapR]. rewrite Hx. cbn [mbind result_bind]. rewrite Ha. split; [done|].
  cbn [read_list fmap list_fmap mapM forallb] in *. rewrite (volume_reads_back v x Hv Hx).
  destruct (volume_fields_ok (requested_volume v)); cbn [only_if mbind option_bind andb]; [|done].
  rewrite IH. by destruct (forallb volume_fields_ok _).
Qed.

Section create.
Context (spec : SandboxImageSpec) (entrypoint : list string) (env metadata : dict string) (timeout seconds : option Z).
Context (resource : dict string) (policy : option SdkModels.NetworkPolicy) (extensions : dict string).
Context (volumes : option (list SdkModels.Volume)).

(** The arguments passed their constructors, dictionaries have every key once, and
    [seconds] is the timeout in whole seconds. *)
Record sendable : Prop := {
  sn_policy : ∀ p, policy = Some p → policy_valid p;
  sn_volumes : ∀ l, volumes = Some l → Forall volume_valid l;
  sn_env : dict_wf env; sn_metadata : dict_wf metadata; sn_resource : dict_wf resource; sn_extensions : dict_wf extensions;
  sn_timeout : match timeout with Some us => Some <$> int_seconds us = Ok seconds | None => seconds = None end }.

(** The server reads what the client was asked for.  Arguments that passed their
    constructors always make a request; from its JSON value the server reads exactly the
    image with its credentials, the timeout in seconds, limits, environment, metadata,
    entry point, network policy, volumes and extensions that were given (what is empty is
    not sent), if they satisfy the constraints of its schema, and refuses it if not. *)
Lemma create_request_reads_back :
  sendable →
  let q := requested spec entrypoint env metadata seconds resource policy extensions volumes in
  ∃ r, to_api_create_sandbox_request spec entrypoint env metadata timeout resource policy extensions volumes = Ok r ∧
  read_create_request (create_request_to_dict r) = only_if (schema_ok q) q.
Proof.
  intros [Hp Hv He Hm Hr Hx Ht] q.
  assert (∃ ap, match policy with Some p => x ← to_api_network_policy p; Ok (Some x) | None => Ok None end = Ok ap ∧
    opt_value (read_network_policy ∘ network_policy_to_dict) ap
    = only_if (opt_ok (λ p, forallb rule_fields_ok (egress p)) (network_policy q)) (network_policy q)) as (ap&Hap&Rp).
  { subst q. destruct policy as [p|]; [|by exists None]. specialize (Hp p eq_refl).
    destruct (policy_reads_back p Hp) as (a&Ha&Hra). exists (Some a). rewrite Ha. split; [done|].
    cbn [opt_value network_policy requested fmap option_fmap option_map opt_ok]. unfold compose.
    rewrite Hra. by destruct (forallb _ _). }
  assert (∃ av, match volumes with Some ((_ :: _) as l) => x ← mapR to_api_volume l; Ok (Some x) | _ => Ok None end = Ok av ∧
    opt_value (read_list read_volume) ((λ l, PList (volume_to_dict <$> l)) <$> av)
    = only_if (opt_ok (forallb volume_fields_ok) (Schema.volumes q)) (Schema.volumes q)) as (av&Hav&Rv).
  { subst q. destruct volumes as [[|v l]|]; [by exists None| |by exists None].
    destruct (volumes_read_back _ (Hv _ eq_refl)) as (a&Ha&Hra). exists (Some a). rewrite Ha. split; [done|].
    cbn [opt_value fmap option_fmap option_map]. rewrite Hra.
    change (Schema.volumes _) with (Some (requested_volume <$> v :: l)). cbn [opt_ok]. by destruct (forallb _ _). }
  unfold to_api_create_sandbox_request. rewrite Hap, Hav. cbn [mbind result_bind].
  assert (match timeout with Some us => n ← int_seconds us; Ok (Some (PInt n)) | None => Ok None end = Ok (PInt <$> seconds)) as ->.
  { destruct timeout as [us|]; [|by rewrite Ht]. destruct (int_seconds us); [|done]. by injection Ht as <-. }
  eexists. split; [done|]. unfold read_create_request, create_request_to_dict.
  cbn [acr_image acr_resource_limits acr_entrypoint acr_timeout acr_env acr_metadata acr_network_policy acr_volumes acr_extensions
    acr_additional_properties].
  rewrite !props_sent by done.
  set (D := set_opt "extensions" _ _). rewrite plain_payload by (unfold D; lookup_key). cbn [as_object mbind option_bind].
  rewrite (need_at "image" _ _ D (image_spec_to_dict (to_api_image_spec spec))), image_reads_back by (unfold D; lookup_key).
  rewrite (may_at "timeout" "timeout" _ PInt seconds) by (unfold D; try left; lookup_key).
  rewrite (need_at "resourceLimits" _ _ D (of_str_dict resource)), read_str_dict_of
    by (unfold D; lookup_key; unfold props_to_dict, of_str_dict; by rewrite dupdate_values).
  rewrite (may_at "env" "env" _ of_str_dict (unless_empty env)) by (unfold D; try left; lookup_key).
  rewrite (may_at "metadata" "metadata" _ of_str_dict (unless_empty metadata)) by (unfold D; try left; lookup_key).
  rewrite (need_at "entrypoint" _ _ D (of_strings entrypoint)), read_strings_of by (unfold D; lookup_key).
  rewrite (may_at "networkPolicy" "network_policy" _ network_policy_to_dict ap), Rp
    by (unfold D; first [by lookup_key|right; lookup_key]).
  rewrite (may_at "volumes" "volumes" _ (λ l, PList (volume_to_dict <$> l)) av), <-opt_value_map, Rv by (unfold D; try left; lookup_key).
  rewrite (may_at "extensions" "extensions" _ of_str_dict (unless_empty extensions)) by (unfold D; try left; lookup_key). clear D.
  rewrite (opt_value_some _ id seconds) by (intros; apply pf_int_int).
  rewrite (opt_value_some _ (map (prod_map id Some)) (unless_empty env))
    by (intros; apply (read_pairs_of (nullable pf_str) PStr Some); intros; cbn; by rewrite pf_str_str).
  rewrite !(opt_value_some (read_str_dict ∘ of_str_dict) id) by (intros; apply read_str_dict_of).
  rewrite !option_fmap_id. cbn [mbind option_bind]. unfold schema_ok.
  destruct (opt_ok (λ p, _) _) eqn:Ep, (opt_ok (forallb volume_fields_ok) _) eqn:Ev; cbn [only_if mbind option_bind];
    rewrite ?andb_true_r, ?andb_false_r; try done.
Qed.
End create.
End reading.

(** ** A request *)

Definition sample_volume : SdkModels.Volume := {|
  v_name := "data"; v_host := None; v_pvc := None;
  v_ossfs := Some {| o_bucket := "models"; o_endpoint := "oss-cn-hangzhou.aliyuncs.com"; o_version := "2.0"; o_options := None;
                     o_access_key_id := Some "id"; o_access_key_secret := Some "secret" |};
  v_mount_path := "/data"; v_read_only := true; v_sub_path := Some "v1" |}.
Definition sample_policy : SdkModels.NetworkPolicy := {|
  np_default_action := Some "deny"; np_egress := Some [{| nr_action := "allow"; nr_target := "pypi.org" |}] |}.

Lemma sample_sendable :
  sendable [("A", "1")] [("team", "x")] (Some 600000000%Z) (Some 600%Z) [("cpu", "1")] (Some sample_policy) [] (Some [sample_volume]).
Proof.
  split.
  - intros p [= <-]. split; [by intros a [= <-]|]. intros l [= <-]. by repeat constructor.
  - intros l [= <-]. constructor; [|done]. split_and!; try done. intros o [= <-]. split_and!; [|done..]. by right; left.
  - by apply NoDup_singleton.
  - by apply NoDup_singleton.
  - by apply NoDup_singleton.
  - constructor.
  - vm_compute. reflexivity.
Qed.

Lemma create_request_reads_back_witness :
  ∃ r, to_api_create_sandbox_request {| is_image := "python:3.11"; is_auth := None |} ["sleep"; "1"] [("A", "1")] [("team", "x")]
         (Some 600000000%Z) [("cpu", "1")] (Some sample_policy) [] (Some [sample_volume]) = Ok r ∧
  ∃ q, read_create_request (create_request_to_dict r) = Some q ∧ timeout q = Some 600%Z ∧ extensions q = None.
Proof.
  destruct (create_request_reads_back {| is_image := "python:3.11"; is_auth := None |} ["sleep"; "1"] _ _ _ _ _ _ _ _ sample_sendable)
    as (r&Hr&Hq).
  exists r. split; [exact Hr|]. eexists. split; [rewrite Hq; reflexivity|]. split; reflexivity.
Defined.
