(* ===== verification/SdkServer.v ===== *)
(** * The client over the server

    The lifecycle server as the network of the Python client: the table of routes of
    [server/src/api/lifecycle.py] (paths, query parameters, bodies), and a [Net] in which
    every request to the address of the server is answered by it. *)

From Stdlib Require Import Ascii.
From S2P Require Import Prelude PyString PyDict PyTime Json PyVal K8sHelpers JsonRoundtrip Common Config Auth.
From S2P Require Import SdkBase SdkModels SdkApi SdkConfig Schema Lifecycle Services Wire.
Close Scope Z_scope.
Open Scope string_scope.
Open Scope list_scope.

(** ** Query strings *)

(** How FastAPI reads the text of a parameter as an [int] or a [bool]. *)
Class ParamFields := { qf_int : string → option Z; qf_bool : string → option bool }.

(** The text that httpx gives a value, and the fields of a query: a list is a field for
    each of its elements. *)
Definition param_text (v : pyval) : string :=
  match v with PBool true => "true" | PBool false => "false" | PNone => EmptyString | _ => vstr v end.
Definition query_fields (params : dict pyval) : list (string * string) :=
  concat ((λ kv : string * pyval, match kv.2 with
                                  | PList l => (λ v, (kv.1, param_text v)) <$> l
                                  | v => [(kv.1, param_text v)]
                                  end) <$> params).

(** The values of a field; a field that is read once has its last value. *)
Definition query_values (name : string) (query : list (string * string)) : list string :=
  snd <$> List.filter (λ kv, str_eqb kv.1 name) query.
Definition query_value (name : string) (query : list (string * string)) : option string := last (query_values name query).

(** A parameter with a default ([None] is a refusal). *)
Definition query_param {A} (name : string) (read : string → option A) (dflt : A) (query : list (string * string)) : option A :=
  match query_value name query with Some t => read t | None => Some dflt end.

(** ** The table of routes *)

Inductive routed := Unrouted | Invalid | Call (c : ApiCall).

(** A call whose parameters were accepted. *)
Definition call_if (o : option ApiCall) : routed := match o with Some c => Call c | None => Invalid end.

(** [ge] and [le] *)
Definition between (lo : Z) (hi : option Z) (read : string → option Z) (t : string) : option Z :=
  n ← read t; only_if ((lo <=? n)%Z && match hi with Some h => (n <=? h)%Z | None => true end) n.

Section router.
Context `{PydanticFields} `{ParamFields}.
Context (rq : IncomingRequest) (query : list (string * string)).

Definition via (m : string) : bool := str_eqb (rq_method rq) m.

(** The JSON body as a model; a body that cannot be parsed is refused. *)
Definition json_of {A} (read : pyval → option A) : option A := match rq_json rq with Ok v => read v | Raise _ => None end.

Definition collection_routes : routed :=
  if via "POST" then call_if (
    wait ← query_param "wait" qf_bool true query;
    r ← json_of read_create_request;
    Some (PostSandbox r wait))
  else if via "GET" then call_if (
    page ← query_param "page" (between 1 None qf_int) 1%Z query;
    page_size ← query_param "pageSize" (between 1 (Some 200%Z) qf_int) 20%Z query;
    let state := match query_values "state" query with [] => None | l => Some l end in
    Some (ListSandboxes state (query_value "metadata" query) page page_size))
  else Unrouted.

Definition item_routes (id : string) : routed :=
  if via "GET" then Call (GetSandbox id)
  else if via "DELETE" then Call (DeleteSandbox id)
  else if via "PATCH" then call_if (r ← json_of read_limits_body; Some (PatchResources id r))
  else Unrouted.

Definition action_routes (id action : string) : routed :=
  if str_eqb action "pause" && via "POST" then Call (PostPause id)
  else if str_eqb action "resume" && via "POST" then Call (PostResume id)
  else if str_eqb action "renew-expiration" && via "POST" then call_if (r ← json_of read_renew_request; Some (PostRenew id r))
  else if str_eqb action "env" && via "PUT" then call_if (e ← json_of read_env_request; Some (PatchEnv id e))
  else if str_eqb action "logs" && via "GET" then call_if (
    tail ← query_param "tail" (between 1 (Some 10000%Z) qf_int) 100%Z query;
    follow ← query_param "follow" qf_bool false query;
    Some (GetLogs id tail follow))
  else if str_eqb action "tasks" && via "POST" then Call (PostTask rq id)
  else Unrouted.

Definition sub_routes (id kind item : string) : routed :=
  if str_eqb kind "endpoints" && via "GET" then call_if (
    port ← qf_int item;
    proxy ← query_param "use_server_proxy" qf_bool false query;
    Some (GetEndpointRoute rq id port proxy))
  else if str_eqb kind "terminal" && str_eqb item "token" && via "POST" then Call (GetTerminalToken rq id)
  else if str_eqb kind "tasks" && via "GET" then Call (GetTask id item)
  else if str_eqb kind "tasks" && via "DELETE" then Call (DeleteTask id item)
  else Unrouted.

(** [{full_path:path}] is the rest of the path, with its slashes. *)
Definition proxy_routes (id port : string) (full_path : list string) : routed :=
  if existsb via ["GET"; "POST"; "PUT"; "DELETE"; "PATCH"]
  then call_if (p ← qf_int port; Some (Proxy rq id p (join "/" full_path))) else Unrouted.

(** A segment that stands for a parameter is not empty.  The redirect of a path with a
    slash at its end belongs to the framework. *)
Definition route_of (path : string) : routed :=
  match split_on "/" path with
  | root :: sandboxes :: rest =>
      if truthy root || negb (str_eqb sandboxes "sandboxes") then Unrouted else
      match rest with
      | [] => collection_routes
      | id :: rest =>
          if negb (truthy id) then Unrouted else
          match rest with
          | [] => item_routes id
          | [action] => action_routes id action
          | kind :: item :: rest =>
              if negb (truthy item) then Unrouted else
              match rest with
              | [] => sub_routes id kind item
              | full_path =>
                  if str_eqb kind "proxy" then proxy_routes id item full_path
                  else if str_eqb kind "tasks" && bool_decide (full_path = ["logs"]) && via "GET" then call_if (
                    cursor ← query_param "cursor" (λ t, n ← between 0 None qf_int t; Some (Some n)) None query;
                    Some (GetTaskLogs id item cursor))
                  else Unrouted
              end
          end
      end
  | _ => Unrouted
  end.
End router.

(** ** The server as a network *)

(** What the framework does without the application: the answer to a request that has no
    route, the refusal of invalid parameters (422), the identifier of a request that has
    none, and the address under which it sees itself. *)
Record Framework := {
  fw_unrouted : IncomingRequest → string → Reply;
  fw_invalid : IncomingRequest → Reply;
  fw_base_url : string; fw_scheme : string; fw_netloc : string }.

Section network.
Context {St W0 : Type} `{Jwt} (svc : SandboxService St) (config : AppConfig).
Context (decode : list N → string) (unix_us : St → Z * St) (send : ProxyRequest → M St ProxyResponse).
Context `{PydanticFields} `{ParamFields} `{ServerWire} `{outer : Net W0}.
Context (fw : Framework) (fresh : Ctx St * W0 → string).

(** [method.upper()] of httpx, for names of letters *)
Fixpoint upper (s : string) : string :=
  match s with
  | EmptyString => EmptyString
  | String c s' => String (if in_range 97 122 c then chr (code c - 32) else c) (upper s')
  end.

(** The request as it arrives; a JSON body is the value that was sent. *)
Definition incoming (r : HttpRequest) : IncomingRequest := {|
  rq_method := upper (hr_method r); rq_headers := hr_headers r;
  rq_query := join "&" ((λ kv, kv.1 +:+ "=" +:+ kv.2) <$> query_fields (hr_params r));
  rq_base_url := fw_base_url fw; rq_scheme := fw_scheme fw; rq_netloc := fw_netloc fw;
  rq_json := match hr_body r with JsonPayload v => Ok v | _ => Raise (PyException ValueError "Expecting value") end |}.

Definition handle_request (r : HttpRequest) (path : string) : M St Reply :=
  match route_of (incoming r) (query_fields (hr_params r)) path with
  | Unrouted => mret (fw_unrouted fw (incoming r) path)
  | Invalid => mret (fw_invalid fw (incoming r))
  | Call c => route svc config decode unix_us send c
  end.

(** A request for [path], percent-decoded, answered by the application. *)
Definition answer (r : HttpRequest) (path : string) : Sdk (Ctx St * W0) HttpResponse := λ w,
  let '(rep, s) := serve config path (hr_headers r) (fresh w) (in_context (handle_request r path)) w.1 in
  (Return (respond rep), (s, w.2)).

Definition strip_prefix (p s : string) : option string := if startswith s p then Some (str_drop (len p) s) else None.

(** What is sent to [address] is answered by the server, the rest by the world outside. *)
Definition server_net (address : string) : Net (Ctx St * W0) := {|
  n_send r := match strip_prefix address (hr_url r) with
              | Some path => answer r (unquote decode path)
              | None => λ w, let '(o, w0) := n_send r w.2 in (o, (w.1, w0))
              end;
  n_time w := let '(t, w0) := n_time w.2 in (t, (w.1, w0));
  n_sleep d w := (w.1, n_sleep d w.2);
  n_new_transport w := let '(t, w0) := n_new_transport w.2 in (t, (w.1, w0));
  n_close_transport t := λ w, let '(o, w0) := n_close_transport t w.2 in (o, (w.1, w0));
  n_getenv := n_getenv (W:=W0) |}.
End network.

(** * The client over the server: every method is the method of the service

    For a client whose requests reach the server with its key: each method of the
    lifecycle adapter does what the corresponding method of the sandbox service does, in
    the same state; what the service returns arrives as the value of the client, and an
    error arrives as an exception with its status and the identifier of the request. *)

From S2P Require Import Execd.
From S2P Require Import SdkAdapter SdkFiles SdkQueries LifecycleProofs.

(** ** Paths *)

Lemma utf8_encode_app s t : utf8_encode (s +:+ t) = utf8_encode s ++ utf8_encode t.
Proof. induction s as [|c s IH]; [done|]. rewrite str_app_cons. cbn [utf8_encode]. by rewrite IH, app_assoc. Qed.

Lemma url_quote_app safe s t : url_quote safe (s +:+ t) = url_quote safe s +:+ url_quote safe t.
Proof.
  unfold url_quote. rewrite utf8_encode_app. induction (utf8_encode s) as [|n l IH]; [done|].
  cbn [app foldr]. by rewrite IH, str_app_assoc.
Qed.

Lemma url_quote_digits safe s : known_safe safe → string_forallb is_digit s = true → url_quote safe s = s.
Proof.
  intros Hs. induction s as [|ch s IH]; [done|]. cbn [string_forallb]. intros [Hd Hds]%andb_true_iff.
  change (String ch s) with (String ch "" +:+ s). rewrite url_quote_app, (IH Hds). f_equal.
  destruct Hs as [-> | ->]; by digit_split Hd.
Qed.

(** An identifier that is one segment of a path. *)
Definition plain_id (id : string) : Prop := truthy id = true ∧ has_char "/" id = false ∧ id ≠ "." ∧ id ≠ "..".

Lemma quote_no_slash id : has_char "/" id = false → quote_all id = url_quote slash_safe id.
Proof.
  unfold quote_all, url_quote. induction id as [|c id IH]; [done|]. cbn [has_char utf8_encode]. rewrite orb_false_iff.
  intros [Hc Hid]. rewrite !foldr_app, IH by done.
  destruct c as [[] [] [] [] [] [] [] []]; (discriminate Hc || reflexivity).
Qed.

Section decoding.
Context (decode : list N → string) (Hdecode : ∀ s, decode (utf8_encode s) = s).

Lemma unplus_quoted safe s : known_safe safe → unplus (url_quote safe s) = url_quote safe s.
Proof.
  intros Hs. unfold url_quote. assert (Forall (λ n, (n < 256)%N) (utf8_encode s)) as Hb by apply utf8_encode_bytes.
  induction Hb as [|n l Hn _ IH]; [done|]. cbn [foldr]. rewrite unplus_app, IH. f_equal. apply byte_code in Hn as [c ->].
  destruct Hs as [-> | ->]; by destruct c as [[] [] [] [] [] [] [] []].
Qed.

Lemma unquote_path p id q :
  has_char "/" id = false → url_quote slash_safe p = p → url_quote slash_safe q = q →
  unquote decode (p +:+ quote_all id +:+ q) = p +:+ id +:+ q.
Proof using Hdecode.
  intros Hid Hp Hq. assert (known_safe slash_safe) as Hk by by right.
  rewrite <-Hp at 1. rewrite <-Hq at 1. rewrite quote_no_slash, <-!url_quote_app by done.
  rewrite <-(unplus_quoted slash_safe (p +:+ id +:+ q)) by done.
  apply (unquote_url_quote decode Hdecode slash_safe _ Hk).
Qed.
End decoding.

(** ** Routes *)

Lemma split_sandbox_path id q :
  has_char "/" id = false →
  split_on "/" ("/sandboxes/" +:+ id +:+ q) = "" :: "sandboxes" :: match split_on "/" q with
                                                                  | [] => [id]
                                                                  | w :: ws => (id +:+ w) :: ws
                                                                  end.
Proof.
  intros Hid. change ("/sandboxes/" +:+ id +:+ q) with ("" +:+ String "/" ("sandboxes" +:+ String "/" (id +:+ q))).
  rewrite !split_on_sep. cbn [split_on app]. change (split_on "/" "sandboxes") with ["sandboxes"]. cbn [app]. do 2 f_equal.
  induction id as [|c id IH]; cbn [has_char] in Hid.
  - change ("" +:+ q) with q. destruct (split_on "/" q) eqn:E; [by apply split_on_ne in E|done].
  - apply orb_false_iff in Hid as [Hc Hid]. rewrite !str_app_cons. cbn [split_on]. rewrite Hc, IH by done.
    destruct (split_on "/" q) as [|w ws]; done.
Qed.

Section routes.
Context `{!PydanticFields} `{!ParamFields} (rq : IncomingRequest) (query : list (string * string)).

Lemma route_item sid : plain_id sid → route_of rq query ("/sandboxes/" +:+ sid +:+ "") = item_routes rq sid.
Proof.
  intros (Ht&Hs&_). unfold route_of. rewrite split_sandbox_path by done. cbn [split_on]. rewrite str_app_nil_r. cbn. by rewrite Ht.
Qed.

Lemma route_action sid action : plain_id sid → has_char "/" action = false →
  route_of rq query ("/sandboxes/" +:+ sid +:+ "/" +:+ action) = action_routes rq query sid action.
Proof.
  intros (Ht&Hs&_) Ha. unfold route_of. rewrite split_sandbox_path by done.
  change ("/" +:+ action) with ("" +:+ String "/" action). rewrite split_on_sep, (split_no_sep "/" action) by done.
  cbn [split_on app]. rewrite str_app_nil_r. cbn. by rewrite Ht.
Qed.

Lemma route_sub sid kind item : plain_id sid → has_char "/" kind = false → has_char "/" item = false → truthy item = true →
  route_of rq query ("/sandboxes/" +:+ sid +:+ "/" +:+ kind +:+ "/" +:+ item) = sub_routes rq query sid kind item.
Proof.
  intros (Ht&Hs&_) Hk Hi Hti. unfold route_of. rewrite split_sandbox_path by done.
  change ("/" +:+ kind +:+ "/" +:+ item) with ("" +:+ String "/" (kind +:+ String "/" item)).
  rewrite !split_on_sep, (split_no_sep "/" kind), (split_no_sep "/" item) by done.
  cbn [split_on app]. rewrite str_app_nil_r. cbn. by rewrite Ht, Hti.
Qed.
End routes.

(** ** The request identifier *)

Lemma rstrip_idem p s : rstrip_by p (rstrip_by p s) = rstrip_by p s.
Proof.
  induction s as [|c s IH]; [done|]. cbn [rstrip_by]. destruct (rstrip_by p s) as [|d t] eqn:E.
  - destruct (p c) eqn:Hc; cbn; by rewrite ?Hc.
  - cbn [rstrip_by] in IH |- *. by rewrite IH.
Qed.

Lemma strip_idem s : strip (strip s) = strip s.
Proof.
  unfold strip. assert (lstrip_by is_space (rstrip_by is_space (lstrip_by is_space s)) = rstrip_by is_space (lstrip_by is_space s)) as ->;
    [|apply rstrip_idem].
  induction s as [|c s IH]; [done|]. cbn [lstrip_by]. destruct (is_space c) eqn:Hc; [done|].
  cbn [rstrip_by]. destruct (rstrip_by is_space s); cbn [lstrip_by]; rewrite ?Hc; cbn [lstrip_by]; by rewrite ?Hc.
Qed.

Lemma request_id_stripped raw fresh : strip fresh = fresh → strip (request_id raw fresh) = request_id raw fresh.
Proof. intros Hf. unfold request_id. destruct raw as [r|]; [|done]. destruct (_ && _); [apply strip_idem|done]. Qed.

(** ** Requests that reach the server *)

Lemma strip_prefix_app p s : strip_prefix p (p +:+ s) = Some s.
Proof. unfold strip_prefix. rewrite startswith_app. f_equal. induction p as [|c p IH]; [done|]. rewrite str_app_cons. exact IH. Qed.

Lemma dget_dupdate_other {V} k (d e : dict V) : k ∉ dkeys e → dget k (dupdate d e) = dget k d.
Proof.
  unfold dupdate, dkeys. revert d. induction e as [|[k' v] e IH]; intros d Hk; [done|]. cbn [fold_left fst snd].
  cbn in Hk. apply not_elem_of_cons in Hk as [Hne Hk]. rewrite IH by done. by apply dget_set_ne.
Qed.

(** The headers that a generated function adds. *)
Definition call_headers (kw : ApiKwargs) : Prop := kw_headers kw = [] ∨ kw_headers kw = json_headers.

Lemma header_sent c kw k : call_headers kw → k ≠ "content-type" →
  dget k (hr_headers (client_request c kw)) = dget k (lower_keys (ac_headers c)).
Proof.
  intros [Hh|Hh] Hk; cbn [client_request hr_headers]; rewrite Hh; [done|]. apply dget_dupdate_other.
  change (dkeys _) with ["content-type"]. by rewrite list_elem_of_singleton.
Qed.

Section server.
Context {St W0 : Type} `{Jwt} (svc : SandboxService St) (config : AppConfig).
Context (decode : list N → string) (unix_us : St → Z * St) (send : ProxyRequest → M St ProxyResponse).
Context `{Codecs} `{Dateutil} `{!PydanticFields} `{pyd : !PydanticLaws} `{!ParamFields} `{!ServerWire} `{wire : !WireLaws} `{outer : !Net W0}.
Context (fw : Framework) (fresh : Ctx St * W0 → string) (c : ApiClient).

Let Wd : Type := Ctx St * W0.
#[local] Instance net : Net Wd := server_net svc config decode unix_us send fw fresh (ac_base_url c).

(** The client is set up for this server: its key is one that the server takes, and it
    reports an unexpected status as such.  The server decodes paths, and the identifiers
    that it makes are texts without white space around them. *)
Record connected : Prop := {
  cn_key : load_api_keys config = [] ∨
           ∃ key, key ∈ load_api_keys config ∧ truthy key = true ∧ dget "open-sandbox-api-key" (lower_keys (ac_headers c)) = Some key;
  cn_status : ac_raise_on_unexpected_status c = false;
  cn_decode : ∀ s, decode (utf8_encode s) = s;
  cn_fresh : ∀ w, truthy (fresh w) = true ∧ strip (fresh w) = fresh w }.
Context (Hc : connected).

Lemma key_accepted kw path : call_headers kw →
  middleware config "http" path (header (lower API_KEY_HEADER) (hr_headers (client_request c kw))) = CallNext.
Proof using Hc.
  intros Hkw. unfold middleware, dispatch. cbn [str_eqb]. change (str_eqb "http" "websocket") with false. cbn match.
  destruct (existsb _ _); [done|]. destruct (is_proxy_path path); [done|].
  unfold header. change (lower API_KEY_HEADER) with "open-sandbox-api-key". rewrite header_sent by done.
  destruct (cn_key Hc) as [->|(key&Hin&Ht&->)]; [done|]. destruct (load_api_keys config) as [|k ks] eqn:E; [done|].
  cbn [truthy_opt or_else]. rewrite Ht. cbn [negb]. 
  by rewrite (proj2 (one_of_true _ _) Hin).
Qed.

(** The identifier that the server gives the request, and its answer to what a route did. *)
Definition rid (w : Wd) : string := request_id (dget "x-request-id" (lower_keys (ac_headers c))) (fresh w).
Definition stamped (i : string) (r : Reply) : Reply :=
  {| rp_status := rp_status r; rp_body := rp_body r; rp_headers := dset X_REQUEST_ID_HEADER i (rp_headers r) |}.
Definition replied (i : string) (r : result Reply) : Reply :=
  match r with
  | Ok rep => stamped i rep
  | Raise (HTTPException _ _ _ as e) => stamped i (error_reply e)
  | Raise (PyException _ _ as e) => error_reply e
  end.

Lemma send_call kw path call s w0 :
  call_headers kw → unquote decode (kw_url kw) = path →
  route_of (incoming fw (client_request c kw)) (query_fields (kw_params kw)) path = Call call →
  n_send (client_request c kw) (s, w0) =
  let '(r, y) := route svc config decode unix_us send call s.2 in
  (Return (respond (replied (rid (s, w0)) r)), ((s.1, y), w0)).
Proof using Hc.
  intros Hkw Hp Hr. cbn [n_send net server_net client_request hr_url]. rewrite strip_prefix_app, Hp.
  unfold answer, handle_request. change (hr_params _) with (kw_params kw). rewrite Hr, serve_step. cbn [fst snd].
  rewrite key_accepted by done. unfold header. rewrite header_sent by done. fold (rid (s, w0)).
  unfold in_context. cbn [fst snd]. by destruct (route _ _ _ _ _ call s.2) as [[rep|[]] y].
Qed.

(** ** Answers *)

Lemma identified w r : rp_headers r = [] → extract_request_id (rs_headers (respond (stamped (rid w) r))) = Some (rid w).
Proof using Hc.
  intros Hh. cbn [respond rs_headers stamped rp_headers]. rewrite Hh. cbn [dset fmap list_fmap prod_map].
  change (lower X_REQUEST_ID_HEADER) with "x-request-id". unfold extract_request_id.
  change (lower "X-Request-ID") with "x-request-id". destruct (cn_fresh Hc w) as [Ht Hs]. 
  pose proof (request_id_truthy (dget "x-request-id" (lower_keys (ac_headers c))) _ Ht) as Hi.
  pose proof (request_id_stripped (dget "x-request-id" (lower_keys (ac_headers c))) _ Hs) as Hst. fold (rid w) in Hi, Hst.
  cbn [dget]. rewrite !decide_True by done. cbn [truthy_opt id snd]. by rewrite Hi, Hst, Hi.
Qed.

Section answers.
Context {T : Type} (success : Z) (parse : HttpResponse → outcome (option T)) (errors : list Z).
Context (Hok : success ∈ http_statuses) (Hlt : (success < 300)%Z).

(** A value of the call. *)
Lemma answer_value r v : rs_status r = success → parse r = Return v →
  build_response (parse_response c success parse errors) r =
  Return {| ar_status_code := success; ar_content := rs_content r; ar_headers := rs_headers r; ar_parsed := ParsedValue <$> v |}.
Proof using Hok.
  intros Hs Hv. unfold build_response, http_status_enum, parse_response. rewrite Hs, (bool_decide_eq_true_2 _ Hok).
  cbn [mbind outcome_bind]. by rewrite Z.eqb_refl, Hv.
Qed.

(** An [HTTPException] of the service: an answer with its status, documented or not. *)
Lemma answer_error w status code message : (300 ≤ status)%Z → status ∈ http_statuses →
  ∃ a, build_response (parse_response c success parse errors) (respond (stamped (rid w) (error_reply (HTTPException status code message))))
       = Return a ∧ ar_status_code a = status ∧ extract_request_id (ar_headers a) = Some (rid w).
Proof using Hc Hlt wire.
  intros Hge Hin. rewrite error_reply_shape. set (e := PDict _). set (r := respond _).
  assert (rs_status r = status) as Hs by done. unfold build_response, http_status_enum, parse_response.
  rewrite Hs, (bool_decide_eq_true_2 _ Hin). cbn [mbind outcome_bind]. rewrite (proj2 (Z.eqb_neq _ _)), (cn_status Hc) by lia.
  assert (extract_request_id (rs_headers r) = Some (rid w)) as Hi by by apply identified.
  case_bool_decide; [|by eexists]. unfold parse_json. rewrite (json_bytes_read e r); [|subst e|done].
  - by eexists.
  - rewrite json_plain_dict. split; [by apply (bool_decide_unpack _)|]. by repeat constructor.
Qed.

(** Any other exception: the plain text of the framework, which the client cannot parse. *)
Lemma answer_crash cls msg : 500%Z ∈ errors →
  ∃ t, build_response (parse_response c success parse errors) (respond (error_reply (PyException cls msg)))
       = Throw (PyError (PyException ValueError t)).
Proof using Hlt wire.
  intros Hin. cbn [error_reply]. unfold build_response, http_status_enum, parse_response.
  cbn [respond rs_status rp_status]. rewrite (proj2 (Z.eqb_neq 500 success)) by lia.
  change (bool_decide (500%Z ∈ http_statuses)) with true. cbn [mbind outcome_bind].
  rewrite (bool_decide_eq_true_2 _ Hin). unfold parse_json, response_json. cbn [respond rs_content rp_body body_bytes].
  rewrite decode_utf8. change (loads "Internal Server Error") with (@None json). by eexists.
Qed.
End answers.

(** ** Methods *)

(** What the client makes of the outcome of a method of the service: a value that can be
    shown arrives as [conv] has it, an [HTTPException] with an error status as a
    [SandboxApiException] with that status and the identifier of the request, anything
    else as an [InvalidArgumentException]. *)
Definition conveys {A B} (good : A → Prop) (conv : A → B) (w : Wd) (r : result A) (o : outcome B) : Prop :=
  match r with
  | Ok a => good a → o = Return (conv a)
  | Raise (HTTPException status _ _) => (300 ≤ status)%Z → status ∈ http_statuses →
      ∃ x, o = Throw (SdkBase.Sandbox x) ∧ se_class x = SandboxApiException ∧ se_status_code x = Some status ∧
           se_request_id x = Some (rid w)
  | Raise (PyException _ _) => ∃ x, o = Throw (SdkBase.Sandbox x) ∧ se_class x = InvalidArgumentException
  end.

Definition implements {A B} (good : A → Prop) (conv : A → B) (m : M St A) (n : Sdk Wd B) : Prop :=
  ∀ s w0, ∃ o, n (s, w0) = (o, ((s.1, (m s.2).2), w0)) ∧ conveys good conv (s, w0) (m s.2).1 o.

Lemma implements_call {A T B} (m : M St A) (body_of : A → Body) success (parse : HttpResponse → outcome (option T)) errors
    (good : A → Prop) (conv : A → B) (fin : ApiResponse T → outcome B) call kw path (n : Sdk Wd B) :
  call_headers kw → unquote decode (kw_url kw) = path →
  route_of (incoming fw (client_request c kw)) (query_fields (kw_params kw)) path = Call call →
  (∀ y, route svc config decode unix_us send call y = (a ← m; mret (reply success (body_of a))) y) →
  success ∈ http_statuses → (success < 300)%Z → 500%Z ∈ errors →
  (∀ a r, good a → rs_content r = body_bytes (body_of a) → ∃ v, parse r = Return v ∧
     ∀ x, ar_status_code x = success → ar_parsed x = ParsedValue <$> v → fin x = Return (conv a)) →
  (∀ x, (300 ≤ ar_status_code x)%Z → ∃ e, fin x = Throw (SdkBase.Sandbox e) ∧ se_class e = SandboxApiException ∧
     se_status_code e = Some (ar_status_code x) ∧ se_request_id e = extract_request_id (ar_headers x)) →
  (∀ w, n w = converting (x ← detailed c kw (λ c, parse_response c success parse errors); liftO (fin x)) w) →
  implements good conv m n.
Proof using Hc wire.
  intros Hkw Hp Hroute Hm Hok Hlt H500 Hgood Hfin Hn s w0. rewrite Hn. unfold converting, sdk_try, detailed.
  unfold mbind at 1 2, Sdk_bind at 1 2. rewrite (send_call kw path call) by done. rewrite Hm. unfold mbind, M_bind, mret, M_ret.
  destruct (m s.2) as [[a|[status code message|cls msg]] y]; cbn [fst snd replied conveys].
  - set (r := respond _). unfold liftO. destruct (build_response _ r) as [x|e] eqn:Hb.
    + exists (match fin x with Return b => Return b | Throw e => Throw (SdkBase.Sandbox (to_sandbox_exception e)) end).
      split; [by destruct (fin x)|]. intros Hg. destruct (Hgood a r Hg eq_refl) as (v&Hv&Hconv).
      rewrite (answer_value success parse errors Hok r v eq_refl Hv) in Hb. injection Hb as <-. by rewrite Hconv.
    + eexists. split; [done|]. intros Hg. destruct (Hgood a r Hg eq_refl) as (v&Hv&_).
      by rewrite (answer_value success parse errors Hok r v eq_refl Hv) in Hb.
  - set (r := respond _). unfold liftO. destruct (build_response _ r) as [x|e] eqn:Hb.
    + exists (match fin x with Return b => Return b | Throw e => Throw (SdkBase.Sandbox (to_sandbox_exception e)) end).
      split; [by destruct (fin x)|]. intros Hge Hin.
      destruct (answer_error success parse errors Hlt (s, w0) status code message Hge Hin) as (x'&Hx&Hst&Hid).
      pose proof (eq_trans (eq_sym Hb) Hx) as [= <-]. destruct (Hfin x) as (e&->&Hcl&Hs&Hr); [by rewrite Hst|].
      exists e. split_and!; [done|done|by rewrite Hs, Hst|by rewrite Hr].
    + eexists. split; [done|]. intros Hge Hin.
      destruct (answer_error success parse errors Hlt (s, w0) status code message Hge Hin) as (x'&Hx&_).
      by pose proof (eq_trans (eq_sym Hb) Hx).
  - destruct (answer_crash success parse errors Hlt cls msg H500) as [t Ht]. unfold liftO. rewrite Ht.
    eexists. split; [done|]. by eexists.
Qed.

(** *** Calls without a value *)

Lemma implements_unit (m : M St unit) success errors call kw path op (n : Sdk Wd unit) :
  call_headers kw → unquote decode (kw_url kw) = path →
  route_of (incoming fw (client_request c kw)) (query_fields (kw_params kw)) path = Call call →
  (∀ y, route svc config decode unix_us send call y = (m;; mret (reply success NoBody)) y) →
  success ∈ http_statuses → (success < 300)%Z → 500%Z ∈ errors →
  n = converting (x ← detailed c kw (λ c, parse_response c success no_body errors); liftO (handle_api_error (T:=unit) x op)) →
  implements (λ _, True) id m n.
Proof using Hc wire.
  intros Hkw Hp Hr Hm Hok Hlt H500 ->.
  eapply (implements_call m (λ _, NoBody) success no_body errors _ _ (λ x, handle_api_error x op)); try done.
  - intros [] r _ _. exists None. split; [done|]. intros x Hx _. by rewrite (proj2 (handle_api_error_Return x op)) by lia.
  - intros x Hx. by apply handle_api_error_Throw.
Qed.

Lemma item_path id suffix : plain_id id → url_quote slash_safe suffix = suffix →
  unquote decode (sandbox_url id suffix) = "/sandboxes/" +:+ id +:+ suffix.
Proof using Hc. intros (_&Hs&_) Hq. unfold sandbox_url. by apply (unquote_path decode (cn_decode Hc)). Qed.

Lemma kill_implements sid : plain_id sid → implements (λ _, True) id (sv_delete_sandbox svc sid) (SdkAdapter.kill_sandbox c sid).
Proof using Hc wire.
  intros Hid. eapply (implements_unit _ _ _ _ (delete_sandbox_kwargs sid)); [by left|by apply item_path|etransitivity; [by apply route_item|reflexivity]|..|reflexivity];
    try done; by apply (bool_decide_unpack _).
Qed.

Lemma pause_implements sid : plain_id sid → implements (λ _, True) id (sv_pause_sandbox svc sid) (SdkAdapter.pause_sandbox c sid).
Proof using Hc wire.
  intros Hid. eapply (implements_unit _ _ _ _ (pause_kwargs sid)); [by left|by apply item_path|etransitivity; [by apply (route_action _ _ sid "pause")|reflexivity]|..|reflexivity];
    try done; by apply (bool_decide_unpack _).
Qed.

Lemma resume_implements sid : plain_id sid → implements (λ _, True) id (sv_resume_sandbox svc sid) (SdkAdapter.resume_sandbox c sid).
Proof using Hc wire.
  intros Hid. eapply (implements_unit _ _ _ _ (resume_kwargs sid)); [by left|by apply item_path|etransitivity; [by apply (route_action _ _ sid "resume")|reflexivity]|..|reflexivity];
    try done; by apply (bool_decide_unpack _).
Qed.

(** *** Calls with a value *)

Lemma implements_value {A T B} (m : M St A) (body_of : A → Body) (value_of : A → pyval) success errors
    (from_dict : pyval → result T) (good : A → Prop) (conv : A → B) (f : T → outcome B) call kw path op op' (n : Sdk Wd B) :
  call_headers kw → unquote decode (kw_url kw) = path →
  route_of (incoming fw (client_request c kw)) (query_fields (kw_params kw)) path = Call call →
  (∀ y, route svc config decode unix_us send call y = (a ← m; mret (reply success (body_of a))) y) →
  success ∈ http_statuses → (success < 300)%Z → 500%Z ∈ errors →
  (∀ a, body_bytes (body_of a) = json_bytes (value_of a)) →
  (∀ a, good a → json_plain (value_of a) ∧ ∃ t, from_dict (value_of a) = Ok t ∧ f t = Return (conv a)) →
  (∀ w, n w = converting (x ← detailed c kw (λ c, parse_response c success (body from_dict) errors);
                          liftO (checked x op op' ≫= f)) w) →
  implements good conv m n.
Proof using Hc wire.
  intros Hkw Hp Hr Hm Hok Hlt H500 Hbytes Hgood Hn.
  eapply (implements_call m body_of success (body from_dict) errors _ _ (λ x, checked x op op' ≫= f)); try done.
  - intros a r Hg Hb. destruct (Hgood a Hg) as (Hj&t&Ht&Hf). exists (Some t). split.
    + unfold body, parse_json. rewrite (json_bytes_read (value_of a)) by (done || congruence). cbn. by rewrite Ht.
    + intros x Hx Hpx. assert (checked x op op' = Return t) as Hck; [|by rewrite Hck]. apply checked_value. by rewrite Hx.
  - intros x Hx. unfold checked. destruct (handle_api_error_Throw x op Hx) as (e&He&Hrest). rewrite He. cbn. eauto.
Qed.

(** The end of a method: check the answer, then convert it. *)
Lemma then_value {T B} (d : Sdk Wd (ApiResponse T)) op op' (f : T → outcome B) w :
  converting (x ← d; p ← liftO (checked x op op'); liftO (f p)) w = converting (x ← d; liftO (checked x op op' ≫= f)) w.
Proof.
  unfold converting, sdk_try, mbind, Sdk_bind, liftO. destruct (d w) as [[x|e] w']; [|done]. by destruct (checked x op op').
Qed.

(** Values that arrive: dictionaries have every key once, and times are in UTC. *)
Definition utc_time (t : datetime) : Prop := ∃ us, t = utc us ∧ dt_in_range us = true.
Definition shown_dict (o : option (dict string)) : Prop := ∀ d, o = Some d → dict_wf d.

Lemma str_dict_plain d : dict_wf d → json_plain (of_str_dict d).
Proof.
  intros Hd. apply json_plain_dict. split.
  - unfold dict_wf, dkeys in *. rewrite <-list_fmap_compose. by rewrite (list_fmap_ext _ fst) by (by intros ? [] _).
  - apply Forall_fmap, Forall_true. by intros [].
Qed.

Definition shown_endpoint (e : Endpoint) : SandboxEndpoint := {| se_endpoint := ep_endpoint e; se_headers := default [] (ep_headers e) |}.

Lemma endpoint_value_reads e : shown_dict (ep_headers e) →
  json_plain (endpoint_value e) ∧ ∃ t, endpoint_from_dict (endpoint_value e) = Ok t ∧ to_sandbox_endpoint t = Return (shown_endpoint e).
Proof using pyd.
  intros Hh. destruct e as [ep [h|]]; cbn [ep_headers] in Hh.
  - specialize (Hh h eq_refl). split.
    + apply json_plain_dict. split; [by apply (bool_decide_unpack _)|]. constructor; [done|]. constructor; [|done]. by apply str_dict_plain.
    + eexists. split; [reflexivity|]. unfold to_sandbox_endpoint, field_of. cbn [aep_endpoint aep_headers default].
      rewrite pf_str_str. cbn [mbind outcome_bind].
      change (read_str_dict _) with (read_str_dict (of_str_dict h)). by rewrite read_str_dict_of.
  - split; [apply json_plain_dict; split; [by apply (bool_decide_unpack _)|by repeat constructor]|].
    eexists. split; [reflexivity|]. unfold to_sandbox_endpoint, field_of. cbn [aep_endpoint aep_headers default].
    rewrite pf_str_str. done.
Qed.

(** The port and the proxy parameter are read back. *)
Class ParamLaws : Prop := {
  qf_int_str : ∀ n, (0 ≤ n < 2 ^ 4000)%Z → qf_int (str_of_Z n) = Some n;
  qf_bool_true : qf_bool "true" = Some true;
  qf_bool_false : qf_bool "false" = Some false }.
Context (params : ParamLaws).

Lemma port_quoted port : (0 ≤ port)%Z →
  quote_all (str_of_Z port) = str_of_Z port ∧ url_quote slash_safe (str_of_Z port) = str_of_Z port ∧ has_char "/" (str_of_Z port) = false.
Proof.
  intros Hp. destruct (str_of_Z_digits port Hp) as [Hd _].
  split_and!; [apply url_quote_digits; [by left|done]|apply url_quote_digits; [by right|done]|].
  induction (str_of_Z port) as [|ch s IH]; [done|]. cbn in Hd. apply andb_true_iff in Hd as [Hc1 Hd]. cbn. rewrite (IH Hd).
  by digit_split Hc1.
Qed.

(** The endpoint that the server shows: its own address when it is to be the proxy. *)
Definition proxied (sid : string) (port : Z) (use_server_proxy : bool) (e : Endpoint) : Endpoint :=
  if use_server_proxy then
    {| ep_endpoint := remove_all "http://" (remove_all "https://" (rstrip_by is_slash (fw_base_url fw)))
                      +:+ "/sandboxes/" +:+ sid +:+ "/proxy/" +:+ str_of_Z port;
       ep_headers := ep_headers e |}
  else e.

Lemma endpoint_implements sid port use_server_proxy : plain_id sid → (0 ≤ port < 2 ^ 4000)%Z →
  implements (λ e, shown_dict (ep_headers e)) (λ e, shown_endpoint (proxied sid port use_server_proxy e))
    (sv_get_endpoint svc sid port false) (SdkAdapter.get_sandbox_endpoint c sid port use_server_proxy).
Proof using Hc wire pyd params.
  intros Hid Hport. destruct (port_quoted port (proj1 Hport)) as (Hq1&Hq2&Hq3).
  eapply (implements_value _ (λ e, EndpointBody (proxied sid port use_server_proxy e)) (λ e, endpoint_value (proxied sid port use_server_proxy e))
            200 [401; 403; 404; 500]%Z endpoint_from_dict _ _ to_sandbox_endpoint _ (endpoint_kwargs sid port (Some (PBool use_server_proxy)))).
  - by left.
  - cbn [endpoint_kwargs kw_url]. rewrite Hq1. apply item_path; [done|]. by rewrite url_quote_app, Hq2.
  - etransitivity; [apply (route_sub _ _ sid "endpoints" (str_of_Z port)); try done; apply truthy_str_of_Z|].
    unfold sub_routes. cbn. rewrite qf_int_str by done. change (str_eqb "endpoints" "endpoints") with true.
    change (via _ "GET") with true. cbn [andb mbind option_bind]. unfold query_param.
    destruct use_server_proxy.
    + change (query_value "use_server_proxy" _) with (Some "true"). cbn match. rewrite qf_bool_true. reflexivity.
    + change (query_value "use_server_proxy" _) with (Some "false"). cbn match. rewrite qf_bool_false. reflexivity.
  - intros y. cbn [route]. unfold Lifecycle.get_sandbox_endpoint, mbind, M_bind. destruct (sv_get_endpoint svc sid port false y) as [[e|e] y']; [|done].
    by destruct use_server_proxy.
  - by apply (bool_decide_unpack _).
  - done.
  - by apply (bool_decide_unpack _).
  - done.
  - intros e He. apply endpoint_value_reads. by destruct use_server_proxy.
  - intros w. apply then_value.
Qed.

Lemma renew_implements sid us t : plain_id sid → dt_in_range us = true → t = utc us ∨ t = Naive us →
  implements (λ r, utc_time (renewed_expires_at r)) (λ r, {| srr_expires_at := renewed_expires_at r |})
    (sv_renew_expiration svc sid {| renew_expires_at := utc us |}) (SdkAdapter.renew_sandbox_expiration c sid t).
Proof using Hc wire.
  intros Hid Hus Ht. assert (to_api_renew_request t = {| arq_expires_at := utc us |}) as Hreq by by destruct Ht as [-> | ->].
  unfold SdkAdapter.renew_sandbox_expiration. rewrite Hreq.
  eapply (implements_value _ RenewedBody renewed_value 200 [400; 401; 403; 404; 409; 500]%Z renew_response_from_dict _ _
            (λ r, Return (to_sandbox_renew_response r)) _ (renew_kwargs sid {| arq_expires_at := utc us |})).
  - by right.
  - by apply item_path.
  - etransitivity; [by apply (route_action _ _ sid "renew-expiration")|]. unfold action_routes.
    change (via _ "POST") with true. cbn [andb]. change (str_eqb "renew-expiration" "pause") with false.
    change (str_eqb "renew-expiration" "resume") with false. change (str_eqb "renew-expiration" "renew-expiration") with true. cbn [andb].
    assert (json_of (incoming fw (client_request c (renew_kwargs sid {| arq_expires_at := utc us |}))) read_renew_request
            = Some {| renew_expires_at := utc us |}) as ->; [|reflexivity].
    change (json_of _ _) with (t ← pf_datetime (PStr (isoformat (utc us))); Some {| renew_expires_at := t |}). by rewrite pf_datetime_iso.
  - done.
  - by apply (bool_decide_unpack _).
  - done.
  - by apply (bool_decide_unpack _).
  - done.
  - intros [t'] (us'&Ht'&Hr). cbn in Ht'. subst t'. split; [apply json_plain_dict; split; [by apply (bool_decide_unpack _)|by repeat constructor]|].
    exists {| arr_expires_at := utc us' |}. split; [|reflexivity].
    change (renew_response_from_dict _) with (t ← isoparse (PStr (dt_json (utc us'))); Ok {| arr_expires_at := t |}). by rewrite isoparse_dt.
  - intros w. apply (then_value _ _ _ (λ r, Return (to_sandbox_renew_response r))).
Qed.

(** *** Sandboxes *)

Definition shown_status (s : SandboxStatus) : SdkModels.SandboxStatus := {|
  st_state := state s; st_reason := reason s; st_message := status_message s; st_last_transition_at := last_transition_at s |}.
Definition shown_image (i : ImageSpec) : SandboxImageSpec := {|
  is_image := uri i; is_auth := (λ a, {| ia_username := username a; ia_password := password a |}) <$> auth i |}.
Definition shown_sandbox (s : Sandbox) : SandboxInfo := {|
  si_id := sb_id s; si_status := shown_status (sb_status s); si_entrypoint := sb_entrypoint s; si_expires_at := sb_expires_at s;
  si_created_at := sb_created_at s; si_image := Some (shown_image (sb_image s)); si_metadata := Some (default [] (sb_metadata s)) |}.

(** What the validators of the client accept of an answer. *)
Definition utc_times (o : option datetime) : Prop := ∀ t, o = Some t → utc_time t.
Definition presentable_image (i : ImageSpec) : Prop :=
  not_blank (uri i) = true ∧ ∀ a, auth i = Some a → not_blank (username a) = true ∧ not_blank (password a) = true.
Record presentable (s : Sandbox) : Prop := {
  pr_image : presentable_image (sb_image s); pr_metadata : shown_dict (sb_metadata s); pr_expires : utc_times (sb_expires_at s);
  pr_created : utc_time (sb_created_at s); pr_transition : utc_times (last_transition_at (sb_status s)) }.

Lemma isoparse_opt o : utc_times o → unless_null isoparse (Some (or_null time_value o)) = Ok o.
Proof using wire.
  intros Ho. destruct o as [t|]; [|done]. destruct (Ho t eq_refl) as (us&->&Hr). 
  change (unless_null _ _) with (t ← isoparse (PStr (dt_json (utc us))); Ok (Some t)). by rewrite isoparse_dt.
Qed.

Lemma status_reads s : utc_times (last_transition_at s) →
  ∃ a, sandbox_status_from_dict (status_value s) = Ok a ∧ convert_sandbox_status (Some a) = Return (shown_status s).
Proof using wire pyd.
  intros Ht. eexists. split.
  - transitivity (t ← unless_null isoparse (Some (or_null time_value (last_transition_at s)));
      Ok {| ass_state := PStr (state s); ass_reason := Some (or_null PStr (reason s)); ass_message := Some (or_null PStr (status_message s));
            ass_last_transition_at := t; ass_additional_properties := [] |}); [reflexivity|]. by rewrite isoparse_opt.
  - unfold convert_sandbox_status, field_of. cbn [ass_state ass_reason ass_message ass_last_transition_at]. rewrite pf_str_str.
    cbn [mbind outcome_bind]. unfold shown_status. by destruct (reason s), (status_message s).
Qed.

Lemma image_reads i : presentable_image i →
  ∃ a, image_spec_from_dict (image_spec_value i) = Ok a ∧ to_image_spec a = Return (shown_image i).
Proof using pyd.
  intros [Hu Ha]. destruct i as [u [[n pw]|]]; cbn in Hu.
  - destruct (Ha _ eq_refl) as [Hn Hpw]. cbn in Hn, Hpw.
    exists {| ais_uri := PStr u; ais_auth := Some {| aia_username := Some (PStr n); aia_password := Some (PStr pw) |} |}. split; [reflexivity|].
    unfold to_image_spec. cbn [ais_auth ais_uri mbind outcome_bind id].
    assert (sandbox_image_auth n pw = Return {| ia_username := n; ia_password := pw |}) as ->
      by (apply validated_Return; by repeat constructor).
    cbn [mbind outcome_bind]. unfold field_of. rewrite pf_str_str. by apply validated_Return; repeat constructor.
  - exists {| ais_uri := PStr u; ais_auth := None |}. split; [reflexivity|]. unfold to_image_spec. cbn [ais_auth ais_uri mbind outcome_bind].
    unfold field_of. rewrite pf_str_str. by apply validated_Return; repeat constructor.
Qed.

Lemma json_opt {A} (f : A → pyval) o : (∀ a, o = Some a → json_plain (f a)) → json_plain (or_null f o).
Proof. destruct o; cbn [or_null]; [auto|done]. Qed.

Lemma strings_plain l : json_plain (of_strings l).
Proof. apply json_plain_list, Forall_fmap, Forall_true. done. Qed.

(** A dictionary with the fields of a model. *)
Ltac model_plain :=
  apply json_plain_dict; split; [by apply (bool_decide_unpack _)|];
  repeat (first [apply Forall_nil_2 | apply Forall_cons_2]); cbn [snd];
  try done; try apply strings_plain; try (apply json_opt; intros; first [done | by apply str_dict_plain; auto]).

Lemma status_plain s : json_plain (status_value s).
Proof. model_plain. Qed.
Lemma image_plain i : json_plain (image_spec_value i).
Proof. model_plain. apply json_opt. intros a _. model_plain. Qed.

Lemma sandbox_plain s : shown_dict (sb_metadata s) → json_plain (sandbox_value s).
Proof. intros Hm. model_plain; [apply image_plain|apply status_plain]. Qed.

Lemma sandbox_reads s : presentable s →
  json_plain (sandbox_value s) ∧
  ∃ a, sandbox_from_dict (sandbox_value s) = Ok a ∧ to_sandbox_info a = Return (shown_sandbox s).
Proof using wire pyd.
  intros [Hi Hm He (us&Hus&Hr) Ht]. split; [by apply sandbox_plain|].
  destruct (image_reads _ Hi) as (ai&Hai&Hsi). destruct (status_reads _ Ht) as (as_&Has&Hss).
  assert (∃ x, parse_expires_at (Some (or_null time_value (sb_expires_at s))) = Ok x ∧ to_expires_at x = Return (sb_expires_at s)) as (x&Hx&Hx').
  { destruct (sb_expires_at s) as [t|]; [|by eexists]. destruct (He t eq_refl) as (u&->&Hu). exists (TimeAt (utc u)).
    cbn [or_null]. unfold time_value, parse_expires_at. by rewrite isoparse_dt. }
  eexists. split.
  - transitivity (image ← image_spec_from_dict (image_spec_value (sb_image s));
      status ← sandbox_status_from_dict (status_value (sb_status s));
      created_at ← isoparse (time_value (sb_created_at s));
      metadata ← unless_null props_from_dict (Some (or_null of_str_dict (sb_metadata s)));
      expires_at ← parse_expires_at (Some (or_null time_value (sb_expires_at s)));
      Ok {| asb_id := PStr (sb_id s); asb_image := image; asb_status := status; asb_entrypoint := of_strings (sb_entrypoint s);
            asb_created_at := created_at; asb_metadata := metadata; asb_expires_at := expires_at;
            asb_additional_properties := [("lastActivityAt", or_null time_value (sb_last_activity_at s))] |}); [reflexivity|].
    rewrite Hai, Has, Hx, Hus. unfold time_value. rewrite isoparse_dt by done. cbn [mbind result_bind].
    assert (unless_null props_from_dict (Some (or_null of_str_dict (sb_metadata s)))
            = Ok ((λ d, prod_map id PStr <$> d) <$> sb_metadata s)) as ->; [by destruct (sb_metadata s)|]. reflexivity.
  - unfold to_sandbox_info. cbn [asb_image asb_status asb_id asb_entrypoint asb_expires_at asb_metadata asb_created_at].
    rewrite Hsi, Hss. cbn [mbind outcome_bind]. unfold field_of. rewrite pf_str_str, read_strings_of, Hx'. cbn [mbind outcome_bind].
    assert (read_str_dict (PDict (default [] ((λ d, prod_map id PStr <$> d) <$> sb_metadata s))) = Some (default [] (sb_metadata s))) as ->.
    { destruct (sb_metadata s) as [d|]; [apply (read_str_dict_of d)|done]. }
    cbn [mbind outcome_bind]. unfold shown_sandbox. by rewrite Hus.
Qed.

Lemma info_implements sid : plain_id sid →
  implements presentable shown_sandbox (sv_get_sandbox svc sid) (SdkAdapter.get_sandbox_info c sid).
Proof using Hc wire pyd.
  intros Hid.
  eapply (implements_value _ SandboxBody sandbox_value 200 [401; 403; 404; 500]%Z sandbox_from_dict _ _ to_sandbox_info _ (get_sandbox_kwargs sid)).
  - by left.
  - by apply item_path.
  - etransitivity; [by apply route_item|reflexivity].
  - done.
  - by apply (bool_decide_unpack _).
  - done.
  - by apply (bool_decide_unpack _).
  - done.
  - apply sandbox_reads.
  - intros w. apply then_value.
Qed.

(** *** Creation *)

Definition presentable_created (r : CreateSandboxResponse) : Prop :=
  shown_dict (resp_metadata r) ∧ utc_times (resp_expires_at r) ∧ utc_time (resp_created_at r) ∧
  utc_times (last_transition_at (resp_status r)).

Lemma created_reads r : presentable_created r →
  json_plain (created_value r) ∧ ∃ a, create_response_from_dict (created_value r) = Ok a ∧ acs_id a = PStr (resp_id r).
Proof using wire pyd.
  intros (Hm&He&(us&Hus&Hr)&Ht). split; [model_plain; apply status_plain|].
  destruct (status_reads _ Ht) as (as_&Has&_).
  assert (∃ x, parse_expires_at (Some (or_null time_value (resp_expires_at r))) = Ok x) as (x&Hx).
  { destruct (resp_expires_at r) as [t|]; [|by eexists]. destruct (He t eq_refl) as (u&->&Hu).
    cbn [or_null]. unfold time_value, parse_expires_at. rewrite isoparse_dt by done. by eexists. }
  eexists. split.
  - transitivity (status ← sandbox_status_from_dict (status_value (resp_status r));
      created_at ← isoparse (time_value (resp_created_at r));
      metadata ← unless_null props_from_dict (Some (or_null of_str_dict (resp_metadata r)));
      expires_at ← parse_expires_at (Some (or_null time_value (resp_expires_at r)));
      Ok {| acs_id := PStr (resp_id r); acs_status := status; acs_created_at := created_at;
            acs_entrypoint := of_strings (resp_entrypoint r); acs_metadata := metadata; acs_expires_at := expires_at;
            acs_additional_properties := [] |}); [reflexivity|].
    rewrite Has, Hx, Hus. unfold time_value. rewrite isoparse_dt by done. cbn [mbind result_bind].
    assert (unless_null props_from_dict (Some (or_null of_str_dict (resp_metadata r)))
            = Ok ((λ d, prod_map id PStr <$> d) <$> resp_metadata r)) as ->; [by destruct (resp_metadata r)|]. reflexivity.
  - done.
Qed.

Lemma create_implements spec entrypoint env metadata timeout seconds resource policy extensions volumes :
  sendable env metadata timeout seconds resource policy extensions volumes →
  let q := requested spec entrypoint env metadata seconds resource policy extensions volumes in
  schema_ok q = true →
  implements presentable_created (λ r, {| scr_id := resp_id r |}) (sv_create_sandbox svc q)
    (SdkAdapter.create_sandbox c spec entrypoint env metadata timeout resource policy extensions volumes).
Proof using Hc wire pyd.
  intros Hs q Hq. destruct (create_request_reads_back spec entrypoint _ _ _ _ _ _ _ _ Hs) as (req&Hreq&Hread). fold q in Hread.
  rewrite Hq in Hread. unfold SdkAdapter.create_sandbox. rewrite Hreq.
  eapply (implements_value _ CreatedBody created_value 202 [400; 401; 409; 500]%Z create_response_from_dict _ _
            (λ r, Return (to_sandbox_create_response r)) _ (post_sandboxes_kwargs req)).
  - by right.
  - reflexivity.
  - unfold route_of. change (split_on "/" "/sandboxes") with [""; "sandboxes"]. cbn [truthy orb negb].
    change (str_eqb "sandboxes" "sandboxes") with true. cbn [negb]. unfold collection_routes. change (via _ "POST") with true. cbn match.
    change (query_param "wait" qf_bool true _) with (Some true). cbn [mbind option_bind].
    change (json_of _ read_create_request) with (read_create_request (create_request_to_dict req)). rewrite Hread. reflexivity.
  - done.
  - by apply (bool_decide_unpack _).
  - done.
  - by apply (bool_decide_unpack _).
  - done.
  - intros r Hr. destruct (created_reads r Hr) as (Hj&a&Ha&Hid). split; [done|]. exists a. split; [done|].
    unfold to_sandbox_create_response. by rewrite Hid.
  - intros w. apply (then_value _ _ _ (λ r, Return (to_sandbox_create_response r))).
Qed.

(** *** Listing *)

Definition one_field (k : string) (o : option string) : list (string * string) :=
  match o with Some t => [(k, t)] | None => [] end.

(** The query of a filter: the states, then the other fields. *)
Definition filter_query (f : SdkModels.SandboxFilter) : list (string * string) :=
  ((λ s, ("state", s)) <$> default [] (sf_states f)) ++ one_field "metadata" (metadata_param (sf_metadata f))
  ++ one_field "page" (str_of_Z <$> sf_page f) ++ one_field "pageSize" (str_of_Z <$> sf_page_size f).

Lemma filter_query_sent f :
  query_fields (kw_params (get_sandboxes_kwargs (states_param (sf_states f)) (PStr <$> metadata_param (sf_metadata f))
                             (PInt <$> sf_page f) (PInt <$> sf_page_size f))) = filter_query f.
Proof.
  unfold filter_query. assert (∀ l, query_fields [("state", of_strings l)] = (λ s, ("state", s)) <$> l) as Hl.
  { intros l. unfold query_fields. cbn [fmap list_fmap concat snd]. rewrite app_nil_r. cbn [of_strings fst].
    rewrite <-list_fmap_compose. done. }
  destruct f as [st md ps p]. cbn [sf_states sf_metadata sf_page sf_page_size get_sandboxes_kwargs kw_params].
  assert (∀ a b, query_fields (a ++ b) = query_fields a ++ query_fields b) as Happ.
  { intros a b. unfold query_fields. by rewrite fmap_app, concat_app. }
  transitivity (query_fields (match states_param st with Some v => [("state", v)] | None => [] end
    ++ match metadata_param md with Some m => [("metadata", PStr m)] | None => [] end
    ++ match p with Some n => [("page", PInt n)] | None => [] end ++ match ps with Some n => [("pageSize", PInt n)] | None => [] end)).
  { f_equal. destruct (metadata_param md), p, ps, st as [[|]|]; reflexivity. }
  rewrite !Happ. f_equal; [destruct st as [[|x l]|]; [done|apply Hl|done]|]. by destruct (metadata_param md), p, ps.
Qed.

Lemma query_values_app k a b : query_values k (a ++ b) = query_values k a ++ query_values k b.
Proof. unfold query_values. rewrite List.filter_app. apply fmap_app. Qed.
Lemma query_values_states k l : query_values k ((λ s, ("state", s)) <$> l) = if str_eqb "state" k then l else [].
Proof.
  unfold query_values. destruct (str_eqb "state" k) eqn:E; induction l as [|s l IH]; cbn [fmap list_fmap List.filter fst]; rewrite ?E; cbn; try done.
  by f_equal.
Qed.

Lemma filter_query_values f :
  query_values "state" (filter_query f) = default [] (sf_states f) ∧
  query_value "metadata" (filter_query f) = metadata_param (sf_metadata f) ∧
  query_value "page" (filter_query f) = str_of_Z <$> sf_page f ∧
  query_value "pageSize" (filter_query f) = str_of_Z <$> sf_page_size f.
Proof.
  unfold query_value, filter_query. rewrite !query_values_app, !query_values_states.
  split_and!; destruct (metadata_param (sf_metadata f)), (sf_page f), (sf_page_size f); cbn; rewrite ?app_nil_r; done.
Qed.

(** What the service is asked for. *)
Definition listing (f : SdkModels.SandboxFilter) : ListSandboxesRequest := {|
  list_filter := {| filter_state := sf_states f ≫= unless_empty; filter_metadata := sf_metadata f ≫= unless_empty |};
  list_pagination := Some {| page := default 1%Z (sf_page f); page_size := default 20%Z (sf_page_size f) |} |}.

(** The metadata is of the kind that the server stores, and the page exists. *)
Record listable (f : SdkModels.SandboxFilter) : Prop := {
  ls_metadata : ∀ d, sf_metadata f = Some d → dict_wf d ∧ Forall (λ kv, query_plain kv.1 ∧ query_plain kv.2) d;
  ls_page : (1 ≤ default 1 (sf_page f) < 2 ^ 4000)%Z;
  ls_page_size : (1 ≤ default 20 (sf_page_size f) ≤ 200)%Z }.

Definition shown_pagination (p : PaginationInfo) : SdkModels.PaginationInfo := {|
  pi_page := info_page p; pi_page_size := info_page_size p; pi_total_items := total_items p;
  pi_total_pages := total_pages p; pi_has_next_page := has_next_page p |}.
Definition shown_list (r : ListSandboxesResponse) : PagedSandboxInfos := {|
  psi_sandbox_infos := shown_sandbox <$> items r; psi_pagination := shown_pagination (pagination r) |}.

Definition presentable_pagination (p : PaginationInfo) : Prop :=
  (1 ≤ info_page p < 2 ^ 4000 ∧ 1 ≤ info_page_size p < 2 ^ 4000 ∧ 0 ≤ total_items p < 2 ^ 4000 ∧ 0 ≤ total_pages p < 2 ^ 4000)%Z.
Definition presentable_list (r : ListSandboxesResponse) : Prop :=
  Forall presentable (items r) ∧ presentable_pagination (pagination r).

Lemma pagination_reads p : presentable_pagination p → json_plain (pagination_value p) ∧
  ∃ a, pagination_info_from_dict (pagination_value p) = Ok a ∧ convert_pagination_info (Some a) = Return (shown_pagination p).
Proof using pyd.
  intros (Hp1&Hp2&Hp3&Hp4). split.
  { apply json_plain_dict. split; [by apply (bool_decide_unpack _)|].
    repeat (first [apply Forall_nil_2 | apply Forall_cons_2]); cbn [snd json_plain]; try done; lia. }
  exists {| api_page := PInt (info_page p); api_page_size := PInt (info_page_size p); api_total_items := PInt (total_items p);
            api_total_pages := PInt (total_pages p); api_has_next_page := PBool (has_next_page p); api_page_properties := [] |}.
  split; [reflexivity|]. unfold convert_pagination_info. cbn [api_page api_page_size api_total_items api_total_pages api_has_next_page].
  assert (∀ n k, n = k ∨ (1 ≤ n)%Z → val_or (PInt n) (PInt k) = PInt n) as Hv.
  { intros n k Hn. unfold val_or. destruct (vtruthy (PInt n)) eqn:E; [done|]. cbn in E. apply negb_false_iff, Z.eqb_eq in E. f_equal. lia. }
  rewrite !Hv by lia. assert (val_or (PBool (has_next_page p)) (PBool false) = PBool (has_next_page p)) as -> by by destruct (has_next_page p).
  unfold field_of. by rewrite !pf_int_int, pf_bool_bool.
Qed.

Lemma items_read l : Forall presentable l →
  json_plain (PList (sandbox_value <$> l)) ∧
  ∃ a, mapR sandbox_from_dict (sandbox_value <$> l) = Ok a ∧ mapO to_sandbox_info a = Return (shown_sandbox <$> l).
Proof using wire pyd.
  rewrite json_plain_list, Forall_fmap. induction 1 as [|s l Hs _ (Hj&a&Ha&Hi)]; [split; [done|by exists []]|].
  destruct (sandbox_reads s Hs) as (Hj'&x&Hx&Hx'). split; [by constructor|]. exists (x :: a). rewrite !fmap_cons. cbn [mapR mapO].
  rewrite Hx, Hx'. cbn [mbind result_bind outcome_bind]. by rewrite Ha, Hi.
Qed.

Lemma list_reads r : presentable_list r → json_plain (list_value r) ∧
  ∃ a, list_response_from_dict (list_value r) = Ok a ∧ to_paged_sandbox_infos a = Return (shown_list r).
Proof using wire pyd.
  intros [Hl Hp]. destruct (items_read _ Hl) as (Hj&a&Ha&Hi). destruct (pagination_reads _ Hp) as (Hj'&p&Hpa&Hpi). split.
  { apply json_plain_dict. split; [by apply (bool_decide_unpack _)|].
    apply Forall_cons_2; [exact Hj|]. apply Forall_cons_2; [exact Hj'|done]. }
  exists {| alr_items := a; alr_pagination := p; alr_additional_properties := [] |}. split.
  - transitivity (items ← mapR sandbox_from_dict (sandbox_value <$> items r);
      pagination ← pagination_info_from_dict (pagination_value (pagination r));
      Ok {| alr_items := items; alr_pagination := pagination; alr_additional_properties := [] |}); [reflexivity|].
    by rewrite Ha, Hpa.
  - unfold to_paged_sandbox_infos. cbn [alr_items alr_pagination]. by rewrite Hi, Hpi.
Qed.

Lemma filter_metadata_reads f : listable f →
  parse_metadata decode (metadata_param (sf_metadata f)) = Ok (default [] (sf_metadata f)).
Proof.
  intros Hf. destruct (sf_metadata f) as [d|] eqn:Hd; [|done]. destruct (ls_metadata f Hf d Hd) as [Hwf Hp].
  destruct d as [|kv d]; [done|]. by apply (filter_reads_back decode).
Qed.

Lemma page_param n dflt lo hi :
  (lo ≤ default dflt n < 2 ^ 4000)%Z → (∀ h, hi = Some h → (default dflt n ≤ h)%Z) → (0 ≤ lo)%Z →
  match str_of_Z <$> n with Some t => between lo hi qf_int t | None => Some dflt end = Some (default dflt n).
Proof using params.
  intros Hlo Hhi Hpos. destruct n as [n|]; [|done]. cbn in *. unfold between. rewrite qf_int_str by lia. cbn.
  rewrite (proj2 (Z.leb_le _ _)) by apply Hlo. destruct hi as [h|]; [|done]. by rewrite (proj2 (Z.leb_le _ _)) by by apply Hhi.
Qed.

Lemma list_implements f : listable f →
  implements presentable_list shown_list (sv_list_sandboxes svc (listing f)) (SdkAdapter.list_sandboxes c f).
Proof using Hc wire pyd params.
  intros Hf. destruct (filter_query_values f) as (Qs&Qm&Qp&Qz).
  eapply (implements_value _ ListBody list_value 200 [400; 401; 500]%Z list_response_from_dict _ _ to_paged_sandbox_infos
            (ListSandboxes (sf_states f ≫= unless_empty) (metadata_param (sf_metadata f)) (default 1%Z (sf_page f)) (default 20%Z (sf_page_size f)))
            (get_sandboxes_kwargs (states_param (sf_states f)) (PStr <$> metadata_param (sf_metadata f)) (PInt <$> sf_page f) (PInt <$> sf_page_size f))).
  - by left.
  - reflexivity.
  - rewrite filter_query_sent. unfold route_of. change (split_on "/" "/sandboxes") with [""; "sandboxes"]. cbn [truthy orb negb].
    change (str_eqb "sandboxes" "sandboxes") with true. cbn [negb]. unfold collection_routes. change (via _ "POST") with false.
    change (via _ "GET") with true. cbn match. unfold query_param. rewrite Qs, Qm, Qp, Qz.
    rewrite (page_param (sf_page f) 1 1 None) by (done || apply (ls_page f Hf)).
    cbn [mbind option_bind]. rewrite (page_param (sf_page_size f) 20 1 (Some 200%Z))
      by (done || (intros ? [= <-]; apply (ls_page_size f Hf)) || (pose proof (ls_page_size f Hf); lia)).
    cbn [mbind option_bind call_if]. do 2 f_equal. by destruct (sf_states f) as [[|]|].
  - intros y. cbn [route]. unfold Lifecycle.list_sandboxes. rewrite (filter_metadata_reads f Hf).
    unfold lift, mbind, M_bind. unfold listing. by destruct (sf_metadata f) as [[|]|].
  - by apply (bool_decide_unpack _).
  - done.
  - by apply (bool_decide_unpack _).
  - done.
  - apply list_reads.
  - intros w. apply then_value.
Qed.

End server.

(** ** The version in the path *)

(** The server has no route under [/v1], the path that the client appends to its domain:
    without a proxy in between that removes it, no request of the client is routed. *)
Lemma v1_unrouted `{PydanticFields} `{ParamFields} rq query p : route_of rq query ("/v1/" +:+ p) = Unrouted.
Proof.
  unfold route_of. change ("/v1/" +:+ p) with ("" +:+ String "/" ("v1" +:+ String "/" p)). rewrite !split_on_sep.
  cbn [split_on app]. change (split_on "/" "v1") with ["v1"]. cbn [app]. destruct (split_on "/" p); reflexivity.
Qed.

(** ** The first page *)

(** Pages are counted from one: a list of page zero, the first page that the command line
    client asks for when it looks an identifier up, is refused before it reaches the
    service. *)
Lemma page_zero_invalid `{PydanticFields} `{params : ParamFields} rq f :
  rq_method rq = "GET" → sf_page f = Some 0%Z → qf_int "0" = Some 0%Z → route_of rq (filter_query f) "/sandboxes" = Invalid.
Proof.
  intros Hm Hp Hz. destruct (filter_query_values f) as (_&_&Qp&_). unfold route_of.
  change (split_on "/" "/sandboxes") with [""; "sandboxes"]. cbn [truthy orb negb].
  change (str_eqb "sandboxes" "sandboxes") with true. cbn [negb]. unfold collection_routes, via. rewrite Hm.
  change (str_eqb "GET" "POST") with false. change (str_eqb "GET" "GET") with true. cbn match.
  unfold query_param. rewrite Qp, Hp. cbn [fmap option_fmap option_map]. change (str_of_Z 0) with "0".
  unfold between. by rewrite Hz.
Qed.
