(* ===== verification/SdkDeployment.v ===== *)
(** * A deployment: the Python client, the server and the Docker service

    Concrete instances of what the client and the server are given, and the client over
    the server over the Docker service in a simulated host. *)

From Stdlib Require Import Ascii.
From S2P Require Import Prelude PyString PyDict PyTime Json PyVal K8sHelpers JsonRoundtrip Common Config Auth.
From S2P Require Import DockerHost SimHost DockerExpiry DockerQuery DockerSystem Schema Lifecycle Services.
From S2P Require Import SdkBase SdkModels SdkApi SdkConfig SdkAdapter SdkCommands SdkExecution Wire SdkServer.
Close Scope Z_scope.
Open Scope string_scope.
Open Scope list_scope.

(** ** Instances *)

#[global] Instance sim_params : ParamFields := {|
  qf_int := py_int; qf_bool t := if str_eqb t "true" then Some true else if str_eqb t "false" then Some false else None |}.
#[global] Instance sim_wire : ServerWire := {| dt_json := isoformat; json_bytes v := utf8_encode (dumps v) |}.

#[global] Instance sim_wire_laws : WireLaws.
Proof.
  split.
  - apply utf8_decode_encode.
  - intros us Hus. cbn [isoparse sim_dateutil dt_json sim_wire]. by rewrite fromisoformat_isoformat.
  - intros v r Hv Hr. unfold response_json. rewrite Hr. cbn [decode_strict sim_codecs json_bytes sim_wire].
    rewrite utf8_decode_encode, loads_dumps by done. by rewrite of_to_json.
  - intros us Hus. cbn [pf_datetime sim_pydantic]. by rewrite fromisoformat_isoformat.
Qed.
Lemma sim_param_laws : ParamLaws.
Proof. split; [apply py_int_str|reflexivity..]. Qed.

Definition sim_client : ApiClient := lifecycle_client (W:=SimNet)
  {| cc_api_key := Some "secret"; cc_domain := cc_domain default_config; cc_protocol := cc_protocol default_config;
     cc_request_timeout := cc_request_timeout default_config; cc_debug := cc_debug default_config;
     cc_user_agent := cc_user_agent default_config; cc_headers := cc_headers default_config;
     cc_transport := cc_transport default_config; cc_use_server_proxy := cc_use_server_proxy default_config;
     cc_owns_transport := cc_owns_transport default_config |}.

Definition sim_framework : Framework := {|
  fw_unrouted _ _ := reply 404 (JsonBody (PDict [("detail", PStr "Not Found")]));
  fw_invalid _ := reply 422 (JsonBody (PDict [("detail", PList [])]));
  fw_base_url := "http://localhost:8080/"; fw_scheme := "http"; fw_netloc := "localhost:8080" |}.

Definition sim_decode (l : list N) : string := default EmptyString (utf8_decode l).
Definition sim_fresh (w : Ctx (System Sim) * SimNet) : string := "f00d".

Lemma sim_connected : connected (W0:=SimNet) (St:=System Sim) keyed_config sim_decode sim_fresh sim_client.
Proof.
  split.
  - right. exists "secret". split_and!; [by left|done|vm_compute; reflexivity].
  - done.
  - intros s. unfold sim_decode. by rewrite utf8_decode_encode.
  - done.
Qed.

